(* ===== verification/_CoqProject ===== *)
-Q . S2P
Prelude.v
Float.v
Values.v
Texts.v
Documents.v
Space.v
Validation.v
Flags.v
Commands.v
ExtraArgs.v
Addresses.v
Recipes.v
Composition.v
Conversion.v
Failures.v
Scripts.v
Logs.v
Model.v
States.v
Packing.v
Timing.v
World.v
Samples.v
Occupancy.v
Fleet.v
Exclusive.v
Finish.v
Placement.v
Nights.v
Checks.v
Reserve.v
Queue.v
Pass.v
Runs.v
Advance.v
Leases.v
Clock.v
Sessions.v
Datasets.v
Plan.v
Ending.v
Tenancy.v
Tick.v
Contract.v
Duties.v
Grants.v
Contenders.v
Custody.v
PhasesRefined.v
Vigil.v
Verdicts.v
Measures.v
Adapters.v
Harvest.v
Readings.v
Objectives.v
Judgement.v
Hardware.v
Leaderboard.v
SearchCoverage.v
Rules.v
Managed.v
Drafts.v
Requests.v
Grounds.v
Estate.v
Tenures.v
Stages.v
Steering.v
Helm.v
Courses.v
Substrate.v
Clusters.v
Manifests.v
Pods.v
Capacity.v
Kube.v
PodFacts.v
KubeFacts.v
Docker.v
