(* ===== verification/Prelude.v ===== *)
(** * A model of the llm-autotune control plane

    llm-autotune looks for the launch configuration of an inference engine that
    scores best on a benchmark.  People declare a search space and the machines
    it may use; a worker, one process, repeats a tick: it plans candidates,
    places runs on machines, launches, health-checks and benchmarks them, lets
    policy containers search for a night, hands machines back, and confirms that
    what it launched is gone.  Policies and people talk to an HTTP API over the
    same rows.  What an engine is launched with is written in a small language:
    flags and variables, addresses into a chart, recipes and their layers.  What
    a benchmark found is read as measures, scored under an objective and ranked.
    This library models the worker, the API, that language and that reading,
    from [src/backend/app], and proves the properties they are built to keep.
    All paths below are under [src/backend/app].

    ** Parts, and the files that model them

    The configuration language.
    - [Float], [Values], [Texts], [Documents]: binary64 arithmetic; the scalars a
      configuration holds with Python's equality, [int()], [float()] and
      [repr()]; the string methods the code uses; nested documents as ordered
      dictionaries.
    - [Space]: [control/search/space.py].  Ranges, grids, tied groups,
      conditions, expansion, counting, deviations and every space error.
    - [Validation]: [control/search/validation.py], [control/engines/env_keys.py],
      [control/search/parity.py].  Card counting and the static checks.
    - [Flags], [Commands]: [control/engines/flags.py] and its catalogs,
      [control/engine_command.py]: how a configuration is printed as a command
      line and read back.
    - [ExtraArgs], [Addresses], [Recipes]: [control/recipe/args.py],
      [address.py], [model.py], [shape.py], [check.py], [render.py]: flags inside
      a list of arguments, dotted addresses, what a recipe asks of a cluster.
    - [Composition], [Conversion], [Scripts]: [compose.py], [convert.py],
      [legacy.py], [campaign.py], [command.py], [importer.py]: the layers a chart
      is installed with, differences of recipes, the recipe of a campaign, a
      launch command read back into one.
    - [Checks]: [control/engines/vocabulary.py], the forbidden parameters, and
      every reason [api/policy_sessions.py] refuses a config.
    - [Failures], [Logs]: [control/launch/failures.py],
      [control/orchestrator/container_logs.py].  What a log, an exit code or a
      restart says about why a run failed, and what is kept of a log.

    The state.
    - [Model]: the rows of [db/models.py] as records over finite maps keyed by
      primary key; instants are microseconds.
    - [States]: [control/orchestrator/states.py], the run state machine; and the
      phases of a policy session, as a step relation of their own.
    - [World]: the worker's state (the database, the commands sent, the
      supervisor's dictionaries and timers) and the class [Env] of everything
      outside: clock, zones, drivers, evaluators, profile API, plugins.  An
      answer may depend on when it is asked, so a theorem over every [Env] holds
      whatever they answer.  Handlers are programs of the state and exception
      monad of [Prelude]; an exception keeps the writes made before it, as an
      ORM session does.  [Tx] adds what was last committed.
    - [Packing], [Timing]: [packing.py] and [timing.py], [staging.py].
    - [Occupancy], [Fleet]: who holds a machine ([run_nodes.py], [lifecycle.py],
      [groups.py], [node_ports.py], [occupancy.py], [machine_queue.py]) and the
      scheduler's helpers of [supervisor.py] (usable machines, sharing, ports).

    The tick, in its order ([Tick.tick_steps], [Supervisor.tick]).
    - [Clock]: [schedule.py], [_advance_campaign_schedules],
      [_run_plugin_steps].
    - [Leases]: [_advance_leases], and the janitor [_reap_teardowns] that ends
      the tick.
    - [Datasets]: [datasets/pinning.py], [refresh.py], [profiles.py] and the
      steps that pin and refresh; [_refresh_k8s_capacity].
    - [Plan]: [_plan].
    - [Finish]: what a campaign still has to measure and when it is done.
    - [Placement]: [_start_one], [_start_gang], [_create_run].
    - [Nights], [Reserve], [Sessions]: [policy_lifecycle.py] and
      [policy_session.py]: a night's deadlines, what a session takes on a
      machine, and its container's life from start to teardown.
    - [Queue], [Pass]: the machine queue ([queue_tickets.py], [_schedule]), and
      the proofs about a pass.
    - [Runs]: one run's transitions, teardown, end and retry budget.
    - [Advance]: [_advance_runs], [_advance_one] status by status, stop requests,
      windows, pauses, [reconcile].

    The policy's contract ([api/policy_sessions.py], [core/auth.py]).
    - [Contract]: who is asking, heartbeats, plans, trials, launches, benchmarks,
      contenders, state.  A handler works on a [desk] (the rows and those only the
      API uses) beside the rows as last committed: [respond] runs one request and
      keeps what it committed.

    Campaigns before they run.
    - [Rules]: [app/campaign_rules.py] and the request of a campaign: what every
      campaign must satisfy, whoever saves it, and its recipe.
    - [Managed]: [control/managed.py], the campaigns plugins own, and why one
      was stopped.
    - [Drafts]: [app/catalog.py], [control/launch_config.py],
      [app/campaign_spec.py]: typed parameters, the shape every configuration
      converts through, drafting a campaign.
    - [SearchCoverage]: [control/search/coverage.py], what a session has tried
      of a declared space.

    What a benchmark found.
    - [Measures], [Adapters]: [measures/catalog.py], [refs.py], [adapters.py]:
      numbers of a JSON document, the names of measures, and how each module's
      keys become measures.
    - [Harvest], [Readings]: [evaluation/llmbench.py], [measures/__init__.py],
      [evaluation/scenarios.py]: a submission flattened into metrics and split
      back, one number read by name, reports read as scenarios.
    - [Objectives], [Judgement]: [objective.py], [evaluation/aggregate.py],
      [gate.py], [quality.py]: targets, redlines and summaries; latency bounds
      and the floors production's own score sets.
    - [Hardware], [Leaderboard]: [hardware.py], [evaluation/ranking.py]: card
      types, the order of a leaderboard and the winner.

    Where an engine runs.
    - [Substrate]: [control/launch/base.py]: what a launch is told, the volumes
      of a node, starting a gang; the interface [Driver] of a driver and its
      laws [DriverLaws].
    - [Clusters]: [control/launch/clusters.py]: a cluster's settings, read from
      its row or from the install, and what is wrong with them.
    - [Manifests], [Pods], [Capacity], [Kube]: [control/launch/k8s.py]: the
      objects a run is launched as; the state, the failure and the placement
      verdict read from pods, nodes and events; the cards of a cluster;
      launching, taking down, the fixed port.  The cluster is the interface
      [K8sApi] with the laws [ApiLaws]; [Store], one that keeps what it is
      given, satisfies them, and [kube_laws] discharges [DriverLaws].
    - [Docker]: [control/launch/ssh_docker.py]: the command of a container, what a
      machine is asked and told over ssh to launch, watch and remove one, and the
      wait of a gang for its master.  The machines are the interface [Hosts] with
      the laws [HostLaws]; [rack] satisfies them, and [docker_laws] discharges
      [DriverLaws].

    What people may ask.
    - [Requests]: [core/auth.py] and the shape of a handler: it works on the rows
      and commits once; [leads] and [grants] specify one.
    - [Grounds]: [api/leases.py], [api/machines.py], [api/machine_groups.py] and
      stopping a run; [Stages] is what they answer.
    - [Steering]: what [api/campaigns.py] does to a campaign that is there.

    Proofs across components.
    - [Exclusive]: the invariant [fleet_ok] (no card is held twice) and the
      writes that keep it; [Ending]: every way to end a run keeps it; [Tenancy]:
      so do the policy sessions; [Tick]: so does a tick; [Duties]: so does a
      request, which writes its own session's rows only.
    - [Grants], [Contenders]: what a request is granted, refused and answered
      again, and what becomes of a list of contenders.
    - [Custody]: the relation [custody] every handler of the worker stays in:
      statuses move along the state machine, a run's identity never changes, and
      containers are touched only for runs the platform launched.
    - [PhasesRefined]: a tick refines the step relation of [States].
    - [Vigil], [Verdicts]: the nights of policy sessions; late or queued, retried
      or given up, handed back or kept.
    - [Estate], [Tenures]: what the fleet API keeps true, and what each granted
      request does; [Helm], [Courses]: the same of steering a campaign, and what
      the worker makes of it on its next tick.
    - [PodFacts], [KubeFacts]: what is read from a cluster is right, and a driver
      touches only its own objects.
    - [Samples]: a concrete environment and databases, on which witnesses run
      the definitions.

    [Prelude] holds record update, the monad and its rules ([triple], [keeps],
    [respects]: what a program may do to the state, as a preorder), sorting,
    tables, and the hint database [effects] with the tactics [keeps_walk] and
    [respects_walk] that walk through a handler construct by construct.  The
    interfaces are classes: [Env] (and its laws [PluginLaws] in [Queue], what a
    plugin may do to the database, and [ZoneLaws] in [Clock], what a time zone
    is), each with an instance in the samples; [Driver], [K8sApi] and [Hosts],
    with theirs.

    ** What the theorems show

    - The language: expansion is complete and without repetition, conditions are
      applied to their fixpoint, a configuration is accepted exactly when its
      values make it launchable.  What is printed is what is read back:
      configurations and command lines, flags set inside arguments, addresses,
      differences of recipes, launch commands.  What autotune's own layer says of a run
      overrides every other layer, and what a recipe says reaches the engine.
    - Placement and the queue: a placed run gets cards and ports nobody holds; a
      waiter that could not be served keeps its machines from everyone behind
      it, but for a campaign that already holds the machine; a pass of the queue
      ends.
    - The tick: cards stay exclusive, runs only move forward, nothing but what
      the platform launched is touched, sessions go through their phases in order
      and, past their deadline, to an end unless ending a live run raises; a
      raising tick leaves what was last committed.
    - The contract: cards stay exclusive under every request whose cards are
      checked; a request writes its own session's rows and never its phase; a
      launch is within the session's block, is not repeated under its key, and
      starts nothing when it is refused; a list of contenders is taken as a
      whole; only its own token opens a session.
    - Verdicts: a queued run is never late, the retry budget is exact, a
      machine goes home empty, a campaign is done only when it is finished, and
      verifies a configuration once.
    - Time: nightly windows are exact, the time held back for validation is
      enough.
    - Campaigns: what is saved satisfies the rules of a campaign, in terms of what
      runs it, a drafted one can be posted, a stopped one says why.
    - Results: metrics split back into what each module reported; the latency
      bound of a report is the tightest of the objective's redlines; a result is
      feasible exactly when it crosses no redline; quality is judged against
      production's own score, and judging again changes nothing; the winner is
      beaten by no entry.
    - Requests of people: machines, leases and groups stay in order, a formed
      group deploys as one, a removed machine leaves what was measured, a group is
      shown as deployable exactly when its members are free, and whenever the
      scheduler starts a gang on it, a request about one campaign writes
      that campaign's rows only, and what it asks is what the worker then does.
    - Drivers: a driver changes nothing but the objects of the run it is asked
      about, a gang starts whole or not at all, a refused port leaves nothing
      behind.  A pod says what the scheduler asked for, is given up exactly when
      no node could take it, and an engine restarted in its pod is told from a
      replaced one; a cluster offers the cards of its open nodes that no pod
      holds, within its quota.  A container is started once, after asking for
      its port, cards and image, and its log is kept before it is removed.
    - Errors: where the code and what it says of itself part, a theorem exhibits
      the case ([Space], [Validation], [Datasets], [Vigil], [ExtraArgs],
      [Addresses], [Conversion], [Checks], [Grants], [Judgement], [Managed],
      [Drafts], [Tenures], [Stages], [Courses], [Substrate], [Clusters],
      [Capacity], [PodFacts], [Docker]).

    ** Bounds and fuel

    - [Space]: a range is enumerated by a loop of [MAX_RANGE_VALUES] steps and
      conditions by one pass per condition and one more, both proved enough.
    - [Packing] and [Fleet]: port searches try as many ports as the code does.
    - [Queue]: [serve] takes a number of turns; [Pass.schedule_terminates] gives,
      for every world, a number that suffices.  In a tick, [turns] is arbitrary:
      a pass cut short only does less.
    - [Runs]: ending a run ends the benchmarks of a launch, which end nothing
      else; [DEPTH] is the recursion allowed, two levels are used, and running
      out raises, as Python's recursion limit would.
    - Everything else is structural: the readers of [Texts], [Addresses] and
      [Scripts] go over characters, those of [ExtraArgs] over items.

    ** Not modelled

    For the worker, what a driver answers is a field of [Env]: the Kubernetes and
    docker drivers are modelled beside it.  Their smoke tests, preflight probes
    and transports, what they record of where an image came from, the commands
    that restore what a machine ran before, and the driver for services of an
    operator are left out.  Fields of [Env] too are HTTP and, for the worker, the
    verdict on a result, the reason a campaign was stopped and the number of
    cards a recipe asks for,
    which [Judgement], [Managed] and [Conversion] compute beside it, and the
    configuration hash.  JSON, YAML and SHA-256 are parameters where a definition
    uses them.  Of the API, the session's manifest and history, the probes that
    only talk to a machine, creating and cloning a campaign (its rules are
    [Rules]) and the handlers of clusters, recipes and accounts are left out; of
    the checks, the facts read from a model's own config, and hints for misspelt
    keys; of shell patterns, the bracket classes.  Environment snapshots apart
    from the chart version and the image, event payloads, and the sentences
    written for people are left out.  Reports, migrations, the catalog export and
    the policy agent are not part of the worker.  A foreign key that names no
    row, which the database forbids, raises [KeyError]. *)
From Stdlib Require Export ZArith Lia.
From stdpp Require Export base tactics option list list_numbers gmap strings pretty sorting.

#[global] Open Scope Z_scope.
#[export] Set Default Goal Selector "!".

(** ** Record field update

    [r <| f := v |>] is [r] with its field [f] set to [v], and
    [r <| f ::= g |>] applies [g] to the field.  A record takes part once it
    has an [Eta] instance, which spells the record as its constructor applied
    to its own projections; the setter of one field is found by abstracting
    that projection. *)
Class Eta (R : Type) := eta : R -> R.

Class Updater {R T : Type} (proj : R -> T) := update_field : (T -> T) -> R -> R.
Arguments update_field {R T} proj {_} _ _ : simpl nomatch.

Ltac solve_updater :=
  match goal with
  | |- @Updater ?R ?T ?proj =>
      let inst := constr:(ltac:(typeclasses eauto) : Eta R) in
      let body := eval hnf in inst in
      let pat := eval pattern proj in body in
      match pat with
      | ?F _ => exact (fun (g : T -> T) => F (fun r => g (proj r)))
      end
  end.
#[export] Hint Extern 1 (Updater _) => solve_updater : typeclass_instances.

Declare Scope record_scope.
Delimit Scope record_scope with record.
#[global] Open Scope record_scope.
Notation "r <| f ::= g |>" := (update_field f g r)
  (at level 1, f at level 9, left associativity) : record_scope.
Notation "r <| f := v |>" := (update_field f (fun _ => v) r)
  (at level 1, f at level 9, left associativity) : record_scope.

(** ** Python's [sorted] and [min]

    Both are stable: [sorted] keeps the input order of elements neither of
    which is before the other, [min] answers the first of the least ones. *)
Section sorting.
Context {A : Type} (before : A -> A -> bool).

Fixpoint insert_sorted (x : A) (l : list A) : list A :=
  match l with
  | [] => [x]
  | y :: l' => if before y x then y :: insert_sorted x l' else x :: l
  end.

Definition sort_by (l : list A) : list A := foldr insert_sorted [] l.

Definition min_of (x : A) (l : list A) : A :=
  foldl (fun best y => if before y best then y else best) x l.

Definition min_by (l : list A) : option A :=
  match l with
  | [] => None
  | x :: l' => Some (min_of x l')
  end.
End sorting.

(** ** Orders on Python tuples of integers

    A tuple key is a list of integers; Python compares it left to right. *)
Fixpoint tuple_lt (a b : list Z) : bool :=
  match a, b with
  | x :: a', y :: b' => (x <? y) || ((x =? y) && tuple_lt a' b')
  | [], _ :: _ => true
  | _, [] => false
  end.

Definition key_before {A} (key : A -> list Z) (x y : A) : bool :=
  tuple_lt (key x) (key y).

(** ** Tables

    A table maps the primary key to the row; [rows] lists it in key order,
    which is what a [select] answers. *)
Section tables.
Context {K : Type} `{Countable K} {A : Type}.

Definition rows (key : K -> list Z) (t : gmap K A) : list A :=
  (sort_by (key_before (key ∘ fst)) (map_to_list t)).*2.

Definition count_where (P : A -> bool) (t : gmap K A) : nat :=
  length (filter (fun kv => P kv.2 = true) (map_to_list t)).
End tables.

Definition rows_z {A} (t : gmap Z A) : list A := rows (fun k => [k]) t.

(** Where a query keeps a row. *)
Definition where_ {A} (P : A -> bool) (l : list A) : list A := filter (fun x => P x = true) l.

(** The next primary key a table hands out. *)
Definition next_key {A} (t : gmap Z A) : Z :=
  1 + foldr Z.max 0 (map_to_list t).*1.

(** ** Effects

    A handler of the worker reads and writes a state [S] and may raise: what
    it wrote before it raised stays written, as rows of an open session do. *)
Inductive exn :=
| RuntimeError (msg : string)
| KeyError
| AssertionError
| LaunchDeferred (msg : string) (waiting_for : nat) (holder_run : option Z) (holder_service : string)
| EvaluatorBusy (msg : string)
| EvaluatorRejected (msg : string)
| DatasetProfileError (msg : string)
| BuildInFlight
| OtherError (msg : string)
| HTTPException (code : Z) (detail : string).

Definition M (S A : Type) : Type := S -> (exn + A) * S.

Section monad.
Context {S : Type}.

Definition ret {A} (a : A) : M S A := fun s => (inr a, s).
Definition raise {A} (e : exn) : M S A := fun s => (inl e, s).
Definition bind {A B} (m : M S A) (f : A -> M S B) : M S B := fun s =>
  match m s with
  | (inl e, s') => (inl e, s')
  | (inr a, s') => f a s'
  end.
Definition gets {A} (f : S -> A) : M S A := fun s => (inr (f s), s).
Definition modify (f : S -> S) : M S unit := fun s => (inr tt, f s).
Definition try_ {A} (m : M S A) (handler : exn -> M S A) : M S A := fun s =>
  match m s with
  | (inl e, s') => handler e s'
  | r => r
  end.
(** Lift a call that answers or raises. *)
Definition lift {A} (r : exn + A) : M S A := fun s => (r, s).
Definition expect {A} (o : option A) : M S A :=
  match o with Some a => ret a | None => raise KeyError end.

Fixpoint for_each {A} (l : list A) (f : A -> M S unit) : M S unit :=
  match l with
  | [] => ret tt
  | x :: l' => bind (f x) (fun _ => for_each l' f)
  end.

(** A loop that counts what its passes made. *)
Fixpoint for_count {A} (l : list A) (f : A -> M S Z) : M S Z :=
  match l with
  | [] => ret 0
  | x :: l' => bind (f x) (fun n => bind (for_count l' f) (fun m => ret (n + m)))
  end.

(** A Python loop that may [return] out of its function: stop at the first
    element that answers. *)
Fixpoint for_first {A B} (l : list A) (f : A -> M S (option B)) : M S (option B) :=
  match l with
  | [] => ret None
  | x :: l' => bind (f x) (fun o => match o with Some b => ret (Some b) | None => for_first l' f end)
  end.

(** A loop that carries a value from one element to the next. *)
Fixpoint for_acc {A B} (l : list A) (acc : B) (f : A -> B -> M S B) : M S B :=
  match l with
  | [] => ret acc
  | x :: l' => bind (f x acc) (fun acc' => for_acc l' acc' f)
  end.
End monad.

Declare Scope effect_scope.
Delimit Scope effect_scope with effect.
#[global] Open Scope effect_scope.
Notation "x <- m ;; k" := (bind m (fun x => k))
  (at level 100, m at next level, right associativity) : effect_scope.
Notation "' x <- m ;; k" := (bind m (fun x => k))
  (at level 20, x pattern, m at level 99, k at level 200, only parsing) : effect_scope.
Notation "m ;;; k" := (bind m (fun _ => k))
  (at level 100, right associativity) : effect_scope.
Notation "'when' b 'do_' m" := (if b then m else ret tt)
  (at level 99, b at level 9) : effect_scope.

(** ** Triples

    [triple P m Q E]: from a state in [P], [m] either answers in [Q] or
    raises in [E].  [keeps I m] is the triple of an invariant that holds
    however [m] ends. *)
Definition triple {S A} (P : S -> Prop) (m : M S A) (Q : A -> S -> Prop)
    (E : exn -> S -> Prop) : Prop :=
  forall s, P s -> match m s with (inr a, s') => Q a s' | (inl e, s') => E e s' end.

Definition keeps {S A} (I : S -> Prop) (m : M S A) : Prop :=
  triple I m (fun _ => I) (fun _ => I).

(** [respects R m]: whatever [m] does to the state is a step of the preorder
    [R], however it ends. *)
Definition respects {S A} (R : S -> S -> Prop) (m : M S A) : Prop := forall s, R s (m s).2.

(** An order on which stable sorting answers: what is not before goes after,
    and going after is transitive. *)
Class WeakOrder {A} (before : A -> A -> bool) : Prop := {
  before_asym x y : before x y = true -> before y x = false;
  before_negtrans x y z : before x y = false -> before y z = false -> before x z = false;
}.

Create HintDb effects.

Lemma before_irrefl {A} (before : A -> A -> bool) `{!WeakOrder before} x : before x x = false.
Proof. destruct (before x x) eqn:E; [|done]. rewrite <-E. by apply before_asym. Qed.

(** ** Lemmas on sorting *)
Section sorting_lemmas.
Context {A : Type} (before : A -> A -> bool).
Implicit Types (x y : A) (l : list A).

Lemma insert_sorted_perm x l : insert_sorted before x l ≡ₚ x :: l.
Proof.
  induction l as [|y l IH]; simpl; [done|].
  case_match; [|done]. rewrite IH. apply Permutation_swap.
Qed.

Lemma sort_by_perm l : sort_by before l ≡ₚ l.
Proof.
  induction l as [|x l IH]; simpl; [done|].
  by rewrite insert_sorted_perm, IH.
Qed.

Lemma elem_of_sort_by x l : x ∈ sort_by before l <-> x ∈ l.
Proof. by rewrite sort_by_perm. Qed.

Lemma length_sort_by l : length (sort_by before l) = length l.
Proof. by rewrite sort_by_perm. Qed.

Lemma min_by_None l : min_by before l = None <-> l = [].
Proof. destruct l; simpl; split; congruence. Qed.

Context `{!WeakOrder before}.

Lemma insert_sorted_sorted x l :
  StronglySorted (fun a b => before b a = false) l ->
  StronglySorted (fun a b => before b a = false) (insert_sorted before x l).
Proof.
  induction 1 as [|y l Hl IH Hy]; simpl; [by repeat constructor|].
  destruct (before y x) eqn:Hyx.
  - constructor; [done|]. rewrite insert_sorted_perm.
    constructor; [by apply before_asym|done].
  - constructor; [by constructor|]. constructor; [done|].
    eapply Forall_impl; [exact Hy|]. intros z Hz. by apply (before_negtrans _ y).
Qed.

Lemma sort_by_sorted l :
  StronglySorted (fun a b => before b a = false) (sort_by before l).
Proof. induction l; simpl; [constructor|by apply insert_sorted_sorted]. Qed.

Lemma min_of_spec x l :
  (min_of before x l = x \/ min_of before x l ∈ l) /\
  before x (min_of before x l) = false /\
  (forall y, y ∈ l -> before y (min_of before x l) = false).
Proof.
  revert x. induction l as [|z l IH]; intros x; simpl.
  - split; [by left|]. split; [|by intros y ?%not_elem_of_nil].
    by apply before_irrefl.
  - set (b := if before z x then z else x).
    destruct (IH b) as (Hin & Hb & Hl).
    assert (before x b = false /\ before z b = false) as [Hxb Hzb].
    { subst b. destruct (before z x) eqn:Hzx.
      - split; [by apply before_asym|by apply before_irrefl].
      - split; [by apply before_irrefl|done]. }
    split; [|split].
    + destruct Hin as [->|Hin]; [|by right; right].
      subst b. destruct (before z x); [right; left|by left].
    + by apply (before_negtrans _ b).
    + intros y [->|Hy]%elem_of_cons; [by apply (before_negtrans _ b)|by apply Hl].
Qed.

Lemma min_by_spec l x :
  min_by before l = Some x ->
  x ∈ l /\ forall y, y ∈ l -> before y x = false.
Proof.
  destruct l as [|z l]; [done|]. intros [= <-].
  destruct (min_of_spec z l) as (Hin & Hz & Hl). split.
  - destruct Hin as [->|?]; [left|by right].
  - intros y [->|Hy]%elem_of_cons; [done|by apply Hl].
Qed.
End sorting_lemmas.

Lemma insert_sorted_ext {A} (b1 b2 : A -> A -> bool) x l :
  (forall y, y ∈ l -> b1 y x = b2 y x) -> insert_sorted b1 x l = insert_sorted b2 x l.
Proof.
  induction l as [|y l IH]; intros H; simpl; [done|].
  rewrite (H y) by left. case_match; [|done]. f_equal. apply IH. intros z Hz. apply H. by right.
Qed.

Lemma sort_by_ext {A} (b1 b2 : A -> A -> bool) l :
  (forall x y, x ∈ l -> y ∈ l -> b1 x y = b2 x y) -> sort_by b1 l = sort_by b2 l.
Proof.
  induction l as [|x l IH]; intros H; simpl; [done|].
  rewrite IH by (intros y z Hy Hz; apply H; by right).
  apply insert_sorted_ext. intros y Hy%elem_of_sort_by. apply H; [by right|left].
Qed.

(** Sorting forgets the order it was given, when no two elements tie. *)
Lemma sort_by_Permutation {A} (before : A -> A -> bool) `{!WeakOrder before} l k :
  (forall x y, x ∈ l -> y ∈ l -> before x y = false -> before y x = false -> x = y) ->
  l ≡ₚ k -> sort_by before l = sort_by before k.
Proof.
  intros Hinj Hp. apply (StronglySorted_unique_strong (fun a b => before b a = false)).
  - intros x y Hx%elem_of_sort_by Hy%elem_of_sort_by Hxy Hyx. rewrite <- Hp in Hy. by apply Hinj.
  - by apply sort_by_sorted.
  - by apply sort_by_sorted.
  - by rewrite !sort_by_perm.
Qed.

(** In a sorted list everything up to a position is not above what is there. *)
Lemma sorted_take {A} (R : A -> A -> Prop) l k x :
  StronglySorted R l -> l !! k = Some x -> Forall (fun y => R y x) (take k l).
Proof.
  intros Hs. revert k. induction Hs as [|y l Hs IH Hy]; intros [|k]; simpl; try done.
  intros Hk. constructor; [|by apply IH]. rewrite Forall_lookup in Hy. by apply (Hy k).
Qed.

(** ** Lemmas on tuple keys *)
Lemma tuple_lt_irrefl a : tuple_lt a a = false.
Proof. induction a as [|x a IH]; simpl; [done|]. rewrite IH. lia. Qed.

Lemma tuple_lt_total a b : tuple_lt a b = false -> tuple_lt b a = false -> a = b.
Proof.
  revert b. induction a as [|x a IH]; intros [|y b]; simpl; try done.
  intros [H1 H2]%orb_false_iff [H3 H4]%orb_false_iff.
  assert (x = y) as -> by lia. rewrite Z.eqb_refl in H2, H4. f_equal. auto.
Qed.

Lemma tuple_lt_trans a b c :
  tuple_lt a b = true -> tuple_lt b c = true -> tuple_lt a c = true.
Proof.
  revert b c. induction a as [|x a IH]; intros [|y b] [|z c]; simpl; try done.
  rewrite !orb_true_iff, !andb_true_iff, !Z.ltb_lt, !Z.eqb_eq.
  intros [?|[-> ?]] [?|[-> ?]]; try (left; lia). right. split; [done|]. eauto.
Qed.

#[export] Instance key_before_weak {A} (key : A -> list Z) : WeakOrder (key_before key).
Proof.
  unfold key_before. split.
  - intros x y Hxy. destruct (tuple_lt (key y) (key x)) eqn:E; [|done].
    by rewrite <-(tuple_lt_irrefl (key x)), (tuple_lt_trans _ _ _ Hxy E).
  - intros x y z Hxy Hyz. destruct (tuple_lt (key x) (key z)) eqn:E; [|done].
    destruct (tuple_lt (key y) (key x)) eqn:F.
    + by rewrite (tuple_lt_trans _ _ _ F E) in Hyz.
    + by rewrite (tuple_lt_total _ _ Hxy F), Hyz in E.
Qed.

(** ** Lemmas on tables *)
Lemma elem_of_rows `{Countable K} {A} (key : K -> list Z) (t : gmap K A) x :
  x ∈ rows key t <-> exists k, t !! k = Some x.
Proof.
  unfold rows. rewrite list_elem_of_fmap. split.
  - intros ([k y] & -> & Hk). rewrite elem_of_sort_by in Hk.
    exists k. by apply elem_of_map_to_list.
  - intros [k Hk]. exists (k, x). split; [done|].
    by rewrite elem_of_sort_by, elem_of_map_to_list.
Qed.

Lemma elem_of_rows_z {A} (t : gmap Z A) x : x ∈ rows_z t <-> exists k, t !! k = Some x.
Proof. apply elem_of_rows. Qed.

Lemma elem_of_where {A} (P : A -> bool) l x : x ∈ where_ P l <-> x ∈ l /\ P x = true.
Proof. unfold where_. rewrite list_elem_of_filter. tauto. Qed.

Lemma rows_ids {A} (t : gmap Z A) (f : A -> Z) :
  (forall k x, t !! k = Some x -> f x = k) -> NoDup (map f (rows_z t)).
Proof.
  intros Hf. unfold rows_z, rows.
  assert (map f (sort_by (key_before ((fun k => [k]) ∘ fst)) (map_to_list t)).*2
          ≡ₚ (map_to_list t).*1) as ->; [|apply NoDup_fst_map_to_list].
  rewrite sort_by_perm. apply reflexive_eq. change (map f ?l) with (f <$> l).
  rewrite <-list_fmap_compose. apply list_fmap_ext. intros i [k x] Hi. cbn.
  apply Hf, elem_of_map_to_list. by eapply list_elem_of_lookup_2.
Qed.

Lemma NoDup_map_where {A B} (f : A -> B) (P : A -> bool) l :
  NoDup (map f l) -> NoDup (map f (where_ P l)).
Proof.
  induction l as [|x l IH]; cbn [map]; intros Hnd; [constructor|]. apply NoDup_cons in Hnd as [Hx Hnd].
  unfold where_. rewrite filter_cons. case_decide; [|by apply IH]. cbn [map]. constructor; [|by apply IH].
  intros (y & E & Hy)%list_elem_of_fmap. apply Hx. apply list_elem_of_fmap. exists y.
  split; [done|]. by apply elem_of_where in Hy as [Hy _].
Qed.

Lemma where_all {A} (P : A -> bool) l : Forall (fun x => P x = true) l -> where_ P l = l.
Proof.
  unfold where_. induction 1 as [|x l Hx Hl IH]; [done|].
  rewrite filter_cons_True by done. by rewrite IH.
Qed.

Lemma where_cons {A} (P : A -> bool) x l : where_ P (x :: l) = if P x then x :: where_ P l else where_ P l.
Proof. unfold where_. rewrite filter_cons. by destruct (P x). Qed.

Lemma where_app {A} (P : A -> bool) l1 l2 : where_ P (l1 ++ l2) = where_ P l1 ++ where_ P l2.
Proof. apply filter_app. Qed.

#[export] Instance where_perm {A} (P : A -> bool) : Proper ((≡ₚ) ==> (≡ₚ)) (where_ P).
Proof. unfold where_. intros l1 l2 Hl. by rewrite Hl. Qed.

Lemma length_where {A} (P : A -> bool) l : (length (where_ P l) <= length l)%nat.
Proof. apply length_filter. Qed.

Lemma where_nil {A} (P : A -> bool) l :
  where_ P l = [] <-> forall x, x ∈ l -> P x = false.
Proof.
  split.
  - intros Hnil x Hx. destruct (P x) eqn:E; [|done].
    assert (x ∈ where_ P l) as Hin by by apply elem_of_where.
    rewrite Hnil in Hin. by apply not_elem_of_nil in Hin.
  - intros Hall. destruct (where_ P l) as [|x l'] eqn:E; [done|].
    assert (x ∈ where_ P l) as [Hx Hp]%elem_of_where by (rewrite E; left).
    by rewrite (Hall x Hx) in Hp.
Qed.

Lemma head_omap_None {A B} (f : A -> option B) l :
  head (omap f l) = None <-> forall x, x ∈ l -> f x = None.
Proof.
  induction l as [|y l IH]; simpl.
  - split; [by intros _ ? ?%not_elem_of_nil|done].
  - destruct (f y) as [b|] eqn:E; simpl; split.
    + done.
    + intros H. rewrite H in E; [done|left].
    + intros H x [->|Hx]%elem_of_cons; [done|]. by apply IH.
    + intros H. apply IH. intros x Hx. apply H. by right.
Qed.

(** The largest of a non-empty list, as [max] folds it. *)
Lemma foldl_max_spec (l : list Z) (n : Z) :
  (foldl Z.max n l = n \/ foldl Z.max n l ∈ l) /\
  n <= foldl Z.max n l /\ forall x, x ∈ l -> x <= foldl Z.max n l.
Proof.
  revert n. induction l as [|y l IH]; intros n; simpl.
  - split; [by left|]. split; [lia|]. by intros ? ?%not_elem_of_nil.
  - destruct (IH (Z.max n y)) as (Hin & Hn & Hl). split; [|split; [lia|]].
    + destruct Hin as [Hin|Hin]; [|by right; right].
      destruct (Z.max_spec n y) as [[_ E]|[_ E]]; rewrite E in Hin |- *; [right; rewrite Hin|left; done].
      left.
    + intros x [->|Hx]%elem_of_cons; [lia|by apply Hl].
Qed.

Lemma foldr_max_ge l x : x ∈ l -> x <= foldr Z.max 0 l.
Proof. induction 1; simpl; lia. Qed.

Lemma next_key_above {A} (t : gmap Z A) k x : t !! k = Some x -> k < next_key t.
Proof.
  intros Hk. unfold next_key.
  assert (k ∈ (map_to_list t).*1) as Hin.
  { apply list_elem_of_fmap. exists (k, x). by rewrite elem_of_map_to_list. }
  apply foldr_max_ge in Hin. lia.
Qed.

Lemma next_key_fresh {A} (t : gmap Z A) : t !! next_key t = None.
Proof.
  destruct (t !! next_key t) eqn:E; [|done].
  apply next_key_above in E. lia.
Qed.

(** ** Lemmas on effects *)
Section respecting.
Context {S : Type} (R : S -> S -> Prop) `{!PreOrder R}.

Lemma respects_ret {A} (a : A) : respects R (ret a).
Proof. intros s. simpl. reflexivity. Qed.
Lemma respects_raise {A} e : respects R (raise (A:=A) e).
Proof. intros s. simpl. reflexivity. Qed.
Lemma respects_gets {A} (f : S -> A) : respects R (gets f).
Proof. intros s. simpl. reflexivity. Qed.
Lemma respects_lift {A} (r : exn + A) : respects R (lift r).
Proof. intros s. simpl. reflexivity. Qed.
Lemma respects_expect {A} (o : option A) : respects R (expect o).
Proof. destruct o; [apply respects_ret|apply respects_raise]. Qed.
Lemma respects_modify (f : S -> S) : (forall s, R s (f s)) -> respects R (modify f).
Proof. intros Hf s. apply Hf. Qed.
Lemma respects_bind {A B} (m : M S A) (f : A -> M S B) :
  respects R m -> (forall a, respects R (f a)) -> respects R (bind m f).
Proof.
  intros Hm Hf s. unfold bind. specialize (Hm s). destruct (m s) as [[e|a] s']; simpl in *; [done|].
  etransitivity; [exact Hm|apply Hf].
Qed.
Lemma respects_try {A} (m : M S A) h :
  respects R m -> (forall e, respects R (h e)) -> respects R (try_ m h).
Proof.
  intros Hm Hh s. unfold try_. specialize (Hm s). destruct (m s) as [[e|a] s']; simpl in *; [|done].
  etransitivity; [exact Hm|apply Hh].
Qed.
Lemma respects_for_each {A} (l : list A) (f : A -> M S unit) :
  (forall x, x ∈ l -> respects R (f x)) -> respects R (for_each l f).
Proof.
  induction l as [|x l IH]; simpl; intros Hf; [apply respects_ret|].
  apply respects_bind; [apply Hf; left|]. intros _. apply IH. intros y Hy. apply Hf. by right.
Qed.
Lemma respects_for_count {A} (l : list A) (f : A -> M S Z) :
  (forall x, x ∈ l -> respects R (f x)) -> respects R (for_count l f).
Proof.
  induction l as [|x l IH]; simpl; intros Hf; [apply respects_ret|].
  apply respects_bind; [apply Hf; left|]. intros n. apply respects_bind.
  - apply IH. intros y Hy. apply Hf. by right.
  - intros m. apply respects_ret.
Qed.
Lemma respects_for_acc {A B} (l : list A) (acc : B) (f : A -> B -> M S B) :
  (forall x acc, x ∈ l -> respects R (f x acc)) -> respects R (for_acc l acc f).
Proof.
  revert acc. induction l as [|x l IH]; simpl; intros acc Hf; [apply respects_ret|].
  apply respects_bind; [apply Hf; left|]. intros acc'. apply IH. intros y a Hy. apply Hf. by right.
Qed.
End respecting.

Section triples.
Context {S : Type}.

Lemma triple_weaken {A} (P P' : S -> Prop) (m : M S A) (Q Q' : A -> S -> Prop)
    (E E' : exn -> S -> Prop) :
  triple P m Q E -> (forall s, P' s -> P s) -> (forall a s, Q a s -> Q' a s) ->
  (forall e s, E e s -> E' e s) -> triple P' m Q' E'.
Proof.
  intros Hm HP HQ HE s Hs. specialize (Hm s (HP s Hs)).
  destruct (m s) as [[e|a] s']; eauto.
Qed.

Lemma triple_ret {A} (a : A) (Q : A -> S -> Prop) E : triple (Q a) (ret a) Q E.
Proof. by intros s Hs. Qed.

Lemma triple_raise {A} e (Q : A -> S -> Prop) (E : exn -> S -> Prop) :
  triple (E e) (raise e) Q E.
Proof. by intros s Hs. Qed.

Lemma triple_bind {A B} (P : S -> Prop) (m : M S A) (f : A -> M S B) R Q E :
  triple P m R E -> (forall a, triple (R a) (f a) Q E) -> triple P (bind m f) Q E.
Proof.
  intros Hm Hf s Hs. unfold bind. specialize (Hm s Hs).
  destruct (m s) as [[e|a] s']; [done|]. exact (Hf a s' Hm).
Qed.

Lemma triple_try {A} (P : S -> Prop) (m : M S A) h Q R E :
  triple P m Q R -> (forall e, triple (R e) (h e) Q E) -> triple P (try_ m h) Q E.
Proof.
  intros Hm Hh s Hs. unfold try_. specialize (Hm s Hs).
  destruct (m s) as [[e|a] s']; [exact (Hh e s' Hm)|done].
Qed.

Lemma keeps_ret {A} I (a : A) : keeps (S:=S) I (ret a).
Proof. by intros s Hs. Qed.
Lemma keeps_raise {A} I e : keeps (S:=S) I (raise (A:=A) e).
Proof. by intros s Hs. Qed.
Lemma keeps_gets {A} I (f : S -> A) : keeps I (gets f).
Proof. by intros s Hs. Qed.
Lemma keeps_lift {A} I (r : exn + A) : keeps (S:=S) I (lift r).
Proof. intros s Hs. unfold lift. by destruct r. Qed.
Lemma keeps_expect {A} I (o : option A) : keeps (S:=S) I (expect o).
Proof. destruct o; [apply keeps_ret|apply keeps_raise]. Qed.
Lemma keeps_modify I (f : S -> S) : (forall s, I s -> I (f s)) -> keeps I (modify f).
Proof. intros Hf s Hs. by apply Hf. Qed.
Lemma keeps_bind {A B} I (m : M S A) (f : A -> M S B) :
  keeps I m -> (forall a, keeps I (f a)) -> keeps I (bind m f).
Proof. intros Hm Hf. by eapply triple_bind. Qed.
Lemma keeps_try {A} I (m : M S A) h :
  keeps I m -> (forall e, keeps I (h e)) -> keeps I (try_ m h).
Proof. intros Hm Hh. by eapply triple_try. Qed.
Lemma keeps_for_each {A} I (l : list A) (f : A -> M S unit) :
  (forall x, x ∈ l -> keeps I (f x)) -> keeps I (for_each l f).
Proof.
  induction l as [|x l IH]; simpl; intros Hf; [apply keeps_ret|].
  apply keeps_bind; [apply Hf; left|]. intros _. apply IH. intros y Hy.
  apply Hf. by right.
Qed.
Lemma keeps_for_first {A B} I (l : list A) (f : A -> M S (option B)) :
  (forall x, x ∈ l -> keeps I (f x)) -> keeps I (for_first l f).
Proof.
  induction l as [|x l IH]; simpl; intros Hf; [apply keeps_ret|].
  apply keeps_bind; [apply Hf; left|].
  intros [b|]; [apply keeps_ret|]. apply IH. intros y Hy. apply Hf. by right.
Qed.
Lemma keeps_for_acc {A B} I (l : list A) (acc : B) (f : A -> B -> M S B) :
  (forall x acc, x ∈ l -> keeps I (f x acc)) -> keeps I (for_acc l acc f).
Proof.
  revert acc. induction l as [|x l IH]; simpl; intros acc Hf; [apply keeps_ret|].
  apply keeps_bind; [apply Hf; left|]. intros acc'. apply IH. intros y a Hy. apply Hf. by right.
Qed.
Lemma keeps_and {A} (I J : S -> Prop) (m : M S A) :
  keeps I m -> keeps J m -> keeps (fun s => I s /\ J s) m.
Proof.
  intros HI HJ s [Hi Hj]. specialize (HI s Hi). specialize (HJ s Hj).
  destruct (m s) as [[e|a] s']; auto.
Qed.
End triples.

#[export] Hint Resolve keeps_ret keeps_raise keeps_gets keeps_lift keeps_expect : effects.

(** Walk through a handler, one construct at a time; what it cannot settle is
    left to the caller. *)
Ltac keeps_step :=
  lazymatch goal with
  | |- keeps _ (bind _ _) => apply keeps_bind; [|intros ?]
  | |- keeps _ (try_ _ _) => apply keeps_try; [|intros ?]
  | |- keeps _ (for_each _ _) => apply keeps_for_each; intros ? ?
  | |- keeps _ (for_acc _ _ _) => apply keeps_for_acc; intros ? ? ?
  | |- keeps _ (for_first _ _) => apply keeps_for_first; intros ? ?
  | |- keeps _ (match ?x with _ => _ end) => destruct x eqn:?
  | |- keeps _ _ => solve [eauto with effects nocore]
  end.
Ltac keeps_walk := repeat keeps_step.

#[export] Hint Resolve respects_ret respects_raise respects_gets respects_lift respects_expect
  : effects.

Ltac respects_step :=
  lazymatch goal with
  | |- respects _ (bind _ _) => apply respects_bind; [typeclasses eauto| |intros ?]
  | |- respects _ (try_ _ _) => apply respects_try; [typeclasses eauto| |intros ?]
  | |- respects _ (for_each _ _) => apply respects_for_each; [typeclasses eauto|intros ? ?]
  | |- respects _ (for_acc _ _ _) => apply respects_for_acc; [typeclasses eauto|intros ? ? ?]
  | |- respects _ (for_count _ _) => apply respects_for_count; [typeclasses eauto|intros ? ?]
  | |- respects _ (match ?x with _ => _ end) => destruct x eqn:?
  | |- respects _ _ => solve [eauto with effects typeclass_instances]
  end.
Ltac respects_walk := repeat respects_step.

(** The side conditions of a write that leaves what a relation compares as it
    was. *)
Ltac untouched := first [typeclasses eauto | intros; exact eq_refl].
