(* ===== verification/Float.v ===== *)
(** Python floats: binary64 as the Standard Library's [spec_float], with the
    operations the platform's time arithmetic uses.  Every operation rounds
    once, to nearest even, as CPython does: [+], [*] and [/] on floats, [/] on
    two integers, [round(x, n)] and [math.ceil]. *)
From Stdlib Require Import SpecFloat.
From S2P Require Import Prelude.

Definition prec : Z := 53.
Definition emax : Z := 1024.

(** A Python float. *)
Definition float := spec_float.

Definition f_zero : float := S754_zero false.
Definition f_add : float -> float -> float := SFadd prec emax.
Definition f_sub : float -> float -> float := SFsub prec emax.
Definition f_mul : float -> float -> float := SFmul prec emax.
Definition f_div : float -> float -> float := SFdiv prec emax.
Definition f_ltb (x y : float) : bool := SFltb x y.
Definition f_leb (x y : float) : bool := SFleb x y.
Definition f_eqb (x y : float) : bool := SFeqb x y.

(** [float(z)], finite for every integer below 2**1024. *)
Definition f_of_Z (z : Z) : float := binary_normalize prec emax z 0 false.

(** [n / d] on two integers: the quotient, rounded once. *)
Definition f_of_ratio (n : Z) (d : positive) : float :=
  match n with
  | 0 => f_zero
  | Zpos p =>
      let '(mz, ez, lz) := SFdiv_core_binary prec emax (Zpos p) 0 (Zpos d) 0 in
      binary_round_aux prec emax false mz ez lz
  | Zneg p =>
      let '(mz, ez, lz) := SFdiv_core_binary prec emax (Zpos p) 0 (Zpos d) 0 in
      binary_round_aux prec emax true mz ez lz
  end.

(** The quotient of two integers, rounded to the nearest, ties to even. *)
Definition div_half_even (n d : Z) : Z :=
  let q := n / d in
  match 2 * (n mod d) ?= d with
  | Lt => q
  | Gt => q + 1
  | Eq => if Z.even q then q else q + 1
  end.

(** [round(x, digits)]: the exact binary value to that many decimals, ties to
    even, then the nearest float of the decimal. *)
Definition f_round (x : float) (digits : nat) : float :=
  match x with
  | S754_finite s m e =>
      if 0 <=? e then x else
      let ten := Pos.pow 10 (Pos.of_nat digits) in
      let scale := if (digits =? 0)%nat then 1%positive else ten in
      let k := div_half_even (Zpos m * Zpos scale) (2 ^ (- e)) in
      if k =? 0 then S754_zero s
      else f_of_ratio (if s then - k else k) scale
  | _ => x
  end.

(** [math.ceil(x)], which raises on an infinity or a NaN. *)
Definition f_ceil (x : float) : option Z :=
  match x with
  | S754_zero _ => Some 0
  | S754_finite s m e =>
      let v := if s then Zneg m else Zpos m in
      Some (if 0 <=? e then v * 2 ^ e else - ((- v) / 2 ^ (- e)))
  | _ => None
  end.

(** [max(x, y)] keeps its first argument unless the second is above it. *)
Definition f_max (x y : float) : float := if f_ltb x y then y else x.
Definition f_min (x y : float) : float := if f_ltb y x then y else x.

(** Not a NaN: on such floats the comparisons are an order. *)
Definition is_number (x : float) : bool :=
  match x with S754_nan => false | _ => true end.

(** ** The order *)
(** The order on floats that are not NaN, as a tuple key. *)
Definition f_key (x : float) : list Z :=
  match x with
  | S754_infinity true => [-2]
  | S754_finite true m e => [-1; - e; Zneg m]
  | S754_zero _ => [0]
  | S754_finite false m e => [1; e; Zpos m]
  | S754_infinity false => [2]
  | S754_nan => [3]
  end.

Lemma f_ltb_key x y :
  is_number x = true -> is_number y = true -> f_ltb x y = tuple_lt (f_key x) (f_key y).
Proof.
  unfold f_ltb, SFltb. intros Hx Hy.
  destruct x as [s|[]| |[] m e], y as [s'|[]| |[] m' e']; simpl in *; try done.
  - change (PosDef.Pos.compare_cont Eq m m') with (m ?= m')%positive.
    change (PosDef.Pos.compare m m') with (m ?= m')%positive.
    destruct (Z.compare_spec e e') as [->|He|He].
    + rewrite Z.ltb_irrefl, Z.eqb_refl. cbn [tuple_lt andb orb]. rewrite andb_false_r, orb_false_r.
      symmetry. destruct (Pos.compare_spec m m'); cbn [CompOpp]; first [apply Z.ltb_lt; lia|apply Z.ltb_ge; lia].
    + assert ((- e <? - e') = false) as -> by lia. by assert ((- e =? - e') = false) as -> by lia.
    + by assert ((- e <? - e') = true) as -> by lia.
  - change (PosDef.Pos.compare_cont Eq m m') with (m ?= m')%positive.
    change (PosDef.Pos.compare m m') with (m ?= m')%positive.
    destruct (Z.compare_spec e e') as [->|He|He].
    + rewrite Z.ltb_irrefl, Z.eqb_refl. cbn [tuple_lt andb orb]. rewrite andb_false_r, orb_false_r.
      symmetry. destruct (Pos.compare_spec m m'); cbn [CompOpp]; first [apply Z.ltb_lt; lia|apply Z.ltb_ge; lia].
    + by assert ((e <? e') = true) as -> by lia.
    + assert ((e <? e') = false) as -> by lia. by assert ((e =? e') = false) as -> by lia.
Qed.
