(* ===== verification/Values.v ===== *)
(** The values a configuration holds, with the conversions Python makes of
    them: [float()], [int()], [str()], truth, and the tolerant comparison the
    search space is built on ([app/control/search/space.py:_same_value]).

    A configuration is a flat dict of scalars ([engines/env_keys.py] says so),
    so lists and nested objects are not values here.  Strings are ASCII. *)
From Stdlib Require Import SpecFloat Ascii.
From S2P Require Import Prelude Float.
#[local] Open Scope string_scope.
#[local] Open Scope Z_scope.

Inductive scalar :=
| VNone
| VBool (b : bool)
| VInt (z : Z)
| VFloat (x : float)
| VStr (s : string).

(** A config: parameter name to value. *)
Abbreviation config := (gmap string scalar).

(** ** Strings *)
Definition code (c : ascii) : Z := Z.of_nat (nat_of_ascii c).

(** What [str.strip] drops. *)
Definition is_space (c : ascii) : bool :=
  ((9 <=? code c) && (code c <=? 13)) || ((28 <=? code c) && (code c <=? 32)).
Definition is_digit (c : ascii) : bool := (48 <=? code c) && (code c <=? 57).
Definition to_lower (c : ascii) : ascii :=
  if (65 <=? code c) && (code c <=? 90) then ascii_of_nat (nat_of_ascii c + 32) else c.

Definition chars : string -> list ascii := String.list_ascii_of_string.
Definition of_chars : list ascii -> string := String.string_of_list_ascii.

Fixpoint drop_while {A} (p : A -> bool) (l : list A) : list A :=
  match l with [] => [] | x :: l' => if p x then drop_while p l' else l end.
Definition strip_chars (l : list ascii) : list ascii :=
  reverse (drop_while is_space (reverse (drop_while is_space l))).
Definition strip (s : string) : string := of_chars (strip_chars (chars s)).
(** [s[:n]]. *)
Definition clip (n : nat) (s : string) : string := String.substring 0 n s.
Definition lower (s : string) : string := of_chars (to_lower <$> chars s).
Definition key_of_string (s : string) : list Z := code <$> chars s.

(** ** [float(s)] and [int(s)] on a string

    A run of digits, single underscores allowed between two of them: its value,
    how many digits, and what follows. *)
Fixpoint take_digits (after_digit : bool) (l : list ascii) (acc : Z) (n : nat)
    : Z * nat * list ascii :=
  match l with
  | c :: l' =>
      if is_digit c then take_digits true l' (acc * 10 + (code c - 48)) (S n)
      else if after_digit && (code c =? 95)
              && match l' with d :: _ => is_digit d | [] => false end
           then take_digits false l' acc n
           else (acc, n, l)
  | [] => (acc, n, [])
  end.

Definition take_sign (l : list ascii) : bool * list ascii :=
  match l with
  | "-"%char :: l' => (true, l')
  | "+"%char :: l' => (false, l')
  | _ => (false, l)
  end.

(** The float nearest to [m * 10^e]. *)
Definition f_of_decimal (neg : bool) (m e : Z) (ndigits : nat) : float :=
  if m =? 0 then S754_zero neg
  else if 400 <? e then S754_infinity neg
  else if e <? - (400 + Z.of_nat ndigits) then S754_zero neg
  else let m := if neg then - m else m in
       if 0 <=? e then f_of_ratio (m * 10 ^ e) 1 else f_of_ratio m (Z.to_pos (10 ^ (- e))).

Definition parse_float (s : string) : option float :=
  let '(neg, l) := take_sign (strip_chars (chars s)) in
  let word := of_chars (to_lower <$> l) in
  if String.eqb word "inf" || String.eqb word "infinity" then Some (S754_infinity neg)
  else if String.eqb word "nan" then Some S754_nan
  else
    let '(ip, ni, l) := take_digits false l 0 0 in
    let '(m, nf, l) :=
      match l with
      | "."%char :: l' => let '(m, n, r) := take_digits false l' ip 0 in (m, n, r)
      | _ => (ip, 0%nat, l)
      end in
    if (ni + nf =? 0)%nat then None else
    match l with
    | [] => Some (f_of_decimal neg m (- Z.of_nat nf) (ni + nf))
    | c :: l' =>
        if (code c =? 101) || (code c =? 69) then
          let '(eneg, l') := take_sign l' in
          match take_digits false l' 0 0 with
          | (ex, S _, []) =>
              Some (f_of_decimal neg m ((if eneg then - ex else ex) - Z.of_nat nf) (ni + nf))
          | _ => None
          end
        else None
    end.

Definition parse_int (s : string) : option Z :=
  let '(neg, l) := take_sign (strip_chars (chars s)) in
  match take_digits false l 0 0 with
  | (m, S _, []) => Some (if neg then - m else m)
  | _ => None
  end.

(** ** [repr] of a float: the shortest decimal that reads back as it *)
Definition z_digits (n : Z) : string := pretty n.

Fixpoint trim_zeros (fuel : nat) (k q : Z) : Z * Z :=
  match fuel with
  | O => (k, q)
  | S f => if (k mod 10 =? 0) && (0 <? k) then trim_zeros f (k / 10) (q + 1) else (k, q)
  end.

(** [m * 2^e] to the nearest multiple of [10^q], as that many of them. *)
Definition scaled (m e q : Z) : Z :=
  let num := m * (if 0 <=? e then 2 ^ e else 1) * (if 0 <=? q then 1 else 10 ^ (- q)) in
  let den := (if 0 <=? e then 1 else 2 ^ (- e)) * (if 0 <=? q then 10 ^ q else 1) in
  div_half_even num den.

(** How many decimal digits the integer part of [m * 2^e] has; below one, minus
    the zeros after the point. *)
Fixpoint decimal_point (fuel : nat) (m e : Z) (q : Z) : Z :=
  match fuel with
  | O => q
  | S f =>
      let num := m * (if 0 <=? e then 2 ^ e else 1) in
      let den := if 0 <=? e then 1 else 2 ^ (- e) in
      let above := if 0 <=? q then den * 10 ^ q <=? num else den <=? num * 10 ^ (- q) in
      if above then q + 1 else decimal_point f m e (q - 1)
  end.

Fixpoint shortest (fuel : nat) (x : float) (m e dp p : Z) : Z * Z :=
  let q := dp - p in
  let k := scaled m e q in
  match fuel with
  | O => (k, q)
  | S f =>
      if f_eqb (f_of_decimal false k q 20) x then (k, q)
      else shortest f x m e dp (p + 1)
  end.

Definition pad_zeros (n : nat) : string := of_chars (replicate n "0"%char).

Definition format_decimal (k q : Z) : string :=
  let '(k, q) := trim_zeros 400 k q in
  let ds := z_digits k in
  let nd := Z.of_nat (String.length ds) in
  let dp := nd + q in
  if (-4 <? dp) && (dp <=? 16) then
    if 0 <=? q then ds +:+ pad_zeros (Z.to_nat q) +:+ ".0"
    else if 0 <? dp
      then String.substring 0 (Z.to_nat dp) ds +:+ "."
           +:+ String.substring (Z.to_nat dp) (Z.to_nat (nd - dp)) ds
      else "0." +:+ pad_zeros (Z.to_nat (- dp)) +:+ ds
  else
    let ex := dp - 1 in
    let digits := if nd =? 1 then ds
                  else String.substring 0 1 ds +:+ "." +:+ String.substring 1 (Z.to_nat (nd - 1)) ds in
    let ex_digits := z_digits (Z.abs ex) in
    digits +:+ (if ex <? 0 then "e-" else "e+")
      +:+ (if Z.abs ex <? 10 then "0" +:+ ex_digits else ex_digits).

Definition float_repr (x : float) : string :=
  match x with
  | S754_zero s => if s then "-0.0" else "0.0"
  | S754_infinity s => if s then "-inf" else "inf"
  | S754_nan => "nan"
  | S754_finite s m e =>
      let y := S754_finite false m e in
      let dp := decimal_point 700 (Zpos m) e 309 in
      let '(k, q) := shortest 17 y (Zpos m) e dp 1 in
      (if s then "-" else "") +:+ format_decimal k q
  end.

(** ** Conversions of a value *)
Definition str_of (v : scalar) : string :=
  match v with
  | VNone => "None"
  | VBool true => "True"
  | VBool false => "False"
  | VInt z => pretty z
  | VFloat x => float_repr x
  | VStr s => s
  end.

(** [bool(value)]. *)
Definition truthy (v : scalar) : bool :=
  match v with
  | VNone => false
  | VBool b => b
  | VInt z => negb (z =? 0)
  | VFloat (S754_zero _) => false
  | VFloat _ => true
  | VStr s => negb (String.eqb s "")
  end.

(** [space.py:_as_float]: a number, or a string that reads as one; a bool is
    not a number. *)
Definition as_float (v : scalar) : option float :=
  match v with
  | VBool _ | VNone => None
  | VInt z => Some (f_of_Z z)
  | VFloat x => Some x
  | VStr s => parse_float s
  end.

(** [a == b]: True is 1, an integer is compared with a float by value. *)
Definition int_eqb_float (z : Z) (x : float) : bool :=
  match x with
  | S754_zero _ => z =? 0
  | S754_finite s m e =>
      let v := if s then Zneg m else Zpos m in
      if 0 <=? e then z =? v * 2 ^ e else z * 2 ^ (- e) =? v
  | _ => false
  end.

Definition bool_int (b : bool) : Z := if b then 1 else 0.

Definition py_eq (a b : scalar) : bool :=
  match a, b with
  | VNone, VNone => true
  | VStr s, VStr t => String.eqb s t
  | VFloat x, VFloat y => f_eqb x y
  | VInt x, VInt y => x =? y
  | VBool x, VBool y => Bool.eqb x y
  | VInt z, VFloat x | VFloat x, VInt z => int_eqb_float z x
  | VBool b, VInt z | VInt z, VBool b => bool_int b =? z
  | VBool b, VFloat x | VFloat x, VBool b => int_eqb_float (bool_int b) x
  | _, _ => false
  end.

Definition is_bool (v : scalar) : bool := match v with VBool _ => true | _ => false end.

(** [space.py:_same_value]. *)
Definition same_value (a b : scalar) : bool :=
  if py_eq a b then true
  else if is_bool a || is_bool b
    then String.eqb (lower (strip (str_of a))) (lower (strip (str_of b)))
    else match as_float a, as_float b with
         | Some x, Some y => f_eqb x y
         | _, _ => String.eqb (strip (str_of a)) (strip (str_of b))
         end.

(** [validation.py:_int_or_none].  [int()] of an infinity raises OverflowError,
    which a JSON column cannot hold; here it is not a whole number. *)
Definition int_or_none (v : scalar) : option Z :=
  match v with
  | VBool _ | VNone => None
  | VInt z => Some z
  | VFloat (S754_zero _) => Some 0
  | VFloat (S754_finite s m e) =>
      let a := if 0 <=? e then Zpos m * 2 ^ e else Zpos m / 2 ^ (- e) in
      Some (if s then - a else a)
  | VFloat _ => None
  | VStr s => parse_int s
  end.

#[export] Instance spec_float_eq_dec : EqDecision spec_float.
Proof. solve_decision. Defined.
#[export] Instance scalar_eq_dec : EqDecision scalar.
Proof. solve_decision. Defined.
