(* ===== verification/Texts.v ===== *)
(** Texts as lists of characters: prefixes, splitting, stripping, and decimal
    numerals, as Python's [str] methods and [int()] have them. *)
From Stdlib Require Import Ascii.
From S2P Require Import Prelude Float Values.
#[local] Open Scope string_scope.
#[local] Open Scope list_scope.
#[local] Open Scope Z_scope.

(** ** Strings *)
Definition newline : ascii := "010"%char.
Definition carriage_return : ascii := "013"%char.
Definition tab : ascii := "009"%char.
Definition backslash : ascii := "\"%char.
Definition is_blank (c : ascii) : bool := Ascii.eqb c " " || Ascii.eqb c tab.

Definition replace_char (a b : ascii) (s : string) : string :=
  of_chars (map (fun c => if Ascii.eqb c a then b else c) (chars s)).
(** [s.lstrip("-")]. *)
Definition strip_dashes (s : string) : string := of_chars (drop_while (Ascii.eqb "-"%char) (chars s)).
(** [s[n:]]. *)
Definition from (n : nat) (s : string) : string := of_chars (drop n (chars s)).

Definition starts_with (prefix s : string) : bool := String.prefix prefix s.
Definition ends_with (suffix s : string) : bool :=
  let n := (String.length s - String.length suffix)%nat in
  (String.length suffix <=? String.length s)%nat && String.eqb (from n s) suffix.

(** [s.partition(sep)] when the separator is in it. *)
Fixpoint split_at (sep : ascii) (l : list ascii) : option (list ascii * list ascii) :=
  match l with
  | [] => None
  | c :: l' =>
      if Ascii.eqb c sep then Some ([], l')
      else match split_at sep l' with Some (a, b) => Some (c :: a, b) | None => None end
  end.
Definition partition (sep : ascii) (s : string) : option (string * string) :=
  match split_at sep (chars s) with Some (a, b) => Some (of_chars a, of_chars b) | None => None end.

(** [s.rsplit(sep, 1)[-1]]: what follows the last separator. *)
Fixpoint after_last (sep : ascii) (l acc : list ascii) : list ascii :=
  match l with
  | [] => reverse acc
  | c :: l' => if Ascii.eqb c sep then after_last sep l' [] else after_last sep l' (c :: acc)
  end.
Definition last_part (sep : ascii) (s : string) : string := of_chars (after_last sep (chars s) []).

(** [s.rstrip(c)]. *)
Definition rstrip (c : ascii) (s : string) : string :=
  of_chars (reverse (drop_while (Ascii.eqb c) (reverse (chars s)))).

Fixpoint occurs_in (needle hay : list ascii) : bool :=
  bool_decide (take (length needle) hay = needle)
  || match hay with [] => false | _ :: hay' => occurs_in needle hay' end.
(** [needle in s]. *)
Definition contains (needle s : string) : bool := occurs_in (chars needle) (chars s).

Definition is_lower (c : ascii) : bool := (97 <=? code c) && (code c <=? 122).

(** ** Lemmas: characters *)
Lemma chars_of_chars l : chars (of_chars l) = l.
Proof. apply String.list_ascii_of_string_of_list_ascii. Qed.
Lemma of_chars_chars s : of_chars (chars s) = s.
Proof. apply String.string_of_list_ascii_of_string. Qed.
Lemma length_chars s : length (chars s) = String.length s.
Proof. induction s as [|c s IH]; [done|]. change (S (length (chars s)) = S (String.length s)). by rewrite IH. Qed.
Lemma chars_inj s t : chars s = chars t -> s = t.
Proof. intros Heq. by rewrite <- (of_chars_chars s), Heq, of_chars_chars. Qed.
Lemma chars_app s t : chars (s +:+ t) = chars s ++ chars t.
Proof. induction s as [|c s IH]; [done|]. change (c :: chars (s +:+ t) = c :: (chars s ++ chars t)). by rewrite IH. Qed.
Lemma chars_replace a b s : chars (replace_char a b s) = map (fun c => if Ascii.eqb c a then b else c) (chars s).
Proof. apply chars_of_chars. Qed.

Lemma forallb_elem {A} (p : A -> bool) l x : forallb p l = true -> x ∈ l -> p x = true.
Proof. intros Hl Hx%list_elem_of_In. exact (proj1 (forallb_forall p l) Hl x Hx). Qed.

Lemma forallb_weaken {A} (p q : A -> bool) l :
  (forall x, p x = true -> q x = true) -> forallb p l = true -> forallb q l = true.
Proof. intros Hpq Hp. apply forallb_forall. intros x Hx. apply Hpq. by eapply forallb_elem, list_elem_of_In. Qed.

Lemma drop_while_none {A} (p : A -> bool) l : forallb (fun x => negb (p x)) l = true -> drop_while p l = l.
Proof. destruct l as [|x l]; [done|]. cbn. by destruct (p x). Qed.

Lemma strip_chars_none l : forallb (fun c => negb (is_space c)) l = true -> strip_chars l = l.
Proof.
  intros Hl. unfold strip_chars. rewrite (drop_while_none _ l) by done.
  rewrite drop_while_none, reverse_involutive; [done|].
  apply forallb_forall. intros c Hc. apply (forallb_elem _ _ _ Hl).
  by apply elem_of_reverse, list_elem_of_In.
Qed.

Lemma split_at_None sep l : forallb (fun c => negb (Ascii.eqb c sep)) l = true -> split_at sep l = None.
Proof.
  induction l as [|c l IH]; [done|]. cbn. intros [Hc Hl]%andb_prop.
  destruct (Ascii.eqb c sep); [done|]. by rewrite IH.
Qed.

Lemma prefix_cons a p b s : String.prefix (String a p) (String b s) = Ascii.eqb a b && String.prefix p s.
Proof.
  cbn. destruct (ascii_dec a b) as [<-|Hab]; [by rewrite Ascii.eqb_refl|]. apply Ascii.eqb_neq in Hab. by rewrite Hab.
Qed.

Lemma prefix_empty s : String.prefix "" s = true.
Proof. by destruct s. Qed.

Lemma prefix_elem p s c : String.prefix p s = true -> c ∈ chars p -> c ∈ chars s.
Proof.
  revert s. induction p as [|a p IH]; intros s; [by intros _ ?%elem_of_nil|].
  destruct s as [|b s]; cbn; [done|]. destruct (ascii_dec a b) as [->|]; [|done].
  intros Hp [->|Hc]%elem_of_cons; [by left|]. right. by apply IH.
Qed.

Lemma after_last_none sep l acc :
  forallb (fun c => negb (Ascii.eqb c sep)) l = true -> after_last sep l acc = reverse acc ++ l.
Proof.
  revert acc. induction l as [|c l IH]; intros acc; cbn; [by rewrite app_nil_r|].
  intros [Hc Hl]%andb_prop. destruct (Ascii.eqb c sep); [done|].
  by rewrite IH, reverse_cons, <- app_assoc.
Qed.

Lemma ends_with_chars suffix s : ends_with suffix s = true -> forall c, c ∈ chars suffix -> c ∈ chars s.
Proof.
  unfold ends_with. intros [_ Heq%String.eqb_eq]%andb_prop c Hc. rewrite <- Heq in Hc.
  unfold from in Hc. rewrite chars_of_chars in Hc. rewrite <- (take_drop (String.length s - String.length suffix)). apply elem_of_app. by right.
Qed.

Ltac char_cases c := destruct c as [[] [] [] [] [] [] [] []]; try done.

(** ** Lemmas: splitting *)
Lemma split_at_Some sep l a b : split_at sep l = Some (a, b) -> l = a ++ sep :: b /\ split_at sep a = None.
Proof.
  revert a b. induction l as [|c l IH]; intros a b; [done|]. cbn. destruct (Ascii.eqb_spec c sep) as [->|Hc].
  - intros [= <- <-]. done.
  - destruct (split_at sep l) as [[a' b']|]; [|done]. intros [= <- <-]. destruct (IH _ _ eq_refl) as [-> Ha]. cbn.
    apply Ascii.eqb_neq in Hc. by rewrite Hc, Ha.
Qed.

Lemma split_at_app sep a b : split_at sep a = None -> split_at sep (a ++ sep :: b) = Some (a, b).
Proof.
  induction a as [|c a IH]; cbn; [by rewrite Ascii.eqb_refl|]. destruct (Ascii.eqb c sep); [done|].
  destruct (split_at sep a) as [[]|]; [done|]. intros _. by rewrite IH.
Qed.

Lemma split_at_app_None sep a b : split_at sep a = None -> split_at sep b = None -> split_at sep (a ++ b) = None.
Proof.
  induction a as [|c a IH]; cbn; [done|]. destruct (Ascii.eqb c sep); [done|].
  destruct (split_at sep a) as [[]|]; [done|]. intros _ Hb. by rewrite IH.
Qed.

Lemma partition_None sep s : partition sep s = None <-> split_at sep (chars s) = None.
Proof. unfold partition. destruct (split_at sep (chars s)) as [[]|]; naive_solver. Qed.

Lemma partition_Some sep s a b :
  partition sep s = Some (a, b) -> chars s = chars a ++ sep :: chars b /\ partition sep a = None.
Proof.
  unfold partition at 1. destruct (split_at sep (chars s)) as [[a' b']|] eqn:Hs; [|done]. intros [= <- <-].
  apply split_at_Some in Hs as [-> Ha]. rewrite partition_None, !chars_of_chars. done.
Qed.

Lemma partition_app sep a b : partition sep a = None -> partition sep (a +:+ String sep b) = Some (a, b).
Proof.
  rewrite partition_None. intros Ha. unfold partition. rewrite chars_app.
  change (chars (String sep b)) with (sep :: chars b). by rewrite split_at_app, !of_chars_chars.
Qed.

Lemma partition_app_None sep a b :
  partition sep a = None -> partition sep b = None -> partition sep (a +:+ b) = None.
Proof. rewrite !partition_None, chars_app. apply split_at_app_None. Qed.

(** ** Decimal numerals *)

(** The number some digits spell, read after [acc]. *)
Definition digits_value (l : list ascii) (acc : Z) : Z := foldl (fun acc c => acc * 10 + (code c - 48)) acc l.

Lemma take_digits_all l after acc n : forallb is_digit l = true ->
  take_digits after l acc n = (digits_value l acc, (length l + n)%nat, []).
Proof.
  revert after acc n. induction l as [|c l IH]; intros after acc n; [done|]. cbn [forallb take_digits].
  intros [-> Hl]%andb_prop. rewrite IH by done. cbn. repeat f_equal. lia.
Qed.

Lemma digit_char (d : N) : (d < 10)%N ->
  is_digit (pretty_N_char d) = true /\ code (pretty_N_char d) - 48 = Z.of_N d.
Proof.
  intros Hd. assert (d = 0 \/ d = 1 \/ d = 2 \/ d = 3 \/ d = 4 \/ d = 5 \/ d = 6 \/ d = 7 \/ d = 8 \/ d = 9)%N as Hcase by lia.
  repeat destruct Hcase as [->|Hcase]; [by split..|]. rewrite Hcase. by split.
Qed.

Lemma pretty_N_digits (x : N) s : forallb is_digit (chars s) = true ->
  forallb is_digit (chars (pretty_N_go x s)) = true /\
  digits_value (chars (pretty_N_go x s)) 0 = digits_value (chars s) (Z.of_N x) /\
  (String.length s <= String.length (pretty_N_go x s))%nat.
Proof.
  revert s. induction (N.lt_wf_0 x) as [x _ IH]. intros s Hs.
  assert (x = 0 \/ 0 < x)%N as [->|Hx] by lia; [by rewrite pretty_N_go_0|].
  rewrite pretty_N_go_step by done.
  destruct (digit_char (x `mod` 10)) as [Hd Hv]; [by apply N.mod_lt|].
  destruct (IH (x `div` 10)%N ltac:(by apply N.div_lt) (String (pretty_N_char (x `mod` 10)) s)) as (IHd & IHv & IHl).
  { change (is_digit (pretty_N_char (x `mod` 10)) && forallb is_digit (chars s) = true). by rewrite Hd. }
  split; [exact IHd|]. split; [|etrans; [|exact IHl]; apply Nat.le_succ_diag_r].
  rewrite IHv. change (digits_value (chars s) (Z.of_N (x / 10) * 10 + (code (pretty_N_char (x `mod` 10)) - 48))
                       = digits_value (chars s) (Z.of_N x)).
  f_equal. rewrite Hv. rewrite (N.div_mod x 10) at 3 by done. lia.
Qed.

Lemma pretty_nonneg (z : Z) : 0 <= z ->
  forallb is_digit (chars (pretty z)) = true /\ digits_value (chars (pretty z)) 0 = z /\
  (0 < length (chars (pretty z)))%nat.
Proof.
  intros Hz. destruct z as [|p|p]; [split; [done|split; [done|apply Nat.lt_0_1]]| |lia].
  change (pretty (Z.pos p)) with (pretty_N_go (Npos p) ""). rewrite pretty_N_go_step by done.
  destruct (digit_char (N.pos p `mod` 10)) as [Hd Hv]; [by apply N.mod_lt|].
  destruct (pretty_N_digits (N.pos p `div` 10) (String (pretty_N_char (N.pos p `mod` 10)) "")) as (IHd & IHv & IHl).
  { cbn. by rewrite Hd. }
  split; [exact IHd|]. split.
  - rewrite IHv. cbn. rewrite Hv. pose proof (N.div_mod (N.pos p) 10 ltac:(done)). lia.
  - destruct (pretty_N_go _ _); [cbn in IHl; lia|]. cbn. lia.
Qed.

Lemma digits_not_space l : forallb is_digit l = true -> forallb (fun c => negb (is_space c)) l = true.
Proof. apply forallb_weaken. intros c. char_cases c. Qed.

Lemma pretty_neg (p : positive) : chars (pretty (Z.neg p)) = "-"%char :: chars (pretty (Z.pos p)).
Proof. reflexivity. Qed.

Lemma strip_pretty (z : Z) : strip_chars (chars (pretty z)) = chars (pretty z).
Proof.
  apply strip_chars_none. destruct z as [|p|p]; [done| |rewrite pretty_neg; cbn [forallb]; change (negb (is_space "-")) with true].
  all: apply digits_not_space, (pretty_nonneg (Z.pos p)); lia.
Qed.

(** [int(str(z))] is [z]. *)
Lemma parse_int_pretty (z : Z) : parse_int (pretty z) = Some z.
Proof.
  unfold parse_int. rewrite strip_pretty.
  assert (forall l, forallb is_digit l = true -> take_sign l = (false, l)) as Hsign.
  { intros [|c l]; [done|]. cbn [forallb]. intros [Hc _]%andb_prop. revert Hc. char_cases c. }
  assert (forall x, 0 <= x -> exists n, take_digits false (chars (pretty x)) 0 0 = (x, S n, [])) as Hdigits.
  { intros x (Hd & Hv & Hl)%pretty_nonneg. rewrite take_digits_all, Hv by done.
    exists (length (chars (pretty x)) - 1)%nat. repeat f_equal. lia. }
  destruct z as [|p|p]; [done| |].
  - rewrite Hsign by (apply pretty_nonneg; lia). by destruct (Hdigits (Z.pos p) ltac:(lia)) as [n ->].
  - rewrite pretty_neg. cbn [take_sign]. by destruct (Hdigits (Z.pos p) ltac:(lia)) as [n ->].
Qed.
