(* ===== verification/Documents.v ===== *)
(** Python dictionaries with their insertion order, and the documents made of
    scalars, lists and dictionaries that recipes, chart values and engine
    arguments are, with [==] and [str()] on them. *)
From Stdlib Require Import Ascii.
From S2P Require Import Prelude Float Values.
#[local] Open Scope string_scope.
#[local] Open Scope list_scope.
#[local] Open Scope Z_scope.

(** ** Dictionaries

    A dict is its items in the order they were first set. *)
Section dicts.
Context {A : Type}.
Implicit Types (k : string) (v : A) (d : list (string * A)).

Fixpoint dict_set k v d : list (string * A) :=
  match d with
  | [] => [(k, v)]
  | (k', v') :: d' => if String.eqb k k' then (k, v) :: d' else (k', v') :: dict_set k v d'
  end.
Definition dict_get k d : option A := snd <$> List.find (fun kv => String.eqb k kv.1) d.
Definition dict_has k d : bool := existsb (fun kv => String.eqb k kv.1) d.
Arguments dict_get : simpl never.
(** [d.pop(k, None)], what is left. *)
Definition dict_pop k d : list (string * A) := filter (fun kv => kv.1 <> k) d.
(** [{**a, **b}]. *)
Definition dict_update (a b : list (string * A)) : list (string * A) :=
  foldl (fun d kv => dict_set kv.1 kv.2 d) a b.

Lemma dict_get_cons k k' v d :
  dict_get k ((k', v) :: d) = if String.eqb k k' then Some v else dict_get k d.
Proof. unfold dict_get. cbn. by destruct (String.eqb k k'). Qed.

Lemma dict_get_set k k' v d :
  dict_get k (dict_set k' v d) = if String.eqb k k' then Some v else dict_get k d.
Proof.
  induction d as [|[k0 v0] d IH]; cbn [dict_set].
  - apply dict_get_cons.
  - destruct (String.eqb_spec k' k0) as [->|Hk']; rewrite !dict_get_cons.
    + by destruct (String.eqb_spec k k0).
    + destruct (String.eqb_spec k k0) as [->|Hk]; [|exact IH].
      by destruct (String.eqb_spec k0 k').
Qed.

Lemma dict_get_notin k d : k ∉ d.*1 -> dict_get k d = None.
Proof.
  induction d as [|[k0 v0] d IH]; [done|]. cbn. intros [Hk Hd]%not_elem_of_cons.
  rewrite dict_get_cons. destruct (String.eqb_spec k k0); [done|]. by apply IH.
Qed.

Lemma dict_get_Some_in k v d : dict_get k d = Some v -> (k, v) ∈ d.
Proof.
  induction d as [|[k0 v0] d IH]; [done|]. rewrite dict_get_cons.
  destruct (String.eqb_spec k k0) as [->|Hk]; [intros [= ->]; by left|intros Hd; right; by apply IH].
Qed.

Lemma dict_get_None k d : dict_get k d = None <-> k ∉ d.*1.
Proof.
  split; [|apply dict_get_notin]. induction d as [|[k0 v0] d IH]; [intros _; apply not_elem_of_nil|].
  rewrite dict_get_cons. destruct (String.eqb_spec k k0); [done|].
  intros Hd. cbn. apply not_elem_of_cons. auto.
Qed.

Lemma dict_get_in k v d : NoDup d.*1 -> (k, v) ∈ d -> dict_get k d = Some v.
Proof.
  induction d as [|[k0 v0] d IH]; [by intros _ ?%elem_of_nil|]. cbn. intros [Hk0 Hnd]%NoDup_cons Hin.
  rewrite dict_get_cons. apply elem_of_cons in Hin as [[= -> ->]|Hin].
  - by rewrite String.eqb_refl.
  - destruct (String.eqb_spec k k0) as [->|Hk]; [|by apply IH].
    destruct Hk0. apply list_elem_of_fmap. by exists (k0, v).
Qed.

Lemma dict_get_pop k k' d : dict_get k (dict_pop k' d) = if String.eqb k k' then None else dict_get k d.
Proof.
  unfold dict_pop. induction d as [|[k0 v0] d IH].
  - unfold dict_get. cbn. by destruct (String.eqb k k').
  - rewrite filter_cons. cbn [fst]. case_decide as Hk0; rewrite ?dict_get_cons, IH.
    + destruct (String.eqb_spec k k0) as [->|Hk]; [|done]. by destruct (String.eqb_spec k0 k').
    + subst k0. by destruct (String.eqb k k').
Qed.

Lemma dict_has_get k d : dict_has k d = bool_decide (is_Some (dict_get k d)).
Proof.
  unfold dict_has. induction d as [|[k0 v0] d IH]; [done|]. rewrite dict_get_cons. cbn [existsb fst].
  destruct (String.eqb k k0); [done|exact IH].
Qed.

(** The later dict wins. *)
Lemma dict_get_update k a b : NoDup b.*1 ->
  dict_get k (dict_update a b) = match dict_get k b with Some v => Some v | None => dict_get k a end.
Proof.
  unfold dict_update. revert a. induction b as [|[k0 v0] b IH]; intros a Hnd; [done|].
  cbn in Hnd. apply NoDup_cons in Hnd as [Hk0 Hnd]. cbn [foldl]. rewrite IH by done.
  rewrite dict_get_set, dict_get_cons. cbn. destruct (String.eqb_spec k k0) as [->|Hk]; [|done].
  by rewrite (dict_get_notin k0 b Hk0).
Qed.

Lemma dict_set_keys k v d : (dict_set k v d).*1 = if bool_decide (k ∈ d.*1) then d.*1 else d.*1 ++ [k].
Proof.
  induction d as [|[k0 v0] d IH]; [done|]. cbn. destruct (String.eqb_spec k k0) as [->|Hk]; cbn.
  - by rewrite bool_decide_eq_true_2 by left.
  - rewrite IH. case_bool_decide as Hd; case_bool_decide as Hd'; try done.
    + destruct Hd'. by right.
    + by apply elem_of_cons in Hd' as [].
Qed.

Lemma dict_set_NoDup k v d : NoDup d.*1 -> NoDup (dict_set k v d).*1.
Proof.
  intros Hd. rewrite dict_set_keys. case_bool_decide as Hk; [done|]. apply NoDup_app. split; [done|].
  split; [|apply NoDup_singleton]. by intros x Hx ->%list_elem_of_singleton.
Qed.

Lemma dict_pop_NoDup k d : NoDup d.*1 -> NoDup (dict_pop k d).*1.
Proof.
  unfold dict_pop. induction d as [|[k0 v0] d IH]; [done|]. rewrite fmap_cons. intros [Hk0 Hd]%NoDup_cons.
  rewrite filter_cons. cbn [fst]. case_decide; [|by apply IH]. rewrite fmap_cons. apply NoDup_cons. split; [|by apply IH].
  intros ([k1 v1] & Hk1 & [_ Hin]%list_elem_of_filter)%list_elem_of_fmap. cbn in Hk1. subst k1.
  destruct Hk0. apply list_elem_of_fmap. by exists (k0, v1).
Qed.

Lemma dict_update_NoDup a b : NoDup a.*1 -> NoDup (dict_update a b).*1.
Proof.
  unfold dict_update. revert a. induction b as [|[k v] b IH]; intros a Ha; [done|].
  cbn [foldl]. by apply IH, dict_set_NoDup.
Qed.

Lemma dict_set_fresh k v d : k ∉ d.*1 -> dict_set k v d = d ++ [(k, v)].
Proof.
  induction d as [|[k0 v0] d IH]; [done|]. cbn. intros [Hk Hd]%not_elem_of_cons.
  destruct (String.eqb_spec k k0); [done|]. by rewrite IH.
Qed.

Lemma dict_pop_notin k d : k ∉ d.*1 -> dict_pop k d = d.
Proof.
  unfold dict_pop. induction d as [|[k0 v0] d IH]; [done|]. rewrite fmap_cons. intros [Hk Hd]%not_elem_of_cons.
  rewrite filter_cons_True by (intros Hk0; by apply Hk). by rewrite IH.
Qed.
End dicts.
Arguments dict_get : simpl never.

(** ** Documents *)
Inductive doc :=
| Sc (v : scalar)
| Ls (l : list doc)
| Mp (m : list (string * doc)).

Abbreviation tree := (list (string * doc)).

Section doc_induction.
Variable P : doc -> Prop.
Hypothesis P_Sc : forall v, P (Sc v).
Hypothesis P_Ls : forall l, Forall P l -> P (Ls l).
Hypothesis P_Mp : forall m, Forall (fun kd => P kd.2) m -> P (Mp m).

Fixpoint doc_induction (d : doc) : P d :=
  match d with
  | Sc v => P_Sc v
  | Ls l =>
      P_Ls l ((fix go (l : list doc) : Forall P l :=
                 match l with
                 | [] => Forall_nil_2 P
                 | x :: l' => Forall_cons_2 P x l' (doc_induction x) (go l')
                 end) l)
  | Mp m =>
      P_Mp m ((fix go (m : tree) : Forall (fun kd => P kd.2) m :=
                 match m with
                 | [] => Forall_nil_2 _
                 | kd :: m' => Forall_cons_2 _ kd m' (doc_induction kd.2) (go m')
                 end) m)
  end.
End doc_induction.

(** [a == b]: the order of a dict's items does not matter. *)
Fixpoint doc_eq (a b : doc) {struct a} : bool :=
  match a, b with
  | Sc v, Sc w => py_eq v w
  | Ls l, Ls k =>
      (fix go (l k : list doc) : bool :=
         match l, k with
         | [], [] => true
         | x :: l', y :: k' => doc_eq x y && go l' k'
         | _, _ => false
         end) l k
  | Mp m, Mp n =>
      (length m =? length n)%nat &&
      (fix go (m : tree) : bool :=
         match m with
         | [] => true
         | (k, x) :: m' => match dict_get k n with Some y => doc_eq x y | None => false end && go m'
         end) m
  | _, _ => false
  end.

(** [bool(d)]. *)
Definition doc_truthy (d : doc) : bool :=
  match d with
  | Sc v => truthy v
  | Ls l => negb (bool_decide (l = []))
  | Mp m => match m with [] => false | _ => true end
  end.

(** ** [str()] *)
Definition hex_digit (n : nat) : ascii := ascii_of_nat (if (n <? 10)%nat then 48 + n else 87 + n).

Definition escape (quote : ascii) (c : ascii) : list ascii :=
  if Ascii.eqb c quote || Ascii.eqb c "\"%char then ["\"%char; c]
  else if code c =? 9 then ["\"; "t"]%char
  else if code c =? 10 then ["\"; "n"]%char
  else if code c =? 13 then ["\"; "r"]%char
  else if (code c <? 32) || (127 <=? code c)
    then ["\"; "x"; hex_digit (nat_of_ascii c / 16); hex_digit (nat_of_ascii c mod 16)]%char
  else [c].

Definition single_quote : ascii := "'"%char.
Definition double_quote : ascii := "034"%char.

(** [repr(s)]: in single quotes, unless only double ones spare an escape. *)
Definition quote_of (s : string) : ascii :=
  if existsb (Ascii.eqb single_quote) (chars s) && negb (existsb (Ascii.eqb double_quote) (chars s))
  then double_quote else single_quote.
Definition str_repr (s : string) : string :=
  let q := quote_of s in of_chars (q :: concat (map (escape q) (chars s)) ++ [q]).

Fixpoint comma_join (l : list string) : string :=
  match l with
  | [] => ""
  | [s] => s
  | s :: l' => s +:+ ", " +:+ comma_join l'
  end.

Definition scalar_repr (v : scalar) : string :=
  match v with VStr s => str_repr s | _ => str_of v end.

Fixpoint doc_repr (d : doc) : string :=
  match d with
  | Sc v => scalar_repr v
  | Ls l => "[" +:+ comma_join (map doc_repr l) +:+ "]"
  | Mp m => "{" +:+ comma_join (map (fun '(k, x) => str_repr k +:+ ": " +:+ doc_repr x) m) +:+ "}"
  end.

Definition doc_str (d : doc) : string :=
  match d with Sc v => str_of v | _ => doc_repr d end.

(** ** Reading a document *)

(** [d.get(k)] of what should be a dict: [d.get(k) or {}], [d.get(k) or []]. *)
Definition sub_tree (d : option doc) : tree := match d with Some (Mp m) => m | _ => [] end.
Definition sub_list (d : option doc) : list doc := match d with Some (Ls l) => l | _ => [] end.

Fixpoint tree_get (m : tree) (path : list string) : option doc :=
  match path with
  | [] => Some (Mp m)
  | [k] => dict_get k m
  | k :: rest => match dict_get k m with Some (Mp n) => tree_get n rest | _ => None end
  end.

#[export] Instance doc_eq_dec : EqDecision doc.
Proof.
  refine (fix go (a b : doc) : Decision (a = b) :=
    match a, b with
    | Sc v, Sc w => cast_if (decide (v = w))
    | Ls l, Ls k => cast_if (@decide (l = k) (list_eq_dec (dec := go) l k))
    | Mp m, Mp n => cast_if (@decide (m = n) (list_eq_dec (dec := @prod_eq_dec _ _ _ go) m n))
    | _, _ => right _
    end); clear go; abstract congruence.
Defined.
