(* ===== verification/Space.v ===== *)
(** The search space: what it expands to, how a config is pruned, and where a
    config leaves it ([app/control/search/space.py], [search/base.py]).

    A space is the JSON object of its docstring: [base], [grid], [tied],
    [range] and [conditions].  Grid, tied and range columns are maps (the code
    sorts their keys), conditions keep the order they were declared in. *)
From Stdlib Require Import SpecFloat.
From S2P Require Import Prelude Float Values.
#[local] Open Scope string_scope.
#[local] Open Scope list_scope.
#[local] Open Scope Z_scope.

(** ** Data *)

(** One entry of ["range"]: an object with min, max and step ([VNone] for one
    it lacks), or something that is not an object. *)
Inductive range_decl :=
| RangeObject (min max step : scalar)
| RangeNotObject.

(** The values a clause lists for one parameter: a list, or one bare value. *)
Inductive clause_values :=
| ManyValues (l : list scalar)
| OneValue (v : scalar).

Inductive condition_decl :=
| Clause (c : list (string * clause_values))
| ClauseNotObject.

Record space := Space {
  s_declared : bool;                 (* the object has at least one key *)
  s_base : config;
  s_grid : gmap string (list scalar);
  s_tied : list (gmap string (list scalar));
  s_range : gmap string range_decl;
  s_conditions : list (string * condition_decl);
}.

Definition empty_space : space := Space false ∅ ∅ [] ∅ [].

(** [sorted(d.items())]: by key, which are distinct. *)
Definition sorted_items {A} (m : gmap string A) : list (string * A) :=
  sort_by (key_before (key_of_string ∘ fst)) (map_to_list m).

(** ** Ranges *)
Definition MAX_RANGE_VALUES : Z := 512.
Definition MAX_SPACE_CANDIDATES : Z := 5000.

Record RangeSpec := mkRangeSpec {
  r_name : string;
  r_minimum : float;
  r_maximum : float;
  r_step : float;
}.

Definition float_is_integer (x : float) : bool :=
  match x with
  | S754_zero _ => true
  | S754_finite _ m e => (0 <=? e) || (Zpos m mod 2 ^ (- e) =? 0)
  | _ => false
  end.

Definition is_integer (r : RangeSpec) : bool :=
  forallb float_is_integer [r_minimum r; r_maximum r; r_step r].

(** [round(x)] of a finite float: the nearest integer, ties to even. *)
Definition f_to_int (x : float) : Z :=
  match f_round x 0 with
  | S754_finite s m e =>
      let v := if 0 <=? e then Zpos m * 2 ^ e else Zpos m / 2 ^ (- e) in
      if s then - v else v
  | _ => 0
  end.

(** The text after the point of [repr(step)], without its trailing zeros. *)
Definition _decimals (step : float) : nat :=
  let text := chars (float_repr step) in
  if existsb (fun c => (code c =? 101) || (code c =? 69)) text then 10%nat
  else
    let after := drop 1 (drop_while (fun c => negb (code c =? 46)) text) in
    length (drop_while (fun c => code c =? 48) (reverse after)).

Definition tolerance : float := f_of_ratio 1 1000000000.

(** The loop of [values]: [index] counts up, and the loop ends above the
    maximum or once the index passes [MAX_RANGE_VALUES]. *)
Fixpoint range_loop (fuel : nat) (r : RangeSpec) (decimals : nat) (index : Z) : list scalar :=
  match fuel with
  | O => []
  | S f =>
      let value := f_add (r_minimum r) (f_mul (f_of_Z index) (r_step r)) in
      if f_ltb (f_add (r_maximum r) (f_mul (r_step r) tolerance)) value then []
      else
        (if is_integer r then VInt (f_to_int value) else VFloat (f_round value decimals))
        :: (if MAX_RANGE_VALUES <? index + 1 then [] else range_loop f r decimals (index + 1))
  end.

Definition range_values (r : RangeSpec) : list scalar :=
  range_loop (Z.to_nat (MAX_RANGE_VALUES + 1)) r (_decimals (r_step r)) 0.

(** The three numbers of a range entry that can be swept. *)
Definition range_spec_of (name : string) (d : range_decl) : option RangeSpec :=
  match d with
  | RangeNotObject => None
  | RangeObject mn mx st =>
      match as_float mn, as_float mx, as_float st with
      | Some low, Some high, Some step =>
          if f_leb step f_zero || f_ltb high low then None
          else Some (mkRangeSpec name low high step)
      | _, _, _ => None
      end
  end.

Definition range_specs (sp : space) : list RangeSpec :=
  omap (fun '(name, d) => range_spec_of name d) (sorted_items (s_range sp)).

(** ** Grid, tied groups, conditions *)
Definition nonempty {A} (l : list A) : bool := match l with [] => false | _ => true end.

Definition _grid (sp : space) : gmap string (list scalar) :=
  filter (fun kv => nonempty kv.2 = true) (s_grid sp).

Definition tied_groups (sp : space) : list (gmap string (list scalar)) :=
  where_ (fun g => existsb nonempty (map_to_list g).*2) (s_tied sp).

Definition values_list (v : clause_values) : list scalar :=
  match v with ManyValues l => l | OneValue v => [v] end.

Abbreviation clause := (list (string * list scalar)).

Definition conditions (sp : space) : list (string * clause) :=
  omap (fun '(name, d) =>
          match d with
          | Clause c =>
              match map (fun '(k, v) => (k, values_list v)) c with
              | [] => None
              | parsed => Some (name, parsed)
              end
          | ClauseNotObject => None
          end) (s_conditions sp).

(** ** Pruning *)

(** All clauses of one parameter, against what is still active. *)
Definition clause_holds (active : config) (c : clause) : bool :=
  forallb (fun '(key, values) =>
             match active !! key with
             | Some v => existsb (same_value v) values
             | None => false
             end) c.

(** One pass over the declared conditions: what is left, and whether a
    parameter was dropped. *)
Definition prune_pass (declared : list (string * clause)) (active : config) : config * bool :=
  foldl (fun '(active, removed) '(name, c) =>
           match active !! name with
           | None => (active, removed)
           | Some _ =>
               if clause_holds active c then (active, removed)
               else (delete name active, true)
           end) (active, false) declared.

Fixpoint prune_loop (passes : nat) (declared : list (string * clause)) (active : config) : config :=
  match passes with
  | O => active
  | S n =>
      let '(active', removed) := prune_pass declared active in
      if removed then prune_loop n declared active' else active'
  end.

Definition prune_conditions (declared : list (string * clause)) (cfg : config) : config :=
  match declared with
  | [] => cfg
  | _ => prune_loop (length declared + 1) declared cfg
  end.

Definition prune_inactive (cfg : config) (sp : space) : config :=
  prune_conditions (conditions sp) cfg.

(** ** Expansion *)

(** The rows of a tied group: its columns zipped to the shortest. *)
Definition tied_axis (group : gmap string (list scalar)) : list config :=
  let cols := sorted_items group in
  let n := match cols with
           | [] => 0%nat
           | (_, c) :: rest => foldl (fun n '(_, c) => Nat.min n (length c)) (length c) rest
           end in
  map (fun i => list_to_map (omap (fun '(k, c) => pair k <$> c !! i) cols)) (seq 0 n).

Definition axes (sp : space) : list (list config) :=
  where_ nonempty (
    map (fun '(k, vs) => map (singletonM k) vs) (sorted_items (_grid sp))
    ++ map tied_axis (tied_groups sp)
    ++ map (fun r => map (singletonM (r_name r)) (range_values r)) (range_specs sp)).

(** [itertools.product] over the axes: the last axis varies fastest. *)
Fixpoint product {A} (l : list (list A)) : list (list A) :=
  match l with
  | [] => [[]]
  | axis :: rest => x ← axis; map (cons x) (product rest)
  end.

(** [dict.update], part by part: a later part wins. *)
Definition merge_parts (base : config) (combo : list config) : config :=
  foldl (fun merged part => part ∪ merged) base combo.

(** Keep the first config of each canonical form (the JSON text of a config
    with sorted keys says exactly which scalars it holds). *)
Fixpoint dedupe (seen : list config) (l : list config) : list config :=
  match l with
  | [] => []
  | c :: l' => if bool_decide (c ∈ seen) then dedupe seen l' else c :: dedupe (c :: seen) l'
  end.

Definition expand (sp : space) : list config :=
  let merged := map (merge_parts (s_base sp)) (product (axes sp)) in
  match conditions sp with
  | [] => merged
  | _ => dedupe [] (map (fun m => prune_inactive m sp) merged)
  end.

(** ** Sizes *)
Definition axis_product (sp : space) : Z :=
  foldl (fun total axis => total * Z.of_nat (length axis)) 1 (axes sp).

Definition too_large (sp : space) : bool := MAX_SPACE_CANDIDATES <? axis_product sp.

Definition candidate_count (sp : space) : Z :=
  let p := axis_product sp in
  match conditions sp with
  | _ :: _ => if p <=? MAX_SPACE_CANDIDATES then Z.of_nat (length (expand sp)) else p
  | [] => p
  end.

(** Parameters the space varies, from its declaration. *)
Definition swept_keys (sp : space) : list string :=
  let add (keys : list string) k := if bool_decide (k ∈ keys) then keys else (keys ++ [k]) in
  let keys := (map_to_list (_grid sp)).*1 in
  let keys := foldl (fun keys g => foldl add keys (map_to_list g).*1) keys (tied_groups sp) in
  let keys := (keys ++ map r_name (where_ (fun r => negb (bool_decide (r_name r ∈ keys))) (range_specs sp))) in
  sort_by (key_before key_of_string) keys.

(** ** Deviations *)
Inductive deviation_kind := unknown | off_grid | out_of_range | base_override | conditional_violation.

Record deviation := Deviation { d_param : string; d_kind : deviation_kind; d_value : scalar }.

(** A tied column's values, over every group that names the parameter. *)
Definition tied_column (sp : space) (param : string) : option (list scalar) :=
  foldl (fun acc g => match (g : gmap string (list scalar)) !! param with
                      | Some vs => Some (default [] acc ++ vs)
                      | None => acc
                      end) None (tied_groups sp).

Definition range_of (sp : space) (param : string) : option RangeSpec :=
  last (where_ (fun r => String.eqb (r_name r) param) (range_specs sp)).

Definition condition_of (sp : space) (param : string) : option clause :=
  snd <$> last (where_ (fun c => String.eqb c.1 param) (conditions sp)).

Definition deviation_of (sp : space) (pruned : config) (param : string) (value : scalar)
    : option deviation_kind :=
  let gated := condition_of sp param in
  if bool_decide (is_Some gated) && bool_decide (pruned !! param = None)
  then Some conditional_violation
  else
    match _grid sp !! param, tied_column sp param with
    | None, None =>
        match range_of sp param with
        | Some r =>
            match as_float value with
            | Some x =>
                if f_leb (r_minimum r) x && f_leb x (r_maximum r) then
                  if existsb (same_value value) (range_values r) then None else Some off_grid
                else Some out_of_range
            | None => Some out_of_range
            end
        | None =>
            match s_base sp !! param with
            | Some b => if same_value value b then None else Some base_override
            | None => if bool_decide (is_Some gated) then None else Some unknown
            end
        end
    | g, t =>
        if existsb (same_value value) (default [] g ++ default [] t) then None
        else Some off_grid
    end.

Definition deviations (cfg : config) (sp : space) : list deviation :=
  let pruned := prune_inactive cfg sp in
  omap (fun '(param, value) => (fun k => Deviation param k value) <$> deviation_of sp pruned param value)
       (sorted_items cfg).

(** ** What makes a space mean something other than it looks like

    The messages of [space_errors], with what each one names. *)
Inductive where_declared :=
| InGrid
| InTied (index : nat)
| InRange (name : string).

Inductive space_error :=
| TiesFewerThanTwo (group : nat)
| TiedLengthsDiffer (group : nat)
| DeclaredTwice (key : string) (first second : where_declared)
| RangeMustBeObject (name : string)
| RangeNeedsBounds (name : string)
| RangeNeedsStep (name : string)
| RangeStepNotPositive (name : string)
| RangeMaxBelowMin (name : string)
| RangeTooManyValues (name : string)
| ConditionOnUnknown (name : string)
| ConditionOnItself (name : string)
| ConditionGatedOnUnknown (name key : string)
| ConditionHasNoValues (name key : string)
| SpaceTooLarge (total : Z).

Abbreviation seen_map := (gmap string where_declared).

(** [if key in seen: error, else: seen[key] = where]. *)
Definition see (key : string) (where_ : where_declared) (st : list space_error * seen_map)
    : list space_error * seen_map :=
  let '(errors, seen) := st in
  match seen !! key with
  | Some first => ((errors ++ [DeclaredTwice key first where_]), seen)
  | None => (errors, <[ key := where_ ]> seen)
  end.

Definition tied_group_errors (index : nat) (group : gmap string (list scalar))
    (st : list space_error * seen_map) : list space_error * seen_map :=
  let '(errors, seen) := st in
  let lengths := map (fun '(k, v) => (k, length v))
                     (where_ (fun kv => nonempty kv.2) (sorted_items group)) in
  let few := if (length lengths <? 2)%nat then [TiesFewerThanTwo index] else [] in
  let ragged := if (1 <? length (remove_dups lengths.*2))%nat then [TiedLengthsDiffer index] else [] in
  foldl (fun st key => see key (InTied index) st)
        ((errors ++ few ++ ragged), seen) lengths.*1.

Definition range_error_step (st : list space_error * seen_map) (entry : string * range_decl)
    : list space_error * seen_map :=
  let '(errors, seen) := st in
  let '(name, d) := entry in
  let fail_ e := ((errors ++ [e]), seen) in
  match d with
  | RangeNotObject => fail_ (RangeMustBeObject name)
  | RangeObject mn mx stp =>
      match as_float mn, as_float mx, as_float stp with
      | Some low, Some high, Some step =>
          if f_leb step f_zero then fail_ (RangeStepNotPositive name)
          else if f_ltb high low then fail_ (RangeMaxBelowMin name)
          else
            let count := Z.of_nat (length (range_values (mkRangeSpec name low high step))) in
            let too_many := if MAX_RANGE_VALUES <? count then [RangeTooManyValues name] else [] in
            see name (InRange name) ((errors ++ too_many), seen)
      | Some _, Some _, None => fail_ (RangeNeedsStep name)
      | _, _, _ => fail_ (RangeNeedsBounds name)
      end
  end.

Definition _range_errors (sp : space) (st : list space_error * seen_map)
    : list space_error * seen_map :=
  foldl range_error_step st (sorted_items (s_range sp)).

Definition _condition_errors (sp : space) (seen : seen_map) : list space_error :=
  let known k := bool_decide (is_Some (seen !! k)) || bool_decide (is_Some (s_base sp !! k)) in
  '(name, c) ← sort_by (key_before (key_of_string ∘ fst)) (conditions sp);
  (if known name then [] else [ConditionOnUnknown name])
  ++ ('(key, values) ← sort_by (key_before (key_of_string ∘ fst)) c;
      (if String.eqb key name then [ConditionOnItself name]
       else if known key then [] else [ConditionGatedOnUnknown name key])
      ++ (if nonempty (values : list scalar) then [] else [ConditionHasNoValues name key])).

Definition space_errors (sp : space) : list space_error :=
  let seen := (fun _ => InGrid) <$> _grid sp in
  let '(errors, seen) :=
    foldl (fun st '(i, g) => tied_group_errors (S i) g st) ([], seen)
          (imap pair (tied_groups sp)) in
  let '(errors, seen) := _range_errors sp (errors, seen) in
  (errors ++ _condition_errors sp seen
   ++ (if too_large sp then [SpaceTooLarge (axis_product sp)] else [])).

(** ** What pruning computes

    A config is closed when every parameter it still has meets its
    conditions.  Pruning answers the greatest closed part of a config. *)
Definition closed (declared : list (string * clause)) (cfg : config) : Prop :=
  forall name c, (name, c) ∈ declared -> is_Some (cfg !! name) -> clause_holds cfg c = true.

(** How many declared conditions are about a parameter still there. *)
Definition gated_left (declared : list (string * clause)) (cfg : config) : nat :=
  length (filter (fun nc : string * clause => is_Some (cfg !! nc.1)) declared).

(** ** Lemmas: pruning *)
Lemma clause_holds_mono (sub cfg : config) c :
  sub ⊆ cfg -> clause_holds sub c = true -> clause_holds cfg c = true.
Proof.
  unfold clause_holds. rewrite !forallb_forall. intros Hsub Hall [key values] Hin.
  specialize (Hall _ Hin). simpl in *.
  destruct (sub !! key) as [v|] eqn:E; [|done]. by rewrite (lookup_weaken _ _ _ _ E Hsub).
Qed.

Lemma prune_pass_cons name c declared active :
  prune_pass ((name, c) :: declared) active =
  if bool_decide (is_Some (active !! name)) && negb (clause_holds active c)
  then ((prune_pass declared (delete name active)).1, true)
  else prune_pass declared active.
Proof.
  unfold prune_pass. simpl.
  assert (forall l a, foldl (fun '(active, removed) '(name, c) =>
            match active !! name with
            | None => (active, removed)
            | Some _ => if clause_holds active c then (active, removed)
                        else (delete name active, true) end) (a, true) l
          = ((foldl (fun '(active, removed) '(name, c) =>
            match active !! name with
            | None => (active, removed)
            | Some _ => if clause_holds active c then (active, removed)
                        else (delete name active, true) end) (a, false) l).1, true)) as Htrue.
  { induction l as [|[n d] l IH]; intros a; simpl; [done|].
    destruct (a !! n); [|apply IH]. destruct (clause_holds a d); [apply IH|].
    rewrite IH. done. }
  destruct (active !! name) as [v|] eqn:E; simpl; [|done].
  destruct (clause_holds active c); simpl; [done|apply Htrue].
Qed.

Lemma prune_pass_subset declared active : (prune_pass declared active).1 ⊆ active.
Proof.
  revert active. induction declared as [|[n c] l IH]; intros active; [done|].
  rewrite prune_pass_cons. case_match; [|apply IH]. simpl.
  transitivity (delete n active); [apply IH|apply delete_subseteq].
Qed.

Lemma prune_pass_greatest declared active sub :
  closed declared sub -> sub ⊆ active -> sub ⊆ (prune_pass declared active).1.
Proof.
  revert active. induction declared as [|[n c] l IH]; intros active Hcl Hsub; [done|].
  assert (closed l sub) by (intros ? ? ?; apply Hcl; by right).
  rewrite prune_pass_cons. destruct (_ && _) eqn:E; [|by apply IH]. simpl.
  apply IH; [done|].
  apply andb_true_iff in E as [_ Hc]. apply negb_true_iff in Hc.
  assert (sub !! n = None) as Hn.
  { destruct (sub !! n) eqn:Hs; [|done].
    assert (clause_holds sub c = true) as Ht by (apply (Hcl n); [left|by rewrite Hs]).
    by rewrite (clause_holds_mono _ _ _ Hsub Ht) in Hc. }
  rewrite <-(delete_id sub n Hn). by apply delete_mono.
Qed.

Lemma prune_pass_stable declared active :
  (prune_pass declared active).2 = false ->
  (prune_pass declared active).1 = active /\ closed declared active.
Proof.
  induction declared as [|[n c] l IH]; intros Hr; [split; [done|by intros ? ? ?%not_elem_of_nil]|].
  rewrite prune_pass_cons in *. destruct (_ && _) eqn:E; [done|].
  destruct (IH Hr) as [Heq Hcl]. split; [done|].
  intros name d [[= -> ->]|Hin]%elem_of_cons Hs; [|by eapply Hcl].
  rewrite bool_decide_eq_true_2 in E by done. simpl in E. by apply negb_false_iff.
Qed.

Lemma gated_left_mono declared (sub cfg : config) :
  sub ⊆ cfg -> (gated_left declared sub <= gated_left declared cfg)%nat.
Proof.
  intros Hsub. unfold gated_left. induction declared as [|[n c] l IH]; simpl; [done|].
  rewrite !filter_cons. simpl. repeat case_decide; simpl; try lia.
  match goal with H : is_Some _, H' : ~ _ |- _ => destruct H as [v Hv]; destruct H' end.
  exists v. by eapply lookup_weaken.
Qed.

Lemma gated_left_delete declared n c (cfg : config) :
  (n, c) ∈ declared -> is_Some (cfg !! n) ->
  (gated_left declared (delete n cfg) < gated_left declared cfg)%nat.
Proof.
  intros Hin Hs. induction declared as [|[m d] l IH]; [by apply not_elem_of_nil in Hin|].
  unfold gated_left in *. rewrite !filter_cons. simpl.
  pose proof (gated_left_mono l (delete n cfg) cfg (delete_subseteq _ _)) as Hl.
  unfold gated_left in Hl.
  apply elem_of_cons in Hin as [[= <- <-]|Hin].
  - rewrite decide_False by (rewrite lookup_delete_eq; by intros []).
    rewrite decide_True by done. simpl. lia.
  - specialize (IH Hin).
    destruct (decide (is_Some (cfg !! m))) as [Hm|Hm].
    + destruct (decide (is_Some (delete n cfg !! m))); simpl; lia.
    + rewrite decide_False; [done|]. intros Hd. apply Hm.
      destruct Hd as [v Hv]. apply lookup_delete_Some in Hv as [_ Hv]. by exists v.
Qed.

Lemma prune_pass_shrinks declared active :
  (prune_pass declared active).2 = true ->
  (gated_left declared (prune_pass declared active).1 < gated_left declared active)%nat.
Proof.
  assert (forall pre l a, (prune_pass l a).2 = true ->
    (gated_left (pre ++ l) (prune_pass l a).1 < gated_left (pre ++ l) a)%nat) as Hgen.
  { intros pre l. revert pre. induction l as [|[n c] l IH]; intros pre a Hr; [done|].
    rewrite prune_pass_cons in *. destruct (_ && _) eqn:E.
    - apply andb_true_iff in E as [Hs _]. apply bool_decide_eq_true in Hs. simpl.
      eapply Nat.le_lt_trans.
      + apply gated_left_mono, prune_pass_subset.
      + apply (gated_left_delete _ n c); [|done]. apply elem_of_app. right. left.
    - specialize (IH (pre ++ [(n, c)]) a Hr). by rewrite <-app_assoc in IH. }
  apply (Hgen []).
Qed.

Lemma prune_loop_spec passes declared active :
  (gated_left declared active < passes)%nat ->
  prune_loop passes declared active ⊆ active /\
  closed declared (prune_loop passes declared active) /\
  forall sub, closed declared sub -> sub ⊆ active -> sub ⊆ prune_loop passes declared active.
Proof.
  revert active. induction passes as [|n IH]; intros active Hn; simpl; [lia|].
  pose proof (prune_pass_subset declared active) as Hsub.
  pose proof (prune_pass_greatest declared active) as Hgr.
  destruct (prune_pass declared active) as [active' [|]] eqn:E; simpl in *.
  - pose proof (prune_pass_shrinks declared active) as Hs. rewrite E in Hs. simpl in Hs.
    destruct (IH active') as (H1 & H2 & H3); [specialize (Hs eq_refl); lia|].
    split; [by transitivity active'|]. split; [done|]. intros sub Hc Hle. auto.
  - pose proof (prune_pass_stable declared active) as Hst. rewrite E in Hst. simpl in Hst.
    destruct (Hst eq_refl) as [-> Hc]. auto.
Qed.

Lemma gated_left_bound declared cfg : (gated_left declared cfg <= length declared)%nat.
Proof. apply length_filter. Qed.

Lemma prune_conditions_spec declared cfg :
  prune_conditions declared cfg ⊆ cfg /\
  closed declared (prune_conditions declared cfg) /\
  forall sub, closed declared sub -> sub ⊆ cfg -> sub ⊆ prune_conditions declared cfg.
Proof.
  unfold prune_conditions. destruct declared as [|nc l].
  - split; [done|]. split; [by intros ? ? ?%not_elem_of_nil|done].
  - apply prune_loop_spec. pose proof (gated_left_bound (nc :: l) cfg). lia.
Qed.

Lemma prune_conditions_id declared cfg : closed declared cfg -> prune_conditions declared cfg = cfg.
Proof.
  intros Hc. destruct (prune_conditions_spec declared cfg) as (Hsub & _ & Hgr).
  apply (anti_symm (⊆)); [done|]. by apply Hgr.
Qed.

Lemma prune_inactive_closed cfg sp : closed (conditions sp) (prune_inactive cfg sp).
Proof. apply prune_conditions_spec. Qed.

(** ** Lemmas: expansion *)
Lemma elem_of_dedupe seen l c : c ∈ dedupe seen l <-> c ∈ l /\ c ∉ seen.
Proof.
  revert seen. induction l as [|d l IH]; intros seen; simpl; [set_solver|].
  case_bool_decide as Hd; rewrite ?elem_of_cons, IH, ?elem_of_cons; [set_solver|].
  destruct (decide (c = d)); set_solver.
Qed.

Lemma NoDup_dedupe seen l : NoDup (dedupe seen l).
Proof.
  revert seen. induction l as [|d l IH]; intros seen; simpl; [constructor|].
  case_bool_decide; [apply IH|]. constructor; [|apply IH].
  rewrite elem_of_dedupe. set_solver.
Qed.

Lemma length_product {A} (l : list (list A)) :
  Z.of_nat (length (product l)) = foldl (fun total axis => total * Z.of_nat (length axis)) 1 l.
Proof.
  assert (forall l t, foldl (fun total (axis : list A) => total * Z.of_nat (length axis)) t l
                      = t * foldl (fun total axis => total * Z.of_nat (length axis)) 1 l) as Hacc.
  { induction l0 as [|a l0 IH]; intros t; simpl; [lia|]. rewrite IH, (IH (1 * _)). lia. }
  induction l as [|a l IH]; [done|]. cbn [product foldl]. rewrite Hacc, <-IH. clear IH Hacc.
  induction a as [|x a IHa]; [done|].
  change ((x :: a) ≫= (fun x => map (cons x) (product l)))
    with (map (cons x) (product l) ++ (a ≫= (fun x => map (cons x) (product l)))).
  rewrite length_app, length_map. cbn [length]. lia.
Qed.

Lemma elem_of_product {A} (l : list (list A)) combo :
  combo ∈ product l <-> Forall2 (fun x axis => x ∈ axis) combo l.
Proof.
  revert combo. induction l as [|axis l IH]; intros combo; simpl.
  - rewrite list_elem_of_singleton. split; [intros ->; constructor|by inversion 1].
  - rewrite list_elem_of_bind. split.
    + intros (x & (c & Hc & Hin)%list_elem_of_fmap & Hx). subst. constructor; [done|by apply IH].
    + inversion 1 as [|x ? c ? Hx Hc]; subst. exists x. split; [|done].
      apply list_elem_of_fmap. exists c. split; [done|by apply IH].
Qed.

Lemma expand_no_conditions sp :
  conditions sp = [] -> expand sp = map (merge_parts (s_base sp)) (product (axes sp)).
Proof. unfold expand. by intros ->. Qed.

Lemma expand_conditions sp c l :
  conditions sp = c :: l ->
  expand sp = dedupe [] (map (fun combo => prune_inactive (merge_parts (s_base sp) combo) sp)
                             (product (axes sp))).
Proof. unfold expand. intros ->. by rewrite map_map. Qed.

Lemma prune_inactive_no_conditions cfg sp : conditions sp = [] -> prune_inactive cfg sp = cfg.
Proof. unfold prune_inactive. by intros ->. Qed.

Lemma elem_of_expand sp cfg :
  cfg ∈ expand sp <->
  exists combo, Forall2 (fun part axis => part ∈ axis) combo (axes sp) /\
                cfg = prune_inactive (merge_parts (s_base sp) combo) sp.
Proof.
  destruct (conditions sp) as [|c l] eqn:E.
  - rewrite expand_no_conditions, list_elem_of_fmap by done.
    setoid_rewrite prune_inactive_no_conditions; [|done].
    setoid_rewrite elem_of_product. naive_solver.
  - erewrite expand_conditions by done. rewrite elem_of_dedupe, list_elem_of_fmap.
    setoid_rewrite elem_of_product. set_solver.
Qed.

Lemma length_dedupe seen l : (length (dedupe seen l) <= length l)%nat.
Proof.
  revert seen. induction l as [|d l IH]; intros seen; simpl; [done|].
  case_match; simpl; [specialize (IH seen)|specialize (IH (d :: seen))]; lia.
Qed.

Lemma length_range_loop fuel r d i : (length (range_loop fuel r d i) <= fuel)%nat.
Proof.
  revert i. induction fuel as [|n IH]; intros i; simpl; [done|].
  case_match; simpl; [lia|]. case_match; simpl; [lia|]. specialize (IH (i + 1)). lia.
Qed.

(** ** Lemmas: errors *)
Lemma see_errors key w st : exists extra, (see key w st).1 = st.1 ++ extra.
Proof.
  destruct st as [errors seen]. unfold see. case_match; simpl; eauto.
  exists []. by rewrite app_nil_r.
Qed.

Lemma range_error_step_errors st entry :
  exists extra, (range_error_step st entry).1 = st.1 ++ extra /\
    (forall r, range_spec_of entry.1 entry.2 = Some r -> extra = [] ->
       Z.of_nat (length (range_values r)) <= MAX_RANGE_VALUES).
Proof.
  destruct st as [errors seen], entry as [name d].
  unfold range_error_step, range_spec_of. cbn -[see].
  destruct d as [mn mx stp|]; [|eexists; by split].
  destruct (as_float mn) as [low|]; [|eexists; by split].
  destruct (as_float mx) as [high|]; [|eexists; by split].
  destruct (as_float stp) as [step|]; [|eexists; by split].
  destruct (f_leb step f_zero); [eexists; by split|].
  destruct (f_ltb high low); [eexists; by split|].
  set (too_many := if _ : bool then _ else _).
  destruct (see_errors name (InRange name) (errors ++ too_many, seen)) as [extra Hx].
  exists (too_many ++ extra). rewrite Hx. simpl. split; [by rewrite app_assoc|].
  intros r [= <-] [Ht _]%app_nil. subst too_many.
  destruct (Z.ltb_spec MAX_RANGE_VALUES
    (Z.of_nat (length (range_values (mkRangeSpec name low high step))))); [done|lia].
Qed.

Lemma range_errors_errors l st :
  exists extra, (foldl range_error_step st l).1 = st.1 ++ extra /\
    (extra = [] -> forall name d r, (name, d) ∈ l -> range_spec_of name d = Some r ->
       Z.of_nat (length (range_values r)) <= MAX_RANGE_VALUES).
Proof.
  revert st. induction l as [|[n d0] l IH]; intros st; simpl.
  - exists []. rewrite app_nil_r. split; [done|]. by intros _ ? ? ? ?%not_elem_of_nil.
  - destruct (range_error_step_errors st (n, d0)) as (e1 & He1 & Hb1).
    destruct (IH (range_error_step st (n, d0))) as (e2 & He2 & Hb2).
    exists (e1 ++ e2). rewrite He2, He1. split; [by rewrite app_assoc|].
    intros [-> ->]%app_nil name d r [[= -> ->]|Hin]%elem_of_cons Hr; [by apply Hb1|].
    by eapply Hb2.
Qed.

Lemma space_errors_nil sp :
  space_errors sp = [] ->
  too_large sp = false /\
  forall r, r ∈ range_specs sp -> Z.of_nat (length (range_values r)) <= MAX_RANGE_VALUES.
Proof.
  unfold space_errors, _range_errors.
  destruct (foldl (fun st '(i, g) => _) _ _) as [e0 seen0].
  destruct (range_errors_errors (sorted_items (s_range sp)) (e0, seen0)) as (e1 & He1 & Hb).
  destruct (foldl range_error_step _ _) as [e2 seen2]. simpl in He1. subst e2.
  intros [[_ H1]%app_nil [_ H2]%app_nil]%app_nil.
  split; [by destruct (too_large sp)|].
  intros r Hr. unfold range_specs in Hr. apply list_elem_of_omap in Hr as ([name d] & Hin & Hs).
  by eapply Hb.
Qed.

(** ** Properties *)

(** [prune_inactive] answers the greatest part of a config that meets every
    declared condition: a subset of the config, closed under the conditions,
    and above every other closed subset.  So it does not depend on the order
    the conditions were declared in, chained conditions are followed to the
    end, and its fixed number of passes is always enough. *)
Theorem prune_inactive_greatest (cfg : config) (sp : space) :
  prune_inactive cfg sp ⊆ cfg /\
  closed (conditions sp) (prune_inactive cfg sp) /\
  (forall sub, closed (conditions sp) sub -> sub ⊆ cfg -> sub ⊆ prune_inactive cfg sp) /\
  prune_inactive (prune_inactive cfg sp) sp = prune_inactive cfg sp.
Proof.
  destruct (prune_conditions_spec (conditions sp) cfg) as (H1 & H2 & H3).
  split; [done|]. split; [done|]. split; [done|].
  by apply prune_conditions_id.
Qed.

(** C16: with conditions, [expand] lists each distinct configuration once: no
    config appears twice, what it lists is exactly the pruned form of some
    choice of one part per axis over the base, and every config of it is
    unchanged by pruning. *)
Theorem expand_distinct_and_complete (sp : space) :
  (conditions sp <> [] -> NoDup (expand sp)) /\
  (forall cfg, cfg ∈ expand sp <->
     exists combo, Forall2 (fun part axis => part ∈ axis) combo (axes sp) /\
                   cfg = prune_inactive (merge_parts (s_base sp) combo) sp) /\
  (forall cfg, cfg ∈ expand sp -> prune_inactive cfg sp = cfg).
Proof.
  split; [|split].
  - destruct (conditions sp) as [|c l] eqn:E; [done|]. intros _.
    erewrite expand_conditions by done. apply NoDup_dedupe.
  - intros cfg. apply elem_of_expand.
  - intros cfg (combo & _ & ->)%elem_of_expand. apply prune_conditions_id, prune_inactive_closed.
Qed.

(** The count shown before a campaign starts is the number of candidates it
    expands to, for every space small enough to be saved. *)
Theorem candidate_count_is_expansion (sp : space) (Hsize : too_large sp = false) :
  candidate_count sp = Z.of_nat (length (expand sp)).
Proof.
  unfold candidate_count, too_large in *. apply Z.ltb_ge in Hsize.
  destruct (conditions sp) as [|c l] eqn:E.
  - rewrite expand_no_conditions, length_map by done. symmetry. apply length_product.
  - by rewrite (proj2 (Z.leb_le _ _) Hsize).
Qed.

(** A space the editor accepts can be enumerated: it expands to at most
    5000 configurations, and none of its ranges to more than 512 values. *)
Theorem accepted_space_is_bounded (sp : space) (Hok : space_errors sp = []) :
  Z.of_nat (length (expand sp)) <= MAX_SPACE_CANDIDATES /\
  forall r, r ∈ range_specs sp -> Z.of_nat (length (range_values r)) <= MAX_RANGE_VALUES.
Proof.
  apply space_errors_nil in Hok as [Hl Hr]. split; [|done].
  unfold too_large in Hl. apply Z.ltb_ge in Hl. etransitivity; [|exact Hl].
  destruct (conditions sp) as [|c l] eqn:E.
  - rewrite expand_no_conditions, length_map by done. unfold axis_product.
    by rewrite <-length_product.
  - erewrite expand_conditions by done. unfold axis_product. rewrite <-length_product.
    etransitivity; [apply Nat2Z.inj_le, length_dedupe|]. by rewrite length_map.
Qed.

(** ** A worked space: two grid axes, one gated on the other *)
Definition example_space : space :=
  Space true {[ "mem_fraction_static" := VFloat (f_of_ratio 9 10) ]}
    {[ "speculative_algorithm" := [VStr "EAGLE"; VStr "none"];
       "speculative_num_steps" := [VInt 1; VInt 2; VInt 3] ]}
    [] {[ "chunked_prefill_size" := RangeObject (VInt 2048) (VInt 8192) (VInt 2048) ]}
    [("speculative_num_steps", Clause [("speculative_algorithm", ManyValues [VStr "EAGLE"])])].

Lemma candidate_count_is_expansion_witness :
  too_large example_space = false /\ candidate_count example_space = 16.
Proof.
  split; [vm_compute; reflexivity|].
  rewrite (candidate_count_is_expansion example_space); vm_compute; reflexivity.
Defined.

Lemma accepted_space_is_bounded_witness :
  space_errors example_space = [] /\
  Z.of_nat (length (expand example_space)) <= MAX_SPACE_CANDIDATES.
Proof.
  assert (space_errors example_space = []) as Hok by (vm_compute; reflexivity).
  split; [exact Hok|]. exact (proj1 (accepted_space_is_bounded example_space Hok)).
Defined.

(** The values of a range are rounded to the decimals of its step, which
    can carry them out of the interval: the accepted range 0.85 to 0.95 by 0.1
    starts at 0.8, below its own minimum. *)
Theorem range_values_can_leave_the_interval :
  let sp := Space true ∅ ∅ [] {[ "mem_fraction_static" :=
              RangeObject (VStr "0.85") (VStr "0.95") (VStr "0.1") ]} [] in
  space_errors sp = [] /\
  exists r v x, r ∈ range_specs sp /\ head (range_values r) = Some v /\
    as_float v = Some x /\ f_ltb x (r_minimum r) = true /\ float_repr x = "0.8".
Proof.
  split; [vm_compute; reflexivity|].
  exists (mkRangeSpec "mem_fraction_static" (f_of_ratio 85 100) (f_of_ratio 95 100) (f_of_ratio 1 10)).
  eexists _, _.
  split; [rewrite list_elem_of_In; vm_compute; by left|].
  split; [vm_compute; reflexivity|]. split; [vm_compute; reflexivity|].
  split; vm_compute; reflexivity.
Qed.

(** A tied group with one empty column beside two full ones is accepted
    without an error, and its whole axis disappears: nothing of the group is
    swept, while [swept_keys] still names its parameters. *)
Theorem tied_group_with_empty_column_vanishes :
  let sp := Space true ∅ {[ "tp" := [VInt 1; VInt 2] ]}
              [ {[ "a" := [VInt 1; VInt 2]; "b" := [VInt 3; VInt 4]; "c" := [] ]} ] ∅ [] in
  space_errors sp = [] /\ candidate_count sp = 2 /\ swept_keys sp = ["a"; "b"; "c"; "tp"] /\
  forall cfg, cfg ∈ expand sp -> cfg !! "a" = None /\ cfg !! "b" = None.
Proof.
  split; [vm_compute; reflexivity|]. split; [vm_compute; reflexivity|].
  split; [vm_compute; reflexivity|].
  intros cfg Hin.
  assert (Forall (fun cfg : config => cfg !! "a" = None /\ cfg !! "b" = None)
            [ {[ "tp" := VInt 1 ]}; {[ "tp" := VInt 2 ]} ]) as Hall.
  { repeat constructor; vm_compute; reflexivity. }
  rewrite Forall_forall in Hall. apply Hall. revert Hin.
  match goal with |- cfg ∈ ?l -> _ =>
    assert (l = [ {[ "tp" := VInt 1 ]}; {[ "tp" := VInt 2 ]} ]) as -> by (vm_compute; reflexivity)
  end. done.
Qed.
