(* ===== verification/Validation.v ===== *)
(** Static validation of one candidate ([app/control/search/validation.py],
    [app/control/engines/env_keys.py], [app/control/search/parity.py]): how
    many cards a config occupies, and every reason it is refused before any
    machine time is spent.

    A rejection carries what its message names. *)
From Stdlib Require Import SpecFloat Ascii.
From S2P Require Import Prelude Float Values Documents Space.
#[local] Open Scope string_scope.
#[local] Open Scope list_scope.
#[local] Open Scope Z_scope.

(** ** Environment keys *)
Definition ENV_PREFIX : string := "env.".

Definition is_env_key (key : string) : bool := String.prefix ENV_PREFIX key.

Definition env_name (key : string) : string :=
  String.substring 4 (String.length key - 4) key.

Definition env_value (v : scalar) : string :=
  match v with
  | VBool b => if b then "1" else "0"
  | _ => str_of v
  end.

(** (engine args, environment). *)
Definition split_env (cfg : config) : config * gmap string string :=
  (filter (fun kv => is_env_key kv.1 = false) cfg,
   list_to_map (omap (fun '(k, v) => if is_env_key k then Some (env_name k, env_value v) else None)
                     (map_to_list cfg))).

Definition is_upper (c : ascii) : bool := (65 <=? code c) && (code c <=? 90).
Definition is_underscore (c : ascii) : bool := code c =? 95.

(** [re.match] of [^[A-Z_][A-Z0-9_]*$]: [$] also matches before one final
    newline. *)
Definition _NAME_SHAPE (name : string) : bool :=
  match chars name with
  | c :: rest =>
      let body := match reverse rest with
                  | l :: more => if code l =? 10 then reverse more else rest
                  | [] => rest
                  end in
      (is_upper c || is_underscore c)
      && forallb (fun d => is_upper d || is_underscore d || is_digit d) body
  | [] => false
  end.

(** [fnmatch.fnmatchcase], for patterns without a bracket. *)
Fixpoint glob (p s : list ascii) : bool :=
  match p with
  | [] => match s with [] => true | _ => false end
  | "*"%char :: p' =>
      (fix star (s : list ascii) : bool :=
         glob p' s || match s with [] => false | _ :: s' => star s' end) s
  | "?"%char :: p' => match s with [] => false | _ :: s' => glob p' s' end
  | c :: p' => match s with [] => false | d :: s' => Ascii.eqb c d && glob p' s' end
  end.

Definition fnmatchcase (name pattern : string) : bool := glob (chars pattern) (chars name).

(** The [never] list of [engines/labels/common.yaml], its prefix dropped. *)
Definition PLACEMENT_ENV : list string :=
  ["CUDA_VISIBLE_DEVICES"; "NVIDIA_VISIBLE_DEVICES"; "HIP_VISIBLE_DEVICES";
   "ROCR_VISIBLE_DEVICES"; "ASCEND_RT_VISIBLE_DEVICES";
   "MASTER_ADDR"; "MASTER_PORT"; "RANK"; "LOCAL_RANK"; "WORLD_SIZE"; "NODE_RANK";
   "NCCL_SOCKET_IFNAME"; "GLOO_SOCKET_IFNAME"; "NCCL_IB_HCA"; "*_HOST_IP"; "*_PORT";
   "PATH"; "LD_LIBRARY_PATH"; "PYTHONPATH"; "HOME";
   "*_TOKEN"; "*SECRET*"; "*PASSWORD*"; "*_API_KEY"; "*ACCESS_KEY*"].

Definition placement_env (name : string) : option string :=
  List.find (fnmatchcase name) PLACEMENT_ENV.

Inductive env_problem :=
| EnvBadKey (key : string)
| EnvPlacement (key pattern : string)
| EnvNotRenderable (key : string)
| EnvEmptyString (key : string).

Definition env_problem_of (key : string) (value : scalar) : option env_problem :=
  if negb (is_env_key key) then None
  else
    let name := env_name key in
    if negb (_NAME_SHAPE name) then Some (EnvBadKey key)
    else
      match placement_env name with
      | Some pattern => Some (EnvPlacement key pattern)
      | None =>
          match value with
          | VNone => Some (EnvNotRenderable key)
          | VStr s => if String.eqb (strip s) "" then Some (EnvEmptyString key) else None
          | _ => None
          end
      end.

(** In the order of the config's items. *)
Definition env_problems (cfg : config) : list env_problem :=
  omap (fun '(key, value) => env_problem_of key value) (map_to_list cfg).

(** ** Cards *)
Record ValidationContext := mkValidationContext {
  gpu_count : Z;
  v_engine : string;
  v_nodes : Z;
}.

Definition _TP_KEYS := ["tp"; "tp_size"; "tensor_parallel_size"].
Definition _DP_KEYS := ["dp"; "dp_size"; "data_parallel_size"].
Definition _PP_KEYS := ["pp"; "pp_size"; "pipeline_parallel_size"].
Definition _EP_KEYS := ["ep"; "ep_size"; "expert_parallel_size"].
Definition _DP_ATTENTION_KEYS := ["enable_dp_attention"; "enable_dp_attn"].

(** The first of the keys the config holds. *)
Definition first_present (args : config) (keys : list string) : option scalar :=
  head (omap (fun key => args !! key) keys).

Definition _first_int (args : config) (keys : list string) : Z :=
  match first_present args keys with
  | Some v => default 1 (int_or_none v)
  | None => 1
  end.

Definition _flag_on (args : config) (keys : list string) : bool :=
  match first_present args keys with
  | Some (VStr s) =>
      negb (existsb (String.eqb (lower (strip s))) [""; "false"; "0"; "no"; "off"])
  | Some v => truthy v
  | None => false
  end.

Definition cards_used (args : config) : Z :=
  let tp := Z.max 1 (_first_int args _TP_KEYS) in
  let dp := Z.max 1 (_first_int args _DP_KEYS) in
  let pp := Z.max 1 (_first_int args _PP_KEYS) in
  if _flag_on args _DP_ATTENTION_KEYS then tp * pp else tp * dp * pp.

(** The cards of the largest config of a space; 0 when it has none. *)
Definition widest_cards (sp : space) : Z :=
  match map cards_used (expand sp) with
  | [] => 0
  | n :: rest => foldl Z.max n rest
  end.

(** ** Checks *)
Inductive rejection :=
| EnvRejected (p : env_problem)
| NotWholeNumber (key : string) (value : scalar)
| BelowOne (key : string)
| DpAttentionDivides (dp tp : Z)
| NeedsMoreCards (needed have : Z)
| MultiNodeUnsupported (engine : string)
| WorldDoesNotDivide (world nodes : Z)
| ExpertsExceedWorld (ep world : Z)
| MemFractionNotNumber (value : scalar)
| MemFractionOutside (fraction : float).

Definition CheckFn : Type := config -> ValidationContext -> option rejection.

Definition _check_parallelism_fits : CheckFn := fun args ctx =>
  if gpu_count ctx <=? 0 then None
  else
    let needed := cards_used args in
    if gpu_count ctx <? needed then Some (NeedsMoreCards needed (gpu_count ctx)) else None.

Definition _check_dp_attention_divides_tp : CheckFn := fun args ctx =>
  if negb (_flag_on args _DP_ATTENTION_KEYS) then None
  else
    let tp := Z.max 1 (_first_int args _TP_KEYS) in
    let dp := Z.max 1 (_first_int args _DP_KEYS) in
    if negb (tp mod dp =? 0) then Some (DpAttentionDivides dp tp) else None.

Definition _check_expert_parallel_fits : CheckFn := fun args ctx =>
  match first_present args _EP_KEYS with
  | None => None
  | Some _ =>
      let ep := _first_int args _EP_KEYS in
      let world := cards_used args in
      if world <? ep then Some (ExpertsExceedWorld ep world) else None
  end.

(** [float(raw)]: unlike [_as_float], a bool is 0 or 1.  An integer beyond the
    doubles reads as an infinity, which the check refuses; [float()] raises. *)
Definition py_float (v : scalar) : option float :=
  match v with
  | VBool b => Some (f_of_Z (bool_int b))
  | _ => as_float v
  end.

Definition _check_mem_fraction : CheckFn := fun args ctx =>
  let raw := match args !! "mem_fraction_static" with
             | Some v => v
             | None => default VNone (args !! "gpu_memory_utilization")
             end in
  match raw with
  | VNone => None
  | _ =>
      match py_float raw with
      | None => Some (MemFractionNotNumber raw)
      | Some frac =>
          if negb (f_leb (f_of_ratio 1 10) frac && f_leb frac (f_of_ratio 99 100))
          then Some (MemFractionOutside frac) else None
      end
  end.

Definition positive_keys : list string :=
  _TP_KEYS ++ _DP_KEYS ++ _PP_KEYS ++ _EP_KEYS ++ ["max_running_requests"].

Definition positive_int_error (args : config) (key : string) : option rejection :=
  match args !! key with
  | None => None
  | Some v =>
      match int_or_none v with
      | None => Some (NotWholeNumber key v)
      | Some parsed => if parsed <? 1 then Some (BelowOne key) else None
      end
  end.

Definition _check_positive_ints : CheckFn := fun args ctx =>
  head (omap (positive_int_error args) positive_keys).

Definition _check_multi_node_shape : CheckFn := fun args ctx =>
  if v_nodes ctx <=? 1 then None
  else if negb (String.eqb (v_engine ctx) "sglang") then Some (MultiNodeUnsupported (v_engine ctx))
  else
    let world := cards_used args in
    if negb (world mod v_nodes ctx =? 0) then Some (WorldDoesNotDivide world (v_nodes ctx))
    else None.

Definition _check_env_keys : CheckFn := fun args ctx =>
  EnvRejected <$> head (env_problems args).

Definition CHECKS : list CheckFn :=
  [ _check_env_keys; _check_positive_ints; _check_dp_attention_divides_tp;
    _check_parallelism_fits; _check_multi_node_shape; _check_expert_parallel_fits;
    _check_mem_fraction ].

Definition validate_config (args : config) (ctx : ValidationContext) : option rejection :=
  head (omap (fun check : CheckFn => check args ctx) CHECKS).

(** ** What production sets and a campaign never mentions ([parity.py])

    [placement] are the flags of [engine_command.py:PLACEMENT_FLAGS]. *)
Definition missing_flags (placement : list string) (cfg production : config)
    : list (string * scalar) :=
  where_ (fun kv => negb (bool_decide (kv.1 ∈ placement))
                    && bool_decide (cfg !! kv.1 = None))
         (sorted_items production).

(** ** What a launchable config is

    Stated on the values the config holds, without the checks and without the
    helpers they share. *)

(** A shell pattern: [*] stands for any characters, [?] for one. *)
Inductive Glob : list ascii -> list ascii -> Prop :=
| Glob_end : Glob [] []
| Glob_star p s t : Glob p t -> Glob ("*"%char :: p) (s ++ t)
| Glob_any p c s : Glob p s -> Glob ("?"%char :: p) (c :: s)
| Glob_char p c s : c <> "*"%char -> c <> "?"%char -> Glob p s -> Glob (c :: p) (c :: s).

(** A variable's name: a capital or an underscore, then capitals, digits and
    underscores.  [tail] is what [$] lets through: nothing or one newline. *)
Definition variable_name (name : string) : Prop :=
  exists c body tail,
    chars name = c :: body ++ tail /\ (tail = [] \/ tail = ["010"%char]) /\
    (is_upper c = true \/ c = "_"%char) /\
    Forall (fun d => is_upper d = true \/ d = "_"%char \/ is_digit d = true) body.

(** A whole number: an integer, a float equal to one, or a string that reads
    as one.  A switch is not a number. *)
Definition whole (v : scalar) (n : Z) : Prop :=
  match v with
  | VInt z => z = n
  | VFloat x => int_eqb_float n x = true
  | VStr s => parse_int s = Some n
  | _ => False
  end.

(** The first of several spellings of one flag that the config uses. *)
Definition first_named (args : config) (keys : list string) (v : scalar) : Prop :=
  exists before key after, keys = before ++ key :: after /\
    (forall other, other ∈ before -> args !! other = None) /\ args !! key = Some v.

Definition unnamed (args : config) (keys : list string) : Prop :=
  forall key, key ∈ keys -> args !! key = None.

(** The degree of one kind of parallelism: 1 where the config is silent. *)
Definition degree (args : config) (keys : list string) (n : Z) : Prop :=
  (exists v, first_named args keys v /\ whole v n) \/ (unnamed args keys /\ n = 1).

Definition on_value (v : scalar) : Prop :=
  match v with
  | VNone => False
  | VBool b => b = true
  | VInt z => z <> 0
  | VFloat x => int_eqb_float 0 x = false
  | VStr s => lower (strip s) ∉ [""; "false"; "0"; "no"; "off"]
  end.

Definition attention_folded (args : config) : Prop :=
  exists v, first_named args ["enable_dp_attention"; "enable_dp_attn"] v /\ on_value v.

(** The share of a card's memory the config asks for. *)
Definition memory_asked (args : config) (v : scalar) : Prop :=
  args !! "mem_fraction_static" = Some v \/
  (args !! "mem_fraction_static" = None /\ args !! "gpu_memory_utilization" = Some v).

Definition sane_share (v : scalar) : Prop :=
  exists x,
    match v with
    | VBool b => x = f_of_Z (if b then 1 else 0)
    | VInt z => x = f_of_Z z
    | VFloat y => x = y
    | VStr s => parse_float s = Some x
    | VNone => False
    end /\
    f_leb (f_of_ratio 1 10) x = true /\ f_leb x (f_of_ratio 99 100) = true.

Definition tp_spellings := ["tp"; "tp_size"; "tensor_parallel_size"].
Definition dp_spellings := ["dp"; "dp_size"; "data_parallel_size"].
Definition pp_spellings := ["pp"; "pp_size"; "pipeline_parallel_size"].
Definition ep_spellings := ["ep"; "ep_size"; "expert_parallel_size"].
Definition counted : list string :=
  tp_spellings ++ dp_spellings ++ pp_spellings ++ ep_spellings ++ ["max_running_requests"].

Record launchable (args : config) (ctx : ValidationContext) (cards : Z) : Prop := {
  l_env name v : args !! ("env." +:+ name) = Some v ->
    variable_name name /\
    (forall p, p ∈ PLACEMENT_ENV -> ~ Glob (chars p) (chars name)) /\
    v <> VNone /\ (forall s, v = VStr s -> strip s <> "");
  l_counted key v : key ∈ counted -> args !! key = Some v -> exists n, whole v n /\ 1 <= n;
  l_cards : exists tp dp pp,
    degree args tp_spellings tp /\ degree args dp_spellings dp /\ degree args pp_spellings pp /\
    ((attention_folded args /\ (dp | tp) /\ cards = tp * pp) \/
     (~ attention_folded args /\ cards = tp * dp * pp));
  l_fits : 0 < gpu_count ctx -> cards <= gpu_count ctx;
  l_nodes : 1 < v_nodes ctx -> v_engine ctx = "sglang" /\ (v_nodes ctx | cards);
  l_experts ep : degree args ep_spellings ep -> ep <= cards;
  l_memory v : memory_asked args v -> v = VNone \/ sane_share v;
}.

(** No count is a float with a fraction (or an infinity, of which [int()]
    raises). *)
Definition no_fractions (args : config) : Prop :=
  forall key x, key ∈ counted -> args !! key = Some (VFloat x) -> exists n, int_eqb_float n x = true.

(** ** Lemmas *)
Lemma cards_used_positive (args : config) : 1 <= cards_used args.
Proof. unfold cards_used. case_match; nia. Qed.

Lemma env_check_None (args : config) ctx :
  _check_env_keys args ctx = None <->
  forall key v, args !! key = Some v -> env_problem_of key v = None.
Proof.
  unfold _check_env_keys, env_problems. rewrite fmap_None, head_omap_None. split.
  - intros H key v Hk. apply (H (key, v)). by apply elem_of_map_to_list.
  - intros H [key v] Hk%elem_of_map_to_list. by apply H.
Qed.

Lemma placement_env_None name :
  placement_env name = None <-> forall p, p ∈ PLACEMENT_ENV -> fnmatchcase name p = false.
Proof.
  unfold placement_env. split.
  - intros H p Hp. apply list_elem_of_In in Hp. by apply (List.find_none _ _ H).
  - intros H. destruct (List.find _ _) as [p|] eqn:E; [|done].
    apply List.find_some in E as [Hin Hm]. apply list_elem_of_In in Hin.
    by rewrite (H p Hin) in Hm.
Qed.

(** ** The specification and the code's reading of the values *)
Lemma glob_iff p s : glob p s = true <-> Glob p s.
Proof.
  revert s. induction p as [|c p IH]; intros s.
  { destruct s; simpl; split; intros H; (done || constructor || inversion H). }
  assert (Hstar : forall s, (fix star (s : list ascii) : bool :=
            glob p s || match s with [] => false | _ :: s' => star s' end) s = true
            <-> exists a t, s = a ++ t /\ Glob p t).
  { clear s. intros s. induction s as [|d s IHs]; rewrite orb_true_iff, IH.
    - split; [intros [?|?]; [by exists [], []|done]|].
      intros (a & t & Heq & ?). symmetry in Heq. apply app_eq_nil in Heq as [-> ->]. by left.
    - rewrite IHs. split.
      + intros [?|(a & t & -> & ?)]; [by exists [], (d :: s)|by exists (d :: a), t].
      + intros ([|d' a] & t & Heq & ?); simplify_list_eq; [by left|right; eauto]. }
  destruct (decide (c = "*"%char)) as [->|Hs].
  { cbn [glob]. rewrite Hstar. split.
    - intros (a & t & -> & ?). by constructor.
    - inversion 1; subst; [eauto|done]. }
  destruct (decide (c = "?"%char)) as [->|Hq].
  { cbn [glob]. split.
    - destruct s; [done|]. intros ?%IH. by constructor.
    - inversion 1; subst; [by apply IH|done]. }
  assert (Hc : glob (c :: p) s = match s with [] => false | d :: s' => Ascii.eqb c d && glob p s' end).
  { destruct c as [[] [] [] [] [] [] [] []]; cbn [glob]; done. }
  rewrite Hc. split.
  - destruct s as [|d s]; [done|]. intros [->%Ascii.eqb_eq ?%IH]%andb_true_iff. by constructor.
  - inversion 1; subst; try done. by rewrite Ascii.eqb_refl, (proj2 (IH _)).
Qed.

Lemma code_eqb c k d : code d = k -> (code c =? k) = true <-> c = d.
Proof.
  intros <-. rewrite Z.eqb_eq. split; [|by intros ->]. unfold code. intros H.
  rewrite <-(ascii_nat_embedding c), <-(ascii_nat_embedding d). f_equal. lia.
Qed.

Definition cut_newline (rest : list ascii) : list ascii :=
  match reverse rest with
  | l :: more => if code l =? 10 then reverse more else rest
  | [] => rest
  end.

Lemma cut_newline_cases rest :
  (exists body, rest = body ++ ["010"%char] /\ cut_newline rest = body) \/
  (cut_newline rest = rest /\ forall body, rest <> body ++ ["010"%char]).
Proof.
  unfold cut_newline. destruct (reverse rest) as [|l more] eqn:Hr;
    apply (f_equal reverse) in Hr; rewrite reverse_involutive in Hr; subst rest.
  { right. split; [done|]. by intros [|??]. }
  rewrite reverse_cons. destruct (code l =? 10) eqn:Hl.
  - left. exists (reverse more). split; [|done]. f_equal. f_equal. by apply (code_eqb l 10).
  - right. split; [done|]. intros body [_ [= ->]]%app_inj_tail. by vm_compute in Hl.
Qed.

Lemma variable_name_iff name : _NAME_SHAPE name = true <-> variable_name name.
Proof.
  unfold _NAME_SHAPE, variable_name, is_underscore.
  assert (Hb : forall body, forallb (fun d => is_upper d || (code d =? 95) || is_digit d) body = true <->
            Forall (fun d => is_upper d = true \/ d = "_"%char \/ is_digit d = true) body).
  { intros body. rewrite List.forallb_forall, List.Forall_forall. split; intros H d Hd; specialize (H d Hd).
    - rewrite !orb_true_iff, (code_eqb d 95 "_"%char eq_refl) in H. tauto.
    - rewrite !orb_true_iff, (code_eqb d 95 "_"%char eq_refl). tauto. }
  destruct (chars name) as [|c rest]; [split; [done|]; by intros (? & ? & ? & ? & _)|].
  fold (cut_newline rest). rewrite andb_true_iff, orb_true_iff, (code_eqb c 95 "_"%char eq_refl), Hb.
  destruct (cut_newline_cases rest) as [(body & -> & ->)|[-> Hno]]; split.
  - intros [Hc Hf]. exists c, body, ["010"%char]. auto.
  - intros (c' & body' & tail & [= <- Heq] & [->| ->] & Hc & Hf); (split; [done|]).
    + rewrite app_nil_r in Heq. subst. by apply Forall_app in Hf as [? _].
    + by apply app_inj_tail in Heq as [-> _].
  - intros [Hc Hf]. exists c, rest, []. rewrite app_nil_r. auto.
  - intros (c' & body' & tail & [= <- Heq] & [->| ->] & Hc & Hf); (split; [done|]).
    + by rewrite app_nil_r in Heq; subst.
    + by destruct (Hno body').
Qed.

Lemma prefix_rest p s :
  String.prefix p s = true ->
  s = p +:+ String.substring (String.length p) (String.length s - String.length p) s.
Proof.
  revert s. induction p as [|c p IH]; intros s H.
  { clear H. cbn [String.length String.append]. rewrite Nat.sub_0_r.
    induction s as [|c s IH]; [done|]. exact (f_equal (String c) IH). }
  destruct s as [|d s]; [done|]. simpl in H. destruct (ascii_dec c d) as [->|]; [|done].
  exact (f_equal (String d) (IH s H)).
Qed.

Lemma env_key_app name : is_env_key ("env." +:+ name) = true /\ env_name ("env." +:+ name) = name.
Proof.
  assert (H : is_env_key ("env." +:+ name) = true).
  { unfold is_env_key, ENV_PREFIX. by destruct name. }
  split; [done|]. apply prefix_rest in H. unfold env_name. unfold ENV_PREFIX in H.
  injection H as H. by symmetry.
Qed.

Lemma env_key_cases key : is_env_key key = true -> key = "env." +:+ env_name key.
Proof. apply prefix_rest. Qed.

Lemma placement_iff name :
  (forall p, p ∈ PLACEMENT_ENV -> fnmatchcase name p = false) <->
  (forall p, p ∈ PLACEMENT_ENV -> ~ Glob (chars p) (chars name)).
Proof.
  unfold fnmatchcase. split; intros H p Hp; specialize (H p Hp).
  - intros HG%glob_iff. by rewrite H in HG.
  - destruct (glob (chars p) (chars name)) eqn:E; [|done]. by apply glob_iff in E.
Qed.

(** *** Numbers *)
Lemma trunc_exact x n : int_eqb_float n x = true -> int_or_none (VFloat x) = Some n.
Proof.
  destruct x as [s|s| |s m e]; simpl; try done.
  - intros ->%Z.eqb_eq. done.
  - destruct (Z.leb_spec 0 e); intros Hn%Z.eqb_eq; f_equal.
    + subst n. destruct s; lia.
    + assert (0 < 2 ^ (- e)) by (apply Z.pow_pos_nonneg; lia).
      destruct s.
      * assert (Z.pos m = (- n) * 2 ^ (- e)) as -> by lia. rewrite Z.div_mul by lia. lia.
      * assert (Z.pos m = n * 2 ^ (- e)) as -> by lia. rewrite Z.div_mul by lia. lia.
Qed.

Lemma whole_reads v n : whole v n -> int_or_none v = Some n.
Proof.
  destruct v; simpl; try done; [by intros ->|]. apply trunc_exact.
Qed.

Lemma whole_iff args key v n :
  no_fractions args -> key ∈ counted -> args !! key = Some v ->
  int_or_none v = Some n <-> whole v n.
Proof.
  intros Hnf Hkey Hv. split; [|apply whole_reads].
  destruct v as [| | |x|]; simpl; try done; [by intros [= ->]|].
  destruct (Hnf key x Hkey Hv) as [m Hm]. pose proof (trunc_exact _ _ Hm) as Hi.
  change (int_or_none (VFloat x) = Some n -> int_eqb_float n x = true).
  rewrite Hi. by intros [= <-].
Qed.

Lemma first_present_Some args keys v :
  first_present args keys = Some v <-> first_named args keys v.
Proof.
  unfold first_present, first_named. induction keys as [|k keys IH]; simpl.
  { split; [done|]. by intros ([|??] & ? & ? & ? & _). }
  destruct (args !! k) as [w|] eqn:Hk.
  - simpl. split.
    + intros [= ->]. exists [], k, keys. split_and!; [done|by intros ? ?%not_elem_of_nil|done].
    + intros ([|b before] & key & after & Heq & Hb & Hv); simplify_eq/=; [congruence|].
      rewrite Hb in Hk; [done|left].
  - rewrite IH. split.
    + intros (before & key & after & -> & Hb & Hv). exists (k :: before), key, after.
      split_and!; [done| |done]. intros o [->|Ho]%elem_of_cons; auto.
    + intros ([|b before] & key & after & Heq & Hb & Hv); simplify_eq/=.
      exists before, key, after. split_and!; [done| |done]. intros o Ho. apply Hb. by right.
Qed.

Lemma flag_on_iff args :
  _flag_on args _DP_ATTENTION_KEYS = true <-> attention_folded args.
Proof.
  unfold _flag_on, attention_folded.
  change ["enable_dp_attention"; "enable_dp_attn"] with _DP_ATTENTION_KEYS.
  destruct (first_present args _DP_ATTENTION_KEYS) as [v|] eqn:E.
  - assert (Hv : (match v with
                  | VStr s => negb (existsb (String.eqb (lower (strip s))) [""; "false"; "0"; "no"; "off"])
                  | _ => truthy v end = true) <-> on_value v).
    { destruct v as [|b|z|x|s]; simpl; try done.
      - rewrite negb_true_iff, Z.eqb_neq. done.
      - destruct x as [| | |s m e]; [done..|]. cbn [truthy on_value]. unfold int_eqb_float. cbv zeta.
        split; [intros _|done]. destruct (Z.leb_spec 0 e); apply Z.eqb_neq; [|destruct s; lia].
        assert (0 < 2 ^ e) by (apply Z.pow_pos_nonneg; lia). destruct s; nia.
      - rewrite negb_true_iff, <-not_true_iff_false. apply not_iff_compat.
        transitivity (existsb (String.eqb (lower (strip s))) [""; "false"; "0"; "no"; "off"] = true); [done|].
        rewrite List.existsb_exists. split.
        + intros (x & Hx & ->%String.eqb_eq). by apply list_elem_of_In.
        + intros Hx. exists (lower (strip s)). rewrite String.eqb_refl. by rewrite <-list_elem_of_In. }
    rewrite <-first_present_Some in E || idtac.
    transitivity (on_value v); [by destruct v|]. split.
    + intros Ho. exists v. by apply first_present_Some in E.
    + intros (w & Hw & Ho). apply first_present_Some in Hw. by simplify_eq.
  - split; [done|]. intros (w & Hw%first_present_Some & _). by simplify_eq.
Qed.
Lemma env_problem_None key v :
  env_problem_of key v = None <->
  (is_env_key key = true ->
   _NAME_SHAPE (env_name key) = true /\
   (forall p, p ∈ PLACEMENT_ENV -> fnmatchcase (env_name key) p = false) /\
   v <> VNone /\ (forall s, v = VStr s -> strip s <> "")).
Proof.
  unfold env_problem_of. rewrite <-placement_env_None.
  destruct (is_env_key key); simpl; [|by split].
  destruct (_NAME_SHAPE (env_name key)); simpl; [|split; [done|by intros [? _]]].
  destruct (placement_env (env_name key)); [split; [done|by intros (_ & ? & _)]|].
  destruct v as [| | | |s]; try by split.
  - split; [done|]. intros H. by destruct H as (_ & _ & ? & _).
  - destruct (String.eqb_spec (strip s) "") as [E|E]; split; try done.
    + intros H. destruct H as (_ & _ & _ & Hs); [done|]. by destruct (Hs s).
    + intros _ _. split_and!; [done|done|done|]. by intros ? [= <-].
Qed.

Lemma positive_ints_None (args : config) ctx :
  _check_positive_ints args ctx = None <->
  forall key v, key ∈ positive_keys -> args !! key = Some v ->
    exists n, int_or_none v = Some n /\ 1 <= n.
Proof.
  unfold _check_positive_ints. rewrite head_omap_None. unfold positive_int_error. split.
  - intros H key v Hin Hk. specialize (H key Hin). rewrite Hk in H.
    destruct (int_or_none v) as [n|]; [|done]. exists n. split; [done|].
    by destruct (Z.ltb_spec n 1).
  - intros H key Hin. destruct (args !! key) as [v|] eqn:Hk; [|done].
    destruct (H key v Hin Hk) as (n & -> & Hn). by destruct (Z.ltb_spec n 1); [lia|].
Qed.

Lemma divides_mod (a b : Z) : 1 <= a -> (b mod a =? 0) = true <-> (a | b).
Proof. intros Ha. rewrite Z.eqb_eq. apply Z.mod_divide. lia. Qed.

Lemma first_present_None (args : config) keys :
  first_present args keys = None <-> forall key, key ∈ keys -> args !! key = None.
Proof. apply head_omap_None. Qed.

Lemma attention_None (args : config) ctx :
  _check_dp_attention_divides_tp args ctx = None <->
  (_flag_on args _DP_ATTENTION_KEYS = true ->
   (Z.max 1 (_first_int args _DP_KEYS) | Z.max 1 (_first_int args _TP_KEYS))).
Proof.
  unfold _check_dp_attention_divides_tp. rewrite <-divides_mod by lia.
  destruct (_flag_on _ _); simpl; [|by split].
  destruct (_ mod _ =? 0); simpl; split; try done. by intros H; discriminate H.
Qed.

Lemma fits_None (args : config) ctx :
  _check_parallelism_fits args ctx = None <->
  (0 < gpu_count ctx -> cards_used args <= gpu_count ctx).
Proof.
  unfold _check_parallelism_fits. cbv zeta.
  destruct (Z.leb_spec (gpu_count ctx) 0); [split; [lia|done]|].
  destruct (Z.ltb_spec (gpu_count ctx) (cards_used args)); split; try done; lia.
Qed.

Lemma nodes_None (args : config) ctx :
  _check_multi_node_shape args ctx = None <->
  (1 < v_nodes ctx -> v_engine ctx = "sglang" /\ (v_nodes ctx | cards_used args)).
Proof.
  unfold _check_multi_node_shape. cbv zeta.
  destruct (Z.leb_spec (v_nodes ctx) 1); [split; [lia|done]|].
  rewrite <-divides_mod by lia.
  destruct (String.eqb_spec (v_engine ctx) "sglang") as [E|E]; simpl.
  - destruct (_ mod _ =? 0); simpl; split; try done. intros Hs. by destruct Hs.
  - split; [done|]. intros Hs. by destruct Hs.
Qed.

(** *** What passing every check amounts to *)
Lemma degree_iff args keys n :
  no_fractions args -> (forall key, key ∈ keys -> key ∈ counted) ->
  (forall key v, key ∈ counted -> args !! key = Some v -> exists m, int_or_none v = Some m /\ 1 <= m) ->
  degree args keys n <-> n = _first_int args keys.
Proof.
  intros Hnf Hin Hpos. unfold degree, _first_int, unnamed.
  destruct (first_present args keys) as [v|] eqn:E.
  - pose proof E as (before & key & after & -> & _ & Hv)%first_present_Some.
    assert (Hc : key ∈ counted) by (apply Hin, elem_of_app; right; left).
    destruct (Hpos key v Hc Hv) as (m & Hm & _). rewrite Hm. simpl. split.
    + intros [(w & Hw%first_present_Some & Hn)|[Hno _]].
      * rewrite E in Hw. injection Hw as <-. apply whole_reads in Hn. congruence.
      * rewrite Hno in Hv; [done|]. apply elem_of_app. right. left.
    + intros ->. left. exists v. split; [by apply first_present_Some|].
      by apply (whole_iff args key).
  - split.
    + intros [(w & Hw%first_present_Some & _)|[_ ?]]; [congruence|done].
    + intros ->. right. split; [|done]. by apply first_present_None.
Qed.

Lemma first_int_positive args keys :
  (forall key, key ∈ keys -> key ∈ counted) ->
  (forall key v, key ∈ counted -> args !! key = Some v -> exists m, int_or_none v = Some m /\ 1 <= m) ->
  1 <= _first_int args keys.
Proof.
  intros Hin Hpos. unfold _first_int. destruct (first_present args keys) as [v|] eqn:E; [|done].
  apply first_present_Some in E as (before & key & after & -> & _ & Hv).
  destruct (Hpos key v) as (m & -> & ?); [|done|done]. apply Hin, elem_of_app. right. left.
Qed.

Lemma spelled_counted keys key :
  keys ∈ [tp_spellings; dp_spellings; pp_spellings; ep_spellings] -> key ∈ keys -> key ∈ counted.
Proof.
  unfold counted. intros Hk Hkey. rewrite !elem_of_app.
  repeat (apply elem_of_cons in Hk as [->|Hk]; [tauto|]). by apply not_elem_of_nil in Hk.
Qed.

Lemma memory_iff args ctx :
  _check_mem_fraction args ctx = None <-> forall v, memory_asked args v -> v = VNone \/ sane_share v.
Proof.
  unfold _check_mem_fraction, memory_asked.
  set (verdict := fun raw => match raw with
    | VNone => None
    | _ => match py_float raw with
           | None => Some (MemFractionNotNumber raw)
           | Some frac => if negb (f_leb (f_of_ratio 1 10) frac && f_leb frac (f_of_ratio 99 100))
                          then Some (MemFractionOutside frac) else None
           end
    end).
  assert (Hone : forall v, verdict v = None <-> v = VNone \/ sane_share v).
  { intros v. unfold sane_share.
    assert (Hf : forall lo hi o, match o with
              | None => Some (MemFractionNotNumber v)
              | Some frac => if negb (f_leb lo frac && f_leb frac hi)
                             then Some (MemFractionOutside frac) else None
              end = None <-> exists x, o = Some x /\ f_leb lo x = true /\ f_leb x hi = true).
    { intros lo hi [x|]; [|by split; [|intros (? & ? & _)]].
      destruct (f_leb lo x) eqn:E1, (f_leb x hi) eqn:E2; cbn [negb andb]; (split; [intros Hx; try discriminate Hx|]).
      all: try (intros (y & [= <-] & H1 & H2); congruence). by exists x. }
    revert verdict. generalize (f_of_ratio 1 10) (f_of_ratio 99 100). intros lo hi verdict.
    destruct v as [|b|z|x|t]; unfold verdict; [by split; [left|]|..];
      rewrite Hf; unfold py_float, as_float, bool_int.
    all: split; [intros (y & Hy & ? & ?); right|intros [?|(y & Hy & ? & ?)]; [done|]].
    all: exists y; split_and!; [congruence|done|done]. }
  destruct (args !! "mem_fraction_static") as [v|] eqn:E1.
  - transitivity (verdict v = None); [done|]. rewrite Hone. split; [intros ? w [[= <-]|[? _]]; done|]. intros H. apply H. by left.
  - transitivity (verdict (default VNone (args !! "gpu_memory_utilization")) = None); [done|].
    rewrite Hone. destruct (args !! "gpu_memory_utilization") as [v|] eqn:E2; simpl.
    + split; [intros ? w [?|[_ [= <-]]]; done|]. intros H. apply H. by right.
    + split; [intros _ w [?|[_ ?]]; done|]. by left.
Qed.

Lemma degrees_read args :
  no_fractions args ->
  (forall key v, key ∈ counted -> args !! key = Some v -> exists m, int_or_none v = Some m /\ 1 <= m) ->
  forall keys, keys ∈ [tp_spellings; dp_spellings; pp_spellings; ep_spellings] ->
  1 <= _first_int args keys /\ forall n, degree args keys n <-> n = _first_int args keys.
Proof.
  intros Hnf Hpos keys Hkeys. split.
  - apply first_int_positive; [|done]. intros key. by apply spelled_counted.
  - intros n. apply degree_iff; [done| |done]. intros key. by apply spelled_counted.
Qed.

Lemma experts_cards args ctx :
  _check_expert_parallel_fits args ctx = None <-> _first_int args _EP_KEYS <= cards_used args.
Proof.
  pose proof (cards_used_positive args). unfold _check_expert_parallel_fits, _first_int. cbv zeta.
  destruct (first_present args _EP_KEYS) as [v|]; [|done].
  destruct (Z.ltb_spec (cards_used args) (default 1 (int_or_none v))); split; (done || lia).
Qed.

Lemma checks_iff args ctx :
  no_fractions args ->
  (exists cards, launchable args ctx cards) <->
  _check_env_keys args ctx = None /\
  _check_positive_ints args ctx = None /\
  _check_dp_attention_divides_tp args ctx = None /\
  _check_parallelism_fits args ctx = None /\
  _check_multi_node_shape args ctx = None /\
  _check_expert_parallel_fits args ctx = None /\
  _check_mem_fraction args ctx = None.
Proof.
  intros Hnf.
  rewrite env_check_None, positive_ints_None, attention_None, fits_None, nodes_None,
    experts_cards, memory_iff, flag_on_iff.
  change positive_keys with counted.
  assert (Henv : (forall key v, args !! key = Some v -> env_problem_of key v = None) <->
    (forall name v, args !! ("env." +:+ name) = Some v ->
      variable_name name /\ (forall p, p ∈ PLACEMENT_ENV -> ~ Glob (chars p) (chars name)) /\
      v <> VNone /\ (forall s, v = VStr s -> strip s <> ""))).
  { split.
    - intros H name v Hv. specialize (H _ _ Hv). rewrite env_problem_None in H.
      destruct (env_key_app name) as [Hk Hn]. specialize (H Hk).
      by rewrite Hn, variable_name_iff, placement_iff in H.
    - intros H key v Hv. rewrite env_problem_None. intros Hk.
      rewrite variable_name_iff, placement_iff. apply H. by rewrite <-env_key_cases. }
  rewrite Henv. clear Henv.
  assert (Hcount : (forall key v, key ∈ counted -> args !! key = Some v -> exists n, int_or_none v = Some n /\ 1 <= n) <->
     (forall key v, key ∈ counted -> args !! key = Some v -> exists n, whole v n /\ 1 <= n)).
  { split; intros H key v Hk Hv; destruct (H key v Hk Hv) as (n & Hn & ?); exists n; (split; [|done]);
      by apply (whole_iff args key v n Hnf Hk Hv). }
  rewrite Hcount.
  split.
  - intros [cards [L1 L2 (tp & dp & pp & Htp & Hdp & Hpp & Hc) L4 L5 L6 L7]].
    pose proof (degrees_read args Hnf (proj2 Hcount L2)) as HD.
    destruct (HD tp_spellings ltac:(set_solver)) as [P1 D1]. apply D1 in Htp as ->.
    destruct (HD dp_spellings ltac:(set_solver)) as [P2 D2]. apply D2 in Hdp as ->.
    destruct (HD pp_spellings ltac:(set_solver)) as [P3 D3]. apply D3 in Hpp as ->.
    destruct (HD ep_spellings ltac:(set_solver)) as [P4 D4].
    change tp_spellings with _TP_KEYS in *. change dp_spellings with _DP_KEYS in *.
    change pp_spellings with _PP_KEYS in *. change ep_spellings with _EP_KEYS in *.
    assert (Hcards : cards_used args = cards).
    { unfold cards_used. rewrite !Z.max_r by done.
      destruct (_flag_on args _DP_ATTENTION_KEYS) eqn:Hf.
      - apply flag_on_iff in Hf. destruct Hc as [(_ & _ & ->)|[]]; done.
      - destruct Hc as [(Hf'%flag_on_iff & _)|[_ ->]]; [congruence|done]. }
    rewrite Hcards, !Z.max_r by done. split_and!; try done.
    + intros Ha. by destruct Hc as [(_ & ? & _)|[? _]].
    + by apply L6, D4.
  - intros (L1 & L2 & L3 & L4 & L5 & L6 & L7). exists (cards_used args).
    pose proof (degrees_read args Hnf (proj2 Hcount L2)) as HD.
    destruct (HD _TP_KEYS ltac:(set_solver)) as [P1 D1].
    destruct (HD _DP_KEYS ltac:(set_solver)) as [P2 D2].
    destruct (HD _PP_KEYS ltac:(set_solver)) as [P3 D3].
    destruct (HD _EP_KEYS ltac:(set_solver)) as [P4 D4].
    rewrite !Z.max_r in L3 by done.
    split; try done.
    + exists (_first_int args _TP_KEYS), (_first_int args _DP_KEYS), (_first_int args _PP_KEYS).
      split_and!; [by apply D1|by apply D2|by apply D3|].
      unfold cards_used. rewrite !Z.max_r by done.
      destruct (_flag_on args _DP_ATTENTION_KEYS) eqn:Hf.
      * left. apply flag_on_iff in Hf. auto.
      * right. split; [|done]. intros Hf'%flag_on_iff. congruence.
    + intros ep ->%D4. done.
Qed.

(** ** Properties *)

(** C15: a config is accepted exactly when it can be launched, read off the
    values it holds: every [env.] key is a variable name (a final newline is
    let through, as by Python's [$]), matches none of the patterns for
    placement and credentials, and holds a value that is neither null nor
    blank; every parallelism degree and [max_running_requests] it names, by
    any spelling, is a whole number of at least one; the cards it occupies,
    tp times dp times pp of the first spelling used of each, or tp times pp
    with data-parallel attention on, in which case dp divides tp, are no more
    than the machine (or group) has, when that is known, and divide evenly
    over its nodes when there are several, which sglang alone can span; its
    expert degree is no more than those cards; and its memory fraction is
    absent, null, or a number from 0.1 to 0.99.  Assumed: no count is a float
    with a fraction, which [int()] truncates, or an infinity, of which it
    raises. *)
Theorem validate_config_exact (args : config) (ctx : ValidationContext) :
  no_fractions args ->
  validate_config args ctx = None <-> exists cards, launchable args ctx cards.
Proof.
  intros Hnf. rewrite checks_iff by done. unfold validate_config. rewrite head_omap_None. split.
  - intros H. split_and!; apply H; set_solver.
  - intros (H1 & H2 & H3 & H4 & H5 & H6 & H7) check Hin. unfold CHECKS in Hin.
    repeat (apply elem_of_cons in Hin as [->|Hin]; [done|]). by apply not_elem_of_nil in Hin.
Qed.

(** Four-way tensor parallelism with folded data parallelism over a group of
    two nodes, an environment switch and a memory fraction: accepted, so it is
    launchable, on the four cards it names. *)
Definition folded_config : config :=
  list_to_map [("tp_size", VInt 4); ("dp", VStr "2"); ("enable_dp_attn", VStr "true");
               ("ep", VFloat (f_of_Z 4)); ("mem_fraction_static", VFloat (f_of_ratio 88 100));
               ("env.SGLANG_ENABLE_OVERLAP", VBool true)].

Definition folded_ctx : ValidationContext :=
  {| gpu_count := 4; v_engine := "sglang"; v_nodes := 2 |}.

Lemma validate_config_exact_witness :
  validate_config folded_config folded_ctx = None /\
  (exists cards, launchable folded_config folded_ctx cards) /\
  ~ exists cards, launchable folded_config {| gpu_count := 4; v_engine := "vllm"; v_nodes := 2 |} cards.
Proof.
  assert (Hnf : no_fractions folded_config).
  { intros key x Hkey Hx. unfold counted in Hkey. simpl in Hkey.
    repeat (apply elem_of_cons in Hkey as [->|Hkey];
      [vm_compute in Hx; try discriminate Hx; injection Hx as <-; exists 4; vm_compute; reflexivity|]).
    by apply not_elem_of_nil in Hkey. }
  split; [vm_compute; reflexivity|]. split.
  - apply (validate_config_exact folded_config folded_ctx Hnf). vm_compute. reflexivity.
  - rewrite <-(validate_config_exact folded_config _ Hnf). vm_compute. discriminate.
Defined.

(** A degree with a fraction passes the check that says it wants a whole
    number, and counts as what is left of it. *)
Lemma fractional_degree_passes :
  let half := f_of_ratio 5 2 in
  let args : config := {[ "tp" := VFloat half ]} in
  (forall n, ~ whole (VFloat half) n) /\
  validate_config args {| gpu_count := 8; v_engine := "sglang"; v_nodes := 1 |} = None /\
  cards_used args = 2.
Proof.
  cbv zeta. split; [|split; vm_compute; reflexivity].
  intros n. assert (f_of_ratio 5 2 = S754_finite false 5629499534213120 (-51)) as -> by (vm_compute; reflexivity).
  unfold whole, int_eqb_float. cbv zeta. change (0 <=? -51) with false. cbv iota.
  change (2 ^ (- -51)) with 2251799813685248. intros H%Z.eqb_eq. lia.
Qed.

(** The slice a policy session reserves is the widest configuration of the
    space: every configuration fits in it, one of them fills it, and it is 0
    only when the space expands to nothing. *)
Theorem widest_cards_is_greatest (sp : space) :
  (forall cfg, cfg ∈ expand sp -> cards_used cfg <= widest_cards sp) /\
  (expand sp <> [] -> exists cfg, cfg ∈ expand sp /\ cards_used cfg = widest_cards sp) /\
  (widest_cards sp = 0 <-> expand sp = []).
Proof.
  unfold widest_cards. destruct (expand sp) as [|c l]; simpl.
  - split; [by intros ? ?%not_elem_of_nil|]. by split.
  - destruct (foldl_max_spec (map cards_used l) (cards_used c)) as (Hin & Hc & Hl).
    split; [|split].
    + intros cfg [->|Hcfg]%elem_of_cons; [done|]. apply Hl, list_elem_of_fmap. eauto.
    + intros _. destruct Hin as [Hin|Hin]; [exists c; split; [left|done]|].
      apply list_elem_of_fmap in Hin as (d & Hd & Hin). exists d. split; [by right|done].
    + pose proof (cards_used_positive c). split; [lia|done].
Qed.
