(* ===== verification/Flags.v ===== *)
(** The engines' flag vocabulary ([app/control/engines/flags.py]) and how a
    configuration becomes an engine's command line
    ([app/control/engines/base.py:render_args], [sglang.py], [vllm.py]).

    One flag has many spellings and one stored key: aliases fold into it at
    intake, and the engine's own spelling comes back out on the command line. *)
From Stdlib Require Import Ascii.
From S2P Require Import Prelude Float Values Texts Documents Space Validation.
#[local] Open Scope string_scope.
#[local] Open Scope list_scope.
#[local] Open Scope Z_scope.

(** ** The catalog *)
Inductive flag_kind := ValueFlag | Switch.
#[export] Instance flag_kind_eq_dec : EqDecision flag_kind.
Proof. solve_decision. Defined.

Record FlagSpec := mkFlagSpec {
  fs_key : string;
  fs_kind : flag_kind;
  fs_aliases : list string;
  fs_flag : string;
  fs_short : list string;
  fs_negatable : bool;
}.

(** With the defaults of its other fields. *)
Definition value_flag (key : string) : FlagSpec := mkFlagSpec key ValueFlag [] "" [] false.
Definition switch_flag (key : string) : FlagSpec := mkFlagSpec key Switch [] "" [] false.

Definition sglang_specs : list FlagSpec :=
  [mkFlagSpec "tp" ValueFlag ["tp_size"; "tensor_parallel_size"] "--tp-size" [] false;
   mkFlagSpec "dp" ValueFlag ["dp_size"; "data_parallel_size"] "--dp-size" [] false;
   mkFlagSpec "pp" ValueFlag ["pp_size"; "pipeline_parallel_size"] "--pp-size" [] false;
   mkFlagSpec "ep" ValueFlag ["ep_size"; "expert_parallel_size"] "--ep-size" [] false;
   mkFlagSpec "dcp_size" ValueFlag ["decode_context_parallel_size"] "" [] false;
   mkFlagSpec "attn_cp_size" ValueFlag ["attention_context_parallel_size"] "" [] false;
   mkFlagSpec "moe_dp_size" ValueFlag ["moe_data_parallel_size"] "" [] false;
   mkFlagSpec "enable_dp_attention" Switch ["enable_dp_attn"] "" [] false;
   value_flag "mem_fraction_static"; value_flag "max_total_tokens"; value_flag "kv_cache_dtype";
   value_flag "page_size"; switch_flag "disable_radix_cache"; value_flag "radix_eviction_policy";
   value_flag "chunked_prefill_size"; value_flag "max_prefill_tokens";
   value_flag "max_running_requests"; value_flag "schedule_policy";
   value_flag "schedule_conservativeness"; switch_flag "enable_mixed_chunk";
   value_flag "num_continuous_decode_steps"; value_flag "attention_backend";
   value_flag "sampling_backend"; value_flag "grammar_backend";
   switch_flag "enable_torch_compile"; value_flag "torch_compile_max_bs";
   value_flag "cuda_graph_max_bs"; value_flag "cuda_graph_bs"; switch_flag "disable_cuda_graph";
   switch_flag "disable_cuda_graph_padding"; value_flag "dtype"; value_flag "quantization";
   value_flag "context_length"; switch_flag "trust_remote_code"; value_flag "revision";
   value_flag "tokenizer_path"; value_flag "tokenizer_mode";
   mkFlagSpec "enable_multimodal" Switch [] "" [] true; value_flag "mamba_ssm_dtype";
   value_flag "mamba_full_memory_ratio";
   mkFlagSpec "mamba_scheduler_strategy" ValueFlag ["mamba_radix_cache_strategy"] "" [] false;
   value_flag "max_mamba_cache_size"; value_flag "speculative_algorithm";
   mkFlagSpec "speculative_draft_model_path" ValueFlag ["speculative_draft_model"] "" [] false;
   value_flag "speculative_num_draft_tokens"; value_flag "speculative_num_steps";
   value_flag "speculative_eagle_topk"; value_flag "reasoning_parser";
   value_flag "tool_call_parser"; value_flag "chat_template";
   switch_flag "stream_response_default_include_usage"; switch_flag "enable_cache_report";
   switch_flag "enable_metrics"; switch_flag "show_time_cost"; value_flag "log_level";
   switch_flag "log_requests"; value_flag "random_seed"; value_flag "watchdog_timeout";
   switch_flag "enable_p2p_check"; switch_flag "allow_auto_truncate"].

Definition vllm_specs : list FlagSpec :=
  [mkFlagSpec "tp" ValueFlag ["tensor_parallel_size"; "tp_size"] "--tensor-parallel-size" ["-tp"] false;
   mkFlagSpec "dp" ValueFlag ["data_parallel_size"; "dp_size"] "--data-parallel-size" ["-dp"] false;
   mkFlagSpec "pp" ValueFlag ["pipeline_parallel_size"; "pp_size"] "--pipeline-parallel-size" ["-pp"] false;
   switch_flag "enable_expert_parallel"; value_flag "distributed_executor_backend";
   value_flag "gpu_memory_utilization"; value_flag "swap_space"; value_flag "cpu_offload_gb";
   value_flag "block_size"; value_flag "kv_cache_dtype"; switch_flag "enable_prefix_caching";
   value_flag "max_num_seqs"; value_flag "max_num_batched_tokens";
   switch_flag "enable_chunked_prefill"; value_flag "scheduler_delay_factor";
   value_flag "max_seq_len_to_capture"; value_flag "dtype";
   mkFlagSpec "quantization" ValueFlag [] "" ["-q"] false; value_flag "max_model_len";
   switch_flag "trust_remote_code"; value_flag "revision"; value_flag "tokenizer";
   value_flag "tokenizer_mode"; value_flag "load_format"; value_flag "seed";
   switch_flag "enforce_eager"; switch_flag "disable_custom_all_reduce";
   mkFlagSpec "compilation_config" ValueFlag [] "" ["-cc"] false;
   mkFlagSpec "speculative_config" ValueFlag [] "" ["-sc"] false; value_flag "speculative_model";
   value_flag "num_speculative_tokens"; value_flag "speculative_draft_tensor_parallel_size";
   switch_flag "enable_lora"; value_flag "max_loras"; value_flag "max_lora_rank";
   switch_flag "disable_log_requests"; switch_flag "disable_log_stats";
   value_flag "uvicorn_log_level"].

Definition SPECS (engine : string) : list FlagSpec :=
  if String.eqb engine "sglang" then sglang_specs
  else if String.eqb engine "vllm" then vllm_specs
  else [].

(** Whether the engine gives every flag a [--no-] form. *)
Definition negates_everything (engine : string) : bool := String.eqb engine "vllm".

Definition _TRUE_WORDS : list string := [""; "true"; "1"; "yes"; "on"].
Definition _FALSE_WORDS : list string := ["false"; "0"; "no"; "off"].

(** ** Spellings *)
Definition _kebab (key : string) : string := "--" +:+ replace_char "_"%char "-"%char key.

(** Every accepted spelling and its key. *)
Definition _alias_map (engine : string) : list (string * string) :=
  foldl (fun out spec =>
           foldl (fun out alias => dict_set alias (fs_key spec) out)
                 (dict_set (fs_key spec) (fs_key spec) out) (fs_aliases spec))
        [] (SPECS engine).

Definition _spec_map (engine : string) : list (string * FlagSpec) :=
  foldl (fun out spec => dict_set (fs_key spec) spec out) [] (SPECS engine).

Definition short_flags (engine : string) : list (string * string) :=
  foldl (fun out spec => foldl (fun out form => dict_set form (fs_key spec) out) out (fs_short spec))
        [] (SPECS engine).

Definition known_flags (engine : string) : list string := (_alias_map engine).*1.

Definition canonical_key (engine key : string) : string :=
  default key (dict_get key (_alias_map engine)).

Definition spec_of (engine key : string) : option FlagSpec :=
  match dict_get key (_alias_map engine) with
  | Some canonical => if String.eqb canonical "" then None else dict_get canonical (_spec_map engine)
  | None => None
  end.

(** The engine's primary spelling of a spec. *)
Definition spelling (spec : FlagSpec) : string :=
  if String.eqb (fs_flag spec) "" then _kebab (fs_key spec) else fs_flag spec.

Definition render_flag (engine key : string) : string :=
  match spec_of engine key with
  | Some spec => spelling spec
  | None => _kebab key
  end.

(** How an engine spells "explicitly off", if it can. *)
Definition negated_flag (engine key : string) : option string :=
  let spec := spec_of engine key in
  if negates_everything engine
     || match spec with Some s => fs_negatable s | None => false end
  then Some ("--no-" +:+ strip_dashes (match spec with Some s => spelling s | None => _kebab key end))
  else None.

(** ** One dict in the canonical vocabulary *)
Inductive flag_note :=
| Folded (key canonical : string)
| ReadAsOff (canonical target : string)
| GivenTwice (canonical : string).

Definition is_switch (engine key : string) : bool :=
  match dict_get key (_spec_map engine) with Some s => bool_decide (fs_kind s = Switch) | None => false end.

(** The key a [no_x] that is on turns off, when [x] is a known switch. *)
Definition turned_off (engine canonical : string) (value : doc) : option string :=
  if String.prefix "no_" canonical && bool_decide (value = Sc (VBool true)) then
    let target := canonical_key engine (from 3 canonical) in
    if is_switch engine target then Some target else None
  else None.

(** The words for a boolean, on a known switch. *)
Definition switch_value (engine canonical : string) (value : doc) : doc :=
  match value with
  | Sc (VStr s) =>
      if is_switch engine canonical then
        let word := lower (strip s) in
        if existsb (String.eqb word) _TRUE_WORDS then Sc (VBool true)
        else if existsb (String.eqb word) _FALSE_WORDS then Sc (VBool false)
        else value
      else value
  | _ => value
  end.

(** One item: where it goes, and the notes it leaves but for a collision. *)
Definition normalize_item (engine key : string) (value : doc) : string * doc * list flag_note :=
  let canonical := canonical_key engine key in
  let folded := if String.eqb canonical key then [] else [Folded key canonical] in
  match turned_off engine canonical value with
  | Some target =>
      (target, switch_value engine target (Sc (VBool false)), folded ++ [ReadAsOff canonical target])
  | None => (canonical, switch_value engine canonical value, folded)
  end.

Definition normalize_args (engine : string) (args : tree) : tree * list flag_note :=
  foldl (fun '(out, notes) '(key, value) =>
           let '(canonical, value, more) := normalize_item engine key value in
           let twice := if dict_has canonical out then [GivenTwice canonical] else [] in
           (dict_set canonical value out, notes ++ more ++ twice))
        ([], []) args.

(** ** The command line *)

(** The key of a flag as written. *)
Definition flag_name (key : string) : string := "--" +:+ replace_char "_"%char "-"%char key.

(** What one entry of a config puts on the command line. *)
Definition render_item (engine key : string) (value : doc) : list string :=
  if is_env_key key then []
  else
    let flag := if String.eqb engine "" then flag_name key else render_flag engine key in
    match value with
    | Sc (VBool true) => [flag]
    | Sc (VBool false) =>
        if String.eqb engine "" then []
        else match negated_flag engine key with Some negated => [negated] | None => [] end
    | _ => [flag; doc_str value]
    end.

Definition render_args (engine_args : tree) (engine : string) : list string :=
  concat (map (fun '(key, value) => render_item engine key value)
              (sort_by (key_before (fun kv => key_of_string kv.1)) engine_args)).

(** What an adapter reads of a launch. *)
Record serve_spec := ServeSpec {
  sv_served_model_name : string;
  sv_port : Z;
  sv_engine_args : tree;
  sv_nnodes : Z;
  sv_rank : Z;
  sv_dist_init_addr : string;
}.

Definition MODEL_MOUNT : string := "/model".

Definition sglang_command (spec : serve_spec) : list string :=
  ["python3"; "-m"; "sglang.launch_server";
   "--model-path"; MODEL_MOUNT;
   "--served-model-name"; sv_served_model_name spec;
   "--host"; "0.0.0.0";
   "--port"; pretty (sv_port spec)]
  ++ render_args (sv_engine_args spec) "sglang"
  ++ (if 1 <? sv_nnodes spec
      then ["--nnodes"; pretty (sv_nnodes spec); "--node-rank"; pretty (sv_rank spec);
            "--dist-init-addr"; sv_dist_init_addr spec]
      else []).

Definition vllm_command (spec : serve_spec) : list string :=
  ["vllm"; "serve"; MODEL_MOUNT;
   "--served-model-name"; sv_served_model_name spec;
   "--host"; "0.0.0.0";
   "--port"; pretty (sv_port spec)]
  ++ render_args (sv_engine_args spec) "vllm".
