(* ===== verification/Commands.v ===== *)
(** The inverse of the engine adapters ([app/control/engine_command.py]): an
    engine's arguments read back from its command line, a pasted deployment
    taken apart, and the check that a configuration survives the trip to a
    command line and back. *)
From Stdlib Require Import Ascii.
From S2P Require Import Prelude Float Values Texts Documents Space Validation Flags.
#[local] Open Scope string_scope.
#[local] Open Scope list_scope.
#[local] Open Scope Z_scope.

(** ** A line as words *)

(** After a backslash: what follows the line's end, if only blanks come before it. *)
Fixpoint continued (l : list ascii) : option (list ascii) :=
  match l with
  | c :: l' =>
      if is_blank c then continued l'
      else if Ascii.eqb c newline then Some l'
      else if Ascii.eqb c carriage_return then
        match l' with d :: l'' => if Ascii.eqb d newline then Some l'' else None | [] => None end
      else None
  | [] => None
  end.

(** [_LINE_CONTINUATION.sub(" ", text)]; every step drops a character. *)
Fixpoint join_lines (fuel : nat) (l : list ascii) : list ascii :=
  match fuel, l with
  | S fuel, c :: l' =>
      if Ascii.eqb c backslash then
        match continued l' with
        | Some rest => " "%char :: join_lines fuel rest
        | None => c :: join_lines fuel l'
        end
      else c :: join_lines fuel l'
  | _, _ => l
  end.

(** [shlex.split] as the shell splits a line: words, the two kinds of quotes,
    and the backslash.  [None] is a [ValueError]. *)
Inductive lex_state := Between | InWord | Quoted (q : ascii) | Escaped (q : option ascii).

Definition is_quote (c : ascii) : bool := Ascii.eqb c single_quote || Ascii.eqb c double_quote.
Definition is_shell_space (c : ascii) : bool :=
  is_blank c || Ascii.eqb c carriage_return || Ascii.eqb c newline.

Definition word (token : list ascii) : string := of_chars (reverse token).

Fixpoint shlex (l : list ascii) (state : lex_state) (token : list ascii) (quoted : bool)
    : option (list string) :=
  match l, state with
  | [], Quoted _ | [], Escaped _ => None
  | [], _ => Some (if bool_decide (token = []) && negb quoted then [] else [word token])
  | c :: l', Between =>
      if is_shell_space c then shlex l' Between token quoted
      else if Ascii.eqb c backslash then shlex l' (Escaped None) token quoted
      else if is_quote c then shlex l' (Quoted c) token quoted
      else shlex l' InWord [c] quoted
  | c :: l', InWord =>
      if is_shell_space c then
        if bool_decide (token = []) && negb quoted then shlex l' Between token quoted
        else cons (word token) <$> shlex l' Between [] false
      else if is_quote c then shlex l' (Quoted c) token quoted
      else if Ascii.eqb c backslash then shlex l' (Escaped None) token quoted
      else shlex l' InWord (c :: token) quoted
  | c :: l', Quoted q =>
      if Ascii.eqb c q then shlex l' InWord token true
      else if Ascii.eqb c backslash && Ascii.eqb q double_quote
        then shlex l' (Escaped (Some q)) token true
      else shlex l' (Quoted q) (c :: token) true
  | c :: l', Escaped None => shlex l' InWord (c :: token) quoted
  | c :: l', Escaped (Some q) =>
      let token := if negb (Ascii.eqb c backslash) && negb (Ascii.eqb c q)
                   then backslash :: token else token in
      shlex l' (Quoted q) (c :: token) quoted
  end.

Definition nonblank (tokens : list string) : list string :=
  filter (fun t => t <> "") (map strip tokens).

Definition _tokenize (text : string) : option (list string) :=
  let l := strip_chars (chars text) in
  nonblank <$> shlex (join_lines (length l) l) Between [] false.

(** ** The engine's arguments *)
Definition PLACEMENT_FLAGS : list string :=
  ["model_path"; "model"; "served_model_name"; "host"; "port"; "nccl_port";
   "dist_init_addr"; "nccl_init_addr"; "node_rank"; "nnodes"].

Definition _flag_to_key (flag : string) : string :=
  replace_char "-"%char "_"%char (strip_dashes flag).

Definition is_flag (token : string) : bool := starts_with "--" token.

(** The walk over the tokens after the launcher. *)
Fixpoint read_flags (tokens : list string) (args : tree) : tree :=
  match tokens with
  | [] => args
  | token :: rest =>
      if negb (is_flag token) then read_flags rest args
      else
        match partition "="%char token with
        | Some (flag, value) => read_flags rest (dict_set (_flag_to_key flag) (Sc (VStr value)) args)
        | None =>
            let key := _flag_to_key token in
            match rest with
            | following :: rest' =>
                if is_flag following then read_flags rest (dict_set key (Sc (VBool true)) args)
                else read_flags rest' (dict_set key (Sc (VStr following)) args)
            | [] => dict_set key (Sc (VBool true)) args
            end
        end
  end.

Definition launches_module (token : string) : bool :=
  ends_with "launch_server" token || ends_with "api_server" token.

(** What follows the launcher, if one is named. *)
Fixpoint after_launcher (before : option string) (tokens : list string) : option (list string) :=
  match tokens with
  | [] => None
  | token :: rest =>
      if launches_module token then Some rest
      else if String.eqb token "serve"
              && match before with Some p => String.eqb (last_part "/"%char p) "sglang" | None => false end
        then Some rest
      else after_launcher (Some token) rest
  end.

Definition parse_tokens (tokens : list string) : tree :=
  let tokens := nonblank tokens in
  read_flags (default tokens (after_launcher None tokens)) [].

(** A captured command: the argv, or a line. *)
Inductive command := Argv (items : list doc) | Line (text : string).

Section json.
(** [json.loads] of a text that opens with a bracket; [None] is a [ValueError]. *)
Context (json_list : string -> option (list doc)).

(** A JSON-encoded argv, as the argv it encodes. *)
Definition load_command (c : command) : command :=
  match c with
  | Line text =>
      if starts_with "[" (strip text)
      then match json_list (strip text) with Some items => Argv items | None => c end
      else c
  | Argv _ => c
  end.

(** [None] is the [ValueError] of a line whose quotes do not close. *)
Definition command_tokens (c : command) : option (list string) :=
  match c with
  | Argv items => Some (nonblank (map doc_str items))
  | Line text => _tokenize text
  end.

Definition parse_engine_args (c : command) : option tree :=
  parse_tokens <$> command_tokens (load_command c).

Definition tuning_knobs (args : tree) : tree :=
  filter (fun kv => kv.1 ∉ PLACEMENT_FLAGS) args.

Definition baseline_engine_args (c : command) : option tree := tuning_knobs <$> parse_engine_args c.
End json.

Definition engine_of_command (c : command) : string :=
  let texts := match c with Argv items => map doc_str items | Line text => [text] end in
  let names s := existsb (fun t => contains s (lower t)) texts in
  if names "sglang" then "sglang" else if names "vllm" then "vllm" else "".

(** ** Would a configuration survive the trip *)

(** [^[a-z0-9][a-z0-9_]*$], where [$] also matches before one final newline. *)
Definition _KEY_SHAPE (key : string) : bool :=
  match chars key with
  | c :: rest =>
      let body := match reverse rest with
                  | l :: more => if Ascii.eqb l newline then reverse more else rest
                  | [] => rest
                  end in
      (is_lower c || is_digit c)
      && forallb (fun d => is_lower d || is_digit d || is_underscore d) body
  | [] => false
  end.

Inductive trip_problem :=
| BadKey (key : string)
| NoValue (key : string)
| NotOneValue (key : string)
| EmptyString (key : string)
| ReadAsFlag (key value : string)
| ComesBack (key : string) (back : option doc)
| Gains (key : string) (back : doc).

Definition unrenderable (key : string) (value : doc) : option trip_problem :=
  if negb (_KEY_SHAPE key) then Some (BadKey key)
  else
    match value with
    | Sc VNone => Some (NoValue key)
    | Ls _ | Mp _ => Some (NotOneValue key)
    | Sc (VStr s) =>
        if String.eqb (strip s) "" then Some (EmptyString key)
        else if starts_with "--" s then Some (ReadAsFlag key s) else None
    | _ => None
    end.

Definition is_false (d : doc) : bool := bool_decide (d = Sc (VBool false)).

(** What came back for a key, and what is left of the parsed arguments. *)
Definition take_back (key : string) (value : doc) (parsed : tree) : option doc * tree :=
  let back := dict_get key parsed in
  let parsed := dict_pop key parsed in
  if is_false value && bool_decide (back = None) then
    (if bool_decide (dict_get ("no_" +:+ key) parsed = Some (Sc (VBool true)))
     then Some (Sc (VBool false)) else None,
     dict_pop ("no_" +:+ key) parsed)
  else (back, parsed).

Definition same_back (value : doc) (back : option doc) : bool :=
  match value with
  | Sc (VBool b) => bool_decide (back = Some value) || (negb b && bool_decide (back = None))
  | _ => match back with
         | Some (Sc VNone) | None => false
         | Some d => String.eqb (doc_str d) (doc_str value)
         end
  end.

Definition trip_step (key : string) (value : doc) (parsed : tree) : tree * list trip_problem :=
  let '(back, parsed) := take_back key value parsed in
  (parsed, if same_back value back then [] else [ComesBack key back]).

Fixpoint trip_steps (expected parsed : tree) : tree * list trip_problem :=
  match expected with
  | [] => (parsed, [])
  | (key, value) :: rest =>
      let '(parsed, here) := trip_step key value parsed in
      let '(parsed, more) := trip_steps rest parsed in
      (parsed, here ++ more)
  end.

Definition round_trip_problems (config : tree) (engine : string) : list trip_problem :=
  match omap (fun '(key, value) => unrenderable key value) config with
  | [] =>
      let parsed := (normalize_args engine (parse_tokens (render_args config engine))).1 in
      let expected := (normalize_args engine config).1 in
      let '(left_over, problems) := trip_steps expected parsed in
      problems ++ map (fun '(key, back) => Gains key back) left_over
  | problems => problems
  end.

(** ** A pasted deployment *)
Definition _DOCKER_VALUE_OPTS : list string :=
  ["-e"; "--env"; "-v"; "--volume"; "--mount"; "--name"; "--network"; "--net";
   "--gpus"; "--ulimit"; "--entrypoint"; "-p"; "--publish"; "--expose";
   "--restart"; "--runtime"; "--shm-size"; "--security-opt"; "--cap-add";
   "--cap-drop"; "--device"; "--label"; "-l"; "-w"; "--workdir"; "-u";
   "--user"; "--ipc"; "--pid"; "--uts"; "--cpus"; "--cpuset-cpus"; "-m";
   "--memory"; "--memory-swap"; "--hostname"; "-h"; "--add-host"; "--dns";
   "--env-file"; "--log-driver"; "--log-opt"; "--stop-signal";
   "--stop-timeout"; "--health-cmd"; "--health-interval"; "--health-retries";
   "--health-timeout"].
Definition _DOCKER_BOOL_OPTS : list string :=
  ["-d"; "--detach"; "--rm"; "-i"; "-t"; "-it"; "-ti"; "--interactive";
   "--tty"; "--privileged"; "--init"; "--no-healthcheck"; "--read-only";
   "-P"; "--publish-all"].
Definition _PLATFORM_MANAGED_OPTS : list string :=
  ["--gpus"; "--network"; "--net"; "--ipc"; "--ulimit"; "--name"; "-d";
   "--detach"; "--restart"; "--runtime"; "--security-opt"; "--cap-add";
   "--rm"; "-p"; "--publish"; "--entrypoint"].

(** Why something could not be carried over. *)
Inductive paste_warning :=
| UnrecognizedFlag (opt : string)
| EnvWithoutValue (key : string)
| VolumeWithoutTarget (value : string)
| MountNotCarried (value : string)
| FlagNotCarried (opt value : string)
| NoImage
| NodePortRange (port : Z)
| UnresolvedModelPath (path : string).

Record pasted := Pasted {
  pa_engine : string;
  pa_image : string;
  pa_served_model_name : string;
  pa_model_path : string;
  pa_service_port : Z;
  pa_engine_args : tree;
  pa_extra_env : list (string * string);
  pa_extra_volumes : list (string * string);
  pa_platform_managed : list string;
  pa_warnings : list paste_warning;
  pa_normalized : list flag_note;
}.
#[export] Instance pasted_eta : Eta _ := fun r =>
  Pasted (pa_engine r) (pa_image r) (pa_served_model_name r) (pa_model_path r) (pa_service_port r)
    (pa_engine_args r) (pa_extra_env r) (pa_extra_volumes r) (pa_platform_managed r) (pa_warnings r)
    (pa_normalized r).

Definition warn (w : paste_warning) (out : pasted) : pasted :=
  out <| pa_warnings ::= fun ws => ws ++ [w] |>.

Definition listed (opt : string) (l : list string) : bool := existsb (String.eqb opt) l.

(** What one docker option with its value means. *)
Definition docker_option (opt value : string) (out : pasted) : pasted :=
  if listed opt ["-e"; "--env"] then
    match partition "="%char value with
    | Some (key, env_value) => out <| pa_extra_env ::= dict_set key env_value |>
    | None => (warn (EnvWithoutValue value) out) <| pa_extra_env ::= dict_set value "" |>
    end
  else if listed opt ["-v"; "--volume"] then
    match partition ":"%char value with
    | Some (host, target) => out <| pa_extra_volumes ::= dict_set host target |>
    | None => warn (VolumeWithoutTarget value) out
    end
  else if String.eqb opt "--mount" then warn (MountNotCarried value) out
  else if listed opt _PLATFORM_MANAGED_OPTS
    then out <| pa_platform_managed ::= fun l => l ++ [strip (opt +:+ " " +:+ value)] |>
  else if negb (listed opt _DOCKER_BOOL_OPTS) then warn (FlagNotCarried opt value) out
  else out.

(** The docker section from its first option on; what is left is the command in
    the container. *)
Fixpoint _split_docker_run (tokens : list string) (out : pasted) : list string * pasted :=
  match tokens with
  | [] => ([], warn NoImage out)
  | token :: rest =>
      if negb (starts_with "-" token) then (rest, out <| pa_image := token |>)
      else
        match partition "="%char token with
        | Some (opt, inline) => _split_docker_run rest (docker_option opt inline out)
        | None =>
            match rest with
            | value :: rest' =>
                if listed token _DOCKER_VALUE_OPTS
                then _split_docker_run rest' (docker_option token value out)
                else
                  _split_docker_run rest
                    (docker_option token ""
                       (if listed token _DOCKER_BOOL_OPTS then out else warn (UnrecognizedFlag token) out))
            | [] =>
                _split_docker_run rest
                  (docker_option token ""
                     (if listed token _DOCKER_BOOL_OPTS || listed token _DOCKER_VALUE_OPTS then out
                      else warn (UnrecognizedFlag token) out))
            end
        end
  end.

(** [tokens[tokens.index(t) + 1:]]. *)
Fixpoint after_first (t : string) (tokens : list string) : list string :=
  match tokens with
  | [] => []
  | x :: rest => if String.eqb t x then rest else after_first t rest
  end.

(** [str(args.get(key) or "")]. *)
Definition text_arg (key : string) (args : tree) : string :=
  match dict_get key args with
  | Some d => if doc_truthy d then doc_str d else ""
  | None => ""
  end.

(** [int(args.get("port") or 0)], 0 when it does not read. *)
Definition port_arg (args : tree) : Z :=
  match dict_get "port" args with
  | Some (Sc (VBool b)) => bool_int b
  | Some (Sc v) => if truthy v then default 0 (int_or_none v) else 0
  | _ => 0
  end.

(** The volume mounted where the engine finds its model. *)
Definition mounts_model (model_path target : string) : bool :=
  let container := match partition ":"%char target with Some (a, _) => a | None => target end in
  String.eqb (rstrip "/"%char container) (rstrip "/"%char model_path)
  && negb (String.eqb model_path "").

Definition resolve_model (model_path : string) (out : pasted) : pasted :=
  match List.find (fun kv => mounts_model model_path kv.2) (pa_extra_volumes out) with
  | Some (host, _) => (out <| pa_extra_volumes ::= dict_pop host |>) <| pa_model_path := host |>
  | None =>
      let out := out <| pa_model_path := model_path |> in
      if negb (String.eqb model_path "")
         && (negb (String.eqb (pa_image out) "") || negb (bool_decide (pa_platform_managed out = [])))
      then warn (UnresolvedModelPath model_path) out else out
  end.

(** vllm's newer CLI takes the model as a positional. *)
Definition positional_model (tokens : list string) : string :=
  match tokens with
  | launcher :: serve :: model :: _ =>
      if String.eqb (last_part "/"%char launcher) "vllm" && String.eqb serve "serve"
         && negb (starts_with "-" model)
      then model else ""
  | _ => ""
  end.

Definition spell_out (shorts : list (string * string)) (token : string) : string :=
  match dict_get token shorts with Some key => _kebab key | None => token end.

Definition parse_launch (engine : string) (tokens : list string) : pasted :=
  let out := Pasted engine "" "" "" 0 [] [] [] [] [] [] in
  let '(engine_tokens, out) :=
    if listed "docker" (take 2 tokens) && listed "run" (take 3 tokens)
    then _split_docker_run (after_first "run" tokens) out else (tokens, out) in
  let positional := positional_model engine_tokens in
  let args := parse_tokens (map (spell_out (short_flags engine)) engine_tokens) in
  let port := port_arg args in
  let out := (out <| pa_served_model_name := text_arg "served_model_name" args |>)
               <| pa_service_port := port |> in
  let out := if (30000 <=? port) && (port <=? 32767) then warn (NodePortRange port) out else out in
  let model_path :=
    if negb (String.eqb (text_arg "model_path" args) "") then text_arg "model_path" args
    else if negb (String.eqb (text_arg "model" args) "") then text_arg "model" args
    else positional in
  let out := resolve_model model_path out in
  let '(engine_args, notes) := normalize_args engine (tuning_knobs args) in
  (out <| pa_engine_args := engine_args |>) <| pa_normalized := notes |>.

Definition parse_launch_command (json_list : string -> option (list doc)) (c : command) : option pasted :=
  let c := load_command json_list c in
  parse_launch (engine_of_command c) <$> command_tokens c.

(** A text of the characters a rendered key is made of. *)
Definition key_char (c : ascii) : bool := is_lower c || is_digit c || is_underscore c.
Definition kebab_char (c : ascii) : bool := is_lower c || is_digit c || Ascii.eqb c "-"%char.
Definition plain_key (key : string) : bool :=
  match chars key with
  | c :: rest => (is_lower c || is_digit c) && forallb key_char rest
  | [] => false
  end.

(** A token the walk takes for a flag with no value of its own. *)
Definition flag_token (token : string) : bool :=
  is_flag token && String.eqb (strip token) token && negb (String.eqb token "")
  && bool_decide (partition "="%char token = None)
  && negb (launches_module token) && negb (String.eqb token "serve")
  && negb (String.eqb (last_part "/"%char token) "sglang")
  && bool_decide (partition " "%char token = None).

(** A token the walk takes for the value of the flag before it. *)
Definition value_token (token : string) : bool :=
  negb (is_flag token) && String.eqb (strip token) token && negb (String.eqb token "")
  && negb (launches_module token).

Lemma kebab_tokens_aux l :
  forallb kebab_char l = true -> flag_token (String "-" (String "-" (of_chars l))) = true.
Proof.
  intros Hl. set (s := String "-" (String "-" (of_chars l))).
  assert (chars s = "-"%char :: "-"%char :: l) as Hs by (cbn; by rewrite chars_of_chars).
  assert (forallb kebab_char (chars s) = true) as Hk by (rewrite Hs; cbn; exact Hl).
  assert (forall sep, kebab_char sep = false -> forallb (fun c => negb (Ascii.eqb c sep)) (chars s) = true) as Hsep.
  { intros sep Hsep. eapply forallb_weaken; [|exact Hk]. intros c Hc. apply negb_true_iff, Ascii.eqb_neq. congruence. }
  assert (strip s = s) as Hstrip.
  { unfold strip. rewrite strip_chars_none, of_chars_chars; [done|].
    eapply forallb_weaken; [|exact Hk]. intros c Hc. char_cases c. }
  assert (forall suffix, existsb (Ascii.eqb "_"%char) (chars suffix) = true -> ends_with suffix s = false) as Hends.
  { intros suffix (c & Hc & <-%Ascii.eqb_eq)%existsb_exists. apply not_true_is_false. intros He.
    pose proof (ends_with_chars _ _ He "_"%char ltac:(by apply list_elem_of_In)) as Hin.
    by pose proof (forallb_elem _ _ _ Hk Hin). }
  unfold flag_token, is_flag, launches_module, last_part, partition.
  rewrite Hstrip, String.eqb_refl, !Hends, (split_at_None "="), (split_at_None " "), after_last_none, app_nil_l, of_chars_chars
    by (try apply Hsep; done).
  rewrite bool_decide_eq_true_2 by done. subst s. clear. by destruct l.
Qed.

Lemma replace_kebab key : plain_key key = true ->
  forallb kebab_char (chars (replace_char "_"%char "-"%char key)) = true.
Proof.
  unfold plain_key. rewrite chars_replace. destruct (chars key) as [|c l] eqn:Hkey; [done|].
  intros [Hc Hl]%andb_prop. apply forallb_forall. intros ? (d & <- & Hd)%in_map_iff.
  assert (key_char d = true) as Hkd.
  { cbn in Hd. destruct Hd as [->|Hd]; [unfold key_char; by rewrite Hc|]. by eapply forallb_elem, list_elem_of_In. }
  revert Hkd. clear. char_cases d.
Qed.

Lemma kebab_chars key : chars (_kebab key) = "-"%char :: "-"%char :: chars (replace_char "_"%char "-"%char key).
Proof. unfold _kebab. by rewrite chars_app. Qed.

Lemma kebab_flag_token key : plain_key key = true -> flag_token (_kebab key) = true.
Proof.
  intros Hkey. rewrite <- (kebab_tokens_aux _ (replace_kebab key Hkey)).
  by rewrite of_chars_chars.
Qed.

Lemma strip_dashes_kebab key : plain_key key = true ->
  strip_dashes (_kebab key) = replace_char "_"%char "-"%char key.
Proof.
  intros Hkey. apply chars_inj. unfold strip_dashes. rewrite chars_of_chars, kebab_chars. cbn.
  rewrite chars_replace. unfold plain_key in Hkey. destruct (chars key) as [|c l]; [done|].
  cbn in Hkey. apply andb_prop in Hkey as [Hc _]. revert Hc. char_cases c.
Qed.

Lemma flag_to_key_kebab key : plain_key key = true -> _flag_to_key (_kebab key) = key.
Proof.
  intros Hkey. unfold _flag_to_key. rewrite strip_dashes_kebab by done.
  apply chars_inj. rewrite !chars_replace, map_map. unfold plain_key in Hkey.
  assert (forallb (fun c => negb (Ascii.eqb c "-")) (chars key) = true) as Hno.
  { destruct (chars key) as [|c l]; [done|]. cbn. apply andb_prop in Hkey as [Hc Hl]. apply andb_true_intro. split.
    - revert Hc. char_cases c.
    - eapply forallb_weaken; [|exact Hl]. intros d. char_cases d. }
  rewrite <- map_id. apply map_ext_in. intros c Hc%list_elem_of_In.
  pose proof (forallb_elem _ _ _ Hno Hc) as Hd. revert Hd. char_cases c.
Qed.

Lemma no_prefix_plain key : plain_key key = true -> plain_key ("no_" +:+ key) = true.
Proof.
  unfold plain_key. rewrite chars_app. destruct (chars key) as [|c l]; [done|]. cbn.
  unfold key_char. by intros [-> ->]%andb_prop.
Qed.

Lemma negated_kebab key : plain_key key = true ->
  "--no-" +:+ strip_dashes (_kebab key) = _kebab ("no_" +:+ key).
Proof.
  intros Hkey. rewrite strip_dashes_kebab by done. apply chars_inj.
  by rewrite kebab_chars, !chars_app, !chars_replace, chars_app.
Qed.

(** ** Lemmas: the catalog reads back *)
Definition engines : list string := ["sglang"; "vllm"].

(** What a key of the catalog must satisfy to come back from its spelling. *)
Definition catalog_entry_ok (engine key : string) : bool :=
  match spec_of engine key with
  | Some spec =>
      flag_token (spelling spec)
      && String.eqb (canonical_key engine (_flag_to_key (spelling spec))) key
      && negb (starts_with "no_" key)
      && (if bool_decide (fs_kind spec = Switch) then
            let negated := "--no-" +:+ strip_dashes (spelling spec) in
            flag_token negated
            && bool_decide (turned_off engine (canonical_key engine (_flag_to_key negated)) (Sc (VBool true)) = Some key)
          else true)
      && Bool.eqb (is_switch engine key) (bool_decide (fs_kind spec = Switch))
  | None => false
  end.

Definition catalog_ok (engine : string) : bool :=
  forallb (fun kc => if String.eqb kc.1 kc.2 then catalog_entry_ok engine kc.1 else true) (_alias_map engine)
  && forallb (fun kc => negb (starts_with "no_" kc.1)) (_alias_map engine)
  && forallb (fun ks => dict_has ks.1 (_alias_map engine)) (_spec_map engine).

Lemma catalogs_ok engine : engine ∈ engines -> catalog_ok engine = true.
Proof.
  intros [->|[->|[]%elem_of_nil]%elem_of_cons]%elem_of_cons; vm_compute; reflexivity.
Qed.

Section catalog.
Context (engine : string) (Hengine : engine ∈ engines).

Lemma known_key k : canonical_key engine k = k -> is_Some (dict_get k (_alias_map engine)) ->
  catalog_entry_ok engine k = true.
Proof.
  intros Hk [c Hc]. unfold canonical_key in Hk. rewrite Hc in Hk. cbn in Hk. subst c.
  pose proof (catalogs_ok _ Hengine) as [[Hok _]%andb_prop _]%andb_prop.
  pose proof (forallb_elem _ _ _ Hok (dict_get_Some_in _ _ _ Hc)) as Hentry. cbn in Hentry.
  by rewrite String.eqb_refl in Hentry.
Qed.

Lemma unknown_key k : dict_get k (_alias_map engine) = None ->
  canonical_key engine k = k /\ spec_of engine k = None /\ is_switch engine k = false.
Proof.
  intros Hk. unfold canonical_key, spec_of, is_switch. rewrite Hk. repeat split.
  destruct (dict_get k (_spec_map engine)) as [s|] eqn:Hs; [|done].
  pose proof (catalogs_ok _ Hengine) as [_ Hok]%andb_prop.
  pose proof (forallb_elem _ _ _ Hok (dict_get_Some_in _ _ _ Hs)) as Hin. cbn in Hin.
  rewrite dict_has_get, Hk in Hin. by apply bool_decide_eq_true_1 in Hin as [].
Qed.

Lemma no_key_unknown k : dict_get ("no_" +:+ k) (_alias_map engine) = None.
Proof.
  destruct (dict_get ("no_" +:+ k) (_alias_map engine)) as [c|] eqn:Hc; [|done].
  pose proof (catalogs_ok _ Hengine) as [[_ Hok]%andb_prop _]%andb_prop.
  pose proof (forallb_elem _ _ _ Hok (dict_get_Some_in _ _ _ Hc)) as Hno. by destruct k.
Qed.
End catalog.

(** ** Lemmas: from the command line and back *)

(** An entry of a config that can be deployed as it is: its key is a flag's own
    name, and its value is one a command line can carry. *)
Definition travels (engine key : string) (value : doc) : bool :=
  plain_key key && String.eqb (canonical_key engine key) key && negb (starts_with "no_" key)
  && match value with
     | Sc (VBool b) => b || is_switch engine key || bool_decide (dict_get key (_alias_map engine) = None)
     | Sc (VStr s) => value_token s
     | Sc (VInt _) => negb (is_switch engine key)
     | Sc (VFloat x) => value_token (float_repr x) && negb (is_switch engine key)
     | Sc VNone | Ls _ | Mp _ => false
     end.

Lemma plain_not_env key : plain_key key = true -> is_env_key key = false.
Proof.
  intros Hkey. apply not_true_is_false. intros Henv.
  assert ("."%char ∈ chars key) as Hin by (apply (prefix_elem _ _ _ Henv); apply list_elem_of_In; vm_compute; tauto).
  unfold plain_key in Hkey. destruct (chars key) as [|c l]; [by apply elem_of_nil in Hin|].
  apply andb_prop in Hkey as [Hc Hl]. apply elem_of_cons in Hin as [<-|Hin]; [done|].
  by pose proof (forallb_elem _ _ _ Hl Hin).
Qed.

Section trip.
Context (engine : string) (Hengine : engine ∈ engines).

(** What the walk reads of an entry. *)
Definition item_back (key : string) (value : doc) : option (string * doc) :=
  match value with
  | Sc (VBool true) => Some (_flag_to_key (render_flag engine key), Sc (VBool true))
  | Sc (VBool false) =>
      (fun negated => (_flag_to_key negated, Sc (VBool true))) <$> negated_flag engine key
  | _ => Some (_flag_to_key (render_flag engine key), Sc (VStr (doc_str value)))
  end.

(** The same in the canonical vocabulary. *)
Definition norm_back (key : string) (value : doc) : option (string * doc) :=
  match value with
  | Sc (VBool true) => Some (key, Sc (VBool true))
  | Sc (VBool false) =>
      match negated_flag engine key with
      | Some _ => Some (if is_switch engine key then (key, Sc (VBool false)) else ("no_" +:+ key, Sc (VBool true)))
      | None => None
      end
  | _ => Some (key, switch_value engine key (Sc (VStr (doc_str value))))
  end.

(** The key a spelling belongs to, in either polarity. *)
Definition owner (key : string) : string :=
  let c := canonical_key engine key in
  if starts_with "no_" c then canonical_key engine (from 3 c) else c.

Lemma engine_named : String.eqb engine "" = false.
Proof. revert Hengine. by intros [->|[->|[]%elem_of_nil]%elem_of_cons]%elem_of_cons. Qed.

Lemma from_no k : from 3 ("no_" +:+ k) = k.
Proof. apply chars_inj. unfold from. by rewrite chars_of_chars, chars_app. Qed.

Lemma rendered k : plain_key k = true -> canonical_key engine k = k ->
  flag_token (render_flag engine k) = true /\ canonical_key engine (_flag_to_key (render_flag engine k)) = k.
Proof.
  intros Hk Hc. unfold render_flag. destruct (dict_get k (_alias_map engine)) eqn:Halias.
  - pose proof (known_key _ Hengine k Hc ltac:(by eexists)) as Hok. unfold catalog_entry_ok in Hok.
    destruct (spec_of engine k) as [spec|]; [|done].
    apply andb_prop in Hok as [[[[Hf Hb%String.eqb_eq]%andb_prop _]%andb_prop _]%andb_prop _]. done.
  - destruct (unknown_key _ Hengine k Halias) as (_ & -> & _).
    rewrite flag_to_key_kebab by done. split; [by apply kebab_flag_token|done].
Qed.

Lemma negated k n : plain_key k = true -> canonical_key engine k = k -> negated_flag engine k = Some n ->
  is_switch engine k || bool_decide (dict_get k (_alias_map engine) = None) = true ->
  flag_token n = true /\
  turned_off engine (canonical_key engine (_flag_to_key n)) (Sc (VBool true))
    = (if is_switch engine k then Some k else None) /\
  (is_switch engine k = false -> _flag_to_key n = "no_" +:+ k).
Proof.
  intros Hk Hc Hn Hs. unfold negated_flag in Hn. destruct (dict_get k (_alias_map engine)) eqn:Halias.
  - rewrite orb_false_r in Hs. rewrite Hs.
    pose proof (known_key _ Hengine k Hc ltac:(by eexists)) as Hok. unfold catalog_entry_ok in Hok.
    destruct (spec_of engine k) as [spec|]; [|done].
    apply andb_prop in Hok as [[_ Hoff]%andb_prop Hkind]. rewrite Hs in Hkind.
    apply Bool.eqb_prop in Hkind. rewrite <- Hkind in Hoff. cbn in Hoff.
    destruct (_ || _); [|done]. injection Hn as <-.
    by apply andb_prop in Hoff as [Hf Hoff%bool_decide_eq_true_1].
  - destruct (unknown_key _ Hengine k Halias) as (_ & Hspec & Hsw). rewrite Hspec in Hn.
    destruct (_ || _); [|done]. injection Hn as <-. rewrite Hsw, negated_kebab by done.
    rewrite flag_to_key_kebab by (by apply no_prefix_plain).
    destruct (unknown_key _ Hengine _ (no_key_unknown _ Hengine k)) as (-> & _).
    split; [by apply kebab_flag_token, no_prefix_plain|]. split; [|done].
    unfold turned_off. rewrite from_no, Hc, Hsw. by destruct (_ && _).
Qed.

(** The parts of [travels]. *)
Lemma travels_key k v : travels engine k v = true ->
  plain_key k = true /\ canonical_key engine k = k /\ starts_with "no_" k = false.
Proof. unfold travels. by intros [[[? ?%String.eqb_eq]%andb_prop ?%negb_true_iff]%andb_prop _]%andb_prop. Qed.

Lemma owner_key k : canonical_key engine k = k -> starts_with "no_" k = false -> owner k = k.
Proof. intros Hc Hno. unfold owner. by rewrite Hc, Hno. Qed.

Lemma owner_no k : canonical_key engine k = k -> owner ("no_" +:+ k) = k.
Proof.
  intros Hc. unfold owner. destruct (unknown_key _ Hengine _ (no_key_unknown _ Hengine k)) as (-> & _).
  rewrite from_no, Hc. by destruct k.
Qed.

(** How one entry comes back: under a key of its own, and in the canonical
    vocabulary. *)
Lemma item_comes_back k v : travels engine k v = true ->
  match item_back k v with
  | Some (k', v') => owner k' = k /\ Some (normalize_item engine k' v').1 = norm_back k v
  | None => norm_back k v = None
  end.
Proof.
  intros Ht. destruct (travels_key _ _ Ht) as (Hk & Hc & Hno).
  destruct (rendered k Hk Hc) as [_ Hcanon].
  assert (forall v', turned_off engine k v' = None) as Hon by (intros v'; unfold turned_off, starts_with in *; by rewrite Hno).
  assert (forall v', owner (_flag_to_key (render_flag engine k)) = k /\
            Some (normalize_item engine (_flag_to_key (render_flag engine k)) v').1 = Some (k, switch_value engine k v')) as Hpos.
  { intros v'. unfold owner, normalize_item. by rewrite Hcanon, Hno, Hon. }
  unfold travels in Ht. apply andb_prop in Ht as [_ Hv].
  destruct v as [[|[]|z|x|s]|l|m]; [discriminate Hv|exact (Hpos (Sc (VBool true)))| |exact (Hpos _)..|
    discriminate Hv|discriminate Hv].
  cbn [item_back norm_back]. destruct (negated_flag engine k) as [n|] eqn:Hn; [|reflexivity].
  cbn [fmap option_fmap option_map].
  destruct (negated k n Hk Hc Hn Hv) as (_ & Hoff & Hunknown).
  unfold normalize_item. rewrite Hoff. destruct (is_switch engine k) eqn:Hs.
  - split; [|done]. unfold turned_off in Hoff. unfold owner.
    change (starts_with "no_") with (String.prefix "no_").
    destruct (String.prefix "no_" (canonical_key engine (_flag_to_key n))); [|done]. cbn in Hoff.
    destruct (is_switch engine (canonical_key engine _)); [|done]. by injection Hoff.
  - rewrite Hunknown by done. split; [by apply owner_no|].
    by destruct (unknown_key _ Hengine _ (no_key_unknown _ Hengine k)) as (-> & _).
Qed.

Lemma norm_back_owner k v x : travels engine k v = true -> norm_back k v = Some x -> owner x.1 = k.
Proof.
  intros (_ & Hc & Hno)%travels_key Hx.
  assert (owner k = k /\ owner ("no_" +:+ k) = k) as [Hpos Hneg] by (split; [by apply owner_key|by apply owner_no]).
  destruct v as [[|[]|?|?|?]|?|?]; cbn [norm_back] in Hx;
    try (apply (inj Some) in Hx as <-; exact Hpos); try discriminate Hx.
  destruct (negated_flag engine k); [|discriminate Hx]. apply (inj Some) in Hx as <-.
  destruct (is_switch engine k); [exact Hpos|exact Hneg].
Qed.
End trip.

(** ** Lemmas: the walk over a rendered command line *)
Lemma flag_token_parts token : flag_token token = true ->
  is_flag token = true /\ strip token = token /\ token <> "" /\ partition "="%char token = None /\
  launches_module token = false /\ token <> "serve" /\ last_part "/"%char token <> "sglang" /\
  partition " "%char token = None.
Proof.
  unfold flag_token. intros H. repeat apply andb_prop in H as [H ?].
  repeat match goal with
  | Hb : negb (String.eqb _ _) = true |- _ => apply negb_true_iff, String.eqb_neq in Hb
  | Hb : String.eqb _ _ = true |- _ => apply String.eqb_eq in Hb
  | Hb : bool_decide _ = true |- _ => apply bool_decide_eq_true_1 in Hb
  | Hb : negb _ = true |- _ => apply negb_true_iff in Hb
  end. done.
Qed.

Lemma value_token_parts token : value_token token = true ->
  is_flag token = false /\ strip token = token /\ token <> "" /\ launches_module token = false.
Proof.
  unfold value_token. intros H. repeat apply andb_prop in H as [H ?].
  repeat match goal with
  | Hb : negb (String.eqb _ _) = true |- _ => apply negb_true_iff, String.eqb_neq in Hb
  | Hb : String.eqb _ _ = true |- _ => apply String.eqb_eq in Hb
  | Hb : negb _ = true |- _ => apply negb_true_iff in Hb
  end. done.
Qed.

(** A whole number is a value, whatever its sign. *)
Lemma value_token_int (z : Z) : value_token (pretty z) = true.
Proof.
  assert (forall p, exists c l, chars (pretty (Z.pos p)) = c :: l /\ is_digit c = true /\ forallb is_digit l = true) as Hpos.
  { intros p. destruct (pretty_nonneg (Z.pos p)) as (Hd & _ & Hl); [lia|].
    destruct (chars (pretty (Z.pos p))) as [|c l]; [cbn in Hl; lia|]. exists c, l.
    by apply andb_prop in Hd as []. }
  assert (exists c l, chars (pretty z) = c :: l /\ (is_digit c = true \/ c = "-"%char) /\
            match l with d :: _ => is_digit d = true | [] => True end /\ forallb is_digit l = true) as (c & l & Hz & Hc & Hl & Hall).
  { destruct z as [|p|p].
    - exists "0"%char, []. auto.
    - destruct (Hpos p) as (c & l & -> & Hc & Hl). exists c, l. destruct l as [|d l]; [auto|].
      pose proof Hl as [Hd _]%andb_prop. auto.
    - destruct (Hpos p) as (c & l & Hp & Hc & Hl). exists "-"%char, (c :: l).
      rewrite pretty_neg, Hp. cbn [forallb]. rewrite Hc. auto. }
  assert (chars (pretty z) = chars (of_chars (c :: l))) as ->%chars_inj by (by rewrite chars_of_chars).
  unfold value_token. apply andb_true_intro. split; [apply andb_true_intro; split; [apply andb_true_intro; split|]|].
  - unfold is_flag, starts_with. revert Hl. destruct l as [|d l];
      [destruct Hc as [Hc| ->]; [revert Hc; char_cases c|done]|].
    intros Hd. destruct Hc as [Hc| ->]; [revert Hc; char_cases c|revert Hd; char_cases d].
  - unfold strip. rewrite chars_of_chars, <- Hz, strip_pretty, Hz. apply String.eqb_refl.
  - done.
  - unfold launches_module. apply negb_true_iff, orb_false_iff.
    split; apply not_true_is_false; intros He; pose proof (ends_with_chars _ _ He "_"%char ltac:(apply list_elem_of_In; vm_compute; tauto)) as Hin.
    all: rewrite chars_of_chars in Hin; apply elem_of_cons in Hin as [<-|Hin]; [by destruct Hc|].
    all: by pose proof (forallb_elem _ _ _ Hall Hin).
Qed.

(** What an entry may put on the command line. *)
Inductive rendered_entry : list string -> option (string * doc) -> Prop :=
| EntryNothing : rendered_entry [] None
| EntrySwitch flag : flag_token flag = true ->
    rendered_entry [flag] (Some (_flag_to_key flag, Sc (VBool true)))
| EntryValue flag text : flag_token flag = true -> value_token text = true ->
    rendered_entry [flag; text] (Some (_flag_to_key flag, Sc (VStr text))).

Definition store (args : tree) (entry : option (string * doc)) : tree :=
  match entry with Some (k, v) => dict_set k v args | None => args end.

Definition opens_with_flag (tokens : list string) : Prop :=
  match tokens with [] => True | t :: _ => flag_token t = true end.

Lemma rendered_opens entries : Forall (fun e => rendered_entry e.1 e.2) entries ->
  opens_with_flag (concat entries.*1).
Proof.
  induction 1 as [|[tokens entry] entries He _ IH]; [done|]. cbn in *. by inversion He.
Qed.

Lemma read_rendered entries args : Forall (fun e => rendered_entry e.1 e.2) entries ->
  read_flags (concat entries.*1) args = foldl store args entries.*2.
Proof.
  intros Hall. revert args. induction Hall as [|[tokens entry] entries He Hall IH]; intros args; [done|].
  pose proof (rendered_opens _ Hall) as Hopens. cbn [fst snd fmap list_fmap concat] in *.
  inversion He as [|flag Hf|flag text Hf Hv]; subst; cbn [app foldl store].
  - apply IH.
  - destruct (flag_token_parts _ Hf) as (Hflag & _ & _ & Hpart & _). rewrite <- IH.
    cbn [read_flags]. rewrite Hflag, Hpart. cbn [negb].
    destruct (concat entries.*1) as [|t rest] eqn:Hrest; [done|].
    by destruct (flag_token_parts _ Hopens) as (-> & _).
  - destruct (flag_token_parts _ Hf) as (Hflag & _ & _ & Hpart & _). rewrite <- IH.
    destruct (value_token_parts _ Hv) as (Hval & _).
    cbn [read_flags]. by rewrite Hflag, Hpart, Hval.
Qed.

Definition ordinary (token : string) : bool := flag_token token || value_token token.

Lemma ordinary_nonblank tokens : Forall (fun t => ordinary t = true) tokens -> nonblank tokens = tokens.
Proof.
  unfold nonblank. induction 1 as [|t tokens Ht _ IH]; [done|]. cbn [map].
  assert (strip t = t /\ t <> "") as [-> Hne].
  { apply orb_prop in Ht as [Ht|Ht].
    - by destruct (flag_token_parts _ Ht) as (_ & ? & ? & _).
    - by destruct (value_token_parts _ Ht) as (_ & ? & ? & _). }
  by rewrite filter_cons_True, IH.
Qed.

Lemma rendered_ordinary entries : Forall (fun e => rendered_entry e.1 e.2) entries ->
  Forall (fun t => ordinary t = true) (concat entries.*1).
Proof.
  induction 1 as [|[tokens entry] entries He _ IH]; [constructor|]. cbn in *. apply Forall_app. split; [|done].
  unfold ordinary.
  inversion He as [|flag Hf|flag text Hf Hv]; subst; repeat constructor; rewrite ?Hf, ?Hv; try done.
  by rewrite orb_true_r.
Qed.

Lemma rendered_no_launcher entries before : Forall (fun e => rendered_entry e.1 e.2) entries ->
  after_launcher before (concat entries.*1) = None.
Proof.
  intros Hall. revert before. induction Hall as [|[tokens entry] entries He Hall IH]; intros before; [done|].
  cbn [fst fmap list_fmap concat] in *.
  inversion He as [|flag Hf|flag text Hf Hv]; subst; cbn [app after_launcher].
  - apply IH.
  - destruct (flag_token_parts _ Hf) as (_ & _ & _ & _ & -> & Hserve & _).
    apply String.eqb_neq in Hserve. rewrite Hserve. apply IH.
  - destruct (flag_token_parts _ Hf) as (_ & _ & _ & _ & -> & Hserve & Hlast & _).
    destruct (value_token_parts _ Hv) as (_ & _ & _ & ->).
    apply String.eqb_neq in Hserve, Hlast. rewrite Hserve, Hlast, andb_false_r.
    apply IH.
Qed.

Lemma parse_rendered entries : Forall (fun e => rendered_entry e.1 e.2) entries ->
  parse_tokens (concat entries.*1) = foldl store [] entries.*2.
Proof.
  intros Hall. unfold parse_tokens. rewrite ordinary_nonblank by (by apply rendered_ordinary).
  rewrite rendered_no_launcher by done. cbn. by apply read_rendered.
Qed.

(** ** Lemmas: normalizing keys that do not collide *)
Lemma normalize_item_fold engine l out notes :
  NoDup (out.*1 ++ map (fun kv => (normalize_item engine kv.1 kv.2).1.1) l) ->
  (foldl (fun '(out, notes) '(key, value) =>
            let '(canonical, value, more) := normalize_item engine key value in
            let twice := if dict_has canonical out then [GivenTwice canonical] else [] in
            (dict_set canonical value out, notes ++ more ++ twice)) (out, notes) l).1
  = out ++ map (fun kv => (normalize_item engine kv.1 kv.2).1) l.
Proof.
  revert out notes. induction l as [|[k v] l IH]; intros out notes; cbn [foldl map fst snd];
    [intros _; by rewrite app_nil_r|].
  destruct (normalize_item engine k v) as [[k' v'] more] eqn:Hitem. cbn [fst]. intros Hnd.
  assert (k' ∉ out.*1) as Hk'.
  { intros Hin. apply NoDup_app in Hnd as (_ & Hdis & _). by apply (Hdis k' Hin); left. }
  rewrite IH, dict_set_fresh by (try done; rewrite dict_set_fresh, fmap_app, <- app_assoc by done; exact Hnd).
  by rewrite <- app_assoc.
Qed.

Lemma normalize_distinct engine l :
  NoDup (map (fun kv => (normalize_item engine kv.1 kv.2).1.1) l) ->
  (normalize_args engine l).1 = map (fun kv => (normalize_item engine kv.1 kv.2).1) l.
Proof. exact (normalize_item_fold engine l [] []). Qed.

Lemma store_distinct (entries : list (option (string * doc))) (args : tree) :
  NoDup (args.*1 ++ (omap id entries).*1) -> foldl store args entries = args ++ omap id entries.
Proof.
  revert args. induction entries as [|[[k v]|] entries IH]; intros args; cbn [foldl store omap list_omap id fmap list_fmap fst].
  - intros _. by rewrite app_nil_r.
  - intros Hnd. assert (k ∉ args.*1) as Hk.
    { intros Hin. apply NoDup_app in Hnd as (_ & Hdis & _). by apply (Hdis k Hin); left. }
    rewrite IH, dict_set_fresh by (try done; rewrite dict_set_fresh, fmap_app, <- app_assoc by done; exact Hnd).
    by rewrite <- app_assoc.
  - apply IH.
Qed.

Section survives.
Context (engine : string) (Hengine : engine ∈ engines).

Definition comes_back (kv : string * doc) : option (string * doc) := norm_back engine kv.1 kv.2.
Definition all_travel (cfg : tree) : Prop := Forall (fun kv => travels engine kv.1 kv.2 = true) cfg.

Lemma owner_in cfg n : all_travel cfg -> n ∈ (omap comes_back cfg).*1 -> owner engine n ∈ cfg.*1.
Proof.
  intros Hall (x & -> & (kv & Hkv & Hx)%list_elem_of_omap)%list_elem_of_fmap.
  pose proof (proj1 (Forall_forall _ _) Hall kv Hkv) as Ht.
  rewrite (norm_back_owner _ Hengine _ _ _ Ht Hx). apply list_elem_of_fmap. by exists kv.
Qed.

Lemma comes_back_NoDup cfg : all_travel cfg -> NoDup cfg.*1 -> NoDup (omap comes_back cfg).*1.
Proof.
  induction 1 as [|[k v] cfg Ht Hall IH]; cbn [fmap list_fmap fst]; [constructor|].
  intros [Hk Hnd]%NoDup_cons. cbn [omap list_omap]. unfold comes_back at 1. cbn [fst snd] in *.
  destruct (norm_back engine k v) as [x|] eqn:Hx; [|by apply IH]. cbn [fmap list_fmap].
  apply NoDup_cons. split; [|by apply IH]. intros Hin%owner_in; [|done].
  by rewrite (norm_back_owner _ Hengine _ _ _ Ht Hx) in Hin.
Qed.

Lemma no_key_differs k : "no_" +:+ k <> k.
Proof.
  intros Heq%(f_equal (fun s => length (chars s))). rewrite chars_app, length_app in Heq.
  change (length (chars "no_")) with 3%nat in Heq. lia.
Qed.

Lemma dict_get_perm {A} k (p q : list (string * A)) : NoDup q.*1 -> p ≡ₚ q -> dict_get k p = dict_get k q.
Proof.
  intros Hnd Hp. destruct (dict_get k q) as [v|] eqn:Hq.
  - apply dict_get_in; [by rewrite Hp|]. rewrite Hp. by apply dict_get_Some_in.
  - apply dict_get_None. rewrite Hp. by apply dict_get_None.
Qed.

(** An entry of its own comes back as it is. *)
Lemma same_value_back k v w : travels engine k v = true -> norm_back engine k v = Some (k, w) ->
  same_back (switch_value engine k v) (Some w) = true.
Proof.
  intros Ht Hw. unfold travels in Ht. apply andb_prop in Ht as [_ Hv].
  assert (forall b, same_back (Sc (VBool b)) (Some (Sc (VBool b))) = true) as Hbool.
  { intros b. cbn [same_back]. by rewrite bool_decide_eq_true_2. }
  assert (forall t, is_switch engine k = false -> switch_value engine k (Sc (VStr t)) = Sc (VStr t)) as Hplain.
  { intros t Hs. unfold switch_value. by rewrite Hs. }
  destruct v as [[|[]|z|x|t]|l|m]; cbn [norm_back] in Hw; try discriminate Hv.
  - apply (inj Some), (f_equal snd) in Hw. cbn [snd] in Hw. subst w. apply Hbool.
  - destruct (negated_flag engine k); [|discriminate Hw]. apply (inj Some) in Hw.
    destruct (is_switch engine k).
    + apply (f_equal snd) in Hw. cbn [snd] in Hw. subst w. apply Hbool.
    + apply (f_equal fst) in Hw. cbn [fst] in Hw. by apply no_key_differs in Hw.
  - apply (inj Some), (f_equal snd) in Hw. cbn [snd] in Hw. subst w.
    apply negb_true_iff in Hv. rewrite Hplain by done. cbn. apply String.eqb_refl.
  - apply (inj Some), (f_equal snd) in Hw. cbn [snd] in Hw. subst w.
    apply andb_prop in Hv as [_ Hs%negb_true_iff]. rewrite Hplain by done. cbn. apply String.eqb_refl.
  - apply (inj Some), (f_equal snd) in Hw. cbn [snd] in Hw. subst w. cbn [doc_str str_of].
    unfold switch_value. destruct (is_switch engine k); [|cbn; apply String.eqb_refl].
    destruct (existsb _ _TRUE_WORDS); [apply Hbool|]. destruct (existsb _ _FALSE_WORDS); [apply Hbool|].
    cbn. apply String.eqb_refl.
Qed.

(** One that comes back under another key, or not at all, was off. *)
Lemma off_back k v : travels engine k v = true ->
  match norm_back engine k v with
  | Some (k', w) => k' = k \/ (k' = "no_" +:+ k /\ w = Sc (VBool true) /\ v = Sc (VBool false))
  | None => v = Sc (VBool false)
  end.
Proof.
  intros Ht. unfold travels in Ht. apply andb_prop in Ht as [_ Hv].
  destruct v as [[|[]|z|x|t]|l|m]; cbn [norm_back]; try discriminate Hv; try (left; reflexivity).
  destruct (negated_flag engine k); [|reflexivity].
  destruct (is_switch engine k); [left; reflexivity|right; auto].
Qed.

Lemma back_off k : is_false (switch_value engine k (Sc (VBool false))) && bool_decide (@None doc = None) = true.
Proof. reflexivity. Qed.

Lemma trip_steps_survive cfg parsed : all_travel cfg -> NoDup cfg.*1 -> parsed ≡ₚ omap comes_back cfg ->
  trip_steps (map (fun kv => (kv.1, switch_value engine kv.1 kv.2)) cfg) parsed = ([], []).
Proof.
  intros Hall. revert parsed. induction Hall as [|[k v] cfg Ht Hall IH]; intros parsed Hnd Hp.
  { apply Permutation_nil_r in Hp as ->. done. }
  pose proof (comes_back_NoDup ((k, v) :: cfg) ltac:(by constructor) Hnd) as Hback.
  cbn [fmap list_fmap fst] in Hnd. apply NoDup_cons in Hnd as [Hk Hnd].
  destruct (travels_key _ _ _ Ht) as (_ & Hc & Hno).
  assert (k ∉ (omap comes_back cfg).*1) as Hk1.
  { intros Hin%owner_in; [|done]. by rewrite owner_key in Hin. }
  assert ("no_" +:+ k ∉ (omap comes_back cfg).*1) as Hk2.
  { intros Hin%owner_in; [|done]. by rewrite owner_no in Hin. }
  pose proof (off_back k v Ht) as Hoff. pose proof (same_value_back k v) as Hsame.
  assert (omap comes_back ((k, v) :: cfg) =
          match norm_back engine k v with Some x => [x] | None => [] end ++ omap comes_back cfg) as Heq.
  { cbn [omap list_omap]. unfold comes_back at 1. cbn [fst snd]. by destruct (norm_back engine k v). }
  rewrite Heq in *. clear Heq. remember (omap comes_back cfg) as rest eqn:Hrest.
  cbn [map fst snd trip_steps]. unfold trip_step, take_back.
  rewrite dict_get_pop, !(dict_get_perm _ _ _ Hback Hp).
  assert (String.eqb k ("no_" +:+ k) = false /\ String.eqb ("no_" +:+ k) k = false) as [Hne Hne'].
  { split; apply String.eqb_neq; intros Heq; by apply (no_key_differs k). }
  destruct (norm_back engine k v) as [[k' w]|]; cbn [app] in *.
  - destruct Hoff as [->|(-> & -> & ->)].
    + rewrite dict_get_cons, String.eqb_refl, (bool_decide_eq_false_2 (Some w = None)), andb_false_r by done.
      cbn [fst snd]. rewrite Hsame by done. rewrite IH; [done|done|].
      unfold dict_pop. rewrite Hp, filter_cons_False by (cbn; tauto). by apply reflexive_eq, dict_pop_notin.
    + rewrite !dict_get_cons, Hne, Hne', String.eqb_refl, !(dict_get_notin k) by done. rewrite back_off.
      cbn [andb app same_back negb]. rewrite !bool_decide_eq_true_2 by done. cbn [orb]. rewrite IH; [done|done|]. unfold dict_pop. rewrite Hp.
      rewrite filter_cons_True by (exact (no_key_differs k)). rewrite filter_cons_False by (cbn; tauto).
      apply reflexive_eq. fold (dict_pop k rest). rewrite (dict_pop_notin k) by done. by apply dict_pop_notin.
  - subst v. rewrite Hne', !dict_get_notin by done. rewrite back_off. cbn [andb same_back negb].
    rewrite (bool_decide_eq_false_2 (None = Some (Sc (VBool true)))) by done.
    change (same_back (switch_value engine k (Sc (VBool false))) None) with true.
    rewrite IH; [done|done|]. unfold dict_pop. rewrite Hp. apply reflexive_eq. fold (dict_pop k rest).
    rewrite (dict_pop_notin k) by done. by apply dict_pop_notin.
Qed.

Lemma plain_key_shape key : plain_key key = true -> _KEY_SHAPE key = true.
Proof.
  unfold plain_key, _KEY_SHAPE. destruct (chars key) as [|c rest]; [done|].
  intros [-> Hl]%andb_prop. cbn [andb]. destruct (reverse rest) as [|l more] eqn:Hrev.
  - exact Hl.
  - replace (Ascii.eqb l newline) with false; [exact Hl|]. symmetry. apply Ascii.eqb_neq. intros ->.
    assert (newline ∈ rest) as Hin by (apply elem_of_reverse; rewrite Hrev; by left).
    by pose proof (forallb_elem _ _ _ Hl Hin).
Qed.

Lemma travels_renderable k v : travels engine k v = true -> unrenderable k v = None.
Proof.
  intros Ht. destruct (travels_key _ _ _ Ht) as (Hk & _). unfold unrenderable.
  rewrite plain_key_shape by done. cbn [negb]. unfold travels in Ht. apply andb_prop in Ht as [_ Hv].
  destruct v as [[|?|?|?|t]|?|?]; try discriminate Hv; try reflexivity.
  destruct (value_token_parts _ Hv) as (Hflag & -> & Hne & _). apply String.eqb_neq in Hne.
  unfold is_flag in Hflag. by rewrite Hne, Hflag.
Qed.

(** The tokens of an entry, and what the walk reads of them. *)
Definition entry (kv : string * doc) : list string * option (string * doc) :=
  (render_item engine kv.1 kv.2, item_back engine kv.1 kv.2).

Lemma travels_rendered k v : travels engine k v = true ->
  rendered_entry (render_item engine k v) (item_back engine k v).
Proof.
  intros Ht. destruct (travels_key _ _ _ Ht) as (Hk & Hc & _).
  destruct (rendered engine Hengine k Hk Hc) as [Hf _].
  unfold render_item. rewrite plain_not_env, engine_named by done.
  unfold travels in Ht. apply andb_prop in Ht as [_ Hv].
  destruct v as [[|[]|z|x|t]|?|?]; cbn [item_back doc_str]; try discriminate Hv.
  - by apply EntrySwitch.
  - destruct (negated_flag engine k) as [n|] eqn:Hn; [|by apply EntryNothing].
    destruct (negated engine Hengine k n Hk Hc Hn Hv) as (Hn' & _). by apply EntrySwitch.
  - apply EntryValue; [done|apply value_token_int].
  - apply andb_prop in Hv as [Hv _]. by apply EntryValue.
  - by apply EntryValue.
Qed.

Lemma back_entries_NoDup cfg : all_travel cfg -> NoDup cfg.*1 ->
  NoDup (omap id (map (fun kv => item_back engine kv.1 kv.2) cfg)).*1 /\
  map (fun kv => (normalize_item engine kv.1 kv.2).1) (omap id (map (fun kv => item_back engine kv.1 kv.2) cfg))
    = omap comes_back cfg /\
  forall n, n ∈ (omap id (map (fun kv => item_back engine kv.1 kv.2) cfg)).*1 -> owner engine n ∈ cfg.*1.
Proof.
  induction 1 as [|[k v] cfg Ht Hall IH]; cbn [fmap list_fmap fst snd map]; intros Hnd.
  { split; [constructor|]. split; [done|]. by intros n ?%elem_of_nil. }
  apply NoDup_cons in Hnd as [Hk Hnd]. destruct (IH Hnd) as (IHd & IHn & IHo). cbn [fst snd] in Ht.
  pose proof (item_comes_back engine Hengine k v Ht) as Hback.
  cbn [omap list_omap id]. unfold comes_back at 1. cbn [fst snd].
  destruct (item_back engine k v) as [[k' v']|]; cbn [fmap list_fmap fst snd map].
  - destruct Hback as [Ho <-]. split; [|split].
    + apply NoDup_cons. split; [|done]. intros Hin%IHo. by rewrite Ho in Hin.
    + by f_equal.
    + intros n [->|Hn]%elem_of_cons; [rewrite Ho; by left|right; by apply IHo].
  - rewrite Hback. split; [done|]. split; [done|]. intros n Hn%IHo. by right.
Qed.

(** C17: a configuration whose keys are flags' own names and whose values are ones
    a command line can carry (booleans, numbers, and words that are neither a
    flag nor a launcher) survives the trip: rendered to the engine's argv and
    read back, it is the same configuration, and nothing is gained. *)
Theorem deployable_config_round_trips (cfg : tree) :
  NoDup cfg.*1 -> all_travel cfg -> round_trip_problems cfg engine = [].
Proof.
  intros Hnd Hall. unfold round_trip_problems.
  assert (omap (fun '(key, value) => unrenderable key value) cfg = []) as ->.
  { clear Hnd. induction Hall as [|[k v] cfg Ht _ IH]; [done|]. cbn [omap list_omap].
    by rewrite travels_renderable, IH. }
  set (S := sort_by (key_before (fun kv => key_of_string kv.1)) cfg).
  assert (S ≡ₚ cfg) as Hperm by apply sort_by_perm.
  assert (all_travel S) as HallS by (unfold all_travel; by rewrite Hperm).
  assert (NoDup S.*1) as HndS by (by rewrite Hperm).
  destruct (back_entries_NoDup S HallS HndS) as (Hd & Hn & _).
  assert (render_args cfg engine = concat (map entry S).*1) as ->.
  { unfold render_args. fold S. f_equal. rewrite <- list_fmap_compose. apply map_ext. by intros []. }
  rewrite parse_rendered.
  2: { apply Forall_map. eapply Forall_impl; [exact HallS|]. intros [k v]. apply travels_rendered. }
  assert ((map entry S).*2 = map (fun kv => item_back engine kv.1 kv.2) S) as ->.
  { by rewrite <- list_fmap_compose. }
  rewrite (store_distinct _ []) by exact Hd. cbn [app].
  rewrite (normalize_distinct engine (omap id _)), Hn by (rewrite <- map_map, Hn; by apply comes_back_NoDup).
  assert (map (fun kv => (normalize_item engine kv.1 kv.2).1) cfg
          = map (fun kv => (kv.1, switch_value engine kv.1 kv.2)) cfg) as Hexp.
  { apply map_ext_in. intros [k v] Hin%list_elem_of_In. cbn [fst snd].
    pose proof (proj1 (Forall_forall _ _) Hall _ Hin) as (_ & Hc & Hno)%travels_key. cbn [fst] in *.
    unfold normalize_item, turned_off, starts_with in *. by rewrite Hc, Hno. }
  rewrite (normalize_distinct engine cfg), Hexp.
  2: { rewrite <- map_map, Hexp, map_map. exact Hnd. }
  rewrite trip_steps_survive; [done|done|done|]. by rewrite Hperm.
Qed.
End survives.

(** ** What a rendered command keeps *)
#[export] Instance code_inj : Inj (=) (=) code.
Proof.
  intros c d Hc. unfold code in Hc. apply Nat2Z.inj in Hc.
  by rewrite <- (ascii_nat_embedding c), Hc, ascii_nat_embedding.
Qed.

Lemma key_of_string_inj s t : key_of_string s = key_of_string t -> s = t.
Proof. unfold key_of_string. intros Heq%(inj (fmap code)). by apply chars_inj. Qed.

(** The command line does not depend on the order a configuration's entries
    were written in, so the same configuration always renders the same command. *)
Theorem same_config_same_command (cfg cfg' : tree) (engine : string) :
  NoDup cfg.*1 -> cfg ≡ₚ cfg' -> render_args cfg engine = render_args cfg' engine.
Proof.
  intros Hnd Hp. unfold render_args. do 2 f_equal. apply (sort_by_Permutation _); [|done].
  intros [k v] [k' v'] Hx Hy Hxy Hyx. unfold key_before in *. cbn [fst] in *.
  pose proof (key_of_string_inj _ _ (tuple_lt_total _ _ Hxy Hyx)) as <-. f_equal.
  pose proof (dict_get_in _ _ _ Hnd Hx) as Hg. rewrite (dict_get_in _ _ _ Hnd Hy) in Hg. congruence.
Qed.

Lemma read_flags_cons t rest args :
  read_flags (t :: rest) args =
  if negb (is_flag t) then read_flags rest args
  else
    match partition "="%char t with
    | Some (flag, value) => read_flags rest (dict_set (_flag_to_key flag) (Sc (VStr value)) args)
    | None =>
        match rest with
        | following :: rest' =>
            if is_flag following then read_flags rest (dict_set (_flag_to_key t) (Sc (VBool true)) args)
            else read_flags rest' (dict_set (_flag_to_key t) (Sc (VStr following)) args)
        | [] => dict_set (_flag_to_key t) (Sc (VBool true)) args
        end
    end.
Proof. destruct rest; reflexivity. Qed.

(** A token that opens a flag cuts the walk in two, whatever came before it. *)
Lemma read_flags_app (before : list string) (flag : string) (after : list string) (args : tree) :
  is_flag flag = true ->
  read_flags (before ++ flag :: after) args = read_flags (flag :: after) (read_flags before args).
Proof.
  intros Hflag. remember (length before) as n eqn:Hn. revert before args Hn.
  induction (lt_wf n) as [n _ IH]. intros before args ->.
  destruct before as [|t before]; [done|]. cbn [app]. rewrite !(read_flags_cons t).
  destruct (is_flag t); cbn [negb]; [|eapply IH; [|done]; cbn; lia].
  destruct (partition "="%char t) as [[f v]|]; [eapply IH; [|done]; cbn; lia|].
  destruct before as [|u before]; cbn [app].
  - by rewrite Hflag.
  - destruct (is_flag u) eqn:Hu.
    + change (u :: before ++ flag :: after) with ((u :: before) ++ flag :: after). eapply IH; [|done]. cbn. lia.
    + eapply IH; [|done]. cbn. lia.
Qed.

Lemma read_flags_keeps k tokens : forall args,
  (forall t, t ∈ tokens -> is_flag t = false) -> dict_get k (read_flags tokens args) = dict_get k args.
Proof.
  induction tokens as [|t tokens IH]; intros args Ht; [done|]. cbn [read_flags].
  rewrite (Ht t) by left. cbn [negb]. apply IH. intros u Hu. apply Ht. by right.
Qed.

Lemma nonblank_app l k : nonblank (l ++ k) = nonblank l ++ nonblank k.
Proof. unfold nonblank. by rewrite map_app, filter_app. Qed.

Lemma strip_int (z : Z) : strip (pretty z) = pretty z.
Proof. unfold strip. rewrite strip_pretty. apply of_chars_chars. Qed.

Lemma nonblank_kept t l : strip t = t -> t <> "" -> nonblank (t :: l) = t :: nonblank l.
Proof. intros Hs Hne. unfold nonblank. cbn [map]. rewrite Hs. by rewrite filter_cons_True. Qed.

Lemma nonblank_int (z : Z) l : nonblank (pretty z :: l) = pretty z :: nonblank l.
Proof. destruct (value_token_parts _ (value_token_int z)) as (_ & Hs & Hne & _). by apply nonblank_kept. Qed.

(** A flag with a whole number, read before the rest. *)
Lemma read_flag_int flag (z : Z) rest args : flag_token flag = true ->
  read_flags (flag :: pretty z :: rest) args = read_flags rest (dict_set (_flag_to_key flag) (Sc (VStr (pretty z))) args).
Proof.
  intros (Hf & _ & _ & Hp & _)%flag_token_parts. rewrite read_flags_cons, Hf, Hp. cbn [negb].
  by destruct (value_token_parts _ (value_token_int z)) as (-> & _).
Qed.

(** The last flag, with whatever it takes as its value. *)
Lemma read_last_flag k flag value args : _flag_to_key flag <> k -> flag_token flag = true ->
  is_flag (strip value) = false -> dict_get k (read_flags (flag :: nonblank [value]) args) = dict_get k args.
Proof.
  intros Hk (Hf & _ & _ & Hp & _)%flag_token_parts Hv. unfold nonblank. cbn [map]. rewrite filter_cons.
  assert (String.eqb k (_flag_to_key flag) = false) as Hk' by (by apply String.eqb_neq).
  case_decide; cbn [filter list_filter]; rewrite read_flags_cons, Hf, Hp; cbn [negb].
  - rewrite Hv. cbn [read_flags]. by rewrite dict_get_set, Hk'.
  - by rewrite dict_get_set, Hk'.
Qed.

(** On several boxes, how many there are and which one this is are the run's:
    whatever the configuration holds, sglang's command line reads back with the
    run's own numbers, because they come last. *)
Theorem run_owns_its_nodes (spec : serve_spec) :
  1 < sv_nnodes spec -> is_flag (strip (sv_dist_init_addr spec)) = false ->
  dict_get "nnodes" (parse_tokens (sglang_command spec)) = Some (Sc (VStr (pretty (sv_nnodes spec)))) /\
  dict_get "node_rank" (parse_tokens (sglang_command spec)) = Some (Sc (VStr (pretty (sv_rank spec)))).
Proof.
  intros Hn Haddr. unfold parse_tokens, sglang_command.
  rewrite (proj2 (Z.ltb_lt 1 (sv_nnodes spec)) Hn).
  set (tail := ["--nnodes"; _; _; _; _; _]).
  match goal with |- context [nonblank (?h ++ ?r ++ tail)] =>
    change h with (["python3"; "-m"; "sglang.launch_server"] ++ drop 3 h); set (mid := drop 3 h); set (args := r) end.
  rewrite <- app_assoc, nonblank_app, app_assoc, nonblank_app.
  set (before := nonblank (mid ++ args)).
  assert (forall l, after_launcher None (nonblank ["python3"; "-m"; "sglang.launch_server"] ++ l) = Some l) as Hlaunch by done.
  rewrite Hlaunch. cbn [default from_option id]. subst tail.
  rewrite nonblank_kept, nonblank_int, nonblank_kept, nonblank_int, nonblank_kept by done.
  rewrite read_flags_app, !read_flag_int by done.
  split; rewrite read_last_flag by (done || vm_compute; discriminate); by rewrite ?dict_get_set.
Qed.

(** ** Normalizing is stable *)
Section stable.
Context (engine : string) (Hengine : engine ∈ engines).

Lemma alias_values_fixed : forallb (fun kc => String.eqb (canonical_key engine kc.2) kc.2) (_alias_map engine) = true.
Proof. revert Hengine. intros [->|[->|[]%elem_of_nil]%elem_of_cons]%elem_of_cons; vm_compute; reflexivity. Qed.

Lemma canonical_idem k : canonical_key engine (canonical_key engine k) = canonical_key engine k.
Proof.
  destruct (dict_get k (_alias_map engine)) as [c|] eqn:Hc.
  - pose proof (forallb_elem _ _ _ alias_values_fixed (dict_get_Some_in _ _ _ Hc)) as Heq%String.eqb_eq.
    assert (canonical_key engine k = c) as -> by (unfold canonical_key; by rewrite Hc). exact Heq.
  - destruct (unknown_key engine Hengine k Hc) as (Hk & _). rewrite Hk. exact Hk.
Qed.

Lemma switch_not_off k v : is_switch engine k = true -> turned_off engine k v = None.
Proof.
  intros Hs. unfold turned_off. destruct (String.prefix "no_" k) eqn:Hno; [|done]. exfalso.
  destruct (dict_get k (_alias_map engine)) as [c|] eqn:Hc.
  - pose proof (catalogs_ok _ Hengine) as [[_ Hok]%andb_prop _]%andb_prop.
    pose proof (forallb_elem _ _ _ Hok (dict_get_Some_in _ _ _ Hc)) as Hf. cbn [fst] in Hf.
    unfold starts_with in Hf. by rewrite Hno in Hf.
  - destruct (unknown_key engine Hengine k Hc) as (_ & _ & Hf). congruence.
Qed.

Lemma switch_value_idem k v : switch_value engine k (switch_value engine k v) = switch_value engine k v.
Proof.
  destruct v as [[| | | |s]| |]; try reflexivity. unfold switch_value at 2 3.
  destruct (is_switch engine k) eqn:Hs; [|unfold switch_value; by rewrite Hs].
  destruct (existsb _ _TRUE_WORDS) eqn:Ht; [reflexivity|].
  destruct (existsb _ _FALSE_WORDS) eqn:Hf; [reflexivity|].
  unfold switch_value. by rewrite Hs, Ht, Hf.
Qed.

Lemma normalize_item_stable k v k' v' notes : normalize_item engine k v = (k', v', notes) ->
  normalize_item engine k' v' = (k', v', []).
Proof.
  unfold normalize_item at 1. set (c := canonical_key engine k).
  assert (canonical_key engine c = c) as Hc by apply canonical_idem.
  destruct (turned_off engine c v) as [target|] eqn:Hoff; intros [= <- <- _]; unfold normalize_item.
  - unfold turned_off in Hoff. destruct (_ && _); [|discriminate].
    destruct (is_switch engine (canonical_key engine (from 3 c))) eqn:Hs; [|discriminate].
    apply (inj Some) in Hoff as <-. rewrite canonical_idem, switch_not_off, String.eqb_refl by exact Hs. reflexivity.
  - rewrite Hc, String.eqb_refl.
    assert (turned_off engine c (switch_value engine c v) = None) as ->.
    { destruct (is_switch engine c) eqn:Hs; [by apply switch_not_off|].
      replace (switch_value engine c v) with v; [done|].
      unfold switch_value. destruct v as [[]| |]; by rewrite ?Hs. }
    by rewrite switch_value_idem.
Qed.

(** The fold keeps every item normalized, one per key. *)
Definition settled (out : tree) : Prop :=
  NoDup out.*1 /\ Forall (fun kv => normalize_item engine kv.1 kv.2 = (kv, [])) out.

Lemma dict_set_Forall (P : string * doc -> Prop) k v (d : tree) : P (k, v) -> Forall P d -> Forall P (dict_set k v d).
Proof.
  intros Hkv. induction 1 as [|[k' v'] d Hd Hall IH]; cbn [dict_set]; [by constructor|].
  destruct (String.eqb k k'); by constructor.
Qed.

Lemma normalize_fold_settled l out notes : settled out ->
  settled (foldl (fun '(out, notes) '(key, value) =>
            let '(canonical, value, more) := normalize_item engine key value in
            let twice := if dict_has canonical out then [GivenTwice canonical] else [] in
            (dict_set canonical value out, notes ++ more ++ twice)) (out, notes) l).1.
Proof.
  revert out notes. induction l as [|[k v] l IH]; intros out notes Hout; [exact Hout|]. cbn [foldl].
  destruct (normalize_item engine k v) as [[k' v'] more] eqn:Hitem. apply IH. destruct Hout as [Hnd Hall].
  split; [by apply dict_set_NoDup|]. apply dict_set_Forall; [|done]. by eapply normalize_item_stable.
Qed.

Lemma settled_again out notes l : NoDup (out.*1 ++ l.*1) -> settled l ->
  foldl (fun '(out, notes) '(key, value) =>
            let '(canonical, value, more) := normalize_item engine key value in
            let twice := if dict_has canonical out then [GivenTwice canonical] else [] in
            (dict_set canonical value out, notes ++ more ++ twice)) (out, notes) l = (out ++ l, notes).
Proof.
  intros Hnd [_ Hall]. revert out notes Hnd.
  induction Hall as [|[k v] l Hkv Hall IH]; intros out notes; cbn [foldl fmap list_fmap fst snd] in *;
    [intros _; by rewrite app_nil_r|].
  intros Hnd. rewrite Hkv. assert (k ∉ out.*1) as Hk.
  { intros Hin. apply NoDup_app in Hnd as (_ & Hdis & _). by apply (Hdis k Hin); left. }
  rewrite dict_has_get, (dict_get_notin _ _ Hk), dict_set_fresh by done. cbn.
  rewrite app_nil_r, IH, <- app_assoc; [done|]. rewrite fmap_app, <- app_assoc. exact Hnd.
Qed.

(** The canonical vocabulary is stable: normalizing what was normalized
    changes nothing and has nothing to say. *)
Theorem normalize_args_idempotent (args : tree) :
  normalize_args engine (normalize_args engine args).1 = ((normalize_args engine args).1, []).
Proof.
  assert (settled (normalize_args engine args).1) as Hs.
  { apply normalize_fold_settled. split; constructor. }
  unfold normalize_args at 1. rewrite settled_again; [done| |done]. exact (proj1 Hs).
Qed.
End stable.

(** ** The theorems at work *)
Definition sample_args : tree :=
  [("tp", Sc (VInt 4)); ("enable_multimodal", Sc (VBool false)); ("quantization", Sc (VStr "fp8"));
   ("new_knob", Sc (VBool true)); ("chunked_prefill_size", Sc (VInt (-1)))].

Lemma deployable_config_round_trips_witness :
  round_trip_problems sample_args "sglang" = [] /\ round_trip_problems sample_args "vllm" = [].
Proof.
  split; (apply deployable_config_round_trips;
    [apply list_elem_of_In; vm_compute; tauto|apply (bool_decide_unpack (NoDup _)); vm_compute; exact I|repeat (apply Forall_cons_2; [vm_compute; reflexivity|]); apply Forall_nil_2]).
Defined.

Lemma same_config_same_command_witness :
  render_args sample_args "vllm" = render_args (reverse sample_args) "vllm".
Proof.
  apply same_config_same_command; [apply (bool_decide_unpack (NoDup _)); vm_compute; exact I|symmetry; apply reverse_Permutation].
Defined.

Lemma run_owns_its_nodes_witness :
  let spec := ServeSpec "m" 28200 [("nnodes", Sc (VInt 9)); ("node_rank", Sc (VInt 7))] 2 1 "10.0.0.1:5000" in
  dict_get "nnodes" (parse_tokens (sglang_command spec)) = Some (Sc (VStr "2")) /\
  dict_get "node_rank" (parse_tokens (sglang_command spec)) = Some (Sc (VStr "1")).
Proof. cbn zeta. apply run_owns_its_nodes; [reflexivity|vm_compute; reflexivity]. Defined.

Lemma normalize_args_idempotent_witness :
  normalize_args "sglang" (normalize_args "sglang" [("tp_size", Sc (VInt 2)); ("no_enable_multimodal", Sc (VBool true))]).1
  = ([("tp", Sc (VInt 2)); ("enable_multimodal", Sc (VBool false))], []).
Proof.
  etrans; [apply normalize_args_idempotent, list_elem_of_In; vm_compute; tauto|]. vm_compute. reflexivity.
Defined.
