(* ===== verification/ExtraArgs.v ===== *)
(** A chart's [extraArgs], read and edited as flags
    ([app/control/recipe/args.py]): every spelling argparse accepts is read, and
    a flag is written back where it stands and as it was spelled. *)
From Stdlib Require Import SpecFloat Ascii.
From S2P Require Import Prelude Float Values Texts Documents Space Validation Flags Commands.
#[local] Open Scope string_scope.
#[local] Open Scope list_scope.
#[local] Open Scope Z_scope.

(** ** Values as flags spell them *)

(** [^-?\d+$], on a text already stripped. *)
Definition _INT (l : list ascii) : bool :=
  let digits := match l with c :: l' => if Ascii.eqb c "-" then l' else l | [] => l end in
  negb (bool_decide (digits = [])) && forallb is_digit digits.

(** The digits a text starts with, and what follows them. *)
Fixpoint span_digits (l : list ascii) : list ascii * list ascii :=
  match l with
  | c :: l' => if is_digit c then let '(a, b) := span_digits l' in (c :: a, b) else ([], l)
  | [] => ([], [])
  end.

Definition is_exponent (l : list ascii) : bool :=
  match l with
  | c :: l' =>
      (Ascii.eqb c "e" || Ascii.eqb c "E")
      && let l' := match l' with d :: l'' => if Ascii.eqb d "-" || Ascii.eqb d "+" then l'' else l' | [] => l' end in
         negb (bool_decide (l' = [])) && forallb is_digit l'
  | [] => false
  end.

(** The pattern [_FLOAT]: digits with a point on either side or inside, or with
    an exponent. *)
Definition _FLOAT (l : list ascii) : bool :=
  let l := match l with c :: l' => if Ascii.eqb c "-" then l' else l | [] => l end in
  let '(whole, rest) := span_digits l in
  match rest with
  | c :: rest' =>
      if Ascii.eqb c "." then
        let '(part, rest'') := span_digits rest' in
        match rest'' with
        | [] => negb (bool_decide (whole = [])) || negb (bool_decide (part = []))
        | _ => negb (bool_decide (whole = [])) && is_exponent rest''
        end
      else negb (bool_decide (whole = [])) && is_exponent rest
  | [] => false
  end.

(** A written value as the type a search space would hold it in. *)
Definition coerce (raw : string) : doc :=
  let text := strip raw in
  if _INT (chars text) then
    match parse_int text with Some z => Sc (VInt z) | None => Sc (VStr raw) end
  else if _FLOAT (chars text) then
    match parse_float text with Some x => Sc (VFloat x) | None => Sc (VStr raw) end
  else Sc (VStr raw).

(** [int(x)] when [x.is_integer()]. *)
Definition whole_float (x : float) : option Z :=
  match x with
  | S754_zero _ => Some 0
  | S754_finite s m e =>
      let v := if s then Zneg m else Zpos m in
      if 0 <=? e then Some (v * 2 ^ e)
      else if v mod 2 ^ (- e) =? 0 then Some (v / 2 ^ (- e)) else None
  | _ => None
  end.

Definition fmt (value : doc) : string :=
  match value with
  | Sc (VFloat x) =>
      match whole_float x with
      | Some z => if Z.abs z <? 10 ^ 15 then pretty z else doc_str value
      | None => doc_str value
      end
  | _ => doc_str value
  end.

(** ** Reading the list *)
Inductive arg_form := FormEq | FormSpace | FormPair | FormSwitch.
#[export] Instance arg_form_eq_dec : EqDecision arg_form.
Proof. solve_decision. Defined.

Record Arg := mkArg {
  a_start : nat;
  a_width : nat;
  a_flag : string;
  a_raw : option string;
  a_form : arg_form;
}.

Fixpoint scan_from (index : nat) (texts : list string) : list Arg :=
  match texts with
  | [] => []
  | text :: rest =>
      if negb (is_flag text) then scan_from (S index) rest
      else
        match partition "="%char text with
        | Some (flag, value) => mkArg index 1 flag (Some value) FormEq :: scan_from (S index) rest
        | None =>
            match partition " "%char text with
            | Some (flag, value) => mkArg index 1 flag (Some (strip value)) FormSpace :: scan_from (S index) rest
            | None =>
                match rest with
                | following :: rest' =>
                    if negb (is_flag following)
                    then mkArg index 2 text (Some following) FormPair :: scan_from (S (S index)) rest'
                    else mkArg index 1 text None FormSwitch :: scan_from (S index) rest
                | [] => [mkArg index 1 text None FormSwitch]
                end
            end
        end
  end.

Definition scan (items : list doc) : list Arg := scan_from 0 (map doc_str items).

(** [True if raw is None else raw]. *)
Definition raw_value (raw : option string) : doc :=
  match raw with Some s => Sc (VStr s) | None => Sc (VBool true) end.

Definition _canonical (engine flag : string) (value : doc) : string * doc :=
  (normalize_item engine (_flag_to_key flag) value).1.

Definition coerced (value : doc) : doc := match value with Sc (VStr s) => coerce s | _ => value end.

(** One flag read: a repeated one moves to the end. *)
Definition read_arg (engine flag : string) (raw : option string) (out : tree) : tree :=
  let '(key, value) := _canonical engine flag (raw_value raw) in
  dict_pop key out ++ [(key, coerced value)].

Definition flags (engine : string) (items : list doc) : tree :=
  foldl (fun out arg => read_arg engine (a_flag arg) (a_raw arg) out) [] (scan items).

Definition arg_key (engine flag : string) (raw : option string) : string :=
  (_canonical engine flag (raw_value raw)).1.

(** Every occurrence of a flag, either polarity, any spelling. *)
Definition _positions (engine : string) (items : list doc) (key : string) : list Arg :=
  filter (fun arg => arg_key engine (a_flag arg) (a_raw arg) = key) (scan items).

(** ** Writing to it *)
Definition turns_off (flag : string) : bool := starts_with "--no-" flag.

(** The items a flag is written as, in the spelling of the one it replaces. *)
Definition _rendered (engine key : string) (value : doc) (like : option (string * option string * arg_form))
    : option (list string) :=
  let positive := match like with Some (flag, _, _) => negb (turns_off flag) | None => false end in
  let spelled := match like with
                 | Some (flag, _, _) => if positive then flag else render_flag engine key
                 | None => render_flag engine key
                 end in
  match value with
  | Sc (VBool true) =>
      Some [match like with
            | Some (flag, None, _) => if positive then flag else render_flag engine key
            | _ => render_flag engine key
            end]
  | Sc (VBool false) => (fun negated => [negated]) <$> negated_flag engine key
  | _ =>
      let text := fmt value in
      Some match like with
           | Some (_, _, FormPair) => [spelled; text]
           | Some (_, _, FormSpace) => [spelled +:+ " " +:+ text]
           | _ => [spelled +:+ "=" +:+ text]
           end
  end.

Definition as_items (l : option (list string)) : list doc := map (fun s => Sc (VStr s)) (default [] l).

Definition covers (arg : Arg) (index : nat) : bool :=
  (a_start arg <=? index)%nat && (index <? a_start arg + a_width arg)%nat.

(** A new list with a flag set; [None] removes it. *)
Definition set_flag (engine : string) (items : list doc) (key : string) (value : doc) : list doc :=
  let found := _positions engine items key in
  let last := last found in
  let like := (fun arg => (a_flag arg, a_raw arg, a_form arg)) <$> last in
  let replacement :=
    if bool_decide (value = Sc VNone) then None else _rendered engine key value like in
  concat (imap (fun index item =>
            (if bool_decide (a_start <$> last = Some index) then as_items replacement else [])
            ++ (if existsb (fun arg => covers arg index) found then [] else [item])) items)
  ++ (if bool_decide (last = None) then as_items replacement else []).

(** A flag dict as a fresh list. *)
Definition render (engine : string) (args : tree) : list string :=
  concat (map (fun '(key, value) =>
                 if bool_decide (value = Sc VNone) then [] else default [] (_rendered engine key value None)) args).

(** ** Lemmas: the list as chunks, one per flag or stray item *)
Definition spelled_arg : Type := string * option string * arg_form.
Abbreviation chunk := (list doc * option spelled_arg)%type.

Fixpoint chunks (items : list doc) : list chunk :=
  match items with
  | [] => []
  | x :: rest =>
      if negb (is_flag (doc_str x)) then ([x], None) :: chunks rest
      else
        match partition "="%char (doc_str x) with
        | Some (flag, value) => ([x], Some (flag, Some value, FormEq)) :: chunks rest
        | None =>
            match partition " "%char (doc_str x) with
            | Some (flag, value) => ([x], Some (flag, Some (strip value), FormSpace)) :: chunks rest
            | None =>
                match rest with
                | y :: rest' =>
                    if negb (is_flag (doc_str y))
                    then ([x; y], Some (doc_str x, Some (doc_str y), FormPair)) :: chunks rest'
                    else ([x], Some (doc_str x, None, FormSwitch)) :: chunks rest
                | [] => [([x], Some (doc_str x, None, FormSwitch))]
                end
            end
        end
  end.

Inductive chunk_ok : chunk -> Prop :=
| ChunkStray x : is_flag (doc_str x) = false -> chunk_ok ([x], None)
| ChunkEq x flag value : is_flag (doc_str x) = true -> partition "="%char (doc_str x) = Some (flag, value) ->
    chunk_ok ([x], Some (flag, Some value, FormEq))
| ChunkSpace x flag value : is_flag (doc_str x) = true -> partition "="%char (doc_str x) = None ->
    partition " "%char (doc_str x) = Some (flag, value) ->
    chunk_ok ([x], Some (flag, Some (strip value), FormSpace))
| ChunkPair x y : is_flag (doc_str x) = true -> partition "="%char (doc_str x) = None ->
    partition " "%char (doc_str x) = None -> is_flag (doc_str y) = false ->
    chunk_ok ([x; y], Some (doc_str x, Some (doc_str y), FormPair))
| ChunkSwitch x : is_flag (doc_str x) = true -> partition "="%char (doc_str x) = None ->
    partition " "%char (doc_str x) = None -> chunk_ok ([x], Some (doc_str x, None, FormSwitch)).

(** No item is a stray positional. *)
Definition no_strays (cs : list chunk) : Prop := Forall (fun c => is_Some c.2) cs.

Lemma chunks_concat items : concat (chunks items).*1 = items.
Proof.
  remember (length items) as n eqn:Hn. revert items Hn. induction (lt_wf n) as [n _ IH]. intros items ->.
  destruct items as [|x rest]; [done|]. cbn [chunks].
  assert (x :: concat (chunks rest).*1 = x :: rest) as Hrest by (f_equal; eapply IH; [|done]; cbn; lia).
  destruct (negb (is_flag (doc_str x))); [exact Hrest|].
  destruct (partition "="%char (doc_str x)) as [[f v]|]; [exact Hrest|].
  destruct (partition " "%char (doc_str x)) as [[f v]|]; [exact Hrest|].
  destruct rest as [|y rest]; [done|]. destruct (negb (is_flag (doc_str y))); [|exact Hrest].
  cbn. do 2 f_equal. eapply IH; [|done]. cbn. lia.
Qed.

Lemma chunks_ok items : Forall chunk_ok (chunks items).
Proof.
  remember (length items) as n eqn:Hn. revert items Hn. induction (lt_wf n) as [n _ IH]. intros items ->.
  destruct items as [|x rest]; [constructor|]. cbn [chunks].
  assert (Forall chunk_ok (chunks rest)) as Hrest by (eapply IH; [|done]; cbn; lia).
  destruct (is_flag (doc_str x)) eqn:Hx; cbn [negb]; [|by constructor; [constructor|]].
  destruct (partition "="%char (doc_str x)) as [[f v]|] eqn:Heq; [by constructor; [constructor|]|].
  destruct (partition " "%char (doc_str x)) as [[f v]|] eqn:Hsp; [by constructor; [constructor|]|].
  destruct rest as [|y rest]; [by repeat constructor|].
  destruct (is_flag (doc_str y)) eqn:Hy; cbn [negb]; constructor; try by constructor.
  - done.
  - eapply IH; [|done]. cbn. lia.
Qed.

(** Chunks of flags put side by side are read as they are. *)
Lemma chunk_head_flag c cs : chunk_ok c -> no_strays (c :: cs) ->
  exists x rest, concat (c :: cs).*1 = x :: rest /\ is_flag (doc_str x) = true.
Proof. intros Hc [Hs _]%Forall_cons. inversion Hc; subst; [by destruct Hs|eexists _, _; split; [reflexivity|done]..]. Qed.

Lemma chunks_of_chunks cs : Forall chunk_ok cs -> no_strays cs -> chunks (concat cs.*1) = cs.
Proof.
  induction 1 as [|c cs Hc Hall IH]; [done|]. intros [Hs Hrest]%Forall_cons.
  specialize (IH Hrest).
  assert (concat cs.*1 = [] /\ cs = [] \/ exists x rest, concat cs.*1 = x :: rest /\ is_flag (doc_str x) = true) as Hnext.
  { destruct cs as [|c' cs]; [by left|right]. apply Forall_cons in Hall as [Hc' Hall]. by apply chunk_head_flag. }
  inversion Hc as [x Hx|x f v Hx Heq|x f v Hx Heq Hsp|x y Hx Heq Hsp Hy|x Hx Heq Hsp]; subst; cbn [fmap list_fmap fst concat app].
  - by destruct Hs.
  - cbn [chunks]. by rewrite Hx, Heq, IH.
  - cbn [chunks]. by rewrite Hx, Heq, Hsp, IH.
  - cbn [chunks]. by rewrite Hx, Heq, Hsp, Hy, IH.
  - cbn [chunks]. rewrite Hx, Heq, Hsp. cbn [negb].
    destruct Hnext as [[-> ->]|(z & rest & Hz & Hflag)]; [done|]. rewrite Hz in *. by rewrite Hflag, IH.
Qed.

(** The flags of the chunks, at the positions they stand at. *)
Fixpoint args_at (index : nat) (cs : list chunk) : list Arg :=
  match cs with
  | [] => []
  | (items, arg) :: rest =>
      match arg with
      | Some (flag, raw, form) => [mkArg index (length items) flag raw form]
      | None => []
      end ++ args_at (index + length items) rest
  end.

Lemma scan_from_chunks items index : scan_from index (map doc_str items) = args_at index (chunks items).
Proof.
  remember (length items) as n eqn:Hn. revert items index Hn. induction (lt_wf n) as [n _ IH]. intros items index ->.
  destruct items as [|x rest]; [done|]. cbn [chunks map scan_from].
  assert (scan_from (S index) (map doc_str rest) = args_at (index + 1) (chunks rest)) as Hrest.
  { rewrite Nat.add_1_r. eapply IH; [|done]. cbn. lia. }
  destruct (negb (is_flag (doc_str x))); [exact Hrest|].
  destruct (partition "="%char (doc_str x)) as [[f v]|]; [by cbn [args_at length app]; rewrite Hrest|].
  destruct (partition " "%char (doc_str x)) as [[f v]|]; [by cbn [args_at length app]; rewrite Hrest|].
  destruct rest as [|y rest]; [done|]. cbn [map]. destruct (negb (is_flag (doc_str y))).
  - cbn [args_at length app]. f_equal. replace (index + 2)%nat with (S (S index)) by lia.
    eapply IH; [|done]. cbn. lia.
  - cbn [args_at length app]. f_equal. exact Hrest.
Qed.

Lemma args_at_starts cs index arg : arg ∈ args_at index cs -> (index <= a_start arg)%nat.
Proof.
  revert index. induction cs as [|[items [[[f raw] form]|]] cs IH]; intros index; cbn [args_at app];
    [by intros ?%elem_of_nil| |].
  - intros [->|Ha%IH]%elem_of_cons; cbn; lia.
  - intros Ha%IH. lia.
Qed.

Lemma concat_imap_keep {A} (f : nat -> A -> list A) l :
  (forall j x, (j < length l)%nat -> f j x = [x]) -> concat (imap f l) = l.
Proof.
  revert f. induction l as [|x l IH]; intros f Hf; [done|]. cbn [imap concat]. rewrite (Hf 0%nat) by (cbn; lia). cbn. f_equal.
  apply IH. intros j y Hj. apply Hf. cbn. lia.
Qed.

Lemma concat_imap_first {A} (f : nat -> A -> list A) (r : list A) l : l <> [] ->
  (forall x, f 0%nat x = r) -> (forall j x, (0 < j < length l)%nat -> f j x = []) -> concat (imap f l) = r.
Proof.
  intros Hl H0 Hj. destruct l as [|x l]; [done|]. cbn [imap concat]. rewrite H0.
  assert (forall k (g : nat -> A -> list A), (forall j y, (j < length k)%nat -> g j y = []) -> concat (imap g k) = []) as Hnil.
  { induction k as [|y k IH]; intros g Hg; [done|]. cbn [imap concat]. rewrite (Hg 0%nat) by (cbn; lia). cbn.
    apply IH. intros j z Hz. apply Hg. cbn. lia. }
  rewrite Hnil, app_nil_r; [done|]. intros j y Hy. apply Hj. cbn. lia.
Qed.

Section edit.
Context (engine : string).

Definition chunk_key (c : chunk) : option string := (fun '(flag, raw, _) => arg_key engine flag raw) <$> c.2.
Definition has_key (key : string) (c : chunk) : bool := bool_decide (chunk_key c = Some key).

(** The chunks with the last one of a key replaced and the others dropped. *)
Fixpoint edited (key : string) (new : list chunk) (cs : list chunk) : list chunk :=
  match cs with
  | [] => []
  | c :: rest =>
      (if has_key key c then if existsb (has_key key) rest then [] else new else [c]) ++ edited key new rest
  end.

Definition of_key (key : string) (arg : Arg) : Prop := arg_key engine (a_flag arg) (a_raw arg) = key.
#[export] Instance of_key_dec key arg : Decision (of_key key arg).
Proof. unfold of_key. apply _. Defined.

Lemma filter_args_none key cs index : existsb (has_key key) cs = false -> filter (of_key key) (args_at index cs) = [].
Proof.
  revert index. induction cs as [|[items [[[f raw] form]|]] cs IH]; intros index; cbn [args_at app existsb]; [done| |].
  - intros [Hk Hrest]%orb_false_elim. unfold has_key, chunk_key in Hk. cbn in Hk. apply bool_decide_eq_false_1 in Hk.
    rewrite filter_cons_False by (unfold of_key; cbn; congruence). by apply IH.
  - intros [_ Hrest]%orb_false_elim. by apply IH.
Qed.

Lemma filter_args_some key cs index : existsb (has_key key) cs = true ->
  exists arg, last (filter (of_key key) (args_at index cs)) = Some arg /\ (index <= a_start arg)%nat.
Proof.
  intros Hex. assert (filter (of_key key) (args_at index cs) <> []) as Hne.
  { revert index. induction cs as [|[items [[[f raw] form]|]] cs IH]; intros index; cbn [args_at app existsb] in *; [done| |].
    - destruct (decide (of_key key (mkArg index (length items) f raw form))) as [Hk|Hk].
      + by rewrite filter_cons_True.
      + rewrite filter_cons_False by done. apply IH.
        unfold has_key, chunk_key in Hex. cbn in Hex. by rewrite bool_decide_eq_false_2 in Hex by (unfold of_key in Hk; cbn in Hk; congruence).
    - by apply IH. }
  destruct (last (filter (of_key key) (args_at index cs))) as [arg|] eqn:Hlast.
  - exists arg. split; [done|]. apply last_Some_elem_of, list_elem_of_filter in Hlast as [_ Hin].
    by apply (args_at_starts cs).
  - by apply last_None in Hlast.
Qed.

(** The loop of [set_flag], from some index on: [past] are the occurrences
    before it. *)
Lemma edit_loop key (new : list chunk) cs : forall index past,
  Forall (fun arg => (a_start arg + a_width arg <= index)%nat /\ (a_start arg < index)%nat) past ->
  Forall (fun c => c.1 <> []) cs ->
  concat (imap (fun j item =>
            (if bool_decide (a_start <$> last (past ++ filter (of_key key) (args_at index cs)) = Some (index + j)%nat)
             then concat new.*1 else [])
            ++ (if existsb (fun arg => covers arg (index + j)) (past ++ filter (of_key key) (args_at index cs))
                then [] else [item])) (concat cs.*1))
  = concat (edited key new cs).*1.
Proof.
  induction cs as [|[items arg] cs IH]; intros index past Hpast Hne; [done|].
  apply Forall_cons in Hne as [Hitems Hne]. cbn [fst] in Hitems. cbn [fmap list_fmap fst concat edited].
  rewrite imap_app, concat_app, fmap_app, concat_app.
  assert (0 < length items)%nat as Hlen by (destruct items; [done|cbn; lia]).
  set (G := filter (of_key key) (args_at (index + length items) cs)).
  assert (Forall (fun arg => (index + length items <= a_start arg)%nat) G) as HG.
  { apply Forall_forall. intros a [_ Ha]%list_elem_of_filter. by apply (args_at_starts cs). }
  assert (forall P j, (j < length items)%nat ->
            a_start <$> last (P ++ G) = Some (index + j)%nat -> G = [] /\ a_start <$> last P = Some (index + j)%nat) as Hlast.
  { intros P j Hj Heq. rewrite last_app in Heq. destruct (last G) as [g|] eqn:Hg.
    - cbn in Heq. apply last_Some_elem_of in Hg. pose proof (proj1 (Forall_forall _ _) HG g Hg) as Hle. cbn in Hle. injection Heq as Heq. lia.
    - apply last_None in Hg. done. }
  assert (forall j, (j < length items)%nat -> existsb (fun arg => covers arg (index + j)) past = false) as Hcov1.
  { intros j Hj. apply not_true_is_false. intros (a & Ha & Hc)%existsb_exists.
    pose proof (proj1 (Forall_forall _ _) Hpast a ltac:(by apply list_elem_of_In)) as [Hle _].
    unfold covers in Hc. apply andb_prop in Hc as [_ Hc%Nat.ltb_lt]. lia. }
  assert (forall j, (j < length items)%nat -> existsb (fun arg => covers arg (index + j)) G = false) as Hcov2.
  { intros j Hj. apply not_true_is_false. intros (a & Ha & Hc)%existsb_exists.
    pose proof (proj1 (Forall_forall _ _) HG a ltac:(by apply list_elem_of_In)) as Hle. cbn beta in Hle.
    unfold covers in Hc. apply andb_prop in Hc as [Hc%Nat.leb_le _]. lia. }
  assert (forall j, (j < length items)%nat -> a_start <$> last past <> Some (index + j)%nat) as Hpast'.
  { intros j Hj Heq. destruct (last past) as [a|] eqn:Ha; [|done]. apply last_Some_elem_of in Ha.
    pose proof (proj1 (Forall_forall _ _) Hpast a Ha) as [_ Hlt]. injection Heq as Heq. lia. }
  destruct (has_key key (items, arg)) eqn:Hkey.
  - (* an occurrence of the key *)
    unfold has_key, chunk_key in Hkey. apply bool_decide_eq_true_1 in Hkey. cbn [snd] in Hkey.
    destruct arg as [[[f raw] form]|]; [|done]. cbn [fmap option_fmap option_map] in Hkey. injection Hkey as Hkey.
    cbn [args_at app]. rewrite filter_cons_True by exact Hkey. fold G.
    set (a := mkArg index (length items) f raw form).
    replace (past ++ a :: G) with ((past ++ [a]) ++ G) by (by rewrite <- app_assoc).
    assert (forall j, (j < length items)%nat -> existsb (fun arg => covers arg (index + j)) ((past ++ [a]) ++ G) = true) as Hcov.
    { intros j Hj. rewrite !existsb_app. cbn [existsb]. unfold covers at 2. cbn [a_start a_width a].
      rewrite (proj2 (Nat.leb_le index (index + j))), (proj2 (Nat.ltb_lt (index + j) (index + length items))) by lia. cbn. by rewrite orb_true_r. }
    f_equal.
    + destruct (existsb (has_key key) cs) eqn:Hex.
      * apply concat_imap_first; [done| |].
        all: intros; rewrite Hcov by lia; rewrite bool_decide_eq_false_2; [done|].
        all: intros [HGn _]%Hlast; [|lia].
        all: destruct (filter_args_some key cs (index + length items) Hex) as (b & Hb & _).
        all: fold G in Hb; by rewrite HGn in Hb.
      * assert (G = []) as HGn by (by apply filter_args_none). rewrite HGn, app_nil_r in *.
        apply concat_imap_first; [done| |].
        -- intros x. rewrite Nat.add_0_r, bool_decide_eq_true_2 by (by rewrite last_snoc).
           specialize (Hcov 0%nat). rewrite Nat.add_0_r in Hcov. by rewrite Hcov, app_nil_r by lia.
        -- intros j x Hj. rewrite Hcov, bool_decide_eq_false_2; [done| |lia]. rewrite last_snoc. cbn. intros [= Heq]. lia.
    + rewrite <- (IH (index + length items)%nat (past ++ [a])); [| |done].
      * apply (f_equal (@concat doc)), imap_ext. intros j x _. cbn. fold G.
        replace (index + (length items + j))%nat with (index + length items + j)%nat by lia. done.
      * apply Forall_app. split; [|apply Forall_singleton; cbn; split; lia].
        eapply Forall_impl; [exact Hpast|]. cbn. intros ? []. lia.
  - (* anything else stays *)
    assert (filter (of_key key) (args_at index ((items, arg) :: cs)) = G) as ->.
    { unfold has_key, chunk_key in Hkey. apply bool_decide_eq_false_1 in Hkey. cbn [snd] in Hkey.
      destruct arg as [[[f raw] form]|]; cbn [args_at app]; [|done].
      rewrite filter_cons_False; [done|]. unfold of_key. cbn in *. congruence. }
    f_equal.
    + cbn [concat fmap list_fmap fst app]. rewrite app_nil_r. apply concat_imap_keep. intros j x Hj.
      rewrite existsb_app, Hcov1, Hcov2 by done. rewrite bool_decide_eq_false_2; [done|].
      intros [_ Hl]%Hlast; [by apply (Hpast' j)|done].
    + rewrite <- (IH (index + length items)%nat past); [| |done].
      * apply (f_equal (@concat doc)), imap_ext. intros j x _. cbn. fold G.
        replace (index + (length items + j))%nat with (index + length items + j)%nat by lia. done.
      * eapply Forall_impl; [exact Hpast|]. cbn. intros ? []. lia.
Qed.

(** What a chunk sets. *)
Definition chunk_reads (c : chunk) : option (string * doc) :=
  (fun '(flag, raw, _) => let '(k, v) := _canonical engine flag (raw_value raw) in (k, coerced v)) <$> c.2.

Definition read_chunk (out : tree) (c : chunk) : tree :=
  match chunk_reads c with Some (k, v) => dict_pop k out ++ [(k, v)] | None => out end.

Lemma flags_chunks items : flags engine items = foldl read_chunk [] (chunks items).
Proof.
  unfold flags, scan. rewrite scan_from_chunks. generalize 0%nat, (@nil (string * doc)).
  induction (chunks items) as [|[its [[[f raw] form]|]] cs IH]; intros index out; cbn [args_at app foldl]; [done| |].
  - unfold read_arg at 2, read_chunk at 2, chunk_reads. cbn [snd fmap option_fmap option_map a_flag a_raw].
    destruct (_canonical engine f (raw_value raw)). apply IH.
  - apply IH.
Qed.

(** The last chunk of a key decides. *)
Fixpoint last_read (k : string) (cs : list chunk) : option doc :=
  match cs with
  | [] => None
  | c :: rest =>
      match last_read k rest with
      | Some v => Some v
      | None => match chunk_reads c with Some (k', v) => if String.eqb k k' then Some v else None | None => None end
      end
  end.

Lemma dict_get_app {A} k (a b : list (string * A)) :
  dict_get k (a ++ b) = match dict_get k a with Some v => Some v | None => dict_get k b end.
Proof.
  induction a as [|[k0 v0] a IH]; [done|]. cbn [app]. rewrite !dict_get_cons. by destruct (String.eqb k k0).
Qed.

Lemma get_read_chunks k cs out :
  dict_get k (foldl read_chunk out cs) = match last_read k cs with Some v => Some v | None => dict_get k out end.
Proof.
  revert out. induction cs as [|c cs IH]; intros out; [done|]. cbn [foldl last_read]. rewrite IH.
  destruct (last_read k cs); [done|]. unfold read_chunk. destruct (chunk_reads c) as [[k' v]|]; [|done].
  rewrite dict_get_app, dict_get_pop, dict_get_cons. destruct (String.eqb k k'); [done|]. by destruct (dict_get k out).
Qed.

Lemma get_flags k items : dict_get k (flags engine items) = last_read k (chunks items).
Proof. rewrite flags_chunks, get_read_chunks. by destruct (last_read k (chunks items)). Qed.

Lemma last_read_app k cs cs' :
  last_read k (cs ++ cs') = match last_read k cs' with Some v => Some v | None => last_read k cs end.
Proof.
  induction cs as [|c cs IH]; cbn [app last_read]; [by destruct (last_read k cs')|]. rewrite IH.
  by destruct (last_read k cs').
Qed.

Lemma chunk_reads_key c : fst <$> chunk_reads c = chunk_key c.
Proof.
  destruct c as [its [[[f raw] form]|]]; [|done]. unfold chunk_reads, chunk_key, arg_key. cbn.
  by destruct (_canonical engine f (raw_value raw)).
Qed.

Lemma last_read_none k cs : existsb (has_key k) cs = false -> last_read k cs = None.
Proof.
  induction cs as [|c cs IH]; [done|]. cbn [existsb last_read]. intros [Hc Hcs]%orb_false_elim. rewrite IH by done.
  unfold has_key in Hc. apply bool_decide_eq_false_1 in Hc. rewrite <- chunk_reads_key in Hc.
  destruct (chunk_reads c) as [[k' v]|]; [|done]. destruct (String.eqb_spec k k') as [->|]; [by destruct Hc|done].
Qed.

(** The whole edit, the append for a new flag included. *)
Definition edit_chunks (key : string) (new : list chunk) (cs : list chunk) : list chunk :=
  edited key new cs ++ (if existsb (has_key key) cs then [] else new).

Lemma existsb_edited k key new cs : k <> key -> existsb (has_key k) new = false ->
  existsb (has_key k) (edited key new cs) = existsb (has_key k) cs.
Proof.
  intros Hk Hnew. induction cs as [|c cs IH]; [done|]. cbn [edited existsb]. rewrite existsb_app, IH.
  destruct (has_key key c) eqn:Hc; [|cbn; by rewrite orb_false_r].
  assert (has_key k c = false) as ->.
  { unfold has_key in *. apply bool_decide_eq_true_1 in Hc. rewrite Hc. apply bool_decide_eq_false_2. congruence. }
  by destruct (existsb (has_key key) cs); [|rewrite Hnew].
Qed.

(** Other keys read as before. *)
Lemma last_read_edit_other k key new cs : k <> key -> existsb (has_key k) new = false ->
  last_read k (edit_chunks key new cs) = last_read k cs.
Proof.
  intros Hk Hnew. unfold edit_chunks. rewrite last_read_app.
  assert (last_read k (if existsb (has_key key) cs then [] else new) = None) as ->.
  { destruct (existsb (has_key key) cs); [done|]. by apply last_read_none. }
  induction cs as [|c cs IH]; [done|]. cbn [edited last_read]. rewrite last_read_app, IH.
  destruct (has_key key c) eqn:Hc; [|cbn [last_read]; by destruct (last_read k cs)].
  assert (match chunk_reads c with Some (k', v) => if String.eqb k k' then Some v else None | None => None end = None) as ->.
  { unfold has_key in Hc. apply bool_decide_eq_true_1 in Hc. rewrite <- chunk_reads_key in Hc.
    destruct (chunk_reads c) as [[k' v]|]; [|done]. injection Hc as ->.
    by destruct (String.eqb_spec k key). }
  assert (last_read k (if existsb (has_key key) cs then [] else new) = None) as ->; [|done].
  destruct (existsb (has_key key) cs); [done|]. by apply last_read_none.
Qed.

(** The edited key reads as what was written. *)
Lemma last_read_edited key new cs :
  last_read key (edited key new cs) = if existsb (has_key key) cs then last_read key new else None.
Proof.
  induction cs as [|c cs IH]; [done|]. cbn [edited existsb]. rewrite last_read_app, IH.
  destruct (has_key key c) eqn:Hc; cbn [orb].
  - destruct (existsb (has_key key) cs); [by destruct (last_read key new)|done].
  - destruct (existsb (has_key key) cs); [destruct (last_read key new); [done|]|]; apply last_read_none; cbn; by rewrite Hc.
Qed.

Lemma last_read_edit key new cs : last_read key (edit_chunks key new cs) = last_read key new.
Proof.
  unfold edit_chunks. rewrite last_read_app, last_read_edited. destruct (existsb (has_key key) cs); [done|].
  by destruct (last_read key new).
Qed.
End edit.

(** ** Lemmas: the flag written *)

(** A text a command line can carry as a value of any form. *)
Definition writable (text : string) : bool :=
  negb (is_flag text) && String.eqb (strip text) text && bool_decide (partition "="%char text = None).

(** A key and value that can be set: the key a flag's own name. *)
Definition settable (engine key : string) (value : doc) : bool :=
  plain_key key && String.eqb (canonical_key engine key) key && negb (starts_with "no_" key)
  && match value with
     | Sc VNone => true
     | Sc (VBool b) => b || is_switch engine key || bool_decide (dict_get key (_alias_map engine) = None)
     | _ => writable (fmt value)
     end.

(** A list of flags only, each spelled with dashes. *)
Definition tidy_chunk (engine : string) (c : chunk) : bool :=
  match c.2 with
  | Some (flag, _, _) => Bool.eqb (turns_off flag) (starts_with "no_" (canonical_key engine (_flag_to_key flag)))
  | None => false
  end.
Definition tidy (engine : string) (items : list doc) : bool := forallb (tidy_chunk engine) (chunks items).

(** What a set flag reads back as. *)
Definition landed (engine key : string) (value : doc) : option doc :=
  match value with
  | Sc VNone => None
  | Sc (VBool true) => Some (Sc (VBool true))
  | Sc (VBool false) =>
      match negated_flag engine key with
      | Some _ => if is_switch engine key then Some (Sc (VBool false)) else None
      | None => None
      end
  | _ => Some (coerced (switch_value engine key (Sc (VStr (fmt value)))))
  end.

Lemma is_flag_chars s : is_flag s = true <-> exists l, chars s = "-"%char :: "-"%char :: l.
Proof.
  unfold is_flag, starts_with. destruct s as [|c [|d s]].
  - split; [done|]. by intros [l Hl].
  - rewrite prefix_cons, andb_false_r. split; [done|]. by intros [l Hl].
  - rewrite !prefix_cons, prefix_empty, andb_true_r. split.
    + intros [<-%Ascii.eqb_eq <-%Ascii.eqb_eq]%andb_prop. by eexists.
    + intros [l Hl]. by injection Hl as -> -> _.
Qed.

Lemma is_flag_app f s : is_flag f = true -> is_flag (f +:+ s) = true.
Proof. rewrite !is_flag_chars. intros [l Hl]. exists (l ++ chars s). by rewrite chars_app, Hl. Qed.

Lemma is_flag_partition sep s f v : sep <> "-"%char -> is_flag s = true -> partition sep s = Some (f, v) -> is_flag f = true.
Proof.
  intros Hsep [l Hl]%is_flag_chars [Hs _]%partition_Some. rewrite Hl in Hs. apply is_flag_chars.
  destruct (chars f) as [|c [|d k]]; cbn in Hs; injection Hs; intros; subst; [done|done|]. by eexists.
Qed.

(** The spelling of a flag that stands in a list. *)
Lemma chunk_spelling its f raw form : chunk_ok (its, Some (f, raw, form)) ->
  is_flag f = true /\ partition "="%char f = None /\ (form <> FormEq -> partition " "%char f = None) /\
  (raw = None <-> form = FormSwitch).
Proof.
  intros Hc. inversion Hc as [|x g v Hx Heq|x g v Hx Heq Hsp|x y Hx Heq Hsp Hy|x Hx Heq Hsp]; subst.
  - split; [eapply (is_flag_partition "="%char); [discriminate|done|done]|]. apply partition_Some in Heq as [_ Hg]. done.
  - split; [eapply (is_flag_partition " "%char); [discriminate|done|done]|]. pose proof Hsp as [Hs Hg]%partition_Some.
    split; [|done]. rewrite partition_None, Hs in Heq. rewrite partition_None.
    destruct (split_at "=" (chars f)) as [[a b]|] eqn:Hf; [|done]. exfalso.
    apply split_at_Some in Hf as [Hf Ha]. rewrite Hf, <- app_assoc in Heq. cbn in Heq. by rewrite split_at_app in Heq.
  - done.
  - done.
Qed.

Section written.
Context (engine : string) (Hengine : engine ∈ engines) (key : string).
Hypothesis Hkey : plain_key key = true.
Hypothesis Hcanon : canonical_key engine key = key.
Hypothesis Hno : starts_with "no_" key = false.

(** A spelling of the key. *)
Definition spells (f : string) : Prop :=
  is_flag f = true /\ partition "="%char f = None /\ canonical_key engine (_flag_to_key f) = key.

Lemma spells_rendered : spells (render_flag engine key) /\ partition " "%char (render_flag engine key) = None.
Proof.
  destruct (rendered engine Hengine key Hkey Hcanon) as [Hf Hc].
  by destruct (flag_token_parts _ Hf) as (? & _ & _ & ? & _ & _ & _ & ?).
Qed.

Lemma spells_reads f value : spells f -> _canonical engine f value = (key, switch_value engine key value).
Proof.
  intros (_ & _ & Hc). unfold _canonical, normalize_item, turned_off. rewrite Hc.
  unfold starts_with in Hno. by rewrite Hno.
Qed.

Lemma switch_chunk f : spells f -> partition " "%char f = None ->
  chunk_ok ([Sc (VStr f)], Some (f, None, FormSwitch)) /\
  chunk_reads engine ([Sc (VStr f)], Some (f, None, FormSwitch)) = Some (key, Sc (VBool true)).
Proof.
  intros Hs Hsp. split; [destruct Hs as (? & ? & _); by apply (ChunkSwitch (Sc (VStr f)))|].
  unfold chunk_reads. cbn [snd fmap option_fmap option_map raw_value]. by rewrite spells_reads.
Qed.

(** A text in each form. *)
Definition text_chunk (f text : string) (form : arg_form) : chunk :=
  match form with
  | FormPair => ([Sc (VStr f); Sc (VStr text)], Some (f, Some text, FormPair))
  | FormSpace => ([Sc (VStr (f +:+ " " +:+ text))], Some (f, Some (strip text), FormSpace))
  | _ => ([Sc (VStr (f +:+ "=" +:+ text))], Some (f, Some text, FormEq))
  end.

Lemma text_chunk_ok f text form : spells f -> (form <> FormEq -> form <> FormSwitch -> partition " "%char f = None) ->
  writable text = true ->
  chunk_ok (text_chunk f text form) /\
  chunk_reads engine (text_chunk f text form) = Some (key, coerced (switch_value engine key (Sc (VStr text)))).
Proof.
  intros Hs Hsp Hw. pose proof Hs as (Hf & Heq & _).
  unfold writable in Hw. apply andb_prop in Hw as [[Hw Hstrip%String.eqb_eq]%andb_prop Hpart%bool_decide_eq_true_1].
  apply negb_true_iff in Hw.
  assert (forall raw fm its, raw = text -> chunk_reads engine (its, Some (f, Some raw, fm))
            = Some (key, coerced (switch_value engine key (Sc (VStr text))))) as Hreads.
  { intros raw fm its ->. unfold chunk_reads. cbn [snd fmap option_fmap option_map raw_value]. by rewrite spells_reads. }
  assert (partition " "%char (" " +:+ text) = Some ("", text)) as Hsplit by (apply (partition_app " "%char ""); done).
  destruct form; cbn [text_chunk]; (split; [|apply Hreads; by rewrite ?Hstrip]).
  - apply ChunkEq; cbn [doc_str str_of]; [by apply is_flag_app|]. by apply (partition_app "="%char).
  - apply ChunkSpace; cbn [doc_str str_of]; [by apply is_flag_app| |].
    + apply partition_app_None; [done|]. by apply (partition_app_None "="%char " ").
    + apply (partition_app " "%char). by apply Hsp.
  - apply (ChunkPair (Sc (VStr f)) (Sc (VStr text))); cbn [doc_str str_of]; try done. by apply Hsp.
  - apply ChunkEq; cbn [doc_str str_of]; [by apply is_flag_app|]. by apply (partition_app "="%char).
Qed.

(** The occurrence a flag is written like. *)
Definition stands_in (like : option spelled_arg) : Prop :=
  forall arg, like = Some arg ->
    exists its, chunk_ok (its, Some arg) /\ has_key engine key (its, Some arg) = true /\ tidy_chunk engine (its, Some arg) = true.

Lemma stands_spells f raw form : stands_in (Some (f, raw, form)) -> turns_off f = false ->
  spells f /\ (form <> FormEq -> partition " "%char f = None).
Proof.
  intros Hl Hpos. destruct (Hl _ eq_refl) as (its & Hok & Hk & Ht).
  destruct (chunk_spelling _ _ _ _ Hok) as (Hf & Heq & Hsp & _). split; [|done]. split; [done|]. split; [done|].
  unfold tidy_chunk in Ht. cbn [snd] in Ht. rewrite Hpos in Ht. apply Bool.eqb_prop in Ht.
  unfold has_key in Hk. apply bool_decide_eq_true_1 in Hk. unfold chunk_key in Hk. cbn [snd fmap option_fmap option_map] in Hk.
  injection Hk as Hk. unfold arg_key, _canonical, normalize_item, turned_off in Hk. unfold starts_with in Ht.
  by rewrite <- Ht in Hk.
Qed.

(** The flag as it is spelled in the place of another. *)
Definition spelling_like (like : option spelled_arg) : string :=
  match like with
  | Some (f, _, _) => if negb (turns_off f) then f else render_flag engine key
  | None => render_flag engine key
  end.

Lemma spelling_like_spells like : stands_in like ->
  spells (spelling_like like) /\
  (match like with Some (_, _, FormEq) => False | _ => True end -> partition " "%char (spelling_like like) = None).
Proof.
  intros Hl. destruct spells_rendered as [Hr Hrs]. destruct like as [[[f raw] form]|]; [|done].
  cbn [spelling_like]. destruct (turns_off f) eqn:Hf; [done|]. cbn [negb].
  destruct (stands_spells _ _ _ Hl Hf) as [Hs Hsp]. split; [done|]. intros Hform. apply Hsp. by destruct form.
Qed.

Definition written (value : doc) (c : chunk) : Prop :=
  chunk_ok c /\ is_Some c.2 /\ exists k v, chunk_reads engine c = Some (k, v) /\
    (k = key /\ landed engine key value = Some v \/ k = "no_" +:+ key /\ landed engine key value = None).

Lemma rendered_text value like : stands_in like -> writable (fmt value) = true ->
  landed engine key value = Some (coerced (switch_value engine key (Sc (VStr (fmt value))))) ->
  exists c, c.1 = as_items (Some match like with
                                 | Some (_, _, FormPair) => [spelling_like like; fmt value]
                                 | Some (_, _, FormSpace) => [spelling_like like +:+ " " +:+ fmt value]
                                 | _ => [spelling_like like +:+ "=" +:+ fmt value]
                                 end) /\ written value c.
Proof.
  intros Hl Hw Hland. destruct (spelling_like_spells like Hl) as [Hs Hsp].
  set (form := match like with Some (_, _, form) => form | None => FormEq end).
  destruct (text_chunk_ok (spelling_like like) (fmt value) form Hs) as [Hok Hreads]; [|done|].
  { intros Hne _. apply Hsp. subst form. destruct like as [[[? ?] []]|]; done. }
  exists (text_chunk (spelling_like like) (fmt value) form). split.
  - subst form. by destruct like as [[[? ?] []]|].
  - split; [exact Hok|]. split; [by destruct form; eexists|]. eexists _, _. split; [exact Hreads|]. by left.
Qed.

Lemma rendered_written value like : stands_in like -> settable engine key value = true -> value <> Sc VNone ->
  match _rendered engine key value like with
  | Some l => exists c, c.1 = as_items (Some l) /\ written value c
  | None => landed engine key value = None
  end.
Proof.
  intros Hl Hset Hnone. unfold settable in Hset. apply andb_prop in Hset as [_ Hset].
  destruct (spelling_like_spells like Hl) as [Hs Hsp].
  destruct value as [[|[]|z|x|t]|l|m]; try done;
    try (pose proof (rendered_text _ like Hl Hset eq_refl) as Ht; by destruct like as [[[f raw] form]|]).
  - destruct spells_rendered as [Hr Hrs].
    assert (exists f, (match like with
                       | Some (flag, None, _) => if negb (turns_off flag) then flag else render_flag engine key
                       | _ => render_flag engine key
                       end) = f /\ spells f /\ partition " "%char f = None) as (f & Hf & Hfs & Hfp).
    { destruct like as [[[f [raw|]] form]|]; [by eexists| |by eexists].
      eexists. split; [reflexivity|]. split; [exact Hs|]. apply Hsp.
      destruct (Hl _ eq_refl) as (its & Hok & _). apply chunk_spelling in Hok as (_ & _ & _ & Hform).
      by rewrite (proj1 Hform eq_refl). }
    destruct (switch_chunk f Hfs Hfp) as [Hok Hreads].
    exists ([Sc (VStr f)], Some (f, None, FormSwitch)). split.
    { cbn [_rendered as_items default map]. do 3 f_equal. rewrite <- Hf. by destruct like as [[[g [raw|]] form]|]. }
    split; [done|]. split; [by eexists|]. eexists _, _. split; [exact Hreads|]. by left.
  - cbn [_rendered]. destruct (negated_flag engine key) as [n|] eqn:Hn; cbn [fmap option_fmap option_map].
    2: { cbn [landed]. by rewrite Hn. }
    destruct (negated engine Hengine key n Hkey Hcanon Hn Hset) as (Hf & Hoff & Hunknown).
    destruct (flag_token_parts _ Hf) as (Hf1 & _ & _ & Hf2 & _ & _ & _ & Hf3).
    exists ([Sc (VStr n)], Some (n, None, FormSwitch)). split; [done|].
    split; [by apply (ChunkSwitch (Sc (VStr n)))|]. split; [by eexists|].
    unfold chunk_reads. cbn [snd fmap option_fmap option_map raw_value]. unfold _canonical, normalize_item. rewrite Hoff.
    destruct (is_switch engine key) eqn:Hsw.
    + eexists _, _. split; [reflexivity|]. left. cbn [landed]. by rewrite Hn, Hsw.
    + rewrite Hunknown by done. destruct (unknown_key _ Hengine _ (no_key_unknown _ Hengine key)) as (-> & _).
      eexists _, _. split; [reflexivity|]. right. cbn [landed]. by rewrite Hn, Hsw.
Qed.
End written.

(** ** Setting a flag *)
Section setting.
Context (engine : string) (Hengine : engine ∈ engines).

Lemma args_at_chunk cs index arg : arg ∈ args_at index cs ->
  exists its, (its, Some (a_flag arg, a_raw arg, a_form arg)) ∈ cs.
Proof.
  revert index. induction cs as [|[its [[[f raw] form]|]] cs IH]; intros index; cbn [args_at app];
    [by intros ?%elem_of_nil| |].
  - intros [->|(its' & Hin)%IH]%elem_of_cons; [exists its; by left|exists its'; by right].
  - intros (its' & Hin)%IH. exists its'. by right.
Qed.

(** [set_flag] edits the chunks, in the spelling of the last occurrence. *)
Lemma set_flag_chunks items key value : exists like,
  (forall arg, like = Some arg -> exists its, (its, Some arg) ∈ chunks items /\ has_key engine key (its, Some arg) = true) /\
  forall new : list chunk,
    concat new.*1 = as_items (if bool_decide (value = Sc VNone) then None else _rendered engine key value like) ->
    set_flag engine items key value = concat (edit_chunks engine key new (chunks items)).*1.
Proof.
  assert (_positions engine items key = filter (of_key engine key) (args_at 0 (chunks items))) as Hpos.
  { unfold _positions, scan. by rewrite scan_from_chunks. }
  set (last_found := last (_positions engine items key)).
  exists ((fun arg => (a_flag arg, a_raw arg, a_form arg)) <$> last_found). split.
  - intros arg Harg. destruct last_found as [a|] eqn:Ha; [|done]. injection Harg as <-. subst last_found.
    rewrite Hpos in Ha. apply last_Some_elem_of, list_elem_of_filter in Ha as [Hk Hin].
    destruct (args_at_chunk _ _ _ Hin) as [its Hits]. exists its. split; [done|].
    unfold has_key, chunk_key. cbn. apply bool_decide_eq_true_2. by f_equal.
  - intros new Hnew. unfold set_flag. fold last_found. rewrite <- Hnew.
    unfold edit_chunks. rewrite fmap_app, concat_app. f_equal.
    + assert (Forall (fun c : chunk => c.1 <> []) (chunks items)) as Hne.
      { eapply Forall_impl; [apply chunks_ok|]. intros c Hc. by inversion Hc. }
      rewrite <- (edit_loop engine key new (chunks items) 0 []) by (done || constructor).
      rewrite chunks_concat. unfold last_found. rewrite Hpos. cbn [app plus]. reflexivity.
    + subst last_found. rewrite Hpos. destruct (existsb (has_key engine key) (chunks items)) eqn:Hex.
      * destruct (filter_args_some engine key (chunks items) 0 Hex) as (a & -> & _). by rewrite bool_decide_eq_false_2.
      * by rewrite filter_args_none, bool_decide_eq_true_2.
Qed.

Lemma edited_Forall (P : chunk -> Prop) key new cs : Forall P new -> Forall P cs -> Forall P (edit_chunks engine key new cs).
Proof.
  intros Hnew Hcs. unfold edit_chunks. apply Forall_app. split.
  - induction Hcs as [|c cs Hc _ IH]; cbn [edited]; [constructor|]. apply Forall_app. split; [|done].
    destruct (has_key engine key c); [by destruct (existsb _ cs)|by constructor].
  - by destruct (existsb _ cs).
Qed.

(** A chunk of a key, in either polarity. *)
Definition about (key : string) (c : chunk) : Prop :=
  has_key engine key c = true \/ has_key engine ("no_" +:+ key) c = true.

Lemma about_other key new k : Forall (about key) new -> k <> key -> k <> "no_" +:+ key ->
  existsb (has_key engine k) new = false.
Proof.
  intros Hnew Hk Hk'. induction Hnew as [|c new Hc _ IH]; [done|]. cbn [existsb]. rewrite IH, orb_false_r.
  unfold about, has_key in *. apply bool_decide_eq_false_2.
  destruct Hc as [Hc|Hc]; apply bool_decide_eq_true_1 in Hc; rewrite Hc; congruence.
Qed.

(** What setting a flag makes of the chunks. *)
Lemma set_flag_result items key value : settable engine key value = true -> tidy engine items = true ->
  exists new, chunks (set_flag engine items key value) = edit_chunks engine key new (chunks items) /\
    last_read engine key new = landed engine key value /\
    Forall (about key) new.
Proof.
  intros Hset Htidy. pose proof Hset as [[[Hkey Hcanon%String.eqb_eq]%andb_prop Hno%negb_true_iff]%andb_prop _]%andb_prop.
  destruct (set_flag_chunks items key value) as (like & Hlike & Hedit).
  assert (forall c, c ∈ chunks items -> tidy_chunk engine c = true) as Ht by (intros c Hc; by eapply forallb_elem).
  assert (no_strays (chunks items)) as Hstray.
  { apply Forall_forall. intros c Hc. specialize (Ht c Hc). unfold tidy_chunk in Ht. by destruct (c.2). }
  assert (stands_in engine key like) as Hstands.
  { intros arg Harg. destruct (Hlike arg Harg) as (its & Hin & Hk). exists its. split; [|split; [done|by apply Ht]].
    exact (proj1 (Forall_forall _ _) (chunks_ok items) _ Hin). }
  assert (exists new : list chunk,
            concat new.*1 = as_items (if bool_decide (value = Sc VNone) then None else _rendered engine key value like) /\
            Forall chunk_ok new /\ no_strays new /\ last_read engine key new = landed engine key value /\
            Forall (about key) new)
    as (new & Hnew & Hok & Hns & Hread & Hother).
  { destruct (decide (value = Sc VNone)) as [->|Hv].
    { exists []. rewrite bool_decide_eq_true_2 by done. repeat split; try constructor. }
    rewrite bool_decide_eq_false_2 by done.
    pose proof (rendered_written engine Hengine key Hkey Hcanon Hno value like Hstands Hset Hv) as Hw.
    destruct (_rendered engine key value like) as [l|]; [|by exists []; repeat split; try constructor].
    destruct Hw as (c & Hc & Hok & Hs & k & v & Hreads & Hkv). exists [c].
    cbn [fmap list_fmap concat]. rewrite app_nil_r. split; [done|].
    split; [by repeat constructor|]. split; [by repeat constructor|].
    cbn [last_read existsb]. rewrite Hreads. split.
    - destruct Hkv as [[-> ->]|[-> ->]]; [by rewrite String.eqb_refl|].
      destruct (String.eqb_spec key ("no_" +:+ key)) as [Heq|]; [by destruct (no_key_differs key)|done].
    - apply Forall_singleton. unfold about, has_key. rewrite <- chunk_reads_key, Hreads. cbn.
      destruct Hkv as [[-> _]|[-> _]]; [left|right]; by apply bool_decide_eq_true_2. }
  exists new. split; [|done]. rewrite (Hedit new Hnew).
  apply chunks_of_chunks; apply edited_Forall; auto using chunks_ok.
Qed.

(** Writing a flag into a list of flags and reading the list back gives the
    value that was written, typed as the list reads it, and [None] when the flag
    was removed or cannot be said. *)
Theorem set_flag_reads_back items key value :
  settable engine key value = true -> tidy engine items = true ->
  dict_get key (flags engine (set_flag engine items key value)) = landed engine key value.
Proof.
  intros Hset Htidy. destruct (set_flag_result items key value Hset Htidy) as (new & Hchunks & Hread & _).
  by rewrite get_flags, Hchunks, last_read_edit.
Qed.

(** The items that belong to no occurrence of a flag, in either polarity, in
    their order. *)
Definition untouched (key : string) (items : list doc) : list doc :=
  concat (filter (fun c => has_key engine key c = false /\ has_key engine ("no_" +:+ key) c = false) (chunks items)).*1.

Lemma filter_edited key new (cs : list chunk) :
  Forall (about key) new ->
  filter (fun c => has_key engine key c = false /\ has_key engine ("no_" +:+ key) c = false) (edit_chunks engine key new cs)
  = filter (fun c => has_key engine key c = false /\ has_key engine ("no_" +:+ key) c = false) cs.
Proof.
  intros Hnew. assert (filter (fun c => has_key engine key c = false /\ has_key engine ("no_" +:+ key) c = false) new = []) as Hnil.
  { induction Hnew as [|c new Hc _ IH]; [done|]. rewrite filter_cons_False; [done|]. intros [? ?]. destruct Hc; congruence. }
  unfold edit_chunks. rewrite filter_app.
  assert (filter (fun c => has_key engine key c = false /\ has_key engine ("no_" +:+ key) c = false)
            (if existsb (has_key engine key) cs then [] else new) = []) as -> by (by destruct (existsb _ cs)).
  rewrite app_nil_r. induction cs as [|c cs IH]; [done|]. cbn [edited]. rewrite filter_app, IH, filter_cons.
  destruct (has_key engine key c) eqn:Hc.
  - rewrite decide_False by (intros [? _]; congruence). by destruct (existsb (has_key engine key) cs); rewrite ?Hnil.
  - rewrite !filter_cons, ?filter_nil. repeat case_decide; done || tauto.
Qed.

(** Writing a flag disturbs nothing else: every other flag of the list reads
    as before. *)
Theorem set_flag_keeps_the_rest items key value k :
  settable engine key value = true -> tidy engine items = true -> k <> key -> k <> "no_" +:+ key ->
  dict_get k (flags engine (set_flag engine items key value)) = dict_get k (flags engine items).
Proof.
  intros Hset Htidy Hk Hk'. destruct (set_flag_result items key value Hset Htidy) as (new & Hchunks & _ & Hother).
  by rewrite !get_flags, Hchunks, last_read_edit_other by eauto using about_other.
Qed.

(** And every item that is not part of the flag comes back byte for byte, in
    its place among the others. *)
Theorem set_flag_leaves_the_items items key value :
  settable engine key value = true -> tidy engine items = true ->
  untouched key (set_flag engine items key value) = untouched key items.
Proof.
  intros Hset Htidy. destruct (set_flag_result items key value Hset Htidy) as (new & Hchunks & _ & Hother).
  unfold untouched. by rewrite Hchunks, filter_edited.
Qed.
End setting.

(** ** Whole numbers land as they are *)
Lemma int_text (z : Z) : _INT (chars (pretty z)) = true.
Proof.
  assert (forall l, (0 < length l)%nat -> forallb is_digit l = true ->
            negb (bool_decide (l = [])) && forallb is_digit l = true) as Hdigits.
  { intros l Hl ->. rewrite bool_decide_eq_false_2; [done|]. intros ->. cbn in Hl. lia. }
  unfold _INT. destruct z as [|p|p]; [done| |].
  - destruct (pretty_nonneg (Z.pos p)) as (Hd & _ & Hl); [lia|].
    destruct (chars (pretty (Z.pos p))) as [|c l] eqn:Hp; [cbn in Hl; lia|].
    assert (Ascii.eqb c "-" = false) as ->; [|by apply Hdigits].
    apply andb_prop in Hd as [Hc _]. revert Hc. char_cases c.
  - rewrite pretty_neg. cbn [Ascii.eqb]. destruct (pretty_nonneg (Z.pos p)) as (Hd & _ & Hl); [lia|]. by apply Hdigits.
Qed.

Lemma coerce_int (z : Z) : coerce (pretty z) = Sc (VInt z).
Proof. unfold coerce. by rewrite strip_int, int_text, parse_int_pretty. Qed.

Lemma landed_int engine key (z : Z) : is_switch engine key = false -> landed engine key (Sc (VInt z)) = Some (Sc (VInt z)).
Proof. intros Hs. cbn [landed fmt doc_str str_of]. unfold switch_value. rewrite Hs. cbn [coerced]. by rewrite coerce_int. Qed.

(** ** The theorems at work, and where the list is misread *)
Definition strings (l : list string) : list doc := map (fun s => Sc (VStr s)) l.
Definition sample_items : list doc := strings ["--tp-size=4"; "--enable-metrics"; "--dtype"; "auto"; "--tp 8"].

Lemma set_flag_reads_back_witness :
  dict_get "tp" (flags "sglang" (set_flag "sglang" sample_items "tp" (Sc (VInt 2)))) = Some (Sc (VInt 2)).
Proof.
  etrans; [apply set_flag_reads_back;
    [apply list_elem_of_In; vm_compute; tauto|vm_compute; reflexivity|vm_compute; reflexivity]|].
  vm_compute. reflexivity.
Defined.

Lemma set_flag_keeps_the_rest_witness :
  dict_get "dtype" (flags "sglang" (set_flag "sglang" sample_items "tp" (Sc VNone))) = Some (Sc (VStr "auto")).
Proof.
  etrans; [apply set_flag_keeps_the_rest;
    [apply list_elem_of_In; vm_compute; tauto|vm_compute; reflexivity|vm_compute; reflexivity|discriminate|discriminate]|].
  vm_compute. reflexivity.
Defined.

Lemma set_flag_leaves_the_items_witness :
  untouched "sglang" "tp" (set_flag "sglang" sample_items "tp" (Sc (VInt 2))) = strings ["--enable-metrics"; "--dtype"; "auto"].
Proof.
  etrans; [apply set_flag_leaves_the_items;
    [apply list_elem_of_In; vm_compute; tauto|vm_compute; reflexivity|vm_compute; reflexivity]|].
  vm_compute. reflexivity.
Defined.

(** Not of every list: a positional that follows a removed flag becomes the
    value of the switch before it; and a flag and value written as one item, the
    value holding an equals sign, is read as a flag with a space in its name. *)
Theorem extra_args_misread :
  let items := strings ["--enable-metrics"; "--tp=4"; "extra.json"] in
  dict_get "enable_metrics" (flags "sglang" items) = Some (Sc (VBool true)) /\
  dict_get "enable_metrics" (flags "sglang" (set_flag "sglang" items "tp" (Sc VNone))) = Some (Sc (VStr "extra.json")) /\
  flags "vllm" (strings ["--lora-modules name=path"]) = [("lora_modules name", Sc (VStr "path"))].
Proof. vm_compute. auto. Qed.
