(* ===== verification/Addresses.v ===== *)
(** Knob addresses ([app/control/recipe/address.py]): how a flat config names a
    place in a recipe, with dotted value paths read and written. *)
From Stdlib Require Import Ascii.
From S2P Require Import Prelude Float Values Texts Documents Space Validation.
#[local] Open Scope string_scope.
#[local] Open Scope list_scope.
#[local] Open Scope Z_scope.

Definition VALUES_PREFIX : string := "values.".
Definition ROLE_PREFIXES : list string := ["prefill."; "decode."].

(** The value paths a flag or env address already reaches. *)
Definition MANAGED_PATHS : list (list string) :=
  [["extraArgs"]; ["env"]; ["pd"; "prefill"; "extraArgs"]; ["pd"; "decode"; "extraArgs"]].

Inductive address :=
| AFlag (name : string)
| AEnv (name : string)
| ARoleFlag (role name : string)
| AValue (path : list string).

#[export] Instance address_eq_dec : EqDecision address.
Proof. solve_decision. Defined.

(** Why a key is not an address. *)
Inductive BadAddress :=
| Unreadable (rest : string)
| EmptyPath
| NamesNoVariable (key : string)
| BadRoleFlag (key prefix : string)
| NotAnAddress (key : string).

(** ** Value paths *)

(** A quoted segment from after its opening quote: the segment with its escapes
    undone, and what follows the closing bracket. *)
Fixpoint quoted_segment (l : list ascii) : option (list ascii * list ascii) :=
  match l with
  | [] => None
  | c :: l' =>
      if Ascii.eqb c double_quote then
        match l' with d :: rest => if Ascii.eqb d "]" then Some ([], rest) else None | [] => None end
      else if Ascii.eqb c backslash then
        match l' with
        | d :: rest =>
            if Ascii.eqb d newline then None
            else match quoted_segment rest with Some (s, r) => Some (d :: s, r) | None => None end
        | [] => None
        end
      else match quoted_segment l' with Some (s, r) => Some (c :: s, r) | None => None end
  end.

Definition bare_char (c : ascii) : bool :=
  negb (Ascii.eqb c "." || Ascii.eqb c "[" || Ascii.eqb c "]").

Fixpoint bare_segment (l : list ascii) : list ascii * list ascii :=
  match l with
  | c :: l' => if bare_char c then let '(s, r) := bare_segment l' in (c :: s, r) else ([], l)
  | [] => ([], [])
  end.

(** [_SEGMENT.match]. *)
Definition next_segment (l : list ascii) : option (string * list ascii) :=
  match l with
  | c :: d :: rest =>
      match (if Ascii.eqb c "[" && Ascii.eqb d double_quote then quoted_segment rest else None) with
      | Some (s, r) => Some (of_chars s, r)
      | None => if bare_char c then let '(s, r) := bare_segment l in Some (of_chars s, r) else None
      end
  | [c] => if bare_char c then Some (of_chars l, []) else None
  | [] => None
  end.

(** The loop of [parse_path]; every step reads a character. *)
Fixpoint read_segments (fuel : nat) (l : list ascii) : BadAddress + list string :=
  match fuel, l with
  | S fuel, c :: l' =>
      if Ascii.eqb c "." then read_segments fuel l'
      else
        match next_segment l with
        | Some (s, rest) =>
            match read_segments fuel rest with inl e => inl e | inr path => inr (s :: path) end
        | None => inl (Unreadable (of_chars l))
        end
  | _, _ => inr []
  end.

Definition parse_path (text : string) : BadAddress + list string :=
  match read_segments (String.length text) (chars text) with
  | inl e => inl e
  | inr [] => inl EmptyPath
  | inr path => inr path
  end.

Definition plain_char (c : ascii) : bool :=
  is_upper c || is_lower c || is_digit c || is_underscore c || Ascii.eqb c "-".
Definition plain_segment (s : string) : bool :=
  negb (String.eqb s "") && forallb plain_char (chars s).

(** Double quotes escaped, nothing else. *)
Definition escape_quotes (l : list ascii) : list ascii :=
  concat (map (fun c => if Ascii.eqb c double_quote then [backslash; double_quote] else [c]) l).

Definition format_segment (first : bool) (s : string) : string :=
  if plain_segment s then (if first then "" else ".") +:+ s
  else of_chars (["["%char; double_quote] ++ escape_quotes (chars s) ++ [double_quote; "]"%char]).

Fixpoint format_from (first : bool) (path : list string) : string :=
  match path with
  | [] => ""
  | s :: rest => format_segment first s +:+ format_from false rest
  end.
Definition format_path (path : list string) : string := format_from true path.

(** ** Addresses *)
Definition has_dot (s : string) : bool := existsb (Ascii.eqb ".") (chars s).

(** The role prefix a key has, and what follows it. *)
Fixpoint role_of (prefixes : list string) (key : string) : option (string * string) :=
  match prefixes with
  | [] => None
  | p :: rest => if starts_with p key then Some (p, from (String.length p) key) else role_of rest key
  end.

Definition parse (key : string) : BadAddress + address :=
  if starts_with ENV_PREFIX key then
    let name := from (String.length ENV_PREFIX) key in
    if String.eqb name "" then inl (NamesNoVariable key) else inr (AEnv name)
  else if starts_with VALUES_PREFIX key then
    match parse_path (from (String.length VALUES_PREFIX) key) with
    | inl e => inl e
    | inr path => inr (AValue path)
    end
  else
    match role_of ROLE_PREFIXES key with
    | Some (prefix, name) =>
        if String.eqb name "" || has_dot name then inl (BadRoleFlag key prefix)
        else inr (ARoleFlag (of_chars (removelast (chars prefix))) name)
    | None => if has_dot key then inl (NotAnAddress key) else inr (AFlag key)
    end.

Definition value_key (path : list string) : string := VALUES_PREFIX +:+ format_path path.

Definition is_prefix_of (m path : list string) : bool := bool_decide (take (length m) path = m).
Definition is_managed (path : list string) : bool := existsb (fun m => is_prefix_of m path) MANAGED_PATHS.

(** The key an address is spelled as. *)
Definition spell (a : address) : string :=
  match a with
  | AFlag name => name
  | AEnv name => ENV_PREFIX +:+ name
  | ARoleFlag role name => role +:+ "." +:+ name
  | AValue path => value_key path
  end.

(** ** Lemmas: paths *)
Definition no_backslash (s : string) : bool := forallb (fun c => negb (Ascii.eqb c backslash)) (chars s).

Lemma quoted_escaped l rest : forallb (fun c => negb (Ascii.eqb c backslash)) l = true ->
  quoted_segment (escape_quotes l ++ double_quote :: "]"%char :: rest) = Some (l, rest).
Proof.
  induction l as [|c l IH]; [done|]. cbn [forallb]. intros [Hc%negb_true_iff Hl]%andb_prop. specialize (IH Hl).
  unfold escape_quotes in *. cbn [map concat]. rewrite <- app_assoc. destruct (Ascii.eqb_spec c double_quote) as [->|Hq].
  - cbn [app quoted_segment]. change (Ascii.eqb backslash double_quote) with false. cbn iota.
    rewrite Ascii.eqb_refl. change (Ascii.eqb double_quote newline) with false. cbn iota. by rewrite IH.
  - cbn [app quoted_segment]. apply Ascii.eqb_neq in Hq. by rewrite Hq, Hc, IH.
Qed.

Lemma plain_is_bare c : plain_char c = true -> bare_char c = true.
Proof. char_cases c. Qed.

(** What a segment is followed by. *)
Definition at_boundary (l : list ascii) : Prop :=
  match l with [] => True | c :: _ => bare_char c = false end.

Lemma bare_plain l rest : forallb plain_char l = true -> at_boundary rest -> bare_segment (l ++ rest) = (l, rest).
Proof.
  intros Hl Hrest. induction l as [|c l IH]; cbn [app bare_segment].
  - destruct rest as [|c rest]; [done|]. cbn in *. by rewrite Hrest.
  - cbn in Hl. apply andb_prop in Hl as [Hc Hl]. by rewrite (plain_is_bare _ Hc), (IH Hl).
Qed.

Lemma next_plain s rest : plain_segment s = true -> at_boundary rest ->
  next_segment (chars s ++ rest) = Some (s, rest) /\ exists c l, chars s = c :: l /\ Ascii.eqb c "." = false.
Proof.
  unfold plain_segment. intros [Hne%negb_true_iff%String.eqb_neq Hs]%andb_prop Hrest.
  destruct (chars s) as [|c l] eqn:Hchars.
  { destruct Hne. rewrite <- (of_chars_chars s), Hchars. done. }
  pose proof Hs as [Hc _]%andb_prop. pose proof (plain_is_bare _ Hc) as Hb.
  assert (Ascii.eqb c "[" = false /\ Ascii.eqb c "." = false) as [Hbr Hdot] by (revert Hb; char_cases c).
  split; [|by exists c, l]. pose proof (bare_plain (c :: l) rest Hs Hrest) as Hseg.
  unfold next_segment. cbn [app] in *. destruct (l ++ rest) as [|d k] eqn:Hk.
  - rewrite Hb. cbn in Hseg. rewrite Hb in Hseg. injection Hseg as <- <-. by rewrite <- Hchars, of_chars_chars.
  - rewrite Hbr, Hb. cbn [andb]. rewrite Hseg. by rewrite <- Hchars, of_chars_chars.
Qed.

Lemma next_quoted s rest : no_backslash s = true ->
  next_segment (["["%char; double_quote] ++ escape_quotes (chars s) ++ [double_quote; "]"%char] ++ rest) = Some (s, rest).
Proof.
  intros Hs. cbn [app next_segment]. rewrite !Ascii.eqb_refl. cbn [andb].
  rewrite quoted_escaped by done. by rewrite of_chars_chars.
Qed.

Lemma format_boundary path : at_boundary (chars (format_from false path)).
Proof.
  destruct path as [|s rest]; [done|]. cbn [format_from]. unfold format_segment. rewrite chars_app.
  destruct (plain_segment s); [done|]. by rewrite chars_of_chars.
Qed.

Lemma read_format first path fuel : Forall (fun s => no_backslash s = true) path ->
  (length (chars (format_from first path)) <= fuel)%nat ->
  read_segments fuel (chars (format_from first path)) = inr path.
Proof.
  revert first fuel. induction path as [|s rest IH]; intros first fuel Hall Hfuel; [by destruct fuel|].
  apply Forall_cons in Hall as [Hs Hall]. cbn [format_from] in *. unfold format_segment in *.
  pose proof (format_boundary rest) as Hb. rewrite chars_app in *.
  destruct (plain_segment s) eqn:Hplain.
  - assert (forall fuel, (length (chars s ++ chars (format_from false rest)) <= fuel)%nat ->
              read_segments fuel (chars s ++ chars (format_from false rest)) = inr (s :: rest)) as Hread.
    { intros f Hf. destruct (next_plain s _ Hplain Hb) as (Hnext & c & l & Hc & Hdot). rewrite Hc in *. cbn [app length] in *.
      destruct f as [|f]; [lia|]. cbn [read_segments]. rewrite Hdot, Hnext.
      rewrite IH; [done|done|]. rewrite length_app in Hf. lia. }
    destruct first; [by apply Hread|]. rewrite chars_app in *. cbn in Hfuel.
    destruct fuel as [|fuel]; [lia|]. cbn. apply Hread. lia.
  - rewrite chars_of_chars, <- !app_assoc in *. destruct fuel as [|fuel]; [cbn in Hfuel; lia|].
    pose proof (next_quoted s (chars (format_from false rest)) Hs) as Hnext.
    cbn [app read_segments] in *. change (Ascii.eqb "[" ".") with false. cbn iota. rewrite Hnext.
    rewrite IH; [done|done|]. cbn [length] in Hfuel. rewrite length_app in Hfuel. cbn [length] in Hfuel. lia.
Qed.

(** ** The address language reads what it writes *)
Definition well_formed_address (a : address) : bool :=
  match a with
  | AFlag name => negb (has_dot name)
  | AEnv name => negb (String.eqb name "")
  | ARoleFlag role name =>
      bool_decide (role ∈ ["prefill"; "decode"]) && negb (String.eqb name "") && negb (has_dot name)
  | AValue path => negb (bool_decide (path = [])) && forallb no_backslash path
  end.

Lemma from_app p s : from (String.length p) (p +:+ s) = s.
Proof.
  apply chars_inj. unfold from. rewrite chars_of_chars, chars_app.
  by rewrite <- length_chars, drop_app_length.
Qed.

Lemma prefix_app p s : String.prefix p (p +:+ s) = true.
Proof.
  induction p as [|c p IH]; [apply prefix_empty|].
  change (String c p +:+ s) with (String c (p +:+ s)). by rewrite prefix_cons, Ascii.eqb_refl, IH.
Qed.

Lemma has_dot_prefix p s : has_dot p = true -> String.prefix p s = true -> has_dot s = true.
Proof.
  unfold has_dot. intros (c & Hc & Hdot)%existsb_exists Hp. apply existsb_exists. exists c. split; [|done].
  apply list_elem_of_In. by eapply prefix_elem, list_elem_of_In.
Qed.

Lemma parse_path_format path : path <> [] -> Forall (fun s => no_backslash s = true) path ->
  parse_path (format_path path) = inr path.
Proof.
  intros Hne Hall. unfold parse_path, format_path. rewrite read_format; [by destruct path|done|].
  by rewrite length_chars.
Qed.

Lemma parse_value_key path : path <> [] -> Forall (fun s => no_backslash s = true) path ->
  parse (value_key path) = inr (AValue path).
Proof.
  intros Hne Hall. unfold parse, value_key.
  change (starts_with ENV_PREFIX (VALUES_PREFIX +:+ format_path path)) with false.
  assert (starts_with VALUES_PREFIX (VALUES_PREFIX +:+ format_path path) = true) as -> by apply prefix_app.
  by rewrite from_app, parse_path_format.
Qed.

(** Every address is read back from the key it is spelled as: flags,
    environment variables, a role's flags, and chart values by a path of any
    segments (dots, brackets, quotes and spaces included) free of backslashes. *)
Theorem parse_spells (a : address) : well_formed_address a = true -> parse (spell a) = inr a.
Proof.
  destruct a as [name|name|role name|path]; cbn [well_formed_address spell].
  - intros Hdot%negb_true_iff. unfold parse.
    assert (forall p, has_dot p = true -> starts_with p name = false) as Hp.
    { intros p Hp. apply not_true_is_false. intros Hpre. pose proof (has_dot_prefix _ _ Hp Hpre). congruence. }
    rewrite !Hp by done. unfold ROLE_PREFIXES. cbn [role_of]. rewrite !Hp by done. by rewrite Hdot.
  - intros Hne%negb_true_iff. unfold parse, starts_with. by rewrite prefix_app, from_app, Hne.
  - intros [[Hrole%bool_decide_eq_true_1 Hne%negb_true_iff]%andb_prop Hdot%negb_true_iff]%andb_prop. unfold parse.
    rewrite !elem_of_cons, elem_of_nil in Hrole.
    destruct Hrole as [->|[->|[]]].
    + change ("prefill" +:+ "." +:+ name) with ("prefill." +:+ name).
      change (starts_with ENV_PREFIX ("prefill." +:+ name)) with false.
      change (starts_with VALUES_PREFIX ("prefill." +:+ name)) with false. cbn [role_of ROLE_PREFIXES].
      unfold starts_with. rewrite prefix_app, from_app. by rewrite Hne, Hdot.
    + change ("decode" +:+ "." +:+ name) with ("decode." +:+ name).
      change (starts_with ENV_PREFIX ("decode." +:+ name)) with false.
      change (starts_with VALUES_PREFIX ("decode." +:+ name)) with false. cbn [role_of ROLE_PREFIXES].
      change (starts_with "prefill." ("decode." +:+ name)) with false.
      unfold starts_with. rewrite prefix_app, from_app. by rewrite Hne, Hdot.
  - intros [Hne%negb_true_iff%bool_decide_eq_false_1 Hall]%andb_prop.
    apply parse_value_key; [done|]. apply Forall_forall. intros s Hs. by eapply forallb_elem.
Qed.

Lemma parse_spells_witness :
  parse (spell (AValue ["resources"; "limits"; "rdma/hca.shared"; "a [b] c"])) =
    inr (AValue ["resources"; "limits"; "rdma/hca.shared"; "a [b] c"]) /\
  parse (spell (ARoleFlag "prefill" "mem_fraction_static")) = inr (ARoleFlag "prefill" "mem_fraction_static").
Proof. split; apply parse_spells; vm_compute; reflexivity. Defined.

(** A segment with a backslash is not: the writer escapes the quotes but not
    the backslashes the reader undoes, so the key names another value. *)
Theorem backslash_is_lost :
  parse (spell (AValue ["podAnnotations"; "C:\tmp"])) = inr (AValue ["podAnnotations"; "C:tmp"]).
Proof. vm_compute. reflexivity. Qed.
