(* ===== verification/Recipes.v ===== *)
(** Recipes ([app/control/recipe/model.py]): an engine configuration as a chart
    and its values; how many pods and cards it makes ([shape.py]); what would
    stop it from launching ([check.py]); each engine's command line as the chart
    builds it ([render.py]).

    A section of the values the code reads with [.get] is a dict; on anything
    else the code raises [AttributeError], and such values are outside the
    model, which reads an empty section there. *)
From Stdlib Require Import Ascii.
From S2P Require Import Prelude Float Values Texts Documents Space Validation Flags Commands ExtraArgs Addresses.
#[local] Open Scope string_scope.
#[local] Open Scope list_scope.
#[local] Open Scope Z_scope.

Definition ENGINES : list string := ["sglang"; "vllm"].
Definition ROLES : list string := ["prefill"; "decode"].

Record Recipe := mkRecipe {
  rc_engine : string;
  rc_chart_name : string;
  rc_chart_version : string;
  rc_values : tree;
  rc_image_digest : string;
}.
#[export] Instance Recipe_eta : Eta _ := fun r =>
  mkRecipe (rc_engine r) (rc_chart_name r) (rc_chart_version r) (rc_values r) (rc_image_digest r).

(** ** Reading the values *)

(** [d.get(key) or {}] and [d.get(key) or []]. *)
Definition section (key : string) (m : tree) : tree := sub_tree (dict_get key m).
Definition listing (key : string) (m : tree) : list doc := sub_list (dict_get key m).

(** [str(d.get(key) or "")]. *)
Definition text_at (key : string) (m : tree) : string :=
  match dict_get key m with Some d => if doc_truthy d then doc_str d else "" | None => "" end.

(** Whether a section says yes: [d.get(key)] as a condition. *)
Definition says (key : string) (m : tree) : bool :=
  match dict_get key m with Some d => doc_truthy d | None => false end.

(** [shape.py:_int]: [int(str(value).strip())], or a default. *)
Definition _int (value : option doc) (d : Z) : Z :=
  match value with Some v => default d (parse_int (strip (doc_str v))) | None => d end.

(** A value that is there and is not null. *)
Definition given (key : string) (m : tree) : bool :=
  match dict_get key m with Some (Sc VNone) | None => false | Some _ => true end.

Definition role (name : string) (r : Recipe) : tree := section name (section "pd" (rc_values r)).

Definition image (r : Recipe) : string :=
  let img := section "image" (rc_values r) in
  let tag := text_at "tag" img in
  let ref := if String.eqb tag "" then text_at "repository" img
             else text_at "repository" img +:+ ":" +:+ tag in
  if String.eqb (rc_image_digest r) "" then ref else ref +:+ "@" +:+ rc_image_digest r.

Definition served_name (r : Recipe) : string := text_at "name" (section "model" (rc_values r)).
Definition gpus (r : Recipe) : Z := _int (dict_get "gpus" (section "model" (rc_values r))) 0.

(** The flags a recipe sets; with a role, the ones its engines run with. *)
Definition top_flags (r : Recipe) : tree := flags (rc_engine r) (listing "extraArgs" (rc_values r)).
Definition role_own_flags (r : Recipe) (name : string) : tree :=
  flags (rc_engine r) (listing "extraArgs" (role name r)).
Definition recipe_flags (r : Recipe) (name : string) : tree :=
  if String.eqb name "" then top_flags r else dict_update (top_flags r) (role_own_flags r name).

(** One entry of [env] that has a name. *)
Definition env_entry (d : doc) : option (string * tree) :=
  match d with
  | Mp m => match dict_get "name" m with
            | Some n => if doc_truthy n then Some (doc_str n, m) else None
            | None => None
            end
  | _ => None
  end.

Definition recipe_env (r : Recipe) : list (string * string) :=
  foldl (fun out d =>
           match env_entry d with
           | Some (n, m) => dict_set n (match dict_get "value" m with Some v => doc_str v | None => "" end) out
           | None => out
           end) [] (listing "env" (rc_values r)).

Inductive topology_kind := SingleNode | Lws | Pd.
#[export] Instance topology_kind_eq_dec : EqDecision topology_kind.
Proof. solve_decision. Defined.

Definition topology (r : Recipe) : topology_kind :=
  if says "enabled" (section "pd" (rc_values r)) then Pd
  else if says "enabled" (section "lws" (rc_values r)) then Lws
  else SingleNode.
Definition topology_name (t : topology_kind) : string :=
  match t with SingleNode => "single-node" | Lws => "lws" | Pd => "pd" end.

(** What makes two recipes the same configuration: the lists whose spelling
    varies read as what they mean. *)
Definition texts (m : list (string * string)) : tree := map (fun '(k, v) => (k, Sc (VStr v))) m.

Definition identity_role (engine : string) (pd : tree) (name : string) : tree :=
  match dict_get name pd with
  | Some (Mp spec) =>
      if dict_has "extraArgs" spec
      then dict_set name (Mp (dict_set "extraArgs" (Mp (flags engine (listing "extraArgs" spec))) spec)) pd
      else pd
  | _ => pd
  end.

Definition identity (r : Recipe) : tree :=
  let values := dict_set "extraArgs" (Mp (top_flags r)) (rc_values r) in
  let env := sort_by (key_before (fun kv => key_of_string kv.1)) (recipe_env r) in
  let values := dict_set "env" (Mp (texts env)) values in
  let values := match dict_get "pd" values with
                | Some (Mp pd) => dict_set "pd" (Mp (foldl (identity_role (rc_engine r)) pd ROLES)) values
                | _ => values
                end in
  [("engine", Sc (VStr (rc_engine r))); ("chart", Sc (VStr (rc_chart_name r))); ("values", Mp values)].

(** ** The catalog's spelling *)

(** [int(x)]; [None] is a [ValueError] or a [TypeError]. *)
Definition to_int (d : doc) : option Z :=
  match d with
  | Sc (VBool b) => Some (bool_int b)
  | Sc v => int_or_none v
  | _ => None
  end.

Definition text (s : string) : doc := Sc (VStr s).
(** [x or default]. *)
Definition or_else (d : option doc) (other : doc) : doc :=
  match d with Some v => if doc_truthy v then v else other | None => other end.

Definition to_variant (r : Recipe) : option tree :=
  let img := section "image" (rc_values r) in
  let values := dict_pop "image" (rc_values r) in
  let model := section "model" values in
  let served := dict_get "name" model in
  let cards := dict_get "gpus" model in
  let model' := dict_pop "gpus" (dict_pop "name" model) in
  let values := if dict_has "model" values
                then match model' with [] => dict_pop "model" values | _ => dict_set "model" (Mp model') values end
                else values in
  let out := [("engine", text (rc_engine r));
              ("chart", Mp [("name", text (rc_chart_name r)); ("version", text (rc_chart_version r))])] in
  let out := match served with Some s => if doc_truthy s then dict_set "servedName" s out else out | None => out end in
  let out := if says "repository" img then
               let fields := [("repository", or_else (dict_get "repository" img) (text ""));
                              ("tag", text (text_at "tag" img))] in
               dict_set "image" (Mp (if String.eqb (rc_image_digest r) "" then fields
                                     else fields ++ [("digest", text (rc_image_digest r))])) out
             else out in
  cards ← match cards with
           | None | Some (Sc VNone) => Some 0
           | Some d => if bool_decide (d = text "") then Some 0 else parse_int (doc_str d)
           end;
  nodes ← (if bool_decide (topology r = Lws) then to_int (or_else (dict_get "size" (section "lws" (rc_values r))) (Sc (VInt 1)))
            else Some 1);
  let requires := [("gpus", Sc (VInt cards))] in
  let requires := if 1 <? nodes then dict_set "nodes" (Sc (VInt nodes)) requires else requires in
  let requires := dict_set "topology" (text (topology_name (topology r))) requires in
  let requires := if says "enabled" (section "rdma" (rc_values r)) then dict_set "rdma" (Sc (VBool true)) requires
                  else requires in
  Some (dict_set "values" (Mp values) (dict_set "requires" (Mp requires) out)).

Definition from_variant (variant : tree) (model_name : string) : Recipe :=
  let values := section "values" variant in
  let img := section "image" variant in
  let values := if says "repository" img
                then dict_set "image" (Mp [("repository", or_else (dict_get "repository" img) (text ""));
                                           ("tag", text (text_at "tag" img))]) values
                else values in
  let model := section "model" values in
  let served := or_else (dict_get "servedName" variant)
                  (or_else (Some (text model_name)) (or_else (dict_get "model" variant) (text ""))) in
  let model := if doc_truthy served then dict_set "name" served model else model in
  let model := match dict_get "gpus" (section "requires" variant) with
               | Some (Sc VNone) | None => model
               | Some cards => dict_set "gpus" (text (doc_str cards)) model
               end in
  let chart := section "chart" variant in
  let named d := or_else d (text "sglang") in
  mkRecipe (doc_str (or_else (dict_get "engine" variant) (named (dict_get "name" chart))))
    (doc_str (named (dict_get "name" chart))) (text_at "version" chart)
    (dict_set "model" (Mp model) values) (text_at "digest" img).

(** ** Pods and cards *)
Record PodGroup := mkPodGroup { pg_role : string; pg_gpus : Z; pg_count : Z }.
Record Shape := mkShape { sh_topology : topology_kind; sh_groups : list PodGroup }.

Definition total_gpus (s : Shape) : Z := foldr (fun g n => pg_gpus g * pg_count g + n) 0 (sh_groups s).
Definition max_pod_gpus (s : Shape) : Z :=
  match map pg_gpus (sh_groups s) with [] => 0 | g :: l => foldl Z.max g l end.
Definition pods (s : Shape) : Z := foldr (fun g n => pg_count g + n) 0 (sh_groups s).

Definition _NOT_CARDS : list string := ["cpu"; "memory"; "ephemeral-storage"; "storage"; "pods"].

Definition counts_cards (name : string) : bool :=
  negb (listed name _NOT_CARDS) && negb (starts_with "hugepages-" name || starts_with "rdma/" name).

Definition accelerator_request (values : tree) : Z :=
  let counts part :=
    omap (fun '(name, qty) => if counts_cards name then Some (_int (Some qty) 0) else None)
         (section part (section "resources" values)) in
  let most part := match counts part with [] => 0 | n :: l => foldl Z.max n l end in
  if existsb (fun n => negb (n =? 0)) (counts "limits") then most "limits"
  else if existsb (fun n => negb (n =? 0)) (counts "requests") then most "requests"
  else 0.

Definition pod_gpus (r : Recipe) : Z := if gpus r =? 0 then accelerator_request (rc_values r) else gpus r.

Definition role_size (r : Recipe) (name : string) : Z := Z.max 1 (_int (dict_get "size" (role name r)) 1).
Definition role_gpus (r : Recipe) (name : string) : Z := _int (dict_get "gpus" (role name r)) 0.
Definition role_replicas (r : Recipe) (name : string) : Z := Z.max 1 (_int (dict_get "replicas" (role name r)) 1).
Definition lws_size (r : Recipe) : Z := Z.max 1 (_int (dict_get "size" (section "lws" (rc_values r))) 2).
Definition colocated (r : Recipe) : bool := says "colocate" (section "pd" (rc_values r)).

Definition shape (r : Recipe) : Shape :=
  match topology r with
  | Pd =>
      if colocated r
      then mkShape Pd [mkPodGroup "colocate" (role_gpus r "prefill" + role_gpus r "decode") 1]
      else
        let router := section "router" (section "pd" (rc_values r)) in
        mkShape Pd (map (fun name => mkPodGroup name (role_gpus r name) (role_replicas r name * role_size r name)) ROLES
                    ++ [mkPodGroup "router" 0 (Z.max 1 (_int (dict_get "replicas" router) 1))])
  | Lws => mkShape Lws [mkPodGroup "leader" (pod_gpus r) 1; mkPodGroup "worker" (pod_gpus r) (lws_size r - 1)]
  | SingleNode => mkShape SingleNode [mkPodGroup "engine" (pod_gpus r) 1]
  end.

(** The flags as a flat configuration. *)
Definition flat (m : tree) : config :=
  list_to_map (omap (fun '(k, d) => match d with Sc v => Some (k, v) | _ => None end) m).

(** The flags use one count of cards, the pods claim another. *)
Inductive parallelism_problem :=
| RoleCards (name : string) (need have : Z)
| PodCards (need have : Z).

Definition parallelism_problems (r : Recipe) : list parallelism_problem :=
  match topology r with
  | Pd =>
      if colocated r then []
      else
        omap (fun name =>
                let have := role_gpus r name * role_size r name in
                let need := cards_used (flat (recipe_flags r name)) in
                if negb (have =? 0) && negb (need =? have) then Some (RoleCards name need have) else None) ROLES
  | t =>
      let size := match t with Lws => lws_size r | _ => 1 end in
      let have := pod_gpus r * size in
      let need := cards_used (flat (top_flags r)) in
      if negb (have =? 0) && negb (need =? have) then [PodCards need have] else []
  end.

(** ** What stops a launch *)
Definition SITE_KEYS : list string :=
  ["global"; "fullnameOverride"; "serviceId"; "replicaCount"; "scaler"; "modelRoute"; "cart"; "sloRequirement";
   "serviceMonitor"; "continuationGateway"; "podDisruptionBudget"; "nodeSelector"; "tolerations"; "affinity";
   "schedulerName"; "priorityClassName"; "podLabels"; "cache"; "strategy"; "revisionHistoryLimit"; "namespace"].
Definition SITE_PATHS : list (list string) :=
  [["service"; "type"]; ["lws"; "replicas"];
   ["pd"; "prefill"; "affinityReplace"]; ["pd"; "prefill"; "schedulerName"];
   ["pd"; "decode"; "affinityReplace"]; ["pd"; "decode"; "schedulerName"];
   ["pd"; "router"; "affinityReplace"]; ["pd"; "router"; "tolerationsReplace"]].
Definition CHART_FLAGS : list string :=
  ["model_path"; "model"; "served_model_name"; "host"; "port"; "nnodes"; "node_rank"; "dist_init_addr"; "nccl_init_addr"].
Definition CONTEXT_FLAGS : list string := ["context_length"; "max_model_len"].
Definition REPEATABLE_CHART_FLAGS : list string := ["enable_metrics"].

Definition _site_path (path : list string) : bool :=
  match path with k :: _ => listed k SITE_KEYS | [] => false end
  || existsb (fun p => is_prefix_of p path) SITE_PATHS.

Inductive recipe_problem :=
| BadKeyOf (key : string) (why : BadAddress)
| ManagedPath (key : string)
| SiteValue (key : string)
| ImageValue (key : string)
| NoImageTag
| ChartFlag (prefix key : string)
| ArgsUnderOverride
| PdWithLws
| CardsDisagree (p : parallelism_problem).

(** Problems with a config's addresses, before anything is applied. *)
Definition address_problem (key : string) : option recipe_problem :=
  match parse key with
  | inl why => Some (BadKeyOf key why)
  | inr (AValue path) =>
      if is_managed path then Some (ManagedPath key)
      else if _site_path path then Some (SiteValue key)
      else if bool_decide (head path = Some "image") then Some (ImageValue key)
      else None
  | inr _ => None
  end.
Definition config_problems (keys : list string) : list recipe_problem := omap address_problem keys.

(** The lists of flags of a recipe, with the prefix of their keys. *)
Definition flag_lists (r : Recipe) : list (string * list doc) :=
  ("", listing "extraArgs" (rc_values r))
  :: map (fun name => (name +:+ ".", listing "extraArgs" (role name r))) ROLES.

Definition recipe_problems (r : Recipe) : list recipe_problem :=
  let values := rc_values r in
  let img := section "image" values in
  (if negb (says "repository" img) || String.eqb (strip (text_at "tag" img)) "" then [NoImageTag] else [])
  ++ concat (map (fun '(prefix, items) =>
               omap (fun '(key, _) => if listed key CHART_FLAGS then Some (ChartFlag prefix key) else None)
                    (flags (rc_engine r) items)) (flag_lists r))
  ++ (if given "commandOverride" values && says "extraArgs" values then [ArgsUnderOverride] else [])
  ++ (if says "enabled" (section "pd" values) && says "enabled" (section "lws" values) then [PdWithLws] else [])
  ++ (if given "commandOverride" values then [] else map CardsDisagree (parallelism_problems r)).

(** ** The chart's command line *)
Definition default_port (chart : string) : Z := if String.eqb chart "vllm" then 8000 else 30000.
Definition DEFAULT_MOUNT : string := "/models".

(** [d.get(key) or other], as the text it is rendered as. *)
Definition text_or (key : string) (m : tree) (other : string) : string := doc_str (or_else (dict_get key m) (text other)).

(** A context length that is there: [not in (None, "")]. *)
Definition context_of (d : option doc) : list string :=
  match d with
  | None | Some (Sc VNone) => []
  | Some v => if bool_decide (v = text "") then [] else [doc_str v]
  end.

Definition spans_pods (r : Recipe) (name : string) : bool :=
  if listed name ROLES then 1 <? _int (dict_get "size" (role name r)) 1
  else says "enabled" (section "lws" (rc_values r)).

Definition group_size (r : Recipe) (name : string) : Z :=
  if listed name ROLES then _int (dict_get "size" (role name r)) 1
  else _int (dict_get "size" (section "lws" (rc_values r))) 2.

Definition dist_port (r : Recipe) (name : string) : string :=
  let spec := if listed name ROLES then role name r else [] in
  doc_str (or_else (dict_get "distPort" spec)
             (or_else (dict_get "distPort" (section "lws" (rc_values r))) (Sc (VInt 29500)))).

Definition own_args (r : Recipe) (name : string) : list string :=
  map doc_str (listing "extraArgs" (rc_values r))
  ++ (if listed name ROLES then map doc_str (listing "extraArgs" (role name r)) else []).

Definition offload_flags (r : Recipe) (name : string) : list string :=
  let offload := section "localKVOffload" (rc_values r) in
  if says "enabled" offload && String.eqb (text_or "backend" offload "hicache") "hicache" && negb (String.eqb name "decode")
  then "--enable-hierarchical-cache"
       :: omap (fun '(key, value) => match value with Sc VNone => None | _ => Some ("--hicache-" +:+ key +:+ "=" +:+ doc_str value) end)
            (section "hicache" offload)
  else [].

Definition _sglang (r : Recipe) (name : string) (port : Z) : list string :=
  let values := rc_values r in
  let model := section "model" values in
  let pd := section "pd" values in
  let spec := role name r in
  ["sglang"; "serve"; "--model-path=" +:+ text_or "mountPath" model DEFAULT_MOUNT;
   "--served-model-name=" +:+ text_at "name" model; "--host=0.0.0.0"; "--port=" +:+ pretty port]
  ++ map (fun c => "--context-length=" +:+ c) (context_of (dict_get "contextLength" model))
  ++ ["--enable-metrics"]
  ++ (if spans_pods r name
      then ["--nnodes=" +:+ pretty (group_size r name); "--node-rank=${LWS_WORKER_INDEX}";
            "--dist-init-addr=${LWS_LEADER_ADDRESS}:" +:+ dist_port r name]
      else [])
  ++ (if listed name ROLES
      then ["--disaggregation-mode=" +:+ name;
            "--disaggregation-transfer-backend=" +:+ text_or "transferBackend" pd "mooncake";
            "--disaggregation-bootstrap-port="
              +:+ text_or "bootstrapPort" spec (if String.eqb name "prefill" then "8998" else "8999");
            "--disaggregation-ib-device=${MOONCAKE_IB_DEVICE}"]
      else [])
  ++ offload_flags r name
  ++ own_args r name.

Definition _vllm (r : Recipe) (name : string) (port : Z) : list string :=
  let values := rc_values r in
  let model := section "model" values in
  ["vllm"; "serve"; "--model=" +:+ text_or "mountPath" model DEFAULT_MOUNT;
   "--served-model-name=" +:+ text_at "name" model; "--host=0.0.0.0"; "--port=" +:+ pretty port]
  ++ (match dict_get "promptTokensDetails" values with
      | Some d => if doc_truthy d then ["--enable-prompt-tokens-details"] else []
      | None => ["--enable-prompt-tokens-details"]
      end)
  ++ map (fun c => "--max-model-len=" +:+ c)
       (context_of (if dict_has "maxLen" model then dict_get "maxLen" model else dict_get "contextLength" model))
  ++ (if spans_pods r name
      then ["--distributed-executor-backend=mp"; "--nnodes=" +:+ pretty (group_size r name);
            "--node-rank=${LWS_WORKER_INDEX}"; "--master-addr=${LWS_LEADER_ADDRESS}";
            "--master-port=" +:+ dist_port r name]
      else [])
  ++ (if listed name ROLES then ["--kv-transfer-config=<the chart's, for this role>"] else [])
  ++ own_args r name.

Definition chart_commands (r : Recipe) : list (string * list string) :=
  if given "commandOverride" (rc_values r) then []
  else
    let port := _int (dict_get "port" (section "service" (rc_values r))) (default_port (rc_chart_name r)) in
    let build := if String.eqb (rc_chart_name r) "vllm" then _vllm else _sglang in
    match topology r with
    | Pd => map (fun name => (name, build r name (_int (dict_get "httpPort" (role name r))
                                                    (if String.eqb name "prefill" then 30001 else 30002)))) ROLES
    | _ => [("engine", build r "engine" port)]
    end.

(** ** Cards are what the flags use *)
Lemma omap_nil {A B} (f : A -> option B) l x : omap f l = [] -> x ∈ l -> f x = None.
Proof.
  intros Hl Hx. destruct (f x) as [y|] eqn:Hy; [|done].
  assert (y ∈ omap f l) as Hin by (apply list_elem_of_omap; eauto). rewrite Hl in Hin. by apply elem_of_nil in Hin.
Qed.

Definition cards_agree (need have : Z) : bool := (have =? 0) || (need =? have).

Lemma role_agrees r name : topology r = Pd -> colocated r = false -> parallelism_problems r = [] -> name ∈ ROLES ->
  role_gpus r name <> 0 -> role_gpus r name * role_size r name = cards_used (flat (recipe_flags r name)).
Proof.
  intros Ht Hc Hp Hin Hg. unfold parallelism_problems in Hp. rewrite Ht, Hc in Hp.
  pose proof (omap_nil _ _ _ Hp Hin) as Hn. cbn beta zeta in Hn.
  assert (role_gpus r name * role_size r name <> 0) as Hne.
  { assert (1 <= role_size r name) by apply Z.le_max_l. nia. }
  rewrite (proj2 (Z.eqb_neq _ 0) Hne) in Hn. cbn [negb andb] in Hn.
  destruct (Z.eqb_spec (cards_used (flat (recipe_flags r name))) (role_gpus r name * role_size r name)); done.
Qed.

(** A recipe without parallelism problems claims exactly the cards its flags
    use: the pods of one engine together, once for every copy of it. *)
Theorem claims_what_it_uses (r : Recipe) :
  parallelism_problems r = [] ->
  match topology r with
  | Pd => colocated r = false -> (forall name, name ∈ ROLES -> role_gpus r name <> 0) ->
      total_gpus (shape r) = role_replicas r "prefill" * cards_used (flat (recipe_flags r "prefill"))
                             + role_replicas r "decode" * cards_used (flat (recipe_flags r "decode"))
  | _ => pod_gpus r <> 0 -> total_gpus (shape r) = cards_used (flat (top_flags r))
  end.
Proof.
  intros Hp. destruct (topology r) eqn:Ht.
  - intros Hg. unfold parallelism_problems in Hp. rewrite Ht, Z.mul_1_r in Hp.
    unfold shape. rewrite Ht. cbn. rewrite (proj2 (Z.eqb_neq _ 0) Hg) in Hp. cbn [negb andb] in Hp.
    destruct (Z.eqb_spec (cards_used (flat (top_flags r))) (pod_gpus r)); [lia|done].
  - intros Hg. unfold parallelism_problems in Hp. rewrite Ht in Hp. cbv zeta in Hp.
    assert (1 <= lws_size r) as Hs by apply Z.le_max_l.
    assert (pod_gpus r * lws_size r <> 0) as Hne by nia.
    rewrite (proj2 (Z.eqb_neq _ 0) Hne) in Hp. cbn [negb andb] in Hp.
    unfold shape. rewrite Ht. cbn. destruct (Z.eqb_spec (cards_used (flat (top_flags r))) (pod_gpus r * lws_size r)); [lia|done].
  - intros Hc Hg.
    assert ("prefill" ∈ ROLES /\ "decode" ∈ ROLES) as [Hpre Hdec] by (split; apply list_elem_of_In; cbn; tauto).
    rewrite <- (role_agrees r "prefill"), <- (role_agrees r "decode") by auto.
    unfold shape. rewrite Ht, Hc. unfold total_gpus. cbn [sh_groups ROLES map app foldr pg_gpus pg_count]. lia.
Qed.

(** ** A variant is the recipe it was written from *)

(** The sections a recipe needs to be published, as the catalog reads them. *)
Record publishable (r : Recipe) (model : tree) (served : string) (cards : Z) (repository tag : string) : Prop := {
  pub_engine : rc_engine r <> "";
  pub_chart : rc_chart_name r <> "";
  pub_model : dict_get "model" (rc_values r) = Some (Mp model);
  pub_served : dict_get "name" model = Some (text served) /\ served <> "";
  pub_cards : dict_get "gpus" model = Some (text (pretty cards));
  pub_image : dict_get "image" (rc_values r) = Some (Mp [("repository", text repository); ("tag", text tag)]);
  pub_repository : repository <> "";
  pub_nodes : topology r = Lws ->
    is_Some (to_int (or_else (dict_get "size" (section "lws" (rc_values r))) (Sc (VInt 1))));
}.

Lemma text_truthy s : s <> "" -> doc_truthy (text s) = true.
Proof. intros Hs. cbn. apply String.eqb_neq in Hs. by rewrite Hs. Qed.

Lemma text_of_text key m s : dict_get key m = Some (text s) -> text_at key m = s.
Proof.
  intros Hm. unfold text_at. rewrite Hm. destruct (String.eqb_spec s "") as [->|Hs]; [done|].
  by rewrite text_truthy.
Qed.

Lemma or_else_text s other : s <> "" -> or_else (Some (text s)) other = text s.
Proof. intros Hs. unfold or_else. by rewrite text_truthy. Qed.

Lemma pretty_nonempty (z : Z) : pretty z <> "".
Proof. by destruct (value_token_parts _ (value_token_int z)) as (_ & _ & ? & _). Qed.

(** The fields of the variant [from_variant] reads. *)
Lemma variant_fields r model served cards repository tag : publishable r model served cards repository tag ->
  exists variant values, to_variant r = Some variant /\
    dict_get "engine" variant = Some (text (rc_engine r)) /\
    dict_get "chart" variant = Some (Mp [("name", text (rc_chart_name r)); ("version", text (rc_chart_version r))]) /\
    dict_get "servedName" variant = Some (text served) /\
    section "image" variant = [("repository", text repository); ("tag", text tag)]
      ++ (if String.eqb (rc_image_digest r) "" then [] else [("digest", text (rc_image_digest r))]) /\
    dict_get "gpus" (section "requires" variant) = Some (Sc (VInt cards)) /\
    section "values" variant = values /\
    (forall k, k <> "image" -> k <> "model" -> dict_get k values = dict_get k (rc_values r)) /\
    (forall k, k <> "name" -> k <> "gpus" -> dict_get k (section "model" values) = dict_get k model).
Proof.
  intros [He Hc Hm [Hs Hs'] Hg Hi Hrep Hn].
  set (values := match dict_pop "gpus" (dict_pop "name" model) with
                 | [] => dict_pop "model" (dict_pop "image" (rc_values r))
                 | m => dict_set "model" (Mp m) (dict_pop "image" (rc_values r))
                 end).
  assert (forall k, k <> "image" -> k <> "model" -> dict_get k values = dict_get k (rc_values r)) as Hrest.
  { intros k Hk Hk'. apply String.eqb_neq in Hk, Hk'. subst values.
    destruct (dict_pop "gpus" _); rewrite ?dict_get_pop, ?dict_get_set, ?dict_get_pop; by rewrite Hk', Hk. }
  assert (forall k, k <> "name" -> k <> "gpus" -> dict_get k (section "model" values) = dict_get k model) as Hmodel.
  { intros k Hk Hk'. apply String.eqb_neq in Hk, Hk'.
    assert (dict_get k (dict_pop "gpus" (dict_pop "name" model)) = dict_get k model) as Hget
      by (by rewrite !dict_get_pop, Hk, Hk').
    subst values. unfold section. destruct (dict_pop "gpus" _); [rewrite dict_get_pop|rewrite dict_get_set];
      rewrite String.eqb_refl; exact Hget. }
  assert (exists nodes, (if bool_decide (topology r = Lws)
            then to_int (or_else (dict_get "size" (section "lws" (rc_values r))) (Sc (VInt 1))) else Some 1) = Some nodes) as [nodes Hnodes].
  { case_bool_decide as Ht; [exact (Hn Ht)|by eexists]. }
  assert (section "image" (rc_values r) = [("repository", text repository); ("tag", text tag)]) as Himg
    by (unfold section; by rewrite Hi).
  assert (section "model" (dict_pop "image" (rc_values r)) = model) as Hmod
    by (unfold section; rewrite dict_get_pop; cbn; by rewrite Hm).
  assert (dict_has "model" (dict_pop "image" (rc_values r)) = true) as Hhas.
  { rewrite dict_has_get, dict_get_pop. cbn. rewrite Hm. by apply bool_decide_eq_true_2. }
  assert (text_at "tag" [("repository", text repository); ("tag", text tag)] = tag) as Htag by (by apply text_of_text).
  assert (says "repository" [("repository", text repository); ("tag", text tag)] = true) as Hsays
    by exact (text_truthy _ Hrep).
  eexists _, values. split.
  { unfold to_variant. rewrite Himg, Hmod, Hhas, Hs, Hg, text_truthy, Hsays, Htag by done. fold values.
    rewrite (bool_decide_eq_false_2 (text (pretty cards) = text "")) by (intros Heq; apply (pretty_nonempty cards);
      exact (f_equal (fun d => match d with Sc (VStr s) => s | _ => "" end) Heq)).
    cbn [doc_str str_of text]. rewrite parse_int_pretty. cbn [mbind option_bind]. rewrite Hnodes. reflexivity. }
  assert (or_else (dict_get "repository" [("repository", text repository); ("tag", text tag)]) (text "") = text repository) as ->
    by exact (or_else_text _ _ Hrep).
  unfold section. rewrite !dict_get_set. cbn [String.eqb Ascii.eqb Bool.eqb sub_tree].
  split; [reflexivity|]. split; [reflexivity|]. split; [reflexivity|].
  split; [by destruct (String.eqb (rc_image_digest r) "")|].
  split; [destruct (says "enabled" _), (1 <? nodes); reflexivity|].
  split; [by subst values; destruct (dict_pop "gpus" _)|]. split; [exact Hrest|exact Hmodel].
Qed.

(** Publishing a recipe as a catalog variant and reading the variant back
    gives the recipe: engine, chart, digest, every value, and the projected
    fields, cards and served name among them. *)
Theorem variant_round_trip r model served cards repository tag : publishable r model served cards repository tag ->
  exists variant, to_variant r = Some variant /\
    let back := from_variant variant "" in
    rc_engine back = rc_engine r /\ rc_chart_name back = rc_chart_name r /\
    rc_chart_version back = rc_chart_version r /\ rc_image_digest back = rc_image_digest r /\
    (forall k, k <> "model" -> dict_get k (rc_values back) = dict_get k (rc_values r)) /\
    (forall k, dict_get k (section "model" (rc_values back)) = dict_get k model).
Proof.
  intros Hpub. destruct (variant_fields _ _ _ _ _ _ Hpub)
    as (variant & values & Hv & He & Hc & Hs & Hi & Hg & Hvals & Hrest & Hmodel).
  destruct Hpub as [He' Hc' Hm [Hname Hserved] Hgpus Himg Hrep _].
  exists variant. split; [done|]. cbn zeta.
  assert (section "chart" variant = [("name", text (rc_chart_name r)); ("version", text (rc_chart_version r))]) as Hchart
    by (unfold section; by rewrite Hc).
  set (img := [("repository", text repository); ("tag", text tag)]
              ++ (if String.eqb (rc_image_digest r) "" then [] else [("digest", text (rc_image_digest r))])) in Hi.
  assert (says "repository" img = true /\ or_else (dict_get "repository" img) (text "") = text repository /\
          text_at "tag" img = tag /\ text_at "digest" img = rc_image_digest r) as (Hi1 & Hi2 & Hi3 & Hi4).
  { split; [exact (text_truthy _ Hrep)|]. split; [exact (or_else_text _ _ Hrep)|].
    split; [by apply text_of_text|]. subst img.
    destruct (String.eqb_spec (rc_image_digest r) "") as [->|]; [done|by apply text_of_text]. }
  assert (text_at "version" [("name", text (rc_chart_name r)); ("version", text (rc_chart_version r))] = rc_chart_version r)
    as Hver by (by apply text_of_text).
  assert (or_else (dict_get "name" [("name", text (rc_chart_name r)); ("version", text (rc_chart_version r))]) (text "sglang")
          = text (rc_chart_name r)) as Hcn by exact (or_else_text _ _ Hc').
  unfold from_variant. rewrite He, Hs, Hi, Hg, Hvals, Hchart, Hi1, Hi2, Hi3, Hi4, Hver, Hcn.
  rewrite !or_else_text, text_truthy by done. cbn [rc_engine rc_chart_name rc_chart_version rc_values rc_image_digest].
  split; [done|]. split; [done|]. split; [done|]. split; [done|].
  split.
  - intros k Hk. rewrite !dict_get_set. rewrite (proj2 (String.eqb_neq k "model") Hk).
    destruct (String.eqb_spec k "image") as [->|Hki]; [by rewrite Himg|by apply Hrest].
  - intros k. unfold section at 1. rewrite dict_get_set, String.eqb_refl. cbn [sub_tree]. rewrite !dict_get_set.
    destruct (String.eqb_spec k "gpus") as [->|Hkg]; [by rewrite Hgpus|].
    destruct (String.eqb_spec k "name") as [->|Hkn]; [by rewrite Hname|].
    unfold section. rewrite dict_get_set. cbn. by apply Hmodel.
Qed.

(** ** The theorems at work *)
Definition sample_values : tree :=
  [("image", Mp [("repository", text "lmsysorg/sglang"); ("tag", text "v0.5.15")]);
   ("model", Mp [("name", text "glm-5"); ("gpus", text "4"); ("mountPath", text "/model")]);
   ("extraArgs", Ls (strings ["--tp-size=4"; "--enable-metrics"]));
   ("env", Ls [Mp [("name", text "SGLANG_X"); ("value", text "1")]])].
Definition sample_recipe : Recipe := mkRecipe "sglang" "sglang" ">=0.8.0" sample_values "sha256:1f".

Definition sample_pd : Recipe :=
  let pod gpus replicas tp := Mp [("gpus", Sc (VInt gpus)); ("replicas", Sc (VInt replicas));
                                  ("extraArgs", Ls (strings ["--tp-size=" +:+ pretty tp]))] in
  sample_recipe <| rc_values ::= dict_set "pd" (Mp [("enabled", Sc (VBool true)); ("prefill", pod 4 1 4); ("decode", pod 8 2 8)]) |>.

Lemma claims_what_it_uses_witness :
  total_gpus (shape sample_recipe) = 4 /\ total_gpus (shape sample_pd) = 4 + 2 * 8.
Proof.
  split.
  - refine (eq_trans (claims_what_it_uses sample_recipe _ _) _); vm_compute; [reflexivity|discriminate|reflexivity].
  - refine (eq_trans (claims_what_it_uses sample_pd _ _ _) _);
      [vm_compute; reflexivity|vm_compute; reflexivity| |vm_compute; reflexivity].
    intros name Hn. apply list_elem_of_In in Hn. destruct Hn as [<-|[<-|[]]]; vm_compute; discriminate.
Defined.

Lemma variant_round_trip_witness :
  exists variant, to_variant sample_recipe = Some variant /\
    dict_get "extraArgs" (rc_values (from_variant variant "")) = Some (Ls (strings ["--tp-size=4"; "--enable-metrics"])) /\
    dict_get "gpus" (section "model" (rc_values (from_variant variant ""))) = Some (text "4").
Proof.
  destruct (variant_round_trip sample_recipe
              [("name", text "glm-5"); ("gpus", text "4"); ("mountPath", text "/model")] "glm-5" 4 "lmsysorg/sglang" "v0.5.15")
    as (variant & Hv & _ & _ & _ & _ & Hrest & Hmodel).
  - split; try (vm_compute; (reflexivity || discriminate)). split; [vm_compute; reflexivity|discriminate].
  - exists variant. split; [exact Hv|]. split; [rewrite Hrest by discriminate|rewrite Hmodel]; vm_compute; reflexivity.
Defined.
