(* ===== verification/Composition.v ===== *)
(** A recipe, a site and a run composed into one LLMService
    ([app/control/recipe/compose.py]): the operator's merge of layers, the
    layers of a tuning run, and the object it launches. *)
From Stdlib Require Import Ascii.
From S2P Require Import Prelude Float Values Texts Documents Space Validation Flags Commands ExtraArgs Addresses Recipes.
#[local] Open Scope string_scope.
#[local] Open Scope list_scope.
#[local] Open Scope Z_scope.

Definition API_VERSION : string := "serving.modelsphere.dev/v1alpha1".
Definition KIND : string := "LLMService".
Definition RUN_LABEL : string := "autotune.modelsphere.dev/run".
Definition MANAGED_LABEL : string := "autotune.modelsphere.dev/managed".
Definition RECIPE_ANNOTATION : string := "autotune.modelsphere.dev/recipe-hash".
Definition _FEATURES_OFF : list string :=
  ["modelRoute"; "cart"; "scaler"; "sloRequirement"; "serviceMonitor"; "podDisruptionBudget"].
Definition RUN_GRACE_SECONDS : Z := 60.
Definition RUN_DRAIN_SECONDS : Z := 5.

(** ** The merge *)

(** Maps merge, anything else replaces, null deletes. *)
Fixpoint merge_doc (value : doc) (old : option doc) {struct value} : option doc :=
  match value with
  | Sc VNone => None
  | Mp layer =>
      match old with
      | Some (Mp base) =>
          Some (Mp ((fix go (out : tree) (layer : tree) : tree :=
                       match layer with
                       | [] => out
                       | (k, v) :: rest =>
                           go (match merge_doc v (dict_get k out) with
                               | Some w => dict_set k w out
                               | None => dict_pop k out
                               end) rest
                       end) base layer))
      | _ => Some value
      end
  | _ => Some value
  end.

Definition merge_item (out : tree) (kv : string * doc) : tree :=
  match merge_doc kv.2 (dict_get kv.1 out) with
  | Some w => dict_set kv.1 w out
  | None => dict_pop kv.1 out
  end.

Definition merge (base layer : tree) : tree := foldl merge_item base layer.

Definition effective_values (layers : list (string * tree)) : tree :=
  foldl (fun out layer => merge out layer.2) [] layers.

(** ** The layers of a run *)
Record Site := mkSite {
  st_namespace : string;
  st_chart_repo : string;
  st_chart_credentials_secret : string;
  st_model_local_path : string;
  st_model_host_path_type : string;
  st_image_mirror : string;
  st_node_selector : list (string * string);
  st_tolerations : list doc;
  st_scheduler_name : string;
  st_priority_class : string;
  st_extra_values : tree;
  st_endpoint : string;
}.

Record RunPlan := mkRunPlan {
  rp_run_id : Z;
  rp_release : string;
  rp_allowed_nodes : list string;
  rp_startup_minutes : Z;
  rp_labels : list (string * string);
  rp_annotations : list (string * string);
}.

(** The mirror and the image's last path component. *)
Definition mirror_image (repository mirror : string) : string :=
  if String.eqb mirror "" || starts_with (rstrip "/"%char mirror +:+ "/") repository then repository
  else rstrip "/"%char mirror +:+ "/" +:+ last_part "/"%char repository.

Definition filled (s : string) (key : string) : tree := if String.eqb s "" then [] else [(key, text s)].

Definition site_layer (r : Recipe) (site : Site) : tree :=
  let repository := text_at "repository" (section "image" (rc_values r)) in
  let mirrored := mirror_image repository (st_image_mirror site) in
  let out :=
    (if String.eqb (st_model_local_path site) "" then []
     else [("model", Mp (("localPath", text (st_model_local_path site)) :: filled (st_model_host_path_type site) "hostPathType"))])
    ++ (if negb (String.eqb repository "") && negb (String.eqb mirrored repository)
        then [("image", Mp [("repository", text mirrored)])] else [])
    ++ (match st_node_selector site with [] => [] | m => [("nodeSelector", Mp (texts m))] end)
    ++ (match st_tolerations site with [] => [] | l => [("tolerations", Ls l)] end)
    ++ filled (st_scheduler_name site) "schedulerName"
    ++ filled (st_priority_class site) "priorityClassName" in
  merge out (st_extra_values site).

(** The nodes the pods may land on. *)
Definition node_affinity (nodes : list string) : doc :=
  Mp [("nodeAffinity", Mp [("requiredDuringSchedulingIgnoredDuringExecution",
    Mp [("nodeSelectorTerms", Ls [Mp [("matchExpressions",
      Ls [Mp [("key", text "kubernetes.io/hostname"); ("operator", text "In"); ("values", Ls (strings nodes))]])]])])])].

(** The startup probe that gives a run its minutes; [int(probe.get("periodSeconds")
    or 30)], [None] when it does not read. *)
Definition startup_probe (r : Recipe) (minutes : Z) : option doc :=
  period ← to_int (or_else (dict_get "periodSeconds" (section "startupProbe" (rc_values r))) (Sc (VInt 30)));
  if period =? 0 then None
  else Some (Mp [("periodSeconds", Sc (VInt period));
                 ("failureThreshold", Sc (VInt (Z.max 1 (- (- minutes * 60 / period)))))]).

Definition lws_settings (r : Recipe) : tree :=
  match topology r with
  | SingleNode => []
  | Lws => [("lws", Mp [("replicas", Sc (VInt 1)); ("workerTerminationGracePeriodSeconds", Sc (VInt 30));
                        ("restartPolicy", text "Default")])]
  | Pd => [("lws", Mp [("restartPolicy", text "Default")])]
  end.

Definition run_labels (run : RunPlan) : tree :=
  texts (dict_update [(RUN_LABEL, pretty (rp_run_id run)); (MANAGED_LABEL, "true")] (rp_labels run)).

(** [None] is the [ValueError] of a probe period that is no number, or zero. *)
Definition run_layer (r : Recipe) (site : Site) (run : RunPlan) : option tree :=
  probe ← (if rp_startup_minutes run =? 0 then Some []
           else (fun p => [("startupProbe", p)]) <$> startup_probe r (rp_startup_minutes run));
  Some ([("fullnameOverride", text (rp_release run));
         ("replicaCount", Sc (VInt 1));
         ("podLabels", Mp (run_labels run));
         ("service", Mp [("type", text (if String.eqb (st_endpoint site) "nodeport" then "NodePort" else "ClusterIP"))]);
         ("terminationGracePeriodSeconds", Sc (VInt RUN_GRACE_SECONDS));
         ("lifecycle", Mp [("preStop", Mp [("drainSeconds", Sc (VInt RUN_DRAIN_SECONDS));
                                           ("endpointSyncSeconds", Sc (VInt 0))])])]
        ++ map (fun feature => (feature, Mp [("enabled", Sc (VBool false))])) _FEATURES_OFF
        ++ lws_settings r
        ++ (match rp_allowed_nodes run with [] => [] | nodes => [("affinity", node_affinity nodes)] end)
        ++ probe).

Definition layers (r : Recipe) (site : Site) (run : RunPlan) : option (list (string * tree)) :=
  run_values ← run_layer r site run;
  Some [("catalog", rc_values r); ("site", site_layer r site); ("autotune", run_values)].

(** The object one run launches; the recipe's hash is the caller's. *)
Definition llmservice (r : Recipe) (site : Site) (run : RunPlan) (chart_version hash : string) : option tree :=
  all ← layers r site run;
  let chart := [("name", text (rc_chart_name r)); ("repo", text (st_chart_repo site));
                ("version", text (if String.eqb chart_version "" then rc_chart_version r else chart_version))]
               ++ (if String.eqb (st_chart_credentials_secret site) "" then []
                   else [("credentialsRef", Mp [("name", text (st_chart_credentials_secret site))])]) in
  let layer_docs := omap (fun '(name, values) =>
                      match values with [] => None | _ => Some (Mp [("name", text name); ("values", Mp values)]) end) all in
  Some [("apiVersion", text API_VERSION); ("kind", text KIND);
        ("metadata", Mp [("name", text (rp_release run)); ("namespace", text (st_namespace site));
                         ("labels", Mp (run_labels run));
                         ("annotations", Mp (texts (dict_update [(RECIPE_ANNOTATION, hash)] (rp_annotations run))))]);
        ("spec", Mp [("chart", Mp chart); ("layers", Ls layer_docs);
                     ("model", Mp (filled (served_name r) "name" ++ filled (rc_engine r) "engine"))])].

Definition service_name (r : Recipe) (release : string) : string :=
  rstrip "-"%char (clip 63 (match topology r with Lws => release +:+ "-leader" | _ => release end)).

Definition service_port (r : Recipe) : option Z :=
  match dict_get "port" (section "service" (rc_values r)) with
  | Some p => if doc_truthy p then to_int p else Some (default_port (rc_chart_name r))
  | None => Some (default_port (rc_chart_name r))
  end.

(** ** What a merge gives *)

(** Keys occur once, at every depth: what a document read from YAML is. *)
Fixpoint distinct (d : doc) : bool :=
  match d with
  | Sc _ => true
  | Ls l => forallb distinct l
  | Mp m => bool_decide (NoDup m.*1) && forallb (fun kd => distinct kd.2) m
  end.

(** A value that replaces what it lands on: no dict and no null. *)
Definition plain (d : doc) : bool := match d with Mp _ | Sc VNone => false | _ => true end.

(** The layer says nothing at a path or below it. *)
Fixpoint silent (layer : tree) (path : list string) : bool :=
  match path with
  | [] => false
  | k :: rest =>
      match dict_get k layer with
      | None => true
      | Some (Mp n) => silent n rest
      | Some _ => false
      end
  end.

Lemma distinct_Mp m : distinct (Mp m) = true <-> NoDup m.*1 /\ forall k v, dict_get k m = Some v -> distinct v = true.
Proof.
  cbn. rewrite andb_true_iff, bool_decide_eq_true, forallb_forall. split; intros [Hnd Hm]; (split; [done|]).
  - intros k v Hk%dict_get_Some_in%list_elem_of_In. exact (Hm _ Hk).
  - intros [k v] Hk. apply list_elem_of_In, (dict_get_in _ _ _ Hnd) in Hk. exact (Hm _ _ Hk).
Qed.

Lemma merge_doc_maps layer base : merge_doc (Mp layer) (Some (Mp base)) = Some (Mp (merge base layer)).
Proof.
  cbn. do 2 f_equal. unfold merge. revert base. induction layer as [|[k v] layer IH]; intros base; [done|].
  cbn [foldl]. by rewrite <- IH.
Qed.

Lemma merge_doc_plain v old : plain v = true -> merge_doc v old = Some v.
Proof. destruct v as [[]| |]; done. Qed.

Lemma merge_item_get k base kv :
  dict_get k (merge_item base kv) = if String.eqb k kv.1 then merge_doc kv.2 (dict_get k base) else dict_get k base.
Proof.
  unfold merge_item. destruct (String.eqb_spec k kv.1) as [->|Hk].
  - destruct (merge_doc _ _); [rewrite dict_get_set|rewrite dict_get_pop]; by rewrite String.eqb_refl.
  - apply String.eqb_neq in Hk. destruct (merge_doc _ _); [rewrite dict_get_set|rewrite dict_get_pop]; by rewrite Hk.
Qed.

(** Key by key: what the layer does not name stays, what it names is merged. *)
Lemma merge_get k base layer : NoDup layer.*1 ->
  dict_get k (merge base layer) =
  match dict_get k layer with Some v => merge_doc v (dict_get k base) | None => dict_get k base end.
Proof.
  unfold merge. revert base. induction layer as [|[k' v] layer IH]; intros base; [done|]. cbn [fmap list_fmap].
  intros [Hk' Hnd]%NoDup_cons. cbn [foldl]. rewrite IH, merge_item_get, dict_get_cons by done. cbn.
  destruct (String.eqb_spec k k') as [->|Hk]; [|done]. by rewrite (dict_get_notin k' layer Hk').
Qed.

Lemma merge_NoDup base layer : NoDup base.*1 -> NoDup (merge base layer).*1.
Proof.
  unfold merge. revert base. induction layer as [|kv layer IH]; intros base Hb; [done|]. cbn [foldl]. apply IH.
  unfold merge_item. destruct (merge_doc _ _); [by apply dict_set_NoDup|by apply dict_pop_NoDup].
Qed.

Lemma tree_get_cons m k rest : tree_get m (k :: rest) =
  match rest with [] => dict_get k m | _ => match dict_get k m with Some (Mp n) => tree_get n rest | _ => None end end.
Proof. by destruct rest. Qed.

Lemma silent_get layer path : silent layer path = true -> tree_get layer path = None.
Proof.
  revert layer. induction path as [|k rest IH]; [done|]. intros layer. rewrite tree_get_cons. cbn [silent].
  destruct (dict_get k layer) as [[v|l|n]|]; try done; [|by destruct rest]. intros Hn. destruct rest; [done|by apply IH].
Qed.

(** The layer decides wherever it holds a plain value. *)
Lemma layer_wins path base layer leaf :
  distinct (Mp layer) = true -> tree_get layer path = Some leaf -> plain leaf = true ->
  tree_get (merge base layer) path = Some leaf.
Proof.
  revert base layer. induction path as [|k rest IH]; intros base layer [Hnd Hd]%distinct_Mp Hleaf Hplain.
  { cbn in Hleaf. apply (inj Some) in Hleaf. by subst leaf. }
  rewrite tree_get_cons in *. rewrite merge_get by done. destruct rest as [|k' rest].
  - rewrite Hleaf. by apply merge_doc_plain.
  - destruct (dict_get k layer) as [[v|l|n]|] eqn:Hk; try done.
    destruct (dict_get k base) as [[v|l|m]|]; try exact Hleaf.
    rewrite merge_doc_maps. apply IH; [by eapply Hd|done|done].
Qed.

(** Where the layer is silent, what was there stays. *)
Lemma base_is_kept path base layer :
  distinct (Mp layer) = true -> silent layer path = true -> tree_get (merge base layer) path = tree_get base path.
Proof.
  revert base layer. induction path as [|k rest IH]; [done|]. intros base layer [Hnd Hd]%distinct_Mp Hs.
  rewrite !tree_get_cons, merge_get by done. cbn [silent] in Hs.
  destruct (dict_get k layer) as [[v|l|n]|] eqn:Hk; try done. destruct rest as [|k' rest]; [done|].
  apply silent_get in Hs as Hnone.
  destruct (dict_get k base) as [[v|l|m]|]; try exact Hnone.
  rewrite merge_doc_maps. apply IH; [by eapply Hd|done].
Qed.

Lemma silent_merge path base layer :
  distinct (Mp layer) = true -> silent base path = true -> silent layer path = true ->
  silent (merge base layer) path = true.
Proof.
  revert base layer. induction path as [|k rest IH]; [done|]. intros base layer [Hnd Hd]%distinct_Mp Hb Hl.
  cbn [silent] in *. rewrite merge_get by done. destruct (dict_get k layer) as [[v|l|n]|] eqn:Hk; try done.
  destruct (dict_get k base) as [[v|l|m]|]; try done.
  rewrite merge_doc_maps. apply IH; [by eapply Hd|done|done].
Qed.

(** ** What the chart is given *)

(** The recipe with the values the chart sees. *)
Definition launched (r : Recipe) (all : list (string * tree)) : Recipe :=
  mkRecipe (rc_engine r) (rc_chart_name r) (rc_chart_version r) (effective_values all) (rc_image_digest r).

Lemma effective_three r site run all : layers r site run = Some all ->
  exists values, run_layer r site run = Some values /\ effective_values all = merge (merge (merge [] (rc_values r)) (site_layer r site)) values.
Proof. unfold layers. intros (values & Hv & [= <-])%bind_Some. by exists values. Qed.

Lemma texts_keys m : (texts m).*1 = m.*1.
Proof. unfold texts. rewrite <- list_fmap_compose. by apply list_fmap_ext; intros ? []. Qed.

Lemma distinct_texts m : NoDup m.*1 -> distinct (Mp (texts m)) = true.
Proof.
  intros Hnd. apply distinct_Mp. split.
  - by rewrite texts_keys.
  - intros k v Hk%dict_get_Some_in. unfold texts in Hk.
    apply list_elem_of_fmap in Hk as ([k' s] & [= -> ->] & _). done.
Qed.

Lemma distinct_strings l : distinct (Ls (strings l)) = true.
Proof. cbn. unfold strings. by induction l. Qed.

Lemma distinct_run_labels run : distinct (Mp (run_labels run)) = true.
Proof. apply distinct_texts, dict_update_NoDup. refine (bool_decide_unpack (NoDup _) _). by vm_compute. Qed.

(** The keys of a run's layer, whatever the run. *)
Lemma distinct_run_layer r site run values : run_layer r site run = Some values -> distinct (Mp values) = true.
Proof.
  unfold run_layer. intros (probe & Hprobe & [= <-])%bind_Some.
  assert (probe = [] \/ exists p, probe = [("startupProbe", p)] /\ distinct p = true) as Hp.
  { destruct (_ =? 0); [left; congruence|right].
    apply fmap_Some in Hprobe as (p & Hp & ->). exists p. split; [done|].
    unfold startup_probe in Hp. apply bind_Some in Hp as (period & _ & Hp).
    destruct (period =? 0); [done|]. by apply (inj Some) in Hp as <-. }
  assert (Hlabels := distinct_run_labels run). assert (Hnodes := distinct_strings (rp_allowed_nodes run)).
  unfold lws_settings. destruct (topology r), (rp_allowed_nodes run) as [|n nodes], Hp as [->|(p & -> & Hp)];
    cbn -[bool_decide run_labels strings distinct] in *; cbn [distinct forallb snd andb] in *;
    rewrite ?Hlabels, ?Hnodes, ?Hp, ?andb_true_r; repeat (apply andb_true_iff; split); try done; by vm_compute.
Qed.

(** What the run's layer holds as a plain value is what the chart sees. *)
Lemma run_says r site run all path leaf :
  layers r site run = Some all ->
  (forall values, run_layer r site run = Some values -> tree_get values path = Some leaf) -> plain leaf = true ->
  tree_get (effective_values all) path = Some leaf.
Proof.
  intros (values & Hv & ->)%effective_three Hleaf Hplain.
  apply layer_wins; [by eapply distinct_run_layer|by apply Hleaf|done].
Qed.

Lemma texts_get k m : dict_get k (texts m) = text <$> dict_get k m.
Proof. induction m as [|[k' s] m IH]; [done|]. cbn [texts map]. rewrite !dict_get_cons. by destruct (String.eqb k k'). Qed.

(** C18: Whatever a recipe and a site ask for, a tuning run's service carries the
    run's own name and label, has one replica, is torn down in the run's seconds,
    has every feature that would attach it to something shared switched off, and
    is confined to the nodes of its campaign. *)
Theorem run_is_isolated r site run all :
  layers r site run = Some all ->
  let sees path leaf := tree_get (effective_values all) path = Some leaf in
  sees ["fullnameOverride"] (text (rp_release run)) /\
  sees ["replicaCount"] (Sc (VInt 1)) /\
  (dict_get RUN_LABEL (rp_labels run) = None -> NoDup (rp_labels run).*1 ->
   sees ["podLabels"; RUN_LABEL] (text (pretty (rp_run_id run)))) /\
  sees ["terminationGracePeriodSeconds"] (Sc (VInt RUN_GRACE_SECONDS)) /\
  sees ["lifecycle"; "preStop"; "drainSeconds"] (Sc (VInt RUN_DRAIN_SECONDS)) /\
  sees ["service"; "type"] (text (if String.eqb (st_endpoint site) "nodeport" then "NodePort" else "ClusterIP")) /\
  (forall feature, feature ∈ _FEATURES_OFF -> sees [feature; "enabled"] (Sc (VBool false))) /\
  (topology r = Lws -> sees ["lws"; "replicas"] (Sc (VInt 1))) /\
  (rp_allowed_nodes run <> [] ->
   sees ["affinity"; "nodeAffinity"; "requiredDuringSchedulingIgnoredDuringExecution"; "nodeSelectorTerms"]
     (Ls [Mp [("matchExpressions", Ls [Mp [("key", text "kubernetes.io/hostname"); ("operator", text "In");
                                           ("values", Ls (strings (rp_allowed_nodes run)))]])]])).
Proof.
  intros Hall sees. assert (Hrun := run_says r site run all).
  repeat split; try (intros; eapply Hrun; [done| |done]; unfold run_layer; intros values (probe & _ & [= <-])%bind_Some).
  all: try reflexivity.
  - change (dict_get RUN_LABEL (run_labels run) = Some (text (pretty (rp_run_id run)))).
    unfold run_labels. rewrite texts_get, dict_get_update by done. by rewrite H.
  - rename H into Hf. unfold _FEATURES_OFF in Hf. rewrite !elem_of_cons, elem_of_nil in Hf.
    by destruct Hf as [->|[->|[->|[->|[->|[->|[]]]]]]].
  - unfold lws_settings. by rewrite H.
  - unfold lws_settings. by destruct (rp_allowed_nodes run), (topology r).
Qed.

(** What neither the site nor the run names. *)
Definition free_of_launch (r : Recipe) (site : Site) (path : list string) : bool :=
  silent (site_layer r site) path &&
  negb (bool_decide (head path ∈ Some <$>
    ["fullnameOverride"; "replicaCount"; "podLabels"; "service"; "terminationGracePeriodSeconds"; "lifecycle";
     "lws"; "affinity"; "startupProbe"] ++ _FEATURES_OFF)).

Lemma run_layer_keys r site run values k : run_layer r site run = Some values -> is_Some (dict_get k values) ->
  k ∈ ["fullnameOverride"; "replicaCount"; "podLabels"; "service"; "terminationGracePeriodSeconds"; "lifecycle";
       "lws"; "affinity"; "startupProbe"] ++ _FEATURES_OFF.
Proof.
  unfold run_layer. intros (probe & Hprobe & [= <-])%bind_Some [v Hv%dict_get_Some_in].
  assert (probe.*1 ⊆ ["startupProbe"]) as Hp.
  { destruct (_ =? 0); [|apply fmap_Some in Hprobe as (p & _ & ->); done].
    apply (inj Some) in Hprobe as <-. apply list_subseteq_nil. }
  unfold lws_settings, _FEATURES_OFF in *.
  destruct (topology r), (rp_allowed_nodes run); cbn [map app] in *; set_solver.
Qed.

(** What the recipe alone says is what the chart sees. *)
Lemma recipe_says r site run all path :
  layers r site run = Some all -> distinct (Mp (rc_values r)) = true -> distinct (Mp (site_layer r site)) = true ->
  path <> [] -> free_of_launch r site path = true ->
  tree_get (effective_values all) path = tree_get (merge [] (rc_values r)) path.
Proof.
  intros (values & Hv & ->)%effective_three Hr Hs Hpath [Hsite Hrun%negb_true_iff%bool_decide_eq_false]%andb_true_iff.
  rewrite base_is_kept; [by rewrite base_is_kept|by eapply distinct_run_layer|].
  destruct path as [|k rest]; [done|]. cbn [silent].
  destruct (dict_get k values) eqn:Hk; [|done]. destruct Hrun. cbn [head].
  apply list_elem_of_fmap. exists k. split; [done|]. eapply run_layer_keys; [done|]. by rewrite Hk.
Qed.

Lemma merge_doc_distinct v : distinct v = true -> forall old w,
  (forall d, old = Some d -> distinct d = true) -> merge_doc v old = Some w -> distinct w = true.
Proof.
  induction v as [v|l _|layer IH] using doc_induction; intros Hv old w Hold Hw.
  - destruct v; cbn in Hw; try done; by apply (inj Some) in Hw as <-.
  - apply (inj Some) in Hw as <-. exact Hv.
  - destruct old as [[v|l|base]|]; try (cbn in Hw; by apply (inj Some) in Hw as <-).
    rewrite merge_doc_maps in Hw. apply (inj Some) in Hw as <-.
    apply distinct_Mp in Hv as [Hnd Hv]. destruct (proj1 (distinct_Mp base) (Hold _ eq_refl)) as [Hndb Hb].
    apply distinct_Mp. split; [by apply merge_NoDup|]. intros k x. rewrite merge_get by done.
    destruct (dict_get k layer) as [y|] eqn:Hk; [|by apply Hb]. intros Hx.
    eapply (proj1 (Forall_forall _ _) IH (k, y)); [by apply dict_get_Some_in|by eapply Hv|intros d Hd; by eapply Hb|exact Hx].
Qed.

Lemma distinct_merge base layer :
  distinct (Mp base) = true -> distinct (Mp layer) = true -> distinct (Mp (merge base layer)) = true.
Proof.
  intros Hb Hl. eapply (merge_doc_distinct (Mp layer) Hl (Some (Mp base))); [by intros d [= <-]|apply merge_doc_maps].
Qed.

(** A site whose documents were read from YAML and columns. *)
Definition site_ok (site : Site) : bool :=
  bool_decide (NoDup (st_node_selector site).*1) && distinct (Ls (st_tolerations site))
  && distinct (Mp (st_extra_values site)).

Definition site_keys : list string := ["model"; "image"; "nodeSelector"; "tolerations"; "schedulerName"; "priorityClassName"].

Lemma site_layer_facts r site : site_ok site = true ->
  distinct (Mp (site_layer r site)) = true /\
  forall path, silent (st_extra_values site) path = true -> head path ∉ Some <$> site_keys ->
    silent (site_layer r site) path = true.
Proof.
  unfold site_ok. rewrite !andb_true_iff, bool_decide_eq_true. intros [[Hsel Htol] Hextra].
  unfold site_layer. match goal with |- context [merge ?o _] => set (out := o) end.
  assert (distinct (Mp out) = true /\ out.*1 ⊆ site_keys) as [Hout Hkeys].
  { assert (Hsel' := distinct_texts _ Hsel). unfold out, filled, site_keys.
    destruct (String.eqb (st_model_local_path site) ""), (String.eqb (st_model_host_path_type site) ""),
      (negb _ && negb _), (st_node_selector site) as [|sel sels], (st_tolerations site) as [|tol tols],
      (String.eqb (st_scheduler_name site) ""), (String.eqb (st_priority_class site) "");
    (split; [cbn -[bool_decide texts distinct] in *; cbn [distinct forallb snd andb] in *;
             rewrite ?Hsel', ?Htol, ?andb_true_r; repeat (apply andb_true_iff; split); try done; by vm_compute
            |cbn; set_solver]). }
  split; [by apply distinct_merge|]. intros path Hs Hhead. apply silent_merge; [done| |done].
  destruct path as [|k rest]; [done|]. cbn [silent]. destruct (dict_get k out) eqn:Hk; [|done].
  destruct Hhead. apply list_elem_of_fmap. exists k. split; [done|]. apply Hkeys.
  apply dict_get_Some_in in Hk. apply list_elem_of_fmap. by exists (k, d).
Qed.

(** [values[k]["extraArgs"]] and deeper, as the recipe reads them. *)
Lemma listing_path m path k :
  sub_list (tree_get m (path ++ [k])) = listing k (foldl (fun m s => section s m) m path).
Proof.
  assert (forall path, listing k (foldl (fun m s => section s m) [] path) = []) as Hnil.
  { clear. intros path. by induction path. }
  revert m. induction path as [|s path IH]; intros m; [done|].
  cbn [app foldl]. rewrite tree_get_cons. destruct (path ++ [k]) as [|k' rest] eqn:Hp; [by destruct path|]. rewrite <- Hp.
  unfold section at 2. destruct (dict_get s m) as [[v|l|n]|]; cbn [sub_tree]; [by rewrite Hnil|by rewrite Hnil|by rewrite Hp, <- IH|by rewrite Hnil].
Qed.

Lemma catalog_path path m : distinct (Mp m) = true ->
  sub_list (tree_get (merge [] m) path) = sub_list (tree_get m path).
Proof.
  intros [Hnd _]%distinct_Mp. destruct path as [|k rest]; [done|]. rewrite !tree_get_cons, merge_get by done.
  destruct (dict_get k m) as [[[]| |]|], rest; done.
Qed.

(** The argument lists and variables of a recipe, and where they are. *)
Definition lists_of_a_recipe : list (list string) :=
  [["extraArgs"]; ["env"]; ["pd"; "prefill"; "extraArgs"]; ["pd"; "decode"; "extraArgs"]].

(** The site and the run are no part of the configuration: unless the site's
    own raw values name them, every flag of every engine and every variable the
    chart sees is the recipe's. *)
Theorem recipe_reaches_the_engine r site run all :
  layers r site run = Some all -> distinct (Mp (rc_values r)) = true -> site_ok site = true ->
  Forall (fun path => silent (st_extra_values site) path = true) lists_of_a_recipe ->
  (forall name, name ∈ "" :: ROLES -> recipe_flags (launched r all) name = recipe_flags r name) /\
  recipe_env (launched r all) = recipe_env r.
Proof.
  intros Hall Hr Hsite Hextra. destruct (site_layer_facts r site Hsite) as [Hs Hsilent].
  assert (forall path, path ∈ lists_of_a_recipe ->
    sub_list (tree_get (effective_values all) path) = sub_list (tree_get (rc_values r) path)) as Hsame.
  { intros path Hp. rewrite (recipe_says r site run all path Hall Hr Hs); [by apply catalog_path| |].
    - intros ->. vm_compute in Hp. set_solver.
    - unfold free_of_launch. rewrite Hsilent; cbn [andb].
      + unfold lists_of_a_recipe in Hp. rewrite !elem_of_cons, elem_of_nil in Hp.
        by destruct Hp as [->|[->|[->|[->|[]]]]]; vm_compute.
      + by apply (proj1 (Forall_forall _ _) Hextra).
      + unfold lists_of_a_recipe in Hp. rewrite !elem_of_cons, elem_of_nil in Hp.
        destruct Hp as [->|[->|[->|[->|[]]]]]; refine (bool_decide_unpack (_ ∉ _) _); by vm_compute. }
  assert (forall path k, path ++ [k] ∈ lists_of_a_recipe ->
    listing k (foldl (fun m s => section s m) (effective_values all) path)
    = listing k (foldl (fun m s => section s m) (rc_values r) path)) as Hlist.
  { intros path k Hp. rewrite <- !listing_path. by apply Hsame. }
  assert (Htops := Hlist [] "extraArgs" ltac:(set_solver)). assert (Henv := Hlist [] "env" ltac:(set_solver)).
  cbn [foldl] in Htops, Henv.
  assert (top_flags (launched r all) = top_flags r) as Htop.
  { unfold top_flags, launched. cbn [rc_engine rc_values]. by rewrite Htops. }
  split.
  - intros name Hn. unfold recipe_flags. rewrite Htop. destruct (String.eqb_spec name ""); [done|]. f_equal.
    unfold role_own_flags, launched, role. cbn [rc_engine rc_values].
    assert (["pd"; name] ++ ["extraArgs"] ∈ lists_of_a_recipe) as Hl%Hlist; [|cbn [foldl] in Hl; by rewrite Hl].
    unfold ROLES, lists_of_a_recipe in *. set_solver.
  - unfold recipe_env, launched. cbn [rc_values]. by rewrite Henv.
Qed.

(** ** Witnesses *)

(** A catalog's production settings, a site with a mirror, a run of two nodes. *)
Definition production : Recipe :=
  mkRecipe "sglang" "sglang" ">=0.8.0"
    [("image", Mp [("repository", text "lmsysorg/sglang"); ("tag", text "v0.5.15")]);
     ("model", Mp [("name", text "glm-5"); ("gpus", text "4")]);
     ("extraArgs", Ls (strings ["--tp-size=4"; "--enable-metrics"]));
     ("env", Ls [Mp [("name", text "NCCL_DEBUG"); ("value", text "WARN")]]);
     ("replicaCount", Sc (VInt 3)); ("scaler", Mp [("enabled", Sc (VBool true)); ("max", Sc (VInt 8))]);
     ("terminationGracePeriodSeconds", Sc (VInt 3600))] "sha256:1f".
Definition sample_site : Site :=
  mkSite "llm" "oci://registry/charts" "pull" "/data/glm-5" "Directory" "registry.example/team" [("pool", "h200")] []
    "" "" [("resources", Mp [("limits", Mp [("cpu", Sc (VInt 32))])]); ("scaler", Mp [("enabled", Sc (VBool true))])] "dns".
Definition sample_run : RunPlan := mkRunPlan 41 "at-41" ["n1"; "n2"] 30 [("team", "infra")] [].

Lemma run_is_isolated_witness :
  exists all, layers production sample_site sample_run = Some all /\
    tree_get (effective_values all) ["scaler"; "enabled"] = Some (Sc (VBool false)) /\
    tree_get (effective_values all) ["replicaCount"] = Some (Sc (VInt 1)) /\
    tree_get (effective_values all) ["podLabels"; RUN_LABEL] = Some (text "41").
Proof.
  destruct (layers production sample_site sample_run) as [all|] eqn:Hall; [|vm_compute in Hall; discriminate].
  exists all. split; [reflexivity|]. destruct (run_is_isolated _ _ _ _ Hall) as (_ & Hcount & Hlabel & _ & _ & _ & Hoff & _).
  split; [|split].
  - apply Hoff. apply list_elem_of_In. vm_compute. tauto.
  - exact Hcount.
  - apply Hlabel; [reflexivity|]. refine (bool_decide_unpack (NoDup _) _). vm_compute. exact I.
Defined.

Lemma recipe_reaches_the_engine_witness :
  exists all, layers production sample_site sample_run = Some all /\
    recipe_flags (launched production all) "" = [("tp", Sc (VInt 4)); ("enable_metrics", Sc (VBool true))] /\
    recipe_env (launched production all) = [("NCCL_DEBUG", "WARN")].
Proof.
  destruct (layers production sample_site sample_run) as [all|] eqn:Hall; [|vm_compute in Hall; discriminate].
  exists all. split; [reflexivity|].
  destruct (recipe_reaches_the_engine production sample_site sample_run all Hall) as [Hflags Henv];
    [vm_compute; reflexivity|vm_compute; reflexivity| |].
  - repeat apply Forall_cons_2; try exact (Forall_nil_2 _); vm_compute; reflexivity.
  - split; [rewrite (Hflags "" ltac:(left))|rewrite Henv]; vm_compute; reflexivity.
Defined.
