(* ===== verification/Conversion.v ===== *)
(** A flat config written onto a recipe and read back
    ([app/control/recipe/convert.py]), the recipe a campaign's columns amount to
    ([legacy.py]) and the cards a campaign's configurations claim
    ([campaign.py]). *)
From Stdlib Require Import Ascii.
From S2P Require Import Prelude Float Values Texts Documents Space Validation Flags Commands ExtraArgs Addresses Recipes Composition.
#[local] Open Scope string_scope.
#[local] Open Scope list_scope.
#[local] Open Scope Z_scope.

Definition is_null (d : doc) : bool := match d with Sc VNone => true | _ => false end.

(** ** Writing one address *)

(** [_set]: sections on the way are made when they are missing or no dict. *)
Fixpoint _set (m : tree) (path : list string) (value : doc) : tree :=
  match path with
  | [] => m
  | [k] => if is_null value then dict_pop k m else dict_set k value m
  | k :: rest => dict_set k (Mp (_set (section k m) rest value)) m
  end.

Definition named (name : string) (e : doc) : bool :=
  match e with
  | Mp m => match dict_get "name" m with Some d => doc_eq d (text name) | None => false end
  | _ => false
  end.

(** [env_value] of anything. *)
Definition env_text (value : doc) : string := match value with Sc v => env_value v | _ => doc_str value end.

(** The last entry of a name is replaced where it stands, the others dropped. *)
Definition _set_env (entries : list doc) (name : string) (value : doc) : list doc :=
  let found := (filter (fun ie => named name ie.2 = true) (imap (fun i e => (i, e)) entries)).*1 in
  if is_null value then filter (fun e => named name e = false) entries
  else
    let entry := match value with
                 | Mp body => Mp (dict_update [("name", text name)] body)
                 | _ => Mp [("name", text name); ("value", text (env_text value))]
                 end in
    match last found with
    | Some keep =>
        concat (imap (fun i e => if (i =? keep)%nat then [entry] else if named name e then [] else [e]) entries)
    | None => entries ++ [entry]
    end.

Definition _canonical_flag (r : Recipe) (key : string) : string := (normalize_item (rc_engine r) key (Sc (VBool true))).1.1.

(** Why a config does not apply: a key that is no address, or [pd] and its roles
    not being sections. *)
Inductive apply_error := BadKey (why : BadAddress) | NoSection (key : string).

(** [m.setdefault(key, {})]. *)
Definition setdefault (key : string) (m : tree) : apply_error + tree :=
  match dict_get key m with
  | None => inr []
  | Some (Mp n) => inr n
  | Some _ => inl (NoSection key)
  end.

Definition apply_item (base : Recipe) (values : tree) (key : string) (value : doc) : apply_error + tree :=
  match parse key with
  | inl why => inl (BadKey why)
  | inr (AFlag name) =>
      inr (dict_set "extraArgs" (Ls (set_flag (rc_engine base) (listing "extraArgs" values) (_canonical_flag base name) value)) values)
  | inr (ARoleFlag role name) =>
      match setdefault "pd" values with
      | inl e => inl e
      | inr pd =>
          match setdefault role pd with
          | inl e => inl e
          | inr spec =>
              let items := set_flag (rc_engine base) (listing "extraArgs" spec) (_canonical_flag base name) value in
              inr (dict_set "pd" (Mp (dict_set role (Mp (dict_set "extraArgs" (Ls items) spec)) pd)) values)
          end
      end
  | inr (AEnv name) =>
      inr (match _set_env (listing "env" values) name value with
           | [] => dict_pop "env" values
           | entries => dict_set "env" (Ls entries) values
           end)
  | inr (AValue path) => inr (_set values path value)
  end.

Fixpoint apply_items (base : Recipe) (values : tree) (cfg : tree) : apply_error + tree :=
  match cfg with
  | [] => inr values
  | (key, value) :: rest =>
      match apply_item base values key value with
      | inl e => inl e
      | inr values' => apply_items base values' rest
      end
  end.

Definition apply (base : Recipe) (cfg : tree) : apply_error + Recipe :=
  match apply_items base (rc_values base) cfg with
  | inl e => inl e
  | inr values => inr (base <| rc_values := values |>)
  end.

(** ** Reading the difference *)
Definition _flag_diff (prefix : string) (old new : tree) : tree :=
  let out := foldl (fun out '(k, v) =>
                 match dict_get k old with
                 | Some o => if doc_eq o v then out else dict_set (prefix +:+ k) v out
                 | None => dict_set (prefix +:+ k) v out
                 end) [] new in
  foldl (fun out '(k, _) => if dict_has k new then out else dict_set (prefix +:+ k) (Sc VNone) out) out old.

Fixpoint _value_diff (new : doc) (old : option doc) (path : list string) (out : tree) {struct new} : tree :=
  if is_managed path then out
  else
    match old, new with
    | Some (Mp o), Mp n =>
        let out := (fix go (n : tree) (out : tree) : tree :=
                      match n with
                      | [] => out
                      | (k, v) :: rest => go rest (_value_diff v (dict_get k o) (path ++ [k]) out)
                      end) n out in
        foldl (fun out '(k, _) =>
                 if dict_has k n || is_managed (path ++ [k]) then out
                 else dict_set (value_key (path ++ [k])) (Sc VNone) out) out o
    | None, Mp [] => dict_set (value_key path) (Mp []) out
    | None, Mp n =>
        (fix go (n : tree) (out : tree) : tree :=
           match n with
           | [] => out
           | (k, v) :: rest => go rest (_value_diff v None (path ++ [k]) out)
           end) n out
    | None, _ => dict_set (value_key path) new out
    | Some o, _ => if doc_eq o new then out else dict_set (value_key path) new out
    end.

(** name → its value, or the entry body when it is not a plain value. *)
Definition _env_entries (r : Recipe) : tree :=
  foldl (fun out e =>
           match env_entry e with
           | Some (name, m) =>
               let body := dict_pop "name" m in
               dict_set name (match body with [("value", v)] => text (doc_str v) | _ => Mp body end) out
           | None => out
           end) [] (listing "env" (rc_values r)).

Definition env_diff (old new : tree) : tree := _flag_diff ENV_PREFIX old new.

(** The config that turns [base] into [r]. *)
Definition diff (base r : Recipe) : tree :=
  let out := dict_update [] (_flag_diff "" (top_flags base) (top_flags r)) in
  let out := foldl (fun out name =>
                 dict_update out (_flag_diff (name +:+ ".") (role_own_flags base name)
                                    (flags (rc_engine r) (listing "extraArgs" (role name r))))) out ROLES in
  let out := dict_update out (env_diff (_env_entries base) (_env_entries r)) in
  _value_diff (Mp (rc_values r)) (Some (Mp (rc_values base))) [] out.

(** [cfg] as it lands on [base]. *)
Definition canonical (base : Recipe) (cfg : tree) : apply_error + tree :=
  match apply base cfg with inl e => inl e | inr r => inr (diff base r) end.

Definition full_config (r : Recipe) : tree :=
  let out := top_flags r in
  let out := foldl (fun out name =>
                 foldl (fun out '(k, v) => dict_set (name +:+ "." +:+ k) v out) out
                   (flags (rc_engine r) (listing "extraArgs" (role name r)))) out ROLES in
  foldl (fun out '(name, value) => dict_set (ENV_PREFIX +:+ name) (text value) out) out (recipe_env r).

(** ** The recipe of a campaign's columns *)
Definition RUNTIME_ENV : list (string * string) :=
  [("NVIDIA_DISABLE_REQUIRE", "1"); ("PYTORCH_ALLOC_CONF", "expandable_segments:True")].
Definition CHART_MINIMUMS : list (string * string) := [("sglang", "0.8.0"); ("vllm", "0.5.0")].
Definition MODEL_MOUNT : string := "/model".

Definition chart_range (engine : string) : string := ">=" +:+ default "0.0.0" (dict_get engine CHART_MINIMUMS).

(** [str.rfind], -1 when absent. *)
Fixpoint rfind_from (c : ascii) (i : Z) (found : Z) (l : list ascii) : Z :=
  match l with [] => found | d :: l' => rfind_from c (i + 1) (if Ascii.eqb c d then i else found) l' end.
Definition rfind (c : ascii) (s : string) : Z := rfind_from c 0 (-1) (chars s).

(** [s.partition(c)]: the text before and after the first [c]. *)
Definition parted (c : ascii) (s : string) : string * string := default (s, "") (partition c s).

Definition split_image (img : string) : string * string * string :=
  let '(ref, digest) := parted "@" img in
  let slash := rfind "/" ref in
  let colon := rfind ":" ref in
  if slash <? colon then (of_chars (take (Z.to_nat colon) (chars ref)), from (Z.to_nat (colon + 1)) ref, digest)
  else (ref, "", digest).

Definition _volume_name (index : nat) : string := "extra-" +:+ pretty (Z.of_nat index).

(** [split_env] of a dict that keeps its order. *)
Definition split_env_items (args : tree) : tree * list (string * string) :=
  (filter (fun kv => is_env_key kv.1 = false) args,
   foldl (fun env '(k, v) => if is_env_key k then dict_set (env_name k) (env_text v) env else env) [] args).

(** What a campaign's columns say of a launch. *)
Record LaunchFields := mkLaunchFields {
  lf_engine : string;
  lf_image : string;
  lf_served_model_name : string;
  lf_engine_args : tree;
  lf_extra_env : list (string * string);
  lf_extra_volumes : list (string * string);
  lf_nodes : Z;
  lf_chart_version : string;
}.
#[export] Instance eta_LaunchFields : Eta LaunchFields := fun f =>
  mkLaunchFields (lf_engine f) (lf_image f) (lf_served_model_name f) (lf_engine_args f) (lf_extra_env f)
    (lf_extra_volumes f) (lf_nodes f) (lf_chart_version f).

(** The context length, and the flags the chart does not render itself. *)
Definition sort_flag (acc : string * tree) (kv : string * doc) : string * tree :=
  let '(context, kept) := acc in
  let '(key, value) := kv in
  if listed key CONTEXT_FLAGS then (fmt value, kept)
  else if listed key CHART_FLAGS || is_null value || bool_decide (value = text "") then acc
  else (context, dict_set key value kept).

Definition volume_mount (index : nat) (hv : string * string) : doc * doc :=
  let '(path, mode) := parted ":" hv.2 in
  let name := text (_volume_name index) in
  (Mp [("name", name); ("hostPath", Mp [("path", text hv.1)])],
   Mp ([("name", name); ("mountPath", text path)] ++ if String.eqb mode "ro" then [("readOnly", Sc (VBool true))] else [])).

Definition from_fields (f : LaunchFields) : Recipe :=
  let engine := lf_engine f in
  let '(args, config_env) := split_env_items (lf_engine_args f) in
  let args := (normalize_args engine args).1 in
  let sorted := sort_by (key_before (fun kv => key_of_string kv.1)) args in
  let '(context, kept) := foldl sort_flag ("", []) sorted in
  let nodes := Z.max 1 (lf_nodes f) in
  let total := Z.max 1 (cards_used (flat args)) in
  let per_node := if total mod nodes =? 0 then total / nodes else total in
  let '(repository, tag, digest) := split_image (lf_image f) in
  let env := dict_update (dict_update RUNTIME_ENV (lf_extra_env f)) config_env in
  let volumes := imap volume_mount (sort_by (key_before (fun kv => key_of_string kv.1)) (lf_extra_volumes f)) in
  let values :=
    [("image", Mp [("repository", text repository); ("tag", text tag)]);
     ("model", Mp [("name", text (lf_served_model_name f)); ("gpus", text (pretty per_node));
                   ("mountPath", text MODEL_MOUNT); ("contextLength", text context)]);
     ("extraArgs", Ls (strings (render engine kept)))]
    ++ (match env with
        | [] => []
        | _ => [("env", Ls (map (fun '(k, v) => Mp [("name", text k); ("value", text v)]) env))]
        end)
    ++ (match volumes with
        | [] => []
        | _ => [("volumes", Ls volumes.*1); ("volumeMounts", Ls volumes.*2)]
        end)
    ++ (if 1 <? nodes then [("lws", Mp [("enabled", Sc (VBool true)); ("size", Sc (VInt nodes))])] else []) in
  mkRecipe engine engine (if String.eqb (lf_chart_version f) "" then chart_range engine else lf_chart_version f) values digest.

(** ** A campaign's configurations as recipes *)

(** (flags and env keys, the other addresses). *)
Definition is_flat (key : string) : bool := negb (has_dot key) || starts_with "env." key.
Definition split_flat (cfg : tree) : tree * tree :=
  (filter (fun kv => is_flat kv.1 = true) cfg, filter (fun kv => is_flat kv.1 = false) cfg).

(** A campaign's recipe, if it has one, and its columns. *)
Record CampaignRecipe := mkCampaignRecipe { cr_recipe : option Recipe; cr_fields : LaunchFields }.

Definition recipe_for (c : CampaignRecipe) (cfg : tree) : apply_error + Recipe :=
  match cr_recipe c with
  | Some base => apply base cfg
  | None =>
      let '(flat_part, rest) := split_flat cfg in
      let built := from_fields ((cr_fields c) <| lf_engine_args := flat_part |> <| lf_nodes := 1 |> <| lf_chart_version := "" |>) in
      match rest with [] => inr built | _ => apply built rest end
  end.

Definition config_cards (c : CampaignRecipe) (cfg : tree) : apply_error + Z :=
  match cr_recipe c with
  | None => inr (cards_used (flat cfg))
  | Some base => match apply base cfg with inl e => inl e | inr r => inr (total_gpus (shape r)) end
  end.

Definition config_pod_cards (c : CampaignRecipe) (cfg : tree) : apply_error + Z :=
  match cr_recipe c with
  | None => inr (cards_used (flat cfg))
  | Some base => match apply base cfg with inl e => inl e | inr r => inr (max_pod_gpus (shape r)) end
  end.

(** ** The columns' image *)
Lemma rfind_last c l : split_at c l = None -> forall i found, rfind_from c i found l = found.
Proof.
  induction l as [|d l IH]; [done|]. cbn [split_at rfind_from]. rewrite (Ascii.eqb_sym d c).
  destruct (Ascii.eqb c d) eqn:Hc; [done|]. destruct (split_at c l) as [[]|]; [done|]. intros _ i found. by apply IH.
Qed.

(** Where the last [c] stands. *)
Lemma rfind_app c a b : split_at c b = None -> forall i found,
  rfind_from c i found (a ++ c :: b) = i + Z.of_nat (length a).
Proof.
  intros Hb. induction a as [|d a IH]; intros i found; cbn [app rfind_from length].
  - rewrite Ascii.eqb_refl, rfind_last by done. lia.
  - rewrite IH. lia.
Qed.

Lemma rfind_split c l : split_at c l <> None -> exists a b, l = a ++ c :: b /\ split_at c b = None.
Proof.
  induction l as [|d l IH]; [done|]. intros Hl. destruct (split_at c l) as [[]|] eqn:Hs.
  - destruct IH as (a & b & -> & Hb); [done|]. by exists (d :: a), b.
  - cbn in Hl. destruct (Ascii.eqb_spec d c) as [->|Hd]; [by exists [], l|]. by rewrite Hs in Hl.
Qed.

Lemma rfind_ge c l i found : found <= rfind_from c i found l \/ i <= rfind_from c i found l.
Proof.
  revert i found. induction l as [|d l IH]; intros i found; cbn; [lia|].
  destruct (IH (i + 1) (if Ascii.eqb c d then i else found)) as [H|H]; [|lia]. destruct (Ascii.eqb c d); lia.
Qed.

(** The text with its last colon after its last slash is cut there and nowhere else. *)
Lemma split_ref ref :
  (rfind "/" ref <? rfind ":" ref) = true ->
  of_chars (take (Z.to_nat (rfind ":" ref)) (chars ref)) +:+ ":" +:+ from (Z.to_nat (rfind ":" ref + 1)) ref = ref.
Proof.
  intros Hlt. unfold rfind in *. destruct (split_at ":" (chars ref)) eqn:Hs.
  - destruct (rfind_split ":" (chars ref)) as (a & b & Hab & Hb); [congruence|].
    apply chars_inj. unfold from. rewrite !chars_app, !chars_of_chars, Hab, rfind_app by done.
    rewrite Z.add_0_l, Nat2Z.id, take_app_length.
    replace (Z.to_nat (Z.of_nat (length a) + 1)) with (length (a ++ [":"%char])) by (rewrite length_app; cbn; lia).
    change (":"%char :: b) with ([":"%char] ++ b). by rewrite (app_assoc a _ b), drop_app_length, <- app_assoc.
  - rewrite (rfind_last ":" _ Hs) in Hlt. destruct (rfind_ge "/" (chars ref) 0 (-1)); lia.
Qed.

Lemma parted_app c s a b : parted c s = (a, b) -> (a = s /\ b = "") \/ s = a +:+ String c b.
Proof.
  unfold parted. destruct (partition c s) as [[a' b']|] eqn:Hp; cbn [default]; intros [= <- <-]; [right|by left].
  apply partition_Some in Hp as [Hs _]. apply chars_inj. by rewrite Hs, chars_app.
Qed.

Lemma ends_with_app a s : ends_with s (a +:+ s) = true.
Proof.
  unfold ends_with. rewrite <- !length_chars, chars_app, length_app. apply andb_true_iff. split.
  - apply Nat.leb_le. lia.
  - apply String.eqb_eq. unfold from. rewrite chars_app.
    replace (length (chars a) + length (chars s) - length (chars s))%nat with (length (chars a)) by lia.
    by rewrite drop_app_length, of_chars_chars.
Qed.

Lemma text_at_text key s : text_at key [(key, text s)] = s.
Proof. unfold text_at. rewrite dict_get_cons, String.eqb_refl. cbn. by destruct (String.eqb_spec s "") as [->|]. Qed.

(** The image of the recipe is put together from its three parts. *)
Definition joined_image (repository tag digest : string) : string :=
  (if String.eqb tag "" then repository else repository +:+ ":" +:+ tag)
  +:+ (if String.eqb digest "" then "" else "@" +:+ digest).

Lemma string_app_nil s : s +:+ "" = s.
Proof. apply chars_inj. by rewrite chars_app, app_nil_r. Qed.
Lemma string_app_assoc a b c : a +:+ (b +:+ c) = (a +:+ b) +:+ c.
Proof. apply chars_inj. by rewrite !chars_app, app_assoc. Qed.

Lemma image_from_fields f repository tag digest : split_image (lf_image f) = (repository, tag, digest) ->
  image (from_fields f) = joined_image repository tag digest.
Proof.
  intros Hsplit. unfold from_fields. rewrite Hsplit.
  destruct (split_env_items _) as [args env]. destruct (foldl sort_flag _ _) as [context kept].
  unfold image. cbn [rc_values rc_image_digest].
  match goal with |- context [section "image" ?v] =>
    change (section "image" v) with [("repository", text repository); ("tag", text tag)] end.
  assert (text_at "tag" [("repository", text repository); ("tag", text tag)] = tag) as -> by apply (text_at_text "tag").
  assert (text_at "repository" [("repository", text repository); ("tag", text tag)] = repository) as ->
    by apply (text_at_text "repository").
  unfold joined_image. destruct (String.eqb digest ""); [by rewrite string_app_nil|done].
Qed.

Lemma split_image_joined img repository tag digest : split_image img = (repository, tag, digest) ->
  ends_with "@" img = false -> ends_with ":" (parted "@" img).1 = false ->
  joined_image repository tag digest = img.
Proof.
  unfold split_image, joined_image. destruct (parted "@" img) as [ref dig] eqn:Hparted. cbn [fst].
  assert (ends_with "@" img = false -> ref +:+ (if String.eqb dig "" then "" else "@" +:+ dig) = img) as Hwhole.
  { intros Hend. destruct (parted_app _ _ _ _ Hparted) as [[-> ->]| ->]; [by rewrite string_app_nil|].
    destruct (String.eqb_spec dig "") as [->|]; [|done]. by rewrite (ends_with_app ref "@") in Hend. }
  intros Hsplit Hat Hcolon. destruct (_ <? _) eqn:Hlt.
  - pose proof (split_ref ref Hlt) as Href. injection Hsplit as <- <- <-.
    destruct (String.eqb_spec (from (Z.to_nat (rfind ":" ref + 1)) ref) "") as [He|He].
    + rewrite He in Href. rewrite <- Href in Hcolon. by rewrite ends_with_app in Hcolon.
    + rewrite Href. by apply Hwhole.
  - injection Hsplit as <- <- <-. cbn. by apply Hwhole.
Qed.

(** A campaign's image column survives its conversion: the repository, the
    tag after the last colon that is not a port's, and the digest put back
    together are the image that was written. *)
Theorem campaign_image_is_kept f :
  ends_with "@" (lf_image f) = false -> ends_with ":" (parted "@" (lf_image f)).1 = false ->
  image (from_fields f) = lf_image f.
Proof.
  intros Hat Hcolon. destruct (split_image (lf_image f)) as [[repository tag] digest] eqn:Hsplit.
  by rewrite (image_from_fields f _ _ _ Hsplit), (split_image_joined (lf_image f)).
Qed.

Lemma _int_pretty z d : _int (Some (text (pretty z))) d = z.
Proof.
  unfold _int. change (doc_str (text (pretty z))) with (pretty z).
  assert (strip (pretty z) = pretty z) as -> by (apply chars_inj; unfold strip; by rewrite chars_of_chars, strip_pretty).
  by rewrite parse_int_pretty.
Qed.

Lemma _int_VInt z d : _int (Some (Sc (VInt z))) d = z.
Proof. exact (_int_pretty z d). Qed.

(** The sections of a campaign's recipe that decide its pods. *)
Lemma from_fields_pods f :
  let args := (normalize_args (lf_engine f) (split_env_items (lf_engine_args f)).1).1 in
  let cards := Z.max 1 (cards_used (flat args)) in
  let nodes := Z.max 1 (lf_nodes f) in
  let r := from_fields f in
  section "pd" (rc_values r) = [] /\
  section "lws" (rc_values r) =
    (if 1 <? nodes then [("enabled", Sc (VBool true)); ("size", Sc (VInt nodes))] else []) /\
  dict_get "gpus" (section "model" (rc_values r)) =
    Some (text (pretty (if cards mod nodes =? 0 then cards / nodes else cards))).
Proof.
  intros args cards nodes r. unfold r, from_fields.
  destruct (split_env_items (lf_engine_args f)) as [plain env] eqn:Hsplit. unfold args in *. clear args. cbn [fst] in cards.
  fold cards nodes. destruct (foldl sort_flag _ _) as [context kept], (split_image _) as [[repository tag] digest].
  cbn [rc_values].
  destruct (dict_update _ env), (imap volume_mount _), (1 <? nodes); repeat split.
Qed.

(** The pods of a campaign's recipe claim together the cards its flags use,
    one engine on one node or a gang over several. *)
Theorem campaign_claims_its_cards f :
  let args := (normalize_args (lf_engine f) (split_env_items (lf_engine_args f)).1).1 in
  let cards := Z.max 1 (cards_used (flat args)) in
  cards mod Z.max 1 (lf_nodes f) = 0 ->
  total_gpus (shape (from_fields f)) = cards /\
  max_pod_gpus (shape (from_fields f)) * Z.max 1 (lf_nodes f) = cards.
Proof.
  intros args cards Hmod. destruct (from_fields_pods f) as (Hpd & Hlws & Hcards). fold args cards in Hcards.
  set (nodes := Z.max 1 (lf_nodes f)) in *. rewrite Hmod in Hcards. cbn [Z.eqb] in Hcards.
  assert (1 <= nodes) as Hnodes by apply Z.le_max_l. assert (1 <= cards) as Hpos by apply Z.le_max_l.
  assert (cards = nodes * (cards / nodes)) as Hdiv by (apply Z.div_exact; lia).
  assert (gpus (from_fields f) = cards / nodes) as Hgpus.
  { unfold gpus. by rewrite Hcards, _int_pretty. }
  assert (pod_gpus (from_fields f) = cards / nodes) as Hpod.
  { unfold pod_gpus. rewrite Hgpus. destruct (Z.eqb_spec (cards / nodes) 0); [lia|done]. }
  assert (topology (from_fields f) = if 1 <? nodes then Lws else SingleNode) as Htop.
  { unfold topology. rewrite Hpd, Hlws. by destruct (1 <? nodes). }
  unfold shape, lws_size. rewrite Htop, Hlws, Hpod. clear -Hnodes Hpos Hdiv. destruct (Z.ltb_spec 1 nodes).
  - change (dict_get "size" [("enabled", Sc (VBool true)); ("size", Sc (VInt nodes))]) with (Some (Sc (VInt nodes))).
    rewrite _int_VInt. cbn. lia.
  - cbn. assert (nodes = 1) as Hn by lia. rewrite Hn, Z.div_1_r in *. lia.
Qed.

(** ** Chart values, there and back

    The difference of two documents is a list of writes, each a path and what
    goes there; written in turn they make one document into the other. *)

(** A write into a place that may be missing. *)
Fixpoint put (d : option doc) (path : list string) (value : doc) : option doc :=
  match path with
  | [] => if is_null value then None else Some value
  | k :: rest =>
      let m := sub_tree d in
      Some (Mp (match put (dict_get k m) rest value with Some w => dict_set k w m | None => dict_pop k m end))
  end.

Definition puts (d : option doc) (writes : list (list string * doc)) : option doc :=
  foldl (fun d w => put d w.1 w.2) d writes.

Definition under (k : string) (writes : list (list string * doc)) : list (list string * doc) :=
  map (fun w => (k :: w.1, w.2)) writes.

(** The writes that make [old] into [new], at [path] and below. *)
Fixpoint writes (new : doc) (old : option doc) (path : list string) {struct new} : list (list string * doc) :=
  if is_managed path then []
  else
    match old, new with
    | Some (Mp o), Mp n =>
        concat (map (fun kv => under kv.1 (writes kv.2 (dict_get kv.1 o) (path ++ [kv.1]))) n)
        ++ omap (fun kv => if dict_has kv.1 n || is_managed (path ++ [kv.1]) then None else Some ([kv.1], Sc VNone)) o
    | None, Mp [] => [([], Mp [])]
    | None, Mp n => concat (map (fun kv => under kv.1 (writes kv.2 None (path ++ [kv.1]))) n)
    | None, _ => [([], new)]
    | Some o, _ => if doc_eq o new then [] else [([], new)]
    end.

Definition spelled_write (path : list string) (out : tree) (w : list string * doc) : tree :=
  dict_set (value_key (path ++ w.1)) w.2 out.

Lemma foldl_under path k ws out :
  foldl (spelled_write path) out (under k ws) = foldl (spelled_write (path ++ [k])) out ws.
Proof.
  revert out. induction ws as [|w ws IH]; intros out; [done|]. cbn [under map foldl]. rewrite <- IH. f_equal.
  unfold spelled_write. cbn [fst snd]. by rewrite <- app_assoc.
Qed.

Lemma foldl_unders path (f : string * doc -> list (list string * doc)) m out :
  foldl (spelled_write path) out (concat (map (fun kv => under kv.1 (f kv)) m))
  = foldl (fun out kv => foldl (spelled_write (path ++ [kv.1])) out (f kv)) out m.
Proof.
  revert out. induction m as [|kv m IH]; intros out; [done|]. cbn [map concat foldl].
  by rewrite foldl_app, foldl_under, IH.
Qed.

(** [_value_diff] spells the writes as addresses. *)
Lemma value_diff_writes new : forall old path out,
  _value_diff new old path out = foldl (spelled_write path) out (writes new old path).
Proof.
  induction new as [v|l _|n IH] using doc_induction; intros old path out; cbn [_value_diff writes].
  - destruct (is_managed path); [done|]. destruct old as [o|]; [destruct (doc_eq o _) eqn:He|];
      try (destruct o; cbn [_value_diff writes]; rewrite ?He); cbn [foldl]; unfold spelled_write; cbn; rewrite ?app_nil_r; try done.
  - destruct (is_managed path); [done|]. destruct old as [o|]; [destruct (doc_eq o _) eqn:He|];
      try (destruct o; cbn [_value_diff writes]; rewrite ?He); cbn [foldl]; unfold spelled_write; cbn; rewrite ?app_nil_r; try done.
  - destruct (is_managed path); [done|].
    assert (forall o out,
      (fix go (n : tree) (out : tree) : tree :=
         match n with
         | [] => out
         | (k, v) :: rest => go rest (_value_diff v (o k) (path ++ [k]) out)
         end) n out
      = foldl (spelled_write path) out (concat (map (fun kv => under kv.1 (writes kv.2 (o kv.1) (path ++ [kv.1]))) n))) as Hgo.
    { intros o. clear out. induction IH as [|[k v] n Hk _ IHn]; intros out; [done|].
      cbn [map concat]. rewrite foldl_app, foldl_under. cbn [fst snd] in *. by rewrite <- Hk, IHn. }
    destruct old as [[v|l|o]|].
    + cbn [foldl]. destruct (doc_eq _ _); [done|]. cbn. unfold spelled_write. cbn. by rewrite app_nil_r.
    + destruct (doc_eq _ _); [done|]. cbn. unfold spelled_write. cbn. by rewrite app_nil_r.
    + rewrite foldl_app, <- (Hgo (fun k => dict_get k o)). generalize dependent out.
      clear. intros out. match goal with |- foldl _ ?out' _ = _ => generalize out' end. clear out.
      induction o as [|[k v] o IHo] in |- *; intros out; [done|]. cbn [foldl omap list_omap fst].
      destruct (dict_has k n || is_managed (path ++ [k])); [apply IHo|]. cbn [foldl]. by rewrite IHo.
    + destruct n as [|kv n]; [cbn; unfold spelled_write; cbn; by rewrite app_nil_r|]. by rewrite <- (Hgo (fun _ => None)).
Qed.

(** *** What the writes make *)

Lemma get_put k d k' rest value :
  dict_get k (sub_tree (put d (k' :: rest) value))
  = if String.eqb k k' then put (dict_get k (sub_tree d)) rest value else dict_get k (sub_tree d).
Proof.
  cbn [put sub_tree]. destruct (String.eqb_spec k k') as [->|Hk].
  - destruct (put _ _ _) as [w|]; [rewrite dict_get_set|rewrite dict_get_pop]; by rewrite String.eqb_refl.
  - apply String.eqb_neq in Hk. destruct (put _ _ _) as [w|]; [rewrite dict_get_set|rewrite dict_get_pop]; by rewrite Hk.
Qed.

(** The writes below a key, as its own. *)
Definition below (k : string) (ws : list (list string * doc)) : list (list string * doc) :=
  omap (fun w => match w.1 with k' :: rest => if String.eqb k k' then Some (rest, w.2) else None | [] => None end) ws.

Lemma get_puts k d ws : Forall (fun w => w.1 <> []) ws ->
  dict_get k (sub_tree (puts d ws)) = puts (dict_get k (sub_tree d)) (below k ws).
Proof.
  intros Hws. revert d. induction Hws as [|[[|k' rest] v] ws Hw _ IH]; intros d; [done|done|].
  unfold puts in *. cbn [foldl fst snd]. rewrite IH, get_put.
  unfold below. cbn [omap list_omap fst snd]. by destruct (String.eqb k k').
Qed.

Lemma puts_map d ws : Forall (fun w => w.1 <> []) ws -> ws <> [] \/ (exists m, d = Some (Mp m)) ->
  exists m, puts d ws = Some (Mp m).
Proof.
  intros Hws. revert d. induction Hws as [|[[|k rest] v] ws Hw _ IH]; intros d; [|done|].
  - intros [|[m ->]]; [done|]. by exists m.
  - intros _. unfold puts. cbn [foldl]. apply IH. right. cbn [put fst snd]. by eexists.
Qed.

Lemma below_app k a b : below k (a ++ b) = below k a ++ below k b.
Proof. apply omap_app. Qed.

Lemma below_under k k' ws : below k (under k' ws) = if String.eqb k k' then ws else [].
Proof.
  induction ws as [|[q v] ws IH]; [by destruct (String.eqb k k')|]. cbn [under map]. unfold below in *. cbn [omap list_omap fst snd].
  fold (under k' ws). rewrite IH. by destruct (String.eqb k k').
Qed.

Lemma below_unders k (f : string * doc -> list (list string * doc)) m : NoDup m.*1 ->
  below k (concat (map (fun kv => under kv.1 (f kv)) m))
  = match dict_get k m with Some v => f (k, v) | None => [] end.
Proof.
  induction m as [|[k' v] m IH]; [done|]. cbn [fmap list_fmap fst]. intros [Hk' Hnd]%NoDup_cons.
  cbn [map concat fst]. rewrite below_app, below_under, IH, dict_get_cons by done.
  destruct (String.eqb_spec k k') as [->|Hk]; [|done].
  by rewrite (dict_get_notin k' m Hk'), app_nil_r.
Qed.

Lemma unders_nonempty (f : string * doc -> list (list string * doc)) m :
  Forall (fun w => w.1 <> []) (concat (map (fun kv => under kv.1 (f kv)) m)).
Proof.
  apply Forall_concat, Forall_forall. intros ws (kv & -> & _)%list_elem_of_fmap.
  unfold under. apply Forall_forall. by intros w (w' & -> & _)%list_elem_of_fmap.
Qed.

(** The same up to Python's [==] on what was not written. *)
Inductive same : doc -> doc -> Prop :=
| same_refl d : same d d
| same_py a b : doc_eq a b = true -> same a b
| same_Mp m n :
    (forall k, dict_get k m = None <-> dict_get k n = None) ->
    (forall k a b, dict_get k m = Some a -> dict_get k n = Some b -> same a b) -> same (Mp m) (Mp n).

Lemma same_keys m n :
  (forall k, match dict_get k n with
             | Some b => exists a, dict_get k m = Some a /\ same a b
             | None => dict_get k m = None
             end) -> same (Mp m) (Mp n).
Proof.
  intros Hk. apply same_Mp.
  - intros k. specialize (Hk k). destruct (dict_get k n); [|done]. by destruct Hk as (a & -> & _).
  - intros k a b Ha Hb. specialize (Hk k). rewrite Hb in Hk. destruct Hk as (a' & Ha' & Hs). congruence.
Qed.

(** No null anywhere. *)
Fixpoint no_null (d : doc) : bool :=
  match d with
  | Sc VNone => false
  | Mp m => forallb (fun kd => no_null kd.2) m
  | _ => true
  end.

(** What a document holds below a path. *)
Fixpoint at_path (d : option doc) (path : list string) : option doc :=
  match path with
  | [] => d
  | k :: rest => match d with Some (Mp m) => at_path (dict_get k m) rest | _ => None end
  end.

(** The managed places under [path] hold the same in both. *)
Definition agrees (path : list string) (old new : option doc) : Prop :=
  forall rest, is_managed (path ++ rest) = true -> at_path old rest = at_path new rest.

Lemma agrees_below path k o n : agrees path (Some (Mp o)) (Some (Mp n)) ->
  agrees (path ++ [k]) (dict_get k o) (dict_get k n).
Proof. intros Ha rest Hm. rewrite <- app_assoc in Hm. exact (Ha (k :: rest) Hm). Qed.

Lemma agrees_below_new path k n : agrees path None (Some (Mp n)) -> agrees (path ++ [k]) None (dict_get k n).
Proof. intros Ha rest Hm. rewrite <- app_assoc in Hm. specialize (Ha (k :: rest) Hm). cbn in Ha. by destruct rest. Qed.

Lemma writes_fresh new : forall path, agrees path None (Some new) -> writes new None path <> [].
Proof.
  induction new as [v|l _|n IH] using doc_induction; intros path Ha.
  all: assert (is_managed path = false) as Hm by (apply not_true_is_false; intros Hm;
    rewrite <- (app_nil_r path) in Hm; by specialize (Ha [] Hm)).
  - cbn [writes]. by rewrite Hm.
  - cbn [writes]. by rewrite Hm.
  - cbn [writes]. rewrite Hm. destruct n as [|[k v] n]; [done|]. apply Forall_cons in IH as [Hk _]. cbn [map concat fst snd] in *.
    intros Hnil%app_eq_nil. destruct Hnil as [Hnil _]. unfold under in Hnil. apply map_eq_nil in Hnil.
    apply (Hk (path ++ [k])); [|done]. pose proof (agrees_below_new path k _ Ha) as Hb.
    by rewrite dict_get_cons, String.eqb_refl in Hb.
Qed.

(** The keys of [o] the new document does not have are removed, once each. *)
Lemma below_removed k (n : tree) path (o : tree) : NoDup o.*1 ->
  below k (omap (fun kv => if dict_has kv.1 n || is_managed (path ++ [kv.1]) then None else Some ([kv.1], Sc VNone)) o)
  = if dict_has k n || is_managed (path ++ [k]) then [] else if dict_has k o then [([], Sc VNone)] else [].
Proof.
  induction o as [|[k' v] o IH]; [by destruct (_ || _)|]. cbn [fmap list_fmap fst]. intros [Hk' Hnd]%NoDup_cons.
  cbn [omap list_omap fst]. specialize (IH Hnd). change (dict_has k ((k', v) :: o)) with (String.eqb k k' || dict_has k o).
  destruct (dict_has k' n || is_managed (path ++ [k'])) eqn:Hskip.
  - rewrite IH. destruct (String.eqb_spec k k') as [->|]; [by rewrite Hskip|done].
  - unfold below in *. cbn [omap list_omap fst snd]. rewrite IH. destruct (String.eqb_spec k k') as [->|]; [|done].
    rewrite Hskip, dict_has_get, (dict_get_notin k' o Hk'). done.
Qed.

Lemma puts_once path value d : puts d [(path, value)] = put d path value.
Proof. done. Qed.

Lemma managed_same path old new : agrees path old new -> is_managed path = true -> old = new.
Proof. intros Ha Hm. rewrite <- (app_nil_r path) in Hm. exact (Ha [] Hm). Qed.

Lemma no_null_Mp n k v : no_null (Mp n) = true -> dict_get k n = Some v -> no_null v = true.
Proof. intros Hn Hk%dict_get_Some_in. exact (forallb_elem _ _ _ Hn Hk). Qed.

(** A document that is no map replaces what was there, or stands there already. *)
Lemma puts_leaf new path old : is_managed path = false -> no_null new = true ->
  (forall o n, old = Some (Mp o) -> new <> Mp n) -> (forall n, new = Mp n -> old <> None) ->
  exists result, puts old (writes new old path) = Some result /\ same result new.
Proof.
  intros Hm Hnull Hmaps Hfresh.
  assert (put old [] new = Some new) as Hput by (by destruct new as [[]| |]).
  assert (forall o, exists result, puts (Some o) (if doc_eq o new then [] else [([], new)]) = Some result /\ same result new) as Hold.
  { intros o. destruct (doc_eq o new) eqn:He; [exists o; split; [done|by apply same_py]|].
    exists new. split; [|apply same_refl]. by destruct new as [[]| |]. }
  destruct new as [v|l|n]; cbn [writes]; rewrite Hm.
  - destruct old as [[w|l|o]|]; [exact (Hold (Sc w))|exact (Hold (Ls l))|exact (Hold (Mp o))|].
    exists (Sc v). split; [exact Hput|apply same_refl].
  - destruct old as [[w|k|o]|]; [exact (Hold (Sc w))|exact (Hold (Ls k))|exact (Hold (Mp o))|].
    exists (Ls l). split; [exact Hput|apply same_refl].
  - destruct old as [[w|l|o]|]; [exact (Hold (Sc w))|exact (Hold (Ls l))| |by destruct (Hfresh n)].
    by destruct (Hmaps o n).
Qed.

(** The writes of a difference make the old document the new one. *)
Lemma puts_writes new : distinct new = true -> no_null new = true -> forall path old,
  (forall d, old = Some d -> distinct d = true) -> agrees path old (Some new) ->
  exists result, puts old (writes new old path) = Some result /\ same result new.
Proof.
  induction new as [v|l _|n IH] using doc_induction; intros Hnew Hnull path old Hold Ha.
  all: destruct (is_managed path) eqn:Hm;
    [rewrite (managed_same _ _ _ Ha Hm); eexists; split; [|apply same_refl]; cbn [writes]; by rewrite Hm|].
  1,2: by apply puts_leaf.
  apply distinct_Mp in Hnew as [Hnd Hn].
  assert (forall o k v, (forall d, o = Some d -> distinct d = true) -> dict_get k n = Some v ->
    agrees (path ++ [k]) o (Some v) ->
    exists result, puts o (writes v o (path ++ [k])) = Some result /\ same result v) as Hchild.
  { intros o k v Ho Hk Hav. pose proof (proj1 (Forall_forall _ _) IH _ (dict_get_Some_in _ _ _ Hk)) as Hv. cbn [snd] in Hv.
    apply Hv; [by eapply Hn|by eapply no_null_Mp|done|done]. }
  destruct old as [[v|l|o]|]; [by apply puts_leaf|by apply puts_leaf| |].
  - destruct (proj1 (distinct_Mp o) (Hold _ eq_refl)) as [Hndo Ho]. cbn [writes]. rewrite Hm.
    match goal with |- context [puts _ ?ws] => assert (Forall (fun w => w.1 <> []) ws) as Hws end.
    { apply Forall_app. split; [apply unders_nonempty|]. apply Forall_forall.
      intros w (kv & _ & Hw)%list_elem_of_omap. destruct (_ || _); [done|]. by injection Hw as <-. }
    destruct (puts_map (Some (Mp o)) _ Hws) as [m Hputs]; [by right; exists o|].
    exists (Mp m). split; [exact Hputs|]. apply same_keys. intros k.
    pose proof (get_puts k (Some (Mp o)) _ Hws) as Hget. rewrite Hputs in Hget. cbn [sub_tree] in Hget.
    rewrite below_app, below_unders, below_removed in Hget by done. rewrite Hget, dict_has_get.
    pose proof (agrees_below path k o n Ha) as Hak.
    destruct (dict_get k n) as [v|] eqn:Hk.
    + rewrite bool_decide_eq_true_2 by done. cbn [orb fst snd]. rewrite app_nil_r. apply Hchild; [intros d; apply Ho|done|done].
    + rewrite bool_decide_eq_false_2 by (by intros [? ?]). cbn [orb app]. rewrite dict_has_get.
      destruct (is_managed (path ++ [k])) eqn:Hmk; [by rewrite (managed_same _ _ _ Hak Hmk)|].
      destruct (dict_get k o); [|done]. by rewrite bool_decide_eq_true_2.
  - destruct n as [|kv n']; [exists (Mp []); split; [|apply same_refl]; cbn [writes]; by rewrite Hm|].
    assert (writes (Mp (kv :: n')) None path <> []) as Hne by (by apply writes_fresh).
    remember (kv :: n') as n eqn:Heq. assert (writes (Mp n) None path
      = concat (map (fun kv => under kv.1 (writes kv.2 None (path ++ [kv.1]))) n)) as Hw.
    { subst n. cbn [writes]. by rewrite Hm. }
    assert (Forall (fun w => w.1 <> []) (writes (Mp n) None path)) as Hws.
    { rewrite Hw. apply (unders_nonempty (fun kv => writes kv.2 None (path ++ [kv.1]))). }
    destruct (puts_map None _ Hws) as [m Hputs]; [by left|].
    exists (Mp m). split; [exact Hputs|]. apply same_keys. intros k.
    pose proof (get_puts k None _ Hws) as Hget. rewrite Hputs in Hget. cbn [sub_tree] in Hget.
    rewrite Hw, (below_unders k (fun kv => writes kv.2 None (path ++ [kv.1]))) in Hget by done.
    rewrite Hget. change (dict_get k []) with (@None doc).
    destruct (dict_get k n) as [v|] eqn:Hk; [|done]. cbn [fst snd]. apply Hchild; [done|done|].
    pose proof (agrees_below_new path k n Ha) as Hb. by rewrite Hk in Hb.
Qed.

(** *** The writes as a config *)
Fixpoint no_backslashes (d : doc) : bool :=
  match d with
  | Mp m => forallb (fun kd => no_backslash kd.1 && no_backslashes kd.2) m
  | _ => true
  end.

Lemma no_backslashes_Mp m : no_backslashes (Mp m) = true ->
  (forall k, k ∈ m.*1 -> no_backslash k = true) /\ (forall k v, dict_get k m = Some v -> no_backslashes v = true).
Proof.
  intros Hm. split.
  - intros k ([k' v] & -> & Hin)%list_elem_of_fmap. by destruct (andb_prop _ _ (forallb_elem _ _ _ Hm Hin)).
  - intros k v Hk%dict_get_Some_in. by destruct (andb_prop _ _ (forallb_elem _ _ _ Hm Hk)).
Qed.

Definition legible (w : list string * doc) : Prop := Forall (fun s => no_backslash s = true) w.1.

Lemma under_legible k ws : no_backslash k = true -> Forall legible ws -> Forall legible (under k ws).
Proof.
  intros Hk Hws. unfold under. apply Forall_forall. intros w ([q v] & -> & Hq)%list_elem_of_fmap.
  apply Forall_cons_2; [done|]. exact (proj1 (Forall_forall _ _) Hws _ Hq).
Qed.

Lemma unders_legible (f : string * doc -> list (list string * doc)) m :
  (forall k v, (k, v) ∈ m -> no_backslash k = true /\ Forall legible (f (k, v))) ->
  Forall legible (concat (map (fun kv => under kv.1 (f kv)) m)).
Proof.
  intros Hm. apply Forall_concat, Forall_forall. intros ws ([k v] & -> & Hin)%list_elem_of_fmap.
  destruct (Hm k v Hin). by apply under_legible.
Qed.

Lemma writes_legible new : forall old path, no_backslashes new = true ->
  (forall d, old = Some d -> no_backslashes d = true) -> Forall legible (writes new old path).
Proof.
  assert (forall d, Forall legible [([], d)]) as Hleaf by (intros d; by repeat constructor).
  induction new as [v|l _|n IH] using doc_induction; intros old path Hnew Hold; cbn [writes];
    destruct (is_managed path); try done.
  - destruct old as [[]|]; try apply Hleaf; by destruct (doc_eq _ _).
  - destruct old as [[]|]; try apply Hleaf; by destruct (doc_eq _ _).
  - assert (forall k v o, (k, v) ∈ n -> (forall d, o = Some d -> no_backslashes d = true) ->
      no_backslash k = true /\ Forall legible (writes v o (path ++ [k]))) as Hchild.
    { intros k v o Hin Ho. destruct (andb_prop _ _ (forallb_elem _ _ _ Hnew Hin)) as [Hk Hv]. split; [done|].
      exact (proj1 (Forall_forall _ _) IH _ Hin o (path ++ [k]) Hv Ho). }
    destruct old as [[v|l|o]|].
    + destruct (doc_eq _ _); [done|apply Hleaf].
    + destruct (doc_eq _ _); [done|apply Hleaf].
    + destruct (no_backslashes_Mp o (Hold _ eq_refl)) as [Hko Hvo]. apply Forall_app. split.
      * apply unders_legible. intros k v Hin. apply Hchild; [done|]. intros d. apply Hvo.
      * apply Forall_forall. intros w ([k v] & Hin & Hw)%list_elem_of_omap. cbn [fst] in Hw. destruct (_ || _); [done|].
        injection Hw as <-. apply Forall_singleton, Hko. apply list_elem_of_fmap. by exists (k, v).
    + destruct n as [|kv n']; [apply Hleaf|]. apply unders_legible. intros k v Hin. by apply Hchild.
Qed.

(** No path is written twice. *)
Lemma under_paths k ws : (under k ws).*1 = cons k <$> ws.*1.
Proof. induction ws as [|w ws IH]; [done|]. cbn [under map fmap list_fmap fst]. by f_equal. Qed.

Lemma under_NoDup k ws : NoDup ws.*1 -> NoDup (under k ws).*1.
Proof. intros Hws. rewrite under_paths. by apply NoDup_fmap_2; [intros ? ? [=]|]. Qed.

Lemma unders_heads (f : string * doc -> list (list string * doc)) m q :
  q ∈ (concat (map (fun kv => under kv.1 (f kv)) m)).*1 -> exists k rest, q = k :: rest /\ k ∈ m.*1.
Proof.
  induction m as [|[k v] m IH]; [by intros ?%elem_of_nil|]. cbn [map concat fst]. rewrite fmap_app. intros [Hq|Hq]%elem_of_app.
  - apply list_elem_of_fmap in Hq as (w & -> & (w' & -> & _)%list_elem_of_fmap). exists k, w'.1. split; [done|left].
  - destruct (IH Hq) as (k' & rest & -> & Hk'). exists k', rest. split; [done|by right].
Qed.

Lemma unders_NoDup (f : string * doc -> list (list string * doc)) m : NoDup m.*1 ->
  (forall k v, (k, v) ∈ m -> NoDup (f (k, v)).*1) -> NoDup (concat (map (fun kv => under kv.1 (f kv)) m)).*1.
Proof.
  induction m as [|[k v] m IH]; [intros; constructor|]. cbn [fmap list_fmap fst]. intros [Hk Hnd]%NoDup_cons Hf.
  cbn [map concat fst]. rewrite fmap_app. apply NoDup_app. split; [apply under_NoDup, Hf; left|]. split.
  - intros q (w & -> & (w' & -> & _)%list_elem_of_fmap)%list_elem_of_fmap (k' & rest & [= <- _] & Hk')%unders_heads. done.
  - apply IH; [done|]. intros k' v' Hin. apply Hf. by right.
Qed.

Lemma writes_NoDup new : distinct new = true -> forall old path,
  (forall d, old = Some d -> distinct d = true) -> NoDup (writes new old path).*1.
Proof.
  assert (forall d : doc, NoDup [(@nil string, d)].*1) as Hleaf by (intros d; apply NoDup_singleton).
  assert (NoDup (@nil (list string * doc)).*1) as Hnil by constructor.
  induction new as [v|l _|n IH] using doc_induction; intros Hnew old path Hold; cbn [writes]; destruct (is_managed path); try done.
  - destruct old as [[]|]; try apply Hleaf; by destruct (doc_eq _ _).
  - destruct old as [[]|]; try apply Hleaf; by destruct (doc_eq _ _).
  - apply distinct_Mp in Hnew as [Hnd Hn].
    assert (forall k v o, (k, v) ∈ n -> (forall d, o = Some d -> distinct d = true) -> NoDup (writes v o (path ++ [k])).*1) as Hchild.
    { intros k v o Hin Ho. apply (proj1 (Forall_forall _ _) IH _ Hin); [|done]. eapply Hn. by apply dict_get_in. }
    destruct old as [[v|l|o]|].
    + destruct (doc_eq _ _); [done|apply Hleaf].
    + destruct (doc_eq _ _); [done|apply Hleaf].
    + destruct (proj1 (distinct_Mp o) (Hold _ eq_refl)) as [Hndo Ho]. rewrite fmap_app. apply NoDup_app. split; [|split].
      * apply unders_NoDup; [done|]. intros k v Hin. apply Hchild; [done|]. intros d. apply Ho.
      * intros q (k & rest & -> & Hk)%unders_heads (w & Hq & ([k' v'] & _ & Hw)%list_elem_of_omap)%list_elem_of_fmap.
        cbn [fst] in Hw. destruct (dict_has k' n) eqn:Hhas; [done|]. cbn [orb] in Hw. destruct (is_managed _); [done|].
        injection Hw as <-. injection Hq as -> _.
        rewrite dict_has_get in Hhas. apply bool_decide_eq_false in Hhas. apply Hhas.
        destruct (dict_get k' n) eqn:Hg; [done|]. by apply dict_get_None in Hg.
      * clear -Hndo. induction o as [|[k v] o IH]; [constructor|]. cbn [fmap list_fmap fst] in Hndo.
        apply NoDup_cons in Hndo as [Hk Hndo]. cbn [omap list_omap fst]. destruct (_ || _); [by apply IH|].
        cbn [fmap list_fmap fst]. apply NoDup_cons. split; [|by apply IH].
        intros (w & Hq & ([k' v'] & Hin & Hw)%list_elem_of_omap)%list_elem_of_fmap. cbn [fst] in Hw.
        destruct (_ || _); [done|]. injection Hw as <-. injection Hq as ->. apply Hk, list_elem_of_fmap. by exists (k', v').
    + destruct n as [|kv n']; [apply Hleaf|]. apply unders_NoDup; [done|]. intros k v Hin. by apply Hchild.
Qed.

Lemma put_section d k rest value : put d (k :: rest) value = put (Some (Mp (sub_tree d))) (k :: rest) value.
Proof. done. Qed.

Lemma put_set m path value : path <> [] -> put (Some (Mp m)) path value = Some (Mp (_set m path value)).
Proof.
  revert m. induction path as [|k rest IH]; [done|]. intros m _. cbn [put sub_tree _set]. destruct rest as [|k' rest].
  - cbn [put]. by destruct (is_null value).
  - by rewrite put_section, IH.
Qed.

Definition spelled (ws : list (list string * doc)) : tree := map (fun w => (value_key w.1, w.2)) ws.

Lemma apply_spelled base ws values : Forall (fun w => w.1 <> []) ws -> Forall legible ws ->
  exists values', apply_items base values (spelled ws) = inr values' /\ puts (Some (Mp values)) ws = Some (Mp values').
Proof.
  intros Hne. revert values. induction Hne as [|w ws Hw Hne IH]; intros values Hl; [by exists values|].
  apply Forall_cons in Hl as [Hl Hls]. destruct (IH (_set values w.1 w.2) Hls) as (values' & Happly & Hputs).
  exists values'. unfold spelled, puts in *. cbn [map apply_items foldl]. unfold apply_item.
  by rewrite parse_value_key, put_set.
Qed.

Lemma value_key_inj p q : p <> [] -> q <> [] -> legible (p, Sc VNone) -> legible (q, Sc VNone) ->
  value_key p = value_key q -> p = q.
Proof.
  intros Hp Hq Hlp Hlq Heq. pose proof (parse_value_key p Hp Hlp) as Hparse.
  rewrite Heq, parse_value_key in Hparse by done. by injection Hparse.
Qed.

Lemma spelled_writes ws out : Forall (fun w => w.1 <> []) ws -> Forall legible ws -> NoDup ws.*1 ->
  (forall w, w ∈ ws -> value_key w.1 ∉ out.*1) ->
  foldl (spelled_write []) out ws = out ++ spelled ws.
Proof.
  intros Hne. revert out. induction Hne as [|w ws Hw Hne IH]; intros out Hl Hnd Hout; [by rewrite app_nil_r|].
  apply Forall_cons in Hl as [Hl Hls]. cbn [fmap list_fmap] in Hnd. apply NoDup_cons in Hnd as [Hnew Hnd].
  cbn [foldl]. unfold spelled_write at 2. cbn [app]. rewrite dict_set_fresh by (apply Hout; left).
  rewrite IH; [by rewrite <- app_assoc|done|done|].
  intros w' Hw'. rewrite fmap_app. intros [Hin|Hin]%elem_of_app; [by apply (Hout w'); [right|]|].
  apply list_elem_of_singleton in Hin. apply value_key_inj in Hin; [|by apply (proj1 (Forall_forall _ _) Hne)|done
    |exact (proj1 (Forall_forall _ _) Hls _ Hw')|done].
  apply Hnew, list_elem_of_fmap. by exists w'.
Qed.

Lemma top_writes_nonempty new old : Forall (fun w => w.1 <> []) (writes (Mp new) (Some (Mp old)) []).
Proof.
  cbn [writes]. change (is_managed []) with false. cbn iota. apply Forall_app. split; [apply unders_nonempty|].
  apply Forall_forall. intros w (kv & _ & Hw)%list_elem_of_omap. destruct (_ || _); [done|]. by injection Hw as <-.
Qed.

Lemma at_path_app d p q : at_path d (p ++ q) = at_path (at_path d p) q.
Proof.
  revert d. induction p as [|k p IH]; intros d; [done|]. cbn [app at_path].
  destruct d as [[v|l|m]|]; [| |apply IH|]; by destruct q.
Qed.

Lemma agrees_roots old new : Forall (fun m => at_path old m = at_path new m) MANAGED_PATHS -> agrees [] old new.
Proof.
  intros Hm rest. cbn [app]. unfold is_managed. intros (m & Hin%list_elem_of_In & Hpre)%existsb_exists.
  unfold is_prefix_of in Hpre. apply bool_decide_eq_true in Hpre.
  rewrite <- (take_drop (length m) rest), Hpre, !at_path_app. f_equal.
  exact (proj1 (Forall_forall _ _) Hm _ Hin).
Qed.

(** Nothing differs from itself, but a value that is not a number. *)
Definition stable (m : tree) : bool := forallb (fun kv => doc_eq kv.2 kv.2) m.

Lemma flag_diff_self prefix m : NoDup m.*1 -> stable m = true -> _flag_diff prefix m m = [].
Proof.
  intros Hnd Hs. unfold _flag_diff.
  assert (forall l, l ⊆ m -> forall out, foldl (fun out '(k, v) =>
    match dict_get k m with
    | Some o => if doc_eq o v then out else dict_set (prefix +:+ k) v out
    | None => dict_set (prefix +:+ k) v out
    end) out l = out) as Hset.
  { intros l. induction l as [|[k v] l IH]; [done|]. intros Hl out. cbn [foldl].
    rewrite (dict_get_in k v m Hnd) by (apply Hl; left).
    pose proof (forallb_elem _ _ (k, v) Hs (Hl _ (list_elem_of_here _ _))) as Heq. cbn [snd] in Heq. rewrite Heq.
    apply IH. intros x Hx. apply Hl. by right. }
  rewrite (Hset m) by done.
  assert (forall l, l ⊆ m -> foldl (fun out '(k, _) =>
    if dict_has k m then out else dict_set (prefix +:+ k) (Sc VNone) out) [] l = []) as Hpop.
  { intros l. induction l as [|[k v] l IH]; [done|]. intros Hl. cbn [foldl]. rewrite dict_has_get.
    rewrite (dict_get_in k v m Hnd) by (apply Hl; left). apply IH. intros x Hx. apply Hl. by right. }
  by apply Hpop.
Qed.

Lemma flags_NoDup engine items : NoDup (flags engine items).*1.
Proof.
  unfold flags. assert (forall l out, NoDup out.*1 ->
    NoDup (foldl (fun out arg => read_arg engine (a_flag arg) (a_raw arg) out) out l).*1) as H.
  { intros l. induction l as [|arg l IH]; intros out Hout; [done|]. cbn [foldl]. apply IH. unfold read_arg.
    destruct (_canonical _ _ _) as [key value]. rewrite fmap_app. apply NoDup_app. split; [by apply dict_pop_NoDup|].
    split; [|apply NoDup_singleton]. intros k (kv & -> & [Hne _]%list_elem_of_filter)%list_elem_of_fmap Hk.
    by apply list_elem_of_singleton in Hk. }
  apply H. constructor.
Qed.

Lemma env_entries_NoDup r : NoDup (_env_entries r).*1.
Proof.
  unfold _env_entries. assert (forall l (out : tree), NoDup out.*1 -> NoDup (foldl (fun out e =>
    match env_entry e with
    | Some (name, m) =>
        dict_set name (match dict_pop "name" m with [("value", v)] => text (doc_str v) | _ => Mp (dict_pop "name" m) end) out
    | None => out
    end) out l).*1) as H.
  { intros l. induction l as [|e l IH]; intros out Hout; [done|]. cbn [foldl]. apply IH.
    destruct (env_entry e) as [[name m]|]; [by apply dict_set_NoDup|done]. }
  apply H. constructor.
Qed.

(** The argument lists and variables of two recipes are the same. *)
Definition same_lists (a b : Recipe) : Prop :=
  rc_engine a = rc_engine b /\
  Forall (fun m => at_path (Some (Mp (rc_values a))) m = at_path (Some (Mp (rc_values b))) m) MANAGED_PATHS.

Lemma at_listing m path k :
  sub_list (at_path (Some (Mp m)) (path ++ [k])) = listing k (foldl (fun m s => section s m) m path).
Proof.
  rewrite <- listing_path. f_equal. revert m. induction path as [|s path IH]; intros m; cbn [app at_path].
  - rewrite tree_get_cons. by destruct (dict_get k m) as [[]|].
  - rewrite tree_get_cons. destruct (path ++ [k]) as [|k' rest] eqn:Hp; [by destruct path|].
    destruct (dict_get s m) as [[| |n]|]; done.
Qed.

Lemma same_lists_read a b path k : same_lists a b -> path ++ [k] ∈ MANAGED_PATHS ->
  listing k (foldl (fun m s => section s m) (rc_values a) path)
  = listing k (foldl (fun m s => section s m) (rc_values b) path).
Proof. intros [_ Hm] Hin. rewrite <- !at_listing. by rewrite (proj1 (Forall_forall _ _) Hm _ Hin). Qed.

(** A difference in chart values alone. *)
Lemma diff_values base r :
  same_lists base r ->
  Forall (fun m => stable m = true) [top_flags r; role_own_flags r "prefill"; role_own_flags r "decode"; _env_entries r] ->
  diff base r = _value_diff (Mp (rc_values r)) (Some (Mp (rc_values base))) [] [].
Proof.
  intros Hsame Hs. pose proof Hsame as [Hengine _]. unfold diff.
  assert (top_flags base = top_flags r) as ->.
  { unfold top_flags. rewrite Hengine. f_equal. apply (same_lists_read _ _ [] _ Hsame). left. }
  assert (forall name, name ∈ ROLES -> role_own_flags base name = role_own_flags r name) as Hroles.
  { intros name Hn. unfold role_own_flags, role. rewrite Hengine. f_equal.
    apply (same_lists_read _ _ ["pd"; name] _ Hsame). unfold ROLES, MANAGED_PATHS in *. set_solver. }
  assert (_env_entries base = _env_entries r) as ->.
  { unfold _env_entries. assert ([] ++ ["env"] ∈ MANAGED_PATHS) as He%(same_lists_read base r [] "env" Hsame)
      by (unfold MANAGED_PATHS; set_solver). cbn [foldl] in He. by rewrite He. }
  assert (forall name, flags (rc_engine r) (listing "extraArgs" (role name r)) = role_own_flags r name) as Hown by done.
  unfold ROLES in *. cbn [foldl]. rewrite !Hown, !Hroles by set_solver.
  rewrite !Forall_cons in Hs. destruct Hs as (Htop & Hpre & Hdec & Henv & _). unfold env_diff.
  rewrite !flag_diff_self; [done|apply env_entries_NoDup|done|apply flags_NoDup|done|apply flags_NoDup|done|apply flags_NoDup|done].
Qed.

(** C19: For two recipes that differ in their chart values alone (same engine,
    same argument lists and same environment, all of them equal to themselves
    under [==], as anything but a NaN is), whose mappings have no key twice,
    that hold no backslash in a key, and the second of which holds no null:
    applying to the first the difference [diff] reads off the two succeeds,
    and makes its chart values those of the second at every depth (sections
    added, dropped, or turned into lists), up to the [==] the difference is
    taken with.  The three conditions are needed: without them
    [apply(base, diff(base, r)) == r] fails, as [difference_does_not_apply]
    (a null, a flag with a dot) and [backslash_is_lost] show. *)
Theorem diff_then_apply base r :
  same_lists base r ->
  Forall (fun m => stable m = true) [top_flags r; role_own_flags r "prefill"; role_own_flags r "decode"; _env_entries r] ->
  distinct (Mp (rc_values base)) = true -> distinct (Mp (rc_values r)) = true ->
  no_backslashes (Mp (rc_values base)) = true -> no_backslashes (Mp (rc_values r)) = true ->
  no_null (Mp (rc_values r)) = true ->
  exists r', apply base (diff base r) = inr r' /\ same (Mp (rc_values r')) (Mp (rc_values r)).
Proof.
  intros Hsame Hs Hdb Hdr Hbb Hbr Hnull. rewrite diff_values by done.
  set (ws := writes (Mp (rc_values r)) (Some (Mp (rc_values base))) []).
  assert (Forall (fun w => w.1 <> []) ws) as Hne by apply top_writes_nonempty.
  assert (Forall legible ws) as Hl by (apply writes_legible; [done|by intros d [= <-]]).
  rewrite value_diff_writes, spelled_writes; [|done|done|apply writes_NoDup; [done|by intros d [= <-]]|by intros w _ ?%elem_of_nil].
  destruct (apply_spelled base ws (rc_values base) Hne Hl) as (values & Happly & Hputs).
  destruct (puts_writes (Mp (rc_values r)) Hdr Hnull [] (Some (Mp (rc_values base)))) as (result & Hresult & Hsame');
    [by intros d [= <-]|apply agrees_roots, Hsame|].
  unfold apply. cbn [app]. fold ws. rewrite Happly. eexists. split; [done|]. cbn [rc_values]. fold ws in Hresult.
  rewrite Hputs in Hresult. injection Hresult as <-. exact Hsame'.
Qed.

(** A campaign's recipe and one an editor made of it: a section added, one
    dropped, a list where a number was. *)
Definition edited_recipe : Recipe :=
  mkRecipe "sglang" "sglang" ">=0.8.0"
    [("image", Mp [("repository", text "lmsysorg/sglang"); ("tag", text "v0.5.16")]);
     ("model", Mp [("name", text "glm-5"); ("gpus", text "4"); ("mountPath", text "/model")]);
     ("extraArgs", Ls (strings ["--tp-size=4"; "--enable-metrics"]));
     ("env", Ls [Mp [("name", text "NCCL_DEBUG"); ("value", text "WARN")]]);
     ("resources", Mp [("limits", Mp [("rdma/hca.shared", Sc (VInt 1))])]);
     ("scaler", Mp [("max", Ls [Sc (VInt 8)])])] "sha256:1f".

Lemma diff_then_apply_witness :
  diff production edited_recipe =
    [("values.image.tag", text "v0.5.16"); ("values.model.mountPath", text "/model");
     ("values.resources.limits[" +:+ of_chars [double_quote] +:+ "rdma/hca.shared" +:+ of_chars [double_quote] +:+ "]", Sc (VInt 1));
     ("values.scaler.max", Ls [Sc (VInt 8)]); ("values.scaler.enabled", Sc VNone);
     ("values.replicaCount", Sc VNone); ("values.terminationGracePeriodSeconds", Sc VNone)] /\
  exists r', apply production (diff production edited_recipe) = inr r' /\
    same (Mp (rc_values r')) (Mp (rc_values edited_recipe)).
Proof.
  split; [vm_compute; reflexivity|].
  apply diff_then_apply; try (vm_compute; reflexivity).
  - split; [reflexivity|]. repeat apply Forall_cons_2; try exact (Forall_nil_2 _); vm_compute; reflexivity.
  - repeat apply Forall_cons_2; try exact (Forall_nil_2 _); vm_compute; reflexivity.
Defined.

Definition sample_fields : LaunchFields :=
  mkLaunchFields "sglang" "registry:5000/team/sglang:v0.5.15@sha256:1f" "glm-5"
    [("tp_size", Sc (VInt 16)); ("env.NCCL_DEBUG", text "WARN"); ("context_length", Sc (VInt 131072))]
    [("HF_HOME", "/models")] [("/data", "/data:ro")] 2 "".

Lemma campaign_image_is_kept_witness : image (from_fields sample_fields) = "registry:5000/team/sglang:v0.5.15@sha256:1f".
Proof. refine (campaign_image_is_kept sample_fields _ _); vm_compute; reflexivity. Defined.

Lemma campaign_claims_its_cards_witness :
  total_gpus (shape (from_fields sample_fields)) = 16 /\ max_pod_gpus (shape (from_fields sample_fields)) * 2 = 16.
Proof. refine (campaign_claims_its_cards sample_fields _). vm_compute. reflexivity. Defined.

(** The promise [apply(base, diff(base, r)) == r] has two holes: a recipe whose
    values hold a null loses the key, since in a config null means "remove"; and
    a flag with a dot in its name (vLLM's [--compilation-config.level]) is read
    off a list of arguments as an address [apply] then refuses. *)
Theorem difference_does_not_apply :
  let recipe values := mkRecipe "vllm" "vllm" ">=0.5.0" values "" in
  diff (recipe []) (recipe [("affinity", Sc VNone)]) = [("values.affinity", Sc VNone)] /\
  apply (recipe []) [("values.affinity", Sc VNone)] = inr (recipe []) /\
  diff (recipe []) (recipe [("extraArgs", Ls (strings ["--compilation-config.level=3"]))])
    = [("compilation_config.level", Sc (VInt 3))] /\
  apply (recipe []) [("compilation_config.level", Sc (VInt 3))]
    = inl (BadKey (NotAnAddress "compilation_config.level")).
Proof. vm_compute. tauto. Qed.
