(* ===== verification/Failures.v ===== *)
(** Why a run died ([app/control/launch/failures.py]): the classes that blame
    the configuration, the ones that blame the infrastructure, and how a log,
    an exit status and a restart are put into one. *)
From Stdlib Require Import Ascii.
From S2P Require Import Prelude Values.
#[local] Open Scope string_scope.
#[local] Open Scope list_scope.
#[local] Open Scope Z_scope.

(** ** The classes *)
Definition INFRASTRUCTURE_FAILURES : list string :=
  ["ssh_timeout"; "image_missing"; "image_pull"; "gone"; "orphaned"; "killed_externally";
   "engine_replaced"; "port_conflict"; "gpu_busy"; "mount_failed"; "unschedulable";
   "sandbox_failed"; "unplaceable"; "cluster_setup"].

Definition TRANSIENT_PLACEMENT_FAILURES : list string := ["unschedulable"].

Definition RELEASED : string := "released".

Definition CONFIG_FAILURES : list string :=
  ["oom"; "bad_config"; "benchmark_not_passed"; "ready_timeout"; "nccl"; "segfault";
   "model_load"; "engine_crashed"].

Definition is_infrastructure (failure_class : string) : bool :=
  bool_decide (failure_class ∈ INFRASTRUCTURE_FAILURES).
Definition is_transient_placement (failure_class : string) : bool :=
  bool_decide (failure_class ∈ TRANSIENT_PLACEMENT_FAILURES).
Definition is_config_induced (failure_class : string) : bool :=
  bool_decide (failure_class ∈ CONFIG_FAILURES).

(** ** Reading a log *)

(** [needle in text]. *)
Fixpoint starts_with (needle text : list ascii) : bool :=
  match needle, text with
  | [], _ => true
  | c :: needle', d :: text' => Ascii.eqb c d && starts_with needle' text'
  | _ :: _, [] => false
  end.
Fixpoint has_sub (needle text : list ascii) : bool :=
  starts_with needle text || match text with [] => false | _ :: text' => has_sub needle text' end.
Definition contains (needle text : string) : bool := has_sub (chars needle) (chars text).

Definition failure_rules : list (string * list string) :=
  [("bad_config", ["unrecognized arguments"; "invalid argument"; "error: argument";
                   "the chart refuses"]);
   ("cluster_setup", ["cluster setup:"]);
   ("oom", ["cuda out of memory"; "outofmemoryerror"; "out of memory"]);
   ("nccl", ["nccl error"; "ncclsystemerror"; "ncclinternalerror"; "ncclunhandledcudaerror";
             "ncclinvalidusage"; "ncclremoteerror"; "nccl failure"; "nccl timeout";
             "nccl watchdog"; "communicator was aborted"; "nccl communicator"]);
   ("gpu_busy", ["gpu busy on"; "gpus busy on"]);
   ("port_conflict", ["address already in use"; "already in use on";
                      "provided port is already allocated"]);
   ("image_missing", ["unable to find image"; "failed to resolve reference";
                      "pull access denied"; "manifest unknown"]);
   ("model_load", ["no such file"; "not a valid model"; "safetensors"]);
   ("ssh_timeout", ["timed out after"]);
   ("image_pull", ["image_pull:"; "pulling from"; "manifest for"; "denied"])].

Definition rule_matches (lowered : string) (rule : string * list string) : bool :=
  existsb (fun needle => contains needle lowered) rule.2.

Definition classify_failure (log_text : string) : string :=
  match List.find (rule_matches (lower log_text)) failure_rules with
  | Some (failure_class, _) => failure_class
  | None => "unknown"
  end.

Definition classify_exit (exit_code : option Z) (oom_killed : bool) : option string :=
  if oom_killed then Some "oom"
  else match exit_code with
       | Some 137 => Some "killed_externally"
       | Some 143 => Some "terminated"
       | Some 139 => Some "segfault"
       | _ => None
       end.

(** ** The exception that explains a crash *)

(** [str.splitlines] on ASCII: a carriage return before a newline is one
    break, and a final break starts no line. *)
Definition is_break (c : ascii) : bool :=
  ((10 <=? code c) && (code c <=? 13)) || ((28 <=? code c) && (code c <=? 30)).
Fixpoint split_lines (line l : list ascii) : list (list ascii) :=
  match l with
  | [] => match line with [] => [] | _ => [reverse line] end
  | c :: l' =>
      if is_break c then
        match l' with
        | d :: l'' =>
            if (code c =? 13) && (code d =? 10) then reverse line :: split_lines [] l''
            else reverse line :: split_lines [] l'
        | [] => [reverse line]
        end
      else split_lines (c :: line) l'
  end.

Definition is_alpha (c : ascii) : bool :=
  ((65 <=? code c) && (code c <=? 90)) || ((97 <=? code c) && (code c <=? 122)).
Definition is_word (c : ascii) : bool := is_alpha c || is_digit c || (code c =? 95).

Definition ends_with (suffix l : list ascii) : bool := starts_with (reverse suffix) (reverse l).

Fixpoint take_while {A} (p : A -> bool) (l : list A) : list A :=
  match l with [] => [] | x :: l' => if p x then x :: take_while p l' else [] end.

(** [[A-Z]\w*(?:Error|Exception)], whole. *)
Definition is_exception_class (l : list ascii) : bool :=
  match l with
  | c :: rest =>
      (65 <=? code c) && (code c <=? 90) && forallb is_word rest
      && (ends_with (chars "Error") rest || ends_with (chars "Exception") rest)
  | [] => false
  end.

(** Its optional dotted prefix ends at the last dot. *)
Definition is_exception_name (l : list ascii) : bool :=
  let back := reverse l in
  let cls := reverse (take_while (fun c => negb (code c =? 46)) back) in
  match drop_while (fun c => negb (code c =? 46)) back with
  | [] => is_exception_class cls
  | _ :: prefix =>
      is_exception_class cls
      && match reverse prefix with
         | c :: rest => (is_alpha c || (code c =? 95))
                        && forallb (fun d => is_word d || (code d =? 46)) rest
         | [] => false
         end
  end.

(** [_EXCEPTION_LINE]: the name runs to the first colon, a space and a
    character that is not one follow. *)
Definition exception_line (line : list ascii) : option (list ascii * list ascii) :=
  let l := drop_while is_space line in
  let name := take_while (fun c => negb (code c =? 58)) l in
  match drop_while (fun c => negb (code c =? 58)) l with
  | _ :: " "%char :: c :: message =>
      if is_exception_name name && negb (is_space c) then Some (name, c :: message) else None
  | _ => None
  end.

Definition _ECHOES : list string :=
  ["connection closed by peer"; "connection reset by peer"; "broken pipe";
   "store unavailable"; "remote worker crash"].

Definition is_echo (text : list ascii) : bool :=
  existsb (fun e => contains e (lower (of_chars text))) _ECHOES.

Definition exception_text (found : list ascii * list ascii) : list ascii :=
  strip_chars (found.1 ++ chars ": " ++ found.2).

Fixpoint first_exception_loop (echo : list ascii) (lines : list (list ascii)) : list ascii :=
  match lines with
  | [] => take 300 echo
  | line :: rest =>
      match exception_line line with
      | None => first_exception_loop echo rest
      | Some found =>
          let text := exception_text found in
          if is_echo text
          then first_exception_loop (match echo with [] => text | _ => echo end) rest
          else take 300 text
      end
  end.

Definition first_exception (log_text : string) : string :=
  of_chars (first_exception_loop [] (split_lines [] (chars log_text))).

(** ** How an engine came back *)
Fixpoint split_on (sep : Z) (part l : list ascii) : list (list ascii) :=
  match l with
  | [] => [reverse part]
  | c :: l' => if code c =? sep then reverse part :: split_on sep [] l' else split_on sep (c :: part) l'
  end.

(** [part.rpartition(":")]: what is before the last colon, and after it. *)
Definition rpartition_colon (part : list ascii) : list ascii * list ascii :=
  let back := reverse part in
  let after := reverse (take_while (fun c => negb (code c =? 58)) back) in
  match drop_while (fun c => negb (code c =? 58)) back with
  | [] => ([], part)
  | _ :: before => (reverse before, after)
  end.

Definition isdigit (l : list ascii) : bool :=
  match l with [] => false | _ => forallb is_digit l end.

Definition digits_value (l : list ascii) : Z :=
  foldl (fun acc c => acc * 10 + (code c - 48)) 0 l.

(** [uid:restarts,uid:restarts]: a later entry of one uid replaces it. *)
Definition parse_incarnation (text : string) : gmap string Z :=
  foldl (fun out part =>
           let '(uid, count) := rpartition_colon part in
           <[ of_chars uid := if isdigit count then digits_value count else 0 ]> out)
        ∅ (where_ (fun part => match part with [] => false | _ => true end)
                  (split_on 44 [] (chars text))).

Inductive restart := Crashed | Replaced.

Definition restart_kind (before now : string) : restart :=
  let was := parse_incarnation before in
  let is_ := parse_incarnation now in
  if existsb (fun '(uid, count) => match is_ !! uid with
                                   | Some n => count <? n
                                   | None => false
                                   end) (map_to_list was)
  then Crashed else Replaced.

(** ** Lemmas *)
Lemma failure_rules_unique :
  NoDup failure_rules.*1.
Proof. apply (bool_decide_unpack _). vm_compute. exact I. Qed.

Lemma classify_failure_rule log_text :
  classify_failure log_text = "unknown" \/
  exists rule, rule ∈ failure_rules /\ classify_failure log_text = rule.1 /\
    rule_matches (lower log_text) rule = true.
Proof.
  unfold classify_failure. destruct (List.find _ _) as [[c needles]|] eqn:E; [|by left].
  right. exists (c, needles). apply List.find_some in E as [Hin Hm].
  split; [by apply list_elem_of_In|done].
Qed.

Lemma find_app {A} (P : A -> bool) l1 l2 :
  List.find P (l1 ++ l2) = match List.find P l1 with Some x => Some x | None => List.find P l2 end.
Proof. induction l1 as [|x l1 IH]; simpl; [done|]. by destruct (P x). Qed.

Lemma find_None {A} (P : A -> bool) l :
  List.find P l = None <-> Forall (fun x => P x = false) l.
Proof.
  induction l as [|x l IH]; simpl; [by split; [constructor|]|].
  rewrite Forall_cons, <-IH. destruct (P x); naive_solver.
Qed.

Lemma find_elem {A} (P : A -> bool) l x : List.find P l = Some x -> x ∈ l /\ P x = true.
Proof. intros [Hin H]%List.find_some. split; [by apply list_elem_of_In|done]. Qed.

(** In a list of rules with distinct classes, finding a class is finding the
    rule of that class. *)
Lemma find_class (P : string * list string -> bool) before rule after :
  NoDup (before ++ rule :: after).*1 ->
  (fst <$> List.find P (before ++ rule :: after) = Some rule.1 <->
   P rule = true /\ Forall (fun r => P r = false) before).
Proof.
  rewrite fmap_app, fmap_cons, find_app. intros Hnd. split.
  - intros H. apply NoDup_app in Hnd as (_ & Hb & [Ha _]%NoDup_cons).
    destruct (List.find P before) as [r|] eqn:E.
    + apply find_elem in E as [Hr _]. injection H as Hr1.
      destruct (Hb rule.1); [|left]. apply list_elem_of_fmap. eauto.
    + rewrite find_None in E. split; [|done]. simpl in H. destruct (P rule); [done|].
      destruct (List.find P after) as [r|] eqn:Er; [|done].
      apply find_elem in Er as [Hr _]. injection H as Hr1.
      destruct Ha. apply list_elem_of_fmap. eauto.
  - intros [HP Hb%find_None]. rewrite Hb. simpl. by rewrite HP.
Qed.

(** The lines that raise something, as the text they raise. *)
Definition raised (lines : list (list ascii)) : list (list ascii) :=
  exception_text <$> omap exception_line lines.

Lemma first_exception_loop_spec echo lines :
  first_exception_loop echo lines =
  take 300 (match List.find (fun t => negb (is_echo t)) (raised lines) with
            | Some t => t
            | None => match echo with [] => default [] (head (raised lines)) | _ => echo end
            end).
Proof.
  unfold raised. revert echo. induction lines as [|line lines IH]; intros echo; simpl.
  { by destruct echo. }
  destruct (exception_line line) as [found|]; simpl; [|apply IH].
  destruct (is_echo (exception_text found)) eqn:E; simpl; [|done].
  rewrite IH. destruct (List.find _ _); [done|]. destruct echo; [|done].
  destruct (exception_text found) eqn:Et; [|done].
  (* an empty text is no echo *)
  exfalso. vm_compute in E. done.
Qed.

(** ** Properties *)

(** One failure never blames both the configuration and the
    infrastructure; what is only waiting for placement is infrastructure, so
    it is never held against a config; a run taken back by a pause, a clean
    termination, a failed health check, a supervisor error and an
    unclassified log blame neither. *)
Theorem failure_verdicts_exclusive :
  (forall c, is_config_induced c = true -> is_infrastructure c = false) /\
  (forall c, is_transient_placement c = true -> is_infrastructure c = true) /\
  (forall c, c ∈ [RELEASED; "supervisor_error"; "health_check"; "bench_preflight";
                  "terminated"; "unknown"] ->
     is_infrastructure c = false /\ is_config_induced c = false).
Proof.
  split; [|split].
  - assert (Forall (fun c => is_infrastructure c = false) CONFIG_FAILURES) as H.
    { repeat constructor; vm_compute; reflexivity. }
    rewrite Forall_forall in H. intros c Hc%bool_decide_eq_true. auto.
  - intros c Hc%bool_decide_eq_true. apply bool_decide_eq_true.
    unfold TRANSIENT_PLACEMENT_FAILURES in Hc. set_solver.
  - intros c Hc. assert (Forall (fun c => is_infrastructure c = false /\ is_config_induced c = false)
      [RELEASED; "supervisor_error"; "health_check"; "bench_preflight"; "terminated"; "unknown"]) as H.
    { repeat constructor; vm_compute; reflexivity. }
    rewrite Forall_forall in H. auto.
Qed.

(** A log is classified by the first rule one of whose phrases it holds,
    whatever its case: the class is the rule's exactly when that rule matches
    and none before it does, and the log is unclassified exactly when no rule
    matches.  So an engine that refuses its arguments is a bad config even if
    its own dump of them names NCCL or memory. *)
Theorem classify_failure_first_rule (log_text : string) :
  (forall before rule after, failure_rules = before ++ rule :: after ->
     (classify_failure log_text = rule.1 <->
      rule_matches (lower log_text) rule = true /\
      Forall (fun r => rule_matches (lower log_text) r = false) before)) /\
  (classify_failure log_text = "unknown" <->
   Forall (fun r => rule_matches (lower log_text) r = false) failure_rules).
Proof.
  assert (fst <$> List.find (rule_matches (lower log_text)) failure_rules <> Some "unknown") as Hu.
  { intros H. destruct (List.find _ _) as [r|] eqn:E; [|done]. injection H as H.
    apply find_elem in E as [Hin _]. apply (list_elem_of_fmap_2 fst) in Hin.
    rewrite H in Hin. revert Hin. apply (bool_decide_unpack _). vm_compute. exact I. }
  unfold classify_failure. split.
  - intros before rule after Hl. rewrite <-find_class with (after := after).
    2: { rewrite <-Hl. apply failure_rules_unique. }
    rewrite <-Hl. destruct (List.find _ _) as [[c needles]|] eqn:E; simpl; [split; congruence|].
    split; [|done]. intros H. exfalso.
    assert (rule.1 ∈ failure_rules.*1) as Hin.
    { rewrite Hl, fmap_app. set_solver. }
    rewrite <-H in Hin. revert Hin. apply (bool_decide_unpack _). vm_compute. exact I.
  - rewrite <-find_None. destruct (List.find _ _) as [[c needles]|]; [|done].
    split; [|done]. intros ->. by destruct Hu.
Qed.

(** The explanation of a crash is the first exception of the log that does
    not merely report a peer gone; only when every exception does is it the
    first of those, and it is empty exactly when the log raises nothing.  It
    never exceeds 300 characters. *)
Theorem first_exception_is_the_cause (log_text : string) :
  let texts := raised (split_lines [] (chars log_text)) in
  first_exception log_text =
    of_chars (take 300 (match List.find (fun t => negb (is_echo t)) texts with
                        | Some t => t
                        | None => default [] (head texts)
                        end)) /\
  (String.length (first_exception log_text) <= 300)%nat.
Proof.
  cbv zeta. assert (forall l, String.length (of_chars l) = length l) as Hlen.
  { induction l; simpl; [done|by f_equal]. }
  unfold first_exception. rewrite first_exception_loop_spec. split; [done|].
  rewrite Hlen, length_take. lia.
Qed.

(** An engine crashed in place exactly when a pod it was serving from is
    still there with more restarts; any other change is a replacement. *)
Theorem restart_kind_crashed (before now : string) :
  restart_kind before now = Crashed <->
  exists uid was is_, parse_incarnation before !! uid = Some was /\
    parse_incarnation now !! uid = Some is_ /\ was < is_.
Proof.
  unfold restart_kind. cbv zeta. split.
  - intros H. destruct (existsb _ _) eqn:E; [|done].
    apply existsb_exists in E as ([uid was] & Hin & Hlt).
    apply list_elem_of_In, elem_of_map_to_list in Hin.
    destruct (_ !! uid) as [is_|] eqn:Hnow in Hlt; [|done].
    exists uid, was, is_. split; [done|]. split; [done|]. lia.
  - intros (uid & was & is_ & Hw & Hn & Hlt).
    replace (existsb _ _) with true; [done|]. symmetry. apply existsb_exists.
    exists (uid, was). split; [by apply list_elem_of_In, elem_of_map_to_list|].
    rewrite Hn. lia.
Qed.
