(* ===== verification/Scripts.v ===== *)
(** The flags a [commandOverride] script passes
    ([app/control/recipe/command.py]), and a recipe from whatever describes a
    deployment ([importer.py]): a variant, an LLMService, a recipe, a command. *)
From Stdlib Require Import Ascii.
From S2P Require Import Prelude Float Values Texts Documents Space Validation Flags Commands ExtraArgs Addresses Recipes.
From S2P Require Import Composition Conversion Failures.
#[local] Open Scope string_scope.
#[local] Open Scope list_scope.
#[local] Open Scope Z_scope.

(** ** Scripts *)
Definition opens (w : string) : bool := listed w ["if"; "case"].
Definition closes (w : string) : bool := listed w ["fi"; "esac"].
Definition _LEADS : list string := ["then"; "else"; "elif"; "do"].

(** [shlex.quote]: bare when every character is safe. *)
Definition safe_char (c : ascii) : bool :=
  is_word c || existsb (Ascii.eqb c) ["@"; "%"; "+"; "="; ":"; ","; "."; "/"; "-"]%char.
Definition shell_quote (s : string) : string :=
  match chars s with
  | [] => "''"
  | l => if forallb safe_char l then s
         else of_chars ([single_quote]
                ++ concat (map (fun c => if Ascii.eqb c single_quote
                                         then [single_quote; double_quote; single_quote; double_quote; single_quote] else [c]) l)
                ++ [single_quote])
  end.
Fixpoint space_join (l : list string) : string :=
  match l with [] => "" | [s] => s | s :: rest => s +:+ " " +:+ space_join rest end.

(** The shell text of [commandOverride]. *)
Definition _script (override : doc) : string :=
  match override with
  | Sc (VStr s) => s
  | _ =>
      let words := map doc_str (sub_list (Some override)) in
      match words with
      | sh :: c :: body :: _ =>
          if listed (last_part "/" sh) ["sh"; "bash"] && String.eqb c "-c" then body else space_join (map shell_quote words)
      | _ => space_join (map shell_quote words)
      end
  end.

(** A backslash at the end of a line joins it to the next. *)
Fixpoint joined (l : list ascii) : list ascii :=
  match l with
  | c :: l' =>
      if Ascii.eqb c backslash then
        match l' with
        | d :: l'' => if Ascii.eqb d newline then " "%char :: joined l'' else c :: joined l'
        | [] => [c]
        end
      else c :: joined l'
  | [] => []
  end.

(** A line up to the comment that [shlex] with [comments=True] drops: from a [#]
    outside quotes and not escaped, even inside a word. *)
Fixpoint uncommented (l : list ascii) (state : lex_state) : list ascii :=
  match l with
  | [] => []
  | c :: l' =>
      match state with
      | Between | InWord =>
          if Ascii.eqb c "#" then []
          else c :: uncommented l'
                 (if is_shell_space c then Between
                  else if Ascii.eqb c backslash then Escaped None
                  else if is_quote c then Quoted c else InWord)
      | Quoted q =>
          c :: uncommented l' (if Ascii.eqb c q then InWord
                               else if Ascii.eqb c backslash && Ascii.eqb q double_quote then Escaped (Some q) else Quoted q)
      | Escaped None => c :: uncommented l' InWord
      | Escaped (Some q) => c :: uncommented l' (Quoted q)
      end
  end.

(** [None] is a line whose quotes do not close. *)
Definition line_words (line : list ascii) : option (list string) := shlex (uncommented line Between) Between [] false.

(** A line's words cut into commands at [;], [&&] and [||]. *)
Definition cut_word (out : list (list string)) (word : string) : list (list string) :=
  let push w out := match out with [] => [[w]] | c :: rest => (c ++ [w]) :: rest end in
  if listed word [";"; ";;"; "&&"; "||"] then [] :: out
  else
    let ends := Texts.ends_with ";" word && negb (Texts.ends_with "\;" word) in
    let word := rstrip ";" word in
    let out := if String.eqb word "" then out else push word out in
    if ends then [] :: out else out.
Definition _commands (words : list string) : list (list string) :=
  filter (fun c => c <> []) (reverse (foldl cut_word [[]] words)).

(** [_ENGINE_COMMAND.search]: a launcher's words between blanks. *)
Fixpoint skip_spaces (l : list ascii) : list ascii :=
  match l with c :: l' => if is_space c then skip_spaces l' else l | [] => [] end.
Definition after_text (prefix : string) (l : list ascii) : option (list ascii) :=
  if bool_decide (take (String.length prefix) l = chars prefix) then Some (drop (String.length prefix) l) else None.
Definition after_two (a b : string) (l : list ascii) : option (list ascii) :=
  rest ← after_text a l;
  match rest with c :: _ => if is_space c then after_text b (skip_spaces rest) else None | [] => None end.
Definition launcher_here (l : list ascii) : bool :=
  existsb (fun o : option (list ascii) => match o with
                    | Some [] => true
                    | Some (c :: _) => is_space c
                    | None => false
                    end)
    [after_two "vllm" "serve" l; after_two "sglang" "serve" l; after_text "sglang.launch_server" l; after_two "set" "--" l].
Fixpoint launcher_after_blank (l : list ascii) : bool :=
  match l with [] => false | c :: l' => (is_space c && launcher_here l') || launcher_after_blank l' end.
Definition _ENGINE_COMMAND (s : string) : bool := launcher_here (chars s) || launcher_after_blank (chars s).

Record CommandFlags := mkCommandFlags { cf_flags : tree; cf_conditional : tree }.

Fixpoint without_leads (command : list string) : list string :=
  match command with w :: rest => if listed w _LEADS then without_leads rest else command | [] => [] end.

(** One command of a line: a branch opened or closed, or flags. *)
Definition read_command (engine : string) (acc : nat * CommandFlags) (command : list string) : nat * CommandFlags :=
  let '(depth, out) := acc in
  if existsb opens (take 1 command) then (S depth, out)
  else if existsb closes (take 1 command) then (pred depth, out)
  else
    let command := without_leads command in
    match command with
    | [] => acc
    | _ =>
        if negb (_ENGINE_COMMAND (space_join command)) then acc
        else
          let found := dict_pop "" (flags engine (strings (filter (fun w => w <> "$@") command))) in
          (depth, match depth with
                  | O => mkCommandFlags (dict_update (cf_flags out) found) (cf_conditional out)
                  | S _ => mkCommandFlags (cf_flags out) (dict_update (cf_conditional out) found)
                  end)
    end.

Definition read_line (engine : string) (acc : nat * CommandFlags) (line : list ascii) : nat * CommandFlags :=
  match line_words line with
  | None => acc
  | Some words => foldl (read_command engine) acc (_commands words)
  end.

Definition command_flags (r : Recipe) : CommandFlags :=
  match dict_get "commandOverride" (rc_values r) with
  | None | Some (Sc VNone) => mkCommandFlags [] []
  | Some override =>
      (foldl (read_line (rc_engine r)) (O, mkCommandFlags [] [])
         (split_lines [] (joined (chars (_script override))))).2
  end.

(** The engine flags a recipe runs with. *)
Definition engine_flags (r : Recipe) : tree :=
  if given "commandOverride" (rc_values r) then cf_flags (command_flags r) else top_flags r.

(** ** Importing *)
Inductive import_source := FromVariant | FromLLMService | FromRecipe | FromCommand.
Inductive import_note :=
| NoCatalogLayer
| LeftOut (keys : list string)
| DeployedAs (chart version pinned : string)
| NoImageInCommand
| WeightsWereAt (path : string).
Record Imported := mkImported { im_recipe : Recipe; im_source : import_source; im_notes : list import_note }.

(** Why a source is no recipe. *)
Inductive NotARecipe := EmptySource | NoEngineCommand | InvalidRecipe | UnknownForm | UnclosedQuote.

Definition layers_of (spec : tree) : list tree :=
  omap (fun d => match d with Mp m => Some m | _ => None end) (listing "layers" spec).
Definition layer_named (name : string) (layer : tree) : bool :=
  match dict_get "name" layer with Some d => doc_eq d (text name) | None => false end.

Definition _from_llmservice (d : tree) : Imported :=
  let spec := section "spec" d in
  let chart := section "chart" spec in
  let model := section "model" spec in
  let layers := layers_of spec in
  let '(values, notes) :=
    match List.find (layer_named "catalog") layers with
    | Some layer => (section "values" layer, [])
    | None =>
        let values := effective_values
          (map (fun layer => (match dict_get "name" layer with Some n => doc_str n | None => "None" end, section "values" layer)) layers) in
        let dropped := sort_by (key_before key_of_string) (where_ (fun k => listed k SITE_KEYS) values.*1) in
        (foldl (fun m k => dict_pop k m) values dropped,
         NoCatalogLayer :: match dropped with [] => [] | _ => [LeftOut dropped] end)
    end in
  let pinned := dict_get "version" (section "chart" (section "status" d)) in
  let version := text_at "version" chart in
  let notes := notes ++ match pinned with
    | Some p => if doc_truthy p && negb (doc_eq p (text version))
                then [DeployedAs (match dict_get "name" chart with Some n => doc_str n | None => "None" end) version (doc_str p)]
                else []
    | None => []
    end in
  let engine := doc_str (or_else (dict_get "engine" model) (or_else (dict_get "name" chart) (text "sglang"))) in
  mkImported (mkRecipe engine (doc_str (or_else (dict_get "name" chart) (text engine))) version values "") FromLLMService notes.

(** A text field of a document, its default when absent; [None] does not validate. *)
Definition text_field (key other : string) (m : tree) : option string :=
  match dict_get key m with None => Some other | Some (Sc (VStr s)) => Some s | Some _ => None end.

(** [Recipe.model_validate]. *)
Definition validated (d : tree) : option Recipe :=
  engine ← text_field "engine" "sglang" d;
  chart ← (match dict_get "chart" d with None => Some [] | Some (Mp m) => Some m | Some _ => None end);
  name ← text_field "name" "sglang" chart;
  version ← text_field "version" "" chart;
  values ← (match dict_get "values" d with None => Some [] | Some (Mp m) => Some m | Some _ => None end);
  digest ← text_field "image_digest" "" d;
  Some (mkRecipe engine name version values digest).

Inductive source := SourceArgv (items : list doc) | SourceText (text : string) | SourceDoc (d : tree).

Section imports.
(** [json.loads] of an argv, and [yaml.safe_load] of a text, [None] on an error. *)
Context (json_list : string -> option (list doc)) (yaml_load : string -> option doc).

Definition _from_command (c : command) : NotARecipe + Imported :=
  match parse_launch_command json_list c with
  | None => inl UnclosedQuote
  | Some p =>
      if bool_decide (pa_engine_args p = []) && String.eqb (pa_image p) "" then inl NoEngineCommand
      else inr (mkImported
        (from_fields (mkLaunchFields (if String.eqb (pa_engine p) "" then "sglang" else pa_engine p) (pa_image p) (pa_served_model_name p)
                        (pa_engine_args p) (pa_extra_env p) (pa_extra_volumes p) 1 "")) FromCommand
        ((if String.eqb (pa_image p) "" then [NoImageInCommand] else [])
         ++ (if String.eqb (pa_model_path p) "" then [] else [WeightsWereAt (pa_model_path p)])))
  end.

Definition parse_doc (d : tree) : NotARecipe + Imported :=
  let kind := dict_get "kind" d in
  if bool_decide (kind = Some (text "LLMService")) then inr (_from_llmservice d)
  else if bool_decide (kind = Some (text "Variant")) || (says "requires" d && given "values" d)
    then inr (mkImported (from_variant d "") FromVariant [])
  else match dict_get "values" d with
       | Some (Mp _) => match validated d with Some r => inr (mkImported r FromRecipe []) | None => inl InvalidRecipe end
       | _ => inl UnknownForm
       end.

Definition parse (s : source) : NotARecipe + Imported :=
  match s with
  | SourceArgv items => _from_command (Argv items)
  | SourceText text =>
      let text := strip text in
      if String.eqb text "" then inl EmptySource
      else match yaml_load text with Some (Mp d) => parse_doc d | _ => _from_command (Line text) end
  | SourceDoc d => parse_doc d
  end.
End imports.

(** ** What was launched is what is read *)

(** The object of a run, read as the description of a deployment, is the
    recipe it was launched from, with the chart version that was pinned: what
    the site and the run added is left behind. *)
Theorem launch_is_read_back json_list yaml_load r site run version hash obj :
  rc_engine r <> "" -> rc_chart_name r <> "" -> rc_values r <> [] ->
  llmservice r site run version hash = Some obj ->
  parse json_list yaml_load (SourceDoc obj) =
    inr (mkImported ((r <| rc_chart_version := if String.eqb version "" then rc_chart_version r else version |>)
                       <| rc_image_digest := "" |>) FromLLMService []).
Proof.
  intros He Hc Hv. unfold llmservice. intros (all & Hall & [= <-])%bind_Some.
  unfold layers in Hall. apply bind_Some in Hall as (values & Hrun & [= <-]).
  set (v := if String.eqb version "" then rc_chart_version r else version).
  unfold parse, parse_doc. match goal with |- context [dict_get "kind" ?o] => set (obj := o) end.
  change (dict_get "kind" obj) with (Some (text "LLMService")). rewrite bool_decide_eq_true_2 by done. f_equal.
  unfold _from_llmservice.
  change (dict_get "version" (section "chart" (section "status" obj))) with (@None doc).
  assert (List.find (layer_named "catalog") (layers_of (section "spec" obj))
          = Some [("name", text "catalog"); ("values", Mp (rc_values r))]) as ->.
  { unfold obj. clear obj. destruct (rc_values r) as [|kv vs]; [done|].
    match goal with |- context [section "spec" ?o] => change (section "spec" o) with (sub_tree (dict_get "spec" o)) end.
    cbn -[doc_eq run_labels site_layer text]. unfold layers_of, listing. cbn -[doc_eq]. reflexivity. }
  cbn zeta. rewrite app_nil_r.
  assert (dict_get "engine" (section "model" (section "spec" obj)) = Some (text (rc_engine r))) as ->.
  { unfold obj. cbn -[served_name]. unfold filled. apply String.eqb_neq in He. rewrite He.
    by destruct (String.eqb (served_name r) ""). }
  change (section "chart" (section "spec" obj)) with
    ([("name", text (rc_chart_name r)); ("repo", text (st_chart_repo site)); ("version", text v)]
     ++ (if String.eqb (st_chart_credentials_secret site) "" then []
         else [("credentialsRef", Mp [("name", text (st_chart_credentials_secret site))])])).
  cbn [app]. change (dict_get "name" (("name", text (rc_chart_name r)) :: _)) with (Some (text (rc_chart_name r))).
  unfold or_else. rewrite !text_truthy by done. cbn [doc_str text str_of].
  unfold text_at. change (dict_get "version" _) with (Some (text v)).
  assert ((if doc_truthy (text v) then doc_str (text v) else "") = v) as Hv'.
  { cbn. by destruct (String.eqb_spec v "") as [->|]. }
  cbn iota. by rewrite Hv'.
Qed.

Definition no_json : string -> option (list doc) := fun _ => None.
Definition no_yaml : string -> option doc := fun _ => None.

Lemma launch_is_read_back_witness :
  exists obj, llmservice production sample_site sample_run "0.8.3" "9f2c" = Some obj /\
    parse no_json no_yaml (SourceDoc obj) =
      inr (mkImported (mkRecipe "sglang" "sglang" "0.8.3" (rc_values production) "") FromLLMService []).
Proof.
  destruct (llmservice production sample_site sample_run "0.8.3" "9f2c") as [obj|] eqn:Hobj; [|vm_compute in Hobj; discriminate].
  exists obj. split; [reflexivity|].
  refine (eq_trans (launch_is_read_back no_json no_yaml production sample_site sample_run "0.8.3" "9f2c" obj _ _ _ Hobj) _);
    [discriminate|discriminate|discriminate|reflexivity].
Defined.
