(* ===== verification/Logs.v ===== *)
(** Keeping logs, best-effort and bounded
    ([app/control/orchestrator/container_logs.py]): what of a log is kept, and
    which container's log is read next.

    A log is a list of characters of one byte each. *)
From Stdlib Require Import Ascii.
From S2P Require Import Prelude Float Values Failures.
#[local] Open Scope string_scope.
#[local] Open Scope list_scope.
#[local] Open Scope Z_scope.

(** ** What is kept of a log *)
Definition text := list ascii.
Definition newline : ascii := "010"%char.
Definition carriage_return : ascii := "013"%char.
Definition is_newline (c : ascii) : bool := code c =? 10.

Definition GAP_MARK : text := chars "[... later lines dropped; the end of the log follows ...]".
Definition HEAD_LINES : nat := 800.
Definition size_of (l : text) : Z := Z.of_nat (length l).

(** [l[-n:]] for a positive [n], [""] otherwise. *)
Definition last_chars (n : Z) (l : text) : text := drop (length l - Z.to_nat n) l.

(** What follows the first newline. *)
Fixpoint after_newline (l : text) : option text :=
  match l with
  | [] => None
  | c :: l' => if is_newline c then Some l' else after_newline l'
  end.

(** The end of a log without the line it starts in the middle of. *)
Definition whole_lines (l : text) : text :=
  match after_newline l with Some (c :: rest) => c :: rest | _ => l end.

(** The start of a log up to its last newline. *)
Definition head_lines (l : text) : text :=
  let kept := reverse (drop_while (fun c => negb (is_newline c)) (reverse l)) in
  if (length kept <=? 1)%nat then l else kept.

(** [clip]: a quarter from the start, the rest from the end. *)
Definition clip_log (l : text) (max_bytes : Z) : text :=
  if (max_bytes <=? 0) || (size_of l <=? max_bytes) then l
  else
    let head := head_lines (take (Z.to_nat (max_bytes / 4)) l) in
    let room := max_bytes - size_of head - size_of GAP_MARK - 2 in
    head ++ GAP_MARK ++ newline :: whole_lines (last_chars room l).

(** [sep.join(lines)]. *)
Fixpoint join (sep : text) (lines : list text) : text :=
  match lines with
  | [] => []
  | [l] => l
  | l :: rest => l ++ sep ++ join sep rest
  end.

Definition blank_text (l : text) : bool := forallb is_space l.

(** The last frame a terminal would show of a line. *)
Definition last_frame (line : text) : text :=
  default [] (last (where_ (fun f => negb (blank_text f)) (split_on 13 [] line))).

Definition collapse_progress (l : text) : text :=
  if negb (existsb (fun c => code c =? 13) l) then l
  else join [newline] (map last_frame (split_on 10 [] l)).

(** A line that labels a pod's section: brackets around a name. *)
Definition is_section (line : text) : bool :=
  match line with
  | c :: rest =>
      (code c =? 91)
      && match reverse rest with
         | d :: inner => (code d =? 93) && negb (match inner with [] => true | _ => false end)
                         && forallb (fun x => negb (code x =? 93)) inner
         | [] => false
         end
  | [] => false
  end.

(** Where the lines that label sections start. *)
Fixpoint section_starts (at_ : nat) (lines : list text) : list nat :=
  match lines with
  | [] => []
  | l :: rest =>
      let later := section_starts (at_ + length l + 1) rest in
      if is_section l then at_ :: later else later
  end.

Definition slice (l : text) (a b : nat) : text := take (b - a) (drop a l).

(** [line, _, rest = l.partition("\n")]. *)
Fixpoint partition_newline (l : text) : text * text :=
  match l with
  | [] => ([], [])
  | c :: l' => if is_newline c then ([], l')
               else let '(line, rest) := partition_newline l' in (c :: line, rest)
  end.

(** One section in at most its share. *)
Definition keep_section (share : Z) (section : text) : text :=
  if size_of section <=? share then section
  else
    let '(first, rest) := partition_newline section in
    let '(header, body) := if is_section first then (first, rest) else ([], section) in
    let room := share - size_of header - 1 in
    let end_ := whole_lines (last_chars room body) in
    match header with
    | [] => GAP_MARK ++ newline :: end_
    | _ => header ++ newline :: GAP_MARK ++ newline :: end_
    end.

Definition ends_line (l : text) : text :=
  match last l with
  | Some c => if is_newline c then l else l ++ [newline]
  | None => l ++ [newline]
  end.

Definition tail_by_section (l : text) (max_chars : Z) : text :=
  if size_of l <=? max_chars then l
  else
    let starts := section_starts 0 (split_on 10 [] l) in
    if (length starts <? 2)%nat then last_chars max_chars l
    else
      let starts := match starts with 0%nat :: _ => starts | _ => 0%nat :: starts end in
      let bounds := starts ++ [length l] in
      let sections := map (fun ab => slice l ab.1 ab.2) (zip bounds (tail bounds)) in
      let share := Z.max (max_chars / Z.of_nat (length sections) - size_of GAP_MARK - 2) 0 in
      reverse (drop_while is_newline (reverse (concat (map (ends_line ∘ keep_section share) sections)))).

(** [l.split(needle, 1)[0]]. *)
Fixpoint before_sub (needle l : text) : text :=
  match l with
  | [] => []
  | c :: l' => if starts_with needle l then [] else c :: before_sub needle l'
  end.

(** [l.splitlines()], as [split_lines] reads them. *)
Definition lines_of (l : text) : list text := split_lines [] l.

(** A log read again: the start kept from the earlier save goes ahead of the
    latest end. *)
Definition with_head (previous latest : text) : text :=
  if blank_text previous then latest
  else
    let head_kept := take HEAD_LINES (lines_of (before_sub GAP_MARK previous)) in
    match head_kept with
    | [] => latest
    | first :: _ =>
        if starts_with first latest || bool_decide (take 1 (lines_of latest) = [first]) then latest
        else join [newline] head_kept ++ newline :: GAP_MARK ++ newline :: latest
    end.

(** ** Whose log is read next ([Snapshots]) *)

(** A policy session's container, or a run's. *)
Definition log_key := (bool * Z)%type.
Definition PER_TICK : nat := 4.

Definition saved_at (saved : gmap log_key Z) (k : log_key) : Z := default 0 (saved !! k).

(** [saved_at.setdefault(key, now)]. *)
Definition start_clock (now : Z) (saved : gmap log_key Z) (k : log_key) : gmap log_key Z :=
  match saved !! k with Some _ => saved | None => <[ k := now ]> saved end.

(** Keys no longer live are forgotten, and a new one starts its clock. *)
Definition track (saved : gmap log_key Z) (keys : list log_key) (now : Z) : gmap log_key Z :=
  foldl (start_clock now) (filter (fun kt => kt.1 ∈ keys) saved) keys.

Definition due (saved : gmap log_key Z) (keys : list log_key) (now interval : Z)
    : gmap log_key Z * list log_key :=
  if interval <=? 0 then (saved, [])
  else
    let saved := track saved keys now in
    (saved, take PER_TICK
              (sort_by (fun a b => saved_at saved a <? saved_at saved b)
                 (where_ (fun k => interval <=? now - saved_at saved k) keys))).

(** ** Lemmas *)
Lemma last_chars_suffix n l : last_chars n l `suffix_of` l.
Proof. unfold last_chars. exists (take (length l - Z.to_nat n) l). by rewrite take_drop. Qed.

Lemma length_last_chars n l : size_of (last_chars n l) <= Z.max 0 n.
Proof. unfold size_of, last_chars. rewrite length_drop. lia. Qed.

Lemma after_newline_suffix l l' : after_newline l = Some l' -> l' `suffix_of` l.
Proof.
  revert l'. induction l as [|c l IH]; intros l'; cbn; [done|].
  destruct (is_newline c); [intros [= ->]; by exists [c]|]. intros [k ->]%IH. by exists (c :: k).
Qed.

Lemma whole_lines_suffix l : whole_lines l `suffix_of` l.
Proof.
  unfold whole_lines. destruct (after_newline l) as [[|c l']|] eqn:E; try done.
  by apply after_newline_suffix.
Qed.

Lemma suffix_size (l l' : text) : l `suffix_of` l' -> size_of l <= size_of l'.
Proof. intros Hs%suffix_length. unfold size_of. lia. Qed.

Lemma drop_while_suffix {A} (p : A -> bool) l : drop_while p l `suffix_of` l.
Proof.
  induction l as [|x l IH]; [done|]. cbn. destruct (p x); [|done].
  by apply suffix_cons_r.
Qed.

Lemma head_lines_prefix l : head_lines l `prefix_of` l.
Proof.
  unfold head_lines. case_match; [done|].
  destruct (drop_while_suffix (fun c => negb (is_newline c)) (reverse l)) as [k E].
  exists (reverse k). by rewrite <-reverse_app, <-E, reverse_involutive.
Qed.

(** What a clipped log keeps, however small the bound. *)
Lemma clip_log_shape l max_bytes :
  0 < max_bytes < size_of l ->
  exists h e, clip_log l max_bytes = h ++ GAP_MARK ++ newline :: e /\
    h `prefix_of` l /\ e `suffix_of` l /\ size_of h <= max_bytes / 4 /\
    size_of e <= Z.max 0 (max_bytes - size_of h - size_of GAP_MARK - 2).
Proof.
  intros Hm. unfold clip_log. destruct (Z.leb_spec max_bytes 0); [lia|].
  destruct (Z.leb_spec (size_of l) max_bytes); [lia|]. cbn [orb].
  set (h := head_lines _). eexists h, _. split; [done|].
  assert (h `prefix_of` take (Z.to_nat (max_bytes / 4)) l) as Hh by apply head_lines_prefix.
  assert (0 <= max_bytes / 4) by (apply Z.div_pos; lia).
  split; [|split; [|split]].
  - etransitivity; [exact Hh|]. eexists. symmetry. apply take_drop.
  - etransitivity; [apply whole_lines_suffix|apply last_chars_suffix].
  - apply prefix_length in Hh. rewrite length_take in Hh. unfold size_of. lia.
  - etransitivity; [apply suffix_size, whole_lines_suffix|apply length_last_chars].
Qed.

Lemma track_lookup saved keys now k :
  track saved keys now !! k
  = if decide (k ∈ keys) then Some (default now (saved !! k)) else None.
Proof.
  unfold track. assert (forall ks s, foldl (start_clock now) s ks !! k
    = match s !! k with Some t => Some t | None => if decide (k ∈ ks) then Some now else None end) as Hf.
  { induction ks as [|x ks IH]; intros s; cbn [foldl].
    - rewrite decide_False by apply not_elem_of_nil. by destruct (s !! k).
    - rewrite IH. unfold start_clock. destruct (decide (x = k)) as [->|Hne].
      + destruct (s !! k) eqn:E; [by rewrite E|]. rewrite lookup_insert_eq, decide_True by left. done.
      + assert (start_clock now s x !! k = s !! k) as E.
        { unfold start_clock. destruct (s !! x); [done|by rewrite lookup_insert_ne]. }
        unfold start_clock in E. rewrite E.
        destruct (s !! k); [done|]. apply decide_ext. rewrite elem_of_cons. naive_solver. }
  rewrite Hf. destruct (decide (k ∈ keys)) as [Hk|Hk].
  - destruct (saved !! k) as [t|] eqn:E.
    + by rewrite (map_lookup_filter_Some_2 _ _ _ t).
    + by rewrite map_lookup_filter_None_2 by (left; done).
  - rewrite map_lookup_filter_None_2; [done|]. right. intros t _. done.
Qed.

(** Keys waiting longest go first, whatever else is due. *)
#[local] Instance saved_order saved :
  WeakOrder (fun a b : log_key => saved_at saved a <? saved_at saved b).
Proof. split; intros *; rewrite ?Z.ltb_lt, ?Z.ltb_ge; lia. Qed.

Lemma sort_split {A} (R : A -> A -> bool) `{!WeakOrder R} l n x y :
  x ∈ take n (sort_by R l) -> y ∈ drop n (sort_by R l) -> R y x = false.
Proof.
  intros Hx Hy. pose proof (sort_by_sorted R l) as Hs. revert Hs Hx Hy.
  rewrite <-(take_drop n (sort_by R l)) at 1. generalize (drop n (sort_by R l)) as d.
  induction (take n (sort_by R l)) as [|z t IH]; intros d Hs Hx Hy; [by apply not_elem_of_nil in Hx|].
  cbn in Hs. apply StronglySorted_inv in Hs as [Hs Hz].
  apply elem_of_cons in Hx as [->|Hx]; [|by eapply IH].
  rewrite Forall_forall in Hz. apply Hz. apply elem_of_app. by right.
Qed.

(** ** Properties *)

(** A kept log is bounded and keeps both ends.  A log that fits is kept
    whole; of a longer one, under any bound that leaves room for the mark of
    the gap, what is kept fits the bound, starts as the log starts, with at
    most a quarter of it, and ends as the log ends. *)
Theorem clipped_log_fits (l : text) (max_bytes : Z)
    (Hroom : size_of GAP_MARK + 2 + max_bytes / 4 <= max_bytes) :
  size_of (clip_log l max_bytes) <= max_bytes /\
  (size_of l <= max_bytes -> clip_log l max_bytes = l) /\
  (max_bytes < size_of l -> exists h e, clip_log l max_bytes = h ++ GAP_MARK ++ newline :: e /\
     h `prefix_of` l /\ e `suffix_of` l /\ size_of h <= max_bytes / 4).
Proof.
  assert (0 < max_bytes) as Hpos.
  { assert (size_of GAP_MARK = 57) as E by reflexivity. rewrite E in Hroom.
    pose proof (Z.div_mod max_bytes 4 ltac:(lia)). pose proof (Z.mod_pos_bound max_bytes 4). lia. }
  destruct (Z.leb_spec (size_of l) max_bytes) as [Hle|Hlt].
  - assert (clip_log l max_bytes = l) as E.
    { unfold clip_log. destruct (Z.leb_spec (size_of l) max_bytes); [|lia]. by rewrite orb_true_r. }
    rewrite E. split; [done|]. split; [done|lia].
  - destruct (clip_log_shape l max_bytes) as (h & e & E & Hh & He & Hq & Hs); [lia|].
    split; [|split; [lia|by eauto 10]].
    rewrite E. unfold size_of in *. rewrite !length_app. cbn [length]. lia.
Qed.

(** Logs are saved in turn.  Of the live containers, those read in a tick
    are at most four, each once, each not read for the interval; whoever was
    due and is not read has waited no longer than anyone who is; and a container
    first seen only starts its clock. *)
Theorem logs_are_read_in_turn (saved : gmap log_key Z) (keys : list log_key) (now interval : Z)
    (Hkeys : NoDup keys) (Hinterval : 0 < interval) :
  let '(saved', read) := due saved keys now interval in
  (length read <= PER_TICK)%nat /\ NoDup read /\
  (forall k, k ∈ read -> k ∈ keys /\ exists t, saved !! k = Some t /\ interval <= now - t) /\
  (forall k t, k ∈ keys -> saved !! k = Some t -> interval <= now - t -> k ∉ read ->
     length read = PER_TICK /\
     forall k' t', k' ∈ read -> saved !! k' = Some t' -> t' <= t) /\
  (forall k, saved' !! k = if decide (k ∈ keys) then Some (default now (saved !! k)) else None).
Proof.
  unfold due. destruct (Z.leb_spec interval 0); [lia|].
  set (saved' := track saved keys now). set (R := fun a b => saved_at saved' a <? saved_at saved' b).
  set (wanted := where_ _ keys).
  assert (forall k t, k ∈ keys -> saved !! k = Some t -> saved_at saved' k = t) as Hat.
  { intros k t Hk Ht. unfold saved_at, saved'. by rewrite track_lookup, decide_True, Ht. }
  assert (forall k, k ∈ wanted <-> k ∈ keys /\ exists t, saved !! k = Some t /\ interval <= now - t) as Hw.
  { intros k. unfold wanted. rewrite elem_of_where, Z.leb_le. split.
    - intros [Hk Hd]. split; [done|]. unfold saved_at, saved' in Hd. rewrite track_lookup, decide_True in Hd by done.
      destruct (saved !! k) as [t|]; cbn in Hd; [eauto|lia].
    - intros (Hk & t & Ht & Hd). split; [done|]. by rewrite (Hat k t). }
  assert (forall k, k ∈ take PER_TICK (sort_by R wanted) -> k ∈ wanted) as Hin.
  { intros k Hk. apply (elem_of_sort_by R). by eapply subseteq_take. }
  split; [rewrite length_take; lia|]. split; [|split; [|split]].
  - eapply sublist_NoDup; [|apply sublist_take]. rewrite sort_by_perm. by apply NoDup_filter.
  - intros k Hk. by apply Hw, Hin.
  - intros k t Hk Ht Hd Hnot.
    assert (k ∈ sort_by R wanted) as Hs by (apply elem_of_sort_by, Hw; eauto).
    rewrite <-(take_drop PER_TICK (sort_by R wanted)) in Hs.
    apply elem_of_app in Hs as [?|Hs]; [done|]. split.
    + rewrite length_take. enough (PER_TICK < length (sort_by R wanted))%nat by lia.
      destruct (decide (length (sort_by R wanted) <= PER_TICK)%nat) as [Hle|]; [|lia].
      rewrite drop_ge in Hs by done. by apply not_elem_of_nil in Hs.
    + intros k' t' Hk' Ht'. pose proof (sort_split R wanted PER_TICK k' k Hk' Hs) as Ho.
      unfold R in Ho. rewrite Z.ltb_ge in Ho. apply Hin, Hw in Hk' as [Hk' _].
      by rewrite (Hat k t), (Hat k' t') in Ho.
  - intros k. apply track_lookup.
Qed.

(** A bound too small for the mark is not kept to. *)
Lemma clip_exceeds_a_small_bound :
  10 < size_of (clip_log (replicate 11 "a"%char) 10).
Proof. vm_compute. reflexivity. Qed.

Lemma clipped_log_fits_witness : size_of (clip_log (replicate 200 "a"%char) 100) <= 100.
Proof. apply clipped_log_fits. vm_compute. discriminate. Defined.

Lemma logs_are_read_in_turn_witness :
  let '(_, read) := due {[ (false, 1) := 0; (false, 2) := 5 ]} [(false, 1); (false, 2); (true, 1)] 120 120 in
  NoDup read /\ (false, 1) ∈ read.
Proof.
  pose proof (logs_are_read_in_turn {[ (false, 1) := 0; (false, 2) := 5 ]}
    [(false, 1); (false, 2); (true, 1)] 120 120 ltac:(vm_compute; by repeat constructor; set_solver) ltac:(lia)) as Hd.
  destruct (due _ _ _ _) as [s read] eqn:E. destruct Hd as (_ & Hnd & _). split; [done|].
  vm_compute in E. injection E as <- <-. left.
Defined.
