(* ===== verification/Model.v ===== *)
(** The platform's rows ([app/db/models.py]) as the worker reads and writes
    them: the enumerations, one record per table, and the database.

    A moment is a number of microseconds in UTC; a column that may be NULL is
    an option.  A string column whose values are an enumeration is that
    enumeration, with [option] where the empty string is one of its values.
    Columns nobody in the modelled code reads or writes are left out. *)
From S2P Require Import Prelude Float Values Documents Space Validation.
#[local] Open Scope string_scope.
#[local] Open Scope list_scope.
#[local] Open Scope Z_scope.

(** ** Enumerations *)
Inductive MachineState := Away | Available | Reserved.
Inductive LeaseState := LeaseNone | LeaseActive | LeaseDraining | LeaseReleased.
Inductive LeaseEndMode := Polite | Eager.
Inductive RunKind := Experiment | BaselineRun | PolicyLaunch | External.
Inductive CampaignStatus := Draft | Scheduled | Active | Paused | Done.
Inductive CandidateStatus := CandPending | Valid | Invalid | Exhausted.
Inductive CandidateKind := Search | Confirmation | Verification | BaselineKind.
Inductive RunStatus :=
| Pending | Launching | WaitingReady | HealthCheck | Benching | Serving
| Succeeded | Failed | Killed.
Inductive PolicySessionStatus :=
| SessPending | Starting | Searching | Finalizing | Validating
| SessDone | SessFailed | Aborted.
(** Statuses of a contender; those whose names another enumeration has are
    [BeingServed] (serving) and [ContFailed] (failed). *)
Inductive ContenderStatus := Registered | Superseded | BeingServed | Validated | ContFailed | Skipped.
(** [launch/base.py:WaitingFor]. *)
Inductive WaitingFor := Cards | NodePort | Image.
(** [staging.py]: which benchmark a run is measured by. *)
Inductive Stage := SCREEN | VERIFY.
(** [datasets/pinning.py]: what a campaign asks for and what happened. *)
Inductive DatasetPolicy := RebuildAtStart | UseCurrent.
Inductive DatasetApplied := AppliedRebuilt | AppliedAdopted | AppliedCurrent | AppliedUnavailable.

#[export] Instance MachineState_eq : EqDecision MachineState. Proof. solve_decision. Defined.
#[export] Instance LeaseState_eq : EqDecision LeaseState. Proof. solve_decision. Defined.
#[export] Instance LeaseEndMode_eq : EqDecision LeaseEndMode. Proof. solve_decision. Defined.
#[export] Instance RunKind_eq : EqDecision RunKind. Proof. solve_decision. Defined.
#[export] Instance CampaignStatus_eq : EqDecision CampaignStatus. Proof. solve_decision. Defined.
#[export] Instance CandidateStatus_eq : EqDecision CandidateStatus. Proof. solve_decision. Defined.
#[export] Instance CandidateKind_eq : EqDecision CandidateKind. Proof. solve_decision. Defined.
#[export] Instance RunStatus_eq : EqDecision RunStatus. Proof. solve_decision. Defined.
#[export] Instance PolicySessionStatus_eq : EqDecision PolicySessionStatus. Proof. solve_decision. Defined.
#[export] Instance ContenderStatus_eq : EqDecision ContenderStatus. Proof. solve_decision. Defined.
#[export] Instance WaitingFor_eq : EqDecision WaitingFor. Proof. solve_decision. Defined.
#[export] Instance Stage_eq : EqDecision Stage. Proof. solve_decision. Defined.
#[export] Instance DatasetPolicy_eq : EqDecision DatasetPolicy. Proof. solve_decision. Defined.
#[export] Instance DatasetApplied_eq : EqDecision DatasetApplied. Proof. solve_decision. Defined.

Notation "x == y" := (bool_decide (x = y)) (at level 70) : effect_scope.

(** [TERMINAL_RUN_STATES] and [TERMINAL_SESSION_STATES]. *)
Definition terminal_run (s : RunStatus) : bool :=
  match s with Succeeded | Failed | Killed => true | _ => false end.
Definition terminal_session (s : PolicySessionStatus) : bool :=
  match s with SessDone | SessFailed | Aborted => true | _ => false end.

(** The names the columns hold. *)
Definition run_status_name (s : RunStatus) : string :=
  match s with
  | Pending => "pending" | Launching => "launching" | WaitingReady => "waiting_ready"
  | HealthCheck => "health_check" | Benching => "benching" | Serving => "serving"
  | Succeeded => "succeeded" | Failed => "failed" | Killed => "killed"
  end.
Definition candidate_kind_name (k : CandidateKind) : string :=
  match k with
  | Search => "search" | Confirmation => "confirmation"
  | Verification => "verification" | BaselineKind => "baseline"
  end.

(** A Python dict of strings. *)
Definition dict := list (string * string).

(** ** Rows *)
Record machine := Machine {
  m_id : Z;
  m_name : string;
  m_host : string;
  m_driver : string;
  m_cluster_id : option Z;
  m_node_selector : string;
  m_gpu_count : Z;
  m_gpu_type : string;
  m_state : MachineState;
  m_needs_attention : bool;
  m_attention_reason : string;
  m_attention_at : option Z;
  m_lease_state : LeaseState;
  m_lease_end_mode : option LeaseEndMode;
  m_lease_due_at : option Z;
  m_lease_deadline_at : option Z;
  m_lease_released_at : option Z;
  m_node_count : Z;
  m_node_gpu_max : Z;
  m_gpu_free : option Z;
  m_capacity_checked_at : option Z;
}.
#[export] Instance eta_machine : Eta machine := fun r =>
  Machine (m_id r) (m_name r) (m_host r) (m_driver r) (m_cluster_id r) (m_node_selector r)
    (m_gpu_count r) (m_gpu_type r) (m_state r) (m_needs_attention r) (m_attention_reason r)
    (m_attention_at r) (m_lease_state r) (m_lease_end_mode r) (m_lease_due_at r)
    (m_lease_deadline_at r) (m_lease_released_at r) (m_node_count r) (m_node_gpu_max r)
    (m_gpu_free r) (m_capacity_checked_at r).

(** What a cluster's row (or the install's settings) says about its NodePort;
    [k_server] is the API server its kubeconfig names, "" when unknown. *)
Record cluster := Cluster {
  k_service_nodeport : Z;
  k_workload_kind : string;
  k_endpoint : string;
  k_in_cluster : bool;
  k_server : string;
  k_node_host : string;
}.
#[export] Instance eta_cluster : Eta cluster := fun r =>
  Cluster (k_service_nodeport r) (k_workload_kind r) (k_endpoint r) (k_in_cluster r)
    (k_server r) (k_node_host r).

Record machine_group := MachineGroup {
  g_id : Z;
  g_name : string;
}.
#[export] Instance eta_machine_group : Eta machine_group := fun r =>
  MachineGroup (g_id r) (g_name r).

(** Recent minutes per measure, and the estimates a campaign starts from. *)
Record run_timing := RunTiming {
  tm_startup : list float;
  tm_bench_screen : list float;
  tm_bench_verify : list float;
  tm_prior_screen : option float;
  tm_prior_verify : option float;
}.
#[export] Instance eta_run_timing : Eta run_timing := fun r =>
  RunTiming (tm_startup r) (tm_bench_screen r) (tm_bench_verify r) (tm_prior_screen r)
    (tm_prior_verify r).

(** The knobs of a policy campaign ([schemas/policy.py:PolicySettings]) as they
    are stored; [settings_of] reads them through their bounds. *)
Record policy_settings := PolicySettings {
  st_max_contenders : Z;
  st_approx_minutes_each : option Z;
  st_model_startup_minutes : option Z;
  st_validation_reserve_minutes : option Z;
  st_cards : option Z;
  st_validate_production : bool;
  st_heartbeat_timeout_s : option Z;
  st_search_idle_timeout_s : option Z;
  st_search_idle_strikes : Z;
}.
#[export] Instance eta_policy_settings : Eta policy_settings := fun r =>
  PolicySettings (st_max_contenders r) (st_approx_minutes_each r) (st_model_startup_minutes r)
    (st_validation_reserve_minutes r) (st_cards r) (st_validate_production r)
    (st_heartbeat_timeout_s r) (st_search_idle_timeout_s r) (st_search_idle_strikes r).

Record campaign := Campaign {
  c_id : Z;
  c_name : string;
  c_engine : string;
  c_served_model_name : string;
  c_search_space : space;
  c_has_recipe : bool;
  c_chart_version : string;
  c_status : CampaignStatus;
  c_benchmark_slug : string;
  c_service_port : Z;
  c_run_baseline_canary : bool;
  c_share_machine : bool;
  c_machine_names : list string;
  c_node_group : string;
  c_window_start : option Z;
  c_window_end : option Z;
  c_daily_start : string;
  c_daily_end : string;
  c_schedule_timezone : string;
  c_schedule_until : option Z;
  c_override_until : option Z;
  c_max_run_minutes : Z;
  c_ready_timeout_minutes : Z;
  c_policy_id : option Z;
  c_policy_settings : policy_settings;
  c_owner_id : Z;
  c_image : string;
  c_model_path : string;
  c_extra_volumes : dict;
  c_run_timing : run_timing;
  c_confirm_top_k : Z;
  c_confirm_repeats : Z;
  c_verify_benchmark_slug : string;
  c_verify_top_k : Z;
  c_verify_max_run_minutes : Z;
  c_dataset_profile : string;
  c_dataset_policy : DatasetPolicy;
  c_dataset_build_id : string;
  c_dataset_sha256 : string;
  c_dataset_pinned_at : option Z;
  c_dataset_policy_applied : option DatasetApplied;
  c_dataset_build_row : Z;
}.
#[export] Instance eta_campaign : Eta campaign := fun r =>
  Campaign (c_id r) (c_name r) (c_engine r) (c_served_model_name r) (c_search_space r)
    (c_has_recipe r) (c_chart_version r) (c_status r) (c_benchmark_slug r) (c_service_port r)
    (c_run_baseline_canary r) (c_share_machine r) (c_machine_names r) (c_node_group r)
    (c_window_start r) (c_window_end r) (c_daily_start r) (c_daily_end r)
    (c_schedule_timezone r) (c_schedule_until r) (c_override_until r) (c_max_run_minutes r)
    (c_ready_timeout_minutes r) (c_policy_id r) (c_policy_settings r) (c_owner_id r) (c_image r)
    (c_model_path r) (c_extra_volumes r) (c_run_timing r) (c_confirm_top_k r)
    (c_confirm_repeats r) (c_verify_benchmark_slug r) (c_verify_top_k r)
    (c_verify_max_run_minutes r) (c_dataset_profile r) (c_dataset_policy r)
    (c_dataset_build_id r) (c_dataset_sha256 r) (c_dataset_pinned_at r)
    (c_dataset_policy_applied r) (c_dataset_build_row r).

Record candidate := Candidate {
  cd_id : Z;
  cd_campaign_id : Z;
  cd_config : config;
  cd_config_hash : string;
  cd_status : CandidateStatus;
  cd_validation_error : option rejection;
  cd_kind : CandidateKind;
  cd_is_baseline : bool;
  cd_repeat_of : option Z;
  cd_created_at : Z;
}.
#[export] Instance eta_candidate : Eta candidate := fun r =>
  Candidate (cd_id r) (cd_campaign_id r) (cd_config r) (cd_config_hash r) (cd_status r)
    (cd_validation_error r) (cd_kind r) (cd_is_baseline r) (cd_repeat_of r) (cd_created_at r).

Record run := Run {
  r_id : Z;
  r_campaign_id : Z;
  r_candidate_id : Z;
  r_machine_id : option Z;
  r_kind : RunKind;
  r_status : RunStatus;
  r_container_name : string;
  r_endpoint_url : string;
  r_gpu_indices : list Z;
  r_service_port : Z;
  r_launch_command : string;
  r_llmbench_submission_id : string;
  r_failure_class : string;
  r_error : string;
  r_policy_session_id : option Z;
  r_launch_run_id : option Z;
  r_engine_incarnation : string;
  r_release_requested_at : option Z;
  r_teardown_pending : bool;
  r_teardown_attempts : Z;
  r_started_at : option Z;
  r_waiting_since : option Z;
  r_waiting_for : option WaitingFor;
  r_waiting_reason : string;
  r_finished_at : option Z;
  r_dist_port : Z;
  r_node_group : string;
  r_created_at : Z;
  r_log_path : string;
  r_log_tail : string;
}.
#[export] Instance eta_run : Eta run := fun r =>
  Run (r_id r) (r_campaign_id r) (r_candidate_id r) (r_machine_id r) (r_kind r) (r_status r)
    (r_container_name r) (r_endpoint_url r) (r_gpu_indices r) (r_service_port r)
    (r_launch_command r) (r_llmbench_submission_id r) (r_failure_class r) (r_error r)
    (r_policy_session_id r) (r_launch_run_id r) (r_engine_incarnation r)
    (r_release_requested_at r) (r_teardown_pending r) (r_teardown_attempts r) (r_started_at r)
    (r_waiting_since r) (r_waiting_for r) (r_waiting_reason r) (r_finished_at r) (r_dist_port r)
    (r_node_group r) (r_created_at r) (r_log_path r) (r_log_tail r).

(** A node's key is its run and its rank, which are unique together. *)
Record run_node := RunNode {
  n_run_id : Z;
  n_rank : Z;
  n_machine_id : option Z;
  n_is_master : bool;
  n_gpu_indices : list Z;
  n_service_port : Z;
  n_container_name : string;
  n_launch_command : string;
  n_endpoint_url : string;
  n_status : RunStatus;
}.
#[export] Instance eta_run_node : Eta run_node := fun r =>
  RunNode (n_run_id r) (n_rank r) (n_machine_id r) (n_is_master r) (n_gpu_indices r)
    (n_service_port r) (n_container_name r) (n_launch_command r) (n_endpoint_url r) (n_status r).

Record result := Result {
  rs_id : Z;
  rs_run_id : Z;
  rs_source : string;
  rs_passed : bool;
  rs_objective_value : option float;
  rs_feasible : bool;
}.
#[export] Instance eta_result : Eta result := fun r =>
  Result (rs_id r) (rs_run_id r) (rs_source r) (rs_passed r) (rs_objective_value r)
    (rs_feasible r).

Record policy_session := PolicySession {
  ps_id : Z;
  ps_campaign_id : Z;
  ps_policy_id : Z;
  ps_machine_id : option Z;
  ps_window_start : option Z;
  ps_status : PolicySessionStatus;
  ps_finalize_requested_at : option Z;
  ps_abort_requested_at : option Z;
  ps_gpu_indices : list Z;
  ps_ports : list Z;
  ps_container_name : string;
  ps_launch_command : string;
  ps_started_at : option Z;
  ps_first_heartbeat_at : option Z;
  ps_last_heartbeat_at : option Z;
  ps_policy_message : string;
  ps_policy_status : string;
  ps_last_activity_at : option Z;
  ps_idle_strikes : Z;
  ps_last_idle_strike_at : option Z;
  ps_search_end_reason : string;
  ps_finalized_at : option Z;
  ps_serving_contender_id : option Z;
  ps_failure_class : string;
  ps_error : string;
  ps_log_tail : string;
}.
#[export] Instance eta_policy_session : Eta policy_session := fun r =>
  PolicySession (ps_id r) (ps_campaign_id r) (ps_policy_id r) (ps_machine_id r)
    (ps_window_start r) (ps_status r) (ps_finalize_requested_at r) (ps_abort_requested_at r)
    (ps_gpu_indices r) (ps_ports r) (ps_container_name r) (ps_launch_command r)
    (ps_started_at r) (ps_first_heartbeat_at r) (ps_last_heartbeat_at r) (ps_policy_message r)
    (ps_policy_status r) (ps_last_activity_at r) (ps_idle_strikes r) (ps_last_idle_strike_at r)
    (ps_search_end_reason r) (ps_finalized_at r) (ps_serving_contender_id r)
    (ps_failure_class r) (ps_error r) (ps_log_tail r).

(** A contender's launch spec keeps its engine arguments and its image. *)
Record contender := PolicyContender {
  pc_id : Z;
  pc_session_id : Z;
  pc_rank : Z;
  pc_engine_args : config;
  pc_image : string;
  pc_config_hash : string;
  pc_status : ContenderStatus;
  pc_candidate_id : option Z;
  pc_run_id : option Z;
  pc_serve_commanded_at : option Z;
  pc_skip_reason : string;
}.
#[export] Instance eta_contender : Eta contender := fun r =>
  PolicyContender (pc_id r) (pc_session_id r) (pc_rank r) (pc_engine_args r) (pc_image r)
    (pc_config_hash r) (pc_status r) (pc_candidate_id r) (pc_run_id r) (pc_serve_commanded_at r)
    (pc_skip_reason r).

(** A session's token. *)
Record api_key := ApiKey {
  ak_id : Z;
  ak_name : string;
  ak_prefix : string;
  ak_key_hash : string;
  ak_owner_id : Z;
  ak_policy_session_id : option Z;
  ak_expires_at : option Z;
}.
#[export] Instance eta_api_key : Eta api_key := fun r =>
  ApiKey (ak_id r) (ak_name r) (ak_prefix r) (ak_key_hash r) (ak_owner_id r)
    (ak_policy_session_id r) (ak_expires_at r).

(** [le_api_key] is the key decrypted, "" when there is none. *)
Record llm_endpoint := LlmEndpoint {
  le_id : Z;
  le_base_url : string;
  le_model : string;
  le_api_key : string;
}.
#[export] Instance eta_llm_endpoint : Eta llm_endpoint := fun r =>
  LlmEndpoint (le_id r) (le_base_url r) (le_model r) (le_api_key r).

(** [po_secret_env] is the secret environment decrypted
    ([secret_env_values]). *)
Record policy := Policy {
  po_id : Z;
  po_ports : Z;
  po_gpus_in_container : bool;
  po_image : string;
  po_needs_model : option bool;
  po_env : dict;
  po_secret_env : dict;
  po_llm_endpoint_id : option Z;
}.
#[export] Instance eta_policy : Eta policy := fun r =>
  Policy (po_id r) (po_ports r) (po_gpus_in_container r) (po_image r) (po_needs_model r)
    (po_env r) (po_secret_env r) (po_llm_endpoint_id r).

Record queue_ticket := QueueTicket {
  t_id : Z;
  t_waiter : string;
  t_label : string;
  t_campaign_id : option Z;
  t_arrival : Z;
  t_rank : Z;
  t_ident : Z;
  t_issued_at : Z;
  t_seen_at : Z;
  t_position : Z;
  t_waiting_for : option WaitingFor;
  t_reason : string;
}.
#[export] Instance eta_queue_ticket : Eta queue_ticket := fun r =>
  QueueTicket (t_id r) (t_waiter r) (t_label r) (t_campaign_id r) (t_arrival r) (t_rank r)
    (t_ident r) (t_issued_at r) (t_seen_at r) (t_position r) (t_waiting_for r) (t_reason r).

Record baseline := Baseline {
  b_id : Z;
  b_served_model_name : string;
  b_engine : string;
  b_card_type : string;
  b_engine_args : config;
}.
#[export] Instance eta_baseline : Eta baseline := fun r =>
  Baseline (b_id r) (b_served_model_name r) (b_engine r) (b_card_type r) (b_engine_args r).

(** An audit event; [e_to] and [e_reason] are the payload fields the code
    reads back. *)
Record event := Event {
  e_kind : string;
  e_ts : Z;
  e_campaign_id : option Z;
  e_run_id : option Z;
  e_to : option RunStatus;
  e_reason : string;
}.
#[export] Instance eta_event : Eta event := fun r =>
  Event (e_kind r) (e_ts r) (e_campaign_id r) (e_run_id r) (e_to r) (e_reason r).

(** ** The database

    Rows by primary key; a node by run and rank, a group's member by group and
    rank.  Events are in the order they were written. *)
(** A dataset set up here, and how often it takes a new sample. *)
Record replay_dataset := ReplayDataset {
  rd_id : Z;
  rd_name : string;
  rd_refresh_hours : Z;
}.
#[export] Instance eta_replay_dataset : Eta replay_dataset := fun r =>
  ReplayDataset (rd_id r) (rd_name r) (rd_refresh_hours r).

Record database := Database {
  d_machines : gmap Z machine;
  d_clusters : gmap Z cluster;
  d_groups : gmap Z machine_group;
  d_members : gmap (Z * Z) Z;
  d_campaigns : gmap Z campaign;
  d_candidates : gmap Z candidate;
  d_runs : gmap Z run;
  d_nodes : gmap (Z * Z) run_node;
  d_results : gmap Z result;
  d_sessions : gmap Z policy_session;
  d_policies : gmap Z policy;
  d_contenders : gmap Z contender;
  d_api_keys : gmap Z api_key;
  d_endpoints : gmap Z llm_endpoint;
  d_tickets : gmap Z queue_ticket;
  d_baselines : gmap Z baseline;
  d_datasets : gmap Z replay_dataset;
  d_events : list event;
}.
#[export] Instance eta_database : Eta database := fun r =>
  Database (d_machines r) (d_clusters r) (d_groups r) (d_members r) (d_campaigns r)
    (d_candidates r) (d_runs r) (d_nodes r) (d_results r) (d_sessions r) (d_policies r)
    (d_contenders r) (d_api_keys r) (d_endpoints r) (d_tickets r) (d_baselines r) (d_datasets r)
    (d_events r).

Definition empty_database : database :=
  Database ∅ ∅ ∅ ∅ ∅ ∅ ∅ ∅ ∅ ∅ ∅ ∅ ∅ ∅ ∅ ∅ ∅ [].

