(* ===== verification/States.v ===== *)
(** The state machines of the two things that live through many ticks.

    A run ([app/control/orchestrator/states.py]): which transitions are legal,
    that every run reaches an end in a bounded number of them, and that an end
    is final.

    A policy's night, apart from how the worker runs it: the phases of a session
    and the steps between them, as [PolicySessionStatus] in [app/db/models.py]
    promises them.  [PhasesRefined] proves that the worker's tick implements
    this machine. *)
From S2P Require Import Prelude Float Values Documents Space Validation Model.
#[local] Open Scope string_scope.
#[local] Open Scope list_scope.
#[local] Open Scope Z_scope.

(** * The phases of a policy session *)

(** ** The machine *)

(** A night: which session it is, of which campaign and window, its phase, and
    whether a failure is recorded. *)
Record night := Night {
  n_id : Z;
  n_campaign : Z;
  n_window : option Z;
  n_phase : PolicySessionStatus;
  n_broken : bool;
}.

(** The container is up, or what it registered is being measured. *)
Definition under_way (st : PolicySessionStatus) : bool :=
  match st with Starting | Searching | Finalizing | Validating => true | _ => false end.
(** The policy searches, or is about to. *)
Definition exploring (st : PolicySessionStatus) : bool :=
  match st with Starting | Searching => true | _ => false end.

(** How a night that is over ended. *)
Definition closing (broken : bool) : PolicySessionStatus := if broken then SessFailed else SessDone.

(** One step of a night.  The phases only go forward; a failure, once recorded,
    stays, and decides whether the night ends [Done] or [Failed].  A container
    that cannot start is failed under the class its driver gives. *)
Inductive phase_step : PolicySessionStatus * bool -> PolicySessionStatus * bool -> Prop :=
  | step_launched b : phase_step (SessPending, b) (Starting, b)
  | step_refused b : phase_step (SessPending, b) (SessFailed, true)
  | step_called_home b : phase_step (Starting, b) (Searching, b)
  | step_finalize b b' : (b = true -> b' = true) -> phase_step (Searching, b) (Finalizing, b')
  | step_validate b b' : (b = true -> b' = true) -> phase_step (Finalizing, b) (Validating, b')
  | step_failed st b : exploring st = true -> phase_step (st, b) (Validating, true)
  | step_cannot_start b b' : (b = true -> b' = true) -> phase_step (Starting, b) (Validating, b')
  | step_noted st : under_way st = true -> phase_step (st, false) (st, true)
  | step_closed st b : under_way st = true -> phase_step (st, b) (closing b, b)
  | step_aborted st b : terminal_session st = false -> phase_step (st, b) (Aborted, b).

Definition state_of (n : night) : PolicySessionStatus * bool := (n_phase n, n_broken n).

Definition night_step (n n' : night) : Prop :=
  n_id n' = n_id n /\ n_campaign n' = n_campaign n /\ n_window n' = n_window n /\
  phase_step (state_of n) (state_of n').

(** At most one step. *)
Definition night_next (n n' : night) : Prop := n' = n \/ night_step n n'.

(** A night nobody has advanced yet. *)
Definition unstarted (n : night) : Prop := n_phase n = SessPending /\ n_broken n = false.

(** A pass over all nights: each goes on by at most one step, and those that are
    new were created pending. *)
Definition pass_on (V V' : gmap Z night) : Prop :=
  forall sid,
    match V !! sid, V' !! sid with
    | Some n, Some n' => night_next n n'
    | None, Some n' => exists n, unstarted n /\ n_id n = sid /\ night_next n n'
    | Some _, None => False
    | None, None => True
    end.

(** ** The rows behind it *)
Definition night_of (s : policy_session) : night :=
  Night (ps_id s) (ps_campaign_id s) (ps_window_start s) (ps_status s)
    (negb (String.eqb (ps_failure_class s) "")).
Definition nights (db : database) : gmap Z night := night_of <$> d_sessions db.

(** Nothing of a night changes: of what its session is and how far it is, nor of
    the contenders it registered and the tokens it was given. *)
Definition nights_kept (db db' : database) : Prop := nights db' = nights db.
Definition same_nights (db db' : database) : Prop :=
  nights_kept db db' /\ d_contenders db' = d_contenders db /\ d_api_keys db' = d_api_keys db.

#[export] Instance nights_kept_preorder : PreOrder nights_kept.
Proof. split; unfold nights_kept; [done|]. intros x y z Hxy Hyz. congruence. Qed.
#[export] Instance same_nights_preorder : PreOrder same_nights.
Proof.
  split; unfold same_nights, nights_kept; [done|].
  intros x y z (A1 & A2 & A3) (B1 & B2 & B3). split_and!; congruence.
Qed.

(** The outcome agrees with what was recorded. *)
Definition agrees (n : night) : Prop :=
  match n_phase n with SessDone => n_broken n = false | SessFailed => n_broken n = true | _ => True end.

(** Well-formed rows: each filed under its own id, its outcome agreeing with its
    failure class, and no two of one campaign and one window. *)
Record well_formed (V : gmap Z night) : Prop := {
  wf_filed sid n : V !! sid = Some n -> n_id n = sid;
  wf_agrees sid n : V !! sid = Some n -> agrees n;
  wf_unique sid sid' n n' : V !! sid = Some n -> V !! sid' = Some n' ->
    n_campaign n = n_campaign n' -> n_window n = n_window n' -> sid = sid';
}.

(** ** Lemmas *)
Lemma same_nights_rows db db' :
  d_sessions db' = d_sessions db -> d_contenders db' = d_contenders db ->
  d_api_keys db' = d_api_keys db -> same_nights db db'.
Proof. intros Es Ec Ek. split_and!; try done. unfold nights_kept, nights. by rewrite Es. Qed.

Lemma nights_kept_rows db db' : d_sessions db' = d_sessions db -> nights_kept db db'.
Proof. unfold nights_kept, nights. by intros ->. Qed.

(** Writing a session's row changes its night only. *)
Lemma alter_night sid f g db :
  (forall s, night_of (f s) = g (night_of s)) ->
  nights (db <| d_sessions ::= alter f sid |>) = alter g sid (nights db).
Proof.
  intros Hf. unfold nights. cbn. apply map_eq. intros k. rewrite lookup_fmap.
  destruct (decide (k = sid)) as [->|Hk].
  - rewrite !lookup_alter_eq, lookup_fmap. destruct (d_sessions db !! sid) as [s|]; [|done].
    cbn. by rewrite Hf.
  - by rewrite !lookup_alter_ne, lookup_fmap.
Qed.

Lemma put_session_nights sid f db :
  (forall s, night_of (f s) = night_of s) -> same_nights db (db <| d_sessions ::= alter f sid |>).
Proof.
  intros Hf. split_and!; try done. unfold nights_kept. rewrite (alter_night sid f (fun n => n)) by done.
  apply map_eq. intros k. destruct (decide (k = sid)) as [->|Hk].
  - rewrite lookup_alter_eq. by destruct (nights db !! sid).
  - by rewrite lookup_alter_ne.
Qed.

(** The rank of a phase: a step never lowers it. *)
Definition phase_rank (st : PolicySessionStatus) : nat :=
  match st with
  | SessPending => 0 | Starting => 1 | Searching => 2 | Finalizing => 3 | Validating => 4
  | SessDone | SessFailed | Aborted => 5
  end.

Lemma phase_step_forward st b st' b' :
  phase_step (st, b) (st', b') -> (phase_rank st <= phase_rank st')%nat.
Proof.
  inversion 1; subst; cbn; try lia.
  - destruct st; try done; cbn; lia.
  - destruct b'; destruct st; try done; cbn; lia.
  - destruct st; try done; cbn; lia.
Qed.

Lemma phase_step_live st b x : phase_step (st, b) x -> terminal_session st = false.
Proof. by inversion 1; subst; try done; destruct st. Qed.

(** What a night has behind it; every step adds to it. *)
Definition behind (n : night) : nat := phase_rank (n_phase n) + (if n_broken n then 1 else 0).

Lemma behind_bound n : (behind n <= 6)%nat.
Proof. unfold behind. destruct (n_phase n), (n_broken n); cbn; lia. Qed.

Lemma night_step_behind n n' : night_step n n' -> (behind n < behind n')%nat.
Proof.
  destruct n as [i c w st b], n' as [i' c' w' st' b']. unfold behind, night_step, state_of. cbn.
  intros (_ & _ & _ & Hs).
  destruct st, b, st', b'; cbn; try lia; exfalso; inversion Hs; subst; try done;
    match goal with Hb : true = true -> false = true |- _ => by specialize (Hb eq_refl) end.
Qed.

Lemma night_step_agrees n n' : night_step n n' -> agrees n -> agrees n'.
Proof.
  destruct n as [i c w st b], n' as [i' c' w' st' b']. unfold agrees, night_step, state_of. cbn.
  intros (_ & _ & _ & Hs) _. inversion Hs; subst; try done; try by destruct st'.
  by destruct b'.
Qed.

Lemma night_next_agrees n n' : night_next n n' -> agrees n -> agrees n'.
Proof. intros [->|Hs]; [done|by apply night_step_agrees]. Qed.
Lemma night_next_same n n' :
  night_next n n' -> n_id n' = n_id n /\ n_campaign n' = n_campaign n /\ n_window n' = n_window n.
Proof. intros [->|(Hi & Hc & Hw & _)]; auto. Qed.

Lemma pass_on_refl V : pass_on V V.
Proof. intros sid. destruct (V !! sid); [by left|done]. Qed.

(** * The run state machine *)
Definition ALLOWED_TRANSITIONS (s : RunStatus) : list RunStatus :=
  match s with
  | Pending => [Launching; Killed; Failed]
  | Launching => [WaitingReady; HealthCheck; Failed; Killed]
  | WaitingReady => [HealthCheck; Failed; Killed]
  | HealthCheck => [Benching; Serving; Failed; Killed]
  | Benching => [Succeeded; Failed; Killed]
  | Serving => [Succeeded; Failed; Killed]
  | Succeeded | Failed | Killed => []
  end.

Definition can_transition (current target : RunStatus) : bool :=
  bool_decide (target ∈ ALLOWED_TRANSITIONS current).

(** ** The relation and its closure *)
Inductive step : RunStatus -> RunStatus -> Prop :=
| Step s t : can_transition s t = true -> step s t.

(** A run's history: the states it enters, in order. *)
Inductive path : RunStatus -> list RunStatus -> RunStatus -> Prop :=
| PathNil s : path s [] s
| PathCons s t l u : step s t -> path t l u -> path s (t :: l) u.

(** How many transitions can still follow. *)
Definition remaining (s : RunStatus) : nat :=
  match s with
  | Pending => 5
  | Launching => 4
  | WaitingReady => 3
  | HealthCheck => 2
  | Benching | Serving => 1
  | Succeeded | Failed | Killed => 0
  end.

Lemma step_into s t : step s t -> can_transition s t = true.
Proof. by intros []. Qed.

Lemma step_decreases s t : step s t -> (remaining t < remaining s)%nat.
Proof.
  intros [s' t' Ht]. unfold can_transition in Ht. apply bool_decide_eq_true in Ht.
  destruct s', t'; simpl in *; set_solver || lia.
Qed.

Lemma terminal_no_step s t : terminal_run s = true -> can_transition s t = false.
Proof. destruct s, t; by vm_compute. Qed.

Lemma can_transition_from_live s t : can_transition s t = true -> terminal_run s = false.
Proof. destruct (terminal_run s) eqn:E; [|done]. intros H. by rewrite terminal_no_step in H. Qed.

Lemma live_can_end s : terminal_run s = false ->
  can_transition s Failed = true /\ can_transition s Killed = true.
Proof. destruct s; by vm_compute. Qed.

Lemma path_length s l t : path s l t -> (length l + remaining t <= remaining s)%nat.
Proof. induction 1 as [|s t l u Hst _ IH]; simpl; [lia|]. apply step_decreases in Hst. lia. Qed.

Lemma path_decreases s l t u : path s l t -> u ∈ l -> (remaining u < remaining s)%nat.
Proof.
  induction 1 as [|s t l v Hst _ IH]; [by intros ?%not_elem_of_nil|].
  apply step_decreases in Hst. intros [->|Hu]%elem_of_cons; [done|]. specialize (IH Hu). lia.
Qed.

Lemma path_NoDup s l t : path s l t -> NoDup l.
Proof.
  induction 1 as [|s t l u _ Hl IH]; [constructor|]. constructor; [|done].
  intros Hin. by apply (path_decreases _ _ _ _ Hl), Nat.lt_irrefl in Hin.
Qed.

(** What is still to come on the way to SUCCEEDED. *)
Definition ahead (s : RunStatus) (l : list RunStatus) : Prop :=
  match s with
  | Pending => Launching ∈ l /\ HealthCheck ∈ l
               /\ ((Benching ∈ l /\ Serving ∉ l) \/ (Serving ∈ l /\ Benching ∉ l))
  | Launching | WaitingReady =>
      HealthCheck ∈ l /\ ((Benching ∈ l /\ Serving ∉ l) \/ (Serving ∈ l /\ Benching ∉ l))
  | HealthCheck => ((Benching ∈ l /\ Serving ∉ l) \/ (Serving ∈ l /\ Benching ∉ l))%type
  | Benching | Serving | Succeeded => (Benching ∉ l /\ Serving ∉ l)%type
  | Failed | Killed => False
  end.

Lemma path_ahead s l t : path s l t -> t = Succeeded -> ahead s l.
Proof.
  induction 1 as [s|s t l u Hst%step_into _ IH]; intros Hu.
  - subst. simpl. split; apply not_elem_of_nil.
  - specialize (IH Hu). destruct s, t; try discriminate Hst; clear Hst Hu;
      unfold ahead in *; set_solver.
Qed.

(** ** Properties *)

(** Every run ends: at most five transitions can follow a run's creation
    however it is advanced, it never enters one state twice, a run in a
    terminal state never moves again, every other state can still fail or be
    killed, and only terminal states are stuck. *)
Theorem run_lifecycle_terminates :
  (forall l t, path Pending l t -> (length l <= 5)%nat /\ NoDup l) /\
  (forall s t, terminal_run s = true -> ~ step s t) /\
  (forall s, (forall t, ~ step s t) -> terminal_run s = true) /\
  (forall s, terminal_run s = false -> step s Failed /\ step s Killed).
Proof.
  split; [|split; [|split]].
  - intros l t Hp. split; [|by eapply path_NoDup]. apply path_length in Hp. simpl in Hp. lia.
  - intros s t Hs Ht%step_into. by rewrite terminal_no_step in Ht.
  - intros s Hs. destruct (terminal_run s) eqn:E; [done|].
    destruct (live_can_end s E) as [Hf _]. by destruct (Hs Failed); constructor.
  - intros s [Hf Hk]%live_can_end. by split; constructor.
Qed.

(** A run is measured before it succeeds: every history that ends in
    SUCCEEDED went through the launch and the health check, and then through
    a benchmark or through being served to a policy, never both. *)
Theorem success_was_measured (l : list RunStatus) (Hl : path Pending l Succeeded) :
  Launching ∈ l /\ HealthCheck ∈ l /\
  ((Benching ∈ l /\ Serving ∉ l) \/ (Serving ∈ l /\ Benching ∉ l)).
Proof.
  exact (path_ahead _ _ _ Hl eq_refl).
Qed.

Lemma success_was_measured_witness :
  path Pending [Launching; HealthCheck; Serving; Succeeded] Succeeded /\
  HealthCheck ∈ [Launching; HealthCheck; Serving; Succeeded].
Proof.
  assert (path Pending [Launching; HealthCheck; Serving; Succeeded] Succeeded) as Hp.
  { repeat (eapply PathCons; [constructor; vm_compute; reflexivity|]). constructor. }
  split; [exact Hp|]. exact (proj1 (proj2 (success_was_measured _ Hp))).
Defined.
