(* ===== verification/Packing.v ===== *)
(** Which candidate to start next in the cards free on a machine
    ([app/control/orchestrator/packing.py]). *)
From S2P Require Import Prelude.
#[local] Open Scope list_scope.
#[local] Open Scope Z_scope.

Record Placement := mkPlacement { p_candidate_id : Z; p_cards : Z }.

(** Widest first, then the lowest candidate. *)
Definition placement_key (p : Placement) : list Z := [- p_cards p; p_candidate_id p].

Definition choose_next (free_cards : Z) (pending : list Placement) : option Placement :=
  min_by (key_before placement_key)
         (where_ (fun p => (0 <? p_cards p) && (p_cards p <=? free_cards)) pending).

(** [range(n)]. *)
Definition range (n : Z) : list Z := seqZ 0 n.

Definition free_indices (gpu_count : Z) (taken : list Z) : list Z :=
  where_ (fun index => negb (bool_decide (index ∈ taken))) (range gpu_count).

Definition sum_z (l : list Z) : Z := foldr Z.add 0 l.

Definition max_default (l : list Z) (d : Z) : Z :=
  match l with [] => d | x :: l' => foldl Z.max x l' end.

Definition rounds_needed (gpu_count : Z) (cards : list Z) : Z :=
  if gpu_count <=? 0 then Z.of_nat (length cards)
  else
    let total := sum_z (map (fun c => Z.max 1 c) cards) in
    let widest := max_default cards 0 in
    Z.max (- ((- total) / gpu_count)) (if widest =? 0 then 0 else 1).

(** ** Lemmas *)
Lemma elem_of_range n i : i ∈ range n <-> 0 <= i < n.
Proof. unfold range. rewrite elem_of_seqZ. lia. Qed.

Lemma NoDup_range n : NoDup (range n).
Proof. apply NoDup_seqZ. Qed.

Lemma elem_of_free_indices n taken i :
  i ∈ free_indices n taken <-> 0 <= i < n /\ i ∉ taken.
Proof.
  unfold free_indices. rewrite elem_of_where, elem_of_range, negb_true_iff, bool_decide_eq_false.
  tauto.
Qed.

Lemma NoDup_free_indices n taken : NoDup (free_indices n taken).
Proof. apply NoDup_filter, NoDup_range. Qed.

Lemma sum_z_app l1 l2 : sum_z (l1 ++ l2) = sum_z l1 + sum_z l2.
Proof. induction l1 as [|x l1 IH]; simpl; [done|]. unfold sum_z in *. simpl. lia. Qed.

#[export] Instance sum_z_perm : Proper ((≡ₚ) ==> eq) sum_z.
Proof. induction 1; unfold sum_z in *; simpl; lia. Qed.

Lemma choose_next_fits free pending p :
  choose_next free pending = Some p -> p ∈ pending /\ 0 < p_cards p <= free.
Proof.
  intros [Hin _]%min_by_spec; [|typeclasses eauto].
  apply elem_of_where in Hin as [Hin Hc]. split; [done|lia].
Qed.

Lemma choose_next_None free pending :
  choose_next free pending = None <->
  forall p, p ∈ pending -> ~ 0 < p_cards p <= free.
Proof.
  unfold choose_next. rewrite min_by_None, where_nil. split.
  - intros H p Hp Hc. specialize (H p Hp). lia.
  - intros H p Hp. specialize (H p Hp). lia.
Qed.

(** ** Properties *)

(** The packer takes the widest pending candidate that fits in the free
    cards, the lowest id among equals, and answers nothing only when nothing
    pending fits: so a wide candidate is never passed over for a narrow one
    while it fits. *)
Theorem choose_next_widest (free_cards : Z) (pending : list Placement) :
  match choose_next free_cards pending with
  | Some p =>
      p ∈ pending /\ 0 < p_cards p <= free_cards /\
      (forall q, q ∈ pending -> 0 < p_cards q <= free_cards ->
         p_cards q < p_cards p \/
         (p_cards q = p_cards p /\ p_candidate_id p <= p_candidate_id q))
  | None => forall q, q ∈ pending -> ~ 0 < p_cards q <= free_cards
  end.
Proof.
  destruct (choose_next free_cards pending) as [p|] eqn:E.
  - destruct (choose_next_fits _ _ _ E) as [Hin Hc]. split; [done|]. split; [done|].
    intros q Hq Hqc. apply min_by_spec in E as [_ Hmin]; [|typeclasses eauto].
    specialize (Hmin q). unfold key_before, placement_key in Hmin. simpl in Hmin.
    rewrite elem_of_where in Hmin. destruct (Z.eq_dec (p_cards q) (p_cards p)); [right|left].
    + assert (tuple_lt [- p_cards q; p_candidate_id q] [- p_cards p; p_candidate_id p] = false)
        as Hlt by (apply Hmin; split; [done|lia]). simpl in Hlt. lia.
    + assert (tuple_lt [- p_cards q; p_candidate_id q] [- p_cards p; p_candidate_id p] = false)
        as Hlt by (apply Hmin; split; [done|lia]). simpl in Hlt. lia.
  - by apply choose_next_None.
Qed.

(** The round estimate is a true lower bound: however a set of candidates
    is divided into rounds that each fit on the machine, there are at least
    that many rounds. *)
Theorem rounds_needed_lower_bound (gpu_count : Z) (cards : list Z) (rounds : list (list Z))
    (Hcards : forall c, c ∈ cards -> 1 <= c)
    (Hgpu : 0 < gpu_count)
    (Hall : concat rounds ≡ₚ cards)
    (Hfit : forall r, r ∈ rounds -> sum_z r <= gpu_count) :
  rounds_needed gpu_count cards <= Z.of_nat (length rounds).
Proof.
  assert (sum_z cards <= gpu_count * Z.of_nat (length rounds)) as Hsum.
  { rewrite <-Hall. clear Hall. induction rounds as [|r rounds IH]; simpl; [lia|].
    rewrite sum_z_app. pose proof (Hfit r ltac:(left)).
    assert (sum_z (concat rounds) <= gpu_count * Z.of_nat (length rounds)); [|lia].
    apply IH. intros r' Hr'. apply Hfit. by right. }
  unfold rounds_needed. destruct (Z.leb_spec gpu_count 0); [lia|].
  assert (map (fun c => Z.max 1 c) cards = cards) as Hm.
  { clear Hall Hsum. induction cards as [|c cards IH]; simpl; [done|].
    pose proof (Hcards c ltac:(left)). f_equal; [lia|]. apply IH. intros c' Hc'.
    apply Hcards. by right. }
  rewrite Hm. apply Z.max_lub.
  - pose proof (Z.mul_div_le (- sum_z cards) gpu_count ltac:(lia)).
    pose proof (Z.mul_succ_div_gt (- sum_z cards) gpu_count ltac:(lia)). nia.
  - destruct (Z.eqb_spec (max_default cards 0) 0); [lia|].
    destruct rounds; simpl in *; [|lia].
    apply Permutation_nil in Hall. by subst.
Qed.

Lemma rounds_needed_lower_bound_witness :
  rounds_needed 8 [4; 2; 2; 4; 4] = 2 /\
  rounds_needed 8 [4; 2; 2; 4; 4] <= Z.of_nat (length [[4; 4]; [2; 2; 4]]).
Proof.
  split; [vm_compute; reflexivity|].
  apply (rounds_needed_lower_bound 8 [4; 2; 2; 4; 4] [[4; 4]; [2; 2; 4]]).
  - intros c Hc. set_unfold. lia.
  - lia.
  - apply (bool_decide_unpack _). vm_compute. exact I.
  - intros r Hr. set_unfold. destruct Hr as [->|[->|[]]]; vm_compute; discriminate.
Defined.
