(* ===== verification/Timing.v ===== *)
(** What a run of a campaign takes, learned from its runs
    ([app/control/orchestrator/timing.py]), and the two stages of evidence
    ([app/staging.py]). *)
From Stdlib Require Import SpecFloat.
From S2P Require Import Prelude Float Values Documents Space Validation Model.
#[local] Open Scope string_scope.
#[local] Open Scope list_scope.
#[local] Open Scope Z_scope.

(** ** Stages *)
Definition is_staged (c : campaign) : bool :=
  negb (String.eqb (c_verify_benchmark_slug c) "") && (0 <? c_verify_top_k c).

Definition stage_of (cd : candidate) : Stage :=
  if cd_kind cd == Verification then VERIFY else SCREEN.

Definition stage_of_run (db : database) (r : run) : Stage :=
  match d_candidates db !! r_candidate_id r with
  | Some cd => stage_of cd
  | None => SCREEN
  end.

Definition or_string (a b : string) : string := if String.eqb a "" then b else a.
(** [a or b] on integers. *)
Definition or_z (a b : Z) : Z := if a =? 0 then b else a.

Definition benchmark_slug (c : campaign) (stage : Stage) : string :=
  match stage with
  | VERIFY => or_string (c_verify_benchmark_slug c) (c_benchmark_slug c)
  | SCREEN => c_benchmark_slug c
  end.

Definition max_run_minutes (c : campaign) (stage : Stage) (default_ : Z) : Z :=
  match stage with
  | VERIFY => or_z (or_z (c_verify_max_run_minutes c) (c_max_run_minutes c)) default_
  | SCREEN => or_z (c_max_run_minutes c) default_
  end.

(** ** Samples *)
Definition KEEP : nat := 20.
Definition MARGIN : float := f_of_ratio 12 10.
Definition DEFAULT_READY_TIMEOUT_MINUTES : Z := 120.

Inductive measure := Startup | Bench (stage : Stage).

Definition samples_of (t : run_timing) (m : measure) : list float :=
  match m with
  | Startup => tm_startup t
  | Bench SCREEN => tm_bench_screen t
  | Bench VERIFY => tm_bench_verify t
  end.

Definition set_samples (m : measure) (l : list float) (t : run_timing) : run_timing :=
  match m with
  | Startup => t <| tm_startup := l |>
  | Bench SCREEN => t <| tm_bench_screen := l |>
  | Bench VERIFY => t <| tm_bench_verify := l |>
  end.

(** [l[-n:]]. *)
Definition last_n {A} (n : nat) (l : list A) : list A := drop (length l - n) l.

Definition pushed (samples : list float) (minutes : float) : list float :=
  last_n KEEP (samples ++ [f_round (f_max minutes f_zero) 2]).

Definition _push (m : measure) (minutes : float) (c : campaign) : campaign :=
  c <| c_run_timing ::= fun t => set_samples m (pushed (samples_of t m) minutes) t |>.

(** [(b - a).total_seconds() / 60]. *)
Definition _minutes (a b : Z) : float :=
  f_div (f_of_ratio (b - a) 1000000) (f_of_Z 60).

(** ** When a run got where *)
Definition events_of (db : database) (rid : Z) (kind : string) : list event :=
  where_ (fun e => (e_run_id e == Some rid) && String.eqb (e_kind e) kind) (d_events db).

(** When the run first entered a state. *)
Definition first_entered (db : database) (rid : Z) (s : RunStatus) : option Z :=
  e_ts <$> head (where_ (fun e => e_to e == Some s) (events_of db rid "run_transition")).

Definition _launched_at (db : database) (r : run) : option Z :=
  let launched := match first_entered db (r_id r) Launching with
                  | Some t => Some t
                  | None => r_started_at r
                  end in
  let placed := e_ts <$> last (events_of db (r_id r) "run_placed") in
  match launched, placed with
  | Some l, Some p => Some (if f_ltb f_zero (_minutes l p) then p else l)
  | None, p => p
  | l, None => l
  end.

Definition _LAUNCHED (k : RunKind) : bool := (k == Experiment) || (k == PolicyLaunch).

(** What one of the three recorders adds: a measure and the minutes. *)
Definition ready_sample (db : database) (r : run) (moment : Z) : option (measure * float) :=
  if negb (_LAUNCHED (r_kind r)) then None
  else (fun l => (Startup, _minutes l moment)) <$> _launched_at db r.

Definition cut_sample (db : database) (r : run) (stage : Stage) (moment : Z)
    : option (measure * float) :=
  let began := match first_entered db (r_id r) Benching with
               | Some t => Some t
               | None => if r_kind r == External then r_started_at r else None
               end in
  match began with
  | Some b => Some (Bench stage, _minutes b moment)
  | None =>
      if _LAUNCHED (r_kind r) && bool_decide (r_waiting_since r = None)
      then (fun l => (Startup, _minutes l moment)) <$> _launched_at db r
      else None
  end.

Definition finished_sample (db : database) (r : run) (stage : Stage) (moment : Z)
    : option (measure * float) :=
  if r_kind r == PolicyLaunch then None
  else
    let began := if r_kind r == External then r_started_at r
                 else first_entered db (r_id r) Benching in
    (fun b => (Bench stage, _minutes b moment)) <$> began.

(** ** Estimates *)
Definition _typical (samples : list float) : option float :=
  match samples with
  | [] => None
  | _ =>
      let ordered := sort_by f_ltb samples in
      f_ceil (f_mul (f_of_ratio 9 10) (f_of_Z (Z.of_nat (length ordered))))
      ≫= fun n => ordered !! Z.to_nat (Z.max 0 (n - 1))
  end.

Definition ready_timeout_minutes (c : campaign) : Z :=
  or_z (c_ready_timeout_minutes c) DEFAULT_READY_TIMEOUT_MINUTES.

Definition startup_minutes (c : campaign) : option float := _typical (tm_startup (c_run_timing c)).

Definition bench_minutes (c : campaign) (stage : Stage) : option float :=
  _typical (samples_of (c_run_timing c) (Bench stage)).

Definition _prior_bench (c : campaign) (stage : Stage) : option float :=
  match stage with
  | SCREEN => tm_prior_screen (c_run_timing c)
  | VERIFY => tm_prior_verify (c_run_timing c)
  end.

(** [set_priors]: the estimates that say something, rounded. *)
Definition set_priors (priors : Stage -> option float) (c : campaign) : campaign :=
  let keep s := match priors s with
                | Some m => if f_eqb m f_zero then None else Some (f_round m 2)
                | None => None
                end in
  c <| c_run_timing ::= fun t => t <| tm_prior_screen := keep SCREEN |>
                                   <| tm_prior_verify := keep VERIFY |> |>.

Definition _startup_or_bound (c : campaign) : float :=
  default (f_of_Z (ready_timeout_minutes c)) (startup_minutes c).

Definition with_margin (x : float) : option Z := f_ceil (f_mul x MARGIN).

Definition run_minutes (c : campaign) (stage : Stage) : option Z :=
  match bench_minutes c stage with
  | Some bench => with_margin (f_add bench (default f_zero (startup_minutes c)))
  | None =>
      match _prior_bench c stage with
      | Some prior => with_margin (f_add prior (_startup_or_bound c))
      | None => None
      end
  end.

Definition validation_minutes (c : campaign) : option Z * option Z :=
  let single := String.eqb (strip (c_verify_benchmark_slug c)) "" in
  let or_else (a b : option float) := match a with Some x => Some x | None => b end in
  let nonzero (a : option float) := match a with
                                    | Some x => if f_eqb x f_zero then None else Some x
                                    | None => None
                                    end in
  let bench := or_else (bench_minutes c VERIFY) (if single then bench_minutes c SCREEN else None) in
  let bench := or_else bench (or_else (nonzero (_prior_bench c VERIFY))
                                      (if single then _prior_bench c SCREEN else None)) in
  let startup := match startup_minutes c, bench with
                 | None, Some _ => Some (_startup_or_bound c)
                 | s, _ => s
                 end in
  (bench ≫= with_margin, startup ≫= with_margin).

Definition window_minutes (c : campaign) (stage : Stage) (configured fallback : Z) : Z :=
  let estimate := default fallback (run_minutes c stage) in
  if configured =? 0 then estimate else Z.min estimate configured.

(** ** Lemmas *)

(** The position [ceil(0.9 * n) - 1], as the code computes it in floats. *)
Lemma typical_index n :
  (1 <= n <= KEEP)%nat ->
  f_ceil (f_mul (f_of_ratio 9 10) (f_of_Z (Z.of_nat n))) = Some ((9 * Z.of_nat n + 9) / 10).
Proof.
  intros Hn. assert (Forall (fun n => f_ceil (f_mul (f_of_ratio 9 10) (f_of_Z (Z.of_nat n)))
                                      = Some ((9 * Z.of_nat n + 9) / 10)) (seq 1 KEEP)) as Hall.
  { apply Forall_forall. intros x Hx.
    change (seq 1 KEEP) with [1;2;3;4;5;6;7;8;9;10;11;12;13;14;15;16;17;18;19;20]%nat in Hx.
    repeat (apply elem_of_cons in Hx as [->|Hx]; [vm_compute; reflexivity|]).
    by apply not_elem_of_nil in Hx. }
  rewrite Forall_forall in Hall. apply Hall, elem_of_seq. lia.
Qed.

Lemma number_sort l :
  Forall (fun x => is_number x = true) l ->
  sort_by f_ltb l = sort_by (key_before f_key) l.
Proof.
  rewrite Forall_forall. intros Hl. apply sort_by_ext. intros x y Hx Hy.
  apply f_ltb_key; auto.
Qed.

Lemma length_last_n {A} n (l : list A) : (length (last_n n l) <= n)%nat.
Proof. unfold last_n. rewrite length_drop. lia. Qed.

Lemma last_n_snoc {A} n (l : list A) x : (0 < n)%nat -> last (last_n n (l ++ [x])) = Some x.
Proof.
  intros Hn. unfold last_n. rewrite length_app. simpl.
  destruct (Nat.le_gt_cases (length l + 1) n) as [H|H].
  - assert ((length l + 1 - n = 0)%nat) as -> by lia. rewrite drop_0. apply last_snoc.
  - rewrite drop_app_le by lia. apply last_snoc.
Qed.

(** ** Properties *)

(** The learned length of a run is one its campaign really took, and it
    covers the slow ones: for the at most twenty samples a campaign keeps it
    is a sample that at least nine tenths of them do not exceed. *)
Theorem typical_covers_nine_tenths (samples : list float)
    (Hnum : Forall (fun x => is_number x = true) samples)
    (Hlen : (1 <= length samples <= KEEP)%nat) :
  exists x, _typical samples = Some x /\ x ∈ samples /\
    (9 * length samples <= 10 * length (where_ (fun y => negb (f_ltb x y)) samples))%nat.
Proof.
  set (n := length samples) in *. set (k := Z.to_nat (Z.max 0 ((9 * Z.of_nat n + 9) / 10 - 1))).
  set (ordered := sort_by f_ltb samples).
  assert (length ordered = n) as Hord by apply length_sort_by.
  assert (k < n)%nat as Hk.
  { subst k. pose proof (Z.div_lt_upper_bound (9 * Z.of_nat n + 9) 10 (Z.of_nat n + 1)). lia. }
  destruct (lookup_lt_is_Some_2 ordered k) as [x Hx]; [lia|].
  exists x. split; [|split].
  - unfold _typical. fold ordered. rewrite Hord, typical_index by done. simpl. fold k.
    subst n. destruct samples; [simpl in Hlen; lia|done].
  - apply (elem_of_sort_by f_ltb). by eapply list_elem_of_lookup_2.
  - assert (Forall (fun y => negb (f_ltb x y) = true) (take k ordered ++ [x])) as Hall.
    { apply Forall_app. split.
      - assert (StronglySorted (fun a b => f_ltb b a = false) ordered) as Hs.
        { subst ordered. rewrite number_sort by done.
          assert (Forall (fun a => is_number a = true) (sort_by (key_before f_key) samples)) as Hn'
            by by rewrite sort_by_perm.
          revert Hn'. induction (sort_by_sorted (key_before f_key) samples) as [|a l Hs IH Ha];
            [constructor|]. intros [Hna Hnl]%Forall_cons. constructor; [by apply IH|].
          rewrite Forall_forall in *. intros b Hb. rewrite f_ltb_key; auto. by apply Ha. }
        eapply Forall_impl; [by eapply (sorted_take _ _ _ _ Hs)|]. intros y Hy. by rewrite Hy.
      - constructor; [|constructor].
        assert (is_number x = true) as Hnx.
        { rewrite Forall_forall in Hnum. apply Hnum, (elem_of_sort_by f_ltb).
          by eapply list_elem_of_lookup_2. }
        by rewrite f_ltb_key, tuple_lt_irrefl. }
    assert (S k <= length (where_ (fun y => negb (f_ltb x y)) samples))%nat as Hcount.
    { rewrite <-(sort_by_perm f_ltb samples). fold ordered.
      rewrite <-(take_drop (S k) ordered), where_app, length_app, (take_S_r _ _ _ Hx).
      rewrite where_all by done. rewrite length_app, length_take. simpl. lia. }
    subst k. pose proof (Z.mul_succ_div_gt (9 * Z.of_nat n + 9) 10). lia.
Qed.

(** A new sample is kept, never negative minutes or more than twenty of
    them, and only its own measure changes. *)
Theorem push_keeps_recent (m : measure) (minutes : float) (c : campaign) :
  let after := samples_of (c_run_timing (_push m minutes c)) m in
  (length after <= KEEP)%nat /\
  last after = Some (f_round (f_max minutes f_zero) 2) /\
  (forall m', m' <> m ->
     samples_of (c_run_timing (_push m minutes c)) m' = samples_of (c_run_timing c) m') /\
  (forall x, x ∈ after -> x ∈ samples_of (c_run_timing c) m \/
                          x = f_round (f_max minutes f_zero) 2).
Proof.
  assert (samples_of (c_run_timing (_push m minutes c)) m
          = pushed (samples_of (c_run_timing c) m) minutes) as E.
  { unfold _push. by destruct m as [|[]]. }
  cbv zeta. rewrite E. unfold pushed. split; [apply length_last_n|]. split; [|split].
  - apply last_n_snoc. unfold KEEP. lia.
  - intros m' Hm. unfold _push. destruct m as [|[]], m' as [|[]]; done.
  - intros x Hx. unfold last_n in Hx. apply subseteq_drop in Hx. set_solver.
Qed.

(** The window a run needs is never more than the cap its campaign
    configured, whatever was learned or estimated, and it is the learned
    figure when that is smaller. *)
Theorem window_minutes_capped (c : campaign) (stage : Stage) (configured fallback : Z) :
  (configured <> 0 -> window_minutes c stage configured fallback <= configured) /\
  (forall n, run_minutes c stage = Some n ->
     window_minutes c stage configured fallback <= n /\
     (n <= configured -> window_minutes c stage configured fallback = n)) /\
  (run_minutes c stage = None -> configured = 0 ->
     window_minutes c stage configured fallback = fallback).
Proof.
  unfold window_minutes. split; [|split].
  - intros Hc. destruct (Z.eqb_spec configured 0); lia.
  - intros n ->. simpl. destruct (Z.eqb_spec configured 0); lia.
  - intros -> ->. done.
Qed.

Lemma typical_covers_nine_tenths_witness :
  let l := map f_of_Z [31; 28; 45; 30; 29; 33; 30; 31; 60; 32] in
  exists x, _typical l = Some x /\ x ∈ l /\
    (9 * 10 <= 10 * length (where_ (fun y => negb (f_ltb x y)) l))%nat.
Proof.
  cbv zeta. apply (typical_covers_nine_tenths (map f_of_Z [31; 28; 45; 30; 29; 33; 30; 31; 60; 32])).
  - repeat constructor.
  - simpl. unfold KEEP. lia.
Defined.
