(* ===== verification/World.v ===== *)
(** The worker's state and what it asks of the outside.

    The state is the database, the commands sent so far, the supervisor's own
    dictionaries, and a counter of the answers received.  The outside — the
    clock, the deployment drivers, the evaluators, the plugins — is the class
    [Env]: each answer may depend on when it is asked, so a theorem that holds
    for every [Env] holds whatever drivers, benchmarks and clocks do. *)
From S2P Require Import Prelude Float Values Documents Space Validation Model.
#[local] Open Scope string_scope.
#[local] Open Scope list_scope.
#[local] Open Scope Z_scope.

(** ** What a launch is asked with ([launch/base.py]) *)
Record assignment := NodeAssignment {
  a_machine : Z;
  a_host : string;
  a_gpu_indices : list Z;
  a_rank : Z;
  a_container_name : string;
}.
#[export] Instance eta_assignment : Eta assignment := fun r =>
  NodeAssignment (a_machine r) (a_host r) (a_gpu_indices r) (a_rank r) (a_container_name r).

(** The placement half of a launch spec; the rendered recipe, environment and
    volumes are the driver's business and are not part of the model. *)
Record spec := LaunchSpec {
  sp_run_id : Z;
  sp_machine : Z;
  sp_config : config;
  sp_gpu_indices : list Z;
  sp_port : Z;
  sp_nodes : list assignment;
  sp_dist_port : Z;
  sp_rendezvous : bool;
}.
#[export] Instance eta_spec : Eta spec := fun r =>
  LaunchSpec (sp_run_id r) (sp_machine r) (sp_config r) (sp_gpu_indices r) (sp_port r)
    (sp_nodes r) (sp_dist_port r) (sp_rendezvous r).

(** [h_workload]: a policy's container, not an engine. *)
Record handle := Handle {
  h_machine : Z;
  h_endpoint_url : string;
  h_ref : string;
  h_workload : bool;
}.

(** A policy's container; [wk_gpu_indices] is [None] for one that maps no card. *)
Record workload := WorkloadSpec {
  wk_name : string;
  wk_machine : Z;
  wk_image : string;
  wk_env : dict;
  wk_volumes : dict;
  wk_gpu_indices : option (list Z);
  wk_ports : list Z;
}.

Inductive DeploymentState := StateStarting | StateReady | StateCrashed | StateGone.
Inductive WorkloadState := WorkRunning | WorkExited | WorkGone.
Inductive EvalStatus := EvalRunning | EvalPassed | EvalFailed.
#[export] Instance DeploymentState_eq : EqDecision DeploymentState. Proof. solve_decision. Defined.
#[export] Instance WorkloadState_eq : EqDecision WorkloadState. Proof. solve_decision. Defined.
#[export] Instance EvalStatus_eq : EqDecision EvalStatus. Proof. solve_decision. Defined.

(** An evaluation's outcome; [o_passed_raw] and [o_failure_class] are the
    fields of its raw report that are read. *)
Record EvalOutcome := mkOutcome {
  o_status : EvalStatus;
  o_error : string;
  o_passed_raw : option bool;
  o_failure_class : string;
  o_metrics : gmap string scalar;
}.

(** [startup_status]: the phase, and since when a container is running. *)
Inductive phase := Pulling | Running (since : option Z) | UnknownPhase.

(** ** Plugins ([plugins.py:Plugin]) *)
Record Reservation := mkReservation {
  rv_campaign_id : Z;
  rv_label : string;
  rv_cards : Z;
  rv_share : bool;
}.

(** A plugin's waiter in the machine queue; [w_try_admit] answers whether it
    was admitted (or raises), the machines it found busy, and the database it
    left; [w_campaign_id] is the attribute of that name, when it has one. *)
Record waiter := QueueWaiter {
  w_ident : Z;
  w_label : string;
  w_arrival : option Z;
  w_rank : Z;
  w_campaign_id : option Z;
  w_try_admit : database -> gset Z -> (exn + bool) * gset Z * database;
}.

Record plugin := Plugin {
  pl_name : string;
  pl_reservations : option (database -> machine -> exn + list Reservation);
  pl_queue_arrival : option (database -> campaign -> exn + option Z);
  (* the waiters it listed, and whether listing them then failed *)
  pl_queue_waiters : option (database -> list waiter * bool);
  (* a step of the tick: the database it left, or the exception it raised *)
  pl_tick_steps : list (database -> exn + database);
}.

(** ** Replay datasets ([datasets/profiles.py])

    A build as the profile API reports it. *)
Record raw_build := RawBuild {
  rb_build_id : string;
  rb_sha256 : string;
  rb_status : string;
  rb_error : string;
  (* built_at, and finished_at or created_at, when they parse as moments *)
  rb_built_at : option Z;
  rb_ended_at : option Z;
}.

Record profile := Profile {
  pf_id : Z;
  pf_name : string;
  pf_current : option raw_build;
  pf_last_build : option raw_build;
}.

(** What a capacity probe of a k8s machine reports. *)
Record probe := Probe {
  pr_supported : bool;
  pr_quota : bool;
  pr_gpu_count : option Z;
  pr_gpu_type : string;
  pr_node_count : Z;
  pr_node_gpu_max : Z;
  pr_gpu_free : option Z;
}.

(** ** The environment *)
Class Env := {
  clock : nat -> Z;
  (* core/config.py:Settings *)
  default_max_run_minutes : Z;
  image_pull_timeout_minutes : Z;
  teardown_grace_seconds : Z;
  teardown_giveup_seconds : Z;
  default_cluster : cluster;
  (* the SHA-256 of a config's canonical JSON, 16 hexadecimal digits *)
  config_hash : config -> string;
  (* the cards of a campaign's recipe with a config applied *)
  recipe_total_gpus : campaign -> config -> Z;
  (* the recipe's own [gpus] *)
  recipe_gpus : campaign -> Z;
  public_api_url : string;
  internal_api_url : string;
  (* locality.py: is the machine's cluster the one AutoTune runs in, for sure *)
  own_cluster : machine -> bool;
  policy_heartbeat_timeout_seconds : Z;
  policy_finalize_grace_seconds : Z;
  policy_search_idle_seconds : Z;
  policy_token_grace_hours : Z;
  policy_token_max_hours : Z;
  policy_start_timeout_minutes : Z;
  (* core/apikeys.py:mint: plaintext, prefix, hash *)
  mint : nat -> string * string * string;
  (* does this machine's driver override [placement]? *)
  drv_queues : machine -> bool;
  drv_attach : nat -> spec -> exn + option handle;
  drv_launch_nodes : nat -> spec -> exn + (handle * list string);
  drv_state : nat -> handle -> exn + DeploymentState;
  drv_request_stop : nat -> handle -> exn + unit;
  drv_teardown : nat -> handle -> exn + unit;
  drv_is_gone : nat -> handle -> exn + bool;
  drv_release_leftovers : nat -> spec -> exn + bool;
  drv_unfinished : nat -> handle -> exn + list string;
  drv_placement : nat -> handle -> exn + string;
  drv_startup_status : nat -> handle -> exn + phase;
  drv_failure_reason : nat -> handle -> exn + option (string * string);
  drv_exit_info : nat -> handle -> exn + (option Z * bool);
  drv_logs : nat -> handle -> exn + string;
  drv_incarnation : nat -> handle -> exn + option string;
  (* environment: the chart version installed, "" when it does not say *)
  drv_environment : nat -> handle -> exn + string;
  run_log_dir : string;
  log_file_max_bytes : Z;
  log_snapshot_seconds : Z;
  (* a saved log, "" when there is none or it cannot be read *)
  disk_read : nat -> string -> string;
  disk_write : nat -> string -> string -> exn + unit;
  drv_ensure_image : nat -> machine -> string -> exn + unit;
  drv_launch_workload : nat -> workload -> exn + string;
  drv_workload_state : nat -> handle -> exn + WorkloadState;
  drv_release_orphan_port : nat -> string -> Z -> exn + bool;
  health_start : nat -> string -> string -> exn + string;
  health_poll : nat -> string -> exn + EvalOutcome;
  health_cancel : nat -> string -> exn + unit;
  bench_start : nat -> run -> exn + string;
  bench_poll : nat -> string -> exn + EvalOutcome;
  bench_cancel : nat -> string -> exn + unit;
  (* quality.judge: the objective's value and whether the redlines hold *)
  judge : campaign -> Stage -> EvalOutcome -> option float * bool;
  (* quality.rescore: the results once those held to production's score are
     judged again, as they were when nothing is *)
  rescored : database -> run -> gmap Z result;
  (* objective.direction of the campaign's objective is "minimize" *)
  minimizes : campaign -> bool;
  (* managed.py:stop_reason: who shut a managed campaign's window, and why *)
  stop_reason : database -> campaign -> option string;
  plugins : list plugin;
  (* the traceback module: an exception's summary and its last frames *)
  traceback_text : exn -> string;
  (* time.monotonic, in seconds *)
  monotonic : nat -> Z;
  (* zoneinfo: is the name a zone; the instant of a local day and minute; the
     local day (days since the epoch) of an instant *)
  zone_known : string -> bool;
  zone_utc : string -> Z -> Z -> Z;
  zone_day : string -> Z -> Z;
  drv_probe_capacity : nat -> machine -> exn + probe;
  ds_list_profiles : nat -> exn + list profile;
  ds_trigger_build : nat -> Z -> exn + Z;
  ds_latest_build_row : nat -> Z -> exn + Z;
  ds_build : nat -> Z -> exn + raw_build;
}.

(** ** The state *)
Inductive action :=
| ActLaunch (rid : Z)
| ActStop (rid : Z)
| ActRemove (rid : Z)
| ActReleaseLeftovers (rid : Z)
| ActReleaseOrphan (service : string) (rid : Z)
| ActBenchStart (rid : Z)
| ActBenchCancel (ref : string)
| ActHealthStart (rid : Z)
| ActHealthCancel (ref : string)
| ActTriggerBuild (profile : Z)
| ActWriteLog (path : string)
| ActPullImage (mid : Z) (image : string)
| ActWorkloadStart (sid : Z)
| ActWorkloadStop (sid : Z).

Record world := World {
  w_db : database;
  w_calls : nat;
  w_log : list action;
  w_health_refs : gmap Z string;
  w_final_logs : gset Z;
  w_capacity_checked_at : Z;
  w_datasets_checked_at : Z;
  w_snapshots : gmap (bool * Z) Z;
}.
#[export] Instance eta_world : Eta world := fun r =>
  World (w_db r) (w_calls r) (w_log r) (w_health_refs r) (w_final_logs r)
    (w_capacity_checked_at r) (w_datasets_checked_at r) (w_snapshots r).

Definition W := M world.

(** A tick's transaction: the worker's state, and the database as it was last
    committed.  [sup] runs a step of the supervisor, which commits nothing. *)
Definition Tx := M (world * database).
Definition sup {A} (m : W A) : Tx A := fun s =>
  let '(r, w) := m s.1 in (r, (w, s.2)).
Definition commit : Tx unit := fun s => (inr tt, (s.1, w_db s.1)).

(** Ask the outside, after sending it [acts]. *)
Definition call {A} (acts : list action) (f : nat -> exn + A) : W A := fun w =>
  (f (w_calls w), w <| w_calls ::= S |> <| w_log ::= fun l => l ++ acts |>).

Section effects.
Context `{Env}.

Definition now : W Z := call [] (fun n => inr (clock n)).

(** ** The database *)
Definition db_ : W database := gets w_db.
Definition modify_db (f : database -> database) : W unit := modify (fun w => w <| w_db ::= f |>).

Definition get_run (rid : Z) : W run := db <- db_ ;; expect (d_runs db !! rid).
Definition get_campaign (cid : Z) : W campaign := db <- db_ ;; expect (d_campaigns db !! cid).
Definition get_candidate (id : Z) : W candidate := db <- db_ ;; expect (d_candidates db !! id).
Definition get_machine (mid : Z) : W machine := db <- db_ ;; expect (d_machines db !! mid).

(** [_master_node_values]. *)
Definition master_node (r : run) : run_node :=
  RunNode (r_id r) 0 (r_machine_id r) true (r_gpu_indices r) (r_service_port r)
    (r_container_name r) (r_launch_command r) (r_endpoint_url r) (r_status r).

(** A run's columns are written, and its rank-0 node follows them
    ([_sync_master_run_node]). *)
Definition update_run (rid : Z) (f : run -> run) (db : database) : database :=
  match d_runs db !! rid with
  | Some r =>
      let r' := (f r) <| r_id := rid |> in
      db <| d_runs ::= <[ rid := r' ]> |>
         <| d_nodes ::= alter (fun _ => master_node r') (rid, 0) |>
  | None => db
  end.

(** A run is added with its rank-0 node ([_insert_master_run_node]). *)
Definition insert_run (r : run) (db : database) : database :=
  db <| d_runs ::= <[ r_id r := r ]> |>
     <| d_nodes ::= <[ (r_id r, 0) := master_node r ]> |>.

Definition put_run (rid : Z) (f : run -> run) : W unit := modify_db (update_run rid f).
Definition add_run (r : run) : W Z :=
  db <- db_ ;;
  let rid := next_key (d_runs db) in
  modify_db (insert_run (r <| r_id := rid |>)) ;;; ret rid.
Definition put_node (k : Z * Z) (f : run_node -> run_node) : W unit :=
  modify_db (fun db => db <| d_nodes ::= alter f k |>).
Definition add_node (n : run_node) : W unit :=
  modify_db (fun db => db <| d_nodes ::= <[ (n_run_id n, n_rank n) := n ]> |>).
Definition put_machine (mid : Z) (f : machine -> machine) : W unit :=
  modify_db (fun db => db <| d_machines ::= alter f mid |>).
Definition put_campaign (cid : Z) (f : campaign -> campaign) : W unit :=
  modify_db (fun db => db <| d_campaigns ::= alter f cid |>).
Definition put_candidate (id : Z) (f : candidate -> candidate) : W unit :=
  modify_db (fun db => db <| d_candidates ::= alter f id |>).
Definition put_session (id : Z) (f : policy_session -> policy_session) : W unit :=
  modify_db (fun db => db <| d_sessions ::= alter f id |>).

Definition insert_candidate (cd : candidate) (db : database) : database :=
  db <| d_candidates ::= <[ cd_id cd := cd ]> |>.
Definition add_candidate (cd : candidate) : W Z :=
  db <- db_ ;;
  let id := next_key (d_candidates db) in
  modify_db (insert_candidate (cd <| cd_id := id |>)) ;;; ret id.
Definition add_result (r : result) : W unit :=
  modify_db (fun db => db <| d_results ::= <[ next_key (d_results db) :=
                               r <| rs_id := next_key (d_results db) |> ]> |>).

(** [_event]: an audit row, stamped by the database's clock. *)
Definition add_event (kind : string) (cid rid : option Z) (to : option RunStatus)
    (reason : string) : W unit :=
  ts <- now ;;
  modify_db (fun db => db <| d_events ::= fun l => l ++ [Event kind ts cid rid to reason] |>).
Definition event_ (kind : string) (cid rid : option Z) : W unit := add_event kind cid rid None "".

Definition put_contender (id : Z) (f : contender -> contender) : W unit :=
  modify_db (fun db => db <| d_contenders ::= alter f id |>).

(** [try: ... except Exception: log]. *)
Definition logged {A} (m : W A) (or_else : A) : W A := try_ m (fun _ => ret or_else).

Fixpoint filter_m {A} (p : A -> W bool) (l : list A) : W (list A) :=
  match l with
  | [] => ret []
  | x :: l' => b <- p x ;; rest <- filter_m p l' ;; ret (if b : bool then x :: rest else rest)
  end.
End effects.

(** ** Lemmas *)

(** A relation on databases, on the worlds that hold them. *)
Definition on_db (R : database -> database -> Prop) (w w' : world) : Prop := R (w_db w) (w_db w').

#[export] Instance on_db_preorder R `{!PreOrder R} : PreOrder (on_db R).
Proof.
  split; unfold on_db.
  - intros w. reflexivity.
  - intros w1 w2 w3 H1 H2. by etransitivity.
Qed.

Section on_db.
Context (R : database -> database -> Prop) `{!PreOrder R}.

Lemma respects_call {A} acts (f : nat -> exn + A) : respects (on_db R) (call acts f).
Proof. intros w. unfold on_db. simpl. reflexivity. Qed.
Lemma respects_modify_db f : (forall db, R db (f db)) -> respects (on_db R) (modify_db f).
Proof. intros Hf w. apply Hf. Qed.
Lemma respects_db : respects (on_db R) db_.
Proof. intros w. unfold on_db. simpl. reflexivity. Qed.
End on_db.

(** A step, then the rest from where it led. *)
Lemma bind_step {A B} (R : world -> world -> Prop) `{!PreOrder R} (m : W A) (f : A -> W B) w :
  R w (m w).2 -> (forall a w1, R w w1 -> R w1 (f a w1).2) -> R w (bind m f w).2.
Proof.
  intros Hm Hf. unfold bind. destruct (m w) as [[e|a] w1]; [done|]. cbn in Hm.
  etransitivity; [exact Hm|]. by apply Hf.
Qed.

Lemma keeps_call {A} (I : database -> Prop) acts (f : nat -> exn + A) :
  keeps (fun w => I (w_db w)) (call acts f).
Proof. intros w Hw. unfold call. by destruct (f (w_calls w)). Qed.
Lemma keeps_modify_db (I : database -> Prop) f :
  (forall db, I db -> I (f db)) -> keeps (fun w => I (w_db w)) (modify_db f).
Proof. intros Hf. apply keeps_modify. intros w. apply Hf. Qed.

#[export] Hint Resolve respects_call respects_db keeps_call : effects.
#[export] Hint Extern 1 (respects _ now) => unfold now : effects.
#[export] Hint Extern 1 (keeps _ now) => unfold now : effects.

