(* ===== verification/Samples.v ===== *)
(** A small concrete installation, on which the theorems with hypotheses are
    instantiated: two eight-card machines, one campaign, a live run on half of
    the first machine, and one candidate waiting. *)
From S2P Require Import Prelude Float Values Documents Space Validation Model Timing World.
#[local] Open Scope string_scope.
#[local] Open Scope list_scope.
#[local] Open Scope Z_scope.

Definition sample_cluster : cluster := Cluster 0 "deployment" "dns" false "" "".

(** Every driver call succeeds, every probe passes. *)
Definition sample_outcome : EvalOutcome := mkOutcome EvalPassed "" (Some true) "" ∅.

(** A plugin with one waiter, which is admitted and leaves a note of it. *)
Definition sample_waiter : waiter :=
  QueueWaiter 7 "submission #7" (Some 0) 0 None
    (fun db _ => (inr true, ∅, db <| d_events ::= fun l => l ++ [Event "admitted" 0 None None None ""] |>)).
Definition sample_plugin : plugin :=
  Plugin "sample" None None (Some (fun _ => ([sample_waiter], false)))
    [fun db => inr (db <| d_events ::= fun l => l ++ [Event "noted" 0 None None None ""] |>);
     fun _ => inl (OtherError "step failed")].

(** A day starts at midnight UTC. *)
Definition sample_day : Z := 86400000000.

Definition env_with (clock_ : nat -> Z) (state : DeploymentState) (status : phase)
    (reason : option (string * string)) : Env := {|
  clock := clock_;
  default_max_run_minutes := 150;
  image_pull_timeout_minutes := 60;
  teardown_grace_seconds := 30;
  teardown_giveup_seconds := 600;
  default_cluster := sample_cluster;
  config_hash cfg := pretty (cards_used cfg);
  recipe_total_gpus _ cfg := cards_used cfg;
  recipe_gpus _ := 1;
  public_api_url := "http://autotune:8000";
  internal_api_url := "";
  own_cluster _ := false;
  policy_heartbeat_timeout_seconds := 180;
  policy_finalize_grace_seconds := 300;
  policy_search_idle_seconds := 300;
  policy_token_grace_hours := 1;
  policy_token_max_hours := 48;
  policy_start_timeout_minutes := 30;
  mint n := ("atk_" +:+ pretty n, pretty n, "");
  drv_queues _ := false;
  drv_attach _ _ := inr None;
  drv_launch_nodes _ sp := inr (Handle (sp_machine sp) "http://node-1:28200" "" false, ["docker run"]);
  drv_state _ _ := inr state;
  drv_request_stop _ _ := inr tt;
  drv_teardown _ _ := inr tt;
  drv_is_gone _ _ := inr true;
  drv_release_leftovers _ _ := inr true;
  drv_unfinished _ _ := inr [];
  drv_placement _ _ := inr "";
  drv_startup_status _ _ := inr status;
  drv_failure_reason _ _ := inr reason;
  drv_exit_info _ _ := inr (None, false);
  drv_logs _ _ := inr "";
  drv_incarnation _ _ := inr None;
  drv_environment _ _ := inr "1.4.2";
  run_log_dir := "./runs";
  log_file_max_bytes := 1000000;
  log_snapshot_seconds := 120;
  disk_read _ _ := "";
  disk_write _ _ _ := inr tt;
  drv_ensure_image _ _ _ := inr tt;
  drv_launch_workload _ _ := inr "docker run policy";
  drv_workload_state _ _ := inr WorkRunning;
  drv_release_orphan_port _ _ _ := inr false;
  health_start _ _ _ := inr "health-1";
  health_poll _ _ := inr sample_outcome;
  health_cancel _ _ := inr tt;
  bench_start _ _ := inr "bench-1";
  bench_poll _ _ := inr sample_outcome;
  bench_cancel _ _ := inr tt;
  judge _ _ _ := (Some (f_of_Z 1), true);
  rescored db _ := d_results db;
  minimizes _ := false;
  stop_reason _ _ := None;
  plugins := [sample_plugin];
  traceback_text _ := "ValueError [supervisor.py:1 in tick]";
  monotonic n := 10 * Z.of_nat n;
  zone_known name := String.eqb name "UTC";
  zone_utc _ day minutes := day * sample_day + minutes * 60000000;
  zone_day _ moment := moment / sample_day;
  drv_probe_capacity _ m := inr (Probe true false (Some 16) "H100" 2 8 (Some 3));
  ds_list_profiles _ := inr [Profile 5 "prod" (Some (RawBuild "D7" "abcdef" "ready" "" (Some 0) None)) None];
  ds_trigger_build _ _ := inr 41;
  ds_latest_build_row _ _ := inr 41;
  ds_build _ _ := inr (RawBuild "D8" "fedcba" "ready" "" (Some 1) None);
|}.

Definition env_at (clock_ : nat -> Z) : Env := env_with clock_ StateReady (Running None) None.

(** A minute passes with every question. *)
#[export] Instance sample_env : Env := env_at (fun n => 60000000 * Z.of_nat n).

Definition sample_space : space := Space true ∅ ∅ [] ∅ [].

Definition sample_timing : run_timing := RunTiming [] [] [] None None.

Definition sample_machine (mid : Z) : machine :=
  Machine mid ("node-" +:+ pretty mid) ("10.0.0." +:+ pretty mid) "" None "" 8 "H100" Available false "" None LeaseActive None
    None None None 0 0 None None.

Definition sample_settings : policy_settings := PolicySettings 2 None None None None true None None 3.

Definition sample_policy : policy := Policy 1 1 false "policy:1" (Some true) [] [] None.

Definition sample_campaign : campaign :=
  Campaign 1 "night" "sglang" "model" sample_space false "" Active "bench" 28200 false true [] ""
    None None "" "" "" None None 150 30 None sample_settings 1 "engine:1" "/weights" [] sample_timing 1 2 "" 0 0 "" UseCurrent "" "" None None 0.

Definition sample_config (tp : Z) : config := {[ "tp" := VInt tp ]}.

Definition sample_candidate (id tp : Z) (st : CandidateStatus) : candidate :=
  Candidate id 1 (sample_config tp) (pretty tp) st None Search false None 0.

Definition sample_run (rid cid mid : Z) (cards : list Z) (st : RunStatus) : run :=
  Run rid 1 cid (Some mid) Experiment st ("autotune-run-" +:+ pretty rid) "" cards 28200 "" "" "" ""
    None None "" None false 0 (Some 0) None None "" None 0 "" 0 "" "".

(** Run 1 holds cards 0 to 3 of machine 1; candidate 2 waits. *)
Definition sample_db : database :=
  insert_run (sample_run 1 1 1 [0; 1; 2; 3] Benching)
    (empty_database
       <| d_machines := {[ 1 := sample_machine 1; 2 := sample_machine 2 ]} |>
       <| d_campaigns := {[ 1 := sample_campaign ]} |>
       <| d_candidates := {[ 1 := sample_candidate 1 4 Exhausted; 2 := sample_candidate 2 2 Valid ]} |>).

(** The night after: run 1 succeeded, nothing waits. *)
Definition sample_done_db : database :=
  (insert_run (sample_run 1 1 1 [0; 1; 2; 3] Succeeded)
    (empty_database
       <| d_machines := {[ 1 := sample_machine 1; 2 := sample_machine 2 ]} |>
       <| d_campaigns := {[ 1 := sample_campaign ]} |>
       <| d_candidates := {[ 1 := sample_candidate 1 4 Exhausted ]} |>))
    <| d_results := {[ 1 := Result 1 1 "llmbench" true (Some (f_of_Z 1)) true ]} |>.

Definition sample_world (db : database) : world := World db 0 [] ∅ ∅ (-1000) (-1000) ∅.
