(* ===== verification/Occupancy.v ===== *)
(** Who holds a machine: the rows a run occupies ([app/control/run_nodes.py]),
    the lease and session predicates ([orchestrator/lifecycle.py]), node groups
    ([orchestrator/groups.py]), a cluster's fixed NodePort
    ([orchestrator/node_ports.py]) and the reservations of plugins
    ([orchestrator/occupancy.py]).

    Everything here reads the database; a function that asks the clock takes
    the moment it was read. *)
From S2P Require Import Prelude Float Values Documents Space Validation Model Packing Timing World.
#[local] Open Scope string_scope.
#[local] Open Scope list_scope.
#[local] Open Scope Z_scope.

(** ** Which machines a run occupies *)
Definition node_rows (db : database) : list run_node :=
  rows (fun k => [k.1; k.2]) (d_nodes db).

Definition on_machine (mid : Z) (n : run_node) : bool := n_machine_id n == Some mid.

(** [run_ids_on_machine]. *)
Definition run_ids_on_machine (db : database) (mid : Z) : list Z :=
  map n_run_id (where_ (on_machine mid) (node_rows db)).

Definition live_run (r : run) : bool := negb (terminal_run (r_status r)).

Definition live_runs (db : database) : list run := where_ live_run (rows_z (d_runs db)).

Definition live_run_ids_on_machine (db : database) (mid : Z) : list Z :=
  where_ (fun rid => match d_runs db !! rid with Some r => live_run r | None => false end)
         (run_ids_on_machine db mid).

Definition occupies (db : database) (mid : Z) (r : run) : bool :=
  bool_decide (r_id r ∈ run_ids_on_machine db mid).

Definition live_runs_on (db : database) (mid : Z) : list run :=
  where_ (fun r => occupies db mid r && live_run r) (rows_z (d_runs db)).

Definition teardown_pending_on (db : database) (mid : Z) : list run :=
  where_ (fun r => occupies db mid r && r_teardown_pending r) (rows_z (d_runs db)).

(** A node whose run satisfies [P] ([join(Run)]). *)
Definition node_run (db : database) (P : run -> bool) (n : run_node) : bool :=
  match d_runs db !! n_run_id n with Some r => P r | None => false end.

Definition _live_nodes_on (db : database) (mid : Z) : list run_node :=
  where_ (fun n => on_machine mid n && node_run db live_run n) (node_rows db).

Definition _teardown_pending_nodes_on (db : database) (mid : Z) : list run_node :=
  where_ (fun n => on_machine mid n && node_run db r_teardown_pending n) (node_rows db).

(** A run's nodes, master first. *)
Definition nodes_of (db : database) (rid : Z) : list run_node :=
  sort_by (key_before (fun n => [n_rank n])) (where_ (fun n => n_run_id n =? rid) (node_rows db)).

Definition node_count (db : database) (rid : Z) : Z := Z.of_nat (length (nodes_of db rid)).

Definition machine_hosts_live_gang (db : database) (mid : Z) : bool :=
  existsb (fun n => on_machine mid n && node_run db live_run n
                    && (1 <? node_count db (n_run_id n))) (node_rows db).

(** ** Leases and sessions *)
Definition accepts_new_work (m : machine) : bool :=
  if m_state m == Away then false else negb (m_lease_state m == LeaseDraining).

(** A moment that is set and has come. *)
Definition reached (moment : Z) (due : option Z) : bool :=
  match due with Some t => t <=? moment | None => false end.

Definition lease_expired (moment : Z) (m : machine) : bool :=
  (m_lease_state m == LeaseActive) && reached moment (m_lease_due_at m).

Definition lease_deadline_passed (moment : Z) (m : machine) : bool :=
  reached moment (m_lease_deadline_at m).

Definition drain_kills_running (moment : Z) (m : machine) : bool :=
  if negb (m_lease_state m == LeaseDraining) then false
  else if m_lease_end_mode m == Some Eager then true
  else lease_deadline_passed moment m.

Definition allows_machine (c : campaign) (m : machine) : bool :=
  match c_machine_names c with [] => true | names => bool_decide (m_name m ∈ names) end.

Definition campaigns_in (db : database) (states : list CampaignStatus) : list campaign :=
  where_ (fun c => bool_decide (c_status c ∈ states)) (rows_z (d_campaigns db)).

Definition campaigns_using (db : database) (m : machine) : list campaign :=
  where_ (fun c => allows_machine c m) (campaigns_in db [Active; Scheduled; Done]).

Definition frozen_by_pause (db : database) (m : machine) : bool :=
  let holders := where_ (fun c => allows_machine c m)
                      (campaigns_in db [Active; Scheduled; Paused]) in
  if negb (existsb (fun c => c_status c == Paused) holders) then false
  else negb (existsb (fun c => (c_status c == Active) || (c_status c == Scheduled)) holders).

Inductive readiness := Busy | Idle | Returnable.

Definition readiness_of (db : database) (m : machine) : readiness :=
  match live_runs_on db (m_id m) with
  | _ :: _ => Busy
  | [] => if (m_lease_state m == LeaseNone) || (m_lease_state m == LeaseReleased)
          then Returnable else Idle
  end.

Definition minute : Z := 60000000.

(** The latest moment one of a machine's live runs may end. *)
Definition finish_bound (db : database) (moment : Z) (r : run) : Z :=
  let started := match r_started_at r with Some t => t | None => r_created_at r end in
  let limit :=
    match d_campaigns db !! r_campaign_id r with
    | Some c =>
        let cap := or_z (c_max_run_minutes c) 150 in
        match run_minutes c (stage_of_run db r) with
        | Some learned => Z.min cap learned
        | None => cap
        end
    | None => 150
    end in
  started + limit * minute.

Definition returnable_at (db : database) (moment : Z) (m : machine) : option Z :=
  match map (finish_bound db moment) (live_runs_on db (m_id m)) with
  | [] => None
  | t :: rest => Some (foldl Z.max t rest)
  end.

Definition window_allows_run_of (moment : Z) (c : campaign) (minutes : Z) : bool :=
  if match c_window_start c with Some start => moment <? start | None => false end then false
  else match c_window_end c with
       | None => true
       | Some end_ => moment + minutes * minute <=? end_
       end.

Definition window_allows_new_run (moment : Z) (c : campaign) (default_ : Z) : bool :=
  window_allows_run_of moment c (window_minutes c SCREEN (c_max_run_minutes c) default_).

Definition candidates_of (db : database) (cid : Z) (states : list CandidateStatus)
    : list candidate :=
  where_ (fun cd => (cd_campaign_id cd =? cid) && bool_decide (cd_status cd ∈ states))
         (rows_z (d_candidates db)).

Definition has_valid_candidates (db : database) (c : campaign) : bool :=
  match candidates_of db (c_id c) [Valid] with [] => false | _ => true end.

Definition policy_campaign_wants_machine (db : database) (c : campaign) : bool :=
  match c_policy_id c with
  | None | Some 0 => false
  | Some _ =>
      negb (existsb (fun s => terminal_session (ps_status s))
              (where_ (fun s => (ps_campaign_id s =? c_id c)
                                && (ps_window_start s == c_window_start c))
                      (rows_z (d_sessions db))))
  end.

Definition live_session_on (mid : Z) (s : policy_session) : bool :=
  (ps_machine_id s == Some mid) && negb (terminal_session (ps_status s)).

Definition machine_has_live_session (db : database) (mid : Z) : bool :=
  existsb (live_session_on mid) (rows_z (d_sessions db)).

Definition campaigns_waiting_on (db : database) (moment : Z) (m : machine) (default_ : Z)
    : list campaign :=
  where_ (fun c => (c_status c == Active) && window_allows_new_run moment c default_
                   && (has_valid_candidates db c || policy_campaign_wants_machine db c))
         (campaigns_using db m).

(** ** Node groups *)
Definition resolve_group (db : database) (name : string) : option machine_group :=
  if String.eqb name "" then None
  else head (where_ (fun g => String.eqb (g_name g) name) (rows_z (d_groups db))).

(** Members by rank, master first: a member whose machine row is gone is not
    in the join. *)
Definition members_by_rank (db : database) (g : machine_group) : list (Z * machine) :=
  omap (fun '((gid, rank), mid) => if gid =? g_id g then pair rank <$> d_machines db !! mid else None)
       (sort_by (key_before (fun km => [km.1.1; km.1.2])) (map_to_list (d_members db))).

Definition member_names (db : database) (g : machine_group) : list string :=
  map (fun rm => m_name rm.2) (members_by_rank db g).

Definition busy_cards (db : database) (machine_ids : list Z) : gmap Z Z :=
  foldl (fun out n => match n_machine_id n with
                      | Some mid => <[ mid := default 0 (out !! mid)
                                              + Z.of_nat (length (n_gpu_indices n)) ]> out
                      | None => out
                      end) ∅
        (where_ (fun n => match n_machine_id n with
                          | Some mid => bool_decide (mid ∈ machine_ids)
                          | None => false
                          end && node_run db live_run n) (node_rows db)).

Inductive blocker :=
| Quarantined (name reason : string)
| NotLeased (name : string)
| BeingHandedBack (name : string)
| HostingSession (name : string)
| PartOfLiveGang (name : string)
| RunningWork (name : string).

Definition member_blockers (db : database) (m : machine) : list blocker :=
  (if m_needs_attention m then [Quarantined (m_name m) (m_attention_reason m)] else [])
  ++ (if m_state m == Away then [NotLeased (m_name m)]
      else if negb (accepts_new_work m) then [BeingHandedBack (m_name m)] else [])
  ++ (if machine_has_live_session db (m_id m) then [HostingSession (m_name m)] else [])
  ++ (if machine_hosts_live_gang db (m_id m) then [PartOfLiveGang (m_name m)] else [])
  ++ (match live_runs_on db (m_id m) with [] => [] | _ => [RunningWork (m_name m)] end).

Definition group_blockers (db : database) (g : machine_group) : list blocker :=
  '(_, m) ← members_by_rank db g; member_blockers db m.

Definition group_deployable (db : database) (g : machine_group) : bool :=
  match group_blockers db g with [] => true | _ => false end.

Definition LEASE_WARNING_HORIZON : Z := 24 * 60 * minute.

(** The members whose lease runs out within the horizon. *)
Definition group_lease_warnings (db : database) (moment : Z) (g : machine_group)
    : list (string * Z) :=
  omap (fun '(_, m) => match m_lease_due_at m with
                       | Some due => if due <=? moment + LEASE_WARNING_HORIZON
                                     then Some (m_name m, due) else None
                       | None => None
                       end) (members_by_rank db g).

(** ** A cluster's fixed NodePort *)
Record NodePortClaim := mkClaim { np_port : Z; np_server : string; np_host : string }.

Definition collides (a b : NodePortClaim) : bool :=
  if negb (np_port a =? np_port b) then false
  else (negb (String.eqb (np_server a) "") && String.eqb (np_server a) (np_server b))
       || (negb (String.eqb (np_host a) "") && String.eqb (np_host a) (np_host b)).

Definition _claim_from (k : cluster) : option NodePortClaim :=
  let port := k_service_nodeport k in
  if port =? 0 then None
  else
    let kind := k_workload_kind k in
    if String.eqb kind "llmservice" && negb (String.eqb (or_string (k_endpoint k) "dns") "nodeport")
    then None
    else if negb (String.eqb kind "deployment" || String.eqb kind "llmservice") then None
    else Some (mkClaim port (if k_in_cluster k then "in-cluster" else k_server k)
                       (lower (strip (k_node_host k)))).

(** [hardware.py:is_node_pool]: no pair of the selector pins a hostname. *)
Definition split_commas (s : string) : list (list Ascii.ascii) :=
  (fix go (part l : list Ascii.ascii) :=
     match l with
     | [] => [reverse part]
     | c :: l' => if code c =? 44 then reverse part :: go [] l' else go (c :: part) l'
     end) [] (chars s).

Definition _HOSTNAME_LABEL : string := "kubernetes.io/hostname".

(** [pair.split("=", 1)[0]]. *)
Fixpoint before_equals (l : list Ascii.ascii) : list Ascii.ascii :=
  match l with [] => [] | c :: l' => if code c =? 61 then [] else c :: before_equals l' end.

Definition is_node_pool (m : machine) : bool :=
  if negb (String.eqb (m_driver m) "k8s") then false
  else negb (existsb
    (fun pair => String.eqb (of_chars (strip_chars (before_equals pair))) _HOSTNAME_LABEL)
    (split_commas (m_node_selector m))).

Section environment.
Context `{Env}.

Definition claim_of (db : database) (m : machine) : option NodePortClaim :=
  if negb (String.eqb (m_driver m) "k8s") then None
  else match m_cluster_id m ≫= fun cid => if cid =? 0 then None else d_clusters db !! cid with
       | Some row => _claim_from row
       | None => _claim_from default_cluster
       end.

Definition claim_of_id (db : database) (mid : option Z) : option NodePortClaim :=
  mid ≫= fun i => d_machines db !! i ≫= claim_of db.

(** A run that holds the port its machine's cluster has: not a benchmark of an
    endpoint someone else launched, and live or not confirmed gone. *)
Definition holds_port (db : database) (exclude : option Z) (r : run) : bool :=
  match r_machine_id r ≫= fun i => d_machines db !! i with
  | Some m => String.eqb (m_driver m) "k8s"
  | None => false
  end
  && negb ((r_kind r == BaselineRun) || (r_kind r == External))
  && (live_run r || r_teardown_pending r)
  && match exclude with
     | Some x => negb (r_id r =? x) && (negb (r_status r == Pending) || (r_id r <? x))
     | None => true
     end.

Definition port_holder (db : database) (m : machine) (exclude : option Z) : option run :=
  match claim_of db m with
  | None => None
  | Some claim =>
      List.find (fun r => match claim_of_id db (r_machine_id r) with
                          | Some theirs => collides claim theirs
                          | None => false
                          end)
                (where_ (holds_port db exclude) (rows_z (d_runs db)))
  end.

(** Every machine whose runs take the same port as one of these. *)
Definition port_siblings (db : database) (machine_ids : gset Z) : gset Z :=
  let k8s := where_ (fun m => String.eqb (m_driver m) "k8s") (rows_z (d_machines db)) in
  let claims := omap (fun m => pair (m_id m) <$> claim_of db m) k8s in
  let wanted := where_ (fun ic => bool_decide (ic.1 ∈ machine_ids)) claims in
  list_to_set (map fst
    (where_ (fun ic => existsb (fun w => collides ic.2 w.2) wanted) claims)).

(** ** Reservations *)

(** Every reservation on a machine: a plugin that fails has none. *)
Definition reservations_on (db : database) (m : machine) (exclude : option Z) : list Reservation :=
  p ← plugins;
  match pl_reservations p with
  | None => []
  | Some f =>
      match f db m with
      | inl _ => []
      | inr found => where_ (fun r => negb (Some (rv_campaign_id r) == exclude)) found
      end
  end.

Definition holds (db : database) (m : machine) (cid : Z) : bool :=
  existsb (fun r => rv_campaign_id r =? cid) (reservations_on db m None).

Inductive port_reason :=
| PortGoesFirst (port rid cid : Z)
| PortHeldByRun (port rid cid : Z)
| PortReserved (port : Z) (label : string).

Definition port_reason_text (r : port_reason) : string :=
  match r with
  | PortGoesFirst port rid cid =>
      "node port " +:+ pretty port +:+ " goes to run " +:+ pretty rid +:+ " (campaign "
      +:+ pretty cid +:+ ") first, placed before it; the cluster lets one run be reached at a time"
  | PortHeldByRun port rid cid =>
      "node port " +:+ pretty port +:+ " is held by run " +:+ pretty rid +:+ " (campaign "
      +:+ pretty cid +:+ "); the cluster lets one run be reached at a time"
  | PortReserved port label =>
      "node port " +:+ pretty port +:+ " is held for " +:+ label
      +:+ ", admitted before it; the cluster lets one run be reached at a time"
  end.

Definition _reserved_for (db : database) (m : machine) (cid : option Z) : option string :=
  match claim_of db m with
  | None => None
  | Some claim =>
      head (omap (fun other =>
              match claim_of db other with
              | Some theirs =>
                  if collides claim theirs then rv_label <$> head (reservations_on db other cid)
                  else None
              | None => None
              end)
            (where_ (fun m => String.eqb (m_driver m) "k8s") (rows_z (d_machines db))))
  end.

Definition port_busy_reason (db : database) (m : machine) (exclude_run campaign_id : option Z)
    : option port_reason :=
  match claim_of db m with
  | None => None
  | Some claim =>
      match port_holder db m exclude_run with
      | Some holder =>
          if (r_status holder == Pending) && bool_decide (is_Some exclude_run)
          then Some (PortGoesFirst (np_port claim) (r_id holder) (r_campaign_id holder))
          else Some (PortHeldByRun (np_port claim) (r_id holder) (r_campaign_id holder))
      | None =>
          match exclude_run with
          | None => PortReserved (np_port claim) <$> _reserved_for db m campaign_id
          | Some _ => None
          end
      end
  end.

Inductive busy_why :=
| BusyPort (r : port_reason)
| RunUsingIt
| HeldFor (label : string)
| NonSharingRun
| UnknownWidth
| OnlyFree (free total needs : Z).

Definition busy_why_text (w : busy_why) : string :=
  match w with
  | BusyPort r => port_reason_text r
  | RunUsingIt => "a run is using it"
  | HeldFor label => "held for " +:+ label
  | NonSharingRun => "a run that does not share is using it"
  | UnknownWidth => "a run of unknown width holds the whole machine"
  | OnlyFree free total needs =>
      "only " +:+ pretty free +:+ " card(s) free of " +:+ pretty total +:+ ", needs " +:+ pretty needs
  end.

Definition busy_reason (db : database) (m : machine) (cards : Z) (share : bool)
    (campaign_id : option Z) : option busy_why :=
  match port_busy_reason db m None campaign_id with
  | Some port => Some (BusyPort port)
  | None =>
      let live := where_ (fun r => negb (Some (r_campaign_id r) == campaign_id))
                         (live_runs_on db (m_id m)) in
      let dying := teardown_pending_on db (m_id m) in
      let held := reservations_on db m campaign_id in
      if negb share then
        match live ++ dying, held with
        | _ :: _, _ => Some RunUsingIt
        | [], h :: _ => Some (HeldFor (rv_label h))
        | [], [] => None
        end
      else
        let sharers := where_ (fun c => bool_decide (c_id c ∈ map r_campaign_id live))
                              (rows_z (d_campaigns db)) in
        if existsb (fun c => negb (c_share_machine c)) sharers then Some NonSharingRun
        else match List.find (fun r => negb (rv_share r)) held with
             | Some exclusive => Some (HeldFor (rv_label exclusive))
             | None =>
                 if existsb (fun r => match r_gpu_indices r with [] => true | _ => false end)
                            (live ++ dying) then Some UnknownWidth
                 else
                   let taken := remove_dups (concat (map r_gpu_indices (live ++ dying))) in
                   let free := m_gpu_count m - Z.of_nat (length taken)
                               - sum_z (map rv_cards held) in
                   if free <? cards then Some (OnlyFree (Z.max free 0) (m_gpu_count m) cards)
                   else None
             end
  end.

(** ** When a waiter joined the queue ([machine_queue.py]) *)
Definition CAMPAIGN : Z := 1.
Definition SESSION : Z := 2.

Definition _arrival_from_plugins (db : database) (c : campaign) : option Z :=
  head (omap (fun p => match pl_queue_arrival p with
                       | None => None
                       | Some f => match f db c with inr (Some t) => Some t | _ => None end
                       end) plugins).

Definition max_moment (l : list Z) : option Z :=
  match l with [] => None | t :: rest => Some (foldl Z.max t rest) end.
Definition min_moment (l : list Z) : option Z :=
  match l with [] => None | t :: rest => Some (foldl Z.min t rest) end.

Definition waiting_since (db : database) (moment : Z) (c : campaign) : Z :=
  let last := max_moment (omap r_started_at
                (where_ (fun r => r_campaign_id r =? c_id c) (rows_z (d_runs db)))) in
  let base := match _arrival_from_plugins db c with
              | Some arrived => [Some arrived]
              | None => [min_moment (map cd_created_at (candidates_of db (c_id c) [Valid]));
                         c_window_start c]
              end in
  default moment (max_moment (omap id (last :: base))).

(** (arrival, rank, ident). *)
Definition campaign_key (db : database) (moment : Z) (c : campaign) : Z * Z * Z :=
  (waiting_since db moment c, CAMPAIGN, c_id c).
Definition session_key (moment : Z) (s : policy_session) : Z * Z * Z :=
  (default moment (ps_window_start s), SESSION, ps_id s).
Definition waiter_key (moment : Z) (w : waiter) : Z * Z * Z :=
  (default moment (w_arrival w), w_rank w, w_ident w).
End environment.
