(* ===== verification/Fleet.v ===== *)
(** The machines a campaign may use, and what is free on them: the helpers of
    [Supervisor] that placement, planning and the proposal budget share
    ([app/control/orchestrator/supervisor.py]). *)
From S2P Require Import Prelude Float Values Documents Space Validation Model Packing Timing World Occupancy.
#[local] Open Scope string_scope.
#[local] Open Scope list_scope.
#[local] Open Scope Z_scope.

Definition _group_for_campaign (db : database) (c : campaign) : option machine_group :=
  resolve_group db (c_node_group c).

Definition _usable_machines (db : database) (c : campaign) : list machine :=
  let found := where_ (fun m => negb (m_state m == Away) && negb (m_needs_attention m)
                                && allows_machine c m) (rows_z (d_machines db)) in
  let joins := c_share_machine c && bool_decide (is_Some (c_policy_id c)) in
  where_ (fun m => accepts_new_work m
                   && (joins || is_node_pool m || negb (machine_has_live_session db (m_id m))))
         found.

(** Every campaign with a run among these shares. *)
Definition _may_share (db : database) (c : campaign) (live : list run) (m : machine) : bool :=
  if is_node_pool m then true
  else if negb (c_share_machine c) then false
  else forallb c_share_machine
         (where_ (fun other => bool_decide (c_id other ∈ map r_campaign_id live))
                 (rows_z (d_campaigns db))).

Definition _group_is_idle (db : database) (g : machine_group) : bool :=
  forallb (fun '(_, m) =>
             accepts_new_work m && negb (m_needs_attention m) && (0 <? m_gpu_count m)
             && negb (machine_has_live_session db (m_id m))
             && match live_runs_on db (m_id m) ++ teardown_pending_on db (m_id m) with
                | [] => true | _ => false end)
          (members_by_rank db g).

Definition _campaign_nodes (db : database) (c : campaign) : Z :=
  match _group_for_campaign db c with
  | None => 1
  | Some g => Z.max 1 (Z.of_nat (length (members_by_rank db g)))
  end.

Definition min_default (l : list Z) (d : Z) : Z :=
  match l with [] => d | x :: l' => foldl Z.min x l' end.

(** Card counts of the machines that report any. *)
Definition card_counts (l : list machine) : list Z :=
  where_ (fun n => 0 <? n) (map m_gpu_count l).

Definition _validation_gpu_count (db : database) (c : campaign) : Z :=
  match _group_for_campaign db c with
  | Some g =>
      match card_counts (map snd (members_by_rank db g)) with
      | [] => 0
      | counts => min_default counts 0 * Z.of_nat (length counts)
      end
  | None =>
      let machines := _usable_machines db c in
      match card_counts machines with
      | [] => match machines with [] => 8 | _ => 0 end
      | counts => max_default counts 0
      end
  end.

Definition taken_cards (nodes : list run_node) : list Z := concat (map n_gpu_indices nodes).

Definition _startable_slots (db : database) (c : campaign) : Z :=
  match _group_for_campaign db c with
  | Some g =>
      if negb (_group_is_idle db g) then 0
      else sum_z (card_counts (map snd (members_by_rank db g)))
  | None =>
      sum_z (map (fun m =>
        if machine_hosts_live_gang db (m_id m) then 0
        else
          let live := live_runs_on db (m_id m) in
          if match live with [] => false | _ => negb (_may_share db c live m) end then 0
          else if m_gpu_count m <=? 0 then match live with [] => 1 | _ => 0 end
          else Z.of_nat (length (free_indices (m_gpu_count m)
                                   (taken_cards (_live_nodes_on db (m_id m))))))
        (_usable_machines db c))
  end.

(** ** Ports *)
Definition node_port_range (port : Z) : bool := (30000 <=? port) && (port <=? 32767).

(** The first of [fuel] ports from [port] that is not used and not a NodePort. *)
Fixpoint port_loop (fuel : nat) (used : list Z) (port otherwise : Z) : Z :=
  match fuel with
  | O => otherwise
  | S f =>
      if negb (bool_decide (port ∈ used)) && negb (node_port_range port) then port
      else port_loop f used (port + 1) otherwise
  end.

Definition PORT_TRIES : nat := 256.
Definition DIST_PORT_BASE : Z := 29500.

(** The port a run listens on: its own, or its campaign's when it recorded
    none. *)
Definition port_of (db : database) (r : run) : Z :=
  or_z (r_service_port r)
       (match d_campaigns db !! r_campaign_id r with Some c => c_service_port c | None => 0 end).

Definition without_zero (l : list Z) : list Z := where_ (fun p => negb (p =? 0)) l.

Definition _free_port (db : database) (c : campaign) (live : list run) (reserved : list Z) : Z :=
  port_loop PORT_TRIES (without_zero (map (port_of db) live ++ reserved))
            (c_service_port c) (c_service_port c).

Definition holding_runs (db : database) (mid : Z) : list run :=
  live_runs_on db mid ++ teardown_pending_on db mid.

Definition _free_port_across (db : database) (c : campaign) (machines : list machine) : Z :=
  port_loop PORT_TRIES
    (without_zero (concat (map (fun m => map (port_of db) (holding_runs db (m_id m))) machines)))
    (c_service_port c) (c_service_port c).

Definition _free_dist_port (db : database) (master : machine) (exclude : list Z) : Z :=
  port_loop PORT_TRIES
    (exclude ++ without_zero (concat (map (fun r => [r_dist_port r; r_service_port r])
                                          (holding_runs db (m_id master)))))
    DIST_PORT_BASE DIST_PORT_BASE.

(** ** Lemmas: machines *)
Lemma usable_machine db c m :
  m ∈ _usable_machines db c ->
  m_state m <> Away /\ m_needs_attention m = false /\ m_lease_state m <> LeaseDraining /\
  (c_machine_names c = [] \/ m_name m ∈ c_machine_names c) /\
  (exists k, d_machines db !! k = Some m).
Proof.
  unfold _usable_machines. rewrite !elem_of_where, elem_of_rows_z.
  intros [[Hk Hm] Ha]. apply andb_true_iff in Ha as [Ha _].
  apply andb_true_iff in Hm as [Hm Hallow]. apply andb_true_iff in Hm as [Hs Hn].
  apply negb_true_iff in Hs, Hn. apply bool_decide_eq_false in Hs.
  split; [done|]. split; [done|]. split; [|split; [|done]].
  - unfold accepts_new_work in Ha. intros Hd. rewrite Hd in Ha.
    destruct (m_state m == Away); discriminate Ha.
  - unfold allows_machine in Hallow. destruct (c_machine_names c); [by left|right].
    by apply bool_decide_eq_true in Hallow.
Qed.

(** ** Lemmas: ports *)
Lemma port_loop_spec fuel used port otherwise :
  (exists p, port_loop fuel used port otherwise = p /\ port <= p < port + Z.of_nat fuel /\
     p ∉ used /\ node_port_range p = false /\
     (forall q, port <= q < p -> q ∈ used \/ node_port_range q = true)) \/
  (port_loop fuel used port otherwise = otherwise /\
   forall q, port <= q < port + Z.of_nat fuel -> q ∈ used \/ node_port_range q = true).
Proof.
  revert port. induction fuel as [|f IH]; intros port; [right; split; [done|lia]|].
  cbn [port_loop]. destruct (_ && _) eqn:E.
  - left. exists port. apply andb_true_iff in E as [Hu Hn].
    apply negb_true_iff in Hu, Hn. apply bool_decide_eq_false in Hu.
    split; [done|]. split; [lia|]. split; [done|]. split; [done|]. lia.
  - assert (port ∈ used \/ node_port_range port = true) as Hport.
    { destruct (node_port_range port); [by right|]. left. rewrite andb_true_r in E.
      apply negb_false_iff in E. by apply bool_decide_eq_true in E. }
    destruct (IH (port + 1)) as [(p & Hp & Hr & Hu & Hn & Hl)|[Hg Hall]]; [left|right].
    + exists p. split; [done|]. split; [lia|]. split; [done|]. split; [done|].
      intros q Hq. destruct (Z.eq_dec q port) as [->|]; [done|]. apply Hl. lia.
    + split; [done|]. intros q Hq. destruct (Z.eq_dec q port) as [->|]; [done|]. apply Hall. lia.
Qed.

(** Fewer ports are used than are tried, below the NodePort range: one is free. *)
Lemma port_loop_free fuel used port otherwise :
  (length used < fuel)%nat ->
  (forall q, port <= q < port + Z.of_nat fuel -> node_port_range q = false) ->
  port_loop fuel used port otherwise ∉ used.
Proof.
  intros Hlen Hrange.
  destruct (port_loop_spec fuel used port otherwise) as [(p & -> & _ & Hu & _)|[_ Hall]]; [done|].
  exfalso.
  assert (seqZ port (Z.of_nat fuel) ⊆ used) as Hsub.
  { intros q Hq%elem_of_seqZ. destruct (Hall q) as [|Hn]; [lia|done|].
    by rewrite Hrange in Hn by lia. }
  apply NoDup_submseteq, submseteq_length in Hsub; [|apply NoDup_seqZ].
  rewrite length_seqZ in Hsub. lia.
Qed.

Lemma elem_of_without_zero p l : p ∈ without_zero l <-> p ∈ l /\ p <> 0.
Proof. unfold without_zero. rewrite elem_of_where, negb_true_iff, Z.eqb_neq. done. Qed.

Lemma length_without_zero l : (length (without_zero l) <= length l)%nat.
Proof. apply length_where. Qed.

(** ** Properties *)

(** The port a run is given is one no run it shares the host with holds,
    never in the NodePort range, and the first such from the campaign's own;
    the allocator gives up only after 256 ports that are all taken or in that
    range.  With fewer than 256 co-tenants and promised ports, and a service
    port whose 256 successors stay below the range, it never gives up. *)
Theorem free_port_is_free (db : database) (c : campaign) (live : list run) (reserved : list Z) :
  let p := _free_port db c live reserved in
  let held := without_zero (map (port_of db) live ++ reserved) in
  ((p ∉ held /\ node_port_range p = false /\ c_service_port c <= p < c_service_port c + 256 /\
    forall q, c_service_port c <= q < p -> q ∈ held \/ node_port_range q = true) \/
   (p = c_service_port c /\
    forall q, c_service_port c <= q < c_service_port c + 256 ->
      q ∈ held \/ node_port_range q = true)) /\
  ((length live + length reserved < 256)%nat -> c_service_port c + 256 <= 30000 ->
   p ∉ held).
Proof.
  cbv zeta. unfold _free_port. split.
  - destruct (port_loop_spec PORT_TRIES
      (without_zero (map (port_of db) live ++ reserved)) (c_service_port c) (c_service_port c))
      as [(p & -> & H)|[-> H]]; [left|right]; unfold PORT_TRIES in H; naive_solver.
  - intros Hlen Hport. apply port_loop_free.
    + pose proof (length_without_zero (map (port_of db) live ++ reserved)) as Hl.
      rewrite length_app, length_map in Hl. unfold PORT_TRIES. lia.
    + intros q Hq. unfold PORT_TRIES in Hq. unfold node_port_range.
      destruct (Z.leb_spec 30000 q); [lia|done].
Qed.

(** A gang's rendezvous port is free on its master: it is not the gang's
    own service port, nor any port a live run or one still being torn down
    holds there, and it is never 0, so the ranks always have an address to
    meet on. *)
Theorem dist_port_is_free (db : database) (master : machine) (service_port : Z)
    (Hlen : (1 + 2 * length (holding_runs db (m_id master)) < 256)%nat) :
  let p := _free_dist_port db master [service_port] in
  p <> service_port /\ 29500 <= p < 29756 /\
  forall r, r ∈ holding_runs db (m_id master) -> p <> r_dist_port r /\ p <> r_service_port r.
Proof.
  cbv zeta. unfold _free_dist_port.
  set (ports := concat _). set (used := [service_port] ++ without_zero ports).
  assert (length ports = 2 * length (holding_runs db (m_id master)))%nat as Hports.
  { subst ports. clear Hlen. induction (holding_runs db (m_id master)) as [|r l IH]; simpl; [done|].
    rewrite IH. lia. }
  pose proof (length_without_zero ports) as Hwz.
  assert (port_loop PORT_TRIES used DIST_PORT_BASE DIST_PORT_BASE ∉ used) as Hfree.
  { apply port_loop_free.
    - subst used. rewrite length_app. simpl. unfold PORT_TRIES. lia.
    - intros q Hq. unfold PORT_TRIES, DIST_PORT_BASE in Hq. unfold node_port_range.
      destruct (Z.leb_spec 30000 q); [lia|done]. }
  assert (29500 <= port_loop PORT_TRIES used DIST_PORT_BASE DIST_PORT_BASE < 29756) as Hr.
  { destruct (port_loop_spec PORT_TRIES used DIST_PORT_BASE DIST_PORT_BASE)
      as [(p & -> & Hp & _)|[-> _]]; unfold PORT_TRIES, DIST_PORT_BASE in *; lia. }
  split; [intros Heq; apply Hfree, elem_of_app; left; rewrite Heq; left|]. split; [done|].
  intros r Hr'. assert (forall q, q ∈ [r_dist_port r; r_service_port r] -> q ∈ ports) as Hin.
  { intros q Hq. subst ports. apply list_elem_of_In, in_concat.
    exists [r_dist_port r; r_service_port r]. split; [|by apply list_elem_of_In].
    apply in_map_iff. exists r. split; [done|by apply list_elem_of_In]. }
  assert (forall q, q ∈ ports -> port_loop PORT_TRIES used DIST_PORT_BASE DIST_PORT_BASE <> q)
    as Hne.
  { intros q Hq <-. apply Hfree. apply elem_of_app. right. apply elem_of_without_zero.
    split; [done|]. lia. }
  split; apply Hne, Hin; [left|right; left].
Qed.


Lemma dist_port_is_free_witness :
  let master := Machine 1 "node-1" "10.0.0.1" "" None "" 8 "H100" Available false "" None LeaseActive None
                  None None None 0 0 None None in
  let p := _free_dist_port empty_database master [28200] in
  p <> 28200 /\ 29500 <= p < 29756.
Proof.
  cbv zeta.
  pose proof (dist_port_is_free empty_database
    (Machine 1 "node-1" "10.0.0.1" "" None "" 8 "H100" Available false "" None LeaseActive None
       None None None 0 0 None None) 28200 ltac:(vm_compute; lia)) as (H1 & H2 & _).
  split; [exact H1|exact H2].
Defined.
