(* ===== verification/Exclusive.v ===== *)
(** The invariant of the fleet: no card is held twice.

    A run holds the cards its nodes recorded while it is live or still being
    torn down.  Two nodes that hold one machine share no card; a node that
    recorded no cards holds its machine alone, unless a policy session launched
    one of the two.  The rank-0 node of every run mirrors the run's own columns,
    and every node has its run's cards.  Here: the invariant, and which writes
    keep it. *)
From S2P Require Import Prelude Float Values Documents Space Validation Model States Packing Timing World.
From S2P Require Import Occupancy Fleet.
#[local] Open Scope list_scope.
#[local] Open Scope Z_scope.

Definition holds_cards (r : run) : bool := live_run r || r_teardown_pending r.

Definition holding (db : database) (n : run_node) : Prop := node_run db holds_cards n = true.

(** The columns of the rank-0 node that every machine query reads. *)
Definition mirrors (r : run) (n : run_node) : Prop :=
  n_machine_id n = r_machine_id r /\ n_gpu_indices n = r_gpu_indices r /\
  n_service_port n = r_service_port r /\ n_status n = r_status r.

(** A node on [mid] with [cards] could stand beside every node holding it. *)
Definition compatible (db : database) (mid : Z) (cards : list Z) : Prop :=
  forall k n, d_nodes db !! k = Some n -> holding db n -> n_machine_id n = Some mid ->
    n_gpu_indices n <> [] /\ cards <> [] /\ forall i, i ∈ cards -> i ∉ n_gpu_indices n.

(** A policy session launched the node's run. *)
Definition for_session (r : run) : bool := bool_decide (is_Some (r_policy_session_id r)).
Definition of_session (db : database) (n : run_node) : Prop := node_run db for_session n = true.

(** [r] could be added on [mid]: a session's run only keeps off held cards. *)
Definition room_for (db : database) (mid : Z) (r : run) : Prop :=
  forall k n, d_nodes db !! k = Some n -> holding db n -> n_machine_id n = Some mid ->
    (forall i, i ∈ r_gpu_indices r -> i ∉ n_gpu_indices n) /\
    (n_gpu_indices n <> [] /\ r_gpu_indices r <> [] \/ for_session r = true).

Record fleet_ok (db : database) : Prop := {
  ok_runs rid r : d_runs db !! rid = Some r -> r_id r = rid;
  ok_machines mid m : d_machines db !! mid = Some m -> m_id m = mid;
  ok_members k1 k2 mid : d_members db !! k1 = Some mid -> d_members db !! k2 = Some mid -> k1 = k2;
  ok_nodes k n : d_nodes db !! k = Some n ->
    k = (n_run_id n, n_rank n) /\ is_Some (d_runs db !! n_run_id n);
  ok_mirror rid r : d_runs db !! rid = Some r ->
    exists n, d_nodes db !! (rid, 0) = Some n /\ mirrors r n;
  ok_uniform k n r : d_nodes db !! k = Some n -> d_runs db !! n_run_id n = Some r ->
    n_gpu_indices n = r_gpu_indices r;
  ok_exclusive k1 k2 n1 n2 mid :
    d_nodes db !! k1 = Some n1 -> d_nodes db !! k2 = Some n2 -> k1 <> k2 ->
    holding db n1 -> holding db n2 ->
    n_machine_id n1 = Some mid -> n_machine_id n2 = Some mid ->
    (forall i, i ∈ n_gpu_indices n1 -> i ∉ n_gpu_indices n2) /\
    (n_gpu_indices n1 <> [] /\ n_gpu_indices n2 <> [] \/ of_session db n1 \/ of_session db n2);
}.

(** What the invariant reads of a database. *)
Definition same_fleet (db db' : database) : Prop :=
  d_runs db' = d_runs db /\ d_nodes db' = d_nodes db /\ d_members db' = d_members db /\
  (forall mid m', d_machines db' !! mid = Some m' ->
     exists m, d_machines db !! mid = Some m /\ m_id m' = m_id m).

#[export] Instance same_fleet_preorder : PreOrder same_fleet.
Proof.
  split.
  - intros db. split_and!; eauto.
  - intros db1 db2 db3 (R1 & N1 & M1 & F1) (R2 & N2 & M2 & F2).
    split_and!; try congruence. intros mid m3 H3. destruct (F2 _ _ H3) as (m2 & H2 & E2).
    destruct (F1 _ _ H2) as (m1 & H1 & E1). exists m1. split; [done|congruence].
Qed.

(** A write that leaves a run's machine and cards alone, and does not make a
    run that holds nothing hold its cards again. *)
Definition gentle (r r' : run) : Prop :=
  r_machine_id r' = r_machine_id r /\ r_gpu_indices r' = r_gpu_indices r /\
  r_policy_session_id r' = r_policy_session_id r /\
  (holds_cards r' = true -> holds_cards r = true).

(** ** Lemmas *)
Lemma same_fleet_ok db db' : same_fleet db db' -> fleet_ok db -> fleet_ok db'.
Proof.
  intros (Er & En & Em & Ef) [H1 H2 H3 H4 H5 H6 H7].
  split; unfold holding, of_session, node_run in *; rewrite ?Er, ?En, ?Em in *; try assumption.
  intros mid m' (m & Hm & ->)%Ef. by apply H2.
Qed.

Lemma same_fleet_compatible db db' mid cards :
  same_fleet db db' -> compatible db mid cards -> compatible db' mid cards.
Proof.
  intros (Er & En & _). unfold compatible, holding, node_run. by rewrite Er, En.
Qed.

Lemma mirrors_master r : mirrors r (master_node r).
Proof. by split_and!. Qed.

Lemma node_run_some db P n : node_run db P n = true ->
  exists r, d_runs db !! n_run_id n = Some r /\ P r = true.
Proof. unfold node_run. destruct (d_runs db !! n_run_id n); [eauto|done]. Qed.

(** After a gentle write to one run every node holds what it held before, or
    less, and is still on the machine it was on, with the cards it had. *)
Lemma update_run_nodes rid f db k n' :
  fleet_ok db ->
  (forall r, d_runs db !! rid = Some r -> gentle r (f r)) ->
  d_nodes (update_run rid f db) !! k = Some n' ->
  exists n, d_nodes db !! k = Some n /\ n_machine_id n' = n_machine_id n /\
    n_gpu_indices n' = n_gpu_indices n /\ n_run_id n' = n_run_id n /\ n_rank n' = n_rank n /\
    (of_session db n -> of_session (update_run rid f db) n') /\
    (holding (update_run rid f db) n' -> holding db n).
Proof.
  intros Hok Hg. unfold update_run. destruct (d_runs db !! rid) as [r|] eqn:Hr.
  2: { intros Hn. exists n'. by split_and!. }
  specialize (Hg r eq_refl). simpl. destruct (decide (k = (rid, 0))) as [->|Hk].
  - rewrite lookup_alter_eq. intros (n & Hn & ->)%fmap_Some_1.
    destruct (ok_mirror _ Hok _ _ Hr) as (n0 & Hn0 & Hm1 & Hm2 & _).
    assert (n0 = n) as -> by congruence.
    destruct (ok_nodes _ Hok _ _ Hn) as [[= Erid Erank] _].
    exists n. destruct Hg as (G1 & G2 & G3 & G4).
    split; [done|]. split; [simpl; congruence|]. split; [simpl; congruence|].
    split; [done|]. split; [done|]. unfold holding, of_session, node_run. simpl.
    rewrite lookup_insert_eq, <-Erid, Hr. split; [|apply G4]. unfold for_session. cbn. by rewrite G3.
  - rewrite lookup_alter_ne by done. intros Hn. exists n'. split; [done|].
    split; [done|]. split; [done|]. split; [done|]. split; [done|].
    unfold holding, of_session, node_run. simpl. destruct (decide (n_run_id n' = rid)) as [->|Hne].
    + rewrite lookup_insert_eq, Hr. destruct Hg as (_ & _ & G3 & G4). split; [|apply G4].
      unfold for_session. cbn. by rewrite G3.
    + by rewrite lookup_insert_ne by done.
Qed.

Lemma update_run_ok rid f db :
  fleet_ok db -> (forall r, d_runs db !! rid = Some r -> gentle r (f r)) ->
  fleet_ok (update_run rid f db).
Proof.
  intros Hok Hg.
  assert (d_machines (update_run rid f db) = d_machines db /\
          d_members (update_run rid f db) = d_members db) as [Em Emem].
  { unfold update_run. by case_match. }
  split.
  - intros k r. unfold update_run. destruct (d_runs db !! rid) as [r0|] eqn:Hr; [|apply Hok].
    simpl. rewrite lookup_insert_Some. intros [[<- <-]|[_ Hk]]; [done|]. by apply Hok.
  - rewrite Em. apply Hok.
  - rewrite Emem. apply Hok.
  - intros k n' Hn'.
    destruct (update_run_nodes _ _ _ _ _ Hok Hg Hn') as (n & Hn & _ & _ & Er & Ek & _).
    destruct (ok_nodes _ Hok _ _ Hn) as [-> Hrun]. rewrite Er, Ek. split; [done|].
    unfold update_run. destruct (d_runs db !! rid) as [r0|] eqn:Hr; [|done].
    simpl. rewrite lookup_insert_is_Some. destruct (decide (rid = n_run_id n)); [by left|by right].
  - intros k r. unfold update_run. destruct (d_runs db !! rid) as [r0|] eqn:Hr; [|apply Hok].
    simpl. rewrite lookup_insert_Some. intros [[<- <-]|[Hne Hk]].
    + destruct (ok_mirror _ Hok _ _ Hr) as (n & Hn & _).
      exists (master_node ((f r0) <| r_id := rid |>)). rewrite lookup_alter_eq, Hn.
      split; [done|apply mirrors_master].
    + destruct (ok_mirror _ Hok _ _ Hk) as (n & Hn & Hmn). exists n.
      rewrite lookup_alter_ne by congruence. done.
  - intros k n' r' Hn' Hr'.
    destruct (update_run_nodes _ _ _ _ _ Hok Hg Hn') as (n & Hn & _ & C & Er & _).
    rewrite C. rewrite Er in Hr'. revert Hr'. unfold update_run.
    destruct (d_runs db !! rid) as [r0|] eqn:Hr; [|by apply (ok_uniform _ Hok k)].
    simpl. rewrite lookup_insert_Some. intros [[Ei <-]|[_ Hk]]; [|by apply (ok_uniform _ Hok k)].
    rewrite (ok_uniform _ Hok k n r0) by (done || congruence). destruct (Hg r0 eq_refl) as (_ & Eg & _). symmetry. exact Eg.
  - intros k1 k2 n1 n2 mid H1 H2 Hne Hh1 Hh2 Hm1 Hm2.
    destruct (update_run_nodes _ _ _ _ _ Hok Hg H1) as (m1 & K1 & E1 & C1 & _ & _ & S1 & Hold1).
    destruct (update_run_nodes _ _ _ _ _ Hok Hg H2) as (m2 & K2 & E2 & C2 & _ & _ & S2 & Hold2).
    destruct (ok_exclusive _ Hok k1 k2 m1 m2 mid) as [D A]; try done; try congruence; auto.
    rewrite C1, C2. split; [done|]. naive_solver.
Qed.

Lemma update_run_compatible rid f db mid cards :
  fleet_ok db -> (forall r, d_runs db !! rid = Some r -> gentle r (f r)) ->
  compatible db mid cards -> compatible (update_run rid f db) mid cards.
Proof.
  intros Hok Hg Hc k n' Hn' Hh Hm.
  destruct (update_run_nodes _ _ _ _ _ Hok Hg Hn') as (n & Hn & E & C & _ & _ & _ & Hold).
  rewrite C. apply (Hc k n); [done|auto|congruence].
Qed.

(** Adding a node whose run exists, under a fresh key, next to compatible
    nodes only. *)
Lemma add_node_ok n db :
  fleet_ok db -> (exists r, d_runs db !! n_run_id n = Some r /\ r_gpu_indices r = n_gpu_indices n) ->
  d_nodes db !! (n_run_id n, n_rank n) = None ->
  (forall mid, n_machine_id n = Some mid -> compatible db mid (n_gpu_indices n)) ->
  fleet_ok (db <| d_nodes ::= <[ (n_run_id n, n_rank n) := n ]> |>).
Proof.
  intros Hok (r1 & Hrun & Hcards) Hfresh Hc. split; simpl; try apply Hok.
  - intros k n'. rewrite lookup_insert_Some. intros [[<- <-]|[_ Hk]]; [by eauto|]. by apply Hok.
  - intros rid r Hr. destruct (ok_mirror _ Hok _ _ Hr) as (n0 & Hn0 & Hm). exists n0.
    rewrite lookup_insert_ne; [done|]. intros E. rewrite E in Hfresh. congruence.
  - intros k n' r'. rewrite lookup_insert_Some.
    intros [[<- <-]|[_ Hk]]; [congruence|]. by apply (ok_uniform _ Hok k).
  - intros k1 k2 n1 n2 mid. rewrite !lookup_insert_Some.
    intros [[<- <-]|[Hk1 H1]] [[<- <-]|[Hk2 H2]] Hne Hh1 Hh2 Hm1 Hm2; [done| | |].
    + destruct (Hc mid Hm1 k2 n2 H2 Hh2 Hm2) as (A & B & D). by split; [|left].
    + destruct (Hc mid Hm2 k1 n1 H1 Hh1 Hm1) as (A & B & D). split; [|by left].
      intros i Hi Hi'. by apply (D i).
    + by apply (ok_exclusive _ Hok k1 k2 n1 n2 mid).
Qed.

Lemma add_node_compatible n db mid cards :
  n_machine_id n <> Some mid -> compatible db mid cards ->
  compatible (db <| d_nodes ::= <[ (n_run_id n, n_rank n) := n ]> |>) mid cards.
Proof.
  intros Hne Hc k n'. simpl. rewrite lookup_insert_Some.
  intros [[<- <-]|[_ Hk]] Hh Hm; [congruence|]. by apply (Hc k n').
Qed.

Lemma compatible_room db mid r : compatible db mid (r_gpu_indices r) -> room_for db mid r.
Proof. intros Hc k n Hn Hh Hm. destruct (Hc k n Hn Hh Hm) as (A & B & D). split; [done|by left]. Qed.

(** A new run, with its master node, on a machine that has room for it. *)
Lemma insert_run_ok r db :
  fleet_ok db -> d_runs db !! r_id r = None ->
  (forall mid, r_machine_id r = Some mid -> room_for db mid r) ->
  fleet_ok (insert_run r db).
Proof.
  intros Hok Hfresh Hc.
  assert (forall k n, d_nodes db !! k = Some n -> n_run_id n <> r_id r) as Hother.
  { intros k n Hn E. destruct (ok_nodes _ Hok _ _ Hn) as [_ Hs].
    rewrite E, Hfresh in Hs. by destruct Hs. }
  assert (forall k n P, d_nodes db !! k = Some n -> node_run (insert_run r db) P n = node_run db P n) as Hsame.
  { intros k n P Hn. unfold node_run, insert_run. simpl.
    rewrite lookup_insert_ne; [done|]. intros E. by apply (Hother _ _ Hn). }
  assert (forall k n, d_nodes db !! k = Some n -> holding (insert_run r db) n <-> holding db n) as Hh.
  { intros k n Hn. unfold holding. by rewrite (Hsame k). }
  assert (for_session r = true -> of_session (insert_run r db) (master_node r)) as Hsess.
  { intros Hs. unfold of_session, node_run, insert_run. simpl. by rewrite lookup_insert_eq. }
  split; unfold insert_run; simpl; try apply Hok.
  - intros rid r'. rewrite lookup_insert_Some. intros [[<- <-]|[_ Hr']]; [done|]. by apply Hok.
  - intros k n. rewrite lookup_insert_Some. intros [[<- <-]|[_ Hk]]; simpl.
    + split; [done|]. rewrite lookup_insert_eq. eauto.
    + destruct (ok_nodes _ Hok _ _ Hk) as [-> Hs]. split; [done|].
      rewrite lookup_insert_is_Some. by right; split; [intros E; apply (Hother _ _ Hk)|].
  - intros rid r'. rewrite lookup_insert_Some. intros [[<- <-]|[Hne Hr']].
    + exists (master_node r). rewrite lookup_insert_eq. split; [done|apply mirrors_master].
    + destruct (ok_mirror _ Hok _ _ Hr') as (n & Hn & Hm). exists n.
      rewrite lookup_insert_ne by congruence. done.
  - intros k n r'. rewrite lookup_insert_Some. intros [[<- <-]|[_ Hk]]; simpl.
    + rewrite lookup_insert_eq. by intros [= <-].
    + rewrite lookup_insert_ne by (intros E; by apply (Hother _ _ Hk)). by apply (ok_uniform _ Hok k).
  - intros k1 k2 n1 n2 mid. rewrite !lookup_insert_Some.
    intros [[<- <-]|[Hk1 H1]] [[<- <-]|[Hk2 H2]] Hne Hh1 Hh2 Hm1 Hm2; [done| | |].
    + apply (Hh _ _ H2) in Hh2. destruct (Hc mid Hm1 k2 n2 H2 Hh2 Hm2) as [D A].
      split; [done|]. destruct A as [[A B]|A]; [by left|right; left; auto].
    + apply (Hh _ _ H1) in Hh1. destruct (Hc mid Hm2 k1 n1 H1 Hh1 Hm1) as [D A].
      split; [intros i Hi Hi'; by apply (D i)|]. destruct A as [[A B]|A]; [by left|right; right; auto].
    + apply (Hh _ _ H1) in Hh1. apply (Hh _ _ H2) in Hh2.
      destruct (ok_exclusive _ Hok k1 k2 n1 n2 mid) as [D A]; try done. split; [done|].
      unfold of_session in *. by rewrite (Hsame k1), (Hsame k2).
Qed.

Lemma insert_run_compatible r db mid cards :
  fleet_ok db -> d_runs db !! r_id r = None -> r_machine_id r <> Some mid ->
  compatible db mid cards -> compatible (insert_run r db) mid cards.
Proof.
  intros Hok Hfresh Hne Hc k n. unfold insert_run. simpl. rewrite lookup_insert_Some.
  intros [[<- <-]|[_ Hk]] Hh Hm; [done|]. apply (Hc k n); [done| |done].
  revert Hh. unfold holding, node_run. simpl. rewrite lookup_insert_ne; [done|].
  intros E. destruct (ok_nodes _ Hok _ _ Hk) as [_ Hs]. rewrite <-E, Hfresh in Hs. by destruct Hs.
Qed.

(** ** Who holds a machine *)
Lemma elem_of_node_rows db n : n ∈ node_rows db <-> exists k, d_nodes db !! k = Some n.
Proof. apply elem_of_rows. Qed.

(** A run on a machine is found by the machine's queries. *)
Lemma node_occupies db k n r mid :
  fleet_ok db -> d_nodes db !! k = Some n -> n_machine_id n = Some mid ->
  d_runs db !! n_run_id n = Some r -> r ∈ rows_z (d_runs db) /\ occupies db mid r = true.
Proof.
  intros Hok Hn Hm Hr. split; [apply elem_of_rows_z; eauto|].
  apply bool_decide_eq_true. unfold run_ids_on_machine. apply list_elem_of_fmap.
  exists n. split; [by apply (ok_runs _ Hok)|].
  apply elem_of_where. split; [apply elem_of_node_rows; eauto|].
  unfold on_machine. by apply bool_decide_eq_true.
Qed.

Lemma holding_run_found db k n mid :
  fleet_ok db -> d_nodes db !! k = Some n -> holding db n -> n_machine_id n = Some mid ->
  exists r, r ∈ holding_runs db mid.
Proof.
  intros Hok Hn (r & Hr & Hh)%node_run_some Hm.
  destruct (node_occupies _ _ _ _ _ Hok Hn Hm Hr) as [Hrow Hocc]. exists r.
  unfold holding_runs, live_runs_on, teardown_pending_on.
  rewrite elem_of_app, !elem_of_where. unfold holds_cards in Hh. apply orb_true_iff in Hh.
  rewrite Hocc. simpl. tauto.
Qed.

Lemma holding_node_found db k n mid :
  d_nodes db !! k = Some n -> holding db n -> n_machine_id n = Some mid ->
  n ∈ _live_nodes_on db mid ++ _teardown_pending_nodes_on db mid.
Proof.
  intros Hn Hh Hm. unfold _live_nodes_on, _teardown_pending_nodes_on.
  rewrite elem_of_app, !elem_of_where, elem_of_node_rows.
  assert (on_machine mid n = true) as -> by by apply bool_decide_eq_true. simpl.
  unfold holding, node_run, holds_cards in *.
  destruct (d_runs db !! n_run_id n); [|done]. apply orb_true_iff in Hh. naive_solver.
Qed.

(** A machine nothing holds takes any cards. *)
Lemma idle_compatible db mid cards :
  fleet_ok db -> holding_runs db mid = [] -> compatible db mid cards.
Proof.
  intros Hok Hidle k n Hn Hh Hm. exfalso.
  destruct (holding_run_found _ _ _ _ Hok Hn Hh Hm) as [r Hr]. rewrite Hidle in Hr.
  by apply not_elem_of_nil in Hr.
Qed.
