(* ===== verification/Finish.v ===== *)
(** What a campaign still has to measure once its queue is empty: the
    production reference, the repeats that confirm its leaders, the expensive
    second stage, and when it is done ([app/control/orchestrator/supervisor.py],
    [app/control/baseline.py]; the dataset it pins,
    [app/datasets/pinning.py]). *)
From Stdlib Require Import SpecFloat.
From S2P Require Import Prelude Float Values Documents Space Validation Model Packing Timing World Samples.
From S2P Require Import Occupancy Fleet.
#[local] Open Scope string_scope.
#[local] Open Scope list_scope.
#[local] Open Scope Z_scope.

(** ** Baselines *)
Definition BASELINE_CONFIG_KEY : string := "__baseline__".

Definition is_baseline_config (cfg : config) : bool :=
  bool_decide (is_Some (cfg !! BASELINE_CONFIG_KEY)).

Definition is_baseline_candidate (cd : candidate) : bool :=
  cd_is_baseline cd || (cd_kind cd == BaselineKind) || is_baseline_config (cd_config cd).

Definition is_in_place_baseline (cd : candidate) : bool :=
  (cd_kind cd == BaselineKind) || is_baseline_config (cd_config cd).

Definition resolve_baseline (db : database) (served_model_name engine card_type : string)
    : option baseline :=
  let matching card := List.find (fun b => String.eqb (b_served_model_name b) served_model_name
                                           && String.eqb (b_engine b) engine
                                           && String.eqb (b_card_type b) card)
                                 (rows_z (d_baselines db)) in
  match matching card_type with
  | Some exact => Some exact
  | None => matching ""
  end.

(** [same_config]: two configs that would launch the same service, values
    compared as text. *)
Definition _normalize (cfg : config) : gmap string string := str_of <$> cfg.
Definition same_config (a b : config) : bool := bool_decide (_normalize a = _normalize b).

Definition _campaign_card_type (db : database) (c : campaign) (m : option machine) : string :=
  let first := default "" (m_gpu_type <$> List.find (fun m => negb (String.eqb (m_gpu_type m) ""))
                                                    (_usable_machines db c)) in
  match m with
  | Some m => if String.eqb (m_gpu_type m) "" then first else m_gpu_type m
  | None => first
  end.

Definition _campaign_baseline (db : database) (c : campaign) : option baseline :=
  resolve_baseline db (c_served_model_name c) (c_engine c) (_campaign_card_type db c None).

Definition campaign_candidates (db : database) (cid : Z) : list candidate :=
  where_ (fun cd => cd_campaign_id cd =? cid) (rows_z (d_candidates db)).

Definition _has_baseline_candidate (db : database) (c : campaign) (stage : Stage) : bool :=
  existsb (fun cd => is_baseline_candidate cd && (stage_of cd == stage))
          (campaign_candidates db (c_id c)).

(** ** The dataset *)
Definition uses_pinning (c : campaign) : bool := negb (String.eqb (c_dataset_profile c) "").
Definition is_pinned (c : campaign) : bool := negb (String.eqb (c_dataset_build_id c) "").

Definition _waiting_on_dataset (c : campaign) : bool :=
  if negb (uses_pinning c) then false
  else if is_pinned c then false
  else negb (c_dataset_policy_applied c == Some AppliedUnavailable).

(** ** The ranking *)
Definition _screen_runs (db : database) (c : campaign) : list run :=
  where_ (fun r => (r_campaign_id r =? c_id c) && (r_kind r == Experiment)
                   && match d_candidates db !! r_candidate_id r with
                      | Some cd => (stage_of cd == SCREEN) && negb (is_baseline_candidate cd)
                      | None => true
                      end) (rows_z (d_runs db)).

(** The last benchmark result of a run. *)
Definition bench_result (db : database) (rid : Z) : option result :=
  last (where_ (fun x => (rs_run_id x =? rid) && String.eqb (rs_source x) "llmbench")
               (rows_z (d_results db))).

Definition run_config_hash (db : database) (r : run) : string :=
  match d_candidates db !! r_candidate_id r with Some cd => cd_config_hash cd | None => "" end.

(** [dict.setdefault(key, []).append(value)], first key first. *)
Fixpoint group_add {A} (key : string) (x : A) (l : list (string * list A)) : list (string * list A) :=
  match l with
  | [] => [(key, [x])]
  | (k, xs) :: l' => if String.eqb k key then (k, xs ++ [x]) :: l' else (k, xs) :: group_add key x l'
  end.

Definition by_config (db : database) (runs : list run) : list (string * list run) :=
  foldl (fun out r => group_add (run_config_hash db r) r out) [] runs.

Definition objective_values (db : database) (group : list run) : list float :=
  omap (fun r => if r_status r == Succeeded
                 then match bench_result db (r_id r) with
                      | Some x => if rs_feasible x then rs_objective_value x else None
                      | None => None
                      end
                 else None) group.

Definition mean (values : list float) : float :=
  f_div (foldl f_add f_zero values) (f_of_Z (Z.of_nat (length values))).

Section environment.
Context `{Env}.

Definition sort_key (c : campaign) (value : float) : float :=
  if minimizes c then value else SFopp value.

Definition _ranked_screen_configs (db : database) (c : campaign)
    : list (string * list run * float) :=
  sort_by (fun a b => f_ltb (sort_key c a.2) (sort_key c b.2))
    (omap (fun '(hash, group) =>
             match objective_values db group with
             | [] => None
             | values => Some (hash, group, mean values)
             end) (by_config db (_screen_runs db c))).

(** ** Adding candidates *)
Definition new_candidate (cid : Z) (cfg : config) (hash : string) (status : CandidateStatus)
    (error : option rejection) (kind : CandidateKind) (is_baseline : bool) (repeat_of : option Z)
    : W Z :=
  created <- now ;;
  add_candidate (Candidate 0 cid cfg hash status error kind is_baseline repeat_of created).

Definition _add_baseline_candidate (c : campaign) (b : baseline) (kind : CandidateKind) : W unit :=
  new_candidate (c_id c) (b_engine_args b)
    ("baseline-" +:+ candidate_kind_name kind +:+ "-" +:+ pretty (b_id b))
    Valid None kind true None ;;;
  event_ "baseline_relaunch_scheduled" (Some (c_id c)) None.

Definition _ensure_relaunch_baseline (c : campaign) : W unit :=
  db <- db_ ;;
  if negb (c_run_baseline_canary c) then ret tt
  else if _has_baseline_candidate db c SCREEN then ret tt
  else match _campaign_baseline db c with
       | None => ret tt
       | Some b => _add_baseline_candidate c b Search
       end.

(** [range(n)] candidates of one config. *)
Fixpoint add_repeats (n : nat) (c : campaign) (source : candidate) (hash : string)
    (kind : CandidateKind) : W unit :=
  match n with
  | O => ret tt
  | S m =>
      new_candidate (c_id c) (cd_config source) hash Valid None kind false (Some (cd_id source)) ;;;
      add_repeats m c source hash kind
  end.

Definition root_of (group : list run) : Z :=
  match map r_candidate_id group with [] => 0 | x :: l => foldl Z.min x l end.

Definition _confirm_one (c : campaign) (target : Z) (entry : string * list run * float) : W Z :=
  let '(hash, group, _) := entry in
  let missing := target - Z.of_nat (length group) in
  if missing <=? 0 then ret 0
  else
    source <- get_candidate (root_of group) ;;
    add_repeats (Z.to_nat missing) c (source <| cd_id := root_of group |>) hash Confirmation ;;;
    event_ "confirmation_scheduled" (Some (c_id c)) None ;;;
    ret missing.

Definition _schedule_confirmations (c : campaign) : W bool :=
  if c_confirm_top_k c <=? 0 then ret false
  else
    let target := Z.max 1 (c_confirm_repeats c) in
    db <- db_ ;;
    let ranked := _ranked_screen_configs db c in
    created <- for_count (take (Z.to_nat (c_confirm_top_k c)) ranked) (_confirm_one c target) ;;
    ret (0 <? created).

(** Config hashes that already have a verification. *)
Definition verified_hashes (db : database) (cid : Z) : list string :=
  map cd_config_hash (where_ (fun cd => cd_kind cd == Verification) (campaign_candidates db cid)).

Definition _verify_one (c : campaign) (already : list string) (entry : string * list run * float)
    : W Z :=
  let '(hash, group, _) := entry in
  if bool_decide (hash ∈ already) then ret 0
  else
    source <- get_candidate (root_of group) ;;
    add_repeats 1 c (source <| cd_id := root_of group |>) hash Verification ;;;
    event_ "verification_scheduled" (Some (c_id c)) None ;;;
    ret 1.

Definition _schedule_verification (c : campaign) : W bool :=
  if negb (is_staged c) then ret false
  else if _waiting_on_dataset c then ret false
  else
    db <- db_ ;;
    match _ranked_screen_configs db c with
    | [] => ret false
    | ranked =>
        let already := verified_hashes db (c_id c) in
        created <- for_count (take (Z.to_nat (c_verify_top_k c)) ranked) (_verify_one c already) ;;
        db <- db_ ;;
        anchored <-
          (if c_run_baseline_canary c && negb (_has_baseline_candidate db c VERIFY) then
             match _campaign_baseline db c with
             | Some b => _add_baseline_candidate c b Verification ;;; ret 1
             | None => ret 0
             end
           else ret 0) ;;
        ret (0 <? created + anchored)
    end.

(** ** Done *)
Definition _not_planned_yet (db : database) (c : campaign) : bool :=
  if bool_decide (is_Some (c_policy_id c)) || negb (s_declared (c_search_space c)) then false
  else match expand (c_search_space c) with
       | [] => false
       | _ => match campaign_candidates db (c_id c) with [] => true | _ => false end
       end.

Definition nothing_left (db : database) (c : campaign) : bool :=
  match candidates_of db (c_id c) [CandPending; Valid],
        where_ (fun r => (r_campaign_id r =? c_id c) && live_run r) (rows_z (d_runs db)) with
  | [], [] => true
  | _, _ => false
  end.

Definition _maybe_finish_campaign (cid : Z) : W unit :=
  c <- get_campaign cid ;;
  db <- db_ ;;
  if negb (nothing_left db c) then ret tt
  else if _not_planned_yet db c then ret tt
  else
    confirming <- _schedule_confirmations c ;;
    if confirming : bool then ret tt
    else if _waiting_on_dataset c then ret tt
    else
      verifying <- _schedule_verification c ;;
      if verifying : bool then ret tt
      else
        put_campaign cid (fun c => c <| c_status := Done |>) ;;;
        event_ "campaign_done" (Some cid) None.
End environment.

(** ** Lemmas: grouping *)
Lemma group_add_keys {A} key (x : A) l :
  (group_add key x l).*1 = if bool_decide (key ∈ l.*1) then l.*1 else (l.*1 ++ [key]).
Proof.
  induction l as [|[k xs] l IH]; [done|]. cbn [group_add].
  destruct (String.eqb_spec k key) as [->|Hne]; rewrite !fmap_cons; cbn [fst].
  - rewrite bool_decide_true; [done|left].
  - rewrite IH. case_bool_decide as Hin; case_bool_decide as Hin'; try done.
    + destruct Hin'. by right.
    + apply elem_of_cons in Hin' as [->|]; done.
Qed.

Lemma group_add_NoDup {A} key (x : A) l : NoDup l.*1 -> NoDup (group_add key x l).*1.
Proof.
  rewrite group_add_keys. case_bool_decide; [done|]. intros Hl. apply NoDup_app.
  split; [done|]. split; [|apply NoDup_singleton]. set_solver.
Qed.

Lemma group_add_elem {A} key (x : A) l k xs y :
  (k, xs) ∈ group_add key x l -> y ∈ xs -> y = x \/ exists ys, (k, ys) ∈ l /\ y ∈ ys.
Proof.
  induction l as [|[k' ys] l IH]; simpl.
  - intros [= -> ->]%list_elem_of_singleton ->%list_elem_of_singleton. by left.
  - destruct (String.eqb k' key).
    + intros [[= -> ->]|Hin]%elem_of_cons Hy.
      * apply elem_of_app in Hy as [Hy| ->%list_elem_of_singleton]; [|by left].
        right. exists ys. split; [left|done].
      * right. exists xs. split; [by right|done].
    + intros [[= -> ->]|Hin]%elem_of_cons Hy.
      * right. exists ys. split; [left|done].
      * destruct (IH Hin Hy) as [->|(zs & Hz & Hyz)]; [by left|right].
        exists zs. split; [by right|done].
Qed.

Lemma by_config_spec db runs :
  NoDup (by_config db runs).*1 /\
  forall k xs y, (k, xs) ∈ by_config db runs -> y ∈ xs -> y ∈ runs.
Proof.
  unfold by_config. assert (forall runs out,
    NoDup out.*1 ->
    NoDup (foldl (fun out r => group_add (run_config_hash db r) r out) out runs).*1 /\
    forall k xs y, (k, xs) ∈ foldl (fun out r => group_add (run_config_hash db r) r out) out runs ->
      y ∈ xs -> y ∈ runs \/ exists ys, (k, ys) ∈ out /\ y ∈ ys) as Hgen.
  { induction runs0 as [|r runs0 IH]; intros out Hout; simpl; [eauto|].
    destruct (IH (group_add (run_config_hash db r) r out)) as [Hnd Hel];
      [by apply group_add_NoDup|].
    split; [done|]. intros k xs y Hin Hy.
    destruct (Hel _ _ _ Hin Hy) as [?|(ys & Hys & Hyys)]; [left; by right|].
    destruct (group_add_elem _ _ _ _ _ _ Hys Hyys) as [->|?]; [left; left|by right]. }
  destruct (Hgen runs []) as [Hnd Hel]; [constructor|]. split; [done|].
  intros k xs y Hin Hy. destruct (Hel _ _ _ Hin Hy) as [?|(ys & ?%not_elem_of_nil & _)]; done.
Qed.

(** ** Lemmas: what queueing repeats writes *)
Definition queued (c : campaign) (kind : CandidateKind) (hash : string) (cd : candidate) : Prop :=
  cd_campaign_id cd = c_id c /\ cd_status cd = Valid /\ cd_kind cd = kind /\
  cd_config_hash cd = hash /\ cd_is_baseline cd = false.

(** Candidates are only added, each with [P], [n] of them. *)
Definition grows (P : candidate -> Prop) (n : Z) (db db' : database) : Prop :=
  d_candidates db ⊆ d_candidates db' /\
  (forall id cd, d_candidates db' !! id = Some cd -> d_candidates db !! id = Some cd \/ P cd) /\
  Z.of_nat (size (d_candidates db')) = Z.of_nat (size (d_candidates db)) + n.

Lemma grows_refl P db : grows P 0 db db.
Proof. split; [done|]. split; [by left|lia]. Qed.

Lemma grows_trans P n m db1 db2 db3 :
  grows P n db1 db2 -> grows P m db2 db3 -> grows P (n + m) db1 db3.
Proof.
  intros (S1 & E1 & N1) (S2 & E2 & N2). split; [by transitivity (d_candidates db2)|].
  split; [|lia]. intros id cd Hc. destruct (E2 _ _ Hc) as [Hc'|]; [|by right]. by apply E1.
Qed.

Lemma grows_impl (P Q : candidate -> Prop) n db db' :
  (forall cd, P cd -> Q cd) -> grows P n db db' -> grows Q n db db'.
Proof. intros HPQ (S1 & E1 & N1). split; [done|]. split; [naive_solver|done]. Qed.

Lemma grows_insert (P : candidate -> Prop) cd db :
  d_candidates db !! cd_id cd = None -> P cd -> grows P 1 db (insert_candidate cd db).
Proof.
  intros Hf Hp. unfold grows, insert_candidate. simpl. split; [by apply insert_subseteq|]. split.
  - intros id cd' [[<- <-]|[_ ?]]%lookup_insert_Some; [by right|by left].
  - rewrite map_size_insert_None by done. lia.
Qed.

Section effects.
Context `{Env}.

Lemma new_candidate_run cid cfg hash st err kind b rep w :
  exists w', new_candidate cid cfg hash st err kind b rep w
             = (inr (next_key (d_candidates (w_db w))), w') /\
    w_db w' = insert_candidate
      (Candidate (next_key (d_candidates (w_db w))) cid cfg hash st err kind b rep
         (clock (w_calls w))) (w_db w).
Proof. unfold new_candidate, bind, now, call, add_candidate, db_, gets. cbn. eauto. Qed.

Lemma add_event_run kind cid rid to reason w :
  exists w', add_event kind cid rid to reason w = (inr tt, w') /\
    w_db w' = (w_db w) <| d_events ::= fun l => l ++ [Event kind (clock (w_calls w)) cid rid to reason] |>.
Proof. unfold add_event, bind, now, call, modify_db, modify. cbn. eauto. Qed.

Lemma add_repeats_run n c source hash kind w :
  exists w', add_repeats n c source hash kind w = (inr tt, w') /\
    grows (queued c kind hash) (Z.of_nat n) (w_db w) (w_db w').
Proof.
  revert w. induction n as [|n IH]; intros w; cbn [add_repeats].
  { exists w. split; [done|apply grows_refl]. }
  unfold bind.
  destruct (new_candidate_run (c_id c) (cd_config source) hash Valid None kind false
              (Some (cd_id source)) w) as (w1 & -> & E1).
  destruct (IH w1) as (w2 & -> & G2). exists w2. split; [done|].
  replace (Z.of_nat (S n)) with (1 + Z.of_nat n) by lia.
  eapply grows_trans; [|exact G2]. rewrite E1. apply grows_insert.
  - apply next_key_fresh.
  - by split_and!.
Qed.

Lemma get_candidate_run id cd w :
  d_candidates (w_db w) !! id = Some cd -> get_candidate id w = (inr cd, w).
Proof. intros Hc. unfold get_candidate, bind, db_, gets. by rewrite Hc. Qed.

Lemma event_run kind cid rid w :
  exists w', event_ kind cid rid w = (inr tt, w') /\
    d_candidates (w_db w') = d_candidates (w_db w).
Proof.
  destruct (add_event_run kind cid rid None "" w) as (w' & Hw & Hdb).
  exists w'. split; [exact Hw|by rewrite Hdb].
Qed.

(** The source of a group of runs is the candidate of one of them. *)
Lemma root_of_elem group : group <> [] -> root_of group ∈ map r_candidate_id group.
Proof.
  unfold root_of. destruct group as [|r group]; [done|]. intros _. simpl.
  assert (forall l n, foldl Z.min n l = n \/ foldl Z.min n l ∈ l) as Hmin.
  { induction l as [|y l IH]; intros n; simpl; [by left|].
    destruct (IH (Z.min n y)) as [E|Hin]; [|right; by right]. rewrite E.
    destruct (Z.min_spec n y) as [[_ ->]|[_ ->]]; [by left|right; left]. }
  destruct (Hmin (map r_candidate_id group) (r_candidate_id r)) as [->|?]; [left|by right].
Qed.

Definition missing_of (target : Z) (entry : string * list run * float) : Z :=
  Z.max 0 (target - Z.of_nat (length entry.1.2)).

Lemma confirm_one_run c target entry w :
  is_Some (d_candidates (w_db w) !! root_of entry.1.2) ->
  exists w', _confirm_one c target entry w = (inr (missing_of target entry), w') /\
    grows (queued c Confirmation entry.1.1) (missing_of target entry) (w_db w) (w_db w').
Proof.
  destruct entry as [[hash group] v]. cbn [fst snd]. intros [cd Hcd]. unfold _confirm_one, missing_of.
  cbn [fst snd]. cbv zeta.
  destruct (Z.leb_spec (target - Z.of_nat (length group)) 0).
  { exists w. rewrite Z.max_l by lia. split; [done|apply grows_refl]. }
  rewrite Z.max_r by lia. unfold bind at 1. rewrite (get_candidate_run _ _ _ Hcd).
  unfold bind at 1.
  destruct (add_repeats_run (Z.to_nat (target - Z.of_nat (length group))) c
              (cd <| cd_id := root_of group |>) hash Confirmation w) as (w1 & -> & G1).
  unfold bind at 1. destruct (event_run "confirmation_scheduled" (Some (c_id c)) None w1)
    as (w2 & -> & E2).
  exists w2. split; [done|]. rewrite Z2Nat.id in G1 by lia.
  unfold grows in *. by rewrite E2.
Qed.

Lemma confirm_all_run c target l w :
  (forall e, e ∈ l -> is_Some (d_candidates (w_db w) !! root_of e.1.2)) ->
  exists w', for_count l (_confirm_one c target) w
             = (inr (sum_z (map (missing_of target) l)), w') /\
    grows (fun cd => exists e, e ∈ l /\ queued c Confirmation e.1.1 cd)
          (sum_z (map (missing_of target) l)) (w_db w) (w_db w').
Proof.
  revert w. induction l as [|e l IH]; intros w Hl; cbn [for_count map sum_z foldr].
  { exists w. split; [done|apply grows_refl]. }
  destruct (confirm_one_run c target e w (Hl e ltac:(left))) as (w1 & E1 & G1).
  destruct (IH w1) as (w2 & E2 & G2).
  { intros e' He'. destruct (Hl e' ltac:(by right)) as [cd Hcd]. exists cd.
    destruct G1 as (Hsub & _). by eapply lookup_weaken. }
  exists w2. unfold bind. rewrite E1. cbv beta iota. rewrite E2. split; [done|].
  eapply grows_trans.
  - eapply grows_impl; [|exact G1]. intros cd Hq. exists e. split; [left|done].
  - eapply grows_impl; [|exact G2]. intros cd (e' & He' & Hq). exists e'. split; [by right|done].
Qed.

Lemma ranked_entry db c e :
  e ∈ _ranked_screen_configs db c ->
  e.1 ∈ by_config db (_screen_runs db c) /\ objective_values db e.1.2 <> [].
Proof.
  unfold _ranked_screen_configs. rewrite elem_of_sort_by, list_elem_of_omap.
  intros ([hash group] & Hin & He). destruct (objective_values db group) as [|v vs] eqn:E; [done|].
  injection He as <-. simpl. by rewrite E.
Qed.

(** The group of a ranked configuration holds runs of the campaign. *)
Lemma ranked_group db c e :
  e ∈ _ranked_screen_configs db c ->
  e.1.2 <> [] /\ forall r, r ∈ e.1.2 -> r ∈ _screen_runs db c.
Proof.
  intros [Hin Hv]%ranked_entry. destruct e as [[hash group] v]. simpl in *. split.
  - intros ->. done.
  - intros r Hr. by eapply by_config_spec.
Qed.

Lemma ranked_NoDup db c : NoDup (map (fun e => e.1.1) (_ranked_screen_configs db c)).
Proof.
  unfold _ranked_screen_configs.
  set (f := fun '(hash, group) => _). set (l := by_config db (_screen_runs db c)).
  assert (NoDup (map (fun e : string * list run * float => e.1.1) (omap f l))) as Hnd.
  { assert (NoDup l.*1) as Hl by apply by_config_spec. clearbody l.
    induction l as [|[hash group] l IH]; simpl; [constructor|].
    apply NoDup_cons in Hl as [Hh Hl]. subst f. simpl.
    destruct (objective_values db group); [by apply IH|]. simpl. constructor; [|by apply IH].
    intros ([[h g] v] & Hhv & Hin)%list_elem_of_fmap.
    apply list_elem_of_omap in Hin as ([h' g'] & Hin & He).
    destruct (objective_values db g'); [done|]. injection He as -> _ _. simpl in Hhv. subst h.
    apply Hh, list_elem_of_fmap. by exists (hash, g'). }
  rewrite sort_by_perm. exact Hnd.
Qed.
End effects.

(** ** Lemmas: what verification writes *)

(** A campaign verifies one configuration once: its shortlist never holds two
    verification candidates of one hash. *)
Definition verified_once (db : database) : Prop :=
  forall id1 id2 cd1 cd2,
    d_candidates db !! id1 = Some cd1 -> d_candidates db !! id2 = Some cd2 ->
    cd_campaign_id cd1 = cd_campaign_id cd2 ->
    cd_kind cd1 = Verification -> cd_kind cd2 = Verification ->
    cd_is_baseline cd1 = false -> cd_is_baseline cd2 = false ->
    cd_config_hash cd1 = cd_config_hash cd2 -> id1 = id2.

(** Every shortlist verification of the campaign has one of these hashes. *)
Definition verified_in (cid : Z) (hashes : list string) (db : database) : Prop :=
  forall id cd, d_candidates db !! id = Some cd -> cd_campaign_id cd = cid ->
    cd_kind cd = Verification -> cd_is_baseline cd = false -> cd_config_hash cd ∈ hashes.

Section verification.
Context `{Env}.

Lemma new_candidate_rows cid cfg hash st err kind b rep w :
  exists w' cd, new_candidate cid cfg hash st err kind b rep w = (inr (cd_id cd), w') /\
    d_candidates (w_db w) !! cd_id cd = None /\
    d_candidates (w_db w') = <[ cd_id cd := cd ]> (d_candidates (w_db w)) /\
    cd_campaign_id cd = cid /\ cd_status cd = st /\ cd_kind cd = kind /\
    cd_config_hash cd = hash /\ cd_is_baseline cd = b.
Proof.
  destruct (new_candidate_run cid cfg hash st err kind b rep w) as (w' & Hw & Hdb).
  eexists w', (Candidate _ _ _ _ _ _ _ _ _ _). split; [exact Hw|].
  split; [apply next_key_fresh|]. by rewrite Hdb.
Qed.

Lemma verify_one_run c already hash group v w :
  let '(res, w') := _verify_one c already (hash, group, v) w in
  d_candidates (w_db w') = d_candidates (w_db w) \/
  (hash ∉ already /\ exists id cd, d_candidates (w_db w) !! id = None /\
     d_candidates (w_db w') = <[ id := cd ]> (d_candidates (w_db w)) /\
     queued c Verification hash cd).
Proof.
  unfold _verify_one. case_bool_decide as Hin; [by left|].
  unfold bind at 1. destruct (d_candidates (w_db w) !! root_of group) as [cd|] eqn:Hcd.
  - rewrite (get_candidate_run _ _ _ Hcd). cbn [add_repeats].
    unfold bind at 1 2.
    destruct (new_candidate_rows (c_id c) (cd_config (cd <| cd_id := root_of group |>)) hash Valid
      None Verification false (Some (cd_id (cd <| cd_id := root_of group |>))) w)
      as (w1 & cd1 & -> & Hf & E1 & Hq).
    unfold ret at 1. unfold bind at 1.
    destruct (event_run "verification_scheduled" (Some (c_id c)) None w1) as (w2 & -> & E2).
    unfold ret. cbn [fst snd]. right. split; [done|]. exists (cd_id cd1), cd1. rewrite E2, E1. unfold queued. naive_solver.
  - unfold get_candidate, bind, db_, gets. rewrite Hcd. by left.
Qed.

Lemma verified_once_insert c db hashes id cd hash (cands : gmap Z candidate) :
  verified_once db -> verified_in (c_id c) hashes db ->
  d_candidates db !! id = None -> hash ∉ hashes -> queued c Verification hash cd ->
  cands = <[ id := cd ]> (d_candidates db) ->
  forall db', d_candidates db' = cands ->
  verified_once db' /\ verified_in (c_id c) (hash :: hashes) db'.
Proof.
  intros Ho Hi Hf Hh (Hc & _ & Hk & Hhash & Hb) -> db' Edb'. split.
  - intros id1 id2 cd1 cd2. rewrite Edb', !lookup_insert_Some.
    intros [[<- <-]|[Hn1 H1]] [[<- <-]|[Hn2 H2]]; [done| | |by apply Ho].
    + intros Ecid Ek1 Ek2 Eb1 Eb2 Eh. exfalso. apply Hh. rewrite <-Hhash, Eh.
      apply (Hi id2); [done|congruence|done|done].
    + intros Ecid Ek1 Ek2 Eb1 Eb2 Eh. exfalso. apply Hh. rewrite <-Hhash, <-Eh.
      apply (Hi id1); [done|congruence|done|done].
  - intros id' cd'. rewrite Edb', lookup_insert_Some.
    intros [[<- <-]|[Hn H']] Hcid Hkind Hbase; [rewrite Hhash; left|right].
    by apply (Hi id').
Qed.

Lemma verify_all_once c already l hashes w :
  NoDup (map (fun e => e.1.1) l) ->
  (forall h, h ∈ map (fun e => e.1.1) l -> h ∈ hashes -> h ∈ already) ->
  verified_once (w_db w) -> verified_in (c_id c) hashes (w_db w) ->
  verified_once (w_db (for_count l (_verify_one c already) w).2).
Proof.
  revert hashes w. induction l as [|[[hash group] v] l IH]; intros hashes w Hnd Hnew Ho Hi; [done|].
  cbn [for_count map fst] in *. apply NoDup_cons in Hnd as [Hh Hnd].
  unfold bind at 1. pose proof (verify_one_run c already hash group v w) as Hone.
  destruct (_verify_one c already (hash, group, v) w) as [res w1].
  assert (exists hashes', (forall h, h ∈ map (fun e => e.1.1) l -> h ∈ hashes' -> h ∈ already) /\
            verified_once (w_db w1) /\ verified_in (c_id c) hashes' (w_db w1)) as (hs & Hn' & Ho' & Hi').
  { destruct Hone as [E|(Hna & id & cd & Hf & E & Hq)].
    - exists hashes. split; [set_solver|]. unfold verified_once, verified_in in *. by rewrite E.
    - exists (hash :: hashes). split.
      + intros h Hin [->|Hin']%elem_of_cons; [done|]. apply Hnew; [by right|done].
      + eapply verified_once_insert; [exact Ho|exact Hi|exact Hf| |exact Hq|done|done].
        intros Hin'. apply Hna, Hnew; [left|done]. }
  destruct res as [e|n]; [done|]. unfold bind.
  specialize (IH hs w1 Hnd Hn' Ho' Hi').
  destruct (for_count l (_verify_one c already) w1) as [[e|m] w2]; done.
Qed.

Lemma verified_hashes_spec db cid : verified_in cid (verified_hashes db cid) db.
Proof.
  intros id cd Hcd Hcid Hk _. unfold verified_hashes, campaign_candidates.
  apply list_elem_of_fmap. exists cd. split; [done|].
  rewrite !elem_of_where, elem_of_rows_z. split; [split; [by exists id|lia]|].
  by apply bool_decide_eq_true.
Qed.

Lemma add_baseline_once c b kind w :
  verified_once (w_db w) -> verified_once (w_db (_add_baseline_candidate c b kind w).2).
Proof.
  intros Ho. unfold _add_baseline_candidate, bind.
  destruct (new_candidate_rows (c_id c) (b_engine_args b)
    ("baseline-" +:+ candidate_kind_name kind +:+ "-" +:+ pretty (b_id b)) Valid None kind true None w)
    as (w1 & cd1 & -> & Hf & E1 & Hq).
  destruct (event_run "baseline_relaunch_scheduled" (Some (c_id c)) None w1) as (w2 & -> & E2).
  intros id1 id2 cd2 cd3. cbn [snd]. rewrite E2, E1, !lookup_insert_Some.
  destruct Hq as (_ & _ & _ & _ & Hbase).
  intros [[_ <-]|[_ H1]] [[_ <-]|[_ H2]]; [congruence|congruence|congruence|by apply Ho].
Qed.
End verification.

Lemma schedule_confirmations_run `{Env} (c : campaign) (w : world)
    (Hfk : forall rid r, d_runs (w_db w) !! rid = Some r ->
                         is_Some (d_candidates (w_db w) !! r_candidate_id r))
    (Htop : 0 < c_confirm_top_k c) :
  let target := Z.max 1 (c_confirm_repeats c) in
  let top := take (Z.to_nat (c_confirm_top_k c)) (_ranked_screen_configs (w_db w) c) in
  let due := sum_z (map (missing_of target) top) in
  exists w', _schedule_confirmations c w = (inr (0 <? due), w') /\
    grows (fun cd => exists e, e ∈ top /\ queued c Confirmation e.1.1 cd) due (w_db w) (w_db w') /\
    0 <= due <= c_confirm_top_k c * (target - 1).
Proof.
  cbv zeta. unfold _schedule_confirmations. destruct (Z.leb_spec (c_confirm_top_k c) 0); [lia|].
  cbv zeta. set (target := Z.max 1 (c_confirm_repeats c)).
  unfold bind at 1, db_, gets. set (top := take _ _).
  assert (forall e, e ∈ top -> e.1.2 <> [] /\
            is_Some (d_candidates (w_db w) !! root_of e.1.2)) as Htops.
  { intros e He. apply subseteq_take in He. apply ranked_group in He as [Hne Hruns].
    split; [done|]. apply root_of_elem, list_elem_of_fmap in Hne as (r & -> & Hr).
    apply Hruns in Hr. unfold _screen_runs in Hr. apply elem_of_where in Hr as [Hr _].
    apply elem_of_rows_z in Hr as [k Hk]. by apply (Hfk k). }
  destruct (confirm_all_run c target top w) as (w' & Hrun & Hg); [intros e He; by apply Htops|].
  exists w'. unfold bind. rewrite Hrun. split; [done|]. split; [done|].
  assert (0 <= sum_z (map (missing_of target) top) <= Z.of_nat (length top) * (target - 1)) as Hb.
  { clear Hrun Hg. induction top as [|e top IH]; unfold sum_z; simpl; [lia|].
    fold (sum_z (map (missing_of target) top)).
    assert (0 <= sum_z (map (missing_of target) top) <= Z.of_nat (length top) * (target - 1)).
    { apply IH. intros e' He'. apply Htops. by right. }
    assert (0 <= missing_of target e <= target - 1); [|lia].
    destruct (Htops e ltac:(left)) as [Hne _]. unfold missing_of. destruct e as [[h g] v].
    simpl in *. destruct g; [done|simpl; lia]. }
  pose proof (length_take (_ranked_screen_configs (w_db w) c) (Z.to_nat (c_confirm_top_k c))) as Hl.
  fold top in Hl. assert (1 <= target) by lia. nia.
Qed.

(** ** Properties *)

(** Confirming the leaders is exact and bounded: for each of the best
    [confirm_top_k] screened configurations it queues precisely the repeats
    its measurements fall short of [confirm_repeats], each a valid
    confirmation of that configuration; it says it queued work exactly when
    something was short, and never queues more than the product of the two
    numbers, so a campaign that keeps confirming ends. *)
Theorem confirmations_are_exact `{Env} (c : campaign) (w : world)
    (Hfk : forall rid r, d_runs (w_db w) !! rid = Some r ->
                         is_Some (d_candidates (w_db w) !! r_candidate_id r))
    (Htop : 0 < c_confirm_top_k c) :
  let target := Z.max 1 (c_confirm_repeats c) in
  let top := take (Z.to_nat (c_confirm_top_k c)) (_ranked_screen_configs (w_db w) c) in
  let due := sum_z (map (missing_of target) top) in
  exists w', _schedule_confirmations c w = (inr (0 <? due), w') /\
    grows (fun cd => exists e, e ∈ top /\ queued c Confirmation e.1.1 cd) due (w_db w) (w_db w') /\
    0 <= due <= c_confirm_top_k c * (target - 1).
Proof. by apply schedule_confirmations_run. Qed.

(** One verification per configuration, ever: whatever the campaign's
    ranking, sending the shortlist to the expensive benchmark never leaves two
    verification candidates of one configuration in a campaign that had none
    twice; and a campaign with no second stage, or still waiting for its
    dataset, queues nothing. *)
Theorem verification_at_most_once `{Env} (c : campaign) (w : world)
    (Honce : verified_once (w_db w)) :
  verified_once (w_db (_schedule_verification c w).2) /\
  (is_staged c = false \/ _waiting_on_dataset c = true ->
   _schedule_verification c w = (inr false, w)).
Proof.
  unfold _schedule_verification. destruct (is_staged c); simpl; [|by split].
  destruct (_waiting_on_dataset c) eqn:Hwait; [by split|]. split; [|naive_solver].
  unfold bind at 1, db_ at 1, gets at 1.
  destruct (_ranked_screen_configs (w_db w) c) as [|e l] eqn:Hr; [done|].
  set (ranked := e :: l) in *. cbv zeta. unfold bind at 1.
  assert (verified_once (w_db (for_count (take (Z.to_nat (c_verify_top_k c)) ranked)
            (_verify_one c (verified_hashes (w_db w) (c_id c))) w).2)) as Ho.
  { eapply verify_all_once; [|by intros h _ ?|done|apply verified_hashes_spec].
    rewrite <-firstn_map. eapply sublist_NoDup; [|apply (sublist_take _ (Z.to_nat (c_verify_top_k c)))].
    rewrite <-Hr. apply ranked_NoDup. }
  destruct (for_count _ _ w) as [[er|n] w1]; [done|]. simpl in Ho.
  unfold bind at 1, db_, gets. destruct (_ && _); [|by unfold bind, ret].
  destruct (_campaign_baseline (w_db w1) c) as [b|]; [|by unfold bind, ret].
  unfold bind. pose proof (add_baseline_once c b Verification w1 Ho) as Hb.
  by destruct (_add_baseline_candidate c b Verification w1) as [[er|[]] w2].
Qed.

(** ** Lemmas: the campaign's own row *)
Definition same_campaigns (db db' : database) : Prop := d_campaigns db' = d_campaigns db.
#[export] Instance same_campaigns_preorder : PreOrder same_campaigns.
Proof. split; unfold same_campaigns; [done|]. intros x y z -> ->. done. Qed.

Section done.
Context `{Env}.

Lemma event_respects (R : database -> database -> Prop) `{!PreOrder R} kind cid rid to reason :
  (forall db l, R db (db <| d_events := l |>)) -> respects (on_db R) (add_event kind cid rid to reason).
Proof.
  intros HR. unfold add_event. respects_walk. apply respects_modify_db.
  intros db. exact (HR db (d_events db ++ _)).
Qed.

Lemma new_candidate_respects (R : database -> database -> Prop) `{!PreOrder R}
    cid cfg hash st err kind b rep :
  (forall db cd, R db (insert_candidate cd db)) ->
  respects (on_db R) (new_candidate cid cfg hash st err kind b rep).
Proof.
  intros HR. unfold new_candidate, add_candidate. respects_walk. by apply respects_modify_db.
Qed.

Lemma add_repeats_campaigns n c source hash kind :
  respects (on_db same_campaigns) (add_repeats n c source hash kind).
Proof.
  induction n as [|n IH]; cbn [add_repeats]; respects_walk.
  apply new_candidate_respects; untouched.
Qed.

Lemma confirmations_campaigns c : respects (on_db same_campaigns) (_schedule_confirmations c).
Proof.
  unfold _schedule_confirmations, _confirm_one, get_candidate, event_. respects_walk.
  - apply add_repeats_campaigns.
  - apply event_respects; untouched.
Qed.

Lemma verification_campaigns c : respects (on_db same_campaigns) (_schedule_verification c).
Proof.
  unfold _schedule_verification, _verify_one, _add_baseline_candidate, get_candidate, event_.
  respects_walk; try apply add_repeats_campaigns; try (apply event_respects; untouched).
  apply new_candidate_respects; untouched.
Qed.

(** Nothing was queued: nothing was done, and nothing was due. *)
Lemma confirm_all_none c target l w n w' :
  for_count l (_confirm_one c target) w = (inr n, w') ->
  0 <= n /\ (n = 0 -> w' = w /\ forall h g v, (h, g, v) ∈ l -> target <= Z.of_nat (length g)).
Proof.
  revert w n w'. induction l as [|[[hash group] v] l IH]; intros w n w'; cbn [for_count].
  { intros [= <- <-]. split; [lia|]. intros _. split; [done|]. by intros h g v ?%elem_of_nil. }
  unfold bind at 1. unfold _confirm_one at 1.
  destruct (Z.leb_spec (target - Z.of_nat (length group)) 0) as [Hle|Hgt].
  - unfold ret at 1, bind. destruct (for_count _ _ w) as [[e|m] w1] eqn:E; [done|].
    intros [= <- <-]. destruct (IH _ _ _ E) as [Hm Hs]. split; [lia|]. intros Hz. destruct Hs as [-> Hl]; [lia|].
    split; [done|]. intros h g v' [[= -> -> ->]|Hin]%elem_of_cons; [lia|by eapply Hl].
  - unfold bind at 1. destruct (get_candidate (root_of group) w) as [[e|cd] w1]; [done|].
    unfold bind at 1. destruct (add_repeats _ _ _ _ _ w1) as [[e|[]] w2]; [done|].
    unfold bind at 1. destruct (event_ _ _ _ w2) as [[e|[]] w3]; [done|].
    unfold ret at 1, bind. destruct (for_count _ _ w3) as [[e|m] w4] eqn:E; [done|].
    intros [= <- <-]. destruct (IH _ _ _ E) as [Hm _]. lia.
Qed.

Lemma verify_all_none c already l w n w' :
  for_count l (_verify_one c already) w = (inr n, w') ->
  0 <= n /\ (n = 0 -> w' = w /\ forall h g v, (h, g, v) ∈ l -> h ∈ already).
Proof.
  revert w n w'. induction l as [|[[hash group] v] l IH]; intros w n w'; cbn [for_count].
  { intros [= <- <-]. split; [lia|]. intros _. split; [done|]. by intros h g v ?%elem_of_nil. }
  unfold bind at 1. unfold _verify_one at 1. destruct (bool_decide (hash ∈ already)) eqn:Ea.
  - unfold ret at 1, bind. destruct (for_count _ _ w) as [[e|m] w1] eqn:E; [done|].
    intros [= <- <-]. destruct (IH _ _ _ E) as [Hm Hs]. split; [lia|]. intros Hz. destruct Hs as [-> Hl]; [lia|].
    apply bool_decide_eq_true in Ea.
    split; [done|]. intros h g v' [[= -> -> ->]|Hin]%elem_of_cons; [done|by eapply Hl].
  - unfold bind at 1. destruct (get_candidate (root_of group) w) as [[e|cd] w1]; [done|].
    unfold bind at 1. destruct (add_repeats _ _ _ _ _ w1) as [[e|[]] w2]; [done|].
    unfold bind at 1. destruct (event_ _ _ _ w2) as [[e|[]] w3]; [done|].
    unfold ret at 1, bind. destruct (for_count _ _ w3) as [[e|m] w4] eqn:E; [done|].
    intros [= <- <-]. destruct (IH _ _ _ E) as [Hm _]. lia.
Qed.

(** Every leader has been measured as often as the campaign asks. *)
Definition leaders_confirmed (db : database) (c : campaign) : Prop :=
  forall hash group v, (hash, group, v) ∈ take (Z.to_nat (c_confirm_top_k c)) (_ranked_screen_configs db c) ->
    Z.max 1 (c_confirm_repeats c) <= Z.of_nat (length group).

(** Every finalist of a campaign with a second stage has its verification, and
    so has production, where the campaign compares with it and it is known. *)
Definition finalists_verified (db : database) (c : campaign) : Prop :=
  is_staged c = true ->
  (forall hash group v, (hash, group, v) ∈ take (Z.to_nat (c_verify_top_k c)) (_ranked_screen_configs db c) ->
     exists id cd, d_candidates db !! id = Some cd /\ cd_campaign_id cd = c_id c /\ cd_kind cd = Verification
       /\ cd_config_hash cd = hash)
  /\ (_ranked_screen_configs db c <> [] -> c_run_baseline_canary c = true -> is_Some (_campaign_baseline db c) ->
      exists id cd, d_candidates db !! id = Some cd /\ cd_campaign_id cd = c_id c /\ is_baseline_candidate cd = true
        /\ stage_of cd = VERIFY).

Lemma confirmations_false c w w' :
  _schedule_confirmations c w = (inr false, w') -> w' = w /\ leaders_confirmed (w_db w) c.
Proof.
  unfold _schedule_confirmations. destruct (Z.leb_spec (c_confirm_top_k c) 0) as [Hk|Hk].
  { intros [= <-]. split; [done|]. intros h g v. replace (Z.to_nat (c_confirm_top_k c)) with 0%nat by lia.
    by intros ?%elem_of_nil. }
  unfold bind at 1, db_, gets. unfold bind. destruct (for_count _ _ w) as [[e|n] w1] eqn:E; [done|].
  intros [= Hn <-]. apply confirm_all_none in E as [H0 Hs]. destruct Hs as [-> Hl]; [lia|]. split; [done|].
  intros h g v Hin. by eapply Hl.
Qed.

Lemma elem_of_campaign_candidates db cid cd : cd ∈ campaign_candidates db cid <->
  exists id, d_candidates db !! id = Some cd /\ cd_campaign_id cd = cid.
Proof.
  unfold campaign_candidates. rewrite elem_of_where, elem_of_rows_z, Z.eqb_eq. naive_solver.
Qed.

Lemma elem_of_verified db cid hash : hash ∈ verified_hashes db cid ->
  exists id cd, d_candidates db !! id = Some cd /\ cd_campaign_id cd = cid /\ cd_kind cd = Verification /\ cd_config_hash cd = hash.
Proof.
  unfold verified_hashes. intros (cd & -> & Hin)%list_elem_of_fmap. apply elem_of_where in Hin as [Hin Hk].
  apply elem_of_campaign_candidates in Hin as (id & Hid & Hc). apply bool_decide_eq_true in Hk. by exists id, cd.
Qed.

Lemma verification_false c w w' :
  _waiting_on_dataset c = false ->
  _schedule_verification c w = (inr false, w') -> w' = w /\ finalists_verified (w_db w) c.
Proof.
  intros Hwait. unfold _schedule_verification, finalists_verified. destruct (is_staged c); cbn [negb]; [|intros [= <-]; by split].
  rewrite Hwait. unfold bind at 1, db_ at 1, gets at 1.
  destruct (_ranked_screen_configs (w_db w) c) as [|e l] eqn:Er.
  { intros [= <-]. split; [done|]. intros _. split; [|done]. intros h g v. rewrite take_nil. by intros ?%elem_of_nil. }
  set (ranked := e :: l) in *. cbv zeta. unfold bind at 1.
  destruct (for_count _ _ w) as [[er|n] w1] eqn:E; [done|].
  apply verify_all_none in E as [H0 Hs].
  assert (n = 0 -> w1 = w /\ forall h g v, (h, g, v) ∈ take (Z.to_nat (c_verify_top_k c)) ranked ->
     exists id cd, d_candidates (w_db w) !! id = Some cd /\ cd_campaign_id cd = c_id c /\ cd_kind cd = Verification
       /\ cd_config_hash cd = h) as Hs'.
  { intros Hz. destruct (Hs Hz) as [-> Hl]. split; [done|]. intros h g v Hin. by apply elem_of_verified, (Hl h g v). }
  clear Hs. unfold bind at 1, db_, gets.
  destruct (c_run_baseline_canary c); cbn [andb].
  - destruct (_has_baseline_candidate (w_db w1) c VERIFY) eqn:Eb; cbn [negb].
    + unfold bind, ret. intros [= Hz <-]. destruct Hs' as [-> Hl]; [lia|]. split; [done|]. intros _. split; [exact Hl|].
      intros _ _ _. apply existsb_exists in Eb as (cd & Hin & Hcd). apply list_elem_of_In, elem_of_campaign_candidates in Hin as (id & Hid & Hc).
      apply andb_prop in Hcd as [Hb Hst]. apply bool_decide_eq_true in Hst. by exists id, cd.
    + destruct (_campaign_baseline (w_db w1) c) as [b|] eqn:Ecb.
      * unfold bind. destruct (_add_baseline_candidate c b Verification w1) as [[er|[]] w2]; [done|].
        unfold ret. intros [= Hz _]. lia.
      * unfold bind, ret. intros [= Hz <-]. destruct Hs' as [-> Hl]; [lia|]. split; [done|]. intros _. split; [exact Hl|].
        rewrite Ecb. by intros _ _ [? [=]].
  - unfold bind, ret. intros [= Hz <-]. destruct Hs' as [-> Hl]; [lia|]. split; [done|]. intros _. by split; [exact Hl|].
Qed.

(** Either the campaign's row is as it was, or everything it could still
    measure was found measured. *)
Lemma maybe_finish_cases cid c w res w' :
  d_campaigns (w_db w) !! cid = Some c ->
  _maybe_finish_campaign cid w = (res, w') ->
  d_campaigns (w_db w') = d_campaigns (w_db w) \/
  (nothing_left (w_db w) c = true /\ _not_planned_yet (w_db w) c = false /\
   _waiting_on_dataset c = false /\ leaders_confirmed (w_db w) c /\ finalists_verified (w_db w) c /\
   d_candidates (w_db w') = d_candidates (w_db w)).
Proof.
  intros Hc. unfold _maybe_finish_campaign. unfold bind at 1.
  unfold get_campaign, bind at 1, db_ at 1, gets at 1. rewrite Hc.
  cbn [expect]. unfold ret at 1. unfold bind at 1, db_, gets.
  destruct (nothing_left (w_db w) c) eqn:Hleft; [|intros [= _ <-]; by left]. cbn [negb].
  destruct (_not_planned_yet (w_db w) c) eqn:Hplan; [intros [= _ <-]; by left|].
  pose proof (confirmations_campaigns c w) as Hcc. unfold on_db, same_campaigns in Hcc.
  unfold bind at 1. destruct (_schedule_confirmations c w) as [[e|[]] w1] eqn:Hconf;
    simpl in Hcc; [intros [= _ <-]; by left|intros [= _ <-]; by left|].
  destruct (_waiting_on_dataset c) eqn:Hwait; [intros [= _ <-]; by left|].
  apply confirmations_false in Hconf as [-> Hlead].
  pose proof (verification_campaigns c w) as Hvc. unfold on_db, same_campaigns in Hvc.
  unfold bind at 1. destruct (_schedule_verification c w) as [[e|[]] w2] eqn:Hver;
    simpl in Hvc; [intros [= _ <-]; by left|intros [= _ <-]; by left|].
  apply (verification_false _ _ _ Hwait) in Hver as [-> Hver].
  intros Hend. right. split_and!; [done..|].
  unfold bind, put_campaign, modify_db, modify in Hend.
  destruct (event_run "campaign_done" (Some cid) None
    (w <| w_db ::= fun db => db <| d_campaigns ::= alter (fun c => c <| c_status := Done |>) cid |> |>))
    as (w3 & E3 & Hd). rewrite E3 in Hend. injection Hend as <- <-. by rewrite Hd.
Qed.
End done.


(** ** Witnesses *)
Lemma sample_done_candidates rid r :
  d_runs sample_done_db !! rid = Some r -> is_Some (d_candidates sample_done_db !! r_candidate_id r).
Proof.
  change (d_runs sample_done_db)
    with ({[ 1 := sample_run 1 1 1 [0; 1; 2; 3] Succeeded ]} : gmap Z run).
  intros [<- <-]%lookup_singleton_Some. vm_compute. eauto.
Qed.

Lemma confirmations_are_exact_witness :
  exists w', _schedule_confirmations sample_campaign (sample_world sample_done_db) = (inr true, w').
Proof.
  destruct (confirmations_are_exact sample_campaign (sample_world sample_done_db)
    sample_done_candidates ltac:(vm_compute; reflexivity)) as (w' & E & _).
  exists w'. rewrite E. vm_compute. reflexivity.
Defined.

Lemma verification_at_most_once_witness :
  _schedule_verification sample_campaign (sample_world sample_done_db)
  = (inr false, sample_world sample_done_db).
Proof.
  apply verification_at_most_once.
  - intros id1 id2 cd1 cd2 H1 H2 _ Hk. exfalso. revert H1 Hk.
    change (d_candidates _) with ({[ 1 := sample_candidate 1 4 Exhausted ]} : gmap Z candidate) at 1.
    intros [<- <-]%lookup_singleton_Some. discriminate.
  - left. reflexivity.
Defined.

(** A campaign whose one leader has been measured once, as often as it asks. *)
Definition last_asking : campaign := sample_campaign <| c_confirm_top_k := 1 |> <| c_confirm_repeats := 1 |>.
Definition sample_last_world : world :=
  sample_world (sample_done_db <| d_campaigns := {[ 1 := last_asking ]} |>).

