(* ===== verification/Placement.v ===== *)
(** Placing one run: on one machine, or across a whole node group
    ([Supervisor._start_one], [_start_gang], [_create_run] of
    [app/control/orchestrator/supervisor.py]). *)
From S2P Require Import Prelude Float Values Documents Space Validation Model States Packing Timing World Samples.
From S2P Require Import Occupancy Fleet Exclusive Finish.
#[local] Open Scope string_scope.
#[local] Open Scope list_scope.
#[local] Open Scope Z_scope.

Definition blank_run : run :=
  Run 0 0 0 None Experiment Pending "" "" [] 0 "" "" "" "" None None "" None false 0 None None None
    "" None 0 "" 0 "" "".

Section placement.
Context `{Env}.

(** [recipe/campaign.py:config_cards]. *)
Definition config_cards (c : campaign) (cfg : config) : Z :=
  if c_has_recipe c then recipe_total_gpus c cfg else cards_used cfg.

Definition container_name (rid : Z) : string := "autotune-run-" +:+ pretty rid.
Definition worker_name (rid rank : Z) : string :=
  container_name rid +:+ "-r" +:+ pretty rank.

(** A gang's worker row. *)
Definition worker_node (rid port rank : Z) (member : machine) (cards : list Z) : run_node :=
  RunNode rid rank (Some (m_id member)) false cards port (worker_name rid rank) "" "" Pending.

(** [node_plan] is empty for a run on one machine. *)
Definition _create_run (c : campaign) (m : machine) (cd : candidate) (cards : list Z)
    (node_plan : list (machine * list Z)) (service_port dist_port : Z) (node_group : string)
    : W unit :=
  for_each (match node_plan with [] => [(m, cards)] | _ => node_plan end)
    (fun '(member, _) => put_machine (m_id member) (fun m => m <| m_state := Reserved |>)) ;;;
  started <- now ;;
  created <- now ;;
  rid <- add_run (blank_run <| r_campaign_id := c_id c |> <| r_candidate_id := cd_id cd |>
                            <| r_machine_id := Some (m_id m) |> <| r_status := Pending |>
                            <| r_gpu_indices := cards |> <| r_service_port := service_port |>
                            <| r_dist_port := dist_port |> <| r_node_group := node_group |>
                            <| r_started_at := Some started |> <| r_created_at := created |>) ;;
  put_candidate (cd_id cd) (fun cd => cd <| cd_status := Exhausted |>) ;;;
  put_run rid (fun r => r <| r_container_name := container_name rid |>) ;;;
  for_each (drop 1 (imap (fun i mc => (Z.of_nat i, mc)) node_plan))
    (fun '(rank, (member, member_cards)) =>
       add_node (worker_node rid service_port rank member member_cards)) ;;;
  event_ "run_scheduled" (Some (c_id c)) (Some rid).

(** The candidates a gang of [nodes] members could hold, with the cards each
    takes per node. *)
Definition gang_fitting (nodes capacity : Z) (pending : list candidate) : list (candidate * Z) :=
  omap (fun cd =>
          let world := cards_used (cd_config cd) in
          if (world <? nodes) || negb (world mod nodes =? 0) then None
          else if capacity <? world / nodes then None
          else Some (cd, world / nodes)) pending.

Definition gang_key (pair : candidate * Z) : list Z := [- pair.2; cd_id pair.1].

(** What a placement attempt answers: whether it placed a run, and the
    machines it found occupied. *)
Definition _start_gang (c : campaign) (pending : list candidate) (blocked busy : gset Z)
    : W (bool * gset Z) :=
  db <- db_ ;;
  match _group_for_campaign db c with
  | None => ret (false, busy)
  | Some group =>
      let members := map snd (members_by_rank db group) in
      let nodes := Z.of_nat (length members) in
      match members with
      | [] => ret (false, busy)
      | master :: _ =>
        if nodes <? 2 then ret (false, busy)
        else if negb (_group_is_idle db group)
           || existsb (fun m => bool_decide (m_id m ∈ blocked) && negb (holds db m (c_id c))) members
           || existsb (fun m => match reservations_on db m (Some (c_id c)) with
                                | [] => false | _ => true end) members
        then
          ret (false, if forallb (fun m => accepts_new_work m && negb (m_needs_attention m)) members
                      then busy ∪ list_to_set (map m_id members) else busy)
        else if existsb (fun m => negb (String.eqb (or_string (m_driver m) "ssh_docker") "ssh_docker"))
                        members
        then ret (false, busy)
        else
          let capacity := min_default (map m_gpu_count members) 0 in
          match min_by (key_before gang_key) (gang_fitting nodes capacity pending) with
          | None => ret (false, busy)
          | Some (cd, per_node) =>
              let plan := map (fun m => (m, range per_node)) members in
              let port := _free_port_across db c members in
              let dist_port := _free_dist_port db master [port] in
              _create_run c master cd (range per_node) plan port dist_port (g_name group) ;;;
              ret (true, busy)
          end
      end
  end.

(** What one machine offers a campaign: a candidate and its cards to place
    there, that it is busy, or nothing. *)
Inductive offer :=
| Place (cd : candidate) (cards : list Z) (blockers : list run)
| MachineBusy
| NothingFits.

Definition no_cards (n : run_node) : bool := match n_gpu_indices n with [] => true | _ => false end.

Definition offer_on (db : database) (c : campaign) (pending : list candidate) (blocked : gset Z)
    (m : machine) : offer :=
  let placements := map (fun cd => mkPlacement (cd_id cd) (config_cards c (cd_config cd))) pending in
  let by_id id := List.find (fun cd => cd_id cd =? id) pending in
  if bool_decide (m_id m ∈ blocked) && negb (holds db m (c_id c)) then MachineBusy
  else
    let held := reservations_on db m (Some (c_id c)) in
    if match held with
       | [] => false
       | _ => negb (c_share_machine c) || existsb (fun r => negb (rv_share r)) held
       end then MachineBusy
    else
      let reserved_cards := sum_z (map rv_cards held) in
      if bool_decide (is_Some (port_busy_reason db m None (Some (c_id c)))) then MachineBusy
      else if machine_hosts_live_gang db (m_id m) then MachineBusy
      else
        let live := live_runs_on db (m_id m) in
        if match live with [] => false | _ => negb (_may_share db c live m) end then MachineBusy
        else
          let blockers := live ++ teardown_pending_on db (m_id m) in
          let nodes := _live_nodes_on db (m_id m) ++ _teardown_pending_nodes_on db (m_id m) in
          if (0 <? m_gpu_count m) && existsb no_cards nodes then MachineBusy
          else if m_gpu_count m <=? 0 then
            match blockers, held with
            | [], [] =>
                match pending with cd :: _ => Place cd [] blockers | [] => NothingFits end
            | _, _ => MachineBusy
            end
          else
            let taken := taken_cards nodes in
            let free := free_indices (m_gpu_count m) taken in
            let free := take (Z.to_nat (Z.max 0 (Z.of_nat (length free) - reserved_cards))) free in
            match choose_next (Z.of_nat (length free)) placements with
            | None =>
                if bool_decide (is_Some (choose_next (m_gpu_count m) placements))
                then MachineBusy else NothingFits
            | Some placement =>
                match by_id (p_candidate_id placement) with
                | Some cd => Place cd (take (Z.to_nat (p_cards placement)) free) blockers
                | None => NothingFits
                end
            end.

(** The loop over the usable machines: the first that takes a run ends it. *)
Fixpoint place_on_first (c : campaign) (pending : list candidate) (blocked busy : gset Z)
    (machines : list machine) : W (bool * gset Z) :=
  match machines with
  | [] => ret (false, busy)
  | m :: rest =>
      db <- db_ ;;
      match offer_on db c pending blocked m with
      | MachineBusy => place_on_first c pending blocked ({[ m_id m ]} ∪ busy) rest
      | NothingFits => place_on_first c pending blocked busy rest
      | Place cd cards blockers =>
          _create_run c m cd cards [] (_free_port db c blockers []) 0 "" ;;;
          ret (true, busy)
      end
  end.

Definition _window_allows_stage (c : campaign) (stage : Stage) : W bool :=
  moment <- now ;;
  ret (window_allows_run_of moment c
         (window_minutes c stage (max_run_minutes c stage default_max_run_minutes)
            default_max_run_minutes)).

(** An in-place baseline in the queue is retired, not launched. *)
Definition _retire_in_place (c : campaign) (pending : list candidate) : W (list candidate) :=
  for_each (where_ is_in_place_baseline pending) (fun cd =>
    put_candidate (cd_id cd) (fun cd => cd <| cd_status := Exhausted |>) ;;;
    event_ "baseline_candidate_retired" (Some (c_id c)) None) ;;;
  ret (where_ (fun cd => negb (is_in_place_baseline cd)) pending).

Definition _start_one (cid : Z) (blocked : gset Z) : W (bool * gset Z) :=
  c <- get_campaign cid ;;
  db <- db_ ;;
  pending <- _retire_in_place c (candidates_of db cid [Valid]) ;;
  pending <- filter_m (fun cd => _window_allows_stage c (stage_of cd)) pending ;;
  match pending with
  | [] => _maybe_finish_campaign cid ;;; ret (false, ∅)
  | _ =>
      if negb (String.eqb (c_node_group c) "") then _start_gang c pending blocked ∅
      else
        db <- db_ ;;
        place_on_first c pending blocked ∅ (_usable_machines db c)
  end.
End placement.

(** ** Lemmas: what leaves the fleet alone *)
Lemma keeps_same_fleet {A} (m : W A) :
  respects (on_db same_fleet) m -> keeps (fun w => fleet_ok (w_db w)) m.
Proof.
  intros Hm w Hw. specialize (Hm w). destruct (m w) as [[e|a] w']; by eapply same_fleet_ok.
Qed.

Section fleet.
Context `{Env}.

Lemma same_fleet_rows db db' :
  d_runs db' = d_runs db -> d_nodes db' = d_nodes db -> d_members db' = d_members db ->
  d_machines db' = d_machines db -> same_fleet db db'.
Proof. intros Hr Hn Hm Hf. split_and!; try done. rewrite Hf. eauto. Qed.

Lemma event_same_fleet kind cid rid to reason :
  respects (on_db same_fleet) (add_event kind cid rid to reason).
Proof. apply event_respects; [typeclasses eauto|]. intros db l. by apply same_fleet_rows. Qed.

Lemma new_candidate_same_fleet cid cfg hash st err kind b rep :
  respects (on_db same_fleet) (new_candidate cid cfg hash st err kind b rep).
Proof.
  apply new_candidate_respects; [typeclasses eauto|]. intros db cd. by apply same_fleet_rows.
Qed.

Lemma put_machine_same_fleet mid f :
  (forall m, m_id (f m) = m_id m) -> respects (on_db same_fleet) (put_machine mid f).
Proof.
  intros Hf. apply respects_modify_db. intros db. split_and!; try done.
  intros k m'. simpl. destruct (decide (k = mid)) as [->|Hne].
  - rewrite lookup_alter_eq. intros (m & Hm & ->)%fmap_Some_1. eauto.
  - rewrite lookup_alter_ne by done. eauto.
Qed.

Lemma put_candidate_same_fleet id f : respects (on_db same_fleet) (put_candidate id f).
Proof. apply respects_modify_db. intros db. by apply same_fleet_rows. Qed.

Lemma put_campaign_same_fleet id f : respects (on_db same_fleet) (put_campaign id f).
Proof. apply respects_modify_db. intros db. by apply same_fleet_rows. Qed.

Lemma add_repeats_same_fleet n c source hash kind :
  respects (on_db same_fleet) (add_repeats n c source hash kind).
Proof.
  induction n as [|n IH]; cbn [add_repeats]; respects_walk. apply new_candidate_same_fleet.
Qed.

Lemma maybe_finish_same_fleet cid : respects (on_db same_fleet) (_maybe_finish_campaign cid).
Proof.
  unfold _maybe_finish_campaign, _schedule_confirmations, _schedule_verification, _confirm_one,
    _verify_one, _add_baseline_candidate, get_candidate, get_campaign, event_.
  respects_walk; first [apply add_repeats_same_fleet | apply event_same_fleet
    | apply new_candidate_same_fleet | apply put_campaign_same_fleet].
Qed.

Lemma filter_m_respects R `{!PreOrder R} {A} (p : A -> W bool) l :
  (forall x, respects R (p x)) -> respects R (filter_m p l).
Proof.
  intros Hp. induction l as [|x l IH]; cbn [filter_m]; [by apply respects_ret|].
  apply respects_bind; [done|apply Hp|]. intros b. apply respects_bind; [done|apply IH|].
  intros rest. by apply respects_ret.
Qed.

Lemma retire_same_fleet c pending : respects (on_db same_fleet) (_retire_in_place c pending).
Proof.
  unfold _retire_in_place, event_. respects_walk.
  - apply put_candidate_same_fleet.
  - apply event_same_fleet.
Qed.

Lemma window_stage_respects R `{!PreOrder R} c stage :
  respects (on_db R) (_window_allows_stage c stage).
Proof. unfold _window_allows_stage, now. respects_walk. Qed.

(** ** Lemmas: creating a run *)

(** The state between the master node's row and the workers': the run is
    there, only its rank 0 is, and what is still to add fits. *)
Definition gang_ready (rid : Z) (todo : list (Z * (machine * list Z))) (w : world) : Prop :=
  fleet_ok (w_db w) /\
  (exists r, d_runs (w_db w) !! rid = Some r /\ Forall (fun t => t.2.2 = r_gpu_indices r) todo) /\
  (forall rank, rank ∈ todo.*1 -> d_nodes (w_db w) !! (rid, rank) = None) /\
  Forall (fun t => compatible (w_db w) (m_id t.2.1) t.2.2) todo /\
  NoDup todo.*1 /\ NoDup (map (fun t => m_id t.2.1) todo).

Lemma add_workers_keeps rid port todo :
  triple (gang_ready rid todo)
    (for_each todo (fun '(rank, (member, cards)) => add_node (worker_node rid port rank member cards)))
    (fun _ w => fleet_ok (w_db w)) (fun _ w => fleet_ok (w_db w)).
Proof.
  induction todo as [|[rank [member cards]] todo IH]; cbn [for_each].
  { intros w (Hok & _). done. }
  eapply triple_bind with (R := fun _ => gang_ready rid todo); [|intros _; exact IH].
  intros w (Hok & (r & Hrun & Hall) & Hfresh & Hc & Hnd & Hids). unfold add_node, modify_db, modify.
  apply Forall_cons in Hall as [Hcards Hall]. apply Forall_cons in Hc as [Hc1 Hc]. apply NoDup_cons in Hnd as [Hr1 Hnd].
  apply NoDup_cons in Hids as [Hm1 Hids]. cbn [fst snd] in *.
  set (n := worker_node rid port rank member cards).
  unfold gang_ready. cbn. split; [|split; [by eauto|split; [|split; [|done]]]].
  - apply (add_node_ok n); [done|by eauto|apply Hfresh; left|].
    intros mid [= <-]. exact Hc1.
  - intros rank' Hr'. rewrite lookup_insert_ne; [apply Hfresh; by right|].
    intros [= ->]. done.
  - rewrite Forall_forall in *. intros t Ht. apply (add_node_compatible n); [|by apply Hc].
    intros [= E]. apply Hm1. apply list_elem_of_fmap. exists t. by rewrite E.
Qed.

Lemma gang_ready_same_fleet {A} rid todo (m : W A) :
  respects (on_db same_fleet) m -> keeps (gang_ready rid todo) m.
Proof.
  intros Hm w (Hok & Hrun & Hfresh & Hc & Hnd). specialize (Hm w).
  assert (gang_ready rid todo (m w).2) as Hgoal.
  { pose proof Hm as (Er & En & _). unfold gang_ready. rewrite Er, En.
    split; [by eapply same_fleet_ok|]. split; [done|]. split; [done|]. split; [|done].
    eapply Forall_impl; [exact Hc|]. intros t. by apply same_fleet_compatible. }
  destruct (m w) as [[e|a] w']; exact Hgoal.
Qed.

Lemma triple_step {A} (R : world -> world -> Prop) (P : world -> Prop) (m : W A) :
  respects R m -> (forall w w', R w w' -> P w -> P w') -> triple P m (fun _ => P) (fun _ => P).
Proof.
  intros Hm HP w Hw. specialize (Hm w). destruct (m w) as [[e|a] w']; by apply (HP w).
Qed.

(** What [_create_run] needs of where it puts a run. *)
Definition plan_fits (plan : list (machine * list Z)) (w : world) : Prop :=
  fleet_ok (w_db w) /\ Forall (fun mc => compatible (w_db w) (m_id mc.1) mc.2) plan /\
  (exists cards, Forall (fun mc => mc.2 = cards) plan) /\ NoDup (map (fun mc => m_id mc.1) plan).

Lemma plan_fits_same_fleet plan w w' : on_db same_fleet w w' -> plan_fits plan w -> plan_fits plan w'.
Proof.
  intros Hs (Hok & Hc & Hnd). split; [by eapply same_fleet_ok|]. split; [|done].
  eapply Forall_impl; [exact Hc|]. intros mc. by apply same_fleet_compatible.
Qed.

Definition ranked_from (s : nat) (l : list (machine * list Z)) : list (Z * (machine * list Z)) :=
  imap (fun i mc => (Z.of_nat (s + i), mc)) l.

Lemma ranked_from_spec s l :
  (ranked_from s l).*2 = l /\ (ranked_from s l).*1 = Z.of_nat <$> seq s (length l).
Proof.
  revert s. induction l as [|mc l IH]; intros s; [done|].
  assert (ranked_from s (mc :: l) = (Z.of_nat s, mc) :: ranked_from (S s) l) as ->.
  { unfold ranked_from. cbn [imap]. rewrite Nat.add_0_r. f_equal. apply imap_ext.
    intros i z _. simpl. do 2 f_equal. lia. }
  destruct (IH (S s)) as [H2 H1]. rewrite !fmap_cons, H1, H2. done.
Qed.

Lemma workers_ranked mc rest :
  drop 1 (imap (fun i mc => (Z.of_nat i, mc)) (mc :: rest)) = ranked_from 1 rest.
Proof. done. Qed.

(** The run's own row, with rank 0, stands beside what the plan has left. *)
Lemma insert_run_gang_ready r m cards rest (w : world) :
  plan_fits ((m, cards) :: rest) w -> d_runs (w_db w) !! r_id r = None ->
  r_machine_id r = Some (m_id m) -> r_gpu_indices r = cards ->
  gang_ready (r_id r) (ranked_from 1 rest) (w <| w_db ::= insert_run r |>).
Proof.
  intros (Hok & Hc & (cards0 & Hall) & Hnd) Hfresh Hm Hcards.
  apply Forall_cons in Hall as [Hcards0 Hall]. simpl in Hcards0. subst cards0.
  apply Forall_cons in Hc as [Hc1 Hc]. apply NoDup_cons in Hnd as [Hm1 Hnd]. simpl in Hc1, Hm1.
  destruct (ranked_from_spec 1 rest) as [H2 H1].
  assert (map (fun t => m_id t.2.1) (ranked_from 1 rest) = map (fun mc => m_id mc.1) rest) as Hids.
  { rewrite <-H2 at 2. symmetry. apply map_map. }
  unfold gang_ready. cbn [w_db update_field eta_world]. split; [|split; [|split; [|split; [|split]]]].
  - apply insert_run_ok; [done|done|]. intros mid E. rewrite Hm in E. injection E as <-.
    apply compatible_room. by rewrite Hcards.
  - cbn. rewrite lookup_insert_eq. eexists. split; [done|]. rewrite Hcards. rewrite <-H2 in Hall.
    by apply Forall_fmap in Hall.
  - intros rank Hr. rewrite H1 in Hr. apply list_elem_of_fmap in Hr as (i & -> & Hi).
    apply elem_of_seq in Hi. cbn. rewrite lookup_insert_ne by (intros [= E]; lia).
    destruct (d_nodes (w_db w) !! (r_id r, Z.of_nat i)) as [n|] eqn:E; [|done].
    destruct (ok_nodes _ Hok _ _ E) as [[= Er _] Hs]. rewrite <-Er, Hfresh in Hs. by destruct Hs.
  - rewrite <-H2 in Hc. apply Forall_fmap in Hc. rewrite Forall_forall in *. intros t Ht.
    apply insert_run_compatible; [done|done| |by apply (Hc t)].
    rewrite Hm. intros [= E]. apply Hm1. change (m_id m ∈ map (fun mc => m_id mc.1) rest). rewrite <-Hids, E.
    apply list_elem_of_fmap. eauto.
  - rewrite H1. apply NoDup_fmap_2; [typeclasses eauto|apply NoDup_seq].
  - by rewrite Hids.
Qed.

Lemma gang_ready_put_run rid todo f k :
  (forall r, gentle r (f r)) -> keeps (gang_ready rid todo) (put_run k f).
Proof.
  intros Hf. apply keeps_modify. intros w (Hok & Hrun & Hfresh & Hc & Hnd).
  unfold gang_ready. cbn [w_db update_field eta_world].
  assert (forall r, d_runs (w_db w) !! k = Some r -> gentle r (f r)) as Hg by auto.
  split; [by apply update_run_ok|]. split; [|split; [|split; [|done]]].
  - destruct Hrun as (r & Hr & Hall). unfold update_run.
    destruct (d_runs (w_db w) !! k) as [r0|] eqn:Hk; [|by eauto]. cbn.
    destruct (decide (k = rid)) as [->|Hne]; [|rewrite lookup_insert_ne by done; by eauto].
    rewrite lookup_insert_eq. eexists. split; [done|]. assert (r0 = r) as -> by congruence.
    destruct (Hf r) as (_ & E & _). cbn. by rewrite E.
  - intros rank Hr. destruct (d_nodes (update_run k f (w_db w)) !! (rid, rank)) as [n|] eqn:E; [|done].
    destruct (update_run_nodes _ _ _ _ _ Hok Hg E) as (n0 & Hn0 & _). by rewrite Hfresh in Hn0.
  - eapply Forall_impl; [exact Hc|]. intros t. by apply update_run_compatible.
Qed.

Lemma add_run_gang_ready r m cards rest :
  r_machine_id r = Some (m_id m) -> r_gpu_indices r = cards ->
  triple (plan_fits ((m, cards) :: rest)) (add_run r)
    (fun rid => gang_ready rid (ranked_from 1 rest)) (fun _ w => fleet_ok (w_db w)).
Proof.
  intros Hm Hcards w Hfit. unfold add_run, db_, gets, bind, modify_db, modify, ret. cbn zeta.
  exact (insert_run_gang_ready (r <| r_id := next_key (d_runs (w_db w)) |>) m cards rest w Hfit
           (next_key_fresh _) Hm Hcards).
Qed.

Lemma create_run_keeps c m cd cards node_plan sp dp ng :
  (node_plan = [] \/ exists rest, node_plan = (m, cards) :: rest) ->
  triple (plan_fits (match node_plan with [] => [(m, cards)] | _ => node_plan end))
    (_create_run c m cd cards node_plan sp dp ng)
    (fun _ w => fleet_ok (w_db w)) (fun _ w => fleet_ok (w_db w)).
Proof.
  intros Hplan.
  assert (exists rest, (match node_plan with [] => [(m, cards)] | _ => node_plan end) = (m, cards) :: rest
    /\ drop 1 (imap (fun i mc => (Z.of_nat i, mc)) node_plan) = ranked_from 1 rest)
    as (rest & E1 & E2).
  { destruct Hplan as [->|[rest ->]]; eauto. }
  unfold _create_run. rewrite E1, E2. clear Hplan E1 E2.
  assert (forall A (m' : W A), respects (on_db same_fleet) m' ->
    triple (plan_fits ((m, cards) :: rest)) m' (fun _ => plan_fits ((m, cards) :: rest))
      (fun _ w => fleet_ok (w_db w))) as Hstep.
  { intros A m' Hm'. eapply triple_weaken; [eapply triple_step; [exact Hm'|apply plan_fits_same_fleet]| | |]; try done.
    by intros e w (Hok & _). }
  assert (forall A rid todo (m' : W A), keeps (gang_ready rid todo) m' ->
    triple (gang_ready rid todo) m' (fun _ => gang_ready rid todo)
      (fun _ w => fleet_ok (w_db w))) as Hready.
  { intros A rid todo m' Hm'. eapply triple_weaken; [exact Hm'| | |]; try done.
    by intros e w (Hok & _). }
  eapply triple_bind; [apply Hstep|intros ?].
  { respects_walk. by apply put_machine_same_fleet. }
  eapply triple_bind; [apply Hstep; unfold now; respects_walk|intros started].
  eapply triple_bind; [apply Hstep; unfold now; respects_walk|intros created].
  eapply triple_bind; [by apply add_run_gang_ready|intros rid].
  eapply triple_bind; [apply Hready, gang_ready_same_fleet, put_candidate_same_fleet|intros ?].
  eapply triple_bind; [apply Hready, gang_ready_put_run; intros r; by split_and!|intros ?].
  eapply triple_bind; [apply add_workers_keeps|intros ?].
  apply keeps_same_fleet, event_same_fleet.
Qed.

(** ** Lemmas: what an offer promises *)
Lemma elem_of_take {A} n (l : list A) x : x ∈ take n l -> x ∈ l.
Proof. intros Hx. rewrite <-(take_drop n l). apply elem_of_app. by left. Qed.

Lemma find_some_id (pending : list candidate) id cd :
  List.find (fun cd => cd_id cd =? id) pending = Some cd -> cd ∈ pending /\ cd_id cd = id.
Proof. intros [Hin E]%List.find_some. split; [by apply list_elem_of_In|by apply Z.eqb_eq]. Qed.

Definition free_cards (db : database) (c : campaign) (m : machine) : list Z :=
  let free := free_indices (m_gpu_count m)
    (taken_cards (_live_nodes_on db (m_id m) ++ _teardown_pending_nodes_on db (m_id m))) in
  take (Z.to_nat (Z.max 0 (Z.of_nat (length free)
                           - sum_z (map rv_cards (reservations_on db m (Some (c_id c))))))) free.

(** The two ways a machine takes a run: the cards it has free, or the whole
    of a box that has none. *)
Lemma offer_place db c pending blocked m cd cards blockers :
  offer_on db c pending blocked m = Place cd cards blockers ->
  blockers = holding_runs db (m_id m) /\ cd ∈ pending /\
  (m_id m ∈ blocked -> holds db m (c_id c) = true) /\
  port_busy_reason db m None (Some (c_id c)) = None /\
  machine_hosts_live_gang db (m_id m) = false /\
  (live_runs_on db (m_id m) = [] \/ _may_share db c (live_runs_on db (m_id m)) m = true) /\
  (c_share_machine c = false -> reservations_on db m (Some (c_id c)) = []) /\
  ((0 < m_gpu_count m /\
    Forall (fun n => no_cards n = false)
      (_live_nodes_on db (m_id m) ++ _teardown_pending_nodes_on db (m_id m)) /\
    exists p, choose_next (Z.of_nat (length (free_cards db c m)))
                (map (fun cd => mkPlacement (cd_id cd) (config_cards c (cd_config cd))) pending) = Some p /\
      p_candidate_id p = cd_id cd /\ cards = take (Z.to_nat (p_cards p)) (free_cards db c m)) \/
   (m_gpu_count m <= 0 /\ holding_runs db (m_id m) = [] /\ cards = [])).
Proof.
  unfold offer_on. intros Hoffer.
  destruct (bool_decide (m_id m ∈ blocked) && _) eqn:Hb; [done|].
  destruct (match reservations_on db m (Some (c_id c)) with [] => _ | _ => _ end) eqn:Hheld; [done|].
  destruct (bool_decide (is_Some (port_busy_reason _ _ _ _))) eqn:Hport; [done|].
  destruct (machine_hosts_live_gang db (m_id m)) eqn:Hgang; [done|].
  destruct (match live_runs_on db (m_id m) with [] => _ | _ => _ end) eqn:Hshare; [done|].
  assert (m_id m ∈ blocked -> holds db m (c_id c) = true) as Hb'.
  { intros Hin. rewrite bool_decide_true in Hb by done. by apply negb_false_iff in Hb. }
  assert (port_busy_reason db m None (Some (c_id c)) = None) as Hport'.
  { apply bool_decide_eq_false in Hport. by apply eq_None_not_Some. }
  assert (live_runs_on db (m_id m) = [] \/ _may_share db c (live_runs_on db (m_id m)) m = true)
    as Hshare'.
  { destruct (live_runs_on db (m_id m)); [by left|right]. by apply negb_false_iff in Hshare. }
  assert (c_share_machine c = false -> reservations_on db m (Some (c_id c)) = []) as Hheld'.
  { intros Hs. destruct (reservations_on db m (Some (c_id c))); [done|]. by rewrite Hs in Hheld. }
  destruct ((0 <? m_gpu_count m) && _) eqn:Hnc; [done|].
  destruct (Z.leb_spec (m_gpu_count m) 0) as [Hg|Hg].
  - destruct (live_runs_on db (m_id m) ++ teardown_pending_on db (m_id m)) eqn:Hbl; [|done].
    destruct (reservations_on db m (Some (c_id c))); [|done].
    destruct pending as [|cd0 pending]; [done|]. injection Hoffer as <- <- <-.
    unfold holding_runs. rewrite Hbl. split_and!; try done; [left|]. by right.
  - destruct (choose_next _ _) as [p|] eqn:Hp in Hoffer; [|by case_bool_decide].
    destruct (List.find _ pending) as [cd0|] eqn:Hf; [|done]. injection Hoffer as <- <- <-.
    destruct (find_some_id _ _ _ Hf) as [Hin Hid].
    split_and!; try done. left. split; [done|]. split.
    + apply Forall_forall. intros n Hn. destruct (no_cards n) eqn:E; [|done].
      apply andb_false_iff in Hnc as [Hnc|Hnc]; [lia|].
      enough (existsb no_cards (_live_nodes_on db (m_id m) ++ _teardown_pending_nodes_on db (m_id m)) = true)
        by congruence.
      apply existsb_exists. exists n. split; [by apply list_elem_of_In|done].
    + exists p. split; [done|]. split; [done|]. done.
Qed.

Lemma offer_compatible db c pending blocked m cd cards blockers :
  fleet_ok db -> offer_on db c pending blocked m = Place cd cards blockers ->
  compatible db (m_id m) cards.
Proof.
  intros Hok (_ & _ & _ & _ & _ & _ & _ & [(Hg & Hnc & p & Hp & _ & ->)|(_ & Hidle & ->)])%offer_place.
  - intros k n Hn Hh Hm. pose proof (holding_node_found _ _ _ _ Hn Hh Hm) as Hin.
    rewrite Forall_forall in Hnc. specialize (Hnc n Hin). unfold no_cards in Hnc.
    apply choose_next_fits in Hp as [_ Hp]. split; [by destruct (n_gpu_indices n)|]. split.
    + destruct (free_cards db c m); simpl in Hp; [lia|].
      destruct (Z.to_nat (p_cards p)) eqn:E; [lia|done].
    + intros i Hi%elem_of_take Hi'. unfold free_cards in Hi. apply elem_of_take in Hi.
      apply elem_of_free_indices in Hi as [_ Hi]. apply Hi. unfold taken_cards.
      apply list_elem_of_In, in_concat. exists (n_gpu_indices n).
      split; [apply in_map, list_elem_of_In, Hin|by apply list_elem_of_In].
  - by apply idle_compatible.
Qed.

Lemma place_on_first_keeps c pending blocked busy machines :
  keeps (fun w => fleet_ok (w_db w)) (place_on_first c pending blocked busy machines).
Proof.
  revert busy. induction machines as [|m rest IH]; intros busy w Hok; [done|]. cbn [place_on_first].
  unfold db_, gets, bind at 1. destruct (offer_on (w_db w) c pending blocked m) eqn:Ho.
  - revert w Ho Hok. intros w Ho Hok.
    pose proof (create_run_keeps c m cd cards [] (_free_port (w_db w) c blockers []) 0 ""
      (or_introl eq_refl) w) as Hcr.
    unfold bind. destruct (_create_run _ _ _ _ _ _ _ _ w) as [[e|[]] w']; apply Hcr.
    all: split; [done|]; split; [apply Forall_singleton; by eapply offer_compatible|].
    all: split; [exists cards; by apply Forall_singleton|apply NoDup_singleton].
  - by apply IH.
  - by apply IH.
Qed.

(** ** Lemmas: gangs *)
Lemma members_by_rank_elem db g rank m :
  (rank, m) ∈ members_by_rank db g ->
  exists mid, d_members db !! (g_id g, rank) = Some mid /\ d_machines db !! mid = Some m.
Proof.
  unfold members_by_rank. rewrite list_elem_of_omap. intros ([[gid r] mid] & Hin & E).
  rewrite elem_of_sort_by, elem_of_map_to_list in Hin.
  destruct (Z.eqb_spec gid (g_id g)) as [->|]; [|done].
  destruct (d_machines db !! mid) as [m'|] eqn:Hm; [|done]. injection E as <- <-. eauto.
Qed.

(** A group never names a machine twice. *)
Lemma members_distinct db g :
  fleet_ok db -> NoDup (map m_id (map snd (members_by_rank db g))).
Proof.
  intros Hok. unfold members_by_rank.
  assert (NoDup (sort_by (key_before (fun km : Z * Z * Z => [km.1.1; km.1.2])) (map_to_list (d_members db))))
    as Hnd by (rewrite sort_by_perm; apply NoDup_map_to_list).
  assert (forall x, x ∈ sort_by (key_before (fun km : Z * Z * Z => [km.1.1; km.1.2]))
                      (map_to_list (d_members db)) -> d_members db !! x.1 = Some x.2) as Hall.
  { intros [k mid]. by rewrite elem_of_sort_by, elem_of_map_to_list. }
  revert Hnd Hall. generalize (sort_by (key_before (fun km : Z * Z * Z => [km.1.1; km.1.2]))
                      (map_to_list (d_members db))) as l.
  induction l as [|[[gid r] mid] l IH]; intros Hnd Hall; [constructor|].
  apply NoDup_cons in Hnd as [Hnew Hnd]. cbn [omap list_omap].
  specialize (IH Hnd ltac:(intros x Hx; apply Hall; by right)).
  destruct (gid =? g_id g) eqn:Eg; [|exact IH].
  destruct (d_machines db !! mid) as [m|] eqn:Hm; [|exact IH]. cbn [fmap option_fmap option_map map].
  constructor; [|exact IH]. intros Hin. apply list_elem_of_fmap in Hin as (m' & E & Hin).
  apply list_elem_of_fmap in Hin as ([r' m''] & -> & Hin). cbn [snd] in E.
  apply list_elem_of_omap in Hin as ([[gid' r''] mid'] & Hin & E').
  destruct (gid' =? g_id g); [|done]. destruct (d_machines db !! mid') as [m0|] eqn:Hm'; [|done].
  injection E' as <- <-. rewrite (ok_machines _ Hok _ _ Hm), (ok_machines _ Hok _ _ Hm') in E.
  subst mid'. pose proof (Hall _ ltac:(left)) as H1. pose proof (Hall _ ltac:(by right)) as H2.
  cbn [fst snd] in H1, H2. apply Hnew. rewrite (ok_members _ Hok _ _ _ H1 H2). done.
Qed.

Lemma idle_group_member db g m :
  _group_is_idle db g = true -> m ∈ map snd (members_by_rank db g) ->
  accepts_new_work m = true /\ m_needs_attention m = false /\ 0 < m_gpu_count m /\
  machine_has_live_session db (m_id m) = false /\ holding_runs db (m_id m) = [].
Proof.
  intros Hidle Hm. apply list_elem_of_fmap in Hm as ([rank m'] & -> & Hin).
  unfold _group_is_idle in Hidle. rewrite forallb_forall in Hidle.
  specialize (Hidle (rank, m') ltac:(by apply list_elem_of_In)). cbn [snd] in *.
  rewrite !andb_true_iff, !negb_true_iff in Hidle. destruct Hidle as [[[[Ha Hn] Hg] Hs] Hh].
  split_and!; try done; [lia|]. unfold holding_runs. by case_match.
Qed.

Lemma start_gang_keeps c pending blocked busy :
  keeps (fun w => fleet_ok (w_db w)) (_start_gang c pending blocked busy).
Proof.
  intros w Hok. unfold _start_gang, db_, gets, bind at 1.
  destruct (_group_for_campaign (w_db w) c) as [g|]; [|done]. cbv zeta.
  destruct (map snd (members_by_rank (w_db w) g)) as [|master rest] eqn:Hms; [done|].
  destruct (_ <? 2); [done|].
  destruct (_group_is_idle (w_db w) g) eqn:Hidle; [|done]. cbn [negb orb].
  destruct (_ || _); [done|]. destruct (existsb _ _); [done|].
  destruct (min_by _ _) as [[cd per_node]|]; [|done].
  set (port := _free_port_across _ _ _). set (dist := _free_dist_port _ _ _).
  pose proof (create_run_keeps c master cd (range per_node)
    (map (fun m => (m, range per_node)) (master :: rest)) port dist (g_name g)
    ltac:(right; eexists; reflexivity) w) as Hcr.
  assert (plan_fits (map (fun m => (m, range per_node)) (master :: rest)) w) as Hfit.
  { rewrite <-Hms. split; [done|].
    split; [|split; [|rewrite map_map; by apply members_distinct]].
    2: { exists (range per_node). by apply Forall_forall; intros mc (m & -> & _)%list_elem_of_fmap. }
    apply Forall_forall. intros mc (m & -> & Hm)%list_elem_of_fmap. apply idle_compatible; [done|].
    by apply (idle_group_member _ g). }
  unfold bind. destruct (_create_run _ _ _ _ _ _ _ _ w) as [[e|[]] w']; apply Hcr, Hfit.
Qed.

Lemma start_one_keeps cid blocked :
  keeps (fun w => fleet_ok (w_db w)) (_start_one cid blocked).
Proof.
  unfold _start_one, get_campaign. keeps_walk.
  - apply keeps_same_fleet, retire_same_fleet.
  - apply keeps_same_fleet, filter_m_respects; [typeclasses eauto|]. intros cd.
    apply window_stage_respects; typeclasses eauto.
  - apply keeps_same_fleet, maybe_finish_same_fleet.
  - apply start_gang_keeps.
  - apply place_on_first_keeps.
Qed.
End fleet.

(** ** Lemmas: exactly what creating a run writes *)
Section effect.
Context `{Env}.

(** The run a placement creates. *)
Definition placed_run (c : campaign) (m : machine) (cd : candidate) (cards : list Z) (sp dp : Z)
    (ng : string) (r : run) : Prop :=
  r_campaign_id r = c_id c /\ r_candidate_id r = cd_id cd /\ r_machine_id r = Some (m_id m) /\
  r_status r = Pending /\ r_kind r = Experiment /\ r_gpu_indices r = cards /\
  r_service_port r = sp /\ r_dist_port r = dp /\ r_node_group r = ng /\
  r_teardown_pending r = false /\ r_container_name r = container_name (r_id r) /\
  r_launch_run_id r = None.

Definition used_up (cd : candidate) : candidate := cd <| cd_status := Exhausted |>.

Definition worker_rows (rid sp : Z) (node_plan : list (machine * list Z)) : list run_node :=
  map (fun t => worker_node rid sp t.1 t.2.1 t.2.2)
      (drop 1 (imap (fun i mc => (Z.of_nat i, mc)) node_plan)).

Definition put_nodes (t : gmap (Z * Z) run_node) (l : list run_node) : gmap (Z * Z) run_node :=
  foldl (fun t n => <[ (n_run_id n, n_rank n) := n ]> t) t l.

Lemma reserve_all_run (l : list (machine * list Z)) w :
  exists w', for_each l (fun '(member, _) =>
      put_machine (m_id member) (fun m => m <| m_state := Reserved |>)) w = (inr tt, w') /\
    d_runs (w_db w') = d_runs (w_db w) /\ d_nodes (w_db w') = d_nodes (w_db w) /\
    d_candidates (w_db w') = d_candidates (w_db w) /\ d_campaigns (w_db w') = d_campaigns (w_db w).
Proof.
  revert w. induction l as [|[m cards] l IH]; intros w; cbn [for_each]; [by exists w|].
  unfold bind, put_machine at 1, modify_db, modify.
  destruct (IH (w <| w_db ::= fun db => db <| d_machines ::=
    alter (fun m => m <| m_state := Reserved |>) (m_id m) |> |>)) as (w' & -> & E). by exists w'.
Qed.

Lemma add_workers_run rid sp l w :
  exists w', for_each l (fun '(rank, (member, cards)) =>
      add_node (worker_node rid sp rank member cards)) w = (inr tt, w') /\
    d_nodes (w_db w') = put_nodes (d_nodes (w_db w))
      (map (fun t => worker_node rid sp t.1 t.2.1 t.2.2) l) /\
    d_runs (w_db w') = d_runs (w_db w) /\
    d_candidates (w_db w') = d_candidates (w_db w) /\ d_campaigns (w_db w') = d_campaigns (w_db w).
Proof.
  revert w. induction l as [|[rank [m cards]] l IH]; intros w; cbn [for_each]; [by exists w|].
  unfold bind, add_node at 1, modify_db, modify.
  match goal with |- context [for_each l _ ?w1] => destruct (IH w1) as (w' & -> & E) end.
  by exists w'.
Qed.

Lemma create_run_effect c m cd cards plan sp dp ng w :
  exists w' r,
    _create_run c m cd cards plan sp dp ng w = (inr tt, w') /\
    r_id r = next_key (d_runs (w_db w)) /\ placed_run c m cd cards sp dp ng r /\
    d_runs (w_db w') = <[ r_id r := r ]> (d_runs (w_db w)) /\
    d_nodes (w_db w') = put_nodes (<[ (r_id r, 0) := master_node r ]> (d_nodes (w_db w)))
      (worker_rows (r_id r) sp plan) /\
    d_candidates (w_db w') = alter used_up (cd_id cd) (d_candidates (w_db w)) /\
    d_campaigns (w_db w') = d_campaigns (w_db w).
Proof.
  unfold _create_run, bind.
  destruct (reserve_all_run (match plan with [] => [(m, cards)] | _ => plan end) w)
    as (w1 & -> & Er & En & Ec & Ecc).
  unfold now, call, add_run, bind, db_, gets, put_candidate, put_run, modify_db, modify, ret.
  cbn beta iota zeta. cbn [w_db update_field eta_world]. rewrite Er.
  set (rid := next_key (d_runs (w_db w))).
  match goal with |- context [insert_run ?r0] => set (r := r0) end.
  match goal with |- context [for_each (drop 1 _) _ ?w2] =>
    destruct (add_workers_run rid sp (drop 1 (imap (fun i mc => (Z.of_nat i, mc)) plan)) w2)
      as (w3 & -> & En3 & Er3 & Ec3 & Ecc3); set (W2 := w2) in * end.
  destruct (add_event_run "run_scheduled" (Some (c_id c)) (Some rid) None "" w3) as (w4 & E4 & Edb).
  unfold event_. rewrite E4. exists w4, ((r <| r_container_name := container_name rid |>) <| r_id := rid |>).
  assert (forall db, d_runs db !! rid = Some r ->
    d_runs (update_run rid (fun r => r <| r_container_name := container_name rid |>) db)
      = <[ rid := (r <| r_container_name := container_name rid |>) <| r_id := rid |> ]> (d_runs db) /\
    d_nodes (update_run rid (fun r => r <| r_container_name := container_name rid |>) db)
      = alter (fun _ => master_node ((r <| r_container_name := container_name rid |>) <| r_id := rid |>))
          (rid, 0) (d_nodes db) /\
    d_candidates (update_run rid (fun r => r <| r_container_name := container_name rid |>) db)
      = d_candidates db /\
    d_campaigns (update_run rid (fun r => r <| r_container_name := container_name rid |>) db)
      = d_campaigns db) as Hup.
  { intros db Hr. unfold update_run. by rewrite Hr. }
  specialize (Hup ((insert_run r (w_db w1)) <| d_candidates ::= alter used_up (cd_id cd) |>)).
  destruct Hup as (U1 & U2 & U3 & U4).
  { unfold insert_run. cbn. by rewrite lookup_insert_eq. }
  split; [done|]. split; [done|]. split; [by split_and!|]. rewrite Edb. cbn.
  rewrite Er3, En3, Ec3, Ecc3. subst W2. cbn.
  change (fun cd0 : candidate => cd0 <| cd_status := Exhausted |>) with used_up.
  rewrite U1, U2, U3, U4. unfold insert_run. cbn. rewrite Er, En, Ec, Ecc.
  split_and!; try done.
  - by rewrite insert_insert_eq.
  - f_equal. by rewrite alter_insert_eq.
Qed.
End effect.

(** ** Properties *)

(** What one machine offers a campaign is safe to place.  The candidate is
    one that waits; the cards are distinct cards of the machine that no live
    run and no container still being torn down recorded, as many as the
    candidate's configuration claims; a machine held for an earlier waiter is
    offered only to a campaign with a reservation there; no other run holds
    the cluster's fixed NodePort; no live gang is on the machine; whoever runs
    there already agreed to share; and no wider candidate would have fitted. *)
Theorem placement_is_safe `{Env} (db : database) (c : campaign) (pending : list candidate)
    (blocked : gset Z) (m : machine) (cd : candidate) (cards : list Z) (blockers : list run)
    (Hids : NoDup (map cd_id pending))
    (Hoffer : offer_on db c pending blocked m = Place cd cards blockers) :
  cd ∈ pending /\
  NoDup cards /\
  (forall i, i ∈ cards -> 0 <= i < m_gpu_count m /\
     forall k n, d_nodes db !! k = Some n -> holding db n -> n_machine_id n = Some (m_id m) ->
       i ∉ n_gpu_indices n) /\
  (0 < m_gpu_count m -> Z.of_nat (length cards) = config_cards c (cd_config cd)) /\
  (m_id m ∈ blocked -> holds db m (c_id c) = true) /\
  port_holder db m None = None /\
  machine_hosts_live_gang db (m_id m) = false /\
  (live_runs_on db (m_id m) = [] \/ _may_share db c (live_runs_on db (m_id m)) m = true) /\
  (0 < m_gpu_count m -> forall other, other ∈ pending ->
     0 < config_cards c (cd_config other) <= Z.of_nat (length (free_cards db c m)) ->
     config_cards c (cd_config other) <= Z.of_nat (length cards)).
Proof.
  destruct (offer_place _ _ _ _ _ _ _ _ Hoffer) as (-> & Hcd & Hb & Hport & Hgang & Hshare & _ & Hcase).
  split; [done|].
  assert (port_holder db m None = None) as Hholder.
  { unfold port_busy_reason in Hport. unfold port_holder in *.
    destruct (claim_of db m); [|done]. destruct (List.find _ _); [|done].
    by destruct (r_status r == Pending). }
  destruct Hcase as [(Hg & _ & p & Hp & Hid & ->)|(Hg & _ & ->)].
  2: { split; [constructor|]. split; [by intros i ?%not_elem_of_nil|]. split; [lia|].
       do 4 (split; [done|]). lia. }
  destruct (choose_next_fits _ _ _ Hp) as [Hin Hw].
  apply list_elem_of_fmap in Hin as (cd' & -> & Hcd'). cbn [p_candidate_id p_cards] in *.
  assert (cd' = cd) as ->.
  { apply list_elem_of_lookup in Hcd as [i Hi]. apply list_elem_of_lookup in Hcd' as [j Hj].
    assert (i = j) as ->; [|congruence].
    apply (NoDup_lookup _ i j (cd_id cd) Hids); rewrite list_lookup_fmap, ?Hi, ?Hj; [done|].
    simpl. by rewrite Hid. }
  assert (length (take (Z.to_nat (config_cards c (cd_config cd))) (free_cards db c m))
          = Z.to_nat (config_cards c (cd_config cd))) as Hlen.
  { rewrite length_take. lia. }
  split; [|split; [|split; [|do 4 (split; [done|])]]].
  - assert (NoDup (free_cards db c m)) as Hnd.
    { unfold free_cards. eapply sublist_NoDup; [apply NoDup_free_indices|apply sublist_take]. }
    eapply sublist_NoDup; [exact Hnd|apply sublist_take].
  - intros i Hi%elem_of_take. unfold free_cards in Hi. apply elem_of_take in Hi.
    apply elem_of_free_indices in Hi as [Hr Hi]. split; [done|]. intros k n Hn Hh Hm Hin.
    apply Hi. unfold taken_cards. apply list_elem_of_In, in_concat. exists (n_gpu_indices n).
    split; [|by apply list_elem_of_In]. apply in_map, list_elem_of_In.
    by eapply holding_node_found.
  - intros _. rewrite Hlen. lia.
  - intros _ other Ho Hfit. rewrite Hlen. apply min_by_spec in Hp as [_ Hmin]; [|typeclasses eauto].
    specialize (Hmin (mkPlacement (cd_id other) (config_cards c (cd_config other)))).
    rewrite elem_of_where in Hmin. unfold key_before, placement_key in Hmin. simpl in Hmin.
    destruct (Z.ltb_spec (- config_cards c (cd_config other)) (- config_cards c (cd_config cd)));
      [|lia].
    exfalso. apply Bool.diff_true_false, Hmin. split; [|lia]. apply list_elem_of_fmap. eauto.
Qed.

Lemma placement_is_safe_witness :
  exists cards,
    offer_on sample_db sample_campaign [sample_candidate 2 2 Valid] ∅ (sample_machine 1)
      = Place (sample_candidate 2 2 Valid) cards
          [sample_run 1 1 1 [0; 1; 2; 3] Benching] /\
    cards = [4; 5] /\ NoDup cards.
Proof.
  exists [4; 5]. split; [vm_compute; reflexivity|]. split; [reflexivity|].
  apply (placement_is_safe sample_db sample_campaign [sample_candidate 2 2 Valid] ∅
           (sample_machine 1) (sample_candidate 2 2 Valid) [4; 5]
           [sample_run 1 1 1 [0; 1; 2; 3] Benching]).
  - apply NoDup_singleton.
  - vm_compute. reflexivity.
Defined.
