(* ===== verification/Nights.v ===== *)
(** The clock of a policy campaign's night and the command a heartbeat is
    answered with ([app/control/orchestrator/policy_lifecycle.py], with the
    knobs of [app/schemas/policy.py:PolicySettings]).

    The API answers heartbeats with [command_for] and the worker advances the
    session's status ([Sessions]); both read these definitions.  A function that
    asks the clock takes the moment it was read. *)
From S2P Require Import Prelude Float Values Documents Space Validation Model States Packing Timing World Samples.
From S2P Require Import Occupancy Fleet Exclusive Finish Placement.
#[local] Open Scope string_scope.
#[local] Open Scope list_scope.
#[local] Open Scope Z_scope.

(** ** Knobs *)
Definition between (lo hi z : Z) : bool := (lo <=? z) && (z <=? hi).
Definition between_opt (lo hi : Z) (o : option Z) : bool :=
  match o with Some z => between lo hi z | None => true end.

(** The bounds [PolicySettings] declares. *)
Definition settings_valid (s : policy_settings) : bool :=
  between 1 8 (st_max_contenders s)
  && between_opt 5 240 (st_approx_minutes_each s)
  && between_opt 0 120 (st_model_startup_minutes s)
  && between_opt 5 720 (st_validation_reserve_minutes s)
  && between_opt 1 64 (st_cards s)
  && between_opt 30 3600 (st_heartbeat_timeout_s s)
  && between_opt 30 3600 (st_search_idle_timeout_s s)
  && between 1 10 (st_search_idle_strikes s).

Definition default_settings : policy_settings :=
  PolicySettings 2 None None None None true None None 3.

(** Tolerant on read: what does not validate is read as the defaults. *)
Definition settings_of (c : campaign) : policy_settings :=
  if settings_valid (c_policy_settings c) then c_policy_settings c else default_settings.

(** [a or b] for an optional number. *)
Definition or_opt (a : option Z) (b : option Z) : option Z :=
  match a with Some z => if z =? 0 then b else a | None => b end.

Definition validation_launches (s : policy_settings) : Z :=
  st_max_contenders s + (if st_validate_production s then 1 else 0).

(** [PolicySettings.reserve_minutes]. *)
Definition settings_reserve_minutes (s : policy_settings) (per_contender rounds : Z) : Z :=
  match st_validation_reserve_minutes s with
  | Some n => n
  | None => or_z rounds (validation_launches s) * per_contender + 15
  end.

Definition FALLBACK_CONTENDER_MINUTES : Z := 60.

(** What validating one contender takes: benchmark and startup minutes. *)
Definition contender_parts (c : campaign) : Z * Z :=
  let knobs := settings_of c in
  let '(learned_bench, learned_startup) := validation_minutes c in
  let startup := match st_model_startup_minutes knobs with
                 | Some n => n
                 | None => default 0 learned_startup
                 end in
  match or_opt (st_approx_minutes_each knobs) learned_bench with
  | None => (Z.max (FALLBACK_CONTENDER_MINUTES - startup) 5, startup)
  | Some bench => (bench, startup)
  end.

Definition contender_minutes (c : campaign) : Z :=
  let '(bench, startup) := contender_parts c in bench + startup.

(** ** Deadlines *)

(** The end of the night: the window's end, or the lease's if sooner. *)
Definition hard_deadline (c : campaign) (m : option machine) : option Z :=
  match c_window_end c, m ≫= m_lease_due_at with
  | Some a, Some b => Some (Z.min a b)
  | Some a, None | None, Some a => Some a
  | None, None => None
  end.

Section nights.
Context `{Env}.

Definition heartbeat_timeout_seconds (c : campaign) : Z :=
  default policy_heartbeat_timeout_seconds
    (or_opt (st_heartbeat_timeout_s (settings_of c)) None).

(** [recipe/campaign.py:widest_cards]. *)
Definition campaign_widest_cards (c : campaign) : Z :=
  if c_has_recipe c then max_default (map (config_cards c) (expand (c_search_space c))) (recipe_gpus c)
  else widest_cards (c_search_space c).

(** The cards a session holds at once. *)
Definition gpu_budget (c : campaign) (m : option machine) : Z :=
  match or_opt (st_cards (settings_of c)) None with
  | Some n => n
  | None =>
      match m with
      | Some m => if negb (is_node_pool m) && negb (m_gpu_count m =? 0) then m_gpu_count m
                  else Z.max (campaign_widest_cards c) 1
      | None => Z.max (campaign_widest_cards c) 1
      end
  end.

(** What one launch of the base takes, and how many fit the budget at once. *)
Definition per_launch (c : campaign) : Z := Z.max (config_cards c (s_base (c_search_space c))) 1.
Definition side_by_side (c : campaign) (m : option machine) : Z :=
  Z.max (Z.max (gpu_budget c m) (per_launch c) / per_launch c) 1.

Definition validation_rounds (c : campaign) (m : option machine) : Z :=
  - (- validation_launches (settings_of c) / side_by_side c m).

Definition reserve_minutes (c : campaign) (m : option machine) : Z :=
  settings_reserve_minutes (settings_of c) (contender_minutes c) (validation_rounds c m).

(** When exploration must stop. *)
Definition search_deadline (c : campaign) (m : option machine) : option Z :=
  (fun hard => hard - reserve_minutes c m * minute) <$> hard_deadline c m.

Definition deadlines (c : campaign) (m : option machine) : option Z * option Z :=
  (search_deadline c m, hard_deadline c m).

Definition hour : Z := 60 * minute.

(** When a session's token stops working. *)
Definition token_expiry (hard : option Z) (moment : Z) : Z :=
  match hard with
  | Some t => t + policy_token_grace_hours * hour
  | None => moment + policy_token_max_hours * hour
  end.

(** How long the policy has not been heard from, in microseconds. *)
Definition heartbeat_silence (s : policy_session) (moment : Z) : Z :=
  match ps_last_heartbeat_at s, ps_started_at s with
  | Some t, _ | None, Some t => moment - t
  | None, None => 0
  end.

(** ** The command of a heartbeat *)
Inductive command := CmdAbort | CmdServe (contender : Z) (port : option Z) | CmdRun | CmdExit | CmdFinalize.

Definition signalled_done (s : policy_session) : bool :=
  bool_decide (ps_policy_status s ∈ ["exhausted"; "error"]).

Definition command_for (s : policy_session) (c : campaign) (m : option machine)
    (pending_contenders : Z) (serving_port : option Z) (moment : Z) : command :=
  if bool_decide (is_Some (ps_abort_requested_at s)) then CmdAbort
  else
    match ps_status s with
    | Validating =>
        match ps_serving_contender_id s with
        | Some id => CmdServe id serving_port
        | None => if 0 <? pending_contenders then CmdRun else CmdExit
        end
    | Finalizing => if bool_decide (is_Some (ps_finalized_at s)) then CmdExit else CmdFinalize
    | _ =>
        if bool_decide (is_Some (ps_finalize_requested_at s))
           || reached moment (search_deadline c m) || signalled_done s
        then CmdFinalize else CmdRun
    end.
End nights.

(** ** Lemmas *)
Lemma settings_of_valid c : settings_valid (settings_of c) = true.
Proof. unfold settings_of. by destruct (settings_valid (c_policy_settings c)) eqn:E. Qed.

Lemma between_le lo hi z : between lo hi z = true -> lo <= z <= hi.
Proof. unfold between. lia. Qed.

Lemma launches_bounds c : 1 <= validation_launches (settings_of c) <= 9.
Proof.
  pose proof (settings_of_valid c) as Hv. unfold settings_valid in Hv.
  rewrite !andb_true_iff in Hv. destruct Hv as [[[[[[[H1%between_le _] _] _] _] _] _] _].
  unfold validation_launches. destruct (st_validate_production _); lia.
Qed.

(** Rounding up. *)
Lemma ceiling a b : 0 < b -> (- (- a / b) - 1) * b < a <= - (- a / b) * b.
Proof.
  intros Hb. pose proof (Z.div_mod (- a) b ltac:(lia)). pose proof (Z.mod_pos_bound (- a) b Hb). nia.
Qed.

(** Validations side by side: launch [i] of the night, in the rounds of as many as
    fit, one round after another from the end of exploration; each takes
    [contender_minutes]. *)
Definition launch_starts `{Env} (c : campaign) (m : option machine) (search i : Z) : Z :=
  search + i / side_by_side c m * (contender_minutes c * minute).
Definition launch_ends `{Env} (c : campaign) (m : option machine) (search i : Z) : Z :=
  launch_starts c m search i + contender_minutes c * minute.
(** The launches of a night that run at a moment. *)
Definition running_at `{Env} (c : campaign) (m : option machine) (search t : Z) : list Z :=
  where_ (fun i => (launch_starts c m search i <=? t) && (t <? launch_ends c m search i))
    (seqZ 0 (validation_launches (settings_of c))).

Lemma where_NoDup_Z (P : Z -> bool) l : NoDup l -> NoDup (where_ P l).
Proof. apply NoDup_filter. Qed.

(** In rounds of [wide] that take [len] each, at most [wide] run at once. *)
Lemma rounds_are_disjoint (wide len n s t : Z) : 0 < wide ->
  Z.of_nat (length (where_ (fun i => (s + i / wide * len <=? t) && (t <? s + i / wide * len + len)) (seqZ 0 n))) <= wide.
Proof.
  intros Hw. set (l := where_ _ _).
  assert (l ⊆ seqZ ((t - s) / len * wide) wide) as Hsub.
  { intros i Hi. apply elem_of_where in Hi as [_ Hi]. apply andb_true_iff in Hi as [H1%Z.leb_le H2%Z.ltb_lt].
    apply elem_of_seqZ. assert (0 < len) as Hlen by lia.
    assert ((t - s) / len = i / wide) as ->.
    { symmetry. apply (Z.div_unique_pos _ _ _ (t - s - len * (i / wide))); lia. }
    pose proof (Z.div_mod i wide ltac:(lia)). pose proof (Z.mod_pos_bound i wide Hw). nia. }
  apply NoDup_submseteq, submseteq_length in Hsub; [|by apply where_NoDup_Z, NoDup_seqZ].
  rewrite length_seqZ in Hsub. lia.
Qed.

(** C12: the time held back at the end of a night is enough for its validations.
    Side by side go as many launches, sized like production, as the card budget
    holds and no fewer (one, when the budget is less than that).  Started in
    rounds of that many from the end of exploration, each taking the minutes a
    contender is expected to (which are not negative), the contenders and production never use more cards
    than the budget, and the last of them ends at least a quarter of an hour
    before the night does; a round less would leave one out.  A pinned reserve is
    what is held back instead. *)
Theorem validation_reserve_suffices `{Env} (c : campaign) (m : option machine) :
  let launches := validation_launches (settings_of c) in
  let rounds := validation_rounds c m in
  let wide := side_by_side c m in
  let budget := Z.max (gpu_budget c m) (per_launch c) in
  1 <= wide /\ wide * per_launch c <= budget < (wide + 1) * per_launch c /\
  1 <= launches <= 9 /\ (rounds - 1) * wide < launches /\
  forall hard, hard_deadline c m = Some hard -> exists search, search_deadline c m = Some search /\
    (forall t, Z.of_nat (length (running_at c m search t)) * per_launch c <= budget) /\
    match st_validation_reserve_minutes (settings_of c) with
    | None => 0 <= contender_minutes c ->
        forall i, 0 <= i < launches -> launch_ends c m search i + 15 * minute <= hard
    | Some pinned => hard = search + pinned * minute
    end.
Proof.
  cbv zeta. pose proof (launches_bounds c) as HL.
  assert (1 <= per_launch c) as Hp by (unfold per_launch; lia).
  assert (1 <= side_by_side c m) as Hw by (unfold side_by_side; lia).
  assert (0 < side_by_side c m) as Hw0 by lia.
  pose proof (ceiling (validation_launches (settings_of c)) _ Hw0) as Hc.
  fold (validation_rounds c m) in Hc.
  assert (side_by_side c m * per_launch c <= Z.max (gpu_budget c m) (per_launch c) < (side_by_side c m + 1) * per_launch c) as Hb.
  { clear Hw Hw0 Hc. unfold side_by_side. set (b := Z.max (gpu_budget c m) (per_launch c)).
    set (p := per_launch c) in *. assert (p <= b) by (unfold b; lia). clearbody b p.
    assert (1 <= b / p) by (apply Z.div_le_lower_bound; lia). rewrite Z.max_l by lia.
    pose proof (Z.div_mod b p ltac:(lia)). pose proof (Z.mod_pos_bound b p ltac:(lia)). nia. }
  split; [done|]. split; [done|]. split; [done|]. split; [lia|].
  intros hard Hh. exists (hard - reserve_minutes c m * minute). unfold search_deadline. rewrite Hh. split; [done|]. split.
  - intros t. unfold running_at, launch_ends, launch_starts.
    pose proof (rounds_are_disjoint (side_by_side c m) (contender_minutes c * minute) (validation_launches (settings_of c))
                  (hard - reserve_minutes c m * minute) t Hw0) as Hr. nia.
  - unfold reserve_minutes, settings_reserve_minutes, or_z. destruct (st_validation_reserve_minutes (settings_of c)) as [pinned|].
    + lia.
    + intros HL0 i Hi. unfold launch_ends, launch_starts.
      assert (i / side_by_side c m < validation_rounds c m) as Hi' by (apply (Z.div_lt_upper_bound i _ _ Hw0); clear - Hi Hc; nia).
      assert (1 <= validation_rounds c m) as Hr1 by (pose proof (Z.div_pos i _ (proj1 Hi) Hw0); lia).
      destruct (Z.eqb_spec (validation_rounds c m) 0); [lia|].
      assert ((i / side_by_side c m + 1) * contender_minutes c <= validation_rounds c m * contender_minutes c)
        by (apply Z.mul_le_mono_nonneg_r; lia).
      unfold minute in *. nia.
Qed.

(** Three launches on eight cards, four at a time: one round, and a reserve of 75
    minutes before the end. *)
Lemma validation_reserve_suffices_witness :
  let c := sample_campaign <| c_window_end := Some (480 * minute) |>
             <| c_search_space := Space true (sample_config 2) ∅ [] ∅ [] |> in
  (validation_launches (settings_of c), side_by_side c (Some (sample_machine 1))) = (3, 4) /\
  search_deadline c (Some (sample_machine 1)) = Some (405 * minute) /\
  launch_ends c (Some (sample_machine 1)) (405 * minute) 2 + 15 * minute <= 480 * minute.
Proof.
  intros c. split; [vm_compute; reflexivity|]. split; [vm_compute; reflexivity|].
  destruct (validation_reserve_suffices c (Some (sample_machine 1))) as (_ & _ & _ & _ & H).
  destruct (H (480 * minute) eq_refl) as (search & Es & _ & Hend).
  assert (search = 405 * minute) as -> by (vm_compute in Es; injection Es as <-; reflexivity).
  exact (Hend ltac:(vm_compute; discriminate) 2 ltac:(vm_compute; split; [discriminate|reflexivity])).
Defined.
