(* ===== verification/Checks.v ===== *)
(** What a policy's config is held to before anything is launched: the flags and
    variables its engine image reads ([app/control/engines/vocabulary.py]), the
    parameters a campaign forbids ([space.py:forbidden_hits]), and every other
    reason the policy API refuses it ([app/api/policy_sessions.py:_config_problems]).

    The messages a problem is explained with are left out, and with them the
    spelling suggestions of [difflib]; a problem here is its kind and what it is
    about. *)
From Stdlib Require Import Ascii.
From S2P Require Import Failures Logs Model States Packing Timing World Samples Occupancy Fleet Exclusive Finish Placement Nights.
From S2P Require Import Prelude Float Values Texts Documents Space Validation Flags Commands ExtraArgs Addresses Recipes.
From S2P Require Import Composition Conversion Scripts.
#[local] Open Scope string_scope.
#[local] Open Scope list_scope.
#[local] Open Scope Z_scope.

(** ** Vocabularies *)
Inductive entry_kind := FlagEntry | EnvEntry.
#[export] Instance entry_kind_eq_dec : EqDecision entry_kind.
Proof. solve_decision. Defined.
Inductive level := High | Mid | Low | UnknownLevel.
#[export] Instance level_eq_dec : EqDecision level.
Proof. solve_decision. Defined.
Definition LEVELS : list level := [High; Mid; Low; UnknownLevel].

(** What the platform reads of an entry. *)
Record Entry := mkEntry {
  en_kind : entry_kind;
  en_name : string;
  en_help : string;
  en_hardware : list string;
  en_negatable : bool;
  en_flag : string;
  en_aliases : list string;
  en_deprecated_flags : list string;
}.
Record Label := mkLabel {
  lb_kind : entry_kind;
  lb_name : string;
  lb_level : level;
  lb_when : string;
  lb_hardware : list string;
}.
Record Vocabulary := mkVocabulary { vo_engine : string; vo_entries : list Entry }.

Definition of_kind (kind : entry_kind) (e : Entry) : bool := bool_decide (en_kind e = kind).
Definition names (v : Vocabulary) (kind : entry_kind) : list string := map en_name (where_ (of_kind kind) (vo_entries v)).

Definition overlaps (a b : list string) : bool := existsb (fun x => listed x b) a.

(** An unknown card keeps every label. *)
Definition _applies (label : Label) (tags : list string) : bool :=
  match lb_hardware label, tags with
  | [], _ | _, [] => true
  | hardware, _ => overlaps tags hardware
  end.

(** A row shown to a policy: the entry, its level, and when it is worth trying. *)
Record annotated := mkAnnotated { an_entry : Entry; an_level : level; an_when : string }.

(** The label of an entry; the last of a name wins. *)
Definition label_of (labels : list Label) (e : Entry) : option Label :=
  last (where_ (fun l => bool_decide (lb_kind l = en_kind e) && String.eqb (lb_name l) (en_name e)) labels).

Definition annotate_entry (labels : list Label) (tags : list string) (e : Entry) : option annotated :=
  match label_of labels e with
  | Some l => if _applies l tags then Some (mkAnnotated e (lb_level l) (lb_when l)) else None
  | None =>
      match tags, en_hardware e with
      | _ :: _, _ :: _ => if overlaps tags (en_hardware e) then Some (mkAnnotated e UnknownLevel "") else None
      | _, _ => Some (mkAnnotated e UnknownLevel "")
      end
  end.

Definition level_rank (l : level) : Z := match l with High => 0 | Mid => 1 | Low => 2 | UnknownLevel => 3 end.
(** By level, kind ("env" before "flag") and name. *)
Definition annotated_key (a : annotated) : list Z :=
  level_rank (an_level a) :: (match en_kind (an_entry a) with EnvEntry => 0 | FlagEntry => 1 end)
  :: key_of_string (en_name (an_entry a)).

(** The labels are the engine's YAML file; the tags are the card's. *)
Definition annotate (labels : list Label) (tags : list string) (v : Vocabulary) : list annotated :=
  sort_by (key_before annotated_key) (omap (annotate_entry labels tags) (vo_entries v)).

(** [None] is no filter. *)
Definition lookup (rows : list annotated) (kind : option entry_kind) (query : string) (lowest : option level)
    : list annotated :=
  let q := lower query in
  where_ (fun a =>
    match kind with Some k => of_kind k (an_entry a) | None => true end
    && match lowest with Some l => level_rank (an_level a) <=? level_rank l | None => true end
    && (String.eqb q "" || contains q (lower (en_name (an_entry a))) || contains q (lower (en_help (an_entry a))))) rows.

Definition entry_flags (e : Entry) : list string :=
  where_ (fun s => negb (String.eqb s "")) (en_flag e :: en_aliases e ++ en_deprecated_flags e)
  ++ (if en_negatable e && starts_with "--" (en_flag e) then ["--no-" +:+ from 2 (en_flag e)] else []).

(** Every option string the image's server parser takes. *)
Definition accepted_flags (v : Vocabulary) : list string :=
  concat (map entry_flags (where_ (of_kind FlagEntry) (vo_entries v))).

(** ** Problems *)
Inductive config_problem :=
| BadKeyProblem (key : string) (why : BadAddress)
| RecipeKeyProblem (why : recipe_problem)
| SubstrateProblem (key : string)
| PlacementProblem (key : string)
| ForbiddenProblem (param pattern : string)
| RoundTripProblem (why : trip_problem)
| UnknownFlagProblem (key token : string)
| EnvProblem (why : env_problem)
| UnknownEnvProblem (key : string)
| SafetyProblem (why : rejection)
| RecipeProblem (why : recipe_problem).

Definition unknown_flag_problems (args : tree) (v : Vocabulary) (engine : string) : list config_problem :=
  let accepted := accepted_flags v in
  match accepted with
  | [] => []
  | _ => concat (map (fun kv =>
           omap (fun token => if negb (is_flag token) || listed token accepted then None
                              else Some (UnknownFlagProblem kv.1 token)) (render_args [kv] engine)) args)
  end.

Definition unknown_env_problems (keys : list string) (v : Vocabulary) : list config_problem :=
  omap (fun key => if negb (is_env_key key) || listed (env_name key) (names v EnvEntry) then None
                   else Some (UnknownEnvProblem key)) keys.

(** ** Forbidden parameters *)
Record hit := mkHit { h_param : string; h_pattern : string; h_value : doc }.

Definition same_doc (a b : doc) : bool :=
  match a, b with Sc v, Sc w => same_value v w | _, _ => doc_eq a b end.

(** A config as the dict of scalars it is, in the order of its keys. *)
Definition items (cfg : config) : tree := map (fun kv => (kv.1, Sc kv.2)) (sorted_items cfg).

Definition forbidden_hits (cfg : config) (sp : space) (patterns : list string) (engine : string) (anchor : tree) : list hit :=
  match patterns with
  | [] => []
  | _ =>
      let base := (normalize_args engine (dict_update anchor (items (s_base sp)))).1 in
      let swept := (normalize_args engine (map (fun k => (k, Sc VNone)) (swept_keys sp))).1.*1 in
      let normalized := (normalize_args engine (items cfg)).1 in
      omap (fun kv =>
        let '(param, value) := kv in
        if listed param swept then None
        else
          match List.find (fnmatchcase param) patterns with
          | None => None
          | Some pattern =>
              match dict_get param base with
              | Some b => if same_doc value b then None else Some (mkHit param pattern value)
              | None => Some (mkHit param pattern value)
              end
          end) (sort_by (key_before (fun kv => key_of_string kv.1)) normalized)
  end.

(** [labels/common.yaml], `forbidden`. *)
Definition DEFAULT_FORBIDDEN_PARAMS : list string :=
  ["quantization*"; "modelopt_quant*"; "kv_cache_dtype"; "dtype"; "context_length"; "max_model_len";
   "chat_template*"; "*_parser"; "enable_auto_tool_choice"; "trust_remote_code"; "load_format"; "tokenizer";
   "tokenizer_path"; "tokenizer_mode"; "tokenizer_revision"; "skip_tokenizer_init"; "revision";
   "json_model_override_args"; "hf_overrides"; "generation_config"; "override_generation_config";
   "preferred_sampling_params"; "sampling_defaults"; "env.*THINK*"; "env.*REASONING*";
   "env.*MAX_NEW_TOKENS_LIMIT*"; "env.*SKIP_SOFTMAX*"; "env.*GREEDY*"; "env.*_DTYPE"; "env.*PRECISION*";
   "env.*QUANT*"; "env.*FP4*"; "env.*INT4*"; "env.*MXFP*"; "env.*IGNORED_LAYERS*"; "env.*LOW_PRECISION*";
   "env.*MULTIPLE_REDUCTION*"; "env.*CONTEXT_LEN*"; "env.*CHAT_TEMPLATE*"].

(** ** Everything a config is refused for *)

(** What the policy API reads of a campaign besides its row: its recipe and
    columns, the forbidden patterns and the handling of variables in its policy
    settings, and the newest good vocabulary of its image. *)
Record campaign_desk := CampaignDesk {
  cm_recipe : CampaignRecipe;
  cm_forbidden : option (list string);
  cm_env_warn : bool;
  cm_vocabulary : option Vocabulary;
}.

(** [PolicySettings.forbidden], through the tolerant reading of the settings. *)
Definition forbidden (c : campaign) (k : campaign_desk) : list string :=
  match (if settings_valid (c_policy_settings c) then cm_forbidden k else None) with
  | None => DEFAULT_FORBIDDEN_PARAMS
  | Some patterns => where_ (fun p => negb (String.eqb p "")) (map strip patterns)
  end.

(** The base merged in, inactive parameters pruned. *)
Definition _canonical (cfg : config) (c : campaign) : config :=
  prune_inactive (cfg ∪ s_base (c_search_space c)) (c_search_space c).

Definition flat_address (key : string) : bool :=
  match Addresses.parse key with inr (AFlag _) | inr (AEnv _) => true | _ => false end.

(** The flags and variables, and a problem for each key that is no address. *)
Definition _split_addresses (cfg : config) : config * list config_problem :=
  (filter (fun kv => flat_address kv.1 = true) cfg,
   omap (fun kv => match Addresses.parse kv.1 with inl why => Some (BadKeyProblem kv.1 why) | inr _ => None end) (sorted_items cfg)).

Definition keys (cfg : config) : list string := (sorted_items cfg).*1.

(** The parameter a problem names, as far as [startswith("env.")] goes. *)
Definition about_env (p : config_problem) : bool :=
  match p with
  | BadKeyProblem key _ | SubstrateProblem key | PlacementProblem key | ForbiddenProblem key _
  | UnknownFlagProblem key _ | UnknownEnvProblem key => is_env_key key
  | EnvProblem (EnvBadKey key | EnvPlacement key _ | EnvNotRenderable key | EnvEmptyString key) => is_env_key key
  | _ => false
  end.

Definition is_bad_key (p : config_problem) : bool :=
  match p with
  | BadKeyProblem _ _ | RecipeKeyProblem (BadKeyOf _ _) | EnvProblem (EnvBadKey _) | RoundTripProblem (Commands.BadKey _) => true
  | _ => false
  end.

Definition _env_vocabulary_problems (cfg : config) (c : campaign) (k : campaign_desk) : list config_problem :=
  let env_keys := where_ is_env_key (keys cfg) in
  let from_vocab v := unknown_env_problems (keys cfg) v in
  match env_keys with
  | [] => []
  | _ =>
      match cm_vocabulary k with
      | Some v => if bool_decide (names v EnvEntry = [])
                  then (if settings_valid (c_policy_settings c) && cm_env_warn k then [] else map UnknownEnvProblem env_keys)
                  else from_vocab v
      | None => if settings_valid (c_policy_settings c) && cm_env_warn k then [] else map UnknownEnvProblem env_keys
      end
  end.

Section checks.
Context `{Env}.

(** Whether the machine's runs carry the whole recipe. *)
Definition _launches_recipes (db : database) (m : option machine) : bool :=
  match m with
  | Some m =>
      String.eqb (m_driver m) "k8s"
      && String.eqb (k_workload_kind
           (match m_cluster_id m ≫= fun cid => if cid =? 0 then None else d_clusters db !! cid with
            | Some row => row | None => default_cluster end)) "llmservice"
  | None => false
  end.

(** The flags a recipe campaign's engines already run with. *)
Definition anchor_of (c : campaign) (k : campaign_desk) : tree :=
  if c_has_recipe c then match cr_recipe (cm_recipe k) with Some r => engine_flags r | None => [] end else [].

(** The canonical config, and every reason a launch of it is refused; [inl] when
    the recipe it makes has no place for it. *)
Definition _config_problems (db : database) (cfg : config) (c : campaign) (k : campaign_desk) (m : option machine)
    : apply_error + (config * list config_problem) :=
  let canonical := _canonical cfg c in
  let dotted := where_ (fun key => has_dot key && negb (starts_with "env." key)) (keys canonical) in
  let recipe_only := where_ (fun key => negb (is_flat key)) (keys canonical) in
  let flat_config := (_split_addresses cfg).1 in
  let flat := (_split_addresses canonical).1 in
  let args := (split_env flat).1 in
  let flags := filter (fun kv => negb (listed kv.1 PLACEMENT_FLAGS) = true) args in
  let round_trip := round_trip_problems (items flags) (c_engine c) in
  let problems :=
    (_split_addresses canonical).2
    ++ map RecipeKeyProblem (Recipes.config_problems dotted)
    ++ (if bool_decide (recipe_only = []) || _launches_recipes db m then [] else map SubstrateProblem recipe_only)
    ++ map PlacementProblem (where_ (fun key => listed key PLACEMENT_FLAGS) (keys flat_config))
    ++ map (fun h => ForbiddenProblem (h_param h) (h_pattern h))
         (forbidden_hits canonical (c_search_space c) (forbidden c k) (c_engine c) (anchor_of c k))
    ++ map RoundTripProblem round_trip
    ++ (match cm_vocabulary k, round_trip with
        | Some v, [] => unknown_flag_problems (items flags) v (c_engine c)
        | _, _ => []
        end)
    ++ map EnvProblem (env_problems flat) in
  let problems := problems ++ (if existsb about_env problems then [] else _env_vocabulary_problems flat c k) in
  let problems := problems ++ (match validate_config args (mkValidationContext (from_option m_gpu_count 0 m) (c_engine c) 1) with
                               | Some why => [SafetyProblem why] | None => [] end) in
  if c_has_recipe c && negb (existsb is_bad_key problems) then
    match recipe_for (cm_recipe k) (items canonical) with
    | inl e => inl e
    | inr r => inr (canonical, problems ++ map RecipeProblem (recipe_problems r))
    end
  else inr (canonical, problems).
End checks.

(** ** What the checks guarantee *)

Lemma find_none_pattern (param : string) patterns :
  List.find (fnmatchcase param) patterns = None <-> forall p, p ∈ patterns -> fnmatchcase param p = false.
Proof.
  split.
  - intros Hf p Hp%list_elem_of_In. exact (find_none _ _ Hf p Hp).
  - intros Hp. destruct (List.find _ _) as [q|] eqn:Hf; [|done]. apply find_some in Hf as [Hin Hq].
    by rewrite (Hp q) in Hq by by apply list_elem_of_In.
Qed.

(** A config without forbidden hits leaves every forbidden flag as the
    campaign has it: whatever flag it sets, in whatever spelling, that matches
    one of the patterns is swept by the campaign's own space or has the value
    the campaign's base, or its recipe, already gives it. *)
Theorem no_hits_nothing_forbidden cfg sp patterns engine anchor param value pattern :
  forbidden_hits cfg sp patterns engine anchor = [] ->
  (param, value) ∈ (normalize_args engine (items cfg)).1 -> pattern ∈ patterns -> fnmatchcase param pattern = true ->
  param ∈ (normalize_args engine (map (fun k => (k, Sc VNone)) (swept_keys sp))).1.*1 \/
  exists b, dict_get param (normalize_args engine (dict_update anchor (items (s_base sp)))).1 = Some b /\ same_doc value b = true.
Proof.
  unfold forbidden_hits. intros Hnil Hin Hp Hmatch. destruct patterns as [|p0 ps]; [by apply elem_of_nil in Hp|].
  set (patterns := p0 :: ps) in *. eapply (omap_nil _ _ (param, value)) in Hnil; [|by apply elem_of_sort_by].
  cbn beta iota in Hnil. destruct (listed param _) eqn:Hl.
  { left. unfold listed in Hl. apply existsb_exists in Hl as (x & Hx%list_elem_of_In & ->%String.eqb_eq). done. }
  right. destruct (List.find (fnmatchcase param) patterns) as [q|] eqn:Hf.
  - destruct (dict_get param _) as [b|]; [|done]. exists b. split; [done|]. by destruct (same_doc value b).
  - rewrite find_none_pattern in Hf. by rewrite Hf in Hmatch.
Qed.

(** ** The theorems at work *)
Definition cluster_machine : machine := ((sample_machine 1) <| m_driver := "k8s" |>) <| m_cluster_id := Some 1 |>.
Definition cluster_db : database :=
  (empty_database <| d_machines := {[ 1 := cluster_machine ]} |>)
    <| d_clusters := {[ 1 := Cluster 0 "llmservice" "dns" false "" "" ]} |>.
Definition recipe_campaign : campaign := sample_campaign <| c_has_recipe := true |>.
Definition recipe_desk (r : Recipe) : campaign_desk := CampaignDesk (mkCampaignRecipe (Some r) sample_fields) None false None.

Lemma no_hits_nothing_forbidden_witness :
  exists b, dict_get "kv_cache_dtype" (normalize_args "sglang" (dict_update [("kv_cache_dtype", text "fp8_e5m2")] [])).1 = Some b /\
    same_doc (text "fp8_e5m2") b = true.
Proof.
  destruct (no_hits_nothing_forbidden {[ "kv_cache_dtype" := VStr "fp8_e5m2" ]} sample_space DEFAULT_FORBIDDEN_PARAMS "sglang"
    [("kv_cache_dtype", text "fp8_e5m2")] "kv_cache_dtype" (text "fp8_e5m2") "kv_cache_dtype") as [Hin|Hb].
  - vm_compute. reflexivity.
  - apply list_elem_of_In. vm_compute. tauto.
  - apply list_elem_of_In. vm_compute. tauto.
  - vm_compute. reflexivity.
  - apply list_elem_of_In in Hin. vm_compute in Hin. contradiction.
  - exact Hb.
Defined.

(** A forbidden flag that is refused on the whole recipe is not refused on one
    of its roles: the patterns are matched against the address, so
    ["prefill.kv_cache_dtype"] passes every check and the prefill engines run
    with it. *)
Theorem role_flag_evades_forbidden :
  let problems key := snd <$> (match _config_problems cluster_db {[ key := VStr "fp8_e5m2" ]} recipe_campaign
                                 (recipe_desk sample_pd) (Some cluster_machine) with inl _ => None | inr r => Some r end) in
  problems "kv_cache_dtype" = Some [ForbiddenProblem "kv_cache_dtype" "kv_cache_dtype"] /\
  problems "prefill.kv_cache_dtype" = Some [] /\
  (match recipe_for (cm_recipe (recipe_desk sample_pd)) [("prefill.kv_cache_dtype", text "fp8_e5m2")] with
   | inr r => dict_get "kv_cache_dtype" (recipe_flags r "prefill")
   | inl _ => None
   end) = Some (text "fp8_e5m2").
Proof. vm_compute. tauto. Qed.
