(* ===== verification/Reserve.v ===== *)
(** What a policy session holds on a machine: the engine's half of the machine
    queue ([PolicySessionEngine.waiting], [try_reserve], [_allocation_on] and
    [_allocation_on_pool] of [app/control/orchestrator/policy_session.py]). *)
From S2P Require Import Prelude Float Values Documents Space Validation Model States Packing Timing World Samples.
From S2P Require Import Occupancy Fleet Exclusive Finish Placement Nights.
#[local] Open Scope string_scope.
#[local] Open Scope list_scope.
#[local] Open Scope Z_scope.

Section reserve.
Context `{Env}.

Definition live_sessions_on (db : database) (mid : Z) : list policy_session :=
  where_ (live_session_on mid) (rows_z (d_sessions db)).

Definition held_cards (db : database) (m : machine) : list Z :=
  concat (map ps_gpu_indices (live_sessions_on db (m_id m)))
  ++ concat (map r_gpu_indices (holding_runs db (m_id m))).

Definition held_ports (db : database) (m : machine) : list Z :=
  concat (map ps_ports (live_sessions_on db (m_id m)))
  ++ without_zero (map r_service_port (holding_runs db (m_id m))).

Definition PORT_SPAN : nat := 4096.

(** The first [n] ports of the span from [base] nobody holds, outside the
    NodePort range. *)
Definition port_block (held : list Z) (base : Z) (n : nat) : list Z :=
  take n (where_ (fun p => negb (bool_decide (p ∈ held)) && negb (node_port_range p))
                 (seqZ base (Z.of_nat PORT_SPAN))).

Definition session_ports (p : policy) : nat := Z.to_nat (or_z (po_ports p) 1).
Definition base_port (c : campaign) : Z := or_z (c_service_port c) 28200.
Definition free_of (total : Z) (held : list Z) : list Z := free_indices total held.

Definition _allocation_on_pool (db : database) (c : campaign) (p : policy) (m : machine)
    : option (list Z * list Z) :=
  let total := m_gpu_count m in
  let needed := or_z (default 0 (st_cards (settings_of c))) (or_z (campaign_widest_cards c) 1) in
  let free := free_of total (held_cards db m) in
  if negb (total =? 0) && (Z.of_nat (length free) <? needed) then None
  else
    let ports := port_block (held_ports db m) (base_port c) (session_ports p) in
    if (length ports <? session_ports p)%nat then None
    else Some (take (Z.to_nat needed) free, ports).

Definition _allocation_on (db : database) (c : campaign) (p : policy) (m : machine)
    : option (list Z * list Z) :=
  if is_node_pool m then _allocation_on_pool db c p m
  else
    let live := live_runs_on db (m_id m) in
    let held := reservations_on db m (Some (c_id c)) in
    if negb (c_share_machine c) then
      if machine_has_live_session db (m_id m)
         || match live with [] => false | _ => true end
         || match held with [] => false | _ => true end
      then None
      else Some (range (m_gpu_count m),
                 map (fun i => base_port c + i) (range (Z.of_nat (session_ports p))))
    else
      let tenants := live_sessions_on db (m_id m) in
      let tenant_campaigns := where_ (fun cid => negb (cid =? c_id c))
                                (map ps_campaign_id tenants ++ map r_campaign_id live) in
      if negb (forallb c_share_machine
                 (where_ (fun o => bool_decide (c_id o ∈ tenant_campaigns)) (rows_z (d_campaigns db))))
      then None
      else if existsb (fun r => negb (rv_share r)) held then None
      else
        let total := m_gpu_count m in
        let needed := or_z (default 0 (st_cards (settings_of c))) total in
        let free := free_of total (held_cards db m) in
        let free := take (Z.to_nat (Z.max 0 (Z.of_nat (length free) - sum_z (map rv_cards held)))) free in
        if negb (total =? 0) && (Z.of_nat (length free) <? Z.max 1 needed) then None
        else
          let ports := port_block (held_ports db m) (base_port c) (session_ports p) in
          if (length ports <? session_ports p)%nat then None
          else Some (take (Z.to_nat needed) free, ports).

Definition api_url_set : bool :=
  negb (String.eqb public_api_url "" && String.eqb internal_api_url "").

(** Pending sessions with no machine yet. *)
Definition waiting (db : database) : list policy_session :=
  if negb api_url_set then []
  else where_ (fun s => (ps_status s == SessPending) && (ps_machine_id s == None)
                        && (ps_abort_requested_at s == None)
                        && match d_campaigns db !! ps_campaign_id s with
                           | Some c => c_status c == Active
                           | None => false
                           end
                        && bool_decide (is_Some (d_policies db !! ps_policy_id s)))
              (rows_z (d_sessions db)).

Definition session_container (sid : Z) : string := "autotune-policy-" +:+ pretty sid.

Fixpoint reserve_on_first (c : campaign) (p : policy) (sid needed : Z) (blocked busy : gset Z)
    (machines : list machine) : W (bool * gset Z) :=
  match machines with
  | [] => ret (false, busy)
  | m :: rest =>
      if is_node_pool m && po_gpus_in_container p
      then reserve_on_first c p sid needed blocked busy rest
      else if bool_decide (m_id m ∈ blocked)
      then reserve_on_first c p sid needed blocked ({[ m_id m ]} ∪ busy) rest
      else
        db <- db_ ;;
        match _allocation_on db c p m with
        | None =>
            reserve_on_first c p sid needed blocked
              (if needed <=? m_gpu_count m then {[ m_id m ]} ∪ busy else busy) rest
        | Some (cards, ports) =>
            put_session sid (fun s => s <| ps_machine_id := Some (m_id m) |>
                                        <| ps_gpu_indices := cards |> <| ps_ports := ports |>
                                        <| ps_container_name := session_container sid |>) ;;;
            event_ "policy_session_reserved" (Some (c_id c)) None ;;;
            ret (true, busy)
        end
  end.

Definition try_reserve (sid : Z) (blocked : gset Z) : W (bool * gset Z) :=
  db <- db_ ;;
  s <- expect (d_sessions db !! sid) ;;
  match d_campaigns db !! ps_campaign_id s, d_policies db !! ps_policy_id s with
  | Some c, Some p =>
      let needed := if c_share_machine c then default 0 (st_cards (settings_of c)) else 0 in
      reserve_on_first c p sid needed blocked ∅ (_usable_machines db c)
  | _, _ => ret (false, ∅)
  end.

(** The cards a validation run of a session takes. *)
Definition _validation_cards (s : policy_session) (cfg : config) (blockers : list run) (c : campaign)
    : option (list Z) :=
  match ps_gpu_indices s with
  | [] => Some []
  | block =>
      let needed := Z.min (Z.max (config_cards c cfg) 1) (Z.of_nat (length block)) in
      let held := concat (map r_gpu_indices blockers) in
      let free := where_ (fun i => negb (bool_decide (i ∈ held))) block in
      if Z.of_nat (length free) <? needed then None
      else Some (sort_by (fun x y => x <? y) (take (Z.to_nat needed) free))
  end.

Definition _teardown_blocking (db : database) (s : policy_session) (c : campaign) (m : machine) : bool :=
  let dying := teardown_pending_on db (m_id m) in
  if negb (c_share_machine c) then match dying with [] => false | _ => true end
  else existsb (fun r => existsb (fun i => bool_decide (i ∈ ps_gpu_indices s)) (r_gpu_indices r)
                         || bool_decide (r_service_port r ∈ ps_ports s)) dying.

Definition _ports_reserved_by_others (db : database) (s : policy_session) : list Z :=
  concat (map ps_ports
    (where_ (fun o => (ps_machine_id o == ps_machine_id s) && negb (ps_id o =? ps_id s)
                      && negb (terminal_session (ps_status o))) (rows_z (d_sessions db)))).

(** A session's row as it is created. *)
Definition new_session (sid cid pid window : Z) : policy_session :=
  PolicySession sid cid pid None (Some window) SessPending None None [] [] "" "" None None None
    "" "" None 0 None "" None None "" "" "".

(** One pending session per policy campaign and window. *)
Definition _ensure_sessions : W unit :=
  db <- db_ ;;
  for_each (where_ (fun c => bool_decide (is_Some (c_policy_id c))) (campaigns_in db [Active]))
    (fun c =>
       match c_window_start c, c_policy_id c with
       | Some window, Some pid =>
           db <- db_ ;;
           if existsb (fun s => (ps_campaign_id s =? c_id c) && (ps_window_start s == Some window))
                      (rows_z (d_sessions db)) then ret tt
           else
             let sid := next_key (d_sessions db) in
             modify_db (fun db => db <| d_sessions ::= <[ sid :=
               new_session sid (c_id c) pid window ]> |>) ;;;
             event_ "policy_session_created" (Some (c_id c)) None
       | _, _ => ret tt
       end).
End reserve.

(** ** Lemmas *)
Lemma port_block_spec held base n :
  NoDup (port_block held base n) /\
  forall q, q ∈ port_block held base n ->
    base <= q < base + 4096 /\ q ∉ held /\ node_port_range q = false.
Proof.
  unfold port_block. split.
  - eapply sublist_NoDup; [|apply sublist_take]. apply NoDup_filter, NoDup_seqZ.
  - intros q (Hq & Hp)%elem_of_take%elem_of_where. apply elem_of_seqZ in Hq.
    apply andb_true_iff in Hp as [H1 H2]. rewrite negb_true_iff in H1, H2.
    apply bool_decide_eq_false in H1. unfold PORT_SPAN in Hq. split; [lia|done].
Qed.

Lemma length_port_block held base n : (length (port_block held base n) <= n)%nat.
Proof. unfold port_block. rewrite length_take. lia. Qed.

Lemma not_in_concat {A B} (f : A -> list B) l x y :
  x ∉ concat (map f l) -> y ∈ l -> x ∉ f y.
Proof.
  intros Hx Hy Hin. apply Hx, list_elem_of_In, in_concat. exists (f y).
  split; [apply in_map|]; by apply list_elem_of_In.
Qed.

(** Everything an allocation may not touch. *)
Definition untaken (db : database) (m : machine) (cards ports : list Z) : Prop :=
  (forall s, s ∈ live_sessions_on db (m_id m) ->
     (forall i, i ∈ cards -> i ∉ ps_gpu_indices s) /\ (forall q, q ∈ ports -> q ∉ ps_ports s)) /\
  (forall r, r ∈ holding_runs db (m_id m) ->
     (forall i, i ∈ cards -> i ∉ r_gpu_indices r) /\ (forall q, q ∈ ports -> q <> r_service_port r)).

Lemma allocation_untaken (db : database) (m : machine) (cards : list Z) n base :
  0 < base -> (forall i, i ∈ cards -> i ∈ free_of (m_gpu_count m) (held_cards db m)) ->
  untaken db m cards (port_block (held_ports db m) base n).
Proof.
  intros Hbase Hc. destruct (port_block_spec (held_ports db m) base n) as [_ Hp].
  assert (forall i, i ∈ cards -> i ∉ held_cards db m) as Hfree.
  { intros i Hi. by apply Hc, elem_of_free_indices in Hi as [_ Hi]. }
  assert (forall q, q ∈ port_block (held_ports db m) base n -> q ∉ held_ports db m) as Hports.
  { intros q Hq. by apply Hp. }
  unfold held_cards, held_ports in Hfree, Hports. split.
  - intros s Hs. split.
    + intros i Hi. specialize (Hfree i Hi). rewrite not_elem_of_app in Hfree.
      eapply not_in_concat; [apply Hfree|done].
    + intros q Hq. specialize (Hports q Hq). rewrite not_elem_of_app in Hports.
      eapply not_in_concat; [apply Hports|done].
  - intros r Hr. split.
    + intros i Hi. specialize (Hfree i Hi). rewrite not_elem_of_app in Hfree.
      eapply not_in_concat; [apply Hfree|done].
    + intros q Hq ->. specialize (Hports _ Hq). rewrite not_elem_of_app in Hports.
      apply Hports, elem_of_without_zero. split; [apply list_elem_of_fmap; eauto|].
      destruct (Hp _ Hq). lia.
Qed.

(** ** Properties *)

(** What a policy session that shares its machine, or joins a node pool, is
    given is nobody else's: distinct cards of the machine, and as many distinct
    ports as its policy asks for, none of them held by another live session, by
    a live run or by a container still being torn down, and no port in the
    NodePort range. *)
Theorem allocation_is_untaken `{Env} (db : database) (c : campaign) (p : policy) (m : machine)
    (cards ports : list Z)
    (Hshare : c_share_machine c = true \/ is_node_pool m = true)
    (Hport : 0 <= c_service_port c)
    (Hok : _allocation_on db c p m = Some (cards, ports)) :
  NoDup cards /\ (forall i, i ∈ cards -> 0 <= i < m_gpu_count m) /\
  NoDup ports /\ length ports = session_ports p /\
  (forall q, q ∈ ports -> node_port_range q = false) /\
  untaken db m cards ports.
Proof.
  assert (exists n, (forall i, i ∈ cards -> i ∈ free_of (m_gpu_count m) (held_cards db m)) /\
    NoDup cards /\ ports = port_block (held_ports db m) (base_port c) n /\ n = session_ports p /\
    length ports = n) as (n & Hcards & Hnd & -> & -> & Hlen).
  { exists (session_ports p). revert Hok. unfold _allocation_on, _allocation_on_pool.
    pose proof (length_port_block (held_ports db m) (base_port c) (session_ports p)) as Hle.
    pose proof (NoDup_free_indices (m_gpu_count m) (held_cards db m)) as Hnd.
    destruct (is_node_pool m).
    - destruct (_ && _); [done|]. case_match eqn:Hl; [done|]. intros [= <- <-].
      apply Nat.ltb_ge in Hl. split_and!; try done; [|by eapply sublist_NoDup, sublist_take|lia].
      intros i. apply elem_of_take.
    - destruct Hshare as [->|]; [|done]. cbn [negb]. destruct (negb (forallb _ _)); [done|].
      destruct (existsb _ _); [done|]. destruct (_ && _); [done|].
      case_match eqn:Hl; [done|]. intros [= <- <-]. apply Nat.ltb_ge in Hl.
      split_and!; try done; [| |lia].
      + intros i Hi. by do 2 apply elem_of_take in Hi.
      + eapply sublist_NoDup; [|apply sublist_take]. by eapply sublist_NoDup, sublist_take. }
  assert (0 < base_port c) as Hbase.
  { unfold base_port, or_z. destruct (Z.eqb_spec (c_service_port c) 0); lia. }
  destruct (port_block_spec (held_ports db m) (base_port c) (session_ports p)) as [Hndp Hp].
  split; [done|]. split; [|split; [done|split; [done|split]]].
  - intros i Hi. by apply Hcards, elem_of_free_indices in Hi as [? _].
  - intros q Hq. by apply Hp.
  - by apply allocation_untaken.
Qed.

(** A run whose container is not confirmed gone, on a machine nothing else
    uses. *)
Definition dying_db : database :=
  insert_run ((sample_run 1 1 1 [0; 1; 2; 3] Killed) <| r_teardown_pending := true |>)
    (empty_database <| d_machines := {[ 1 := sample_machine 1 ]} |>
                    <| d_campaigns := {[ 1 := sample_campaign ]} |>).

Lemma allocation_is_untaken_witness :
  untaken dying_db (sample_machine 1) [4; 5; 6; 7] [28201].
Proof.
  apply (allocation_is_untaken dying_db
           (sample_campaign <| c_policy_settings := sample_settings <| st_cards := Some 4 |> |>) sample_policy (sample_machine 1)
           [4; 5; 6; 7] [28201]).
  - left. reflexivity.
  - vm_compute. discriminate.
  - vm_compute. reflexivity.
Defined.

(** A session of a campaign that does not share is given the whole machine
    although a container there still holds cards: here all eight, with run 1
    not confirmed gone on the first four. *)
Theorem exclusive_session_overlaps_teardown :
  let c := sample_campaign <| c_share_machine := false |> in
  match _allocation_on dying_db c sample_policy (sample_machine 1) with
  | Some (cards, _) => ~ untaken dying_db (sample_machine 1) cards []
  | None => False
  end.
Proof.
  cbv zeta.
  replace (_allocation_on _ _ _ _) with (Some ([0; 1; 2; 3; 4; 5; 6; 7], [28200]))
    by (vm_compute; reflexivity).
  intros [_ Hr].
  destruct (Hr ((sample_run 1 1 1 [0; 1; 2; 3] Killed) <| r_teardown_pending := true |>)) as [Hc _].
  { vm_compute. left. }
  apply (Hc 0); vm_compute; left.
Qed.
