(* ===== verification/Queue.v ===== *)
(** The machine queue: tickets ([app/control/orchestrator/queue_tickets.py])
    and the pass that hands machines out in their order
    ([Supervisor._schedule], [_why_queued], [_occupancy_reason]). *)
From S2P Require Import Prelude Float Values Documents Space Validation Model States Packing Timing World Samples.
From S2P Require Import Occupancy Fleet Exclusive Finish Placement Nights Reserve.
#[local] Open Scope string_scope.
#[local] Open Scope list_scope.
#[local] Open Scope Z_scope.

(** ** Tickets *)
Definition GRACE : Z := 10 * minute.

Inductive item :=
| ItemCampaign (cid : Z)
| ItemPlugin (w : waiter)
| ItemSession (sid : Z) (cid : Z).

Record entry := Entry {
  en_ticket : queue_ticket;
  en_item : item;
  en_needs_port : bool;
  en_served : bool;
  en_busy : gset Z;
  en_held : gset Z;
}.
#[export] Instance eta_entry : Eta entry := fun r =>
  Entry (en_ticket r) (en_item r) (en_needs_port r) (en_served r) (en_busy r) (en_held r).

(** The tickets of one pass; [bk_tickets] is the waiter's ticket by its name. *)
Record book := TicketBook {
  bk_now : Z;
  bk_tickets : gmap string Z;
  bk_kept : list string;
}.
#[export] Instance eta_book : Eta book := fun r =>
  TicketBook (bk_now r) (bk_tickets r) (bk_kept r).


Definition put_ticket (id : Z) (f : queue_ticket -> queue_ticket) (db : database) : database :=
  db <| d_tickets ::= alter f id |>.

Definition insert_ticket (t : queue_ticket) (db : database) : database :=
  db <| d_tickets ::= <[ t_id t := t ]> |>.

Definition drop_ticket (id : Z) (db : database) : database := db <| d_tickets ::= delete id |>.

Section tickets.
Context `{Env}.

Definition open_book : W book :=
  moment <- now ;;
  db <- db_ ;;
  ret (TicketBook moment
         (list_to_map (map (fun t => (t_waiter t, t_id t)) (rows_z (d_tickets db)))) []).

Definition take_ticket (b : book) (waiter : string) (key : Z * Z * Z) (label : string)
    (cid : option Z) : W (queue_ticket * book) :=
  match bk_tickets b !! waiter with
  | None =>
      let '(arrival, rank, ident) := key in
      db <- db_ ;;
      let t := QueueTicket (next_key (d_tickets db)) waiter (clip 255 label) cid arrival rank ident
                 (bk_now b) (bk_now b) 0 None "" in
      modify_db (insert_ticket t) ;;;
      ret (t, b <| bk_tickets ::= <[ waiter := t_id t ]> |>)
  | Some id =>
      modify_db (put_ticket id (fun t => t <| t_seen_at := bk_now b |> <| t_label := clip 255 label |>)) ;;;
      db <- db_ ;;
      t <- expect (d_tickets db !! id) ;;
      ret (t, b)
  end.

Definition keep (b : book) (prefix : string) : book := b <| bk_kept ::= fun l => prefix :: l |>.

Definition entry_key (e : entry) : list Z :=
  let t := en_ticket e in [t_arrival t; t_rank t; t_ident t; t_id t].

Definition order (entries : list entry) : list entry := sort_by (key_before entry_key) entries.

(** The ticket is given up, once. *)
Definition served_ticket (b : book) (e : entry) : W (book * entry) :=
  if en_served e then ret (b, e)
  else
    modify_db (drop_ticket (t_id (en_ticket e))) ;;;
    ret (b <| bk_tickets ::= delete (t_waiter (en_ticket e)) |>, e <| en_served := true |>).

Definition record (e : entry) (position : Z) (waiting_for : option WaitingFor) (reason : string)
    : W unit :=
  modify_db (put_ticket (t_id (en_ticket e))
    (fun t => t <| t_position := position |> <| t_waiting_for := waiting_for |>
                <| t_reason := clip 2000 reason |>)).

(** Let go of tickets not seen for [GRACE]. *)
Definition sweep (b : book) : W unit :=
  for_each (map_to_list (bk_tickets b)) (fun '(waiter, id) =>
    if existsb (fun p => String.prefix p waiter) (bk_kept b) then ret tt
    else
      db <- db_ ;;
      match d_tickets db !! id with
      | Some t => if t_seen_at t <? bk_now b - GRACE then modify_db (drop_ticket id) else ret tt
      | None => ret tt
      end).

(** Each unserved waiter's place among those that hold a machine it holds. *)
Fixpoint places (ahead : list entry) (waiting : list entry) : list (Z * Z) :=
  match waiting with
  | [] => []
  | e :: rest =>
      (t_id (en_ticket e),
       1 + Z.of_nat (length (where_ (fun o => negb (bool_decide (en_held o ∩ en_held e = ∅))) ahead)))
      :: places (ahead ++ [e]) rest
  end.

Definition place_in_line (entries : list entry) : gmap Z Z :=
  list_to_map (places []
    (where_ (fun e => negb (en_served e) && negb (bool_decide (en_held e = ∅))) entries)).

(** ** The pass *)

(** The waiters' names. *)
Definition campaign_waiter (cid : Z) : string := "campaign:" +:+ pretty cid.
Definition session_waiter (sid : Z) : string := "session:" +:+ pretty sid.
Definition plugin_prefix (p : plugin) : string := "plugin:" +:+ pl_name p +:+ ":".

Definition listing : Type := book * list entry.

(** One active campaign joins the queue. *)
Definition list_campaign (c : campaign) (l : listing) : W listing :=
  moment <- now ;;
  if negb (window_allows_new_run moment c default_max_run_minutes) then ret l
  else if negb (is_staged c) && _waiting_on_dataset c then ret l
  else if match c_policy_id c with None | Some 0 => false | Some _ => true end then ret l
  else
    _ensure_relaunch_baseline c ;;;
    moment <- now ;;
    db <- db_ ;;
    '(t, b) <- take_ticket l.1 (campaign_waiter (c_id c)) (campaign_key db moment c)
                 ("campaign “" +:+ c_name c +:+ "”") (Some (c_id c)) ;;
    ret (b, l.2 ++ [Entry t (ItemCampaign (c_id c)) true false ∅ ∅]).

Definition list_plugin (p : plugin) (l : listing) : W listing :=
  match pl_queue_waiters p with
  | None => ret l
  | Some f =>
      db <- db_ ;;
      let '(waiters, failed) := f db in
      l <- for_acc waiters l (fun w l =>
             moment <- now ;;
             '(t, b) <- take_ticket l.1 (plugin_prefix p +:+ pretty (w_ident w)) (waiter_key moment w)
                          (w_label w) None ;;
             ret (b, l.2 ++ [Entry t (ItemPlugin w) true false ∅ ∅])) ;;
      ret (if failed : bool then (keep l.1 (plugin_prefix p), l.2) else l)
  end.

Definition list_session (s : policy_session) (l : listing) : W listing :=
  moment <- now ;;
  '(t, b) <- take_ticket l.1 (session_waiter (ps_id s)) (session_key moment s)
               ("policy session #" +:+ pretty (ps_id s)) (Some (ps_campaign_id s)) ;;
  ret (b, l.2 ++ [Entry t (ItemSession (ps_id s) (ps_campaign_id s)) false false ∅ ∅]).

Definition list_waiters : W listing :=
  b <- open_book ;;
  db <- db_ ;;
  l <- for_acc (campaigns_in db [Active]) (b, []) list_campaign ;;
  l <- for_acc plugins l list_plugin ;;
  db <- db_ ;;
  for_acc (waiting db) l list_session.

(** The pass's state: its entries in ticket order, who still waits for a turn
    (by position in that order), the machines held for a waiter that could not
    be served, and the first waiter that holds each. *)
Record pass := Pass {
  pa_book : book;
  pa_entries : list entry;
  pa_queue : list nat;
  pa_blocked : gset Z;
  pa_held_by : gmap Z nat;
}.
#[export] Instance eta_pass : Eta pass := fun r =>
  Pass (pa_book r) (pa_entries r) (pa_queue r) (pa_blocked r) (pa_held_by r).

(** A plugin's turn runs in a savepoint: one that raises left nothing. *)
Definition turn (e : entry) (blocked : gset Z) : W (bool * gset Z) :=
  match en_item e with
  | ItemPlugin w =>
      db <- db_ ;;
      match w_try_admit w db blocked with
      | (inl _, busy, _) => ret (false, busy)
      | (inr admitted, busy, db') => modify_db (fun _ => db') ;;; ret (admitted, busy)
      end
  | ItemSession sid _ => try_reserve sid blocked
  | ItemCampaign cid => _start_one cid blocked
  end.

Definition is_campaign (e : entry) : bool :=
  match en_item e with ItemCampaign _ => true | _ => false end.

(** A waiter that could not be served holds what it could use. *)
Definition hold_for (db : database) (i : nat) (e : entry) (busy : gset Z) (p : pass) : pass :=
  let held := if en_needs_port e then busy ∪ port_siblings db busy else busy in
  p <| pa_entries ::= fun es => if en_served e then es
                                else <[ i := e <| en_busy ::= fun s => s ∪ busy |>
                                               <| en_held ::= fun s => s ∪ held |> ]> es |>
    <| pa_held_by ::= fun hb => hb ∪ gset_to_gmap i held |>
    <| pa_blocked ::= fun b => b ∪ held |>.

(** One turn: the first of the queue. *)
Definition pass_step (p : pass) : W pass :=
  match pa_queue p with
  | [] => ret p
  | i :: rest =>
      match pa_entries p !! i with
      | None => ret (p <| pa_queue := rest |>)
      | Some e =>
          '(admitted, busy) <- turn e (pa_blocked p) ;;
          if admitted : bool then
            '(b, e') <- served_ticket (pa_book p) e ;;
            ret (p <| pa_book := b |> <| pa_entries ::= <[ i := e' ]> |>
                   <| pa_queue := if is_campaign e then rest ++ [i] else rest |>)
          else
            db <- db_ ;;
            ret (hold_for db i e busy (p <| pa_queue := rest |>))
      end
  end.

(** [while queue]; [None] when the turns ran out before the queue did. *)
Fixpoint serve (turns : nat) (p : pass) : W (option pass) :=
  match pa_queue p, turns with
  | [], _ => ret (Some p)
  | _, O => ret None
  | _, S n => p' <- pass_step p ;; serve n p'
  end.

(** ** Why a waiter waits *)
Definition item_campaign (e : entry) : option Z :=
  match en_item e with
  | ItemCampaign cid => Some cid
  | ItemPlugin w => w_campaign_id w
  | ItemSession _ cid => Some cid
  end.

Definition _occupancy_reason (db : database) (e : entry) (m : machine) (campaign_id : option Z)
    : option string :=
  match en_item e with
  | ItemCampaign cid =>
      match d_campaigns db !! cid with
      | None => None
      | Some c =>
          match candidates_of db cid [Valid] with
          | [] => None
          | pending =>
              let cards := min_default (map (fun cd => config_cards c (cd_config cd)) pending) 0 in
              busy_why_text <$> busy_reason db m cards (c_share_machine c) campaign_id
          end
      end
  | _ => None
  end.

Definition _why_queued (db : database) (entries : list entry) (held_by : gmap Z nat) (i : nat)
    (e : entry) : option WaitingFor * string :=
  let machines := sort_by (key_before (fun m => [m_id m]))
                    (omap (fun mid => d_machines db !! mid) (elements (en_busy e))) in
  let campaign_id := item_campaign e in
  match machines with
  | [] => (None, "")
  | m :: _ =>
      match (if en_needs_port e
             then head (omap (fun m => port_busy_reason db m None campaign_id) machines) else None) with
      | Some port => (Some NodePort, port_reason_text port)
      | None =>
          match held_by !! m_id m ≫= fun j => if (j =? i)%nat then None else entries !! j with
          | Some ahead =>
              if negb (bool_decide (m_id m ∈ en_busy ahead))
              then (Some NodePort, "behind " +:+ t_label (en_ticket ahead) +:+ ": the node port "
                                   +:+ m_name m +:+ " shares goes to it first")
              else (Some Cards, "behind " +:+ t_label (en_ticket ahead) +:+ ", which waits for "
                                +:+ m_name m)
          | None =>
              (Some Cards, match _occupancy_reason db e m campaign_id with
                           | Some why => m_name m +:+ ": " +:+ why
                           | None => "no room on " +:+ m_name m +:+ " yet"
                           end)
          end
      end
  end.

Definition record_all (p : pass) : W unit :=
  let lines := place_in_line (pa_entries p) in
  for_each (imap pair (pa_entries p)) (fun '(i, e) =>
    if en_served e then ret tt
    else
      db <- db_ ;;
      let '(waiting_for, reason) := _why_queued db (pa_entries p) (pa_held_by p) i e in
      record e (default 0 (lines !! t_id (en_ticket e))) waiting_for reason).

(** The whole pass; [false] when [turns] did not suffice. *)
Definition _schedule (turns : nat) : W bool :=
  '(b, entries) <- list_waiters ;;
  let ordered := order entries in
  done_ <- serve turns (Pass b ordered (seq 0 (length ordered)) ∅ ∅) ;;
  match done_ with
  | None => ret false
  | Some p => record_all p ;;; sweep (pa_book p) ;;; ret true
  end.
End tickets.

(** ** Lemmas: what the pass leaves alone *)

(** Rows are filed under their own ids. *)
Definition keyed (db : database) : Prop :=
  (forall k c, d_campaigns db !! k = Some c -> c_id c = k) /\
  (forall k cd, d_candidates db !! k = Some cd -> cd_id cd = k).

(** What the platform relies on of a plugin's waiter: admitting it leaves the
    runs, their nodes and the machines as they are (it holds a machine through
    [Plugin.reservations]), leaves the nights of policies as they are, and files
    rows under their ids. *)
Definition lawful (w : waiter) : Prop :=
  forall db blocked, same_fleet db (w_try_admit w db blocked).2 /\
                     (keyed db -> keyed (w_try_admit w db blocked).2) /\
                     same_nights db (w_try_admit w db blocked).2.

Class PluginLaws `{Env} : Prop := {
  waiters_lawful p f db w :
    p ∈ plugins -> pl_queue_waiters p = Some f -> w ∈ (f db).1 -> lawful w;
  steps_lawful p step db db' :
    p ∈ plugins -> step ∈ pl_tick_steps p -> step db = inr db' ->
    same_fleet db db' /\ same_nights db db';
}.

Lemma step_lawful `{PluginLaws} step db db' :
  step ∈ concat (map pl_tick_steps plugins) -> step db = inr db' ->
  same_fleet db db' /\ same_nights db db'.
Proof.
  intros Hs E. apply list_elem_of_In, in_concat in Hs as (l & Hl & Hs).
  apply in_map_iff in Hl as (p & <- & Hp).
  eapply steps_lawful; [apply list_elem_of_In, Hp|apply list_elem_of_In, Hs|done].
Qed.

Definition lawful_entry (e : entry) : Prop :=
  match en_item e with ItemPlugin w => lawful w | _ => True end.

Section pass_fleet.
Context `{Env}.

Lemma put_ticket_same_fleet id f : respects (on_db same_fleet) (modify_db (put_ticket id f)).
Proof. apply respects_modify_db. intros db. by apply same_fleet_rows. Qed.
Lemma drop_ticket_same_fleet id : respects (on_db same_fleet) (modify_db (drop_ticket id)).
Proof. apply respects_modify_db. intros db. by apply same_fleet_rows. Qed.
Lemma insert_ticket_same_fleet t : respects (on_db same_fleet) (modify_db (insert_ticket t)).
Proof. apply respects_modify_db. intros db. by apply same_fleet_rows. Qed.
Lemma put_session_same_fleet id f : respects (on_db same_fleet) (put_session id f).
Proof. apply respects_modify_db. intros db. by apply same_fleet_rows. Qed.

Hint Resolve put_ticket_same_fleet drop_ticket_same_fleet insert_ticket_same_fleet
  put_session_same_fleet event_same_fleet new_candidate_same_fleet : effects.

Lemma take_ticket_same_fleet b waiter key label cid :
  respects (on_db same_fleet) (take_ticket b waiter key label cid).
Proof. unfold take_ticket. respects_walk. Qed.
Lemma served_ticket_same_fleet b e : respects (on_db same_fleet) (served_ticket b e).
Proof. unfold served_ticket. respects_walk. Qed.
Lemma record_all_same_fleet p : respects (on_db same_fleet) (record_all p).
Proof. unfold record_all, record. respects_walk. Qed.
Lemma sweep_same_fleet b : respects (on_db same_fleet) (sweep b).
Proof. unfold sweep. respects_walk. Qed.
Lemma ensure_relaunch_same_fleet c : respects (on_db same_fleet) (_ensure_relaunch_baseline c).
Proof. unfold _ensure_relaunch_baseline, _add_baseline_candidate, event_. respects_walk. Qed.
Hint Resolve take_ticket_same_fleet served_ticket_same_fleet record_all_same_fleet sweep_same_fleet
  ensure_relaunch_same_fleet : effects.

Lemma list_waiters_same_fleet : respects (on_db same_fleet) list_waiters.
Proof.
  unfold list_waiters, open_book, list_campaign, list_plugin, list_session, now. respects_walk.
Qed.

Lemma try_reserve_same_fleet sid blocked : respects (on_db same_fleet) (try_reserve sid blocked).
Proof.
  unfold try_reserve. respects_walk. generalize (_usable_machines a c) as ms.
  intros ms. generalize (∅ : gset Z) as busy.
  induction ms as [|m ms IH]; intros busy; cbn [reserve_on_first]; unfold event_; respects_walk;
    apply IH.
Qed.

(** ** Lemmas: every plugin waiter in the queue is lawful *)
Definition answers {A} (Q : A -> Prop) (m : W A) : Prop :=
  forall w, match (m w).1 with inr a => Q a | inl _ => True end.

Lemma answers_ret {A} (Q : A -> Prop) a : Q a -> answers Q (ret a).
Proof. by intros HQ w. Qed.
Lemma answers_bind {A B} (Q : B -> Prop) (m : W A) f :
  (forall a, answers Q (f a)) -> answers Q (bind m f).
Proof. intros Hf w. unfold bind. destruct (m w) as [[e|a] w']; [done|apply Hf]. Qed.
Lemma answers_bind_with {A B} (P : A -> Prop) (Q : B -> Prop) (m : W A) f :
  answers P m -> (forall a, P a -> answers Q (f a)) -> answers Q (bind m f).
Proof.
  intros Hm Hf w. unfold bind. specialize (Hm w). destruct (m w) as [[e|a] w']; [done|].
  by apply Hf.
Qed.
Lemma answers_for_acc {A B} (Q : B -> Prop) (l : list A) acc (f : A -> B -> W B) :
  Q acc -> (forall x acc, x ∈ l -> Q acc -> answers Q (f x acc)) -> answers Q (for_acc l acc f).
Proof.
  revert acc. induction l as [|x l IH]; intros acc Hacc Hf; cbn [for_acc]; [by apply answers_ret|].
  eapply answers_bind_with; [apply Hf; [left|done]|]. intros a Ha. apply IH; [done|].
  intros y b Hy. apply Hf. by right.
Qed.

Definition all_lawful (l : listing) : Prop := Forall lawful_entry l.2.

Lemma lawful_snoc (l : listing) b e : all_lawful l -> lawful_entry e -> all_lawful (b, l.2 ++ [e]).
Proof. intros Hl He. apply Forall_app. split; [done|]. by constructor. Qed.

Lemma list_waiters_lawful `{!PluginLaws} : answers all_lawful list_waiters.
Proof.
  unfold list_waiters. apply answers_bind. intros b. apply answers_bind. intros db.
  eapply answers_bind_with with (P := all_lawful).
  { apply answers_for_acc; [constructor|]. intros c l _ Hl. unfold list_campaign.
    apply answers_bind. intros moment. do 3 (case_match; [by apply answers_ret|]).
    do 3 (apply answers_bind; intros ?). apply answers_bind. intros [t b']. apply answers_ret.
    by apply lawful_snoc. }
  intros l Hl. eapply answers_bind_with with (P := all_lawful).
  { apply answers_for_acc; [done|]. intros p l' Hp Hl'. unfold list_plugin.
    destruct (pl_queue_waiters p) as [f|] eqn:Hf; [|by apply answers_ret].
    apply answers_bind. intros db'. destruct (f db') as [ws failed] eqn:Hws.
    eapply answers_bind_with with (P := all_lawful).
    - apply answers_for_acc; [done|]. intros w l'' Hw Hl''. apply answers_bind. intros ?.
      apply answers_bind. intros [t b']. apply answers_ret. apply lawful_snoc; [done|].
      apply (waiters_lawful p f db'); [done|done|]. by rewrite Hws.
    - intros l'' Hl''. apply answers_ret. by destruct failed. }
  intros l' Hl'. apply answers_bind. intros db'. apply answers_for_acc; [done|].
  intros s l'' _ Hl''. unfold list_session. apply answers_bind. intros ?.
  apply answers_bind. intros [t b']. apply answers_ret. by apply lawful_snoc.
Qed.

Definition pass_lawful (p : pass) : Prop := Forall lawful_entry (pa_entries p).

Lemma served_ticket_item b e : answers (fun r => en_item r.2 = en_item e) (served_ticket b e).
Proof.
  unfold served_ticket. case_match; [by apply answers_ret|]. apply answers_bind. intros _.
  by apply answers_ret.
Qed.

Lemma pass_step_lawful p : pass_lawful p -> answers pass_lawful (pass_step p).
Proof.
  intros Hp. unfold pass_step. destruct (pa_queue p) as [|i rest]; [by apply answers_ret|].
  destruct (pa_entries p !! i) as [e|] eqn:He; [|by apply answers_ret].
  assert (lawful_entry e) as Hle by (by eapply Forall_lookup_1).
  apply answers_bind. intros [[] busy].
  - eapply answers_bind_with; [apply served_ticket_item|]. intros [b e'] Hi. apply answers_ret.
    unfold pass_lawful. cbn. apply Forall_insert; [done|]. unfold lawful_entry in *. cbn in Hi. by rewrite Hi.
  - apply answers_bind. intros db. apply answers_ret. unfold pass_lawful, hold_for. cbn.
    destruct (en_served e); [done|]. by apply Forall_insert.
Qed.

Lemma order_elem e l : e ∈ order l <-> e ∈ l.
Proof. apply elem_of_sort_by. Qed.

(** ** Lemmas: what a whole pass may do

    A relation that holds of listing the waiters, of every turn and of what is
    written on the tickets holds of the pass. *)
Section pass_frame.
Context (R : database -> database -> Prop) `{!PreOrder R}
  (HL : respects (on_db R) list_waiters)
  (HT : forall e blocked, lawful_entry e -> respects (on_db R) (turn e blocked))
  (HS : forall b e, respects (on_db R) (served_ticket b e))
  (HA : forall p, respects (on_db R) (record_all p))
  (HW : forall b, respects (on_db R) (sweep b)).

Lemma pass_step_frame p : pass_lawful p -> respects (on_db R) (pass_step p).
Proof.
  intros Hp. unfold pass_step. destruct (pa_queue p) as [|i rest]; [by apply respects_ret, on_db_preorder|].
  destruct (pa_entries p !! i) as [e|] eqn:He; [|by apply respects_ret, on_db_preorder].
  apply respects_bind; [typeclasses eauto|by apply HT, (Forall_lookup_1 _ _ _ _ Hp He)|].
  intros [[] busy].
  - apply respects_bind; [typeclasses eauto|apply HS|]. intros [b e']. respects_walk.
  - respects_walk.
Qed.

Lemma serve_frame turns p : pass_lawful p -> respects (on_db R) (serve turns p).
Proof.
  revert p. induction turns as [|n IH]; intros p Hp; cbn [serve].
  - case_match; by apply respects_ret, on_db_preorder.
  - case_match; [by apply respects_ret, on_db_preorder|]. intros w. unfold bind.
    pose proof (pass_step_frame p Hp w) as Hk. pose proof (pass_step_lawful p Hp w) as Hl.
    destruct (pass_step p w) as [[ex|p'] w']; [done|]. etransitivity; [exact Hk|]. by apply IH.
Qed.

Lemma schedule_frame `{!PluginLaws} turns : respects (on_db R) (_schedule turns).
Proof.
  intros w. unfold _schedule, bind at 1.
  pose proof (HL w) as Hk. pose proof (list_waiters_lawful w) as Hl.
  destruct (list_waiters w) as [[ex|[b entries]] w']; [done|]. cbn in Hl, Hk.
  etransitivity; [exact Hk|]. clear Hk. revert w'. change (respects (on_db R)
    (done_ <- serve turns (Pass b (order entries) (seq 0 (length (order entries))) ∅ ∅) ;;
     match done_ with None => ret false | Some p => record_all p ;;; sweep (pa_book p) ;;; ret true end)).
  apply respects_bind; [typeclasses eauto| |].
  - apply serve_frame, Forall_forall. intros e He. cbn in He. rewrite order_elem in He.
    exact (proj1 (Forall_forall _ _) Hl e He).
  - intros [p|]; [|respects_walk].
    apply respects_bind; [typeclasses eauto|apply HA|]. intros _.
    apply respects_bind; [typeclasses eauto|apply HW|]. intros _. respects_walk.
Qed.
End pass_frame.

(** A pass only writes tickets, what a plugin's waiter may write, what a
    reservation writes, and what placing a run writes: any relation on the fleet
    that holds of those holds of the pass. *)
Section pass_relation.
Context (R : database -> database -> Prop) `{!PreOrder R}
  (HR : forall db db', same_fleet db db' -> R db db')
  (HS : forall cid blocked, respects (on_db R) (_start_one cid blocked)).

Lemma same_fleet_respects {A} (m : W A) : respects (on_db same_fleet) m -> respects (on_db R) m.
Proof. intros Hm w. apply HR, Hm. Qed.

Lemma turn_respects e blocked : lawful_entry e -> respects (on_db R) (turn e blocked).
Proof.
  intros Hl. unfold turn, lawful_entry in *. destruct (en_item e) as [cid|wt|sid cid].
  - apply HS.
  - intros w. unfold bind, db_, gets. destruct (Hl (w_db w) blocked) as [Hsf _].
    destruct (w_try_admit wt (w_db w) blocked) as [[[ex|adm] busy] db']; [cbn; reflexivity|].
    by apply HR.
  - apply same_fleet_respects, try_reserve_same_fleet.
Qed.

Lemma schedule_respects `{!PluginLaws} turns : respects (on_db R) (_schedule turns).
Proof.
  eapply (schedule_frame R); try done; [apply same_fleet_respects, list_waiters_same_fleet|apply turn_respects|..];
    intros; apply same_fleet_respects;
    auto using served_ticket_same_fleet, record_all_same_fleet, sweep_same_fleet.
Qed.
End pass_relation.
End pass_fleet.
