(* ===== verification/Pass.v ===== *)
(** One pass of the machine queue: it ends, and nobody jumps it. *)
From S2P Require Import Prelude Float Values Documents Space Validation Model States Packing Timing World Samples.
From S2P Require Import Occupancy Fleet Exclusive Finish Placement Nights Reserve Queue.
#[local] Open Scope string_scope.
#[local] Open Scope list_scope.
#[local] Open Scope Z_scope.

(** ** Counting the candidates that wait *)
Definition waits (cid : Z) (kv : Z * candidate) : Prop :=
  cd_campaign_id kv.2 = cid /\ cd_status kv.2 = Valid.

Definition nvalid (db : database) (cid : Z) : nat := size (filter (waits cid) (d_candidates db)).

Lemma filter_used_up cid k (t : gmap Z candidate) :
  filter (waits cid) (alter used_up k t) = delete k (filter (waits cid) t).
Proof.
  apply map_eq. intros i. apply option_eq. intros cd.
  rewrite lookup_delete_Some, !map_lookup_filter_Some.
  destruct (decide (k = i)) as [->|Hne].
  - rewrite lookup_alter_eq, fmap_Some. unfold waits. split; [|naive_solver].
    intros [(cd0 & Hcd & ->) [_ Hst]]. done.
  - rewrite lookup_alter_ne by done. naive_solver.
Qed.

Lemma size_delete_le {A} k (t : gmap Z A) : (size (delete k t) <= size t)%nat.
Proof. rewrite map_size_delete. destruct (t !! k); simpl; lia. Qed.

Lemma nvalid_used_up db db' k :
  d_candidates db' = alter used_up k (d_candidates db) ->
  (forall cid, (nvalid db' cid <= nvalid db cid)%nat) /\
  (forall cid cd, d_candidates db !! k = Some cd -> cd_campaign_id cd = cid -> cd_status cd = Valid ->
     (nvalid db' cid < nvalid db cid)%nat).
Proof.
  intros E. unfold nvalid. rewrite E. split; intros cid.
  - rewrite filter_used_up. apply size_delete_le.
  - intros cd Hk Hc Hs. rewrite filter_used_up.
    assert (filter (waits cid) (d_candidates db) !! k = Some cd) as Hf
      by (apply map_lookup_filter_Some; by split).
    rewrite map_size_delete, Hf. simpl.
    assert (size (filter (waits cid) (d_candidates db)) <> 0)%nat; [|lia].
    intros Hz%map_size_empty_inv. by rewrite Hz, lookup_empty in Hf.
Qed.

Lemma nvalid_insert db db' cid cd :
  d_candidates db' = <[ cd_id cd := cd ]> (d_candidates db) ->
  d_candidates db !! cd_id cd = None -> cd_campaign_id cd <> cid -> nvalid db' cid = nvalid db cid.
Proof.
  intros E Hfresh Hne. unfold nvalid. rewrite E, map_filter_insert_False; [|by intros [? _]].
  f_equal. by rewrite delete_id.
Qed.

(** No other campaign gains a waiting candidate. *)
Definition quiet_for (cid : Z) (db db' : database) : Prop :=
  forall c', c' <> cid -> (nvalid db' c' <= nvalid db c')%nat.
#[export] Instance quiet_preorder cid : PreOrder (quiet_for cid).
Proof.
  split; [by intros db c'|]. intros d1 d2 d3 H12 H23 c' Hne.
  specialize (H12 c' Hne). specialize (H23 c' Hne). lia.
Qed.

(** Rows stay filed under their ids. *)
Definition stays_keyed (db db' : database) : Prop := keyed db -> keyed db'.
#[export] Instance stays_keyed_preorder : PreOrder stays_keyed.
Proof. split; unfold stays_keyed; [by intros x|]. intros x y z Hxy Hyz Hx. auto. Qed.

Lemma quiet_same cid db db' : d_candidates db' = d_candidates db -> quiet_for cid db db'.
Proof. intros E c' _. unfold nvalid. by rewrite E. Qed.
Lemma keyed_same db db' :
  d_candidates db' = d_candidates db -> d_campaigns db' = d_campaigns db -> stays_keyed db db'.
Proof. intros E1 E2 [H1 H2]. split; by rewrite ?E1, ?E2. Qed.

Lemma stays_keyed_candidates db (t : gmap Z candidate) :
  (keyed db -> forall k cd, t !! k = Some cd -> cd_id cd = k) ->
  stays_keyed db (db <| d_candidates := t |>).
Proof. intros Ht Hk. split; [apply Hk|by apply Ht]. Qed.

Section walks.
Context `{Env} (cid : Z).

(** Both at once, for the handlers a campaign's turn calls. *)
Definition calm (db db' : database) : Prop := quiet_for cid db db' /\ stays_keyed db db'.
#[local] Instance calm_preorder : PreOrder calm.
Proof.
  split; [by intros db|]. intros x y z [Q1 K1] [Q2 K2]. split; by etransitivity.
Qed.

Lemma calm_same db db' :
  d_candidates db' = d_candidates db -> d_campaigns db' = d_campaigns db -> calm db db'.
Proof. intros E1 E2. split; [by apply quiet_same|by apply keyed_same]. Qed.

Lemma event_calm kind c rid to reason : respects (on_db calm) (add_event kind c rid to reason).
Proof. apply event_respects; [typeclasses eauto|]. intros db l. by apply calm_same. Qed.

Lemma used_up_calm id : respects (on_db calm) (put_candidate id used_up).
Proof.
  apply respects_modify_db. intros db. split.
  - intros c' _. by apply (nvalid_used_up _ _ id).
  - apply stays_keyed_candidates. intros [_ Hk] k cd Hcd.
    destruct (decide (id = k)) as [->|Hne].
    + rewrite lookup_alter_eq in Hcd. apply fmap_Some_1 in Hcd as (cd0 & Hcd & ->).
      exact (Hk _ _ Hcd).
    + rewrite lookup_alter_ne in Hcd by done. by apply Hk.
Qed.

Lemma new_candidate_calm cfg hash st err kind b rep :
  respects (on_db calm) (new_candidate cid cfg hash st err kind b rep).
Proof.
  intros w. destruct (new_candidate_run cid cfg hash st err kind b rep w) as (w' & -> & E).
  unfold on_db. cbn [snd]. rewrite E. split.
  - intros c' Hne. erewrite nvalid_insert; [done|reflexivity|apply next_key_fresh|]. by cbn.
  - apply stays_keyed_candidates. intros [_ Hk] k cd [[<- <-]|[_ Hcd]]%lookup_insert_Some; [done|].
    by apply Hk.
Qed.

Lemma put_campaign_calm k f :
  (forall c, c_id (f c) = c_id c) -> respects (on_db calm) (put_campaign k f).
Proof.
  intros Hf. apply respects_modify_db. intros db. split; [by apply quiet_same|].
  intros [Hc Hk]. split; [|done]. intros i c. cbn. destruct (decide (k = i)) as [->|Hne].
  - rewrite lookup_alter_eq. intros (c0 & Hc0 & ->)%fmap_Some_1. rewrite Hf. by apply Hc.
  - rewrite lookup_alter_ne by done. apply Hc.
Qed.

Lemma add_repeats_calm n c source hash kind :
  c_id c = cid -> respects (on_db calm) (add_repeats n c source hash kind).
Proof.
  intros Hc. induction n as [|n IH]; cbn [add_repeats]; rewrite ?Hc; respects_walk.
  exact (new_candidate_calm _ _ _ _ _ _ _).
Qed.

#[local] Hint Resolve event_calm used_up_calm new_candidate_calm add_repeats_calm : effects.

(** What follows a [get_campaign] is asked of the row that is there. *)
Lemma respects_get_campaign {A} (R : database -> database -> Prop) `{!PreOrder R}
    (P : campaign -> Prop) (f : campaign -> W A) w :
  (forall c, d_campaigns (w_db w) !! cid = Some c -> P c) ->
  (forall c, P c -> respects (on_db R) (f c)) ->
  R (w_db w) (w_db ((c <- get_campaign cid ;; f c) w).2).
Proof.
  intros HP Hf. unfold get_campaign, bind, db_, gets, expect.
  destruct (d_campaigns (w_db w) !! cid) as [c|]; [|cbn; reflexivity].
  exact (Hf c (HP c eq_refl) w).
Qed.

Lemma maybe_finish_calm w :
  keyed (w_db w) -> calm (w_db w) (w_db (_maybe_finish_campaign cid w).2).
Proof.
  intros [Hk _]. unfold _maybe_finish_campaign.
  apply respects_get_campaign with (P := fun c => c_id c = cid); [typeclasses eauto|by apply Hk|].
  intros c Hc. unfold _schedule_confirmations, _schedule_verification, _confirm_one,
    _verify_one, _add_baseline_candidate, get_candidate, event_. rewrite ?Hc.
  respects_walk; first [by apply add_repeats_calm | by apply put_campaign_calm].
Qed.

(** ** Retiring in-place baselines *)
Lemma retire_one_run c id w :
  exists w', (put_candidate id (fun cd => cd <| cd_status := Exhausted |>) ;;;
              event_ "baseline_candidate_retired" (Some (c_id c)) None) w = (inr tt, w') /\
    d_candidates (w_db w') = alter used_up id (d_candidates (w_db w)) /\
    d_runs (w_db w') = d_runs (w_db w) /\ d_nodes (w_db w') = d_nodes (w_db w) /\
    d_campaigns (w_db w') = d_campaigns (w_db w).
Proof.
  unfold bind, put_candidate, modify_db, modify, event_.
  match goal with |- context [add_event _ _ _ _ _ ?w1] =>
    destruct (add_event_run "baseline_candidate_retired" (Some (c_id c)) None None "" w1)
      as (w2 & -> & Edb) end.
  exists w2. by rewrite Edb.
Qed.

Lemma retire_run c pending w :
  exists w', _retire_in_place c pending w
             = (inr (where_ (fun cd => negb (is_in_place_baseline cd)) pending), w') /\
    d_candidates (w_db w') = foldl (fun t cd => alter used_up (cd_id cd) t) (d_candidates (w_db w))
                               (where_ is_in_place_baseline pending) /\
    d_runs (w_db w') = d_runs (w_db w) /\ d_nodes (w_db w') = d_nodes (w_db w) /\
    d_campaigns (w_db w') = d_campaigns (w_db w).
Proof.
  unfold _retire_in_place, bind at 1. set (l := where_ is_in_place_baseline pending).
  assert (exists w', for_each l (fun cd =>
      put_candidate (cd_id cd) (fun cd => cd <| cd_status := Exhausted |>) ;;;
      event_ "baseline_candidate_retired" (Some (c_id c)) None) w = (inr tt, w') /\
    d_candidates (w_db w') = foldl (fun t cd => alter used_up (cd_id cd) t) (d_candidates (w_db w)) l /\
    d_runs (w_db w') = d_runs (w_db w) /\ d_nodes (w_db w') = d_nodes (w_db w) /\
    d_campaigns (w_db w') = d_campaigns (w_db w)) as (w' & -> & E).
  2: { exists w'. split; [done|exact E]. }
  clearbody l. revert w. induction l as [|cd l IH]; intros w; cbn [for_each]; [by exists w|].
  unfold bind at 1. destruct (retire_one_run c (cd_id cd) w) as (w2 & -> & Ec2 & Er2 & En2 & Ecc2).
  destruct (IH w2) as (w3 & -> & Ec & Er & En & Ecc). exists w3. rewrite Ec, Er, En, Ecc, Ec2, Er2, En2, Ecc2.
  by cbn.
Qed.

Lemma used_up_lookup l (t : gmap Z candidate) cd :
  cd_id cd ∉ map cd_id l -> t !! cd_id cd = Some cd ->
  foldl (fun t cd => alter used_up (cd_id cd) t) t l !! cd_id cd = Some cd.
Proof.
  revert t. induction l as [|x l IH]; intros t Hnot Ht; [done|]. cbn [foldl map] in *.
  apply not_elem_of_cons in Hnot as [Hx Hl]. apply IH; [done|]. by rewrite lookup_alter_ne.
Qed.

Lemma used_up_count l db db' :
  d_candidates db' = foldl (fun t cd => alter used_up (cd_id cd) t) (d_candidates db) l ->
  forall c', (nvalid db' c' <= nvalid db c')%nat.
Proof.
  revert db. induction l as [|x l IH]; intros db E c'; cbn [foldl] in E.
  { unfold nvalid. by rewrite E. }
  specialize (IH (db <| d_candidates ::= alter used_up (cd_id x) |>) E c').
  pose proof (proj1 (nvalid_used_up db (db <| d_candidates ::= alter used_up (cd_id x) |>) (cd_id x) eq_refl) c').
  lia.
Qed.

Lemma pending_row db cd :
  keyed db -> cd ∈ candidates_of db cid [Valid] ->
  d_candidates db !! cd_id cd = Some cd /\ cd_campaign_id cd = cid /\ cd_status cd = Valid.
Proof.
  intros [_ Hk] [Hin Hp]%elem_of_where. apply elem_of_rows_z in Hin as [k Hcd].
  apply andb_true_iff in Hp as [Hc Hs]. apply bool_decide_eq_true in Hs.
  rewrite (Hk _ _ Hcd). split; [done|]. split; [lia|]. by apply list_elem_of_singleton in Hs.
Qed.

Lemma filter_m_run (p : candidate -> W bool) l w :
  (forall x w, exists b w', p x w = (inr b, w') /\ w_db w' = w_db w) ->
  exists l' w', filter_m p l w = (inr l', w') /\ w_db w' = w_db w /\ forall x, x ∈ l' -> x ∈ l.
Proof.
  intros Hp. revert w. induction l as [|x l IH]; intros w; cbn [filter_m].
  { by exists [], w. }
  unfold bind. destruct (Hp x w) as (b & w1 & -> & E1). destruct (IH w1) as (l' & w2 & -> & E2 & Hl).
  exists (if b then x :: l' else l'), w2. split; [done|]. split; [congruence|].
  intros y Hy. destruct b; [|right; auto]. apply elem_of_cons in Hy as [->|Hy]; [left|right; auto].
Qed.

Lemma window_stage_run c stage w :
  exists b w', _window_allows_stage c stage w = (inr b, w') /\ w_db w' = w_db w.
Proof. unfold _window_allows_stage, bind, now, call, ret. eauto. Qed.

(** ** A campaign's turn *)

(** A placement attempt either leaves the world alone or creates one run, of a
    pending candidate, on some of [ms], off the machines held for others. *)
Definition placed_by (c : campaign) (pending : list candidate) (blocked : gset Z) (ms : list machine) (w w' : world) : Prop :=
  exists m cd cards plan sp dp ng,
    _create_run c m cd cards plan sp dp ng w = (inr tt, w') /\ cd ∈ pending /\
    forall mid, mid ∈ m_id m :: map (fun mc => m_id mc.1) plan -> mid ∈ blocked ->
      exists m', m' ∈ ms /\ m_id m' = mid /\ holds (w_db w) m' (c_id c) = true.

Lemma place_on_first_cases c pending blocked busy ms w :
  exists b busy' w', place_on_first c pending blocked busy ms w = (inr (b, busy'), w') /\
    if b : bool then placed_by c pending blocked ms w w' else w' = w.
Proof.
  assert (forall m0 ms0 w', placed_by c pending blocked ms0 w w' -> placed_by c pending blocked (m0 :: ms0) w w') as Hmore.
  { intros m0 ms0 w' (m & cd & cards & plan & sp & dp & ng & E & Hcd & Hb). do 7 eexists. split; [exact E|]. split; [done|].
    intros mid Hmid Hbl. destruct (Hb mid Hmid Hbl) as (m' & Hin & Hm'). exists m'. split; [by right|done]. }
  revert busy. induction ms as [|m ms IH]; intros busy; cbn [place_on_first].
  { by exists false, busy, w. }
  assert (forall busy, exists b busy' w', place_on_first c pending blocked busy ms w = (inr (b, busy'), w') /\
    if b : bool then placed_by c pending blocked (m :: ms) w w' else w' = w) as IH'.
  { intros busy0. destruct (IH busy0) as (b & busy' & w' & E & Hr). exists b, busy', w'. split; [done|]. destruct b; [by apply Hmore|done]. }
  clear IH. unfold bind at 1, db_, gets. destruct (offer_on (w_db w) c pending blocked m) eqn:Ho; [|apply IH'|apply IH'].
  destruct (create_run_effect c m cd cards [] (_free_port (w_db w) c blockers []) 0 "" w)
    as (w' & r & E & _).
  exists true, busy, w'. unfold bind. rewrite E. split; [done|].
  destruct (offer_place _ _ _ _ _ _ _ _ Ho) as (_ & Hcd & Hb & _).
  do 7 eexists. split; [exact E|]. split; [done|].
  intros mid Hmid Hbl. apply list_elem_of_singleton in Hmid as ->. exists m. split; [by left|eauto].
Qed.

Lemma gang_fitting_elem nodes cap pending cd per :
  (cd, per) ∈ gang_fitting nodes cap pending -> cd ∈ pending.
Proof.
  unfold gang_fitting. rewrite list_elem_of_omap. intros (cd' & Hin & E).
  repeat case_match; by simplify_eq.
Qed.

Lemma existsb_false {A} (f : A -> bool) l x : existsb f l = false -> x ∈ l -> f x = false.
Proof.
  intros Hf Hx. destruct (f x) eqn:E; [|done]. rewrite <-Hf. symmetry.
  apply existsb_exists. exists x. split; [by apply list_elem_of_In|done].
Qed.

(** The machines of the group a campaign is to run on. *)
Definition gang_machines (db : database) (c : campaign) : list machine :=
  match _group_for_campaign db c with Some g => map snd (members_by_rank db g) | None => [] end.

Lemma gang_machine_row db c m : m ∈ gang_machines db c -> exists k, d_machines db !! k = Some m.
Proof.
  unfold gang_machines. destruct (_group_for_campaign db c) as [g|]; [|by intros ?%elem_of_nil].
  intros ([rank m'] & -> & Hm)%list_elem_of_fmap. apply members_by_rank_elem in Hm as (mid & _ & Hm). by exists mid.
Qed.

Lemma start_gang_cases c pending blocked busy w :
  exists b busy' w', _start_gang c pending blocked busy w = (inr (b, busy'), w') /\
    if b : bool then placed_by c pending blocked (gang_machines (w_db w) c) w w' else w' = w.
Proof.
  unfold _start_gang, gang_machines, bind at 1, db_, gets.
  destruct (_group_for_campaign (w_db w) c) as [g|]; [|by eexists false, _, w]. cbv zeta.
  destruct (map snd (members_by_rank (w_db w) g)) as [|master rest] eqn:Hms; [by eexists false, _, w|].
  destruct (_ <? 2); [by eexists false, _, w|].
  destruct (negb (_group_is_idle (w_db w) g) || _ || _) eqn:Hgate; [by eexists false, _, w|].
  destruct (existsb _ _) in |- *; [by eexists false, _, w|].
  destruct (min_by _ _) as [[cd per_node]|] eqn:Hmin; [|by eexists false, _, w].
  set (port := _free_port_across _ _ _). set (dist := _free_dist_port _ _ _).
  destruct (create_run_effect c master cd (range per_node)
    (map (fun m => (m, range per_node)) (master :: rest)) port dist (g_name g) w) as (w' & r & E & _).
  exists true, busy, w'. unfold bind. rewrite E. split; [done|].
  apply min_by_spec in Hmin as [Hmin _]; [|typeclasses eauto]. apply gang_fitting_elem in Hmin.
  do 7 eexists. split; [exact E|]. split; [done|]. intros mid Hmid Hbl.
  apply orb_false_iff in Hgate as [Hgate _]. apply orb_false_iff in Hgate as [_ Hgate].
  assert (exists m, m ∈ master :: rest /\ m_id m = mid) as (m & Hm & <-).
  { rewrite map_map in Hmid. apply elem_of_cons in Hmid as [->|Hmid]; [exists master; split; [left|done]|].
    apply list_elem_of_fmap in Hmid as (m & -> & Hm). eauto. }
  exists m. split; [done|]. split; [done|]. pose proof (existsb_false _ _ _ Hgate Hm) as Hx. cbv beta in Hx.
  rewrite bool_decide_true in Hx by done. by apply negb_false_iff in Hx.
Qed.

(** What a turn that placed a run did, and what one that did not may do. *)
Definition turn_ok (blocked : gset Z) (w : world) (res : (exn + (bool * gset Z)) * world) : Prop :=
  match res with
  | (inr (true, _), w') =>
      exists c w1 pending ms,
        d_campaigns (w_db w) !! cid = Some c /\ placed_by c pending blocked ms w1 w' /\
        d_runs (w_db w1) = d_runs (w_db w) /\ d_nodes (w_db w1) = d_nodes (w_db w) /\
        calm (w_db w) (w_db w1) /\ (nvalid (w_db w1) cid <= nvalid (w_db w) cid)%nat /\
        (forall cd, cd ∈ pending -> cd ∈ candidates_of (w_db w) cid [Valid] /\
           is_in_place_baseline cd = false /\ d_candidates (w_db w1) !! cd_id cd = Some cd) /\
        w_db w1 = w_db (_retire_in_place c (candidates_of (w_db w) cid [Valid]) w).2 /\
        (forall m, m ∈ ms -> exists k, d_machines (w_db w1) !! k = Some m)
  | (inr (false, _), w') => calm (w_db w) (w_db w')
  | (inl _, _) => True
  end.

Lemma retire_calm c pending w :
  calm (w_db w) (w_db (_retire_in_place c pending w).2).
Proof.
  unfold _retire_in_place, event_. revert w. change (respects (on_db calm)
    (for_each (where_ is_in_place_baseline pending) (fun cd =>
       put_candidate (cd_id cd) used_up ;;;
       add_event "baseline_candidate_retired" (Some (c_id c)) None None "") ;;;
     ret (where_ (fun cd => negb (is_in_place_baseline cd)) pending))).
  respects_walk.
Qed.

Lemma retired_rows w w1 cd :
  keyed (w_db w) ->
  d_candidates (w_db w1) = foldl (fun t cd => alter used_up (cd_id cd) t) (d_candidates (w_db w))
                             (where_ is_in_place_baseline (candidates_of (w_db w) cid [Valid])) ->
  cd ∈ where_ (fun cd => negb (is_in_place_baseline cd)) (candidates_of (w_db w) cid [Valid]) ->
  cd ∈ candidates_of (w_db w) cid [Valid] /\ is_in_place_baseline cd = false /\
  d_candidates (w_db w1) !! cd_id cd = Some cd.
Proof.
  intros Hkeyed E [Hcd Hip]%elem_of_where. apply negb_true_iff in Hip.
  split; [done|]. split; [done|]. rewrite E.
  destruct (pending_row _ _ Hkeyed Hcd) as (Hrow & _). apply used_up_lookup; [|done].
  intros (cd' & Eid & Hin)%list_elem_of_fmap. apply elem_of_where in Hin as [Hin Hip'].
  destruct (pending_row _ _ Hkeyed Hin) as (Hrow' & _). rewrite <-Eid, Hrow in Hrow'. congruence.
Qed.

Lemma start_one_cases blocked w :
  keyed (w_db w) -> turn_ok blocked w (_start_one cid blocked w).
Proof.
  intros Hkeyed. unfold _start_one, get_campaign, bind at 1, bind at 1, db_ at 1, gets at 1.
  destruct (d_campaigns (w_db w) !! cid) as [c|] eqn:Hc; [|done]. cbn [expect]. unfold ret at 1.
  unfold bind at 1, db_ at 1, gets at 1. unfold bind at 1.
  pose proof (retire_calm c (candidates_of (w_db w) cid [Valid]) w) as Hcalm.
  destruct (retire_run c (candidates_of (w_db w) cid [Valid]) w) as (w1 & E1 & Ec1 & Er1 & En1 & _).
  rewrite E1 in Hcalm |- *. cbn [snd] in Hcalm. unfold bind at 1.
  destruct (filter_m_run (fun cd => _window_allows_stage c (stage_of cd))
    (where_ (fun cd => negb (is_in_place_baseline cd)) (candidates_of (w_db w) cid [Valid])) w1)
    as (l & w2 & -> & E2 & Hl); [intros cd v; apply window_stage_run|].
  rewrite <-E2 in *.
  assert (forall res, (exists b busy' w', res = (inr (b, busy'), w') /\
       if b : bool then exists ms, placed_by c l blocked ms w2 w' /\ (forall m, m ∈ ms -> exists k, d_machines (w_db w2) !! k = Some m)
       else w' = w2) -> turn_ok blocked w res) as Hfin.
  { intros res (b & busy' & w' & -> & Hres). destruct b; [|by subst w']. destruct Hres as (ms & Hpl & Hms).
    exists c, w2, l, ms. split_and!; try done.
    - by eapply used_up_count.
    - intros cd Hcd. by apply retired_rows, Hl.
    - by rewrite E1. }
  destruct l as [|cd0 l0].
  - unfold bind. pose proof (maybe_finish_calm w2) as Hmf.
    destruct (_maybe_finish_campaign cid w2) as [[e|[]] w3]; [done|]. cbn.
    etransitivity; [exact Hcalm|]. apply Hmf. by apply Hcalm.
  - apply Hfin. destruct (negb _).
    + destruct (start_gang_cases c (cd0 :: l0) blocked ∅ w2) as (b & busy' & w' & E & Hr). exists b, busy', w'. split; [done|].
      destruct b; [|done]. eexists. split; [exact Hr|]. apply gang_machine_row.
    + unfold bind at 1, db_, gets.
      destruct (place_on_first_cases c (cd0 :: l0) blocked ∅ (_usable_machines (w_db w2) c) w2) as (b & busy' & w' & E & Hr).
      exists b, busy', w'. split; [exact E|]. destruct b; [|done]. eexists. split; [exact Hr|].
      intros m Hm. by apply usable_machine in Hm as (_ & _ & _ & _ & ?).
Qed.

(** A turn that placed a run used up one of the campaign's candidates. *)
Lemma placed_by_uses_up c pending blocked ms w1 w' :
  placed_by c pending blocked ms w1 w' ->
  (forall cd, cd ∈ pending -> d_candidates (w_db w1) !! cd_id cd = Some cd /\
     cd_campaign_id cd = cid /\ cd_status cd = Valid) ->
  calm (w_db w1) (w_db w') /\ (nvalid (w_db w') cid < nvalid (w_db w1) cid)%nat.
Proof.
  intros (m & cd & cards & plan & sp & dp & ng & E & Hcd & _) Hp.
  destruct (create_run_effect c m cd cards plan sp dp ng w1) as (w2 & r & E' & _ & _ & _ & _ & Ec & Ecc).
  rewrite E in E'. injection E' as <-. destruct (Hp cd Hcd) as (Hrow & Hown & Hval).
  destruct (nvalid_used_up _ _ _ Ec) as [Hle Hlt]. split; [split|by apply (Hlt cid cd)].
  - by intros c' _.
  - intros [Hk1 Hk2]. split; [by rewrite Ecc|]. rewrite Ec. intros k cd'.
    destruct (decide (cd_id cd = k)) as [<-|Hne].
    + rewrite lookup_alter_eq, Hrow. by intros [= <-].
    + rewrite lookup_alter_ne by done. apply Hk2.
Qed.

Lemma start_one_true blocked w busy w' :
  keyed (w_db w) -> _start_one cid blocked w = (inr (true, busy), w') ->
  calm (w_db w) (w_db w') /\ (nvalid (w_db w') cid < nvalid (w_db w) cid)%nat.
Proof.
  intros Hk E. pose proof (start_one_cases blocked w Hk) as Hc. rewrite E in Hc.
  destruct Hc as (c & w1 & pending & ms & _ & Hp & _ & _ & Hcalm & Hle & Hpend & _).
  destruct (placed_by_uses_up _ _ _ _ _ _ Hp) as [Hcalm' Hlt].
  - intros cd Hcd. destruct (Hpend cd Hcd) as (Hin & _ & Hrow).
    destruct (pending_row _ _ Hk Hin) as (_ & Hown & Hval). done.
  - split; [by etransitivity|lia].
Qed.
End walks.

(** ** The pass ends *)
Definition cid_of (es : list entry) (i : nat) : option Z :=
  es !! i ≫= fun e => match en_item e with ItemCampaign cid => Some cid | _ => None end.

(** Who waits that is not a campaign, and what the campaigns could still
    place. *)
Definition others (es : list entry) (q : list nat) : nat :=
  length (where_ (fun i => bool_decide (cid_of es i = None)) q).
Definition load (db : database) (es : list entry) (q : list nat) : nat :=
  sum_list (map (fun cid => S (nvalid db cid)) (omap (cid_of es) q)).

(** Each campaign waits once. *)
Definition once (es : list entry) (q : list nat) : Prop := NoDup (omap (cid_of es) q).

Record ready (p : pass) (w : world) : Prop := {
  ready_lawful : pass_lawful p;
  ready_once : once (pa_entries p) (pa_queue p);
  ready_keyed : keyed (w_db w);
}.

Definition smaller (p p' : pass) (db db' : database) : Prop :=
  (others (pa_entries p') (pa_queue p') < others (pa_entries p) (pa_queue p))%nat \/
  (others (pa_entries p') (pa_queue p') = others (pa_entries p) (pa_queue p) /\
   load db' (pa_entries p') (pa_queue p') < load db (pa_entries p) (pa_queue p))%nat.

Lemma cid_of_insert es i e e' j :
  es !! i = Some e -> en_item e' = en_item e -> cid_of (<[ i := e' ]> es) j = cid_of es j.
Proof.
  intros He Hi. unfold cid_of. destruct (decide (i = j)) as [<-|Hne].
  - rewrite list_lookup_insert_eq, He by (by eapply lookup_lt_Some). cbn. by rewrite Hi.
  - by rewrite list_lookup_insert_ne.
Qed.

Lemma omap_ext_cid es es' (q : list nat) : (forall j, cid_of es' j = cid_of es j) -> omap (cid_of es') q = omap (cid_of es) q.
Proof. intros E. induction q as [|i q IH]; [done|]. cbn. by rewrite E, IH. Qed.

Lemma others_ext es es' q : (forall j, cid_of es' j = cid_of es j) -> others es' q = others es q.
Proof.
  intros E. unfold others, where_. f_equal. apply list_filter_iff. intros j. by rewrite E.
Qed.

Lemma others_cons es i q :
  others es (i :: q) = ((if bool_decide (cid_of es i = None) then 1 else 0) + others es q)%nat.
Proof. unfold others, where_. rewrite filter_cons. repeat case_decide; case_bool_decide; naive_solver. Qed.

Lemma others_snoc es i q : others es (q ++ [i]) = others es (i :: q).
Proof. unfold others, where_. by rewrite (Permutation_app_comm q [i]). Qed.

Lemma omap_snoc es i (q : list nat) : omap (cid_of es) (q ++ [i]) ≡ₚ omap (cid_of es) (i :: q).
Proof. by rewrite (Permutation_app_comm q [i]). Qed.

#[export] Instance sum_list_perm : Proper ((≡ₚ) ==> eq) sum_list.
Proof. induction 1; cbn; lia. Qed.

(** The load of campaigns other than [cid] does not grow. *)
Lemma load_quiet cid db db' l :
  (forall c', c' <> cid -> (nvalid db' c' <= nvalid db c')%nat) -> cid ∉ l ->
  (sum_list (map (fun c => S (nvalid db' c)) l) <= sum_list (map (fun c => S (nvalid db c)) l))%nat.
Proof.
  intros Hq. induction l as [|c l IH]; intros Hn; [done|]. cbn.
  apply not_elem_of_cons in Hn as [Hc Hn]. specialize (IH Hn). specialize (Hq c ltac:(congruence)). lia.
Qed.

Section terminates.
Context `{Env}.

Lemma served_ticket_run b e w :
  exists b' e' w', served_ticket b e w = (inr (b', e'), w') /\ en_item e' = en_item e /\
    d_candidates (w_db w') = d_candidates (w_db w) /\ d_campaigns (w_db w') = d_campaigns (w_db w).
Proof.
  unfold served_ticket. destruct (en_served e); [by exists b, e, w|].
  unfold bind, modify_db, modify, ret. by eexists _, (e <| en_served := true |>), _.
Qed.

Lemma try_reserve_keyed sid blocked : respects (on_db stays_keyed) (try_reserve sid blocked).
Proof.
  unfold try_reserve. respects_walk. generalize (_usable_machines a c) as ms. intros ms.
  generalize (∅ : gset Z) as busy.
  induction ms as [|m ms IH]; intros busy; cbn [reserve_on_first]; unfold event_; respects_walk;
    try apply IH.
  - apply respects_modify_db. intros db. by apply keyed_same.
  - apply event_respects; [typeclasses eauto|]. intros db l'. by apply keyed_same.
Qed.

(** A turn of a waiter that is not a campaign leaves the rows filed. *)
Lemma turn_keyed e blocked w :
  lawful_entry e -> is_campaign e = false -> keyed (w_db w) -> keyed (w_db (turn e blocked w).2).
Proof.
  unfold turn, is_campaign, lawful_entry. destruct (en_item e) as [cid|wt|sid cid]; [done| |].
  - intros Hl _ Hk. unfold bind, db_, gets. destruct (Hl (w_db w) blocked) as [_ Hkeyed].
    destruct (w_try_admit wt (w_db w) blocked) as [[[ex|adm] busy] db']; [done|]. cbn in *. by apply Hkeyed.
  - intros _ _. apply try_reserve_keyed.
Qed.

(** What the pass writes after a turn. *)
Lemma pass_step_after p w p' w' i rest e :
  pa_queue p = i :: rest -> pa_entries p !! i = Some e -> pass_step p w = (inr p', w') ->
  exists b busy w1, turn e (pa_blocked p) w = (inr (b, busy), w1) /\
    (forall j, cid_of (pa_entries p') j = cid_of (pa_entries p) j) /\
    pa_queue p' = (if b && is_campaign e then rest ++ [i] else rest) /\
    d_candidates (w_db w') = d_candidates (w_db w1) /\ d_campaigns (w_db w') = d_campaigns (w_db w1).
Proof.
  intros Hq He. unfold pass_step. rewrite Hq, He. unfold bind at 1.
  destruct (turn e (pa_blocked p) w) as [[ex|[b busy]] w1]; [done|]. intros E.
  exists b, busy, w1. split; [done|]. destruct b.
  - unfold bind in E. destruct (served_ticket_run (pa_book p) e w1) as (b' & e' & w2 & E2 & Hi & Hc & Hcc).
    rewrite E2 in E. injection E as <- <-. cbn. split; [|by destruct (is_campaign e)].
    intros j. by apply (cid_of_insert _ _ e).
  - unfold bind, db_, gets, ret in E. injection E as <- <-. unfold hold_for. cbn.
    split; [|done]. intros j. destruct (en_served e); [done|]. by apply (cid_of_insert _ _ e).
Qed.

(** What is left to compare once a turn is over: the queue it leaves. *)
Lemma smaller_rest p p' db db' i rest :
  pa_queue p = i :: rest -> pa_queue p' = rest ->
  (forall j, cid_of (pa_entries p') j = cid_of (pa_entries p) j) ->
  once (pa_entries p) (pa_queue p) ->
  once (pa_entries p') (pa_queue p') /\
  (cid_of (pa_entries p) i = None -> smaller p p' db db') /\
  (forall cid, cid_of (pa_entries p) i = Some cid -> quiet_for cid db db' -> smaller p p' db db').
Proof.
  intros Hq Hq' Hc Ho. unfold once, smaller, load in *.
  rewrite Hq', Hq, (omap_ext_cid _ _ _ Hc), (others_ext _ _ _ Hc), others_cons in *.
  cbn in Ho |- *. split; [|split].
  - destruct (cid_of (pa_entries p) i); [by apply NoDup_cons in Ho as [_ Ho]|done].
  - intros Hn. left. rewrite bool_decide_true by done. lia.
  - intros cid Hcid Hquiet. right. rewrite Hcid in Ho |- *. apply NoDup_cons in Ho as [Hnot Ho].
    rewrite bool_decide_false by done. split; [done|]. cbn.
    pose proof (load_quiet cid db db' _ Hquiet Hnot). lia.
Qed.

Lemma smaller_again p p' db db' i rest cid :
  pa_queue p = i :: rest -> pa_queue p' = rest ++ [i] ->
  (forall j, cid_of (pa_entries p') j = cid_of (pa_entries p) j) ->
  once (pa_entries p) (pa_queue p) -> cid_of (pa_entries p) i = Some cid ->
  quiet_for cid db db' -> (nvalid db' cid < nvalid db cid)%nat ->
  once (pa_entries p') (pa_queue p') /\ smaller p p' db db'.
Proof.
  intros Hq Hq' Hc Ho Hcid Hquiet Hlt. unfold once, smaller, load in *.
  rewrite Hq', Hq, (omap_ext_cid _ _ _ Hc), (others_ext _ _ _ Hc), others_snoc, omap_snoc in *.
  split; [done|]. right. split; [done|]. cbn in Ho |- *. rewrite Hcid in Ho |- *.
  apply NoDup_cons in Ho as [Hnot Ho]. cbn. pose proof (load_quiet cid db db' _ Hquiet Hnot). lia.
Qed.

Lemma pass_step_smaller p w p' w' :
  ready p w -> pa_queue p <> [] -> pass_step p w = (inr p', w') ->
  ready p' w' /\ smaller p p' (w_db w) (w_db w').
Proof.
  intros [Hl Ho Hk] Hne E. pose proof (pass_step_lawful p Hl w) as Hl'. rewrite E in Hl'. cbn in Hl'.
  destruct (pa_queue p) as [|i rest] eqn:Hq; [done|]. clear Hne. rewrite <-Hq in Ho.
  destruct (pa_entries p !! i) as [e|] eqn:He.
  2: { unfold pass_step in E. rewrite Hq, He in E. injection E as <- <-.
       destruct (smaller_rest p (p <| pa_queue := rest |>) (w_db w) (w_db w) i rest) as (Ho' & Hs & _);
         try done.
       split; [by split|]. apply Hs. unfold cid_of. by rewrite He. }
  destruct (pass_step_after _ _ _ _ _ _ _ Hq He E) as (b & busy & w1 & Ht & Hc & Hq' & Ecd & Ecp).
  assert (keyed (w_db w1) -> keyed (w_db w')) as Hkk by (by apply keyed_same).
  pose proof (Forall_lookup_1 _ _ _ _ Hl He) as Hle.
  assert (forall c', nvalid (w_db w') c' = nvalid (w_db w1) c') as Hnv.
  { intros c'. unfold nvalid. by rewrite Ecd. }
  destruct (is_campaign e) eqn:Hic.
  - unfold is_campaign in Hic. destruct (en_item e) as [cid| |] eqn:Hi; [|done|done].
    assert (cid_of (pa_entries p) i = Some cid) as Hcid by (unfold cid_of; rewrite He; cbn; by rewrite Hi).
    unfold turn in Ht. rewrite Hi in Ht. destruct b; cbn [andb] in Hq'.
    + destruct (start_one_true _ _ _ _ _ Hk Ht) as [[Hquiet Hkeyed] Hlt].
      destruct (smaller_again p p' (w_db w) (w_db w') i rest cid) as [Ho' Hs]; try done.
      * intros c' Hn. rewrite Hnv. by apply Hquiet.
      * by rewrite Hnv.
      * split; [split; auto|done].
    + pose proof (start_one_cases cid (pa_blocked p) w Hk) as Hcalm. rewrite Ht in Hcalm. cbn in Hcalm.
      destruct Hcalm as [Hquiet Hkeyed].
      destruct (smaller_rest p p' (w_db w) (w_db w') i rest) as (Ho' & _ & Hs); try done.
      split; [split; auto|]. apply (Hs cid); [done|]. intros c' Hn. rewrite Hnv. by apply Hquiet.
  - rewrite andb_false_r in Hq'. pose proof (turn_keyed e (pa_blocked p) w Hle Hic Hk) as Hk1.
    rewrite Ht in Hk1. cbn in Hk1.
    destruct (smaller_rest p p' (w_db w) (w_db w') i rest) as (Ho' & Hs & _); try done.
    split; [split; auto|]. apply Hs. unfold cid_of. rewrite He. cbn.
    unfold is_campaign in Hic. by destruct (en_item e).
Qed.

(** Enough turns: more of them change nothing. *)
Definition serves (n : nat) (p : pass) (w : world) : Prop :=
  (serve n p w).1 <> inr None /\ forall k, (n <= k)%nat -> serve k p w = serve n p w.

Lemma serve_nil k p w : pa_queue p = [] -> serve k p w = (inr (Some p), w).
Proof. intros Hq. destruct k; cbn [serve]; by rewrite Hq. Qed.

Lemma serve_step k p w i rest :
  pa_queue p = i :: rest -> serve (S k) p w = (p' <- pass_step p ;; serve k p') w.
Proof. intros Hq. cbn [serve]. by rewrite Hq. Qed.

Lemma serve_terminates p w : ready p w -> exists n, serves n p w.
Proof.
  remember (others (pa_entries p) (pa_queue p)) as a eqn:Ea.
  remember (load (w_db w) (pa_entries p) (pa_queue p)) as b eqn:Eb.
  revert b p w Ea Eb. induction a as [a IHa] using lt_wf_ind.
  intros b. induction b as [b IHb] using lt_wf_ind. intros p w Ea Eb Hready.
  destruct (pa_queue p) as [|i rest] eqn:Hq.
  { exists 0%nat. split; [by rewrite serve_nil|]. intros k _. by rewrite !serve_nil. }
  destruct (pass_step p w) as [[ex|p'] w'] eqn:E.
  { exists 1%nat. split.
    - rewrite (serve_step _ _ _ _ _ Hq). unfold bind. by rewrite E.
    - intros [|k] Hk; [lia|]. rewrite !(serve_step _ _ _ _ _ Hq). unfold bind. by rewrite E. }
  destruct (pass_step_smaller p w p' w' Hready ltac:(by rewrite Hq) E) as [Hready' Hs].
  rewrite <-Hq in *.
  assert (exists n, serves n p' w') as (n & Hn1 & Hn2).
  { destruct Hs as [Hs|[Hs1 Hs2]].
    - eapply IHa; [|reflexivity|reflexivity|done]. lia.
    - eapply IHb; [|by rewrite Hs1|reflexivity|done]. lia. }
  exists (S n). split.
  - rewrite (serve_step _ _ _ _ _ Hq). unfold bind. by rewrite E.
  - intros [|k] Hk; [lia|]. rewrite !(serve_step _ _ _ _ _ Hq). unfold bind. rewrite E. apply Hn2. lia.
Qed.
End terminates.

(** ** The pass starts ready *)
Definition entry_cid (e : entry) : option Z :=
  match en_item e with ItemCampaign cid => Some cid | _ => None end.
Definition cids (l : list entry) : list Z := omap entry_cid l.

Lemma cids_app l1 l2 : cids (l1 ++ l2) = cids l1 ++ cids l2.
Proof. apply omap_app. Qed.

Lemma cid_of_seq es : omap (cid_of es) (seq 0 (length es)) = cids es.
Proof.
  unfold cids.
  assert (forall pre, omap (cid_of (pre ++ es)) (seq (length pre) (length es)) = omap entry_cid es) as Hp;
    [|exact (Hp [])].
  induction es as [|e es IH]; intros pre; [done|]. cbn [length seq].
  specialize (IH (pre ++ [e])). rewrite <-app_assoc in IH. cbn [app] in IH. rewrite length_app in IH.
  cbn [length] in IH. rewrite Nat.add_1_r in IH.
  change (omap entry_cid (e :: es)) with
    (match entry_cid e with Some y => y :: omap entry_cid es | None => omap entry_cid es end).
  rewrite <-IH. change (omap ?f (?i :: ?q)) with
    (match f i with Some y => y :: omap f q | None => omap f q end).
  unfold cid_of at 1. by rewrite list_lookup_middle.
Qed.

Section starts.
Context `{Env}.

Lemma list_campaigns_once cs l :
  NoDup (map c_id cs) -> NoDup (cids l.2) -> (forall c, c ∈ cs -> c_id c ∉ cids l.2) ->
  answers (fun l => NoDup (cids l.2)) (for_acc cs l list_campaign).
Proof.
  revert l. induction cs as [|c cs IH]; intros l Hnd Hl Hnew; cbn [for_acc]; [by apply answers_ret|].
  apply NoDup_cons in Hnd as [Hc Hnd].
  eapply answers_bind_with with (P := fun l' => cids l'.2 = cids l.2 \/ cids l'.2 = cids l.2 ++ [c_id c]).
  - unfold list_campaign. apply answers_bind. intros moment.
    do 3 (case_match; [apply answers_ret; by left|]).
    do 3 (apply answers_bind; intros ?). apply answers_bind. intros [t b]. apply answers_ret.
    right. cbn. by rewrite cids_app.
  - intros l' Hl'. apply IH; [done| |].
    + destruct Hl' as [->| ->]; [done|]. apply NoDup_app. split; [done|]. split; [|apply NoDup_singleton].
      intros x Hx Hx'. apply list_elem_of_singleton in Hx' as ->. apply (Hnew c); [left|done].
    + intros c' Hc'. specialize (Hnew c' ltac:(by right)). destruct Hl' as [->| ->]; [done|].
      rewrite not_elem_of_app. split; [done|]. intros E%list_elem_of_singleton. apply Hc.
      rewrite <-E. apply list_elem_of_fmap. eauto.
Qed.

Lemma list_waiters_once w :
  keyed (w_db w) -> match (list_waiters w).1 with inr l => NoDup (cids l.2) | inl _ => True end.
Proof.
  intros [Hk _]. unfold list_waiters, bind at 1, open_book, bind at 1, now, call. unfold bind at 1.
  cbn beta iota. unfold db_ at 1, gets at 1, ret at 1. cbn beta iota. unfold bind at 1.
  unfold db_ at 1, gets at 1. cbn beta iota. cbn [w_db update_field eta_world].
  revert w Hk. intros w Hk.
  match goal with |- match (?m ?w0).1 with _ => _ end => generalize w0 end.
  change (answers (fun l => NoDup (cids l.2)) (l <- for_acc (campaigns_in (w_db w) [Active])
    (TicketBook (clock (w_calls w)) (list_to_map (map (fun t => (t_waiter t, t_id t))
       (rows_z (d_tickets (w_db w))))) [], []) list_campaign ;;
    l <- for_acc plugins l list_plugin ;; db <- db_ ;; for_acc (waiting db) l list_session)).
  eapply answers_bind_with.
  { apply list_campaigns_once; [|constructor|by intros c _ ?%not_elem_of_nil].
    by apply NoDup_map_where, (rows_ids (d_campaigns (w_db w)) c_id). }
  intros l Hl. eapply answers_bind_with with (P := fun l => NoDup (cids l.2)).
  { apply answers_for_acc; [done|]. intros p l' _ Hl'. unfold list_plugin.
    destruct (pl_queue_waiters p) as [f|]; [|by apply answers_ret].
    apply answers_bind. intros db'. destruct (f db') as [ws failed].
    eapply answers_bind_with with (P := fun l => NoDup (cids l.2)).
    - apply answers_for_acc; [done|]. intros wt l'' _ Hl''. apply answers_bind. intros ?.
      apply answers_bind. intros [t b']. apply answers_ret. cbn. rewrite cids_app. cbn. by rewrite app_nil_r.
    - intros l'' Hl''. apply answers_ret. by destruct failed. }
  intros l' Hl'. apply answers_bind. intros db'. apply answers_for_acc; [done|].
  intros s l'' _ Hl''. unfold list_session. apply answers_bind. intros ?.
  apply answers_bind. intros [t b']. apply answers_ret. cbn. rewrite cids_app. cbn. by rewrite app_nil_r.
Qed.

Lemma list_waiters_keyed : respects (on_db stays_keyed) list_waiters.
Proof.
  assert (forall b waiter key label c, respects (on_db stays_keyed) (take_ticket b waiter key label c)).
  { intros. unfold take_ticket. respects_walk; apply respects_modify_db; intros db; by apply keyed_same. }
  assert (forall c, respects (on_db stays_keyed) (_ensure_relaunch_baseline c)).
  { intros c. unfold _ensure_relaunch_baseline, _add_baseline_candidate, event_. respects_walk.
    - intros w. apply (new_candidate_calm (c_id c)).
    - apply event_respects; [typeclasses eauto|]. intros db l. by apply keyed_same. }
  unfold list_waiters, open_book, list_campaign, list_plugin, list_session, now. respects_walk; auto.
Qed.
End starts.

(** ** Nobody jumps the queue *)
Section jumping.
Context `{Env}.

(** From one state of the pass to a later one. *)
Inductive later : pass -> world -> pass -> world -> Prop :=
| later_refl p w : later p w p w
| later_step p w p1 w1 p2 w2 :
    pass_step p w = (inr p1, w1) -> later p1 w1 p2 w2 -> later p w p2 w2.

Lemma pass_step_blocked p w p' w' :
  pass_step p w = (inr p', w') -> pa_blocked p ⊆ pa_blocked p'.
Proof.
  unfold pass_step. destruct (pa_queue p) as [|i rest]; [by intros [= <- <-]|].
  destruct (pa_entries p !! i) as [e|]; [|by intros [= <- <-]].
  unfold bind at 1. destruct (turn e (pa_blocked p) w) as [[ex|[[] busy]] w1]; [done| |].
  - unfold bind. destruct (served_ticket_run (pa_book p) e w1) as (b' & e' & w2 & -> & _).
    by intros [= <- <-].
  - unfold bind, db_, gets, ret. intros [= <- <-]. unfold hold_for. cbn. set_solver.
Qed.

Lemma later_blocked p w q v : later p w q v -> pa_blocked p ⊆ pa_blocked q.
Proof.
  induction 1 as [|p w p1 w1 p2 w2 E _ IH]; [done|]. etransitivity; [|exact IH].
  by eapply pass_step_blocked.
Qed.

Lemma put_nodes_lookup l t k n :
  put_nodes t l !! k = Some n -> t !! k = Some n \/ n ∈ l.
Proof.
  revert t. induction l as [|x l IH]; intros t; cbn; [by left|].
  intros [Hk|Hk]%IH; [|by right; right].
  apply lookup_insert_Some in Hk as [[_ <-]|[_ Hk]]; [right; left|by left].
Qed.

Lemma worker_machine rid sp plan n :
  n ∈ worker_rows rid sp plan ->
  exists m, n_machine_id n = Some (m_id m) /\ m_id m ∈ map (fun mc => m_id mc.1) plan.
Proof.
  unfold worker_rows. intros ([rank [m cards]] & -> & Hin)%list_elem_of_fmap. exists m. split; [done|].
  assert (forall x, x ∈ imap (fun i (mc : machine * list Z) => (Z.of_nat i, mc)) plan -> x.2 ∈ plan) as Hi.
  { intros x Hx. apply list_elem_of_lookup in Hx as [i Hx]. rewrite list_lookup_imap in Hx.
    apply fmap_Some_1 in Hx as (mc & Hmc & ->). by eapply list_elem_of_lookup_2. }
  apply list_elem_of_fmap. exists (m, cards). split; [done|].
  apply (Hi (rank, (m, cards))). rewrite <-(take_drop 1 (imap _ plan)). apply elem_of_app. by right.
Qed.

(** The rows a campaign's turn places its run on: those there were, less its
    in-place baselines, which the turn retires first. *)
Definition placing_db (c : campaign) (w : world) : database :=
  w_db (_retire_in_place c (candidates_of (w_db w) (c_id c) [Valid]) w).2.

(** The machines a turn put nodes on: none that is held for others, unless a
    reservation of the campaign's own holds it. *)
Lemma start_one_machines cid blocked w busy w' k n mid :
  keyed (w_db w) -> _start_one cid blocked w = (inr (true, busy), w') ->
  d_nodes (w_db w') !! k = Some n -> d_nodes (w_db w) !! k = None ->
  n_machine_id n = Some mid -> mid ∈ blocked ->
  exists c key m, d_campaigns (w_db w) !! cid = Some c /\ d_machines (placing_db c w) !! key = Some m /\
    m_id m = mid /\ holds (placing_db c w) m cid = true.
Proof.
  intros Hk E Hn Hnew Hmid Hb. pose proof (start_one_cases cid blocked w Hk) as Hc. rewrite E in Hc.
  destruct Hc as (c & w1 & pending & ms & Hcid & Hp & _ & En & _ & _ & _ & Ew1 & Hms).
  destruct Hp as (m & cd & cards & plan & sp & dp & ng & Ecr & _ & Hheld).
  destruct (create_run_effect c m cd cards plan sp dp ng w1) as (w2 & r & E' & _ & Hr & _ & Enodes & _).
  rewrite Ecr in E'. injection E' as <-. rewrite Enodes in Hn.
  assert (exists m', m' ∈ ms /\ m_id m' = mid /\ holds (w_db w1) m' (c_id c) = true) as (m' & Hin & Hm' & Hholds).
  { apply Hheld; [|done]. apply put_nodes_lookup in Hn as [Hn|Hn].
    - apply lookup_insert_Some in Hn as [[_ <-]|[_ Hn]]; [|congruence].
      destruct Hr as (_ & _ & Hrm & _). cbn in Hmid. apply elem_of_cons. left. congruence.
    - apply worker_machine in Hn as (m' & Em & Hin). rewrite Em in Hmid. injection Hmid as <-. by right. }
  destruct (Hms m' Hin) as [key Hkey].
  assert (c_id c = cid) as Hc by (destruct Hk as [Hkc _]; exact (Hkc _ _ Hcid)).
  exists c, key, m'. unfold placing_db. rewrite Hc, <- Ew1. split_and!; [done..|]. by rewrite Hc in Hholds.
Qed.
End jumping.

(** ** Properties *)

(** C10: a pass of the machine queue ends.  Whatever the plugins, machines and
    clocks answer, there is a number of turns after which the queue is empty
    and more would change nothing: a campaign is put back only when it placed
    a run, which used up one of its candidates, and no other waiter is put
    back at all. *)
Theorem schedule_terminates `{Env} `{!PluginLaws} (w : world) (Hk : keyed (w_db w)) :
  exists n, (_schedule n w).1 <> inr false /\
            forall k, (n <= k)%nat -> _schedule k w = _schedule n w.
Proof.
  pose proof (list_waiters_lawful w) as Hl. pose proof (list_waiters_once w Hk) as Ho.
  pose proof (list_waiters_keyed w) as Hk'.
  destruct (list_waiters w) as [[ex|[b entries]] w1] eqn:Ew.
  { exists 0%nat. unfold _schedule, bind. rewrite Ew. by split. }
  cbn in Hl, Ho.
  destruct (serve_terminates (Pass b (order entries) (seq 0 (length (order entries))) ∅ ∅) w1)
    as (n & Hn & Hsame).
  { split; [| |by apply Hk'].
    - apply Forall_forall. intros e He. cbn in He. rewrite order_elem in He.
      exact (proj1 (Forall_forall _ _) Hl e He).
    - unfold once. cbn [pa_entries pa_queue]. rewrite cid_of_seq. unfold order, cids.
      by rewrite sort_by_perm. }
  exists n. unfold _schedule, bind at 1. rewrite Ew. split.
  - unfold bind at 1. destruct (serve n _ w1) as [[ex|[p|]] w2]; [done| |done].
    unfold bind. destruct (record_all p w2) as [[ex|[]] w3]; [done|].
    by destruct (sweep (pa_book p) w3) as [[ex|[]] w4].
  - intros k Hle. unfold bind. rewrite Ew. by rewrite (Hsame k Hle).
Qed.

(** C9: no queue-jumping.  Once a waiter's turn ends without its being served,
    every machine it found busy, and every machine whose runs would take the
    cluster port it needs, stays held for the rest of the pass: no run a later
    campaign places puts a node there, unless that campaign was itself admitted
    to the machine: in the rows it was placed on, a plugin's reservation of that
    very campaign holds it. *)
Theorem no_queue_jumping `{Env} (p p' q : pass) (w w' v v' : world) (i : nat) (rest : list nat)
    (e : entry) (busy cbusy : gset Z) (cid : Z)
    (Hq : pa_queue p = i :: rest) (He : pa_entries p !! i = Some e)
    (Hfail : (turn e (pa_blocked p) w).1 = inr (false, busy))
    (Hstep : pass_step p w = (inr p', w'))
    (Hlater : later p' w' q v) (Hkeyed : keyed (w_db v))
    (Hplace : _start_one cid (pa_blocked q) v = (inr (true, cbusy), v')) :
  forall k n mid, d_nodes (w_db v') !! k = Some n -> d_nodes (w_db v) !! k = None ->
    n_machine_id n = Some mid ->
    mid ∈ busy \/ (en_needs_port e = true /\ mid ∈ port_siblings (w_db w') busy) ->
    exists c key m, d_campaigns (w_db v) !! cid = Some c /\ d_machines (placing_db c v) !! key = Some m /\
      m_id m = mid /\ holds (placing_db c v) m cid = true.
Proof.
  intros k n mid Hn Hnew Hmid Hheld. eapply start_one_machines; try done.
  apply (later_blocked _ _ _ _ Hlater). unfold pass_step in Hstep. rewrite Hq, He in Hstep.
  unfold bind at 1 in Hstep. destruct (turn e (pa_blocked p) w) as [r w1]. cbn in Hfail. subst r.
  unfold bind, db_, gets, ret in Hstep. injection Hstep as <- <-. unfold hold_for. cbn.
  destruct Hheld as [Hb|[Hp Hb]]; [|rewrite Hp]; [destruct (en_needs_port e)|]; set_solver.
Qed.

(** ** Witnesses *)
#[export] Instance sample_laws : PluginLaws.
Proof.
  split.
  - intros p f db w Hp Hf Hw. cbn in Hp. apply list_elem_of_singleton in Hp as ->.
    injection Hf as <-. cbn in Hw. apply list_elem_of_singleton in Hw as ->.
    intros db' blocked. split_and!; [by apply same_fleet_rows|by apply keyed_same|by apply same_nights_rows].
  - intros p step db db' Hp Hs E. cbn in Hp. apply list_elem_of_singleton in Hp as ->.
    apply elem_of_cons in Hs as [->|Hs]; [injection E as <-; split; [by apply same_fleet_rows|by apply same_nights_rows]|].
    apply list_elem_of_singleton in Hs as ->. done.
Qed.

(** Campaign 1 may only use machine 1 and waits for all eight of its cards;
    campaign 2 could run beside run 1 there. *)
Definition jump_db : database :=
  sample_db
    <| d_campaigns := {[ 1 := sample_campaign <| c_machine_names := ["node-1"] |>;
                         2 := sample_campaign <| c_id := 2 |> ]} |>
    <| d_candidates := {[ 1 := sample_candidate 1 4 Exhausted; 2 := sample_candidate 2 8 Valid;
                          3 := (sample_candidate 3 2 Valid) <| cd_campaign_id := 2 |> ]} |>.

Lemma keyed_check (db : database) :
  map_Forall (fun k c => c_id c = k) (d_campaigns db) ->
  map_Forall (fun k cd => cd_id cd = k) (d_candidates db) -> keyed db.
Proof. by split. Qed.

Lemma keyed_jump : keyed jump_db.
Proof. apply keyed_check; apply (bool_decide_unpack _); vm_compute; exact I. Qed.

Lemma schedule_terminates_witness :
  exists n, (_schedule n (sample_world jump_db)).1 <> inr false.
Proof.
  destruct (schedule_terminates (sample_world jump_db) keyed_jump) as (n & Hn & _).
  exists n. exact Hn.
Defined.

Definition jump_ticket (id : Z) : queue_ticket := QueueTicket id "" "" None 0 1 id 0 0 0 None "".
Definition jump_entry (cid : Z) : entry := Entry (jump_ticket cid) (ItemCampaign cid) true false ∅ ∅.
Definition jump_pass : pass :=
  Pass (TicketBook 0 ∅ []) [jump_entry 1; jump_entry 2] [0; 1]%nat ∅ ∅.
Definition jump_world : world := (pass_step jump_pass (sample_world jump_db)).2.
Definition jump_next : pass :=
  match (pass_step jump_pass (sample_world jump_db)).1 with inr p => p | inl _ => jump_pass end.
Definition jump_placed : world := (_start_one 2 (pa_blocked jump_next) jump_world).2.

Lemma no_queue_jumping_witness :
  1 ∈ pa_blocked jump_next /\ d_runs (w_db jump_placed) !! 2 <> None /\
  forall n, d_nodes (w_db jump_placed) !! (2, 0) = Some n -> n_machine_id n = Some 1 ->
    exists c key m, d_campaigns (w_db jump_world) !! 2 = Some c /\ d_machines (placing_db c jump_world) !! key = Some m /\
      m_id m = 1 /\ holds (placing_db c jump_world) m 2 = true.
Proof.
  split; [apply (bool_decide_unpack _); vm_compute; exact I|]. split; [vm_compute; discriminate|].
  intros n Hn Hmid.
  apply (no_queue_jumping jump_pass jump_next jump_next (sample_world jump_db) jump_world jump_world
    jump_placed 0 [1%nat] (jump_entry 1) {[ 1 ]} {[ 1 ]} 2) with (k := (2, 0)) (n := n).
  - reflexivity.
  - reflexivity.
  - vm_compute. reflexivity.
  - unfold jump_next, jump_world. rewrite (surjective_pairing (pass_step _ _)) at 1.
    f_equal; vm_compute; reflexivity.
  - apply later_refl.
  - apply keyed_check; apply (bool_decide_unpack _); vm_compute; exact I.
  - unfold jump_placed. rewrite (surjective_pairing (_start_one _ _ _)) at 1.
    f_equal; vm_compute; reflexivity.
  - exact Hn.
  - vm_compute. reflexivity.
  - exact Hmid.
  - left. apply elem_of_singleton. reflexivity.
Defined.
