(* ===== verification/Runs.v ===== *)
(** A run's life: what one step does to it, how it ends, and how its container
    goes ([Supervisor._spec_for], [_transition], [_finish], [_fail],
    [_begin_teardown], [_capture_failure], [_startup_timed_out],
    [_record_result] and their helpers in
    [app/control/orchestrator/supervisor.py]; the dataset check,
    [app/datasets/pinning.py]).

    Logs are saved to the run's row and to a file ([Logs]); the disk is the
    environment's. *)
From S2P Require Import Prelude Float Values Documents Space Validation Failures Logs Model States Packing Timing.
From S2P Require Import World Samples Occupancy Fleet Exclusive Finish Placement.
#[local] Open Scope string_scope.
#[local] Open Scope list_scope.
#[local] Open Scope Z_scope.

Definition MAX_ATTEMPTS_PER_CANDIDATE : Z := 3.
Definition CRASHED : string := "container crashed; see log".
Definition PLACEMENT_CHECK_AFTER_SECONDS : Z := 30.
Definition second : Z := 1000000.
Definition blank (s : string) : bool := String.eqb (strip s) "".

(** Runs against an endpoint someone else launched. *)
Definition not_ours (r : run) : bool := (r_kind r == BaselineRun) || (r_kind r == External).

(** [LaunchDeferred.waiting_for]. *)
Definition waiting_code (n : nat) : WaitingFor :=
  match n with O => Cards | S O => NodePort | _ => Image end.

(** The summary and the frames are the interpreter's own formatting. *)
Definition _crash_detail `{Env} (e : exn) : string := "supervisor crashed: " +:+ traceback_text e.

Definition _bench_failure_class (o : EvalOutcome) : string :=
  if o_passed_raw o == Some false then "benchmark_not_passed" else "benchmark".

Definition _UNREACHABLE_MARKERS : list string :=
  ["connecterror"; "connecttimeout"; "connection refused"; "connect call failed"; "readtimeout";
   "all connection attempts failed"].
Definition _looks_unreachable (error : string) : bool :=
  existsb (fun marker => contains marker (lower error)) _UNREACHABLE_MARKERS.

(** ** The dataset a result was measured on *)
Definition METRIC_BUILD_ID : string := "replay.dataset_id".
Definition METRIC_SHA : string := "replay.dataset_sha256".

(** [str(metrics.get(key) or "")]. *)
Definition metric_text (metrics : gmap string scalar) (key : string) : string :=
  match metrics !! key with
  | Some v => if truthy v then str_of v else ""
  | None => ""
  end.

Definition dataset_of (metrics : gmap string scalar) : option (string * string) :=
  let build_id := metric_text metrics METRIC_BUILD_ID in
  let sha := metric_text metrics METRIC_SHA in
  if String.eqb build_id "" && String.eqb sha "" then None else Some (build_id, sha).

(** Compared on the shorter of the two. *)
Definition same_dataset (pinned reported : string) : bool :=
  if String.eqb pinned "" || String.eqb reported "" then false
  else
    let n := Nat.min (String.length pinned) (String.length reported) in
    String.eqb (clip n pinned) (clip n reported).

Definition mismatch (c : campaign) (metrics : gmap string scalar) : option (string * string) :=
  if negb (uses_pinning c) || negb (is_pinned c) then None
  else
    match dataset_of metrics with
    | None => None
    | Some (build_id, sha) =>
        if same_dataset (c_dataset_sha256 c) sha then None
        else if String.eqb sha "" && String.eqb build_id (c_dataset_build_id c) then None
        else Some (build_id, sha)
    end.

(** [os.path.join], for a name that is no absolute path. *)
Definition path_join (dir name : string) : string :=
  if String.eqb dir "" || ends_with (chars "/") (chars dir) then dir +:+ name else dir +:+ "/" +:+ name.

Section runs.
Context `{Env}.

(** ** What a launch is asked with *)
Definition node_container (rid : Z) (n : run_node) : string :=
  or_string (n_container_name n) (if n_rank n =? 0 then container_name rid else worker_name rid (n_rank n)).

Definition node_assignment (db : database) (rid : Z) (n : run_node) : option assignment :=
  match n_machine_id n with
  | None | Some 0 => None
  | Some mid =>
      (fun m => NodeAssignment (m_id m) (m_host m) (n_gpu_indices n) (n_rank n) (node_container rid n))
      <$> d_machines db !! mid
  end.

Definition run_machine (db : database) (r : run) : option machine :=
  r_machine_id r ≫= fun mid => d_machines db !! mid.

Definition _node_assignments (db : database) (r : run) : list assignment :=
  match omap (node_assignment db (r_id r)) (nodes_of db (r_id r)) with
  | [] =>
      match run_machine db r with
      | Some m => [NodeAssignment (m_id m) (m_host m) (r_gpu_indices r) 0
                     (or_string (r_container_name r) (container_name (r_id r)))]
      | None => []
      end
  | assignments => assignments
  end.

Definition _spec_for (rid : Z) : W spec :=
  r <- get_run rid ;;
  c <- get_campaign (r_campaign_id r) ;;
  db <- db_ ;;
  match run_machine db r with
  | None => raise AssertionError
  | Some m =>
      cd <- get_candidate (r_candidate_id r) ;;
      let nodes := _node_assignments db r in
      ret (LaunchSpec rid
             (match nodes with a :: _ => a_machine a | [] => m_id m end)
             (cd_config cd)
             (match nodes with a :: _ => a_gpu_indices a | [] => r_gpu_indices r end)
             (or_z (r_service_port r) (c_service_port c)) nodes (r_dist_port r)
             (negb (r_dist_port r =? 0) && (1 <? Z.of_nat (length nodes))))
  end.

Definition attach (rid : Z) (sp : spec) : W (option handle) := call [] (fun n => drv_attach n sp).

(** ** The state machine *)
Definition record_sample (rid : Z) (f : database -> run -> Z -> option (measure * float)) : W unit :=
  r <- get_run rid ;;
  moment <- now ;;
  db <- db_ ;;
  match f db r moment with
  | Some (m, minutes) => put_campaign (r_campaign_id r) (_push m minutes)
  | None => ret tt
  end.

Definition _transition (rid : Z) (target : RunStatus) : W unit :=
  r <- get_run rid ;;
  if negb (can_transition (r_status r) target)
  then raise (RuntimeError ("illegal transition " +:+ run_status_name (r_status r) +:+ " -> "
                            +:+ run_status_name target +:+ " (run " +:+ pretty rid +:+ ")"))
  else
    add_event "run_transition" (Some (r_campaign_id r)) (Some rid) (Some target) "" ;;;
    put_run rid (fun r => r <| r_status := target |>) ;;;
    match target with
    | Benching | Serving => record_sample rid ready_sample
    | Succeeded => record_sample rid (fun db r moment => finished_sample db r (stage_of_run db r) moment)
    | _ => ret tt
    end.

(** ** Waiting for the cluster *)
Definition _note_placement (rid : Z) (waiting : string) (waiting_for : option WaitingFor) : W unit :=
  r <- get_run rid ;;
  if negb (String.eqb waiting "") then
    (if (r_waiting_since r == None) || negb (r_waiting_for r == waiting_for) then
       (if r_waiting_since r == None then
          moment <- now ;; put_run rid (fun r => r <| r_waiting_since := Some moment |>)
        else ret tt) ;;;
       event_ "run_waiting_for_cluster" (Some (r_campaign_id r)) (Some rid)
     else ret tt) ;;;
    put_run rid (fun r => r <| r_waiting_for := waiting_for |> <| r_waiting_reason := clip 2000 waiting |>)
  else
    match r_waiting_since r with
    | None => ret tt
    | Some _ =>
        moment <- now ;;
        put_run rid (fun r => r <| r_waiting_since := None |> <| r_waiting_for := None |>
                                <| r_waiting_reason := "" |> <| r_started_at := Some moment |>) ;;;
        event_ "run_placed" (Some (r_campaign_id r)) (Some rid)
    end.

Definition _reclaim_orphan_port (rid : Z) (holder_run : option Z) (service : string) : W unit :=
  db <- db_ ;;
  match holder_run ≫= fun h => d_runs db !! h with
  | None => ret tt
  | Some holder =>
      if r_id holder =? rid then ret tt
      else if live_run holder || r_teardown_pending holder then ret tt
      else
        released <- logged (call [ActReleaseOrphan service (r_id holder)]
                              (fun n => drv_release_orphan_port n service (r_id holder))) false ;;
        r <- get_run rid ;;
        if released : bool
        then event_ "orphan_port_released" (Some (r_campaign_id r)) (Some rid)
        else ret tt
  end.

(** ** Giving machines back *)
Definition _release_machine_if_idle (mid : Z) : W unit :=
  db <- db_ ;;
  match d_machines db !! mid with
  | None => ret tt
  | Some m =>
      if negb (m_state m == Reserved) then ret tt
      else match holding_runs db mid with
           | _ :: _ => ret tt
           | [] => if machine_has_live_session db mid then ret tt
                   else put_machine mid (fun m => m <| m_state := Available |>)
           end
  end.

Definition _release_run_machines (rid : Z) : W unit :=
  r <- get_run rid ;;
  db <- db_ ;;
  match omap (fun n => n_machine_id n ≫= fun mid => d_machines db !! mid) (nodes_of db rid) with
  | [] => match run_machine db r with
          | Some m => _release_machine_if_idle (m_id m)
          | None => ret tt
          end
  | machines => for_each machines (fun m => _release_machine_if_idle (m_id m))
  end.

(** ** Ending a run *)
Definition LOG_TAIL_CHARS : Z := 64000.

Definition run_log_file (rid : Z) : string := path_join run_log_dir ("run-" +:+ pretty rid +:+ ".log").

(** Into the row first, then into the file: an empty read keeps what was saved
    before. *)
Definition _save_run_log (rid : Z) (log_text : string) : W unit :=
  if blank log_text then ret tt
  else
    r <- get_run rid ;;
    let log_path := run_log_file rid in
    file <- call [] (fun n => inr (disk_read n (or_string (r_log_path r) log_path))) ;;
    let kept := clip_log (with_head (chars (or_string file (r_log_tail r)))
                            (collapse_progress (chars log_text))) log_file_max_bytes in
    put_run rid (fun r => r <| r_log_tail := of_chars (tail_by_section kept LOG_TAIL_CHARS) |>) ;;;
    written <- logged (call [ActWriteLog log_path] (fun n => disk_write n log_path (of_chars kept)) ;;;
                       ret true) false ;;
    if written : bool then put_run rid (fun r => r <| r_log_path := log_path |>) else ret tt.

Definition _read_engine_log (rid : Z) : W string :=
  sp <- _spec_for rid ;;
  h <- attach rid sp ;;
  match h with None => ret "" | Some h => call [] (fun n => drv_logs n h) end.

Definition _capture_engine_log (rid : Z) : W unit :=
  r <- get_run rid ;;
  w <- gets w_final_logs ;;
  if not_ours r || bool_decide (rid ∈ w) then ret tt
  else
    modify (fun w => w <| w_final_logs ::= fun s => {[ rid ]} ∪ s |>) ;;;
    logged (log_text <- _read_engine_log rid ;; _save_run_log rid log_text) tt.

(** Stop the container; [true] when it is already gone, with what can outlive
    it. *)
Definition stop_container (rid : Z) (sp : spec) (h : option handle) : W bool :=
  match h with
  | None => call [ActReleaseLeftovers rid] (fun n => drv_release_leftovers n sp)
  | Some h =>
      call [ActStop rid] (fun n => drv_request_stop n h) ;;;
      gone <- call [] (fun n => drv_is_gone n h) ;;
      if gone : bool then call [ActReleaseLeftovers rid] (fun n => drv_release_leftovers n sp)
      else ret false
  end.

Definition _begin_teardown (rid : Z) : W bool :=
  setup <- logged (sp <- _spec_for rid ;; h <- attach rid sp ;; ret (Some (sp, h))) None ;;
  gone <- match setup with
          | None => ret false
          | Some (sp, h) => logged (stop_container rid sp h) false
          end ;;
  if gone : bool then ret true
  else put_run rid (fun r => r <| r_teardown_pending := true |>) ;;; ret false.

Definition benchmarks_of (db : database) (launch : Z) : list run :=
  where_ (fun r => (r_launch_run_id r == Some launch) && live_run r) (rows_z (d_runs db)).

(** One benchmark of a launch that just ended ([_stop_benchmarks_of]); [end_]
    ends it. *)
Definition stop_benchmark (end_ : Z -> RunStatus -> string -> W unit) (rid : Z) (bench : run) : W unit :=
  (if String.eqb (r_llmbench_submission_id bench) "" then ret tt
   else logged (call [ActBenchCancel (r_llmbench_submission_id bench)]
                  (fun n => bench_cancel n (r_llmbench_submission_id bench))) tt) ;;;
  launch <- get_run rid ;;
  (if r_status launch == Failed then
     put_run (r_id bench)
       (fun b => b <| r_failure_class := or_string (r_failure_class launch) "engine_crashed" |>) ;;;
     end_ (r_id bench) Failed
       ("the engine under test stopped mid-benchmark (launch " +:+ pretty rid +:+ "): "
        +:+ clip 300 (or_string (r_error launch) (or_string (r_failure_class launch) "crashed")))
   else
     end_ (r_id bench) Killed
       ("the engine under test was released mid-benchmark (launch " +:+ pretty rid +:+ ")")) ;;;
  event_ "benchmark_stopped_with_launch" (Some (r_campaign_id bench)) (Some (r_id bench)).

(** [depth] bounds how far ending one run ends others: a benchmark of a launch
    is not itself a launch, so two levels are all there are; Python's own
    recursion limit stands behind it. *)
Fixpoint _finish (depth : nat) (rid : Z) (status : RunStatus) (error : string) : W unit :=
  match depth with
  | O => raise (OtherError "RecursionError")
  | S deeper =>
      r <- get_run rid ;;
      cleaned <- (if not_ours r then ret true
                  else _capture_engine_log rid ;;; _begin_teardown rid) ;;
      modify (fun w => w <| w_final_logs ::= fun s => s ∖ {[ rid ]} |>) ;;;
      refs <- gets w_health_refs ;;
      (match refs !! rid with
       | Some ref =>
           modify (fun w => w <| w_health_refs ::= delete rid |>) ;;;
           call [ActHealthCancel ref] (fun n => health_cancel n ref)
       | None => ret tt
       end) ;;;
      (if String.eqb error "" then ret tt else put_run rid (fun r => r <| r_error := error |>)) ;;;
      moment <- now ;;
      put_run rid (fun r => r <| r_finished_at := Some moment |>) ;;;
      _transition rid status ;;;
      (if cleaned : bool then _release_run_machines rid else ret tt) ;;;
      if r_kind r == PolicyLaunch then
        db <- db_ ;;
        for_each (benchmarks_of db rid) (stop_benchmark (_finish deeper) rid)
      else ret tt
  end.

Definition DEPTH : nat := 8.
Definition finish (rid : Z) (status : RunStatus) (error : string) : W unit :=
  _finish DEPTH rid status error.

(** The runs of a candidate that count as attempts. *)
Definition attempts (db : database) (cdid : Z) : Z :=
  Z.of_nat (length (where_ (fun r => (r_candidate_id r =? cdid)
                                     && negb (String.eqb (r_failure_class r) RELEASED))
                           (rows_z (d_runs db)))).

Definition _requeue_if_infrastructure (rid : Z) : W unit :=
  r <- get_run rid ;;
  if r_kind r == BaselineRun then ret tt
  else if (r_kind r == PolicyLaunch) || (r_kind r == External) then ret tt
  else if negb (is_infrastructure (r_failure_class r)) then ret tt
  else
    db <- db_ ;;
    if MAX_ATTEMPTS_PER_CANDIDATE <=? attempts db (r_candidate_id r)
    then event_ "candidate_given_up" (Some (r_campaign_id r)) (Some rid)
    else
      put_candidate (r_candidate_id r) (fun cd => cd <| cd_status := Valid |>) ;;;
      event_ "candidate_requeued" (Some (r_campaign_id r)) (Some rid).

Definition _fail (rid : Z) (failure_class error : string) : W unit :=
  put_run rid (fun r => r <| r_failure_class := failure_class |>) ;;;
  finish rid Failed error ;;;
  _requeue_if_infrastructure rid.
End runs.
