(* ===== verification/Advance.v ===== *)
(** One step of every live run, and what ends runs from outside: stop
    requests, windows, a paused campaign, a restart of the worker
    ([Supervisor._advance_runs], [_advance_one], [_advance_baseline],
    [_enforce_windows], [_process_stop_requests],
    [_release_queued_while_paused], [reconcile] of
    [app/control/orchestrator/supervisor.py]). *)
From S2P Require Import Prelude Float Values Documents Space Validation Failures Model States Packing Timing.
From S2P Require Import World Samples Occupancy Fleet Exclusive Finish Placement Runs.
#[local] Open Scope string_scope.
#[local] Open Scope list_scope.
#[local] Open Scope Z_scope.

Section advance.
Context `{Env}.

(** ** Why a run failed *)

(** What the substrate says, when the log says nothing. *)
Definition _capture_failure (rid : Z) (h : handle) (failure_class : option string) (error : string)
    : W unit :=
  log_text <- logged (call [] (fun n => drv_logs n h)) "" ;;
  _save_run_log rid log_text ;;;
  modify (fun w => w <| w_final_logs ::= fun s => {[ rid ]} ∪ s |>) ;;;
  let resolved := default (classify_failure log_text)
                    (failure_class ≫= fun c => if String.eqb c "" then None else Some c) in
  let error := if String.eqb error CRASHED then
                 let raised := first_exception log_text in
                 if String.eqb raised "" then error else "container crashed: " +:+ raised
               else error in
  '(resolved, error) <-
    (if blank log_text || String.eqb resolved "unknown" then
       reason <- call [] (fun n => drv_failure_reason n h) ;;
       match reason with
       | None => ret (resolved, error)
       | Some (reason_class, reason_message) =>
           ret (match failure_class with
                | None => reason_class
                | Some c => if String.eqb c "ready_timeout" then reason_class else resolved
                end, reason_message)
       end
     else ret (resolved, error)) ;;
  '(resolved, error) <-
    (if String.eqb resolved "unknown" then
       '(exit_code, oom_killed) <- call [] (fun n => drv_exit_info n h) ;;
       ret (match classify_exit exit_code oom_killed with
            | Some exit_class => if String.eqb exit_class "" then resolved else exit_class
            | None => resolved
            end,
            match exit_code with
            | Some code => error +:+ " (exit code " +:+ pretty code +:+ ")"
            | None => error
            end)
     else ret (resolved, error)) ;;
  _fail rid resolved error.

Definition _ready_minutes (db : database) (r : run) : Z :=
  match d_campaigns db !! r_campaign_id r with
  | Some c => ready_timeout_minutes c
  | None => DEFAULT_READY_TIMEOUT_MINUTES
  end.

Definition _ready_timed_out (db : database) (moment : Z) (r : run) : bool :=
  match r_started_at r with
  | None => false
  | Some started => _ready_minutes db r * minute <? moment - started
  end.

(** How a coming-up run is doing: late (and why), queued (and for what), or
    neither. *)
Inductive startup := Late (why : string) | Queued (reason : string) | InTime.

Definition _startup_timed_out (r : run) (h : handle) : W startup :=
  match r_started_at r with
  | None => ret InTime
  | Some started =>
      moment <- now ;;
      status <- logged (call [] (fun n => drv_startup_status n h)) UnknownPhase ;;
      db <- db_ ;;
      let ready_minutes := _ready_minutes db r in
      let ready_limit := ready_minutes * minute in
      let pull_limit := image_pull_timeout_minutes * minute in
      match status with
      | Running (Some since) =>
          ret (if ready_limit <? moment - since
               then Late ("engine not ready " +:+ pretty ready_minutes
                          +:+ " min after its container started")
               else InTime)
      | Pulling =>
          early <- (if PLACEMENT_CHECK_AFTER_SECONDS * second <? moment - started
                    then logged (call [] (fun n => drv_failure_reason n h)) None
                    else ret None) ;;
          let verdict :=
            match early with
            | Some (cls, msg) =>
                if is_transient_placement cls then Some (Queued msg)
                else if String.eqb cls "unplaceable" then Some (Late msg)
                else None
            | None => None
            end in
          match verdict with
          | Some v => ret v
          | None =>
              if pull_limit <? moment - started then
                reason <- logged (call [] (fun n => drv_failure_reason n h)) None ;;
                ret (match reason with
                     | Some (cls, msg) => if is_transient_placement cls then Queued msg else Late msg
                     | None => Late ("pod still not running " +:+ pretty image_pull_timeout_minutes
                                     +:+ " min after launch (scheduling / image pull)")
                     end)
              else ret InTime
          end
      | Running None | UnknownPhase =>
          ret (if ready_limit <? moment - started
               then Late ("not ready after " +:+ pretty ready_minutes +:+ " min")
               else InTime)
      end
  end.

(** ** Evaluations *)
Definition _health_outcome (rid : Z) (served_model : string) : W (option EvalOutcome) :=
  r <- get_run rid ;;
  refs <- gets w_health_refs ;;
  ref <- match refs !! rid with
         | Some ref => ret ref
         | None =>
             ref <- call [ActHealthStart rid] (fun n => health_start n (r_endpoint_url r) served_model) ;;
             modify (fun w => w <| w_health_refs ::= <[ rid := ref ]> |>) ;;;
             ret ref
         end ;;
  outcome <- call [] (fun n => health_poll n ref) ;;
  if o_status outcome == EvalRunning then ret None
  else
    modify (fun w => w <| w_health_refs ::= delete rid |>) ;;;
    ret (Some outcome).

Definition passed (o : EvalOutcome) : bool := o_status o == EvalPassed.

(** The objective is resolved when the benchmark reports, by the stage's
    benchmark; a health probe has nothing to score.  Production's score moving,
    the results held to it are judged again.  (The trial a policy's run becomes
    is not part of the model.) *)
Definition _record_result (rid : Z) (source : string) (o : EvalOutcome) : W unit :=
  r <- get_run rid ;;
  if String.eqb source "llmbench" then
    c <- get_campaign (r_campaign_id r) ;;
    db <- db_ ;;
    let '(value, feasible) := judge c (stage_of_run db r) o in
    (match mismatch c (o_metrics o) with
     | Some _ => event_ "dataset_mismatch" (Some (r_campaign_id r)) (Some rid)
     | None => ret tt
     end) ;;;
    add_result (Result 0 rid source (passed o) value feasible) ;;;
    modify_db (fun db => db <| d_results := rescored db r |>)
  else add_result (Result 0 rid source (passed o) None false).

(** Submit the run to the benchmark and move it on; a busy platform leaves it
    for the next tick, a refusal fails it. *)
Inductive submission := Submitted (ref : string) | PlatformBusy | Refused (msg : string).

Definition submit (rid : Z) : W submission :=
  r <- get_run rid ;;
  try_ (ref <- call [ActBenchStart rid] (fun n => bench_start n r) ;; ret (Submitted ref))
       (fun e => match e with
                 | EvaluatorBusy _ => ret PlatformBusy
                 | EvaluatorRejected msg => ret (Refused msg)
                 | _ => raise e
                 end).

Definition start_benchmark (rid : Z) : W unit :=
  s <- submit rid ;;
  match s with
  | PlatformBusy => ret tt
  | Refused msg => _fail rid "bench_preflight" (clip 2000 msg)
  | Submitted ref =>
      put_run rid (fun r => r <| r_llmbench_submission_id := ref |>) ;;;
      _transition rid Benching
  end.

(** ** Runs against an endpoint someone else launched *)
Definition _advance_baseline (rid : Z) : W unit :=
  r <- get_run rid ;;
  c <- get_campaign (r_campaign_id r) ;;
  match r_status r with
  | HealthCheck =>
      found <- _health_outcome rid (c_served_model_name c) ;;
      match found with
      | None => ret tt
      | Some o =>
          if negb (passed o) && _looks_unreachable (o_error o) then
            moment <- now ;;
            db <- db_ ;;
            r <- get_run rid ;;
            if negb (_ready_timed_out db moment r) then ret tt
            else
              _record_result rid "health" o ;;;
              _fail rid "endpoint_unreachable"
                ("nothing answering at " +:+ r_endpoint_url r +:+ " after "
                 +:+ pretty (_ready_minutes db r) +:+ " min: " +:+ o_error o)
          else
            _record_result rid "health" o ;;;
            if negb (passed o) then _fail rid "endpoint_unhealthy" (o_error o)
            else start_benchmark rid
      end
  | Benching =>
      o <- call [] (fun n => bench_poll n (r_llmbench_submission_id r)) ;;
      if o_status o == EvalRunning then ret tt
      else
        _record_result rid "llmbench" o ;;;
        if passed o then finish rid Succeeded ""
        else _fail rid (_bench_failure_class o) (o_error o)
  | _ => ret tt
  end.

(** ** Runs the platform launches *)

(** Each rank's container, command and address, on its own row: written after
    the run's own row. *)
Definition _record_node_launches (rid : Z) (sp : spec) (commands : list string) : W unit :=
  for_each (zip commands (sort_by (key_before (fun a => [a_rank a])) (sp_nodes sp)))
    (fun '(command, a) =>
       put_node (rid, a_rank a)
         (fun row => row <| n_container_name := or_string (a_container_name a) (n_container_name row) |>
                         <| n_launch_command := command |>
                         <| n_endpoint_url := "http://" +:+ a_host a +:+ ":"
                                              +:+ pretty (sp_port sp) |>)).

(** What a launch attempt came to. *)
Inductive launch := Launched (h : handle) (commands : list string)
                  | Deferred (msg : string) (waiting_for : WaitingFor) (holder : option Z) (service : string)
                  | LaunchFailed (msg : string).

Definition launch_nodes (rid : Z) (sp : spec) : W launch :=
  try_ ('(h, commands) <- call [ActLaunch rid] (fun n => drv_launch_nodes n sp) ;;
        ret (Launched h commands))
       (fun e => match e with
                 | LaunchDeferred msg wf holder service => ret (Deferred msg (waiting_code wf) holder service)
                 | RuntimeError msg => ret (LaunchFailed msg)
                 | _ => raise e
                 end).

Definition _advance_pending (rid : Z) (sp : spec) : W unit :=
  r <- get_run rid ;;
  db <- db_ ;;
  match run_machine db r ≫= fun m => port_busy_reason db m (Some rid) None with
  | Some held => _note_placement rid (port_reason_text held) (Some NodePort)
  | None =>
      result <- launch_nodes rid sp ;;
      match result with
      | Deferred msg wf holder service =>
          _note_placement rid msg (Some wf) ;;;
          if (wf == NodePort) && bool_decide (is_Some holder)
          then _reclaim_orphan_port rid holder service else ret tt
      | LaunchFailed msg => _fail rid (classify_failure msg) (clip 2000 msg)
      | Launched h commands =>
          put_run rid (fun r => r <| r_launch_command := default "" (head commands) |>
                                  <| r_endpoint_url := h_endpoint_url h |>) ;;;
          _note_placement rid "" None ;;;
          _transition rid Launching ;;;
          _record_node_launches rid sp commands
      end
  end.

(** Of what the run is measured on, the model keeps the chart version the first
    run of a recipe campaign pins. *)
Definition _snapshot_environment (rid : Z) (h : handle) : W unit :=
  resolved <- logged (call [] (fun n => drv_environment n h)) "" ;;
  r <- get_run rid ;;
  c <- get_campaign (r_campaign_id r) ;;
  if negb (String.eqb resolved "") && c_has_recipe c && String.eqb (c_chart_version c) ""
  then put_campaign (c_id c) (fun c => c <| c_chart_version := resolved |>)
  else ret tt.

Definition _advance_starting (rid : Z) (h : option handle) : W unit :=
  match h with
  | None => _fail rid "gone" "container disappeared"
  | Some h =>
      state <- call [] (fun n => drv_state n h) ;;
      match state with
      | StateReady =>
          (if String.eqb (h_endpoint_url h) "" then ret tt
           else put_run rid (fun r => r <| r_endpoint_url := h_endpoint_url h |>)) ;;;
          _note_placement rid "" None ;;;
          _snapshot_environment rid h ;;;
          _transition rid HealthCheck
      | StateCrashed => _capture_failure rid h None CRASHED
      | StateStarting | StateGone =>
          r <- get_run rid ;;
          verdict <- _startup_timed_out r h ;;
          match verdict with
          | Late why => _capture_failure rid h (Some "ready_timeout") why
          | Queued reason =>
              _note_placement rid reason (Some Cards) ;;;
              if r_status r == Launching then _transition rid WaitingReady else ret tt
          | InTime =>
              _note_placement rid "" None ;;;
              if r_status r == Launching then _transition rid WaitingReady else ret tt
          end
      end
  end.

Definition _advance_health (rid : Z) (h : option handle) : W unit :=
  r <- get_run rid ;;
  c <- get_campaign (r_campaign_id r) ;;
  found <- _health_outcome rid (c_served_model_name c) ;;
  match found with
  | None => ret tt
  | Some o =>
      _record_result rid "health" o ;;;
      if negb (passed o) then _fail rid (or_string (o_failure_class o) "health_check") (o_error o)
      else if r_kind r == PolicyLaunch then
        (match h with
         | Some h =>
             now_ <- call [] (fun n => drv_incarnation n h) ;;
             put_run rid (fun r => r <| r_engine_incarnation := default "" now_ |>)
         | None => ret tt
         end) ;;;
        _transition rid Serving
      else start_benchmark rid
  end.

Definition _advance_benching (rid : Z) : W unit :=
  r <- get_run rid ;;
  o <- call [] (fun n => bench_poll n (r_llmbench_submission_id r)) ;;
  if o_status o == EvalRunning then ret tt
  else
    _record_result rid "llmbench" o ;;;
    if passed o then finish rid Succeeded ""
    else
      _capture_engine_log rid ;;;
      _fail rid (_bench_failure_class o) (o_error o).

Definition _fail_restarted (rid : Z) (h : handle) (before now_ : string) : W unit :=
  match restart_kind before now_ with
  | Replaced =>
      _capture_failure rid h (Some "engine_replaced")
        "the engine's pod was replaced while serving (deleted, evicted or preempted by the cluster), so it is no longer the engine that was launched; the config is not to blame"
  | Crashed =>
      '(code, oom) <- call [] (fun n => drv_exit_info n h) ;;
      log_text <- logged (call [] (fun n => drv_logs n h)) "" ;;
      let cause := if oom : bool then "oom" else classify_failure log_text in
      let cause := if String.eqb cause "unknown"
                   then match classify_exit code oom with
                        | Some c => if String.eqb c "" then "engine_crashed" else c
                        | None => "engine_crashed"
                        end
                   else cause in
      let how := match code with
                 | Some n => "exit code " +:+ pretty n
                 | None => "exit code not reported"
                 end in
      _capture_failure rid h (Some cause)
        ("the engine process exited while serving (" +:+ how
         +:+ (if oom : bool then ", OOM-killed" else "") +:+ ") and the cluster restarted it")
  end.

Definition _advance_serving (rid : Z) (h : option handle) : W unit :=
  r <- get_run rid ;;
  match r_release_requested_at r, h with
  | Some _, _ => finish rid Succeeded ""
  | None, None => _fail rid "gone" "engine container disappeared while serving"
  | None, Some h =>
      state <- call [] (fun n => drv_state n h) ;;
      if state == StateCrashed then _capture_failure rid h None CRASHED
      else if String.eqb (r_engine_incarnation r) "" then ret tt
      else
        now_ <- call [] (fun n => drv_incarnation n h) ;;
        match now_ with
        | Some n => if String.eqb n (r_engine_incarnation r) then ret tt
                    else _fail_restarted rid h (r_engine_incarnation r) n
        | None => ret tt
        end
  end.

Definition _advance_one (rid : Z) : W unit :=
  r <- get_run rid ;;
  if not_ours r then _advance_baseline rid
  else
    sp <- _spec_for rid ;;
    match r_status r with
    | Pending => _advance_pending rid sp
    | Launching | WaitingReady => h <- attach rid sp ;; _advance_starting rid h
    | HealthCheck => h <- attach rid sp ;; _advance_health rid h
    | Benching => _ <- attach rid sp ;; _advance_benching rid
    | Serving => h <- attach rid sp ;; _advance_serving rid h
    | Succeeded | Failed | Killed => _ <- attach rid sp ;; ret tt
    end.

(** One bad run does not stall the fleet. *)
Definition _advance_runs : W unit :=
  db <- db_ ;;
  for_each (live_runs db) (fun r =>
    try_ (_advance_one (r_id r)) (fun e => _fail (r_id r) "supervisor_error" (_crash_detail e))).

(** ** Ending runs from outside *)
Definition cancel_benchmark (r : run) : W unit :=
  if String.eqb (r_llmbench_submission_id r) "" then ret tt
  else call [ActBenchCancel (r_llmbench_submission_id r)]
         (fun n => bench_cancel n (r_llmbench_submission_id r)).

(** [why]: the reason per campaign, asked once. *)
Definition _enforce_one (r : run) (why : gmap Z string) : W (gmap Z string) :=
  c <- get_campaign (r_campaign_id r) ;;
  match c_window_end c with
  | None => ret why
  | Some window_end =>
      moment <- now ;;
      if moment <? window_end then ret why
      else
        cancel_benchmark r ;;;
        record_sample (r_id r) (fun db r moment => cut_sample db r (stage_of_run db r) moment) ;;;
        db <- db_ ;;
        let reason := default (default "window cutoff" (stop_reason db c)) (why !! r_campaign_id r) in
        finish (r_id r) Killed reason ;;;
        ret (<[ r_campaign_id r := reason ]> why)
  end.

Definition _enforce_windows : W unit :=
  db <- db_ ;;
  for_acc (live_runs db) ∅ _enforce_one ;;; ret tt.

Definition USER_STOP_ERROR : string := "stopped by user".

(** [left]: the live runs no stop request has taken yet. *)
Definition _stop_one (e : event) (left : gset Z) : W (gset Z) :=
  match e_run_id e with
  | None => ret left
  | Some rid =>
      if negb (bool_decide (rid ∈ left)) then ret left
      else
        r <- get_run rid ;;
        if negb (live_run r) then ret (left ∖ {[ rid ]})
        else
          cancel_benchmark r ;;;
          finish rid Killed USER_STOP_ERROR ;;;
          db <- db_ ;;
          (if String.eqb (e_reason e) "force stop"
              && negb ((r_kind r == PolicyLaunch) || (r_kind r == External))
              && bool_decide (is_Some (d_candidates db !! r_candidate_id r)) then
             put_run rid (fun r => r <| r_failure_class := RELEASED |>
                                     <| r_error := "stopped with the campaign; measured again when it starts" |>) ;;;
             put_candidate (r_candidate_id r) (fun cd => cd <| cd_status := Valid |>)
           else ret tt) ;;;
          ret (left ∖ {[ rid ]})
  end.

Definition _process_stop_requests : W unit :=
  db <- db_ ;;
  let live := list_to_set (map r_id (live_runs db)) : gset Z in
  for_acc (where_ (fun e => String.eqb (e_kind e) "stop_requested") (d_events db)) live _stop_one ;;;
  ret tt.

(** A withdrawn run is charged to nobody. *)
Definition _release_to_queue (rid : Z) : W unit :=
  put_run rid (fun r => r <| r_failure_class := RELEASED |>) ;;;
  finish rid Killed
    "withdrawn while the campaign was paused; the cluster queue slot was given back and this candidate will be submitted again on resume" ;;;
  r <- get_run rid ;;
  put_candidate (r_candidate_id r) (fun cd => cd <| cd_status := Valid |>) ;;;
  event_ "run_released_to_queue" (Some (r_campaign_id r)) (Some rid).

(** Is a run still in its substrate's queue? *)
Definition queued_for_cards (rid : Z) : W bool :=
  logged (sp <- _spec_for rid ;;
          m <- get_machine (sp_machine sp) ;;
          if negb (drv_queues m) then ret false
          else
            h <- attach rid sp ;;
            match h with
            | None => ret false
            | Some h => p <- call [] (fun n => drv_placement n h) ;; ret (String.eqb p "queued")
            end) false.

Definition _release_queued_while_paused : W unit :=
  db <- db_ ;;
  for_each (campaigns_in db [Paused]) (fun c =>
    db <- db_ ;;
    for_each (where_ (fun r => (r_campaign_id r =? c_id c) && live_run r) (rows_z (d_runs db)))
      (fun r =>
         r <- get_run (r_id r) ;;
         if not_ours r then ret tt
         else if (r_status r == Pending) && (r_waiting_for r == Some NodePort)
                 && negb (r_kind r == PolicyLaunch)
         then _release_to_queue (r_id r)
         else
           queued <- queued_for_cards (r_id r) ;;
           if queued : bool then _release_to_queue (r_id r) else ret tt)).

(** After a restart of the worker. *)
Definition reconcile : W unit :=
  db <- db_ ;;
  for_each (live_runs db) (fun r =>
    r <- get_run (r_id r) ;;
    if (r_status r == Pending) || not_ours r then ret tt
    else
      sp <- _spec_for (r_id r) ;;
      h <- attach (r_id r) sp ;;
      match h with
      | None => if r_status r == Benching then ret tt
                else _fail (r_id r) "orphaned" "container gone after worker restart"
      | Some _ => ret tt
      end).
End advance.
