(* ===== verification/Leases.v ===== *)
(** Handing machines back, and the janitor that confirms containers gone
    ([Supervisor._advance_leases], [_begin_drain], [_advance_drain],
    [_reap_teardowns], [_confirm_teardown], [_quarantine_machine] of
    [app/control/orchestrator/supervisor.py]). *)
From S2P Require Import Prelude Float Values Documents Space Validation Failures Model States Packing Timing.
From S2P Require Import World Samples Occupancy Fleet Exclusive Finish Placement Nights Reserve Runs Advance.
#[local] Open Scope string_scope.
#[local] Open Scope list_scope.
#[local] Open Scope Z_scope.

Section leases.
Context `{Env}.

(** ** Leases *)
Definition _begin_drain (mid : Z) (mode : LeaseEndMode) : W unit :=
  put_machine mid (fun m => m <| m_lease_state := LeaseDraining |> <| m_lease_end_mode := Some mode |>) ;;;
  event_ "lease_end_requested" None None.

(** A live policy session drains first; then the runs; then the machine goes. *)
Definition _advance_drain (mid : Z) : W unit :=
  db <- db_ ;;
  m <- get_machine mid ;;
  match head (live_sessions_on db mid) with
  | Some s =>
      moment <- now ;;
      if drain_kills_running moment m then
        match ps_abort_requested_at s with
        | None =>
            asked <- now ;;
            put_session (ps_id s) (fun s => s <| ps_abort_requested_at := Some asked |>) ;;;
            event_ "policy_session_abort_requested" (Some (ps_campaign_id s)) None
        | Some _ => ret tt
        end
      else
        match ps_finalize_requested_at s with
        | None =>
            asked <- now ;;
            put_session (ps_id s) (fun s => s <| ps_finalize_requested_at := Some asked |>) ;;;
            event_ "policy_session_finalize_requested" (Some (ps_campaign_id s)) None
        | Some _ => ret tt
        end
  | None =>
      match live_runs_on db mid with
      | [] =>
          moment <- now ;;
          put_machine mid (fun m => m <| m_lease_state := LeaseReleased |>
                                      <| m_lease_released_at := Some moment |>
                                      <| m_state := Away |>) ;;;
          event_ "lease_released" None None
      | live =>
          moment <- now ;;
          if negb (drain_kills_running moment m) then ret tt
          else for_each live (fun r => cancel_benchmark r ;;; finish (r_id r) Killed "lease ended")
      end
  end.

Definition _advance_lease (mid : Z) : W unit :=
  m <- get_machine mid ;;
  moment <- now ;;
  db <- db_ ;;
  (if lease_expired moment m && negb (frozen_by_pause db m) then _begin_drain mid Polite else ret tt) ;;;
  m <- get_machine mid ;;
  if negb (m_lease_state m == LeaseDraining) then ret tt else _advance_drain mid.

Definition _advance_leases : W unit :=
  db <- db_ ;;
  for_each (rows_z (d_machines db)) (fun m => logged (_advance_lease (m_id m)) tt).

(** ** Teardown *)
Definition _confirm_teardown (rid : Z) : W unit :=
  put_run rid (fun r => r <| r_teardown_pending := false |>) ;;;
  r <- get_run rid ;;
  event_ "run_teardown_confirmed" (Some (r_campaign_id r)) (Some rid) ;;;
  _release_run_machines rid.

Definition _quarantine_machine (mid : Z) (reason : string) : W unit :=
  m <- get_machine mid ;;
  if m_needs_attention m then ret tt
  else
    moment <- now ;;
    put_machine mid (fun m => m <| m_needs_attention := true |> <| m_attention_reason := reason |>
                                <| m_attention_at := Some moment |>) ;;;
    event_ "machine_quarantined" None None.

(** The machines whose containers are stuck, by name. *)
Definition stuck_names (r : run) (h : handle) : W (list string) :=
  db <- db_ ;;
  logged (names <- call [] (fun n => drv_unfinished n h) ;;
          ret (match names with
               | [] => match d_machines db !! h_machine h with Some m => [m_name m] | None => [] end
               | _ => names
               end))
         (match run_machine db r with Some m => [m_name m] | None => [] end).

Definition _give_up (rid : Z) (h : handle) (elapsed : Z) : W unit :=
  r <- get_run rid ;;
  names <- stuck_names r h ;;
  db <- db_ ;;
  let found := where_ (fun m => bool_decide (m_name m ∈ names)) (rows_z (d_machines db)) in
  let stuck := match found with
               | [] => match run_machine db r with Some m => [m] | None => [] end
               | _ => found
               end in
  for_each stuck (fun m =>
    _quarantine_machine (m_id m)
      ("run " +:+ pretty rid +:+ " on " +:+ m_name m +:+ " would not tear down after "
       +:+ pretty (elapsed / second) +:+ "s")) ;;;
  put_run rid (fun r => r <| r_teardown_pending := false |>).

(** One run whose container was still there at the last look. *)
Definition _reap_one (rid : Z) : W unit :=
  setup <- logged (sp <- _spec_for rid ;; h <- attach rid sp ;; ret (Some (sp, h))) None ;;
  match setup with
  | None => ret tt
  | Some (sp, h) =>
      r <- get_run rid ;;
      moment <- now ;;
      later_ <- now ;;
      let elapsed := moment - default later_ (r_finished_at r) in
      match h with
      | None =>
          released <- logged (call [ActReleaseLeftovers rid] (fun n => drv_release_leftovers n sp)) false ;;
          if (released : bool) || (teardown_giveup_seconds * second <=? elapsed)
          then _confirm_teardown rid else ret tt
      | Some h =>
          if teardown_giveup_seconds * second <=? elapsed then _give_up rid h elapsed
          else if teardown_grace_seconds * second <=? elapsed then
            logged (call [ActRemove rid] (fun n => drv_teardown n h) ;;;
                    put_run rid (fun r => r <| r_teardown_attempts ::= Z.succ |>)) tt
          else ret tt
      end
  end.

Definition _reap_teardowns : W unit :=
  db <- db_ ;;
  for_each (where_ r_teardown_pending (rows_z (d_runs db))) (fun r => _reap_one (r_id r)).
End leases.
