(* ===== verification/Clock.v ===== *)
(** When a campaign is awake: nightly windows ([app/control/orchestrator/schedule.py]),
    the step that wakes campaigns and stands them down
    ([Supervisor._advance_campaign_schedules]) and the plugins' own steps
    ([Supervisor._run_plugin_steps]).

    A time of day is its minutes, an instant its microseconds; what a zone makes
    of a local day and minute is the environment's, with the laws the window
    arithmetic relies on in [ZoneLaws]. *)
From S2P Require Import Prelude Float Values Documents Space Validation Failures Model Timing World Samples.
From S2P Require Import Occupancy.
#[local] Open Scope string_scope.
#[local] Open Scope list_scope.
#[local] Open Scope Z_scope.

Definition DEFAULT_TIMEZONE : string := "Asia/Shanghai".

Record Schedule := mkSchedule {
  sc_start : Z;
  sc_end : Z;
  sc_timezone : string;
  sc_until : option Z;
}.

Definition crosses_midnight (s : Schedule) : bool := sc_end s <=? sc_start s.

(** ["23:00"], as minutes; anything unparseable is no time. *)
Definition parse_hhmm (value : string) : option Z :=
  match split_on 58 [] (strip_chars (chars value)) with
  | [hh; mm] =>
      match parse_int (of_chars hh), parse_int (of_chars mm) with
      | Some hour, Some minutes =>
          if (0 <=? hour) && (hour <=? 23) && (0 <=? minutes) && (minutes <=? 59)
          then Some (hour * 60 + minutes) else None
      | _, _ => None
      end
  | _ => None
  end.

(** [f"{n:02d}"]. *)
Definition two_digits (n : Z) : string := if n <? 10 then "0" +:+ pretty n else pretty n.
Definition format_hhmm (value : option Z) : string :=
  match value with
  | None => ""
  | Some t => two_digits (t / 60) +:+ ":" +:+ two_digits (t mod 60)
  end.

Definition from_campaign (c : campaign) : option Schedule :=
  match parse_hhmm (c_daily_start c), parse_hhmm (c_daily_end c) with
  | Some start, Some end_ =>
      if start =? end_ then None
      else Some (mkSchedule start end_ (or_string (c_schedule_timezone c) DEFAULT_TIMEZONE)
                   (c_schedule_until c))
  | _, _ => None
  end.

(** The mistakes a schedule is refused for. *)
Inductive schedule_error := NeedsBoth | BadStart (value : string) | BadEnd (value : string)
                          | SameTimes | UnknownZone (name : string).

Section schedule.
Context `{Env}.

Definition zone (s : Schedule) : string :=
  if zone_known (sc_timezone s) then sc_timezone s else DEFAULT_TIMEZONE.

Definition errors (daily_start daily_end timezone : string) : list schedule_error :=
  let start := parse_hhmm daily_start in
  let end_ := parse_hhmm daily_end in
  let given := where_ (fun v => negb (String.eqb (strip v) "")) [daily_start; daily_end] in
  (if (length given =? 1)%nat then [NeedsBoth] else [])
  ++ (if negb (String.eqb daily_start "") && (start == None) then [BadStart daily_start] else [])
  ++ (if negb (String.eqb daily_end "") && (end_ == None) then [BadEnd daily_end] else [])
  ++ (match start, end_ with
      | Some a, Some b => if a =? b then [SameTimes] else []
      | _, _ => []
      end)
  ++ (if negb (String.eqb timezone "") && negb (zone_known timezone) then [UnknownZone timezone] else []).

(** The window that starts on [day]. *)
Definition _occurrence (s : Schedule) (day : Z) : Z * Z :=
  (zone_utc (zone s) day (sc_start s),
   zone_utc (zone s) (if crosses_midnight s then day + 1 else day) (sc_end s)).

Definition _candidate_days (s : Schedule) (moment : Z) : list Z :=
  let today := zone_day (zone s) moment in [today - 1; today; today + 1].

(** The first of the days whose occurrence satisfies [P], unless it starts
    after the schedule's end. *)
Fixpoint window_where (P : Z * Z -> bool) (s : Schedule) (days : list Z) : option (Z * Z) :=
  match days with
  | [] => None
  | day :: rest =>
      let w := _occurrence s day in
      if P w then
        match sc_until s with
        | Some until => if until <? w.1 then None else Some w
        | None => Some w
        end
      else window_where P s rest
  end.

Definition contains_moment (moment : Z) (w : Z * Z) : bool := (w.1 <=? moment) && (moment <? w.2).

Definition current_window (moment : Z) (schedule : option Schedule) : option (Z * Z) :=
  schedule ≫= fun s => window_where (contains_moment moment) s (_candidate_days s moment).

Definition next_window (moment : Z) (schedule : option Schedule) : option (Z * Z) :=
  schedule ≫= fun s => window_where (fun w => moment <? w.1) s (_candidate_days s moment).

Definition is_finished (moment : Z) (schedule : option Schedule) : bool :=
  match schedule with
  | None => false
  | Some _ => (current_window moment schedule == None) && (next_window moment schedule == None)
  end.

(** ** The step *)

(** One campaign's clock: a live override outranks it; a window that is open
    wakes the campaign, one that closed stands it down or ends it. *)
Definition _advance_schedule (cid : Z) : W unit :=
  c <- get_campaign cid ;;
  overridden <- match c_override_until c with
                | None => ret false
                | Some override =>
                    moment <- now ;;
                    if moment <? override then ret true
                    else
                      put_campaign cid (fun c => c <| c_override_until := None |>) ;;;
                      event_ "campaign_override_expired" (Some cid) None ;;;
                      ret false
                end ;;
  if overridden : bool then ret tt
  else
    match from_campaign c with
    | None => ret tt
    | Some schedule =>
        moment <- now ;;
        match current_window moment (Some schedule) with
        | Some (start, end_) =>
            put_campaign cid (fun c => c <| c_window_start := Some start |>
                                         <| c_window_end := Some end_ |>) ;;;
            if c_status c == Active then ret tt
            else
              put_campaign cid (fun c => c <| c_status := Active |>) ;;;
              event_ "campaign_window_opened" (Some cid) None
        | None =>
            if negb (c_status c == Active) then ret tt
            else
              later_ <- now ;;
              if is_finished later_ (Some schedule) then
                put_campaign cid (fun c => c <| c_status := Done |>) ;;;
                event_ "campaign_schedule_finished" (Some cid) None
              else
                put_campaign cid (fun c => c <| c_status := Scheduled |>) ;;;
                event_ "campaign_window_closed" (Some cid) None
        end
    end.

Definition _advance_campaign_schedules : W unit :=
  db <- db_ ;;
  for_each (campaigns_in db [Scheduled; Active]) (fun c => _advance_schedule (c_id c)).

(** Each plugin's steps, each in a savepoint: one that raises left nothing. *)
Definition _run_plugin_steps : W unit :=
  for_each (concat (map pl_tick_steps plugins)) (fun step =>
    db <- db_ ;;
    match step db with
    | inr db' => modify_db (fun _ => db')
    | inl _ => ret tt
    end).
End schedule.

(** What the window arithmetic relies on of a zone: the instant a local day and
    time names falls on that day, and later instants on later days.  (A zone
    whose clocks go back across midnight breaks the second for that hour.) *)
Class ZoneLaws `{Env} : Prop := {
  zone_day_utc z day t : 0 <= t < 1440 -> zone_day z (zone_utc z day t) = day;
  zone_day_mono z a b : a <= b -> zone_day z a <= zone_day z b;
}.

(** ** Lemmas *)
Definition in_day (s : Schedule) : Prop := 0 <= sc_start s < 1440 /\ 0 <= sc_end s < 1440.

Lemma parse_hhmm_range value t : parse_hhmm value = Some t -> 0 <= t < 1440.
Proof.
  unfold parse_hhmm. intros Ht. repeat case_match; try done. injection Ht as <-.
  repeat match goal with E : _ && _ = true |- _ => apply andb_true_iff in E as [? ?] end. lia.
Qed.

Lemma parse_hhmm_nonblank value t : parse_hhmm value = Some t -> String.eqb (strip value) "" = false.
Proof.
  unfold parse_hhmm, strip. destruct (strip_chars (chars value)) as [|ch l] eqn:E; [done|]. done.
Qed.

Lemma from_campaign_in_day c s : from_campaign c = Some s -> in_day s.
Proof.
  unfold from_campaign. intros Hs.
  destruct (parse_hhmm (c_daily_start c)) as [a|] eqn:Ea; [|done].
  destruct (parse_hhmm (c_daily_end c)) as [b|] eqn:Eb; [|done].
  case_match; [done|]. injection Hs as <-. split; by eapply parse_hhmm_range.
Qed.

Section windows.
Context `{ZoneLaws}.

Lemma occurrence_started s day moment :
  in_day s -> (_occurrence s day).1 <= moment -> day <= zone_day (zone s) moment.
Proof.
  intros [Ha _] Hm. apply (zone_day_mono (zone s)) in Hm. cbn in Hm. by rewrite zone_day_utc in Hm.
Qed.

Lemma occurrence_ahead s day moment :
  in_day s -> moment < (_occurrence s day).1 -> zone_day (zone s) moment <= day.
Proof.
  intros [Ha _] Hm. assert (moment <= (_occurrence s day).1) as Hle by lia.
  apply (zone_day_mono (zone s)) in Hle. cbn in Hle. by rewrite zone_day_utc in Hle.
Qed.

Lemma occurrence_open s day moment :
  in_day s -> moment < (_occurrence s day).2 -> zone_day (zone s) moment <= day + 1.
Proof.
  intros [_ Hb] Hm. assert (moment <= (_occurrence s day).2) as Hle by lia.
  apply (zone_day_mono (zone s)) in Hle. cbn in Hle. rewrite zone_day_utc in Hle by done.
  destruct (crosses_midnight s); lia.
Qed.

(** Starts come in the order of their days. *)
Lemma occurrence_order s d1 d2 : in_day s -> d1 <= d2 -> (_occurrence s d1).1 <= (_occurrence s d2).1.
Proof.
  intros Hs Hd. destruct (Z.le_gt_cases (_occurrence s d1).1 (_occurrence s d2).1) as [?|Hgt]; [done|].
  pose proof (occurrence_ahead s d1 _ Hs Hgt) as Hle. cbn in Hle.
  rewrite zone_day_utc in Hle by apply Hs. assert (d1 = d2) as -> by lia. lia.
Qed.

Lemma window_where_found P s days w :
  window_where P s days = Some w ->
  P w = true /\ exists before day after, days = before ++ day :: after /\ w = _occurrence s day /\
    (forall d, d ∈ before -> P (_occurrence s d) = false) /\
    match sc_until s with Some until => w.1 <= until | None => True end.
Proof.
  induction days as [|day days IH]; cbn [window_where]; [done|].
  destruct (P (_occurrence s day)) eqn:Hp.
  - intros Hw. assert (w = _occurrence s day /\ match sc_until s with Some u => w.1 <= u | None => True end)
      as [-> Hu].
    { destruct (sc_until s) as [u|]; [|by injection Hw as <-]. case_match; [done|].
      injection Hw as <-. split; [done|lia]. }
    split; [done|]. exists [], day, days. split_and!; [done|done|by intros d ?%not_elem_of_nil|done].
  - intros (Hp' & before & d & after & -> & E & Hb & Hu)%IH. split; [done|].
    exists (day :: before), d, after. split_and!; [done|done| |done].
    intros d' [->|Hd']%elem_of_cons; [done|by apply Hb].
Qed.

Lemma window_where_none P s days day :
  sc_until s = None -> day ∈ days -> P (_occurrence s day) = true -> is_Some (window_where P s days).
Proof.
  intros Hu. induction days as [|d days IH]; cbn [window_where]; [by intros ?%not_elem_of_nil|].
  destruct (P (_occurrence s d)) eqn:Hp; [rewrite Hu; eauto|].
  intros [->|Hd]%elem_of_cons Hw; [congruence|]. by apply IH.
Qed.

Lemma candidate_days_spec s moment day :
  day ∈ _candidate_days s moment <->
  zone_day (zone s) moment - 1 <= day <= zone_day (zone s) moment + 1.
Proof.
  unfold _candidate_days. rewrite !elem_of_cons, elem_of_nil. lia.
Qed.
End windows.

(** ** Lemmas: the step, with the clock standing still *)
Section still.
Context `{Env} (moment : Z) (Hclock : forall n, clock n = moment).

(** What the clock makes of a campaign's row, and the step of it. *)
Definition clocked (c : campaign) : campaign :=
  match from_campaign c with
  | None => c
  | Some s =>
      match current_window moment (Some s) with
      | Some (a, b) => c <| c_window_start := Some a |> <| c_window_end := Some b |>
                         <| c_status := Active |>
      | None => if c_status c == Active
                then c <| c_status := if is_finished moment (Some s) then Done else Scheduled |>
                else c
      end
  end.

Definition woken (c : campaign) : campaign :=
  match c_override_until c with
  | Some override => if moment <? override then c else clocked (c <| c_override_until := None |>)
  | None => clocked c
  end.

(** [m] rewrites row [cid] by [f], and no other campaign's. *)
Definition rewrites (cid : Z) (f : campaign -> campaign) (m : W unit) : Prop :=
  forall w c, d_campaigns (w_db w) !! cid = Some c ->
    exists w', m w = (inr tt, w') /\
      (d_campaigns (w_db w') !! cid = Some (f c) /\
       forall k, k <> cid -> d_campaigns (w_db w') !! k = d_campaigns (w_db w) !! k).

Lemma rewrites_ret cid : rewrites cid id (ret tt).
Proof. intros w c Hc. by exists w. Qed.
Lemma rewrites_event cid kind k rid : rewrites cid id (event_ kind k rid).
Proof. intros w c Hc. eexists. by split. Qed.
Lemma rewrites_put cid f : rewrites cid f (put_campaign cid f).
Proof.
  intros w c Hc. eexists. split; [done|]. cbn. split; [by rewrite lookup_alter_eq, Hc|].
  intros k Hk. by rewrite lookup_alter_ne.
Qed.
Lemma rewrites_seq cid f g m m' : rewrites cid f m -> rewrites cid g m' ->
  rewrites cid (fun c => g (f c)) (m ;;; m').
Proof.
  intros Hm Hm' w c Hc. destruct (Hm w c Hc) as (w1 & E1 & H1 & K1).
  destruct (Hm' w1 _ H1) as (w2 & E2 & H2 & K2). exists w2. unfold bind. rewrite E1.
  split; [done|]. split; [done|]. intros k Hk. by rewrite K2, K1.
Qed.
Lemma rewrites_now cid f (m : Z -> W unit) : rewrites cid f (m moment) -> rewrites cid f (t <- now ;; m t).
Proof.
  intros Hm w c Hc. unfold bind, now, call. rewrite Hclock.
  match goal with |- context [m moment ?w0] => destruct (Hm w0 c Hc) as (w' & E & H1 & K) end.
  exists w'. split; [exact E|]. by split.
Qed.

(** The rest of the step, once no override is live. *)
Lemma clocked_step cid c :
  rewrites cid (fun c' => match from_campaign c with
    | None => c'
    | Some s => match current_window moment (Some s) with
        | Some (a, b) => (if c_status c == Active then id else fun c' => c' <| c_status := Active |>)
                           (c' <| c_window_start := Some a |> <| c_window_end := Some b |>)
        | None => if negb (c_status c == Active) then c'
                  else c' <| c_status := if is_finished moment (Some s) then Done else Scheduled |>
        end end)
    (match from_campaign c with
    | None => ret tt
    | Some schedule =>
        moment <- now ;;
        match current_window moment (Some schedule) with
        | Some (start, end_) =>
            put_campaign cid (fun c => c <| c_window_start := Some start |>
                                         <| c_window_end := Some end_ |>) ;;;
            if c_status c == Active then ret tt
            else
              put_campaign cid (fun c => c <| c_status := Active |>) ;;;
              event_ "campaign_window_opened" (Some cid) None
        | None =>
            if negb (c_status c == Active) then ret tt
            else
              later_ <- now ;;
              if is_finished later_ (Some schedule) then
                put_campaign cid (fun c => c <| c_status := Done |>) ;;;
                event_ "campaign_schedule_finished" (Some cid) None
              else
                put_campaign cid (fun c => c <| c_status := Scheduled |>) ;;;
                event_ "campaign_window_closed" (Some cid) None
        end
    end).
Proof.
  destruct (from_campaign c) as [s|]; [|apply rewrites_ret]. apply rewrites_now.
  destruct (current_window moment (Some s)) as [[a b]|].
  - eapply (rewrites_seq cid _ (if c_status c == Active then id else fun c' => c' <| c_status := Active |>));
      [apply rewrites_put|]. destruct (c_status c == Active); [apply rewrites_ret|].
    eapply (rewrites_seq cid _ id); [apply rewrites_put|apply rewrites_event].
  - destruct (negb _); [apply rewrites_ret|]. apply rewrites_now.
    destruct (is_finished _ _); eapply (rewrites_seq cid _ id);
      first [apply rewrites_put | apply rewrites_event].
Qed.

Lemma advance_schedule_woken cid : rewrites cid woken (_advance_schedule cid).
Proof.
  intros w c Hc. unfold _advance_schedule, get_campaign. unfold bind at 1, bind at 1, db_, gets.
  rewrite Hc. cbn [expect]. unfold ret at 1, woken.
  destruct (c_override_until c) as [o|] eqn:Ho.
  - destruct (moment <? o) eqn:Hlt.
    + unfold bind, now, call. rewrite Hclock, Hlt. eexists. split; [done|]. by split.
    + unfold bind at 1, bind at 1, now at 1, call at 1. rewrite Hclock, Hlt.
      match goal with |- context [bind (put_campaign _ _) _ ?w0] =>
        destruct (rewrites_seq cid _ _ _ _ (rewrites_put cid (fun c => c <| c_override_until := None |>))
          (rewrites_seq cid _ _ _ _ (rewrites_event cid "campaign_override_expired" (Some cid) None)
             (clocked_step cid c)) w0 c Hc) as (w' & E & H1 & K) end.
      exists w'. split; [exact E|]. split; [|exact K]. rewrite H1. f_equal. unfold clocked.
      change (from_campaign (c <| c_override_until := None |>)) with (from_campaign c).
      destruct (from_campaign c) as [s|]; [|done].
      destruct (current_window moment (Some s)) as [[a b]|]; cbn [c_status update_field eta_campaign].
      * destruct c as []. cbn in *. case_bool_decide; by subst.
      * by destruct (c_status c == Active).
  - destruct (clocked_step cid c w c Hc) as (w' & E & H1 & K). exists w'. split; [exact E|].
    split; [|exact K]. rewrite H1. f_equal. unfold clocked.
    destruct (from_campaign c) as [s|]; [|done].
    destruct (current_window moment (Some s)) as [[a b]|].
    + destruct c as []. cbn in *. case_bool_decide; by subst.
    + by destruct (c_status c == Active).
Qed.
End still.

(** ** Properties *)

(** What is printed is what is read, and a schedule that was accepted is
    kept: every time of day reads back from its printed form; and when no
    mistake is reported, either both times were left empty and there is no
    schedule, or the campaign has the schedule of those two times, in the zone
    it named. *)
Theorem accepted_schedule_is_kept `{Env} (c : campaign)
    (Hok : errors (c_daily_start c) (c_daily_end c) (c_schedule_timezone c) = []) :
  (forall t, 0 <= t < 1440 -> parse_hhmm (format_hhmm (Some t)) = Some t) /\
  ((c_daily_start c = "" /\ c_daily_end c = "" /\ from_campaign c = None) \/
   exists s, from_campaign c = Some s /\ Some (sc_start s) = parse_hhmm (c_daily_start c) /\
     Some (sc_end s) = parse_hhmm (c_daily_end c) /\ sc_start s <> sc_end s /\ in_day s /\
     (c_schedule_timezone c <> "" -> zone s = c_schedule_timezone c)).
Proof.
  split.
  - intros t Ht.
    assert (forallb (fun n => parse_hhmm (format_hhmm (Some (Z.of_nat n))) == Some (Z.of_nat n))
              (seq 0 1440) = true) as Hall by (vm_compute; reflexivity).
    rewrite forallb_forall in Hall. specialize (Hall (Z.to_nat t)).
    rewrite Z2Nat.id in Hall by lia. apply (bool_decide_eq_true_1 _), Hall, in_seq. lia.
  - pose proof (from_campaign_in_day c) as Hday.
    unfold errors in Hok. unfold from_campaign in *.
    apply app_eq_nil in Hok as [E1 [E2 [E3 [E4 E5]%app_eq_nil]%app_eq_nil]%app_eq_nil].
    destruct (parse_hhmm (c_daily_start c)) as [a|] eqn:Ea, (parse_hhmm (c_daily_end c)) as [b|] eqn:Eb.
    + right. destruct (a =? b) eqn:Eab; [done|]. eexists. split; [done|]. cbn.
      split_and!; [done|done|lia|by apply Hday|]. intros Hz. unfold zone. cbn.
      apply String.eqb_neq in Hz. unfold or_string. rewrite Hz in *. cbn in E5.
      by destruct (zone_known (c_schedule_timezone c)).
    + exfalso. apply parse_hhmm_nonblank in Ea. cbn in E1, E3. rewrite Ea in E1.
      destruct (String.eqb (c_daily_end c) "") eqn:Ee; [|done]. apply String.eqb_eq in Ee. by rewrite Ee in E1.
    + exfalso. apply parse_hhmm_nonblank in Eb. cbn in E1, E2. rewrite Eb in E1.
      destruct (String.eqb (c_daily_start c) "") eqn:Ee; [|done]. apply String.eqb_eq in Ee. by rewrite Ee in E1.
    + left. cbn in E2, E3. destruct (String.eqb (c_daily_start c) "") eqn:Es; [|done].
      destruct (String.eqb (c_daily_end c) "") eqn:Ee; [|done].
      split_and!; [by apply String.eqb_eq|by apply String.eqb_eq|done].
Qed.

(** C14: the clock finds the right window.  The current window is an occurrence
    that contains the moment and starts no later than the schedule's end; with
    no end, it is found whenever the moment lies in the occurrence of any day
    at all.  The next window starts after the moment, and no occurrence starts
    between; with no end there is always one, so a standing schedule never
    finishes. *)
Theorem windows_are_exact `{ZoneLaws} (c : campaign) (s : Schedule) (moment : Z)
    (Hs : from_campaign c = Some s) :
  (forall w, current_window moment (Some s) = Some w ->
     w.1 <= moment < w.2 /\ (exists day, w = _occurrence s day) /\
     forall until, sc_until s = Some until -> w.1 <= until) /\
  (forall w, next_window moment (Some s) = Some w ->
     moment < w.1 /\ (exists day, w = _occurrence s day) /\
     forall day, moment < (_occurrence s day).1 -> w.1 <= (_occurrence s day).1) /\
  (sc_until s = None ->
     (is_Some (current_window moment (Some s)) <->
      exists day, (_occurrence s day).1 <= moment < (_occurrence s day).2) /\
     is_Some (next_window moment (Some s)) /\ is_finished moment (Some s) = false).
Proof.
  apply from_campaign_in_day in Hs. cbn [current_window next_window mbind option_bind].
  assert (sc_until s = None -> is_Some (next_window moment (Some s))) as Hnext.
  { intros Hu. apply window_where_none with (day := zone_day (zone s) moment + 1); [done|..].
    - apply candidate_days_spec. lia.
    - apply Z.ltb_lt. apply Z.nle_gt. intros Hle. pose proof (occurrence_started s _ _ Hs Hle). lia. }
  split_and!.
  - intros w (Hp & before & day & after & _ & -> & _ & Hu)%window_where_found. unfold contains_moment in Hp.
    split; [lia|]. split; [by exists day|]. intros u Eu. by rewrite Eu in Hu.
  - intros w (Hp & before & day & after & El & -> & Hb & _)%window_where_found. apply Z.ltb_lt in Hp.
    split; [done|]. split; [by exists day|]. intros d' Hd'.
    assert (day ∈ _candidate_days s moment) as Hd%candidate_days_spec
      by (rewrite El; apply elem_of_app; right; left).
    pose proof (occurrence_ahead s day _ Hs Hp). pose proof (occurrence_ahead s d' _ Hs Hd').
    destruct (Z.le_gt_cases day d') as [Hle|Hgt]; [by apply occurrence_order|].
    (* only today and tomorrow are left, and today was looked at first *)
    exfalso. assert (zone_day (zone s) moment ∈ before) as Ht%Hb.
    { unfold _candidate_days in El. destruct before as [|x [|y before]]; cbn in El.
      - injection El. lia.
      - injection El. lia.
      - injection El as <- <- _. right. left. }
    assert (d' = zone_day (zone s) moment) as -> by lia. lia.
  - intros Hu. split; [|split; [by apply Hnext|]].
    + split.
      * intros [w (Hp & before & day & after & _ & -> & _)%window_where_found].
        exists day. unfold contains_moment in Hp. lia.
      * intros [day Hday]. apply window_where_none with (day := day); [done| |unfold contains_moment; lia].
        apply candidate_days_spec.
        pose proof (occurrence_started s day moment Hs (proj1 Hday)).
        pose proof (occurrence_open s day moment Hs (proj2 Hday)). lia.
    + unfold is_finished. destruct (Hnext Hu) as [w ->]. apply andb_false_r.
Qed.

Section still_loop.
Context `{Env} (moment : Z) (Hclock : forall n, clock n = moment).

Lemma schedules_loop (l : list campaign) w :
  NoDup (map c_id l) -> (forall c, c ∈ l -> d_campaigns (w_db w) !! c_id c = Some c) ->
  exists w', for_each l (fun c => _advance_schedule (c_id c)) w = (inr tt, w') /\
    (forall c, c ∈ l -> d_campaigns (w_db w') !! c_id c = Some (woken moment c)) /\
    (forall k, k ∉ map c_id l -> d_campaigns (w_db w') !! k = d_campaigns (w_db w) !! k).
Proof.
  revert w. induction l as [|c l IH]; intros w Hnd Hl; cbn [for_each].
  { exists w. split; [done|]. split; [by intros c ?%not_elem_of_nil|done]. }
  cbn in Hnd. apply NoDup_cons in Hnd as [Hc Hnd].
  destruct (advance_schedule_woken moment Hclock (c_id c) w c) as (w1 & E1 & H1 & K1); [apply Hl; left|].
  destruct (IH w1 Hnd) as (w2 & E2 & H2 & K2).
  { intros c' Hc'. rewrite K1; [apply Hl; by right|]. intros E. apply Hc. rewrite <-E.
    by apply list_elem_of_fmap_2. }
  exists w2. unfold bind. rewrite E1. split; [done|]. split.
  - intros c' [->|Hc']%elem_of_cons; [by rewrite K2|by apply H2].
  - intros k Hk. cbn in Hk. rewrite not_elem_of_cons in Hk. destruct Hk as [Hne Hk]. by rewrite K2, K1.
Qed.
End still_loop.

(** The clock wakes campaigns and stands them down, and overrules nobody.
    While the clock stands at one moment: a campaign that is neither scheduled
    nor active (a paused, finished or draft one) and one whose override is live
    keep their row; of the others, one with a schedule is active afterwards
    exactly when a window of it is open, with that window on its row, and done
    only when none is open and none will open; one without keeps its status. *)
Theorem schedules_follow_the_clock `{Env} (moment : Z) (w : world)
    (Hclock : forall n, clock n = moment)
    (Hkeys : forall k c, d_campaigns (w_db w) !! k = Some c -> c_id c = k) :
  exists w', _advance_campaign_schedules w = (inr tt, w') /\
  forall k c, d_campaigns (w_db w) !! k = Some c ->
    exists c', d_campaigns (w_db w') !! k = Some c' /\
    (c_status c <> Scheduled -> c_status c <> Active -> c' = c) /\
    (forall o, c_override_until c = Some o -> moment < o -> c' = c) /\
    ((c_status c = Scheduled \/ c_status c = Active) ->
     (forall o, c_override_until c = Some o -> o <= moment) ->
     (from_campaign c = None -> c_status c' = c_status c) /\
     forall s, from_campaign c = Some s ->
       (c_status c' = Active <-> is_Some (current_window moment (Some s))) /\
       (c_status c' = Done -> is_finished moment (Some s) = true) /\
       forall a b, current_window moment (Some s) = Some (a, b) ->
         c_window_start c' = Some a /\ c_window_end c' = Some b).
Proof.
  unfold _advance_campaign_schedules, bind, db_, gets.
  set (l := campaigns_in (w_db w) [Scheduled; Active]).
  assert (forall c, c ∈ l <-> d_campaigns (w_db w) !! c_id c = Some c /\
            (c_status c = Scheduled \/ c_status c = Active)) as Hl.
  { intros c. subst l. unfold campaigns_in. rewrite elem_of_where, elem_of_rows_z, bool_decide_eq_true,
      !elem_of_cons, elem_of_nil. split.
    - intros [[k Hk] Hs]. rewrite (Hkeys _ _ Hk). tauto.
    - intros [Hk Hs]. split; [eauto|tauto]. }
  destruct (schedules_loop moment Hclock l w) as (w' & E & H1 & K1).
  { by apply NoDup_map_where, rows_ids. }
  { by intros c [Hc _]%Hl. }
  exists w'. split; [exact E|]. intros k c Hc. pose proof (Hkeys _ _ Hc) as <-.
  assert (c ∈ l \/ c_id c ∉ map c_id l) as [Hin|Hout].
  { destruct (decide (c_status c = Scheduled \/ c_status c = Active)); [left; by apply Hl|right].
    intros (c2 & E2 & [Hc2 Hs2]%Hl)%list_elem_of_fmap. rewrite <-E2 in Hc2. congruence. }
  2: { exists c. rewrite K1 by done. split_and!; [done|done|done|]. intros Hs _.
       destruct Hout. apply list_elem_of_fmap_2. by apply Hl. }
  exists (woken moment c). split; [by apply H1|]. apply Hl in Hin as [_ Hst]. split; [|split].
  - intros. by destruct Hst.
  - intros o Ho Hlt. unfold woken. rewrite Ho. by apply Z.ltb_lt in Hlt as ->.
  - intros _ Hov.
    assert (exists c0, woken moment c = clocked moment c0 /\ c_status c0 = c_status c /\
              from_campaign c0 = from_campaign c) as (c0 & -> & Es & Ef).
    { unfold woken. destruct (c_override_until c) as [o|] eqn:Ho; [|by exists c].
      specialize (Hov o eq_refl). apply Z.ltb_ge in Hov as ->. by eexists. }
    unfold clocked. rewrite Ef. split; [by intros ->|]. intros s ->.
    destruct (current_window moment (Some s)) as [[a b]|] eqn:Ew.
    + split; [split; [eauto|done]|]. split; [done|]. by intros a' b' [= <- <-].
    + rewrite Es. destruct (c_status c == Active) eqn:Ea.
      * destruct (is_finished moment (Some s)); split_and!; done.
      * apply bool_decide_eq_false_1 in Ea. rewrite <-Es in Hst. destruct Hst as [Hst|]; [|congruence].
        rewrite Hst. split_and!; done.
Qed.

(** ** Witnesses: nights from 23:00 to 08:00 UTC *)
Definition nightly : campaign :=
  sample_campaign <| c_daily_start := "23:00" |> <| c_daily_end := "08:00" |>
    <| c_schedule_timezone := "UTC" |> <| c_status := Scheduled |>.
Definition two_at_night : Z := 10 * sample_day + 7200000000.

#[local] Instance sample_zone_laws : ZoneLaws (H := sample_env).
Proof.
  split; cbn; unfold sample_day.
  - intros _ day t Ht. rewrite Z.div_add_l by lia. rewrite Z.div_small by lia. lia.
  - intros _ a b Hab. apply Z.div_le_mono; lia.
Qed.

Lemma accepted_schedule_is_kept_witness :
  errors (c_daily_start nightly) (c_daily_end nightly) (c_schedule_timezone nightly) = [] /\
  parse_hhmm (format_hhmm (Some 485)) = Some 485.
Proof.
  split; [vm_compute; reflexivity|].
  apply (proj1 (accepted_schedule_is_kept (H := sample_env) nightly eq_refl)). lia.
Defined.

Lemma windows_are_exact_witness :
  exists s, from_campaign nightly = Some s /\
    current_window two_at_night (Some s) = Some (10 * sample_day - 3600000000, 10 * sample_day + 28800000000) /\
    is_finished two_at_night (Some s) = false.
Proof.
  exists (mkSchedule 1380 480 "UTC" None). split; [reflexivity|]. split; [vm_compute; reflexivity|].
  apply (windows_are_exact nightly (mkSchedule 1380 480 "UTC" None) two_at_night); reflexivity.
Defined.

(** Two campaigns at two at night: one sleeps through its window's opening, the
    other is paused. *)
Definition night_db : database :=
  empty_database <| d_campaigns := {[ 1 := nightly; 2 := nightly <| c_id := 2 |> <| c_status := Paused |> ]} |>.

Lemma schedules_follow_the_clock_witness :
  exists w' c1 c2,
    _advance_campaign_schedules (H := env_at (fun _ => two_at_night)) (sample_world night_db) = (inr tt, w') /\
    d_campaigns (w_db w') !! 1 = Some c1 /\ c_status c1 = Active /\
    d_campaigns (w_db w') !! 2 = Some c2 /\ c_status c2 = Paused.
Proof.
  destruct (schedules_follow_the_clock (H := env_at (fun _ => two_at_night)) two_at_night
    (sample_world night_db) (fun _ => eq_refl)) as (w' & E & Hall).
  { intros k c Hk. unfold sample_world, night_db in Hk. cbn in Hk. revert Hk.
    intros [[<- <-]|[_ [<- <-]%lookup_singleton_Some]]%lookup_insert_Some; reflexivity. }
  destruct (Hall 1 nightly eq_refl) as (c1 & H1 & _ & _ & Hopen).
  destruct (Hall 2 (nightly <| c_id := 2 |> <| c_status := Paused |>) eq_refl) as (c2 & H2 & Hpaused & _).
  exists w', c1, c2. split; [exact E|]. split; [exact H1|]. split.
  - destruct (Hopen (or_introl eq_refl)) as [_ Hs]; [discriminate|].
    apply (Hs (mkSchedule 1380 480 "UTC" None) eq_refl). vm_compute. eexists. reflexivity.
  - split; [exact H2|]. rewrite Hpaused; [reflexivity|discriminate|discriminate].
Defined.
