(* ===== verification/Sessions.v ===== *)
(** One policy container's night on one machine
    ([app/control/orchestrator/policy_session.py:PolicySessionEngine]):

      PENDING -> STARTING -> SEARCHING -> FINALIZING -> VALIDATING -> DONE

    or FAILED or ABORTED.  A session is advanced by at most one step per tick.
    [Reserve] holds its half of the machine queue, [Nights] its clock.

    Starting the container commits first, so that the policy's first request
    finds its token: that step runs in the transaction monad [Tx], every other
    one in the supervisor's.  Left out: reading the engine image's vocabulary in
    the background, which writes tables of its own; what a log says of a dead
    container beyond its tail; deviations and environment snapshots. *)
From Stdlib Require Import Ascii.
From S2P Require Import Prelude Float Values Documents Space Validation Failures Logs Model States Packing Timing.
From S2P Require Import World Samples Occupancy Fleet Exclusive Finish Placement Nights Reserve.
From S2P Require Import Runs Advance Clock.
#[local] Open Scope string_scope.
#[local] Open Scope list_scope.
#[local] Open Scope Z_scope.

(** ** What a policy's container is launched with *)
Definition MODEL_MOUNT : string := "/model".

Definition policy_volumes (c : campaign) (p : policy) : dict :=
  if default true (po_needs_model p)
  then dict_update [(c_model_path c, MODEL_MOUNT +:+ ":ro")] (c_extra_volumes c)
  else c_extra_volumes c.

(** [text.replace(old, new)] for a non-empty [old]; [skip] characters of an
    occurrence are still to be dropped. *)
Fixpoint replace_from (old new : text) (skip : nat) (l : text) : text :=
  match l with
  | [] => []
  | c :: l' =>
      match skip with
      | S k => replace_from old new k l'
      | O => if starts_with old l then new ++ replace_from old new (length old - 1) l'
             else c :: replace_from old new 0 l'
      end
  end.
Definition str_replace (old new s : string) : string :=
  of_chars (replace_from (chars old) (chars new) 0 (chars s)).

(** The token, then every secret, longest first. *)
Definition redact_secrets (command token : string) (secrets : dict) : string :=
  let out := if String.eqb token "" then command else str_replace token "atk_[redacted]" command in
  foldl (fun out kv => if String.eqb kv.2 "" then out
                       else str_replace kv.2 ("[" +:+ kv.1 +:+ " redacted]") out) out
    (sort_by (fun a b => (String.length b.2 <? String.length a.2)%nat) secrets).

(** [s.rstrip("/")]. *)
Definition rstrip_slash (s : string) : string :=
  of_chars (reverse (drop_while (fun c => code c =? 47) (reverse (chars s)))).

Definition llm_endpoint_env (db : database) (p : policy) (secret : bool) : dict :=
  match po_llm_endpoint_id p ≫= fun id => d_endpoints db !! id with
  | None => []
  | Some e =>
      if secret then if String.eqb (le_api_key e) "" then [] else [("LLM_API_KEY", le_api_key e)]
      else [("LLM_BASE_URL", rstrip_slash (strip (le_base_url e))); ("LLM_MODEL", le_model e)]
  end.

Definition policy_secrets (db : database) (p : policy) : dict :=
  dict_update (po_secret_env p) (llm_endpoint_env db p true).

Definition policy_env (db : database) (p : policy) (api_url token : string) (sid : Z) : dict :=
  foldl dict_update [("PYTHONUNBUFFERED", "1")]
    [po_env p; llm_endpoint_env db p false; policy_secrets db p;
     [("AUTOTUNE_API_URL", api_url); ("AUTOTUNE_API_KEY", token); ("AUTOTUNE_SESSION_ID", pretty sid)]].

(** The message of an exception that [except RuntimeError] catches. *)
Definition runtime_error (e : exn) : option string :=
  match e with
  | RuntimeError msg | LaunchDeferred msg _ _ _ | EvaluatorBusy msg | EvaluatorRejected msg => Some msg
  | _ => None
  end.

Section sessions.
Context `{Env}.

Definition policy_log_path (sid : Z) : string :=
  path_join run_log_dir ("policy-session-" +:+ pretty sid +:+ ".log").

(** How a policy on this machine calls home; "" when it cannot. *)
Definition api_url_for (m : machine) : string :=
  if negb (String.eqb internal_api_url "") && String.eqb (m_driver m) "k8s" && own_cluster m
  then internal_api_url else public_api_url.

Definition get_session (sid : Z) : W policy_session := db <- db_ ;; expect (d_sessions db !! sid).
Definition get_contender (id : Z) : W contender := db <- db_ ;; expect (d_contenders db !! id).
Definition contender_is (id : Z) (st : ContenderStatus) : W unit :=
  put_contender id (fun c => c <| pc_status := st |>).
Definition contender_skip (id : Z) (reason : string) : W unit :=
  put_contender id (fun c => c <| pc_status := Skipped |> <| pc_skip_reason := reason |>).

(** [db.get(Machine, session.machine_id) if session.machine_id else None]. *)
Definition session_machine (db : database) (s : policy_session) : option machine :=
  match ps_machine_id s with
  | None | Some 0 => None
  | Some mid => d_machines db !! mid
  end.

(** ** Its container *)
Definition workload_handle (m : option machine) (s : policy_session) : option handle :=
  match m with
  | Some m => if String.eqb (ps_container_name s) "" then None
              else Some (Handle (m_id m) "" (ps_container_name s) true)
  | None => None
  end.

(** [_workload_handle]. *)
Definition _workload_handle (db : database) (s : policy_session) : option handle :=
  workload_handle (session_machine db s) s.

(** An ssh hiccup must not read as the container being gone. *)
Definition _workload_state (s : policy_session) (m : option machine) : W WorkloadState :=
  match workload_handle m s with
  | None => ret WorkGone
  | Some h => try_ (call [] (fun n => drv_workload_state n h))
                (fun e => match runtime_error e with Some _ => ret WorkRunning | None => raise e end)
  end.

Definition _workload_failure (s : policy_session) (m : option machine) : W (option (string * string)) :=
  match workload_handle m s with
  | None => ret None
  | Some h => logged (call [] (fun n => drv_failure_reason n h)) None
  end.

(** An empty read keeps what was saved before. *)
Definition _store_policy_log (sid : Z) (log_text : string) : W unit :=
  if blank log_text then ret tt
  else
    s <- get_session sid ;;
    previous <- call [] (fun n => inr (disk_read n (policy_log_path sid))) ;;
    let kept := clip_log (with_head (chars (or_string previous (ps_log_tail s))) (chars log_text))
                         log_file_max_bytes in
    put_session sid (fun s => s <| ps_log_tail := of_chars (last_chars 64000 kept) |>) ;;;
    logged (call [ActWriteLog (policy_log_path sid)]
              (fun n => disk_write n (policy_log_path sid) (of_chars kept))) tt.

Definition _save_policy_log (sid : Z) (h : handle) : W unit :=
  log_text <- logged (log_text <- call [] (fun n => drv_logs n h) ;; ret (Some log_text)) None ;;
  match log_text with Some log_text => _store_policy_log sid log_text | None => ret tt end.

(** What the container last said, read before it is torn down. *)
Definition _capture_death_logs (sid : Z) : W string :=
  s <- get_session sid ;;
  db <- db_ ;;
  log_text <- match _workload_handle db s with
              | None => ret ""
              | Some h => logged (call [] (fun n => drv_logs n h)) ""
              end ;;
  _store_policy_log sid log_text ;;;
  s <- get_session sid ;;
  ret (strip (ps_log_tail s)).

Definition _teardown_workload (sid : Z) : W unit :=
  s <- get_session sid ;;
  db <- db_ ;;
  match _workload_handle db s with
  | None => ret tt
  | Some h =>
      _ <- logged (call [] (fun n => drv_environment n h)) "" ;;
      _save_policy_log sid h ;;;
      logged (call [ActWorkloadStop sid] (fun n => drv_teardown n h)) tt
  end.

(** ** Ending *)
Definition session_runs (db : database) (sid : Z) : list run :=
  where_ (fun r => r_policy_session_id r == Some sid) (rows_z (d_runs db)).

Definition kill_one (reason : string) (listed : run) : W unit :=
  r <- get_run (r_id listed) ;;
  (if String.eqb (r_llmbench_submission_id r) "" then ret tt
   else call [ActBenchCancel (r_llmbench_submission_id r)]
          (fun n => bench_cancel n (r_llmbench_submission_id r))) ;;;
  finish (r_id listed) Killed reason.

Definition _kill_session_runs (sid : Z) (reason : string) : W unit :=
  db <- db_ ;;
  for_each (where_ live_run (session_runs db sid)) (kill_one reason).

(** The session's token. *)
Definition session_key (db : database) (sid : Z) : option api_key :=
  List.find (fun k => ak_policy_session_id k == Some sid) (rows_z (d_api_keys db)).
Definition put_key (id : Z) (f : api_key -> api_key) : W unit :=
  modify_db (fun db => db <| d_api_keys ::= alter f id |>).

Definition _end_campaign_of (sid : Z) : W unit :=
  s <- get_session sid ;;
  db <- db_ ;;
  match d_campaigns db !! ps_campaign_id s with
  | None => ret tt
  | Some c =>
      event_ "policy_session_ended" (Some (c_id c)) None ;;;
      if (c_status c == Active)
         && ((from_campaign c == None) || String.eqb (ps_search_end_reason s) "policy_exhausted")
      then put_campaign (c_id c) (fun c => c <| c_status := Done |>) ;;;
           event_ "campaign_done" (Some (c_id c)) None
      else ret tt
  end.

Definition _terminate (sid : Z) (status : PolicySessionStatus) (error failure_class : string) : W unit :=
  _teardown_workload sid ;;;
  put_session sid (fun s =>
    s <| ps_failure_class := or_string (ps_failure_class s) failure_class |>
      <| ps_error := or_string (ps_error s) (Values.clip 2000 error) |>
      <| ps_status := status |>) ;;;
  db <- db_ ;;
  (match session_key db sid with
   | None => ret tt
   | Some key =>
       moment <- now ;;
       let grace := moment + policy_token_grace_hours * hour in
       put_key (ak_id key) (fun k => k <| ak_expires_at := Some (Z.min (default grace (ak_expires_at key)) grace) |>)
   end) ;;;
  s <- get_session sid ;;
  db <- db_ ;;
  (match session_machine db s with
   | Some m => _release_machine_if_idle (m_id m)
   | None => ret tt
   end) ;;;
  _end_campaign_of sid.

(** Record the failure, then still try to validate what was registered. *)
Definition _fail_toward_validation (sid : Z) (failure_class error : string) : W unit :=
  s <- get_session sid ;;
  error <- (if String.eqb failure_class "container_died" then
              death_logs <- _capture_death_logs sid ;;
              ret (if String.eqb death_logs "" then error
                   else error +:+ of_chars (newline :: chars "--- last container output ---" ++ [newline])
                        +:+ of_chars (join [newline] (last_n 15 (lines_of (chars death_logs)))))
            else ret error) ;;
  put_session sid (fun s =>
    s <| ps_failure_class := or_string (ps_failure_class s) failure_class |>
      <| ps_error := or_string (ps_error s) (Values.clip 2000 error) |>) ;;;
  _kill_session_runs sid ("policy " +:+ failure_class) ;;;
  _teardown_workload sid ;;;
  put_session sid (fun s => s <| ps_status := Validating |>) ;;;
  event_ "policy_session_failed_validating" (Some (ps_campaign_id s)) None.

(** ** PENDING: launch the container on the machine it was given *)

(** What the step has before the container is launched: nothing to do, or the
    container to launch, its token and what to redact. *)
Definition prepare_launch (sid : Z) (c : campaign) : W (option (workload * string * dict)) :=
  s <- get_session sid ;;
  db <- db_ ;;
  if negb api_url_set then
    _terminate sid SessFailed "AUTOTUNE_PUBLIC_API_URL is not set — a policy container cannot call home"
      "config" ;;; ret None
  else
    match d_policies db !! ps_policy_id s, ps_machine_id s with
    | None, _ => _terminate sid SessFailed "policy row deleted" "config" ;;; ret None
    | Some _, None => ret None
    | Some p, Some mid =>
        match d_machines db !! mid with
        | None => _terminate sid SessFailed "reserved machine vanished before launch" "launch" ;;; ret None
        | Some target =>
            let api_url := api_url_for target in
            if String.eqb api_url "" then
              _terminate sid SessFailed
                ("machine " +:+ m_name target +:+ " is not on AutoTune's own cluster, and "
                 +:+ "AUTOTUNE_PUBLIC_API_URL (publicApiUrl) is not set: a policy there "
                 +:+ "cannot call home. Set it to an address that machine reaches.") "config" ;;;
              ret None
            else
              pulled <- try_ (call [ActPullImage mid (po_image p)]
                                (fun n => drv_ensure_image n target (po_image p)) ;;; ret None)
                          (fun e => ret (Some e)) ;;
              match pulled with
              | Some (LaunchDeferred msg _ _ _) =>
                  put_session sid (fun s => s <| ps_policy_message := Values.clip 2000 msg |>) ;;; ret None
              | Some e =>
                  match runtime_error e with
                  | Some msg => _terminate sid SessFailed (Values.clip 2000 msg) "launch" ;;; ret None
                  | None => raise e
                  end
              | None =>
                  put_session sid (fun s => s <| ps_policy_message := "" |>) ;;;
                  '(token, prefix, key_hash) <- call [] (fun n => inr (mint n)) ;;
                  moment <- now ;;
                  modify_db (fun db => db <| d_api_keys ::= <[ next_key (d_api_keys db) :=
                    ApiKey (next_key (d_api_keys db)) ("policy-session-" +:+ pretty sid) prefix key_hash
                      (c_owner_id c) (Some sid)
                      (Some (token_expiry (hard_deadline c (Some target)) moment)) ]> |>) ;;;
                  ret (Some (WorkloadSpec (ps_container_name s) mid (po_image p)
                               (policy_env db p api_url token sid) (policy_volumes c p)
                               (if po_gpus_in_container p then Some (ps_gpu_indices s) else None)
                               (ps_ports s), token, policy_secrets db p))
              end
        end
    end.

Definition start_container (sid : Z) (c : campaign) (wk : workload) (token : string) (secrets : dict)
    : W unit :=
  launched <- try_ (command <- call [ActWorkloadStart sid] (fun n => drv_launch_workload n wk) ;;
                    ret (inr command))
                (fun e => match runtime_error e with Some msg => ret (inl msg) | None => raise e end) ;;
  match launched with
  | inl msg => _terminate sid SessFailed (Values.clip 2000 msg) "launch"
  | inr command =>
      moment <- now ;;
      put_session sid (fun s => s <| ps_launch_command := redact_secrets command token secrets |>
                                  <| ps_started_at := Some moment |> <| ps_status := Starting |>) ;;;
      put_machine (wk_machine wk) (fun m => m <| m_state := Reserved |>) ;;;
      event_ "policy_session_started" (Some (c_id c)) None
  end.

(** The row and its token are committed before the container starts. *)
Definition _advance_pending_session (sid : Z) (c : campaign) : Tx unit :=
  prepared <- sup (prepare_launch sid c) ;;
  match prepared with
  | None => ret tt
  | Some (wk, token, secrets) => commit ;;; sup (start_container sid c wk token secrets)
  end.

(** ** STARTING: wait for the first heartbeat *)
Definition work_over (st : WorkloadState) : bool := (st == WorkExited) || (st == WorkGone).
Definition workload_state_name (st : WorkloadState) : string :=
  match st with WorkRunning => "running" | WorkExited => "exited" | WorkGone => "gone" end.

Definition _advance_starting_session (sid : Z) (c : campaign) (m : option machine) : W unit :=
  s <- get_session sid ;;
  if bool_decide (is_Some (ps_first_heartbeat_at s)) then
    put_session sid (fun s => s <| ps_status := Searching |>) ;;;
    event_ "policy_session_searching" (Some (c_id c)) None
  else
    state <- _workload_state s m ;;
    waited <- (match ps_started_at s with
               | Some started => moment <- now ;; ret (moment - started)
               | None => ret 0
               end) ;;
    failure <- _workload_failure s m ;;
    if work_over state then
      _fail_toward_validation sid "container_died"
        ("policy container " +:+ workload_state_name state +:+ " before its first heartbeat")
    else
      match match failure with
            | Some (cls, msg) => if is_transient_placement cls then None else Some (cls, msg)
            | None => None
            end with
      | Some (cls, msg) =>
          _fail_toward_validation sid cls ("policy container cannot start: " +:+ msg)
      | None =>
          if policy_start_timeout_minutes * minute <? waited then
            _fail_toward_validation sid "ready_timeout"
              ("no heartbeat after " +:+ pretty policy_start_timeout_minutes
               +:+ " min — is AUTOTUNE_API_URL reachable from the machine?")
          else ret tt
      end.

(** ** SEARCHING: the policy explores *)
Definition _begin_finalizing (sid : Z) (c : campaign) (reason : string) : W unit :=
  s <- get_session sid ;;
  (if bool_decide (is_Some (ps_finalize_requested_at s)) then ret tt
   else moment <- now ;; put_session sid (fun s => s <| ps_finalize_requested_at := Some moment |>)) ;;;
  put_session sid (fun s => s <| ps_search_end_reason := or_string (ps_search_end_reason s) reason |>
                              <| ps_status := Finalizing |>) ;;;
  event_ "policy_session_finalizing" (Some (c_id c)) None.

(** When a run of the session last did anything. *)
Definition last_run_at (db : database) (sid : Z) : option Z :=
  match map (fun r => default (default (r_created_at r) (r_started_at r)) (r_finished_at r))
            (session_runs db sid) with
  | [] => None
  | t :: rest => Some (foldl Z.max t rest)
  end.

Definition idle_timeout (c : campaign) : Z :=
  second * default policy_search_idle_seconds (or_opt (st_search_idle_timeout_s (settings_of c)) None).

(** The last sign of work, no earlier than just past the timeout. *)
Definition idle_reference (db : database) (s : policy_session) (moment timeout : Z) : Z :=
  foldl Z.max (moment - (timeout + second))
    (option_list (ps_last_activity_at s) ++ option_list (last_run_at db (ps_id s))
     ++ option_list (ps_started_at s)).

Definition _idle_watchdog (sid : Z) (c : campaign) : W unit :=
  s <- get_session sid ;;
  db <- db_ ;;
  let timeout := idle_timeout c in
  match where_ live_run (session_runs db sid) with
  | _ :: _ => ret tt
  | [] =>
      moment <- now ;;
      let reference := idle_reference db s moment timeout in
      if moment - reference <? timeout then ret tt
      else if moment - default reference (ps_last_idle_strike_at s) <? timeout then ret tt
      else
        let strikes := ps_idle_strikes s + 1 in
        put_session sid (fun s => s <| ps_idle_strikes := strikes |>
                                    <| ps_last_idle_strike_at := Some moment |>) ;;;
        event_ "policy_session_idle_strike" (Some (c_id c)) None ;;;
        if st_search_idle_strikes (settings_of c) <=? strikes
        then _begin_finalizing sid c "policy_idle" else ret tt
  end.

Definition _advance_searching (sid : Z) (c : campaign) (m : option machine) : W unit :=
  s <- get_session sid ;;
  state <- _workload_state s m ;;
  if work_over state then
    put_session sid (fun s => s <| ps_search_end_reason := "container_died" |>) ;;;
    _fail_toward_validation sid "container_died"
      ("policy container " +:+ workload_state_name state +:+ " mid-search")
  else
    moment <- now ;;
    let silence := heartbeat_silence s moment in
    if 2 * (heartbeat_timeout_seconds c * second) <? silence then
      put_session sid (fun s => s <| ps_search_end_reason := "policy_wedged" |>) ;;;
      _fail_toward_validation sid "policy_wedged"
        ("container alive but no heartbeat for " +:+ pretty (silence / second) +:+ "s")
    else if String.eqb (ps_policy_status s) "exhausted" then _begin_finalizing sid c "policy_exhausted"
    else if String.eqb (ps_policy_status s) "error" then
      put_session sid (fun s =>
        s <| ps_failure_class := or_string (ps_failure_class s) "policy_gave_up" |>
          <| ps_error := or_string (ps_error s) "policy reported an internal error" |>) ;;;
      _begin_finalizing sid c "policy_error"
    else
      moment <- now ;;
      if bool_decide (is_Some (ps_finalized_at s)) || bool_decide (is_Some (ps_finalize_requested_at s))
         || reached moment (search_deadline c m)
      then _begin_finalizing sid c
             (if bool_decide (is_Some (ps_finalize_requested_at s)) then "explicit" else "deadline")
      else _idle_watchdog sid c.

(** ** FINALIZING: wait for the policy to wind down *)
Definition _advance_finalizing (sid : Z) (c : campaign) (m : option machine) : W unit :=
  s <- get_session sid ;;
  asked <- (match ps_finalize_requested_at s with Some t => ret t | None => now end) ;;
  moment <- now ;;
  let graceful := bool_decide (is_Some (ps_finalized_at s)) in
  let expired := policy_finalize_grace_seconds * second <? moment - asked in
  state <- _workload_state s m ;;
  let dead := work_over state in
  if negb (graceful || expired || dead) then ret tt
  else
    _kill_session_runs sid "session finalizing" ;;;
    (if dead && negb graceful then
       put_session sid (fun s =>
         s <| ps_failure_class := or_string (ps_failure_class s) "container_died" |>
           <| ps_error := or_string (ps_error s) "policy container died before finalizing" |>)
     else ret tt) ;;;
    put_session sid (fun s => s <| ps_status := Validating |>) ;;;
    event_ "policy_session_validating" (Some (c_id c)) None.

(** ** VALIDATING: measure every contender, and production next to them *)
Definition contenders_of (db : database) (sid : Z) : list contender :=
  sort_by (key_before (fun c => [pc_rank c; pc_id c]))
    (where_ (fun c => pc_session_id c =? sid) (rows_z (d_contenders db))).

Definition in_status (st : ContenderStatus) (c : contender) : bool := pc_status c == st.

(** [None] for no key and for the key 0. *)
Definition nonzero_key (o : option Z) : option Z :=
  match o with Some 0 | None => None | Some k => Some k end.

Definition stop_serving (sid id : Z) : W unit :=
  put_session sid (fun s => if ps_serving_contender_id s == Some id
                            then s <| ps_serving_contender_id := None |> else s).

(** A contender being measured whose run has landed, or that its policy never
    served. *)
Definition resolve_one (sid : Z) (c : campaign) (id : Z) : W unit :=
  s <- get_session sid ;;
  k <- get_contender id ;;
  db <- db_ ;;
  match nonzero_key (pc_run_id k) ≫= fun rid => d_runs db !! rid with
  | None =>
      if ps_serving_contender_id s == Some id then
        commanded <- (match pc_serve_commanded_at k with Some t => ret t | None => now end) ;;
        moment <- now ;;
        let budget := (policy_finalize_grace_seconds + ready_timeout_minutes c * 60) * second in
        if budget <? moment - commanded then
          contender_skip id "policy never served it" ;;; stop_serving sid id
        else ret tt
      else ret tt
  | Some r =>
      if negb (terminal_run (r_status r)) then ret tt
      else
        (if r_status r == Succeeded then contender_is id Validated
         else if bool_decide (is_Some (r_waiting_since r))
         then contender_skip id "the cluster had no free cards for it before the night ended"
         else contender_is id ContFailed) ;;;
        stop_serving sid id ;;;
        event_ "policy_contender_validated" (Some (c_id c)) (Some (r_id r))
  end.

Definition _reference_run (db : database) (sid : Z) : option run :=
  head (where_ (fun r => match d_candidates db !! r_candidate_id r with
                         | Some cd => cd_is_baseline cd
                         | None => false
                         end) (session_runs db sid)).

(** [production_for(...).config]. *)
Definition _production_config (db : database) (c : campaign) (m : option machine) : config :=
  let recorded := resolve_baseline db (c_served_model_name c) (c_engine c) (_campaign_card_type db c m) in
  prune_inactive (match recorded with Some b => b_engine_args b | None => ∅ end ∪ s_base (c_search_space c))
    (c_search_space c).

Definition empty_config (cfg : config) : bool := bool_decide (cfg = ∅).

Definition _platform_launchable (c : campaign) (k : contender) : bool :=
  if negb (String.eqb (pc_image k) "") && negb (String.eqb (pc_image k) (c_image c)) then false
  else negb (empty_config (pc_engine_args k)).

(** The candidate and the run of a validation; [k] is [None] for production. *)
Definition add_validation (sid : Z) (c : campaign) (k : option contender) (cfg : config)
    (mid : option Z) (cards : list Z) (port : Z) : W (Z * Z) :=
  cdid <- new_candidate (c_id c) cfg
            (match k with
             | Some k => pc_config_hash k
             | None => "production-" +:+ config_hash cfg
             end) Exhausted None Verification (bool_decide (k = None)) None ;;
  (* the flush refuses a machine that is no row *)
  (match mid with Some mid => _ <- get_machine mid ;; ret tt | None => ret tt end) ;;;
  started <- now ;;
  created <- now ;;
  rid <- add_run (blank_run <| r_campaign_id := c_id c |> <| r_candidate_id := cdid |>
                            <| r_machine_id := mid |> <| r_gpu_indices := cards |>
                            <| r_service_port := port |> <| r_policy_session_id := Some sid |>
                            <| r_started_at := Some started |> <| r_created_at := created |>) ;;
  ret (cdid, rid).

(** What is on a machine that a launch must keep off. *)
Definition blockers_on (db : database) (mid : option Z) : list run :=
  match mid with
  | Some mid => match d_machines db !! mid with
                | Some m => holding_runs db (m_id m)
                | None => []
                end
  | None => []
  end.

(** A port of the session's block nobody holds, or any port no other session
    reserved. *)
Definition validation_port (db : database) (s : policy_session) (c : campaign) (blockers : list run) : Z :=
  let held := without_zero (map r_service_port blockers) in
  match List.find (fun p => negb (bool_decide (p ∈ held))) (ps_ports s) with
  | Some p => p
  | None => _free_port db c blockers (_ports_reserved_by_others db s)
  end.

(** [false], changing nothing, when the session has no free cards for it
    yet. *)
Definition _launch_validation_run (sid : Z) (c : campaign) (k : option contender) (cfg : config)
    : W bool :=
  s <- get_session sid ;;
  db <- db_ ;;
  if empty_config cfg && (bool_decide (is_Some k) || negb (c_has_recipe c)) then
    (match k with
     | Some k => contender_skip (pc_id k) "the platform cannot launch this contender's spec"
     | None => ret tt
     end) ;;; ret true
  else
    let blockers := blockers_on db (ps_machine_id s) in
    cards_campaign <- expect (d_campaigns db !! ps_campaign_id s) ;;
    match _validation_cards s cfg blockers cards_campaign with
    | None => ret false
    | Some cards =>
        let port := validation_port db s c blockers in
        '(cdid, rid) <- add_validation sid c k cfg (ps_machine_id s) cards port ;;
        (match k with
         | Some k => put_contender (pc_id k) (fun k =>
                       k <| pc_status := BeingServed |> <| pc_candidate_id := Some cdid |>
                         <| pc_run_id := Some rid |>)
         | None => ret tt
         end) ;;;
        event_ (match k with
                | Some _ => "policy_contender_platform_launch"
                | None => "policy_production_validation_launch"
                end) (Some (c_id c)) (Some rid) ;;;
        ret true
    end.

(** One contender of the queue: [true] when it, and those behind it, wait. *)
Definition launch_contender (sid : Z) (c : campaign) (m : option machine) (k : contender) : W bool :=
  if _platform_launchable c k then
    launched <- _launch_validation_run sid c (Some k) (pc_engine_args k) ;;
    ret (negb launched)
  else
    s <- get_session sid ;;
    state <- _workload_state s m ;;
    moment <- now ;;
    if (state == WorkRunning)
       && (heartbeat_silence s moment <? 2 * (heartbeat_timeout_seconds c * second)) then
      (if bool_decide (is_Some (ps_serving_contender_id s)) then ret tt
       else
         put_contender (pc_id k) (fun k => k <| pc_status := BeingServed |>
                                             <| pc_serve_commanded_at := Some moment |>) ;;;
         put_session sid (fun s => s <| ps_serving_contender_id := Some (pc_id k) |>) ;;;
         event_ "policy_contender_serve_commanded" (Some (c_id c)) None) ;;;
      ret true
    else
      contender_skip (pc_id k) "the platform cannot launch this spec and the policy is gone" ;;;
      ret false.

(** The loop over the queue stops at the first that waits. *)
Fixpoint launch_queue (sid : Z) (c : campaign) (m : option machine) (queue : list contender) : W bool :=
  match queue with
  | [] => ret false
  | k :: rest =>
      waits <- launch_contender sid c m k ;;
      if waits : bool then ret true else launch_queue sid c m rest
  end.

Definition _launch_validations (sid : Z) (c : campaign) (m : option machine) (pending : list contender)
    (want_reference : bool) : W bool :=
  s <- get_session sid ;;
  db <- db_ ;;
  let m := match nonzero_key (ps_machine_id s) with Some mid => d_machines db !! mid | None => m end in
  let started := existsb (fun k => bool_decide (is_Some (nonzero_key (pc_run_id k)))) pending
                 || bool_decide (is_Some (_reference_run db sid)) in
  let launched_any := existsb (fun r => r_kind r == Experiment) (session_runs db sid) in
  if negb started && negb launched_any
     && match m with Some m => _teardown_blocking db s c m | None => false end
  then ret true
  else
    moment <- now ;;
    if match hard_deadline c m with
       | Some hard => hard <? moment + contender_minutes c * minute
       | None => false
       end
    then
      for_each pending (fun k => contender_skip (pc_id k) "out of clock before validation") ;;;
      ret false
    else
      waits <- (if want_reference then
                  db <- db_ ;;
                  launched <- _launch_validation_run sid c None (_production_config db c m) ;;
                  ret (negb launched)
                else ret false) ;;
      if waits : bool then ret true else launch_queue sid c m pending.

Definition wants_reference (c : campaign) (contenders : list contender) (reference : option run) : bool :=
  st_validate_production (settings_of c) && bool_decide (reference = None)
  && existsb (fun k => bool_decide (pc_status k ∈ [Registered; BeingServed; Validated])) contenders.

Definition _advance_validating (sid : Z) (c : campaign) (m : option machine) : W unit :=
  db <- db_ ;;
  let contenders := contenders_of db sid in
  for_each (where_ (in_status BeingServed) contenders) (fun k => resolve_one sid c (pc_id k)) ;;;
  db <- db_ ;;
  let reference := _reference_run db sid in
  let contenders := contenders_of db sid in
  let want_reference := wants_reference c contenders reference in
  let pending := where_ (in_status Registered) contenders in
  waiting <- (if nonempty pending || want_reference
              then _launch_validations sid c m pending want_reference else ret false) ;;
  if waiting : bool then ret tt
  else
    db <- db_ ;;
    (* [reference] as it was found above *)
    if existsb (in_status BeingServed) (contenders_of db sid)
       || match reference ≫= fun r => d_runs db !! r_id r with
          | Some r => negb (terminal_run (r_status r))
          | None => false
          end
    then ret tt
    else
      s <- get_session sid ;;
      _terminate sid (if String.eqb (ps_failure_class s) "" then SessDone else SessFailed)
        (ps_error s) "".

(** ** One step *)

(** A live session's token lasts as long as its window. *)
Definition _follow_window (sid : Z) (hard : option Z) : W unit :=
  s <- get_session sid ;;
  db <- db_ ;;
  if (ps_status s == SessPending) || terminal_session (ps_status s) then ret tt
  else
    match session_key db sid with
    | None => ret tt
    | Some key =>
        moment <- now ;;
        let want := token_expiry hard moment in
        if ak_expires_at key == Some want then ret tt
        else put_key (ak_id key) (fun k => k <| ak_expires_at := Some want |>)
    end.

(** What every live session is checked for first; [Some] when its own handler is
    still to run. *)
Definition begin_step (sid : Z) : W (option (campaign * option machine * PolicySessionStatus)) :=
  s <- get_session sid ;;
  db <- db_ ;;
  match d_campaigns db !! ps_campaign_id s with
  | None => _terminate sid Aborted "campaign deleted" "" ;;; ret None
  | Some c =>
      let m := session_machine db s in
      if bool_decide (is_Some (ps_abort_requested_at s)) && negb (terminal_session (ps_status s)) then
        _kill_session_runs sid "session aborted" ;;;
        _terminate sid Aborted "aborted by operator" "" ;;;
        ret None
      else
        let hard := hard_deadline c m in
        over <- (match hard with
                 | Some t => moment <- now ;; ret ((t <=? moment) && negb (ps_status s == SessPending))
                 | None => ret false
                 end) ;;
        if over : bool then
          _kill_session_runs sid "window cutoff" ;;;
          s <- get_session sid ;;
          _terminate sid (if String.eqb (ps_failure_class s) "" then SessDone else SessFailed)
            (or_string (ps_error s) "window cutoff") "" ;;;
          ret None
        else
          _follow_window sid hard ;;;
          ret (Some (c, m, ps_status s))
  end.

Definition _advance_session (sid : Z) : Tx unit :=
  step <- sup (begin_step sid) ;;
  match step with
  | None => ret tt
  | Some (c, m, status) =>
      match status with
      | SessPending => _advance_pending_session sid c
      | Starting => sup (_advance_starting_session sid c m)
      | Searching => sup (_advance_searching sid c m)
      | Finalizing => sup (_advance_finalizing sid c m)
      | Validating => sup (_advance_validating sid c m)
      | SessDone | SessFailed | Aborted => ret tt
      end
  end.

Definition live_session (s : policy_session) : bool := negb (terminal_session (ps_status s)).

(** [advance_all]: one bad session does not roll back the tick. *)
Definition _advance_policy_sessions : Tx unit :=
  sup _ensure_sessions ;;;
  db <- sup db_ ;;
  for_each (where_ live_session (rows_z (d_sessions db)))
    (fun s => try_ (_advance_session (ps_id s)) (fun _ => ret tt)).

(** ** Saving the ends of live logs ([Supervisor._snapshot_logs]) *)

(** [with_container]. *)
Definition with_container (db : database) : list policy_session :=
  where_ (fun s => bool_decide (ps_status s ∈ [Starting; Searching; Finalizing])
                   && negb (String.eqb (ps_container_name s) "")) (rows_z (d_sessions db)).

Definition snapshot_log (sid : Z) : W unit :=
  s <- get_session sid ;;
  db <- db_ ;;
  match _workload_handle db s with
  | None => ret tt
  | Some h => log_text <- call [] (fun n => drv_logs n h) ;; _store_policy_log sid log_text
  end.

Definition live_log_keys (db : database) : list log_key :=
  map (fun r => (false, r_id r))
    (where_ (fun r => bool_decide (r_status r ∈ [WaitingReady; HealthCheck; Benching; Serving])
                      && negb (not_ours r)) (rows_z (d_runs db)))
  ++ map (fun s => (true, ps_id s)) (with_container db).

Definition save_one_log (key : log_key) : W unit :=
  moment <- call [] (fun n => inr (monotonic n)) ;;
  modify (fun w => w <| w_snapshots ::= <[ key := moment ]> |>) ;;;
  logged (if key.1 : bool then snapshot_log key.2
          else log_text <- _read_engine_log key.2 ;; _save_run_log key.2 log_text) tt.

Definition _snapshot_logs : W unit :=
  if log_snapshot_seconds <=? 0 then ret tt
  else
    db <- db_ ;;
    moment <- call [] (fun n => inr (monotonic n)) ;;
    saved <- gets w_snapshots ;;
    let '(saved, read) := due saved (live_log_keys db) moment log_snapshot_seconds in
    modify (fun w => w <| w_snapshots := saved |>) ;;;
    for_each read save_one_log.
End sessions.
