(* ===== verification/Datasets.v ===== *)
(** Which dataset build a campaign measures on, and when a dataset takes a new
    sample ([app/datasets/pinning.py], [profiles.py], [refresh.py]); the steps of
    the tick that settle it ([Supervisor._advance_dataset_pins],
    [_choose_dataset_build], [_poll_dataset_build], [_pin_dataset],
    [_conclude_no_dataset], [_refresh_datasets]) and the one that reads a
    cluster's capacity ([_refresh_k8s_capacity], [app/hardware.py]).

    The profile API's answers are the environment's. *)
From S2P Require Import Prelude Float Values Documents Space Validation Failures Model Timing World Samples.
From S2P Require Import Occupancy Finish Placement Runs.
#[local] Open Scope string_scope.
#[local] Open Scope list_scope.
#[local] Open Scope Z_scope.

Definition DATASET_REFRESH_CHECK_SECONDS : Z := 300.
Definition CAPACITY_REFRESH_SECONDS : Z := 300.

(** [DatasetBuild.from_api]: one published build. *)
Record DatasetBuild := mkBuild { db_build_id : string; db_sha256 : string }.
Definition from_api (raw : raw_build) : option DatasetBuild :=
  if String.eqb (rb_build_id raw) "" then None
  else Some (mkBuild (rb_build_id raw) (rb_sha256 raw)).

(** What a submission would replay right now. *)
Definition current (p : profile) : option DatasetBuild := pf_current p ≫= from_api.

Inductive decision := DECIDE_ADOPT | DECIDE_REBUILD | DECIDE_TAKE_CURRENT.

(** Campaigns a rebuild of this build would harm. *)
Definition holders (db : database) (profile_ build_id : string) : list campaign :=
  if String.eqb profile_ "" || String.eqb build_id "" then []
  else where_ (fun c => String.eqb (c_dataset_profile c) profile_
                        && String.eqb (c_dataset_build_id c) build_id
                        && negb (c_status c == Done)) (rows_z (d_campaigns db)).

Definition decide_build (policy : DatasetPolicy) (current_ : option DatasetBuild) (held_by : list campaign)
    : decision :=
  match current_, held_by with
  | None, _ => DECIDE_REBUILD
  | Some _, _ :: _ => DECIDE_ADOPT
  | Some _, [] => match policy with RebuildAtStart => DECIDE_REBUILD | UseCurrent => DECIDE_TAKE_CURRENT end
  end.

(** ** When a sample is due *)
Definition in_flight (p : profile) : bool :=
  match pf_last_build p with
  | Some b => String.eqb (rb_status b) "pending" || String.eqb (rb_status b) "running"
  | None => false
  end.

Definition latest (a b : option Z) : option Z :=
  match a, b with
  | Some x, Some y => Some (Z.max x y)
  | Some x, None => Some x
  | None, _ => b
  end.

Definition hour : Z := 60 * minute.

Definition due_at (refresh_hours : Z) (p : profile) (moment : Z) : option Z :=
  if refresh_hours <=? 0 then None
  else
    let built := pf_current p ≫= rb_built_at in
    let failed := pf_last_build p ≫= fun b => if String.eqb (rb_status b) "failed" then rb_ended_at b else None in
    match latest built failed with
    | None => Some moment
    | Some since => Some (since + refresh_hours * hour)
    end.

Definition is_due (refresh_hours : Z) (p : profile) (moment : Z) : bool :=
  match due_at refresh_hours p moment with
  | Some when_ => negb (in_flight p) && (when_ <=? moment)
  | None => false
  end.

Section datasets.
Context `{Env}.

Definition find_profile (name : string) : W (option profile) :=
  profiles <- call [] ds_list_profiles ;;
  ret (head (where_ (fun p => String.eqb (pf_name p) name) profiles)).

Definition _pin_dataset (cid : Z) (build : DatasetBuild) (applied : DatasetApplied) : W unit :=
  moment <- now ;;
  put_campaign cid (fun c => c <| c_dataset_build_id := db_build_id build |>
                               <| c_dataset_sha256 := db_sha256 build |>
                               <| c_dataset_pinned_at := Some moment |>
                               <| c_dataset_policy_applied := Some applied |>
                               <| c_dataset_build_row := 0 |>) ;;;
  event_ "dataset_pinned" (Some cid) None.

Definition _conclude_no_dataset (cid : Z) : W unit :=
  put_campaign cid (fun c => c <| c_dataset_policy_applied := Some AppliedUnavailable |>
                               <| c_dataset_build_row := 0 |>) ;;;
  event_ "dataset_unavailable" (Some cid) None.

Definition _choose_dataset_build (cid : Z) : W unit :=
  c <- get_campaign cid ;;
  found <- find_profile (c_dataset_profile c) ;;
  match found with
  | None => _conclude_no_dataset cid
  | Some p =>
      db <- db_ ;;
      let held := match current p with
                  | Some b => holders db (c_dataset_profile c) (db_build_id b)
                  | None => []
                  end in
      match decide_build (c_dataset_policy c) (current p) held, current p with
      | DECIDE_ADOPT, Some b => _pin_dataset cid b AppliedAdopted
      | DECIDE_TAKE_CURRENT, Some b => _pin_dataset cid b AppliedCurrent
      | _, _ =>
          asked <- try_ (row <- call [ActTriggerBuild (pf_id p)] (fun n => ds_trigger_build n (pf_id p)) ;;
                         ret (Some row))
                     (fun e => match e with
                               | BuildInFlight =>
                                   row <- call [] (fun n => ds_latest_build_row n (pf_id p)) ;;
                                   ret (if row =? 0 then None else Some row)
                               | _ => raise e
                               end) ;;
          match asked with
          | None => ret tt
          | Some row =>
              put_campaign cid (fun c => c <| c_dataset_build_row := row |>) ;;;
              event_ "dataset_build_requested" (Some cid) None
          end
      end
  end.

Definition _poll_dataset_build (cid : Z) : W unit :=
  c <- get_campaign cid ;;
  build <- call [] (fun n => ds_build n (c_dataset_build_row c)) ;;
  if String.eqb (rb_status build) "pending" || String.eqb (rb_status build) "running" then ret tt
  else
    put_campaign cid (fun c => c <| c_dataset_build_row := 0 |>) ;;;
    match (if String.eqb (rb_status build) "ready" then from_api build else None) with
    | Some published => _pin_dataset cid published AppliedRebuilt
    | None =>
        event_ "dataset_build_failed" (Some cid) None ;;;
        found <- find_profile (c_dataset_profile c) ;;
        match found ≫= current with
        | Some b => _pin_dataset cid b AppliedCurrent
        | None => _conclude_no_dataset cid
        end
    end.

(** Active campaigns that have a profile and have settled nothing yet. *)
Definition unsettled (c : campaign) : bool :=
  (c_status c == Active) && uses_pinning c && negb (is_pinned c) && (c_dataset_policy_applied c == None).

Definition _advance_pin (c : campaign) : W unit :=
  try_ (row <- get_campaign (c_id c) ;;
        if negb (c_dataset_build_row row =? 0) then _poll_dataset_build (c_id c)
        else _choose_dataset_build (c_id c))
       (fun e => match e with
                 | DatasetProfileError _ | BuildInFlight => ret tt
                 | _ => raise e
                 end).

Definition _advance_dataset_pins : W unit :=
  db <- db_ ;;
  for_each (where_ unsettled (rows_z (d_campaigns db))) _advance_pin.

(** ** Refreshing *)

(** [{p["name"]: p}]: of two profiles of one name, the last. *)
Definition profile_named (profiles : list profile) (name : string) : option profile :=
  last (where_ (fun p => String.eqb (pf_name p) name) profiles).

Definition _refresh_one (profiles : list profile) (moment : Z) (row : replay_dataset) : W unit :=
  match profile_named profiles (rd_name row) with
  | None => ret tt
  | Some p =>
      if negb (is_due (rd_refresh_hours row) p moment) then ret tt
      else
        db <- db_ ;;
        if match current p with
           | Some b => negb (bool_decide (holders db (rd_name row) (db_build_id b) = []))
           | None => false
           end
        then ret tt
        else
          asked <- try_ (call [ActTriggerBuild (pf_id p)] (fun n => ds_trigger_build n (pf_id p)) ;;; ret true)
                     (fun e => match e with
                               | BuildInFlight | DatasetProfileError _ => ret false
                               | _ => raise e
                               end) ;;
          if asked : bool then event_ "dataset_refresh_requested" None None else ret tt
  end.

Definition _refresh_datasets : W unit :=
  w <- gets w_datasets_checked_at ;;
  tick_ <- call [] (fun n => inr (monotonic n)) ;;
  if tick_ - w <? DATASET_REFRESH_CHECK_SECONDS then ret tt
  else
    checked <- call [] (fun n => inr (monotonic n)) ;;
    modify (fun w => w <| w_datasets_checked_at := checked |>) ;;;
    db <- db_ ;;
    match where_ (fun row => 0 <? rd_refresh_hours row) (rows_z (d_datasets db)) with
    | [] => ret tt
    | rows =>
        profiles <- logged (l <- call [] ds_list_profiles ;; ret (Some l)) None ;;
        match profiles with
        | None => ret tt
        | Some profiles =>
            moment <- now ;;
            for_each rows (_refresh_one profiles moment)
        end
    end.

(** ** A cluster's capacity *)
Definition record_capacity (moment : Z) (p : probe) (m : machine) : machine :=
  if negb (pr_supported p && (negb (pr_node_count p =? 0) || pr_quota p)) then m
  else
    m <| m_gpu_count := default (m_gpu_count m) (pr_gpu_count p) |>
      <| m_gpu_type := or_string (pr_gpu_type p) (m_gpu_type m) |>
      <| m_node_count := pr_node_count p |>
      <| m_node_gpu_max := pr_node_gpu_max p |>
      <| m_gpu_free := pr_gpu_free p |>
      <| m_capacity_checked_at := Some moment |>.

Definition _refresh_k8s_capacity : W unit :=
  w <- gets w_capacity_checked_at ;;
  tick_ <- call [] (fun n => inr (monotonic n)) ;;
  if tick_ - w <? CAPACITY_REFRESH_SECONDS then ret tt
  else
    checked <- call [] (fun n => inr (monotonic n)) ;;
    modify (fun w => w <| w_capacity_checked_at := checked |>) ;;;
    db <- db_ ;;
    for_each (where_ (fun m => String.eqb (m_driver m) "k8s" && negb (m_state m == Away))
                (rows_z (d_machines db)))
      (fun m => logged (p <- call [] (fun n => drv_probe_capacity n m) ;;
                        moment <- now ;;
                        put_machine (m_id m) (record_capacity moment p)) tt).
End datasets.

(** ** Lemmas *)
Lemma holders_spec db name build c :
  name <> "" -> build <> "" ->
  c ∈ holders db name build <->
  (exists k, d_campaigns db !! k = Some c) /\ c_dataset_profile c = name /\
  c_dataset_build_id c = build /\ c_status c <> Done.
Proof.
  intros Hn Hb. apply String.eqb_neq in Hn as Hn'. apply String.eqb_neq in Hb as Hb'.
  unfold holders. rewrite Hn', Hb'. cbn [orb]. rewrite elem_of_where, elem_of_rows_z, !andb_true_iff,
    !String.eqb_eq, negb_true_iff, bool_decide_eq_false. tauto.
Qed.

Lemma from_api_named raw b : from_api raw = Some b -> db_build_id b <> "".
Proof.
  unfold from_api. destruct (String.eqb (rb_build_id raw) "") eqn:E; [done|]. intros [= <-].
  by apply String.eqb_neq in E.
Qed.

Lemma current_named p b : current p = Some b -> db_build_id b <> "".
Proof. unfold current. destruct (pf_current p); [|done]. apply from_api_named. Qed.

(** A step of the pins touches one campaign's row and no status. *)
Definition only (cids : list Z) (db db' : database) : Prop :=
  (forall k, k ∉ cids -> d_campaigns db' !! k = d_campaigns db !! k) /\
  (forall k, c_status <$> d_campaigns db' !! k = c_status <$> d_campaigns db !! k).

#[export] Instance only_preorder cids : PreOrder (only cids).
Proof.
  split; unfold only; [done|]. intros x y z [K1 S1] [K2 S2]. split; intros k.
  - intros Hk. by rewrite K2, K1.
  - by rewrite S2, S1.
Qed.

Lemma put_campaign_only cids cid f :
  cid ∈ cids -> (forall c, c_status (f c) = c_status c) -> respects (on_db (only cids)) (put_campaign cid f).
Proof.
  intros Hin Hf. apply respects_modify_db. intros db. split; intros k; cbn.
  - intros Hk. rewrite lookup_alter_ne; [done|congruence].
  - destruct (decide (cid = k)) as [<-|Hne]; [|by rewrite lookup_alter_ne].
    rewrite lookup_alter_eq. destruct (d_campaigns db !! cid); [|done]. cbn. by rewrite Hf.
Qed.

Lemma event_only `{Env} cids kind cid rid to reason :
  respects (on_db (only cids)) (add_event kind cid rid to reason).
Proof.
  unfold add_event. apply respects_bind; [typeclasses eauto|unfold now; respects_walk|]. intros ts.
  apply respects_modify_db. by intros db.
Qed.

#[export] Hint Resolve event_only : effects.
#[export] Hint Extern 2 (respects (on_db (only _)) (put_campaign _ _)) =>
  apply put_campaign_only; [assumption|intros ?; exact eq_refl] : effects.

Lemma pin_only `{Env} cids cid b a : cid ∈ cids -> respects (on_db (only cids)) (_pin_dataset cid b a).
Proof. intros Hin. unfold _pin_dataset, event_, now. respects_walk. Qed.
Lemma conclude_only `{Env} cids cid : cid ∈ cids -> respects (on_db (only cids)) (_conclude_no_dataset cid).
Proof. intros Hin. unfold _conclude_no_dataset, event_. respects_walk. Qed.
#[export] Hint Resolve pin_only conclude_only : effects.

Lemma advance_pin_only `{Env} cids c : c_id c ∈ cids -> respects (on_db (only cids)) (_advance_pin c).
Proof.
  intros Hin. unfold _advance_pin, _poll_dataset_build, _choose_dataset_build, find_profile, get_campaign, event_.
  respects_walk.
Qed.

(** What a refresh sends: a build of a profile that is due one, and whose current
    build no unfinished campaign is pinned to. *)
Definition spares `{Env} (db : database) (a : action) : Prop :=
  exists k row l p n moment,
    d_datasets db !! k = Some row /\ 0 < rd_refresh_hours row /\ ds_list_profiles n = inr l /\
    p ∈ l /\ pf_name p = rd_name row /\ is_due (rd_refresh_hours row) p moment = true /\
    a = ActTriggerBuild (pf_id p) /\
    forall b j c, current p = Some b -> d_campaigns db !! j = Some c -> uses_pinning c = true ->
      c_dataset_profile c = rd_name row -> c_dataset_build_id c = db_build_id b -> c_status c = Done.

Definition refreshing `{Env} (w w' : world) : Prop :=
  d_campaigns (w_db w') = d_campaigns (w_db w) /\ d_datasets (w_db w') = d_datasets (w_db w) /\
  exists new, w_log w' = w_log w ++ new /\ Forall (spares (w_db w)) new.

Lemma spares_same `{Env} db db' a : d_campaigns db' = d_campaigns db -> d_datasets db' = d_datasets db ->
  spares db' a -> spares db a.
Proof. unfold spares. by intros -> ->. Qed.

#[export] Instance refreshing_preorder `{Env} : PreOrder refreshing.
Proof.
  split.
  - intros w. split_and!; [done|done|]. exists []. by rewrite app_nil_r.
  - intros w1 w2 w3 (C1 & D1 & n1 & E1 & F1) (C2 & D2 & n2 & E2 & F2).
    split_and!; [congruence|congruence|]. exists (n1 ++ n2). split; [by rewrite E2, E1, app_assoc|].
    apply Forall_app. split; [done|]. eapply Forall_impl; [exact F2|]. intros a. by apply spares_same.
Qed.

Lemma call_refreshing `{Env} {A} (f : nat -> exn + A) : respects refreshing (call [] f).
Proof. intros w. split_and!; [done|done|]. by exists []. Qed.
Lemma modify_refreshing `{Env} f :
  (forall w, w_db (f w) = w_db w /\ w_log (f w) = w_log w) -> respects refreshing (modify f).
Proof.
  intros Hf w. destruct (Hf w) as [E1 E2]. unfold refreshing. cbn. rewrite E1, E2.
  split_and!; [done|done|]. exists []. by rewrite app_nil_r.
Qed.
Lemma event_refreshing `{Env} kind cid rid to reason : respects refreshing (add_event kind cid rid to reason).
Proof.
  unfold add_event. apply respects_bind; [typeclasses eauto|apply call_refreshing|]. intros ts w.
  split_and!; [done|done|]. exists []. by rewrite app_nil_r.
Qed.
#[export] Hint Resolve call_refreshing event_refreshing : effects.
#[export] Hint Extern 2 (respects refreshing (modify _)) =>
  apply modify_refreshing; intros ?; split; exact eq_refl : effects.

Lemma profile_named_in ps name p : profile_named ps name = Some p -> p ∈ ps /\ pf_name p = name.
Proof.
  unfold profile_named. intros Hp%last_Some_elem_of. apply elem_of_where in Hp as [Hp E].
  by apply String.eqb_eq in E.
Qed.

Lemma refresh_one_refreshing `{Env} n l moment k row w :
  ds_list_profiles n = inr l -> d_datasets (w_db w) !! k = Some row -> 0 < rd_refresh_hours row ->
  refreshing w (_refresh_one l moment row w).2.
Proof.
  intros Hl Hrow Hhours. unfold _refresh_one.
  destruct (profile_named l (rd_name row)) as [p|] eqn:Hp; [|cbn; reflexivity].
  apply profile_named_in in Hp as [Hin Hname].
  destruct (is_due (rd_refresh_hours row) p moment) eqn:Hdue; [|cbn; reflexivity]. cbn [negb].
  unfold bind at 1, db_, gets.
  destruct (match current p with Some b => _ | None => false end) eqn:Hheld; [cbn; reflexivity|].
  apply bind_step; [typeclasses eauto| |].
  2: { intros [] w1 _; [apply event_refreshing|cbn; reflexivity]. }
  assert (spares (w_db w) (ActTriggerBuild (pf_id p))) as Hspares.
  { exists k, row, l, p, n, moment. split_and!; try done. intros b j c Hb Hj Huses Hprof Hbuild.
    rewrite Hb in Hheld. apply negb_false_iff, bool_decide_eq_true in Hheld.
    destruct (decide (c_status c = Done)) as [|Hlive]; [done|]. exfalso.
    assert (c ∈ holders (w_db w) (rd_name row) (db_build_id b)) as Hc; [|rewrite Hheld in Hc; by apply not_elem_of_nil in Hc].
    apply holders_spec; [|by eapply current_named|by split; [exists j|]].
    rewrite <-Hprof. unfold uses_pinning in Huses. by apply negb_true_iff, String.eqb_neq in Huses. }
  unfold try_, bind, call.
  destruct (ds_trigger_build (w_calls w) (pf_id p)) as [[]|r]; cbn;
    (split_and!; [done|done|]; by exists [ActTriggerBuild (pf_id p)]; split; [|repeat constructor]).
Qed.

Lemma refresh_loop `{Env} n l moment (rows_ : list replay_dataset) w :
  ds_list_profiles n = inr l ->
  (forall row, row ∈ rows_ -> 0 < rd_refresh_hours row /\ exists k, d_datasets (w_db w) !! k = Some row) ->
  refreshing w (for_each rows_ (_refresh_one l moment) w).2.
Proof.
  intros Hl. revert w. induction rows_ as [|row rows_ IH]; intros w Hrows; cbn [for_each]; [cbn; reflexivity|].
  apply bind_step; [typeclasses eauto| |].
  - destruct (Hrows row) as [Hh [k Hk]]; [left|]. by eapply refresh_one_refreshing.
  - intros [] w1 (_ & Ed & _). apply IH. intros r Hr. rewrite Ed. apply Hrows. by right.
Qed.

Lemma refresh_refreshing `{Env} : respects refreshing _refresh_datasets.
Proof.
  intros w. unfold _refresh_datasets.
  apply bind_step; [typeclasses eauto|cbn; reflexivity|]. intros checked w1 _.
  apply bind_step; [typeclasses eauto|apply call_refreshing|]. intros tick_ w2 _.
  case_match; [cbn; reflexivity|].
  apply bind_step; [typeclasses eauto|apply call_refreshing|]. intros again w3 _.
  apply bind_step; [typeclasses eauto|by apply modify_refreshing|]. intros [] w4 _.
  unfold bind at 1, db_, gets. destruct (where_ _ _) as [|row0 rows0] eqn:Hrows; [cbn; reflexivity|].
  unfold bind at 1, logged, try_, bind at 1, call at 1.
  destruct (ds_list_profiles (w_calls w4)) as [e|l] eqn:Hl.
  - cbn. apply (call_refreshing (fun n => inr tt : exn + unit) w4).
  - cbn [ret]. etransitivity; [apply (call_refreshing (fun n => inr tt : exn + unit) w4)|].
    unfold call; cbn [snd]. apply bind_step; [typeclasses eauto|apply call_refreshing|].
    intros moment w5 (_ & Ed & _). rewrite <-Hrows. eapply refresh_loop; [exact Hl|]. intros row Hr.
    apply elem_of_where in Hr as [[k Hk]%elem_of_rows_z Hh]. split; [lia|]. exists k. by rewrite Ed.
Qed.

(** ** Properties *)

(** What is settled stays settled.  Settling the datasets of the active
    campaigns changes no campaign's status, and no row at all but those of
    active campaigns with a profile that have neither a build nor a conclusion:
    a pinned campaign keeps its build, and one told there is none is not asked
    again. *)
Theorem settled_datasets_stay `{Env} (w : world)
    (Hkeys : forall k c, d_campaigns (w_db w) !! k = Some c -> c_id c = k) :
  forall k c, d_campaigns (w_db w) !! k = Some c ->
    exists c', d_campaigns (w_db (_advance_dataset_pins w).2) !! k = Some c' /\
      c_status c' = c_status c /\
      (is_pinned c = true \/ c_dataset_policy_applied c <> None \/ uses_pinning c = false \/
       c_status c <> Active -> c' = c).
Proof.
  set (l := where_ unsettled (rows_z (d_campaigns (w_db w)))).
  assert (only (map c_id l) (w_db w) (w_db (_advance_dataset_pins w).2)) as [K S].
  { unfold _advance_dataset_pins, bind, db_, gets. fold l. apply respects_for_each; [typeclasses eauto|].
    intros c Hc. apply advance_pin_only. by apply list_elem_of_fmap_2. }
  intros k c Hc. specialize (S k). rewrite Hc in S.
  destruct (d_campaigns (w_db (_advance_dataset_pins w).2) !! k) as [c'|] eqn:Hc'; [|done].
  injection S as S. exists c'. split_and!; [done|done|]. intros Hsettled.
  rewrite K in Hc'; [congruence|]. intros (c2 & E & [[j Hj]%elem_of_rows_z Hu]%elem_of_where)%list_elem_of_fmap.
  assert (j = k) as -> by (rewrite E; symmetry; by apply Hkeys).
  assert (c2 = c) as -> by congruence. unfold unsettled in Hu.
  rewrite !andb_true_iff, negb_true_iff, !bool_decide_eq_true in Hu. destruct Hu as [[[Ha Hp] Hn] Hx].
  destruct Hsettled as [?|[?|[?|?]]]; congruence.
Qed.

(** A refresh never lands under a campaign.  Refreshing the datasets set up
    here asks only for builds of profiles that are due one, and only when no
    unfinished campaign is pinned to the profile's current build; it changes no
    campaign. *)
Theorem refresh_spares_pinned_builds `{Env} (w : world) :
  d_campaigns (w_db (_refresh_datasets w).2) = d_campaigns (w_db w) /\
  exists new, w_log (_refresh_datasets w).2 = w_log w ++ new /\
  forall a, a ∈ new -> exists k row l p n moment,
    d_datasets (w_db w) !! k = Some row /\ ds_list_profiles n = inr l /\ p ∈ l /\
    pf_name p = rd_name row /\ is_due (rd_refresh_hours row) p moment = true /\
    a = ActTriggerBuild (pf_id p) /\
    forall b j c, current p = Some b -> d_campaigns (w_db w) !! j = Some c -> uses_pinning c = true ->
      c_dataset_profile c = rd_name row -> c_dataset_build_id c = db_build_id b -> c_status c = Done.
Proof.
  destruct (refresh_refreshing w) as (Ec & _ & new & El & Hnew). split; [done|]. exists new.
  split; [done|]. intros a Ha.
  destruct (proj1 (Forall_forall _ _) Hnew a Ha) as (k & row & l & p & n & moment & H1 & _ & H2 & H3 & H4 & H5 & H6 & H7).
  by exists k, row, l, p, n, moment.
Qed.

(** Two campaigns on one profile: the first asks for a fresh build, the second
    for whatever is current. *)
Definition pin_campaign (cid : Z) (policy : DatasetPolicy) : campaign :=
  sample_campaign <| c_id := cid |> <| c_dataset_profile := "prod" |> <| c_dataset_policy := policy |>.
Definition pins_db : database :=
  empty_database <| d_campaigns := {[ 1 := pin_campaign 1 RebuildAtStart; 2 := pin_campaign 2 UseCurrent ]} |>.

(** A build asked for is not seen by the next campaign.  In one tick, a
    campaign that wants a fresh sample asks for a build of its profile, and one
    that takes the current build is then pinned to the build about to be
    replaced: nothing looks at a build in flight before pinning. *)
Theorem rebuild_can_land_under_a_pin :
  exists w c, _advance_dataset_pins (sample_world pins_db) = (inr tt, w) /\
    ActTriggerBuild 5 ∈ w_log w /\ d_campaigns (w_db w) !! 2 = Some c /\ c_dataset_build_id c = "D7" /\
    c_dataset_policy_applied c = Some AppliedCurrent /\ 
    (c_dataset_build_row <$> d_campaigns (w_db w) !! 1) = Some 41.
Proof.
  eexists _, _. split; [vm_compute; reflexivity|]. split; [left|].
  split; [vm_compute; reflexivity|]. split_and!; vm_compute; reflexivity.
Qed.

Definition pinned_campaign : campaign := (pin_campaign 3 UseCurrent) <| c_dataset_build_id := "D5" |>.

Lemma settled_datasets_stay_witness :
  exists c', d_campaigns (w_db (_advance_dataset_pins (sample_world
      (pins_db <| d_campaigns ::= insert 3 pinned_campaign |>))).2)
      !! 3 = Some c' /\ c_dataset_build_id c' = "D5".
Proof.
  destruct (settled_datasets_stay (sample_world
      (pins_db <| d_campaigns ::= insert 3 pinned_campaign |>)))
    with (k := 3) (c := pinned_campaign) as (c' & Hc' & _ & Heq).
  - intros k c Hk. unfold sample_world, pins_db in Hk. cbn in Hk. revert Hk.
    intros [[<- <-]|[_ [[<- <-]|[_ [<- <-]%lookup_singleton_Some]]%lookup_insert_Some]]%lookup_insert_Some; reflexivity.
  - reflexivity.
  - exists c'. split; [exact Hc'|]. rewrite Heq; [reflexivity|left; reflexivity].
Defined.
