(* ===== verification/Plan.v ===== *)
(** Turning a declared space into candidates ([Supervisor._plan] of
    [app/control/orchestrator/supervisor.py]): every point, once. *)
From S2P Require Import Prelude Float Values Documents Space Validation Failures Model Timing World Samples.
From S2P Require Import Occupancy Fleet Finish.
#[local] Open Scope string_scope.
#[local] Open Scope list_scope.
#[local] Open Scope Z_scope.

Section plan.
Context `{Env}.

Definition _plan_point (c : campaign) (gpu_count nodes : Z) (cfg : config) (seen : gset string)
    : W (gset string) :=
  let hash := config_hash cfg in
  if bool_decide (hash ∈ seen) then ret seen
  else
    let error := validate_config cfg (mkValidationContext gpu_count (c_engine c) nodes) in
    new_candidate (c_id c) cfg hash (if error is Some _ then Invalid else Valid) error Search false None ;;;
    event_ (if error is Some _ then "candidate_rejected_static" else "candidate_created") (Some (c_id c)) None ;;;
    ret ({[ hash ]} ∪ seen).

Definition _plan_campaign (c : campaign) : W unit :=
  if negb (s_declared (c_search_space c)) then ret tt
  else
    db <- db_ ;;
    let existing := list_to_set (map cd_config_hash (campaign_candidates db (c_id c))) : gset string in
    for_acc (expand (c_search_space c)) existing
      (_plan_point c (_validation_gpu_count db c) (_campaign_nodes db c)) ;;;
    ret tt.

Definition _plan : W unit :=
  db <- db_ ;;
  for_each (where_ (fun c => bool_decide (c_policy_id c = None)) (campaigns_in db [Active])) _plan_campaign.
End plan.

(** ** Lemmas *)
Section planned.
Context `{Env} (c : campaign) (gpu_count nodes : Z).

Definition verdict (cfg : config) : option rejection :=
  validate_config cfg (mkValidationContext gpu_count (c_engine c) nodes).

(** A candidate planning adds for [cfg]. *)
Definition planned (cfg : config) (cd : candidate) : Prop :=
  cd_campaign_id cd = c_id c /\ cd_config cd = cfg /\ cd_config_hash cd = config_hash cfg /\
  cd_validation_error cd = verdict cfg /\ cd_status cd = if verdict cfg is Some _ then Invalid else Valid.

(** What planning some points from [seen] has done. *)
Record planned_from (points : list config) (seen0 seen : gset string) (t t' : gmap Z candidate) : Prop := {
  pl_old k cd : t !! k = Some cd -> t' !! k = Some cd;
  pl_new k cd : t' !! k = Some cd -> t !! k = None ->
    exists cfg, cfg ∈ points /\ planned cfg cd /\ config_hash cfg ∉ seen0;
  pl_seen h : h ∈ seen <-> h ∈ seen0 \/ exists k cd, t' !! k = Some cd /\ t !! k = None /\ cd_config_hash cd = h;
  pl_all cfg : cfg ∈ points -> config_hash cfg ∈ seen;
  pl_once k1 k2 cd1 cd2 : t' !! k1 = Some cd1 -> t' !! k2 = Some cd2 -> t !! k1 = None -> t !! k2 = None ->
    cd_config_hash cd1 = cd_config_hash cd2 -> k1 = k2;
}.

Lemma planned_from_nil seen t : planned_from [] seen seen t t.
Proof.
  split; try naive_solver.
  by intros cfg ?%not_elem_of_nil.
Qed.

Lemma planned_from_seen points seen0 seen t t' cfg :
  planned_from points seen0 seen t t' -> config_hash cfg ∈ seen ->
  planned_from (points ++ [cfg]) seen0 seen t t'.
Proof.
  intros [O N S A U] Hcfg. split; [done| |done| |done].
  - intros k cd Hk Hn. destruct (N k cd Hk Hn) as (cfg' & Hin & Hp). exists cfg'.
    split; [|done]. apply elem_of_app. by left.
  - intros cfg' [?| ->%list_elem_of_singleton]%elem_of_app; [by apply A|done].
Qed.

Lemma planned_from_add points seen0 seen t t' cfg cd k :
  planned_from points seen0 seen t t' -> config_hash cfg ∉ seen -> planned cfg cd -> t' !! k = None ->
  planned_from (points ++ [cfg]) seen0 ({[ config_hash cfg ]} ∪ seen) t (<[ k := cd ]> t').
Proof.
  intros [O N S A U] Hcfg Hp Hk. assert (cd_config_hash cd = config_hash cfg) as Eh by apply Hp.
  assert (t !! k = None) as Htk.
  { destruct (t !! k) eqn:E; [|done]. apply O in E. congruence. }
  split.
  - intros j cdj Hj. rewrite lookup_insert_ne; [by apply O|congruence].
  - intros j cdj [[<- <-]|[_ Hj]]%lookup_insert_Some Hn.
    + exists cfg. split; [apply elem_of_app; right; left|]. split; [done|]. intros Hin. apply Hcfg, S. by left.
    + destruct (N j cdj Hj Hn) as (cfg' & Hin & Hrest). exists cfg'. split; [|done]. apply elem_of_app. by left.
  - intros h. rewrite elem_of_union, elem_of_singleton, S. split.
    + intros [ -> | [?|(j & cdj & Hj & Hn & E)]]; [|by left|].
      * right. exists k, cd. by rewrite lookup_insert_eq.
      * right. exists j, cdj. split; [|done]. rewrite lookup_insert_ne; [done|congruence].
    + intros [?|(j & cdj & [[<- <-]|[_ Hj]]%lookup_insert_Some & Hn & E)]; [auto| |].
      * left. congruence.
      * right. right. eauto.
  - intros cfg' [Hin| ->%list_elem_of_singleton]%elem_of_app; apply elem_of_union; [right; by apply A|left].
    by apply elem_of_singleton.
  - intros k1 k2 cd1 cd2 H1 H2 N1 N2 E.
    assert (forall j cdj, t' !! j = Some cdj -> t !! j = None -> cd_config_hash cdj <> config_hash cfg) as Hfresh.
    { intros j cdj Hj Hn Ej. apply Hcfg, S. right. eauto. }
    apply lookup_insert_Some in H1 as [[<- <-]|[_ H1]]; apply lookup_insert_Some in H2 as [[<- <-]|[_ H2]].
    + done.
    + exfalso. apply (Hfresh k2 cd2); congruence.
    + exfalso. apply (Hfresh k1 cd1); congruence.
    + by eapply U.
Qed.

Lemma plan_points points done_ seen0 seen t w :
  planned_from done_ seen0 seen t (d_candidates (w_db w)) ->
  exists seen' w', for_acc points seen (_plan_point c gpu_count nodes) w = (inr seen', w') /\
    planned_from (done_ ++ points) seen0 seen' t (d_candidates (w_db w')).
Proof.
  revert done_ seen w. induction points as [|cfg points IH]; intros done_ seen w Hp; cbn [for_acc].
  { exists seen, w. by rewrite app_nil_r. }
  unfold bind, _plan_point at 1. cbv zeta. fold (verdict cfg).
  destruct (bool_decide (config_hash cfg ∈ seen)) eqn:Hseen.
  - apply bool_decide_eq_true in Hseen. cbn [ret].
    destruct (IH (done_ ++ [cfg]) seen w) as (s' & w' & E & Hf); [by apply planned_from_seen|].
    exists s', w'. split; [exact E|]. by rewrite <-app_assoc in Hf.
  - apply bool_decide_eq_false in Hseen.
    destruct (new_candidate_run (c_id c) cfg (config_hash cfg) (if verdict cfg is Some _ then Invalid else Valid)
      (verdict cfg) Search false None w) as (w1 & E1 & D1).
    unfold bind. rewrite E1.
    match goal with |- context [event_ ?k ?a ?b w1] => 
      destruct (add_event_run k a b None "" w1) as (w2 & E2 & D2); unfold event_; rewrite E2 end.
    cbn [ret]. destruct (IH (done_ ++ [cfg]) ({[ config_hash cfg ]} ∪ seen) w2) as (s' & w' & E & Hf).
    { rewrite D2. cbn. rewrite D1. apply planned_from_add; [done|done|by repeat split|apply next_key_fresh]. }
    exists s', w'. split; [exact E|]. by rewrite <-app_assoc in Hf.
Qed.
End planned.

(** ** Properties *)

(** A declared space is planned exactly, once.  Planning a campaign keeps
    every candidate there was; it adds, for points of the space whose hash the
    campaign does not have, a candidate of that configuration, valid exactly
    when the static checks pass it on this fleet and invalid with their reason
    otherwise; afterwards every point of the space has a candidate, and no
    candidate that was added has the hash of another of the campaign. *)
Theorem plan_is_every_point_once `{Env} (c : campaign) (w : world)
    (Hdeclared : s_declared (c_search_space c) = true) :
  exists w', _plan_campaign c w = (inr tt, w') /\
  (forall k cd, d_candidates (w_db w) !! k = Some cd -> d_candidates (w_db w') !! k = Some cd) /\
  (forall k cd, d_candidates (w_db w') !! k = Some cd -> d_candidates (w_db w) !! k = None ->
     cd_config cd ∈ expand (c_search_space c) /\
     planned c (_validation_gpu_count (w_db w) c) (_campaign_nodes (w_db w) c) (cd_config cd) cd) /\
  (forall cfg, cfg ∈ expand (c_search_space c) ->
     exists k cd, d_candidates (w_db w') !! k = Some cd /\ cd_campaign_id cd = c_id c /\
       cd_config_hash cd = config_hash cfg) /\
  (forall k1 k2 cd1 cd2, d_candidates (w_db w') !! k1 = Some cd1 -> d_candidates (w_db w') !! k2 = Some cd2 ->
     cd_campaign_id cd2 = c_id c -> cd_config_hash cd1 = cd_config_hash cd2 ->
     d_candidates (w_db w) !! k1 = None -> k1 = k2).
Proof.
  unfold _plan_campaign. rewrite Hdeclared. cbn [negb]. unfold bind at 1, db_, gets. cbv zeta.
  set (existing := list_to_set (map cd_config_hash (campaign_candidates (w_db w) (c_id c))) : gset string).
  destruct (plan_points c (_validation_gpu_count (w_db w) c) (_campaign_nodes (w_db w) c)
    (expand (c_search_space c)) [] existing existing (d_candidates (w_db w)) w (planned_from_nil _ _ _ _ _))
    as (seen & w' & E & [O N S A U]).
  assert (forall h, h ∈ existing <-> exists k cd, d_candidates (w_db w) !! k = Some cd /\
            cd_campaign_id cd = c_id c /\ cd_config_hash cd = h) as Hexist.
  { intros h. subst existing. rewrite elem_of_list_to_set, list_elem_of_fmap. split.
    - intros (cd & -> & [[k Hk]%elem_of_rows_z Hc]%elem_of_where). exists k, cd. split; [done|].
      split; [lia|done].
    - intros (k & cd & Hk & Hc & <-). exists cd. split; [done|]. apply elem_of_where.
      split; [apply elem_of_rows_z; eauto|lia]. }
  exists w'. unfold bind. rewrite E. split; [done|]. split; [done|]. split; [|split].
  - intros k cd Hk Hn. destruct (N k cd Hk Hn) as (cfg & Hin & Hp & _).
    assert (cd_config cd = cfg) as -> by apply Hp. done.
  - intros cfg Hin. pose proof (A cfg Hin) as [(k & cd & Hk & Hc & Eh)%Hexist|(k & cd & Hk & Hn & Eh)]%S.
    + exists k, cd. split; [by apply O|done].
    + exists k, cd. split; [done|]. split; [|done]. destruct (N k cd Hk Hn) as (cfg' & _ & Hp & _). apply Hp.
  - intros k1 k2 cd1 cd2 H1 H2 Hc2 Eh N1. destruct (d_candidates (w_db w) !! k2) as [cd2'|] eqn:N2; [|by eapply U].
    exfalso. assert (cd2' = cd2) as -> by (apply O in N2; congruence).
    destruct (N k1 cd1 H1 N1) as (cfg & _ & (_ & _ & Hh & _) & Hfresh). apply Hfresh, Hexist.
    exists k2, cd2. split; [done|]. split; [done|congruence].
Qed.

Lemma plan_is_every_point_once_witness :
  exists w', _plan_campaign sample_campaign (sample_world sample_db) = (inr tt, w') /\
    exists k cd, d_candidates (w_db w') !! k = Some cd /\ cd_config_hash cd = config_hash ∅.
Proof.
  destruct (plan_is_every_point_once sample_campaign (sample_world sample_db) eq_refl)
    as (w' & E & _ & _ & Hall & _).
  exists w'. split; [exact E|]. destruct (Hall ∅) as (k & cd & Hk & _ & Hh).
  - vm_compute. left.
  - exists k, cd. split; [exact Hk|exact Hh].
Defined.
