(* ===== verification/Ending.v ===== *)
(** Ending a run keeps the fleet's invariant.

    A run's cards are its own until its container is confirmed gone; ending it
    twice would claim them again.  Here: every handler of a run's life ends a
    run only while it is live, or is not the platform's to tear down, and so
    keeps [fleet_ok]. *)
From S2P Require Import Prelude Float Values Documents Space Validation Failures Model States Packing Timing.
From S2P Require Import World Samples Occupancy Fleet Exclusive Finish Placement Nights Reserve Queue Pass.
From S2P Require Import Runs Advance Leases.
#[local] Open Scope string_scope.
#[local] Open Scope list_scope.
#[local] Open Scope Z_scope.

(** A benchmark of a launch is a run against an endpoint: nothing to tear down. *)
Definition benches (db : database) : Prop :=
  forall rid r, d_runs db !! rid = Some r -> r_launch_run_id r <> None -> r_kind r = External.

(** A run that may be ended: it is live, or it owns no container. *)
Definition safe (rid : Z) (db : database) : Prop :=
  forall r, d_runs db !! rid = Some r -> live_run r = true \/ not_ours r = true.

Definition inv (w : world) : Prop := fleet_ok (w_db w) /\ benches (w_db w).

(** What decides whether a run may be ended. *)
Definition skey (r : run) : RunStatus * RunKind * option Z := (r_status r, r_kind r, r_launch_run_id r).

(** Writes that keep the invariant and end nothing. *)
Definition tame (db db' : database) : Prop :=
  (fleet_ok db -> fleet_ok db') /\
  forall rid, skey <$> d_runs db' !! rid = skey <$> d_runs db !! rid.

#[export] Instance tame_preorder : PreOrder tame.
Proof.
  split; [by intros db|]. intros d1 d2 d3 [F1 K1] [F2 K2]. split; [auto|]. intros rid. by rewrite K2.
Qed.

Lemma tame_run db db' rid r' :
  tame db db' -> d_runs db' !! rid = Some r' -> exists r, d_runs db !! rid = Some r /\ skey r' = skey r.
Proof.
  intros [_ K] Hr. specialize (K rid). rewrite Hr in K. cbn in K.
  destruct (d_runs db !! rid) as [r|]; [|done]. injection K as K1 K2 K3. exists r. unfold skey. by rewrite K1, K2, K3.
Qed.

Lemma tame_safe db db' rid : tame db db' -> safe rid db -> safe rid db'.
Proof.
  intros Hc Hs r' Hr'. destruct (tame_run _ _ _ _ Hc Hr') as (r & Hr & E). injection E as E1 E2 E3.
  specialize (Hs r Hr). unfold live_run, not_ours in *. by rewrite E1, E2.
Qed.

Lemma tame_benches db db' : tame db db' -> benches db -> benches db'.
Proof.
  intros Hc Hb rid r' Hr' Hl. destruct (tame_run _ _ _ _ Hc Hr') as (r & Hr & E). injection E as E1 E2 E3.
  rewrite E2. apply (Hb rid r Hr). by rewrite <-E3.
Qed.

(** The state a handler ends a run from. *)
Definition endable (rid : Z) (w : world) : Prop := inv w /\ safe rid (w_db w).

Lemma tame_inv w w' : on_db tame w w' -> inv w -> inv w'.
Proof. intros Hc [Hf Hb]. split; [by apply Hc|by eapply tame_benches]. Qed.
Lemma tame_endable rid w w' : on_db tame w w' -> endable rid w -> endable rid w'.
Proof. intros Hc [Hi Hs]. split; [by eapply tame_inv|by eapply tame_safe]. Qed.

Lemma keeps_inv {A} (m : W A) : respects (on_db tame) m -> keeps inv m.
Proof. intros Hm. eapply triple_step; [exact Hm|apply tame_inv]. Qed.
Lemma keeps_endable {A} rid (m : W A) : respects (on_db tame) m -> keeps (endable rid) m.
Proof. intros Hm. eapply triple_step; [exact Hm|apply tame_endable]. Qed.

(** ** Calm writes *)
Lemma same_fleet_tame db db' : same_fleet db db' -> tame db db'.
Proof.
  intros Hs. split; [by apply same_fleet_ok|]. intros rid. destruct Hs as (-> & _). done.
Qed.

Lemma respects_same_fleet {A} (m : W A) : respects (on_db same_fleet) m -> respects (on_db tame) m.
Proof. intros Hm w. apply same_fleet_tame, Hm. Qed.

Lemma put_run_tame rid f :
  (forall r, gentle r (f r) /\ skey (f r) = skey r) -> respects (on_db tame) (put_run rid f).
Proof.
  intros Hf. apply respects_modify_db. intros db. split.
  - intros Hok. apply update_run_ok; [done|]. intros r _. apply Hf.
  - intros k. unfold update_run. destruct (d_runs db !! rid) as [r|] eqn:Hr; [|done]. cbn.
    destruct (decide (rid = k)) as [<-|Hne]; [|by rewrite lookup_insert_ne].
    rewrite lookup_insert_eq, Hr. cbn. f_equal. destruct (Hf r) as [_ E]. exact E.
Qed.

(** A write to columns nothing here reads. *)
Lemma put_run_columns rid f :
  (forall r, r_machine_id (f r) = r_machine_id r /\ r_gpu_indices (f r) = r_gpu_indices r /\
             r_status (f r) = r_status r /\ r_kind (f r) = r_kind r /\
             r_launch_run_id (f r) = r_launch_run_id r /\
             r_policy_session_id (f r) = r_policy_session_id r /\
             r_teardown_pending (f r) = r_teardown_pending r) ->
  respects (on_db tame) (put_run rid f).
Proof.
  intros Hf. apply put_run_tame. intros r. destruct (Hf r) as (E1 & E2 & E3 & E4 & E5 & E6 & E7).
  unfold gentle, skey, holds_cards, live_run. by rewrite E1, E2, E3, E4, E5, E6, E7.
Qed.

Section tame_handlers.
Context `{Env}.

Lemma event_tame kind cid rid to reason : respects (on_db tame) (add_event kind cid rid to reason).
Proof. apply respects_same_fleet, event_same_fleet. Qed.
Lemma put_campaign_tame id f : respects (on_db tame) (put_campaign id f).
Proof. apply respects_same_fleet, put_campaign_same_fleet. Qed.
Lemma put_candidate_tame id f : respects (on_db tame) (put_candidate id f).
Proof. apply respects_same_fleet, put_candidate_same_fleet. Qed.
Lemma put_session_tame id f : respects (on_db tame) (put_session id f).
Proof. apply respects_same_fleet, put_session_same_fleet. Qed.
Lemma put_machine_tame id f : (forall m, m_id (f m) = m_id m) -> respects (on_db tame) (put_machine id f).
Proof. intros Hf. by apply respects_same_fleet, put_machine_same_fleet. Qed.
Lemma add_result_tame r : respects (on_db tame) (add_result r).
Proof. apply respects_same_fleet, respects_modify_db. intros db. by apply same_fleet_rows. Qed.
Lemma modify_tame (f : world -> world) :
  (forall w, w_db (f w) = w_db w) -> respects (on_db tame) (modify f).
Proof. intros Hf w. unfold on_db. cbn. by rewrite Hf. Qed.
Lemma new_candidate_tame cid cfg hash st err kind b rep :
  respects (on_db tame) (new_candidate cid cfg hash st err kind b rep).
Proof. apply respects_same_fleet, new_candidate_same_fleet. Qed.
End tame_handlers.

#[export] Hint Resolve event_tame put_campaign_tame put_candidate_tame put_session_tame
  add_result_tame new_candidate_tame : effects.
#[export] Hint Extern 3 (respects (on_db tame) (modify_db _)) =>
  apply respects_same_fleet, respects_modify_db; intros ?; by apply same_fleet_rows : effects.
#[export] Hint Extern 2 (respects (on_db tame) (put_run _ _)) =>
  apply put_run_columns; intros ?; repeat split : effects.
#[export] Hint Extern 2 (respects (on_db tame) (put_machine _ _)) =>
  apply put_machine_tame; intros ?; exact eq_refl : effects.
#[export] Hint Extern 2 (respects (on_db tame) (modify _)) =>
  apply modify_tame; intros ?; exact eq_refl : effects.
#[export] Hint Extern 1 (respects _ db_) => unfold db_ : effects.
#[export] Hint Extern 1 (respects _ (attach _ _)) => unfold attach : effects.
#[export] Hint Extern 1 (respects _ (event_ _ _ _)) => unfold event_ : effects.
#[export] Hint Extern 1 (respects _ (logged _ _)) => unfold logged : effects.

Section handlers.
Context `{Env}.

Lemma spec_for_tame rid : respects (on_db tame) (_spec_for rid).
Proof. unfold _spec_for, get_run, get_campaign, get_candidate. respects_walk. Qed.
Lemma record_sample_tame rid f : respects (on_db tame) (record_sample rid f).
Proof. unfold record_sample, get_run, now. respects_walk. Qed.
Hint Resolve spec_for_tame record_sample_tame : effects.

Lemma note_placement_tame rid waiting wf : respects (on_db tame) (_note_placement rid waiting wf).
Proof. unfold _note_placement, get_run, now. respects_walk. Qed.
Lemma reclaim_tame rid h s : respects (on_db tame) (_reclaim_orphan_port rid h s).
Proof. unfold _reclaim_orphan_port, get_run, logged. respects_walk. Qed.
Lemma release_idle_tame mid : respects (on_db tame) (_release_machine_if_idle mid).
Proof. unfold _release_machine_if_idle. respects_walk. Qed.
Hint Resolve release_idle_tame : effects.
Lemma release_machines_tame rid : respects (on_db tame) (_release_run_machines rid).
Proof. unfold _release_run_machines, get_run. respects_walk. Qed.
Lemma save_log_tame rid log_text : respects (on_db tame) (_save_run_log rid log_text).
Proof. unfold _save_run_log, get_run, logged. respects_walk. Qed.
Hint Resolve save_log_tame : effects.
Lemma capture_log_tame rid : respects (on_db tame) (_capture_engine_log rid).
Proof. unfold _capture_engine_log, get_run, logged, _read_engine_log, attach. respects_walk. Qed.
Lemma stop_container_tame rid sp h : respects (on_db tame) (stop_container rid sp h).
Proof. unfold stop_container. respects_walk. Qed.
Lemma requeue_tame rid : respects (on_db tame) (_requeue_if_infrastructure rid).
Proof. unfold _requeue_if_infrastructure, get_run. respects_walk. Qed.
End handlers.

#[export] Hint Resolve spec_for_tame record_sample_tame note_placement_tame reclaim_tame release_idle_tame
  release_machines_tame save_log_tame capture_log_tame stop_container_tame requeue_tame : effects.

(** ** Ending one run *)
Definition kl (r : run) : RunKind * option Z := (r_kind r, r_launch_run_id r).

(** What ending [rid] may do to the others: no run changes what it is, and a
    run that could be ended still can. *)
Definition ended (rid : Z) (db db' : database) : Prop :=
  (forall k, kl <$> d_runs db' !! k = kl <$> d_runs db !! k) /\
  (forall k, k <> rid -> safe k db -> safe k db').

#[export] Instance ended_preorder rid : PreOrder (ended rid).
Proof.
  split; [by intros db|]. intros d1 d2 d3 [K1 S1] [K2 S2]. split; [|auto]. intros k. by rewrite K2.
Qed.

Lemma tame_ended rid db db' : tame db db' -> ended rid db db'.
Proof.
  intros Hc. split.
  - intros k. destruct Hc as [_ K]. specialize (K k).
    destruct (d_runs db' !! k), (d_runs db !! k); try done. cbn in *.
    injection K as _ K2 K3. unfold kl. by rewrite K2, K3.
  - intros k _. by apply tame_safe.
Qed.

Lemma kl_run (db db' : database) (k : Z) (r' : run) :
  (forall k, kl <$> d_runs db' !! k = kl <$> d_runs db !! k) -> d_runs db' !! k = Some r' ->
  exists r, d_runs db !! k = Some r /\ r_kind r' = r_kind r /\ r_launch_run_id r' = r_launch_run_id r.
Proof.
  intros K Hr. specialize (K k). rewrite Hr in K. cbn in K. destruct (d_runs db !! k) as [r|]; [|done].
  injection K as K1 K2. eauto.
Qed.

Lemma ended_benches rid db db' : ended rid db db' -> benches db -> benches db'.
Proof.
  intros [K _] Hb k r' Hr' Hl. destruct (kl_run _ _ _ _ K Hr') as (r & Hr & Ek & El).
  rewrite Ek. apply (Hb k r Hr). by rewrite <-El.
Qed.

(** A run that owns no container stays one. *)
Definition theirs (rid : Z) (db : database) : Prop :=
  forall r, d_runs db !! rid = Some r -> not_ours r = true.
Lemma theirs_safe rid db : theirs rid db -> safe rid db.
Proof. intros Ht r Hr. right. by apply Ht. Qed.
Lemma ended_theirs rid k db db' : ended rid db db' -> theirs k db -> theirs k db'.
Proof.
  intros [K _] Ht r' Hr'. destruct (kl_run _ _ _ _ K Hr') as (r & Hr & Ek & _).
  specialize (Ht r Hr). unfold not_ours in *. by rewrite Ek.
Qed.
Lemma ended_other rid b db db' : ended b db db' -> theirs b db -> ended rid db db'.
Proof.
  intros He Ht. destruct He as [K S]. split; [done|]. intros k Hk Hs.
  destruct (decide (k = b)) as [->|Hb]; [|by apply S].
  apply theirs_safe. by apply (ended_theirs b b db db').
Qed.

Section ending.
Context `{Env}.

Lemma get_run_bind {A} rid (f : run -> W A) w :
  (r <- get_run rid ;; f r) w =
  match d_runs (w_db w) !! rid with Some r => f r w | None => (inl KeyError, w) end.
Proof. unfold get_run, bind, db_, gets. by destruct (d_runs (w_db w) !! rid). Qed.

(** A legal transition: the run was live, and it is the one that moves. *)
Lemma transition_step rid target w :
  (fleet_ok (w_db w) -> fleet_ok (w_db (_transition rid target w).2)) /\
  ended rid (w_db w) (w_db (_transition rid target w).2).
Proof.
  unfold _transition. rewrite get_run_bind.
  destruct (d_runs (w_db w) !! rid) as [r|] eqn:Hr; [|split; [done|reflexivity]].
  destruct (can_transition (r_status r) target) eqn:Hcan; [|split; [done|reflexivity]]. cbn [negb].
  destruct (add_event_run "run_transition" (Some (r_campaign_id r)) (Some rid) (Some target) "" w)
    as (w1 & Ev & E1). unfold bind. rewrite Ev. unfold put_run, modify_db, modify.
  set (w2 := w1 <| w_db ::= update_run rid (fun r => r <| r_status := target |>) |>).
  assert (tame (w_db w2) (w_db (match target with
      | Benching | Serving => record_sample rid ready_sample
      | Succeeded => record_sample rid (fun db r moment => finished_sample db r (stage_of_run db r) moment)
      | _ => ret tt end w2).2)) as Hlast.
  { destruct target; try (cbn; reflexivity); apply record_sample_tame. }
  assert (d_runs (w_db w1) !! rid = Some r) as Hr1 by by rewrite E1.
  assert (same_fleet (w_db w) (w_db w1)) as Hsf by (rewrite E1; by apply same_fleet_rows).
  apply can_transition_from_live in Hcan.
  assert (fleet_ok (w_db w1) -> fleet_ok (w_db w2)) as Hok.
  { intros Hok. apply update_run_ok; [done|]. intros r' Hr'. assert (r' = r) as -> by congruence.
    unfold gentle. do 3 (split; [done|]). intros _. unfold holds_cards, live_run. by rewrite Hcan. }
  assert (ended rid (w_db w1) (w_db w2)) as Hend.
  { subst w2. cbn [w_db update_field eta_world]. unfold update_run. rewrite Hr1. split.
    - intros k. cbn. destruct (decide (rid = k)) as [<-|Hne]; [|by rewrite lookup_insert_ne].
      by rewrite lookup_insert_eq, Hr1.
    - intros k Hk Hs r'. cbn. rewrite lookup_insert_ne by done. apply Hs. }
  split.
  - intros Hf. apply Hlast, Hok. by eapply same_fleet_ok.
  - etransitivity; [by apply tame_ended, same_fleet_tame|]. etransitivity; [exact Hend|].
    by apply tame_ended.
Qed.

Lemma begin_teardown_tame rid w :
  (forall r, d_runs (w_db w) !! rid = Some r -> live_run r = true) ->
  tame (w_db w) (w_db (_begin_teardown rid w).2).
Proof.
  intros Hlive. unfold _begin_teardown.
  set (setup := logged _ _). assert (respects (on_db tame) setup) as Hs.
  { subst setup. unfold logged. respects_walk. }
  unfold bind at 1. specialize (Hs w). destruct (setup w) as [[e|o] w1]; [done|]. cbn in Hs.
  set (stop := match o with None => _ | Some _ => _ end). assert (respects (on_db tame) stop) as Hst.
  { subst stop. unfold logged. respects_walk. }
  unfold bind at 1. specialize (Hst w1). destruct (stop w1) as [[e|[]] w2]; cbn in Hst.
  1,2: by etransitivity.
  unfold bind, put_run, modify_db, modify, ret. cbn [snd].
  assert (tame (w_db w) (w_db w2)) as H12 by by etransitivity.
  etransitivity; [exact H12|]. cbn [w_db update_field eta_world]. split.
  - intros Hok. apply update_run_ok; [done|]. intros r' Hr'. do 3 (split; [done|]).
    intros _. destruct (tame_run _ _ _ _ H12 Hr') as (r & Hr & E). injection E as E _ _.
    unfold holds_cards, live_run. rewrite E. specialize (Hlive r Hr). unfold live_run in Hlive. by rewrite Hlive.
  - intros k. unfold update_run. destruct (d_runs (w_db w2) !! rid) as [r|] eqn:Hr; [|done]. cbn.
    destruct (decide (rid = k)) as [<-|Hne]; [|by rewrite lookup_insert_ne].
    by rewrite lookup_insert_eq, Hr.
Qed.

(** Where a loop that ends runs stands, from the database it started at. *)
Definition within (rid : Z) (db0 : database) (w : world) : Prop := inv w /\ ended rid db0 (w_db w).

Lemma within_tame {A} rid db0 (m : W A) : respects (on_db tame) m -> keeps (within rid db0) m.
Proof.
  intros Hm. eapply triple_step; [exact Hm|]. intros w w' Hc [Hi He]. split; [by eapply tame_inv|].
  etransitivity; [exact He|]. by apply tame_ended.
Qed.

(** The steps of [_finish] before the transition. *)
Lemma finish_prelude_tame rid w r :
  d_runs (w_db w) !! rid = Some r -> live_run r = true \/ not_ours r = true ->
  tame (w_db w) (w_db ((if not_ours r then ret true
                        else _capture_engine_log rid ;;; _begin_teardown rid) w).2).
Proof.
  intros Hr Hs. destruct (not_ours r) eqn:Hno; [cbn; reflexivity|].
  destruct Hs as [Hl|?]; [|done]. unfold bind. pose proof (capture_log_tame rid w) as Hc.
  destruct (_capture_engine_log rid w) as [[e|[]] w1]; cbn in Hc; [done|].
  etransitivity; [exact Hc|]. apply begin_teardown_tame. intros r1 Hr1.
  destruct (tame_run _ _ _ _ Hc Hr1) as (r0 & Hr0 & E). injection E as E _ _.
  assert (r0 = r) as -> by congruence. unfold live_run in *. by rewrite E.
Qed.

(** A tame step before the rest. *)
Lemma within_bind {A B} rid (m : W A) (f : A -> W B) w :
  tame (w_db w) (w_db (m w).2) -> inv w ->
  (forall a w1, tame (w_db w) (w_db w1) -> inv w1 -> within rid (w_db w1) (f a w1).2) ->
  within rid (w_db w) (bind m f w).2.
Proof.
  intros Hm Hi Hf. unfold bind. destruct (m w) as [[e|a] w1]; cbn in Hm.
  - split; [by eapply tame_inv|by apply tame_ended].
  - destruct (Hf a w1 Hm (tame_inv w w1 Hm Hi)) as [Hi2 He2]. split; [done|].
    etransitivity; [by apply tame_ended|exact He2].
Qed.

Lemma within_after {A B} rid (m : W A) (f : A -> W B) w :
  respects (on_db tame) m -> inv w ->
  (forall a w1, inv w1 -> within rid (w_db w1) (f a w1).2) ->
  within rid (w_db w) (bind m f w).2.
Proof. intros Hm Hi Hf. apply within_bind; [apply Hm|done|]. intros a w1 _. apply Hf. Qed.

Lemma within_then {A B} rid (m : W A) (f : A -> W B) w :
  within rid (w_db w) (m w).2 -> (forall a, respects (on_db tame) (f a)) ->
  within rid (w_db w) (bind m f w).2.
Proof.
  intros Hm Hf. unfold bind. destruct (m w) as [[e|a] w1]; [done|]. cbn in Hm.
  pose proof (within_tame rid (w_db w) (f a) (Hf a) w1 Hm) as Hk.
  by destruct (f a w1) as [[e|b] w2].
Qed.

Lemma within_refl rid w : inv w -> within rid (w_db w) w.
Proof. intros Hi. split; [done|reflexivity]. Qed.

Lemma within_transition rid target w : inv w -> within rid (w_db w) (_transition rid target w).2.
Proof.
  intros [Hf Hb]. destruct (transition_step rid target w) as [Hok He].
  split; [split; [auto|by eapply ended_benches]|done].
Qed.

Lemma benchmarks_theirs db rid b : benches db -> b ∈ benchmarks_of db rid -> fleet_ok db -> theirs (r_id b) db.
Proof.
  intros Hb [Hin Hp]%elem_of_where Hok r Hr. apply andb_true_iff in Hp as [Hl _].
  apply bool_decide_eq_true in Hl. apply elem_of_rows_z in Hin as [k Hk].
  rewrite (ok_runs _ Hok _ _ Hk) in Hr. assert (r = b) as -> by congruence.
  unfold not_ours. rewrite (Hb _ _ Hk) by (by rewrite Hl). by apply orb_true_r.
Qed.

(** Ending a benchmark from inside the loop. *)
Lemma within_bench depth rid b status error db0 :
  (forall rid status error w, endable rid w -> within rid (w_db w) (_finish depth rid status error w).2) ->
  theirs b db0 -> keeps (within rid db0) (_finish depth b status error).
Proof.
  intros IH Hb w [Hi He]. pose proof (ended_theirs _ _ _ _ He Hb) as Hb'.
  assert (endable b w) as Hend by (split; [done|by apply theirs_safe]).
  destruct (IH b status error w Hend) as [Hi' He'].
  assert (within rid db0 (_finish depth b status error w).2) as Hw.
  { split; [done|]. etransitivity; [exact He|]. by apply (ended_other rid b). }
  by destruct (_finish depth b status error w) as [[e|[]] w'].
Qed.

Lemma finish_within depth rid status error w :
  endable rid w -> within rid (w_db w) (_finish depth rid status error w).2.
Proof.
  revert rid status error w. induction depth as [|depth IH]; intros rid status error w [Hi Hs].
  { by apply within_refl. }
  cbn [_finish]. rewrite get_run_bind. destruct (d_runs (w_db w) !! rid) as [r|] eqn:Hr; [|by apply within_refl].
  apply within_bind; [by eapply finish_prelude_tame; eauto|done|]. intros cleaned w1 _ Hi1.
  apply within_after; [respects_walk|done|]. intros _ w2 Hi2.
  apply within_after; [respects_walk|done|]. intros refs w3 Hi3.
  apply within_after; [respects_walk|done|]. intros _ w4 Hi4.
  apply within_after; [respects_walk|done|]. intros _ w5 Hi5.
  apply within_after; [unfold now; respects_walk|done|]. intros moment w6 Hi6.
  apply within_after; [respects_walk|done|]. intros _ w7 Hi7.
  unfold bind at 1. pose proof (within_transition rid status w7 Hi7) as Ht.
  destruct (_transition rid status w7) as [[e|[]] w8]; [done|]. cbn in Ht.
  assert (forall w', within rid (w_db w8) w' -> within rid (w_db w7) w') as Hglue.
  { intros w' [Hi' He']. split; [done|]. etransitivity; [apply Ht|done]. }
  apply Hglue. destruct Ht as [Hi8 _].
  apply within_after; [respects_walk|done|]. intros _ w9 Hi9.
  destruct (r_kind r == PolicyLaunch); [|by apply within_refl].
  unfold bind at 1, db_ at 1, gets at 1.
  cut (keeps (within rid (w_db w9)) (for_each (benchmarks_of (w_db w9) rid) (stop_benchmark (_finish depth) rid))).
  { intros Hk. specialize (Hk w9 (within_refl rid w9 Hi9)). unfold stop_benchmark in Hk.
    by destruct (for_each _ _ w9) as [[e|[]] w10]. }
  apply keeps_for_each. intros b Hb. unfold stop_benchmark.
  assert (theirs (r_id b) (w_db w9)) as Hb' by (by apply (benchmarks_theirs _ rid); [apply Hi9| |apply Hi9]).
  apply keeps_bind; [apply within_tame; unfold logged; respects_walk|]. intros _.
  apply keeps_bind; [apply within_tame; unfold get_run; respects_walk|]. intros launch.
  apply keeps_bind; [|intros _; apply within_tame; respects_walk].
  destruct (r_status launch == Failed).
  - apply keeps_bind; [apply within_tame; respects_walk|]. intros _. by apply within_bench.
  - by apply within_bench.
Qed.
End ending.

(** ** Handlers that end a run *)
Definition same_node (n n' : run_node) : Prop :=
  n_run_id n' = n_run_id n /\ n_rank n' = n_rank n /\ n_machine_id n' = n_machine_id n /\
  n_gpu_indices n' = n_gpu_indices n /\ n_service_port n' = n_service_port n /\ n_status n' = n_status n.

Lemma alter_node_lookup (f : run_node -> run_node) (k : Z * Z) (t : gmap (Z * Z) run_node) i n' :
  (forall n, same_node n (f n)) -> alter f k t !! i = Some n' ->
  exists n, t !! i = Some n /\ same_node n n'.
Proof.
  intros Hf. destruct (decide (k = i)) as [->|Hne].
  - rewrite lookup_alter_eq. intros (n & Hn & ->)%fmap_Some_1. eauto.
  - rewrite lookup_alter_ne by done. intros Hn. exists n'. by repeat split.
Qed.

Lemma put_node_tame k f : (forall n, same_node n (f n)) -> respects (on_db tame) (put_node k f).
Proof.
  intros Hf. apply respects_modify_db. intros db. split; [|done]. intros Hok.
  assert (forall n n', same_node n n' -> holding (db <| d_nodes ::= alter f k |>) n' -> holding db n) as Hh.
  { intros n n' (E & _). unfold holding, node_run. cbn. by rewrite E. }
  split; cbn; try apply Hok.
  - intros i n' Hn'. destruct (alter_node_lookup _ _ _ _ _ Hf Hn') as (n & Hn & E1 & E2 & _).
    rewrite E1, E2. by apply Hok.
  - intros rid r Hr. destruct (ok_mirror _ Hok _ _ Hr) as (n & Hn & M1 & M2 & M3 & M4).
    destruct (decide (k = (rid, 0))) as [->|Hne].
    + exists (f n). rewrite lookup_alter_eq, Hn. destruct (Hf n) as (E1 & E2 & E3 & E4 & E5 & E6).
      split; [done|]. unfold mirrors. by rewrite E3, E4, E5, E6.
    + exists n. by rewrite lookup_alter_ne.
  - intros i n' r Hn' Hr. destruct (alter_node_lookup _ _ _ _ _ Hf Hn') as (n & Hn & E1 & _ & _ & C & _).
    rewrite C. apply (ok_uniform _ Hok i); congruence.
  - intros i1 i2 n1 n2 mid H1 H2 Hne Hh1 Hh2 Hm1 Hm2.
    destruct (alter_node_lookup _ _ _ _ _ Hf H1) as (m1 & K1 & S1).
    destruct (alter_node_lookup _ _ _ _ _ Hf H2) as (m2 & K2 & S2).
    pose proof (Hh _ _ S1 Hh1). pose proof (Hh _ _ S2 Hh2).
    destruct S1 as (R1 & _ & E1 & C1 & _). destruct S2 as (R2 & _ & E2 & C2 & _).
    unfold of_session, node_run. cbn. rewrite C1, C2, R1, R2.
    apply (ok_exclusive _ Hok i1 i2 m1 m2 mid); try done; congruence.
Qed.

Section enders.
Context `{Env}.

Definition ends {A} (rid : Z) (m : W A) : Prop :=
  forall w, endable rid w -> within rid (w_db w) (m w).2.

Lemma ends_tame {A} rid (m : W A) : respects (on_db tame) m -> ends rid m.
Proof.
  intros Hm w [Hi _]. split; [eapply tame_inv; [apply Hm|done]|]. apply tame_ended, Hm.
Qed.
Lemma ends_after {A B} rid (m : W A) (f : A -> W B) :
  respects (on_db tame) m -> (forall a, ends rid (f a)) -> ends rid (bind m f).
Proof.
  intros Hm Hf w Hw. unfold bind. specialize (Hm w). destruct (m w) as [[e|a] w1]; cbn in Hm.
  - split; [eapply tame_inv; [apply Hm|apply Hw]|by apply tame_ended].
  - destruct (Hf a w1) as [Hi He]; [by eapply tame_endable|]. split; [done|].
    etransitivity; [by apply tame_ended|done].
Qed.
Lemma ends_then {A B} rid (m : W A) (f : A -> W B) :
  ends rid m -> (forall a, respects (on_db tame) (f a)) -> ends rid (bind m f).
Proof. intros Hm Hf w Hw. apply within_then; [by apply Hm|done]. Qed.
Lemma ends_transition rid target : ends rid (_transition rid target).
Proof. intros w [Hi _]. by apply within_transition. Qed.
Lemma ends_finish rid status error : ends rid (finish rid status error).
Proof. intros w Hw. by apply finish_within. Qed.

Lemma ends_fail rid cls error : ends rid (_fail rid cls error).
Proof.
  unfold _fail. apply ends_after; [respects_walk|]. intros _. apply ends_then; [apply ends_finish|].
  intros _. apply requeue_tame.
Qed.
End enders.

Create HintDb ending.
#[export] Hint Resolve ends_transition ends_finish ends_fail : ending.
#[export] Hint Extern 2 (respects (on_db tame) (put_node _ _)) =>
  apply put_node_tame; intros ?; repeat split : effects.

Ltac solve_tame := solve [respects_walk].
Ltac ends_step :=
  lazymatch goal with
  | |- ends _ (match ?x with _ => _ end) => destruct x eqn:?
  | |- ends _ (bind _ _) =>
      first [ apply ends_after; [solve_tame|intros ?]
            | apply ends_then; [solve [eauto with ending nocore]|intros ?; solve_tame] ]
  | |- ends _ _ => first [ solve [eauto with ending nocore] | apply ends_tame; solve_tame ]
  end.
Ltac ends_walk := repeat ends_step.

Section ender_handlers.
Context `{Env}.

Lemma capture_failure_ends rid h cls error : ends rid (_capture_failure rid h cls error).
Proof. unfold _capture_failure, logged. ends_walk. Qed.
Hint Resolve capture_failure_ends : ending.

Lemma startup_tame r h : respects (on_db tame) (_startup_timed_out r h).
Proof. unfold _startup_timed_out, now, logged. respects_walk. Qed.
Lemma health_tame rid m : respects (on_db tame) (_health_outcome rid m).
Proof. unfold _health_outcome, get_run. respects_walk. Qed.
Lemma record_result_tame rid source o : respects (on_db tame) (_record_result rid source o).
Proof. unfold _record_result, get_run, get_campaign. respects_walk. Qed.
Lemma submit_tame rid : respects (on_db tame) (submit rid).
Proof. unfold submit, get_run. respects_walk. Qed.
Lemma launch_nodes_tame rid sp : respects (on_db tame) (launch_nodes rid sp).
Proof. unfold launch_nodes. respects_walk. Qed.
Lemma record_launches_tame rid sp commands : respects (on_db tame) (_record_node_launches rid sp commands).
Proof. unfold _record_node_launches. respects_walk. Qed.
Lemma get_run_tame rid : respects (on_db tame) (get_run rid).
Proof. unfold get_run. respects_walk. Qed.
Lemma get_campaign_tame cid : respects (on_db tame) (get_campaign cid).
Proof. unfold get_campaign. respects_walk. Qed.
Lemma get_machine_tame mid : respects (on_db tame) (get_machine mid).
Proof. unfold get_machine. respects_walk. Qed.
Hint Resolve startup_tame health_tame record_result_tame submit_tame launch_nodes_tame
  record_launches_tame get_run_tame get_campaign_tame get_machine_tame : effects.

Lemma start_benchmark_ends rid : ends rid (start_benchmark rid).
Proof. unfold start_benchmark. ends_walk. Qed.
Hint Resolve start_benchmark_ends : ending.
Lemma advance_baseline_ends rid : ends rid (_advance_baseline rid).
Proof. unfold _advance_baseline. ends_walk. Qed.
Lemma advance_pending_ends rid sp : ends rid (_advance_pending rid sp).
Proof. unfold _advance_pending. ends_walk. Qed.
Lemma snapshot_tame rid h : respects (on_db tame) (_snapshot_environment rid h).
Proof. unfold _snapshot_environment, get_run, get_campaign, logged. respects_walk. Qed.
Hint Resolve snapshot_tame : effects.

Lemma advance_starting_ends rid h : ends rid (_advance_starting rid h).
Proof. unfold _advance_starting. ends_walk. Qed.
Lemma advance_health_ends rid h : ends rid (_advance_health rid h).
Proof. unfold _advance_health. ends_walk. Qed.
Lemma advance_benching_ends rid : ends rid (_advance_benching rid).
Proof. unfold _advance_benching. ends_walk. Qed.
Lemma fail_restarted_ends rid h b n : ends rid (_fail_restarted rid h b n).
Proof. unfold _fail_restarted, logged. ends_walk. Qed.
Hint Resolve fail_restarted_ends : ending.
Lemma advance_serving_ends rid h : ends rid (_advance_serving rid h).
Proof. unfold _advance_serving. ends_walk. Qed.
End ender_handlers.

#[export] Hint Resolve startup_tame health_tame record_result_tame submit_tame launch_nodes_tame
  record_launches_tame get_run_tame get_campaign_tame get_machine_tame : effects.
#[export] Hint Resolve capture_failure_ends start_benchmark_ends advance_baseline_ends
  advance_pending_ends advance_starting_ends advance_health_ends advance_benching_ends
  fail_restarted_ends advance_serving_ends : ending.

(** ** A run that is over cannot be ended again *)
Definition still (db db' : database) : Prop :=
  forall rid, r_status <$> d_runs db' !! rid = r_status <$> d_runs db !! rid.
#[export] Instance still_preorder : PreOrder still.
Proof. split; [by intros db|]. intros d1 d2 d3 K1 K2 rid. by rewrite K2. Qed.

Lemma tame_still db db' : tame db db' -> still db db'.
Proof.
  intros [_ K] rid. specialize (K rid). destruct (d_runs db' !! rid), (d_runs db !! rid); try done.
  cbn in *. by injection K as -> _ _.
Qed.

Section over.
Context `{Env}.

Lemma respects_tame_still {A} (m : W A) : respects (on_db tame) m -> respects (on_db still) m.
Proof. intros Hm w. apply tame_still, Hm. Qed.

Lemma begin_teardown_still rid : respects (on_db still) (_begin_teardown rid).
Proof.
  unfold _begin_teardown. apply respects_bind; [typeclasses eauto| |intros o].
  { apply respects_tame_still. unfold logged. respects_walk. }
  apply respects_bind; [typeclasses eauto| |intros [|]].
  - apply respects_tame_still. destruct o as [[sp h]|]; unfold logged; respects_walk.
  - apply respects_ret. typeclasses eauto.
  - apply respects_bind; [typeclasses eauto| |intros _; apply respects_ret; typeclasses eauto].
    apply respects_modify_db. intros db k. unfold update_run.
    destruct (d_runs db !! rid) as [r|] eqn:Hr; [|done]. cbn.
    destruct (decide (rid = k)) as [<-|Hne]; [|by rewrite lookup_insert_ne].
    by rewrite lookup_insert_eq, Hr.
Qed.

Definition over (rid : Z) (w : world) : Prop :=
  forall r, d_runs (w_db w) !! rid = Some r -> live_run r = false.

Lemma still_over rid w w' : on_db still w w' -> over rid w -> over rid w'.
Proof.
  intros Hs Ho r' Hr'. specialize (Hs rid). rewrite Hr' in Hs. cbn in Hs.
  destruct (d_runs (w_db w) !! rid) as [r|] eqn:Hr; [|done]. injection Hs as E.
  specialize (Ho r Hr). unfold live_run in *. by rewrite E.
Qed.

(** [m] raises. *)
Definition raises {A} (m : W A) (w : world) : Prop := match (m w).1 with inl _ => True | inr _ => False end.

Lemma raises_after {A B} rid (m : W A) (f : A -> W B) w :
  respects (on_db still) m -> over rid w -> (forall a w1, over rid w1 -> raises (f a) w1) ->
  raises (bind m f) w.
Proof.
  intros Hm Ho Hf. unfold raises, bind. specialize (Hm w). destruct (m w) as [[e|a] w1]; [done|].
  apply Hf. by eapply still_over.
Qed.
Lemma raises_then {A B} (m : W A) (f : A -> W B) w : raises m w -> raises (bind m f) w.
Proof. unfold raises, bind. by destruct (m w) as [[e|a] w1]. Qed.

Lemma transition_over rid target w : over rid w -> raises (_transition rid target) w.
Proof.
  intros Ho. unfold raises, _transition. rewrite get_run_bind.
  destruct (d_runs (w_db w) !! rid) as [r|] eqn:Hr; [|done]. specialize (Ho r Hr).
  unfold live_run in Ho. apply negb_false_iff in Ho. by rewrite terminal_no_step.
Qed.

Lemma finish_over rid status error w : over rid w -> raises (finish rid status error) w.
Proof.
  intros Ho. unfold finish, DEPTH. cbn [_finish].
  eapply raises_after; [apply respects_tame_still, get_run_tame|done|]. intros r w1 Ho1.
  eapply raises_after; [|done|].
  { destruct (not_ours r); [apply respects_ret; typeclasses eauto|].
    apply respects_bind; [typeclasses eauto|apply respects_tame_still, capture_log_tame|].
    intros _. apply begin_teardown_still. }
  intros cleaned w2 Ho2.
  do 6 (eapply raises_after; [apply respects_tame_still; unfold now; respects_walk|done|]; clear dependent w2;
        intros ? w2 Ho2).
  by apply raises_then, transition_over.
Qed.

Lemma fail_over rid cls error w : over rid w -> raises (_fail rid cls error) w.
Proof.
  intros Ho. unfold _fail. eapply raises_after; [apply respects_tame_still; respects_walk|done|].
  intros _ w1 Ho1. by apply raises_then, finish_over.
Qed.
End over.

(** ** Loops that end runs *)
Section loops.
Context `{Env}.

Lemma keeps_snd {A} (I : world -> Prop) (m : W A) w : keeps I m -> I w -> I (m w).2.
Proof. intros Hk Hi. specialize (Hk w Hi). by destruct (m w) as [[e|a] w']. Qed.

Lemma snd_keeps {A} (I : world -> Prop) (m : W A) : (forall w, I w -> I (m w).2) -> keeps I m.
Proof. intros Hk w Hi. specialize (Hk w Hi). by destruct (m w) as [[e|a] w']. Qed.

(** Each run once, each while it may be ended. *)
Lemma end_all {B} (l : list run) (acc : B) (body : run -> B -> W B) w :
  NoDup (map r_id l) -> (forall r a, r ∈ l -> ends (r_id r) (body r a)) ->
  inv w -> (forall r, r ∈ l -> safe (r_id r) (w_db w)) -> inv (for_acc l acc body w).2.
Proof.
  revert acc w. induction l as [|r l IH]; intros acc w Hnd Hb Hi Hs; cbn [for_acc map] in *; [done|].
  apply NoDup_cons in Hnd as [Hnew Hnd]. unfold bind.
  destruct (Hb r acc ltac:(left) w) as [Hi1 He1]; [split; [done|apply Hs; left]|].
  destruct (body r acc w) as [[e|a] w1]; [done|]. cbn in *.
  apply IH; [done| |done|].
  - intros r' a' Hr'. apply Hb. by right.
  - intros r' Hr'. apply He1; [|apply Hs; by right]. intros E. apply Hnew. rewrite <-E.
    by apply list_elem_of_fmap_2.
Qed.

Lemma for_each_acc {A} (l : list A) (f : A -> W unit) w :
  for_each l f w = for_acc l tt (fun x _ => f x) w.
Proof.
  revert w. induction l as [|x l IH]; intros w; [done|]. cbn. unfold bind.
  destruct (f x w) as [[e|[]] w1]; [done|apply IH].
Qed.

Lemma end_each (l : list run) (body : run -> W unit) w :
  NoDup (map r_id l) -> (forall r, r ∈ l -> ends (r_id r) (body r)) ->
  inv w -> (forall r, r ∈ l -> safe (r_id r) (w_db w)) -> inv (for_each l body w).2.
Proof. intros Hnd Hb Hi Hs. rewrite for_each_acc. apply end_all; auto. Qed.

Lemma run_ids_NoDup db (P : run -> bool) :
  fleet_ok db -> NoDup (map r_id (where_ P (rows_z (d_runs db)))).
Proof. intros Hok. apply NoDup_map_where, rows_ids. apply Hok. Qed.

Lemma listed_safe db (P : run -> bool) r :
  fleet_ok db -> (forall r, P r = true -> live_run r = true) ->
  r ∈ where_ P (rows_z (d_runs db)) -> safe (r_id r) db.
Proof.
  intros Hok HP [Hin Hp]%elem_of_where r' Hr'. apply elem_of_rows_z in Hin as [k Hk].
  rewrite (ok_runs _ Hok _ _ Hk) in Hr'. assert (r' = r) as -> by congruence. left. auto.
Qed.

(** The runs a loop lists are live where it starts. *)
Lemma end_listed {B} (P : run -> bool) (acc : B) (body : run -> B -> W B) :
  (forall r, P r = true -> live_run r = true) -> (forall r a, ends (r_id r) (body r a)) ->
  keeps inv (db <- db_ ;; for_acc (where_ P (rows_z (d_runs db))) acc body).
Proof.
  intros HP Hb. apply snd_keeps. intros w Hi. unfold bind, db_, gets.
  apply end_all; [apply run_ids_NoDup, Hi|auto|done|]. intros r Hr.
  apply (listed_safe _ P); [apply Hi|done|done].
Qed.

Lemma end_listed_each (P : run -> bool) (body : run -> W unit) :
  (forall r, P r = true -> live_run r = true) -> (forall r, ends (r_id r) (body r)) ->
  keeps inv (db <- db_ ;; for_each (where_ P (rows_z (d_runs db))) body).
Proof.
  intros HP Hb. apply snd_keeps. intros w Hi. unfold bind, db_, gets.
  apply end_each; [apply run_ids_NoDup, Hi|auto|done|]. intros r Hr.
  apply (listed_safe _ P); [apply Hi|done|done].
Qed.

Lemma cancel_tame r : respects (on_db tame) (cancel_benchmark r).
Proof. unfold cancel_benchmark. respects_walk. Qed.
Hint Resolve cancel_tame : effects.

Lemma release_to_queue_ends rid : ends rid (_release_to_queue rid).
Proof. unfold _release_to_queue. ends_walk. Qed.
Lemma queued_tame rid : respects (on_db tame) (queued_for_cards rid).
Proof. unfold queued_for_cards, logged. respects_walk. Qed.
Hint Resolve release_to_queue_ends : ending.
Hint Resolve queued_tame : effects.

Lemma enforce_keeps : keeps inv _enforce_windows.
Proof.
  unfold _enforce_windows. 
  assert (keeps inv (db <- db_ ;; for_acc (live_runs db) ∅ _enforce_one)) as Hk.
  { apply (end_listed live_run); [done|]. intros r a. unfold _enforce_one, now. ends_walk. }
  apply snd_keeps. intros w Hi. pose proof (keeps_snd _ _ _ Hk Hi) as Hi'. unfold bind in *.
  cbn in *. by destruct (for_acc _ _ _ w) as [[e|a] w'].
Qed.

Lemma release_paused_keeps : keeps inv _release_queued_while_paused.
Proof.
  unfold _release_queued_while_paused. apply keeps_bind; [apply keeps_inv; respects_walk|]. intros db.
  apply keeps_for_each. intros c _.
  apply (end_listed_each (fun r => (r_campaign_id r =? c_id c) && live_run r)).
  { intros r Hr. by apply andb_true_iff in Hr as [_ Hr]. }
  intros r. intros w Hw. rewrite get_run_bind. destruct (d_runs (w_db w) !! r_id r) as [r'|] eqn:Hr.
  2: { apply within_refl, Hw. }
  pose proof (ok_runs _ (proj1 (proj1 Hw)) _ _ Hr) as E.
  rewrite E. revert w Hw Hr. intros w Hw _. revert w Hw. change (ends (r_id r)
    (if not_ours r' then ret tt
     else if (r_status r' == Pending) && (r_waiting_for r' == Some NodePort)
             && negb (r_kind r' == PolicyLaunch)
     then _release_to_queue (r_id r)
     else queued <- queued_for_cards (r_id r) ;;
          if queued : bool then _release_to_queue (r_id r) else ret tt)).
  ends_walk.
Qed.

Lemma stop_one_keeps e left_ : keeps inv (_stop_one e left_).
Proof.
  unfold _stop_one. destruct (e_run_id e) as [rid|]; [|apply keeps_ret].
  destruct (negb _); [apply keeps_ret|]. apply snd_keeps. intros w Hi. rewrite get_run_bind.
  destruct (d_runs (w_db w) !! rid) as [r|] eqn:Hr; [|done].
  destruct (live_run r) eqn:Hl; cbn [negb]; [|done].
  assert (endable rid w) as Hw.
  { split; [done|]. intros r' Hr'. left. congruence. }
  clear Hi Hr. match goal with |- inv (?m w).2 =>
    cut (within rid (w_db w) (m w).2); [by intros [Hi _]|]; revert w Hw; change (ends rid m) end.
  ends_walk.
Qed.

Lemma stop_requests_keeps : keeps inv _process_stop_requests.
Proof.
  unfold _process_stop_requests. apply keeps_bind; [apply keeps_inv; respects_walk|]. intros db.
  apply keeps_bind; [|intros ?; apply keeps_ret]. apply keeps_for_acc. intros e left_ _. apply stop_one_keeps.
Qed.

Lemma reconcile_keeps : keeps inv reconcile.
Proof.
  unfold reconcile, live_runs. apply end_listed_each; [done|]. intros r w Hw. rewrite get_run_bind.
  destruct (d_runs (w_db w) !! r_id r) as [r'|] eqn:Hr; [|apply within_refl, Hw].
  pose proof (ok_runs _ (proj1 (proj1 Hw)) _ _ Hr) as E. rewrite E.
  destruct (_ || _); [apply within_refl, Hw|]. revert w Hw Hr. intros w Hw _. revert w Hw.
  change (ends (r_id r) (sp <- _spec_for (r_id r) ;; h <- attach (r_id r) sp ;;
    match h with
    | None => if r_status r' == Benching then ret tt
              else _fail (r_id r) "orphaned" "container gone after worker restart"
    | Some _ => ret tt end)). ends_walk.
Qed.
End loops.

#[export] Hint Resolve cancel_tame queued_tame : effects.
#[export] Hint Resolve release_to_queue_ends : ending.
