(* ===== verification/Tenancy.v ===== *)
(** The policy sessions' step keeps the fleet's invariant: what a session kills
    may be ended, and what it launches takes cards nobody holds. *)
From S2P Require Import Prelude Float Values Documents Space Validation Failures Logs Model States Packing Timing.
From S2P Require Import World Samples Occupancy Fleet Exclusive Finish Placement Nights Reserve.
From S2P Require Import Queue Pass Runs Advance Leases Clock Sessions Ending.
#[local] Open Scope string_scope.
#[local] Open Scope list_scope.
#[local] Open Scope Z_scope.

(** ** Transactions *)

(** The invariant of a tick under way: of the database, and of what was last
    committed. *)
Definition tx_inv (s : world * database) : Prop := inv s.1 /\ fleet_ok s.2 /\ benches s.2.

Lemma keeps_sup {A} (m : W A) : keeps inv m -> keeps tx_inv (sup m).
Proof.
  intros Hm [w saved] [Hi Hs]. unfold sup. cbn [fst snd] in *. specialize (Hm w Hi).
  by destruct (m w) as [[e|a] w'].
Qed.
Lemma keeps_commit : keeps tx_inv commit.
Proof. intros [w saved] [Hi Hs]. by split. Qed.

Section tenancy.
Context `{Env}.

(** ** Writes that end nothing *)
Lemma get_session_tame sid : respects (on_db tame) (get_session sid).
Proof. unfold get_session. respects_walk. Qed.
Lemma get_contender_tame id : respects (on_db tame) (get_contender id).
Proof. unfold get_contender. respects_walk. Qed.
Hint Resolve get_session_tame get_contender_tame : effects.
Lemma contender_is_tame id st : respects (on_db tame) (contender_is id st).
Proof. unfold contender_is, put_contender. respects_walk. Qed.
Lemma contender_skip_tame id reason : respects (on_db tame) (contender_skip id reason).
Proof. unfold contender_skip, put_contender. respects_walk. Qed.
Lemma stop_serving_tame sid id : respects (on_db tame) (stop_serving sid id).
Proof. unfold stop_serving. respects_walk. Qed.
Lemma workload_state_tame s m : respects (on_db tame) (_workload_state s m).
Proof. unfold _workload_state. respects_walk. Qed.
Lemma workload_failure_tame s m : respects (on_db tame) (_workload_failure s m).
Proof. unfold _workload_failure, logged. respects_walk. Qed.
Lemma store_log_tame sid log_text : respects (on_db tame) (_store_policy_log sid log_text).
Proof. unfold _store_policy_log, logged. respects_walk. Qed.
Hint Resolve contender_is_tame contender_skip_tame stop_serving_tame workload_state_tame
  workload_failure_tame store_log_tame : effects.
Lemma save_policy_log_tame sid h : respects (on_db tame) (_save_policy_log sid h).
Proof. unfold _save_policy_log, logged. respects_walk. Qed.
Lemma death_logs_tame sid : respects (on_db tame) (_capture_death_logs sid).
Proof. unfold _capture_death_logs, logged. respects_walk. Qed.
Hint Resolve save_policy_log_tame death_logs_tame : effects.
Lemma teardown_workload_tame sid : respects (on_db tame) (_teardown_workload sid).
Proof. unfold _teardown_workload, logged. respects_walk. Qed.
Lemma end_campaign_tame sid : respects (on_db tame) (_end_campaign_of sid).
Proof. unfold _end_campaign_of. respects_walk. Qed.
Hint Resolve teardown_workload_tame end_campaign_tame : effects.
Lemma terminate_tame sid status error cls : respects (on_db tame) (_terminate sid status error cls).
Proof. unfold _terminate, put_key, now. respects_walk. Qed.
Lemma begin_finalizing_tame sid c reason : respects (on_db tame) (_begin_finalizing sid c reason).
Proof. unfold _begin_finalizing, now. respects_walk. Qed.
Hint Resolve terminate_tame begin_finalizing_tame : effects.
Lemma watchdog_tame sid c : respects (on_db tame) (_idle_watchdog sid c).
Proof. unfold _idle_watchdog, now. respects_walk. Qed.
Lemma resolve_one_tame sid c id : respects (on_db tame) (resolve_one sid c id).
Proof. unfold resolve_one, now. respects_walk. Qed.
Lemma prepare_launch_tame sid c : respects (on_db tame) (prepare_launch sid c).
Proof. unfold prepare_launch, now. respects_walk. Qed.
Lemma start_container_tame sid c wk token secrets : respects (on_db tame) (start_container sid c wk token secrets).
Proof. unfold start_container, now. respects_walk. Qed.
Lemma follow_window_tame sid hard : respects (on_db tame) (_follow_window sid hard).
Proof. unfold _follow_window, put_key, now. respects_walk. Qed.
Lemma ensure_sessions_tame : respects (on_db tame) _ensure_sessions.
Proof. unfold _ensure_sessions. respects_walk. Qed.
End tenancy.

#[export] Hint Resolve get_session_tame get_contender_tame contender_is_tame contender_skip_tame
  stop_serving_tame workload_state_tame workload_failure_tame store_log_tame save_policy_log_tame
  death_logs_tame teardown_workload_tame end_campaign_tame terminate_tame begin_finalizing_tame
  watchdog_tame resolve_one_tame prepare_launch_tame start_container_tame follow_window_tame
  ensure_sessions_tame : effects.

(** ** Killing a session's runs *)
Lemma where_where {A} (P Q : A -> bool) l : where_ P (where_ Q l) = where_ (fun x => Q x && P x) l.
Proof.
  induction l as [|x l IH]; [done|]. unfold where_ in *. rewrite !filter_cons.
  destruct (Q x) eqn:E; cbn [andb]; repeat case_decide; rewrite ?filter_cons, ?IH; try done;
    repeat case_decide; congruence.
Qed.

Section killing.
Context `{Env}.

Lemma kill_session_runs_keeps sid reason : keeps inv (_kill_session_runs sid reason).
Proof.
  pose proof (end_listed_each (fun r => (r_policy_session_id r == Some sid) && live_run r) (kill_one reason))
    as Hk.
  assert (keeps inv (db <- db_ ;; for_each (where_ (fun r => (r_policy_session_id r == Some sid) && live_run r)
    (rows_z (d_runs db))) (kill_one reason))) as Hl.
  { apply Hk; [by intros r [_ Hr]%andb_true_iff|]. intros r. unfold kill_one. ends_walk. }
  apply snd_keeps. intros w Hi. pose proof (keeps_snd _ _ w Hl Hi) as Hw. clear Hk Hl.
  unfold _kill_session_runs, session_runs, bind, db_, gets in *. by rewrite where_where.
Qed.

Lemma fail_toward_keeps sid cls error : keeps inv (_fail_toward_validation sid cls error).
Proof.
  pose proof (kill_session_runs_keeps sid). unfold _fail_toward_validation.
  repeat (apply keeps_bind; [first [apply keeps_inv; solve [respects_walk] | done]|intros ?]).
  apply keeps_inv. respects_walk.
Qed.
End killing.

(** ** Launching a validation *)

(** Cards nobody on the machine holds. *)
Definition off_held (db : database) (mid : Z) (cards : list Z) : Prop :=
  forall k n, d_nodes db !! k = Some n -> holding db n -> n_machine_id n = Some mid ->
    forall i, i ∈ cards -> i ∉ n_gpu_indices n.

(** What a validation may be launched with: nothing held, on a machine that is a
    row. *)
Definition may_take (mid : option Z) (cards : list Z) (db : database) : Prop :=
  forall m, mid = Some m -> is_Some (d_machines db !! m) -> off_held db m cards.

Lemma same_fleet_may_take mid cards db db' : same_fleet db db' -> may_take mid cards db -> may_take mid cards db'.
Proof.
  intros (Er & En & _ & Em) Ht m -> [m' Hm']. destruct (Em _ _ Hm') as (m0 & Hm0 & _).
  specialize (Ht m eq_refl ltac:(eauto)). unfold off_held, holding, node_run in *. by rewrite Er, En.
Qed.

(** A holder of a machine is among its blockers, with its cards. *)
Lemma blockers_hold db mid k n i :
  fleet_ok db -> is_Some (d_machines db !! mid) -> d_nodes db !! k = Some n -> holding db n ->
  n_machine_id n = Some mid -> i ∈ n_gpu_indices n ->
  i ∈ concat (map r_gpu_indices (blockers_on db (Some mid))).
Proof.
  intros Hok [m Hm] Hn Hh Hmid Hi. unfold blockers_on. rewrite Hm, (ok_machines _ Hok _ _ Hm).
  apply node_run_some in Hh as (r & Hr & Hh). destruct (node_occupies _ _ _ _ _ Hok Hn Hmid Hr) as [Hrow Hocc].
  apply list_elem_of_In, in_concat. exists (r_gpu_indices r). split.
  - apply in_map, list_elem_of_In. unfold holding_runs, live_runs_on, teardown_pending_on.
    rewrite elem_of_app, !elem_of_where, Hocc. unfold holds_cards in Hh. apply orb_true_iff in Hh. cbn. tauto.
  - apply list_elem_of_In. by rewrite <-(ok_uniform _ Hok k n r).
Qed.

Section launching.
Context `{Env}.

(** The cards a validation takes: of the session's block, none held, as many as
    the config needs or the whole block. *)
Lemma validation_cards_spec s cfg blockers c cards :
  _validation_cards s cfg blockers c = Some cards ->
  (forall i, i ∈ cards -> i ∈ ps_gpu_indices s /\ i ∉ concat (map r_gpu_indices blockers)) /\
  (NoDup (ps_gpu_indices s) -> NoDup cards) /\
  Z.of_nat (length cards) = Z.min (Z.max (config_cards c cfg) 1) (Z.of_nat (length (ps_gpu_indices s))).
Proof.
  unfold _validation_cards. destruct (ps_gpu_indices s) as [|i0 block] eqn:Eb.
  { intros [= <-]. split; [by intros i ?%not_elem_of_nil|]. split; [done|]. cbn. lia. }
  destruct (Z.ltb_spec (Z.of_nat (length (where_ (fun i => negb (bool_decide (i ∈ concat (map r_gpu_indices blockers))))
    (i0 :: block)))) (Z.min (Z.max (config_cards c cfg) 1) (Z.of_nat (length (i0 :: block))))) as [|Hle]; [done|].
  intros [= <-]. split; [|split].
  - intros i Hi%elem_of_sort_by%elem_of_take%elem_of_where. destruct Hi as [Hi Hn]. split; [done|].
    by apply negb_true_iff, bool_decide_eq_false in Hn.
  - intros Hnd. rewrite sort_by_perm. eapply sublist_NoDup; [|apply sublist_take]. by apply NoDup_filter.
  - rewrite length_sort_by, length_take. cbn [length] in *. lia.
Qed.

Lemma validation_may_take db s cfg c cards :
  fleet_ok db -> _validation_cards s cfg (blockers_on db (ps_machine_id s)) c = Some cards ->
  may_take (ps_machine_id s) cards db.
Proof.
  intros Hok [Hc _]%validation_cards_spec m E Hm k n Hn Hh Hmid i Hi Hin. rewrite E in Hc.
  destruct (Hc i Hi) as [_ Hnot]. by eapply Hnot, blockers_hold.
Qed.

(** A session's run is added on cards nobody holds; a benchmark of a launch owns
    no container. *)
Lemma add_run_keeps (r : run) :
  for_session r = true -> (r_launch_run_id r <> None -> r_kind r = External) ->
  triple (fun w => inv w /\ may_take (r_machine_id r) (r_gpu_indices r) (w_db w) /\
                   forall m, r_machine_id r = Some m -> is_Some (d_machines (w_db w) !! m))
    (add_run r) (fun _ => inv) (fun _ => inv).
Proof.
  intros Hs Hl w ([Hok Hb] & Ht & Hm). unfold add_run, bind, db_, gets, modify_db, modify, ret. cbn zeta.
  set (r' := r <| r_id := _ |>). split.
  - apply insert_run_ok; [exact Hok|apply next_key_fresh|]. cbn. intros m E k n Hn Hh Hmid. split.
    + exact (Ht m E (Hm m E) k n Hn Hh Hmid).
    + by right.
  - intros rid q Hq. change (<[ r_id r' := r' ]> (d_runs (w_db w)) !! rid = Some q) in Hq.
    apply lookup_insert_Some in Hq as [[_ <-]|[_ Hq]]; [exact Hl|by apply (Hb rid)].
Qed.

Lemma add_validation_keeps sid c k cfg mid cards port :
  triple (fun w => inv w /\ may_take mid cards (w_db w)) (add_validation sid c k cfg mid cards port)
    (fun _ => inv) (fun _ => inv).
Proof.
  unfold add_validation.
  assert (forall A (m : W A), respects (on_db same_fleet) m ->
    triple (fun w => inv w /\ may_take mid cards (w_db w)) m
      (fun _ w => inv w /\ may_take mid cards (w_db w)) (fun _ => inv)) as Hstep.
  { intros A m Hm w [Hi Ht]. specialize (Hm w).
    assert (inv (m w).2) as Hi' by (eapply tame_inv; [apply same_fleet_tame, Hm|done]).
    pose proof (same_fleet_may_take mid cards _ _ Hm Ht). by destruct (m w) as [[e|a] w']. }
  eapply triple_bind; [apply Hstep, new_candidate_same_fleet|intros cdid].
  eapply triple_bind with (R := fun _ w => inv w /\ may_take mid cards (w_db w) /\
    forall m, mid = Some m -> is_Some (d_machines (w_db w) !! m)).
  { intros w [Hi Ht]. destruct mid as [m|]; [|by split_and!].
    unfold get_machine, bind, db_, gets. destruct (d_machines (w_db w) !! m) eqn:E; [|done].
    cbn. split_and!; try done. intros m' [= <-]. eauto. }
  intros _. unfold now, call, bind at 1, bind at 1.
  intros w Hw. eapply triple_bind; [apply add_run_keeps; done|intros rid; by intros w' Hw'|exact Hw].
Qed.

Lemma launch_validation_keeps sid c k cfg : keeps inv (_launch_validation_run sid c k cfg).
Proof.
  apply snd_keeps. intros w Hi. unfold _launch_validation_run.
  unfold get_session at 1. unfold bind at 1, bind at 1, db_ at 1, gets at 1.
  destruct (d_sessions (w_db w) !! sid) as [s|]; [|done]. cbn [expect]. unfold ret at 1.
  unfold bind at 1, db_ at 1, gets at 1.
  destruct (empty_config cfg && _).
  { apply keeps_snd; [|done]. apply keeps_inv. respects_walk. }
  unfold bind at 1. destruct (d_campaigns (w_db w) !! ps_campaign_id s) as [cc|]; [|done].
  cbn [expect]. unfold ret at 1.
  destruct (_validation_cards s cfg (blockers_on (w_db w) (ps_machine_id s)) cc) as [cards|] eqn:Ec; [|done].
  cbv zeta. pose proof (add_validation_keeps sid c k cfg (ps_machine_id s) cards
    (validation_port (w_db w) s c (blockers_on (w_db w) (ps_machine_id s))) w) as Ha.
  unfold bind at 1. destruct (add_validation _ _ _ _ _ _ _ w) as [[e|[cdid rid]] w'].
  - apply Ha. split; [done|]. by eapply validation_may_take; [apply Hi|].
  - apply keeps_snd.
    + apply keeps_inv. unfold put_contender. respects_walk.
    + apply Ha. split; [done|]. by eapply validation_may_take; [apply Hi|].
Qed.

Lemma launch_queue_keeps sid c m queue : keeps inv (launch_queue sid c m queue).
Proof.
  induction queue as [|k rest IH]; cbn [launch_queue]; [apply keeps_ret|].
  apply keeps_bind; [|intros []; [apply keeps_ret|done]].
  unfold launch_contender. destruct (_platform_launchable c k).
  - apply keeps_bind; [apply launch_validation_keeps|intros ?; apply keeps_ret].
  - apply keeps_inv. unfold put_contender, now. respects_walk.
Qed.

Lemma launch_validations_keeps sid c m pending want : keeps inv (_launch_validations sid c m pending want).
Proof.
  unfold _launch_validations.
  apply keeps_bind; [apply keeps_inv; respects_walk|intros s].
  apply keeps_bind; [apply keeps_inv; respects_walk|intros db]. cbv zeta.
  destruct (_ && match _ with Some m => _ | None => _ end); [apply keeps_ret|].
  apply keeps_bind; [apply keeps_inv; unfold now; respects_walk|intros moment].
  destruct (match hard_deadline c _ with Some hard => _ | None => false end).
  { apply keeps_inv. respects_walk. }
  apply keeps_bind; [|intros []; [apply keeps_ret|apply launch_queue_keeps]].
  destruct want; [|apply keeps_ret].
  apply keeps_bind; [apply keeps_inv; respects_walk|intros db'].
  apply keeps_bind; [apply launch_validation_keeps|intros ?; apply keeps_ret].
Qed.

Lemma validating_keeps sid c m : keeps inv (_advance_validating sid c m).
Proof.
  unfold _advance_validating.
  apply keeps_bind; [apply keeps_inv; respects_walk|intros db]. cbv zeta.
  apply keeps_bind; [apply keeps_inv; respects_walk|intros ?].
  apply keeps_bind; [apply keeps_inv; respects_walk|intros db']. cbv zeta.
  apply keeps_bind; [case_match; [apply launch_validations_keeps|apply keeps_ret]|].
  intros []; [apply keeps_ret|]. apply keeps_inv. respects_walk.
Qed.

Lemma begin_step_keeps sid : keeps inv (begin_step sid).
Proof.
  unfold begin_step.
  apply keeps_bind; [apply keeps_inv; respects_walk|intros s].
  apply keeps_bind; [apply keeps_inv; respects_walk|intros db].
  destruct (d_campaigns db !! ps_campaign_id s) as [c|]; [|apply keeps_inv; respects_walk]. cbv zeta.
  destruct (_ && _).
  { apply keeps_bind; [apply kill_session_runs_keeps|intros ?]. apply keeps_inv. respects_walk. }
  apply keeps_bind; [apply keeps_inv; unfold now; respects_walk|intros []].
  - apply keeps_bind; [apply kill_session_runs_keeps|intros ?]. apply keeps_inv. respects_walk.
  - apply keeps_inv. respects_walk.
Qed.

Lemma finalizing_keeps sid c m : keeps inv (_advance_finalizing sid c m).
Proof.
  unfold _advance_finalizing, now.
  do 4 (apply keeps_bind; [apply keeps_inv; respects_walk|intros ?]). cbv zeta.
  destruct (negb _); [apply keeps_ret|].
  apply keeps_bind; [apply kill_session_runs_keeps|intros ?]. apply keeps_inv. respects_walk.
Qed.

Lemma searching_keeps sid c m : keeps inv (_advance_searching sid c m).
Proof.
  unfold _advance_searching, now.
  do 2 (apply keeps_bind; [apply keeps_inv; respects_walk|intros ?]).
  destruct (work_over _).
  { apply keeps_bind; [apply keeps_inv; respects_walk|intros ?; apply fail_toward_keeps]. }
  apply keeps_bind; [apply keeps_inv; respects_walk|intros ?]. cbv zeta.
  destruct (_ <? _).
  { apply keeps_bind; [apply keeps_inv; respects_walk|intros ?; apply fail_toward_keeps]. }
  apply keeps_inv. respects_walk.
Qed.

Lemma starting_keeps sid c m : keeps inv (_advance_starting_session sid c m).
Proof.
  unfold _advance_starting_session, now.
  apply keeps_bind; [apply keeps_inv; respects_walk|intros s].
  destruct (bool_decide _); [apply keeps_inv; respects_walk|].
  do 3 (apply keeps_bind; [apply keeps_inv; respects_walk|intros ?]).
  destruct (work_over _); [apply fail_toward_keeps|].
  destruct (match _ with Some _ => _ | None => None end) as [[cls msg]|]; [apply fail_toward_keeps|].
  destruct (_ <? _); [apply fail_toward_keeps|apply keeps_ret].
Qed.

Lemma advance_session_keeps sid : keeps tx_inv (_advance_session sid).
Proof.
  unfold _advance_session. apply keeps_bind; [apply keeps_sup, begin_step_keeps|].
  intros [[[c m] status]|]; [|apply keeps_ret]. destruct status; try apply keeps_ret.
  - unfold _advance_pending_session. apply keeps_bind; [apply keeps_sup, keeps_inv; respects_walk|].
    intros [[[wk token] secrets]|]; [|apply keeps_ret].
    apply keeps_bind; [apply keeps_commit|intros _]. apply keeps_sup, keeps_inv. respects_walk.
  - apply keeps_sup, starting_keeps.
  - apply keeps_sup, searching_keeps.
  - apply keeps_sup, finalizing_keeps.
  - apply keeps_sup, validating_keeps.
Qed.

Lemma sessions_keep : keeps tx_inv _advance_policy_sessions.
Proof.
  unfold _advance_policy_sessions. apply keeps_bind; [apply keeps_sup, keeps_inv; respects_walk|intros _].
  apply keeps_bind; [apply keeps_sup, keeps_inv; respects_walk|intros db].
  apply keeps_for_each. intros s _. apply keeps_try; [apply advance_session_keeps|intros ?; apply keeps_ret].
Qed.

Lemma snapshot_keeps : keeps inv _snapshot_logs.
Proof.
  apply keeps_inv. unfold _snapshot_logs, save_one_log, snapshot_log, _read_engine_log, logged.
  respects_walk.
Qed.
End launching.
