(* ===== verification/Tick.v ===== *)
(** The worker's tick ([Supervisor.tick] of
    [app/control/orchestrator/supervisor.py]): its steps, in their order.  It
    commits at its end, and before a policy's container is started; a tick that
    raises is rolled back to its last commit. *)
From S2P Require Import Prelude Float Values Documents Space Validation Failures Model States Packing Timing.
From S2P Require Import World Samples Occupancy Fleet Exclusive Finish Placement Nights Reserve Queue Pass.
From S2P Require Import Runs Advance Leases Clock Sessions Datasets Plan Ending Tenancy.
#[local] Open Scope string_scope.
#[local] Open Scope list_scope.
#[local] Open Scope Z_scope.

Section tick.
Context `{Env}.

(** ** The tick *)

(** What goes before the policy sessions, and after them. *)
Definition steps_before : W unit :=
  _run_plugin_steps ;;;
  _advance_campaign_schedules ;;;
  _advance_leases ;;;
  _process_stop_requests ;;;
  _release_queued_while_paused ;;;
  _advance_dataset_pins ;;;
  _refresh_k8s_capacity ;;;
  _refresh_datasets ;;;
  _plan.

Definition steps_after (turns : nat) : W unit :=
  _ <- _schedule turns ;;
  _advance_runs ;;;
  _enforce_windows ;;;
  _snapshot_logs ;;;
  _reap_teardowns.

(** The steps in their order. *)
Definition tick_steps (turns : nat) : Tx unit :=
  sup steps_before ;;; _advance_policy_sessions ;;; sup (steps_after turns) ;;; commit.

(** A tick that raises leaves the database as it was last committed. *)
Definition tick (turns : nat) : W unit := fun w =>
  match tick_steps turns (w, w_db w) with
  | (inr _, (w', _)) => (inr tt, w')
  | (inl e, (w', saved)) => (inl e, w' <| w_db := saved |>)
  end.
End tick.

(** ** Lemmas: every step keeps the invariant *)
Section steps.
Context `{Env}.

Lemma advance_one_keeps rid : keeps inv (_advance_one rid).
Proof.
  apply snd_keeps. intros w Hi. unfold _advance_one. rewrite get_run_bind.
  destruct (d_runs (w_db w) !! rid) as [r|] eqn:Hr; [|done].
  destruct (not_ours r) eqn:Hno.
  { apply advance_baseline_ends. split; [done|]. intros r' Hr'. right. congruence. }
  destruct (live_run r) eqn:Hl.
  - assert (endable rid w) as Hw by (split; [done|]; intros r' Hr'; left; congruence).
    assert (ends rid (sp <- _spec_for rid ;;
      match r_status r with
      | Pending => _advance_pending rid sp
      | Launching | WaitingReady => h <- attach rid sp ;; _advance_starting rid h
      | HealthCheck => h <- attach rid sp ;; _advance_health rid h
      | Benching => _ <- attach rid sp ;; _advance_benching rid
      | Serving => h <- attach rid sp ;; _advance_serving rid h
      | Succeeded | Failed | Killed => _ <- attach rid sp ;; ret tt
      end)) as He by ends_walk.
    apply (He w Hw).
  - unfold live_run in Hl. apply negb_false_iff in Hl. revert w Hi Hr. intros w Hi _.
    apply keeps_snd; [|done]. apply keeps_inv. destruct (r_status r); try done; respects_walk.
Qed.

(** A run that broke is failed; one that is already over makes the tick fail. *)
Lemma advance_runs_keeps : triple inv _advance_runs (fun _ => inv) (fun _ _ => True).
Proof.
  unfold _advance_runs. eapply triple_bind.
  { eapply triple_weaken; [apply keeps_inv; respects_walk| | |]; done. }
  intros db. cbn beta. generalize (live_runs db) as l. induction l as [|r l IH]; cbn [for_each].
  { by intros w Hi. }
  eapply triple_bind; [|intros ?; exact IH].
  eapply triple_try; [apply advance_one_keeps|]. intros e w Hi.
  destruct (d_runs (w_db w) !! r_id r) as [r'|] eqn:Hr.
  - destruct (live_run r') eqn:Hl.
    + destruct (ends_fail (r_id r) "supervisor_error" (_crash_detail e) w) as [Hi' _].
      { split; [done|]. intros r'' Hr''. left. congruence. }
      by destruct (_fail _ _ _ w) as [[e'|[]] w'].
    + pose proof (fail_over (r_id r) "supervisor_error" (_crash_detail e) w) as Ho. unfold raises in Ho.
      destruct (_fail _ _ _ w) as [[e'|[]] w']; [done|]. destruct Ho. intros r'' Hr''. congruence.
  - pose proof (fail_over (r_id r) "supervisor_error" (_crash_detail e) w) as Ho. unfold raises in Ho.
    destruct (_fail _ _ _ w) as [[e'|[]] w']; [done|]. destruct Ho. intros r'' Hr''. congruence.
Qed.

Lemma drain_keeps mid : keeps inv (_advance_drain mid).
Proof.
  apply snd_keeps. intros w Hi. unfold _advance_drain. unfold bind at 1, db_ at 1, gets at 1.
  unfold get_machine, bind at 1, bind at 1, db_ at 1, gets at 1.
  destruct (d_machines (w_db w) !! mid) as [m|]; [|done]. cbn [expect]. unfold ret at 1.
  destruct (head (live_sessions_on (w_db w) mid)) as [s|].
  { apply keeps_snd; [|done]. apply keeps_inv. unfold now. respects_walk. }
  destruct (live_runs_on (w_db w) mid) as [|r0 l0] eqn:Hlive.
  { apply keeps_snd; [|done]. apply keeps_inv. unfold now. respects_walk. }
  unfold bind at 1, now, call. destruct (negb (drain_kills_running _ m)); [done|].
  rewrite <-Hlive. unfold live_runs_on. apply end_each.
  - apply run_ids_NoDup, Hi.
  - intros r _. ends_step. ends_walk.
  - exact Hi.
  - intros r Hr. eapply listed_safe; [apply Hi| |exact Hr]. intros r' Hp. cbv beta in Hp.
    by apply andb_true_iff in Hp as [_ Hp].
Qed.

Lemma leases_keeps : keeps inv _advance_leases.
Proof.
  unfold _advance_leases. apply keeps_bind; [apply keeps_inv; respects_walk|]. intros db.
  apply keeps_for_each. intros m _. unfold logged. apply keeps_try; [|intros ?; apply keeps_ret].
  unfold _advance_lease, _begin_drain. 
  apply keeps_bind; [apply keeps_inv; respects_walk|]. intros m1.
  apply keeps_bind; [apply keeps_inv; unfold now; respects_walk|]. intros moment.
  apply keeps_bind; [apply keeps_inv; respects_walk|]. intros db'.
  apply keeps_bind; [apply keeps_inv; respects_walk|]. intros _.
  apply keeps_bind; [apply keeps_inv; respects_walk|]. intros m2.
  destruct (negb _); [apply keeps_ret|apply drain_keeps].
Qed.

Lemma confirmed_tame rid : respects (on_db tame) (put_run rid (fun r => r <| r_teardown_pending := false |>)).
Proof.
  apply put_run_tame. intros r. split; [|done]. split; [done|]. split; [done|].
  unfold holds_cards. change (live_run (r <| r_teardown_pending := false |>)) with (live_run r).
  by destruct (live_run r).
Qed.
Hint Resolve confirmed_tame : effects.

Lemma reap_keeps : keeps inv _reap_teardowns.
Proof.
  apply keeps_inv. unfold _reap_teardowns, _reap_one, _confirm_teardown, _give_up, _quarantine_machine,
    stuck_names, logged, now. respects_walk.
Qed.

Lemma plugin_steps_keeps `{!PluginLaws} : keeps inv _run_plugin_steps.
Proof.
  apply keeps_inv. unfold _run_plugin_steps. apply respects_for_each; [typeclasses eauto|].
  intros step Hs w. unfold bind, db_, gets.
  destruct (step (w_db w)) as [e|db'] eqn:E; [cbn; reflexivity|]. apply same_fleet_tame.
  by eapply step_lawful.
Qed.

Lemma clocks_keep : keeps inv _advance_campaign_schedules.
Proof.
  apply keeps_inv. unfold _advance_campaign_schedules, _advance_schedule, get_campaign, now. respects_walk.
Qed.

Lemma pins_keep : keeps inv _advance_dataset_pins.
Proof.
  apply keeps_inv. unfold _advance_dataset_pins, _advance_pin, _poll_dataset_build, _choose_dataset_build,
    find_profile, _pin_dataset, _conclude_no_dataset, get_campaign, now. respects_walk.
Qed.

Lemma capacity_keeps : keeps inv _refresh_k8s_capacity.
Proof.
  apply keeps_inv. unfold _refresh_k8s_capacity, logged, now. respects_walk.
  apply put_machine_tame. intros m. unfold record_capacity. by case_match.
Qed.

Lemma refresh_keeps : keeps inv _refresh_datasets.
Proof. apply keeps_inv. unfold _refresh_datasets, _refresh_one, logged, now. respects_walk. Qed.

Lemma plan_keeps : keeps inv _plan.
Proof. apply keeps_inv. unfold _plan, _plan_campaign, _plan_point. respects_walk. Qed.

(** ** Lemmas: a placement adds no benchmark of a launch *)
Definition keeps_benches (db db' : database) : Prop := benches db -> benches db'.
#[local] Instance keeps_benches_preorder : PreOrder keeps_benches.
Proof. split; unfold keeps_benches; [by intros x|]. intros x y z Hxy Hyz Hx. auto. Qed.

Lemma same_fleet_benches {A} (m : W A) :
  respects (on_db same_fleet) m -> respects (on_db keeps_benches) m.
Proof. intros Hm w Hb rid r Hr. destruct (Hm w) as (E & _). rewrite E in Hr. by eapply Hb. Qed.

Lemma create_run_benches c m cd cards plan sp dp ng :
  respects (on_db keeps_benches) (_create_run c m cd cards plan sp dp ng).
Proof.
  intros w Hb. destruct (create_run_effect c m cd cards plan sp dp ng w)
    as (w' & r & E & _ & Hp & Er & _). rewrite E. cbn. intros k r' Hr'. rewrite Er in Hr'.
  apply lookup_insert_Some in Hr' as [[_ <-]|[_ Hr']]; [|by eapply Hb].
  intros Hl. exfalso. apply Hl, Hp.
Qed.

Lemma place_on_first_benches c pending blocked busy ms :
  respects (on_db keeps_benches) (place_on_first c pending blocked busy ms).
Proof.
  intros w Hb. destruct (place_on_first_cases c pending blocked busy ms w) as (b & busy' & w' & E & Hc).
  rewrite E. cbn. destruct b; [|by subst].
  destruct Hc as (m & cd & cards & plan & sp & dp & ng & Ecr & _).
  pose proof (create_run_benches c m cd cards plan sp dp ng w Hb) as Hb'. by rewrite Ecr in Hb'.
Qed.

Lemma start_gang_benches c pending blocked busy :
  respects (on_db keeps_benches) (_start_gang c pending blocked busy).
Proof.
  intros w Hb. destruct (start_gang_cases c pending blocked busy w) as (b & busy' & w' & E & Hc).
  rewrite E. cbn. destruct b; [|by subst].
  destruct Hc as (m & cd & cards & plan & sp & dp & ng & Ecr & _).
  pose proof (create_run_benches c m cd cards plan sp dp ng w Hb) as Hb'. by rewrite Ecr in Hb'.
Qed.

Hint Resolve place_on_first_benches start_gang_benches : effects.

Lemma start_one_benches cid blocked : respects (on_db keeps_benches) (_start_one cid blocked).
Proof.
  unfold _start_one, get_campaign. respects_walk.
  - apply same_fleet_benches, retire_same_fleet.
  - apply same_fleet_benches, filter_m_respects; [typeclasses eauto|]. intros cd.
    apply window_stage_respects; typeclasses eauto.
  - apply same_fleet_benches, maybe_finish_same_fleet.
Qed.

Lemma schedule_keeps `{!PluginLaws} turns : keeps inv (_schedule turns).
Proof.
  apply snd_keeps. intros w [Hf Hb]. split.
  - assert (respects (on_db (fun db db' => fleet_ok db -> fleet_ok db')) (_schedule turns)) as Hs;
      [|by apply Hs].
    apply schedule_respects.
    + split; [by intros db|]. intros x y z Hxy Hyz Hx. auto.
    + intros db db'. apply same_fleet_ok.
    + intros cid blocked w' Hok. exact (keeps_snd _ _ w' (start_one_keeps cid blocked) Hok).
    + done.
  - apply (schedule_respects keeps_benches); [| |done|done].
    + intros db db' (Er & _) Hbb rid r Hr. rewrite Er in Hr. by eapply Hbb.
    + apply start_one_benches.
Qed.
End steps.

Section whole.
Context `{Env}.

Lemma before_keeps `{!PluginLaws} : keeps inv steps_before.
Proof.
  unfold steps_before.
  apply keeps_bind; [apply plugin_steps_keeps|intros ?].
  apply keeps_bind; [apply clocks_keep|intros ?].
  apply keeps_bind; [apply leases_keeps|intros ?].
  apply keeps_bind; [apply stop_requests_keeps|intros ?].
  apply keeps_bind; [apply release_paused_keeps|intros ?].
  apply keeps_bind; [apply pins_keep|intros ?].
  apply keeps_bind; [apply capacity_keeps|intros ?].
  apply keeps_bind; [apply refresh_keeps|intros ?].
  apply plan_keeps.
Qed.

(** A run that is already over makes the step raise, and nothing is promised of
    the worker's database then, only of what was committed. *)
Lemma after_keeps `{!PluginLaws} turns :
  triple inv (steps_after turns) (fun _ => inv) (fun _ _ => True).
Proof.
  assert (forall A (m : W A), keeps inv m -> triple inv m (fun _ => inv) (fun _ _ => True)) as Hw.
  { intros A m Hm. by eapply triple_weaken. }
  unfold steps_after.
  eapply triple_bind; [apply Hw, schedule_keeps|intros ?].
  eapply triple_bind; [apply advance_runs_keeps|intros ?].
  eapply triple_bind; [apply Hw, enforce_keeps|intros ?].
  eapply triple_bind; [apply Hw, snapshot_keeps|intros ?].
  apply Hw, reap_keeps.
Qed.

Lemma tick_steps_keep `{!PluginLaws} turns :
  triple tx_inv (tick_steps turns) (fun _ => tx_inv) (fun _ s => fleet_ok s.2 /\ benches s.2).
Proof.
  assert (forall A (m : Tx A), keeps tx_inv m ->
    triple tx_inv m (fun _ => tx_inv) (fun _ s => fleet_ok s.2 /\ benches s.2)) as Hw.
  { intros A m Hm. eapply triple_weaken; [exact Hm| | |]; try done. by intros e s [_ Hs]. }
  unfold tick_steps.
  eapply triple_bind; [apply Hw, keeps_sup, before_keeps|intros ?].
  eapply triple_bind; [apply Hw, sessions_keep|intros ?].
  eapply triple_bind; [|intros ?; apply Hw, keeps_commit].
  intros [w saved] [Hi Hs]. pose proof (after_keeps turns w Hi) as Ha. unfold sup. cbn [fst snd] in *.
  by destruct (steps_after turns w) as [[e|[]] w'].
Qed.
End whole.

(** ** Properties *)

(** C1: no card is ever held twice.  A tick that starts with no card of a machine
    held by two live or dying runs, the rank-0 node of every run mirroring it,
    every node having its run's cards, and every benchmark of a launch an
    external run, ends so too: with its policy sessions launching their
    validations, whatever the drivers, the evaluators and the clock answer,
    however long the queue is served, and also when it raises and is rolled back
    to what it last committed. *)
Theorem tick_keeps_cards_exclusive `{Env} `{!PluginLaws} (turns : nat) (w : world)
    (Hok : fleet_ok (w_db w)) (Hbenches : benches (w_db w)) :
  fleet_ok (w_db (tick turns w).2) /\ benches (w_db (tick turns w).2).
Proof.
  pose proof (tick_steps_keep turns (w, w_db w) (conj (conj Hok Hbenches) (conj Hok Hbenches))) as Ht.
  unfold tick. destruct (tick_steps turns (w, w_db w)) as [[e|[]] [w' saved]]; apply Ht.
Qed.

Lemma sample_fleet_ok : fleet_ok (w_db (sample_world sample_db)).
Proof.
  apply insert_run_ok; [|done|].
  - split; cbn; try (intros *; rewrite ?lookup_empty; done).
    intros mid m [[<- <-]|[_ [<- <-]%lookup_singleton_Some]]%lookup_insert_Some; done.
  - intros mid _ k n Hn. done.
Qed.

(** One tick over [sample_db]: run 1 is recorded as a success and its container
    stopped, and both waiting candidates are launched beside it. *)
Lemma tick_keeps_cards_exclusive_witness :
  exists w', tick 40 (sample_world sample_db) = (inr tt, w') /\
    (r_gpu_indices <$> d_runs (w_db w') !! 2) = Some [4; 5] /\
    (r_gpu_indices <$> d_runs (w_db w') !! 3) = Some [6] /\ fleet_ok (w_db w').
Proof.
  exists (tick 40 (sample_world sample_db)).2.
  split; [vm_compute; reflexivity|]. split; [vm_compute; reflexivity|].
  split; [vm_compute; reflexivity|].
  apply (tick_keeps_cards_exclusive 40 (sample_world sample_db)).
  - exact sample_fleet_ok.
  - intros rid r Hr. unfold sample_world, sample_db, insert_run in Hr. cbn in Hr.
    apply lookup_insert_Some in Hr as [[_ <-]|[_ Hr]]; [|done]. intros Hl. by destruct Hl.
Defined.
