(* ===== verification/Contract.v ===== *)
(** The policy contract: what a policy container may ask of the platform while
    its night runs ([app/api/policy_sessions.py], its caller resolved by
    [app/core/auth.py:get_policy_session]).

    A request works on the rows as they were last committed.  It commits when the
    handler says so; what it has written and not committed when it is refused is
    lost with its database session. *)
From Stdlib Require Import Ascii.
From S2P Require Import Failures Logs Model States Packing Timing World Samples Occupancy Fleet Exclusive Finish Placement Nights.
From S2P Require Import Reserve Queue Pass Runs Advance Leases Clock Sessions Ending Tenancy.
From S2P Require Import Prelude Float Values Texts Documents Space Validation Flags Commands ExtraArgs Addresses Recipes.
From S2P Require Import Composition Conversion Scripts Checks.
#[local] Open Scope string_scope.
#[local] Open Scope list_scope.
#[local] Open Scope Z_scope.

(** ** The rows only the API uses *)

(** A measurement a policy reports of its own. *)
Record trial := Trial {
  tr_session_id : Z;
  tr_seq : Z;
  tr_config : config;
  tr_config_hash : string;
  tr_reported : doc;
  tr_failure_class : string;
  tr_notes : string;
  tr_idempotency_key : option string;
}.
Record stored_state := StoredState { so_blob : string; so_content_type : string; so_size : Z }.

(** The columns of a session the worker never reads. *)
Record session_notes := SessionNotes {
  sn_capabilities : list string;
  sn_contract_version : string;
  sn_sdk_version : string;
  sn_phase : string;
  sn_progress : option doc;
  sn_coverage : option doc;
  sn_plan : option doc;
  sn_digest : option doc;
  sn_digest_at : option Z;
}.
#[export] Instance eta_session_notes : Eta session_notes := fun r =>
  SessionNotes (sn_capabilities r) (sn_contract_version r) (sn_sdk_version r) (sn_phase r) (sn_progress r)
    (sn_coverage r) (sn_plan r) (sn_digest r) (sn_digest_at r).
Definition no_notes : session_notes := SessionNotes [] "" "" "" None None None None None.

(** The columns of a contender the worker never reads. *)
Record contender_notes := ContenderNotes {
  cn_evidence : doc;
  cn_trial_ids : list Z;
  cn_environment : tree;
  cn_recipe : option Recipe;
  cn_deviations : list deviation;
  cn_served_port : option Z;
}.
#[export] Instance eta_contender_notes : Eta contender_notes := fun r =>
  ContenderNotes (cn_evidence r) (cn_trial_ids r) (cn_environment r) (cn_recipe r) (cn_deviations r) (cn_served_port r).
Definition no_contender_notes : contender_notes := ContenderNotes (Mp []) [] [] None [] None.

(** Keyed as the rows are: the idempotency key of a run, the deviations of a
    candidate, the snapshot of a run's environment, the state of a campaign. *)
Record book := Book {
  bk_keys : gmap Z string;
  bk_deviations : gmap Z (list deviation);
  bk_snapshots : gmap Z tree;
  bk_notes : gmap Z session_notes;
  bk_contenders : gmap Z contender_notes;
  bk_trials : gmap Z trial;
  bk_states : gmap Z stored_state;
  bk_desks : gmap Z campaign_desk;
}.
#[export] Instance eta_book : Eta book := fun r =>
  Book (bk_keys r) (bk_deviations r) (bk_snapshots r) (bk_notes r) (bk_contenders r) (bk_trials r) (bk_states r) (bk_desks r).

Record desk := Desk { dk_world : world; dk_book : book }.

(** ** Handlers

    A handler works on a desk, beside the rows as they were last committed. *)
Definition H := M (desk * (database * book)).

Definition on_w {A} (m : W A) : H A := fun s =>
  let '(r, w) := m (dk_world s.1) in (r, (Desk w (dk_book s.1), s.2)).
Definition book_ : H book := gets (fun s => dk_book s.1).
Definition put_book (f : book -> book) : H unit := modify (fun s => (Desk (dk_world s.1) (f (dk_book s.1)), s.2)).
Definition commit_ : H unit := fun s => (inr tt, (s.1, (w_db (dk_world s.1), dk_book s.1))).
Definition refuse {A} (code : Z) (detail : string) : H A := raise (HTTPException code detail).

(** A request: the handler, and what it had committed when it ended. *)
Definition respond {A} (h : H A) (d : desk) : (exn + A) * desk :=
  let '(r, (d', (db, bk))) := h (d, (w_db (dk_world d), dk_book d)) in
  (r, Desk ((dk_world d') <| w_db := db |>) bk).

(** ** The caller *)

(** [core/apikeys.py:split]: the lookup prefix inside [atk_<prefix>_<secret>]. *)
Definition split_key (plaintext : string) : option string :=
  match partition "_"%char (strip plaintext) with
  | Some (kind, rest) =>
      match partition "_"%char rest with
      | Some (prefix, _) => if String.eqb kind "atk" && negb (String.eqb prefix "") then Some prefix else None
      | None => None
      end
  | None => None
  end.

Section contract.
Context `{Env}.
(** SHA-256 in hexadecimal, and whether a key has been revoked. *)
Context (digest : string -> string) (active : api_key -> bool).

Definition _expired (expires_at : option Z) (moment : Z) : bool :=
  match expires_at with Some t => t <=? moment | None => false end.

(** The session a token stands for. *)
Definition get_policy_session (presented : option string) : H Z :=
  match presented with
  | None => refuse 401 "Policy session token required"
  | Some plaintext =>
      if String.eqb plaintext "" then refuse 401 "Policy session token required"
      else
        db <- on_w db_ ;;
        let key := prefix ← split_key plaintext;
                   List.find (fun k => String.eqb (ak_prefix k) prefix) (rows_z (d_api_keys db)) in
        match key with
        | None => refuse 401 "Invalid policy session token"
        | Some key =>
            match ak_policy_session_id key with
            | None => refuse 401 "Invalid policy session token"
            | Some sid =>
                if negb (active key) || negb (String.eqb (digest plaintext) (ak_key_hash key))
                then refuse 401 "Invalid policy session token"
                else
                  moment <- on_w now ;;
                  if _expired (ak_expires_at key) moment then refuse 401 "Policy session token expired"
                  else
                    match d_sessions db !! sid with
                    | None => refuse 401 "Invalid policy session token"
                    | Some s => if terminal_session (ps_status s) then refuse 410 "Policy session has ended"
                                else commit_ ;;; ret sid
                    end
            end
        end
  end.

(** ** Shared helpers *)
Definition session_ (sid : Z) : H policy_session := on_w (get_session sid).
Definition _context (sid : Z) : H (policy_session * campaign * option machine) :=
  s <- session_ sid ;;
  db <- on_w db_ ;;
  match d_campaigns db !! ps_campaign_id s with
  | None => refuse 410 "Campaign no longer exists"
  | Some c => ret (s, c, session_machine db s)
  end.
Definition desk_of (c : campaign) : H campaign_desk := bk <- book_ ;; on_w (expect (bk_desks bk !! c_id c)).

Definition _audit (sid : Z) (kind : string) (rid : option Z) : H unit :=
  s <- session_ sid ;; on_w (event_ kind (Some (ps_campaign_id s)) rid).

(** Delegated work: the clock the watchdog reads. *)
Definition mark (moment : Z) (s : policy_session) : policy_session :=
  let s := ((s <| ps_last_activity_at := Some moment |>) <| ps_idle_strikes := 0 |>) <| ps_last_idle_strike_at := None |> in
  if String.eqb (ps_policy_status s) "exhausted" then s <| ps_policy_status := "" |> else s.
Definition _mark_activity (sid : Z) : H unit :=
  moment <- on_w now ;; on_w (put_session sid (mark moment)).

Definition _require_exploring (s : policy_session) (c : campaign) (m : option machine) : H unit :=
  if negb (exploring (ps_status s)) then refuse 409 "exploration is over — follow the heartbeat"
  else
    match search_deadline c m with
    | None => ret tt
    | Some t => moment <- on_w now ;;
                if t <=? moment then refuse 409 "past the search deadline — finalize and register contenders" else ret tt
    end.

(** Canonical config and deviations, or a 422 with all that is wrong. *)
Definition _validated (db : database) (cfg : config) (c : campaign) (k : campaign_desk) (m : option machine)
    : exn + (config * list deviation) :=
  match _config_problems db cfg c k m with
  | inl _ => inl (OtherError "the recipe has no place for it")
  | inr (canonical, []) => inr (canonical, deviations canonical (c_search_space c))
  | inr _ => inl (HTTPException 422 "config refused")
  end.
Definition _validated_or_audit (sid : Z) (cfg : config) (c : campaign) (m : option machine) : H (config * list deviation) :=
  db <- on_w db_ ;;
  k <- desk_of c ;;
  match _validated db cfg c k m with
  | inr found => ret found
  | inl (HTTPException code detail) =>
      _audit sid "policy_config_refused" None ;;; commit_ ;;; refuse code detail
  | inl e => raise e
  end.

Definition _live_session_runs (db : database) (sid : Z) : list run :=
  where_ (fun r => (r_policy_session_id r == Some sid) && live_run r) (rows_z (d_runs db)).

(** The run an idempotency key was already spent on. *)
Definition _idempotent_run (db : database) (bk : book) (sid : Z) (key : option string) : option run :=
  match key with
  | None => None
  | Some k => if String.eqb k "" then None
              else List.find (fun r => (r_policy_session_id r == Some sid) && (bk_keys bk !! r_id r == Some k)) (rows_z (d_runs db))
  end.

Definition _check_fits_a_node (m : option machine) (per_pod : Z) : H unit :=
  match m with
  | Some m => if is_node_pool m && negb (m_node_gpu_max m =? 0) && (m_node_gpu_max m <? per_pod)
              then refuse 422 "no node could ever hold it" else ret tt
  | None => ret tt
  end.

Definition busy_cards_of (live : list run) : list Z := concat (map r_gpu_indices live).
Definition holds_none (cards : list Z) (i : Z) : bool := negb (bool_decide (i ∈ cards)).

(** The first cards of the block no live run of the session holds. *)
Definition _free_cards (s : policy_session) (live : list run) (needed : Z) : H (list Z) :=
  let allowed := ps_gpu_indices s in
  if Z.of_nat (length allowed) <? needed then refuse 422 "the recipe uses more cards than this session holds"
  else
    let free := where_ (holds_none (busy_cards_of live)) allowed in
    if Z.of_nat (length free) <? needed then refuse 429 "cards are busy — release something or wait"
    else ret (take (Z.to_nat needed) free).

Definition _check_cards_and_port (s : policy_session) (live : list run) (cards : list Z) (port : option Z) : H Z :=
  if negb (forallb (fun i => bool_decide (i ∈ ps_gpu_indices s)) cards)
  then refuse 422 "cards are outside this session's allocation"
  else if negb (forallb (holds_none (busy_cards_of live)) cards)
    then refuse 429 "cards are busy with your own runs — release something or wait"
  else
    let busy_ports := without_zero (map r_service_port live) in
    match port with
    | Some p =>
        if negb (bool_decide (p ∈ ps_ports s)) then refuse 422 "port is outside this session's allocation"
        else if bool_decide (p ∈ busy_ports) then refuse 429 "port is busy with your own runs"
        else ret p
    | None =>
        match List.find (holds_none busy_ports) (ps_ports s) with
        | Some p => ret p
        | None => refuse 429 "no free port in this session's allocation"
        end
    end.

(** Rows for the ledger, never picked up by the scheduler. *)
Definition _make_candidate (c : campaign) (cfg : config) (dev : list deviation) (kind : CandidateKind) : H Z :=
  id <- on_w (new_candidate (c_id c) cfg (config_hash cfg) Exhausted None kind false None) ;;
  put_book (fun bk => bk <| bk_deviations ::= <[ id := dev ]> |>) ;;;
  ret id.

(** A run is added with the key it answers to; its machine is a row. *)
Definition request_run (r : run) (key : option string) : H Z :=
  on_w (match r_machine_id r with Some mid => _ <- get_machine mid ;; ret tt | None => ret tt end) ;;;
  started <- on_w now ;;
  created <- on_w now ;;
  rid <- on_w (add_run ((r <| r_started_at := Some started |>) <| r_created_at := created |>)) ;;
  match key with Some k => put_book (fun bk => bk <| bk_keys ::= <[ rid := k ]> |>) | None => ret tt end ;;;
  ret rid.

Definition _session_run (sid rid : Z) (kind : RunKind) : H run :=
  db <- on_w db_ ;;
  match d_runs db !! rid with
  | Some r => if (r_policy_session_id r == Some sid) && (r_kind r == kind) then ret r
              else refuse 404 "No such run in this session"
  | None => refuse 404 "No such run in this session"
  end.

(** ** What is answered *)
Record LaunchOut := mkLaunchOut {
  lo_id : Z;
  lo_status : string;
  lo_endpoint_url : string;
  lo_failure_class : string;
  lo_config : config;
  lo_deviations : list deviation;
  lo_waiting_reason : string;
  lo_waiting_since : option Z;
}.

Definition launch_state (st : RunStatus) : string :=
  match st with
  | Pending => "queued"
  | Launching | WaitingReady | HealthCheck => "launching"
  | Serving => "serving"
  | Succeeded => "released"
  | Failed | Killed => "failed"
  | Benching => run_status_name Benching
  end.

Definition _launch_out (db : database) (bk : book) (r : run) (waiting_reason : string) : LaunchOut :=
  let state := if (r_status r == Serving) && bool_decide (is_Some (r_release_requested_at r)) then "releasing"
               else launch_state (r_status r) in
  let waiting := bool_decide (is_Some (r_waiting_since r)) && String.eqb state "launching" in
  mkLaunchOut (r_id r) (if waiting then "queued" else state) (r_endpoint_url r) (r_failure_class r)
    (from_option cd_config ∅ (d_candidates db !! r_candidate_id r))
    (default [] (bk_deviations bk !! r_candidate_id r))
    (if waiting then waiting_reason else "") (if waiting then r_waiting_since r else None).

(** What the cluster last said about a run it has not placed. *)
Definition _waiting_reason (db : database) (r : run) : string :=
  match r_waiting_since r with
  | None => ""
  | Some _ =>
      if negb (String.eqb (r_waiting_reason r) "") then r_waiting_reason r
      else match last (where_ (fun e => String.eqb (e_kind e) "run_waiting_for_cluster" && (e_run_id e == Some (r_id r))) (d_events db)) with
           | Some e => e_reason e
           | None => ""
           end
  end.

Record BenchmarkOut := mkBenchmarkOut {
  bo_id : Z;
  bo_status : string;
  bo_suite : Stage;
  bo_objective_value : option float;
  bo_feasible : option bool;
  bo_failure_class : string;
  bo_config : config;
}.

Definition benchmark_state (st : RunStatus) : string :=
  match st with
  | Pending => "queued" | HealthCheck => "health_check" | Benching => "benching"
  | Succeeded => "succeeded" | Failed => "failed" | Killed => "killed"
  | _ => run_status_name st
  end.

(** The newest result the benchmark platform left. *)
Definition newest_result (db : database) (rid : Z) : option result :=
  last (where_ (fun x => (rs_run_id x =? rid) && String.eqb (rs_source x) "llmbench") (rows_z (d_results db))).

Definition _benchmark_out (db : database) (r : run) : BenchmarkOut :=
  let cd := d_candidates db !! r_candidate_id r in
  mkBenchmarkOut (r_id r) (benchmark_state (r_status r))
    (match cd with Some cd => stage_of cd | None => SCREEN end)
    (newest_result db (r_id r) ≫= rs_objective_value) (rs_feasible <$> newest_result db (r_id r))
    (r_failure_class r) (from_option cd_config ∅ cd).

Definition launch_out (rid : Z) : H LaunchOut :=
  r <- on_w (get_run rid) ;; db <- on_w db_ ;; bk <- book_ ;; ret (_launch_out db bk r "").
Definition benchmark_out (rid : Z) : H BenchmarkOut :=
  r <- on_w (get_run rid) ;; db <- on_w db_ ;; ret (_benchmark_out db r).

(** ** Heartbeats and the night's own words *)
Record HeartbeatIn := mkHeartbeat {
  hb_capabilities : list string;
  hb_contract_version : string;
  hb_sdk_version : string;
  hb_phase : string;
  hb_message : string;
  hb_status : string;
  hb_failure_class : string;
  hb_progress : option doc;
  hb_coverage : option doc;
}.

Definition or_text (a b : string) : string := if String.eqb a "" then b else a.

(** What a heartbeat writes on the worker's side of the session. *)
Definition heard (body : HeartbeatIn) (moment : Z) (s : policy_session) : policy_session :=
  let first := bool_decide (ps_first_heartbeat_at s = None) in
  let s := s <| ps_last_heartbeat_at := Some moment |> in
  let s := if first then s <| ps_first_heartbeat_at := Some moment |> else s in
  let s := if String.eqb (hb_message body) "" then s else s <| ps_policy_message := clip 4000 (hb_message body) |> in
  if listed (hb_status body) ["exhausted"; "error"] then
    let s := s <| ps_policy_status := hb_status body |> in
    if String.eqb (hb_status body) "error" && negb (String.eqb (hb_failure_class body) "")
    then s <| ps_failure_class ::= fun f => or_text f (clip 64 (hb_failure_class body)) |> else s
  else s.

(** And on its own. *)
Definition noted (body : HeartbeatIn) (first : bool) (n : session_notes) : session_notes :=
  let n := if first then ((n <| sn_capabilities := hb_capabilities body |>) <| sn_contract_version := hb_contract_version body |>)
                           <| sn_sdk_version := hb_sdk_version body |> else n in
  let n := if String.eqb (hb_phase body) "" then n else n <| sn_phase := clip 32 (hb_phase body) |> in
  let n := match hb_progress body with Some p => n <| sn_progress := Some p |> | None => n end in
  match hb_coverage body with Some p => n <| sn_coverage := Some p |> | None => n end.

Definition put_notes (sid : Z) (f : session_notes -> session_notes) : H unit :=
  put_book (fun bk => bk <| bk_notes ::= fun t => <[ sid := f (default no_notes (t !! sid)) ]> t |>).

Definition pending_contender (k : contender) : bool := (pc_status k == Registered) || (pc_status k == BeingServed).

Definition heartbeat (sid : Z) (body : HeartbeatIn) : H Nights.command :=
  '(s, c, m) <- _context sid ;;
  moment <- on_w now ;;
  put_notes sid (noted body (bool_decide (ps_first_heartbeat_at s = None))) ;;;
  on_w (put_session sid (heard body moment)) ;;;
  s <- session_ sid ;;
  db <- on_w db_ ;;
  let pending := Z.of_nat (length (where_ pending_contender (contenders_of db sid))) in
  asked <- on_w now ;;
  let answer := command_for s c m pending (head (ps_ports s)) asked in
  commit_ ;;; ret answer.

Definition finalized (sid : Z) : H unit :=
  s <- session_ sid ;;
  (if bool_decide (ps_finalized_at s = None) then
     moment <- on_w now ;;
     on_w (put_session sid (fun s => s <| ps_finalized_at := Some moment |>)) ;;;
     _audit sid "policy_finalized" None
   else ret tt) ;;;
  commit_.

Definition put_plan (sid : Z) (plan : doc) : H unit :=
  put_notes sid (fun n => n <| sn_plan := Some plan |>) ;;;
  _audit sid "policy_plan_updated" None ;;;
  commit_.

Definition put_digest (sid : Z) (summary : doc) : H unit :=
  s <- session_ sid ;;
  if terminal_session (ps_status s) then refuse 409 "the session is over"
  else
    moment <- on_w now ;;
    put_notes sid (fun n => (n <| sn_digest := Some summary |>) <| sn_digest_at := Some moment |>) ;;;
    _audit sid "policy_digest_written" None ;;;
    commit_.

Definition post_event (sid : Z) : H unit := _audit sid "policy_event" None ;;; commit_.

(** ** Trials *)
Record TrialIn := mkTrialIn {
  ti_config : config;
  ti_reported : doc;
  ti_failure_class : string;
  ti_notes : string;
}.

Definition trials_of (bk : book) (sid : Z) : list trial := where_ (fun t => tr_session_id t =? sid) (rows_z (bk_trials bk)).

Definition report_trial (sid : Z) (body : TrialIn) (key : option string) : H trial :=
  '(_, c, _) <- _context sid ;;
  bk <- book_ ;;
  match (match key with
         | Some k => if String.eqb k "" then None else List.find (fun t => tr_idempotency_key t == Some k) (trials_of bk sid)
         | None => None
         end) with
  | Some t => ret t
  | None =>
      let canonical := _canonical (ti_config body) c in
      let t := Trial sid (Z.of_nat (length (trials_of bk sid)) + 1) canonical (config_hash canonical) (ti_reported body)
                 (clip 64 (ti_failure_class body)) (clip 4000 (ti_notes body)) key in
      put_book (fun bk => bk <| bk_trials ::= <[ next_key (bk_trials bk) := t ]> |>) ;;;
      commit_ ;;; ret t
  end.

Definition list_trials (sid : Z) : H (list trial) :=
  bk <- book_ ;; ret (sort_by (key_before (fun t => [tr_seq t])) (trials_of bk sid)).

(** ** Launches *)
Record LaunchIn := mkLaunchIn { li_engine_args : config; li_gpu_indices : list Z; li_port : option Z }.

(** [config_cards], [config_pod_cards]: the recipe applied, or the flags. *)
Definition counted (n : apply_error + Z) : H Z :=
  match n with inr z => ret z | inl _ => raise (OtherError "the recipe has no place for it") end.

(** The cards of a launch: the ones asked for when they are as many as the config
    uses; under a recipe, whose shape a policy cannot see, the first free ones. *)
Definition launch_cards (s : policy_session) (c : campaign) (live : list run) (needed : Z) (asked : list Z) : H (list Z) :=
  if negb (bool_decide (ps_gpu_indices s = [])) && negb (needed =? Z.of_nat (length asked)) then
    if c_has_recipe c then _free_cards s live needed
    else refuse 422 "config uses a number of cards other than the one requested"
  else ret asked.

Definition request_launch (sid : Z) (body : LaunchIn) (key : option string) : H LaunchOut :=
  '(s, c, m) <- _context sid ;;
  _require_exploring s c m ;;;
  _mark_activity sid ;;;
  db <- on_w db_ ;;
  bk <- book_ ;;
  match _idempotent_run db bk sid key with
  | Some r => commit_ ;;; launch_out (r_id r)
  | None =>
      '(canonical, dev) <- _validated_or_audit sid (li_engine_args body) c m ;;
      k <- desk_of c ;;
      needed <- counted (Conversion.config_cards (cm_recipe k) (items canonical)) ;;
      db <- on_w db_ ;;
      let live := _live_session_runs db sid in
      cards <- launch_cards s c live needed (li_gpu_indices body) ;;
      per_pod <- counted (config_pod_cards (cm_recipe k) (items canonical)) ;;
      _check_fits_a_node m per_pod ;;;
      port <- _check_cards_and_port s live cards (li_port body) ;;
      cdid <- _make_candidate c canonical dev Search ;;
      rid <- request_run (blank_run <| r_campaign_id := c_id c |> <| r_candidate_id := cdid |>
                            <| r_machine_id := ps_machine_id s |> <| r_kind := PolicyLaunch |>
                            <| r_gpu_indices := cards |> <| r_service_port := port |>
                            <| r_policy_session_id := Some sid |>) key ;;
      _audit sid "policy_launch_requested" (Some rid) ;;;
      commit_ ;;;
      launch_out rid
  end.

Definition launch_status (sid rid : Z) : H LaunchOut :=
  r <- _session_run sid rid PolicyLaunch ;;
  db <- on_w db_ ;; bk <- book_ ;; ret (_launch_out db bk r (_waiting_reason db r)).

Definition release_launch (sid rid : Z) : H LaunchOut :=
  r <- _session_run sid rid PolicyLaunch ;;
  (if live_run r && bool_decide (r_release_requested_at r = None) then
     moment <- on_w now ;;
     on_w (put_run rid (fun r => r <| r_release_requested_at := Some moment |>)) ;;;
     _audit sid "policy_release_requested" (Some rid)
   else ret tt) ;;;
  commit_ ;;; launch_out rid.

(** ** Benchmarks *)
Definition _require_known_suite (suite : string) : H unit :=
  if String.eqb suite "screen" then ret tt else refuse 422 "unknown suite".

Definition bench_launch (sid parent_id : Z) (suite : string) (key : option string) : H BenchmarkOut :=
  '(s, c, m) <- _context sid ;;
  _require_exploring s c m ;;;
  _require_known_suite suite ;;;
  _mark_activity sid ;;;
  parent <- _session_run sid parent_id PolicyLaunch ;;
  if negb (r_status parent == Serving) then refuse 409 "the launch is not serving — wait for it"
  else
    db <- on_w db_ ;; bk <- book_ ;;
    match _idempotent_run db bk sid key with
    | Some r => commit_ ;;; benchmark_out (r_id r)
    | None =>
        rid <- request_run (blank_run <| r_campaign_id := c_id c |> <| r_candidate_id := r_candidate_id parent |>
                              <| r_machine_id := ps_machine_id s |> <| r_kind := External |> <| r_status := HealthCheck |>
                              <| r_endpoint_url := r_endpoint_url parent |> <| r_policy_session_id := Some sid |>
                              <| r_launch_run_id := Some parent_id |>) key ;;
        _audit sid "policy_bench_requested" (Some rid) ;;;
        commit_ ;;; benchmark_out rid
    end.

Record ExternalBenchmarkIn := mkExternalBenchmark {
  xb_port : Z; xb_engine_args : config; xb_gpu_indices : list Z; xb_suite : string }.

Definition endpoint_of (m : machine) (port : Z) : string := "http://" +:+ m_host m +:+ ":" +:+ pretty port.

Definition bench_external (sid : Z) (body : ExternalBenchmarkIn) (key : option string) : H BenchmarkOut :=
  '(s, c, m) <- _context sid ;;
  _require_exploring s c m ;;;
  _require_known_suite (xb_suite body) ;;;
  _mark_activity sid ;;;
  match m with
  | None => refuse 409 "session has no machine"
  | Some mm =>
      if negb (bool_decide (ps_gpu_indices s = [])) && bool_decide (xb_gpu_indices body = [])
      then refuse 422 "gpu_indices is empty: name the cards the engine you serve runs on"
      else if negb (bool_decide (xb_port body ∈ ps_ports s)) then refuse 422 "port is outside this session's allocation"
      else
        db <- on_w db_ ;; bk <- book_ ;;
        match _idempotent_run db bk sid key with
        | Some r => commit_ ;;; benchmark_out (r_id r)
        | None =>
            (* _require_self_serving_is_reachable *)
            if String.eqb (strip (m_host mm)) "" then refuse 409 "the machine has no reachable host address"
            else
              '(canonical, dev) <- _validated_or_audit sid (xb_engine_args body) c m ;;
              cdid <- _make_candidate c canonical dev Search ;;
              rid <- request_run (blank_run <| r_campaign_id := c_id c |> <| r_candidate_id := cdid |>
                                    <| r_machine_id := ps_machine_id s |> <| r_kind := External |> <| r_status := HealthCheck |>
                                    <| r_endpoint_url := endpoint_of mm (xb_port body) |>
                                    <| r_gpu_indices := xb_gpu_indices body |> <| r_service_port := xb_port body |>
                                    <| r_policy_session_id := Some sid |>) key ;;
              _audit sid "policy_bench_requested" (Some rid) ;;;
              commit_ ;;; benchmark_out rid
        end
  end.

Definition benchmark_status (sid rid : Z) : H BenchmarkOut :=
  r <- _session_run sid rid External ;; db <- on_w db_ ;; ret (_benchmark_out db r).

Definition cancel_benchmark (sid rid : Z) : H BenchmarkOut :=
  r <- _session_run sid rid External ;;
  (if live_run r then
     _audit sid "stop_requested" (Some rid) ;;;
     on_w (event_ "stop_requested" (Some (r_campaign_id r)) (Some rid))
   else ret tt) ;;;
  commit_ ;;; benchmark_out rid.

(** ** Contenders *)
Record ContenderIn := mkContenderIn {
  ci_rank : Z;
  ci_engine_args : config;
  ci_image : string;
  ci_environment : tree;
  ci_evidence : doc;
  ci_trial_ids : list Z;
}.
Inductive reject_reason := DuplicateRank | OverCap (cap : Z) | Refused.

(** An accepted row, before it is given a key. *)
Definition accepted_row : Type := contender * contender_notes.

(** The rows so far, the rejections, the ranks seen. *)
Definition considered : Type := list accepted_row * list (Z * reject_reason) * list Z.

(** One entry of the list; an error that is no refusal ends the request. *)
Definition consider (db : database) (sid : Z) (c : campaign) (k : campaign_desk) (m : option machine)
    (entry : ContenderIn) (acc : considered) : exn + considered :=
  let '(rows, rejected, seen) := acc in
  let rank := ci_rank entry in
  if bool_decide (rank ∈ seen) then inr (rows, rejected ++ [(rank, DuplicateRank)], seen)
  else
    let seen := rank :: seen in
    let cap := st_max_contenders (settings_of c) in
    if cap <=? Z.of_nat (length rows) then inr (rows, rejected ++ [(rank, OverCap cap)], seen)
    else
      match _validated db (ci_engine_args entry) c k m with
      | inl (HTTPException _ _) => inr (rows, rejected ++ [(rank, Refused)], seen)
      | inl e => inl e
      | inr (canonical, dev) =>
          match recipe_for (cm_recipe k) (items canonical) with
          | inl _ => inl (OtherError "the recipe has no place for it")
          | inr recipe =>
              inr (rows ++ [(PolicyContender 0 sid rank canonical (ci_image entry) (config_hash canonical) Registered None None None "",
                             ContenderNotes (ci_evidence entry) (ci_trial_ids entry) (ci_environment entry) (Some recipe) dev None)],
                   rejected, seen)
          end
      end.

(** The signature of a list: its ranks and configs. *)
Definition _sig (rows : list contender) : list (Z * string) :=
  sort_by (key_before (fun p => p.1 :: key_of_string p.2)) (map (fun k => (pc_rank k, pc_config_hash k)) rows).

Definition add_contender (row : accepted_row) : H Z :=
  db <- on_w db_ ;;
  let id := next_key (d_contenders db) in
  on_w (modify_db (fun db => db <| d_contenders ::= <[ id := row.1 <| pc_id := id |> ]> |>)) ;;;
  put_book (fun bk => bk <| bk_contenders ::= <[ id := row.2 ]> |>) ;;;
  ret id.

Fixpoint add_contenders (rows : list accepted_row) : H (list Z) :=
  match rows with
  | [] => ret []
  | row :: rest => id <- add_contender row ;; ids <- add_contenders rest ;; ret (id :: ids)
  end.

(** The same list declared again: its evidence is refreshed in place. *)
Definition refresh (rows : list accepted_row) (k : contender) : H unit :=
  match List.find (fun row => (pc_rank row.1 =? pc_rank k) && String.eqb (pc_config_hash row.1) (pc_config_hash k)) (reverse rows) with
  | None => raise KeyError
  | Some (fresh, notes) =>
      on_w (put_contender (pc_id k) (fun k => (k <| pc_engine_args := pc_engine_args fresh |>) <| pc_image := pc_image fresh |>)) ;;;
      put_book (fun bk => bk <| bk_contenders ::= <[ pc_id k :=
        let old := default no_contender_notes (bk_contenders bk !! pc_id k) in
        (notes <| cn_deviations := cn_deviations old |>) <| cn_served_port := cn_served_port old |> ]> |>)
  end.

Record ContendersEcho := mkEcho { ec_accepted : list Z; ec_rejected : list (Z * reject_reason) }.

Definition registered_of (db : database) (sid : Z) : list contender := where_ (in_status Registered) (contenders_of db sid).

Definition put_contenders (sid : Z) (entries : list ContenderIn) : H ContendersEcho :=
  '(s, c, m) <- _context sid ;;
  if negb (exploring (ps_status s)) then refuse 409 "contenders are frozen"
  else
    db <- on_w db_ ;;
    k <- desk_of c ;;
    let cap := st_max_contenders (settings_of c) in
    '(rows, rejected, _) <- for_acc (take (Z.to_nat (cap * 2)) entries) ([], [], [])
                              (fun entry acc => lift (consider db sid c k m entry acc)) ;;
    if bool_decide (length rows = O) && negb (bool_decide (length entries = O)) then ret (mkEcho [] rejected)
    else
      let current := registered_of db sid in
      if bool_decide (_sig current = _sig (map fst rows)) then
        for_each current (refresh rows) ;;;
        commit_ ;;; ret (mkEcho (map pc_id current) rejected)
      else
        for_each current (fun k => on_w (contender_is (pc_id k) Superseded)) ;;;
        ids <- add_contenders rows ;;
        _audit sid "policy_contenders_updated" None ;;;
        commit_ ;;; ret (mkEcho ids rejected).

Definition list_contenders (sid : Z) : H (list contender) :=
  db <- on_w db_ ;; ret (where_ (fun k => pc_session_id k =? sid) (rows_z (d_contenders db))).

Definition put_contender_notes (id : Z) (f : contender_notes -> contender_notes) : H unit :=
  put_book (fun bk => bk <| bk_contenders ::= fun t => <[ id := f (default no_contender_notes (t !! id)) ]> t |>).

(** The policy serves the contender the heartbeat commanded. *)
Definition contender_serving (sid id port : Z) : H contender :=
  '(s, c, m) <- _context sid ;;
  if negb (ps_status s == Validating) then refuse 409 "not validating yet — follow the heartbeat"
  else if negb (ps_serving_contender_id s == Some id) then refuse 409 "serve exactly what was asked"
  else
    match m with
    | None => refuse 409 "session has no machine"
    | Some mm =>
        if negb (bool_decide (port ∈ ps_ports s)) then refuse 422 "port is outside this session's allocation"
        else
          db <- on_w db_ ;;
          match d_contenders db !! id with
          | None => refuse 404 "No such contender in this session"
          | Some k =>
              if negb (pc_session_id k =? sid) then refuse 404 "No such contender in this session"
              else if bool_decide (is_Some (pc_run_id k)) then ret k
              else
                bk <- book_ ;;
                let notes := default no_contender_notes (bk_contenders bk !! id) in
                cdid <- _make_candidate c (pc_engine_args k) (cn_deviations notes) Verification ;;
                rid <- request_run (blank_run <| r_campaign_id := c_id c |> <| r_candidate_id := cdid |>
                                      <| r_machine_id := ps_machine_id s |> <| r_kind := External |> <| r_status := HealthCheck |>
                                      <| r_endpoint_url := endpoint_of mm port |> <| r_gpu_indices := ps_gpu_indices s |>
                                      <| r_service_port := port |> <| r_policy_session_id := Some sid |>) None ;;
                put_book (fun bk => bk <| bk_snapshots ::= <[ rid := dict_update (cn_environment notes)
                  [("image_tag", text (pc_image k)); ("machine_gpu_type", text (m_gpu_type mm)); ("card_type", text (m_gpu_type mm));
                   ("gpu_indices", Ls (map (fun i => Sc (VInt i)) (ps_gpu_indices s)))] ]> |>) ;;;
                on_w (put_contender id (fun k => ((k <| pc_status := BeingServed |>) <| pc_candidate_id := Some cdid |>)
                                                   <| pc_run_id := Some rid |>)) ;;;
                put_contender_notes id (fun n => n <| cn_served_port := Some port |>) ;;;
                _audit sid "policy_contender_serving" (Some rid) ;;;
                commit_ ;;;
                on_w (get_contender id)
          end
    end.

(** ** State *)
Definition get_state (sid : Z) : H stored_state :=
  s <- session_ sid ;;
  bk <- book_ ;;
  match bk_states bk !! ps_campaign_id s with
  | Some row => if so_size row =? 0 then refuse 404 "No state stored for this campaign" else ret row
  | None => refuse 404 "No state stored for this campaign"
  end.

Definition put_state (limit : Z) (sid : Z) (blob content_type : string) : H unit :=
  let size := Z.of_nat (String.length blob) in
  if limit <? size then refuse 413 "the state is over the cap"
  else
    s <- session_ sid ;;
    put_book (fun bk => bk <| bk_states ::= <[ ps_campaign_id s := StoredState blob (clip 128 content_type) size ]> |>) ;;;
    commit_.
End contract.

(** ** Reading a log *)

(** The indices of the lines kept: each hit with [context] lines either side. *)
Definition kept_lines (hit : string -> bool) (context : nat) (lines : list string) : list nat :=
  filter (fun i => existsb (fun j => bool_decide ((j <= i + context)%nat /\ (i <= j + context)%nat))
                     (filter (fun j => hit (default "" (lines !! j)) = true) (seq 0 (length lines))))
         (seq 0 (length lines)).

(** The lines picked, a "--" between stretches. *)
Fixpoint picked (lines : list string) (previous : option nat) (kept : list nat) : list string :=
  match kept with
  | [] => []
  | i :: rest =>
      (match previous with
       | Some p => if bool_decide (i = S p) then [] else ["--"]
       | None => []
       end) ++ default "" (lines !! i) :: picked lines (Some i) rest
  end.

Definition tail_of {A} (n : nat) (l : list A) : list A := drop (length l - n) l.

(** The last [tail] lines, or of those a pattern finds; how a pattern is read is
    [re]'s. *)
Definition _filter_log (lines : list string) (grep : option (string -> bool)) (context tail : nat) : list string :=
  tail_of tail (match grep with Some hit => picked lines None (kept_lines hit context lines) | None => lines end).
