(* ===== verification/Duties.v ===== *)
(** What the policy contract promises the platform.

    The requests of one session: they take cards nobody holds, they write the
    rows of that session only, they leave its phase to the worker, and a request
    repeated under its idempotency key launches nothing.  Where a request names
    cards the platform does not check, what it would take is stated. *)
From Stdlib Require Import Ascii.
From S2P Require Import Failures Logs Model States Packing Timing World Samples Occupancy Fleet Exclusive Finish Placement Nights.
From S2P Require Import Reserve Queue Pass Runs Advance Leases Clock Sessions Plan Ending Tenancy Tick.
From S2P Require Import Prelude Float Values Texts Documents Space Validation Flags Commands ExtraArgs Addresses Recipes.
From S2P Require Import Composition Conversion Scripts Checks Contract.
#[local] Open Scope string_scope.
#[local] Open Scope list_scope.
#[local] Open Scope Z_scope.

(** ** The requests *)
Inductive request :=
  | Heartbeat (body : HeartbeatIn)
  | Finalized
  | PutPlan (plan : doc)
  | PutDigest (summary : doc)
  | PostEvent
  | ReportTrial (body : TrialIn) (key : option string)
  | ListTrials
  | RequestLaunch (body : LaunchIn) (key : option string)
  | LaunchStatus (rid : Z)
  | ReleaseLaunch (rid : Z)
  | BenchLaunch (parent : Z) (suite : string) (key : option string)
  | BenchExternal (body : ExternalBenchmarkIn) (key : option string)
  | BenchmarkStatus (rid : Z)
  | CancelBenchmark (rid : Z)
  | PutContenders (entries : list ContenderIn)
  | ListContenders
  | ContenderServing (id port : Z)
  | GetState
  | PutState (limit : Z) (blob content_type : string).

Section requests.
Context `{Env}.

Definition silent {A} (h : H A) : H unit := h ;;; ret tt.

Definition handle (sid : Z) (q : request) : H unit :=
  match q with
  | Heartbeat body => silent (heartbeat sid body)
  | Finalized => finalized sid
  | PutPlan plan => put_plan sid plan
  | PutDigest summary => put_digest sid summary
  | PostEvent => post_event sid
  | ReportTrial body key => silent (report_trial sid body key)
  | ListTrials => silent (list_trials sid)
  | RequestLaunch body key => silent (request_launch sid body key)
  | LaunchStatus rid => silent (launch_status sid rid)
  | ReleaseLaunch rid => silent (release_launch sid rid)
  | BenchLaunch parent suite key => silent (bench_launch sid parent suite key)
  | BenchExternal body key => silent (bench_external sid body key)
  | BenchmarkStatus rid => silent (benchmark_status sid rid)
  | CancelBenchmark rid => silent (Contract.cancel_benchmark sid rid)
  | PutContenders entries => silent (put_contenders sid entries)
  | ListContenders => silent (list_contenders sid)
  | ContenderServing id port => silent (contender_serving sid id port)
  | GetState => silent (get_state sid)
  | PutState limit blob content_type => put_state limit sid blob content_type
  end.
End requests.

(** ** An installation at work *)
(** A session searching on half of the first machine, beside a run on the other. *)
Definition night_session : policy_session :=
  PolicySession 1 1 1 (Some 1) (Some 0) Searching None None [4;5;6;7] [28300;28301] "policy-1" "" (Some 0) (Some 0) (Some 0)
    "" "" None 0 None "" None None "" "" "".
Definition night_db : database := (sample_db <| d_sessions := {[ 1 := night_session ]} |>) <| d_policies := {[ 1 := sample_policy ]} |>.
Definition flag_desk : campaign_desk := CampaignDesk (mkCampaignRecipe None sample_fields) None false None.
Definition night_desk : desk := Desk (sample_world night_db) (Book ∅ ∅ ∅ ∅ ∅ ∅ ∅ {[ 1 := flag_desk ]}).
Definition two_cards (cards : list Z) : LaunchIn := mkLaunchIn (sample_config 2) cards None.

(** ** Walking through a handler *)

(** The rows a handler works on, and those that were committed. *)
Definition working (s : desk * (database * book)) : database := w_db (dk_world s.1).
Definition committed (s : desk * (database * book)) : database := s.2.1.

(** A relation on the working rows; what is committed was at some point the
    working rows. *)
Definition on_desk (R : database -> database -> Prop) (s s' : desk * (database * book)) : Prop :=
  R (working s) (working s') /\ (committed s' = committed s \/ R (working s) (committed s')).

#[export] Instance on_desk_preorder R `{!PreOrder R} : PreOrder (on_desk R).
Proof.
  split.
  - intros s. split; [reflexivity|by left].
  - intros s1 s2 s3 [A1 B1] [A2 B2]. split; [by etransitivity|].
    destruct B2 as [->|B2]; [done|]. right. by etransitivity.
Qed.

Lemma on_w_state {A} (m : W A) s : (on_w m s).2 = (Desk (m (dk_world s.1)).2 (dk_book s.1), s.2).
Proof. unfold on_w. by destruct (m (dk_world s.1)). Qed.
Lemma on_w_answer {A} (m : W A) s : (on_w m s).1 = (m (dk_world s.1)).1.
Proof. unfold on_w. by destruct (m (dk_world s.1)). Qed.

Section on_desk.
Context (R : database -> database -> Prop) `{!PreOrder R}.

Lemma respects_on_w {A} (m : W A) : respects (on_db R) m -> respects (on_desk R) (on_w m).
Proof. intros Hm s. rewrite on_w_state. split; [apply Hm|by left]. Qed.
Lemma respects_put_book f : respects (on_desk R) (put_book f).
Proof. intros [[w bk] c]. split; [|left]; reflexivity. Qed.
Lemma respects_book : respects (on_desk R) book_.
Proof. apply respects_gets. typeclasses eauto. Qed.
Lemma desk_commit : respects (on_desk R) commit_.
Proof. intros [[w bk] c]. unfold on_desk, working, committed. cbn. split; [|right]; reflexivity. Qed.
Lemma respects_refuse {A} code detail : respects (on_desk R) (refuse (A:=A) code detail).
Proof. apply respects_raise. typeclasses eauto. Qed.
Lemma respects_counted n : respects (on_desk R) (counted n).
Proof. destruct n; [apply respects_raise|apply respects_ret]; typeclasses eauto. Qed.
End on_desk.

(** An invariant of the rows, worked on and committed. *)
Definition desk_inv (s : desk * (database * book)) : Prop :=
  inv (dk_world s.1) /\ fleet_ok s.2.1 /\ benches s.2.1.

Lemma triple_on_w {A} (P : world -> Prop) (m : W A) Q E :
  triple P m Q E ->
  triple (fun s => P (dk_world s.1) /\ fleet_ok s.2.1 /\ benches s.2.1) (on_w m)
    (fun a s => Q a (dk_world s.1) /\ fleet_ok s.2.1 /\ benches s.2.1)
    (fun e s => E e (dk_world s.1) /\ fleet_ok s.2.1 /\ benches s.2.1).
Proof. intros Hm s [Hp Hc]. specialize (Hm _ Hp). unfold on_w. by destruct (m (dk_world s.1)) as [[e|a] w']. Qed.
Lemma keeps_on_w {A} (m : W A) : keeps inv m -> keeps desk_inv (on_w m).
Proof. apply triple_on_w. Qed.
Lemma keeps_put_book f : keeps desk_inv (put_book f).
Proof. by intros s Hs. Qed.
Lemma keeps_commit_ : keeps desk_inv commit_.
Proof. intros s [Hi _]. split; [done|]. apply Hi. Qed.
Lemma keeps_refuse {A} code detail : keeps desk_inv (refuse (A:=A) code detail).
Proof. apply keeps_raise. Qed.
Lemma keeps_counted n : keeps desk_inv (counted n).
Proof. destruct n; [apply keeps_raise|apply keeps_ret]. Qed.

#[export] Hint Resolve keeps_on_w keeps_put_book keeps_commit_ keeps_refuse keeps_counted : effects.
#[export] Hint Extern 1 (keeps _ book_) => apply keeps_gets : effects.
#[export] Hint Extern 5 (keeps inv _) => apply keeps_inv : effects.

(** ** Cards *)

(** A fact about the rows that no write outside the fleet changes. *)
Definition calm (T : database -> Prop) : Prop := forall db db', same_fleet db db' -> T db -> T db'.

(** The invariant, and such a fact. *)
Definition knowing (T : database -> Prop) (s : desk * (database * book)) : Prop := desk_inv s /\ T (working s).

Lemma calm_on_w {A} T (m : W A) : calm T -> respects (on_db same_fleet) m -> keeps (knowing T) (on_w m).
Proof.
  intros HT Hm s [Hi Ht]. pose proof (keeps_on_w m (keeps_inv m (respects_same_fleet m Hm)) s Hi) as Hk.
  pose proof (on_w_state m s) as E. specialize (Hm (dk_world s.1)).
  destruct (on_w m s) as [[e|a] s']; cbn in E; subst s'; (split; [exact Hk|by eapply HT]).
Qed.
Lemma calm_put_book T f : keeps (knowing T) (put_book f).
Proof. by intros s Hs. Qed.
Lemma calm_commit T : keeps (knowing T) commit_.
Proof. intros s [Hi Ht]. split; [|done]. by apply (keeps_commit_ s). Qed.
Lemma calm_refuse {A} T code detail : keeps (knowing T) (refuse (A:=A) code detail).
Proof. apply keeps_raise. Qed.
Lemma calm_counted T n : keeps (knowing T) (counted n).
Proof. destruct n; [apply keeps_raise|apply keeps_ret]. Qed.

Lemma calm_true : calm (fun _ => True).
Proof. by intros db. Qed.
Lemma calm_may_take mid cards : calm (may_take mid cards).
Proof. intros db db' Hs. by apply same_fleet_may_take. Qed.

#[export] Hint Resolve calm_put_book calm_commit calm_refuse calm_counted calm_true calm_may_take : effects.
#[export] Hint Extern 2 (keeps (knowing _) (on_w _)) => apply calm_on_w; [solve [eauto with effects nocore]|] : effects.

(** The session's block is its own: what holds a card of it, on its machine, is a
    live run of the session. *)
Definition own_block (sid : Z) (s : policy_session) (db : database) : Prop :=
  forall mid k n r i, ps_machine_id s = Some mid -> d_nodes db !! k = Some n -> d_runs db !! n_run_id n = Some r ->
    holds_cards r = true -> n_machine_id n = Some mid -> i ∈ n_gpu_indices n -> i ∈ ps_gpu_indices s ->
    live_run r = true /\ r_policy_session_id r = Some sid.

Lemma calm_own_block sid s : calm (own_block sid s).
Proof. intros db db' (Er & En & _) Ht. unfold own_block. by rewrite Er, En. Qed.

(** Its live runs, and that the block is its own. *)
Definition own_live (sid : Z) (s : policy_session) (live : list run) (db : database) : Prop :=
  own_block sid s db /\ _live_session_runs db sid = live.
Lemma calm_own_live sid s live : calm (own_live sid s live).
Proof.
  intros db db' Hs [Ho Hl]. split; [by eapply calm_own_block|].
  destruct Hs as (Er & _). unfold _live_session_runs. by rewrite Er.
Qed.
#[export] Hint Resolve calm_own_block calm_own_live : effects.

(** Cards of the block that no live run of the session holds are held by nobody. *)
Lemma free_of_block sid s live cards db :
  fleet_ok db -> own_live sid s live db ->
  (forall i, i ∈ cards -> i ∈ ps_gpu_indices s /\ i ∉ busy_cards_of live) ->
  may_take (ps_machine_id s) cards db.
Proof.
  intros Hok [Ho <-] Hc mid E Hm k n Hn Hh Hmid i Hi Hin. destruct (Hc i Hi) as [Hblock Hfree].
  apply node_run_some in Hh as (r & Hr & Hh).
  destruct (Ho mid k n r i E Hn Hr Hh Hmid Hin Hblock) as [Hl Hs]. apply Hfree.
  rewrite (ok_uniform _ Hok k n r Hn Hr) in Hin. apply list_elem_of_In, in_concat.
  exists (r_gpu_indices r). split; [|by apply list_elem_of_In]. apply in_map, list_elem_of_In.
  apply elem_of_where. split; [by apply elem_of_rows_z; eauto|].
  rewrite Hl, andb_true_r, Hs. by apply bool_decide_eq_true.
Qed.

(** The rest of a handler, from a state where the fact still holds. *)
Lemma holds_walk {A B} T (m : H A) (f : A -> H B) :
  keeps (knowing T) m -> (forall a, triple (knowing T) (f a) (fun _ => desk_inv) (fun _ => desk_inv)) ->
  triple (knowing T) (bind m f) (fun _ => desk_inv) (fun _ => desk_inv).
Proof.
  intros Hm Hf. eapply triple_bind; [|exact Hf].
  eapply triple_weaken; [exact Hm|done..|]. by intros e s [Hi _].
Qed.
Lemma holds_end {A} T (m : H A) : keeps (knowing T) m -> triple (knowing T) m (fun _ => desk_inv) (fun _ => desk_inv).
Proof. intros Hm. eapply triple_weaken; [exact Hm|done|by intros ? ? []..]. Qed.

Section calm.
Context `{Env} (T : database -> Prop) (HT : calm T).

Lemma fact_now : keeps (knowing T) (on_w now).
Proof. apply calm_on_w; [done|]. apply respects_call; typeclasses eauto. Qed.
Lemma calm_db : keeps (knowing T) (on_w db_).
Proof. apply calm_on_w; [done|]. apply respects_db; typeclasses eauto. Qed.
Lemma calm_expect {A} (o : option A) : keeps (knowing T) (on_w (expect o)).
Proof. apply calm_on_w; [done|]. apply respects_expect; typeclasses eauto. Qed.
Lemma calm_book : keeps (knowing T) book_.
Proof. apply keeps_gets. Qed.
Lemma calm_get_run rid : keeps (knowing T) (on_w (get_run rid)).
Proof. apply calm_on_w; [done|]. unfold get_run, db_. respects_walk. Qed.
Lemma calm_get_contender id : keeps (knowing T) (on_w (get_contender id)).
Proof. apply calm_on_w; [done|]. unfold get_contender, db_. respects_walk. Qed.
Lemma calm_session sid : keeps (knowing T) (session_ sid).
Proof. apply calm_on_w; [done|]. unfold get_session, db_. respects_walk. Qed.
Lemma calm_put_session sid f : keeps (knowing T) (on_w (put_session sid f)).
Proof. apply calm_on_w; [done|]. apply put_session_same_fleet. Qed.
Lemma calm_put_contender id f : keeps (knowing T) (on_w (put_contender id f)).
Proof. apply calm_on_w; [done|]. apply respects_modify_db. intros db. by apply same_fleet_rows. Qed.
Lemma fact_event kind cid rid : keeps (knowing T) (on_w (event_ kind cid rid)).
Proof. apply calm_on_w; [done|]. apply event_same_fleet. Qed.
Lemma calm_new_candidate cid cfg hash st err kind b rep : keeps (knowing T) (on_w (new_candidate cid cfg hash st err kind b rep)).
Proof. apply calm_on_w; [done|]. apply new_candidate_same_fleet. Qed.
Hint Resolve fact_now calm_db calm_expect calm_book calm_get_run calm_get_contender calm_session calm_put_session
  calm_put_contender fact_event calm_new_candidate : effects.

Lemma calm_context sid : keeps (knowing T) (_context sid).
Proof. unfold _context. keeps_walk. Qed.
Lemma calm_desk_of c : keeps (knowing T) (desk_of c).
Proof. unfold desk_of. keeps_walk. Qed.
Lemma calm_audit sid kind rid : keeps (knowing T) (_audit sid kind rid).
Proof. unfold _audit. keeps_walk. Qed.
Lemma calm_mark sid : keeps (knowing T) (_mark_activity sid).
Proof. unfold _mark_activity. keeps_walk. Qed.
Lemma calm_exploring s c m : keeps (knowing T) (_require_exploring s c m).
Proof. unfold _require_exploring. keeps_walk. Qed.
Lemma calm_suite suite : keeps (knowing T) (_require_known_suite suite).
Proof. unfold _require_known_suite. keeps_walk. Qed.
Lemma calm_launch_cards s c live needed asked : keeps (knowing T) (launch_cards s c live needed asked).
Proof. unfold launch_cards, _free_cards. keeps_walk. Qed.
Lemma calm_fits m per_pod : keeps (knowing T) (_check_fits_a_node m per_pod).
Proof. unfold _check_fits_a_node. keeps_walk. Qed.
Lemma calm_cards_and_port s live cards port : keeps (knowing T) (_check_cards_and_port s live cards port).
Proof. unfold _check_cards_and_port. keeps_walk. Qed.
Lemma calm_session_run sid rid kind : keeps (knowing T) (_session_run sid rid kind).
Proof. unfold _session_run. keeps_walk. Qed.
Lemma calm_launch_out rid : keeps (knowing T) (launch_out rid).
Proof. unfold launch_out. keeps_walk. Qed.
Lemma calm_benchmark_out rid : keeps (knowing T) (benchmark_out rid).
Proof. unfold benchmark_out. keeps_walk. Qed.
Lemma calm_make_candidate c cfg dev kind : keeps (knowing T) (_make_candidate c cfg dev kind).
Proof. unfold _make_candidate. keeps_walk. Qed.
Hint Resolve calm_context calm_desk_of calm_audit calm_mark calm_exploring calm_suite calm_launch_cards calm_fits
  calm_cards_and_port calm_session_run calm_launch_out calm_benchmark_out calm_make_candidate : effects.
Lemma calm_validated sid cfg c m : keeps (knowing T) (_validated_or_audit sid cfg c m).
Proof. unfold _validated_or_audit. keeps_walk. Qed.
End calm.

#[export] Hint Resolve fact_now calm_db calm_expect calm_book calm_get_run calm_get_contender calm_session calm_put_session
  calm_put_contender fact_event calm_new_candidate calm_context calm_desk_of calm_audit calm_mark calm_exploring calm_suite
  calm_launch_cards calm_fits calm_cards_and_port calm_session_run calm_launch_out calm_benchmark_out calm_make_candidate
  calm_validated : effects.

(** A handler that leaves the fleet alone. *)
Lemma calm_keeps {A} (m : H A) : keeps (knowing (fun _ => True)) m -> keeps desk_inv m.
Proof.
  intros Hm. eapply triple_weaken; [exact Hm|by split|by intros ? ? []..].
Qed.

Section cards.
Context `{Env}.

(** A session's run is added, on cards nobody holds. *)
Lemma request_run_keeps (r : run) key :
  for_session r = true -> (r_launch_run_id r <> None -> r_kind r = External) ->
  triple (knowing (may_take (r_machine_id r) (r_gpu_indices r))) (request_run r key) (fun _ => desk_inv) (fun _ => desk_inv).
Proof.
  intros Hs Hl. unfold request_run.
  eapply triple_bind with (R := fun _ s => knowing (may_take (r_machine_id r) (r_gpu_indices r)) s /\
    forall m, r_machine_id r = Some m -> is_Some (d_machines (working s) !! m)).
  { intros [[w bk] c] [Hd Ht]. unfold on_w, working in *. cbn [fst snd dk_world] in *.
    destruct (r_machine_id r) as [m|]; [|by split].
    unfold get_machine, bind, db_, gets. destruct (d_machines (w_db w) !! m) eqn:Em; [|done].
    cbn. split; [by split|]. intros m' [= <-]. eauto. }
  intros _. set (P := fun s => _ /\ _).
  assert (triple P (on_w now) (fun _ => P) (fun _ => desk_inv)) as Hnow by (intros [[w bk] c] Hw; exact Hw).
  eapply triple_bind; [exact Hnow|intros started]. eapply triple_bind; [exact Hnow|intros created].
  eapply (triple_bind _ _ _ (fun _ => desk_inv)).
  - set (r' := (r <| r_started_at := Some started |>) <| r_created_at := created |>).
    pose proof (triple_on_w _ _ _ _ (add_run_keeps r' Hs Hl)) as Ha.
    intros s [[[Hi Hc] Ht] Hm]. exact (Ha s (conj (conj Hi (conj Ht Hm)) Hc)).
  - intros rid. apply keeps_bind; [destruct key; [apply keeps_put_book|apply keeps_ret]|intros ?; apply keeps_ret].
Qed.
Lemma request_run_none (r : run) key :
  for_session r = true -> (r_launch_run_id r <> None -> r_kind r = External) -> r_gpu_indices r = [] ->
  keeps desk_inv (request_run r key).
Proof.
  intros Hs Hl Hn. eapply triple_weaken; [by apply (request_run_keeps r key)| |done|done].
  intros s Hi. split; [done|]. rewrite Hn. intros m _ _ k n _ _ _ i []%not_elem_of_nil.
Qed.

(** ** Handlers that take no cards *)
Ltac calm_handler := apply calm_keeps; keeps_walk.

Lemma heartbeat_keeps sid body : keeps desk_inv (heartbeat sid body).
Proof. unfold heartbeat, put_notes. calm_handler. Qed.
Lemma finalized_keeps sid : keeps desk_inv (finalized sid).
Proof. unfold finalized. calm_handler. Qed.
Lemma put_plan_keeps sid plan : keeps desk_inv (put_plan sid plan).
Proof. unfold put_plan, put_notes. calm_handler. Qed.
Lemma put_digest_keeps sid summary : keeps desk_inv (put_digest sid summary).
Proof. unfold put_digest, put_notes. calm_handler. Qed.
Lemma post_event_keeps sid : keeps desk_inv (post_event sid).
Proof. unfold post_event. calm_handler. Qed.
Lemma report_trial_keeps sid body key : keeps desk_inv (report_trial sid body key).
Proof. unfold report_trial. calm_handler. Qed.
Lemma list_trials_keeps sid : keeps desk_inv (list_trials sid).
Proof. unfold list_trials. calm_handler. Qed.
Lemma launch_status_keeps sid rid : keeps desk_inv (launch_status sid rid).
Proof. unfold launch_status. calm_handler. Qed.
Lemma benchmark_status_keeps sid rid : keeps desk_inv (benchmark_status sid rid).
Proof. unfold benchmark_status. calm_handler. Qed.
Lemma cancel_keeps sid rid : keeps desk_inv (Contract.cancel_benchmark sid rid).
Proof. unfold Contract.cancel_benchmark. calm_handler. Qed.
Lemma list_contenders_keeps sid : keeps desk_inv (list_contenders sid).
Proof. unfold list_contenders. calm_handler. Qed.
Lemma get_state_keeps sid : keeps desk_inv (get_state sid).
Proof. unfold get_state. calm_handler. Qed.
Lemma put_state_keeps limit sid blob ct : keeps desk_inv (put_state limit sid blob ct).
Proof. unfold put_state. calm_handler. Qed.
Lemma calm_refresh T rows k : calm T -> keeps (knowing T) (refresh rows k).
Proof. intros HT. unfold refresh. keeps_walk. Qed.
Lemma calm_add_contenders T rows : calm T -> keeps (knowing T) (add_contenders rows).
Proof.
  intros HT. induction rows as [|row rows IH]; cbn [add_contenders]; [apply keeps_ret|].
  apply keeps_bind; [|intros id; apply keeps_bind; [exact IH|intros ids; apply keeps_ret]].
  unfold add_contender. keeps_walk. apply calm_on_w; [done|]. apply respects_modify_db. intros db. by apply same_fleet_rows.
Qed.
Hint Resolve calm_refresh calm_add_contenders : effects.
Lemma put_contenders_keeps sid entries : keeps desk_inv (put_contenders sid entries).
Proof. unfold put_contenders, contender_is. calm_handler. Qed.
Lemma release_keeps sid rid : keeps desk_inv (release_launch sid rid).
Proof. 
  assert (forall A (m : H A), keeps (knowing (fun _ => True)) m -> keeps desk_inv m) as Hc by (intros A m; apply calm_keeps).
  unfold release_launch. keeps_walk; try (apply Hc; keeps_walk).
  all: apply keeps_on_w, keeps_inv; eauto with effects nocore.
Qed.

(** ** Handlers that take cards *)

(** What the checks of a launch let through. *)
Lemma cards_checked s live cards port st p :
  (_check_cards_and_port s live cards port st).1 = inr p ->
  (forall i, i ∈ cards -> i ∈ ps_gpu_indices s /\ i ∉ busy_cards_of live) /\
  p ∈ ps_ports s /\ p ∉ without_zero (map r_service_port live).
Proof.
  unfold _check_cards_and_port. destruct (forallb _ cards) eqn:E1; [|done]. destruct (forallb (holds_none _) cards) eqn:E2; [|done].
  cbn [negb]. intros Hp. split.
  - intros i Hi%list_elem_of_In. rewrite forallb_forall in E1, E2. specialize (E1 i Hi). specialize (E2 i Hi).
    apply bool_decide_eq_true in E1. split; [done|]. by apply negb_true_iff, bool_decide_eq_false in E2.
  - destruct port as [q|].
    + destruct (bool_decide (q ∈ ps_ports s)) eqn:Eq; [|done]. destruct (bool_decide (q ∈ without_zero _)) eqn:Eb; [done|].
      injection Hp as <-. apply bool_decide_eq_true in Eq. by apply bool_decide_eq_false in Eb.
    + destruct (List.find _ (ps_ports s)) as [q|] eqn:Eq; [|done]. injection Hp as <-.
      apply find_some in Eq as [Hin Hq]. split; [by apply list_elem_of_In|].
      by apply negb_true_iff, bool_decide_eq_false in Hq.
Qed.

Lemma triple_pure {S A} (P : S -> Prop) (phi : Prop) (m : M S A) Q E :
  (phi -> triple P m Q E) -> triple (fun s => P s /\ phi) m Q E.
Proof. intros Hm s [Hp Hphi]. by apply (Hm Hphi). Qed.

(** A run is asked for, and the request answered. *)
Lemma launches {A} (r : run) key sid kind (answer : Z -> H A) :
  for_session r = true -> (r_launch_run_id r <> None -> r_kind r = External) ->
  (forall rid, keeps (knowing (fun _ => True)) (answer rid)) ->
  triple (knowing (may_take (r_machine_id r) (r_gpu_indices r)))
    (rid <- request_run r key ;; _audit sid kind (Some rid) ;;; commit_ ;;; answer rid) (fun _ => desk_inv) (fun _ => desk_inv).
Proof.
  intros Hs Hl Ha. eapply triple_bind; [by apply request_run_keeps|intros rid].
  apply calm_keeps. keeps_walk.
Qed.

(** The session of the request is read once. *)
Lemma context_then {A} T sid s (f : policy_session * campaign * option machine -> H A) :
  calm T -> (forall c m, triple (knowing T) (f (s, c, m)) (fun _ => desk_inv) (fun _ => desk_inv)) ->
  triple (fun st => knowing T st /\ d_sessions (working st) !! sid = Some s) (bind (_context sid) f)
    (fun _ => desk_inv) (fun _ => desk_inv).
Proof.
  intros HT Hf. eapply (triple_bind _ _ _ (fun x st => knowing T st /\ x.1.1 = s)).
  - intros st [Hi Hs]. pose proof (calm_context T HT sid st Hi) as Hk.
    revert Hk. unfold working in Hs. unfold _context, session_, on_w, get_session, bind, db_, gets. rewrite Hs. cbn.
    destruct (d_campaigns _ !! _); cbn; [by split|by intros [? _]].
  - intros [[s' c] m]. apply triple_pure. cbn [fst]. intros ->. apply Hf.
Qed.

(** With no row for it, nothing happens. *)
Lemma session_or_none {A} T sid (h : H A) :
  (forall s, triple (fun st => knowing (T s) st /\ d_sessions (working st) !! sid = Some s) h (fun _ => desk_inv) (fun _ => desk_inv)) ->
  keeps (fun st => desk_inv st /\ d_sessions (working st) !! sid = None) h ->
  triple (fun st => desk_inv st /\ forall s, d_sessions (working st) !! sid = Some s -> T s (working st)) h
    (fun _ => desk_inv) (fun _ => desk_inv).
Proof.
  intros Hs Hn st [Hi Ht]. destruct (d_sessions (working st) !! sid) as [s|] eqn:E.
  - apply (Hs s). by split; [split; [|apply Ht]|].
  - specialize (Hn st (conj Hi E)). by destruct (h st) as [[e|a] st']; destruct Hn.
Qed.

Ltac calm_step := apply holds_walk; [solve [eauto with effects nocore]|intros ?].

Lemma request_launch_keeps sid s body key :
  triple (fun st => knowing (own_block sid s) st /\ d_sessions (working st) !! sid = Some s)
    (request_launch sid body key) (fun _ => desk_inv) (fun _ => desk_inv).
Proof.
  unfold request_launch.
  apply context_then; [eauto with effects nocore|intros c m].
  do 4 calm_step.
  destruct (_idempotent_run _ _ sid key).
  { apply holds_end. keeps_walk. }
  apply holds_walk; [solve [eauto with effects nocore]|intros [canonical dev]].
  do 2 calm_step.
  eapply (triple_bind _ _ _ (fun db => knowing (own_live sid s (_live_session_runs db sid)))).
  { by intros st [Hi Ho]. }
  intros db. set (live := _live_session_runs db sid). apply holds_walk; [solve [eauto with effects nocore]|intros cards].
  do 2 calm_step.
  eapply (triple_bind _ _ _ (fun _ => knowing (may_take (ps_machine_id s) cards))).
  { intros st Hst. pose proof (calm_cards_and_port (own_live sid s live) s live cards (li_port body) st Hst) as Hk.
    pose proof (cards_checked s live cards (li_port body) st) as Hc.
    destruct (_check_cards_and_port s live cards (li_port body) st) as [[e|p] st']; [by destruct Hk|].
    destruct Hk as [Hi Ho]. destruct (Hc p eq_refl) as [Hfree _]. split; [done|].
    by eapply free_of_block; [apply Hi|..]. }
  intros port. apply holds_walk; [solve [eauto with effects nocore]|intros cdid].
  lazymatch goal with |- context [request_run ?r _] => apply (launches r) end; [done..|].
  intros rid. eauto with effects nocore.
Qed.

Hint Extern 6 (keeps desk_inv _) => apply calm_keeps : effects.
Lemma bench_launch_keeps sid parent suite key : keeps desk_inv (bench_launch sid parent suite key).
Proof. unfold bench_launch. keeps_walk. by apply request_run_none. Qed.

Lemma bench_external_keeps sid s body key :
  triple (fun st => knowing (may_take (ps_machine_id s) (xb_gpu_indices body)) st /\ d_sessions (working st) !! sid = Some s)
    (bench_external sid body key) (fun _ => desk_inv) (fun _ => desk_inv).
Proof.
  unfold bench_external. apply context_then; [eauto with effects nocore|intros c m].
  do 3 calm_step. destruct m as [mm|]; [|by apply holds_end, keeps_raise].
  destruct (_ && _); [by apply holds_end, keeps_raise|]. destruct (negb _); [by apply holds_end, keeps_raise|].
  do 2 calm_step. destruct (_idempotent_run _ _ sid key).
  { apply holds_end. keeps_walk. }
  destruct (String.eqb _ _); [by apply holds_end, keeps_raise|].
  apply holds_walk; [solve [eauto with effects nocore]|intros [canonical dev]]. calm_step.
  lazymatch goal with |- context [request_run ?r _] => apply (launches r) end; [done..|].
  intros rid. eauto with effects nocore.
Qed.

Lemma contender_serving_keeps sid s id port :
  triple (fun st => knowing (may_take (ps_machine_id s) (ps_gpu_indices s)) st /\ d_sessions (working st) !! sid = Some s)
    (contender_serving sid id port) (fun _ => desk_inv) (fun _ => desk_inv).
Proof.
  unfold contender_serving. apply context_then; [eauto with effects nocore|intros c m].
  destruct (negb _); [by apply holds_end, keeps_raise|]. destruct (negb _); [by apply holds_end, keeps_raise|].
  destruct m as [mm|]; [|by apply holds_end, keeps_raise]. destruct (negb _); [by apply holds_end, keeps_raise|].
  calm_step. destruct (d_contenders _ !! id) as [k|]; [|by apply holds_end, keeps_raise].
  destruct (negb _); [by apply holds_end, keeps_raise|]. destruct (bool_decide _); [by apply holds_end, keeps_ret|].
  do 2 calm_step.
  eapply triple_bind; [lazymatch goal with |- context [request_run ?r _] => by apply (request_run_keeps r) end|intros rid].
  apply calm_keeps. unfold put_contender_notes. keeps_walk.
Qed.

(** What a request that takes cards relies on: a launch, that the block of the
    session is its own; an engine the policy serves itself and a contender being
    served, that nobody holds the cards they are entered with. *)
Definition takes (sid : Z) (q : request) (s : policy_session) : database -> Prop :=
  match q with
  | RequestLaunch _ _ => own_block sid s
  | BenchExternal body _ => may_take (ps_machine_id s) (xb_gpu_indices body)
  | ContenderServing _ _ => may_take (ps_machine_id s) (ps_gpu_indices s)
  | _ => fun _ => True
  end.

Lemma context_none {A} sid (f : policy_session * campaign * option machine -> H A) :
  keeps (fun st => desk_inv st /\ d_sessions (working st) !! sid = None) (bind (_context sid) f).
Proof.
  intros st [Hi Hn]. unfold working in Hn. unfold _context, session_, on_w, get_session, bind, db_, gets. cbn [fst snd].
  by rewrite Hn.
Qed.

Lemma silent_keeps {A} P (h : H A) Q E : triple P h (fun _ => Q) E -> triple P (silent h) (fun _ => Q) E.
Proof. intros Hh. eapply triple_bind; [exact Hh|]. intros a s Hs. exact Hs. Qed.

Lemma handle_keeps sid q :
  triple (fun st => desk_inv st /\ forall s, d_sessions (working st) !! sid = Some s -> takes sid q s (working st))
    (handle sid q) (fun _ => desk_inv) (fun _ => desk_inv).
Proof.
  assert (forall h : H unit, keeps desk_inv h ->
    triple (fun st => desk_inv st /\ forall s, d_sessions (working st) !! sid = Some s -> takes sid q s (working st))
      h (fun _ => desk_inv) (fun _ => desk_inv)) as Hk.
  { intros h Hh. eapply triple_weaken; [exact Hh|by intros st [Hi _]|done..]. }
  assert (forall A (h : H A), keeps desk_inv h -> keeps desk_inv (silent h)) as Hs.
  { intros A h Hh. by apply silent_keeps. }
  destruct q; cbn [handle]; try (apply Hk; first [apply Hs|idtac]; eauto using heartbeat_keeps, finalized_keeps,
    put_plan_keeps, put_digest_keeps, post_event_keeps, report_trial_keeps, list_trials_keeps, launch_status_keeps,
    benchmark_status_keeps, cancel_keeps, list_contenders_keeps, get_state_keeps, put_state_keeps, put_contenders_keeps,
    release_keeps, bench_launch_keeps; fail).
  all: apply silent_keeps, session_or_none; [intros s|apply context_none].
  - apply request_launch_keeps.
  - apply bench_external_keeps.
  - apply contender_serving_keeps.
Qed.

(** C20: no request of a policy makes two runs hold one card.  From rows where no
    card is held twice, whatever a session asks for leaves no card held twice,
    in the rows that are committed and those that were being worked on: a launch
    provided what holds the cards of the session's block is a live run of the
    session, a self-served benchmark and a served contender provided nobody holds
    the cards they name. *)
Theorem requests_keep_cards_exclusive sid q (d : desk) :
  inv (dk_world d) ->
  (forall s, d_sessions (w_db (dk_world d)) !! sid = Some s -> takes sid q s (w_db (dk_world d))) ->
  inv (dk_world (respond (handle sid q) d).2).
Proof.
  intros Hi Ht. pose proof (handle_keeps sid q (d, (w_db (dk_world d), dk_book d))) as Hk.
  unfold respond. destruct (handle sid q _) as [r [d' [db bk]]].
  specialize (Hk (conj (conj Hi Hi) Ht)). by destruct r; destruct Hk as [_ Hk].
Qed.
End cards.

Lemma night_inv : inv (dk_world night_desk).
Proof.
  split.
  - eapply same_fleet_ok; [|exact sample_fleet_ok]. by apply same_fleet_rows.
  - intros rid r Hr. change (({[ 1 := Samples.sample_run 1 1 1 [0; 1; 2; 3] Benching ]} : gmap Z run) !! rid = Some r) in Hr.
    by apply lookup_singleton_Some in Hr as [_ <-].
Qed.

Lemma requests_keep_cards_exclusive_witness :
  inv (dk_world (respond (handle 1 (RequestLaunch (two_cards [4;5]) (Some "k1"))) night_desk).2).
Proof.
  apply (requests_keep_cards_exclusive 1 (RequestLaunch (two_cards [4;5]) (Some "k1")) night_desk night_inv).
  intros s Hs mid k n r i Hm Hn Hr Hh Hmid Hi Hblock. vm_compute in Hs. injection Hs as <-.
  exfalso. change (({[ (1, 0) := master_node (Samples.sample_run 1 1 1 [0; 1; 2; 3] Benching) ]} : gmap (Z * Z) run_node) !! k = Some n) in Hn.
  apply lookup_singleton_Some in Hn as [_ <-].
  cbn in Hi, Hblock. revert Hi Hblock. rewrite !elem_of_cons, !elem_of_nil. lia.
Defined.

(** ** Whose rows a request writes *)
Definition mine (sid : Z) (r : run) : Prop := r_policy_session_id r = Some sid.

(** A run, but for being asked to let go of its engine. *)
Definition run_view (r : run) : run := (r <| r_release_requested_at := None |>) <| r_id := 0 |>.

(** A session, but for what its policy is heard saying and doing. *)
Definition session_view (s : policy_session) : policy_session :=
  (((((((((s <| ps_first_heartbeat_at := None |>) <| ps_last_heartbeat_at := None |>) <| ps_policy_message := "" |>)
    <| ps_policy_status := "" |>) <| ps_last_activity_at := None |>) <| ps_idle_strikes := 0 |>)
    <| ps_last_idle_strike_at := None |>) <| ps_failure_class := "" |>) <| ps_finalized_at := None |>).

(** The tables no request writes. *)
Definition elsewhere (db : database) :=
  (d_machines db, d_clusters db, d_groups db, d_members db, d_campaigns db, d_results db, d_policies db, d_api_keys db,
   d_endpoints db, d_tickets db, d_baselines db, d_datasets db).

Definition run_kept (sid : Z) (before after : option run) : Prop :=
  match before, after with
  | Some r, Some r' => r' = r \/ mine sid r /\ run_view r' = run_view r
  | None, Some r' => mine sid r'
  | Some _, None => False
  | None, None => True
  end.
Definition contender_kept (sid id : Z) (before after : option contender) : Prop :=
  match before, after with
  | Some k, Some k' => k' = k \/ pc_session_id k = sid /\ pc_session_id k' = sid /\ pc_id k' = pc_id k
  | None, Some k' => pc_session_id k' = sid /\ pc_id k' = id
  | Some _, None => False
  | None, None => True
  end.
Definition candidate_kept (before after : option candidate) : Prop :=
  match before, after with
  | Some cd, Some cd' => cd' = cd
  | None, Some cd' => cd_status cd' = Exhausted
  | Some _, None => False
  | None, None => True
  end.

Record own (sid : Z) (db db' : database) : Prop := {
  own_elsewhere : elsewhere db' = elsewhere db;
  own_others k : k <> sid -> d_sessions db' !! k = d_sessions db !! k;
  own_session : session_view <$> d_sessions db' !! sid = session_view <$> d_sessions db !! sid;
  own_runs rid : run_kept sid (d_runs db !! rid) (d_runs db' !! rid);
  own_nodes k r : d_runs db !! k.1 = Some r -> ~ mine sid r -> d_nodes db' !! k = d_nodes db !! k;
  own_contenders id : contender_kept sid id (d_contenders db !! id) (d_contenders db' !! id);
  own_candidates id : candidate_kept (d_candidates db !! id) (d_candidates db' !! id);
  own_events : exists l, d_events db' = d_events db ++ l;
}.

Lemma view_mine sid r r' : run_view r' = run_view r -> mine sid r -> mine sid r'.
Proof. intros E%(f_equal r_policy_session_id). unfold mine. cbn in E. by rewrite E. Qed.

#[export] Instance own_preorder sid : PreOrder (own sid).
Proof.
  split.
  - intros db. split; auto.
    + intros rid. unfold run_kept. destruct (d_runs db !! rid); auto.
    + intros id. unfold contender_kept. destruct (d_contenders db !! id); auto.
    + intros id. unfold candidate_kept. by destruct (d_candidates db !! id).
    + exists []. by rewrite app_nil_r.
  - intros db1 db2 db3 [A1 A2 A3 A4 A5 A6 A7 [l1 A8]] [B1 B2 B3 B4 B5 B6 B7 [l2 B8]]. split.
    + congruence.
    + intros k Hk. by rewrite B2, A2.
    + congruence.
    + intros rid. specialize (A4 rid). specialize (B4 rid). unfold run_kept in *.
      destruct (d_runs db1 !! rid) as [r1|], (d_runs db2 !! rid) as [r2|], (d_runs db3 !! rid) as [r3|]; try done.
      * destruct A4 as [->|[Hm E]], B4 as [->|[Hm' E']]; auto. right. split; [done|congruence].
      * destruct B4 as [->|[_ E]]; [done|]. by eapply view_mine.
    + intros k r Hr Hn. rewrite <-(A5 k r Hr Hn). specialize (A4 k.1). rewrite Hr in A4. unfold run_kept in A4.
      destruct (d_runs db2 !! k.1) as [r2|] eqn:E; [|done]. destruct A4 as [->|[Hm _]]; [|done]. by apply (B5 k r).
    + intros id. specialize (A6 id). specialize (B6 id). unfold contender_kept in *.
      destruct (d_contenders db1 !! id) as [k1|], (d_contenders db2 !! id) as [k2|], (d_contenders db3 !! id) as [k3|]; try done.
      * destruct A6 as [->|(Hm & E & I)], B6 as [->|(Hm' & E' & I')]; auto. right. split_and!; congruence.
      * destruct A6 as [Hm I], B6 as [->|(_ & E & I')]; [done|]. split; congruence.
    + intros id. specialize (A7 id). specialize (B7 id). unfold candidate_kept in *.
      destruct (d_candidates db1 !! id), (d_candidates db2 !! id), (d_candidates db3 !! id); try done; congruence.
    + exists (l1 ++ l2). by rewrite B8, A8, app_assoc.
Qed.

Section writes.
Context `{Env} (sid : Z).

(** A write to none of the tables a session shares, beside one of them. *)
Lemma own_run_refl rid db : run_kept sid (d_runs db !! rid) (d_runs db !! rid).
Proof. unfold run_kept. destruct (d_runs db !! rid); auto. Qed.
Lemma own_contender_refl id db : contender_kept sid id (d_contenders db !! id) (d_contenders db !! id).
Proof. unfold contender_kept. destruct (d_contenders db !! id); auto. Qed.
Lemma own_candidate_refl id db : candidate_kept (d_candidates db !! id) (d_candidates db !! id).
Proof. unfold candidate_kept. by destruct (d_candidates db !! id). Qed.
Lemma own_events_refl db : exists l, d_events db = d_events db ++ l.
Proof. exists []. by rewrite app_nil_r. Qed.
Hint Resolve own_run_refl own_contender_refl own_candidate_refl own_events_refl : core.

Lemma event_own kind cid rid : respects (on_db (own sid)) (event_ kind cid rid).
Proof.
  unfold event_, add_event, now. apply respects_bind; [typeclasses eauto|apply respects_call; typeclasses eauto|intros ts].
  apply respects_modify_db. intros db. split; cbn; eauto.
Qed.

Lemma put_session_own f : (forall s, session_view (f s) = session_view s) -> respects (on_db (own sid)) (put_session sid f).
Proof.
  intros Hf. apply respects_modify_db. intros db. split; cbn; eauto.
  - intros k Hk. by rewrite lookup_alter_ne by congruence.
  - rewrite lookup_alter_eq. destruct (d_sessions db !! sid) as [s|]; [|done]. cbn. by rewrite Hf.
Qed.

Lemma new_candidate_own cid cfg hash st err kind b rep :
  st = Exhausted -> respects (on_db (own sid)) (new_candidate cid cfg hash st err kind b rep).
Proof.
  intros ->. unfold new_candidate, now. apply respects_bind; [typeclasses eauto|apply respects_call; typeclasses eauto|intros created].
  intros w. unfold add_candidate, bind, db_, gets, modify_db, modify, ret, on_db. cbn [fst snd].
  split; cbn; eauto. intros id. unfold candidate_kept.
  destruct (decide (id = next_key (d_candidates (w_db w)))) as [->|Hne].
  - rewrite next_key_fresh. by rewrite lookup_insert_eq.
  - rewrite lookup_insert_ne by done. by destruct (d_candidates (w_db w) !! id).
Qed.

Lemma add_run_own r : mine sid r -> respects (on_db (own sid)) (add_run r).
Proof.
  intros Hm w. unfold add_run, bind, db_, gets, modify_db, modify, ret, on_db. cbn [fst snd].
  split; cbn; eauto.
  - intros rid. destruct (decide (rid = next_key (d_runs (w_db w)))) as [->|Hne].
    + rewrite next_key_fresh, lookup_insert_eq. exact Hm.
    + rewrite lookup_insert_ne by done. auto.
  - intros k q Hq _. apply lookup_insert_ne. intros <-. cbn in Hq. by rewrite next_key_fresh in Hq.
Qed.
End writes.

#[export] Hint Resolve event_own new_candidate_own add_run_own : effects.
#[export] Hint Resolve respects_put_book respects_book desk_commit respects_refuse respects_counted respects_call respects_db : effects.
#[export] Hint Extern 2 (respects (on_desk _) (on_w _)) => apply respects_on_w : effects.
#[export] Hint Extern 1 (respects _ book_) => apply respects_book : effects.
#[export] Hint Extern 1 (respects _ commit_) => apply desk_commit : effects.
#[export] Hint Extern 1 (respects (on_db _) db_) => apply respects_db : effects.
#[export] Hint Extern 1 (respects (on_db _) now) => apply respects_call : effects.
#[export] Hint Extern 2 (respects (on_db (own _)) (put_session _ _)) => apply put_session_own; intros ?; exact eq_refl : effects.
#[export] Hint Extern 2 (respects (on_db _) (bind _ _)) => progress respects_walk : effects.

(** ** Reading, then writing what was read *)
Section from.
Context (R : database -> database -> Prop) `{!PreOrder R}.

(** From the states where [F] holds. *)
Definition respects_from (F : database -> Prop) {A} (h : H A) : Prop := forall s, F (working s) -> on_desk R s (h s).2.
Definition stable (F : database -> Prop) : Prop := forall db db', R db db' -> F db -> F db'.

Lemma from_any F {A} (h : H A) : respects (on_desk R) h -> respects_from F h.
Proof. intros Hh s _. apply Hh. Qed.
Lemma from_bind F {A B} (m : H A) (f : A -> H B) :
  stable F -> respects_from F m -> (forall a, respects_from F (f a)) -> respects_from F (bind m f).
Proof.
  intros HF Hm Hf s Hs. unfold bind. specialize (Hm s Hs). destruct (m s) as [[e|a] s'] eqn:E; cbn [snd] in *; [done|].
  etransitivity; [exact Hm|]. apply Hf. eapply HF; [apply Hm|exact Hs].
Qed.
Lemma from_for_each F {A} (l : list A) (f : A -> H unit) :
  stable F -> (forall x, x ∈ l -> respects_from F (f x)) -> respects_from F (for_each l f).
Proof.
  intros HF. induction l as [|x l IH]; intros Hf; [apply from_any, respects_ret; typeclasses eauto|].
  apply from_bind; [done|apply Hf; left|intros ?; apply IH; intros y Hy; apply Hf; by right].
Qed.

(** What a reader answers is a fact of the rows it read. *)
Lemma reads_then {F : database -> Prop} {A B} (G : A -> database -> Prop) (m : H A) (f : A -> H B) :
  (forall s, (m s).2 = s) -> (forall s a, (m s).1 = inr a -> F (working s) -> G a (working s)) ->
  (forall a, respects_from (G a) (f a)) -> respects_from F (bind m f).
Proof.
  intros Hm HG Hf s Hs. unfold bind. pose proof (Hm s) as Es. specialize (HG s).
  destruct (m s) as [[e|a] s']; cbn [fst snd] in *; subst s'; [reflexivity|]. by apply Hf, HG.
Qed.
End from.

Section owning.
Context `{Env} (sid : Z).

Lemma mark_session_view moment s : session_view (mark moment s) = session_view s.
Proof. unfold mark. cbn. by destruct (String.eqb _ _). Qed.
Lemma heard_session_view body moment s : session_view (heard body moment s) = session_view s.
Proof. unfold heard. cbn. by repeat case_match. Qed.
Hint Extern 1 (respects (on_db (own _)) (put_session _ (mark _))) => apply put_session_own, mark_session_view : effects.
Hint Extern 1 (respects (on_db (own _)) (put_session _ (heard _ _))) => apply put_session_own, heard_session_view : effects.

Lemma context_own : respects (on_desk (own sid)) (_context sid).
Proof. unfold _context, session_, get_session. respects_walk. Qed.
Lemma audit_own kind rid : respects (on_desk (own sid)) (_audit sid kind rid).
Proof. unfold _audit, session_, get_session. respects_walk. Qed.
Lemma mark_own : respects (on_desk (own sid)) (_mark_activity sid).
Proof. unfold _mark_activity. respects_walk. Qed.
Lemma exploring_own s c m : respects (on_desk (own sid)) (_require_exploring s c m).
Proof. unfold _require_exploring. respects_walk. Qed.
Lemma session_own : respects (on_desk (own sid)) (session_ sid).
Proof. unfold session_, get_session. respects_walk. Qed.
Lemma desk_of_own c : respects (on_desk (own sid)) (desk_of c).
Proof. unfold desk_of. respects_walk. Qed.
Lemma suite_own suite : respects (on_desk (own sid)) (_require_known_suite suite).
Proof. unfold _require_known_suite. respects_walk. Qed.
Lemma launch_cards_own s c live needed asked : respects (on_desk (own sid)) (launch_cards s c live needed asked).
Proof. unfold launch_cards, _free_cards. respects_walk. Qed.
Lemma fits_own m per_pod : respects (on_desk (own sid)) (_check_fits_a_node m per_pod).
Proof. unfold _check_fits_a_node. respects_walk. Qed.
Lemma cards_and_port_own s live cards port : respects (on_desk (own sid)) (_check_cards_and_port s live cards port).
Proof. unfold _check_cards_and_port. respects_walk. Qed.
Lemma session_run_own rid kind : respects (on_desk (own sid)) (_session_run sid rid kind).
Proof. unfold _session_run. respects_walk. Qed.
Lemma launch_out_own rid : respects (on_desk (own sid)) (launch_out rid).
Proof. unfold launch_out, get_run. respects_walk. Qed.
Lemma benchmark_out_own rid : respects (on_desk (own sid)) (benchmark_out rid).
Proof. unfold benchmark_out, get_run. respects_walk. Qed.
Lemma make_candidate_own c cfg dev kind : respects (on_desk (own sid)) (_make_candidate c cfg dev kind).
Proof. unfold _make_candidate. respects_walk. Qed.
Hint Resolve context_own audit_own mark_own exploring_own session_own desk_of_own suite_own launch_cards_own fits_own
  cards_and_port_own session_run_own launch_out_own benchmark_out_own make_candidate_own : effects.
Lemma validated_own cfg c m : respects (on_desk (own sid)) (_validated_or_audit sid cfg c m).
Proof. unfold _validated_or_audit. respects_walk. Qed.
Lemma request_run_own r key : mine sid r -> respects (on_desk (own sid)) (request_run r key).
Proof. intros Hr. unfold request_run, get_machine. respects_walk. apply respects_on_w. respects_walk. Qed.
Hint Resolve validated_own : effects.
Hint Extern 2 (respects (on_desk (own _)) (request_run _ _)) => apply request_run_own; exact eq_refl : effects.

(** ** One request after another *)
Lemma heartbeat_own body : respects (on_desk (own sid)) (heartbeat sid body).
Proof. unfold heartbeat, put_notes. respects_walk. Qed.
Lemma finalized_own : respects (on_desk (own sid)) (finalized sid).
Proof. unfold finalized. respects_walk. Qed.
Lemma put_plan_own plan : respects (on_desk (own sid)) (put_plan sid plan).
Proof. unfold put_plan, put_notes. respects_walk. Qed.
Lemma put_digest_own summary : respects (on_desk (own sid)) (put_digest sid summary).
Proof. unfold put_digest, put_notes. respects_walk. Qed.
Lemma post_event_own : respects (on_desk (own sid)) (post_event sid).
Proof. unfold post_event. respects_walk. Qed.
Lemma report_trial_own body key : respects (on_desk (own sid)) (report_trial sid body key).
Proof. unfold report_trial. respects_walk. Qed.
Lemma list_trials_own : respects (on_desk (own sid)) (list_trials sid).
Proof. unfold list_trials. respects_walk. Qed.
Lemma request_launch_own body key : respects (on_desk (own sid)) (request_launch sid body key).
Proof. unfold request_launch. respects_walk. Qed.
Lemma launch_status_own rid : respects (on_desk (own sid)) (launch_status sid rid).
Proof. unfold launch_status. respects_walk. Qed.
Lemma bench_launch_own parent suite key : respects (on_desk (own sid)) (bench_launch sid parent suite key).
Proof. unfold bench_launch. respects_walk. Qed.
Lemma bench_external_own body key : respects (on_desk (own sid)) (bench_external sid body key).
Proof. unfold bench_external. respects_walk. Qed.
Lemma benchmark_status_own rid : respects (on_desk (own sid)) (benchmark_status sid rid).
Proof. unfold benchmark_status. respects_walk. Qed.
Lemma cancel_own rid : respects (on_desk (own sid)) (Contract.cancel_benchmark sid rid).
Proof. unfold Contract.cancel_benchmark. respects_walk. Qed.
Lemma list_contenders_own : respects (on_desk (own sid)) (list_contenders sid).
Proof. unfold list_contenders. respects_walk. Qed.
Lemma get_state_own : respects (on_desk (own sid)) (get_state sid).
Proof. unfold get_state. respects_walk. Qed.
Lemma put_state_own limit blob ct : respects (on_desk (own sid)) (put_state limit sid blob ct).
Proof. unfold put_state. respects_walk. Qed.

(** ** Requests that write rows they looked up *)
Definition run_of_mine (rid : Z) (db : database) : Prop := exists r, d_runs db !! rid = Some r /\ mine sid r.
Lemma run_of_mine_stable rid : stable (own sid) (run_of_mine rid).
Proof.
  intros db db' Ho (r & Hr & Hm). pose proof (own_runs _ _ _ Ho rid) as Hk. rewrite Hr in Hk. unfold run_kept in Hk.
  destruct (d_runs db' !! rid) as [r'|] eqn:E; [|done]. exists r'. split; [done|].
  destruct Hk as [->|[_ Hv]]; [done|]. by eapply view_mine.
Qed.
Lemma put_run_own rid f :
  (forall r, run_view (f r) = run_view r) -> respects_from (own sid) (run_of_mine rid) (on_w (put_run rid f)).
Proof.
  intros Hf s (r & Hr & Hm). rewrite on_w_state. split; [|by left]. unfold put_run, modify_db, modify. cbn [fst snd].
  unfold working in *. cbn. unfold update_run. rewrite Hr. split; cbn; auto.
  - intros k. destruct (decide (k = rid)) as [->|Hne].
    + rewrite Hr, lookup_insert_eq. right. split; [done|exact (Hf r)].
    + rewrite lookup_insert_ne by done. apply own_run_refl.
  - intros k q Hq Hn. rewrite lookup_alter_ne; [done|]. intros <-. cbn in Hq. congruence.
  - intros id. apply own_contender_refl.
  - intros id. apply own_candidate_refl.
  - apply own_events_refl.
Qed.

Lemma session_run_reads rid kind s : (_session_run sid rid kind s).2 = s.
Proof.
  destruct s as [[w bk] c]. unfold _session_run, on_w, bind, db_, gets, refuse, raise, ret. cbn.
  destruct (d_runs (w_db w) !! rid); [destruct (_ && _)|]; done.
Qed.
Lemma session_run_mine rid kind s r : (_session_run sid rid kind s).1 = inr r -> run_of_mine rid (working s).
Proof.
  unfold _session_run, on_w, bind, db_, gets, refuse, raise, ret. destruct s as [[w bk] c]. cbn.
  destruct (d_runs (w_db w) !! rid) as [r0|] eqn:E; [|done]. destruct (_ && _) eqn:Hb; [|done].
  intros _. apply andb_prop in Hb as [Hb%bool_decide_eq_true _]. exists r0. by split.
Qed.
Lemma release_own rid : respects (on_desk (own sid)) (release_launch sid rid).
Proof.
  intros s. apply (reads_then (own sid) (F := fun _ => True) (fun _ => run_of_mine rid)); [| |intros r|done].
  - intros st. apply session_run_reads.
  - intros st r Hr _. by eapply session_run_mine.
  - apply from_bind; [typeclasses eauto|apply run_of_mine_stable| |intros ?; apply from_any; respects_walk].
    destruct (_ && _); [|apply from_any; respects_walk].
    apply from_bind; [typeclasses eauto|apply run_of_mine_stable|apply from_any; respects_walk|intros moment].
    apply from_bind; [typeclasses eauto|apply run_of_mine_stable|by apply put_run_own|intros ?; apply from_any; respects_walk].
Qed.

(** The contenders are keyed by their own keys. *)
Definition contenders_keyed (db : database) : Prop := forall id k, d_contenders db !! id = Some k -> pc_id k = id.
Definition contender_of_mine (id : Z) (db : database) : Prop :=
  exists k, d_contenders db !! id = Some k /\ pc_session_id k = sid.
Definition all_of_mine (ids : list Z) (db : database) : Prop := forall id, id ∈ ids -> contender_of_mine id db.

Lemma contender_of_mine_stable id : stable (own sid) (contender_of_mine id).
Proof.
  intros db db' Ho (k & Hk & Hm). pose proof (own_contenders _ _ _ Ho id) as Hc. rewrite Hk in Hc. unfold contender_kept in Hc.
  destruct (d_contenders db' !! id) as [k'|] eqn:E; [|done]. exists k'. split; [done|].
  destruct Hc as [->|(_ & Hm' & _)]; done.
Qed.
Lemma all_of_mine_stable ids : stable (own sid) (all_of_mine ids).
Proof. intros db db' Ho Ha id Hid. eapply contender_of_mine_stable; [exact Ho|by apply Ha]. Qed.
Lemma contenders_keyed_stable : stable (own sid) contenders_keyed.
Proof.
  intros db db' Ho Hk id k' E. pose proof (own_contenders _ _ _ Ho id) as Hc. rewrite E in Hc. unfold contender_kept in Hc.
  destruct (d_contenders db !! id) as [k|] eqn:Ek; [|apply Hc]. destruct Hc as [->|(_ & _ & ->)]; by apply (Hk id).
Qed.

Lemma put_contender_own id f :
  (forall k, pc_session_id (f k) = pc_session_id k /\ pc_id (f k) = pc_id k) ->
  respects_from (own sid) (contender_of_mine id) (on_w (put_contender id f)).
Proof.
  intros Hf s (k & Hk & Hm). rewrite on_w_state. split; [|by left]. unfold put_contender, modify_db, modify. cbn [fst snd].
  unfold working in *. cbn. split; cbn; auto.
  - intros rid. apply own_run_refl.
  - intros id'. destruct (decide (id' = id)) as [->|Hne].
    + rewrite lookup_alter_eq, Hk. cbn. right. destruct (Hf k) as [E1 E2]. by rewrite E1.
    + rewrite lookup_alter_ne by congruence. apply own_contender_refl.
  - intros cid. apply own_candidate_refl.
  - apply own_events_refl.
Qed.
Lemma from_weaken {A} (F G : database -> Prop) (h : H A) :
  (forall db, G db -> F db) -> respects_from (own sid) F h -> respects_from (own sid) G h.
Proof. intros HG Hh s Hs. by apply Hh, HG. Qed.

Lemma add_contender_own row : pc_session_id row.1 = sid -> respects (on_desk (own sid)) (add_contender row).
Proof.
  intros Hs [[w bk] c]. split; [|by left]. unfold add_contender, working, on_w, bind, db_, gets, modify_db, modify, put_book, ret.
  cbn. split; cbn; auto.
  - intros rid. apply own_run_refl.
  - intros id. destruct (decide (id = next_key (d_contenders (w_db w)))) as [->|Hne].
    + by rewrite next_key_fresh, lookup_insert_eq.
    + rewrite lookup_insert_ne by done. apply own_contender_refl.
  - intros id. apply own_candidate_refl.
  - apply own_events_refl.
Qed.
Lemma add_contenders_own rows :
  (forall row, row ∈ rows -> pc_session_id row.1 = sid) -> respects (on_desk (own sid)) (add_contenders rows).
Proof.
  induction rows as [|row rows IH]; intros Hr; cbn [add_contenders]; [apply respects_ret; typeclasses eauto|].
  apply respects_bind; [typeclasses eauto|apply add_contender_own, Hr; left|intros id].
  apply respects_bind; [typeclasses eauto|apply IH; intros row' Hin; apply Hr; by right|intros ?; respects_walk].
Qed.

(** What is accepted belongs to the session. *)
Definition rows_of_mine (acc : considered) : Prop := forall row, row ∈ acc.1.1 -> pc_session_id row.1 = sid.
Lemma consider_mine db c k m entry acc acc' :
  consider db sid c k m entry acc = inr acc' -> rows_of_mine acc -> rows_of_mine acc'.
Proof.
  destruct acc as [[rows rejected] seen]. unfold consider. intros E Hr.
  repeat (case_match; simplify_eq; try exact Hr). intros row. cbn [fst].
  intros [Hin|Hin%list_elem_of_singleton]%elem_of_app; [by apply Hr|by subst].
Qed.

(** Reading a list of entries changes nothing. *)
Lemma for_acc_lift {A B} (l : list A) (acc : B) (f : A -> B -> exn + B) (I : B -> Prop) s :
  (forall x b b', f x b = inr b' -> I b -> I b') -> I acc ->
  (for_acc l acc (fun x b => lift (f x b)) s).2 = s /\
  forall b, (for_acc l acc (fun x b => lift (f x b)) s : (exn + B) * (desk * (database * book))).1 = inr b -> I b.
Proof.
  intros Hf. revert acc. induction l as [|x l IH]; intros acc Ha; cbn [for_acc].
  { split; [done|]. by intros b [= <-]. }
  unfold bind, lift. destruct (f x acc) as [e|b] eqn:E; [by split|]. by apply IH; eauto.
Qed.

Lemma refresh_own rows k : respects_from (own sid) (contender_of_mine (pc_id k)) (refresh rows k).
Proof.
  unfold refresh. destruct (List.find _ _) as [[fresh notes]|]; [|apply from_any; respects_walk].
  apply from_bind; [typeclasses eauto|apply contender_of_mine_stable| |intros ?; apply from_any; respects_walk].
  by apply put_contender_own.
Qed.
Lemma for_all_of_mine (l : list contender) (f : contender -> H unit) :
  (forall k, respects_from (own sid) (contender_of_mine (pc_id k)) (f k)) ->
  respects_from (own sid) (all_of_mine (map pc_id l)) (for_each l f).
Proof.
  intros Hf. apply from_for_each; [typeclasses eauto|apply all_of_mine_stable|]. intros k Hk.
  apply (from_weaken (contender_of_mine (pc_id k))); [|apply Hf]. intros db Ha. apply Ha, list_elem_of_In, in_map, list_elem_of_In, Hk.
Qed.
Lemma registered_of_mine db : contenders_keyed db -> all_of_mine (map pc_id (registered_of db sid)) db.
Proof.
  intros Hk id Hid. apply list_elem_of_In, in_map_iff in Hid as (k & <- & Hin%list_elem_of_In).
  unfold registered_of, contenders_of in Hin. apply elem_of_where in Hin as [Hin%elem_of_sort_by _].
  apply elem_of_where in Hin as [[key Hrow]%elem_of_rows_z Hs%Z.eqb_eq].
  exists k. split; [|done]. by rewrite (Hk key k Hrow).
Qed.

Lemma put_contenders_own entries : respects_from (own sid) contenders_keyed (put_contenders sid entries).
Proof.
  unfold put_contenders. apply from_bind; [typeclasses eauto|apply contenders_keyed_stable|apply from_any, context_own|].
  intros [[s c] m]. destruct (negb _); [apply from_any; respects_walk|].
  apply (reads_then (own sid) (fun db => all_of_mine (map pc_id (registered_of db sid)))); [by intros [[w bk] x]| |intros db].
  { intros [[w bk] x] a. intros [= <-]. apply registered_of_mine. }
  apply from_bind; [typeclasses eauto|apply all_of_mine_stable|apply from_any, desk_of_own|intros k]. cbv zeta.
  apply (reads_then (own sid) (fun acc db' => all_of_mine (map pc_id (registered_of db sid)) db' /\ rows_of_mine acc)).
  { intros st. eapply (for_acc_lift _ _ _ rows_of_mine); [intros x b b'; apply consider_mine|by intros row ?%not_elem_of_nil]. }
  { intros st acc Ha Hm. split; [exact Hm|]. revert acc Ha.
    eapply (for_acc_lift _ _ _ rows_of_mine); [intros x b b'; apply consider_mine|by intros row ?%not_elem_of_nil]. }
  intros [[rows rejected] seen] st [Hm Hr]. revert st Hm. cbv beta iota.
  lazymatch goal with |- forall st, _ -> on_desk _ st (?h st).2 =>
    change (respects_from (own sid) (all_of_mine (map pc_id (registered_of db sid))) h) end.
  destruct (_ && _); [apply from_any; respects_walk|]. destruct (bool_decide _).
  - apply from_bind; [typeclasses eauto|apply all_of_mine_stable| |intros ?; apply from_any; respects_walk].
    apply for_all_of_mine. intros k'. apply refresh_own.
  - apply from_bind; [typeclasses eauto|apply all_of_mine_stable| |intros ?; apply from_any; respects_walk].
    + apply for_all_of_mine. intros k'. by apply put_contender_own.
    + by apply add_contenders_own.
Qed.

Lemma contender_serving_own id port : respects (on_desk (own sid)) (contender_serving sid id port).
Proof.
  unfold contender_serving. apply respects_bind; [typeclasses eauto|apply context_own|].
  intros [[s c] m]. destruct (negb _); [respects_walk|]. destruct (negb _); [respects_walk|].
  destruct m as [mm|]; [|respects_walk]. destruct (negb _); [respects_walk|].
  intros st. apply (reads_then (own sid) (F := fun _ => True) (fun db db' =>
    forall k, d_contenders db !! id = Some k -> pc_session_id k = sid -> contender_of_mine id db')); [| |intros db|done].
  { by intros [[w bk] x]. }
  { intros [[w bk] x] a. intros [= <-] _ k Hk Hs. by exists k. }
  destruct (d_contenders db !! id) as [k|]; [|apply from_any; respects_walk].
  destruct (negb _) eqn:Hs; [apply from_any; respects_walk|]. destruct (bool_decide _); [apply from_any; respects_walk|].
  apply (from_weaken (contender_of_mine id)).
  { intros db' Hk. apply (Hk k); [done|]. by apply negb_false_iff, Z.eqb_eq in Hs. }
  apply from_bind; [typeclasses eauto|apply contender_of_mine_stable|apply from_any; respects_walk|intros bk]. cbv zeta.
  apply from_bind; [typeclasses eauto|apply contender_of_mine_stable|apply from_any; respects_walk|intros cdid].
  apply from_bind; [typeclasses eauto|apply contender_of_mine_stable|apply from_any; respects_walk|intros rid].
  apply from_bind; [typeclasses eauto|apply contender_of_mine_stable|apply from_any; respects_walk|intros ?].
  apply from_bind; [typeclasses eauto|apply contender_of_mine_stable|by apply put_contender_own|intros ?].
  apply from_any. unfold put_contender_notes, get_contender. respects_walk.
Qed.
End owning.

Section stays.
Context `{Env}.

Lemma handle_own sid q : respects_from (own sid) contenders_keyed (handle sid q).
Proof.
  assert (forall A (h : H A), respects (on_desk (own sid)) h -> respects (on_desk (own sid)) (silent h)) as Hs.
  { intros A h Hh. apply respects_bind; [typeclasses eauto|done|intros ?; respects_walk]. }
  destruct q; cbn [handle]; try (apply from_any; first [apply Hs|idtac]; eauto using heartbeat_own, finalized_own,
    put_plan_own, put_digest_own, post_event_own, report_trial_own, list_trials_own, request_launch_own, launch_status_own,
    release_own, bench_launch_own, bench_external_own, benchmark_status_own, cancel_own, list_contenders_own,
    contender_serving_own, get_state_own, put_state_own; fail).
  apply from_bind; [typeclasses eauto|apply contenders_keyed_stable|apply put_contenders_own|intros ?; apply from_any; respects_walk].
Qed.

(** C21: a request writes its own session's rows and nothing else.  Whatever a
    session asks for, granted or refused: the other sessions' rows, their runs,
    nodes and contenders, and every machine, campaign, lease of the queue, result
    and credential stay as they were; its own session keeps its phase, window,
    cards and ports, and changes only in what its policy is heard saying and
    doing; a run of its own is at most asked to let go of its engine, and a run
    that is added is its own; candidates are only added, and none the scheduler
    would pick up; the audit trail only grows. *)
Theorem requests_stay_in_their_session sid q (d : desk) :
  contenders_keyed (w_db (dk_world d)) ->
  own sid (w_db (dk_world d)) (w_db (dk_world (respond (handle sid q) d).2)).
Proof.
  intros Hk. pose proof (handle_own sid q (d, (w_db (dk_world d), dk_book d)) Hk) as [_ Hc].
  unfold respond, working, committed in *. destruct (handle sid q _) as [r [d' [db bk]]]. cbn in *.
  destruct Hc as [->|Hc]; [reflexivity|exact Hc].
Qed.
End stays.

Lemma requests_stay_in_their_session_witness :
  own 1 night_db (w_db (dk_world (respond (handle 1 (RequestLaunch (two_cards [4;5]) (Some "k1"))) night_desk).2)) /\
  (r_policy_session_id <$> d_runs (w_db (dk_world (respond (handle 1 (RequestLaunch (two_cards [4;5]) (Some "k1"))) night_desk).2)) !! 2)
    = Some (Some 1).
Proof.
  split; [|vm_compute; reflexivity].
  apply (requests_stay_in_their_session 1 (RequestLaunch (two_cards [4;5]) (Some "k1")) night_desk).
  intros id k Hk. change ((∅ : gmap Z contender) !! id = Some k) in Hk. by rewrite lookup_empty in Hk.
Defined.
