(* ===== verification/Grants.v ===== *)
(** What a request that launches is granted, refused, and answered again.

    Until it adds its run, a request leaves the fleet and the idempotency keys
    alone; so a refused one starts nothing, and one repeated under its key
    answers with the run it was granted. *)
From Stdlib Require Import Ascii.
From S2P Require Import Failures Logs Model States Packing Timing World Samples Occupancy Fleet Exclusive Finish Placement Nights.
From S2P Require Import Reserve Queue Pass Runs Advance Leases Clock Sessions Plan Ending Tenancy Tick.
From S2P Require Import Prelude Float Values Texts Documents Space Validation Flags Commands ExtraArgs Addresses Recipes.
From S2P Require Import Composition Conversion Scripts Checks Contract Duties.
#[local] Open Scope string_scope.
#[local] Open Scope list_scope.
#[local] Open Scope Z_scope.

(** ** Requests that have launched nothing yet *)

(** What decides a launch: the fleet, the tables no request writes, the keys and
    the campaigns' desks. *)
Definition view (x : database * book) :=
  (d_runs x.1, d_nodes x.1, elsewhere x.1, bk_keys x.2, bk_desks x.2).
Definition present (s : desk * (database * book)) : database * book := (working s, dk_book s.1).

Definition quiet (s s' : desk * (database * book)) : Prop :=
  view (present s') = view (present s) /\ (s'.2 = s.2 \/ view s'.2 = view (present s)).

#[export] Instance quiet_preorder : PreOrder quiet.
Proof.
  split.
  - intros s. split; [done|by left].
  - intros s1 s2 s3 [A1 B1] [A2 B2]. split; [congruence|]. destruct B2 as [->|B2]; [done|]. right. congruence.
Qed.

(** The part of it that is rows. *)
Definition same_rows (db db' : database) : Prop :=
  d_runs db' = d_runs db /\ d_nodes db' = d_nodes db /\ elsewhere db' = elsewhere db.
#[export] Instance same_rows_preorder : PreOrder same_rows.
Proof. split; [by intros db|]. intros d1 d2 d3 (A & B & C) (A' & B' & C'). split_and!; congruence. Qed.

Lemma quiet_on_w {A} (m : W A) : respects (on_db same_rows) m -> respects quiet (on_w m).
Proof.
  intros Hm s. rewrite on_w_state. specialize (Hm (dk_world s.1)) as (E1 & E2 & E3).
  unfold quiet, view, present, working. cbn [fst snd dk_world dk_book] in *. rewrite E1, E2, E3. by split; [|left].
Qed.
Lemma quiet_book f :
  (forall bk, bk_keys (f bk) = bk_keys bk /\ bk_desks (f bk) = bk_desks bk) -> respects quiet (put_book f).
Proof.
  intros Hf [[w bk] c]. unfold quiet, view, present, working. cbn. destruct (Hf bk) as [-> ->]. by split; [|left].
Qed.
Lemma quiet_commit : respects quiet commit_.
Proof. intros [[w bk] c]. split; [done|by right]. Qed.
Lemma quiet_refuse {A} code detail : respects quiet (refuse (A:=A) code detail).
Proof. apply respects_raise. typeclasses eauto. Qed.
Lemma quiet_counted n : respects quiet (counted n).
Proof. destruct n; [apply respects_raise|apply respects_ret]; typeclasses eauto. Qed.
#[export] Hint Resolve quiet_commit quiet_refuse quiet_counted : effects.
#[export] Hint Extern 2 (respects quiet (on_w _)) => apply quiet_on_w : effects.
#[export] Hint Extern 2 (respects quiet (put_book _)) => apply quiet_book; intros ?; split; reflexivity : effects.
#[export] Hint Extern 1 (respects quiet book_) => apply respects_gets : effects.
#[export] Hint Extern 3 (respects (on_db same_rows) (modify_db _)) =>
  apply respects_modify_db; intros ?; repeat split : effects.
#[export] Hint Extern 1 (respects (on_db same_rows) (put_session _ _)) => unfold put_session : effects.

Section quiet.
Context `{Env}.

Lemma quiet_event kind cid rid : respects quiet (on_w (event_ kind cid rid)).
Proof. apply quiet_on_w. unfold event_, add_event, now. respects_walk. Qed.
Lemma quiet_new_candidate cid cfg hash st err kind b rep : respects quiet (on_w (new_candidate cid cfg hash st err kind b rep)).
Proof. apply quiet_on_w. unfold new_candidate, add_candidate, now. respects_walk. Qed.
Lemma quiet_get_run rid : respects quiet (on_w (get_run rid)).
Proof. apply quiet_on_w. unfold get_run. respects_walk. Qed.
Hint Resolve quiet_event quiet_new_candidate quiet_get_run : effects.
Lemma quiet_context sid : respects quiet (_context sid).
Proof. unfold _context, session_, get_session. respects_walk. Qed.
Lemma quiet_audit sid kind rid : respects quiet (_audit sid kind rid).
Proof. unfold _audit, session_, get_session. respects_walk. Qed.
Lemma quiet_mark sid : respects quiet (_mark_activity sid).
Proof. unfold _mark_activity. respects_walk. Qed.
Lemma quiet_exploring s c m : respects quiet (_require_exploring s c m).
Proof. unfold _require_exploring. respects_walk. Qed.
Lemma quiet_desk_of c : respects quiet (desk_of c).
Proof. unfold desk_of. respects_walk. Qed.
Lemma quiet_suite suite : respects quiet (_require_known_suite suite).
Proof. unfold _require_known_suite. respects_walk. Qed.
Lemma quiet_launch_cards s c live needed asked : respects quiet (launch_cards s c live needed asked).
Proof. unfold launch_cards, _free_cards. respects_walk. Qed.
Lemma quiet_fits m per_pod : respects quiet (_check_fits_a_node m per_pod).
Proof. unfold _check_fits_a_node. respects_walk. Qed.
Lemma quiet_cards_and_port s live cards port : respects quiet (_check_cards_and_port s live cards port).
Proof. unfold _check_cards_and_port. respects_walk. Qed.
Lemma quiet_session_run sid rid kind : respects quiet (_session_run sid rid kind).
Proof. unfold _session_run. respects_walk. Qed.
Lemma quiet_launch_out rid : respects quiet (launch_out rid).
Proof. unfold launch_out. respects_walk. Qed.
Lemma quiet_benchmark_out rid : respects quiet (benchmark_out rid).
Proof. unfold benchmark_out. respects_walk. Qed.
Lemma quiet_make_candidate c cfg dev kind : respects quiet (_make_candidate c cfg dev kind).
Proof. unfold _make_candidate. respects_walk. Qed.
Hint Resolve quiet_context quiet_audit quiet_mark quiet_exploring quiet_desk_of : effects.
Lemma quiet_validated sid cfg c m : respects quiet (_validated_or_audit sid cfg c m).
Proof. unfold _validated_or_audit. respects_walk. Qed.
End quiet.

#[export] Hint Resolve quiet_event quiet_new_candidate quiet_get_run quiet_context quiet_audit quiet_mark quiet_exploring
  quiet_desk_of quiet_suite quiet_launch_cards quiet_fits quiet_cards_and_port quiet_session_run quiet_launch_out
  quiet_benchmark_out quiet_make_candidate quiet_validated : effects.

(** ** Refusals *)

(** What is committed has not changed. *)
Definition uncommitted (s s' : desk * (database * book)) : Prop := s'.2 = s.2.
#[export] Instance uncommitted_preorder : PreOrder uncommitted.
Proof. split; [by intros s|]. intros s1 s2 s3 A B. unfold uncommitted in *. congruence. Qed.
Lemma uncommitted_on_w {A} (m : W A) : respects uncommitted (on_w m).
Proof. intros s. unfold uncommitted. by rewrite on_w_state. Qed.
Lemma uncommitted_book f : respects uncommitted (put_book f).
Proof. by intros [[w bk] c]. Qed.
#[export] Hint Resolve uncommitted_on_w uncommitted_book : effects.
#[export] Hint Extern 1 (respects uncommitted book_) => apply respects_gets : effects.

(** A handler that has committed nothing of its own when it is refused. *)
Definition tidy {A} (h : H A) : Prop := forall s,
  view s.2 = view (present s) -> match h s with (inl _, s') => view s'.2 = view (present s) | (inr _, _) => True end.

Lemma tidy_quiet {A} (h : H A) : respects quiet h -> tidy h.
Proof. intros Hh s Hs. destruct (Hh s) as [_ Hc]. destruct (h s) as [[e|a] s']; [|done]. cbn [snd] in Hc. destruct Hc as [->|Hc]; done. Qed.
Lemma tidy_bind {A B} (m : H A) (f : A -> H B) : respects quiet m -> (forall a, tidy (f a)) -> tidy (bind m f).
Proof.
  intros Hm Hf s Hs. pose proof (Hm s) as [Hp Hc]. unfold bind. destruct (m s) as [[e|a] s1]; cbn [snd] in *.
  - destruct Hc as [->|Hc]; done.
  - rewrite <-Hp. apply Hf. destruct Hc as [->|Hc]; congruence.
Qed.

(** And one that commits only when nothing can go wrong any more. *)
Section commits.
Context `{Env} (sid : Z).

Definition safe_from (F : database -> Prop) {A} (h : H A) : Prop := forall s, F (working s) ->
  match h s with (inl _, s') => s'.2 = s.2 | (inr _, _) => True end.

Lemma safe_bind F {A B} (m : H A) (f : A -> H B) :
  stable (own sid) F -> respects uncommitted m -> respects_from (own sid) F m -> (forall a, safe_from F (f a)) ->
  safe_from F (bind m f).
Proof.
  intros HF Hu Ho Hf s Hs. specialize (Hu s). destruct (Ho s Hs) as [Hw _]. unfold bind.
  destruct (m s) as [[e|a] s1]; cbn [snd] in *; [done|]. rewrite <-Hu. apply Hf. by eapply HF.
Qed.
Lemma safe_commit F {A} (h : H A) :
  (forall s, F (working s) -> exists a, (h s).1 = inr a) -> safe_from F (commit_ ;;; h).
Proof.
  intros Hh s Hs. unfold bind, commit_. destruct (Hh (s.1, (w_db (dk_world s.1), dk_book s.1)) Hs) as [a Ha].
  by destruct (h _) as [[e|b] s'].
Qed.
Lemma safe_tidy {A} (h : H A) : safe_from (fun _ => True) h -> tidy h.
Proof. intros Hh s Hs. specialize (Hh s I). destruct (h s) as [[e|a] s']; [|done]. by rewrite Hh. Qed.

Lemma launch_out_answers rid s : run_of_mine sid rid (working s) -> exists a, (launch_out rid s).1 = inr a.
Proof.
  intros (r & Hr & _). unfold launch_out, get_run, on_w, bind, db_, gets. cbn [fst snd]. unfold working in Hr. rewrite Hr. by eexists.
Qed.
Lemma benchmark_out_answers rid s : run_of_mine sid rid (working s) -> exists a, (benchmark_out rid s).1 = inr a.
Proof.
  intros (r & Hr & _). unfold benchmark_out, get_run, on_w, bind, db_, gets. cbn [fst snd]. unfold working in Hr. rewrite Hr. by eexists.
Qed.

(** The run that was added is there. *)
Lemma request_run_adds r key s rid s' :
  request_run r key s = (inr rid, s') ->
  rid = next_key (d_runs (working s)) /\ s'.2 = s.2 /\ elsewhere (working s') = elsewhere (working s) /\
  bk_desks (dk_book s'.1) = bk_desks (dk_book s.1) /\ d_candidates (working s') = d_candidates (working s) /\
  d_sessions (working s') = d_sessions (working s) /\ d_events (working s') = d_events (working s) /\
  bk_deviations (dk_book s'.1) = bk_deviations (dk_book s.1) /\
  bk_keys (dk_book s'.1) = match key with Some k => <[ rid := k ]> (bk_keys (dk_book s.1)) | None => bk_keys (dk_book s.1) end /\
  exists started created,
    d_runs (working s') = <[ rid := ((r <| r_started_at := Some started |>) <| r_created_at := created |>) <| r_id := rid |> ]> (d_runs (working s)).
Proof.
  destruct s as [[w bk] c]. unfold request_run, now, call, get_machine, add_run, modify_db, put_book, db_, gets, modify, on_w, working, bind, ret.
  cbn [fst snd dk_world dk_book].
  assert (forall x : (exn + Z) * (desk * (database * book)), x = (inr rid, s') -> x.1 = inr rid /\ x.2 = s') as Hx by (by intros ? ->).
  destruct (r_machine_id r) as [mid|]; [destruct (d_machines (w_db w) !! mid) as [m|]; [|done]|]; cbn [expect ret];
    destruct key as [k|]; intros [[= <-] <-]%Hx; cbn; split_and!; eauto.
Qed.

Lemma uncommitted_request_run r key : respects uncommitted (request_run r key).
Proof. unfold request_run. respects_walk. Qed.
Lemma uncommitted_audit kind rid : respects uncommitted (_audit sid kind rid).
Proof. unfold _audit, session_. respects_walk. Qed.
Hint Resolve uncommitted_request_run uncommitted_audit : effects.

Lemma safe_request_run {A} r key (f : Z -> H A) :
  mine sid r -> (forall rid, safe_from (run_of_mine sid rid) (f rid)) -> safe_from (fun _ => True) (bind (request_run r key) f).
Proof.
  intros Hm Hf s _. pose proof (uncommitted_request_run r key s) as Hu. unfold bind.
  destruct (request_run r key s) as [[e|rid] s1] eqn:E; cbn [snd] in *; [done|].
  apply request_run_adds in E as (-> & <- & _ & _ & _ & _ & _ & _ & _ & started & created & Hr). apply Hf. eexists.
  rewrite Hr, lookup_insert_eq. by split.
Qed.

(** A run is asked for, noted, committed and answered. *)
Lemma tidy_launches {A} r key kind (answer : Z -> H A) :
  mine sid r -> (forall rid s, run_of_mine sid rid (working s) -> exists a, (answer rid s).1 = inr a) ->
  tidy (rid <- request_run r key ;; _audit sid kind (Some rid) ;;; commit_ ;;; answer rid).
Proof.
  intros Hm Ha. apply safe_tidy, safe_request_run; [done|intros rid].
  apply safe_bind; [apply run_of_mine_stable|apply uncommitted_audit|apply from_any, audit_own|intros ?].
  apply safe_commit, Ha.
Qed.

Ltac tidy_step :=
  lazymatch goal with
  | |- tidy (rid <- request_run _ _ ;; _) =>
      apply tidy_launches; [exact eq_refl|intros; first [by apply launch_out_answers|by apply benchmark_out_answers]]
  | |- tidy (bind ?m _) => apply tidy_bind; [solve [respects_walk]|intros ?]
  | |- tidy (match ?x with _ => _ end) => destruct x
  | |- tidy _ => apply tidy_quiet; solve [respects_walk]
  end.
Lemma request_launch_tidy body key : tidy (request_launch sid body key).
Proof. unfold request_launch. repeat tidy_step. Qed.
Lemma bench_launch_tidy parent suite key : tidy (bench_launch sid parent suite key).
Proof. unfold bench_launch. repeat tidy_step. Qed.
Lemma bench_external_tidy body key : tidy (bench_external sid body key).
Proof. unfold bench_external. repeat tidy_step. Qed.

Lemma safe_reads {F : database -> Prop} {A B} (G : A -> database -> Prop) (m : H A) (f : A -> H B) :
  (forall s, (m s).2 = s) -> (forall s a, (m s).1 = inr a -> F (working s) -> G a (working s)) ->
  (forall a, safe_from (G a) (f a)) -> safe_from F (bind m f).
Proof.
  intros Hm HG Hf s Hs. unfold bind. pose proof (Hm s) as Es. specialize (HG s).
  destruct (m s) as [[e|a] s']; cbn [fst snd] in *; subst s'; [done|]. by apply Hf, HG.
Qed.
Lemma safe_keeps F {A B} (m : H A) (f : A -> H B) :
  stable (own sid) F -> respects uncommitted m -> respects (on_desk (own sid)) m -> (forall a, safe_from F (f a)) ->
  safe_from F (bind m f).
Proof. intros HF Hu Ho. apply safe_bind; [done..|]. by apply from_any. Qed.

Lemma release_tidy rid : tidy (release_launch sid rid).
Proof.
  apply safe_tidy. unfold release_launch.
  apply (safe_reads (fun _ => run_of_mine sid rid)); [intros s; apply session_run_reads|intros s r Hr _; by eapply session_run_mine|intros r].
  apply safe_bind; [apply run_of_mine_stable| | |intros ?; by apply safe_commit, launch_out_answers].
  - destruct (_ && _); respects_walk.
  - destruct (_ && _); [|apply from_any; respects_walk].
    apply from_bind; [typeclasses eauto|apply run_of_mine_stable|apply from_any; respects_walk|intros moment].
    apply from_bind; [typeclasses eauto|apply run_of_mine_stable|by apply put_run_own|intros ?; apply from_any, audit_own].
Qed.

Lemma contender_serving_tidy id port : tidy (contender_serving sid id port).
Proof.
  unfold contender_serving. repeat (lazymatch goal with |- tidy (bind (on_w db_) _) => fail | _ => tidy_step end).
  apply safe_tidy, (safe_reads (fun db db' =>
    forall k, d_contenders db !! id = Some k -> pc_session_id k = sid -> contender_of_mine sid id db')).
  { by intros [[w bk] x]. }
  { intros [[w bk] x] a. intros [= <-] _ k Hk Hs. by exists k. }
  intros db. destruct (d_contenders db !! id) as [k|]; [|by intros s _].
  destruct (negb _) eqn:Hs; [by intros s _|]. destruct (bool_decide _); [by intros s _|].
  intros st Hst. specialize (Hst k eq_refl (proj1 (Z.eqb_eq _ _) (proj1 (negb_false_iff _) Hs))). revert st Hst. 
  lazymatch goal with |- forall st, _ -> match ?h st with _ => _ end => change (safe_from (contender_of_mine sid id) h) end.
  apply safe_keeps; [apply contender_of_mine_stable|respects_walk..|intros bk]. cbv zeta.
  apply safe_keeps; [apply contender_of_mine_stable|unfold _make_candidate; respects_walk|apply make_candidate_own|intros cdid].
  apply safe_keeps; [apply contender_of_mine_stable|respects_walk|by apply request_run_own|intros rid].
  apply safe_keeps; [apply contender_of_mine_stable|respects_walk..|intros ?].
  apply safe_bind; [apply contender_of_mine_stable|respects_walk|by apply put_contender_own|intros ?].
  apply safe_keeps; [apply contender_of_mine_stable|unfold put_contender_notes; respects_walk..|intros ?].
  apply safe_keeps; [apply contender_of_mine_stable|respects_walk|apply audit_own|intros ?].
  apply safe_commit. intros [[w bk'] x] (k' & Hk' & _). unfold get_contender, on_w, bind, db_, gets, working in *. cbn in *.
  rewrite Hk'. by eexists.
Qed.

(** ** Requests that launch nothing at all *)
Lemma quiet_put_notes f : respects quiet (put_notes sid f).
Proof. unfold put_notes. respects_walk. Qed.
Hint Resolve quiet_put_notes : effects.
Lemma quiet_put_contender id f : respects quiet (on_w (put_contender id f)).
Proof. apply quiet_on_w. unfold put_contender. respects_walk. Qed.
Lemma quiet_refresh rows k : respects quiet (refresh rows k).
Proof. unfold refresh. destruct (List.find _ _) as [[fresh notes]|]; respects_walk. apply quiet_put_contender. Qed.
Lemma quiet_add_contenders rows : respects quiet (add_contenders rows).
Proof. induction rows as [|row rows IH]; cbn [add_contenders]; [|unfold add_contender]; respects_walk. Qed.
Hint Resolve quiet_put_contender quiet_refresh quiet_add_contenders : effects.
Lemma heartbeat_quiet body : respects quiet (heartbeat sid body).
Proof. unfold heartbeat, session_, get_session. respects_walk. Qed.
Lemma finalized_quiet : respects quiet (finalized sid).
Proof. unfold finalized, session_, get_session. respects_walk. Qed.
Lemma put_plan_quiet plan : respects quiet (put_plan sid plan).
Proof. unfold put_plan. respects_walk. Qed.
Lemma put_digest_quiet summary : respects quiet (put_digest sid summary).
Proof. unfold put_digest, session_, get_session. respects_walk. Qed.
Lemma post_event_quiet : respects quiet (post_event sid).
Proof. unfold post_event. respects_walk. Qed.
Lemma report_trial_quiet body key : respects quiet (report_trial sid body key).
Proof. unfold report_trial. respects_walk. Qed.
Lemma list_trials_quiet : respects quiet (list_trials sid).
Proof. unfold list_trials. respects_walk. Qed.
Lemma launch_status_quiet rid : respects quiet (launch_status sid rid).
Proof. unfold launch_status. respects_walk. Qed.
Lemma benchmark_status_quiet rid : respects quiet (benchmark_status sid rid).
Proof. unfold benchmark_status. respects_walk. Qed.
Lemma cancel_quiet rid : respects quiet (Contract.cancel_benchmark sid rid).
Proof. unfold Contract.cancel_benchmark. respects_walk. Qed.
Lemma list_contenders_quiet : respects quiet (list_contenders sid).
Proof. unfold list_contenders. respects_walk. Qed.
Lemma put_contenders_quiet entries : respects quiet (put_contenders sid entries).
Proof. unfold put_contenders, contender_is. respects_walk. Qed.
Lemma get_state_quiet : respects quiet (get_state sid).
Proof. unfold get_state, session_, get_session. respects_walk. Qed.
Lemma put_state_quiet limit blob ct : respects quiet (put_state limit sid blob ct).
Proof. unfold put_state, session_, get_session. respects_walk. Qed.

Lemma tidy_silent {A} (h : H A) : tidy h -> tidy (silent h).
Proof. intros Hh s Hs. specialize (Hh s Hs). unfold silent, bind. by destruct (h s) as [[e|a] s']. Qed.

Lemma handle_tidy q : tidy (handle sid q).
Proof.
  destruct q; cbn [handle]; try apply tidy_silent;
    first [apply request_launch_tidy|apply release_tidy|apply bench_launch_tidy|apply bench_external_tidy
          |apply contender_serving_tidy|apply tidy_quiet]; eauto using heartbeat_quiet, finalized_quiet, put_plan_quiet,
    put_digest_quiet, post_event_quiet, report_trial_quiet, list_trials_quiet, launch_status_quiet, benchmark_status_quiet,
    cancel_quiet, list_contenders_quiet, put_contenders_quiet, get_state_quiet, put_state_quiet.
Qed.
End commits.

(** A refused request starts nothing.  Whenever a request of a session ends in
    an error, of whatever kind and wherever it is raised, no run was added, asked
    to let go or otherwise written, no card taken, no idempotency key spent, and
    no machine, campaign, result or credential touched: what it had begun to
    write is not committed, and nothing that can fail comes after the commit. *)
Theorem refused_requests_start_nothing `{Env} sid q (d d' : desk) (e : exn) :
  respond (handle sid q) d = (inl e, d') ->
  view (w_db (dk_world d'), dk_book d') = view (w_db (dk_world d), dk_book d).
Proof.
  intros Hs. pose proof (handle_tidy sid q (d, (w_db (dk_world d), dk_book d)) eq_refl) as Ht.
  unfold respond in Hs. destruct (handle sid q _) as [r [d1 [db bk]]]. injection Hs as -> <-. exact Ht.
Qed.

Lemma refused_requests_start_nothing_witness :
  exists e d', respond (handle 1 (RequestLaunch (two_cards [0;1]) (Some "k1"))) night_desk = (inl e, d') /\
    view (w_db (dk_world d'), dk_book d') = view (w_db (dk_world night_desk), dk_book night_desk).
Proof.
  exists (HTTPException 422 "cards are outside this session's allocation").
  exists (respond (handle 1 (RequestLaunch (two_cards [0;1]) (Some "k1"))) night_desk).2.
  assert (respond (handle 1 (RequestLaunch (two_cards [0;1]) (Some "k1"))) night_desk =
    (inl (HTTPException 422 "cards are outside this session's allocation"),
     (respond (handle 1 (RequestLaunch (two_cards [0;1]) (Some "k1"))) night_desk).2)) as Hs by (vm_compute; reflexivity).
  split; [exact Hs|]. exact (refused_requests_start_nothing 1 _ _ _ _ Hs).
Defined.

(** ** What a granted launch is *)
Lemma bind_answer {S A B} (m : M S A) (f : A -> M S B) s b s' :
  bind m f s = (inr b, s') -> exists a s1, m s = (inr a, s1) /\ f a s1 = (inr b, s').
Proof. unfold bind. destruct (m s) as [[e|a] s1] eqn:E; [done|]. eauto. Qed.

Lemma quiet_answer {A B} (m : H A) (f : A -> H B) s b s' :
  respects quiet m -> bind m f s = (inr b, s') ->
  exists a s1, m s = (inr a, s1) /\ view (present s1) = view (present s) /\ f a s1 = (inr b, s').
Proof.
  intros Hm (a & s1 & E & Hf)%bind_answer. exists a, s1. split_and!; [done| |done].
  destruct (Hm s) as [Hv _]. by rewrite E in Hv.
Qed.

Section granted.
Context `{Env} (sid : Z).

(** What the checks read is part of the view. *)
Lemma view_rows s s1 : view (present s1) = view (present s) ->
  d_runs (working s1) = d_runs (working s) /\ elsewhere (working s1) = elsewhere (working s) /\
  bk_keys (dk_book s1.1) = bk_keys (dk_book s.1) /\ bk_desks (dk_book s1.1) = bk_desks (dk_book s.1).
Proof.
  intros Hv. split_and!; [apply (f_equal (fun v => v.1.1.1.1) Hv)|apply (f_equal (fun v => v.1.1.2) Hv)
    |apply (f_equal (fun v => v.1.2) Hv)|apply (f_equal snd Hv)].
Qed.
Lemma idempotent_view s s1 key : view (present s1) = view (present s) ->
  _idempotent_run (working s1) (dk_book s1.1) sid key = _idempotent_run (working s) (dk_book s.1) sid key.
Proof. intros (Er & _ & Ek & _)%view_rows. unfold _idempotent_run. by rewrite Er, Ek. Qed.
Lemma live_view s s1 : view (present s1) = view (present s) ->
  _live_session_runs (working s1) sid = _live_session_runs (working s) sid.
Proof. intros (Er & _)%view_rows. unfold _live_session_runs. by rewrite Er. Qed.
Lemma problems_view s s1 cfg c k m : view (present s1) = view (present s) ->
  _config_problems (working s1) cfg c k m = _config_problems (working s) cfg c k m.
Proof.
  intros (_ & He & _)%view_rows. assert (d_clusters (working s1) = d_clusters (working s)) as Ec by (unfold elsewhere in He; congruence).
  unfold _config_problems. assert (_launches_recipes (working s1) m = _launches_recipes (working s) m) as ->; [|done].
  unfold _launches_recipes. destruct m as [m'|]; [|done]. destruct (m_cluster_id m'); cbn; by rewrite ?Ec.
Qed.

Lemma context_reads s x s1 :
  _context sid s = (inr x, s1) ->
  s1 = s /\ d_sessions (working s) !! sid = Some x.1.1 /\ d_campaigns (working s) !! ps_campaign_id x.1.1 = Some x.1.2 /\
  x.2 = session_machine (working s) x.1.1.
Proof.
  destruct s as [[w bk] c]. unfold _context, session_, get_session, on_w, bind, db_, gets, working. cbn.
  destruct (d_sessions (w_db w) !! sid) as [ps|]; [|done]. cbn. destruct (d_campaigns _ !! _) as [cm|] eqn:Ec; [|done].
  by intros [= <- <-].
Qed.

(** An answer of [_validated_or_audit] is the canonical config, without problems. *)
Lemma validated_answer cfg c m s x s1 :
  _validated_or_audit sid cfg c m s = (inr x, s1) ->
  s1 = s /\ exists k, bk_desks (dk_book s.1) !! c_id c = Some k /\
  _config_problems (working s) cfg c k m = inr (x.1, []) /\ x.2 = deviations x.1 (c_search_space c).
Proof.
  destruct s as [[w bk] x']. unfold _validated_or_audit, desk_of, book_, on_w at 1, db_, gets, bind at 1, working. cbn [fst snd dk_world dk_book].
  unfold bind at 1, bind at 1, gets, on_w at 1. cbn [fst snd dk_world dk_book]. destruct (bk_desks bk !! c_id c) as [k|] eqn:Ek; [|done].
  cbn [expect ret fst snd dk_world dk_book]. unfold _validated.
  destruct (_config_problems (w_db w) cfg c k m) as [e|[canonical [|p ps]]] eqn:Ep; [done| |].
  - intros [= <- <-]. split; [done|]. by exists k.
  - intros (? & ? & _ & (? & ? & _ & [=])%bind_answer)%bind_answer.
Qed.

(** The cards: the ones asked for, or as many free ones of the block. *)
Lemma launch_cards_answer ps c live needed asked s cards s1 :
  launch_cards ps c live needed asked s = (inr cards, s1) ->
  s1 = s /\ (ps_gpu_indices ps <> [] -> Z.of_nat (length cards) = Z.max 0 needed) /\
  (ps_gpu_indices ps = [] \/ needed = Z.of_nat (length asked) -> cards = asked).
Proof.
  unfold launch_cards. destruct (bool_decide (ps_gpu_indices ps = [])) eqn:Eb; cbn [negb andb].
  - intros [= <- <-]. apply bool_decide_eq_true in Eb. split_and!; [done|by rewrite Eb|done].
  - apply bool_decide_eq_false in Eb. destruct (Z.eqb_spec needed (Z.of_nat (length asked))) as [->|Hne]; cbn [negb].
    + intros [= <- <-]. split_and!; [done|lia|done].
    + destruct (c_has_recipe c); [|done]. unfold _free_cards.
      destruct (Z.ltb_spec (Z.of_nat (length (ps_gpu_indices ps))) needed); [done|].
      destruct (Z.ltb_spec (Z.of_nat (length (where_ (holds_none (busy_cards_of live)) (ps_gpu_indices ps)))) needed); [done|].
      intros [= <- <-]. split_and!; [done| |by intros [?|?]]. intros _. rewrite length_take. lia.
Qed.

Lemma audit_answer kind rid s s1 a :
  _audit sid kind rid s = (inr a, s1) ->
  s1.2 = s.2 /\ dk_book s1.1 = dk_book s.1 /\ exists l, working s1 = (working s) <| d_events := l |>.
Proof.
  destruct s as [[w bk] c]. unfold _audit, session_, get_session, event_, add_event, now, call, modify_db, modify, on_w, bind, db_, gets, working.
  cbn. destruct (d_sessions (w_db w) !! sid); [|done]. intros [= <- <-]. cbn. split_and!; eauto.
Qed.

Lemma exploring_answer ps c m s a s1 :
  _require_exploring ps c m s = (inr a, s1) -> exploring (ps_status ps) = true.
Proof. unfold _require_exploring. by destruct (exploring (ps_status ps)). Qed.

(** The tail every launch ends in: the run is there, pending, and is answered. *)
Lemma launched_answer r key kind s out s' :
  r_status r = Pending ->
  (rid <- request_run r key ;; _audit sid kind (Some rid) ;;; commit_ ;;; launch_out rid) s = (inr out, s') ->
  lo_id out = next_key (d_runs (working s)) /\ lo_status out = "queued" /\
  lo_config out = from_option cd_config ∅ (d_candidates (working s) !! r_candidate_id r) /\
  s'.2 = present s' /\
  bk_keys (dk_book s'.1) = match key with Some k => <[ lo_id out := k ]> (bk_keys (dk_book s.1)) | None => bk_keys (dk_book s.1) end /\
  exists started created, d_runs (working s') =
    <[ lo_id out := ((r <| r_started_at := Some started |>) <| r_created_at := created |>) <| r_id := lo_id out |> ]> (d_runs (working s)).
Proof.
  intros Hp (rid & s1 & Hr & (a & s2 & (_ & Eb & l & Ew)%audit_answer & Hc)%bind_answer)%bind_answer.
  apply request_run_adds in Hr as (-> & _ & _ & _ & Ec & _ & _ & _ & Ek & started & created & Er).
  unfold bind at 1, commit_ in Hc. unfold launch_out, get_run, on_w, book_, bind, db_, gets in Hc. cbn [fst snd dk_world] in Hc.
  unfold working in Ew. rewrite Ew in Hc. cbn in Hc. unfold working in Er. rewrite Er, lookup_insert_eq in Hc. cbn in Hc.
  injection Hc as <- <-. unfold present, working, _launch_out, launch_state. cbn. rewrite Hp. cbn. rewrite ?Ew, Eb, Ek. cbn.
  unfold working in Ec. rewrite Ec. destruct (bool_decide _ && _); cbn; split_and!; eauto.
Qed.

(** ** What the steps of a launch answer *)
Lemma db_answer s db s1 : on_w db_ s = (inr db, s1) -> db = working s /\ s1 = s.
Proof. destruct s as [[w bk] c]. by intros [= <- <-]. Qed.
Lemma book_answer s bk s1 : book_ s = (inr bk, s1) -> bk = dk_book s.1 /\ s1 = s.
Proof. by intros [= <- <-]. Qed.
Lemma desk_answer c s k s1 : desk_of c s = (inr k, s1) -> bk_desks (dk_book s.1) !! c_id c = Some k /\ s1 = s.
Proof.
  destruct s as [[w bk] x]. unfold desk_of, book_, on_w, bind, gets. cbn. destruct (bk_desks bk !! c_id c); [|done]. by intros [= <- <-].
Qed.
Lemma counted_answer n s z s1 : counted n s = (inr z, s1) -> n = inr z /\ s1 = s.
Proof. destruct n; [done|]. by intros [= <- <-]. Qed.
Lemma fits_answer m per_pod s a s1 : _check_fits_a_node m per_pod s = (inr a, s1) -> s1 = s.
Proof. unfold _check_fits_a_node. destruct m; [destruct (_ && _); [done|]|]; by intros [= _ <-]. Qed.
Lemma port_answer ps live cards port s p s1 :
  _check_cards_and_port ps live cards port s = (inr p, s1) ->
  s1 = s /\ (forall i, i ∈ cards -> i ∈ ps_gpu_indices ps /\ i ∉ busy_cards_of live) /\
  p ∈ ps_ports ps /\ p ∉ without_zero (map r_service_port live) /\ forall q, port = Some q -> p = q.
Proof.
  intros E. pose proof (cards_checked ps live cards port s p) as Hc. rewrite E in Hc. destruct (Hc eq_refl) as (A & B & C).
  clear Hc. revert E. unfold _check_cards_and_port. destruct (negb _); [done|]. destruct (negb _); [done|].
  destruct port as [q|].
  - destruct (negb _); [done|]. destruct (bool_decide _); [done|]. intros [= <- <-]. split_and!; auto; congruence.
  - destruct (List.find _ _); [|done]. intros [= <- <-]. split_and!; auto; congruence.
Qed.
Lemma candidate_answer c cfg dev kind s cdid s1 :
  _make_candidate c cfg dev kind s = (inr cdid, s1) ->
  view (present s1) = view (present s) /\ from_option cd_config ∅ (d_candidates (working s1) !! cdid) = cfg.
Proof.
  intros E. destruct (quiet_make_candidate c cfg dev kind s) as [Hv _]. rewrite E in Hv. split; [exact Hv|].
  destruct s as [[w bk] x]. revert E.
  unfold _make_candidate, new_candidate, add_candidate, now, call, modify_db, modify, put_book, on_w, bind, db_, gets, ret, working.
  cbn. intros [= <- <-]. cbn. by rewrite lookup_insert_eq.
Qed.

(** A launch that repeats no other. *)
Definition grant (body : LaunchIn) (key : option string) (s : policy_session) (c : campaign) (m : option machine) : H LaunchOut :=
  '(canonical, dev) <- _validated_or_audit sid (li_engine_args body) c m ;;
  k <- desk_of c ;;
  needed <- counted (Conversion.config_cards (cm_recipe k) (items canonical)) ;;
  db <- on_w db_ ;;
  let live := _live_session_runs db sid in
  cards <- launch_cards s c live needed (li_gpu_indices body) ;;
  per_pod <- counted (config_pod_cards (cm_recipe k) (items canonical)) ;;
  _check_fits_a_node m per_pod ;;;
  port <- _check_cards_and_port s live cards (li_port body) ;;
  cdid <- _make_candidate c canonical dev Search ;;
  rid <- request_run (blank_run <| r_campaign_id := c_id c |> <| r_candidate_id := cdid |>
                        <| r_machine_id := ps_machine_id s |> <| r_kind := PolicyLaunch |>
                        <| r_gpu_indices := cards |> <| r_service_port := port |>
                        <| r_policy_session_id := Some sid |>) key ;;
  _audit sid "policy_launch_requested" (Some rid) ;;;
  commit_ ;;;
  launch_out rid.

Lemma launch_prelude body key st out st' :
  request_launch sid body key st = (inr out, st') ->
  exists s c st1, d_sessions (working st) !! sid = Some s /\ d_campaigns (working st) !! ps_campaign_id s = Some c /\
    exploring (ps_status s) = true /\ view (present st1) = view (present st) /\
    match _idempotent_run (working st) (dk_book st.1) sid key with
    | Some r => (commit_ ;;; launch_out (r_id r)) st1 = (inr out, st')
    | None => grant body key s c (session_machine (working st) s) st1 = (inr out, st')
    end.
Proof.
  unfold request_launch. intros ([[s c] m] & s1 & (-> & Hs & Hc & Hm)%context_reads & E)%bind_answer. cbn [fst snd] in *.
  apply bind_answer in E as (? & s2 & Hexp & E). pose proof (exploring_answer _ _ _ _ _ _ Hexp) as He.
  destruct (quiet_exploring s c m st) as [Hv2 _]. rewrite Hexp in Hv2. cbn [snd] in Hv2.
  apply quiet_answer in E as (? & s3 & _ & Hv3 & E); [|apply quiet_mark].
  apply bind_answer in E as (db3 & s4 & [-> ->]%db_answer & E).
  apply bind_answer in E as (bk3 & s5 & [-> ->]%book_answer & E).
  assert (view (present s3) = view (present st)) as Hv by congruence.
  rewrite (idempotent_view st s3 key Hv) in E. exists s, c, s3. split_and!; [done..|]. rewrite <-Hm.
  destruct (_idempotent_run _ _ _ _); exact E.
Qed.

(** What the launched run is. *)
Definition granted_run (s : policy_session) (asked : LaunchIn) (live : list run) (needed : Z) (r : run) : Prop :=
  r_status r = Pending /\ r_kind r = PolicyLaunch /\ r_policy_session_id r = Some sid /\ r_machine_id r = ps_machine_id s /\
  (forall i, i ∈ r_gpu_indices r -> i ∈ ps_gpu_indices s /\ i ∉ busy_cards_of live) /\
  (ps_gpu_indices s <> [] -> Z.of_nat (length (r_gpu_indices r)) = Z.max 0 needed) /\
  (ps_gpu_indices s = [] \/ needed = Z.of_nat (length (li_gpu_indices asked)) -> r_gpu_indices r = li_gpu_indices asked) /\
  r_service_port r ∈ ps_ports s /\ r_service_port r ∉ without_zero (map r_service_port live) /\
  (forall p, li_port asked = Some p -> r_service_port r = p).

Lemma grant_answer body key s c m st out st' :
  grant body key s c m st = (inr out, st') ->
  exists k canonical needed r,
    bk_desks (dk_book st.1) !! c_id c = Some k /\
    _config_problems (working st) (li_engine_args body) c k m = inr (canonical, []) /\
    Conversion.config_cards (cm_recipe k) (items canonical) = inr needed /\
    granted_run s body (_live_session_runs (working st) sid) needed r /\ r_id r = lo_id out /\
    lo_id out = next_key (d_runs (working st)) /\ d_runs (working st') = <[ lo_id out := r ]> (d_runs (working st)) /\
    lo_status out = "queued" /\ lo_config out = canonical /\ st'.2 = present st' /\
    bk_keys (dk_book st'.1) = match key with Some k => <[ lo_id out := k ]> (bk_keys (dk_book st.1)) | None => bk_keys (dk_book st.1) end.
Proof.
  unfold grant. intros ([canonical dev] & s1 & (-> & k & Hk & Hp & _)%validated_answer & E)%bind_answer. cbn [fst] in Hp.
  apply bind_answer in E as (k' & s2 & [Hk' ->]%desk_answer & E). rewrite Hk in Hk'. injection Hk' as <-.
  apply bind_answer in E as (needed & s3 & [Hn ->]%counted_answer & E).
  apply bind_answer in E as (db & s4 & [-> ->]%db_answer & E). cbv zeta in E.
  apply bind_answer in E as (cards & s5 & (-> & Hlen & Hasked)%launch_cards_answer & E).
  apply bind_answer in E as (per_pod & s6 & [_ ->]%counted_answer & E).
  apply bind_answer in E as (? & s7 & ->%fits_answer & E).
  apply bind_answer in E as (port & s8 & (-> & Hcards & Hport & Hfree & Hwant)%port_answer & E).
  apply bind_answer in E as (cdid & s9 & (Hv & Hcd)%candidate_answer & E).
  pose proof (view_rows _ _ Hv) as (Er & _ & Ek & _).
  apply launched_answer in E as (Hid & Hst & Hcfg & Hcom & Hkeys & started & created & Hruns); [|done].
  rewrite Er in Hid, Hruns. rewrite Ek in Hkeys.
  exists k, canonical, needed. lazymatch type of Hruns with _ = <[ _ := ?r ]> _ => exists r end.
  split_and!; try done. by rewrite <-Hcd.
Qed.
End granted.

(** C22: what a granted launch is.  A request for a launch that is answered, and not
    the repetition of an earlier one, found its session exploring and its config,
    the campaign's base merged in, free of problems; it adds one run, pending, of
    the session and on its machine; the run's cards are the session's own, held by
    none of its live runs, and as many as the config uses, the ones asked for
    when they are that many; its port is one of the session's that none of its
    live runs uses, the one asked for if one was; and the answer names the run
    and its config. *)
Theorem launch_is_granted_within_the_block `{Env} sid body key (d d' : desk) out :
  let db := w_db (dk_world d) in
  _idempotent_run db (dk_book d) sid key = None ->
  respond (request_launch sid body key) d = (inr out, d') ->
  exists s c k canonical needed r,
    d_sessions db !! sid = Some s /\ d_campaigns db !! ps_campaign_id s = Some c /\
    bk_desks (dk_book d) !! c_id c = Some k /\ exploring (ps_status s) = true /\
    _config_problems db (li_engine_args body) c k (session_machine db s) = inr (canonical, []) /\
    Conversion.config_cards (cm_recipe k) (items canonical) = inr needed /\
    granted_run sid s body (_live_session_runs db sid) needed r /\
    d_runs db !! lo_id out = None /\ d_runs (w_db (dk_world d')) = <[ lo_id out := r ]> (d_runs db) /\
    lo_status out = "queued" /\ lo_config out = canonical.
Proof.
  intros db Hnone Hserve. unfold respond in Hserve.
  destruct (request_launch sid body key _) as [r0 [d1 [db1 bk1]]] eqn:E. injection Hserve as -> <-.
  apply launch_prelude in E as (s & c & s1 & Hs & Hc & He & Hv & E). change (working _) with db in *. cbn [fst] in E.
  rewrite Hnone in E. apply grant_answer in E as (k & canonical & needed & r & Hk & Hp & Hn & Hr & _ & Hid & Hruns & Hst & Hcfg & Hcom & _).
  pose proof (view_rows _ _ Hv) as (Er & _ & _ & Ed). rewrite (live_view _ _ _ Hv) in Hr. rewrite (problems_view _ _ _ _ _ _ Hv) in Hp.
  rewrite Er in Hid, Hruns. rewrite Ed in Hk. cbn [snd] in Hcom. injection Hcom as -> ->.
  exists s, c, k, canonical, needed, r. split_and!; try done. rewrite Hid. apply next_key_fresh.
Qed.

(** ** Answered again *)
Section again.
Context `{Env} (sid : Z).

Definition runs_keyed (db : database) : Prop := forall rid r, d_runs db !! rid = Some r -> r_id r = rid.

Definition keyed_to (bk : book) (key : string) (r : run) : bool :=
  (r_policy_session_id r == Some sid) && (bk_keys bk !! r_id r == Some key).

(** The run found under a key is one of the session's that has it. *)
Lemma idempotent_some db bk key r :
  key <> "" -> _idempotent_run db bk sid (Some key) = Some r ->
  exists rid, d_runs db !! rid = Some r /\ keyed_to bk key r = true.
Proof.
  unfold _idempotent_run. intros Hk%String.eqb_neq. rewrite Hk. intros [Hin Hr]%find_some.
  apply list_elem_of_In, elem_of_rows_z in Hin as [rid Hrid]. by exists rid.
Qed.
Lemma idempotent_none db bk key rid r :
  key <> "" -> _idempotent_run db bk sid (Some key) = None -> d_runs db !! rid = Some r -> keyed_to bk key r = false.
Proof.
  unfold _idempotent_run. intros Hk%String.eqb_neq. rewrite Hk. intros Hf Hr.
  exact (find_none _ _ Hf r (proj1 (list_elem_of_In _ _) (proj2 (elem_of_rows_z _ _) (ex_intro _ rid Hr)))).
Qed.

(** A new run under a key no run had is the one found under it. *)
Lemma idempotent_new db db' bk bk' key rid r :
  key <> "" -> runs_keyed db -> _idempotent_run db bk sid (Some key) = None ->
  r_id r = rid -> mine sid r -> d_runs db' = <[ rid := r ]> (d_runs db) -> bk_keys bk' = <[ rid := key ]> (bk_keys bk) ->
  _idempotent_run db' bk' sid (Some key) = Some r.
Proof.
  intros Hk Hid Hnone Hr Hm Hruns Hkeys.
  destruct (_idempotent_run db' bk' sid (Some key)) as [r'|] eqn:E.
  - apply idempotent_some in E as (k & Hk' & Hto); [|done]. rewrite Hruns in Hk'.
    apply lookup_insert_Some in Hk' as [[_ <-]|[Hne Hk']]; [done|].
    assert (keyed_to bk key r' = false) as Hn by by eapply idempotent_none.
    revert Hto Hn. unfold keyed_to. rewrite Hkeys, (Hid k r' Hk'), lookup_insert_ne by done. congruence.
  - assert (keyed_to bk' key r = false) as Hn.
    { eapply (idempotent_none db'); [done..|]. by rewrite Hruns, lookup_insert_eq. }
    revert Hn. unfold keyed_to. rewrite Hkeys, Hr, lookup_insert_eq. unfold mine in Hm. rewrite Hm. by rewrite !bool_decide_eq_true_2.
Qed.

(** A repetition answers with the row the key is kept under. *)
Lemma repeated_answer rid st out st' :
  (commit_ ;;; launch_out rid) st = (inr out, st') ->
  st'.2 = present st /\ exists r, d_runs (working st) !! rid = Some r /\ lo_id out = r_id r.
Proof.
  unfold bind at 1, commit_, launch_out, get_run, on_w, book_, bind, db_, gets, working, present. cbn.
  destruct (d_runs _ !! rid) as [r|]; [|done]. intros [= <- <-]. cbn. split; [done|]. by exists r.
Qed.

(** After a launch under a key, the key finds the launched run. *)
Lemma launched_under_key body key st out st' :
  key <> "" -> runs_keyed (working st) -> request_launch sid body (Some key) st = (inr out, st') ->
  exists r, _idempotent_run st'.2.1 st'.2.2 sid (Some key) = Some r /\ r_id r = lo_id out /\ runs_keyed st'.2.1.
Proof.
  intros Hk Hid E. apply launch_prelude in E as (s & c & s1 & _ & _ & _ & Hv & E).
  pose proof (view_rows _ _ Hv) as (Er & _ & Ek & _).
  destruct (_idempotent_run (working st) (dk_book st.1) sid (Some key)) as [r|] eqn:Ei.
  - apply repeated_answer in E as (Hc & r' & Hr' & Hout). rewrite Er in Hr'.
    destruct (idempotent_some _ _ _ _ Hk Ei) as (k & Hrow & _). rewrite (Hid _ _ Hrow) in Hr'.
    assert (r' = r) as -> by congruence. exists r. rewrite Hc. cbn [fst snd present].
    rewrite (idempotent_view sid st s1 (Some key) Hv). split_and!; [done..|]. intros k' q. rewrite Er. apply Hid.
  - apply grant_answer in E as (k & canonical & needed & r & _ & _ & _ & (_ & _ & Hm & _) & Hrid & Hnew & Hruns & _ & _ & Hc & Hkeys).
    rewrite Er in Hruns, Hnew. rewrite Ek in Hkeys. exists r. rewrite Hc. cbn [fst snd present].
    split_and!; [by eapply idempotent_new|done|]. intros k' q. rewrite Hruns, lookup_insert_Some.
    intros [[<- <-]|[_ Hq]]; [done|by apply Hid].
Qed.
End again.

(** A repeated launch launches nothing.  After a launch was granted under an
    idempotency key, the same request, or any other, sent to the launches under
    that key adds no run, takes no card and spends no key, however it is answered;
    and when it is answered with a launch, with the one that was granted. *)
Theorem launch_repeated_under_its_key `{Env} sid body again key (d d1 : desk) out :
  key <> "" -> runs_keyed (w_db (dk_world d)) ->
  respond (request_launch sid body (Some key)) d = (inr out, d1) ->
  let '(answer, d2) := respond (request_launch sid again (Some key)) d1 in
  view (w_db (dk_world d2), dk_book d2) = view (w_db (dk_world d1), dk_book d1) /\
  (forall out', answer = inr out' -> lo_id out' = lo_id out).
Proof.
  intros Hk Hid Hs. unfold respond in *.
  destruct (request_launch sid body (Some key) _) as [r0 [e1 [db1 bk1]]] eqn:E. injection Hs as -> <-.
  destruct (launched_under_key sid body key (d, (w_db (dk_world d), dk_book d)) _ _ Hk Hid E) as (r & Hr & Hout & Hid1). cbn [fst snd] in *.
  set (s1 := (Desk ((dk_world e1) <| w_db := db1 |>) bk1, (db1, bk1))).
  destruct (request_launch sid again (Some key) _) as [[e|out2] [e2 [db2 bk2]]] eqn:E2.
  - pose proof (request_launch_tidy sid again (Some key) s1 eq_refl) as Ht. change (request_launch sid again (Some key) s1 = (inl e, (e2, (db2, bk2)))) in E2.
    rewrite E2 in Ht. by split.
  - change (request_launch sid again (Some key) s1 = (inr out2, (e2, (db2, bk2)))) in E2.
    apply launch_prelude in E2 as (s & c & s2 & _ & _ & _ & Hv & E2). change (_idempotent_run (working s1) (dk_book s1.1) sid (Some key)) with (_idempotent_run db1 bk1 sid (Some key)) in E2.
    rewrite Hr in E2. apply repeated_answer in E2 as (Hc & r' & Hr' & Hout2). cbn [snd] in Hc. injection Hc as -> ->.
    split; [exact Hv|]. intros out' [= <-]. rewrite Hout2. destruct (view_rows _ _ Hv) as (Er & _). rewrite Er in Hr'.
    by rewrite (Hid1 _ _ Hr').
Qed.

(** ** What the checks do not see *)
Section lost.
Context `{Env} (sid : Z).

(** A handler that has committed nothing when it answers 429. *)
Definition forgets {A} (h : H A) : Prop := forall s detail, (h s).1 = inl (HTTPException 429 detail) -> (h s).2.2 = s.2.

Lemma forgets_bind {A B} (m : H A) (f : A -> H B) :
  respects uncommitted m -> (forall a, forgets (f a)) -> forgets (bind m f).
Proof.
  intros Hm Hf s detail. specialize (Hm s). unfold bind. destruct (m s) as [[e|a] s1]; cbn [snd fst] in *; [done|].
  intros E. rewrite <-Hm. by eapply Hf.
Qed.
Lemma forgets_end {A} (h : H A) : (forall s detail, (h s).1 <> inl (HTTPException 429 detail)) -> forgets h.
Proof. intros Hh s detail E. by destruct (Hh s detail). Qed.
Lemma forgets_uncommitted {A} (h : H A) : respects uncommitted h -> forgets h.
Proof. intros Hh s detail _. apply Hh. Qed.

Lemma validated_forgets {B} cfg c m (f : config * list deviation -> H B) :
  (forall x, forgets (f x)) -> forgets (bind (_validated_or_audit sid cfg c m) f).
Proof.
  intros Hf s detail. unfold bind. destruct (_validated_or_audit sid cfg c m s) as [[e|x] s1] eqn:E; cbn [fst snd].
  - intros [= ->]. exfalso. revert E. unfold _validated_or_audit, desk_of, book_, on_w, db_, gets. destruct s as [[w bk] c'].
    unfold bind at 1 2 3. cbn [fst snd dk_world dk_book]. destruct (bk_desks bk !! c_id c) as [k|]; [|done]. cbn [expect ret fst snd].
    unfold _validated. destruct (_config_problems _ cfg c k m) as [e|[canonical [|p ps]]]; [done|done|].
    unfold _audit, session_, get_session, event_, add_event, now, call, modify_db, modify, on_w, bind, db_, gets, commit_, refuse, raise.
    cbn. by destruct (d_sessions (w_db w) !! sid).
  - apply validated_answer in E as [-> _]. by apply Hf.
Qed.

Lemma request_run_audit_forgets {A} r key kind (answer : Z -> H A) :
  (forall rid s detail, (answer rid s).1 <> inl (HTTPException 429 detail)) ->
  forgets (rid <- request_run r key ;; _audit sid kind (Some rid) ;;; commit_ ;;; answer rid).
Proof.
  intros Ha. apply forgets_bind; [apply uncommitted_request_run|intros rid].
  apply forgets_bind; [apply uncommitted_audit|intros _]. apply forgets_end. intros s detail. apply Ha.
Qed.
Lemma launch_out_not_429 rid s detail : (launch_out rid s).1 <> inl (HTTPException 429 detail).
Proof.
  unfold launch_out, get_run, on_w, book_, bind, db_, gets. destruct s as [[w bk] c]. cbn. by destruct (d_runs (w_db w) !! rid).
Qed.

Lemma request_launch_forgets body key : forgets (request_launch sid body key).
Proof.
  unfold request_launch.
  assert (respects uncommitted (_context sid)) as Hctx by (unfold _context, session_; respects_walk).
  apply forgets_bind; [exact Hctx|intros [[s c] m]].
  apply forgets_bind; [unfold _require_exploring, refuse; respects_walk|intros ?].
  apply forgets_bind; [unfold _mark_activity; respects_walk|intros ?].
  apply forgets_bind; [respects_walk|intros db]. apply forgets_bind; [respects_walk|intros bk].
  destruct (_idempotent_run _ _ _ _) as [r|].
  { apply forgets_end. intros st detail. apply launch_out_not_429. }
  apply validated_forgets. intros [canonical dev].
  apply forgets_bind; [unfold desk_of; respects_walk|intros k].
  apply forgets_bind; [unfold counted; respects_walk|intros needed].
  apply forgets_bind; [respects_walk|intros db']. cbv zeta.
  apply forgets_bind; [unfold launch_cards, _free_cards, refuse; respects_walk|intros cards].
  apply forgets_bind; [unfold counted; respects_walk|intros per_pod].
  apply forgets_bind; [unfold _check_fits_a_node, refuse; respects_walk|intros ?].
  apply forgets_bind; [unfold _check_cards_and_port, refuse; respects_walk|intros port].
  apply forgets_bind; [unfold _make_candidate; respects_walk|intros cdid].
  apply request_run_audit_forgets. apply launch_out_not_429.
Qed.
End lost.

(** A launch refused for want of cards or ports is not remembered.  The
    request is meant to prove that the policy is still exploring, so that the
    watchdog starts counting again and an "exhausted" is taken back; but what it
    wrote of that is lost with the refusal: every row, the session's idle clock
    and strikes among them, is as it was. *)
Theorem capacity_refusal_is_not_remembered `{Env} sid body key (d d' : desk) detail :
  respond (request_launch sid body key) d = (inl (HTTPException 429 detail), d') ->
  w_db (dk_world d') = w_db (dk_world d) /\ dk_book d' = dk_book d.
Proof.
  intros Hs. pose proof (request_launch_forgets sid body key (d, (w_db (dk_world d), dk_book d)) detail) as Hf.
  unfold respond in Hs. destruct (request_launch sid body key _) as [r [d1 [db bk]]]. injection Hs as -> <-.
  specialize (Hf eq_refl). cbn in Hf. by injection Hf as -> ->.
Qed.

(** The desk of a session that runs on two of its cards, idle for one strike. *)
Definition busy_desk : desk := (respond (request_launch 1 (two_cards [4;5]) None) night_desk).2.
Definition idle_desk : desk :=
  Desk ((dk_world busy_desk) <| w_db ::= fun db => db <| d_sessions ::= alter (fun s => s <| ps_idle_strikes := 1 |>) 1 |> |>) (dk_book busy_desk).

Lemma capacity_refusal_is_not_remembered_witness :
  exists d', respond (request_launch 1 (two_cards [5;6]) None) idle_desk =
               (inl (HTTPException 429 "cards are busy with your own runs — release something or wait"), d') /\
    ps_idle_strikes <$> d_sessions (w_db (dk_world d')) !! 1 = Some 1.
Proof.
  assert (respond (request_launch 1 (two_cards [5;6]) None) idle_desk =
    (inl (HTTPException 429 "cards are busy with your own runs — release something or wait"),
     (respond (request_launch 1 (two_cards [5;6]) None) idle_desk).2)) as Hs by (vm_compute; reflexivity).
  eexists. split; [exact Hs|].
  destruct (capacity_refusal_is_not_remembered 1 (two_cards [5;6]) None idle_desk _ _ Hs) as [-> _].
  vm_compute. reflexivity.
Defined.

(** Two checks of the cards that are not made.  A benchmark of an engine the
    policy serves itself is entered with whatever cards it names: here those of
    another campaign's run, which two live runs then hold.  And a config for two
    cards is granted one card named twice. *)
Theorem cards_that_are_not_checked :
  (exists out d', respond (bench_external 1 (mkExternalBenchmark 28300 (sample_config 2) [0;1] "screen") None) night_desk = (inr out, d') /\
     (fun r => (live_run r, r_machine_id r, r_gpu_indices r)) <$> d_runs (w_db (dk_world d')) !! 1 = Some (true, Some 1, [0;1;2;3]) /\
     (fun r => (live_run r, r_machine_id r, r_gpu_indices r)) <$> d_runs (w_db (dk_world d')) !! 2 = Some (true, Some 1, [0;1]) /\
     ~ inv (dk_world d')) /\
  exists out d', respond (request_launch 1 (two_cards [4;4]) None) night_desk = (inr out, d') /\
     r_gpu_indices <$> d_runs (w_db (dk_world d')) !! 2 = Some [4;4].
Proof.
  split; (eexists _, _; split; [vm_compute; reflexivity|]).
  2: { vm_compute. reflexivity. }
  split; [vm_compute; reflexivity|]. split; [vm_compute; reflexivity|]. intros [Hok _].
  pose proof (fun n1 n2 => ok_exclusive _ Hok (1, 0) (2, 0) n1 n2 1) as Hx.
  edestruct Hx as [Hd _]; [vm_compute; reflexivity|vm_compute; reflexivity|done|vm_compute; reflexivity..|].
  apply (Hd 0); apply list_elem_of_In; vm_compute; tauto.
Qed.

Lemma night_runs_keyed : runs_keyed night_db.
Proof. intros rid r Hr. by apply (ok_runs _ (proj1 night_inv)). Qed.

Lemma launch_is_granted_within_the_block_witness :
  exists out d', respond (request_launch 1 (two_cards [4;5]) (Some "k1")) night_desk = (inr out, d') /\ lo_status out = "queued" /\
    exists r, d_runs (w_db (dk_world d')) = <[ lo_id out := r ]> (d_runs night_db) /\ r_gpu_indices r = [4;5].
Proof.
  destruct (respond (request_launch 1 (two_cards [4;5]) (Some "k1")) night_desk) as [[e|out] d'] eqn:Hs.
  { exfalso. assert (match (respond (request_launch 1 (two_cards [4;5]) (Some "k1")) night_desk).1 with inl _ => false | inr _ => true end = true)
      as Hx by (vm_compute; reflexivity). by rewrite Hs in Hx. }
  exists out, d'. split; [done|].
  destruct (launch_is_granted_within_the_block 1 (two_cards [4;5]) (Some "k1") night_desk d' out ltac:(vm_compute; reflexivity) Hs)
    as (s & c & k & canonical & needed & r & Hs1 & Hc & Hk & _ & Hp & Hn & Hr & _ & Hruns & Hq & _).
  split; [exact Hq|]. exists r. split; [exact Hruns|]. destruct Hr as (_ & _ & _ & _ & _ & _ & Hasked & _). apply Hasked. right.
  vm_compute in Hs1. injection Hs1 as <-. vm_compute in Hc. injection Hc as <-. vm_compute in Hk. injection Hk as <-.
  vm_compute in Hp. injection Hp as <-. vm_compute in Hn. by injection Hn as <-.
Defined.

Lemma launch_repeated_under_its_key_witness :
  exists out d1, respond (request_launch 1 (two_cards [4;5]) (Some "k1")) night_desk = (inr out, d1) /\
    let '(answer, d2) := respond (request_launch 1 (two_cards [6;7]) (Some "k1")) d1 in
    view (w_db (dk_world d2), dk_book d2) = view (w_db (dk_world d1), dk_book d1) /\
    (forall out', answer = inr out' -> lo_id out' = lo_id out).
Proof.
  destruct (respond (request_launch 1 (two_cards [4;5]) (Some "k1")) night_desk) as [[e|out] d1] eqn:Hs.
  { exfalso. assert (match (respond (request_launch 1 (two_cards [4;5]) (Some "k1")) night_desk).1 with inl _ => false | inr _ => true end = true)
      as Hx by (vm_compute; reflexivity). by rewrite Hs in Hx. }
  exists out, d1. split; [done|].
  exact (launch_repeated_under_its_key 1 (two_cards [4;5]) (two_cards [6;7]) "k1" night_desk d1 out ltac:(done) night_runs_keyed Hs).
Defined.

(** ** Who is asking *)
Section caller.
Context `{Env} (digest : string -> string) (active : api_key -> bool).

(** The key a token is looked up under. *)
Definition key_of (db : database) (plaintext : string) : option api_key :=
  prefix ← split_key plaintext; List.find (fun k => String.eqb (ak_prefix k) prefix) (rows_z (d_api_keys db)).

(** A token that is the session's own, and still good at [moment]. *)
Definition opens (db : database) (moment : Z) (plaintext : string) (sid : Z) (s : policy_session) : Prop :=
  exists key, key_of db plaintext = Some key /\ ak_policy_session_id key = Some sid /\ active key = true /\
    digest plaintext = ak_key_hash key /\ (forall t, ak_expires_at key = Some t -> moment < t) /\
    d_sessions db !! sid = Some s.

Lemma expired_false t moment : _expired t moment = false <-> forall e, t = Some e -> moment < e.
Proof.
  unfold _expired. destruct t as [e|]; [|by split]. rewrite Z.leb_gt. split; [by intros He e' [= <-]|intros He; by apply He].
Qed.

(** Only its own token opens a session.  A request is let through for a
    session exactly when it presents a token whose key is that session's, is
    active, hashes to what is stored and has not expired at the moment it is
    looked at, and the session has not ended; a token that would otherwise open a
    session that has ended is told so; anything else is refused as
    unauthorised.  Whichever it is, no row is written. *)
Theorem only_its_token_opens_a_session (presented : option string) (d : desk) :
  let db := w_db (dk_world d) in
  let moment := clock (w_calls (dk_world d)) in
  let '(answer, d') := respond (get_policy_session digest active presented) d in
  w_db (dk_world d') = db /\ dk_book d' = dk_book d /\
  match answer with
  | inr sid => exists plaintext s, presented = Some plaintext /\ opens db moment plaintext sid s /\ terminal_session (ps_status s) = false
  | inl (HTTPException code _) =>
      if code =? 410
      then exists plaintext sid s, presented = Some plaintext /\ opens db moment plaintext sid s /\ terminal_session (ps_status s) = true
      else code = 401 /\ forall plaintext sid s, presented = Some plaintext -> plaintext <> "" -> ~ opens db moment plaintext sid s
  | inl _ => False
  end.
Proof.
  cbv zeta. unfold respond, get_policy_session. destruct presented as [plaintext|]; [|by cbn].
  destruct (String.eqb_spec plaintext "") as [->|Hne].
  { cbn. split_and!; try done. by intros ? ? ? [= <-]. }
  unfold on_w, bind at 1, db_, gets. cbn [fst snd dk_world dk_book].
  change (prefix ← split_key plaintext; _) with (key_of (w_db (dk_world d)) plaintext).
  destruct (key_of (w_db (dk_world d)) plaintext) as [key|] eqn:Hkey.
  2: { cbn. split_and!; try done. intros p sid s [= <-] _ (k & Hk & _). congruence. }
  assert (forall sid s, opens (w_db (dk_world d)) (clock (w_calls (dk_world d))) plaintext sid s ->
    ak_policy_session_id key = Some sid /\ active key = true /\ digest plaintext = ak_key_hash key /\
    _expired (ak_expires_at key) (clock (w_calls (dk_world d))) = false /\ d_sessions (w_db (dk_world d)) !! sid = Some s) as Hopens.
  { intros sid s (k & Hk & Hs & Ha & Hd & He & Hrow). assert (k = key) as -> by congruence.
    split_and!; try done. by apply expired_false. }
  destruct (ak_policy_session_id key) as [sid|] eqn:Hsid.
  2: { cbn. split_and!; try done. intros p sid s [= <-] _ (? & _)%Hopens. done. }
  destruct (negb (active key) || negb (String.eqb (digest plaintext) (ak_key_hash key))) eqn:Hbad.
  { cbn. split_and!; try done. intros p sid' s [= <-] _ (_ & Ha & Hd & _)%Hopens.
    by rewrite Ha, Hd, String.eqb_refl in Hbad. }
  apply orb_false_iff in Hbad as [Ha%negb_false_iff Hd%negb_false_iff%String.eqb_eq].
  unfold now, call, bind at 1. cbn [fst snd dk_world dk_book].
  destruct (_expired (ak_expires_at key) (clock (w_calls (dk_world d)))) eqn:He.
  { cbn. split_and!; try done. intros p sid' s [= <-] _ (_ & _ & _ & ? & _)%Hopens. done. }
  destruct (d_sessions (w_db (dk_world d)) !! sid) as [s|] eqn:Hs.
  2: { cbn. split_and!; try done. intros p sid' s [= <-] _ (? & _ & _ & _ & ?)%Hopens. congruence. }
  assert (opens (w_db (dk_world d)) (clock (w_calls (dk_world d))) plaintext sid s) as Ho.
  { exists key. split_and!; try done. by apply expired_false. }
  destruct (terminal_session (ps_status s)) eqn:Ht; cbn; split_and!; eauto. by exists plaintext, sid, s.
Qed.
End caller.
