(* ===== verification/Contenders.v ===== *)
(** The list of contenders: what a policy's ranked list becomes.

    A list is taken or left as a whole.  What is accepted of it replaces the
    session's registered contenders; a list of which nothing is accepted leaves
    the last one standing. *)
From Stdlib Require Import Ascii.
From S2P Require Import Failures Logs Model States Packing Timing World Samples Occupancy Fleet Exclusive Finish Placement Nights.
From S2P Require Import Reserve Queue Pass Runs Advance Leases Clock Sessions Plan Ending Tenancy Tick.
From S2P Require Import Prelude Float Values Texts Documents Space Validation Flags Commands ExtraArgs Addresses Recipes.
From S2P Require Import Composition Conversion Scripts Checks Contract Duties Grants.
#[local] Open Scope string_scope.
#[local] Open Scope list_scope.
#[local] Open Scope Z_scope.

Section contenders.
Context `{Env} (sid : Z).

(** ** What of a list is accepted *)

(** An accepted row: registered, of the session, its config canonical and free of
    problems, with its recipe. *)
Definition acceptable (db : database) (c : campaign) (k : campaign_desk) (m : option machine)
    (entry : ContenderIn) (row : accepted_row) : Prop :=
  pc_session_id row.1 = sid /\ pc_status row.1 = Registered /\ pc_rank row.1 = ci_rank entry /\
  pc_image row.1 = ci_image entry /\ pc_config_hash row.1 = config_hash (pc_engine_args row.1) /\
  _config_problems db (ci_engine_args entry) c k m = inr (pc_engine_args row.1, []) /\
  exists recipe, recipe_for (cm_recipe k) (items (pc_engine_args row.1)) = inr recipe /\ cn_recipe row.2 = Some recipe.

(** So far: every entry was accepted or rejected, no rank twice, no more than the
    cap. *)
Record tally (db : database) (c : campaign) (k : campaign_desk) (m : option machine) (done : list ContenderIn)
    (acc : considered) : Prop := {
  tally_all : (length acc.1.1 + length acc.1.2 = length done)%nat;
  tally_cap : Z.of_nat (length acc.1.1) <= Z.max 0 (st_max_contenders (settings_of c));
  tally_ranks : NoDup (map (fun row => pc_rank row.1) acc.1.1);
  tally_seen rank : rank ∈ map (fun row => pc_rank row.1) acc.1.1 -> rank ∈ acc.2;
  tally_rows row : row ∈ acc.1.1 -> exists entry, entry ∈ done /\ acceptable db c k m entry row;
}.

Lemma tally_reject db c k m done entry rows rejected seen why :
  tally db c k m done (rows, rejected, seen) ->
  tally db c k m (done ++ [entry]) (rows, rejected ++ [why], ci_rank entry :: seen) /\
  tally db c k m (done ++ [entry]) (rows, rejected ++ [why], seen).
Proof.
  intros [A B C D E]. cbn in *. split; split; cbn; try done; rewrite ?length_app; cbn; try lia.
  all: try (intros rank Hr; right; by apply D).
  all: intros row Hr; destruct (E row Hr) as (e & He & Ha); exists e; rewrite elem_of_app; auto.
Qed.

Lemma consider_tally db c k m done entry acc acc' :
  tally db c k m done acc -> consider db sid c k m entry acc = inr acc' -> tally db c k m (done ++ [entry]) acc'.
Proof.
  destruct acc as [[rows rejected] seen]. intros Ht. pose proof (fun why => tally_reject _ _ _ _ _ entry _ _ _ why Ht) as Hr.
  unfold consider. destruct (bool_decide (ci_rank entry ∈ seen)) eqn:Hs; [intros [= <-]; apply Hr|].
  apply bool_decide_eq_false in Hs. cbv zeta. destruct (Z.leb_spec (st_max_contenders (settings_of c)) (Z.of_nat (length rows))).
  { intros [= <-]. apply Hr. }
  unfold _validated. destruct (_config_problems db (ci_engine_args entry) c k m) as [e|[canonical [|p ps]]] eqn:Hp; [done| |].
  2: { intros [= <-]. apply Hr. }
  destruct (recipe_for (cm_recipe k) (items canonical)) as [e|recipe] eqn:Hrec; [done|]. intros [= <-].
  destruct Ht as [A B C D E]. cbn in *. split; cbn.
  - rewrite !length_app. cbn. lia.
  - rewrite length_app. cbn. lia.
  - rewrite map_app. cbn. apply NoDup_app. split_and!; [done| |apply NoDup_singleton].
    intros rank Hr' Heq%list_elem_of_singleton. subst rank. by apply Hs, D.
  - intros rank. rewrite map_app, elem_of_app. cbn. rewrite list_elem_of_singleton. intros [Hr'| ->]; [right; by apply D|left].
  - intros row [Hr'|Hr'%list_elem_of_singleton]%elem_of_app.
    + destruct (E row Hr') as (e & He & Ha). exists e. rewrite elem_of_app. auto.
    + exists entry. rewrite elem_of_app, list_elem_of_singleton. split; [auto|]. subst row. unfold acceptable. cbn. split_and!; try done. eauto.
Qed.

Lemma tally_start db c k m : tally db c k m [] ([], [], []).
Proof. split; cbn; try done; [lia|constructor|by intros row ?%not_elem_of_nil]. Qed.

Lemma for_acc_answer {A B} (I : list A -> B -> Prop) (f : A -> B -> exn + B) (l done : list A) (acc b : B) s s' :
  (forall done x b b', I done b -> f x b = inr b' -> I (done ++ [x]) b') -> I done acc ->
  (for_acc l acc (fun x b => lift (f x b)) : H B) s = (inr b, s') -> s' = s /\ I (done ++ l) b.
Proof.
  intros Hf. revert done acc. induction l as [|x l IH]; intros done acc Ha; cbn [for_acc].
  { intros [= <- <-]. by rewrite app_nil_r. }
  unfold bind, lift. destruct (f x acc) as [e|b'] eqn:E; [done|]. intros Hl.
  assert (done ++ x :: l = (done ++ [x]) ++ l) as -> by by rewrite <-app_assoc.
  by eapply IH; [eapply Hf|].
Qed.

(** ** The registered contenders of the session *)
Definition registered (db : database) (id : Z) : Prop :=
  exists k, d_contenders db !! id = Some k /\ pc_session_id k = sid /\ pc_status k = Registered.

Lemma registered_listed db id :
  contenders_keyed db -> registered db id <-> id ∈ map pc_id (registered_of db sid).
Proof.
  intros Hk. unfold registered_of, contenders_of. split.
  - intros (k & Hr & Hs & Hst). apply list_elem_of_In, in_map_iff. exists k. split; [by apply Hk|].
    apply list_elem_of_In, elem_of_where. split.
    + apply elem_of_sort_by, elem_of_where. split; [apply elem_of_rows_z; eauto|by apply Z.eqb_eq].
    + unfold in_status. by apply bool_decide_eq_true.
  - intros Hid. apply list_elem_of_In, in_map_iff in Hid as (k & <- & Hin%list_elem_of_In).
    apply elem_of_where in Hin as [Hin%elem_of_sort_by Hst]. apply elem_of_where in Hin as [[key Hrow]%elem_of_rows_z Hs%Z.eqb_eq].
    exists k. rewrite (Hk key k Hrow). split_and!; [done..|]. unfold in_status in Hst. by apply bool_decide_eq_true in Hst.
Qed.

(** A handler that leaves the registered ones as they are. *)
Definition same_registered (db db' : database) : Prop := forall id, registered db' id <-> registered db id.
#[local] Instance same_registered_preorder : PreOrder same_registered.
Proof. split; [by intros db id|]. intros d1 d2 d3 A B id. by rewrite (B id), (A id). Qed.

Lemma put_contender_registered id f :
  (forall k, pc_session_id (f k) = pc_session_id k /\ pc_status (f k) = pc_status k) ->
  respects (on_db same_registered) (put_contender id f).
Proof.
  intros Hf. apply respects_modify_db. intros db id'. unfold registered. cbn.
  destruct (decide (id' = id)) as [->|Hne]; [|by rewrite lookup_alter_ne by congruence].
  rewrite lookup_alter_eq. destruct (d_contenders db !! id) as [k|] eqn:E; cbn.
  - destruct (Hf k) as [E1 E2]. split.
    + intros (k' & [= <-] & Hs & Hst). exists k. by rewrite <-E1, <-E2.
    + intros (k' & [= <-] & Hs & Hst). exists (f k). by rewrite E1, E2.
  - split; by intros (k' & [=] & _).
Qed.
Lemma refresh_registered rows k : respects (on_desk same_registered) (refresh rows k).
Proof.
  unfold refresh. destruct (List.find _ _) as [[fresh notes]|]; [|respects_walk]. respects_walk.
  by apply respects_on_w, put_contender_registered.
Qed.

(** Superseding the listed ones, then adding new ones. *)
Lemma supersede_answer (l : list contender) s s' :
  for_each l (fun k => on_w (contender_is (pc_id k) Superseded)) s = (inr tt, s') ->
  s'.2 = s.2 /\ (contenders_keyed (working s) -> contenders_keyed (working s')) /\
  forall id, registered (working s') id <-> registered (working s) id /\ id ∉ map pc_id l.
Proof.
  revert s. induction l as [|k l IH]; intros s; cbn [for_each map].
  { intros [= <-]. split_and!; [done..|]. intros id. rewrite elem_of_nil. tauto. }
  intros (? & s1 & E1 & E)%bind_answer. destruct (IH s1 E) as (Hc & Hk & Hr). destruct s as [[w bk] c].
  revert E1. unfold on_w, contender_is, put_contender, modify_db, modify. cbn. intros [= _ <-]. split_and!; [done| |].
  - intros Hkeyed. apply Hk. intros id q. unfold working. cbn. destruct (decide (id = pc_id k)) as [->|Hne].
    + rewrite lookup_alter_eq. intros (q0 & Hq & ->)%fmap_Some. cbn. by apply Hkeyed.
    + rewrite lookup_alter_ne by congruence. apply Hkeyed.
  - intros id. rewrite (Hr id), elem_of_cons. unfold registered, working. cbn. destruct (decide (id = pc_id k)) as [->|Hne].
    + rewrite lookup_alter_eq. split; [|tauto]. intros [(q & (q0 & Hq & ->)%fmap_Some & _ & [=]) _].
    + rewrite lookup_alter_ne by congruence. tauto.
Qed.

Lemma add_contender_answer row s id s' :
  pc_session_id row.1 = sid -> pc_status row.1 = Registered -> add_contender row s = (inr id, s') ->
  s'.2 = s.2 /\ id = next_key (d_contenders (working s)) /\ d_contenders (working s') = <[ id := row.1 <| pc_id := id |> ]> (d_contenders (working s)).
Proof.
  destruct s as [[w bk] c]. intros Hs Hst. unfold add_contender, on_w, bind, db_, gets, modify_db, modify, put_book, ret, working.
  cbn. by intros [= <- <-].
Qed.

(** The new rows: in their order, under fresh keys. *)
Definition stands_for (db : database) (row : accepted_row) (id : Z) : Prop :=
  d_contenders db !! id = Some (row.1 <| pc_id := id |>).

Lemma add_contenders_answer rows s ids s' :
  (forall row, row ∈ rows -> pc_session_id row.1 = sid /\ pc_status row.1 = Registered) ->
  add_contenders rows s = (inr ids, s') ->
  s'.2 = s.2 /\ Forall2 (stands_for (working s')) rows ids /\
  (forall id k, d_contenders (working s) !! id = Some k -> d_contenders (working s') !! id = Some k) /\
  forall id, registered (working s') id <-> registered (working s) id \/ id ∈ ids.
Proof.
  revert s ids. induction rows as [|row rows IH]; intros s ids Hrows; cbn [add_contenders].
  { intros [= <- <-]. split_and!; [done|constructor|done|]. intros id. rewrite elem_of_nil. tauto. }
  intros (id & s1 & E1 & (ids' & s2 & E2 & [= <- <-])%bind_answer)%bind_answer.
  destruct (Hrows row ltac:(left)) as [Hs Hst]. apply add_contender_answer in E1 as (Hc1 & Hid & Hk1); [|done..].
  destruct (IH s1 ids' (fun r Hr => Hrows r ltac:(by right)) E2) as (Hc2 & Hst2 & Hkeep & Hreg).
  assert (d_contenders (working s) !! id = None) as Hfresh by (rewrite Hid; apply next_key_fresh).
  split_and!; [congruence| | |].
  - constructor; [|done]. unfold stands_for. apply Hkeep. by rewrite Hk1, lookup_insert_eq.
  - intros k q Hq. apply Hkeep. rewrite Hk1, lookup_insert_ne; [done|congruence].
  - intros k. rewrite (Hreg k), elem_of_cons. unfold registered. rewrite Hk1.
    destruct (decide (k = id)) as [->|Hne].
    + rewrite lookup_insert_eq. split; [tauto|]. intros _. left. by exists (row.1 <| pc_id := id |>).
    + rewrite lookup_insert_ne by congruence. tauto.
Qed.

(** ** The same list again *)

(** A registered row says what an accepted one says. *)
Definition declares (q k : contender) : Prop :=
  pc_rank q = pc_rank k /\ pc_config_hash q = pc_config_hash k /\ pc_engine_args q = pc_engine_args k /\ pc_image q = pc_image k.
Definition declared (rows : list accepted_row) (db : database) (id : Z) : Prop :=
  exists q row, d_contenders db !! id = Some q /\ row ∈ rows /\ declares q row.1.

(** The row of a contender still has its rank and its hash. *)
Definition known (l : list contender) (db : database) : Prop :=
  forall k, k ∈ l -> exists q, d_contenders db !! pc_id k = Some q /\ pc_rank q = pc_rank k /\ pc_config_hash q = pc_config_hash k.

Lemma refresh_answer rows k s s' :
  refresh rows k s = (inr tt, s') ->
  s'.2 = s.2 /\ exists row, row ∈ rows /\ pc_rank row.1 = pc_rank k /\ pc_config_hash row.1 = pc_config_hash k /\
    d_contenders (working s') = alter (fun q => (q <| pc_engine_args := pc_engine_args row.1 |>) <| pc_image := pc_image row.1 |>)
                                  (pc_id k) (d_contenders (working s)).
Proof.
  destruct s as [[w bk] c]. unfold refresh. match goal with |- context [List.find ?p ?l] => destruct (List.find p l) as [[fresh notes]|] eqn:Hf end; [|done].
  apply find_some in Hf as [Hin [Hr%Z.eqb_eq Hh%String.eqb_eq]%andb_prop]. apply list_elem_of_In in Hin. rewrite elem_of_reverse in Hin.
  unfold on_w, put_contender, modify_db, modify, put_book, bind, working. cbn. intros [= <-]. split; [done|].
  exists (fresh, notes). split; [exact Hin|]. split; [exact Hr|]. split; [exact Hh|]. reflexivity.
Qed.

Lemma refresh_each rows all l s s' :
  (forall k, k ∈ l -> k ∈ all) -> known all (working s) -> for_each l (refresh rows) s = (inr tt, s') ->
  s'.2 = s.2 /\ known all (working s') /\ (forall id, declared rows (working s) id -> declared rows (working s') id) /\
  forall k, k ∈ l -> declared rows (working s') (pc_id k).
Proof.
  revert s. induction l as [|k l IH]; intros s Hall Hknown; cbn [for_each].
  { intros [= <-]. split_and!; [done..|]. by intros k ?%not_elem_of_nil. }
  intros (? & s1 & E1 & E)%bind_answer. destruct x. apply refresh_answer in E1 as (Hc1 & row & Hin & Hr & Hh & Hd).
  assert (known all (working s1)) as Hk1.
  { intros k' Hk'. destruct (Hknown k' Hk') as (q & Hq & Eq). rewrite Hd. destruct (decide (pc_id k' = pc_id k)) as [Ek|Ek].
    - rewrite Ek in *. rewrite lookup_alter_eq, Hq. cbn. by eexists.
    - rewrite lookup_alter_ne by congruence. by exists q. }
  assert (forall id, id = pc_id k \/ declared rows (working s) id -> declared rows (working s1) id) as Hdec.
  { intros id Hid. unfold declared. rewrite Hd. destruct (decide (id = pc_id k)) as [->|Ek].
    - destruct (Hknown k (Hall k ltac:(left))) as (q & Hq & Er & Eh). rewrite lookup_alter_eq, Hq. cbn.
      eexists _, row. split; [done|]. split; [done|]. unfold declares. cbn. split_and!; congruence.
    - destruct Hid as [?|(q & row' & Hq & Hrest)]; [done|]. rewrite lookup_alter_ne by congruence. by exists q, row'. }
  destruct (IH s1 (fun k' Hk' => Hall k' ltac:(by right)) Hk1 E) as (Hc & Hknown' & Hkeep & Hnew).
  split_and!; [congruence|done|intros id Hid; apply Hkeep, Hdec; by right|].
  intros k' [->|Hk']%elem_of_cons; [apply Hkeep, Hdec; by left|by apply Hnew].
Qed.

Lemma registered_known db : contenders_keyed db -> known (registered_of db sid) db.
Proof.
  intros Hk k Hin. unfold registered_of, contenders_of in Hin. apply elem_of_where in Hin as [Hin%elem_of_sort_by _].
  apply elem_of_where in Hin as [[key Hrow]%elem_of_rows_z _]. exists k. by rewrite (Hk key k Hrow).
Qed.

Lemma same_sig_length (l1 l2 : list contender) : _sig l1 = _sig l2 -> length l1 = length l2.
Proof. intros E%(f_equal length). unfold _sig in E. by rewrite !length_sort_by, !length_map in E. Qed.
Lemma for_each_registered rows l s s' :
  for_each l (refresh rows) s = (inr tt, s') -> same_registered (working s) (working s').
Proof.
  intros E. assert (respects (on_desk same_registered) (for_each l (refresh rows))) as Hr.
  { apply respects_for_each; [typeclasses eauto|]. intros k _. apply refresh_registered. }
  destruct (Hr s) as [Hw _]. by rewrite E in Hw.
Qed.

(** What either way of taking a list leaves committed. *)
Definition list_taken (rows : list accepted_row) (ids : list Z) (db : database) : Prop :=
  length ids = length rows /\ (forall id, registered db id <-> id ∈ ids) /\ forall id, id ∈ ids -> declared rows db id.

Lemma same_list_taken rows rejected s echo s' :
  contenders_keyed (working s) -> _sig (registered_of (working s) sid) = _sig (map fst rows) ->
  (for_each (registered_of (working s) sid) (refresh rows) ;;; commit_ ;;;
   ret (mkEcho (map pc_id (registered_of (working s) sid)) rejected)) s = (inr echo, s') ->
  list_taken rows (ec_accepted echo) s'.2.1 /\ ec_rejected echo = rejected.
Proof.
  intros Hk Hsig ([] & s1 & E1 & E)%bind_answer. unfold bind, commit_, ret in E. injection E as <- <-. cbn [fst snd].
  pose proof (for_each_registered _ _ _ _ E1) as Hreg.
  apply (refresh_each rows (registered_of (working s) sid)) in E1 as (_ & _ & _ & Hdec); [|done|by apply registered_known].
  split; [|done]. cbn [ec_accepted]. split_and!.
  - rewrite length_map, (same_sig_length _ _ Hsig). apply length_map.
  - intros id. unfold working in Hreg. rewrite (Hreg id). by apply registered_listed.
  - intros id Hid%list_elem_of_In%in_map_iff. destruct Hid as (k & <- & Hin%list_elem_of_In). by apply Hdec.
Qed.

Lemma new_list_taken rows rejected s echo s' :
  contenders_keyed (working s) -> (forall row, row ∈ rows -> pc_session_id row.1 = sid /\ pc_status row.1 = Registered) ->
  (for_each (registered_of (working s) sid) (fun k => on_w (contender_is (pc_id k) Superseded)) ;;;
   ids <- add_contenders rows ;; _audit sid "policy_contenders_updated" None ;;; commit_ ;;; ret (mkEcho ids rejected)) s
    = (inr echo, s') ->
  list_taken rows (ec_accepted echo) s'.2.1 /\ ec_rejected echo = rejected.
Proof.
  intros Hk Hrows ([] & s1 & (_ & Hk1 & Hsup)%supersede_answer & E)%bind_answer.
  apply bind_answer in E as (ids & s2 & (_ & Hst & _ & Hreg)%add_contenders_answer & E); [|done].
  apply bind_answer in E as (? & s3 & (_ & _ & l & Hw)%audit_answer & E). unfold bind, commit_, ret in E. injection E as <- <-.
  cbn [fst snd]. unfold working in Hw. rewrite Hw. split; [|done]. cbn [ec_accepted]. split_and!.
  - symmetry. by eapply Forall2_length.
  - intros id. change (registered _ id) with (registered (working s2) id). rewrite (Hreg id), (Hsup id), registered_listed by done.
    tauto.
  - intros id Hid. apply list_elem_of_lookup_1 in Hid as [i Hi]. destruct (Forall2_lookup_r _ _ _ _ _ Hst Hi) as (row & Hrow & Hs).
    exists (row.1 <| pc_id := id |>), row. split_and!; [exact Hs|by eapply list_elem_of_lookup_2|by split_and!].
Qed.
End contenders.

(** A list of contenders is taken as a whole.  Of the entries a policy sends,
    as many as twice the cap are looked at, and each of those is accepted or
    rejected with a reason; the accepted ones have distinct ranks, are no more
    than the cap, and their configs, merged and pruned, have no problem.  When
    something was accepted, or nothing sent, the registered contenders of the
    session are then exactly the answered ones, as many as were accepted, and each
    says what one of the accepted entries says; a list of which nothing was
    accepted changes no contender. *)
Theorem contender_list_is_taken_whole `{Env} sid entries (d d' : desk) echo :
  let db := w_db (dk_world d) in
  let db' := w_db (dk_world d') in
  contenders_keyed db -> respond (put_contenders sid entries) d = (inr echo, d') ->
  exists s c k rows seen,
    d_sessions db !! sid = Some s /\ d_campaigns db !! ps_campaign_id s = Some c /\ exploring (ps_status s) = true /\
    tally sid db c k (session_machine db s) (take (Z.to_nat (st_max_contenders (settings_of c) * 2)) entries)
      (rows, ec_rejected echo, seen) /\
    if bool_decide (rows = []) && negb (bool_decide (entries = []))
    then ec_accepted echo = [] /\ d_contenders db' = d_contenders db
    else list_taken sid rows (ec_accepted echo) db'.
Proof.
  intros db db' Hkeyed Hs. unfold respond in Hs.
  destruct (put_contenders sid entries _) as [r0 [d1 [db1 bk1]]] eqn:E. injection Hs as -> <-.
  unfold put_contenders in E. apply bind_answer in E as ([[s c] m] & s1 & (-> & Hs & Hc & Hm)%context_reads & E).
  cbn [fst snd] in *. change (working _) with db in Hs, Hc, Hm.
  destruct (exploring (ps_status s)) eqn:He; [|done]. cbn [negb] in E.
  apply bind_answer in E as (db2 & s2 & [-> ->]%db_answer & E). change (working _) with db in E.
  apply bind_answer in E as (k & s3 & [Hk ->]%desk_answer & E). cbv zeta in E.
  apply bind_answer in E as ([[rows rejected] seen] & s4 & Hacc & E).
  eapply (for_acc_answer (tally sid db c k m)) in Hacc as [-> Ht]; [|intros ? ? ? ?; apply consider_tally|apply tally_start].
  cbn [app] in Ht. rewrite Hm in Ht. assert (forall A (l : list A), bool_decide (length l = O) = bool_decide (l = [])) as Hlen.
  { intros A [|x l]; [done|]. rewrite !bool_decide_eq_false_2; done. }
  rewrite !Hlen in E. set (st := (d, (w_db (dk_world d), dk_book d))) in E.
  assert (forall row, row ∈ rows -> pc_session_id row.1 = sid /\ pc_status row.1 = Registered) as Hrows.
  { intros row Hr. destruct (tally_rows _ _ _ _ _ _ _ Ht row Hr) as (entry & _ & Ha & Hb & _). by split. }
  exists s, c, k, rows, seen. destruct (bool_decide (rows = []) && negb (bool_decide (entries = []))).
  - injection E as <- _ <- _. by split_and!.
  - destruct (bool_decide (_sig _ = _)) eqn:Hsig.
    + apply bool_decide_eq_true in Hsig. destruct (same_list_taken sid rows rejected st echo _ Hkeyed Hsig E) as [Htaken <-]. by split_and!.
    + destruct (new_list_taken sid rows rejected st echo _ Hkeyed Hrows E) as [Htaken <-]. by split_and!.
Qed.

(** A list of three: the second repeats a rank, the third asks for what no engine
    can run. *)
Definition sample_entry (rank : Z) (cfg : config) : ContenderIn := mkContenderIn rank cfg "engine:1" [] (Mp []) [].
Definition sample_list : list ContenderIn :=
  [sample_entry 1 (sample_config 2); sample_entry 1 (sample_config 4); sample_entry 2 {[ "tp" := VStr "two" ]}].

Lemma contender_list_is_taken_whole_witness :
  exists echo d', respond (put_contenders 1 sample_list) night_desk = (inr echo, d') /\
    ec_accepted echo = [1] /\ ec_rejected echo = [(1, DuplicateRank); (2, Refused)] /\
    exists k, d_contenders (w_db (dk_world d')) !! 1 = Some k /\ pc_status k = Registered.
Proof.
  destruct (respond (put_contenders 1 sample_list) night_desk) as [[e|echo] d'] eqn:Hs.
  { exfalso. assert (match (respond (put_contenders 1 sample_list) night_desk).1 with inl _ => false | inr _ => true end = true)
      as Hx by (vm_compute; reflexivity). by rewrite Hs in Hx. }
  exists echo, d'. split; [done|].
  assert (echo = mkEcho [1] [(1, DuplicateRank); (2, Refused)]) as ->.
  { assert ((respond (put_contenders 1 sample_list) night_desk).1 = inr (mkEcho [1] [(1, DuplicateRank); (2, Refused)]))
      as Hx by (vm_compute; reflexivity). rewrite Hs in Hx. by injection Hx. }
  split; [done|]. split; [done|].
  assert (contenders_keyed night_db) as Hkeyed.
  { intros id k Hk. change ((∅ : gmap Z contender) !! id = Some k) in Hk. rewrite lookup_empty in Hk. discriminate Hk. }
  destruct (contender_list_is_taken_whole 1 sample_list night_desk d' _ Hkeyed Hs) as (s & c & k & rows & seen & _ & _ & _ & _ & Ht).
  destruct (bool_decide (rows = []) && _); [destruct Ht as [Hx _]; discriminate Hx|]. destruct Ht as (_ & Hreg & _).
  destruct (proj2 (Hreg 1) ltac:(left)) as (q & Hq & _ & Hst). exists q. split; [exact Hq|exact Hst].
Defined.
