(* ===== verification/Custody.v ===== *)
(** What the supervisor may do to a run and to its container.

    A run's status only moves along the state machine, what a run is (its
    campaign, candidate, machine, cards, port, kind) never changes, and a
    container is launched, stopped or removed only for a run the platform
    launched.  One relation between worlds holds all of it, so every handler is
    walked through once. *)
From S2P Require Import Prelude Float Values Documents Space Validation Failures Model States Packing Timing.
From S2P Require Import World Samples Occupancy Fleet Exclusive Finish Placement Nights Reserve Queue Pass.
From S2P Require Import Runs Advance Leases Clock Sessions Datasets Plan Ending Tenancy Tick.
#[local] Open Scope string_scope.
#[local] Open Scope list_scope.
#[local] Open Scope Z_scope.

(** ** The relation *)
Definition leads (s t : RunStatus) : Prop := exists l, path s l t.

#[export] Instance leads_preorder : PreOrder leads.
Proof.
  split.
  - intros s. exists []. constructor.
  - intros s t u [l Hl] [k Hk]. exists (l ++ k). induction Hl; [done|]. cbn. econstructor; eauto.
Qed.

(** What a run is, from its creation on. *)
Definition identity (r : run) :=
  (r_campaign_id r, r_candidate_id r, r_machine_id r, r_kind r, r_gpu_indices r, r_service_port r,
   r_launch_run_id r).

Record follows (rid : Z) (r r' : run) : Prop := {
  fo_status : leads (r_status r) (r_status r');
  fo_identity : identity r' = identity r;
  fo_id : r_id r' = rid \/ r_id r' = r_id r;
  fo_teardown : r_teardown_pending r' = true -> r_teardown_pending r = true \/ not_ours r = false;
}.

Record born (rid : Z) (r : run) : Prop := {
  bo_status : leads Pending (r_status r);
  bo_id : r_id r = rid;
  bo_teardown : r_teardown_pending r = true -> not_ours r = false;
}.

Record moved (db db' : database) : Prop := {
  mo_old rid r : d_runs db !! rid = Some r -> exists r', d_runs db' !! rid = Some r' /\ follows rid r r';
  mo_new rid r' : d_runs db' !! rid = Some r' -> d_runs db !! rid = None -> born rid r';
}.

Definition ours (rid : Z) (db : database) : Prop :=
  exists r, d_runs db !! rid = Some r /\ not_ours r = false.

(** The run whose deployment an action reaches. *)
Definition touches (a : action) : option Z :=
  match a with
  | ActLaunch rid | ActStop rid | ActRemove rid | ActReleaseLeftovers rid => Some rid
  | _ => None
  end.

Definition proper (db : database) (a : action) : Prop := forall rid, touches a = Some rid -> ours rid db.

Definition custody (w w' : world) : Prop :=
  moved (w_db w) (w_db w') /\
  exists new, w_log w' = w_log w ++ new /\ Forall (proper (w_db w')) new.

(** ** Lemmas: it is a preorder *)
Lemma identity_ours r r' : identity r' = identity r -> not_ours r' = not_ours r.
Proof. intros E. injection E. unfold not_ours. by intros _ _ _ -> _ _ _. Qed.

Lemma follows_refl rid r : follows rid r r.
Proof. split; [reflexivity|done|by right|by left]. Qed.

Lemma follows_trans rid r1 r2 r3 : follows rid r1 r2 -> follows rid r2 r3 -> follows rid r1 r3.
Proof.
  intros [S1 I1 D1 T1] [S2 I2 D2 T2]. split; [by etransitivity|congruence| |].
  - destruct D2 as [->| ->]; auto.
  - intros [Hp|Hn]%T2; [auto|]. right. by rewrite <-(identity_ours _ _ I1).
Qed.

Lemma born_follows rid r r' : born rid r -> follows rid r r' -> born rid r'.
Proof.
  intros [S1 D1 T1] [S2 I2 D2 T2]. split; [by etransitivity| |].
  - destruct D2 as [->| ->]; done.
  - intros Hp. rewrite (identity_ours _ _ I2). destruct (T2 Hp); auto.
Qed.

#[export] Instance moved_preorder : PreOrder moved.
Proof.
  split.
  - intros db. split; [|congruence]. intros rid r Hr. exists r. split; [done|apply follows_refl].
  - intros d1 d2 d3 [O1 N1] [O2 N2]. split.
    + intros rid r (r2 & H2 & F2)%O1. destruct (O2 _ _ H2) as (r3 & H3 & F3). exists r3.
      split; [done|by eapply follows_trans].
    + intros rid r3 H3 H1. destruct (d_runs d2 !! rid) as [r2|] eqn:H2; [|by eauto].
      destruct (O2 _ _ H2) as (r3' & H3' & F3). assert (r3' = r3) as -> by congruence.
      eapply born_follows; eauto.
Qed.

Lemma moved_ours rid db db' : moved db db' -> ours rid db -> ours rid db'.
Proof.
  intros [O _] (r & Hr & Ho). destruct (O _ _ Hr) as (r' & Hr' & F). exists r'. split; [done|].
  by rewrite (identity_ours _ _ (fo_identity _ _ _ F)).
Qed.

Lemma moved_proper db db' a : moved db db' -> proper db a -> proper db' a.
Proof. intros Hm Hp rid Ht. by eapply moved_ours, Hp. Qed.

#[export] Instance custody_preorder : PreOrder custody.
Proof.
  split.
  - intros w. split; [reflexivity|]. exists []. by rewrite app_nil_r.
  - intros w1 w2 w3 [M1 (n1 & E1 & F1)] [M2 (n2 & E2 & F2)]. split; [by etransitivity|].
    exists (n1 ++ n2). split; [by rewrite E2, E1, app_assoc|]. apply Forall_app. split; [|done].
    eapply Forall_impl; [exact F1|]. intros a. by apply moved_proper.
Qed.

(** ** Lemmas: writes *)
Lemma same_runs_moved db db' : d_runs db' = d_runs db -> moved db db'.
Proof.
  intros E. split; [|congruence]. intros rid r Hr. exists r. rewrite E. split; [done|apply follows_refl].
Qed.

Lemma update_run_moved rid f db :
  (forall r, d_runs db !! rid = Some r -> follows rid r ((f r) <| r_id := rid |>)) ->
  moved db (update_run rid f db).
Proof.
  intros Hf. unfold update_run. destruct (d_runs db !! rid) as [r|] eqn:Hr; [|reflexivity]. split.
  - intros k r0 Hk. cbn. destruct (decide (rid = k)) as [<-|Hne].
    + rewrite lookup_insert_eq. eexists. split; [done|]. assert (r0 = r) as -> by congruence. by apply Hf.
    + rewrite lookup_insert_ne by done. exists r0. split; [done|apply follows_refl].
  - intros k r'. cbn. destruct (decide (rid = k)) as [<-|Hne]; [congruence|].
    rewrite lookup_insert_ne by done. congruence.
Qed.

Lemma custody_db w f : moved (w_db w) (f (w_db w)) -> custody w (w <| w_db ::= f |>).
Proof. intros Hm. split; [done|]. exists []. by rewrite app_nil_r. Qed.

Lemma modify_db_custody f : (forall db, moved db (f db)) -> respects custody (modify_db f).
Proof. intros Hf w. by apply custody_db. Qed.

(** A write to columns nothing here compares. *)
Lemma put_run_custody rid f :
  (forall r, r_status (f r) = r_status r /\ identity (f r) = identity r /\
             (r_teardown_pending (f r) = true -> r_teardown_pending r = true)) ->
  respects custody (put_run rid f).
Proof.
  intros Hf. apply modify_db_custody. intros db. apply update_run_moved. intros r _.
  destruct (Hf r) as (E & I & T). split; cbn; [by rewrite E|done|by left|by left; auto].
Qed.

Lemma call_custody {A} acts (f : nat -> exn + A) :
  Forall (fun a => touches a = None) acts -> respects custody (call acts f).
Proof.
  intros Ha w. split; [cbn; reflexivity|]. exists acts. split; [done|]. cbn.
  eapply Forall_impl; [exact Ha|]. intros a E rid. cbn. congruence.
Qed.

Lemma modify_custody (f : world -> world) :
  (forall w, w_db (f w) = w_db w /\ w_log (f w) = w_log w) -> respects custody (modify f).
Proof.
  intros Hf w. destruct (Hf w) as [E1 E2]. split; cbn; [by rewrite E1|].
  exists []. by rewrite E2, app_nil_r.
Qed.

#[export] Hint Extern 2 (respects custody (modify_db _)) =>
  apply modify_db_custody; intros ?; apply same_runs_moved; exact eq_refl : effects.
#[export] Hint Extern 2 (respects custody (put_run _ _)) =>
  apply put_run_custody; intros ?; split; [exact eq_refl|split; [exact eq_refl|cbn; first [done | by intros ?]]] : effects.
#[export] Hint Extern 2 (respects custody (call _ _)) =>
  apply call_custody; solve [repeat constructor] : effects.
#[export] Hint Extern 2 (respects custody (modify _)) =>
  apply modify_custody; intros ?; split; exact eq_refl : effects.
#[export] Hint Extern 1 (respects custody (put_machine _ _)) => unfold put_machine : effects.
#[export] Hint Extern 1 (respects custody (put_campaign _ _)) => unfold put_campaign : effects.
#[export] Hint Extern 1 (respects custody (put_candidate _ _)) => unfold put_candidate : effects.
#[export] Hint Extern 1 (respects custody (put_session _ _)) => unfold put_session : effects.
#[export] Hint Extern 1 (respects custody (put_node _ _)) => unfold put_node : effects.
#[export] Hint Extern 1 (respects custody (add_result _)) => unfold add_result : effects.

(** ** Lemmas: handlers that need the run to be ours *)
Definition guarded {A} (rid : Z) (m : W A) : Prop := forall w, ours rid (w_db w) -> custody w (m w).2.

Lemma guarded_respects {A} rid (m : W A) : respects custody m -> guarded rid m.
Proof. intros Hm w _. apply Hm. Qed.

Lemma guarded_bind {A B} rid (m : W A) (f : A -> W B) :
  guarded rid m -> (forall a, guarded rid (f a)) -> guarded rid (bind m f).
Proof.
  intros Hm Hf w Ho. unfold bind. specialize (Hm w Ho). destruct (m w) as [[e|a] w']; [done|].
  cbn in Hm. etransitivity; [exact Hm|]. apply Hf. by eapply moved_ours, Ho; apply Hm.
Qed.

Lemma guarded_try {A} rid (m : W A) h :
  guarded rid m -> (forall e, guarded rid (h e)) -> guarded rid (try_ m h).
Proof.
  intros Hm Hh w Ho. unfold try_. specialize (Hm w Ho). destruct (m w) as [[e|a] w']; [|done].
  cbn in Hm. etransitivity; [exact Hm|]. apply Hh. by eapply moved_ours, Ho; apply Hm.
Qed.

Lemma guarded_call {A} rid acts (f : nat -> exn + A) :
  Forall (fun a => touches a = Some rid \/ touches a = None) acts -> guarded rid (call acts f).
Proof.
  intros Ha w Ho. split; [cbn; reflexivity|]. exists acts. split; [done|]. cbn.
  eapply Forall_impl; [exact Ha|]. intros a [E|E] k Hk; [|congruence]. assert (k = rid) as -> by congruence. done.
Qed.

Ltac guarded_step :=
  lazymatch goal with
  | |- guarded _ (bind _ _) => apply guarded_bind; [|intros ?]
  | |- guarded _ (try_ _ _) => apply guarded_try; [|intros ?]
  | |- guarded _ (match ?x with _ => _ end) => destruct x eqn:?
  | |- guarded _ (call _ _) => apply guarded_call; solve [repeat constructor; auto]
  | |- guarded _ _ => apply guarded_respects; solve [respects_walk]
  end.
Ltac guarded_walk := repeat guarded_step.

(** ** Lemmas: one run's handlers *)
Section handlers.
Context `{Env}.

Lemma event_custody kind cid rid to reason : respects custody (add_event kind cid rid to reason).
Proof. unfold add_event, now. respects_walk. Qed.
Hint Resolve event_custody : effects.

Lemma spec_for_custody rid : respects custody (_spec_for rid).
Proof. unfold _spec_for, get_run, get_campaign, get_candidate. respects_walk. Qed.
Lemma record_sample_custody rid f : respects custody (record_sample rid f).
Proof. unfold record_sample, get_run, now. respects_walk. Qed.
Hint Resolve spec_for_custody record_sample_custody : effects.

Lemma transition_custody rid target : respects custody (_transition rid target).
Proof.
  intros w. unfold _transition. rewrite get_run_bind.
  destruct (d_runs (w_db w) !! rid) as [r|] eqn:Hr; [|cbn; reflexivity].
  destruct (can_transition (r_status r) target) eqn:Hcan; [|cbn; reflexivity]. cbn [negb].
  destruct (add_event_run "run_transition" (Some (r_campaign_id r)) (Some rid) (Some target) "" w)
    as (w1 & Ev & E1).
  pose proof (event_custody "run_transition" (Some (r_campaign_id r)) (Some rid) (Some target) "" w) as H1.
  unfold bind at 1. rewrite Ev in *. cbn in H1. etransitivity; [exact H1|].
  apply bind_step; [typeclasses eauto| |].
  - apply custody_db, update_run_moved. intros r1 Hr1. rewrite E1 in Hr1. cbn in Hr1.
    assert (r1 = r) as -> by congruence. split; cbn; [|done|by left|by left].
    exists [target]. repeat econstructor. done.
  - intros [] w2 _. destruct target; try (cbn; reflexivity); apply record_sample_custody.
Qed.
Hint Resolve transition_custody : effects.

Lemma note_placement_custody rid waiting wf : respects custody (_note_placement rid waiting wf).
Proof. unfold _note_placement, get_run, now. respects_walk. Qed.
Lemma reclaim_custody rid h s : respects custody (_reclaim_orphan_port rid h s).
Proof. unfold _reclaim_orphan_port, get_run, logged. respects_walk. Qed.
Lemma release_idle_custody mid : respects custody (_release_machine_if_idle mid).
Proof. unfold _release_machine_if_idle. respects_walk. Qed.
Hint Resolve note_placement_custody reclaim_custody release_idle_custody : effects.
Lemma release_machines_custody rid : respects custody (_release_run_machines rid).
Proof. unfold _release_run_machines, get_run. respects_walk. Qed.
Lemma save_log_custody rid log_text : respects custody (_save_run_log rid log_text).
Proof. unfold _save_run_log, get_run, logged. respects_walk. Qed.
Hint Resolve save_log_custody : effects.
Lemma capture_log_custody rid : respects custody (_capture_engine_log rid).
Proof. unfold _capture_engine_log, get_run, logged, _read_engine_log, attach. respects_walk. Qed.
Lemma requeue_custody rid : respects custody (_requeue_if_infrastructure rid).
Proof. unfold _requeue_if_infrastructure, get_run. respects_walk. Qed.
Lemma cancel_custody r : respects custody (cancel_benchmark r).
Proof. unfold cancel_benchmark. respects_walk. Qed.
Hint Resolve release_machines_custody capture_log_custody requeue_custody cancel_custody : effects.

Lemma put_run_guarded rid f :
  (forall r, r_status (f r) = r_status r /\ identity (f r) = identity r) -> guarded rid (put_run rid f).
Proof.
  intros Hf w (r0 & Hr0 & Ho). apply custody_db, update_run_moved. intros r Hr. destruct (Hf r) as [E I].
  assert (r = r0) as -> by congruence. split; cbn; [by rewrite E|done|by left|by right].
Qed.

Lemma begin_teardown_guarded rid : guarded rid (_begin_teardown rid).
Proof.
  unfold _begin_teardown, stop_container, logged, attach. guarded_walk.
  all: apply put_run_guarded; intros r; done.
Qed.
Hint Resolve begin_teardown_guarded : effects.

Lemma get_run_custody {A} rid (f : run -> W A) :
  (forall r, not_ours r = true -> respects custody (f r)) ->
  (forall r, not_ours r = false -> guarded rid (f r)) -> respects custody (r <- get_run rid ;; f r).
Proof.
  intros Ht Ho w. rewrite get_run_bind. destruct (d_runs (w_db w) !! rid) as [r|] eqn:Hr; [|cbn; reflexivity].
  destruct (not_ours r) eqn:E; [by apply Ht|]. apply Ho; [done|]. by exists r.
Qed.

Lemma finish_custody depth : forall rid status error, respects custody (_finish depth rid status error).
Proof.
  induction depth as [|depth IH]; intros rid status error; cbn [_finish]; [respects_walk|].
  assert (forall (cleaned : bool) r, respects custody (
      modify (fun w => w <| w_final_logs ::= fun s => s ∖ {[ rid ]} |>) ;;;
      refs <- gets w_health_refs ;;
      (match refs !! rid with
       | Some ref =>
           modify (fun w => w <| w_health_refs ::= delete rid |>) ;;;
           call [ActHealthCancel ref] (fun n => health_cancel n ref)
       | None => ret tt
       end) ;;;
      (if String.eqb error "" then ret tt else put_run rid (fun r => r <| r_error := error |>)) ;;;
      moment <- now ;;
      put_run rid (fun r => r <| r_finished_at := Some moment |>) ;;;
      _transition rid status ;;;
      (if cleaned : bool then _release_run_machines rid else ret tt) ;;;
      if r_kind r == PolicyLaunch then
        db <- db_ ;;
        for_each (benchmarks_of db rid) (stop_benchmark (_finish depth) rid)
      else ret tt)) as Hrest.
  { intros cleaned r. unfold stop_benchmark, get_run, logged, now. respects_walk. }
  apply get_run_custody; intros r Hr; rewrite Hr.
  - apply respects_bind; [typeclasses eauto|respects_walk|]. intros cleaned. apply Hrest.
  - apply guarded_bind; [|intros cleaned; apply guarded_respects, Hrest].
    apply guarded_bind; [apply guarded_respects, capture_log_custody|]. intros _.
    apply begin_teardown_guarded.
Qed.

Lemma fail_custody rid cls error : respects custody (_fail rid cls error).
Proof. unfold _fail, finish. pose proof (finish_custody DEPTH). respects_walk. Qed.
Lemma finish_all_custody rid status error : respects custody (finish rid status error).
Proof. apply finish_custody. Qed.
End handlers.
#[export] Hint Resolve event_custody spec_for_custody record_sample_custody transition_custody
  note_placement_custody reclaim_custody release_idle_custody release_machines_custody
  save_log_custody capture_log_custody requeue_custody cancel_custody fail_custody finish_all_custody : effects.

Section steps.
Context `{Env}.

Lemma capture_failure_custody rid h cls error : respects custody (_capture_failure rid h cls error).
Proof. unfold _capture_failure, logged. respects_walk. Qed.
Lemma startup_custody r h : respects custody (_startup_timed_out r h).
Proof. unfold _startup_timed_out, logged, now. respects_walk. Qed.
Lemma health_outcome_custody rid m : respects custody (_health_outcome rid m).
Proof. unfold _health_outcome, get_run. respects_walk. Qed.
Lemma record_result_custody rid source o : respects custody (_record_result rid source o).
Proof. unfold _record_result, get_run, get_campaign. respects_walk. Qed.
Lemma start_benchmark_custody rid : respects custody (start_benchmark rid).
Proof. unfold start_benchmark, submit, get_run. respects_walk. Qed.
Hint Resolve capture_failure_custody startup_custody health_outcome_custody record_result_custody
  start_benchmark_custody : effects.

Lemma advance_baseline_custody rid : respects custody (_advance_baseline rid).
Proof. unfold _advance_baseline, get_run, get_campaign, now. respects_walk. Qed.

Lemma advance_pending_guarded rid sp : guarded rid (_advance_pending rid sp).
Proof.
  unfold _advance_pending, launch_nodes, _record_node_launches, get_run. guarded_walk.
Qed.
Lemma advance_starting_custody rid h : respects custody (_advance_starting rid h).
Proof. unfold _advance_starting, _snapshot_environment, get_run, get_campaign, logged. respects_walk. Qed.
Lemma advance_health_custody rid h : respects custody (_advance_health rid h).
Proof. unfold _advance_health, get_run, get_campaign. respects_walk. Qed.
Lemma advance_benching_custody rid : respects custody (_advance_benching rid).
Proof. unfold _advance_benching, get_run. respects_walk. Qed.
Lemma advance_serving_custody rid h : respects custody (_advance_serving rid h).
Proof. unfold _advance_serving, _fail_restarted, get_run, logged. respects_walk. Qed.
Hint Resolve advance_baseline_custody advance_starting_custody advance_health_custody
  advance_benching_custody advance_serving_custody : effects.

Lemma advance_one_custody rid : respects custody (_advance_one rid).
Proof.
  unfold _advance_one. apply get_run_custody; intros r Hr; rewrite Hr; [respects_walk|].
  unfold attach. guarded_walk. apply advance_pending_guarded.
Qed.
Hint Resolve advance_one_custody : effects.

Lemma advance_runs_custody : respects custody _advance_runs.
Proof. unfold _advance_runs. respects_walk. Qed.
Lemma enforce_custody : respects custody _enforce_windows.
Proof. unfold _enforce_windows, _enforce_one, get_campaign, now. respects_walk. Qed.
Lemma stop_requests_custody : respects custody _process_stop_requests.
Proof. unfold _process_stop_requests, _stop_one, get_run. respects_walk. Qed.
Lemma release_paused_custody : respects custody _release_queued_while_paused.
Proof.
  unfold _release_queued_while_paused, _release_to_queue, queued_for_cards, logged, attach,
    get_machine, get_run. respects_walk.
Qed.
Lemma leases_custody : respects custody _advance_leases.
Proof.
  unfold _advance_leases, _advance_lease, _begin_drain, _advance_drain, logged, get_machine, now.
  respects_walk.
Qed.
Lemma plan_custody : respects custody _plan.
Proof.
  unfold _plan, _plan_campaign, _plan_point, new_candidate, add_candidate, insert_candidate.
  respects_walk.
Qed.

(** The janitor reaches only for runs that are still being torn down. *)
Lemma reap_one_guarded rid : guarded rid (_reap_one rid).
Proof.
  unfold _reap_one, _confirm_teardown, _give_up, _quarantine_machine, stuck_names, logged, attach,
    get_run, get_machine, now. guarded_walk.
Qed.
End steps.

(** ** Lemmas: the queue only writes the database *)
Definition quiet (w w' : world) : Prop := w_log w' = w_log w.

#[export] Instance silent_preorder : PreOrder quiet.
Proof. split; unfold quiet; [done|]. intros x y z Hxy Hyz. congruence. Qed.

Lemma call_quiet {A} (f : nat -> exn + A) : respects quiet (call [] f).
Proof. intros w. unfold quiet. cbn. apply app_nil_r. Qed.
Lemma modify_db_quiet f : respects quiet (modify_db f).
Proof. by intros w. Qed.
#[export] Hint Resolve call_quiet modify_db_quiet : effects.

Lemma quiet_custody {A} (m : W A) : respects (on_db moved) m -> respects quiet m -> respects custody m.
Proof. intros Hm Hq w. split; [apply Hm|]. exists []. rewrite app_nil_r. by split; [apply Hq|]. Qed.

Section schedule.
Context `{Env}.

Lemma event_quiet kind cid rid to reason : respects quiet (add_event kind cid rid to reason).
Proof. unfold add_event. respects_walk. Qed.
Lemma new_candidate_quiet cid cfg hash st err kind b rep :
  respects quiet (new_candidate cid cfg hash st err kind b rep).
Proof. unfold new_candidate, add_candidate. respects_walk. Qed.
Hint Resolve event_quiet new_candidate_quiet : effects.

Lemma add_repeats_quiet n c source hash kind : respects quiet (add_repeats n c source hash kind).
Proof. induction n as [|n IH]; cbn [add_repeats]; unfold event_; respects_walk. Qed.
Hint Resolve add_repeats_quiet : effects.

Lemma maybe_finish_quiet cid : respects quiet (_maybe_finish_campaign cid).
Proof.
  unfold _maybe_finish_campaign, _schedule_confirmations, _schedule_verification, _confirm_one,
    _verify_one, _add_baseline_candidate, get_candidate, get_campaign, put_campaign, event_.
  respects_walk.
Qed.
Lemma create_run_quiet c m cd cards plan sp dp ng : respects quiet (_create_run c m cd cards plan sp dp ng).
Proof.
  unfold _create_run, put_machine, add_run, put_candidate, put_run, add_node, event_. respects_walk.
Qed.
Hint Resolve maybe_finish_quiet create_run_quiet : effects.
Lemma place_on_first_quiet c pending blocked busy ms : respects quiet (place_on_first c pending blocked busy ms).
Proof. revert busy. induction ms as [|m ms IH]; intros busy; cbn [place_on_first]; respects_walk. Qed.
Hint Resolve place_on_first_quiet : effects.

Lemma start_one_quiet cid blocked : respects quiet (_start_one cid blocked).
Proof.
  unfold _start_one, _start_gang, _retire_in_place, get_campaign, put_candidate, event_. respects_walk.
  apply filter_m_respects; [typeclasses eauto|]. intros cd. unfold _window_allows_stage. respects_walk.
Qed.
Hint Resolve start_one_quiet : effects.

Lemma take_ticket_quiet b waiter key label cid : respects quiet (take_ticket b waiter key label cid).
Proof. unfold take_ticket. respects_walk. Qed.
Hint Resolve take_ticket_quiet : effects.

Lemma list_waiters_quiet : respects quiet list_waiters.
Proof.
  unfold list_waiters, open_book, list_campaign, list_plugin, list_session,
    _ensure_relaunch_baseline, _add_baseline_candidate, event_. respects_walk.
Qed.

Lemma reserve_on_first_quiet c p sid needed blocked busy ms :
  respects quiet (reserve_on_first c p sid needed blocked busy ms).
Proof.
  revert busy. induction ms as [|m ms IH]; intros busy; cbn [reserve_on_first];
    unfold put_session, put_machine, event_; respects_walk.
Qed.
Hint Resolve reserve_on_first_quiet : effects.

Lemma serve_quiet turns p : respects quiet (serve turns p).
Proof.
  revert p. induction turns as [|n IH]; intros p; cbn [serve]; [respects_walk|].
  unfold pass_step, turn, try_reserve, served_ticket. respects_walk.
Qed.

Lemma schedule_quiet turns : respects quiet (_schedule turns).
Proof.
  pose proof list_waiters_quiet. pose proof serve_quiet.
  unfold _schedule, record_all, record, sweep. respects_walk.
Qed.

(** A placement adds one pending run under a new id. *)
Lemma create_run_moved c m cd cards plan sp dp ng :
  respects (on_db moved) (_create_run c m cd cards plan sp dp ng).
Proof.
  intros w. destruct (create_run_effect c m cd cards plan sp dp ng w)
    as (w' & r & E & Eid & Hp & Er & _). rewrite E. unfold on_db. cbn.
  assert (d_runs (w_db w) !! r_id r = None) as Hfresh by (rewrite Eid; apply next_key_fresh). split.
  - intros k r' Hr'. exists r'. rewrite Er, lookup_insert_ne by congruence.
    split; [done|apply follows_refl].
  - intros k r'. rewrite Er. intros [[<- <-]|[_ Hr']]%lookup_insert_Some Hn; [|congruence].
    destruct Hp as (_ & _ & _ & Hs & _ & _ & _ & _ & _ & Ht & _). split; [by rewrite Hs|done|].
    by rewrite Ht.
Qed.

Lemma placed_moved {A} (m : W A) :
  (forall w, exists a w', m w = (inr a, w') /\
     (w' = w \/ exists c m cd cards plan sp dp ng, _create_run c m cd cards plan sp dp ng w = (inr tt, w'))) ->
  respects (on_db moved) m.
Proof.
  intros Hm w. destruct (Hm w) as (a & w' & E & [->|(c & m' & cd & cards & plan & sp & dp & ng & Ec)]);
    rewrite E; unfold on_db; cbn; [reflexivity|].
  pose proof (create_run_moved c m' cd cards plan sp dp ng w) as Hc. by rewrite Ec in Hc.
Qed.

Lemma place_on_first_moved c pending blocked busy ms :
  respects (on_db moved) (place_on_first c pending blocked busy ms).
Proof.
  apply placed_moved. intros w. destruct (place_on_first_cases c pending blocked busy ms w)
    as (b & busy' & w' & E & Hc). exists (b, busy'), w'. split; [done|]. destruct b; [right|by left].
  destruct Hc as (m & cd & cards & plan & sp & dp & ng & Ecr & _). by repeat eexists.
Qed.

Lemma start_gang_moved c pending blocked busy :
  respects (on_db moved) (_start_gang c pending blocked busy).
Proof.
  apply placed_moved. intros w. destruct (start_gang_cases c pending blocked busy w)
    as (b & busy' & w' & E & Hc). exists (b, busy'), w'. split; [done|]. destruct b; [right|by left].
  destruct Hc as (m & cd & cards & plan & sp & dp & ng & Ecr & _). by repeat eexists.
Qed.
Hint Resolve place_on_first_moved start_gang_moved : effects.

Lemma same_fleet_moved {A} (m : W A) : respects (on_db same_fleet) m -> respects (on_db moved) m.
Proof. intros Hm w. apply same_runs_moved. by destruct (Hm w) as (E & _). Qed.

Lemma start_one_moved cid blocked : respects (on_db moved) (_start_one cid blocked).
Proof.
  unfold _start_one, get_campaign. respects_walk.
  - apply same_fleet_moved, retire_same_fleet.
  - apply same_fleet_moved, filter_m_respects; [typeclasses eauto|]. intros cd.
    apply window_stage_respects; typeclasses eauto.
  - apply same_fleet_moved, maybe_finish_same_fleet.
Qed.

Lemma schedule_custody `{!PluginLaws} turns : respects custody (_schedule turns).
Proof.
  apply quiet_custody; [|apply schedule_quiet]. apply schedule_respects; [typeclasses eauto| | |done].
  - intros db db' (E & _). by apply same_runs_moved.
  - apply start_one_moved.
Qed.
End schedule.

(** ** Lemmas: the janitor *)

(** A run's row is under its own id, and only a run the platform launched has a
    container left to tear down. *)
Definition kept (db : database) : Prop :=
  forall rid r, d_runs db !! rid = Some r ->
    r_id r = rid /\ (r_teardown_pending r = true -> not_ours r = false).

Lemma moved_kept db db' : moved db db' -> kept db -> kept db'.
Proof.
  intros [O N] Hk rid r' Hr'. destruct (d_runs db !! rid) as [r|] eqn:Hr.
  - destruct (O _ _ Hr) as (r2 & H2 & [_ I D T]). assert (r2 = r') as -> by congruence.
    destruct (Hk _ _ Hr) as [Hid Ht]. split; [destruct D; congruence|].
    intros Hp. rewrite (identity_ours _ _ I). destruct (T Hp); auto.
  - destruct (N _ _ Hr' Hr) as [_ Hid Ht]. by split.
Qed.

Lemma guarded_each {A} (key : A -> Z) (l : list A) (f : A -> W unit) w :
  (forall x, guarded (key x) (f x)) -> (forall x, x ∈ l -> ours (key x) (w_db w)) ->
  custody w (for_each l f w).2.
Proof.
  intros Hf. revert w. induction l as [|x l IH]; intros w Hl; cbn [for_each]; [cbn; reflexivity|].
  unfold bind. pose proof (Hf x w (Hl x (list_elem_of_here x l))) as Hx.
  destruct (f x w) as [[e|[]] w']; [done|]. cbn in Hx. etransitivity; [exact Hx|]. apply IH.
  intros y Hy. eapply moved_ours; [apply Hx|]. apply Hl. by right.
Qed.

(** ** Lemmas: policy sessions *)
#[local] Hint Extern 1 (respects custody (put_contender _ _)) => unfold put_contender : effects.
#[local] Hint Extern 1 (respects custody (put_key _ _)) => unfold put_key : effects.
#[local] Hint Extern 1 (respects custody (get_session _)) => unfold get_session; respects_walk : effects.
#[local] Hint Extern 1 (respects custody (get_contender _)) => unfold get_contender; respects_walk : effects.
#[local] Hint Extern 1 (respects custody (get_run _)) => unfold get_run; respects_walk : effects.
#[local] Hint Extern 1 (respects custody (get_machine _)) => unfold get_machine; respects_walk : effects.
#[local] Hint Extern 1 (respects custody (contender_is _ _)) => unfold contender_is; respects_walk : effects.
#[local] Hint Extern 1 (respects custody (contender_skip _ _)) => unfold contender_skip; respects_walk : effects.
#[local] Hint Extern 1 (respects custody (stop_serving _ _)) => unfold stop_serving; respects_walk : effects.

Section session_custody.
Context `{Env}.

Lemma workload_state_custody s m : respects custody (_workload_state s m).
Proof. unfold _workload_state, logged, now, event_. respects_walk. Qed.
Lemma workload_failure_custody s m : respects custody (_workload_failure s m).
Proof. unfold _workload_failure, logged, now, event_. respects_walk. Qed.
Lemma store_log_custody sid log_text : respects custody (_store_policy_log sid log_text).
Proof. unfold _store_policy_log, logged, now, event_. respects_walk. Qed.
Hint Resolve workload_state_custody workload_failure_custody store_log_custody : effects.
Lemma teardown_workload_custody sid : respects custody (_teardown_workload sid).
Proof. unfold _teardown_workload, _save_policy_log, logged, now, event_. respects_walk. Qed.
Lemma end_campaign_custody sid : respects custody (_end_campaign_of sid).
Proof. unfold _end_campaign_of, logged, now, event_. respects_walk. Qed.
Hint Resolve teardown_workload_custody end_campaign_custody : effects.
Lemma terminate_custody sid status error cls : respects custody (_terminate sid status error cls).
Proof. unfold _terminate, logged, now, event_. respects_walk. Qed.
Lemma kill_runs_custody sid reason : respects custody (_kill_session_runs sid reason).
Proof. unfold _kill_session_runs, kill_one, logged, now, event_. respects_walk. Qed.
Hint Resolve terminate_custody kill_runs_custody : effects.
Lemma fail_toward_custody sid cls error : respects custody (_fail_toward_validation sid cls error).
Proof. unfold _fail_toward_validation, _capture_death_logs, logged, now, event_. respects_walk. Qed.
Lemma begin_finalizing_custody sid c reason : respects custody (_begin_finalizing sid c reason).
Proof. unfold _begin_finalizing, logged, now, event_. respects_walk. Qed.
Hint Resolve fail_toward_custody begin_finalizing_custody : effects.

Lemma add_run_custody r :
  r_status r = Pending -> r_teardown_pending r = false -> respects custody (add_run r).
Proof.
  intros Hs Ht w. unfold add_run, bind, db_, gets, modify_db, modify, ret. cbn zeta.
  apply custody_db. split.
  - intros k r' Hr'. exists r'. cbn. rewrite lookup_insert_ne; [split; [done|apply follows_refl]|].
    intros E. cbn in E. rewrite <-E, next_key_fresh in Hr'. done.
  - intros k r'. cbn. intros [[<- <-]|[_ Hr']]%lookup_insert_Some Hn; [|congruence].
    split; cbn; [by rewrite Hs|done|by rewrite Ht].
Qed.
Hint Extern 2 (respects custody (add_run _)) => apply add_run_custody; exact eq_refl : effects.

Lemma launch_validation_custody sid c k cfg : respects custody (_launch_validation_run sid c k cfg).
Proof. unfold _launch_validation_run, add_validation, new_candidate, add_candidate. respects_walk. Qed.
Hint Resolve launch_validation_custody : effects.
Lemma launch_queue_custody sid c m queue : respects custody (launch_queue sid c m queue).
Proof.
  induction queue as [|k rest IH]; cbn [launch_queue]; [apply respects_ret; typeclasses eauto|].
  apply respects_bind; [typeclasses eauto|unfold launch_contender, logged, now, event_; respects_walk|].
  intros []; [apply respects_ret; typeclasses eauto|done].
Qed.
Hint Resolve launch_queue_custody : effects.
Lemma validating_custody sid c m : respects custody (_advance_validating sid c m).
Proof. unfold _advance_validating, resolve_one, _launch_validations, logged, now, event_. respects_walk. Qed.
Lemma finalizing_custody sid c m : respects custody (_advance_finalizing sid c m).
Proof. unfold _advance_finalizing, logged, now, event_. respects_walk. Qed.
Lemma searching_custody sid c m : respects custody (_advance_searching sid c m).
Proof. unfold _advance_searching, _idle_watchdog, logged, now, event_. respects_walk. Qed.
Lemma starting_custody sid c m : respects custody (_advance_starting_session sid c m).
Proof. unfold _advance_starting_session, logged, now, event_. respects_walk. Qed.
Lemma begin_step_custody sid : respects custody (begin_step sid).
Proof. unfold begin_step, _follow_window, logged, now, event_. respects_walk. Qed.
Lemma prepare_launch_custody sid c : respects custody (prepare_launch sid c).
Proof. unfold prepare_launch, logged, now, event_. respects_walk. Qed.
Lemma start_container_custody sid c wk token secrets : respects custody (start_container sid c wk token secrets).
Proof. unfold start_container, logged, now, event_. respects_walk. Qed.
Lemma ensure_sessions_custody : respects custody _ensure_sessions.
Proof. unfold _ensure_sessions, logged, now, event_. respects_walk. Qed.
Lemma snapshot_custody : respects custody _snapshot_logs.
Proof. unfold _snapshot_logs, save_one_log, snapshot_log, _read_engine_log, logged, now, event_. respects_walk. Qed.
Hint Resolve validating_custody finalizing_custody searching_custody starting_custody begin_step_custody
  prepare_launch_custody start_container_custody ensure_sessions_custody : effects.

(** A transaction stays in custody, what it commits lies ahead of where it
    started, and it stays ahead of what it committed. *)
Definition tx_custody (s s' : world * database) : Prop :=
  custody s.1 s'.1 /\ (s'.2 = s.2 \/ moved (w_db s.1) s'.2) /\
  (moved s.2 (w_db s.1) -> moved s'.2 (w_db s'.1)).

#[export] Instance tx_custody_preorder : PreOrder tx_custody.
Proof.
  split.
  - intros s. split; [reflexivity|]. split; [by left|done].
  - intros s1 s2 s3 (C1 & M1 & A1) (C2 & M2 & A2). split; [by etransitivity|]. split; [|auto].
    destruct M2 as [E|M2]; [rewrite E; done|]. right. etransitivity; [apply C1|exact M2].
Qed.

Lemma respects_sup {A} (m : W A) : respects custody m -> respects tx_custody (sup m).
Proof.
  intros Hm [w saved]. unfold sup. specialize (Hm w). cbn [fst snd]. destruct (m w) as [r w'].
  split; [exact Hm|]. split; [by left|]. cbn. intros Hs. etransitivity; [exact Hs|apply Hm].
Qed.
Lemma respects_commit : respects tx_custody commit.
Proof. intros [w saved]. split; cbn; [reflexivity|]. split; [right|intros _]; reflexivity. Qed.

Lemma advance_session_custody sid : respects tx_custody (_advance_session sid).
Proof.
  unfold _advance_session. apply respects_bind; [typeclasses eauto|apply respects_sup; auto with effects|].
  intros [[[c m] status]|]; [|apply respects_ret; typeclasses eauto].
  destruct status; try (apply respects_ret; typeclasses eauto); try (apply respects_sup; auto with effects).
  unfold _advance_pending_session.
  apply respects_bind; [typeclasses eauto|apply respects_sup; auto with effects|].
  intros [[[wk token] secrets]|]; [|apply respects_ret; typeclasses eauto].
  apply respects_bind; [typeclasses eauto|apply respects_commit|intros _].
  apply respects_sup. auto with effects.
Qed.

Lemma sessions_custody : respects tx_custody _advance_policy_sessions.
Proof.
  unfold _advance_policy_sessions.
  apply respects_bind; [typeclasses eauto|apply respects_sup; auto with effects|intros _].
  apply respects_bind; [typeclasses eauto|apply respects_sup; respects_walk|intros db].
  apply respects_for_each; [typeclasses eauto|]. intros s _.
  apply respects_try; [typeclasses eauto|apply advance_session_custody|].
  intros e. apply respects_ret. typeclasses eauto.
Qed.
End session_custody.

Section tick_custody.
Context `{Env}.

Lemma reap_custody w : kept (w_db w) -> custody w (_reap_teardowns w).2.
Proof.
  intros Hk. unfold _reap_teardowns, bind, db_, gets.
  apply (guarded_each r_id); [intros r; apply reap_one_guarded|]. intros r Hr.
  apply elem_of_where in Hr as [Hr Hp]. apply elem_of_rows_z in Hr as [rid Hr].
  destruct (Hk _ _ Hr) as [Hid Ht]. exists r. rewrite Hid. auto.
Qed.

Lemma plugin_steps_custody `{!PluginLaws} : respects custody _run_plugin_steps.
Proof.
  unfold _run_plugin_steps. apply respects_for_each; [typeclasses eauto|].
  intros step Hs w. unfold bind, db_, gets.
  destruct (step (w_db w)) as [e|db'] eqn:E; [cbn; reflexivity|]. apply custody_db, same_runs_moved.
  by eapply step_lawful.
Qed.

Lemma clocks_custody : respects custody _advance_campaign_schedules.
Proof. unfold _advance_campaign_schedules, _advance_schedule, get_campaign, now. respects_walk. Qed.
Lemma pins_custody : respects custody _advance_dataset_pins.
Proof.
  unfold _advance_dataset_pins, _advance_pin, _poll_dataset_build, _choose_dataset_build,
    find_profile, _pin_dataset, _conclude_no_dataset, get_campaign, now. respects_walk.
Qed.
Lemma capacity_custody : respects custody _refresh_k8s_capacity.
Proof. unfold _refresh_k8s_capacity, logged, now. respects_walk. Qed.
Lemma refresh_custody : respects custody _refresh_datasets.
Proof. unfold _refresh_datasets, _refresh_one, logged, now. respects_walk. Qed.

Lemma custody_then {A B} (m : W A) (f : A -> W B) w :
  respects custody m -> (forall a w, kept (w_db w) -> custody w (f a w).2) ->
  kept (w_db w) -> custody w (bind m f w).2.
Proof.
  intros Hm Hf Hk. unfold bind. specialize (Hm w). destruct (m w) as [[e|a] w']; [done|]. cbn in Hm.
  etransitivity; [exact Hm|]. apply Hf. by eapply moved_kept; [apply Hm|].
Qed.

Lemma steps_before_custody `{!PluginLaws} : respects custody steps_before.
Proof.
  unfold steps_before. repeat (apply respects_bind; [typeclasses eauto| |intros _]).
  - apply plugin_steps_custody.
  - apply clocks_custody.
  - apply leases_custody.
  - apply stop_requests_custody.
  - apply release_paused_custody.
  - apply pins_custody.
  - apply capacity_custody.
  - apply refresh_custody.
  - apply plan_custody.
Qed.

Lemma steps_after_custody `{!PluginLaws} turns w :
  kept (w_db w) -> custody w (steps_after turns w).2.
Proof.
  revert w. unfold steps_after.
  repeat match goal with |- forall w, kept _ -> custody _ (bind ?m _ w).2 =>
    let x := fresh "w" in intros x; apply custody_then; [first [apply schedule_custody
      | apply advance_runs_custody | apply enforce_custody | apply snapshot_custody]|intros _] end.
  intros w'. apply reap_custody.
Qed.

Lemma tick_steps_custody `{!PluginLaws} turns w :
  kept (w_db w) -> tx_custody (w, w_db w) (tick_steps turns (w, w_db w)).2.
Proof.
  intros Hk. unfold tick_steps.
  pose proof (respects_sup _ steps_before_custody (w, w_db w)) as H1. unfold bind at 1.
  destruct (sup steps_before (w, w_db w)) as [[e|[]] s1]; [exact H1|]. cbn [snd] in H1.
  pose proof (sessions_custody s1) as H2. unfold bind at 1.
  destruct (_advance_policy_sessions s1) as [[e|[]] s2]; [by etransitivity|]. cbn [snd] in H2.
  assert (tx_custody (w, w_db w) s2) as H12 by (by etransitivity).
  assert (tx_custody s2 (sup (steps_after turns) s2).2) as H3.
  { destruct s2 as [w2 saved]. pose proof (steps_after_custody turns w2) as Hs. unfold sup.
    cbn [fst snd]. destruct (steps_after turns w2) as [r w3].
    assert (custody w2 w3) as Hc by (apply Hs; exact (moved_kept _ _ (proj1 (proj1 H12)) Hk)).
    split; [exact Hc|]. split; [by left|]. cbn. intros Hd. etransitivity; [exact Hd|apply Hc]. }
  unfold bind at 1. destruct (sup (steps_after turns) s2) as [[e|[]] s3]; [by etransitivity|].
  etransitivity; [exact H12|]. etransitivity; [exact H3|]. apply respects_commit.
Qed.

(** What a tick leaves behind, committed or rolled back, and the database its
    actions were taken in. *)
Lemma tick_custody `{!PluginLaws} turns w :
  kept (w_db w) ->
  moved (w_db w) (w_db (tick turns w).2) /\
  exists db new, moved (w_db w) db /\ moved (w_db (tick turns w).2) db /\
    w_log (tick turns w).2 = w_log w ++ new /\ Forall (proper db) new.
Proof.
  intros Hk. destruct (tick_steps_custody turns w Hk) as ([Hm (new & El & Hnew)] & Hsaved & Ha).
  cbn in Ha. specialize (Ha (reflexivity _)).
  unfold tick. destruct (tick_steps turns (w, w_db w)) as [[e|[]] [w' saved]]; cbn in *.
  - split; [destruct Hsaved as [->|Hs]; [reflexivity|done]|]. by exists (w_db w'), new.
  - split; [done|]. by exists (w_db w'), new.
Qed.
End tick_custody.

(** ** Properties *)

Lemma leads_terminal s t : leads s t -> terminal_run s = true -> t = s.
Proof. intros [l Hl] Hs. destruct Hl as [|s t l u []]; [done|]. by rewrite terminal_no_step in *. Qed.

(** C2: runs only move forward.  Whatever the drivers, the evaluators, the clock
    and the plugins answer, a tick leaves every run there was, with the
    campaign, candidate, machine, cards, port and kind it was created with, in a
    status the state machine leads to from the one it had; a run that was over
    is as it was over; and every run the tick added left Pending by legal
    transitions. *)
Theorem tick_moves_runs_forward `{Env} `{!PluginLaws} (turns : nat) (w : world)
    (Hkept : kept (w_db w)) :
  (forall rid r, d_runs (w_db w) !! rid = Some r ->
     exists r', d_runs (w_db (tick turns w).2) !! rid = Some r' /\
       identity r' = identity r /\ leads (r_status r) (r_status r') /\
       (live_run r = false -> r_status r' = r_status r)) /\
  (forall rid r', d_runs (w_db (tick turns w).2) !! rid = Some r' ->
     d_runs (w_db w) !! rid = None -> leads Pending (r_status r')).
Proof.
  destruct (tick_custody turns w Hkept) as [[O N] _].
  split.
  - intros rid r (r' & Hr' & [S I _ _])%O. exists r'. split_and!; [done..|].
    intros Hl. apply leads_terminal; [done|]. by apply negb_false_iff.
  - intros rid r' Hr' Hn. apply (bo_status _ _ (N _ _ Hr' Hn)).
Qed.

(** C3: the platform reaches only for what it launched.  In a tick, committed
    or rolled back, no container is launched, stopped, removed or cleaned up
    for a run that measures production or an endpoint a policy serves. *)
Theorem tick_touches_only_its_own `{Env} `{!PluginLaws} (turns : nat) (w : world)
    (Hkept : kept (w_db w)) :
  exists new, w_log (tick turns w).2 = w_log w ++ new /\
    forall a rid r, a ∈ new -> touches a = Some rid ->
      d_runs (w_db w) !! rid = Some r \/
      d_runs (w_db (tick turns w).2) !! rid = Some r ->
      r_kind r <> BaselineRun /\ r_kind r <> External.
Proof.
  destruct (tick_custody turns w Hkept) as (_ & db & new & Mold & Mnew & El & Hnew).
  exists new. split; [done|]. intros a rid r Ha Ht Hr.
  destruct (proj1 (Forall_forall _ _) Hnew a Ha rid Ht) as (r' & Hr' & Ho).
  assert (not_ours r = false) as Hn.
  { assert (exists r2, d_runs db !! rid = Some r2 /\ follows rid r r2) as (r2 & H2 & [_ I _ _])
      by (destruct Hr as [Hr|Hr]; [apply (mo_old _ _ Mold)|apply (mo_old _ _ Mnew)]; done).
    assert (r2 = r') as -> by congruence. by rewrite <-(identity_ours _ _ I). }
  unfold not_ours in Hn. split; intros E; by rewrite E in Hn.
Qed.

Lemma kept_sample : kept (w_db (sample_world sample_db)).
Proof.
  intros rid r Hr. unfold sample_world, sample_db, insert_run in Hr. cbn in Hr.
  apply lookup_insert_Some in Hr as [[<- <-]|[_ Hr]]; [|done]. by split.
Qed.

Lemma tick_moves_runs_forward_witness :
  exists r', d_runs (w_db (tick 40 (sample_world sample_db)).2) !! 1 = Some r' /\
    leads Benching (r_status r').
Proof.
  destruct (tick_moves_runs_forward 40 (sample_world sample_db) kept_sample) as [Hold _].
  destruct (Hold 1 (sample_run 1 1 1 [0; 1; 2; 3] Benching) eq_refl) as (r' & Hr' & _ & Hl & _).
  exists r'. split; [exact Hr'|exact Hl].
Defined.

Lemma tick_touches_only_its_own_witness :
  exists new, w_log (tick 40 (sample_world sample_db)).2 = new /\
    length new = 3%nat /\
    forall a r, a ∈ new -> touches a = Some 1 -> d_runs sample_db !! 1 = Some r -> r_kind r <> External.
Proof.
  destruct (tick_touches_only_its_own 40 (sample_world sample_db) kept_sample) as (new & El & Hnew).
  exists new. split; [exact El|]. split.
  - change (w_log (sample_world sample_db) ++ new) with new in El. rewrite <-El. vm_compute. reflexivity.
  - intros a r Ha Ht Hr. exact (proj2 (Hnew a 1 r Ha Ht (or_introl Hr))).
Defined.
