(* ===== verification/PhasesRefined.v ===== *)
(** The worker implements the machine of [States]: in a tick every night goes on
    by at most one step, those that are over stay over, and no window has two. *)
From S2P Require Import Prelude Float Values Documents Space Validation Failures Logs Model States Packing.
From S2P Require Import Timing World Samples Occupancy Fleet Exclusive Finish Placement Nights Reserve.
From S2P Require Import Queue Pass Runs Advance Leases Clock Sessions Datasets Plan Ending Tenancy Tick.
#[local] Open Scope string_scope.
#[local] Open Scope list_scope.
#[local] Open Scope Z_scope.

(** ** Everything but the sessions' own step leaves the nights as they are *)
#[export] Hint Extern 2 (respects (on_db same_nights) (modify_db _)) =>
  apply respects_modify_db; intros ?; apply same_nights_rows; exact eq_refl : effects.
#[export] Hint Extern 2 (respects (on_db same_nights) (put_session _ _)) =>
  apply respects_modify_db; intros ?; apply put_session_nights; intros ?; exact eq_refl : effects.
#[export] Hint Extern 1 (respects (on_db same_nights) (put_machine _ _)) => unfold put_machine : effects.
#[export] Hint Extern 1 (respects (on_db same_nights) (put_campaign _ _)) => unfold put_campaign : effects.
#[export] Hint Extern 1 (respects (on_db same_nights) (put_candidate _ _)) => unfold put_candidate : effects.
#[export] Hint Extern 1 (respects (on_db same_nights) (put_node _ _)) => unfold put_node : effects.
#[export] Hint Extern 1 (respects (on_db same_nights) (add_node _ _)) => unfold add_node : effects.

Section calm.
Context `{Env}.

Lemma modify_nights (f : world -> world) : (forall w, w_db (f w) = w_db w) -> respects (on_db same_nights) (modify f).
Proof. intros Hf w. unfold on_db. cbn. rewrite Hf. reflexivity. Qed.
Hint Extern 2 (respects (on_db same_nights) (modify _)) => apply modify_nights; intros ?; exact eq_refl : effects.

Lemma put_run_nights rid f : respects (on_db same_nights) (put_run rid f).
Proof.
  apply respects_modify_db. intros db. unfold update_run.
  destruct (d_runs db !! rid); [by apply same_nights_rows|reflexivity].
Qed.
Hint Resolve put_run_nights : effects.
Lemma event_nights kind cid rid to reason : respects (on_db same_nights) (add_event kind cid rid to reason).
Proof. unfold add_event, now. respects_walk. Qed.
Lemma new_candidate_nights cid cfg hash st err kind b rep :
  respects (on_db same_nights) (new_candidate cid cfg hash st err kind b rep).
Proof. unfold new_candidate, add_candidate. respects_walk. Qed.
Lemma spec_for_nights rid : respects (on_db same_nights) (_spec_for rid).
Proof. unfold _spec_for, get_run, get_campaign, get_candidate. respects_walk. Qed.
Lemma record_sample_nights rid f : respects (on_db same_nights) (record_sample rid f).
Proof. unfold record_sample, get_run, now. respects_walk. Qed.
Hint Resolve event_nights new_candidate_nights spec_for_nights record_sample_nights : effects.

Lemma transition_nights rid target : respects (on_db same_nights) (_transition rid target).
Proof. unfold _transition, get_run. respects_walk. Qed.
Lemma note_placement_nights rid waiting wf : respects (on_db same_nights) (_note_placement rid waiting wf).
Proof. unfold _note_placement, get_run, now, event_. respects_walk. Qed.
Lemma reclaim_nights rid h s : respects (on_db same_nights) (_reclaim_orphan_port rid h s).
Proof. unfold _reclaim_orphan_port, get_run, logged, event_. respects_walk. Qed.
Lemma release_idle_nights mid : respects (on_db same_nights) (_release_machine_if_idle mid).
Proof. unfold _release_machine_if_idle. respects_walk. Qed.
Hint Resolve transition_nights note_placement_nights reclaim_nights release_idle_nights : effects.
Lemma release_machines_nights rid : respects (on_db same_nights) (_release_run_machines rid).
Proof. unfold _release_run_machines, get_run. respects_walk. Qed.
Lemma save_log_nights rid log_text : respects (on_db same_nights) (_save_run_log rid log_text).
Proof. unfold _save_run_log, get_run, logged. respects_walk. Qed.
Hint Resolve release_machines_nights save_log_nights : effects.
Lemma capture_log_nights rid : respects (on_db same_nights) (_capture_engine_log rid).
Proof. unfold _capture_engine_log, get_run, logged, _read_engine_log, attach. respects_walk. Qed.
Lemma requeue_nights rid : respects (on_db same_nights) (_requeue_if_infrastructure rid).
Proof. unfold _requeue_if_infrastructure, get_run, event_. respects_walk. Qed.
Lemma begin_teardown_nights rid : respects (on_db same_nights) (_begin_teardown rid).
Proof. unfold _begin_teardown, stop_container, logged, attach, get_run, now. respects_walk. Qed.
Hint Resolve capture_log_nights requeue_nights begin_teardown_nights : effects.

Lemma finish_nights depth : forall rid status error, respects (on_db same_nights) (_finish depth rid status error).
Proof.
  induction depth as [|depth IH]; intros rid status error; cbn [_finish]; [respects_walk|].
  unfold stop_benchmark, get_run, logged, now. respects_walk.
Qed.
Lemma fail_nights rid cls error : respects (on_db same_nights) (_fail rid cls error).
Proof. unfold _fail, finish, get_run. pose proof (finish_nights DEPTH). respects_walk. Qed.
Lemma finish_all_nights rid status error : respects (on_db same_nights) (finish rid status error).
Proof. apply finish_nights. Qed.
Hint Resolve fail_nights finish_all_nights : effects.

(** *** A run's step *)
Lemma capture_failure_nights rid h cls error : respects (on_db same_nights) (_capture_failure rid h cls error).
Proof. unfold _capture_failure, logged. respects_walk. Qed.
Lemma startup_nights r h : respects (on_db same_nights) (_startup_timed_out r h).
Proof. unfold _startup_timed_out, logged, now. respects_walk. Qed.
Lemma health_outcome_nights rid m : respects (on_db same_nights) (_health_outcome rid m).
Proof. unfold _health_outcome, get_run. respects_walk. Qed.
Lemma record_result_nights rid source o : respects (on_db same_nights) (_record_result rid source o).
Proof. unfold _record_result, add_result, get_run, get_campaign, event_. respects_walk. Qed.
Lemma start_benchmark_nights rid : respects (on_db same_nights) (start_benchmark rid).
Proof. unfold start_benchmark, submit, get_run. respects_walk. Qed.
Lemma cancel_nights r : respects (on_db same_nights) (cancel_benchmark r).
Proof. unfold cancel_benchmark. respects_walk. Qed.
Hint Resolve capture_failure_nights startup_nights health_outcome_nights record_result_nights
  start_benchmark_nights cancel_nights : effects.

Lemma advance_baseline_nights rid : respects (on_db same_nights) (_advance_baseline rid).
Proof. unfold _advance_baseline, get_run, get_campaign, now, event_. respects_walk. Qed.
Lemma advance_pending_nights rid sp : respects (on_db same_nights) (_advance_pending rid sp).
Proof. unfold _advance_pending, launch_nodes, _record_node_launches, get_run, event_, now. respects_walk. Qed.
Lemma advance_starting_nights rid h : respects (on_db same_nights) (_advance_starting rid h).
Proof. unfold _advance_starting, _snapshot_environment, get_run, get_campaign, logged, event_. respects_walk. Qed.
Lemma advance_health_nights rid h : respects (on_db same_nights) (_advance_health rid h).
Proof. unfold _advance_health, get_run, get_campaign. respects_walk. Qed.
Lemma advance_benching_nights rid : respects (on_db same_nights) (_advance_benching rid).
Proof. unfold _advance_benching, get_run. respects_walk. Qed.
Lemma advance_serving_nights rid h : respects (on_db same_nights) (_advance_serving rid h).
Proof. unfold _advance_serving, _fail_restarted, get_run, logged. respects_walk. Qed.
Hint Resolve advance_baseline_nights advance_pending_nights advance_starting_nights advance_health_nights
  advance_benching_nights advance_serving_nights : effects.
Lemma advance_one_nights rid : respects (on_db same_nights) (_advance_one rid).
Proof. unfold _advance_one, attach, get_run. respects_walk. Qed.
Hint Resolve advance_one_nights : effects.

(** *** The steps of the tick *)
Lemma advance_runs_nights : respects (on_db same_nights) _advance_runs.
Proof. unfold _advance_runs. respects_walk. Qed.
Lemma enforce_nights : respects (on_db same_nights) _enforce_windows.
Proof. unfold _enforce_windows, _enforce_one, get_campaign, now, event_. respects_walk. Qed.
Lemma stop_requests_nights : respects (on_db same_nights) _process_stop_requests.
Proof. unfold _process_stop_requests, _stop_one, get_run, event_. respects_walk. Qed.
Lemma release_paused_nights : respects (on_db same_nights) _release_queued_while_paused.
Proof.
  unfold _release_queued_while_paused, _release_to_queue, queued_for_cards, logged, attach,
    get_machine, get_run, event_. respects_walk.
Qed.
Lemma leases_nights : respects (on_db same_nights) _advance_leases.
Proof.
  unfold _advance_leases, _advance_lease, _begin_drain, _advance_drain, logged, get_machine, now, event_.
  respects_walk.
Qed.
Lemma plan_nights : respects (on_db same_nights) _plan.
Proof. unfold _plan, _plan_campaign, _plan_point, event_. respects_walk. Qed.
Lemma reap_nights : respects (on_db same_nights) _reap_teardowns.
Proof.
  unfold _reap_teardowns, _reap_one, _confirm_teardown, _give_up, _quarantine_machine, stuck_names,
    logged, attach, get_run, get_machine, now, event_. respects_walk.
Qed.
Lemma clocks_nights : respects (on_db same_nights) _advance_campaign_schedules.
Proof. unfold _advance_campaign_schedules, _advance_schedule, get_campaign, now, event_. respects_walk. Qed.
Lemma pins_nights : respects (on_db same_nights) _advance_dataset_pins.
Proof.
  unfold _advance_dataset_pins, _advance_pin, _poll_dataset_build, _choose_dataset_build,
    find_profile, _pin_dataset, _conclude_no_dataset, get_campaign, now, event_. respects_walk.
Qed.
Lemma capacity_nights : respects (on_db same_nights) _refresh_k8s_capacity.
Proof. unfold _refresh_k8s_capacity, logged, now. respects_walk. Qed.
Lemma refresh_nights : respects (on_db same_nights) _refresh_datasets.
Proof. unfold _refresh_datasets, _refresh_one, logged, now, event_. respects_walk. Qed.
Lemma plugin_steps_nights `{!PluginLaws} : respects (on_db same_nights) _run_plugin_steps.
Proof.
  unfold _run_plugin_steps. apply respects_for_each; [typeclasses eauto|].
  intros step Hs w. unfold bind, db_, gets.
  destruct (step (w_db w)) as [e|db'] eqn:E; [cbn; reflexivity|]. by eapply step_lawful.
Qed.

(** *** The queue *)
Lemma add_repeats_nights n c source hash kind : respects (on_db same_nights) (add_repeats n c source hash kind).
Proof. induction n as [|n IH]; cbn [add_repeats]; unfold event_; respects_walk. Qed.
Hint Resolve add_repeats_nights : effects.
Lemma maybe_finish_nights cid : respects (on_db same_nights) (_maybe_finish_campaign cid).
Proof.
  unfold _maybe_finish_campaign, _schedule_confirmations, _schedule_verification, _confirm_one,
    _verify_one, _add_baseline_candidate, get_candidate, get_campaign, event_. respects_walk.
Qed.
Lemma create_run_nights c m cd cards plan sp dp ng :
  respects (on_db same_nights) (_create_run c m cd cards plan sp dp ng).
Proof. unfold _create_run, add_run, add_node, event_, now. respects_walk. Qed.
Hint Resolve maybe_finish_nights create_run_nights : effects.
Lemma place_on_first_nights c pending blocked busy ms :
  respects (on_db same_nights) (place_on_first c pending blocked busy ms).
Proof. revert busy. induction ms as [|m ms IH]; intros busy; cbn [place_on_first]; respects_walk. Qed.
Hint Resolve place_on_first_nights : effects.
Lemma start_one_nights cid blocked : respects (on_db same_nights) (_start_one cid blocked).
Proof.
  unfold _start_one, _start_gang, _retire_in_place, get_campaign, event_. respects_walk.
  apply filter_m_respects; [typeclasses eauto|]. intros cd. unfold _window_allows_stage, now. respects_walk.
Qed.
Lemma take_ticket_nights b waiter key label cid : respects (on_db same_nights) (take_ticket b waiter key label cid).
Proof. unfold take_ticket, now. respects_walk. Qed.
Hint Resolve take_ticket_nights : effects.
Lemma list_waiters_nights : respects (on_db same_nights) list_waiters.
Proof.
  unfold list_waiters, open_book, list_campaign, list_plugin, list_session,
    _ensure_relaunch_baseline, _add_baseline_candidate, event_, now. respects_walk.
Qed.
Lemma reserve_on_first_nights c p sid needed blocked busy ms :
  respects (on_db same_nights) (reserve_on_first c p sid needed blocked busy ms).
Proof.
  revert busy. induction ms as [|m ms IH]; intros busy; cbn [reserve_on_first]; unfold event_; respects_walk.
Qed.
Lemma schedule_nights `{!PluginLaws} turns : respects (on_db same_nights) (_schedule turns).
Proof.
  apply (schedule_frame same_nights); try done.
  - apply list_waiters_nights.
  - intros e blocked Hl. unfold turn, lawful_entry in *. destruct (en_item e) as [cid|wt|sid cid].
    + apply start_one_nights.
    + intros w. unfold bind, db_, gets. destruct (Hl (w_db w) blocked) as (_ & _ & Hn).
      by destruct (w_try_admit wt (w_db w) blocked) as [[[ex|adm] busy] db'].
    + pose proof reserve_on_first_nights. unfold try_reserve. respects_walk.
  - intros b e. unfold served_ticket, now. respects_walk.
  - intros p. unfold record_all, record. respects_walk.
  - intros b. unfold sweep. respects_walk.
Qed.

(** *** Logs *)
Lemma store_log_nights sid log_text : respects (on_db same_nights) (_store_policy_log sid log_text).
Proof. unfold _store_policy_log, get_session, logged. respects_walk. Qed.
Hint Resolve store_log_nights : effects.
Lemma snapshots_nights : respects (on_db same_nights) _snapshot_logs.
Proof.
  unfold _snapshot_logs, save_one_log, snapshot_log, _read_engine_log, attach, get_session, get_run, logged.
  respects_walk.
Qed.

Lemma before_nights `{!PluginLaws} : respects (on_db same_nights) steps_before.
Proof.
  unfold steps_before. repeat (apply respects_bind; [typeclasses eauto| |intros _]).
  all: auto using plugin_steps_nights, clocks_nights, leases_nights, stop_requests_nights, release_paused_nights,
    pins_nights, capacity_nights, refresh_nights, plan_nights.
Qed.
Lemma after_nights `{!PluginLaws} turns : respects (on_db same_nights) (steps_after turns).
Proof.
  unfold steps_after. repeat (apply respects_bind; [typeclasses eauto| |intros _]).
  all: auto using schedule_nights, advance_runs_nights, enforce_nights, snapshots_nights, reap_nights.
Qed.
End calm.

(** ** What the sessions' step does between two phases *)
Lemma calm_kept {A} (m : W A) : respects (on_db same_nights) m -> respects (on_db nights_kept) m.
Proof. intros Hm w. apply (Hm w). Qed.

#[export] Hint Extern 1 (respects (on_db nights_kept) (put_contender _ _)) =>
  apply respects_modify_db; intros ?; apply nights_kept_rows; exact eq_refl : effects.
#[export] Hint Extern 1 (respects (on_db nights_kept) (put_key _ _)) =>
  apply respects_modify_db; intros ?; apply nights_kept_rows; exact eq_refl : effects.
#[export] Hint Extern 2 (respects (on_db nights_kept) (modify_db _)) =>
  apply respects_modify_db; intros ?; apply nights_kept_rows; exact eq_refl : effects.
#[export] Hint Extern 2 (respects (on_db nights_kept) (put_session _ _)) =>
  apply respects_modify_db; intros ?; apply put_session_nights; intros ?; exact eq_refl : effects.
#[export] Hint Extern 3 (respects (on_db nights_kept) (finish _ _ _)) =>
  apply calm_kept, finish_all_nights : effects.
#[export] Hint Extern 3 (respects (on_db nights_kept) (add_event _ _ _ _ _)) =>
  apply calm_kept, event_nights : effects.
#[export] Hint Extern 3 (respects (on_db nights_kept) (event_ _ _ _)) =>
  apply calm_kept, event_nights : effects.
#[export] Hint Extern 3 (respects (on_db nights_kept) (_release_machine_if_idle _)) =>
  apply calm_kept, release_idle_nights : effects.
#[export] Hint Extern 3 (respects (on_db nights_kept) (_store_policy_log _ _)) =>
  apply calm_kept, store_log_nights : effects.
#[export] Hint Extern 3 (respects (on_db nights_kept) (put_machine _ _)) => unfold put_machine : effects.
#[export] Hint Extern 3 (respects (on_db nights_kept) (put_campaign _ _)) => unfold put_campaign : effects.

Section kept.
Context `{Env}.

Lemma workload_state_kept s m : respects (on_db nights_kept) (_workload_state s m).
Proof. unfold _workload_state, logged. respects_walk. Qed.
Lemma workload_failure_kept s m : respects (on_db nights_kept) (_workload_failure s m).
Proof. unfold _workload_failure, logged. respects_walk. Qed.
Lemma death_logs_kept sid : respects (on_db nights_kept) (_capture_death_logs sid).
Proof. unfold _capture_death_logs, get_session, logged. respects_walk. Qed.
Lemma teardown_workload_kept sid : respects (on_db nights_kept) (_teardown_workload sid).
Proof. unfold _teardown_workload, _save_policy_log, get_session, logged. respects_walk. Qed.
Lemma kill_runs_kept sid reason : respects (on_db nights_kept) (_kill_session_runs sid reason).
Proof. unfold _kill_session_runs, kill_one, get_run. respects_walk. Qed.
Lemma end_campaign_kept sid : respects (on_db nights_kept) (_end_campaign_of sid).
Proof. unfold _end_campaign_of, get_session. respects_walk. Qed.
Lemma follow_window_kept sid hard : respects (on_db nights_kept) (_follow_window sid hard).
Proof. unfold _follow_window, get_session, now. respects_walk. Qed.
Lemma resolve_one_kept sid c id : respects (on_db nights_kept) (resolve_one sid c id).
Proof.
  unfold resolve_one, get_session, get_contender, contender_is, contender_skip, now. respects_walk.
  all: apply respects_modify_db; intros db; apply put_session_nights; intros s; by case_match.
Qed.
Lemma launch_validation_kept sid c k cfg : respects (on_db nights_kept) (_launch_validation_run sid c k cfg).
Proof.
  unfold _launch_validation_run, add_validation, add_run, new_candidate, add_candidate, contender_skip,
    contender_is, get_session, get_machine, now.
  respects_walk.
Qed.
Hint Resolve workload_state_kept workload_failure_kept launch_validation_kept : effects.
Lemma launch_contender_kept sid c m k : respects (on_db nights_kept) (launch_contender sid c m k).
Proof.
  unfold launch_contender, get_session, contender_skip, contender_is, now. respects_walk.
Qed.
Hint Resolve launch_contender_kept : effects.
Lemma launch_queue_kept sid c m queue : respects (on_db nights_kept) (launch_queue sid c m queue).
Proof. induction queue as [|k queue IH]; cbn [launch_queue]; respects_walk. Qed.
Hint Resolve launch_queue_kept : effects.
Lemma launch_validations_kept sid c m pending want :
  respects (on_db nights_kept) (_launch_validations sid c m pending want).
Proof. unfold _launch_validations, get_session, contender_skip, now. respects_walk. Qed.
End kept.
#[export] Hint Resolve workload_state_kept workload_failure_kept death_logs_kept teardown_workload_kept
  kill_runs_kept end_campaign_kept follow_window_kept resolve_one_kept launch_validations_kept : effects.

(** ** A session's handler takes at most one step *)
Definition at_ (V : gmap Z night) (w : world) : Prop := nights (w_db w) = V.

(** The nights after at most one step of session [sid]'s. *)
Definition turned (sid : Z) (V V' : gmap Z night) : Prop :=
  V' = V \/ exists n n', V !! sid = Some n /\ night_step n n' /\ V' = <[sid := n']> V.

Definition lands (sid : Z) (V : gmap Z night) (w : world) : Prop := exists V', turned sid V V' /\ at_ V' w.

Definition enter (st : PolicySessionStatus) (n : night) : night :=
  Night (n_id n) (n_campaign n) (n_window n) st (n_broken n).
Definition note (broken : bool) (n : night) : night :=
  Night (n_id n) (n_campaign n) (n_window n) (n_phase n) (n_broken n || broken).

Lemma noted_class old new : negb (String.eqb (or_string old new) "") =
  negb (String.eqb old "") || negb (String.eqb new "").
Proof. unfold or_string. by destruct (String.eqb old "") eqn:E; rewrite ?E. Qed.

Lemma alter_as_insert (g : night -> night) sid (V : gmap Z night) n :
  V !! sid = Some n -> alter g sid V = <[sid := g n]> V.
Proof.
  intros Hn. apply map_eq. intros k. destruct (decide (k = sid)) as [->|Hk].
  - by rewrite lookup_alter_eq, lookup_insert_eq, Hn.
  - by rewrite lookup_alter_ne, lookup_insert_ne.
Qed.

Lemma turned_refl sid V : turned sid V V.
Proof. by left. Qed.
Lemma turned_alter sid V n g : V !! sid = Some n -> night_step n (g n) -> turned sid V (alter g sid V).
Proof. intros Hn Hs. right. exists n, (g n). by rewrite (alter_as_insert g sid V n). Qed.
Lemma alter_alter_night (f g : night -> night) sid (V : gmap Z night) :
  alter f sid (alter g sid V) = alter (fun n => f (g n)) sid V.
Proof.
  apply map_eq. intros k. destruct (decide (k = sid)) as [->|Hk].
  - rewrite !lookup_alter_eq. by destruct (V !! sid).
  - by rewrite !lookup_alter_ne.
Qed.

Section goes.
Context `{Env} (sid : Z).

(** A handler that started where the nights were [V1], a step or none after [V]. *)
Definition goes {A} (V V1 : gmap Z night) (m : W A) : Prop :=
  triple (at_ V1) m (fun _ => lands sid V) (fun _ => lands sid V).

Lemma kept_at {A} (m : W A) V : respects (on_db nights_kept) m -> triple (at_ V) m (fun _ => at_ V) (fun _ => at_ V).
Proof.
  intros Hm w Hw. specialize (Hm w). unfold on_db, nights_kept, at_ in *.
  destruct (m w) as [[e|a] w']; cbn in *; congruence.
Qed.

Lemma at_lands {A} (m : W A) V V1 : turned sid V V1 ->
  triple (at_ V1) m (fun _ => at_ V1) (fun _ => at_ V1) -> goes V V1 m.
Proof. intros Ht Hm. eapply triple_weaken; [exact Hm|done|..]; intros ? w Hw; by exists V1. Qed.

Lemma goes_kept {A} (m : W A) V V1 : turned sid V V1 -> respects (on_db nights_kept) m -> goes V V1 m.
Proof. intros Ht Hm. apply at_lands; [done|]. by apply kept_at. Qed.

Lemma goes_ret {A} (a : A) V V1 : turned sid V V1 -> goes V V1 (ret a).
Proof. intros Ht. apply goes_kept; [done|]. apply respects_ret. typeclasses eauto. Qed.

(** What changes no night, then the rest. *)
Lemma goes_bind {A B} (m : W A) (f : A -> W B) V V1 :
  turned sid V V1 -> respects (on_db nights_kept) m -> (forall a, goes V V1 (f a)) -> goes V V1 (bind m f).
Proof.
  intros Ht Hm Hf. eapply triple_bind; [|exact Hf].
  eapply triple_weaken; [apply (kept_at _ V1 Hm)|done|done|]. intros e w Hw. by exists V1.
Qed.

(** A write of the session's row, then the rest. *)
Lemma goes_put {B} f g (k : unit -> W B) V V1 :
  (forall s, night_of (f s) = g (night_of s)) -> goes V (alter g sid V1) (k tt) ->
  goes V V1 (bind (put_session sid f) k).
Proof.
  intros Hf Hk. eapply (triple_bind _ _ _ (fun _ => at_ (alter g sid V1))).
  - intros w Hw. unfold put_session, modify_db, modify, at_ in *. rewrite <-Hw.
    exact (alter_night sid f g (w_db w) Hf).
  - by intros [].
Qed.

(** Reading the session's own row. *)
Lemma goes_get {B} (k : policy_session -> W B) V V1 :
  turned sid V V1 ->
  (forall s, V1 !! sid = Some (night_of s) -> goes V V1 (k s)) -> goes V V1 (bind (get_session sid) k).
Proof.
  intros Ht Hk w Hw. unfold get_session, bind at 1, bind at 1, db_, gets.
  destruct (d_sessions (w_db w) !! sid) as [s|] eqn:Es; cbn [expect]; [|by exists V1].
  unfold ret. apply (Hk s); [|done]. unfold at_, nights in Hw. by rewrite <-Hw, lookup_fmap, Es.
Qed.
End goes.

Ltac settled := solve [eauto with effects typeclass_instances | respects_walk].

Ltac goes_step :=
  lazymatch goal with
  | |- goes _ _ _ (bind (get_session _) _) => apply goes_get; [try done|intros ? ?]
  | |- goes _ _ _ (bind (put_session _ _) _) => eapply goes_put
  | |- goes _ _ _ (bind _ _) => apply goes_bind; [try done|settled|intros ?]
  | |- goes _ _ _ (match ?x with _ => _ end) => destruct x eqn:?
  | |- goes _ _ _ (ret _) => apply goes_ret; try done
  | |- goes _ _ _ _ => apply goes_kept; [try done|settled]
  end.

Section handlers.
Context `{Env} (sid : Z).

Lemma terminate_goes V V1 status error cls :
  turned sid V V1 ->
  turned sid V (alter (fun n => enter status (note (negb (String.eqb cls "")) n)) sid V1) ->
  goes sid V V1 (_terminate sid status error cls).
Proof.
  intros H1 H2. unfold _terminate. goes_step.
  apply (goes_put _ _ (fun n => enter status (note (negb (String.eqb cls "")) n))).
  { intros s. unfold night_of, enter, note. cbn. by rewrite noted_class. }
  unfold now, get_session. repeat goes_step.
Qed.

(** Steps built of [enter] and [note]. *)
Lemma turned_step V n g :
  V !! sid = Some n -> (forall n, n_id (g n) = n_id n /\ n_campaign (g n) = n_campaign n /\ n_window (g n) = n_window n) ->
  phase_step (state_of n) (state_of (g n)) -> turned sid V (alter g sid V).
Proof. intros Hn Hg Hs. apply (turned_alter sid V n); [done|]. destruct (Hg n) as (? & ? & ?). by split_and!. Qed.

Lemma put_failure_night cls error s :
  night_of (s <| ps_failure_class := or_string (ps_failure_class s) cls |> <| ps_error := error s |>)
  = note (negb (String.eqb cls "")) (night_of s).
Proof. unfold night_of, note. cbn. by rewrite noted_class. Qed.

Lemma note_false (V : gmap Z night) : alter (note false) sid V = V.
Proof.
  apply map_eq. intros k. destruct (decide (k = sid)) as [->|Hk]; [|by rewrite lookup_alter_ne].
  rewrite lookup_alter_eq. destruct (V !! sid) as [n|]; [|done]. unfold note. cbn.
  rewrite orb_false_r. by destruct n.
Qed.

Lemma note_noted (V : gmap Z night) n : V !! sid = Some n -> n_broken n = true -> alter (note true) sid V = V.
Proof.
  intros Hn Hb. rewrite (alter_as_insert _ sid V n Hn). apply insert_id. rewrite Hn. f_equal.
  destruct n. cbn in *. unfold note. cbn. by rewrite Hb.
Qed.

Lemma note_turned V n b : V !! sid = Some n -> under_way (n_phase n) = true -> turned sid V (alter (note b) sid V).
Proof.
  intros Hn Hu. destruct b; [|left; apply note_false].
  destruct (n_broken n) eqn:Hb; [left; by apply (note_noted V n)|].
  apply (turned_step V n); [done|done|]. unfold state_of, note. cbn. rewrite Hb. by constructor.
Qed.

Lemma fail_toward_goes V n cls error :
  V !! sid = Some n -> under_way (n_phase n) = true ->
  phase_step (state_of n) (Validating, n_broken n || negb (String.eqb cls "")) ->
  goes sid V V (_fail_toward_validation sid cls error).
Proof.
  intros Hn Hu Hs. unfold _fail_toward_validation.
  goes_step; [apply turned_refl|]. goes_step; [apply turned_refl|].
  apply (goes_put _ _ (note (negb (String.eqb cls "")))); [apply put_failure_night|].
  pose proof (note_turned V n (negb (String.eqb cls "")) Hn Hu) as H1.
  goes_step. goes_step.
  apply (goes_put _ _ (enter Validating)); [done|]. rewrite alter_alter_night.
  apply goes_kept; [|auto with effects].
  apply (turned_step V n); [done|done|]. exact Hs.
Qed.

Lemma begin_finalizing_goes V n b c reason :
  V !! sid = Some n -> n_phase n = Searching ->
  goes sid V (alter (note b) sid V) (_begin_finalizing sid c reason).
Proof.
  intros Hn Hp. pose proof (note_turned V n b Hn ltac:(by rewrite Hp)) as H1.
  unfold _begin_finalizing, now. goes_step. goes_step.
  apply (goes_put _ _ (enter Finalizing)); [done|]. rewrite alter_alter_night.
  apply goes_kept; [|auto with effects]. apply (turned_step V n); [done|done|].
  unfold state_of. rewrite Hp. cbn. constructor. by intros ->.
Qed.

Lemma starting_goes V n c m :
  V !! sid = Some n -> n_phase n = Starting -> goes sid V V (_advance_starting_session sid c m).
Proof.
  intros Hn Hp. pose proof (turned_refl sid V) as H0.
  assert (forall cls error, goes sid V V (_fail_toward_validation sid cls error)) as Hfail.
  { intros cls error. apply (fail_toward_goes V n); [done|by rewrite Hp|].
    unfold state_of. rewrite Hp. apply step_cannot_start. by intros ->. }
  unfold _advance_starting_session, now. goes_step. case_match.
  - apply (goes_put _ _ (enter Searching)); [done|]. apply goes_kept; [|auto with effects].
    apply (turned_step V n); [done|done|]. unfold state_of. rewrite Hp. constructor.
  - repeat (goes_step || apply Hfail).
Qed.

Lemma searching_goes V n c m :
  V !! sid = Some n -> n_phase n = Searching -> goes sid V V (_advance_searching sid c m).
Proof.
  intros Hn Hp. pose proof (turned_refl sid V) as H0.
  assert (forall cls error, cls <> "" -> goes sid V V (_fail_toward_validation sid cls error)) as Hfail.
  { intros cls error Hc. apply (fail_toward_goes V n); [done|by rewrite Hp|].
    apply String.eqb_neq in Hc. unfold state_of. rewrite Hp, Hc, orb_true_r. by constructor. }
  assert (forall b reason, goes sid V (alter (note b) sid V) (_begin_finalizing sid c reason)) as Hfin.
  { intros b reason. by apply (begin_finalizing_goes V n). }
  assert (forall reason, goes sid V V (_begin_finalizing sid c reason)) as Hfin'.
  { intros reason. rewrite <-(note_false V) at 2. apply Hfin. }
  unfold _advance_searching, now. goes_step. goes_step. case_match.
  { apply (goes_put _ _ (note false)); [by intros s'; unfold night_of, note; cbn; rewrite orb_false_r|].
    rewrite note_false. by apply Hfail. }
  goes_step. case_match.
  { apply (goes_put _ _ (note false)); [by intros s'; unfold night_of, note; cbn; rewrite orb_false_r|].
    rewrite note_false. by apply Hfail. }
  case_match; [apply Hfin'|]. case_match.
  { apply (goes_put _ _ (note true)); [apply put_failure_night|]. apply Hfin. }
  goes_step. case_match; [apply Hfin'|].
  unfold _idle_watchdog, now. goes_step. goes_step. case_match; [|by apply goes_ret].
  goes_step. do 2 (case_match; [by apply goes_ret|]).
  apply (goes_put _ _ (note false)); [by intros s'; unfold night_of, note; cbn; rewrite orb_false_r|].
  rewrite note_false. goes_step. case_match; [apply Hfin'|by apply goes_ret].
Qed.

Lemma finalizing_goes V n c m :
  V !! sid = Some n -> n_phase n = Finalizing -> goes sid V V (_advance_finalizing sid c m).
Proof.
  intros Hn Hp. pose proof (turned_refl sid V) as H0.
  assert (forall b, goes sid V (alter (note b) sid V)
    (put_session sid (fun s => s <| ps_status := Validating |>) ;;;
     event_ "policy_session_validating" (Some (c_id c)) None)) as Hlast.
  { intros b. apply (goes_put _ _ (enter Validating)); [done|]. rewrite alter_alter_night.
    apply goes_kept; [|auto with effects]. apply (turned_step V n); [done|done|].
    unfold state_of. rewrite Hp. cbn. constructor. by intros ->. }
  unfold _advance_finalizing, now. goes_step. do 3 goes_step. case_match; [by apply goes_ret|].
  goes_step. case_match.
  - eapply (triple_bind _ _ _ (fun _ => at_ (alter (note true) sid V))).
    + intros w Hw. unfold put_session, modify_db, modify, at_ in *. rewrite <-Hw.
      apply (alter_night sid). intros s'. apply put_failure_night.
    + intros []. apply Hlast.
  - apply goes_bind; [done|apply respects_ret; typeclasses eauto|]. intros [].
    rewrite <-(note_false V) at 2. apply Hlast.
Qed.

Lemma validating_goes V n c m :
  V !! sid = Some n -> n_phase n = Validating -> goes sid V V (_advance_validating sid c m).
Proof.
  intros Hn Hp. pose proof (turned_refl sid V) as H0. unfold _advance_validating.
  do 3 goes_step. goes_step. case_match; [by apply goes_ret|]. goes_step. case_match; [by apply goes_ret|].
  goes_step. apply terminate_goes; [done|]. apply (turned_step V n); [done|done|].
  assert (night_of s = n) as <- by congruence. unfold state_of, enter, note. cbn. rewrite orb_false_r.
  destruct (String.eqb (ps_failure_class s) ""); cbn; unfold night_of in Hp; cbn in Hp; rewrite Hp;
    [apply (step_closed Validating false)|apply (step_closed Validating true)]; done.
Qed.

(** ** A handler that may leave the rest of the step to another *)
Definition may_go {A} (Q : A -> Prop) (V : gmap Z night) (m : W (option A)) : Prop :=
  triple (at_ V) m (fun r w => match r with Some a => at_ V w /\ Q a | None => lands sid V w end)
    (fun _ => lands sid V).

Lemma may_bind {A B} (Q : B -> Prop) V (m : W A) (f : A -> W (option B)) :
  respects (on_db nights_kept) m -> (forall a, may_go Q V (f a)) -> may_go Q V (bind m f).
Proof.
  intros Hm Hf. eapply triple_bind; [|exact Hf].
  eapply triple_weaken; [apply (kept_at _ V Hm)|done|done|]. intros e w Hw. exists V. by split; [left|].
Qed.
Lemma may_bind_with {A B} (P : A -> Prop) (Q : B -> Prop) V (m : W A) (f : A -> W (option B)) :
  respects (on_db nights_kept) m -> answers P m -> (forall a, P a -> may_go Q V (f a)) ->
  may_go Q V (bind m f).
Proof.
  intros Hm Ha Hf w Hw. pose proof (kept_at _ V Hm w Hw) as Hk. specialize (Ha w). unfold bind.
  destruct (m w) as [[e|a] w']; cbn in *; [exists V; by split; [left|]|]. by apply Hf.
Qed.
Lemma may_end {A} (Q : A -> Prop) V (m : W unit) : goes sid V V m -> may_go Q V (m ;;; ret None).
Proof.
  intros Hm. eapply triple_bind; [exact Hm|]. by intros [] w Hw.
Qed.
Lemma may_ret {A} (Q : A -> Prop) V a : Q a -> may_go Q V (ret (Some a)).
Proof. intros HQ w Hw. by split. Qed.
Lemma may_none {A} (Q : A -> Prop) V : may_go Q V (ret None).
Proof. intros w Hw. exists V. by split; [left|]. Qed.
Lemma may_get {A} (Q : A -> Prop) V (k : policy_session -> W (option A)) :
  (forall s, V !! sid = Some (night_of s) -> may_go Q V (k s)) -> may_go Q V (bind (get_session sid) k).
Proof.
  intros Hk w Hw. unfold get_session, bind at 1, bind at 1, db_, gets.
  destruct (d_sessions (w_db w) !! sid) as [s|] eqn:Es; cbn [expect];
    [|exists V; by split; [left|]].
  unfold ret. apply (Hk s); [|done]. unfold at_, nights in Hw. by rewrite <-Hw, lookup_fmap, Es.
Qed.

Lemma live_under_way st : terminal_session st = false -> st <> SessPending -> under_way st = true.
Proof. by destruct st. Qed.

Lemma refused_goes V n error cls :
  V !! sid = Some n -> n_phase n = SessPending -> cls <> "" ->
  goes sid V V (_terminate sid SessFailed error cls).
Proof.
  intros Hn Hp Hc. apply terminate_goes; [apply turned_refl|]. apply (turned_step V n); [done|done|].
  apply String.eqb_neq in Hc. unfold state_of. cbn. rewrite Hp, Hc, orb_true_r. constructor.
Qed.

Lemma closed_goes V n s error :
  V !! sid = Some n -> night_of s = n -> under_way (n_phase n) = true ->
  goes sid V V (_terminate sid (if String.eqb (ps_failure_class s) "" then SessDone else SessFailed) error "").
Proof.
  intros Hn Hs Hu. apply terminate_goes; [apply turned_refl|]. apply (turned_step V n); [done|done|].
  unfold state_of, enter, note. cbn. rewrite orb_false_r. rewrite <-Hs in *. cbn in *.
  destruct (String.eqb (ps_failure_class s) ""); cbn;
    [apply (step_closed _ false)|apply (step_closed _ true)]; done.
Qed.

Lemma begin_step_goes V n :
  V !! sid = Some n -> terminal_session (n_phase n) = false ->
  may_go (fun r => r.2 = n_phase n) V (begin_step sid).
Proof.
  intros Hn Hl. pose proof (turned_refl sid V) as H0.
  assert (goes sid V V (_terminate sid Aborted "campaign deleted" "")) as Hgone.
  { apply terminate_goes; [done|]. apply (turned_step V n); [done|done|].
    unfold state_of. cbn. rewrite orb_false_r. by constructor. }
  unfold begin_step, now. apply may_get. intros s Es. assert (night_of s = n) as Hs by congruence.
  apply may_bind; [settled|]. intros db. case_match; [|by apply may_end].
  assert (ps_status s = n_phase n) as Hst by by rewrite <-Hs.
  case_match.
  { apply may_bind; [settled|]. intros _. apply may_end. apply terminate_goes; [done|].
    apply (turned_step V n); [done|done|]. unfold state_of. cbn. rewrite orb_false_r. by constructor. }
  destruct (hard_deadline _ _) as [t|].
  2: { apply (may_bind_with (fun over => over = false)); [settled|by apply answers_ret|].
       intros ? ->. apply may_bind; [settled|]. intros _.
       by apply may_ret. }
  apply (may_bind_with (fun over : bool => over = true -> under_way (n_phase n) = true)).
  { settled. }
  { apply answers_bind. intros moment. apply answers_ret. intros [_ Hp]%andb_true_iff.
    rewrite <-Hst. rewrite <-Hst in Hl. by destruct (ps_status s). }
  intros [] Hover.
  - apply may_bind; [settled|]. intros _. apply may_get. intros s' Es'. apply may_end.
    apply (closed_goes V n); [done|congruence|auto].
  - apply may_bind; [settled|]. intros _. by apply may_ret.
Qed.

Lemma prepare_goes V n c :
  V !! sid = Some n -> n_phase n = SessPending -> may_go (fun _ => True) V (prepare_launch sid c).
Proof.
  intros Hn Hp. assert (forall error cls, cls <> "" -> goes sid V V (_terminate sid SessFailed error cls)) as Hfail.
  { intros error cls. by apply (refused_goes V n). }
  unfold prepare_launch, now. apply may_get. intros s Es.
  apply may_bind; [settled|]. intros db. case_match; [by apply may_end, Hfail|].
  case_match; [|by apply may_end, Hfail]. case_match; [|by apply may_none].
  case_match; [|by apply may_end, Hfail]. case_match; [by apply may_end, Hfail|].
  apply may_bind; [settled|]. intros [e|].
  - destruct e; cbn [runtime_error]; first [by apply may_end, Hfail
      | apply may_bind; [settled|]; intros _; by apply may_none
      | intros w Hw; exists V; by split; [left|]].
  - apply may_bind; [settled|]. intros _. apply may_bind; [settled|].
    intros [[token prefix] key_hash]. apply may_bind; [settled|]. intros moment.
    apply may_bind; [settled|]. intros _. by apply may_ret.
Qed.

Lemma start_container_goes V n c wk token secrets :
  V !! sid = Some n -> n_phase n = SessPending -> goes sid V V (start_container sid c wk token secrets).
Proof.
  intros Hn Hp. pose proof (turned_refl sid V) as H0. unfold start_container, now. goes_step.
  case_match; [by apply (refused_goes V n)|]. goes_step.
  apply (goes_put _ _ (enter Starting)); [done|]. apply goes_kept; [|respects_walk].
  apply (turned_step V n); [done|done|]. unfold state_of. cbn. rewrite Hp. constructor.
Qed.
End handlers.

(** ** Transactions *)
Section transactions.
Context `{Env} (S : gmap Z night -> Prop).

(** What holds of the worker's nights, with what was last committed in [S]. *)
Definition over (P : world -> Prop) (s : world * database) : Prop := P s.1 /\ S (nights s.2).

Lemma sup_triple {A} P (m : W A) Q E :
  triple P m Q E -> triple (over P) (sup m) (fun a => over (Q a)) (fun e => over (E e)).
Proof.
  intros Hm [w saved] [HP HS]. unfold sup, over in *. cbn [fst snd] in *. specialize (Hm w HP).
  by destruct (m w) as [[e|a] w'].
Qed.

Lemma commit_triple V :
  S V -> triple (over (at_ V)) commit (fun _ => over (at_ V)) (fun _ => over (at_ V)).
Proof. intros HS [w saved] [Hw _]. unfold over, at_ in *. cbn in *. by rewrite Hw. Qed.

Lemma advance_session_goes sid V n :
  V !! sid = Some n -> terminal_session (n_phase n) = false -> S V ->
  triple (over (at_ V)) (_advance_session sid) (fun _ => over (lands sid V)) (fun _ => over (lands sid V)).
Proof.
  intros Hn Hl HS. unfold _advance_session.
  eapply triple_bind; [apply sup_triple, (begin_step_goes sid V n Hn Hl)|].
  intros [[[c m] st]|]; [|by intros s Hs].
  intros s [[Hs Hst] Hc]. cbn [snd] in Hst. assert (over (at_ V) s) as Ho by by split. clear Hs Hc.
  revert s Ho. subst st. destruct (n_phase n) eqn:Hp; try done.
  - unfold _advance_pending_session.
    eapply triple_bind; [apply sup_triple, (prepare_goes sid V n c Hn Hp)|].
    intros [[[wk token] secrets]|]; [|by intros s Hs].
    eapply (triple_bind _ _ _ (fun _ => over (at_ V))).
    { eapply triple_weaken; [apply commit_triple, HS| |done|].
      - intros s [[Hs _] Hc]. by split.
      - intros e s [Hs Hc]. split; [|done]. exists V. by split; [left|]. }
    intros []. apply sup_triple, (start_container_goes sid V n); done.
  - apply sup_triple, (starting_goes sid V n); done.
  - apply sup_triple, (searching_goes sid V n); done.
  - apply sup_triple, (finalizing_goes sid V n); done.
  - apply sup_triple, (validating_goes sid V n); done.
Qed.
End transactions.

(** ** Creating sessions *)

(** New nights are pending, each under its id; those there were are as they were. *)
Definition created (V V' : gmap Z night) : Prop :=
  forall sid,
    match V !! sid, V' !! sid with
    | Some n, Some n' => n' = n
    | None, Some n' => unstarted n' /\ n_id n' = sid
    | None, None => True
    | Some _, None => False
    end.

Section pass.
Context `{Env}.

Lemma nights_lookup db sid n : nights db !! sid = Some n -> exists s, d_sessions db !! sid = Some s /\ night_of s = n.
Proof. unfold nights. rewrite lookup_fmap. destruct (d_sessions db !! sid); [|done]. intros [= <-]. by eexists. Qed.

Lemma insert_night V n sid :
  V !! sid = None -> n_id n = sid -> unstarted n ->
  (forall k n', V !! k = Some n' -> n_campaign n' = n_campaign n -> n_window n' = n_window n -> False) ->
  well_formed V -> well_formed (<[sid := n]> V).
Proof.
  intros Hf Hid [Hp Hb] Hnew [W1 W2 W3]. split.
  - intros k n'. intros [[<- <-]|[_ Hn]]%lookup_insert_Some; eauto.
  - intros k n'. intros [[<- <-]|[_ Hn]]%lookup_insert_Some; [|eauto]. unfold agrees. by rewrite Hp.
  - intros k k' n1 n2. intros [[<- <-]|[Hk H1]]%lookup_insert_Some [[<- <-]|[Hk' H2]]%lookup_insert_Some Hc Hw;
      [done|..|by eapply W3].
    + exfalso. by eapply Hnew.
    + exfalso. by eapply Hnew.
Qed.

(** A window gets a session only when it has none. *)
Lemma ensure_sessions_creates V :
  triple (fun w => well_formed (nights (w_db w)) /\ created V (nights (w_db w))) _ensure_sessions
    (fun _ w => well_formed (nights (w_db w)) /\ created V (nights (w_db w)))
    (fun _ w => well_formed (nights (w_db w)) /\ created V (nights (w_db w))).
Proof.
  set (I := fun w => well_formed (nights (w_db w)) /\ created V (nights (w_db w))).
  change (keeps I _ensure_sessions).
  assert (forall A (m : W A), respects (on_db nights_kept) m -> keeps I m) as Hk.
  { intros A m Hm w Hw. specialize (Hm w). unfold on_db, nights_kept, I in *.
    destruct (m w) as [[e|a] w']; cbn in *; by rewrite Hm. }
  unfold _ensure_sessions. apply keeps_bind; [apply Hk; settled|]. intros db.
  apply keeps_for_each. intros c _. destruct (c_window_start c) as [window|]; [|apply keeps_ret].
  destruct (c_policy_id c) as [pid|]; [|apply keeps_ret].
  intros w [Hwf Hc]. unfold bind at 1, db_, gets. destruct (existsb _ _) eqn:Hex; [by split|].
  unfold bind, modify_db, modify.
  set (sid := next_key (d_sessions (w_db w))).
  set (w1 := w <| w_db ::= _ |>).
  assert (I w1) as HI.
  { assert (nights (w_db w1) = <[sid := night_of (new_session sid (c_id c) pid window)]> (nights (w_db w))) as E
      by (unfold nights; cbn; apply fmap_insert).
    assert (nights (w_db w) !! sid = None) as Hfresh.
    { unfold nights, sid. by rewrite lookup_fmap, next_key_fresh. }
    unfold I. rewrite E. split.
    - apply insert_night; try done. intros k n' Hn Hcn Hwn.
      apply nights_lookup in Hn as (s & Hs & <-). cbn in Hcn, Hwn.
      assert (existsb (fun s => (ps_campaign_id s =? c_id c) && (ps_window_start s == Some window))
        (rows_z (d_sessions (w_db w))) = true) as Ht; [|by rewrite Ht in Hex].
      apply existsb_exists. exists s. split; [apply list_elem_of_In, elem_of_rows_z; by eexists|].
      rewrite Hcn, Hwn, Z.eqb_refl. by apply bool_decide_eq_true_2.
    - intros k. specialize (Hc k). destruct (decide (k = sid)) as [->|Hne].
      + rewrite lookup_insert_eq. rewrite Hfresh in Hc. destruct (V !! sid) as [n|]; [done|].
        by split.
      + by rewrite lookup_insert_ne by congruence. }
  clearbody w1. revert w1 HI. apply Hk. settled.
Qed.

(** ** Advancing them all *)

(** Sessions in [todo] are as they were; the others went on by at most a step. *)
Definition swept (V : gmap Z night) (todo : list Z) (V' : gmap Z night) : Prop :=
  forall sid,
    (sid ∈ todo -> V' !! sid = V !! sid) /\
    match V !! sid, V' !! sid with
    | Some n, Some n' => night_next n n'
    | None, None => True
    | _, _ => False
    end.

Lemma swept_refl V todo : swept V todo V.
Proof. intros sid. split; [done|]. destruct (V !! sid); [by left|done]. Qed.

Lemma swept_step V sid todo V1 V2 :
  sid ∉ todo -> swept V (sid :: todo) V1 -> turned sid V1 V2 -> swept V todo V2.
Proof.
  intros Hn Hs Ht k. destruct (Hs k) as [Ho Hx].
  assert (k <> sid -> V2 !! k = V1 !! k) as Hk.
  { intros Hk. destruct Ht as [->|(n & n' & _ & _ & ->)]; [done|]. by rewrite lookup_insert_ne by congruence. }
  split.
  - intros Hin. assert (k <> sid) by (by intros ->). rewrite Hk by done. apply Ho. by right.
  - destruct (decide (k = sid)) as [->|Hne]; [|by rewrite Hk].
    specialize (Ho (list_elem_of_here _ _)). destruct Ht as [->|(n & n' & Hv & Hst & ->)]; [done|].
    rewrite lookup_insert_eq. rewrite Ho in Hv. rewrite Hv. by right.
Qed.

Lemma created_swept V V1 todo V2 : created V V1 -> swept V1 todo V2 -> pass_on V V2.
Proof.
  intros Hc Hs sid. specialize (Hc sid). destruct (Hs sid) as [_ Hx].
  destruct (V !! sid) as [n|], (V1 !! sid) as [n1|], (V2 !! sid) as [n2|]; try done.
  - by subst.
  - destruct Hc as [Hu Hid]. by exists n1.
Qed.

(** What a tick may leave. *)
Definition good (V V' : gmap Z night) : Prop := pass_on V V' /\ well_formed V'.

Lemma swept_well_formed V todo V' : swept V todo V' -> well_formed V -> well_formed V'.
Proof.
  intros Hs [W1 W2 W3].
  assert (forall sid n', V' !! sid = Some n' -> exists n, V !! sid = Some n /\ night_next n n') as Hback.
  { intros sid n' Hn. destruct (Hs sid) as [_ Hx]. rewrite Hn in Hx.
    destruct (V !! sid) as [n|]; [by exists n|done]. }
  split.
  - intros sid n' (n & Hn & [E _]%night_next_same)%Hback. rewrite E. eauto.
  - intros sid n' (n & Hn & Hx)%Hback. eapply night_next_agrees; eauto.
  - intros sid sid' n1 n2 (m1 & H1 & (_ & Ec1 & Ew1)%night_next_same)%Hback
      (m2 & H2 & (_ & Ec2 & Ew2)%night_next_same)%Hback Hc Hw.
    eapply W3; [exact H1|exact H2|congruence|congruence].
Qed.

Lemma swept_good V V1 todo V2 : created V V1 -> well_formed V1 -> swept V1 todo V2 -> good V V2.
Proof. intros Hc Hwf Hs. split; [by eapply created_swept|by eapply swept_well_formed]. Qed.

(** The row listed for a session is the one it has. *)
Definition listed (V : gmap Z night) (s : policy_session) : Prop :=
  V !! ps_id s = Some (night_of s) /\ live_session s = true.

Definition sweeping (V V1 : gmap Z night) (todo : list Z) : world * database -> Prop :=
  over (good V) (fun w => swept V1 todo (nights (w_db w))).

Lemma sweep_sessions V V1 l :
  created V V1 -> well_formed V1 -> NoDup (map ps_id l) -> Forall (listed V1) l ->
  triple (sweeping V V1 (map ps_id l)) (for_each l (fun s => try_ (_advance_session (ps_id s)) (fun _ => ret tt)))
    (fun _ => sweeping V V1 []) (fun _ => sweeping V V1 []).
Proof.
  intros Hc Hwf. induction l as [|s l IH]; intros Hnd Hl; cbn [for_each map]; [by intros x Hx|].
  apply NoDup_cons in Hnd as [Hni Hnd]. inversion Hl as [|? ? [Hs Hlive] Hl']; subst.
  eapply (triple_bind _ _ _ (fun _ => sweeping V V1 (map ps_id l))); [|intros []; by apply IH].
  intros [w saved] [Hsw Hsaved]. cbn [fst snd] in *.
  destruct (Hsw (ps_id s)) as [Ho _]. specialize (Ho (list_elem_of_here _ _)). rewrite Hs in Ho.
  pose proof (advance_session_goes (good V) (ps_id s) (nights (w_db w)) (night_of s) Ho
    ltac:(by apply negb_true_iff) (swept_good _ _ _ _ Hc Hwf Hsw) (w, saved) (conj eq_refl Hsaved)) as Ha.
  unfold try_. destruct (_advance_session (ps_id s) (w, saved)) as [[e|[]] [w' saved']];
    destruct Ha as [(V' & Ht & Hw') Hs']; cbn in *; (split; [|done]); unfold at_ in Hw'; cbn;
    rewrite Hw'; by eapply swept_step.
Qed.

Lemma rows_filed V db :
  nights db = V -> well_formed V ->
  NoDup (map ps_id (where_ live_session (rows_z (d_sessions db)))) /\
  Forall (listed V) (where_ live_session (rows_z (d_sessions db))).
Proof.
  intros <- [Hfiled _ _].
  assert (forall sid s, d_sessions db !! sid = Some s -> ps_id s = sid) as Hid.
  { intros sid s Hs. apply (Hfiled sid (night_of s)). unfold nights. by rewrite lookup_fmap, Hs. }
  split.
  - by apply NoDup_map_where, rows_ids.
  - apply Forall_forall. intros s [Hs Hl]%elem_of_where. apply elem_of_rows_z in Hs as [sid Hs].
    split; [|done]. unfold nights. rewrite (Hid _ _ Hs), lookup_fmap, Hs. done.
Qed.

Lemma sessions_sweep V :
  triple (over (good V) (fun w => nights (w_db w) = V /\ well_formed V)) _advance_policy_sessions
    (fun _ => over (good V) (fun w => good V (nights (w_db w))))
    (fun _ => over (good V) (fun w => good V (nights (w_db w)))).
Proof.
  unfold _advance_policy_sessions.
  eapply triple_bind.
  { eapply triple_weaken; [apply (sup_triple (good V)), (ensure_sessions_creates V)| | |].
    - intros s [[<- Hwf] Hs]. split; [|done]. split; [done|].
      intros sid. by destruct (nights (w_db s.1) !! sid).
    - intros a s Hs. exact Hs.
    - intros e s [[Hwf Hc] Hs]. split; [|done].
      eapply swept_good; [exact Hc|exact Hwf|apply swept_refl with (todo := [])]. }
  intros [] [w saved] [[Hwf Hc] Hs]. cbn [fst snd] in *. unfold bind at 1, sup, db_, gets. cbn [fst snd].
  destruct (rows_filed _ (w_db w) eq_refl Hwf) as [Hnd Hl].
  pose proof (sweep_sessions V (nights (w_db w)) _ Hc Hwf Hnd Hl (w, saved)
    (conj (swept_refl _ _) Hs)) as Hsw.
  destruct (for_each _ _ (w, saved)) as [[e|[]] s']; destruct Hsw as [Hsw Hs'];
    (split; [by eapply swept_good|done]).
Qed.
End pass.

(** ** The whole tick *)
Section tick.
Context `{Env}.

Lemma tick_passes `{!PluginLaws} turns w :
  well_formed (nights (w_db w)) -> good (nights (w_db w)) (nights (w_db (tick turns w).2)).
Proof.
  intros Hwf. set (V := nights (w_db w)) in *. assert (good V V) as Hrefl by (split; [apply pass_on_refl|done]).
  assert (forall A (m : W A) (P : gmap Z night -> Prop), respects (on_db same_nights) m ->
    triple (over (good V) (fun w => P (nights (w_db w)))) (sup m)
      (fun _ => over (good V) (fun w => P (nights (w_db w))))
      (fun _ => over (good V) (fun w => P (nights (w_db w))))) as Hcalm.
  { intros A m P Hm. apply sup_triple. intros w1 HP. destruct (Hm w1) as [E _]. unfold nights_kept in E.
    destruct (m w1) as [[e|a] w2]; cbn in *; by rewrite E. }
  assert (triple (over (good V) (fun w => nights (w_db w) = V)) (tick_steps turns)
    (fun _ => over (good V) (fun w => good V (nights (w_db w))))
    (fun _ => over (good V) (fun _ => True))) as Ht.
  { unfold tick_steps.
    eapply triple_bind.
    { eapply triple_weaken; [apply (Hcalm _ _ (fun V' => V' = V) before_nights)|done|intros a s Hs; exact Hs|].
      intros e s [_ Hs]. by split. }
    intros []. eapply triple_bind.
    { eapply triple_weaken; [apply (sessions_sweep V)| |intros a s Hs; exact Hs|].
      - intros s [Hv Hs]. by split.
      - intros e s [_ Hs]. by split. }
    intros []. eapply triple_bind.
    { eapply triple_weaken; [apply (Hcalm _ _ (good V) (after_nights turns))|done|intros a s Hs; exact Hs|].
      intros e s [_ Hs]. by split. }
    intros []. intros [w1 saved] [Hp _]. by split. }
  specialize (Ht (w, w_db w) (conj eq_refl Hrefl)). unfold tick.
  destruct (tick_steps turns (w, w_db w)) as [[e|[]] [w' saved]]; destruct Ht as [Hw Hs]; done.
Qed.
End tick.

(** ** Properties *)

(** C4: the worker implements the session machine.  From well-formed rows, a tick,
    committed or rolled back, takes each session at most one step of the machine
    of [States] (pending, starting, searching, finalizing, validating, then over;
    a failure recorded once stays), leaves those that are over as they are, and
    creates sessions only as pending; whatever the drivers, the clock, the
    policies and the plugins answer. *)
Theorem tick_refines_nights `{Env} `{!PluginLaws} (turns : nat) (w : world)
    (Hwf : well_formed (nights (w_db w))) :
  pass_on (nights (w_db w)) (nights (w_db (tick turns w).2)) /\
  forall sid n, nights (w_db w) !! sid = Some n -> terminal_session (n_phase n) = true ->
    nights (w_db (tick turns w).2) !! sid = Some n.
Proof.
  destruct (tick_passes turns w Hwf) as [Hp _]. split; [done|]. intros sid n Hn Ht.
  specialize (Hp sid). rewrite Hn in Hp. destruct (nights (w_db (tick turns w).2) !! sid) as [n'|]; [|done].
  destruct Hp as [->|(_ & _ & _ & Hs)]; [done|]. apply phase_step_live in Hs. congruence.
Qed.

(** C5: one session per campaign and window, and an outcome that says what was
    recorded.  A tick keeps the session rows well-formed: each under its own id,
    [done] only with no failure recorded and [failed] only with one, and no two
    for one campaign and window. *)
Theorem tick_keeps_sessions_well_formed `{Env} `{!PluginLaws} (turns : nat) (w : world)
    (Hwf : well_formed (nights (w_db w))) : well_formed (nights (w_db (tick turns w).2)).
Proof. apply (tick_passes turns w Hwf). Qed.

#[export] Instance night_eq_dec : EqDecision night.
Proof. solve_decision. Defined.

(** Whether a session's phase, or that it failed, differs. *)
Definition changed (sid : Z) (w w' : world) : nat :=
  if decide (nights (w_db w) !! sid = nights (w_db w') !! sid) then 0 else 1.

(** Ticks, and what else writes the rows between them (the API records a failure
    a policy reports), with the number of times session [sid] changed. *)
Inductive lived `{Env} (sid : Z) : nat -> world -> world -> Prop :=
  | lived_none w : lived sid 0 w w
  | lived_tick k w w' turns :
      lived sid k w w' -> lived sid (k + changed sid w' (tick turns w').2) w (tick turns w').2
  | lived_else k w w' w'' :
      lived sid k w w' -> well_formed (nights (w_db w'')) ->
      (forall n, nights (w_db w') !! sid = Some n ->
         exists n', nights (w_db w'') !! sid = Some n' /\ night_next n n') ->
      lived sid (k + changed sid w' w'') w w''.

(** ** The hard deadline ends a night

    What answers whatever the world is, with the nights left as they are. *)
Section deadline.
Context `{Env} (sid : Z).

Definition steady {A} (V : gmap Z night) (m : W A) : Prop := triple (at_ V) m (fun _ => at_ V) (fun _ _ => False).

Lemma steady_bind {A B} V (m : W A) (f : A -> W B) : steady V m -> (forall a, steady V (f a)) -> steady V (bind m f).
Proof. intros Hm Hf. eapply triple_bind; [exact Hm|exact Hf]. Qed.
Lemma steady_ret {A} V (a : A) : steady V (ret a).
Proof. by intros w Hw. Qed.
Lemma steady_gets {A} V (f : world -> A) : steady V (gets f).
Proof. by intros w Hw. Qed.
Lemma steady_now V : steady V now.
Proof. by intros w Hw. Qed.
Lemma steady_disk V path : steady V (call [] (fun n => inr (disk_read n path))).
Proof. by intros w Hw. Qed.
Lemma steady_logged {A} V (m : W A) (a : A) : respects (on_db nights_kept) m -> steady V (logged m a).
Proof.
  intros Hm w Hw. unfold logged, try_. specialize (Hm w). unfold on_db, nights_kept, at_ in *.
  destruct (m w) as [[e|x] w']; cbn in *; congruence.
Qed.
Lemma steady_write V f : (forall db, nights_kept db (f db)) -> steady V (modify_db f).
Proof. intros Hf w Hw. unfold at_ in *. cbn. specialize (Hf (w_db w)). unfold nights_kept in Hf. congruence. Qed.
Lemma steady_get {B} V n (k : policy_session -> W B) : V !! sid = Some n ->
  (forall s, steady V (k s)) -> steady V (bind (get_session sid) k).
Proof.
  intros Hn Hk w Hw. unfold get_session, bind at 1, bind at 1, db_, gets.
  unfold at_, nights in Hw. rewrite <- Hw, lookup_fmap in Hn. destruct (d_sessions (w_db w) !! sid) as [s|]; [|done].
  exact (Hk s w Hw).
Qed.
End deadline.

Ltac steady_step :=
  lazymatch goal with
  | |- steady _ (bind (get_session _) _) => eapply steady_get; [eassumption|intros ?]
  | |- steady _ (bind _ _) => apply steady_bind; [|intros ?]
  | |- steady _ (ret _) => apply steady_ret
  | |- steady _ (gets _) => apply steady_gets
  | |- steady _ db_ => apply steady_gets
  | |- steady _ now => apply steady_now
  | |- steady _ (call [] _) => first [apply steady_now | apply steady_disk]
  | |- steady _ (logged _ _) => apply steady_logged; settled
  | |- steady _ (modify_db _) => apply steady_write; intros ?; exact eq_refl
  | |- steady _ (match ?x with _ => _ end) => destruct x eqn:?
  end.
Ltac steady_walk := repeat steady_step.

Section ends.
Context `{Env} (sid : Z).

Lemma put_session_at V f g : (forall s, night_of (f s) = g (night_of s)) ->
  triple (at_ V) (put_session sid f) (fun _ => at_ (alter g sid V)) (fun _ _ => False).
Proof. intros Hf w Hw. unfold put_session, modify_db, modify, at_ in *. rewrite <- Hw. exact (alter_night sid f g (w_db w) Hf). Qed.

Lemma steady_put V f : (forall s, night_of (f s) = night_of s) -> steady V (put_session sid f).
Proof.
  intros Hf w Hw. unfold put_session, modify_db, modify, at_ in *. cbn.
  exact (eq_trans (proj1 (put_session_nights sid f (w_db w) Hf)) Hw).
Qed.

Lemma teardown_workload_steady V n : V !! sid = Some n -> steady V (_teardown_workload sid).
Proof.
  intros Hn. unfold _teardown_workload, _save_policy_log, _store_policy_log. steady_walk; try (apply steady_put; by intros []).
Qed.
Lemma release_steady V mid : steady V (_release_machine_if_idle mid).
Proof. unfold _release_machine_if_idle, put_machine. steady_walk. Qed.
Lemma end_campaign_steady V n : V !! sid = Some n -> steady V (_end_campaign_of sid).
Proof. intros Hn. unfold _end_campaign_of, event_, add_event, put_campaign. steady_walk. Qed.

(** Ending a session answers, and the session is over. *)
Lemma terminate_ends V n status error cls w : V !! sid = Some n -> at_ V w ->
  exists w', _terminate sid status error cls w = (inr tt, w')
    /\ at_ (<[ sid := enter status (note (negb (String.eqb cls "")) n) ]> V) w'.
Proof.
  intros Hn Hw. set (V' := alter (fun n => enter status (note (negb (String.eqb cls "")) n)) sid V).
  assert (V' !! sid = Some (enter status (note (negb (String.eqb cls "")) n))) as Hn'
    by (unfold V'; by rewrite lookup_alter_eq, Hn).
  assert (triple (at_ V) (_terminate sid status error cls) (fun _ => at_ V') (fun _ _ => False)) as Ht.
  { unfold _terminate. eapply triple_bind; [exact (teardown_workload_steady V n Hn)|]. intros [].
    eapply triple_bind; [apply (put_session_at V _ (fun n => enter status (note (negb (String.eqb cls "")) n)))|].
    { intros s. unfold night_of, enter, note. cbn. by rewrite noted_class. }
    intros []. fold V'. change (steady V' (db <- db_ ;;
      (match session_key db sid with
       | None => ret tt
       | Some key =>
           moment <- now ;;
           let grace := moment + policy_token_grace_hours * hour in
           put_key (ak_id key) (fun k => k <| ak_expires_at := Some (Z.min (default grace (ak_expires_at key)) grace) |>)
       end) ;;;
      s <- get_session sid ;;
      db <- db_ ;;
      (match session_machine db s with
       | Some m => _release_machine_if_idle (m_id m)
       | None => ret tt
       end) ;;;
      _end_campaign_of sid)).
    unfold put_key. steady_walk; [apply release_steady|by apply (end_campaign_steady V' _ Hn')..]. }
  specialize (Ht w Hw). destruct (_terminate sid status error cls w) as [[e|[]] w']; [done|].
  exists w'. split; [done|]. by rewrite <- (alter_as_insert (fun n => enter status (note (negb (String.eqb cls "")) n)) sid V n Hn).
Qed.
End ends.

(** However long the worker runs, and whatever is written between its ticks by
    others that follow the machine, a session changes at most six times. *)
Lemma changes_are_bounded `{Env} `{!PluginLaws} (sid : Z) (k : nat) (w w' : world) (n : night)
    (Hwf : well_formed (nights (w_db w))) (Hn : nights (w_db w) !! sid = Some n)
    (Hlived : lived sid k w w') : (k <= 6)%nat.
Proof.
  assert (well_formed (nights (w_db w')) /\
    exists n', nights (w_db w') !! sid = Some n' /\ (k + behind n <= behind n')%nat) as (_ & n' & _ & Hk).
  { induction Hlived as [w|k w w' turns _ IH|k w w' w'' _ IH Hwf'' Hnext].
    - split; [done|]. exists n. by split; [|lia].
    - destruct (IH Hwf Hn) as (Hwf' & n' & Hn' & Hk). destruct (tick_passes turns w' Hwf') as [Hp Hg].
      split; [done|]. specialize (Hp sid). rewrite Hn' in Hp. unfold changed. rewrite Hn'.
      destruct (nights (w_db (tick turns w').2) !! sid) as [n2|]; [|done]. exists n2. split; [done|].
      destruct Hp as [->|Hs%night_step_behind]; case_decide; try done; lia.
    - destruct (IH Hwf Hn) as (Hwf' & n' & Hn' & Hk). split; [done|].
      destruct (Hnext _ Hn') as (n2 & Hn2 & Hs). unfold changed. rewrite Hn', Hn2. exists n2. split; [done|].
      destruct Hs as [->|Hs%night_step_behind]; case_decide; try done; lia. }
  pose proof (behind_bound n'). lia.
Qed.

(** What has to be ended before the session is: its live runs, if any. *)
Definition with_live_runs (w : world) (sid : Z) : Prop :=
  exists r, r ∈ session_runs (w_db w) sid /\ live_run r = true.

Lemma kill_runs_answers `{Env} sid reason w :
  (exists w', _kill_session_runs sid reason w = (inr tt, w') /\ at_ (nights (w_db w)) w')
  \/ with_live_runs w sid /\ exists e w', _kill_session_runs sid reason w = (inl e, w').
Proof.
  pose proof (kill_runs_kept sid reason w) as Hk. unfold on_db, nights_kept in Hk.
  destruct (_kill_session_runs sid reason w) as [[e|[]] w'] eqn:E; [right|left; by exists w'].
  split; [|by exists e, w']. unfold with_live_runs. unfold _kill_session_runs, bind, db_, gets in E.
  destruct (where_ live_run (session_runs (w_db w) sid)) as [|r l] eqn:El; [done|]. exists r.
  apply elem_of_where. rewrite El. by left.
Qed.

(** Either the runs are ended and the rest goes on, or ending one raised. *)
Lemma kill_then `{Env} {B} sid reason (m : W B) w :
  (exists w1, at_ (nights (w_db w)) w1 /\ (_kill_session_runs sid reason ;;; m) w = m w1)
  \/ with_live_runs w sid /\ exists e, ((_kill_session_runs sid reason ;;; m) w).1 = inl e.
Proof.
  destruct (kill_runs_answers sid reason w) as [(w1 & E & Hw)|(Hl & e & w1 & E)]; [left|right].
  - exists w1. split; [done|]. unfold bind at 1. by rewrite E.
  - split; [done|]. exists e. unfold bind at 1. by rewrite E.
Qed.

(** The step of a session that is over at its end: [status] and [error] may read
    its row. *)
Lemma terminate_then `{Env} {B} sid (b : B) status error w s : d_sessions (w_db w) !! sid = Some s -> terminal_session status = true ->
  exists w' n', (_terminate sid status error "" ;;; ret b) w = (inr b, w')
    /\ nights (w_db w') !! sid = Some n' /\ terminal_session (n_phase n') = true.
Proof.
  intros Hs Ht. assert (nights (w_db w) !! sid = Some (night_of s)) as Hn by (unfold nights; by rewrite lookup_fmap, Hs).
  destruct (terminate_ends sid (nights (w_db w)) (night_of s) status error "" w Hn eq_refl) as (w2 & E2 & H2).
  eexists w2, _. unfold bind. rewrite E2. split; [done|]. unfold at_ in H2. rewrite H2, lookup_insert_eq. split; [done|exact Ht].
Qed.

Lemma session_still_there w w1 sid s : at_ (nights (w_db w)) w1 -> d_sessions (w_db w) !! sid = Some s ->
  exists s1, d_sessions (w_db w1) !! sid = Some s1.
Proof.
  unfold at_, nights. intros Hw Hs. apply (f_equal (lookup sid)) in Hw. rewrite !lookup_fmap, Hs in Hw.
  destruct (d_sessions (w_db w1) !! sid) as [s1|]; [by exists s1|done].
Qed.

(** What a step that is to end a session comes to. *)
Definition ends_it `{Env} {B} (sid : Z) (b : B) (w : world) (r : (exn + B) * world) : Prop :=
  (exists w2 n2, r = (inr b, w2) /\ nights (w_db w2) !! sid = Some n2 /\ terminal_session (n_phase n2) = true)
  \/ with_live_runs w sid /\ exists e, r.1 = inl e.

(** C8: a night comes to an end.  However long the worker runs, and whatever is
    written between its ticks by others that follow the machine, a session's
    phase or failure changes at most six times.  And once the hard deadline of a
    session that has started has come, the worker's next step on it ends it; it
    is kept from that only by an error in ending a run of the session that is
    still live. *)
Theorem nights_run_out `{Env} `{!PluginLaws} (sid : Z) (k : nat) (w w' : world) (n : night)
    (Hwf : well_formed (nights (w_db w))) (Hn : nights (w_db w) !! sid = Some n)
    (Hlived : lived sid k w w') :
  (k <= 6)%nat /\
  forall saved s c hard, d_sessions (w_db w') !! sid = Some s -> d_campaigns (w_db w') !! ps_campaign_id s = Some c ->
    terminal_session (ps_status s) = false -> ps_status s <> SessPending ->
    hard_deadline c (session_machine (w_db w') s) = Some hard -> hard <= clock (w_calls w') ->
    (exists w2 n2, _advance_session sid (w', saved) = (inr tt, (w2, saved)) /\
       nights (w_db w2) !! sid = Some n2 /\ terminal_session (n_phase n2) = true)
    \/ with_live_runs w' sid /\ exists e, (_advance_session sid (w', saved)).1 = inl e.
Proof.
  split; [by apply (changes_are_bounded sid k w w' n)|]. clear w n Hwf Hn Hlived. intros saved s c hard Hs Hc Hl Hp Hh Hd.
  assert (ends_it sid None w' (begin_step sid w')) as [(w2 & n2 & E & H2)|(Hr & e & E)].
  - unfold begin_step, get_session, bind at 1, bind at 1, db_, gets. rewrite Hs. cbn [expect]. unfold ret at 1. cbv beta iota.
    unfold bind at 1. rewrite Hc. rewrite Hl. cbn [negb]. rewrite andb_true_r.
    destruct (bool_decide (is_Some (ps_abort_requested_at s))).
    + match goal with |- context [(_ ;;; ?m) w'] => destruct (kill_then sid "session aborted" m w') as [(w1 & Hw1 & ->)|H2] end; [|by right].
      destruct (session_still_there w' w1 sid s Hw1 Hs) as [s1 Hs1]. left. by apply (terminate_then sid None Aborted _ w1 s1).
    + rewrite Hh. set (w1 := w' <| w_calls ::= S |> <| w_log ::= fun l => l ++ [] |>).
      assert (bind (moment <- now ;; ret ((hard <=? moment) && negb (ps_status s == SessPending))) = 
              fun (f : bool -> W (option (campaign * option machine * PolicySessionStatus))) w => f ((hard <=? clock (w_calls w)) && negb (ps_status s == SessPending)) (w <| w_calls ::= S |> <| w_log ::= fun l => l ++ [] |>)) as -> by done.
      cbv beta. fold w1. rewrite (proj2 (Z.leb_le _ _) Hd).
      assert (negb (ps_status s == SessPending) = true) as -> by (apply negb_true_iff; by apply bool_decide_eq_false). cbn [andb].
      match goal with |- context [(_ ;;; ?m) w1] => destruct (kill_then sid "window cutoff" m w1) as [(w2 & Hw2 & ->)|(Hr & H2)] end;
        [|by right].
      destruct (session_still_there w1 w2 sid s Hw2 Hs) as [s2 Hs2]. unfold get_session, bind at 1, bind at 1, db_, gets. rewrite Hs2.
      cbn [expect]. unfold ret at 1. cbv beta iota. left. apply (terminate_then sid None _ _ w2 s2); [done|]. by destruct (String.eqb _ _).
  - left. exists w2, n2. split; [|done]. unfold _advance_session, bind, sup. cbn [fst snd]. by rewrite E.
  - right. split; [done|]. exists e. unfold _advance_session, bind, sup. cbn [fst snd].
    destruct (begin_step sid w') as [r w2]. cbn in E. by subst r.
Qed.

(** ** Witnesses *)

(** Session 7 of campaign 1 has heard from its policy; campaign 2's window has no
    session yet. *)
Definition evening_db : database :=
  empty_database
    <| d_machines := {[ 1 := sample_machine 1; 2 := sample_machine 2 ]} |>
    <| d_policies := {[ 1 := sample_policy ]} |>
    <| d_campaigns := {[ 1 := sample_campaign <| c_policy_id := Some 1 |> <| c_window_start := Some 5 |>;
                         2 := sample_campaign <| c_id := 2 |> <| c_policy_id := Some 1 |>
                                <| c_window_start := Some 9 |> ]} |>
    <| d_sessions := {[ 7 := (new_session 7 1 1 5) <| ps_status := Starting |> <| ps_machine_id := Some 2 |>
                               <| ps_container_name := "policy-7" |>
                               <| ps_first_heartbeat_at := Some 1 |> ]} |>.

Lemma evening_well_formed : well_formed (nights (w_db (sample_world evening_db))).
Proof.
  assert (nights (w_db (sample_world evening_db)) = {[ 7 := Night 7 1 (Some 5) Starting false ]}) as ->
    by (unfold nights, evening_db, sample_world; cbn [w_db d_sessions]; by vm_compute).
  split.
  - intros sid n [<- <-]%lookup_singleton_Some. done.
  - intros sid n [<- <-]%lookup_singleton_Some. done.
  - intros sid sid' n n' [<- _]%lookup_singleton_Some [<- _]%lookup_singleton_Some. done.
Qed.

Definition phase_at (w : world) (sid : Z) : option PolicySessionStatus := n_phase <$> nights (w_db w) !! sid.

Lemma tick_refines_nights_witness :
  phase_at (sample_world evening_db) 7 = Some Starting /\
  phase_at (tick 40 (sample_world evening_db)).2 7 = Some Searching /\
  phase_at (tick 40 (sample_world evening_db)).2 8 = Some SessPending /\
  pass_on (nights evening_db) (nights (w_db (tick 40 (sample_world evening_db)).2)).
Proof.
  split; [vm_compute; reflexivity|]. split; [vm_compute; reflexivity|].
  split; [vm_compute; reflexivity|].
  apply (tick_refines_nights 40 (sample_world evening_db)). apply evening_well_formed.
Defined.

Lemma tick_keeps_sessions_well_formed_witness :
  size (nights (w_db (tick 40 (sample_world evening_db)).2)) = 2%nat /\
  well_formed (nights (w_db (tick 40 (sample_world evening_db)).2)).
Proof.
  split; [vm_compute; reflexivity|].
  apply (tick_keeps_sessions_well_formed 40 (sample_world evening_db)). apply evening_well_formed.
Defined.

Lemma nights_run_out_witness :
  changed 7 (sample_world evening_db) (tick 40 (sample_world evening_db)).2 = 1%nat /\
  (0 + changed 7 (sample_world evening_db) (tick 40 (sample_world evening_db)).2 <= 6)%nat.
Proof.
  split; [vm_compute; reflexivity|].
  refine (proj1 (nights_run_out 7 _ (sample_world evening_db) (tick 40 (sample_world evening_db)).2
    (Night 7 1 (Some 5) Starting false) _ _ _)).
  - apply evening_well_formed.
  - vm_compute. reflexivity.
  - apply lived_tick, lived_none.
Defined.
