(* ===== verification/Vigil.v ===== *)
(** What the worker owes a policy and what it guards against: a policy told to
    wind down is wound down, validations take only free cards of the session's
    block, a session's token ends with it, its environment cannot be taken over,
    and work in flight is no idleness. *)
From S2P Require Import Prelude Float Values Documents Space Validation Failures Logs Model States Packing.
From S2P Require Import Timing World Samples Occupancy Fleet Exclusive Finish Placement Nights Reserve.
From S2P Require Import Queue Pass Runs Advance Leases Clock Sessions Ending Tenancy.
#[local] Open Scope string_scope.
#[local] Open Scope list_scope.
#[local] Open Scope Z_scope.

(** ** Lemmas: winding down *)
Section winding.
Context `{Env}.

Lemma get_session_bind {A} sid (k : policy_session -> W A) w s :
  d_sessions (w_db w) !! sid = Some s -> bind (get_session sid) k w = k s w.
Proof. intros Hs. unfold get_session, bind, db_, gets. by rewrite Hs. Qed.

Lemma put_session_bind {A} sid f (k : unit -> W A) w :
  bind (put_session sid f) k w = k tt (w <| w_db ::= fun db => db <| d_sessions ::= alter f sid |> |>).
Proof. done. Qed.

(** A question was asked. *)
Definition asked (w : world) : world := w <| w_calls ::= S |> <| w_log ::= fun l => l ++ [] |>.

Lemma bind_eq {A B} (m : W A) (k : A -> W B) w a w' : m w = (inr a, w') -> bind m k w = k a w'.
Proof. intros E. unfold bind. by rewrite E. Qed.

Lemma db_bind {A} (k : database -> W A) w : bind db_ k w = k (w_db w) w.
Proof. done. Qed.
Lemma expect_bind {A B} (o : option A) (k : A -> W B) w a : o = Some a -> bind (expect o) k w = k a w.
Proof. by intros ->. Qed.

Lemma now_bind {A} (k : Z -> W A) w : bind now k w = k (clock (w_calls w)) (asked w).
Proof. done. Qed.

Lemma call_bind {A B} acts (f : nat -> exn + A) (k : A -> W B) w a :
  f (w_calls w) = inr a ->
  bind (call acts f) k w = k a (w <| w_calls ::= S |> <| w_log ::= fun l => l ++ acts |>).
Proof. intros E. unfold bind, call. by rewrite E. Qed.

(** It writes the reason and the phase, whatever was asked for before. *)
Lemma begin_finalizing_lands sid c reason w s :
  d_sessions (w_db w) !! sid = Some s ->
  exists w' s', _begin_finalizing sid c reason w = (inr tt, w') /\
    d_sessions (w_db w') !! sid = Some s' /\ ps_status s' = Finalizing /\
    is_Some (ps_finalize_requested_at s') /\
    ps_search_end_reason s' = or_string (ps_search_end_reason s) reason.
Proof.
  intros Hs. unfold _begin_finalizing. rewrite (get_session_bind _ _ _ _ Hs).
  destruct (bool_decide (is_Some (ps_finalize_requested_at s))) eqn:Hr.
  - apply bool_decide_eq_true in Hr. eexists _, _. split; [reflexivity|]. cbn.
    rewrite lookup_alter_eq, Hs. cbn. done.
  - eexists _, _. split; [reflexivity|]. cbn. rewrite !lookup_alter_eq, Hs. cbn.
    split; [reflexivity|]. cbn. eauto.
Qed.

(** The step of a searching session that is told to wind down. *)
Lemma searching_is_wound_down (sid : Z) (s : policy_session) (c : campaign) (m : machine)
    (w : world) (pending moment : Z) (port : option Z) (h : handle)
    (Hs : d_sessions (w_db w) !! sid = Some s) (Hsearching : ps_status s = Searching)
    (Hcommand : command_for s c (Some m) pending port moment = CmdFinalize)
    (Hlater : forall n, (w_calls w <= n)%nat -> moment <= clock n)
    (Hup : workload_handle (Some m) s = Some h)
    (Hstate : drv_workload_state (w_calls w) h = inr WorkRunning)
    (Hheard : heartbeat_silence s (clock (S (w_calls w))) <= 2 * (heartbeat_timeout_seconds c * second)) :
  exists w' s', _advance_searching sid c (Some m) w = (inr tt, w') /\
    d_sessions (w_db w') !! sid = Some s' /\ ps_status s' = Finalizing /\
    is_Some (ps_finalize_requested_at s') /\ ps_search_end_reason s' <> "".
Proof.
  assert (forall reason w1 s1, reason <> "" -> d_sessions (w_db w1) !! sid = Some s1 ->
    exists w' s', _begin_finalizing sid c reason w1 = (inr tt, w') /\
      d_sessions (w_db w') !! sid = Some s' /\ ps_status s' = Finalizing /\
      is_Some (ps_finalize_requested_at s') /\ ps_search_end_reason s' <> "") as Hend.
  { intros reason w1 s1 Hr H1. destruct (begin_finalizing_lands sid c reason w1 s1 H1)
      as (w' & s' & E & Hs' & Hst & Hreq & Er). exists w', s'. split_and!; try done.
    rewrite Er. unfold or_string. by destruct (String.eqb_spec (ps_search_end_reason s1) ""). }
  unfold _advance_searching. rewrite (get_session_bind _ _ _ _ Hs).
  assert (_workload_state s (Some m) w = (inr WorkRunning, asked w)) as Ew.
  { unfold _workload_state. rewrite Hup. unfold try_, call. rewrite Hstate. done. }
  rewrite (bind_eq _ _ _ _ _ Ew). change (work_over WorkRunning) with false. cbv iota.
  rewrite (now_bind _ (asked w)).
  change (w_calls (asked w)) with (S (w_calls w)). rewrite (proj2 (Z.ltb_ge _ _) Hheard).
  unfold command_for in Hcommand. rewrite Hsearching in Hcommand.
  destruct (bool_decide (is_Some (ps_abort_requested_at s))); [done|].
  destruct (String.eqb_spec (ps_policy_status s) "exhausted") as [Hx|Hx].
  { by eapply Hend. }
  destruct (String.eqb_spec (ps_policy_status s) "error") as [Hy|Hy].
  { rewrite put_session_bind. eapply Hend; [done|]. cbn. by rewrite lookup_alter_eq, Hs. }
  assert (signalled_done s = false) as Hdone.
  { unfold signalled_done. apply bool_decide_eq_false. intros [?|[?|[]%elem_of_nil]%elem_of_cons]%elem_of_cons; done. }
  rewrite Hdone, orb_false_r in Hcommand.
  rewrite (now_bind _ (asked (asked w))).
  assert (bool_decide (is_Some (ps_finalize_requested_at s))
    || reached (clock (S (S (w_calls w)))) (search_deadline c (Some m)) = true) as Hgo.
  { destruct (bool_decide (is_Some (ps_finalize_requested_at s))); [done|]. cbn in *.
    destruct (reached moment (search_deadline c (Some m))) eqn:Hr; [|done].
    unfold reached in *. destruct (search_deadline c (Some m)) as [t|]; [|done].
    specialize (Hlater (S (S (w_calls w))) ltac:(lia)). lia. }
  rewrite <-orb_assoc. change (w_calls (asked (asked w))) with (S (S (w_calls w))). rewrite Hgo, orb_true_r. eapply Hend; [by destruct (bool_decide (is_Some (ps_finalize_requested_at s)))|exact Hs].
Qed.

(** What comes before a live session's own step leaves the sessions, while it is
    not aborted and its night lasts. *)
Lemma begin_step_goes_on (sid : Z) (s : policy_session) (c : campaign) (m : option machine) (w : world) :
  d_sessions (w_db w) !! sid = Some s -> d_campaigns (w_db w) !! ps_campaign_id s = Some c ->
  session_machine (w_db w) s = m -> ps_abort_requested_at s = None ->
  (forall hard, hard_deadline c m = Some hard -> clock (w_calls w) < hard) ->
  exists w1, begin_step sid w = (inr (Some (c, m, ps_status s)), w1) /\ d_sessions (w_db w1) = d_sessions (w_db w)
    /\ (w_calls w <= w_calls w1 <= w_calls w + 2)%nat.
Proof.
  intros Hs Hc Hm Ha Hnight. unfold begin_step. rewrite (get_session_bind _ _ _ _ Hs), db_bind, Hc, Hm, Ha.
  cbn [bool_decide is_Some andb].
  change (bool_decide (is_Some (@None Z))) with false. cbn [andb].
  assert (exists w0, (match hard_deadline c m with
                | Some t => moment <- now ;; ret ((t <=? moment) && negb (ps_status s == SessPending))
                | None => ret false
                end) w = (inr false, w0) /\ w_db w0 = w_db w /\ (w_calls w <= w_calls w0 <= w_calls w + 1)%nat) as (w0 & E0 & Hdb & Hn).
  { destruct (hard_deadline c m) as [t|] eqn:Eh; [|exists w; split; [done|]; split; [done|lia]].
    exists (asked w). rewrite now_bind. rewrite (proj2 (Z.leb_gt _ _) (Hnight t eq_refl)). split; [done|]. split; [done|]. cbn. lia. }
  rewrite (bind_eq _ _ _ _ _ E0). cbv iota.
  assert (exists w1, _follow_window sid (hard_deadline c m) w0 = (inr tt, w1) /\ d_sessions (w_db w1) = d_sessions (w_db w0)
            /\ (w_calls w0 <= w_calls w1 <= w_calls w0 + 1)%nat) as (w1 & E1 & Hdb1 & Hn1).
  { unfold _follow_window. rewrite (get_session_bind _ _ _ s) by (by rewrite Hdb). rewrite db_bind.
    destruct (_ || _); [exists w0; split; [reflexivity|]; split; [reflexivity|lia]|].
    destruct (session_key (w_db w0) sid) as [key|]; [|exists w0; split; [reflexivity|]; split; [reflexivity|lia]].
    rewrite now_bind. match goal with |- context [if ?b then ret tt else put_key _ _] => destruct b end.
    - exists (asked w0). split; [done|]. split; [done|]. cbn. lia.
    - eexists. split; [reflexivity|]. split; [done|]. cbn. lia. }
  rewrite (bind_eq _ _ _ _ _ E1). exists w1. split; [done|]. rewrite Hdb1, Hdb. split; [done|]. lia.
Qed.

(** C7: a policy told to wind down is wound down.  When a heartbeat of a searching
    session is answered with "finalize", the worker's next step on the session,
    at any later time before the night's hard deadline, with the container up
    and heard from, moves it to finalizing with a reason: the command and the
    status disagree for one tick at most. *)
Theorem finalize_command_is_honoured (sid : Z) (s : policy_session) (c : campaign) (m : machine)
    (w : world) (saved : database) (pending moment : Z) (port : option Z) (h : handle)
    (Hs : d_sessions (w_db w) !! sid = Some s) (Hsearching : ps_status s = Searching)
    (Hc : d_campaigns (w_db w) !! ps_campaign_id s = Some c) (Hm : session_machine (w_db w) s = Some m)
    (Hcommand : command_for s c (Some m) pending port moment = CmdFinalize)
    (Hlater : forall n, (w_calls w <= n)%nat -> moment <= clock n)
    (Hnight : forall hard, hard_deadline c (Some m) = Some hard -> clock (w_calls w) < hard)
    (Hup : workload_handle (Some m) s = Some h)
    (Hstate : forall n, (w_calls w <= n <= w_calls w + 2)%nat -> drv_workload_state n h = inr WorkRunning)
    (Hheard : forall n, (w_calls w <= n <= w_calls w + 3)%nat ->
       heartbeat_silence s (clock n) <= 2 * (heartbeat_timeout_seconds c * second)) :
  exists w' s', _advance_session sid (w, saved) = (inr tt, (w', saved)) /\
    d_sessions (w_db w') !! sid = Some s' /\ ps_status s' = Finalizing /\
    is_Some (ps_finalize_requested_at s') /\ ps_search_end_reason s' <> "".
Proof.
  assert (ps_abort_requested_at s = None) as Ha.
  { unfold command_for in Hcommand. by destruct (ps_abort_requested_at s). }
  destruct (begin_step_goes_on sid s c (Some m) w Hs Hc Hm Ha Hnight) as (w1 & E1 & Hdb & Hn).
  unfold _advance_session. rewrite Hsearching in E1.
  assert (sup (begin_step sid) (w, saved) = (inr (Some (c, Some m, Searching)), (w1, saved))) as Eb
    by (unfold sup; cbn [fst snd]; by rewrite E1).
  unfold bind at 1. rewrite Eb.
  destruct (searching_is_wound_down sid s c m w1 pending moment port h) as (w2 & s2 & E & Hend);
    [by rewrite Hdb|done|done|intros n Hle; apply Hlater; lia|done|apply Hstate; lia|apply Hheard; lia|].
  exists w2, s2. split; [|exact Hend]. unfold sup. cbn [fst snd]. by rewrite E.
Qed.
End winding.

(** ** Lemmas: launching a validation *)
Section launching.
Context `{Env}.

Lemma add_validation_effect sid c k cfg mid m cards port w :
  d_machines (w_db w) !! mid = Some m ->
  exists w' r cdid rid, add_validation sid c k cfg (Some mid) cards port w = (inr (cdid, rid), w') /\
    d_runs (w_db w') = <[ rid := r ]> (d_runs (w_db w)) /\ rid = next_key (d_runs (w_db w)) /\ r_id r = rid /\
    r_machine_id r = Some mid /\ r_gpu_indices r = cards /\ r_service_port r = port /\
    r_policy_session_id r = Some sid /\ r_status r = Pending /\ r_kind r = Experiment.
Proof.
  intros Hm. unfold add_validation, new_candidate, add_candidate, get_machine, add_run, now, call, db_, gets,
    modify_db, modify, ret, bind. cbn -[next_key lookup insert]. rewrite Hm. cbn -[next_key lookup insert].
  eexists _, _, _, _. split; [reflexivity|]. split; [reflexivity|]. cbn -[next_key lookup insert].
  split_and!; reflexivity.
Qed.

(** A port a launch on the machine of [s] must keep off: a run that holds the
    machine listens on it, or another live session of the machine has it. *)
Definition taken_port (db : database) (s : policy_session) (blockers : list run) (q : Z) : Prop :=
  (exists r, r ∈ blockers /\ port_of db r = q)
  \/ (exists id o, d_sessions db !! id = Some o /\ ps_machine_id o = ps_machine_id s /\ ps_id o <> ps_id s
        /\ terminal_session (ps_status o) = false /\ q ∈ ps_ports o).

(** What a validation may listen on: a port of its session's that no blocker
    holds; when they hold every one, the first port from the campaign's own that
    is nobody's and no NodePort, of 256, or the campaign's own when all of those
    are taken. *)
Definition port_is_free (db : database) (s : policy_session) (c : campaign) (blockers : list run) (p : Z) : Prop :=
  (p ∈ ps_ports s /\ forall r, r ∈ blockers -> r_service_port r <> 0 -> r_service_port r <> p)
  \/ (forall q, q ∈ ps_ports s -> q <> 0 /\ exists r, r ∈ blockers /\ r_service_port r = q)
     /\ ((p <> 0 -> ~ taken_port db s blockers p) /\ node_port_range p = false
           /\ c_service_port c <= p < c_service_port c + 256
           /\ (forall q, c_service_port c <= q < p -> taken_port db s blockers q \/ node_port_range q = true)
         \/ p = c_service_port c /\ forall q, c_service_port c <= q < c_service_port c + 256 ->
              taken_port db s blockers q \/ node_port_range q = true).

Lemma elem_of_ports (f : run -> Z) blockers q :
  q ∈ without_zero (map f blockers) <-> q <> 0 /\ exists r, r ∈ blockers /\ f r = q.
Proof.
  rewrite elem_of_without_zero, list_elem_of_In, in_map_iff. setoid_rewrite <- list_elem_of_In. naive_solver.
Qed.

Lemma elem_of_reserved db s q : q ∈ _ports_reserved_by_others db s <->
  exists id o, d_sessions db !! id = Some o /\ ps_machine_id o = ps_machine_id s /\ ps_id o <> ps_id s
    /\ terminal_session (ps_status o) = false /\ q ∈ ps_ports o.
Proof.
  unfold _ports_reserved_by_others. rewrite list_elem_of_In, in_concat. split.
  - intros (l & Hl & Hq). apply in_map_iff in Hl as (o & <- & Ho). apply list_elem_of_In, elem_of_where in Ho as [Ho E].
    apply elem_of_rows_z in Ho as [id Hid]. apply andb_prop in E as [E H3]. apply andb_prop in E as [H1 H2].
    exists id, o. split; [done|]. apply bool_decide_eq_true in H1. apply negb_true_iff, Z.eqb_neq in H2.
    apply negb_true_iff in H3. split_and!; [done..|]. by apply list_elem_of_In.
  - intros (id & o & Hid & H1 & H2 & H3 & Hq). exists (ps_ports o). split; [|by apply list_elem_of_In].
    apply in_map_iff. exists o. split; [done|]. apply list_elem_of_In, elem_of_where. split; [apply elem_of_rows_z; by exists id|].
    rewrite H3. rewrite (proj2 (Z.eqb_neq _ _) H2). rewrite andb_true_r. cbn. rewrite andb_true_r. by apply bool_decide_eq_true.
Qed.

Lemma elem_of_taken db s blockers q : q ∈ without_zero (map (port_of db) blockers ++ _ports_reserved_by_others db s)
  <-> q <> 0 /\ taken_port db s blockers q.
Proof.
  rewrite elem_of_without_zero, elem_of_app, elem_of_reserved. unfold taken_port.
  rewrite list_elem_of_In, in_map_iff. setoid_rewrite <- list_elem_of_In. naive_solver.
Qed.

Lemma validation_port_free db s c blockers : port_is_free db s c blockers (validation_port db s c blockers).
Proof.
  unfold validation_port, port_is_free.
  destruct (List.find _ (ps_ports s)) as [p|] eqn:Hf.
  - left. apply find_some in Hf as [Hin Hp]. apply negb_true_iff, bool_decide_eq_false in Hp.
    split; [by apply list_elem_of_In|]. intros r Hr Hz E. apply Hp, elem_of_ports. rewrite <- E. eauto.
  - right. split.
    + intros q Hq. eapply find_none in Hf; [|by apply list_elem_of_In].
      apply negb_false_iff, bool_decide_eq_true in Hf. by apply elem_of_ports in Hf.
    + unfold _free_port. destruct (port_loop_spec PORT_TRIES (without_zero (map (port_of db) blockers ++ _ports_reserved_by_others db s))
        (c_service_port c) (c_service_port c)) as [(p & -> & Hr & Hu & Hn & Hl)|[-> Hall]]; [left|right].
      * split_and!; [|done|unfold PORT_TRIES in Hr; lia|unfold PORT_TRIES in Hr; lia|].
        -- intros Hz Ht. by apply Hu, elem_of_taken.
        -- intros q Hq. destruct (Hl q Hq) as [[_ ?]%elem_of_taken|?]; auto.
      * split; [done|]. intros q Hq. destruct (Hall q) as [[_ ?]%elem_of_taken|?]; auto; unfold PORT_TRIES; lia.
Qed.
End launching.

(** C6: a validation takes only what is free.  Launching a config for a session
    whose machine is there either finds too few free cards in the session's
    block, and changes nothing, or adds one pending run of the session on that
    machine: its cards are of the session's block and held by no run that is live
    there or still being torn down, as many as the config uses (or the whole
    block), and its port is one of the session's that none of them holds.  When
    they hold every one, it is the first of 256 from the campaign's own that no
    run there listens on, that is promised to no other live session of the
    machine and is no NodePort; only with all of those taken is it the
    campaign's own. *)
Theorem validations_take_free_cards `{Env} (sid : Z) (c cc : campaign) (k : option contender) (cfg : config)
    (s : policy_session) (mid : Z) (m : machine) (w : world)
    (Hs : d_sessions (w_db w) !! sid = Some s) (Hmid : ps_machine_id s = Some mid)
    (Hm : d_machines (w_db w) !! mid = Some m) (Hc : d_campaigns (w_db w) !! ps_campaign_id s = Some cc)
    (Hcfg : empty_config cfg = false) :
  let blockers := blockers_on (w_db w) (Some mid) in
  let used := Z.min (Z.max (config_cards cc cfg) 1) (Z.of_nat (length (ps_gpu_indices s))) in
  let free := where_ (fun i => negb (bool_decide (i ∈ concat (map r_gpu_indices blockers)))) (ps_gpu_indices s) in
  (Z.of_nat (length free) < used /\ _launch_validation_run sid c k cfg w = (inr false, w)) \/
  exists w' r, _launch_validation_run sid c k cfg w = (inr true, w') /\
    d_runs (w_db w) !! r_id r = None /\ d_runs (w_db w') = <[ r_id r := r ]> (d_runs (w_db w)) /\
    r_machine_id r = Some mid /\ r_policy_session_id r = Some sid /\ r_status r = Pending /\
    (forall i, i ∈ r_gpu_indices r ->
       i ∈ ps_gpu_indices s /\ forall r0, r0 ∈ blockers -> i ∉ r_gpu_indices r0) /\
    Z.of_nat (length (r_gpu_indices r)) = used /\
    port_is_free (w_db w) s c blockers (r_service_port r).
Proof.
  cbv zeta. unfold _launch_validation_run. rewrite (get_session_bind _ _ _ _ Hs).
  rewrite db_bind, Hcfg. cbn [andb]. rewrite (expect_bind _ _ _ _ Hc), Hmid.
  destruct (_validation_cards s cfg (blockers_on (w_db w) (Some mid)) cc) as [cards|] eqn:Ec.
  - right. destruct (add_validation_effect sid c k cfg mid m cards
      (validation_port (w_db w) s c (blockers_on (w_db w) (Some mid))) w Hm)
      as (w1 & r & cdid & rid & E & Hr & Hid & <- & Hmr & Hcards & Hport & Hsr & Hst & _).
    apply validation_cards_spec in Ec as (Hfree & _ & Hlen).
    cbv zeta. rewrite (bind_eq _ _ _ _ _ E). 
    assert (exists w2, (match k with
       | Some k => put_contender (pc_id k) (fun k =>
                     k <| pc_status := BeingServed |> <| pc_candidate_id := Some cdid |>
                       <| pc_run_id := Some (r_id r) |>)
       | None => ret tt
       end ;;;
       event_ (match k with
               | Some _ => "policy_contender_platform_launch"
               | None => "policy_production_validation_launch"
               end) (Some (c_id c)) (Some (r_id r)) ;;;
       ret true) w1 = (inr true, w2) /\ d_runs (w_db w2) = d_runs (w_db w1)) as (w2 & E2 & Er2)
      by (destruct k; eexists; split; reflexivity).
    exists w2, r. split; [exact E2|]. split; [rewrite Hid; apply next_key_fresh|].
    split; [by rewrite Er2|]. do 3 (split; [done|]).
    rewrite Hcards. split; [|split; [done|rewrite Hport; apply validation_port_free]]. intros i Hi. destruct (Hfree i Hi) as [Hb Hn]. split; [done|].
    intros r0 Hr0 Hi0. apply Hn, list_elem_of_In, in_concat. exists (r_gpu_indices r0).
    split; [by apply in_map, list_elem_of_In|by apply list_elem_of_In].
  - left. split; [|done]. unfold _validation_cards in Ec. destruct (ps_gpu_indices s) as [|i block]; [done|].
    destruct (Z.ltb_spec (Z.of_nat (length (where_ (fun i => negb (bool_decide (i ∈ concat (map r_gpu_indices
      (blockers_on (w_db w) (Some mid)))))) (i :: block))))
      (Z.min (Z.max (config_cards cc cfg) 1) (Z.of_nat (length (i :: block))))) as [Hlt|]; done.
Qed.

(** ** Lemmas: a container's environment *)
Lemma endpoint_env_NoDup db p b : NoDup (llm_endpoint_env db p b).*1.
Proof.
  unfold llm_endpoint_env. repeat case_match; cbn; repeat (apply NoDup_cons; split; [set_solver|]); constructor.
Qed.

(** The first that is there. *)
Fixpoint first_some {A} (l : list (option A)) : option A :=
  match l with [] => None | Some a :: _ => Some a | None :: l' => first_some l' end.

(** A policy's environment names its platform, not the other way round.  In the
    environment a policy's container is launched with, the three variables the
    platform speaks for (its address, the session's token, the session's id) are
    the platform's whatever the policy, its secrets and its endpoint set; any
    other variable is the endpoint's key, or the policy's secret, or the
    endpoint's address and model, or the policy's own, in that order, and Python
    is unbuffered unless one of them says otherwise. *)
Theorem platform_variables_win (db : database) (p : policy) (api_url token : string) (sid : Z) (k : string)
    (Hown : NoDup (po_env p).*1) (Hsecrets : NoDup (po_secret_env p).*1) :
  dict_get k (policy_env db p api_url token sid) =
    if String.eqb k "AUTOTUNE_API_URL" then Some api_url
    else if String.eqb k "AUTOTUNE_API_KEY" then Some token
    else if String.eqb k "AUTOTUNE_SESSION_ID" then Some (pretty sid)
    else first_some [dict_get k (llm_endpoint_env db p true); dict_get k (po_secret_env p);
                     dict_get k (llm_endpoint_env db p false); dict_get k (po_env p);
                     if String.eqb k "PYTHONUNBUFFERED" then Some "1" else None].
Proof.
  unfold policy_env, policy_secrets. cbn [foldl].
  rewrite dict_get_update.
  2: { cbn. repeat (apply NoDup_cons; split; [set_solver|]). constructor. }
  unfold dict_get at 1. cbn [List.find fst].
  destruct (String.eqb k "AUTOTUNE_API_URL"); [done|].
  destruct (String.eqb k "AUTOTUNE_API_KEY"); [done|].
  destruct (String.eqb k "AUTOTUNE_SESSION_ID"); [done|]. cbn [fmap option_fmap option_map].
  rewrite dict_get_update by (apply dict_update_NoDup, Hsecrets).
  rewrite (dict_get_update _ (po_secret_env p)) by apply endpoint_env_NoDup. cbn [first_some].
  destruct (dict_get k (llm_endpoint_env db p true)); [done|].
  destruct (dict_get k (po_secret_env p)); [done|].
  rewrite dict_get_update by apply endpoint_env_NoDup.
  destruct (dict_get k (llm_endpoint_env db p false)); [done|].
  rewrite dict_get_update by apply Hown. destruct (dict_get k (po_env p)); [done|].
  unfold dict_get. cbn. by destruct (String.eqb k "PYTHONUNBUFFERED").
Qed.

(** ** Lemmas: handlers that cannot raise *)
Section sure.
Context `{Env} (sid : Z).

(** The session's row is there, no token changes, and time goes on. *)
Definition mild (w w' : world) : Prop :=
  is_Some (d_sessions (w_db w) !! sid) ->
  is_Some (d_sessions (w_db w') !! sid) /\ d_api_keys (w_db w') = d_api_keys (w_db w) /\
  (w_calls w <= w_calls w')%nat.

Definition sure {A} (m : W A) : Prop :=
  forall w, is_Some (d_sessions (w_db w) !! sid) -> exists a w', m w = (inr a, w') /\ mild w w'.

#[export] Instance mild_preorder : PreOrder mild.
Proof.
  split; unfold mild; [done|]. intros x y z Hxy Hyz Hx. destruct (Hxy Hx) as (Hy & E1 & L1).
  destruct (Hyz Hy) as (Hz & E2 & L2). split_and!; [done|congruence|lia].
Qed.

Lemma sure_ret {A} (a : A) : sure (ret a).
Proof. intros w Hw. exists a, w. split; [done|]. reflexivity. Qed.
Lemma sure_bind {A B} (m : W A) (f : A -> W B) : sure m -> (forall a, sure (f a)) -> sure (bind m f).
Proof.
  intros Hm Hf w Hw. destruct (Hm w Hw) as (a & w1 & E1 & H1). destruct (H1 Hw) as (Hw1 & _).
  destruct (Hf a w1 Hw1) as (b & w2 & E2 & H2). exists b, w2. split; [by rewrite (bind_eq _ _ _ _ _ E1)|].
  by etransitivity.
Qed.
Lemma sure_db : sure db_.
Proof. intros w Hw. eexists _, w. split; [done|reflexivity]. Qed.
Lemma sure_call {A} acts (f : nat -> exn + A) : (forall n, exists a, f n = inr a) -> sure (call acts f).
Proof.
  intros Hf w Hw. destruct (Hf (w_calls w)) as [a E]. unfold call. rewrite E. eexists _, _. split; [done|].
  intros _. cbn. split_and!; [done|done|lia].
Qed.
Lemma sure_get : sure (get_session sid).
Proof.
  intros w [s Hs]. exists s, w. unfold get_session. rewrite db_bind. unfold expect. rewrite Hs.
  split; [done|reflexivity].
Qed.
Lemma sure_modify_db f :
  (forall db, is_Some (d_sessions db !! sid) -> is_Some (d_sessions (f db) !! sid)) ->
  (forall db, d_api_keys (f db) = d_api_keys db) -> sure (modify_db f).
Proof.
  intros Hs Hk w Hw. eexists _, _. split; [reflexivity|]. intros _. cbn. split_and!; [by apply Hs|by apply Hk|done].
Qed.
Lemma sure_put_session f : sure (put_session sid f).
Proof.
  apply sure_modify_db; [|done]. intros db [s Hs]. cbn. rewrite lookup_alter_eq, Hs. by eexists.
Qed.

Lemma mild_logged {A} (m : W A) (a : A) : respects mild m -> sure (logged m a).
Proof.
  intros Hm w Hw. specialize (Hm w). unfold logged, try_. destruct (m w) as [[e|x] w'] eqn:E.
  - exists a, w'. by split.
  - exists x, w'. by split.
Qed.
Lemma mild_call {A} acts (f : nat -> exn + A) : respects mild (call acts f).
Proof. intros w Hw. cbn. split_and!; [done|done|lia]. Qed.

Hint Resolve sure_ret sure_db sure_get sure_put_session : core.

Lemma sure_now : sure now.
Proof. apply sure_call. eauto. Qed.
Lemma sure_event kind cid rid : sure (event_ kind cid rid).
Proof. unfold event_, add_event. apply sure_bind; [apply sure_now|]. intros ts. by apply sure_modify_db. Qed.

Lemma sure_store_log log_text : sure (_store_policy_log sid log_text).
Proof.
  unfold _store_policy_log. destruct (blank log_text); [done|].
  apply sure_bind; [done|]. intros s. apply sure_bind; [apply sure_call; eauto|]. intros previous.
  apply sure_bind; [done|]. intros _. apply mild_logged, mild_call.
Qed.

Lemma sure_teardown : sure (_teardown_workload sid).
Proof.
  unfold _teardown_workload. apply sure_bind; [done|]. intros s. apply sure_bind; [done|]. intros db.
  destruct (_workload_handle db s) as [h|]; [|done].
  apply sure_bind; [apply mild_logged, mild_call|]. intros _.
  apply sure_bind.
  - unfold _save_policy_log. apply sure_bind.
    + apply mild_logged. apply respects_bind; [typeclasses eauto|apply mild_call|].
      intros x. apply respects_ret. typeclasses eauto.
    + intros [t|]; [apply sure_store_log|done].
  - intros _. apply mild_logged, mild_call.
Qed.

Lemma sure_release mid : sure (_release_machine_if_idle mid).
Proof.
  unfold _release_machine_if_idle. apply sure_bind; [done|]. intros db.
  repeat case_match; try done. by apply sure_modify_db.
Qed.

Lemma sure_end_campaign : sure (_end_campaign_of sid).
Proof.
  unfold _end_campaign_of. apply sure_bind; [done|]. intros s. apply sure_bind; [done|]. intros db.
  destruct (d_campaigns db !! ps_campaign_id s); [|done].
  apply sure_bind; [apply sure_event|]. intros _. case_match; [|done].
  apply sure_bind; [by apply sure_modify_db|]. intros _. apply sure_event.
Qed.
End sure.

(** A session's token ends with it.  Ending a session always comes through,
    whatever its container's driver answers, and the token found for it then
    expires at the end of the grace it was promised, or when it would have
    before, if that is sooner; no other token changes. *)
Theorem session_token_ends `{Env} (sid : Z) (status : PolicySessionStatus) (error cls : string) (w : world)
    (key : api_key) (Hs : is_Some (d_sessions (w_db w) !! sid)) (Hkey : session_key (w_db w) sid = Some key) :
  exists w' n, _terminate sid status error cls w = (inr tt, w') /\ (w_calls w <= n)%nat /\
    let grace := clock n + policy_token_grace_hours * hour in
    d_api_keys (w_db w') =
      alter (fun k => k <| ak_expires_at := Some (Z.min (default grace (ak_expires_at key)) grace) |>)
        (ak_id key) (d_api_keys (w_db w)).
Proof.
  unfold _terminate. destruct (sure_teardown sid w Hs) as ([] & w1 & E1 & H1). destruct (H1 Hs) as (Hs1 & Ek1 & L1).
  rewrite (bind_eq _ _ _ _ _ E1), put_session_bind, db_bind. set (w2 := w1 <| w_db ::= _ |>).
  assert (session_key (w_db w2) sid = Some key) as Hkey2 by (unfold session_key in *; cbn; by rewrite Ek1).
  rewrite Hkey2. set (n := w_calls w2).
  set (grace := clock n + policy_token_grace_hours * hour).
  set (w3 := (asked w2) <| w_db ::= fun db => db <| d_api_keys ::=
    alter (fun k => k <| ak_expires_at := Some (Z.min (default grace (ak_expires_at key)) grace) |>) (ak_id key) |> |>).
  match goal with |- exists w' n, bind ?m ?k w2 = _ /\ _ => assert (bind m k w2 = k tt w3) as -> by reflexivity end.
  assert (is_Some (d_sessions (w_db w3) !! sid)) as Hs3.
  { destruct Hs1 as [s Es]. unfold w3, w2. cbn. rewrite lookup_alter_eq, Es. by eexists. }
  assert (d_api_keys (w_db w3) = alter (fun k => k <| ak_expires_at :=
    Some (Z.min (default grace (ak_expires_at key)) grace) |>) (ak_id key) (d_api_keys (w_db w))) as Ek3
    by (unfold w3, w2; cbn; by rewrite Ek1).
  assert (sure sid (s <- get_session sid ;; db <- db_ ;;
    (match session_machine db s with Some m => _release_machine_if_idle (m_id m) | None => ret tt end) ;;;
    _end_campaign_of sid)) as Hrest.
  { apply sure_bind; [apply sure_get|]. intros s. apply sure_bind; [apply sure_db|]. intros db.
    apply sure_bind; [|intros _; apply sure_end_campaign].
    destruct (session_machine db s); [apply sure_release|apply sure_ret]. }
  destruct (Hrest w3 Hs3) as ([] & w4 & E4 & H4). destruct (H4 Hs3) as (_ & Ek4 & _).
  exists w4, n. split; [exact E4|]. split; [exact L1|]. cbv zeta. by rewrite Ek4, Ek3.
Qed.

(** ** Where the night goes wrong *)
Section shortfalls.

(** Session 7 is validating on machine 2; its only contender needs its own
    engine image, and the policy's container is gone. *)
Definition last_contender : contender :=
  PolicyContender 5 7 1 (sample_config 2) "their-engine:1" "h5" Registered None None None "".
Definition last_campaign : campaign :=
  sample_campaign <| c_policy_id := Some 1 |> <| c_has_recipe := true |>.
Definition last_session : policy_session :=
  (new_session 7 1 1 5) <| ps_status := Validating |> <| ps_machine_id := Some 2 |>
    <| ps_gpu_indices := [0; 1; 2; 3] |> <| ps_ports := [9000] |>.
Definition last_db : database :=
  empty_database
    <| d_machines := {[ 2 := sample_machine 2 ]} |> <| d_policies := {[ 1 := sample_policy ]} |>
    <| d_campaigns := {[ 1 := last_campaign ]} |> <| d_sessions := {[ 7 := last_session ]} |>
    <| d_contenders := {[ 5 := last_contender ]} |>.

(** Session 7 has been given machine 2 and is to be launched. *)
Definition start_db : database :=
  last_db <| d_sessions := {[ 7 := last_session <| ps_status := SessPending |>
                                     <| ps_container_name := "policy-7" |> ]} |>.

(** What a worker that stops before it has started the container has committed. *)
Definition interrupted : database :=
  (((_ <- sup (prepare_launch 7 last_campaign) ;; commit) (sample_world start_db, start_db)).2).2.

(** A policy that finalized while its engine was being benchmarked. *)
Definition busy_db : database :=
  insert_run ((sample_run 2 1 2 [] Benching) <| r_kind := External |> <| r_launch_run_id := Some 1 |>
                <| r_policy_session_id := Some 7 |>)
    (insert_run ((sample_run 1 1 2 [0] Serving) <| r_kind := PolicyLaunch |> <| r_policy_session_id := Some 7 |>)
       (last_db <| d_sessions := {[ 7 := last_session <| ps_status := Finalizing |>
                                          <| ps_finalized_at := Some 1 |> ]} |>)).
End shortfalls.

(** Production can be measured for a night that is over.  [_advance_validating]
    asks whether production is being measured before it launches it: in a pass
    that launches production and drops the only contender, it closes the session,
    and a one-off campaign with it, with production's run just created and still
    to be measured. *)
Theorem production_outlives_its_night :
  exists w' s' r c',
    _advance_validating 7 last_campaign (Some (sample_machine 2)) (sample_world last_db) = (inr tt, w') /\
    d_sessions (w_db w') !! 7 = Some s' /\ ps_status s' = SessDone /\
    d_campaigns (w_db w') !! 1 = Some c' /\ c_status c' = Done /\
    _reference_run (w_db w') 7 = Some r /\ r_policy_session_id r = Some 7 /\ live_run r = true.
Proof.
  exists (_advance_validating 7 last_campaign (Some (sample_machine 2)) (sample_world last_db)).2.
  eexists _, _, _. split; [vm_compute; reflexivity|]. split; [vm_compute; reflexivity|].
  split; [vm_compute; reflexivity|]. split; [vm_compute; reflexivity|]. split; [vm_compute; reflexivity|].
  split; [vm_compute; reflexivity|]. split; vm_compute; reflexivity.
Qed.

(** A launch that was interrupted leaves a token behind.  A worker that stops
    between committing a session's token and starting its container mints a
    second one when it resumes; ending the session shortens the first token only,
    and the second goes on working for its whole two days. *)
Theorem interrupted_launch_leaves_a_token :
  exists w1 saved w2 s key,
    _advance_pending_session 7 last_campaign (sample_world interrupted, interrupted) = (inr tt, (w1, saved)) /\
    _terminate 7 Aborted "aborted by operator" "" w1 = (inr tt, w2) /\
    d_sessions (w_db w2) !! 7 = Some s /\ terminal_session (ps_status s) = true /\
    d_api_keys (w_db w2) !! 2 = Some key /\ ak_policy_session_id key = Some 7 /\
    default 0 (ak_expires_at key) > clock (w_calls w2) + 47 * hour.
Proof.
  set (a := _advance_pending_session 7 last_campaign (sample_world interrupted, interrupted)).
  exists a.2.1, a.2.2, (_terminate 7 Aborted "aborted by operator" "" a.2.1).2.
  eexists _, _. split; [vm_compute; reflexivity|]. split; [vm_compute; reflexivity|].
  split; [vm_compute; reflexivity|]. split; [vm_compute; reflexivity|]. split; [vm_compute; reflexivity|].
  split; vm_compute; reflexivity.
Qed.

(** Ending a session that has an engine being benchmarked raises: the benchmark
    ends with its launch, and is then ended again.  The next tick comes through. *)
Lemma live_benchmark_delays_the_night :
  exists w1 s1 w2 s2,
    _advance_finalizing 7 last_campaign (Some (sample_machine 2)) (sample_world busy_db) =
      (inl (RuntimeError "illegal transition killed -> killed (run 2)"), w1) /\
    d_sessions (w_db w1) !! 7 = Some s1 /\ ps_status s1 = Finalizing /\
    _advance_finalizing 7 last_campaign (Some (sample_machine 2)) w1 = (inr tt, w2) /\
    d_sessions (w_db w2) !! 7 = Some s2 /\ ps_status s2 = Validating.
Proof.
  set (a := _advance_finalizing 7 last_campaign (Some (sample_machine 2)) (sample_world busy_db)).
  exists a.2. eexists _, (_advance_finalizing 7 last_campaign (Some (sample_machine 2)) a.2).2, _.
  split; [vm_compute; reflexivity|]. split; [vm_compute; reflexivity|].
  split; [vm_compute; reflexivity|]. split; [vm_compute; reflexivity|].
  split; vm_compute; reflexivity.
Qed.

(** ** Witnesses *)
Definition searching_session : policy_session :=
  last_session <| ps_status := Searching |> <| ps_container_name := "policy-7" |>
    <| ps_policy_status := "exhausted" |>.
Definition searching_db : database := last_db <| d_sessions := {[ 7 := searching_session ]} |>.

Lemma finalize_command_is_honoured_witness :
  command_for searching_session last_campaign (Some (sample_machine 2)) 0 None 0 = CmdFinalize /\
  exists w' s', _advance_session 7 (sample_world searching_db, searching_db) = (inr tt, (w', searching_db)) /\
    d_sessions (w_db w') !! 7 = Some s' /\ ps_status s' = Finalizing.
Proof.
  split; [vm_compute; reflexivity|].
  destruct (finalize_command_is_honoured 7 searching_session last_campaign (sample_machine 2)
    (sample_world searching_db) searching_db 0 0 None (Handle 2 "" "policy-7" true)) as (w' & s' & E & Hs' & Hst & _).
  - reflexivity.
  - reflexivity.
  - reflexivity.
  - vm_compute. reflexivity.
  - vm_compute. reflexivity.
  - intros n _. cbn. lia.
  - intros hard E. vm_compute in E. discriminate E.
  - reflexivity.
  - intros n _. reflexivity.
  - intros n _. vm_compute. discriminate.
  - exists w', s'. split; [exact E|]. split; [exact Hs'|exact Hst].
Defined.

Lemma validations_take_free_cards_witness :
  exists w' r, _launch_validation_run 7 last_campaign None (sample_config 2) (sample_world last_db) = (inr true, w') /\
    Z.of_nat (length (r_gpu_indices r)) = 2 /\ r_policy_session_id r = Some 7.
Proof.
  destruct (validations_take_free_cards 7 last_campaign last_campaign None (sample_config 2) last_session 2
    (sample_machine 2) (sample_world last_db)) as [[Hlt _]|(w' & r & E & _ & _ & _ & Hs & _ & _ & Hlen & _)].
  - reflexivity.
  - reflexivity.
  - reflexivity.
  - reflexivity.
  - vm_compute. reflexivity.
  - exfalso. vm_compute in Hlt. discriminate.
  - exists w', r. split; [exact E|]. split; [rewrite Hlen; vm_compute; reflexivity|exact Hs].
Defined.

(** A policy that sets the token's variable does not get to keep it. *)
Lemma platform_variables_win_witness :
  let p := sample_policy <| po_env := [("AUTOTUNE_API_KEY", "mine"); ("EFFORT", "high")] |> in
  dict_get "AUTOTUNE_API_KEY" (policy_env last_db p "http://autotune:8000" "atk_1" 7) = Some "atk_1" /\
  dict_get "EFFORT" (policy_env last_db p "http://autotune:8000" "atk_1" 7) = Some "high".
Proof.
  intros p. split; refine (eq_trans (platform_variables_win last_db p "http://autotune:8000" "atk_1" 7 _ _ _) _).
  - cbn. repeat (apply NoDup_cons; split; [set_solver|]). constructor.
  - constructor.
  - reflexivity.
  - cbn. repeat (apply NoDup_cons; split; [set_solver|]). constructor.
  - constructor.
  - reflexivity.
Defined.

Lemma session_token_ends_witness :
  let w := sample_world (last_db <| d_api_keys := {[ 1 := ApiKey 1 "policy-session-7" "atk" "" 1 (Some 7) None ]} |>) in
  exists w', _terminate 7 SessDone "" "" w = (inr tt, w') /\ is_Some (d_api_keys (w_db w') !! 1).
Proof.
  intros w. destruct (session_token_ends 7 SessDone "" "" w (ApiKey 1 "policy-session-7" "atk" "" 1 (Some 7) None))
    as (w' & n & E & _ & Ek).
  - eexists. reflexivity.
  - vm_compute. reflexivity.
  - exists w'. split; [exact E|]. rewrite Ek. cbn. eexists. reflexivity.
Defined.
