(* ===== verification/Verdicts.v ===== *)
(** What a verdict on a run or a machine costs: a run the cluster has queued is
    not late, a failure that was not the configuration's fault gives its
    candidate back within the budget, and a machine goes home only when nothing
    of ours is left on it. *)
From S2P Require Import Prelude Float Values Documents Space Validation Failures Model States Packing Timing.
From S2P Require Import World Samples Occupancy Fleet Exclusive Finish Placement Nights Reserve Queue Pass.
From S2P Require Import Runs Advance Leases Clock Datasets Plan Ending.
#[local] Open Scope string_scope.
#[local] Open Scope list_scope.
#[local] Open Scope Z_scope.

(** ** Lemmas: waiting *)
Section waiting.
Context `{Env}.

(** What the run's row still says after a step. *)
Definition as_was (rid : Z) (r : run) (w : world) : Prop :=
  exists r', d_runs (w_db w) !! rid = Some r' /\ r_status r' = r_status r /\
             r_failure_class r' = r_failure_class r.

Definition calm_step (rid : Z) (m : W unit) : Prop :=
  forall r w, as_was rid r w -> exists w', m w = (inr tt, w') /\ as_was rid r w'.

Lemma calm_ret rid : calm_step rid (ret tt).
Proof. intros r w Hw. by exists w. Qed.
Lemma calm_event rid kind cid k : calm_step rid (event_ kind cid k).
Proof. intros r w Hw. eexists. split; [done|exact Hw]. Qed.
Lemma calm_put rid f :
  (forall r, r_status (f r) = r_status r /\ r_failure_class (f r) = r_failure_class r) ->
  calm_step rid (put_run rid f).
Proof.
  intros Hf r w (r' & Hr' & Es & Ec). eexists. split; [done|]. unfold as_was. cbn. unfold update_run. rewrite Hr'.
  eexists. split; [cbn; apply lookup_insert_eq|]. cbn. destruct (Hf r') as [-> ->]. done.
Qed.
Lemma calm_seq rid m m' : calm_step rid m -> calm_step rid m' -> calm_step rid (m ;;; m').
Proof.
  intros Hm Hm' r w Hw. destruct (Hm r w Hw) as (w1 & E1 & H1). destruct (Hm' r w1 H1) as (w2 & E2 & H2).
  exists w2. unfold bind. by rewrite E1.
Qed.
Lemma calm_now rid (m : Z -> W unit) : (forall t, calm_step rid (m t)) -> calm_step rid (t <- now ;; m t).
Proof. intros Hm r w Hw. unfold bind, now, call. apply Hm. exact Hw. Qed.
Lemma calm_run rid (m : run -> W unit) : (forall r, calm_step rid (m r)) -> calm_step rid (r <- get_run rid ;; m r).
Proof.
  intros Hm r w Hw. rewrite get_run_bind. destruct Hw as (r' & Hr' & Hrest). rewrite Hr'.
  apply Hm. by exists r'.
Qed.

Ltac calm_walk := repeat first
  [ apply calm_event | apply calm_run; intros ? | apply calm_now; intros ? | apply calm_seq | apply calm_ret
  | apply calm_put; intros ?; split; exact eq_refl | case_match ].

Lemma note_placement_calm rid waiting wf : calm_step rid (_note_placement rid waiting wf).
Proof. unfold _note_placement. calm_walk. Qed.

(** Not late: queued, or in time. *)
Lemma startup_queued r h cls msg w :
  (forall n, drv_startup_status n h = inr Pulling) ->
  (forall n, drv_failure_reason n h = inr (Some (cls, msg))) -> is_transient_placement cls = true ->
  exists v w', _startup_timed_out r h w = (inr v, w') /\ w_db w' = w_db w /\
    match v with Late _ => False | _ => True end.
Proof.
  intros Hp Hf Ht. unfold _startup_timed_out. destruct (r_started_at r) as [t|]; [|by exists InTime, w].
  unfold bind, now, call, logged, try_, db_, gets, ret. cbn. rewrite Hp. cbn.
  destruct (_ <? _); cbn; [rewrite Hf; cbn; rewrite Ht; cbn; by eexists _, _|].
  destruct (_ <? _); cbn; [rewrite Hf; cbn; rewrite Ht; cbn; by eexists _, _|]. by eexists _, _.
Qed.
End waiting.

(** ** Lemmas: what ending a run leaves of the candidates' accounts *)

(** Run [rid] keeps its candidate, kind and failure class; the others keep
    their rows; no candidate changes. *)
Definition account (r : run) := (r_candidate_id r, r_kind r, r_failure_class r).
Definition settled (db db' : database) : Prop :=
  d_candidates db' = d_candidates db /\
  forall k, account <$> d_runs db' !! k = account <$> d_runs db !! k.

#[export] Instance settled_preorder : PreOrder settled.
Proof.
  split; unfold settled; [done|]. intros x y z [C1 K1] [C2 K2]. split; [congruence|]. intros k. by rewrite K2.
Qed.

Lemma update_run_settled rid f db : (forall r, account (f r) = account r) -> settled db (update_run rid f db).
Proof.
  intros Hf. unfold update_run. destruct (d_runs db !! rid) as [r|] eqn:Hr; [|reflexivity].
  split; [done|]. intros k. cbn. destruct (decide (rid = k)) as [<-|Hne]; [|by rewrite lookup_insert_ne].
  rewrite lookup_insert_eq, Hr. cbn. f_equal. exact (Hf r).
Qed.

Lemma put_run_settled rid f : (forall r, account (f r) = account r) -> respects (on_db settled) (put_run rid f).
Proof. intros Hf. apply respects_modify_db. intros db. by apply update_run_settled. Qed.
Lemma modify_db_settled f :
  (forall db, d_candidates (f db) = d_candidates db /\ d_runs (f db) = d_runs db) ->
  respects (on_db settled) (modify_db f).
Proof. intros Hf. apply respects_modify_db. intros db. destruct (Hf db) as [E1 E2]. split; [done|]. by rewrite E2. Qed.
Lemma modify_settled f : (forall w, w_db (f w) = w_db w) -> respects (on_db settled) (modify f).
Proof. intros Hf w. unfold on_db. cbn. by rewrite Hf. Qed.

#[export] Hint Extern 2 (respects (on_db settled) (put_run _ _)) =>
  apply put_run_settled; intros ?; exact eq_refl : effects.
#[export] Hint Extern 2 (respects (on_db settled) (modify_db _)) =>
  apply modify_db_settled; intros ?; split; exact eq_refl : effects.
#[export] Hint Extern 2 (respects (on_db settled) (modify _)) =>
  apply modify_settled; intros ?; exact eq_refl : effects.

Lemma length_where_map {A B} (f : A -> B) (P : B -> bool) (l : list A) :
  length (where_ P (f <$> l)) = length (where_ (fun x => P (f x)) l).
Proof.
  induction l as [|x l IH]; [done|]. unfold where_ in *. rewrite fmap_cons, !filter_cons.
  case_decide; cbn [length]; by rewrite IH.
Qed.

Section ending_alone.
Context `{Env}.

Lemma finish_settled depth rid status error w r :
  d_runs (w_db w) !! rid = Some r -> r_kind r <> PolicyLaunch ->
  settled (w_db w) (w_db (_finish depth rid status error w).2).
Proof.
  intros Hr Hk. destruct depth as [|depth]; cbn [_finish]; [reflexivity|]. rewrite get_run_bind, Hr.
  assert ((r_kind r == PolicyLaunch) = false) as -> by by apply bool_decide_eq_false.
  match goal with |- settled _ (w_db (?m w).2) => assert (respects (on_db settled) m) as Hm end; [|apply Hm].
  unfold _capture_engine_log, _save_run_log, _read_engine_log, _begin_teardown, stop_container, _transition, _spec_for,
    record_sample, _release_run_machines, _release_machine_if_idle, add_event, get_run, get_campaign,
    get_candidate, put_campaign, put_machine, logged, attach, now. respects_walk.
Qed.

Lemma settled_attempts db db' cdid : settled db db' -> attempts db' cdid = attempts db cdid.
Proof.
  intros [_ K]. unfold attempts. f_equal.
  set (counted := fun a : Z * RunKind * string => (a.1.1 =? cdid) && negb (String.eqb a.2 RELEASED)).
  assert (forall t : gmap Z run,
    length (where_ (fun r => (r_candidate_id r =? cdid) && negb (String.eqb (r_failure_class r) RELEASED)) (rows_z t))
    = length (where_ counted (map_to_list (account <$> t)).*2)) as Hcount.
  { intros t.
    assert ((map_to_list (account <$> t)).*2 = account <$> (map_to_list t).*2) as ->.
    { rewrite map_to_list_fmap, <-!list_fmap_compose. by apply list_fmap_ext. }
    rewrite length_where_map. apply Permutation_length. f_equiv.
    unfold rows_z, rows. by rewrite sort_by_perm. }
  assert (account <$> d_runs db' = account <$> d_runs db) as E
    by (apply map_eq; intros k; by rewrite !lookup_fmap). by rewrite !Hcount, E.
Qed.
End ending_alone.

(** ** Lemmas: no machine goes away *)
Definition stays (db db' : database) : Prop :=
  forall mid m', d_machines db' !! mid = Some m' -> m_state m' = Away ->
    exists m, d_machines db !! mid = Some m /\ m_state m = Away.

#[export] Instance stays_preorder : PreOrder stays.
Proof.
  split; unfold stays; [by eauto|]. intros x y z Hxy Hyz mid m Hm Ha.
  destruct (Hyz mid m Hm Ha) as (m2 & H2 & A2). by apply (Hxy mid m2).
Qed.

Lemma put_machine_stays mid f : (forall m, m_state (f m) = Away -> m_state m = Away) ->
  respects (on_db stays) (put_machine mid f).
Proof.
  intros Hf. apply respects_modify_db. intros db k m' Hk Ha. cbn in Hk.
  apply lookup_alter_Some in Hk as [(<- & m & Hm & ->)|[_ Hm]]; eauto.
Qed.
Lemma modify_db_stays f : (forall db, d_machines (f db) = d_machines db) -> respects (on_db stays) (modify_db f).
Proof. intros Hf. apply respects_modify_db. intros db mid m'. rewrite Hf. eauto. Qed.
Lemma put_run_stays rid f : respects (on_db stays) (put_run rid f).
Proof. apply modify_db_stays. intros db. unfold update_run. by case_match. Qed.
Lemma modify_stays f : (forall w, w_db (f w) = w_db w) -> respects (on_db stays) (modify f).
Proof. intros Hf w. unfold on_db. cbn. rewrite Hf. reflexivity. Qed.

#[export] Hint Resolve put_run_stays : effects.
#[export] Hint Extern 2 (respects (on_db stays) (put_machine _ _)) =>
  apply put_machine_stays; intros ?; first [done | by cbn] : effects.
#[export] Hint Extern 2 (respects (on_db stays) (modify_db _)) =>
  apply modify_db_stays; intros ?; exact eq_refl : effects.
#[export] Hint Extern 2 (respects (on_db stays) (modify _)) =>
  apply modify_stays; intros ?; exact eq_refl : effects.

Section lease.
Context `{Env}.

Lemma finish_stays depth : forall rid status error, respects (on_db stays) (_finish depth rid status error).
Proof.
  induction depth as [|depth IH]; intros rid status error; cbn [_finish]; [respects_walk|].
  unfold _capture_engine_log, _save_run_log, _read_engine_log, _begin_teardown, stop_container, _transition, _spec_for,
    record_sample, _release_run_machines, _release_machine_if_idle, stop_benchmark, event_, add_event,
    put_campaign, get_run, get_campaign, get_candidate, logged, attach, now. respects_walk.
Qed.

Lemma finish_all_stays rid status error : respects (on_db stays) (finish rid status error).
Proof. apply finish_stays. Qed.
Hint Resolve finish_all_stays : effects.

(** What a machine that goes away had left on it. *)
Lemma drain_goes_away mid w m' :
  d_machines (w_db (_advance_drain mid w).2) !! mid = Some m' -> m_state m' = Away ->
  (exists m, d_machines (w_db w) !! mid = Some m /\ m_state m = Away) \/
  (live_runs_on (w_db w) mid = [] /\ live_sessions_on (w_db w) mid = [] /\
   d_runs (w_db (_advance_drain mid w).2) = d_runs (w_db w)).
Proof.
  intros Hm' Haway. unfold _advance_drain in *. unfold bind at 1, db_ at 1, gets at 1 in Hm'.
  unfold bind at 1, db_ at 1, gets at 1.
  match type of Hm' with d_machines (w_db (?f w).2) !! _ = _ =>
    assert (live_runs_on (w_db w) mid <> [] \/ live_sessions_on (w_db w) mid <> [] -> on_db stays w (f w).2) as Hs end.
  { intros Hbusy. unfold get_machine, bind at 1, bind at 1, db_, gets.
    destruct (d_machines (w_db w) !! mid) as [m|]; [|cbn; reflexivity]. cbn [expect]. unfold ret at 1.
    destruct (live_sessions_on (w_db w) mid) as [|s ss]; cbn [head].
    - destruct (live_runs_on (w_db w) mid) as [|r rs]; [by destruct Hbusy|].
      match goal with |- on_db stays w (?m w).2 => assert (respects (on_db stays) m) as Hr end; [|apply Hr].
      unfold cancel_benchmark, now. respects_walk.
    - match goal with |- on_db stays w (?m w).2 => assert (respects (on_db stays) m) as Hr end; [|apply Hr].
      unfold put_session, event_, add_event, now. respects_walk. }
  destruct (live_sessions_on (w_db w) mid) as [|s ss] eqn:Es.
  - destruct (live_runs_on (w_db w) mid) as [|r rs] eqn:Er.
    + right. split; [done|]. split; [done|]. clear Hs Hm'. unfold get_machine, bind at 1, bind at 1, db_, gets.
      destruct (d_machines (w_db w) !! mid) as [m|]; [|done]. done.
    + left. apply (Hs ltac:(by left) mid m' Hm' Haway).
  - left. apply (Hs ltac:(by right) mid m' Hm' Haway).
Qed.
End lease.

Section properties.
Context `{Env}.

(** What [_begin_drain] leaves as it was. *)
Lemma begin_drain_effect mid mode w m :
  d_machines (w_db w) !! mid = Some m ->
  exists w', _begin_drain mid mode w = (inr tt, w') /\
    d_machines (w_db w') !! mid
      = Some (m <| m_lease_state := LeaseDraining |> <| m_lease_end_mode := Some mode |>) /\
    d_runs (w_db w') = d_runs (w_db w) /\ d_nodes (w_db w') = d_nodes (w_db w) /\
    d_sessions (w_db w') = d_sessions (w_db w).
Proof.
  intros Hm. eexists. split; [done|]. cbn. split; [|done]. by rewrite lookup_alter_eq, Hm.
Qed.

(** A machine goes home empty.  When the step of a machine's lease turns it
    away, there was no live run and no live policy session on it, and its lease
    was being ended, or had run out while no paused campaign froze it. *)
Theorem released_machine_is_empty (mid : Z) (w : world) (m m' : machine)
    (Hm : d_machines (w_db w) !! mid = Some m) (Hhere : m_state m <> Away)
    (Hm' : d_machines (w_db (_advance_lease mid w).2) !! mid = Some m') (Haway : m_state m' = Away) :
  live_runs_on (w_db w) mid = [] /\ live_sessions_on (w_db w) mid = [] /\
  (m_lease_state m = LeaseDraining \/
   exists moment, lease_expired moment m = true /\ frozen_by_pause (w_db w) m = false).
Proof.
  unfold _advance_lease in Hm'. unfold get_machine at 1 in Hm'. unfold bind at 1, bind at 1, db_ at 1, gets at 1 in Hm'.
  rewrite Hm in Hm'. cbn [expect] in Hm'. unfold ret at 1 in Hm'.
  unfold bind at 1, now, call in Hm'. unfold bind at 1, db_ at 1, gets at 1 in Hm'. cbn [w_db update_field eta_world] in Hm'.
  set (moment := clock (w_calls w)) in *.
  match type of Hm' with context [bind (if _ then _ else _) _ ?w0] => set (w1 := w0) in * end.
  assert (w_db w1 = w_db w) as Ew1 by done.
  destruct (lease_expired moment m && negb (frozen_by_pause (w_db w) m)) eqn:Hdue.
  - apply andb_true_iff in Hdue as [Hexp Hfrozen]. apply negb_true_iff in Hfrozen.
    destruct (begin_drain_effect mid Polite w1 m) as (w2 & E & Hm2 & Er & En & Es); [done|].
    unfold bind at 1 in Hm'. rewrite E in Hm'.
    unfold get_machine at 1, bind at 1, bind at 1, db_ at 1, gets at 1 in Hm'. rewrite Hm2 in Hm'. cbn in Hm'.
    destruct (drain_goes_away mid w2 m' Hm' Haway) as [(m2 & Hm2' & A)|(H1 & H2 & _)].
    + rewrite Hm2 in Hm2'. injection Hm2' as <-. by cbn in A.
    + unfold live_runs_on, live_sessions_on, occupies, run_ids_on_machine, node_rows in *.
      rewrite Er, En, Ew1 in H1. rewrite Es, Ew1 in H2. split; [done|]. split; [done|]. right. by exists moment.
  - unfold bind at 1, ret in Hm'.
    unfold get_machine at 1, bind at 1, bind at 1, db_ at 1, gets at 1 in Hm'. rewrite Ew1, Hm in Hm'. cbn [expect] in Hm'.
    unfold ret at 1 in Hm'. destruct (m_lease_state m == LeaseDraining) eqn:Hl; cbn [negb] in Hm'.
    + destruct (drain_goes_away mid w1 m' Hm' Haway) as [(m2 & Hm2 & A)|(H1 & H2 & _)].
      * rewrite Ew1 in Hm2. congruence.
      * rewrite Ew1 in H1, H2. split; [done|]. split; [done|]. left. by apply bool_decide_eq_true in Hl.
    + change (d_machines (w_db w) !! mid = Some m') in Hm'. congruence.
Qed.

(** A run the cluster has queued is never late.  While the pods of a run that
    is coming up wait for cards, the step of the run leaves it coming up,
    waiting for readiness, with no failure on it, however long it has waited. *)
Theorem queued_runs_never_time_out (rid : Z) (h : handle) (cls msg : string) (r : run) (w : world)
    (Hrun : d_runs (w_db w) !! rid = Some r) (Hup : r_status r = Launching \/ r_status r = WaitingReady)
    (Hstate : forall n, drv_state n h = inr StateStarting)
    (Hpulling : forall n, drv_startup_status n h = inr Pulling)
    (Hreason : forall n, drv_failure_reason n h = inr (Some (cls, msg)))
    (Htransient : is_transient_placement cls = true) :
  exists w' r', _advance_starting rid (Some h) w = (inr tt, w') /\
    d_runs (w_db w') !! rid = Some r' /\ r_status r' = WaitingReady /\
    r_failure_class r' = r_failure_class r.
Proof.
  unfold _advance_starting. unfold bind at 1, call. rewrite Hstate. rewrite get_run_bind. cbn [w_db update_field eta_world].
  rewrite Hrun. match goal with |- context [bind _ _ ?w0] => set (w0_ := w0) end.
  destruct (startup_queued r h cls msg w0_ Hpulling Hreason Htransient) as (v & w1 & E1 & Edb & Hv).
  assert (as_was rid r w1) as Hw1 by (exists r; by rewrite Edb).
  assert (forall reason wf, exists w' r', (_note_placement rid reason wf ;;;
     (if r_status r == Launching then _transition rid WaitingReady else ret tt)) w1 = (inr tt, w') /\
    d_runs (w_db w') !! rid = Some r' /\ r_status r' = WaitingReady /\ r_failure_class r' = r_failure_class r) as Hend.
  { intros reason wf. unfold bind at 1.
    destruct (note_placement_calm rid reason wf r w1 Hw1) as (w2 & -> & (r2 & Hr2 & Es2 & Ec2)).
    destruct Hup as [Hup|Hup]; rewrite Hup.
    - change (Launching == Launching) with true. cbv iota. unfold _transition. rewrite get_run_bind, Hr2, Es2, Hup.
      change (can_transition Launching WaitingReady) with true. cbn [negb].
      destruct (add_event_run "run_transition" (Some (r_campaign_id r2)) (Some rid) (Some WaitingReady) "" w2)
        as (w3 & E3 & D3). unfold bind. rewrite E3.
      eexists _, _. split; [done|]. cbn. rewrite D3. unfold update_run. cbn. rewrite Hr2. cbn.
      rewrite lookup_insert_eq. by split_and!.
    - exists w2, r2. by rewrite Es2, Hup. }
  unfold bind at 1. rewrite E1. destruct v as [why|reason|]; [done|apply Hend|apply Hend].
Qed.

(** What the candidates' accounts say once [rid] is failed with [cls]. *)
Definition charged (rid : Z) (cls : string) (db : database) : database :=
  update_run rid (fun r => r <| r_failure_class := cls |>) db.

(** C11: a failure gives its candidate back exactly within the budget.  Failing a
    run of an experiment queues its candidate again if and only if the failure
    was the infrastructure's and fewer than three of the candidate's runs,
    withdrawn ones apart and this one included, count as attempts; no other
    candidate changes. *)
Theorem retry_budget_is_exact (rid : Z) (cls error : string) (r : run) (cd : candidate) (w w' : world)
    (Hrun : d_runs (w_db w) !! rid = Some r) (Hkind : r_kind r = Experiment)
    (Hcd : d_candidates (w_db w) !! r_candidate_id r = Some cd) (Htaken : cd_status cd <> Valid)
    (Hfail : _fail rid cls error w = (inr tt, w')) :
  (exists cd', d_candidates (w_db w') !! r_candidate_id r = Some cd' /\
     (cd_status cd' = Valid <->
      is_infrastructure cls = true /\
      attempts (charged rid cls (w_db w)) (r_candidate_id r) < MAX_ATTEMPTS_PER_CANDIDATE)) /\
  (forall k, k <> r_candidate_id r -> d_candidates (w_db w') !! k = d_candidates (w_db w) !! k).
Proof.
  unfold _fail, finish in Hfail. unfold bind at 1, put_run, modify_db, modify in Hfail.
  match type of Hfail with (_ ;;; _) ?w0 = _ => set (w1 := w0) in * end.
  assert (w_db w1 = charged rid cls (w_db w)) as E1 by done.
  assert (d_runs (w_db w1) !! rid = Some (r <| r_failure_class := cls |> <| r_id := rid |>)) as Hr1.
  { rewrite E1. unfold charged, update_run. rewrite Hrun. cbn. by rewrite lookup_insert_eq. }
  assert (d_candidates (w_db w1) = d_candidates (w_db w)) as Ec1.
  { rewrite E1. unfold charged, update_run. by rewrite Hrun. }
  clearbody w1.
  assert (settled (w_db w1) (w_db (_finish DEPTH rid Failed error w1).2)) as Hsettled.
  { eapply finish_settled; [exact Hr1|]. cbn. by rewrite Hkind. }
  unfold bind in Hfail. destruct (_finish DEPTH rid Failed error w1) as [[e|[]] w2]; [done|].
  cbn [snd] in Hsettled. pose proof (settled_attempts _ _ (r_candidate_id r) Hsettled) as Hatt.
  destruct Hsettled as [Ec2 K]. specialize (K rid). rewrite Hr1 in K. cbn in K.
  destruct (d_runs (w_db w2) !! rid) as [r2|] eqn:Hr2; [|done]. injection K as Kc Kk Kf. cbn in Kc, Kk, Kf.
  unfold _requeue_if_infrastructure in Hfail. rewrite get_run_bind, Hr2, Kk, Hkind, Kf, Kc in Hfail.
  change (Experiment == BaselineRun) with false in Hfail. change (Experiment == PolicyLaunch) with false in Hfail.
  change (Experiment == External) with false in Hfail. cbv iota in Hfail. cbn [orb] in Hfail.
  rewrite Ec1 in Ec2.
  destruct (is_infrastructure cls) eqn:Hinf; cbn [negb] in Hfail.
  2: { injection Hfail as <-. rewrite Ec2. split; [|done]. exists cd. split; [done|]. split; [done|by intros []]. }
  unfold bind at 1, db_, gets in Hfail. rewrite Hatt, E1 in Hfail.
  destruct (MAX_ATTEMPTS_PER_CANDIDATE <=? attempts (charged rid cls (w_db w)) (r_candidate_id r)) eqn:Hmax.
  - match type of Hfail with event_ ?k ?a ?b w2 = _ =>
      destruct (add_event_run k a b None "" w2) as (w3 & E3 & D3); unfold event_ in Hfail; rewrite E3 in Hfail end.
    injection Hfail as <-. rewrite D3. cbn. rewrite Ec2. split; [|done]. exists cd. split; [done|].
    split; [done|intros [_ ?]; lia].
  - unfold bind, put_candidate, modify_db, modify in Hfail.
    match type of Hfail with event_ ?k ?a ?b ?w3 = _ =>
      destruct (add_event_run k a b None "" w3) as (w4 & E4 & D4); unfold event_ in Hfail; rewrite E4 in Hfail end.
    injection Hfail as <-. rewrite D4. cbn. rewrite Ec2. split.
    + rewrite lookup_alter_eq, Hcd. eexists. split; [done|]. split; [intros _; split; [done|lia]|done].
    + intros k Hk. by rewrite lookup_alter_ne.
Qed.
End properties.

(** ** Witnesses *)
Definition fail_world : world := (_fail 1 "ssh_timeout" "ssh timeout" (sample_world sample_db)).2.

Lemma retry_budget_is_exact_witness :
  (_fail 1 "ssh_timeout" "ssh timeout" (sample_world sample_db)).1 = inr tt /\
  exists cd', d_candidates (w_db fail_world) !! 1 = Some cd' /\ cd_status cd' = Valid.
Proof.
  split; [vm_compute; reflexivity|].
  destruct (retry_budget_is_exact 1 "ssh_timeout" "ssh timeout" (sample_run 1 1 1 [0; 1; 2; 3] Benching)
    (sample_candidate 1 4 Exhausted) (sample_world sample_db) fail_world) as [(cd' & Hcd' & Hv) _];
    [reflexivity|reflexivity|reflexivity|discriminate|vm_compute; reflexivity|].
  exists cd'. split; [exact Hcd'|]. apply Hv. split; vm_compute; reflexivity.
Defined.

(** Machine 2 is being handed back and runs nothing. *)
Definition drained_machine : machine := (sample_machine 2) <| m_lease_state := LeaseDraining |>.
Definition drained_db : database := sample_db <| d_machines ::= <[ 2 := drained_machine ]> |>.

Lemma released_machine_is_empty_witness :
  exists m', d_machines (w_db (_advance_lease 2 (sample_world drained_db)).2) !! 2 = Some m' /\
    m_state m' = Away /\ live_runs_on drained_db 2 = [].
Proof.
  eexists. split; [vm_compute; reflexivity|]. split; [reflexivity|].
  apply (released_machine_is_empty 2 (sample_world drained_db) drained_machine
    (match d_machines (w_db (_advance_lease 2 (sample_world drained_db)).2) !! 2 with
     | Some m => m | None => drained_machine end)); [reflexivity|discriminate|vm_compute; reflexivity..].
Defined.

(** A cluster that has kept a run's pods waiting for cards for a day. *)
Definition queued_env : Env :=
  env_with (fun n => 60000000 * Z.of_nat n) StateStarting Pulling (Some ("unschedulable", "0/2 nodes")).
Definition queued_run : run :=
  (sample_run 1 1 1 [0; 1; 2; 3] Launching) <| r_started_at := Some (-86400000000) |>.
Definition queued_world : world := sample_world (sample_db <| d_runs ::= <[ 1 := queued_run ]> |>).

Lemma queued_runs_never_time_out_witness :
  exists w' r', _advance_starting (H := queued_env) 1 (Some (Handle 1 "" "" false)) queued_world = (inr tt, w') /\
    d_runs (w_db w') !! 1 = Some r' /\ r_status r' = WaitingReady.
Proof.
  destruct (queued_runs_never_time_out (H := queued_env) 1 (Handle 1 "" "" false) "unschedulable" "0/2 nodes"
    queued_run queued_world) as (w' & r' & E & Hr' & Hs & _);
    [reflexivity|left; reflexivity|reflexivity|reflexivity|reflexivity|vm_compute; reflexivity|].
  exists w', r'. split; [exact E|]. split; [exact Hr'|exact Hs].
Defined.
