(* ===== verification/Measures.v ===== *)
(** The measures: the platform's own names for what a benchmark found, and how
    one number is named ([measures/catalog.py], [measures/refs.py]); and the
    numbers of a JSON document as Python compares and prints them (a comparison
    may raise a TypeError).

    The reference syntax is a regular expression whose classes hold none of the
    separators that follow them, so the expression never has two ways to match
    a text: [match_ref] reads it from left to right without backing up.
    Reading a reference checks it against the catalogue; a reference that was
    read reads back from its own spelling. *)
From Stdlib Require Import Ascii SpecFloat.
From S2P Require Import Prelude Float Values Texts Documents.
#[local] Open Scope string_scope.
#[local] Open Scope list_scope.
#[local] Open Scope Z_scope.

(** * Numbers as Python compares and prints them *)

(** ** Comparing *)
Inductive num := NZ (z : Z) | NF (x : float).
Definition num_of (v : scalar) : option num :=
  match v with
  | VBool b => Some (NZ (bool_int b))
  | VInt z => Some (NZ z)
  | VFloat x => Some (NF x)
  | _ => None
  end.

(** An integer against a float, exactly. *)
Definition int_cmp_float (z : Z) (x : float) : option comparison :=
  match x with
  | S754_zero _ => Some (z ?= 0)
  | S754_infinity false => Some Lt
  | S754_infinity true => Some Gt
  | S754_nan => None
  | S754_finite s m e =>
      let v := if s then Zneg m else Zpos m in
      Some (if 0 <=? e then z ?= v * 2 ^ e else z * 2 ^ (- e) ?= v)
  end.

(** [None]: unordered, as a NaN is with every number. *)
Definition num_cmp (a b : num) : option comparison :=
  match a, b with
  | NZ x, NZ y => Some (x ?= y)
  | NF x, NF y => SFcompare x y
  | NZ x, NF y => int_cmp_float x y
  | NF x, NZ y => CompOpp <$> int_cmp_float y x
  end.

Definition str_cmp (s t : string) : comparison :=
  if tuple_lt (key_of_string s) (key_of_string t) then Lt
  else if tuple_lt (key_of_string t) (key_of_string s) then Gt else Eq.

(** [None]: Python raises a TypeError. *)
Definition scalar_cmp (v w : scalar) : option (option comparison) :=
  match v, w with
  | VStr s, VStr t => Some (Some (str_cmp s t))
  | _, _ =>
      match num_of v, num_of w with
      | Some x, Some y => Some (num_cmp x y)
      | _, _ => None
      end
  end.

(** Lists compare at the first place they differ. *)
Fixpoint doc_cmp (a b : doc) : option (option comparison) :=
  match a, b with
  | Sc v, Sc w => scalar_cmp v w
  | Ls l, Ls k =>
      (fix go (l k : list doc) : option (option comparison) :=
         match l, k with
         | [], [] => Some (Some Eq)
         | [], _ :: _ => Some (Some Lt)
         | _ :: _, [] => Some (Some Gt)
         | x :: l', y :: k' => if doc_eq x y then go l' k' else doc_cmp x y
         end) l k
  | _, _ => None
  end.

Definition is_lt (c : option comparison) : bool := match c with Some Lt => true | _ => false end.
Definition is_le (c : option comparison) : bool := match c with Some Lt | Some Eq => true | _ => false end.
Definition is_gt (c : option comparison) : bool := match c with Some Gt => true | _ => false end.
Definition is_ge (c : option comparison) : bool := match c with Some Gt | Some Eq => true | _ => false end.

(** ** Printing *)
Definition f_is_integer (x : float) : bool :=
  match x with
  | S754_zero _ => true
  | S754_finite _ m e => (0 <=? e) || (Zpos m mod 2 ^ (- e) =? 0)
  | _ => false
  end.

(** [f"{x:.{p}g}"]: [p] significant digits, the zeros after the point dropped,
    an exponent below 1e-4 and from 10**p up. *)
Definition format_g (p : Z) (x : float) : string :=
  match x with
  | S754_zero s => if s then "-0" else "0"
  | S754_infinity s => if s then "-inf" else "inf"
  | S754_nan => "nan"
  | S754_finite s m e =>
      let q := decimal_point 700 (Zpos m) e 309 - p in
      let '(k, q) := trim_zeros 400 (scaled (Zpos m) e q) q in
      let ds := z_digits k in
      let nd := Z.of_nat (String.length ds) in
      let dp := nd + q in
      (if s then "-" else "") +:+
      if (-4 <? dp) && (dp <=? p) then
        if 0 <=? q then ds +:+ pad_zeros (Z.to_nat q)
        else if 0 <? dp
          then String.substring 0 (Z.to_nat dp) ds +:+ "."
               +:+ String.substring (Z.to_nat dp) (Z.to_nat (nd - dp)) ds
          else "0." +:+ pad_zeros (Z.to_nat (- dp)) +:+ ds
      else
        let ex := dp - 1 in
        let digits := if nd =? 1 then ds
                      else String.substring 0 1 ds +:+ "." +:+ String.substring 1 (Z.to_nat (nd - 1)) ds in
        let ex_digits := z_digits (Z.abs ex) in
        digits +:+ (if ex <? 0 then "e-" else "e+")
          +:+ (if Z.abs ex <? 10 then "0" +:+ ex_digits else ex_digits)
  end.

(** [f"{v:g}"] of an int or a float; an int is formatted as a float. *)
Definition num_float (n : num) : float := match n with NZ z => f_of_Z z | NF x => x end.
Definition format_num (n : num) : string := format_g 6 (num_float n).

Example format_g_samples :
  map (fun s => format_g 4 (default f_zero (parse_float s))) ["0.0599"; "1234567"; "99995"; "0.00001234"; "5000"; "0.12345"]
  = ["0.0599"; "1.235e+06"; "1e+05"; "1.234e-05"; "5000"; "0.1235"].
Proof. vm_compute. reflexivity. Qed.

(** ** Lemmas *)
Lemma SFcompare_refl x : is_number x = true -> SFcompare x x = Some Eq.
Proof.
  destruct x as [s|[]| |[] m e]; try done; intros _; unfold SFcompare; rewrite Z.compare_refl.
  - change (PosDef.Pos.compare_cont Eq m m) with (m ?= m)%positive. by rewrite Pos.compare_refl.
  - change (PosDef.Pos.compare_cont Eq m m) with (m ?= m)%positive. by rewrite Pos.compare_refl.
Qed.

(** A comparison the other way round. *)
Lemma is_ge_lt c : is_ge c = true -> is_lt c = false.
Proof. by destruct c as [[]|]. Qed.

(** ** The catalogue *)
Inductive better := higher | lower.
#[export] Instance better_dec : EqDecision better. Proof. solve_decision. Defined.

Definition THROUGHPUT : string := "throughput".
Definition REQUEST : string := "per request".
Definition LATENCY : string := "latency".
Definition HEALTH : string := "health".
Definition WORKLOAD : string := "workload".
Definition QUALITY : string := "quality".
Definition SCORE : string := "score".

Definition STATS : list string := ["mean"; "p10"; "p50"; "p90"; "p99"].
Definition PROMPT_BUCKETS : list string :=
  ["lt_6k"; "6k_16k"; "16k_32k"; "32k_64k"; "64k_128k"; "128k_256k"; "ge_256k"].

Record Measure := mkMeasure {
  me_name : string;
  me_label : string;
  me_unit : string;
  (** [None]: neither more nor fewer is an improvement. *)
  me_better : option better;
  me_group : string;
  me_meaning : string;
  me_stats : list string;
  me_default_stat : option string;
  me_qualifier : string;
  me_qualifier_values : list string }.

Definition rankable (m : Measure) : bool := bool_decide (is_Some (me_better m)).

Definition _m (name label unit : string) (b : option better) (group meaning : string)
    (stats : list string) (default_stat : option string) (qualifier : string) (values : list string) : Measure :=
  mkMeasure name label unit b group meaning stats default_stat qualifier values.

Definition _LAT_STATS : list string := ["mean"; "p50"; "p90"; "p99"].

Definition MEASURES : list Measure := [
  _m "output_tpm_per_gpu" "Output tokens/min per GPU" "tok/min/GPU" (Some higher) THROUGHPUT
    "Generated tokens per minute of wall clock, divided by the GPUs the config occupies."
    [] None "" [];
  _m "input_tpm_per_gpu" "Input tokens/min per GPU" "tok/min/GPU" (Some higher) THROUGHPUT
    "Prompt tokens processed per minute, cached ones included, per GPU."
    [] None "" [];
  _m "uncached_input_tpm_per_gpu" "Uncached input tokens/min per GPU" "tok/min/GPU" (Some higher) THROUGHPUT
    "Prompt tokens actually computed (not served from the prefix cache) per minute, per GPU."
    [] None "" [];
  _m "cached_input_tpm_per_gpu" "Cached input tokens/min per GPU" "tok/min/GPU" (Some higher) THROUGHPUT
    "Prompt tokens served from the prefix cache per minute, per GPU."
    [] None "" [];
  _m "total_tpm_per_gpu" "Total tokens/min per GPU" "tok/min/GPU" (Some higher) THROUGHPUT
    "Input plus output tokens per minute, per GPU."
    [] None "" [];
  _m "output_tpm" "Output tokens/min" "tok/min" (Some higher) THROUGHPUT
    "Generated tokens per minute for the whole deployment. Rewards using more GPUs; prefer the per-GPU form unless sizing a fixed deployment."
    [] None "" [];
  _m "input_tpm" "Input tokens/min" "tok/min" (Some higher) THROUGHPUT
    "Prompt tokens per minute for the whole deployment, cached ones included."
    [] None "" [];
  _m "uncached_input_tpm" "Uncached input tokens/min" "tok/min" (Some higher) THROUGHPUT
    "Prompt tokens actually computed per minute, whole deployment."
    [] None "" [];
  _m "cached_input_tpm" "Cached input tokens/min" "tok/min" (Some higher) THROUGHPUT
    "Prompt tokens served from the prefix cache per minute, whole deployment."
    [] None "" [];
  _m "total_tpm" "Total tokens/min" "tok/min" (Some higher) THROUGHPUT
    "Input plus output tokens per minute, whole deployment."
    [] None "" [];
  _m "request_rate" "Completed requests/s" "req/s" (Some higher) THROUGHPUT
    "Requests completed per second of the measurement window, whole deployment."
    [] None "" [];
  _m "request_output_tps" "Per-request output speed" "tok/s" (Some higher) REQUEST
    "Output tokens per second one request sees, over its whole life (queueing and prefill included). A sweep reports it as aggregate output ÷ concurrency, a mean only; a replay measures it per request and also reports its spread."
    ["mean"; "p10"; "p50"; "p90"] (Some "mean") "" [];
  _m "request_prefill_tps" "Per-request prefill speed" "tok/s" (Some higher) REQUEST
    "Prompt tokens per second of time to first token, per request."
    ["mean"; "p10"; "p50"; "p90"] (Some "mean") "" [];
  _m "ttft_ms" "Time to first token" "ms" (Some lower) LATENCY
    "From sending a request to its first generated token."
    _LAT_STATS None "prompt bucket" PROMPT_BUCKETS;
  _m "itl_ms" "Inter-token latency" "ms" (Some lower) LATENCY
    "Gap between consecutive streamed tokens."
    _LAT_STATS None "" [];
  _m "tpot_ms" "Time per output token" "ms" (Some lower) LATENCY
    "Decode time per generated token after the first."
    _LAT_STATS None "" [];
  _m "e2e_latency_ms" "End-to-end latency" "ms" (Some lower) LATENCY
    "From sending a request to its last token."
    _LAT_STATS None "" [];
  _m "success_rate" "Success rate" "" (Some higher) HEALTH
    "Share of requests the service actually received that succeeded (LLMBench calls it uptime). Requests a benchmark never dispatched are not counted against it."
    [] None "" [];
  _m "error_rate" "Error rate" "" (Some lower) HEALTH
    "Share of requests the service received that failed."
    [] None "" [];
  _m "unfinished_rate" "Unfinished rate" "" (Some lower) HEALTH
    "Share of requests that returned without a finish marker (the stream just stopped)."
    [] None "" [];
  _m "truncated_rate" "Truncated rate" "" (Some lower) HEALTH
    "Share of completed requests cut off by the length limit."
    [] None "" [];
  _m "not_started_rate" "Not-started rate" "" (Some lower) HEALTH
    "Share of the workload the benchmark never dispatched because its time ran out. Above zero, the throughput describes only part of the workload."
    [] None "" [];
  _m "meets_slo" "Meets the SLO" "" (Some higher) HEALTH
    "1 when the operating point held the benchmark's own service target (a sweep's per-request speed floor and TTFT cap), else 0."
    [] None "" [];
  _m "requests_total" "Requests in the workload" "req" None HEALTH
    "Requests the benchmark meant to send (a sweep: those measured in the window)."
    [] None "" [];
  _m "requests_completed" "Requests completed" "req" None HEALTH
    "Requests that succeeded."
    [] None "" [];
  _m "requests_failed" "Requests failed" "req" None HEALTH
    "Requests that errored."
    [] None "" [];
  _m "requests_not_started" "Requests not started" "req" None HEALTH
    "Requests never dispatched."
    [] None "" [];
  _m "requests_unfinished" "Requests unfinished" "req" None HEALTH
    "Requests that returned without a finish marker."
    [] None "" [];
  _m "requests_truncated" "Requests truncated" "req" None HEALTH
    "Requests cut off by the length limit."
    [] None "" [];
  _m "requests_runaway" "Runaway generations" "req" None HEALTH
    "Requests the client had to stop because the server generated past the length it was given, or that ended repeating one token."
    [] None "" [];
  _m "concurrency" "Concurrency" "" None WORKLOAD
    "Requests in flight at the operating point."
    [] None "" [];
  _m "prompt_tokens_mean" "Prompt length" "tok" None WORKLOAD
    "Mean prompt tokens per request (a sweep: the configured length)."
    [] None "" [];
  _m "completion_tokens_mean" "Completion length" "tok" None WORKLOAD
    "Mean generated tokens per request (a sweep: the configured length)."
    [] None "" [];
  _m "cache_hit_rate" "Prefix cache hit rate" "" (Some higher) WORKLOAD
    "Share of prompt tokens served from the prefix cache, token-weighted."
    [] None "" [];
  _m "window_s" "Measurement window" "s" None WORKLOAD
    "Length of the window the numbers describe."
    [] None "" [];
  _m "prompt_bucket_requests" "Requests in a prompt bucket" "req" None WORKLOAD
    "Completed requests whose prompt fell in the bucket — read it before trusting the bucket's TTFT."
    [] None "prompt bucket" PROMPT_BUCKETS;
  _m "pass_rate" "Functional pass rate" "" (Some higher) QUALITY
    "Share of functional checks passed."
    [] None "" [];
  _m "tool_call_success_rate" "Tool-call success rate" "" (Some higher) QUALITY
    "Share of tool-call requests answered with a valid tool call."
    [] None "" [];
  _m "hallucination_rate" "Hallucination rate" "" (Some lower) QUALITY
    "Share of judged answers with a clear hallucination."
    [] None "" [];
  _m "answer_quality_rate" "Answer quality" "" (Some higher) QUALITY
    "Share of judged answers rated good or acceptable."
    [] None "" [];
  _m "poor_answer_rate" "Poor answers" "" (Some lower) QUALITY
    "Share of judged answers rated poor (off-topic, empty, broken format)."
    [] None "" [];
  _m "long_output_completion_rate" "Long-output completion" "" (Some higher) QUALITY
    "How much of a requested long output the model produced before stopping."
    [] None "" [];
  _m "accuracy" "Accuracy" "" (Some higher) QUALITY
    "Share of a task's questions answered correctly."
    [] None "task" [];
  _m "score" "Module score" "" (Some higher) SCORE
    "The module's own score under the benchmark's weights. For a replay it is a value-weighted token rate; for a quality suite a weighted accuracy. Changes when the benchmark's weights are edited."
    [] None "" [];
  _m "score_per_gpu" "Module score per GPU" "" (Some higher) SCORE
    "The module score divided by the GPUs the config occupies — only for a module whose score is a throughput (a replay)."
    [] None "" []].

Definition BY_NAME (name : string) : option Measure :=
  List.find (fun m => String.eqb name (me_name m)) MEASURES.

Definition ALIASES : list (string * string) := [("uptime", "success_rate")].
Definition unaliased (name : string) : string := default name (dict_get name ALIASES).

Definition lookup_measure (name : string) : option Measure := BY_NAME (unaliased name).

(** ** One number's name *)
Record MeasureRef := mkRef {
  mr_measure : string;
  mr_stat : option string;
  mr_qualifier : option string;
  mr_point : option string;
  mr_scenario : option string }.

Definition given (o : option string) : option string :=
  match o with Some s => if String.eqb s "" then None else Some s | None => None end.

Definition ref_key (r : MeasureRef) : string :=
  mr_measure r
  +:+ match given (mr_stat r) with Some s => "@" +:+ s | None => "" end
  +:+ match given (mr_qualifier r) with Some q => "[" +:+ q +:+ "]" | None => "" end.

Definition ref_str (r : MeasureRef) : string :=
  match given (mr_scenario r) with Some sc => sc +:+ "/" | None => "" end
  +:+ ref_key r
  +:+ match given (mr_point r) with
      | Some p => if String.eqb p "operating" then "" else ":" +:+ p
      | None => ""
      end.

(** ** The expression [_REF] *)
Definition is_upper (c : ascii) : bool := (65 <=? code c) && (code c <=? 90).
Definition scenario_char (c : ascii) : bool :=
  is_upper c || is_lower c || is_digit c || Ascii.eqb c "_" || Ascii.eqb c "-".
Definition measure_char (c : ascii) : bool := is_lower c || is_digit c || Ascii.eqb c "_".
Definition stat_char (c : ascii) : bool := is_lower c || is_digit c.
Definition qualifier_char (c : ascii) : bool := scenario_char c || Ascii.eqb c ".".

(** A greedy, non-empty run of a class, and what follows it. *)
Fixpoint span (p : ascii -> bool) (l : list ascii) : list ascii * list ascii :=
  match l with
  | c :: l' => if p c then let '(w, r) := span p l' in (c :: w, r) else ([], l)
  | [] => ([], [])
  end.
Definition run_of (p : ascii -> bool) (l : list ascii) : option (list ascii * list ascii) :=
  match span p l with
  | ([], _) => None
  | wr => Some wr
  end.

(** [(?:SEP(class+))?]: a separator that is not followed by the class is left
    to what comes next in the expression, which never starts with it. *)
Definition opt_after (sep : ascii) (p : ascii -> bool) (l : list ascii)
    : option (option (list ascii) * list ascii) :=
  match l with
  | c :: l' =>
      if Ascii.eqb c sep
      then match run_of p l' with Some (w, r) => Some (Some w, r) | None => None end
      else Some (None, l)
  | [] => Some (None, [])
  end.

(** [(?:\[(class+)\])?]. *)
Definition opt_brackets (p : ascii -> bool) (l : list ascii)
    : option (option (list ascii) * list ascii) :=
  match l with
  | c :: l' =>
      if Ascii.eqb c "["
      then match run_of p l' with
           | Some (w, c' :: r) => if Ascii.eqb c' "]" then Some (Some w, r) else None
           | _ => None
           end
      else Some (None, l)
  | [] => Some (None, [])
  end.

(** [(?:([A-Za-z0-9_\-]+(?:#\d+)?)/)?]. *)
Definition scenario_prefix (l : list ascii) : option (list ascii * list ascii) :=
  match run_of scenario_char l with
  | Some (w, c :: r) =>
      if Ascii.eqb c "/" then Some (w, r)
      else if Ascii.eqb c "#"
      then match run_of is_digit r with
           | Some (d, c' :: r') => if Ascii.eqb c' "/" then Some (w ++ "#"%char :: d, r') else None
           | _ => None
           end
      else None
  | _ => None
  end.

Record matched := mkMatched {
  mt_scenario : option string;
  mt_measure : string;
  mt_stat : option string;
  mt_qualifier : option string;
  mt_point : option string }.

(** [$] also stands before a newline that ends the text. *)
Definition at_end (l : list ascii) : bool := bool_decide (l = [] \/ l = [newline]).

Definition match_rest (scenario : option (list ascii)) (l : list ascii) : option matched :=
  '(m, l) ← run_of measure_char l;
  '(s, l) ← opt_after "@" stat_char l;
  '(q, l) ← opt_brackets qualifier_char l;
  '(p, l) ← opt_after ":" stat_char l;
  if at_end l
  then Some (mkMatched (of_chars <$> scenario) (of_chars m) (of_chars <$> s) (of_chars <$> q) (of_chars <$> p))
  else None.

Definition match_ref (text : string) : option matched :=
  match scenario_prefix (chars text) with
  | Some (sc, l) => match_rest (Some sc) l
  | None => match_rest None (chars text)
  end.

(** [_POINT], on what [_REF] answers for a point. *)
Definition is_point (p : string) : bool :=
  String.eqb p "operating" || String.eqb p "peak"
  || match chars p with
     | c :: ((_ :: _) as digits) => Ascii.eqb c "c" && forallb is_digit digits
     | _ => false
     end.

(** ** Reading a name *)
Definition uses_syntax (text : string) : bool :=
  existsb (fun c => Ascii.eqb c "/" || Ascii.eqb c "@" || Ascii.eqb c "[" || Ascii.eqb c ":") (chars text).
Definition has_dot (text : string) : bool := existsb (Ascii.eqb ".") (chars text).

Definition is_measure_ref (text : string) : bool :=
  if String.eqb text "" || has_dot text then false
  else match match_ref text with
       | None => uses_syntax text
       | Some m => if uses_syntax text then true else bool_decide (is_Some (lookup_measure (mt_measure m)))
       end.

(** [RefError]: what a reference asks for that no measure can answer. *)
Definition RefError : Type := string.

Definition read_stat (name : string) (spec : Measure) (asked : option string) : RefError + option string :=
  match me_stats spec with
  | [] => match asked with Some _ => inl (name +:+ " takes no statistic") | None => inr None end
  | stats =>
      match (match asked with Some s => Some s | None => me_default_stat spec end) with
      | None =>
          inl (name +:+ " needs a statistic, one of " +:+ comma_join stats +:+ ": e.g. "
               +:+ name +:+ "@" +:+ default "" (last stats))
      | Some s =>
          if bool_decide (s ∈ stats) then inr (Some s)
          else inl (name +:+ " has no statistic " +:+ str_repr s +:+ "; it has " +:+ comma_join stats)
      end
  end.

Definition read_qualifier (name : string) (spec : Measure) (asked : option string) : RefError + option string :=
  match asked with
  | Some q =>
      if String.eqb (me_qualifier spec) "" then inl (name +:+ " takes no qualifier")
      else if negb (bool_decide (me_qualifier_values spec = [])) && negb (bool_decide (q ∈ me_qualifier_values spec))
      then inl (name +:+ " has no " +:+ me_qualifier spec +:+ " " +:+ str_repr q +:+ "; it has "
                +:+ comma_join (me_qualifier_values spec))
      else inr (Some q)
  | None =>
      if negb (String.eqb (me_qualifier spec) "") && bool_decide (me_qualifier_values spec = [])
      then inl (name +:+ " needs a " +:+ me_qualifier spec +:+ ": e.g. " +:+ name +:+ "[gpqa_diamond]")
      else inr None
  end.

Definition read_point (asked : option string) : RefError + option string :=
  match asked with
  | Some p =>
      if is_point p then inr (if String.eqb p "operating" then None else Some p)
      else inl ("unknown point " +:+ str_repr p +:+ ": use operating, peak or a sweep level like c8")
  | None => inr None
  end.

Definition parse_ref (text : string) : RefError + MeasureRef :=
  match match_ref (strip text) with
  | None => inl ("not a measure reference: " +:+ str_repr text)
  | Some m =>
      let name := unaliased (mt_measure m) in
      match BY_NAME name with
      | None => inl ("unknown measure " +:+ str_repr (mt_measure m))
      | Some spec =>
          match read_stat name spec (mt_stat m) with
          | inl e => inl e
          | inr stat =>
              match read_qualifier name spec (mt_qualifier m) with
              | inl e => inl e
              | inr qualifier =>
                  match read_point (mt_point m) with
                  | inl e => inl e
                  | inr point => inr (mkRef name stat qualifier point (mt_scenario m))
                  end
              end
          end
      end
  end.

(** The en dash a bucket's name is shown with. *)
Definition dashed (s : string) : string :=
  of_chars (concat (map (fun c => if Ascii.eqb c "_" then chars "–" else [c]) (chars s))).

Definition ref_label (r : MeasureRef) : string :=
  let spec := lookup_measure (mr_measure r) in
  (match spec with Some m => me_label m | None => mr_measure r end)
  +:+ match given (mr_stat r) with
      | Some s => if bool_decide (Some s = (spec ≫= me_default_stat)) then "" else " " +:+ s
      | None => ""
      end
  +:+ match given (mr_qualifier r) with Some q => ", " +:+ dashed q | None => "" end
  +:+ match given (mr_point r) with Some p => " (" +:+ p +:+ ")" | None => "" end.

(** ** The catalogue as data *)
Definition better_str (b : better) : string := match b with higher => "higher" | lower => "lower" end.
Definition str_doc (s : string) : doc := Sc (VStr s).
Definition opt_doc (o : option string) : doc := match o with Some s => str_doc s | None => Sc VNone end.

Definition measure_doc (m : Measure) : tree := [
  ("name", str_doc (me_name m)); ("label", str_doc (me_label m)); ("unit", str_doc (me_unit m));
  ("better", opt_doc (better_str <$> me_better m)); ("group", str_doc (me_group m));
  ("meaning", str_doc (me_meaning m)); ("stats", Ls (map str_doc (me_stats m)));
  ("default_stat", opt_doc (me_default_stat m)); ("qualifier", str_doc (me_qualifier m));
  ("qualifier_values", Ls (map str_doc (me_qualifier_values m)))].
Definition catalogue : list tree := map measure_doc MEASURES.

Definition _HEADLINE : list string :=
  ["output_tpm_per_gpu"; "total_tpm_per_gpu"; "ttft_ms@p99"; "request_output_tps"; "success_rate"; "score_per_gpu"].

Definition to_upper (c : ascii) : ascii := if is_lower c then ascii_of_nat (nat_of_ascii c - 32) else c.
Definition capitalize (s : string) : string :=
  match chars s with c :: l => of_chars (to_upper c :: map to_lower l) | [] => "" end.

Definition option_entry (m : Measure) (stat : option string) : tree :=
  let plain := bool_decide (stat = None) || bool_decide (stat = me_default_stat m) in
  let key := if plain then me_name m else me_name m +:+ "@" +:+ default "" stat in
  let label := if plain then me_label m else me_label m +:+ " " +:+ default "" stat in
  [("key", str_doc key); ("label", str_doc label); ("better", opt_doc (better_str <$> me_better m));
   ("help", str_doc (me_meaning m)); ("unit", str_doc (me_unit m));
   ("headline", Sc (VBool (bool_decide (key ∈ _HEADLINE)))); ("group", str_doc (capitalize (me_group m)));
   ("measure", Sc (VBool true))].

Definition options : list tree :=
  concat (map (fun m =>
    if negb (String.eqb (me_qualifier m) "") && bool_decide (me_qualifier_values m = []) then []
    else map (option_entry m) (match me_stats m with [] => [None] | stats => map Some stats end)) MEASURES).

(** ** Reading runs *)
Definition stops (p : ascii -> bool) (l : list ascii) : Prop :=
  match l with c :: _ => p c = false | [] => True end.

Lemma span_app p w r : forallb p w = true -> stops p r -> span p (w ++ r) = (w, r).
Proof.
  induction w as [|c w IH]; cbn.
  - intros _ Hr. destruct r as [|c r]; [done|]. cbn in *. by rewrite Hr.
  - intros [Hc Hw]%andb_true_iff Hr. by rewrite Hc, IH.
Qed.

Lemma span_spec p l w r : span p l = (w, r) -> l = w ++ r /\ forallb p w = true /\ stops p r.
Proof.
  revert w r. induction l as [|c l IH]; cbn; intros w r; [by intros [= <- <-]|].
  destruct (p c) eqn:Hc; [|by intros [= <- <-]].
  destruct (span p l) as [w' r'] eqn:E. intros [= <- <-].
  destruct (IH _ _ eq_refl) as (-> & Hw & Hr). cbn. by rewrite Hc.
Qed.

Lemma run_of_app p w r : w <> [] -> forallb p w = true -> stops p r -> run_of p (w ++ r) = Some (w, r).
Proof. intros Hw Hp Hr. unfold run_of. rewrite span_app by done. by destruct w. Qed.

Lemma run_of_spec p l w r :
  run_of p l = Some (w, r) -> l = w ++ r /\ w <> [] /\ forallb p w = true /\ stops p r.
Proof.
  unfold run_of. destruct (span p l) as [[|c w'] r'] eqn:E; [done|]. intros [= <- <-].
  apply span_spec in E as (-> & Hw & Hr). done.
Qed.

(** What [opt_after] may answer, and how it is spelled. *)
Definition part_ok (p : ascii -> bool) (o : option (list ascii)) : Prop :=
  match o with Some w => w <> [] /\ forallb p w = true | None => True end.
Definition after (sep : ascii) (o : option (list ascii)) : list ascii :=
  match o with Some w => sep :: w | None => [] end.
Definition in_brackets (o : option (list ascii)) : list ascii :=
  match o with Some w => "["%char :: w ++ ["]"%char] | None => [] end.

Lemma opt_after_ok sep p l o r : opt_after sep p l = Some (o, r) -> part_ok p o.
Proof.
  destruct l as [|c l]; cbn; [by intros [= <- _]|]. destruct (Ascii.eqb c sep); [|by intros [= <- _]].
  destruct (run_of p l) as [[w r']|] eqn:E; [|done]. intros [= <- _]. by apply run_of_spec in E as (_ & ? & ? & _).
Qed.

Lemma opt_after_spelled sep p o r : part_ok p o -> stops p r -> stops (Ascii.eqb sep) r ->
  opt_after sep p (after sep o ++ r) = Some (o, r).
Proof.
  intros Ho Hr Hs. destruct o as [w|]; cbn.
  - destruct Ho as [Hw Hp]. by rewrite Ascii.eqb_refl, run_of_app.
  - destruct r as [|c r]; [done|]. cbn in *. rewrite Ascii.eqb_sym, Hs. done.
Qed.

Lemma opt_brackets_ok p l o r : opt_brackets p l = Some (o, r) -> part_ok p o.
Proof.
  destruct l as [|c l]; cbn; [by intros [= <- _]|]. destruct (Ascii.eqb c "["); [|by intros [= <- _]].
  destruct (run_of p l) as [[w [|c' r']]|] eqn:E; [done| |done].
  destruct (Ascii.eqb c' "]"); [|done]. intros [= <- _]. by apply run_of_spec in E as (_ & ? & ? & _).
Qed.

Lemma opt_brackets_spelled p o r : part_ok p o -> p "]"%char = false -> stops (Ascii.eqb "["%char) r ->
  opt_brackets p (in_brackets o ++ r) = Some (o, r).
Proof.
  intros Ho Hb Hs. destruct o as [w|]; cbn.
  - destruct Ho as [Hw Hp]. rewrite <- app_assoc. cbn. by rewrite run_of_app.
  - destruct r as [|c r]; [done|]. change (Ascii.eqb "[" c = false) in Hs.
    unfold opt_brackets. cbn [app]. by rewrite (Ascii.eqb_sym c "["), Hs.
Qed.

Lemma measure_is_scenario_char c : measure_char c = true -> scenario_char c = true.
Proof. unfold measure_char, scenario_char. destruct (is_upper c), (is_lower c), (is_digit c), (Ascii.eqb c "_"); done. Qed.

Lemma scenario_prefix_spelled l w r : scenario_prefix l = Some (w, r) ->
  w <> [] /\ forallb (fun c => scenario_char c || Ascii.eqb c "#") w = true /\
  forall r', scenario_prefix (w ++ "/"%char :: r') = Some (w, r').
Proof.
  unfold scenario_prefix. destruct (run_of scenario_char l) as [[a [|c r1]]|] eqn:E; [done| |done].
  apply run_of_spec in E as (-> & Ha & Hsc & _).
  assert (forallb (fun c => scenario_char c || Ascii.eqb c "#") a = true) as Hor
    by (eapply forallb_weaken; [|exact Hsc]; cbn; intros x ->; done).
  destruct (Ascii.eqb c "/") eqn:E1.
  { intros [= <- <-]. split; [done|]. split; [done|]. intros r'. by rewrite run_of_app. }
  destruct (Ascii.eqb c "#") eqn:E2; [|done].
  destruct (run_of is_digit r1) as [[d [|c' r2]]|] eqn:E3; [done| |done].
  destruct (Ascii.eqb c' "/"); [|done]. intros [= <- <-].
  apply run_of_spec in E3 as (-> & Hd & Hdd & _).
  split; [by destruct a|]. split.
  - rewrite forallb_app, Hor. cbn. eapply forallb_weaken; [|exact Hdd].
    intros x Hx. unfold scenario_char. by rewrite Hx, !orb_true_r.
  - intros r'. rewrite <- app_assoc. rewrite run_of_app by done. cbn -[run_of].
    by rewrite run_of_app.
Qed.

(** Nothing that starts with a measure's name reads as a scenario, unless a
    slash or a hash follows the name. *)
Lemma no_scenario m r : forallb measure_char m = true -> m <> [] ->
  stops scenario_char r -> stops (Ascii.eqb "/"%char) r -> stops (Ascii.eqb "#"%char) r ->
  scenario_prefix (m ++ r) = None.
Proof.
  intros Hm Hne Hr H1 H2. unfold scenario_prefix. rewrite run_of_app; [|done| |done].
  - destruct r as [|c r]; [done|]. change (Ascii.eqb "/" c = false) in H1. change (Ascii.eqb "#" c = false) in H2.
    by rewrite (Ascii.eqb_sym c "/"), H1, (Ascii.eqb_sym c "#"), H2.
  - eapply forallb_weaken; [|exact Hm]. apply measure_is_scenario_char.
Qed.

(** What [match_ref] reads, spelled again. *)
Definition scenario_part (o : option (list ascii)) : list ascii :=
  match o with Some w => w ++ ["/"%char] | None => [] end.
Definition spelled (sc : option (list ascii)) (m : list ascii) (s q p : option (list ascii)) : list ascii :=
  scenario_part sc ++ m ++ after "@" s ++ in_brackets q ++ after ":" p.

Definition scenario_ok (o : option (list ascii)) : Prop :=
  match o with
  | Some w => w <> [] /\ forallb (fun c => scenario_char c || Ascii.eqb c "#") w = true
              /\ forall r, scenario_prefix (w ++ "/"%char :: r) = Some (w, r)
  | None => True
  end.

Record parts_ok (sc : option (list ascii)) (m : list ascii) (s q p : option (list ascii)) : Prop := {
  ok_scenario : scenario_ok sc;
  ok_measure : m <> [] /\ forallb measure_char m = true;
  ok_stat : part_ok stat_char s;
  ok_qualifier : part_ok qualifier_char q;
  ok_point : part_ok stat_char p }.

Lemma match_rest_ok sc l x : match_rest sc l = Some x -> exists m s q p,
  x = mkMatched (of_chars <$> sc) (of_chars m) (of_chars <$> s) (of_chars <$> q) (of_chars <$> p)
  /\ (m <> [] /\ forallb measure_char m = true) /\ part_ok stat_char s /\ part_ok qualifier_char q
  /\ part_ok stat_char p.
Proof.
  unfold match_rest. intros H.
  apply bind_Some in H as ([m l1] & (_ & Hm & Hmc & _)%run_of_spec & H).
  apply bind_Some in H as ([s l2] & Hs%opt_after_ok & H).
  apply bind_Some in H as ([q l3] & Hq%opt_brackets_ok & H).
  apply bind_Some in H as ([p l4] & Hp%opt_after_ok & H).
  destruct (at_end l4); [|done]. injection H as <-. by exists m, s, q, p.
Qed.

Lemma match_ref_ok text x : match_ref text = Some x -> exists sc m s q p,
  x = mkMatched (of_chars <$> sc) (of_chars m) (of_chars <$> s) (of_chars <$> q) (of_chars <$> p)
  /\ parts_ok sc m s q p.
Proof.
  unfold match_ref. destruct (scenario_prefix (chars text)) as [[w l]|] eqn:E; intros H.
  - apply scenario_prefix_spelled in E.
    apply match_rest_ok in H as (m & s & q & p & -> & ? & ? & ? & ?). by exists (Some w), m, s, q, p.
  - apply match_rest_ok in H as (m & s & q & p & -> & ? & ? & ? & ?). by exists None, m, s, q, p.
Qed.

Lemma match_rest_spelled sc m s q p : parts_ok sc m s q p ->
  match_rest sc (m ++ after "@" s ++ in_brackets q ++ after ":" p)
  = Some (mkMatched (of_chars <$> sc) (of_chars m) (of_chars <$> s) (of_chars <$> q) (of_chars <$> p)).
Proof.
  intros [_ [Hm Hmc] Hs Hq Hp]. unfold match_rest.
  rewrite run_of_app; [|done|done|by destruct s, q, p]. cbn [mbind option_bind].
  rewrite opt_after_spelled; [|done|by destruct q, p|by destruct q, p]. cbn [mbind option_bind].
  rewrite opt_brackets_spelled; [|done|done|by destruct p]. cbn [mbind option_bind].
  rewrite <- (app_nil_r (after ":" p)), opt_after_spelled by done. done.
Qed.

Lemma match_ref_spelled sc m s q p : parts_ok sc m s q p ->
  match_ref (of_chars (spelled sc m s q p))
  = Some (mkMatched (of_chars <$> sc) (of_chars m) (of_chars <$> s) (of_chars <$> q) (of_chars <$> p)).
Proof.
  intros Hok. unfold match_ref, spelled. rewrite chars_of_chars. destruct sc as [w|]; cbn [scenario_part].
  - destruct (ok_scenario _ _ _ _ _ Hok) as (_ & _ & Hw). rewrite <- app_assoc. cbn [app].
    rewrite Hw. by apply match_rest_spelled.
  - destruct (ok_measure _ _ _ _ _ Hok) as [Hm Hmc]. cbn [app].
    rewrite no_scenario; [by apply match_rest_spelled|done|done|..]; by destruct s, q, p.
Qed.

(** ** The catalogue's own names *)
Definition entry_ok (m : Measure) : bool :=
  negb (String.eqb (me_name m) "") && forallb measure_char (chars (me_name m))
  && String.eqb (unaliased (me_name m)) (me_name m)
  && forallb (fun s => negb (String.eqb s "") && forallb stat_char (chars s)) (me_stats m).

Lemma catalogue_ok : forallb entry_ok MEASURES = true.
Proof. vm_compute. reflexivity. Qed.

Lemma by_name name spec : BY_NAME name = Some spec -> name = me_name spec /\ entry_ok spec = true.
Proof.
  intros H%find_some. destruct H as [Hin Hn%String.eqb_eq]. split; [done|].
  eapply forallb_elem; [exact catalogue_ok|by apply list_elem_of_In].
Qed.

Lemma read_stat_again name spec a st : entry_ok spec = true -> read_stat name spec a = inr st ->
  read_stat name spec st = inr st /\ part_ok stat_char (chars <$> st) /\ given st = st.
Proof.
  unfold read_stat, entry_ok. intros [_ Hok]%andb_true_iff H.
  destruct (me_stats spec) as [|s0 l]; [by destruct a; simplify_eq|].
  set (asked := match a with Some s => Some s | None => me_default_stat spec end) in H.
  destruct asked as [s|]; [|done]. destruct (bool_decide_reflect (s ∈ s0 :: l)) as [Hin|]; [|done].
  injection H as <-. rewrite bool_decide_true by done. split; [done|].
  pose proof (forallb_elem _ _ _ Hok Hin) as [Hne Hc]%andb_true_iff. cbn. destruct (String.eqb_spec s ""); [done|].
  split; [|done]. split; [|done]. by destruct s.
Qed.

Lemma read_qualifier_same name spec a q : read_qualifier name spec a = inr q -> q = a.
Proof. unfold read_qualifier. destruct a; repeat case_match; by intros; simplify_eq. Qed.

Lemma read_point_again a p : read_point a = inr p ->
  read_point p = inr p /\ (p = None \/ p = a /\ p <> Some "operating").
Proof.
  unfold read_point. destruct a as [s|]; [|intros [= <-]; by split; [|left]].
  destruct (is_point s) eqn:E; [|done]. intros [= <-].
  destruct (String.eqb_spec s "operating"); [by split; [|left]|]. rewrite E.
  destruct (String.eqb_spec s "operating"); [done|]. split; [done|]. right. split; [done|]. by intros [= ->].
Qed.

Lemma part_given p o : part_ok p o -> given (of_chars <$> o) = of_chars <$> o.
Proof. destruct o as [[|c w]|]; cbn; [by intros []|done|done]. Qed.

Lemma parse_ref_parts text r : parse_ref text = inr r -> exists sc m s q p spec,
  parts_ok sc m s q p /\ BY_NAME (of_chars m) = Some spec /\ unaliased (of_chars m) = of_chars m
  /\ r = mkRef (of_chars m) (of_chars <$> s) (of_chars <$> q) (of_chars <$> p) (of_chars <$> sc)
  /\ read_stat (of_chars m) spec (of_chars <$> s) = inr (of_chars <$> s)
  /\ read_qualifier (of_chars m) spec (of_chars <$> q) = inr (of_chars <$> q)
  /\ read_point (of_chars <$> p) = inr (of_chars <$> p) /\ p <> Some (chars "operating").
Proof.
  unfold parse_ref. destruct (match_ref (strip text)) as [x|] eqn:E; [|done].
  apply match_ref_ok in E as (sc & m & s & q & p & -> & [Hsc Hm Hs Hq Hp]).
  cbn [mt_scenario mt_measure mt_stat mt_qualifier mt_point].
  destruct (BY_NAME (unaliased (of_chars m))) as [spec|] eqn:Hspec; [|done].
  apply by_name in Hspec as Hn. destruct Hn as [Hname Hok].
  destruct (read_stat _ _ _) as [|st] eqn:Est; [done|].
  destruct (read_qualifier _ _ _) as [|qu] eqn:Equ; [done|].
  destruct (read_point _) as [|po] eqn:Epo; [done|]. intros [= <-].
  apply read_stat_again in Est as (Hst & Hstok & _); [|done].
  pose proof (read_qualifier_same _ _ _ _ Equ) as ->. apply read_point_again in Epo as [Hpo Hpo'].
  set (name := unaliased (of_chars m)) in *.
  exists sc, (chars name), (chars <$> st), q, (chars <$> po), spec.
  assert (forall o : option string, of_chars <$> (chars <$> o) = o) as Hround
    by (intros [o|]; cbn; by rewrite ?of_chars_chars).
  rewrite !of_chars_chars, !Hround. unfold entry_ok in Hok. rewrite <- Hname, !andb_true_iff in Hok.
  destruct Hok as (((Hne & Hch) & Hal) & _). split.
  - split; [done| |done|done|].
    + split; [|done]. by destruct name.
    + destruct Hpo' as [->|[-> _]]; [done|]. by destruct p as [w|]; cbn; rewrite ?chars_of_chars.
  - repeat (split; [first [done|by apply String.eqb_eq]|]).
    destruct Hpo' as [->|[_ Hnop]]; [done|]. intros H. destruct po as [po|]; [|done].
    apply Hnop. f_equal. apply chars_inj. by injection H.
Qed.

Lemma of_chars_app a b : of_chars (a ++ b) = of_chars a +:+ of_chars b.
Proof. apply chars_inj. by rewrite chars_app, !chars_of_chars. Qed.

Lemma ref_str_spelled sc m s q p : parts_ok sc m s q p -> p <> Some (chars "operating") ->
  ref_str (mkRef (of_chars m) (of_chars <$> s) (of_chars <$> q) (of_chars <$> p) (of_chars <$> sc))
  = of_chars (spelled sc m s q p).
Proof.
  intros [Hsc _ Hs Hq Hp] Hop. unfold ref_str, ref_key, spelled. cbn [mr_measure mr_stat mr_qualifier mr_point mr_scenario].
  rewrite (part_given _ s Hs), (part_given _ q Hq), (part_given _ p Hp).
  assert (given (of_chars <$> sc) = of_chars <$> sc) as -> by (by destruct sc as [[|c w]|]; [destruct Hsc| |]).
  apply chars_inj. rewrite chars_of_chars, !chars_app, chars_of_chars.
  assert (chars match of_chars <$> sc with Some sc' => sc' +:+ "/" | None => "" end = scenario_part sc) as ->
    by (destruct sc; cbn -[chars of_chars]; rewrite ?chars_app, ?chars_of_chars; done).
  assert (chars match of_chars <$> s with Some s' => "@" +:+ s' | None => "" end = after "@" s) as ->
    by (destruct s; cbn -[chars of_chars]; rewrite ?chars_app, ?chars_of_chars; done).
  assert (chars match of_chars <$> q with Some q' => "[" +:+ q' +:+ "]" | None => "" end = in_brackets q) as ->
    by (destruct q; cbn -[chars of_chars]; rewrite ?chars_app, ?chars_of_chars; done).
  rewrite <- !app_assoc. do 4 f_equal. destruct p as [w|]; [|done]. cbn -[chars of_chars].
  destruct (String.eqb_spec (of_chars w) "operating") as [Ew|_].
  - destruct Hop. f_equal. by rewrite <- Ew, chars_of_chars.
  - by rewrite chars_app, chars_of_chars.
Qed.

Lemma spelled_no_space sc m s q p : parts_ok sc m s q p ->
  forallb (fun c => negb (is_space c)) (spelled sc m s q p) = true.
Proof.
  intros [Hsc [_ Hm] Hs Hq Hp]. unfold spelled.
  assert (forall c, measure_char c = true -> negb (is_space c) = true) as H1
    by (intros [[] [] [] [] [] [] [] []]; vm_compute; congruence).
  assert (forall c, qualifier_char c = true -> negb (is_space c) = true) as H2
    by (intros [[] [] [] [] [] [] [] []]; vm_compute; congruence).
  assert (forall c, stat_char c = true -> negb (is_space c) = true) as H3
    by (intros [[] [] [] [] [] [] [] []]; vm_compute; congruence).
  assert (forall c, scenario_char c || Ascii.eqb c "#" = true -> negb (is_space c) = true) as H4
    by (intros [[] [] [] [] [] [] [] []]; vm_compute; congruence).
  rewrite !forallb_app, !andb_true_iff. repeat split.
  - destruct sc as [w|]; [|done]. cbn [scenario_part]. destruct Hsc as (_ & Hw & _).
    rewrite forallb_app, (forallb_weaken _ _ _ H4 Hw). done.
  - exact (forallb_weaken _ _ _ H1 Hm).
  - destruct s as [w|]; [|done]. destruct Hs as [_ Hw]. exact (forallb_weaken _ _ _ H3 Hw).
  - destruct q as [w|]; [|done]. destruct Hq as [_ Hw]. cbn [in_brackets forallb].
    rewrite forallb_app, (forallb_weaken _ _ _ H2 Hw). done.
  - destruct p as [w|]; [|done]. destruct Hp as [_ Hw]. exact (forallb_weaken _ _ _ H3 Hw).
Qed.

Lemma spelled_not_empty sc m s q p : parts_ok sc m s q p ->
  String.eqb (of_chars (spelled sc m s q p)) "" = false.
Proof.
  intros [Hsc [Hm _] _ _ _]. apply String.eqb_neq. intros H.
  apply (f_equal chars) in H. rewrite chars_of_chars in H. unfold spelled in H.
  destruct m as [|c m]; [done|]. destruct sc as [[|c' w]|]; done.
Qed.

(** A reference that was read is read again, as itself, from its own spelling, however it was
    written (an alias, a statistic left to its default, the operating point named); and that spelling
    is taken for a measure, and not for a raw key of the benchmark, exactly when it holds no dot. *)
Theorem reference_reads_back text r : parse_ref text = inr r ->
  parse_ref (ref_str r) = inr r /\ is_measure_ref (ref_str r) = negb (has_dot (ref_str r)).
Proof.
  intros (sc & m & s & q & p & spec & Hok & Hspec & Hal & -> & Hs & Hq & Hp & Hop)%parse_ref_parts.
  rewrite ref_str_spelled by done. pose proof (match_ref_spelled _ _ _ _ _ Hok) as Hmatch. split.
  - unfold parse_ref, strip. rewrite chars_of_chars, strip_chars_none by by apply spelled_no_space.
    rewrite Hmatch. cbn [mt_scenario mt_measure mt_stat mt_qualifier mt_point].
    by rewrite Hal, Hspec, Hs, Hq, Hp.
  - unfold is_measure_ref. rewrite spelled_not_empty by done. cbn [orb].
    destruct (has_dot _); [done|]. rewrite Hmatch. destruct (uses_syntax _); [done|].
    cbn [mt_measure]. unfold lookup_measure. by rewrite Hal, Hspec.
Qed.

(** A score of a task whose name holds a dot: the reference comes back as
    itself, and is taken for a raw key. *)
Lemma reference_reads_back_witness :
  let r := mkRef "accuracy" None (Some "mmlu.pro") None (Some "opencompass") in
  parse_ref "opencompass/accuracy[mmlu.pro]" = inr r /\
  (parse_ref (ref_str r) = inr r /\ is_measure_ref (ref_str r) = negb (has_dot (ref_str r))).
Proof. split; [by vm_compute|]. apply (reference_reads_back "opencompass/accuracy[mmlu.pro]"). by vm_compute. Defined.
