(* ===== verification/Adapters.v ===== *)
(** How each LLMBench module's raw keys become measures
    ([measures/adapters.py]): one adapter per family of modules, the point of a
    sweep its measures describe, and what a family can report at all.

    A number past the range of a float, for which [float()] and [round()]
    raise, reads here as one that is not a number. *)
From Stdlib Require Import Ascii SpecFloat.
From S2P Require Import Prelude Float Values Texts Documents Measures.
#[local] Open Scope string_scope.
#[local] Open Scope list_scope.
#[local] Open Scope Z_scope.

Definition CARD_NORM_BASELINE : float := f_of_Z 8.
Definition _LAT : list string := ["mean"; "p50"; "p90"; "p99"].

(** ** Numbers *)
Definition f_finite (x : float) : bool :=
  match x with S754_zero _ | S754_finite _ _ _ => true | _ => false end.
Definition f_one : float := f_of_Z 1.
Definition f_truthy (x : float) : bool := negb (f_eqb x f_zero).

Definition finite_only (o : option float) : option float :=
  match o with Some x => if f_finite x then Some x else None | None => None end.

Definition number (d : option doc) : option float :=
  match d with Some (Sc v) => finite_only (as_float v) | _ => None end.

Definition flag (d : option doc) : option float :=
  match d with
  | Some (Sc (VBool b)) => Some (if b then f_one else f_zero)
  | _ => match number d with Some n => Some (if f_truthy n then f_one else f_zero) | None => None end
  end.

(** [a or b] on numbers that may be missing. *)
Definition num_or (a b : option float) : option float :=
  match a with Some x => if f_truthy x then a else b | None => b end.

(** ** Points: measures by key *)
Abbreviation point := (list (string * float)).

Definition put_num (key : string) (x : option float) (out : point) : point :=
  match finite_only x with Some n => dict_set key n out | None => out end.
Definition _put (key : string) (d : option doc) (out : point) : point := put_num key (number d) out.

Definition _ratio (a b : option float) : option float :=
  match a, b with
  | Some x, Some y => if f_eqb y f_zero then None else Some (f_div x y)
  | _, _ => None
  end.

Definition RATES : list string :=
  ["output_tpm"; "input_tpm"; "uncached_input_tpm"; "cached_input_tpm"; "total_tpm"].

Definition _per_gpu (cards : option float) (out : point) : point :=
  match cards with
  | Some n =>
      if f_truthy n
      then foldl (fun out rate =>
             match dict_get rate out with
             | Some x => dict_set (rate +:+ "_per_gpu") (f_div x n) out
             | None => out
             end) out RATES
      else out
  | None => out
  end.

Definition _health_from_uptime (uptime measured : option float) (out : point) : point :=
  match uptime with
  | None => out
  | Some u =>
      let out := dict_set "error_rate" (f_sub f_one u) (dict_set "success_rate" u out) in
      match measured with
      | None => out
      | Some n =>
          let completed := f_round (f_mul n u) 0 in
          dict_set "requests_failed" (f_sub n completed)
            (dict_set "requests_completed" completed (dict_set "requests_total" n out))
      end
  end.

Record Scenario := mkScenario {
  sc_key : string;
  sc_module : string;
  sc_family : string;
  sc_kind : string;
  sc_points : list (string * point);
  sc_operating_level : string;
  sc_operating_rule : string;
  sc_supports : list string }.
#[export] Instance eta_scenario : Eta Scenario := fun s =>
  mkScenario (sc_key s) (sc_module s) (sc_family s) (sc_kind s) (sc_points s) (sc_operating_level s)
    (sc_operating_rule s) (sc_supports s).

Definition operating (s : Scenario) : point := default [] (dict_get "operating" (sc_points s)).
Definition is_throughput (s : Scenario) : bool := bool_decide (sc_kind s ∈ ["sweep"; "single"; "replay"]).
Definition set_point (name : string) (p : point) (s : Scenario) : Scenario :=
  s <| sc_points ::= dict_set name p |>.

(** ** guidellm, one level *)
Definition with_stats (measures stats : list string) : list string :=
  concat (map (fun m => map (fun s => m +:+ "@" +:+ s) stats) measures).

Definition GUIDELLM_LEVEL_SUPPORTS : list string :=
  ["output_tpm"; "input_tpm"; "total_tpm"; "output_tpm_per_gpu"; "input_tpm_per_gpu"; "total_tpm_per_gpu";
   "request_rate"; "request_output_tps@mean"]
  ++ with_stats ["ttft_ms"; "itl_ms"; "tpot_ms"] _LAT
  ++ ["success_rate"; "error_rate"; "requests_total"; "requests_completed"; "requests_failed";
      "concurrency"; "window_s"; "prompt_tokens_mean"; "completion_tokens_mean"].

Definition sixty : float := f_of_Z 60.

(** The aggregate rates of a level; what is left of the total is its input. *)
Definition level_rates (raw : tree) (aggregate_out aggregate_in : string) : point :=
  let output_tps := number (dict_get aggregate_out raw) in
  let total_tps := number (dict_get "total_tps_mean" raw) in
  let input_tps := number (dict_get aggregate_in raw) in
  let out := match output_tps with Some o => dict_set "output_tpm" (f_mul o sixty) [] | None => [] end in
  match total_tps with
  | Some t =>
      let out := dict_set "total_tpm" (f_mul t sixty) out in
      match output_tps with
      | Some o => dict_set "input_tpm" (f_mul (f_max (f_sub t o) f_zero) sixty) out
      | None => out
      end
  | None =>
      match input_tps, output_tps with
      | Some i, Some o =>
          dict_set "total_tpm" (f_mul (f_add i o) sixty) (dict_set "input_tpm" (f_mul i sixty) out)
      | _, _ => out
      end
  end.

(** The latency percentiles guidellm reports, and the mean. *)
Definition level_latencies (raw : tree) (out : point) : point :=
  foldl (fun out m =>
    _put (m +:+ "_ms@mean") (dict_get (m +:+ "_mean_ms") raw)
      (foldl (fun out s => _put (m +:+ "_ms@" +:+ s) (dict_get (m +:+ "_" +:+ s +:+ "_ms") raw) out)
         out ["p50"; "p90"; "p99"]))
    out ["ttft"; "itl"; "tpot"].

Definition _guidellm_level (raw : tree) (concurrency cards : option float) (params : tree)
    (aggregate_out aggregate_in : string) : point :=
  let out := _per_gpu cards (level_rates raw aggregate_out aggregate_in) in
  let request_tps :=
    match number (dict_get "request_output_tps" raw) with
    | Some x => Some x
    | None =>
        match number (dict_get aggregate_out raw), concurrency with
        | Some o, Some c => if f_truthy c then Some (f_div o c) else None
        | _, _ => None
        end
    end in
  let out := level_latencies raw (put_num "request_output_tps@mean" request_tps out) in
  let measured := num_or (number (dict_get "measured_requests" raw)) (number (dict_get "request_count" raw)) in
  let out := _health_from_uptime (number (dict_get "uptime" raw)) measured out in
  let window := number (dict_get "duration_seconds" raw) in
  let out := put_num "window_s" window out in
  let out :=
    match dict_get "requests_completed" out, window with
    | Some done_, Some w => if f_truthy w then dict_set "request_rate" (f_div done_ w) out else out
    | _, _ => out
    end in
  _put "completion_tokens_mean" (dict_get "output_tokens" params)
    (_put "prompt_tokens_mean" (dict_get "input_tokens" params) (put_num "concurrency" concurrency out)).

(** ** A sweep *)
Abbreviation levels := (list (Z * tree)).

(** The level [^c(\d+)$] names. *)
Definition level_of (head : string) : option Z :=
  match chars head with
  | c :: l =>
      if Ascii.eqb c "c"
      then match run_of is_digit l with
           | Some (d, r) => if at_end r then Some (digits_value d 0) else None
           | None => None
           end
      else None
  | [] => None
  end.

Fixpoint add_leaf (c : Z) (leaf : string) (v : doc) (ls : levels) : levels :=
  match ls with
  | [] => [(c, [(leaf, v)])]
  | (c', lv) :: rest => if c =? c' then (c', dict_set leaf v lv) :: rest else (c', lv) :: add_leaf c leaf v rest
  end.

Definition levels_of (raw : tree) : levels :=
  foldl (fun ls '(key, v) =>
    match partition "." key with
    | Some (head, leaf) =>
        match level_of head with
        | Some c => if String.eqb leaf "" then ls else add_leaf c leaf v ls
        | None => ls
        end
    | None => ls
    end) [] raw.

Definition level_name (c : Z) : string := "c" +:+ pretty c.
Definition minus_one : float := f_of_Z (-1).
Definition level_total (lv : tree) : float :=
  default minus_one (num_or (number (dict_get "total_tps_mean" lv)) None).
Definition level_flag (lv : tree) : option float := flag (dict_get "meets_slo" lv).

Definition sweep_point (params : tree) (cards : option float) (c : Z) (lv : tree) : point :=
  let p := _guidellm_level lv (Some (f_of_Z c)) cards params "output_tps_mean" "input_tps_mean" in
  match level_flag lv with Some x => dict_set "meets_slo" x p | None => p end.

(** [max(l, key=key)] keeps the first of the greatest. *)
Definition above (x y : Z * tree) : bool := f_ltb (level_total y.2) (level_total x.2).
Definition above_or_wider (x y : Z * tree) : bool :=
  f_ltb (level_total y.2) (level_total x.2)
  || (f_eqb (level_total y.2) (level_total x.2) && (y.1 <? x.1)).

Definition level_at (c : Z) (ls : levels) : option (Z * tree) := List.find (fun l => l.1 =? c) ls.

(** The level a sweep's measures describe, and how it was chosen. *)
Definition chosen_level (raw : tree) (ls : levels) : option (Z * tree) * string :=
  let reported := number (dict_get "reported_concurrency" raw) in
  let reported_level :=
    match reported with
    | Some x => match int_or_none (VFloat x) with Some c => level_at c ls | None => None end
    | None => None
    end in
  if dict_has "search_probes" raw && bool_decide (is_Some reported_level)
  then (reported_level, "the level the auto search confirmed at full length")
  else if existsb (fun l => bool_decide (is_Some (level_flag l.2))) ls
  then match min_by above_or_wider (where_ (fun l => match level_flag l.2 with Some x => f_truthy x | None => false end) ls) with
       | Some l => (Some l, "the level with the highest total throughput that met the SLO")
       | None =>
           (min_by (fun x y => x.1 <? y.1) ls, "no level met the SLO; the lowest level, as LLMBench reports it")
       end
  else match reported_level with
       | Some l => (Some l, "the level LLMBench reported (this result flags no level against the SLO)")
       | None => (None, "")
       end.

Definition with_reported_flag (raw : tree) (p : point) : point :=
  if dict_has "meets_slo" p then p
  else match number (dict_get "reported_level_meets_slo" raw) with
       | Some _ =>
           match flag (dict_get "reported_level_meets_slo" raw) with Some x => dict_set "meets_slo" x p | None => p end
       | None => p
       end.

Definition _sweep (sc : Scenario) (raw params : tree) (cards : option float) : Scenario :=
  let ls := levels_of raw in
  let point_of (l : Z * tree) := sweep_point params cards l.1 l.2 in
  let sc := foldl (fun sc l => set_point (level_name l.1) (point_of l) sc) sc
              (sort_by (fun x y => x.1 <? y.1) ls) in
  let sc := match min_by above ls with Some l => set_point "peak" (point_of l) sc | None => sc end in
  let '(chosen, rule) := chosen_level raw ls in
  let sc := sc <| sc_operating_rule := rule |> in
  let sc :=
    match chosen with
    | Some l =>
        set_point "operating" (with_reported_flag raw (point_of l))
          (sc <| sc_operating_level := level_name l.1 |>)
    | None => sc
    end in
  sc <| sc_supports := "meets_slo" :: GUIDELLM_LEVEL_SUPPORTS |>.

Definition _single (sc : Scenario) (raw params : tree) (cards : option float) : Scenario :=
  let concurrency :=
    num_or (number (dict_get "reported_concurrency" raw)) (number (dict_get "concurrency" params)) in
  let p := _guidellm_level raw concurrency cards params
             (if dict_has "output_tps_mean" raw then "output_tps_mean" else "output_tps")
             (if dict_has "input_tps_mean" raw then "input_tps_mean" else "input_tps") in
  (set_point "operating" p sc) <| sc_operating_rule := "the one level the module ran" |>
    <| sc_supports := GUIDELLM_LEVEL_SUPPORTS |>.

(** ** A replay *)
Definition in_bucket (keys buckets : list string) : list string :=
  concat (map (fun k => map (fun b => k +:+ "[" +:+ b +:+ "]") buckets) keys).

Definition REPLAY_SUPPORTS : list string :=
  ["output_tpm"; "input_tpm"; "uncached_input_tpm"; "cached_input_tpm"; "total_tpm";
   "output_tpm_per_gpu"; "input_tpm_per_gpu"; "uncached_input_tpm_per_gpu"; "cached_input_tpm_per_gpu";
   "total_tpm_per_gpu"; "request_rate"]
  ++ with_stats ["request_output_tps"; "request_prefill_tps"] ["mean"; "p10"; "p50"; "p90"]
  ++ with_stats ["ttft_ms"] _LAT
  ++ in_bucket (with_stats ["ttft_ms"] ["mean"; "p50"; "p90"] ++ ["prompt_bucket_requests"]) PROMPT_BUCKETS
  ++ ["e2e_latency_ms@p50"; "e2e_latency_ms@p99"; "success_rate"; "error_rate"; "unfinished_rate";
      "truncated_rate"; "not_started_rate"; "requests_total"; "requests_completed"; "requests_failed";
      "requests_not_started"; "requests_unfinished"; "requests_truncated"; "requests_runaway"; "concurrency";
      "window_s"; "prompt_tokens_mean"; "completion_tokens_mean"; "cache_hit_rate"; "answer_quality_rate";
      "hallucination_rate"; "poor_answer_rate"; "score"; "score_per_gpu"].

(** Raw keys stored under a measure's name as they come. *)
Definition put_all (raw : tree) (pairs : list (string * string)) (out : point) : point :=
  foldl (fun out '(key, name) => _put key (dict_get name raw) out) out pairs.

Definition replay_rates (raw : tree) (cards : option float) : point :=
  let out := put_all raw
    [("output_tpm", "output_tpm"); ("input_tpm", "input_tpm"); ("cached_input_tpm", "cached_tpm");
     ("uncached_input_tpm", "uncached_input_tpm")] [] in
  let out :=
    match dict_get "input_tpm" out, dict_get "output_tpm" out with
    | Some i, Some o => dict_set "total_tpm" (f_add i o) out
    | _, _ => out
    end in
  _per_gpu cards out.

Definition bucket_pairs (b : string) : list (string * string) :=
  [("ttft_ms@p50[" +:+ b +:+ "]", "ttft_" +:+ b +:+ "_p50_ms");
   ("ttft_ms@p90[" +:+ b +:+ "]", "ttft_" +:+ b +:+ "_p90_ms");
   ("ttft_ms@mean[" +:+ b +:+ "]", "ttft_" +:+ b +:+ "_avg_ms");
   ("prompt_bucket_requests[" +:+ b +:+ "]", "ttft_" +:+ b +:+ "_count")].

Definition replay_requests (raw : tree) (out : point) : point :=
  let mean := match dict_get "output_tps_mean" raw with Some d => Some d | None => dict_get "output_tps_avg" raw end in
  let out := _put "request_output_tps@mean" mean out in
  let out := put_all raw (map (fun s => ("request_output_tps@" +:+ s, "output_tps_" +:+ s)) ["p10"; "p50"; "p90"]) out in
  let out := put_all raw (map (fun s => ("request_prefill_tps@" +:+ s, "input_tps_" +:+ s)) ["mean"; "p10"; "p50"; "p90"]) out in
  let out := put_all raw (map (fun s => ("ttft_ms@" +:+ s, "ttft_" +:+ s +:+ "_ms")) ["p50"; "p90"; "p99"]) out in
  let out := put_all raw [("ttft_ms@mean", "ttft_mean_ms")] out in
  let out := put_all raw (concat (map bucket_pairs PROMPT_BUCKETS)) out in
  put_all raw [("e2e_latency_ms@p50", "total_time_p50_ms"); ("e2e_latency_ms@p99", "total_time_p99_ms")] out.

Definition runaway (raw : tree) (out : point) : point :=
  let counts := map (fun k => number (dict_get k raw)) ["generation_capped_count"; "repetitive_token_count"] in
  if existsb (fun v => bool_decide (is_Some v)) counts
  then dict_set "requests_runaway" (foldl (fun acc v => f_add acc (default f_zero (num_or v None))) f_zero counts) out
  else out.

Definition replay_health (raw : tree) (out : point) : point :=
  let total := number (dict_get "total_requests" raw) in
  let completed := number (dict_get "successful_requests" raw) in
  let not_started := number (dict_get "not_started_requests" raw) in
  let truncated := number (dict_get "finish_reason_length_count" raw) in
  let out := put_all raw [("success_rate", "uptime"); ("error_rate", "error_rate"); ("unfinished_rate", "unfinished_rate")] out in
  let out := put_num "truncated_rate" (_ratio truncated completed) out in
  let out := put_num "not_started_rate" (_ratio not_started total) out in
  let out := put_num "requests_completed" completed (put_num "requests_total" total out) in
  let out := put_all raw [("requests_failed", "error_requests")] out in
  let out := put_num "requests_not_started" not_started out in
  let out := put_all raw [("requests_unfinished", "unfinished_requests")] out in
  let out := runaway raw (put_num "requests_truncated" truncated out) in
  let window := number (dict_get "wall_time_s" raw) in
  put_num "request_rate" (_ratio completed window) (put_num "window_s" window out).

Definition _replay (sc : Scenario) (raw params : tree) (cards : option float) : Scenario :=
  let out := replay_health raw (replay_requests raw (replay_rates raw cards)) in
  let out := _put "concurrency" (dict_get "concurrency" params) out in
  let out := put_all raw
    [("prompt_tokens_mean", "avg_prompt_tokens"); ("completion_tokens_mean", "avg_completion_tokens");
     ("cache_hit_rate", "cache_hit_rate"); ("answer_quality_rate", "judge_good_acc_rate");
     ("hallucination_rate", "judge_halluc_clear_rate"); ("poor_answer_rate", "judge_poor_rate")] out in
  (set_point "operating" out sc) <| sc_operating_rule := "the replay itself, at the concurrency it was run at" |>
    <| sc_supports := REPLAY_SUPPORTS |>.

(** ** What was answered *)
Definition _agentic (raw : tree) : point * list string :=
  let out := foldl (fun out m => put_all raw (map (fun s => (m +:+ "_ms@" +:+ s, m +:+ "_" +:+ s +:+ "_ms")) ["mean"; "p50"; "p99"]) out)
               [] ["ttft"; "itl"] in
  let total := number (dict_get "total_queries" raw) in
  let failed := number (dict_get "errored_queries" raw) in
  let out := put_all raw [("success_rate", "uptime")] out in
  let out := put_num "requests_failed" failed (put_num "requests_total" total (put_num "error_rate" (_ratio failed total) out)) in
  (put_all raw [("requests_unfinished", "incomplete_queries")] out,
   with_stats ["ttft_ms"; "itl_ms"] ["mean"; "p50"; "p99"]
   ++ ["success_rate"; "error_rate"; "requests_total"; "requests_failed"; "requests_unfinished"]).

Definition OPENCOMPASS_TASKS : list string :=
  ["aime2025"; "gpqa_diamond"; "ifeval"; "mmlu_pro"; "hle"; "livecodebench_v6"; "simpleqa"; "longbench_v2"].
Definition _OPENCOMPASS_PERF : list string :=
  ["ttft_mean_ms"; "tpot_mean_ms"; "output_tps"; "service_tps"; "gen_tokens"].

Definition accuracy_of (key : string) : string := "accuracy[" +:+ key +:+ "]".
Definition hundred : float := f_of_Z 100.
(** A score above one can only be a percentage. *)
Definition as_share (n : float) : float := if f_ltb f_one n then f_div n hundred else n.

Definition is_task (key : string) (v : doc) : bool :=
  bool_decide (key ∈ OPENCOMPASS_TASKS)
  || (negb (bool_decide (key ∈ _OPENCOMPASS_PERF)) && bool_decide (is_Some (number (Some v))) && negb (has_dot key)).

Definition task_score (kv : string * doc) : option (string * float) :=
  if is_task kv.1 kv.2
  then match number (Some kv.2) with Some n => Some (accuracy_of kv.1, as_share n) | None => None end
  else None.

Definition _opencompass (raw : tree) : point * list string :=
  let scores := omap task_score raw in
  let out := foldl (fun out '(k, n) => dict_set k n out) [] scores in
  let out := put_all raw [("ttft_ms@mean", "ttft_mean_ms"); ("tpot_ms@mean", "tpot_mean_ms");
                          ("request_output_tps@mean", "output_tps")] out in
  (match number (dict_get "service_tps" raw) with
   | Some x => dict_set "output_tpm" (f_mul x sixty) out
   | None => out
   end,
   ["ttft_ms@mean"; "tpot_ms@mean"; "request_output_tps@mean"; "output_tpm"] ++ scores.*1
   ++ map accuracy_of OPENCOMPASS_TASKS).

(** The modules whose keys are stored as they come. *)
Definition plain (pairs : list (string * string)) (raw : tree) : point * list string :=
  (put_all raw pairs [], pairs.*1).
Definition _functional : tree -> point * list string := plain [("pass_rate", "pass_rate")].
Definition _tool_call : tree -> point * list string :=
  plain [("tool_call_success_rate", "tool_call_success_rate"); ("error_rate", "error_rate");
         ("requests_total", "total_requests"); ("requests_completed", "completed_requests");
         ("requests_failed", "error_requests"); ("requests_truncated", "truncated_requests")].
Definition _hallucination : tree -> point * list string :=
  plain [("hallucination_rate", "hallucination_rate"); ("requests_total", "total_requests");
         ("requests_completed", "completed_requests"); ("requests_failed", "error_requests")].
Definition _case_truncation : tree -> point * list string :=
  plain [("long_output_completion_rate", "completion_ratio"); ("truncated_rate", "truncation_rate");
         ("error_rate", "error_rate"); ("requests_total", "total_requests")].

Definition _QUALITY : list (string * (tree -> point * list string)) :=
  [("agentic", _agentic); ("opencompass", _opencompass); ("functional_acceptance", _functional);
   ("tool_call_success", _tool_call); ("hallucination", _hallucination); ("case_truncation", _case_truncation)].

(** ** Recognizing a module *)
Definition FAMILIES : list string := ["perf_guidellm_sweep"; "perf_guidellm"; "replay"] ++ _QUALITY.*1.

Definition family_of (module : string) (replay_names : list string) (aliases : list (string * string)) : string :=
  if bool_decide (module ∈ "replay" :: replay_names) then "replay"
  else let mapped := default module (dict_get module aliases) in
       if bool_decide (mapped ∈ FAMILIES) then mapped else "unknown".

Definition _KIND : list (string * string) :=
  [("perf_guidellm_sweep", "sweep"); ("perf_guidellm", "single"); ("replay", "replay")].

(** A rate, the same rate normalized to eight cards, and what the first is
    multiplied by to be in the unit of the second. *)
Definition norm_pairs : list (string * string * float) :=
  [("output_tpm", "output_tpm_card_norm", f_one); ("output_tps", "output_tpm_card_norm", sixty);
   ("input_tpm", "input_tpm_card_norm", f_one); ("total_tps_mean", "total_tpm_card_norm", sixty)].
Definition close_to_whole : float := f_of_ratio 5 100.

Definition f_abs (x : float) : float :=
  match x with
  | S754_zero _ => S754_zero false
  | S754_infinity _ => S754_infinity false
  | S754_finite _ m e => S754_finite false m e
  | S754_nan => S754_nan
  end.

Fixpoint first_norm (raw : tree) (pairs : list (string * string * float)) : option float :=
  match pairs with
  | [] => None
  | (base_key, norm_key, scale) :: rest =>
      match num_or (number (dict_get base_key raw)) None, num_or (number (dict_get norm_key raw)) None with
      | Some base, Some norm =>
          let cards := f_div (f_mul (f_mul CARD_NORM_BASELINE base) scale) norm in
          let whole := f_round cards 0 in
          Some (if f_ltb (f_abs (f_sub cards whole)) close_to_whole then whole else cards)
      | _, _ => first_norm raw rest
      end
  end.
Definition cards_from_card_norm (raw : tree) : option float := first_norm raw norm_pairs.

(** [key.split("#", 1)[0]]. *)
Definition module_of (key : string) : string :=
  match partition "#" key with Some (m, _) => m | None => key end.

(** The measures of one family, with what it supports. *)
Definition adapt_family (family : string) (sc : Scenario) (raw params : tree) (cards : option float) : Scenario :=
  if String.eqb family "perf_guidellm_sweep" then _sweep sc raw params cards
  else if String.eqb family "perf_guidellm" then _single sc raw params cards
  else if String.eqb family "replay" then _replay sc raw params cards
  else
    let '(out, supports) :=
      match dict_get family _QUALITY with Some f => f raw | None => ([], []) end in
    (set_point "operating" out sc) <| sc_operating_rule := "the module's whole run" |> <| sc_supports := supports |>.

(** Every module has the benchmark's own score for it. *)
Definition add_score (family : string) (raw : tree) (cards : option float) (sc : Scenario) : Scenario :=
  match number (dict_get "score" raw) with
  | Some score =>
      let out := dict_set "score" score (operating sc) in
      let out :=
        match (if String.eqb family "replay" then num_or cards None else None) with
        | Some n => dict_set "score_per_gpu" (f_div score n) out
        | None => out
        end in
      set_point "operating" out sc
  | None => sc
  end.

Definition adapt (key : string) (raw params : tree) (cards : option float)
    (replay_names : list string) (aliases : list (string * string)) : Scenario :=
  let module := module_of key in
  let family := family_of module replay_names aliases in
  let sc := mkScenario key module family (default "quality" (dict_get family _KIND)) [] "" "" [] in
  let cards := num_or cards (cards_from_card_norm raw) in
  let sc := add_score family raw cards (adapt_family family sc raw params cards) in
  sc <| sc_supports ::= fun s =>
    s ++ ["score"] ++ (if String.eqb family "replay" then ["score_per_gpu"] else []) |>.

(** ** A family reports only what it supports *)
Definition within (S : list string) (out : point) : Prop := out.*1 ⊆ S.
Definition all_in (keys S : list string) : bool := forallb (fun k => bool_decide (k ∈ S)) keys.

Lemma all_in_spec keys S k : all_in keys S = true -> k ∈ keys -> k ∈ S.
Proof. intros H Hk. pose proof (forallb_elem _ _ _ H Hk) as Hin. by apply bool_decide_eq_true in Hin. Qed.

Section within.
Context (S : list string).

Lemma within_nil : within S [].
Proof. intros k Hk. by apply not_elem_of_nil in Hk. Qed.

Lemma within_set k x out : k ∈ S -> within S out -> within S (dict_set k x out).
Proof.
  intros Hk Hout k'. rewrite dict_set_keys. case_bool_decide; [apply Hout|].
  intros [Hin| ->%list_elem_of_singleton]%elem_of_app; [by apply Hout|done].
Qed.

Lemma within_put_num k x out : k ∈ S -> within S out -> within S (put_num k x out).
Proof. intros. unfold put_num. case_match; [by apply within_set|done]. Qed.

Lemma within_put k d out : k ∈ S -> within S out -> within S (_put k d out).
Proof. apply within_put_num. Qed.

Lemma within_fold {A} (f : point -> A -> point) l out :
  (forall out x, x ∈ l -> within S out -> within S (f out x)) -> within S out -> within S (foldl f out l).
Proof.
  revert out. induction l as [|x l IH]; cbn; intros out Hf Hout; [done|].
  apply IH; [intros; apply Hf; [by right|done]|]. apply Hf; [left|done].
Qed.

Lemma within_put_all raw pairs out : all_in pairs.*1 S = true -> within S out -> within S (put_all raw pairs out).
Proof.
  intros Hp. apply within_fold. intros o [k n] Hin Ho. apply within_put; [|done].
  apply (all_in_spec _ _ _ Hp). apply list_elem_of_fmap. by exists (k, n).
Qed.

Lemma within_per_gpu cards out :
  forallb (fun rate => negb (bool_decide (rate ∈ S)) || bool_decide (rate +:+ "_per_gpu" ∈ S)) RATES = true ->
  within S out -> within S (_per_gpu cards out).
Proof.
  intros HS Hout. unfold _per_gpu. destruct cards as [n|]; [|done]. destruct (f_truthy n); [|done].
  apply within_fold; [|done]. intros o rate Hr Ho. destruct (dict_get rate o) as [x|] eqn:E; [|done].
  apply within_set; [|done].
  pose proof (forallb_elem _ _ _ HS Hr) as [Hneg|Hin]%orb_true_iff; [|by apply bool_decide_eq_true in Hin].
  apply negb_true_iff, bool_decide_eq_false in Hneg. destruct Hneg. apply Ho.
  apply list_elem_of_fmap. exists (rate, x). split; [done|]. by apply dict_get_Some_in.
Qed.
End within.

Lemma listed_elem k (S : list string) : existsb (String.eqb k) S = true -> k ∈ S.
Proof. intros (x & Hx & ->%String.eqb_eq)%existsb_exists. by apply list_elem_of_In. Qed.

Ltac listed := apply listed_elem; vm_compute; reflexivity.
(** Walk through the writes of a point whose keys are all known. *)
Ltac within_step :=
  lazymatch goal with
  | |- within _ [] => apply within_nil
  | |- within _ (dict_set _ _ _) => apply within_set; [listed|]
  | |- within _ (put_num _ _ _) => apply within_put_num; [listed|]
  | |- within _ (_put _ _ _) => apply within_put; [listed|]
  | |- within _ (put_all _ _ _) => apply within_put_all; [vm_compute; reflexivity|]
  | |- within _ (_per_gpu _ _) => apply within_per_gpu; [vm_compute; reflexivity|]
  | |- within _ (match ?x with _ => _ end) => destruct x
  end.
Ltac within_walk := repeat within_step.

Lemma health_within S uptime measured out :
  all_in ["success_rate"; "error_rate"; "requests_total"; "requests_completed"; "requests_failed"] S = true ->
  within S out -> within S (_health_from_uptime uptime measured out).
Proof.
  intros HS Hout. unfold _health_from_uptime. destruct uptime; [|done].
  destruct measured; cbv zeta; repeat (apply within_set; [apply (all_in_spec _ _ _ HS); listed|]); done.
Qed.

Lemma level_within raw concurrency cards params ao ai :
  within GUIDELLM_LEVEL_SUPPORTS (_guidellm_level raw concurrency cards params ao ai).
Proof.
  unfold _guidellm_level.
  set (rates := level_rates raw ao ai). assert (within GUIDELLM_LEVEL_SUPPORTS rates) as Hrates
    by (subst rates; unfold level_rates; cbv zeta; within_walk).
  set (request_tps := match number (dict_get "request_output_tps" raw) with Some x => Some x | None => _ end).
  set (measured := num_or _ _). cbv zeta. within_walk.
  all: apply health_within; [vm_compute; reflexivity|].
  all: unfold level_latencies; cbn [foldl]; within_walk; done.
Qed.

Lemma within_mono S S' out : within S out -> S ⊆ S' -> within S' out.
Proof. intros Hout HS k Hk. by apply HS, Hout. Qed.

Lemma sweep_point_within params cards c lv :
  within ("meets_slo" :: GUIDELLM_LEVEL_SUPPORTS) (sweep_point params cards c lv).
Proof.
  unfold sweep_point. cbv zeta.
  assert (within ("meets_slo" :: GUIDELLM_LEVEL_SUPPORTS)
            (_guidellm_level lv (Some (f_of_Z c)) cards params "output_tps_mean" "input_tps_mean")) as H
    by (eapply within_mono; [apply level_within|]; by apply list_subseteq_cons).
  destruct (level_flag lv); [|done]. by apply within_set; [listed|].
Qed.

Lemma replay_within raw params cards :
  within REPLAY_SUPPORTS
    (put_all raw
       [("prompt_tokens_mean", "avg_prompt_tokens"); ("completion_tokens_mean", "avg_completion_tokens");
        ("cache_hit_rate", "cache_hit_rate"); ("answer_quality_rate", "judge_good_acc_rate");
        ("hallucination_rate", "judge_halluc_clear_rate"); ("poor_answer_rate", "judge_poor_rate")]
       (_put "concurrency" (dict_get "concurrency" params)
          (replay_health raw (replay_requests raw (replay_rates raw cards))))).
Proof.
  do 2 within_step.
  assert (within REPLAY_SUPPORTS (replay_rates raw cards)) as Hrates.
  { unfold replay_rates. cbv zeta. within_step. set (out := put_all _ _ []).
    assert (within REPLAY_SUPPORTS out) by (subst out; within_walk).
    destruct (dict_get "input_tpm" out); [|done]. destruct (dict_get "output_tpm" out); [|done]. by within_walk. }
  assert (within REPLAY_SUPPORTS (replay_requests raw (replay_rates raw cards))) as Hreq
    by (unfold replay_requests; cbv zeta; within_walk; exact Hrates).
  unfold replay_health, runaway. cbv zeta. set (counts := map _ _).
  within_step. within_step. destruct (existsb _ counts); within_walk; exact Hreq.
Qed.

Lemma plain_within pairs raw : all_in pairs.*1 pairs.*1 = true -> within (plain pairs raw).2 (plain pairs raw).1.
Proof. intros H. unfold plain. cbn [fst snd]. apply within_put_all; [done|apply within_nil]. Qed.

Lemma agentic_within raw : within (_agentic raw).2 (_agentic raw).1.
Proof. unfold _agentic. cbn [fst snd foldl]. within_walk. Qed.

Lemma opencompass_within raw : within (_opencompass raw).2 (_opencompass raw).1.
Proof.
  unfold _opencompass. cbv zeta. cbn [fst snd]. set (scores := omap task_score raw).
  set (S := _ ++ _).
  assert (within S (foldl (fun out '(k, n) => dict_set k n out) [] scores)) as Hscores.
  { apply within_fold; [|apply within_nil]. intros out [k n] Hin Ho. apply within_set; [|done].
    subst S. apply elem_of_app. right. apply elem_of_app. left. apply list_elem_of_fmap. by exists (k, n). }
  assert (forall k, k ∈ ["ttft_ms@mean"; "tpot_ms@mean"; "request_output_tps@mean"; "output_tpm"] -> k ∈ S) as HS
    by (intros k Hk; apply elem_of_app; by left).
  assert (within S (put_all raw [("ttft_ms@mean", "ttft_mean_ms"); ("tpot_ms@mean", "tpot_mean_ms");
                                 ("request_output_tps@mean", "output_tps")]
             (foldl (fun out '(k, n) => dict_set k n out) [] scores))) as Hput.
  { apply within_fold; [|done]. intros o [k n] Hin Ho. apply within_put; [|done]. apply HS.
    apply list_elem_of_In. apply list_elem_of_In in Hin. cbn in Hin. naive_solver. }
  destruct (number _); [|done]. apply within_set; [|done]. apply HS. listed.
Qed.

(** Every measure at every point of a scenario is one of [S]. *)
Definition all_within (S : list string) (sc : Scenario) : Prop :=
  forall name p, dict_get name (sc_points sc) = Some p -> within S p.

Lemma all_within_set S name p sc : all_within S sc -> within S p -> all_within S (set_point name p sc).
Proof.
  intros Hsc Hp n q. cbn. rewrite dict_get_set. destruct (String.eqb n name); [by intros [= <-]|apply Hsc].
Qed.

Lemma min_by_in {A} (before : A -> A -> bool) l x : min_by before l = Some x -> x ∈ l.
Proof.
  destruct l as [|y l]; [done|]. intros [= <-]. revert y. induction l as [|z l IH]; intros y; cbn; [left|].
  destruct (before z y); [specialize (IH z)|specialize (IH y)]; rewrite !elem_of_cons in *; tauto.
Qed.

Lemma all_within_fold {A} (S : list string) (f : A -> string * point) l sc :
  (forall x, within S (f x).2) -> all_within S sc ->
  all_within S (foldl (fun sc x => set_point (f x).1 (f x).2 sc) sc l).
Proof.
  intros Hf. revert sc. induction l as [|x l IH]; cbn [foldl]; intros sc Hsc; [done|].
  apply IH. by apply all_within_set.
Qed.

Lemma sweep_all_within sc raw params cards : sc_points sc = [] ->
  all_within (sc_supports (_sweep sc raw params cards)) (_sweep sc raw params cards).
Proof.
  intros Hnil. unfold _sweep. cbv zeta. destruct (chosen_level raw (levels_of raw)) as [chosen rule].
  set (S := "meets_slo" :: GUIDELLM_LEVEL_SUPPORTS).
  set (point_of := fun l : Z * tree => sweep_point params cards l.1 l.2).
  assert (forall l, within S (point_of l)) as Hp by (intros l; apply sweep_point_within).
  set (sc1 := foldl _ _ _). assert (all_within S sc1) as H1.
  { apply (all_within_fold S (fun l => (level_name l.1, point_of l))); [done|].
    intros n p. by rewrite Hnil; unfold dict_get. }
  set (sc2 := match min_by above _ with Some l => _ | None => sc1 end).
  assert (all_within S sc2) as H2 by (subst sc2; destruct (min_by above _); [apply all_within_set; [done|apply Hp]|done]).
  change (all_within S (match chosen with
    | Some l => set_point "operating" (with_reported_flag raw (point_of l))
                  (sc2 <| sc_operating_rule := rule |> <| sc_operating_level := level_name l.1 |>)
    | None => sc2 <| sc_operating_rule := rule |>
    end)).
  destruct chosen as [l|]; [|exact H2]. apply all_within_set; [exact H2|].
  unfold with_reported_flag. destruct (dict_has _ _); [apply Hp|].
  destruct (number _); [|apply Hp]. destruct (flag _); [|apply Hp]. apply within_set; [listed|apply Hp].
Qed.

Lemma family_all_within family sc raw params cards : sc_points sc = [] ->
  all_within (sc_supports (adapt_family family sc raw params cards)) (adapt_family family sc raw params cards).
Proof.
  intros Hnil. unfold adapt_family. destruct (String.eqb family "perf_guidellm_sweep"); [by apply sweep_all_within|].
  assert (forall n p, dict_get n (sc_points sc) = Some p -> False) as Hno by (intros n p; by rewrite Hnil; unfold dict_get).
  destruct (String.eqb family "perf_guidellm").
  { unfold _single. apply all_within_set; [intros n p Hn; by destruct (Hno n p)|apply level_within]. }
  destruct (String.eqb family "replay").
  { unfold _replay. apply all_within_set; [intros n p Hn; by destruct (Hno n p)|apply replay_within]. }
  destruct (match dict_get family _QUALITY with Some f => f raw | None => ([], []) end) as [out S] eqn:E.
  apply all_within_set; [intros n p Hn; by destruct (Hno n p)|]. cbn [sc_supports].
  enough (within (out, S).2 (out, S).1) by done. rewrite <- E. clear E Hno Hnil.
  destruct (dict_get family _QUALITY) as [f|] eqn:Ef; [|apply within_nil].
  apply dict_get_Some_in in Ef. unfold _QUALITY in Ef.
  apply elem_of_cons in Ef as [Ef|Ef]; [apply (f_equal snd) in Ef; cbn [snd] in Ef; subst f; exact (agentic_within raw)|].
  apply elem_of_cons in Ef as [Ef|Ef]; [apply (f_equal snd) in Ef; cbn [snd] in Ef; subst f; exact (opencompass_within raw)|].
  assert (exists pairs, all_in pairs.*1 pairs.*1 = true /\ f = plain pairs) as (pairs & Hpairs & ->); [|by apply plain_within].
  repeat (apply elem_of_cons in Ef as [Ef|Ef];
    [apply (f_equal snd) in Ef; cbn [snd] in Ef; subst f; eexists; split; [|reflexivity]; vm_compute; reflexivity|]).
  by apply not_elem_of_nil in Ef.
Qed.

Lemma all_within_mono S S' sc : all_within S sc -> S ⊆ S' -> all_within S' sc.
Proof. intros H HS n p Hp. eapply within_mono; [by eapply H|done]. Qed.

Lemma operating_within S sc : all_within S sc -> within S (operating sc).
Proof.
  intros H. unfold operating. destruct (dict_get "operating" (sc_points sc)) as [p|] eqn:E; [by eapply H|].
  apply within_nil.
Qed.

Lemma supported_keys key raw params cards replay_names aliases name p k :
  dict_get name (sc_points (adapt key raw params cards replay_names aliases)) = Some p ->
  k ∈ p.*1 -> k ∈ sc_supports (adapt key raw params cards replay_names aliases).
Proof.
  intros Hp Hk. revert name p Hp k Hk. unfold adapt. cbv zeta.
  set (family := family_of _ _ _). set (n := num_or cards _).
  set (sc0 := adapt_family family _ raw params n).
  assert (all_within (sc_supports sc0) sc0) as H0 by by apply family_all_within.
  set (extra := ["score"] ++ _). cbn [sc_points sc_supports update_field].
  enough (all_within (sc_supports sc0 ++ extra) (add_score family raw n sc0) /\
          sc_supports (add_score family raw n sc0) = sc_supports sc0) as [Hall Hs]
    by (intros name p Hp; cbn; rewrite Hs; by eapply Hall).
  unfold add_score. assert (sc_supports sc0 ⊆ sc_supports sc0 ++ extra) as Hsub by by apply list_subseteq_app_l.
  destruct (number _) as [score|]; [|split; [by eapply all_within_mono|done]]. split; [|done].
  apply all_within_set; [by eapply all_within_mono|].
  assert (within (sc_supports sc0 ++ extra) (dict_set "score" score (operating sc0))) as Hscore.
  { apply within_set; [apply elem_of_app; right; by apply elem_of_app; left; left|].
    eapply within_mono; [by apply operating_within|done]. }
  destruct (String.eqb family "replay") eqn:E; [|done].
  destruct (num_or n None); [|done]. apply within_set; [|done].
  apply elem_of_app. right. subst extra. apply elem_of_app. right. left.
Qed.

(** Whatever a module reports, at whatever point, is one of the measures its adapter says the module
    can report: an objective that names none of those is refused when it is written, and never because
    the list was short. *)
Theorem reports_only_what_it_supports key raw params cards replay_names aliases name p k :
  dict_get name (sc_points (adapt key raw params cards replay_names aliases)) = Some p ->
  k ∈ p.*1 -> k ∈ sc_supports (adapt key raw params cards replay_names aliases).
Proof. apply supported_keys. Qed.

(** ** The operating point of a sweep *)
Definition meets (l : Z * tree) : bool :=
  match level_flag l.2 with Some x => f_truthy x | None => false end.

Lemma finite_only_number o x : finite_only o = Some x -> is_number x = true.
Proof. destruct o as [y|]; [|done]. cbn. destruct y; by intros [= <-]. Qed.

Lemma number_is_number d x : number d = Some x -> is_number x = true.
Proof. destruct d as [[v| |]|]; [|done..]. apply finite_only_number. Qed.

Lemma level_total_number lv : is_number (level_total lv) = true.
Proof.
  unfold level_total, num_or. destruct (number _) as [x|] eqn:E; [|done].
  destruct (f_truthy x); [|done]. by apply number_is_number in E.
Qed.

(** The order of [max(passing, key=lambda c: (total(c), c))]. *)
Definition width_key (l : Z * tree) : list Z := f_key (level_total l.2) ++ [l.1].

Lemma f_eqb_key x y : is_number x = true -> is_number y = true ->
  f_eqb x y = bool_decide (f_key x = f_key y).
Proof.
  unfold f_eqb, SFeqb. intros Hx Hy.
  destruct x as [s|[]| |[] m e], y as [s'|[]| |[] m' e']; simpl in *; try done; symmetry.
  - change (PosDef.Pos.compare_cont Eq m m') with (m ?= m')%positive.
    change (PosDef.Pos.compare m m') with (m ?= m')%positive.
    destruct (Z.compare_spec e e') as [->|He|He]; [|by apply bool_decide_eq_false; intros [= ?]; lia..].
    destruct (Pos.compare_spec m m') as [->|Hm|Hm]; cbn [CompOpp];
      [by apply bool_decide_eq_true|by apply bool_decide_eq_false; intros [= ?]; lia..].
  - change (PosDef.Pos.compare_cont Eq m m') with (m ?= m')%positive.
    change (PosDef.Pos.compare m m') with (m ?= m')%positive.
    destruct (Z.compare_spec e e') as [->|He|He]; [|by apply bool_decide_eq_false; intros [= ?]; lia..].
    destruct (Pos.compare_spec m m') as [->|Hm|Hm];
      [by apply bool_decide_eq_true|by apply bool_decide_eq_false; intros [= ?]; lia..].
Qed.

Lemma tuple_lt_snoc a b c d : length a = length b ->
  tuple_lt (a ++ [c]) (b ++ [d]) = tuple_lt a b || (bool_decide (a = b) && (c <? d)).
Proof.
  revert b. induction a as [|x a IH]; intros [|y b]; cbn; try done; intros Hl.
  - by rewrite andb_false_r, !orb_false_r.
  - rewrite IH by lia. destruct (Z.eqb_spec x y) as [->|Hxy]; cbn.
    + rewrite Z.ltb_irrefl. cbn. f_equal. f_equal. apply bool_decide_ext. naive_solver.
    + rewrite (bool_decide_eq_false_2 (x :: a = y :: b)) by naive_solver. by rewrite !orb_false_r.
Qed.

Lemma f_key_shapes x y : length (f_key x) = length (f_key y) \/
  exists h t h' t', f_key x = h :: t /\ f_key y = h' :: t' /\ h <> h'.
Proof.
  destruct x as [s|[]| |[] m e], y as [s'|[]| |[] m' e']; cbn;
    first [by left | right; repeat eexists; lia].
Qed.

Lemma above_or_wider_key x y : above_or_wider x y = tuple_lt (width_key y) (width_key x).
Proof.
  unfold above_or_wider, width_key.
  rewrite f_ltb_key, f_eqb_key by apply level_total_number.
  set (a := level_total y.2). set (b := level_total x.2).
  destruct (f_key_shapes a b) as [Hl|(h & t & h' & t' & -> & -> & Hne)].
  - by rewrite tuple_lt_snoc.
  - rewrite (bool_decide_eq_false_2 (h :: t = h' :: t')) by naive_solver. cbn.
    rewrite (proj2 (Z.eqb_neq h h') Hne). cbn. by rewrite !orb_false_r.
Qed.

#[export] Instance above_or_wider_weak : WeakOrder above_or_wider.
Proof.
  split.
  - intros x y. rewrite !above_or_wider_key. apply (before_asym (before:=key_before width_key)).
  - intros x y z. rewrite !above_or_wider_key. intros H1 H2.
    by apply (before_negtrans (before:=key_before width_key) z y x).
Qed.

#[export] Instance lower_level_weak : WeakOrder (fun x y : Z * tree => x.1 <? y.1).
Proof. split; cbn; intros; lia. Qed.

Lemma level_at_in c ls l : level_at c ls = Some l -> l ∈ ls /\ l.1 = c.
Proof. intros [H1 H2%Z.eqb_eq]%find_some. split; [by apply list_elem_of_In|done]. Qed.

(** The operating point of a sweep in grid mode: a level that met the SLO, such that no other level
    that met it has a higher total throughput, nor the same at a higher concurrency; where no level met
    it, the lowest level.  It is there as soon as one level is flagged against the SLO. *)
Theorem operating_point_of_a_sweep raw :
  let ls := levels_of raw in
  dict_has "search_probes" raw = false ->
  existsb (fun l => bool_decide (is_Some (level_flag l.2))) ls = true ->
  exists l, (chosen_level raw ls).1 = Some l /\ l ∈ ls /\
    if existsb meets ls
    then meets l = true /\ forall l', l' ∈ ls -> meets l' = true ->
         f_ltb (level_total l.2) (level_total l'.2) = false /\
         (f_eqb (level_total l.2) (level_total l'.2) = true -> l'.1 <= l.1)
    else forall l', l' ∈ ls -> l.1 <= l'.1.
Proof.
  intros ls Hp Hf. unfold chosen_level. rewrite Hp. cbn [andb]. fold meets. rewrite Hf.
  change (fun l : Z * tree => match level_flag l.2 with Some x => f_truthy x | None => false end) with meets.
  destruct (min_by above_or_wider (where_ meets ls)) as [l|] eqn:E.
  - apply min_by_spec in E as [[Hin Hm]%elem_of_where Hmax]; [|apply _].
    exists l. split; [done|]. split; [done|].
    assert (existsb meets ls = true) as -> by (apply existsb_exists; exists l; by rewrite <- list_elem_of_In).
    split; [done|]. intros l' Hl' Hm'.
    assert (above_or_wider l' l = false) as [H1 H2]%orb_false_iff by (apply Hmax; by apply elem_of_where).
    split; [done|]. intros Heq. rewrite Heq in H2. cbn in H2. lia.
  - rewrite min_by_None, where_nil in E.
    assert (existsb meets ls = false) as ->.
    { apply not_true_iff_false. intros (x & Hx & Hm)%existsb_exists.
      apply list_elem_of_In in Hx. by rewrite (E _ Hx) in Hm. }
    destruct (min_by _ ls) as [l|] eqn:El.
    + apply min_by_spec in El as [Hin Hmin]; [|apply _]. exists l. split; [done|]. split; [done|].
      intros l' Hl'. specialize (Hmin _ Hl'). cbn in Hmin. lia.
    + rewrite min_by_None in El. rewrite El in Hf. done.
Qed.

(** ** A sweep of three levels, two of which met the SLO *)
Definition sample_sweep : tree :=
  [("c8.total_tps_mean", Sc (VInt 900)); ("c8.meets_slo", Sc (VBool true));
   ("c16.total_tps_mean", Sc (VInt 1500)); ("c16.meets_slo", Sc (VBool true));
   ("c32.total_tps_mean", Sc (VInt 2100)); ("c32.meets_slo", Sc (VBool false))].

Lemma reports_only_what_it_supports_witness :
  let s := adapt "perf_guidellm_sweep#2" sample_sweep [] (Some (f_of_Z 4)) [] [] in
  exists p x, dict_get "c16" (sc_points s) = Some p /\ dict_get "total_tpm_per_gpu" p = Some x /\
    "total_tpm_per_gpu" ∈ sc_supports s.
Proof.
  intros s. destruct (dict_get "c16" (sc_points s)) as [p|] eqn:E; [|by vm_compute in E].
  destruct (dict_get "total_tpm_per_gpu" p) as [x|] eqn:Ex; [|vm_compute in E; by injection E as <-].
  exists p, x. split; [done|]. split; [done|].
  apply (reports_only_what_it_supports "perf_guidellm_sweep#2" sample_sweep [] (Some (f_of_Z 4)) [] [] "c16" p); [done|].
  vm_compute in E. injection E as <-. apply listed_elem. by vm_compute.
Defined.

Lemma operating_point_of_a_sweep_witness :
  fst <$> (chosen_level sample_sweep (levels_of sample_sweep)).1 = Some 16 /\
  exists l, (chosen_level sample_sweep (levels_of sample_sweep)).1 = Some l /\ meets l = true /\
    forall l', l' ∈ levels_of sample_sweep -> meets l' = true -> f_ltb (level_total l.2) (level_total l'.2) = false.
Proof.
  split; [by vm_compute|].
  destruct (operating_point_of_a_sweep sample_sweep) as (l & Hl & _ & H); [by vm_compute..|].
  exists l. split; [done|].
  replace (existsb meets (levels_of sample_sweep)) with true in H by by vm_compute.
  destruct H as [Hm H]. split; [done|]. intros l' Hin Hm'. by apply H.
Defined.
