(* ===== verification/Harvest.v ===== *)
(** What the platform keeps of a finished LLMBench submission
    ([evaluation/llmbench.py]): the key of each module run, one flat table of
    metrics, the verdict and what it says of the modules that did not pass.

    A submission is the JSON document LLMBench answers: [runs] is a list of
    objects, their [module_name], [status] and [error] are strings, the bounds
    of [metric_configs_json] numbers or null. *)
From Stdlib Require Import Ascii SpecFloat.
From S2P Require Import Prelude Float Values Failures Texts Documents Measures Adapters.
#[local] Open Scope string_scope.
#[local] Open Scope list_scope.
#[local] Open Scope Z_scope.

Definition _TERMINAL_FAIL : list string := ["failed"; "canceled"].

(** ** Keys *)
Definition _INSTANCE_SEP : string := "#".

Definition instance_key (name : string) (nth : Z) : string :=
  if nth =? 1 then name else name +:+ _INSTANCE_SEP +:+ pretty nth.

Fixpoint instance_keys_from (seen : list (string * Z)) (names : list string) : list string :=
  match names with
  | [] => []
  | name :: rest =>
      let nth := default 0 (dict_get name seen) + 1 in
      instance_key name nth :: instance_keys_from (dict_set name nth seen) rest
  end.
Definition instance_keys : list string -> list string := instance_keys_from [].

Definition text_of (key other : string) (m : tree) : string :=
  match dict_get key m with Some d => doc_str d | None => other end.
Definition module_name_of (run : tree) : string := text_of "module_name" "module" run.

Definition int_id (run : tree) : option Z :=
  match dict_get "id" run with
  | Some (Sc (VInt z)) => Some z
  | Some (Sc (VBool b)) => Some (bool_int b)
  | _ => None
  end.

(** The runs in the order of their ids, where every run has one. *)
Definition runs_in_order (submission : tree) : list tree :=
  let runs := map (fun d => sub_tree (Some d)) (sub_list (dict_get "runs" submission)) in
  if forallb (fun r => bool_decide (is_Some (int_id r))) runs
  then sort_by (fun a b => default 0 (int_id a) <? default 0 (int_id b)) runs
  else runs.

Definition _keyed_runs (submission : tree) : list (string * tree) :=
  let runs := runs_in_order submission in
  zip (instance_keys (map module_name_of runs)) runs.

(** ** Flattening *)
Definition _MAX_METRIC_DEPTH : nat := 2.

(** [depth]: how many more groups are entered. *)
Fixpoint flatten_into (depth : nat) (prefix : string) (value : doc) (target : tree) : tree :=
  match value with
  | Mp m =>
      match depth with
      | S d => foldl (fun target '(key, nested) => flatten_into d (prefix +:+ "." +:+ key) nested target) target m
      | O => target
      end
  | Ls _ => target
  | Sc _ => dict_set prefix value target
  end.
Definition _flatten_into (prefix : string) (value : doc) (target : tree) : tree :=
  flatten_into _MAX_METRIC_DEPTH prefix value target.

(** A number, and not a bool or a text that reads as one. *)
Definition _as_number (d : option doc) : option float :=
  match d with
  | Some (Sc (VInt z)) => Some (f_of_Z z)
  | Some (Sc (VFloat x)) => Some x
  | _ => None
  end.

Fixpoint first_scale (raw : tree) (keys : list string) : option float :=
  match keys with
  | [] => None
  | key :: rest =>
      match num_or (_as_number (dict_get key raw)) None, _as_number (dict_get (key +:+ "_card_norm") raw) with
      | Some base, Some norm => Some (f_div norm base)
      | _, _ => first_scale raw rest
      end
  end.
Definition sort_keys (keys : list string) : list string := sort_by (key_before key_of_string) keys.
Definition _card_norm_scale (raw : tree) : option float := first_scale raw (sort_keys raw.*1).

Definition _module_score (run : tree) : tree :=
  match dict_get "score" run, _as_number (dict_get "score" run) with
  | Some d, Some score =>
      ("score", d) ::
      match _card_norm_scale (sub_tree (dict_get "metrics_json" run)) with
      | Some scale => [("score_card_norm", Sc (VFloat (f_mul score scale)))]
      | None => []
      end
  | _, _ => []
  end.

Definition flatten_run (metrics : tree) (kr : string * tree) : tree :=
  let '(module, run) := kr in
  let metrics := foldl (fun m '(suffix, v) => dict_set (module +:+ "." +:+ suffix) v m) metrics (_module_score run) in
  foldl (fun m '(key, v) => _flatten_into (module +:+ "." +:+ key) v m) metrics (sub_tree (dict_get "metrics_json" run)).

Definition is_none (d : option doc) : bool := match d with None | Some (Sc VNone) => true | _ => false end.

Definition _flatten_metrics (submission : tree) : tree :=
  let top := match dict_get "score_total" submission with
             | Some d => if is_none (Some d) then [] else [("score_total", d)]
             | None => []
             end in
  foldl flatten_run top (_keyed_runs submission).

(** ** What a module says of itself *)
Definition _fmt_num (d : doc) : string :=
  match d with
  | Sc v =>
      match num_of v with
      | Some n =>
          if f_is_integer (num_float n)
          then match int_or_none (VFloat (num_float n)) with Some z => pretty z | None => "" end
          else format_g 4 (num_float n)
      | None => ""
      end
  | _ => ""
  end.

Definition _first_line (text : option doc) (limit : nat) : string :=
  let s := match text with Some d => if doc_truthy d then doc_str d else "" | None => "" end in
  match split_lines [] (chars (strip s)) with
  | line :: _ => clip limit (of_chars line)
  | [] => ""
  end.

Definition _frozen_params (params : option doc) : tree :=
  where_ (fun kv : string * doc => match kv.2 with Sc VNone => false | Sc _ => true | _ => false end) (sub_tree params).

(** [low is not None and actual < low], and the same above. *)
Definition below (actual : float) (low : option doc) : bool :=
  match low with
  | Some d => if is_none low then false
              else match doc_cmp (Sc (VFloat actual)) d with Some c => is_lt c | None => false end
  | None => false
  end.
Definition over (actual : float) (high : option doc) : bool :=
  match high with
  | Some d => if is_none high then false
              else match doc_cmp (Sc (VFloat actual)) d with Some c => is_gt c | None => false end
  | None => false
  end.
Definition at_least (actual : float) (low : option doc) : bool :=
  match low with
  | Some d => if is_none low then true
              else match doc_cmp (Sc (VFloat actual)) d with Some c => is_ge c | None => false end
  | None => true
  end.
Definition at_most (actual : float) (high : option doc) : bool :=
  match high with
  | Some d => if is_none high then true
              else match doc_cmp (Sc (VFloat actual)) d with Some c => is_le c | None => false end
  | None => true
  end.

Definition has_role (role : string) (cfg : tree) : bool :=
  bool_decide (dict_get "role" cfg = Some (Sc (VStr role))).
Definition configs_of (run : tree) : list tree :=
  map (fun d => sub_tree (Some d)) (sub_list (dict_get "metric_configs_json" run)).
(** [metrics.get(cfg.get("key"))]. *)
Definition actual_of (run cfg : tree) : option float :=
  match dict_get "key" cfg with
  | Some (Sc (VStr key)) => _as_number (dict_get key (sub_tree (dict_get "metrics_json" run)))
  | _ => None
  end.

Definition redline_breach (run cfg : tree) : option string :=
  if has_role "redline" cfg
  then match actual_of run cfg with
       | Some actual =>
           let low := dict_get "min_val" cfg in
           let high := dict_get "max_val" cfg in
           let shown := text_of "key" "" cfg +:+ " " +:+ _fmt_num (Sc (VFloat actual)) in
           if below actual low then Some (shown +:+ " < " +:+ _fmt_num (default (Sc VNone) low))
           else if over actual high then Some (shown +:+ " > " +:+ _fmt_num (default (Sc VNone) high))
           else None
       | None => None
       end
  else None.
Definition _redline_breaches (run : tree) : list string := omap (redline_breach run) (configs_of run).

Definition _MAX_BREACHES_SHOWN : nat := 6.

(** ["; ".join(parts)]. *)
Fixpoint semi_join (l : list string) : string :=
  match l with
  | [] => ""
  | [s] => s
  | s :: l' => s +:+ "; " +:+ semi_join l'
  end.

Definition _describe_module_failure (run : tree) : string :=
  let text := _first_line (dict_get "error" run) 200 in
  if negb (String.eqb text "") then text
  else
    match _redline_breaches run with
    | [] =>
        match dict_get "score" run with
        | Some d => if is_none (Some d) then "" else "score " +:+ doc_str d
        | None => ""
        end
    | breaches =>
        let more := (length breaches - _MAX_BREACHES_SHOWN)%nat in
        semi_join (take _MAX_BREACHES_SHOWN breaches)
        +:+ if (more =? 0)%nat then "" else "; +" +:+ pretty (Z.of_nat more) +:+ " more"
    end.

Definition did_not_pass (run : tree) : bool :=
  bool_decide (dict_get "passed" run = Some (Sc (VBool false)))
  || bool_decide (dict_get "status" run = Some (Sc (VStr "failed"))).

Definition _failed_modules (submission : tree) : string :=
  semi_join (map (fun '(name, run) =>
      let detail := _describe_module_failure run in
      name +:+ if String.eqb detail "" then "" else " (" +:+ detail +:+ ")")
    (where_ (fun kr => did_not_pass kr.2) (_keyed_runs submission))).

(** ** The reports of the modules *)
Record bound := mkBound {
  bo_metric : option doc;
  bo_role : string;
  bo_min : option doc;
  bo_max : option doc;
  bo_actual : option float;
  (** [None]: the metric never came back. *)
  bo_ok : option bool }.

Definition bound_of (run cfg : tree) : option bound :=
  let role := if has_role "redline" cfg then Some "redline" else if has_role "display" cfg then Some "display" else None in
  let low := dict_get "min_val" cfg in
  let high := dict_get "max_val" cfg in
  match role with
  | Some r =>
      if is_none low && is_none high then None
      else
        let actual := actual_of run cfg in
        Some (mkBound (dict_get "key" cfg) r low high actual
                ((fun a => at_least a low && at_most a high) <$> actual))
  | None => None
  end.

Record module_report := mkReport {
  rp_module : string;
  rp_module_name : string;
  rp_params : tree;
  rp_status : string;
  rp_passed : option doc;
  rp_score : option float;
  rp_error : string;
  rp_bounds : list bound }.

Definition report_of (kr : string * tree) : module_report :=
  let '(key, run) := kr in
  mkReport key (module_name_of run) (_frozen_params (dict_get "params_json" run)) (text_of "status" "" run)
    (dict_get "passed" run) (_as_number (dict_get "score" run)) (_first_line (dict_get "error" run) 200)
    (omap (bound_of run) (configs_of run)).
Definition module_reports (submission : tree) : list module_report := map report_of (_keyed_runs submission).

(** ** The verdict *)
Inductive eval_status := EVAL_RUNNING | EVAL_PASSED | EVAL_FAILED.
#[export] Instance eval_status_dec : EqDecision eval_status. Proof. solve_decision. Defined.

Record eval_outcome := mkOutcome {
  oc_status : eval_status;
  oc_metrics : tree;
  oc_raw : tree;
  oc_error : string }.

(** What [poll] makes of the submission LLMBench answered, or of the error the
    request ended in. *)
Definition poll_outcome (answer : string + tree) : eval_outcome :=
  match answer with
  | inl error => mkOutcome EVAL_RUNNING [] [] error
  | inr submission =>
      let status := text_of "status" "" submission in
      let metrics := _flatten_metrics submission in
      if String.eqb status "done" then
        if bool_decide (dict_get "passed" submission = Some (Sc (VBool false)))
        then mkOutcome EVAL_FAILED metrics submission
               ("benchmark ran but did not pass: "
                +:+ let failed := _failed_modules submission in
                    if String.eqb failed "" then "see submission detail" else failed)
        else if is_none (dict_get "passed" submission)
        then mkOutcome EVAL_FAILED metrics submission "benchmark finished but no module reported a result"
        else mkOutcome EVAL_PASSED metrics submission ""
      else if bool_decide (status ∈ _TERMINAL_FAIL)
      then mkOutcome EVAL_FAILED metrics submission
             (match dict_get "error" submission with
              | Some d => if doc_truthy d then doc_str d else "LLMBench submission " +:+ status
              | None => "LLMBench submission " +:+ status
              end)
      else mkOutcome EVAL_RUNNING [] [] ""
  end.

(** ** Keys: lemmas *)
Definition clean (name : string) : Prop := partition "#" name = None /\ partition "." name = None.

Lemma instance_key_module name nth : partition "#" name = None -> module_of (instance_key name nth) = name.
Proof.
  intros Hn. unfold module_of, instance_key. destruct (nth =? 1); [by rewrite Hn|].
  change (_INSTANCE_SEP +:+ pretty nth) with (String "#" (pretty nth)). by rewrite partition_app.
Qed.

Lemma instance_key_inj name nth nth' : 1 <= nth -> 1 <= nth' ->
  instance_key name nth = instance_key name nth' -> nth = nth'.
Proof.
  unfold instance_key. intros H1 H2 H.
  assert (forall n : Z, name <> name +:+ _INSTANCE_SEP +:+ pretty n) as Hne.
  { intros n E. apply (f_equal chars) in E. rewrite !chars_app in E.
    apply (f_equal length) in E. rewrite !length_app in E.
    change (length (chars _INSTANCE_SEP)) with 1%nat in E. lia. }
  destruct (Z.eqb_spec nth 1) as [->|], (Z.eqb_spec nth' 1) as [->|]; [done|by destruct (Hne nth')| |].
  - by destruct (Hne nth).
  - apply (f_equal chars) in H. rewrite !chars_app in H. apply app_inv_head, app_inv_head, chars_inj in H.
    by apply (inj pretty).
Qed.

Lemma instance_keys_modules seen names : Forall (fun n => partition "#" n = None) names ->
  map module_of (instance_keys_from seen names) = names.
Proof.
  revert seen. induction names as [|n names IH]; intros seen; [done|]. intros [Hn Hr]%Forall_cons. cbn.
  by rewrite instance_key_module, IH.
Qed.

Lemma length_instance_keys seen names : length (instance_keys_from seen names) = length names.
Proof. revert seen. induction names as [|n names IH]; intros seen; cbn; [done|]. by rewrite IH. Qed.

(** A key handed out later is not one of those a module had already. *)
Lemma instance_keys_later seen names k : Forall (fun n => partition "#" n = None) names ->
  k ∈ instance_keys_from seen names -> exists nth, k = instance_key (module_of k) nth /\
    default 0 (dict_get (module_of k) seen) < nth.
Proof.
  revert seen. induction names as [|n names IH]; intros seen Hn; cbn; [by intros ?%not_elem_of_nil|].
  apply Forall_cons in Hn as [Hn Hr]. intros [->|Hk]%elem_of_cons.
  - rewrite instance_key_module by done. eexists. split; [done|]. lia.
  - destruct (IH _ Hr Hk) as (nth & E & Hlt). exists nth. split; [done|].
    rewrite dict_get_set in Hlt. destruct (String.eqb_spec (module_of k) n) as [Ek|]; [|done]. rewrite Ek. cbn in Hlt |- *. lia.
Qed.

Lemma instance_keys_nodup seen names : Forall (fun n => partition "#" n = None) names ->
  (forall n c, dict_get n seen = Some c -> 1 <= c) -> NoDup (instance_keys_from seen names).
Proof.
  revert seen. induction names as [|n names IH]; intros seen Hn Hs; cbn; [constructor|].
  apply Forall_cons in Hn as [Hn Hr].
  assert (0 <= default 0 (dict_get n seen)) as Hpos
    by (destruct (dict_get n seen) as [c|] eqn:E; cbn; [specialize (Hs _ _ E); lia|lia]).
  constructor.
  - intros Hin. apply instance_keys_later in Hin as (nth & E & Hlt); [|done].
    rewrite instance_key_module in E, Hlt by done. rewrite dict_get_set, String.eqb_refl in Hlt. cbn in Hlt.
    apply instance_key_inj in E; lia.
  - apply IH; [done|]. intros m c. rewrite dict_get_set. destruct (String.eqb m n); [|apply Hs].
    intros [= <-]. lia.
Qed.

(** The runs of a benchmark get distinct keys, whatever modules it runs and however often, as long
    as no module's name holds the separator; the first run of a module keeps its bare name, and every
    key says which module it is a run of. *)
Theorem instance_keys_tell_runs_apart names :
  Forall (fun n => partition "#" n = None) names ->
  NoDup (instance_keys names) /\ map module_of (instance_keys names) = names /\
  forall i n, names !! i = Some n -> n ∉ take i names -> instance_keys names !! i = Some n.
Proof.
  intros Hn. split; [|split].
  - apply instance_keys_nodup; [done|]. intros n c. by unfold dict_get.
  - by apply instance_keys_modules.
  - unfold instance_keys. assert (forall m, dict_get m (@nil (string * Z)) = None) as H0 by done.
    intros i n Hi Hnew. assert (dict_get n (@nil (string * Z)) = None) as Hs by done. clear H0.
    revert Hs. generalize (@nil (string * Z)) as seen. revert i Hi Hnew.
    induction names as [|m names IH]; intros [|i] Hi Hnew seen Hs; try done.
    + cbn in Hi. injection Hi as ->. cbn. rewrite Hs. cbn. done.
    + cbn in Hi, Hnew. apply not_elem_of_cons in Hnew as [Hnm Hnew]. apply Forall_cons in Hn as [_ Hn].
      cbn. apply (IH Hn i Hi Hnew). rewrite dict_get_set. by rewrite (proj2 (String.eqb_neq n m) Hnm).
Qed.

Example module_named_like_a_second_run :
  instance_keys ["sweep#2"; "sweep"; "sweep"] = ["sweep#2"; "sweep"; "sweep#2"].
Proof. vm_compute. reflexivity. Qed.

Lemma instance_keys_tell_runs_apart_witness :
  let names := ["replay"; "opencompass"; "replay"; "replay"] in
  instance_keys names = ["replay"; "opencompass"; "replay#2"; "replay#3"] /\
  NoDup (instance_keys names) /\ map module_of (instance_keys names) = names.
Proof.
  intros names. split; [by vm_compute|].
  destruct (instance_keys_tell_runs_apart names) as (Hnd & Hm & _); [by repeat constructor|]. by split.
Defined.
