(* ===== verification/Readings.v ===== *)
(** Reading one number of a run by name ([measures/__init__.py]): a run's flat
    metrics grouped back into its modules, each adapted into a scenario, and a
    reference or a raw key resolved against them; and a
    benchmark's module reports read as scenarios ([evaluation/scenarios.py]).

    What the settings say of LLMBench (the replay's module, the names mapped
    onto families) is an argument. *)
From Stdlib Require Import Ascii SpecFloat.
From S2P Require Import Prelude Float Values Failures Texts Documents Measures Adapters Harvest.
#[local] Open Scope string_scope.
#[local] Open Scope list_scope.
#[local] Open Scope Z_scope.

Definition _SUBMISSION_KEYS : list string := ["score_total"].

Definition split_entry (out : list (string * tree)) (kv : string * doc) : list (string * tree) :=
  let '(key, v) := kv in
  if bool_decide (key ∈ _SUBMISSION_KEYS) then out
  else match partition "." key with
       | Some (module, rest) => dict_set module (dict_set rest v (default [] (dict_get module out))) out
       | None => out
       end.
Definition _split (metrics : tree) : list (string * tree) := foldl split_entry [] metrics.

Record llmbench_names := mkNames {
  ln_replay_module : string;
  ln_families : list (string * string) }.
Definition replay_names (n : llmbench_names) : list string :=
  if String.eqb (ln_replay_module n) "" then [] else [ln_replay_module n].

(** The params each module's report declares, by the module's key. *)
Definition params_by_key (reports : list module_report) : list (string * tree) :=
  foldl (fun out r => dict_set (rp_module r) (rp_params r) out) [] reports.

Definition measures_of (names : llmbench_names) (metrics : tree) (reports : list module_report)
    (cards : option float) : list Scenario :=
  map (fun '(key, raw) =>
      adapt key raw (default [] (dict_get key (params_by_key reports))) cards (replay_names names) (ln_families names))
    (_split metrics).

Definition main_scenario (scenarios : list Scenario) (wanted : option string) : option Scenario :=
  match given wanted with
  | Some key => List.find (fun s => String.eqb (sc_key s) key) scenarios
  | None =>
      match List.find is_throughput scenarios with
      | Some s => Some s
      | None => head scenarios
      end
  end.

Definition resolve_ref (r : MeasureRef) (scenarios : list Scenario) : option float :=
  match main_scenario scenarios (mr_scenario r) with
  | Some s =>
      let p := default [] (dict_get (default "operating" (given (mr_point r))) (sc_points s)) in
      dict_get (ref_key r) p
  | None => None
  end.

(** [Reader]: the metrics of a run and its scenarios, read by either kind of
    name. *)
Record reader := mkReader { rd_metrics : tree; rd_scenarios : list Scenario }.

Definition read_name (rd : reader) (name : string) : option doc :=
  if negb (String.eqb name "") && is_measure_ref name
  then match parse_ref name with
       | inr r => (fun x => Sc (VFloat x)) <$> resolve_ref r (rd_scenarios rd)
       | inl _ => None
       end
  else dict_get name (rd_metrics rd).

(** [reader_for]: module params from the raw submission, and [cards], what one
    launch of the configuration claims. *)
Definition reader_for (names : llmbench_names) (metrics raw : tree) (cards : option float) : reader :=
  mkReader metrics (measures_of names metrics (match raw with [] => [] | _ => module_reports raw end)
                      (num_or cards None)).

(** [value(name, metrics=...)]: a name no measure has is an error there. *)
Definition read_value (names : llmbench_names) (name : string) (metrics : tree) : RefError + option doc :=
  if is_measure_ref name
  then match parse_ref name with
       | inr r => inr ((fun x => Sc (VFloat x)) <$> resolve_ref r (measures_of names metrics [] None))
       | inl e => inl e
       end
  else inr (dict_get name metrics).

(** Why a benchmark that runs [modules] can never report [name]. *)
Definition problem_with (names : llmbench_names) (name : string) (modules : list string) : option string :=
  if negb (is_measure_ref name) then None
  else match parse_ref name with
       | inl e => Some e
       | inr r =>
           let scenarios := map (fun key => adapt key [] [] None [ln_replay_module names] (ln_families names))
                              (instance_keys modules) in
           match main_scenario scenarios (mr_scenario r) with
           | None =>
               Some (match given (mr_scenario r) with
                     | Some s => "no module " +:+ s +:+ " in this benchmark"
                     | None => "this benchmark runs no modules"
                     end)
           | Some s =>
               match given (mr_point r) with
               | Some p =>
                   if negb (String.eqb (sc_kind s) "sweep")
                   then Some (sc_key s +:+ " is not a sweep, so it has no point " +:+ p)
                   else if bool_decide (ref_key r ∈ sc_supports s) then None
                   else Some (sc_key s +:+ " never reports " +:+ ref_key r)
               | None =>
                   if bool_decide (ref_key r ∈ sc_supports s) then None
                   else Some (sc_key s +:+ " never reports " +:+ ref_key r)
               end
           end
       end.

(** ** What a module's part of the metrics is *)

(** The flat metrics of one run, by themselves. *)
Definition own_into (t run : tree) : tree :=
  foldl (fun m '(key, v) => _flatten_into key v m)
    (foldl (fun m '(suffix, v) => dict_set suffix v m) t (_module_score run))
    (sub_tree (dict_get "metrics_json" run)).
Definition own_metrics (run : tree) : tree := own_into [] run.

Definition key_in (module key : string) : option string :=
  match partition "." key with
  | Some (m, rest) => if String.eqb m module then Some rest else None
  | None => None
  end.
Definition project (module : string) (metrics : tree) : tree :=
  omap (fun kv => (fun rest => (rest, kv.2)) <$> key_in module kv.1) metrics.

Lemma dotted_assoc (k q r : string) : k +:+ "." +:+ q +:+ "." +:+ r = (k +:+ "." +:+ q) +:+ "." +:+ r.
Proof. apply chars_inj. by rewrite !chars_app, <- !app_assoc. Qed.

Lemma key_in_own k leaf : partition "." k = None -> key_in k (k +:+ "." +:+ leaf) = Some leaf.
Proof.
  intros Hk. unfold key_in. change ("." +:+ leaf) with (String "." leaf).
  by rewrite partition_app, String.eqb_refl.
Qed.

Lemma key_in_other k k' leaf : partition "." k' = None -> k <> k' -> key_in k (k' +:+ "." +:+ leaf) = None.
Proof.
  intros Hk Hne. unfold key_in. change ("." +:+ leaf) with (String "." leaf). rewrite partition_app by done.
  destruct (String.eqb_spec k' k); congruence.
Qed.

Lemma key_in_spelled k key r : key_in k key = Some r -> key = k +:+ "." +:+ r.
Proof.
  unfold key_in. destruct (partition "." key) as [[m rest]|] eqn:E; [|done].
  destruct (String.eqb_spec m k) as [->|]; [|done]. intros [= ->]. apply partition_Some in E as [E _].
  apply chars_inj. by rewrite E, !chars_app.
Qed.

Lemma project_set_own k leaf v m : partition "." k = None ->
  project k (dict_set (k +:+ "." +:+ leaf) v m) = dict_set leaf v (project k m).
Proof.
  intros Hk. induction m as [|[key w] m IH]; cbn.
  - by rewrite key_in_own.
  - destruct (String.eqb_spec (k +:+ "." +:+ leaf) key) as [<-|Hne]; cbn.
    + rewrite key_in_own by done. cbn. by rewrite String.eqb_refl.
    + destruct (key_in k key) as [r|] eqn:E; cbn; [|exact IH].
      destruct (String.eqb_spec leaf r) as [->|]; [apply key_in_spelled in E; congruence|by f_equal].
Qed.

Lemma project_set_other k key v m : key_in k key = None -> project k (dict_set key v m) = project k m.
Proof.
  intros Hk. induction m as [|[key' w] m IH]; cbn; [by rewrite Hk|].
  destruct (String.eqb_spec key key') as [<-|Hne]; cbn; [by rewrite Hk|].
  destruct (key_in k key'); cbn; [by f_equal|done].
Qed.

(** ** Flattening one run, seen from inside and from outside *)
Lemma project_flatten_own k d q v m : partition "." k = None ->
  project k (flatten_into d (k +:+ "." +:+ q) v m) = flatten_into d q v (project k m).
Proof.
  intros Hk. revert q v m. induction d as [|d IH]; intros q [w|l|n] m; cbn [flatten_into]; try done.
  - by apply project_set_own.
  - by apply project_set_own.
  - revert m. induction n as [|[key nested] n IHn]; intros m; cbn [foldl]; [done|].
    rewrite IHn. f_equal. rewrite <- dotted_assoc. apply IH.
Qed.

Lemma project_flatten_other k k' d q v m : partition "." k' = None -> k <> k' ->
  project k (flatten_into d (k' +:+ "." +:+ q) v m) = project k m.
Proof.
  intros Hk Hne. revert q v m. induction d as [|d IH]; intros q [w|l|n] m; cbn [flatten_into]; try done.
  - by apply project_set_other, key_in_other.
  - by apply project_set_other, key_in_other.
  - revert m. induction n as [|[key nested] n IHn]; intros m; cbn [foldl]; [done|].
    rewrite IHn, <- dotted_assoc. apply IH.
Qed.

(** A fold that a projection follows step by step. *)
Lemma foldl_project {A} (f g : tree -> A -> tree) (h : tree -> tree) l m :
  (forall m x, h (f m x) = g (h m) x) -> h (foldl f m l) = foldl g (h m) l.
Proof. intros H. revert m. induction l as [|x l IH]; intros m; cbn; [done|]. by rewrite IH, H. Qed.
Lemma foldl_untouched {A} (f : tree -> A -> tree) (h : tree -> tree) l m :
  (forall m x, h (f m x) = h m) -> h (foldl f m l) = h m.
Proof. intros H. revert m. induction l as [|x l IH]; intros m; cbn; [done|]. by rewrite IH, H. Qed.

Lemma project_run_own k run m : partition "." k = None ->
  project k (flatten_run m (k, run)) = own_into (project k m) run.
Proof.
  intros Hk. unfold flatten_run, own_into.
  rewrite (foldl_project _ (fun m '(key, v) => _flatten_into key v m)).
  - f_equal. apply foldl_project. intros m' [suffix v]. by apply project_set_own.
  - intros m' [key v]. by apply project_flatten_own.
Qed.

Lemma project_run_other k k' run m : partition "." k' = None -> k <> k' ->
  project k (flatten_run m (k', run)) = project k m.
Proof.
  intros Hk Hne. unfold flatten_run. rewrite foldl_untouched.
  - apply foldl_untouched. intros m' [suffix v]. by apply project_set_other, key_in_other.
  - intros m' [key v]. by apply project_flatten_other.
Qed.

Lemma project_runs_absent k l m : Forall (fun kr => partition "." kr.1 = None) l -> k ∉ l.*1 ->
  project k (foldl flatten_run m l) = project k m.
Proof.
  intros Hl. revert m. induction Hl as [|[k' run] l Hk Hl IH]; intros m Hnin; cbn [foldl]; [done|].
  apply not_elem_of_cons in Hnin as [Hne Hnin]. rewrite IH by done. by apply project_run_other.
Qed.

Lemma project_runs k run l m : Forall (fun kr => partition "." kr.1 = None) l -> NoDup l.*1 ->
  (k, run) ∈ l -> project k (foldl flatten_run m l) = own_into (project k m) run.
Proof.
  intros Hl. revert m. induction Hl as [|[k' run'] l Hk Hl IH]; intros m Hnd Hin; cbn [foldl]; [by apply not_elem_of_nil in Hin|].
  apply NoDup_cons in Hnd as [Hnin Hnd]. apply elem_of_cons in Hin as [[= -> ->]|Hin].
  - rewrite project_runs_absent by done. by apply project_run_own.
  - rewrite IH by done. f_equal. apply project_run_other; [done|].
    intros ->. apply Hnin, list_elem_of_fmap. by exists (k', run).
Qed.

(** ** Keys without dots *)
Lemma instance_key_no_dot name nth : 0 <= nth -> partition "." name = None -> partition "." (instance_key name nth) = None.
Proof.
  intros Hn Hd. unfold instance_key. destruct (nth =? 1); [done|].
  change (_INSTANCE_SEP +:+ pretty nth) with (String "#" (pretty nth)).
  apply partition_app_None; [done|]. apply partition_None. cbn [chars String.list_ascii_of_string].
  apply split_at_None. cbn. destruct (pretty_nonneg nth Hn) as [Hd' _].
  eapply forallb_weaken; [|exact Hd']. intros c Hc. destruct (Ascii.eqb_spec c "."); [by subst|done].
Qed.

Lemma keyed_runs_keys submission : (_keyed_runs submission).*1 = instance_keys (map module_name_of (runs_in_order submission)).
Proof.
  unfold _keyed_runs. apply fst_zip. unfold instance_keys. rewrite length_instance_keys, length_map. lia.
Qed.

Lemma instance_keys_no_dot seen names : Forall (fun n => partition "." n = None) names ->
  (forall n c, dict_get n seen = Some c -> 0 <= c) ->
  Forall (fun k => partition "." k = None) (instance_keys_from seen names).
Proof.
  revert seen. induction names as [|n names IH]; intros seen Hn Hs; cbn; [constructor|].
  apply Forall_cons in Hn as [Hn Hr].
  assert (0 <= default 0 (dict_get n seen)) as Hpos
    by (destruct (dict_get n seen) as [c|] eqn:E; cbn; [specialize (Hs _ _ E)|]; lia).
  constructor; [apply instance_key_no_dot; [lia|done]|]. apply IH; [done|].
  intros m c. rewrite dict_get_set. destruct (String.eqb m n); [|apply Hs]. intros [= <-]. lia.
Qed.

Lemma foldl_NoDup {A} (f : tree -> A -> tree) l m :
  (forall m x, NoDup m.*1 -> NoDup (f m x).*1) -> NoDup m.*1 -> NoDup (foldl f m l).*1.
Proof. intros H. revert m. induction l as [|x l IH]; intros m Hm; cbn; [done|]. apply IH, H, Hm. Qed.

Lemma flatten_NoDup d q v m : NoDup m.*1 -> NoDup (flatten_into d q v m).*1.
Proof.
  revert q v m. induction d as [|d IH]; intros q [w|l|n] m Hm; cbn [flatten_into]; try done.
  - by apply dict_set_NoDup.
  - by apply dict_set_NoDup.
  - apply foldl_NoDup; [|done]. intros m' [key x]. apply IH.
Qed.

Lemma own_NoDup t run : NoDup t.*1 -> NoDup (own_into t run).*1.
Proof.
  intros Ht. unfold own_into. apply foldl_NoDup; [intros m [key v]; apply flatten_NoDup|].
  apply foldl_NoDup; [intros m [key v]; apply dict_set_NoDup|done].
Qed.

Lemma flatten_run_NoDup m kr : NoDup m.*1 -> NoDup (flatten_run m kr).*1.
Proof.
  destruct kr as [k run]. intros Hm. unfold flatten_run.
  apply foldl_NoDup; [intros m' [key v]; apply flatten_NoDup|].
  apply foldl_NoDup; [intros m' [key v]; apply dict_set_NoDup|done].
Qed.

(** Splitting collects each module's entries in their order. *)
Definition collect (t : tree) (l : tree) : tree := foldl (fun t '(r, v) => dict_set r v t) t l.

Lemma key_in_submission k key : key ∈ _SUBMISSION_KEYS -> key_in k key = None.
Proof. intros [-> |H%not_elem_of_nil]%elem_of_cons; [|done]. unfold key_in. vm_compute. done. Qed.

Lemma split_entry_get k out kv :
  dict_get k (split_entry out kv) =
  match key_in k kv.1 with
  | Some r => Some (dict_set r kv.2 (default [] (dict_get k out)))
  | None => dict_get k out
  end.
Proof.
  destruct kv as [key v]. cbn [fst snd]. unfold split_entry.
  destruct (bool_decide_reflect (key ∈ _SUBMISSION_KEYS)) as [Hs|Hs]; [by rewrite key_in_submission|].
  unfold key_in. destruct (partition "." key) as [[m rest]|]; [|done].
  rewrite dict_get_set, String.eqb_sym. destruct (String.eqb_spec m k) as [->|]; done.
Qed.

Lemma split_get k metrics out :
  default [] (dict_get k (foldl split_entry out metrics)) = collect (default [] (dict_get k out)) (project k metrics)
  /\ (is_Some (dict_get k (foldl split_entry out metrics)) <-> is_Some (dict_get k out) \/ project k metrics <> []).
Proof.
  revert out. induction metrics as [|kv metrics IH]; intros out; cbn [foldl].
  - split; [done|]. cbn. naive_solver.
  - destruct (IH (split_entry out kv)) as [IH1 IH2]. rewrite IH1, IH2, !split_entry_get.
    unfold project. cbn [omap list_omap]. destruct (key_in k kv.1) as [r|] eqn:E; cbn; [|done].
    split; [done|]. split; [intros _; by right|intros _; left; by eexists].
Qed.

Lemma collect_fresh t l : NoDup (t ++ l).*1 -> collect t l = t ++ l.
Proof.
  revert t. induction l as [|[r v] l IH]; intros t Hnd; cbn; [by rewrite app_nil_r|].
  rewrite dict_set_fresh.
  - rewrite IH; by rewrite <- app_assoc.
  - rewrite fmap_app in Hnd. apply NoDup_app in Hnd as (_ & Hd & _). intros Hin. apply (Hd r Hin). left.
Qed.

(** *** What a run reported, read off its document *)
Fixpoint value_at (d : doc) (path : list string) : option doc :=
  match path with
  | [] => Some d
  | k :: rest => match d with Mp m => v ← dict_get k m; value_at v rest | _ => None end
  end.

(** The path with dots between its keys. *)
Definition joined (key : string) (rest : list string) : string :=
  foldl (fun name k => name +:+ "." +:+ k) key rest.

(** A mapping holds no key twice and none with a dot, at any depth. *)
Definition clear_names (d : doc) : Prop :=
  forall path m, value_at d path = Some (Mp m) -> NoDup m.*1 /\ Forall (fun k => partition "." k = None) m.*1.

(** A value of the run's metrics, up to three keys deep. *)
Definition measured (m : tree) (name : string) (v : scalar) : Prop :=
  exists key rest, (length rest <= 2)%nat /\ value_at (Mp m) (key :: rest) = Some (Sc v) /\ name = joined key rest.

Definition number_in (m : tree) (key : string) (x : float) : Prop :=
  (exists z, dict_get key m = Some (Sc (VInt z)) /\ x = f_of_Z z) \/ dict_get key m = Some (Sc (VFloat x)).

(** A metric other than zero that is there per card as well. *)
Definition normalized (m : tree) (key : string) (base norm : float) : Prop :=
  number_in m key base /\ f_eqb base f_zero = false /\ number_in m (key +:+ "_card_norm") norm.

(** The run's score, and the same per card: scaled as the first metric, in the
    order of the names, that is there both ways. *)
Definition scored (run m : tree) (name : string) (d : doc) : Prop :=
  exists score, number_in run "score" score /\
    ((name = "score" /\ dict_get "score" run = Some d) \/
     (name = "score_card_norm" /\ exists key base norm,
        normalized m key base norm /\ d = Sc (VFloat (f_mul score (f_div norm base))) /\
        forall key' base' norm', normalized m key' base' norm' -> key_before key_of_string key' key = false)).

(** A metric the run measured stands before its score of that name. *)
Definition reported (run : tree) (name : string) (d : doc) : Prop :=
  let m := sub_tree (dict_get "metrics_json" run) in
  (exists v, measured m name v /\ d = Sc v) \/
  ((forall v, ~ measured m name v) /\ scored run m name d).

(** *** The flat entries of one value *)
Fixpoint leaves (depth : nat) (prefix : string) (value : doc) : tree :=
  match value with
  | Mp m =>
      match depth with
      | S d => concat (map (fun kv => leaves d (prefix +:+ "." +:+ kv.1) kv.2) m)
      | O => []
      end
  | Ls _ => []
  | Sc _ => [(prefix, value)]
  end.

Lemma collect_app t a b : collect t (a ++ b) = collect (collect t a) b.
Proof. unfold collect. by rewrite foldl_app. Qed.

Lemma flatten_leaves d q v t : flatten_into d q v t = collect t (leaves d q v).
Proof.
  revert q v t. induction d as [|d IH]; intros q [w|l|m] t; cbn [flatten_into leaves]; try done.
  revert t. induction m as [|[k v] m IHm]; intros t; cbn [foldl map concat fst snd]; [done|].
  by rewrite collect_app, IHm, IH.
Qed.

Lemma value_at_nil d x : value_at d [] = Some x <-> d = x.
Proof. cbn. split; [by intros [= ->]|by intros ->]. Qed.

Lemma leaves_spec d q v x y :
  clear_names v ->
  (x, y) ∈ leaves d q v <->
  exists rest w, (length rest <= d)%nat /\ value_at v rest = Some (Sc w) /\ x = joined q rest /\ y = Sc w.
Proof.
  revert q v. induction d as [|d IH]; intros q [w|l|m] Hv; cbn [leaves].
  1,4: rewrite list_elem_of_singleton; split;
    [intros [= -> ->]; exists [], w; split_and!; [cbn; lia|done..]
    |intros ([|? ?] & w' & _ & Hw & -> & ->); [by injection Hw as ->|done]].
  1,3: split; [by intros ?%not_elem_of_nil|intros ([|? ?] & w' & _ & Hw & _); done].
  { split; [by intros ?%not_elem_of_nil|]. intros ([|? ?] & w' & Hl & Hw & _); [done|cbn in Hl; lia]. }
  destruct (Hv [] m eq_refl) as [Hnd _]. rewrite list_elem_of_In, in_concat. split.
  - intros (l & (kv & <- & Hkv)%in_map_iff & Hin). apply list_elem_of_In in Hkv, Hin. destruct kv as [k v]. cbn [fst snd] in Hin.
    pose proof (dict_get_in k v m Hnd Hkv) as Hk.
    apply IH in Hin as (rest & w & Hl & Hw & -> & ->).
    + exists (k :: rest), w. split_and!; [cbn; lia| |done..]. cbn [value_at]. by rewrite Hk.
    + intros path n Hn. apply (Hv (k :: path) n). cbn [value_at]. by rewrite Hk.
  - intros ([|k rest] & w & Hl & Hw & -> & ->); [done|]. cbn [value_at] in Hw.
    destruct (dict_get k m) as [v|] eqn:Hk; [|done]. cbn in Hw.
    exists (leaves d (q +:+ "." +:+ k) v). split.
    + apply in_map_iff. exists (k, v). split; [done|]. by apply list_elem_of_In, dict_get_Some_in.
    + apply list_elem_of_In, IH.
      * intros path n Hn. apply (Hv (k :: path) n). cbn [value_at]. by rewrite Hk.
      * exists rest, w. split_and!; [cbn in Hl; lia|done..].
Qed.

Lemma run_leaves run t :
  own_into t run =
  collect t (_module_score run ++ concat (map (fun kv => leaves 2 kv.1 kv.2) (sub_tree (dict_get "metrics_json" run)))).
Proof.
  unfold own_into. rewrite collect_app. fold (collect t (_module_score run)). generalize (collect t (_module_score run)) as u.
  induction (sub_tree (dict_get "metrics_json" run)) as [|[k v] m IH]; intros u; cbn [foldl map concat fst snd]; [done|].
  rewrite collect_app, IH. unfold _flatten_into. by rewrite flatten_leaves.
Qed.

Lemma measured_leaves m x y :
  clear_names (Mp m) ->
  (x, y) ∈ concat (map (fun kv => leaves 2 kv.1 kv.2) m) <-> exists v, measured m x v /\ y = Sc v.
Proof.
  intros Hm. destruct (Hm [] m eq_refl) as [Hnd _]. rewrite list_elem_of_In, in_concat.
  assert (Hsub : forall k v, dict_get k m = Some v -> clear_names v).
  { intros k v Hk path n Hn. apply (Hm (k :: path) n). cbn [value_at]. by rewrite Hk. }
  split.
  - intros (l & (kv & <- & Hkv)%in_map_iff & Hin). apply list_elem_of_In in Hkv, Hin. destruct kv as [k v]. cbn [fst snd] in Hin.
    pose proof (dict_get_in k v m Hnd Hkv) as Hk.
    apply leaves_spec in Hin as (rest & w & Hl & Hw & -> & ->); [|by apply (Hsub k)].
    exists w. split; [|done]. exists k, rest. split_and!; [done| |done]. cbn [value_at]. by rewrite Hk.
  - intros (w & (k & rest & Hl & Hw & ->) & ->). cbn [value_at] in Hw.
    destruct (dict_get k m) as [v|] eqn:Hk; [|done]. cbn in Hw.
    exists (leaves 2 k v). split.
    + apply in_map_iff. exists (k, v). split; [done|]. by apply list_elem_of_In, dict_get_Some_in.
    + apply list_elem_of_In, leaves_spec; [by apply (Hsub k)|]. by exists rest, w.
Qed.

(** *** A name spells one path *)
Definition dotted (rest : list string) : list ascii := concat (map (fun k => "."%char :: chars k) rest).

Lemma chars_joined key rest : chars (joined key rest) = chars key ++ dotted rest.
Proof.
  revert key. induction rest as [|k rest IH]; intros key; [by rewrite app_nil_r|].
  unfold joined in *. cbn [foldl dotted map concat]. rewrite IH, !chars_app. change (chars ".") with ["."%char].
  fold (dotted rest). by rewrite <- !app_assoc.
Qed.

Lemma dotted_head rest : dotted rest = [] \/ exists l, dotted rest = "."%char :: l.
Proof. destruct rest; [by left|right]. by eexists. Qed.

Lemma split_dotless a b r s :
  split_at "." a = None -> split_at "." b = None -> a ++ dotted r = b ++ dotted s -> a = b /\ dotted r = dotted s.
Proof.
  revert b. induction a as [|c a IH]; intros [|d b] Ha Hb H; cbn [app] in H.
  - done.
  - destruct (dotted_head r) as [E|[l E]]; rewrite E in H; [done|]. injection H as <- _. by cbn in Hb.
  - destruct (dotted_head s) as [E|[l E]]; rewrite E in H; [done|]. injection H as -> _. by cbn in Ha.
  - injection H as <- H. cbn [split_at] in Ha, Hb. destruct (Ascii.eqb c "."); [done|].
    destruct (IH b) as [-> ?]; [by destruct (split_at "." a) as [[]|]|by destruct (split_at "." b) as [[]|]|done|done].
Qed.

Lemma dotted_inj r s : Forall (fun k => partition "." k = None) r -> Forall (fun k => partition "." k = None) s ->
  dotted r = dotted s -> r = s.
Proof.
  intros Hr. revert s. induction Hr as [|k r Hk Hr IH]; intros [|k' s] Hs H; try done.
  apply Forall_cons in Hs as [Hk' Hs]. cbn [dotted map concat app] in H. injection H as H.
  fold (dotted r) in H. fold (dotted s) in H. rewrite partition_None in Hk, Hk'.
  apply split_dotless in H as [E H]; [|done|done]. f_equal; [by apply chars_inj|by apply IH].
Qed.

Lemma joined_inj k r k' s : Forall (fun k => partition "." k = None) (k :: r) ->
  Forall (fun k => partition "." k = None) (k' :: s) -> joined k r = joined k' s -> k :: r = k' :: s.
Proof.
  intros Hr Hs H. apply dotted_inj; [done|done|]. apply (f_equal chars) in H. rewrite !chars_joined in H.
  cbn [dotted map concat app]. by f_equal.
Qed.

Lemma path_dotless d path x : clear_names d -> value_at d path = Some x ->
  Forall (fun k => partition "." k = None) path.
Proof.
  revert d. induction path as [|k path IH]; intros d Hd Hp; [constructor|]. cbn [value_at] in Hp.
  destruct d as [| |m]; try done. destruct (dict_get k m) as [v|] eqn:Hk; [|done]. cbn in Hp.
  destruct (Hd [] m eq_refl) as [_ Hf]. constructor.
  - apply (proj1 (Forall_forall _ _) Hf). apply list_elem_of_fmap. exists (k, v). split; [done|]. by apply dict_get_Some_in.
  - apply (IH v); [|done]. intros p n Hn. apply (Hd (k :: p) n). cbn [value_at]. by rewrite Hk.
Qed.

Lemma measured_once m name v w : clear_names (Mp m) -> measured m name v -> measured m name w -> v = w.
Proof.
  intros Hm (k & r & _ & Hv & ->) (k' & s & _ & Hw & E).
  apply joined_inj in E; [|by eapply path_dotless..]. rewrite E in Hv. congruence.
Qed.

(** *** Writing entries one after the other *)
Lemma collect_get t l x y : (forall y' , (x, y') ∈ l -> y' = y) ->
  dict_get x (collect t l) = if bool_decide (x ∈ l.*1) then Some y else dict_get x t.
Proof.
  revert t. induction l as [|[k v] l IH]; intros t Hy; [done|]. cbn [collect foldl].
  change (foldl (fun t '(r, v) => dict_set r v t) (dict_set k v t) l) with (collect (dict_set k v t) l).
  rewrite IH by (intros y' Hin; apply Hy; by right). rewrite dict_get_set.
  destruct (String.eqb_spec x k) as [->|Hne].
  - rewrite (bool_decide_true (k ∈ ((k, v) :: l).*1)) by left. rewrite (Hy v) by left. by case_bool_decide.
  - assert (bool_decide (x ∈ ((k, v) :: l).*1) = bool_decide (x ∈ l.*1)) as ->; [|done].
    apply bool_decide_ext. cbn [fmap list_fmap fst]. rewrite elem_of_cons. tauto.
Qed.

(** *** Scores *)
Lemma number_reads m key x : _as_number (dict_get key m) = Some x <-> number_in m key x.
Proof.
  unfold number_in. destruct (dict_get key m) as [[[| |z|y|]| |]|]; cbn [_as_number]; split.
  all: try done.
  all: try (by intros [(? & ? & _)|?]).
  - intros [= <-]. left. by exists z.
  - intros [(z' & [= ->] & ->)|?]; done.
  - intros [= ->]. by right.
  - intros [(? & ? & _)|[= ->]]; done.
Qed.

Lemma normalized_reads m key base norm :
  num_or (_as_number (dict_get key m)) None = Some base /\ _as_number (dict_get (key +:+ "_card_norm") m) = Some norm
  <-> normalized m key base norm.
Proof.
  unfold normalized. rewrite !number_reads, <- (number_reads m key base). unfold num_or, f_truthy.
  destruct (_as_number (dict_get key m)) as [x|]; [|split; [by intros [? _]|by intros [? _]]].
  destruct (f_eqb x f_zero) eqn:E; cbn [negb]; split.
  - by intros [? _].
  - intros ([= ->] & E' & _). congruence.
  - by intros [[= ->] ?].
  - by intros ([= ->] & _ & ?).
Qed.

Lemma normalized_at m key base norm : normalized m key base norm -> key ∈ m.*1.
Proof.
  intros [Hb _]. destruct (dict_get key m) as [d|] eqn:E.
  - apply list_elem_of_fmap. exists (key, d). split; [done|]. by apply dict_get_Some_in.
  - unfold number_in in Hb. rewrite E in Hb. by destruct Hb as [(? & ? & _)|?].
Qed.

Lemma first_scale_spec m keys s :
  StronglySorted (fun a b => key_before key_of_string b a = false) keys ->
  first_scale m keys = Some s ->
  exists key base norm, key ∈ keys /\ normalized m key base norm /\ s = f_div norm base /\
    forall key' base' norm', key' ∈ keys -> normalized m key' base' norm' -> key_before key_of_string key' key = false.
Proof.
  induction 1 as [|key keys Hs IH Hk]; cbn [first_scale]; [done|].
  destruct (num_or (_as_number (dict_get key m)) None) as [base|] eqn:Eb,
    (_as_number (dict_get (key +:+ "_card_norm") m)) as [norm|] eqn:En.
  1: { intros [= <-]. exists key, base, norm. split; [left|]. split; [by apply normalized_reads|]. split; [done|].
       intros key' base' norm' [->|Hin]%elem_of_cons _; [apply (before_irrefl (key_before key_of_string))|].
       exact (proj1 (Forall_forall _ _) Hk _ Hin). }
  all: intros (k & b & n & Hin & Hn & -> & Hleast)%IH; exists k, b, n; (split; [by right|]); (split; [done|]); (split; [done|]);
    intros key' base' norm' [->|Hin']%elem_of_cons Hn'; [|by eapply Hleast];
    apply normalized_reads in Hn' as [E1 E2]; congruence.
Qed.

Lemma first_scale_None m keys key base norm : first_scale m keys = None -> key ∈ keys -> normalized m key base norm -> False.
Proof.
  intros H Hin Hn. apply normalized_reads in Hn as [E1 E2]. induction keys as [|k keys IH]; [by apply not_elem_of_nil in Hin|].
  cbn [first_scale] in H. apply elem_of_cons in Hin as [->|Hin]; [by rewrite E1, E2 in H|].
  apply IH; [|done]. by destruct (num_or _ _), (_as_number _).
Qed.

Lemma sorted_keys l : StronglySorted (fun a b => key_before key_of_string b a = false) (sort_keys l).
Proof. apply sort_by_sorted. typeclasses eauto. Qed.

Lemma key_of_string_one a b : key_of_string a = key_of_string b -> a = b.
Proof.
  unfold key_of_string. intros H. apply chars_inj. revert H. generalize (chars a) (chars b). intros l. induction l as [|c l IH]; intros [|d l'] H; try done.
  injection H as Hc H. f_equal; [|by apply IH]. unfold code in Hc.
  rewrite <-(ascii_nat_embedding c), <-(ascii_nat_embedding d). f_equal. lia.
Qed.

Lemma module_score_iff run name d :
  let m := sub_tree (dict_get "metrics_json" run) in
  dict_get name (_module_score run) = Some d <-> scored run m name d.
Proof.
  intros m. unfold _module_score, scored. fold m.
  destruct (dict_get "score" run) as [sd|] eqn:Es.
  2: { split; [done|]. intros (x & [(? & ? & _)|?] & _); congruence. }
  destruct (_as_number (Some sd)) as [score|] eqn:En.
  2: { split; [done|]. intros (x & Hx%number_reads & _). by rewrite Es, En in Hx. }
  assert (Hscore : number_in run "score" score) by (apply number_reads; by rewrite Es).
  assert (Hone : forall x, number_in run "score" x -> x = score).
  { intros x Hx%number_reads. rewrite Es, En in Hx. by injection Hx. }
  rewrite dict_get_cons. destruct (String.eqb_spec name "score") as [->|Hn].
  { split; [intros [= ->]; exists score; split; [done|by left]|].
    intros (x & _ & [[_ [= ->]]|[? _]]); done. }
  unfold _card_norm_scale. destruct (first_scale m (sort_keys m.*1)) as [s|] eqn:Ef.
  - destruct (first_scale_spec m _ s (sorted_keys _) Ef) as (key & base & norm & Hin & Hnorm & -> & Hleast).
    rewrite dict_get_cons. destruct (String.eqb_spec name "score_card_norm") as [->|Hn'].
    + split.
      * intros [= <-]. exists score. split; [done|]. right. split; [done|]. exists key, base, norm. split_and!; [done|done|].
        intros key' base' norm' H. apply (Hleast key' base' norm'); [|done]. apply elem_of_sort_by. by eapply normalized_at.
      * intros (x & Hx & [[? _]|(_ & key' & base' & norm' & Hn2 & -> & Hl2)]); [done|]. rewrite (Hone x Hx).
        assert (key' = key) as ->.
        { apply key_of_string_one. apply (tuple_lt_total (key_of_string key') (key_of_string key)).
          - apply (Hleast key' base' norm'); [apply elem_of_sort_by; by eapply normalized_at|done].
          - by apply (Hl2 key base norm). }
        apply normalized_reads in Hn2 as [E1 E2]. apply normalized_reads in Hnorm as [E3 E4].
        assert (base' = base) as -> by congruence. assert (norm' = norm) as -> by congruence. done.
    + split; [done|]. intros (x & _ & [[? _]|[? _]]); done.
  - split; [done|]. intros (x & _ & [[? _]|(_ & key & base & norm & Hnorm & _)]); [done|]. exfalso.
    eapply first_scale_None; [exact Ef| |exact Hnorm]. apply elem_of_sort_by. by eapply normalized_at.
Qed.

Lemma module_score_NoDup run : NoDup (_module_score run).*1.
Proof.
  unfold _module_score. destruct (dict_get "score" run); [|constructor]. destruct (_as_number _); [|constructor].
  destruct (_card_norm_scale _); cbn; repeat constructor; try set_solver.
Qed.

(** A run's own flat metrics are what it reported. *)
Lemma own_reported run name d :
  clear_names (Mp (sub_tree (dict_get "metrics_json" run))) ->
  dict_get name (own_metrics run) = Some d <-> reported run name d.
Proof.
  intros Hm. unfold own_metrics, reported. rewrite run_leaves, collect_app.
  set (m := sub_tree (dict_get "metrics_json" run)) in *. set (own := concat _).
  assert (Hown : forall y, (name, y) ∈ own <-> exists v, measured m name v /\ y = Sc v) by (intros y; by apply measured_leaves).
  assert (Hscore : dict_get name (collect [] (_module_score run)) = dict_get name (_module_score run)).
  { rewrite collect_fresh; [done|]. apply module_score_NoDup. }
  destruct (decide (name ∈ own.*1)) as [Hin|Hnin].
  - apply list_elem_of_fmap in Hin as ([name' y] & E & Hy). cbn [fst] in E. subst name'.
    pose proof (proj1 (Hown y) Hy) as (v & Hv & ->).
    rewrite (collect_get _ own name (Sc v)).
    + rewrite bool_decide_true by (apply list_elem_of_fmap; by exists (name, Sc v)). split.
      * intros [= <-]. left. by exists v.
      * intros [(w & Hw & ->)|[Hno _]]; [|by destruct (Hno v)]. by rewrite (measured_once m name v w).
    + intros y' (w & Hw & ->)%Hown. f_equal. by apply (measured_once m name).
  - assert (Hno : forall v, ~ measured m name v).
    { intros v Hv. apply Hnin. apply list_elem_of_fmap. exists (name, Sc v). split; [done|]. apply Hown. by exists v. }
    rewrite (collect_get _ own name d).
    + rewrite bool_decide_false by done. rewrite Hscore, module_score_iff. split; [intros ?; right; by split|].
      intros [(v & Hv & _)|[_ ?]]; [by destruct (Hno v)|done].
    + intros y' Hy'. exfalso. apply Hnin. apply list_elem_of_fmap. by exists (name, y').
Qed.

(** The key of a run: its module's name, with its number where the module ran
    before. *)
Definition run_key (name : string) (earlier : list tree) : string :=
  match earlier with [] => name | _ => name +:+ "#" +:+ pretty (Z.of_nat (length earlier) + 1) end.

Definition same_module (run : tree) (r : tree) : bool := String.eqb (module_name_of r) (module_name_of run).

Lemma instance_keys_at seen (runs : list tree) i run :
  (forall n c, dict_get n seen = Some c -> 0 <= c) -> runs !! i = Some run ->
  instance_keys_from seen (map module_name_of runs) !! i =
  Some (instance_key (module_name_of run)
          (default 0 (dict_get (module_name_of run) seen) + Z.of_nat (length (where_ (same_module run) (take i runs))) + 1)).
Proof.
  revert seen i. induction runs as [|r runs IH]; intros seen i Hs Hi; [done|]. cbn [map instance_keys_from].
  assert (Hpos : 0 <= default 0 (dict_get (module_name_of r) seen))
    by (destruct (dict_get (module_name_of r) seen) as [c|] eqn:E; cbn; [exact (Hs _ _ E)|done]).
  destruct i as [|i]; cbn [lookup list_lookup] in *.
  - injection Hi as ->. change (take 0 (run :: runs)) with (@nil tree). cbn [where_ length]. do 2 f_equal. cbn. lia.
  - rewrite IH; [| |exact Hi].
    2: { intros n c. rewrite dict_get_set. destruct (String.eqb n (module_name_of r)); [|apply Hs]. intros [= <-]. lia. }
    do 2 f_equal. rewrite dict_get_set. change (take (S i) (r :: runs)) with (r :: take i runs).
    rewrite where_cons. change (same_module run r) with (String.eqb (module_name_of r) (module_name_of run)).
    rewrite (String.eqb_sym (module_name_of r)). destruct (String.eqb_spec (module_name_of run) (module_name_of r)) as [E|Hne];
      cbn [default from_option id length]; [rewrite E|]; lia.
Qed.

Lemma keyed_run_at submission i run :
  runs_in_order submission !! i = Some run ->
  (run_key (module_name_of run) (where_ (same_module run) (take i (runs_in_order submission))), run) ∈ _keyed_runs submission.
Proof.
  intros Hi. apply list_elem_of_lookup. exists i. unfold _keyed_runs. rewrite lookup_zip_with.
  unfold instance_keys. rewrite (instance_keys_at [] _ _ _ ltac:(by intros n c) Hi), Hi.
  set (earlier := where_ (same_module run) (take i (runs_in_order submission))).
  assert (instance_key (module_name_of run) (default 0 (dict_get (module_name_of run) []) + Z.of_nat (length earlier) + 1)
          = run_key (module_name_of run) earlier) as ->; [|done].
  unfold instance_key, run_key. change (default 0 (dict_get _ [])) with 0. rewrite Z.add_0_l.
  destruct earlier as [|r l]; [done|]. cbn [length].
  destruct (Z.eqb_spec (Z.of_nat (S (length l)) + 1) 1); [lia|done].
Qed.

(** C25: The metrics of a finished submission, kept as one flat table, split
    back into what each module run reported.  Take the runs in the order of
    their ids (in the order they are listed, where one has none): the metrics
    under a run's key, its module's name, numbered where the module ran before,
    are exactly the scalar values of its [metrics_json] up to three keys deep,
    each under its keys joined by dots, and besides them, where its [score] is
    a number and no metric has that name, [score], and [score_card_norm], the
    score scaled as the first metric in order of name that was also reported
    per card.  So no run overwrites another's.  Assumed: no module's name holds
    a [#] or a dot, and no key of the run's metrics a dot ([clear_names]), with
    which names collide ([module_named_like_a_second_run]). *)
Theorem metrics_split_back submission i run :
  Forall clean (map module_name_of (runs_in_order submission)) ->
  runs_in_order submission !! i = Some run ->
  clear_names (Mp (sub_tree (dict_get "metrics_json" run))) ->
  let key := run_key (module_name_of run) (where_ (same_module run) (take i (runs_in_order submission))) in
  forall name d,
    dict_get name (default [] (dict_get key (_split (_flatten_metrics submission)))) = Some d <-> reported run name d.
Proof.
  intros Hclean Hi Hclear key name d. pose proof (keyed_run_at _ _ _ Hi) as Hin. fold key in Hin.
  assert (Forall (fun kr : string * tree => partition "." kr.1 = None) (_keyed_runs submission)) as Hdots.
  { apply Forall_fmap with (f := fst) (P := fun k => partition "." k = None). rewrite keyed_runs_keys.
    apply instance_keys_no_dot; [|intros n c; by unfold dict_get].
    eapply Forall_impl; [exact Hclean|]. by intros n [_ ?]. }
  assert (NoDup (_keyed_runs submission).*1) as Hnd.
  { rewrite keyed_runs_keys. apply instance_keys_nodup; [|intros n c; by unfold dict_get].
    eapply Forall_impl; [exact Hclean|]. by intros n [? _]. }
  assert (project key (_flatten_metrics submission) = own_metrics run) as Hproj.
  { unfold _flatten_metrics. rewrite (project_runs key run) by done. unfold own_metrics. f_equal.
    destruct (dict_get "score_total" submission) as [sc|]; [|done]. by destruct (is_none _). }
  destruct (split_get key (_flatten_metrics submission) []) as [H1 _].
  change (foldl split_entry [] (_flatten_metrics submission)) with (_split (_flatten_metrics submission)) in H1.
  rewrite H1, Hproj. change (default [] (dict_get key [])) with (@nil (string * doc)).
  rewrite collect_fresh by (apply own_NoDup; constructor). by apply own_reported.
Qed.

(** ** What a scenario has that its metrics do not decide *)
Definition is_accuracy (k : string) : Prop := exists t, k = accuracy_of t.

Lemma sweep_supports sc raw params cards :
  sc_supports (_sweep sc raw params cards) = "meets_slo" :: GUIDELLM_LEVEL_SUPPORTS.
Proof. unfold _sweep. cbv zeta. by destruct (chosen_level raw (levels_of raw)) as [[l|] rule]. Qed.

Lemma score_supports family raw cards sc : sc_supports (add_score family raw cards sc) = sc_supports sc.
Proof. unfold add_score. by destruct (number _). Qed.

Lemma quality_supports family f : dict_get family _QUALITY = Some f ->
  (exists l, forall raw, (f raw).2 = l) \/ f = _opencompass.
Proof.
  intros Ef%dict_get_Some_in. unfold _QUALITY in Ef.
  apply elem_of_cons in Ef as [Ef|Ef]; [apply (f_equal snd) in Ef; cbn [snd] in Ef; left; exists (f []).2; subst f; reflexivity|].
  apply elem_of_cons in Ef as [Ef|Ef]; [apply (f_equal snd) in Ef; cbn [snd] in Ef; by right|].
  repeat (apply elem_of_cons in Ef as [Ef|Ef];
    [apply (f_equal snd) in Ef; cbn [snd] in Ef; left; exists (f []).2; subst f; reflexivity|]).
  by apply not_elem_of_nil in Ef.
Qed.

Lemma family_supports family sc sc' raw params cards k : ~ is_accuracy k ->
  k ∈ sc_supports (adapt_family family sc raw params cards) ->
  k ∈ sc_supports (adapt_family family sc' [] [] None).
Proof.
  intros Hk. unfold adapt_family.
  destruct (String.eqb family "perf_guidellm_sweep"); [by rewrite !sweep_supports|].
  destruct (String.eqb family "perf_guidellm"); [done|].
  destruct (String.eqb family "replay"); [done|].
  destruct (dict_get family _QUALITY) as [f|] eqn:Ef; [|done].
  apply quality_supports in Ef as [[l Hl]| ->].
  - destruct (f raw) as [o S] eqn:E1, (f []) as [o' S'] eqn:E2. cbn.
    pose proof (Hl raw) as H1. pose proof (Hl []) as H2. rewrite E1 in H1. rewrite E2 in H2. cbn in H1, H2. by subst.
  - destruct (_opencompass raw) as [o S] eqn:E1, (_opencompass []) as [o' S'] eqn:E2. cbn [sc_supports update_field].
    apply (f_equal snd) in E1, E2. unfold _opencompass in E1, E2. cbn [snd] in E1, E2. cbn.
    rewrite <- E1, <- E2. rewrite !elem_of_app. intros [?|[Hin|?]]; [by left| |by right; right].
    destruct Hk. apply list_elem_of_fmap in Hin as ([k' n] & -> & Hin).
    apply list_elem_of_omap in Hin as ([key v] & _ & Hs). unfold task_score in Hs. cbn [fst snd] in Hs.
    destruct (is_task key v); [|done]. destruct (number (Some v)); [|done]. injection Hs as <- _. by exists key.
Qed.

Lemma adapt_supports key raw params cards rn al k : ~ is_accuracy k ->
  k ∈ sc_supports (adapt key raw params cards rn al) -> k ∈ sc_supports (adapt key [] [] None rn al).
Proof.
  intros Hk. unfold adapt. cbv zeta. cbn -[adapt_family add_score family_of module_of _KIND].
  rewrite !score_supports, !elem_of_app. intros [Hin|?]; [left|by right]. by eapply family_supports.
Qed.

(** The key, the kind, and where it is not a sweep the only point. *)
Lemma family_identity family sc raw params cards :
  sc_key (adapt_family family sc raw params cards) = sc_key sc /\
  sc_kind (adapt_family family sc raw params cards) = sc_kind sc.
Proof.
  assert (forall n p s, sc_key (set_point n p s) = sc_key s /\ sc_kind (set_point n p s) = sc_kind s) as Hset by done.
  assert (forall (f : Z * tree -> string * point) l s,
    sc_key (foldl (fun sc x => set_point (f x).1 (f x).2 sc) s l) = sc_key s /\
    sc_kind (foldl (fun sc x => set_point (f x).1 (f x).2 sc) s l) = sc_kind s) as Hfold.
  { intros f l. induction l as [|x l IH]; intros s; cbn [foldl]; [done|].
    destruct (IH (set_point (f x).1 (f x).2 s)) as [-> ->]. done. }
  unfold adapt_family. destruct (String.eqb family "perf_guidellm_sweep"); [|destruct (String.eqb family "perf_guidellm"); [done|
    destruct (String.eqb family "replay"); [done|by destruct (match dict_get family _QUALITY with Some f => f raw | None => _ end)]]].
  unfold _sweep. cbv zeta. destruct (chosen_level raw (levels_of raw)) as [chosen rule].
  set (point_of := fun l : Z * tree => sweep_point params cards l.1 l.2).
  specialize (Hfold (fun l => (level_name l.1, point_of l))
    (sort_by (fun x y => x.1 <? y.1) (levels_of raw)) sc).
  cbn [fst snd] in Hfold. destruct chosen, (min_by above (levels_of raw)); exact Hfold.
Qed.

Lemma score_identity family raw cards sc :
  sc_key (add_score family raw cards sc) = sc_key sc /\ sc_kind (add_score family raw cards sc) = sc_kind sc.
Proof. unfold add_score. by destruct (number _). Qed.

Lemma adapt_identity key raw params cards rn al :
  sc_key (adapt key raw params cards rn al) = key /\
  sc_kind (adapt key raw params cards rn al) = default "quality" (dict_get (family_of (module_of key) rn al) _KIND).
Proof.
  unfold adapt. cbv zeta. cbn -[adapt_family add_score family_of module_of _KIND].
  match goal with |- sc_key (add_score ?f ?r ?c ?s) = _ /\ _ =>
    destruct (score_identity f r c s) as [-> ->] end.
  match goal with |- sc_key (adapt_family ?f ?s ?r ?p ?c) = _ /\ _ =>
    destruct (family_identity f s r p c) as [-> ->] end. done.
Qed.

Lemma only_operating key raw params cards rn al p :
  sc_kind (adapt key raw params cards rn al) <> "sweep" -> p <> "operating" ->
  dict_get p (sc_points (adapt key raw params cards rn al)) = None.
Proof.
  intros Hkind Hp. rewrite (proj2 (adapt_identity _ _ _ _ _ _)) in Hkind. revert Hkind.
  unfold adapt. cbv zeta. set (family := family_of _ _ _). intros Hkind.
  assert (family <> "perf_guidellm_sweep") as Hf by (intros E; rewrite E in Hkind; by destruct Hkind).
  assert (forall q s, dict_get p (sc_points s) = None -> dict_get p (sc_points (set_point "operating" q s)) = None) as Hset.
  { intros q s Hs. cbn. rewrite dict_get_set. by rewrite (proj2 (String.eqb_neq p "operating") Hp). }
  set (sc0 := mkScenario _ _ _ _ [] _ _ _).
  set (n := num_or cards _).
  assert (dict_get p (sc_points (adapt_family family sc0 raw params n)) = None) as H0.
  { unfold adapt_family. rewrite (proj2 (String.eqb_neq family _) Hf).
    destruct (String.eqb family "perf_guidellm"); [by apply Hset|]. destruct (String.eqb family "replay"); [by apply Hset|].
    destruct (match dict_get family _QUALITY with Some f => f raw | None => _ end). by apply Hset. }
  cbn -[adapt_family add_score family sc0 n]. unfold add_score. destruct (number _); [by apply Hset|done].
Qed.

Lemma ref_key_measure text r : parse_ref text = inr r -> is_accuracy (ref_key r) -> mr_measure r = "accuracy".
Proof.
  intros (sc & m & s & q & p & spec & [_ Hm Hs Hq _] & _ & _ & -> & _)%parse_ref_parts [t Ht].
  assert (parts_ok None m s q None) as Hok by done.
  pose proof (ref_str_spelled None m s q None Hok) as Hstr. cbn [fmap option_fmap option_map] in Hstr.
  assert (ref_key (mkRef (of_chars m) (of_chars <$> s) (of_chars <$> q) (of_chars <$> p) (of_chars <$> sc))
          = of_chars (spelled None m s q None)) as Hkey.
  { rewrite <- Hstr by done. apply chars_inj. unfold ref_str. cbn [mr_scenario mr_point given].
    rewrite !chars_app. cbn [chars String.list_ascii_of_string app]. by rewrite app_nil_r. }
  rewrite Hkey in Ht. apply (f_equal chars) in Ht. rewrite chars_of_chars in Ht.
  unfold spelled, accuracy_of in Ht. rewrite !chars_app in Ht. cbn [scenario_part app] in Ht.
  destruct Hm as [_ Hmc]. apply (f_equal (span measure_char)) in Ht.
  rewrite span_app in Ht by (try done; by destruct s, q).
  change (chars "accuracy[" ++ chars t ++ chars "]") with (chars "accuracy" ++ "["%char :: chars t ++ chars "]") in Ht.
  rewrite span_app in Ht by done. injection Ht as -> _. cbn. done.
Qed.

Lemma find_map {A B} (f : B -> bool) (g : A -> B) l : List.find f (map g l) = g <$> List.find (fun x => f (g x)) l.
Proof. induction l as [|x l IH]; cbn; [done|]. by destruct (f (g x)). Qed.

Lemma find_agree {A} (f g : A -> bool) l : (forall x, x ∈ l -> f x = g x) -> List.find f l = List.find g l.
Proof.
  induction l as [|x l IH]; intros H; cbn; [done|]. rewrite (H x) by left.
  destruct (g x); [done|]. apply IH. intros y Hy. apply H. by right.
Qed.

(** Scenarios that agree on key and kind are found alike. *)
Lemma main_scenario_agree {A} (F G : A -> Scenario) l w :
  (forall x, x ∈ l -> sc_key (F x) = sc_key (G x) /\ is_throughput (F x) = is_throughput (G x)) ->
  exists o, main_scenario (map F l) w = F <$> o /\ main_scenario (map G l) w = G <$> o /\
    (forall x, o = Some x -> x ∈ l).
Proof.
  intros H. unfold main_scenario. destruct (given w) as [k|].
  - rewrite !find_map. exists (List.find (fun x => String.eqb (sc_key (F x)) k) l). split; [done|]. split.
    + f_equal. apply find_agree. intros x Hx. by rewrite (proj1 (H x Hx)).
    + intros x [Hx _]%find_some. by apply list_elem_of_In.
  - rewrite !find_map.
    assert (List.find (fun x => is_throughput (G x)) l = List.find (fun x => is_throughput (F x)) l) as ->
      by (apply find_agree; intros x Hx; by rewrite (proj2 (H x Hx))).
    destruct (List.find (fun x => is_throughput (F x)) l) as [x|] eqn:E; cbn.
    + exists (Some x). split; [done|]. split; [done|]. intros ? [= <-]. apply find_some in E as [Hx _]. by apply list_elem_of_In.
    + exists (head l). destruct l as [|x l]; cbn; [done|]. split; [done|]. split; [done|]. intros ? [= <-]. left.
Qed.

Lemma family_of_replay names module : module <> "" ->
  family_of module [ln_replay_module names] (ln_families names) = family_of module (replay_names names) (ln_families names).
Proof.
  intros Hm. unfold family_of, replay_names. destruct (String.eqb_spec (ln_replay_module names) "") as [->|]; [|done].
  rewrite (bool_decide_ext (module ∈ ["replay"; ""]) (module ∈ ["replay"])); [done|].
  rewrite !elem_of_cons. split; [intros [?|[?|?%not_elem_of_nil]]; [by left|done|done]|tauto].
Qed.

Lemma adapt_names key rn rn' al : family_of (module_of key) rn' al = family_of (module_of key) rn al ->
  adapt key [] [] None rn al = adapt key [] [] None rn' al.
Proof. intros H. unfold adapt. by rewrite H. Qed.

Lemma parsed_point text r : parse_ref text = inr r -> default "operating" (given (mr_point r)) <> "operating" \/ given (mr_point r) = None.
Proof.
  intros (sc & m & s & q & p & spec & [_ _ _ _ Hp] & _ & _ & -> & _ & _ & _ & Hop)%parse_ref_parts. cbn [mr_point].
  rewrite (part_given _ p Hp). destruct p as [w|]; [left|by right]. cbn. intros E. apply Hop.
  by rewrite <- E, chars_of_chars.
Qed.

(** What is refused when it is written is never reported: where [problem_with] finds that a benchmark
    cannot report a reference, no run of that benchmark whose modules all reported something reads a
    number there, whatever the modules found.  (The tasks of an accuracy suite are the exception: a suite
    may report one the platform does not know.) *)
Theorem refused_measure_is_never_reported names name modules metrics reports cards r why :
  Forall (fun m => m <> "" /\ clean m) modules ->
  problem_with names name modules = Some why -> parse_ref name = inr r -> mr_measure r <> "accuracy" ->
  (_split metrics).*1 = instance_keys modules ->
  resolve_ref r (measures_of names metrics reports cards) = None.
Proof.
  intros Hmods Hwhy Hr Hacc Hkeys. unfold problem_with in Hwhy.
  destruct (negb (is_measure_ref name)); [done|]. rewrite Hr in Hwhy.
  rewrite <- Hkeys in Hwhy. change ((_split metrics).*1) with (map fst (_split metrics)) in Hwhy.
  rewrite map_map in Hwhy.
  unfold resolve_ref, measures_of.
  set (F := fun kr : string * tree => let '(key, raw) := kr in
    adapt key raw (default [] (dict_get key (params_by_key reports))) cards (replay_names names) (ln_families names)).
  set (G := fun kr : string * tree => adapt kr.1 [] [] None [ln_replay_module names] (ln_families names)) in Hwhy.
  assert (forall x, x ∈ _split metrics -> module_of x.1 <> "") as Hne.
  { intros x Hx. assert (x.1 ∈ instance_keys modules) as Hin by (rewrite <- Hkeys; by apply list_elem_of_fmap_2).
    assert (map module_of (instance_keys modules) = modules) as Hmap
      by (apply instance_keys_modules; eapply Forall_impl; [exact Hmods|]; by intros m [_ [? _]]).
    assert (module_of x.1 ∈ modules) as Hm by (rewrite <- Hmap; by apply list_elem_of_fmap_2).
    rewrite Forall_forall in Hmods. apply Hmods in Hm. tauto. }
  assert (forall x, x ∈ _split metrics -> sc_key (F x) = sc_key (G x) /\ sc_kind (F x) = sc_kind (G x)) as Hid.
  { intros [key raw] Hx. unfold F, G. cbn [fst].
    destruct (adapt_identity key raw (default [] (dict_get key (params_by_key reports))) cards (replay_names names) (ln_families names)) as [-> ->].
    destruct (adapt_identity key [] [] None [ln_replay_module names] (ln_families names)) as [-> ->].
    split; [done|]. by rewrite family_of_replay by (by apply (Hne _ Hx)). }
  destruct (main_scenario_agree F G (_split metrics) (mr_scenario r)) as (o & HF & HG & Ho).
  { intros x Hx. destruct (Hid x Hx) as [? Hk]. split; [done|]. unfold is_throughput. by rewrite Hk. }
  rewrite HF. rewrite HG in Hwhy. destruct o as [[key raw]|]; cbn [fmap option_fmap option_map] in *; [|done].
  specialize (Ho _ eq_refl). destruct (Hid _ Ho) as [_ Hkind].
  destruct (dict_get (default "operating" (given (mr_point r))) (sc_points (F (key, raw)))) as [p|] eqn:Hp; [|done].
  cbn [default from_option id]. destruct (dict_get (ref_key r) p) as [x|] eqn:Hx; [|done]. exfalso.
  assert (ref_key r ∈ sc_supports (G (key, raw))) as Hsup.
  { apply dict_get_Some_in in Hx.
    assert (ref_key r ∈ sc_supports (F (key, raw))) as Hin
      by (eapply supported_keys; [exact Hp|]; apply list_elem_of_fmap; by exists (ref_key r, x)).
    unfold F in Hin. unfold G. cbn [fst]. rewrite <- adapt_names with (rn := replay_names names) by (by apply family_of_replay, (Hne _ Ho)).
    eapply adapt_supports; [|exact Hin]. intros Ha. by apply Hacc, (ref_key_measure _ _ Hr). }
  destruct (given (mr_point r)) as [pt|] eqn:Hpt; [|by rewrite bool_decide_true in Hwhy].
  destruct (String.eqb_spec (sc_kind (G (key, raw))) "sweep") as [_|Hsw]; cbn [negb] in Hwhy; [by rewrite bool_decide_true in Hwhy|].
  rewrite <- Hkind in Hsw.
  change (F (key, raw)) with (adapt key raw (default [] (dict_get key (params_by_key reports))) cards
                                (replay_names names) (ln_families names)) in Hsw, Hp.
  rewrite only_operating in Hp; [done|done|]. destruct (parsed_point _ _ Hr) as [H|H]; rewrite Hpt in H; done.
Qed.

(** ** A benchmark that runs one module twice *)
Definition sample_module_run (id : Z) (metrics : tree) : tree :=
  [("id", Sc (VInt id)); ("module_name", Sc (VStr "perf_guidellm")); ("metrics_json", Mp metrics)].
Definition sample_second_run : tree := sample_module_run 12 [("output_tps_mean", Sc (VInt 700))].
Definition sample_first_run : tree :=
  sample_module_run 11 [("output_tps_mean", Sc (VInt 400)); ("slo", Mp [("met", Sc (VBool true))])].
Definition sample_submission : tree := [("runs", Ls [Mp sample_second_run; Mp sample_first_run])].

Lemma clear_leaf v : clear_names (Sc v).
Proof. intros [|k path] m Hm; done. Qed.
Lemma clear_Mp m : NoDup m.*1 -> Forall (fun kv => partition "." kv.1 = None /\ clear_names kv.2) m -> clear_names (Mp m).
Proof.
  intros Hnd Hf [|k path] n Hn.
  - injection Hn as <-. split; [done|]. apply Forall_fmap. eapply Forall_impl; [exact Hf|]. by intros kv [? _].
  - cbn [value_at] in Hn. destruct (dict_get k m) as [v|] eqn:E; [|done].
    apply dict_get_Some_in in E. by apply (proj2 (proj1 (Forall_forall _ _) Hf _ E) path).
Qed.

Lemma metrics_split_back_witness :
  run_key "perf_guidellm" [sample_first_run] = "perf_guidellm#2" /\
  reported sample_second_run "output_tps_mean" (Sc (VInt 700)) /\
  dict_get "output_tps_mean" (default [] (dict_get "perf_guidellm#2" (_split (_flatten_metrics sample_submission)))) = Some (Sc (VInt 700)) /\
  (forall d, ~ reported sample_second_run "slo.met" d).
Proof.
  assert (forall name d, dict_get name (default [] (dict_get "perf_guidellm#2" (_split (_flatten_metrics sample_submission)))) = Some d
            <-> reported sample_second_run name d) as H.
  { apply (metrics_split_back sample_submission 1 sample_second_run); [by repeat constructor|by vm_compute|].
    change (clear_names (Mp [("output_tps_mean", Sc (VInt 700))])).
    apply clear_Mp; [apply NoDup_singleton|]. apply (proj2 (Forall_singleton _ _)). split; [by vm_compute|apply clear_leaf]. }
  assert (reported sample_second_run "output_tps_mean" (Sc (VInt 700))) as Hr by (apply H; by vm_compute).
  split; [by vm_compute|]. split; [exact Hr|]. split; [by apply H|]. intros d Hd%H. by vm_compute in Hd.
Defined.

Lemma refused_measure_is_never_reported_witness :
  let names := mkNames "replay" [] in
  let r := mkRef "ttft_ms" (Some "p90") None (Some "c16") None in
  parse_ref "ttft_ms@p90:c16" = inr r /\
  is_Some (problem_with names "ttft_ms@p90:c16" ["perf_guidellm"]) /\
  resolve_ref r (measures_of names [("perf_guidellm.ttft_p90_ms", Sc (VInt 80))] [] None) = None.
Proof.
  intros names r. split; [by vm_compute|].
  destruct (problem_with names "ttft_ms@p90:c16" ["perf_guidellm"]) as [why|] eqn:E; [|by vm_compute in E].
  split; [done|].
  apply (refused_measure_is_never_reported names "ttft_ms@p90:c16" ["perf_guidellm"] _ _ _ r why);
    [by repeat constructor|done|by vm_compute|done|by vm_compute].
Defined.

(** * Scenarios and workloads ([evaluation/scenarios.py],
    [measures/workload.py]): a benchmark's module reports read as scenarios, and
    what a benchmark sends, said for whoever reads its results *)
Definition GATE_FLAG : string := "reported_level_meets_slo".

(** [f"{x:.{p}f}"] of a finite float. *)
Definition format_f (p : nat) (x : float) : string :=
  match x with
  | S754_finite s m e =>
      let k := scaled (Zpos m) e (- Z.of_nat p) in
      let unit := 10 ^ Z.of_nat p in
      let digits := z_digits (k mod unit) in
      (if s then "-" else "") +:+ z_digits (k / unit)
      +:+ if (p =? 0)%nat then ""
          else "." +:+ pad_zeros (p - String.length digits) +:+ digits
  | S754_zero s =>
      (if s then "-0" else "0") +:+ if (p =? 0)%nat then "" else "." +:+ pad_zeros p
  | S754_infinity s => if s then "-inf" else "inf"
  | S754_nan => "nan"
  end.

Definition thousand : float := f_of_Z 1000.

(** [float(n)], a bool included; an infinity raises further on. *)
Definition any_float (d : doc) : option float :=
  match d with Sc (VBool b) => Some (f_of_Z (bool_int b)) | Sc v => as_float v | _ => None end.

Definition tokens_label (n : doc) : string :=
  match any_float n with
  | None => "?"
  | Some value =>
      if f_leb thousand value then
        let short := f_div value thousand in
        if f_is_integer short then format_f 0 short +:+ "k" else format_f 1 short +:+ "k"
      else format_f 0 value
  end.

Definition as_flag (value : option doc) : option bool :=
  match value with
  | None | Some (Sc VNone) => None
  | Some (Sc (VBool b)) => Some b
  | Some (Sc (VInt z)) => Some (negb (z =? 0))
  | Some (Sc (VFloat x)) => Some (f_truthy x)
  | Some d =>
      let text := Values.lower (strip (doc_str d)) in
      if bool_decide (text ∈ ["true"; "1"; "yes"]) then Some true
      else if bool_decide (text ∈ ["false"; "0"; "no"]) then Some false
      else None
  end.

Definition as_number (value : option doc) : option float :=
  match value with
  | Some (Sc (VBool _)) | None => None
  | Some d => any_float d
  end.

(** A report, as the raw submission's reports are kept: any JSON document. *)
Definition params_of (report : tree) : tree := sub_tree (dict_get "params" report).

Definition is_sweep (report : tree) : bool :=
  dict_has "input_tokens" (params_of report) && dict_has "output_tokens" (params_of report).

Definition or_name (first second : string) (report : tree) : string :=
  match dict_get first report with
  | Some d => if doc_truthy d then doc_str d
              else match dict_get second report with Some d => if doc_truthy d then doc_str d else "" | None => "" end
  | None => match dict_get second report with Some d => if doc_truthy d then doc_str d else "" | None => "" end
  end.

Definition is_replay (report : tree) : bool :=
  starts_with "replay" (module_of (or_name "module_name" "module" report)).
Definition is_scenario (report : tree) : bool := is_sweep report || is_replay report.

Definition scenario_label (report : tree) : string :=
  let params := params_of report in
  if is_sweep report
  then tokens_label (default (Sc VNone) (dict_get "input_tokens" params)) +:+ " + "
       +:+ tokens_label (default (Sc VNone) (dict_get "output_tokens" params))
  else if is_replay report then "replay"
  else "".

Record scenario_row := mkScenarioRow {
  sr_key : string;
  sr_kind : string;
  sr_label : string;
  sr_input_tokens : option doc;
  sr_output_tokens : option doc;
  sr_tpm_card_norm : option float;
  sr_output_tpm_card_norm : option float;
  sr_input_tpm_card_norm : option float;
  sr_concurrency : option float;
  sr_request_output_tps : option float;
  sr_ttft_ms : option float;
  sr_meets_gate : option bool;
  sr_passed : option doc }.

Definition scenario_of (metrics : tree) (ttft_percentile : string) (report : tree) : option scenario_row :=
  if negb (is_scenario report) then None
  else
    let params := params_of report in
    let key := or_name "module" "module_name" report in
    let read name := as_number (dict_get (key +:+ "." +:+ name) metrics) in
    let replay := is_replay report in
    let total := read "total_tpm_card_norm" in
    let output := read "output_tpm_card_norm" in
    Some (mkScenarioRow key (if replay then "replay" else "sweep") (scenario_label report)
      (dict_get "input_tokens" params) (dict_get "output_tokens" params) total output
      (match total, output with Some t, Some out => Some (f_max (f_sub t out) f_zero) | _, _ => None end)
      (if replay then as_number (dict_get "concurrency" params) else read "reported_concurrency")
      (if replay then read "output_tps_mean" else read "request_output_tps")
      (read ("ttft_" +:+ ttft_percentile +:+ "_ms"))
      (as_flag (dict_get (key +:+ "." +:+ GATE_FLAG) metrics))
      (dict_get "passed" report)).

Definition scenarios_of (metrics : tree) (module_reports : list doc) (ttft_percentile : string) : list scenario_row :=
  omap (fun d => match d with Mp report => scenario_of metrics ttft_percentile report | _ => None end) module_reports.

(** ** What a benchmark sends *)
Definition _PARAMS : list (string * list string) :=
  [("perf_guidellm_sweep",
     ["search_mode"; "concurrencies"; "input_tokens"; "output_tokens"; "max_seconds"; "requests_per_concurrency";
      "slo_min_request_output_tps"; "slo_max_ttft_ms"; "slo_ttft_percentile"; "search_max_concurrency"]);
   ("perf_guidellm", ["concurrency"; "input_tokens"; "output_tokens"; "max_seconds"]);
   ("replay",
     ["concurrency"; "max_samples"; "max_seconds"; "max_generation_tokens"; "dataset_profile"; "judge_enable"])].

Definition _SAYS : list (string * string) :=
  [("perf_guidellm_sweep",
     "Synthetic prompts at several concurrency levels. Its measures describe the level with the highest total throughput that met the sweep's SLO (per-request output speed floor and TTFT cap); every level is also addressable (`:c8`).");
   ("perf_guidellm",
     "Synthetic prompts at one concurrency; its measures describe that run.");
   ("replay",
     "Recorded production requests, replayed at one fixed concurrency: there are no levels and nothing to settle on. Its measures describe the whole replay; prompts are as long and as cache-friendly as real traffic.")].

Record workload_entry := mkWorkload {
  we_scenario : string;
  we_module : string;
  we_family : string;
  we_params : tree;
  we_reads_as : option string }.

Definition order_index (m : tree) : Z :=
  match dict_get "order_index" m with Some (Sc (VInt z)) => z | _ => 0 end.

(** LLMBench's modules of a benchmark, in benchmark order. *)
Definition describe_workload (modules : list doc) (aliases : list (string * string)) (replay_names : list string)
    : list workload_entry :=
  let dicts := omap (fun d => match d with Mp m => Some m | _ => None end) modules in
  let ordered := sort_by (fun a b => order_index a <? order_index b) dicts in
  let name m := match dict_get "module_name" m with Some d => if doc_truthy d then doc_str d else "" | None => "" end in
  map (fun '(key, m) =>
      let family := family_of (name m) replay_names aliases in
      let params :=
        match dict_get "params_json" m with
        | Some (Mp (kv :: l)) => kv :: l
        | _ => sub_tree (dict_get "params" m)
        end in
      mkWorkload key (name m) family
        (omap (fun k => (fun v => (k, v)) <$> dict_get k params) (default [] (dict_get family _PARAMS)))
        (dict_get family _SAYS))
    (zip (instance_keys (map name ordered)) ordered).

(** ** Lemmas *)

(** The keys a benchmark's workload is described under are the keys its runs
    file their metrics under, when LLMBench runs the modules in order. *)
Lemma workload_keys modules aliases replay_names submission :
  map module_name_of (runs_in_order submission)
    = map we_module (describe_workload modules aliases replay_names) ->
  map we_scenario (describe_workload modules aliases replay_names) = (_keyed_runs submission).*1.
Proof.
  intros Hnames. unfold _keyed_runs. rewrite Hnames. unfold describe_workload. cbv zeta.
  set (name := fun m : tree => _). set (ordered := sort_by _ _).
  assert (length (instance_keys (map name ordered)) = length ordered) as Hlen
    by (unfold instance_keys; rewrite length_instance_keys; apply length_map).
  assert (forall keys : list string, length keys = length ordered ->
    map we_module (map (fun '(key, m) =>
      mkWorkload key (name m) (family_of (name m) replay_names aliases)
        (omap (fun k => (fun v => (k, v)) <$> dict_get k
           (match dict_get "params_json" m with Some (Mp (kv :: l)) => kv :: l | _ => sub_tree (dict_get "params" m) end))
           (default [] (dict_get (family_of (name m) replay_names aliases) _PARAMS)))
        (dict_get (family_of (name m) replay_names aliases) _SAYS)) (zip keys ordered)) = map name ordered) as Hmod.
  { clear Hlen Hnames. induction ordered as [|m l IH]; intros [|k keys] Hk; try done. cbn. f_equal. apply IH. cbn in Hk. lia. }
  rewrite Hmod by done. rewrite fst_zip.
  2: { unfold instance_keys. rewrite length_instance_keys, length_map.
       assert (length (map module_name_of (runs_in_order submission)) = length (map name ordered)) as E.
       { rewrite Hnames. unfold describe_workload. cbv zeta. fold name. fold ordered. by rewrite Hmod. }
       rewrite !length_map in E. lia. }
  revert Hlen. generalize (instance_keys (map name ordered)) as keys. clear.
  induction ordered as [|m l IH]; intros [|k keys] Hk; try done. cbn. f_equal. apply IH. cbn in Hk. lia.
Qed.

Example token_labels :
  map (fun s => tokens_label (Sc (VStr s))) ["50000"; "1500"; "300"; "40960"; "x"] = ["50k"; "1.5k"; "300"; "41.0k"; "?"].
Proof. vm_compute. reflexivity. Qed.
