(* ===== verification/Objectives.v ===== *)
(** What better means ([objective.py], [metrics_catalog.py]) and what a run's
    metrics come to under it ([evaluation/aggregate.py]): a target to rank by
    and redlines a configuration must not cross.

    An objective is the JSON document a campaign stores.  Its redlines are
    objects whose metric is a string or missing; anything else there is an
    error the code does not handle either.  A run's numbers are read through
    [get], which stands for a metrics dict or a reader ([Readings.read_name]). *)
From Stdlib Require Import Ascii SpecFloat.
From S2P Require Import Prelude Float Values Failures Texts Documents Measures Adapters Harvest Readings.
#[local] Open Scope string_scope.
#[local] Open Scope list_scope.
#[local] Open Scope Z_scope.

(** ** The raw metrics an objective can name *)
Definition SWEEP_GROUP : string := "Synthetic sweep".
Definition REPLAY_GROUP : string := "Production replay".
Definition OVERALL_GROUP : string := "Whole submission".

Record metric := mkMetric {
  mc_key : string;
  mc_label : string;
  mc_better : better;
  mc_help : string;
  mc_unit : string;
  mc_headline : bool;
  mc_group : string }.

Definition PERF : string := "perf_guidellm_sweep".
Definition FUNC : string := "functional_acceptance".
(** [f"{module}.{name}"]. *)
Definition under (module name : string) : string := module +:+ "." +:+ name.

Definition METRICS (REPLAY : string) : list metric := [
  mkMetric (under PERF "output_tpm_card_norm") "Output TPM per card" higher
    "Output tokens/min divided by the GPUs the config occupies. The fair way to compare tp=2 against tp=4. The platform default."
    "tok/min/GPU" true SWEEP_GROUP;
  mkMetric (under PERF "total_tpm_card_norm") "Total TPM per card" higher
    "Input + output tokens/min per GPU. Use when prefill is a real part of the cost, not an afterthought."
    "tok/min/GPU" true SWEEP_GROUP;
  mkMetric (under PERF "input_tpm_card_norm") "Input TPM per card" higher
    "Prefill tokens/min per GPU. The one to rank on for long-context or heavily prompt-bound traffic."
    "tok/min/GPU" true SWEEP_GROUP;
  mkMetric (under PERF "output_tps") "Output tokens/s" higher
    "Absolute decode throughput of one service. Favours wider parallelism, which also costs more GPUs — prefer the card-normalized form unless you are sizing a fixed deployment."
    "tok/s" false SWEEP_GROUP;
  mkMetric (under PERF "input_tps") "Input tokens/s" higher
    "Prefill throughput — the dominant cost for long-context workloads."
    "tok/s" false SWEEP_GROUP;
  mkMetric (under PERF "total_tps_mean") "Total tokens/s (mean)" higher
    "Input + output combined. guidellm reports this as a distribution, not a single number — there is no plain `total_tps` key."
    "tok/s" false SWEEP_GROUP;
  mkMetric (under PERF "request_output_tps") "Single-stream output tokens/s" higher
    "Output tokens/s one stream sees, at the concurrency the sweep reported (output_tps ÷ concurrency). How fast the service FEELS, as opposed to how much of it there is."
    "tok/s" true SWEEP_GROUP;
  mkMetric (under PERF "c1.request_output_tps") "Single-stream output tokens/s (unloaded)" higher
    "The same rate measured at concurrency 1 — one request, nothing else running. The ceiling for a single stream; compare it against the loaded figure to see what contention costs."
    "tok/s" false SWEEP_GROUP;
  mkMetric (under PERF "c1.ttft_p99_ms") "TTFT p99 (unloaded)" lower
    "Time to first token with no queueing at all. Isolates the model's own prefill cost from load effects."
    "ms" false SWEEP_GROUP;
  mkMetric (under PERF "ttft_p99_ms") "TTFT p99" lower
    "Worst-case time to first token. The usual SLO for interactive traffic."
    "ms" true SWEEP_GROUP;
  mkMetric (under PERF "ttft_p90_ms") "TTFT p90" lower
    "Time to first token for the slowest tenth. guidellm reports p50/p90/p99 and the mean — there is no p95."
    "ms" false SWEEP_GROUP;
  mkMetric (under PERF "ttft_p50_ms") "TTFT median" lower
    "Typical time to first token."
    "ms" false SWEEP_GROUP;
  mkMetric (under PERF "itl_p99_ms") "Inter-token latency p99" lower
    "Worst-case gap between streamed tokens — how stuttery output feels."
    "ms" false SWEEP_GROUP;
  mkMetric (under PERF "tpot_p99_ms") "Time per output token p99" lower
    "Worst-case per-token decode time."
    "ms" false SWEEP_GROUP;
  mkMetric (under PERF "peak_concurrency") "Peak concurrency" higher
    "Highest concurrency the sweep sustained within its SLO. If this stays low, the benchmark — not the config — is the limit."
    "" false SWEEP_GROUP;
  mkMetric (under PERF "uptime") "Uptime" higher
    "Fraction of the run the service answered."
    "" false SWEEP_GROUP;
  mkMetric (under PERF "http_status_200") "Successful responses" higher
    "Requests the service answered with a 200. Falling below the request count means errors under load that throughput alone will not show."
    "" false SWEEP_GROUP;
  mkMetric (under FUNC "pass_rate") "Functional pass rate" higher
    "Share of correctness checks passed. Belongs in a constraint: a fast service that answers wrongly is not a faster service."
    "" true SWEEP_GROUP;
  mkMetric "score_total" "LLMBench composite score" higher
    "The benchmark's own weighted score. Changes if the benchmark's weights are edited, so it is a poor basis for cross-night comparison."
    "" false OVERALL_GROUP;
  mkMetric (under REPLAY "score_card_norm") "Replay value per card" higher
    "The benchmark's own value-weighted score, divided by the cards the config occupies. Ranks tp=2 against tp=4 fairly, where the raw score would hand the win to whichever config asked for more GPUs. The platform default for the replay stage."
    "" true REPLAY_GROUP;
  mkMetric (under REPLAY "score") "Replay value (absolute)" higher
    "The benchmark's weighted sum of uncached-input, cached and output tokens per minute — the number its own leaderboard ranks on. Absolute, so a config on more cards wins for that reason alone."
    "" true REPLAY_GROUP;
  mkMetric (under REPLAY "total_tpm_card_norm") "Replay total TPM per card" higher
    "All tokens/min per card, unweighted. Treats a cached prompt token as worth the same as an uncached one; the benchmark prices them 10:1."
    "tok/min/GPU" false REPLAY_GROUP;
  mkMetric (under REPLAY "output_tpm_card_norm") "Replay output TPM per card" higher
    "Decode tokens/min per card. On this traffic — long prompts, short answers — output is a few percent of the value, so ranking on it alone ignores most of the work."
    "tok/min/GPU" false REPLAY_GROUP;
  mkMetric (under REPLAY "input_tpm_card_norm") "Replay input TPM per card" higher
    "Prefill tokens/min per card. The dominant cost on replay traffic."
    "tok/min/GPU" false REPLAY_GROUP;
  mkMetric (under REPLAY "uncached_input_tpm") "Uncached input TPM" higher
    "Prompt tokens/min that actually had to be computed. The largest term in the value score. No per-card form exists — the benchmark does not normalize this one."
    "tok/min" false REPLAY_GROUP;
  mkMetric (under REPLAY "output_tpm") "Replay output TPM" higher
    "Decode tokens/min, absolute."
    "tok/min" false REPLAY_GROUP;
  mkMetric (under REPLAY "cache_hit_rate") "Prefix cache hit rate" higher
    "Share of prompt tokens served from cache. Real traffic reuses prefixes heavily; a synthetic sweep with random tokens cannot see this at all."
    "" false REPLAY_GROUP;
  mkMetric (under REPLAY "ttft_p99_ms") "Replay TTFT p99" lower
    "Worst-case time to first token on real prompts. Much larger than the sweep's figure because real prompts are 16-64K tokens, not 1K."
    "ms" true REPLAY_GROUP;
  mkMetric (under REPLAY "ttft_p50_ms") "Replay TTFT median" lower
    "Typical time to first token on real prompts."
    "ms" false REPLAY_GROUP;
  mkMetric (under REPLAY "ttft_32k_64k_p90_ms") "TTFT p90, 32-64K prompts" lower
    "Time to first token for the long-prompt bucket, where most replay traffic sits. A single overall TTFT hides which prompt lengths regressed."
    "ms" false REPLAY_GROUP;
  mkMetric (under REPLAY "total_time_p99_ms") "Replay end-to-end p99" lower
    "Worst-case time to a complete answer."
    "ms" false REPLAY_GROUP;
  mkMetric (under REPLAY "output_tps_p10") "Slowest tenth, output tok/s" higher
    "Per-request decode rate for the slowest tenth of requests. The floor to put a minimum on: a config can win on aggregate throughput while the unluckiest requests crawl."
    "tok/s" false REPLAY_GROUP;
  mkMetric (under REPLAY "uptime") "Replay uptime" higher
    "Fraction of replayed requests the service answered."
    "" false REPLAY_GROUP;
  mkMetric (under REPLAY "error_rate") "Replay error rate" lower
    "Share of replayed requests that failed."
    "" false REPLAY_GROUP;
  mkMetric (under REPLAY "unfinished_rate") "Unfinished rate" lower
    "Share of requests that never completed within the request timeout."
    "" false REPLAY_GROUP;
  mkMetric (under REPLAY "judge_good_acc_rate") "Judge: answer quality" higher
    "Share of sampled answers a judge model rated acceptable. Only reported when the benchmark has its judge enabled — an objective naming it against a benchmark without one scores every run None."
    "" false REPLAY_GROUP;
  mkMetric (under REPLAY "judge_halluc_clear_rate") "Judge: clear hallucinations" lower
    "Share of sampled answers the judge called plainly hallucinated. Judge must be enabled on the benchmark."
    "" false REPLAY_GROUP].

Definition DEFAULT_TARGET_METRIC : string := under PERF "output_tpm_card_norm".
Definition DEFAULT_VERIFY_TARGET_METRIC (REPLAY : string) : string := under REPLAY "score_card_norm".

Definition lookup_metric (REPLAY key : string) : option metric :=
  List.find (fun m => String.eqb (mc_key m) key) (METRICS REPLAY).
Definition catalog_direction (REPLAY key : string) : string :=
  match lookup_metric REPLAY key with
  | Some m => if bool_decide (mc_better m = lower) then "minimize" else "maximize"
  | None => "maximize"
  end.

(** ** The objective *)
Definition DEFAULT_TARGET : string := DEFAULT_TARGET_METRIC.

Definition truthy_text (d : option doc) : option string :=
  match d with Some (Sc (VStr s)) => if String.eqb s "" then None else Some s | _ => None end.

Definition target_metric (objective : tree) : string :=
  default DEFAULT_TARGET (truthy_text (dict_get "target_metric" objective)).

(** A list under a key, where there is a non-empty one. *)
Definition listed_under (key : string) (objective : tree) : option (list doc) :=
  match dict_get key objective with Some (Ls (d :: l)) => Some (d :: l) | _ => None end.

Definition redlines (objective : tree) : list tree :=
  map (fun d => sub_tree (Some d))
    (match listed_under "redlines" objective with
     | Some l => l
     | None => default [] (listed_under "constraints" objective)
     end).

Definition default_direction (REPLAY name : string) : string :=
  if is_measure_ref name then
    match (match parse_ref name with inr r => lookup_measure (mr_measure r) | inl _ => None end) with
    | Some spec => if bool_decide (me_better spec = Some lower) then "minimize" else "maximize"
    | None => "maximize"
    end
  else catalog_direction REPLAY name.

Definition direction (REPLAY : string) (objective : tree) : string :=
  match dict_get "direction" objective with
  | Some (Sc (VStr s)) =>
      if bool_decide (s ∈ ["maximize"; "minimize"]) then s else default_direction REPLAY (target_metric objective)
  | _ => default_direction REPLAY (target_metric objective)
  end.

Definition minimizing (REPLAY : string) (objective : tree) : bool :=
  String.eqb (direction REPLAY objective) "minimize".

Definition f_opp (x : float) : float := SFopp x.

(** The first component pushes missing values to the bottom. *)
Definition sort_key (REPLAY : string) (value : option float) (objective : tree) : bool * float :=
  match value with
  | None => (true, f_zero)
  | Some x => (false, if minimizing REPLAY objective then x else f_opp x)
  end.

Definition improvement_pct (REPLAY : string) (value baseline : option float) (objective : tree) : option float :=
  match value, num_or baseline None with
  | Some v, Some b =>
      let raw := f_mul (f_div (f_sub v b) (f_abs b)) hundred in
      Some (if minimizing REPLAY objective then f_opp raw else raw)
  | _, _ => None
  end.

(** ** Redlines *)
Definition OPERATORS (op : string) : option (doc -> doc -> option bool) :=
  let ordered (f : option comparison -> bool) := Some (fun a b => f <$> doc_cmp a b) in
  if String.eqb op "<=" then ordered is_le
  else if String.eqb op "<" then ordered is_lt
  else if String.eqb op ">=" then ordered is_ge
  else if String.eqb op ">" then ordered is_gt
  else if String.eqb op "==" then Some (fun a b => Some (doc_eq a b))
  else if String.eqb op "!=" then Some (fun a b => Some (negb (doc_eq a b)))
  else None.

Record RedlineResult := mkRedline {
  rl_metric : string;
  rl_op : string;
  rl_limit : option doc;
  rl_actual : option doc;
  rl_ok : bool;
  rl_note : string;
  rl_basis : string }.

(** A JSON null is Python's [None]. *)
Definition present (d : option doc) : option doc := if is_none d then None else d.

Definition show (d : option doc) : string := match d with Some d => doc_str d | None => "None" end.
Definition number_of (d : option doc) : option num := match d with Some (Sc v) => num_of v | _ => None end.
Definition show_g (d : option doc) : string :=
  match number_of d with Some n => format_num n | None => show d end.

Definition describe (r : RedlineResult) : string :=
  if negb (String.eqb (rl_note r) "") then rl_metric r +:+ ": " +:+ rl_note r
  else
    match number_of (rl_actual r) with
    | Some n =>
        if negb (String.eqb (rl_basis r) "")
        then rl_metric r +:+ "=" +:+ format_num n +:+ " " +:+ rl_op r +:+ " " +:+ show_g (rl_limit r)
             +:+ " (" +:+ rl_basis r +:+ ")"
        else rl_metric r +:+ "=" +:+ format_num n +:+ " " +:+ rl_op r +:+ " " +:+ show (rl_limit r)
    | None =>
        match rl_actual r with
        | None => rl_metric r +:+ " missing (needed " +:+ rl_op r +:+ " " +:+ show (rl_limit r) +:+ ")"
        | Some _ => rl_metric r +:+ "=" +:+ show (rl_actual r) +:+ " " +:+ rl_op r +:+ " " +:+ show (rl_limit r)
        end
    end.

Definition metric_of (redline : tree) : option string :=
  match dict_get "metric" redline with Some (Sc (VStr s)) => Some s | _ => None end.
Definition op_of (redline : tree) : string :=
  match dict_get "op" redline with Some d => doc_str d | None => "<=" end.
Definition relative_to (redline : tree) : option doc :=
  match dict_get "relative_to" redline with Some d => if doc_truthy d then Some d else None | None => None end.

Definition PRODUCTION : string := "production".

Section judged.
(** What LLMBench's replay module is called here, and a run's numbers. *)
Context (REPLAY : string) (get : string -> option doc).

Definition read_metric (m : option string) : option doc :=
  match m with Some s => if String.eqb s "" then None else present (get s) | None => None end.

Definition evaluate_redline (redline : tree) : RedlineResult :=
  let metric := metric_of redline in
  let op := op_of redline in
  let limit := present (dict_get "value" redline) in
  let actual := read_metric metric in
  let name := default "None" metric in
  match relative_to redline with
  | Some basis =>
      mkRedline name op None actual false ("no " +:+ doc_str basis +:+ " score to compare with yet") ""
  | None =>
      match OPERATORS op, metric, limit with
      | Some compare, Some _, Some limit =>
          let ok := match actual with Some a => default false (compare a limit) | None => false end in
          let basis := match dict_get "basis" redline with Some d => if doc_truthy d then doc_str d else "" | None => "" end in
          mkRedline name op (Some limit) actual ok "" basis
      | _, _, _ => mkRedline name op limit actual false "" ""
      end
  end.

Definition evaluate_redlines (objective : tree) : list RedlineResult :=
  map evaluate_redline (redlines objective).
Definition holds_redlines (objective : tree) : bool := forallb rl_ok (evaluate_redlines objective).
Definition breaches (objective : tree) : list string :=
  map describe (where_ (fun r => negb (rl_ok r)) (evaluate_redlines objective)).

(** ** The summary of a result *)
Record ResultSummary := mkSummary {
  su_objective_value : option float;
  su_feasible : bool;
  su_constraints : list float;
  su_breaches : list string }.

Definition f_inf : float := S754_infinity false.

(** The stored form of a slack: null where it is not finite. *)
Definition stored_slack (c : float) : doc := if f_finite c then Sc (VFloat c) else Sc VNone.
Definition opt_float (x : option float) : doc := match x with Some x => Sc (VFloat x) | None => Sc VNone end.

Definition as_dict (s : ResultSummary) : tree :=
  [("objective_value", opt_float (su_objective_value s)); ("feasible", Sc (VBool (su_feasible s)));
   ("constraints", Ls (map stored_slack (su_constraints s)));
   ("breaches", Ls (map str_doc (su_breaches s)))].

(** A stored list holds numbers and nulls. *)
Definition constraints_from_stored (stored : option doc) : list float :=
  map (fun d => match d with Sc VNone => f_inf | Sc v => default S754_nan (as_float v) | _ => S754_nan end)
    (sub_list stored).

Definition _numeric (d : option doc) : option float :=
  match d with Some (Sc v) => as_float v | _ => None end.

Definition _SLACK_SIGN (op : string) : option float :=
  if String.eqb op "<=" || String.eqb op "<" then Some f_one
  else if String.eqb op ">=" || String.eqb op ">" then Some minus_one
  else None.

Definition _slack (op : string) (actual limit : option doc) : float :=
  match _SLACK_SIGN op, _numeric actual, _numeric limit with
  | Some sign, Some a, Some b => f_mul sign (f_sub a b)
  | _, _, _ => f_inf
  end.

Definition summarize (objective : tree) : ResultSummary :=
  let value := _numeric (get (target_metric objective)) in
  let results := evaluate_redlines objective in
  let crossed := map describe (where_ (fun r => negb (rl_ok r)) results) in
  mkSummary value (bool_decide (crossed = []) && bool_decide (is_Some value))
    (map (fun r => _slack (rl_op r) (rl_actual r) (rl_limit r)) results) crossed.

Definition is_better (a b : option float) (objective : tree) : bool :=
  match a, b with
  | None, _ => false
  | Some _, None => true
  | Some x, Some y => if minimizing REPLAY objective then f_ltb x y else f_ltb y x
  end.
End judged.

(** What a stored result keeps of its summary. *)
Record stored_summary := mkStored {
  st_objective_value : option float;
  st_feasible : option bool;
  st_constraints : option doc;
  st_breaches : list string }.

(** The summary of a result row: the stored one, or one computed from its
    numbers where none was stored. *)
Definition summary_of (result : option (stored_summary * (string -> option doc))) (objective : tree) : ResultSummary :=
  match result with
  | None => mkSummary None false [] []
  | Some (st, get) =>
      if bool_decide (is_Some (st_objective_value st)) || negb (bool_decide (st_breaches st = []))
      then mkSummary (st_objective_value st) (default false (st_feasible st))
             (constraints_from_stored (st_constraints st)) (st_breaches st)
      else summarize get objective
  end.

(** ** What a verdict means *)
Section verdicts.
Context (get : string -> option doc).

(** A redline a run certainly holds: absolute, its metric measured, the
    comparison made and true. *)
Definition redline_holds (redline : tree) : Prop :=
  relative_to redline = None /\
  exists compare m limit actual,
    OPERATORS (op_of redline) = Some compare /\ metric_of redline = Some m /\ m <> "" /\
    present (dict_get "value" redline) = Some limit /\ present (get m) = Some actual /\
    compare actual limit = Some true.

Lemma ok_holds redline : rl_ok (evaluate_redline get redline) = true <-> redline_holds redline.
Proof.
  unfold evaluate_redline, redline_holds, read_metric. split.
  - intros H. destruct (relative_to redline) as [d|]; [done|]. split; [done|].
    destruct (OPERATORS (op_of redline)) as [compare|]; [|done].
    destruct (metric_of redline) as [m|]; [|done].
    destruct (present (dict_get "value" redline)) as [limit|]; [|done]. cbn [rl_ok] in H. cbv beta iota in H.
    destruct (String.eqb_spec m "") as [->|Hm]; [done|]. destruct (present (get m)) as [a|] eqn:Ha; [|done].
    exists compare, m, limit, a. repeat (split; [done|]).
    destruct (compare a limit) as [[]|]; cbn in H; congruence.
  - intros (-> & compare & m & limit & a & -> & -> & Hm & -> & Ha & Hc). cbn [rl_ok].
    rewrite (proj2 (String.eqb_neq m "") Hm), Ha. by rewrite Hc.
Qed.

Lemma breaches_nil objective :
  map describe (where_ (fun r => negb (rl_ok r)) (evaluate_redlines get objective)) = [] <->
  forall redline, redline ∈ redlines objective -> redline_holds redline.
Proof.
  assert (map describe (where_ (fun r => negb (rl_ok r)) (evaluate_redlines get objective)) = [] <->
          where_ (fun r => negb (rl_ok r)) (evaluate_redlines get objective) = []) as ->
    by (destruct (where_ _ _); split; done).
  rewrite where_nil. unfold evaluate_redlines. split.
  - intros H redline Hin. apply ok_holds. apply negb_false_iff, H. by apply list_elem_of_fmap_2.
  - intros H r (redline & -> & Hin)%list_elem_of_fmap. apply negb_false_iff, ok_holds, H, Hin.
Qed.

(** A run is feasible exactly when its target was measured as a number and every redline was
    certainly held: absolute, with its metric measured, a limit to compare with, and the comparison
    true.  What could not be judged (no measurement, an operator nobody knows, a value that does not
    compare, a relative limit nothing resolved) counts as crossed, and is listed. *)
Theorem feasible_exactly objective :
  (su_feasible (summarize get objective) = true <->
   is_Some (_numeric (get (target_metric objective))) /\
   forall redline, redline ∈ redlines objective -> redline_holds redline) /\
  su_breaches (summarize get objective) = breaches get objective /\
  (su_breaches (summarize get objective) = [] <-> holds_redlines get objective = true).
Proof.
  unfold summarize. cbn [su_feasible su_breaches]. split; [|split; [done|]].
  - rewrite andb_true_iff, !bool_decide_eq_true, breaches_nil. tauto.
  - rewrite breaches_nil. unfold holds_redlines, evaluate_redlines. rewrite forallb_forall. split.
    + intros H r Hr. apply list_elem_of_In, list_elem_of_fmap in Hr as (redline & -> & Hin). by apply ok_holds, H.
    + intros H redline Hin. apply ok_holds, H, list_elem_of_In. by apply list_elem_of_fmap_2.
Qed.

(** ** Stored summaries *)
Definition stored_of (s : ResultSummary) : stored_summary :=
  mkStored (su_objective_value s) (Some (su_feasible s)) (dict_get "constraints" (as_dict s)) (su_breaches s).

Definition storable (c : float) : Prop := f_finite c = true \/ c = f_inf.

Lemma stored_slacks s : Forall storable (su_constraints s) ->
  constraints_from_stored (dict_get "constraints" (as_dict s)) = su_constraints s.
Proof.
  intros H. unfold as_dict. cbv [dict_get]. cbn [List.find String.eqb fst]. cbn.
  induction H as [|c l Hc Hl IH]; cbn [map]; [done|]. rewrite IH. f_equal.
  destruct Hc as [Hc| ->]; [|done]. unfold stored_slack. by rewrite Hc.
Qed.

(** The summary a result was stored with is read back as it was, whatever the campaign's objective
    has become since: slacks survive the trip through JSON, an infinite one as null.  A result that
    was stored without a value and without a breach is computed again, and gives the same summary for
    the same objective. *)
Theorem summary_survives_storage objective edited :
  Forall storable (su_constraints (summarize get objective)) ->
  let s := summarize get objective in
  summary_of (Some (stored_of s, get)) objective = s /\
  (is_Some (su_objective_value s) \/ su_breaches s <> [] -> summary_of (Some (stored_of s, get)) edited = s).
Proof.
  intros H s.
  assert (is_Some (su_objective_value s) \/ su_breaches s <> [] ->
          forall o, summary_of (Some (stored_of s, get)) o = s) as Hread.
  { intros Hs o. unfold summary_of.
    assert (bool_decide (is_Some (st_objective_value (stored_of s))) || negb (bool_decide (st_breaches (stored_of s) = [])) = true) as ->.
    { apply orb_true_iff. destruct Hs as [Hs|Hs]; [left; by apply bool_decide_eq_true|right].
      by apply negb_true_iff, bool_decide_eq_false. }
    cbn [stored_of st_objective_value st_feasible st_constraints st_breaches default from_option id].
    rewrite stored_slacks by done. by destruct s. }
  split; [|intros Hs; by apply Hread].
  destruct (decide (is_Some (su_objective_value s) \/ su_breaches s <> [])) as [Hs|Hs]; [by apply Hread|].
  unfold summary_of. rewrite bool_decide_eq_false_2, bool_decide_eq_true_2; [done| |].
  - change (su_breaches s = []). destruct (decide (su_breaches s = [])) as [E|E]; [done|]. destruct Hs. by right.
  - intros Hv. apply Hs. by left.
Qed.

(** The slack of what could not be judged is infinite. *)
Lemma unjudged_slack op actual limit :
  _numeric actual = None \/ _numeric limit = None -> _slack op actual limit = f_inf.
Proof. unfold _slack. destruct (_SLACK_SIGN op), (_numeric actual), (_numeric limit); by intros [?|?]. Qed.
End verdicts.

(** A measurement of three metrics against two redlines, the second without a
    measurement: the slack of that one is infinite, and kept as null. *)
Definition sample_objective : tree :=
  [("target_metric", Sc (VStr "perf_guidellm/output_tpm"));
   ("redlines", Ls [Mp [("metric", Sc (VStr "ttft_ms@p99")); ("op", Sc (VStr "<=")); ("value", Sc (VInt 200))];
                    Mp [("metric", Sc (VStr "success_rate")); ("op", Sc (VStr ">=")); ("value", Sc (VFloat f_one))]])].
Definition sample_measured (name : string) : option doc :=
  dict_get name [("perf_guidellm/output_tpm", Sc (VInt 54000)); ("ttft_ms@p99", Sc (VInt 150))].

Lemma summary_survives_storage_witness :
  let s := summarize sample_measured sample_objective in
  su_feasible s = false /\ length (su_breaches s) = 1%nat /\
  summary_of (Some (stored_of s, sample_measured)) sample_objective = s.
Proof.
  intros s. split; [by vm_compute|]. split; [by vm_compute|].
  apply (fun H => proj1 (summary_survives_storage sample_measured sample_objective [] H)).
  assert (su_constraints s = [f_of_Z (-50); f_inf]) as Hs by by vm_compute.
  fold s. rewrite Hs. apply Forall_cons; split; [by left; vm_compute|]. apply Forall_singleton. by right.
Defined.

(** A strict redline met at equality: crossed, with a slack that reads as held;
    and a text that reads as a number below the limit. *)
Example slack_and_verdict_disagree :
  let five := fun _ : string => Some (Sc (VInt 5)) in
  let redline (op : string) : tree :=
    [("redlines", Ls [Mp [("metric", Sc (VStr "m")); ("op", Sc (VStr op)); ("value", Sc (VInt 5))]])] in
  (su_feasible (summarize five (redline "<")), map (fun c => f_leb c f_zero) (su_constraints (summarize five (redline "<"))))
    = (false, [true]) /\
  let text := fun _ : string => Some (Sc (VStr "4")) in
  (su_feasible (summarize text (redline "<=")), map (fun c => f_leb c f_zero) (su_constraints (summarize text (redline "<="))))
    = (false, [true]).
Proof. vm_compute. done. Qed.
