(* ===== verification/Judgement.v ===== *)
(** Service levels and quality floors: the latency bound a scenario is measured
    against ([evaluation/gate.py]), and the redlines that hold a configuration
    to production's own score ([quality.py]), judged again when that score
    moves. *)
From Stdlib Require Import Ascii SpecFloat.
From S2P Require Import Failures Logs Model States Packing Timing World Samples Occupancy Fleet Exclusive Finish Placement Nights.
From S2P Require Import Prelude Float Values Texts Documents Space Validation Flags Commands ExtraArgs Addresses Recipes.
From S2P Require Import Composition Conversion Scripts Checks.
From S2P Require Import Measures Adapters Harvest Readings Objectives.
#[local] Open Scope string_scope.
#[local] Open Scope list_scope.
#[local] Open Scope Z_scope.

(** ** The gate *)
Definition TTFT_SUFFIXES : list string := ["ttft_p50_ms"; "ttft_p90_ms"; "ttft_p99_ms"].
Definition REQUEST_TPS_SUFFIX : string := "request_output_tps".

(** The raw key a gate measure stands for. *)
Definition _measure_leaf (metric : string) : option string :=
  if negb (is_measure_ref metric) then None
  else match parse_ref metric with
       | inl _ => None
       | inr r =>
           match given (mr_point r), given (mr_qualifier r) with
           | None, None =>
               match mr_stat r with
               | Some s =>
                   if String.eqb (mr_measure r) "ttft_ms" && bool_decide (s ∈ ["p50"; "p90"; "p99"])
                   then Some ("ttft_" +:+ s +:+ "_ms")
                   else if String.eqb (mr_measure r) "request_output_tps" && String.eqb s "mean"
                   then Some REQUEST_TPS_SUFFIX
                   else None
               | None => None
               end
           | _, _ => None
           end
       end.

Record Gate := mkGate {
  gt_ttft_ms : float;
  gt_ttft_percentile : string;
  gt_min_request_output_tps : float }.
#[export] Instance eta_gate : Eta Gate := fun g =>
  mkGate (gt_ttft_ms g) (gt_ttft_percentile g) (gt_min_request_output_tps g).

(** [float(value)]; [None]: it raises. *)
Definition py_float (d : doc) : option float :=
  match d with Sc (VBool b) => Some (f_of_Z (bool_int b)) | Sc v => as_float v | _ => None end.

(** [float(raw.get(key) or 0)]. *)
Definition float_field (key : string) (raw : tree) : option float :=
  match dict_get key raw with
  | Some d => if doc_truthy d then py_float d else Some f_zero
  | None => Some f_zero
  end.

Definition gate_from_dict (raw : tree) : option Gate :=
  ttft ← float_field "ttft_ms" raw;
  tps ← float_field "min_request_output_tps" raw;
  Some (mkGate ttft (match dict_get "ttft_percentile" raw with
                     | Some d => if doc_truthy d then doc_str d else "p50"
                     | None => "p50"
                     end) tps).
Definition gate_to_dict (g : Gate) : tree :=
  [("ttft_ms", Sc (VFloat (gt_ttft_ms g))); ("ttft_percentile", Sc (VStr (gt_ttft_percentile g)));
   ("min_request_output_tps", Sc (VFloat (gt_min_request_output_tps g)))].

(** What one redline asks of the gate. *)
Inductive gate_rule := TtftRule (limit : float) (percentile : string) | TpsRule (floor : float).

(** [leaf.split("_")[1]], of a TTFT suffix. *)
Definition percentile_of (leaf : string) : string :=
  match partition "_" leaf with
  | Some (_, rest) => match partition "_" rest with Some (p, _) => p | None => rest end
  | None => ""
  end.

Definition rule_of (d : doc) : option gate_rule :=
  match d with
  | Mp rule =>
      let metric := text_at "metric" rule in
      match dict_get "value" rule ≫= py_float with
      | None => None
      | Some number =>
          let leaf := default (last_part "." metric) (_measure_leaf metric) in
          let op := match dict_get "op" rule with Some (Sc (VStr s)) => s | _ => "" end in
          if bool_decide (leaf ∈ TTFT_SUFFIXES) && bool_decide (op ∈ ["<="; "<"])
          then Some (TtftRule number (percentile_of leaf))
          else if String.eqb leaf REQUEST_TPS_SUFFIX && bool_decide (op ∈ [">="; ">"])
          then Some (TpsRule number)
          else None
      end
  | _ => None
  end.

Definition gate_step (g : Gate) (r : gate_rule) : Gate :=
  match r with
  | TtftRule number percentile =>
      if f_eqb (gt_ttft_ms g) f_zero || f_ltb number (gt_ttft_ms g)
      then g <| gt_ttft_ms := number |> <| gt_ttft_percentile := percentile |> else g
  | TpsRule number => g <| gt_min_request_output_tps ::= fun x => f_max x number |>
  end.

Definition no_gate : Gate := mkGate f_zero "p50" f_zero.

Definition gate_from_objective (objective : tree) : option Gate :=
  let rules := omap rule_of (match dict_get "redlines" objective with Some (Ls l) => l | _ => [] end) in
  let g := foldl gate_step no_gate rules in
  if f_eqb (gt_ttft_ms g) f_zero && f_eqb (gt_min_request_output_tps g) f_zero then None else Some g.

(** ** Floors relative to production *)
Definition QUALITY_MODULE : string := "opencompass".

Definition is_relative (r : tree) : bool := bool_decide (dict_get "relative_to" r = Some (Sc (VStr PRODUCTION))).
Definition relative_redlines (objective : tree) : list tree := where_ is_relative (redlines objective).

Definition floor_metric (task : string) : string := QUALITY_MODULE +:+ "/accuracy[" +:+ task +:+ "]".
Definition quality_floor (tasks : list string) (max_drop : float) : list tree :=
  map (fun task =>
    [("metric", Sc (VStr (floor_metric task))); ("op", Sc (VStr ">=")); ("relative_to", Sc (VStr PRODUCTION));
     ("value", Sc (VFloat (f_opp (f_abs max_drop))))]) tasks.

(** Two recipes written out alike. *)
Definition same_recipe (a b : Recipe) : bool :=
  String.eqb (rc_engine a) (rc_engine b) && String.eqb (rc_chart_name a) (rc_chart_name b)
  && String.eqb (rc_chart_version a) (rc_chart_version b) && doc_eq (Mp (rc_values a)) (Mp (rc_values b))
  && String.eqb (rc_image_digest a) (rc_image_digest b).

(** A measurement of production: the platform's reference, or in a recipe
    campaign a configuration that leaves the recipe as it is. *)
Definition is_production (cd : option candidate) (k : CampaignRecipe) : bool :=
  match cd with
  | None => false
  | Some cd =>
      if is_baseline_candidate cd then true
      else match cr_recipe k with
           | None => false
           | Some base =>
               if bool_decide (cd_config cd = ∅) then true
               else match recipe_for k (items (cd_config cd)) with
                    | inr r => same_recipe r base
                    | inl _ => false
                    end
           end
  end.

(** A benchmark's result in a campaign: the run, what it measured, how its
    numbers are read, and the summary it was stored with. *)
Record judged := mkJudged {
  jd_run : Z;
  jd_candidate : candidate;
  jd_get : string -> option doc;
  jd_objective_value : option float;
  jd_feasible : bool;
  jd_constraints : option doc;
  jd_breaches : list string }.
#[export] Instance eta_judged : Eta judged := fun r =>
  mkJudged (jd_run r) (jd_candidate r) (jd_get r) (jd_objective_value r) (jd_feasible r) (jd_constraints r) (jd_breaches r).

Definition production_values (k : CampaignRecipe) (rows : list judged) (metric : string) : list float :=
  omap (fun row => if is_production (Some (jd_candidate row)) k then _as_number (jd_get row metric) else None) rows.

Definition f_mean (l : list float) : float := f_div (foldl f_add f_zero l) (f_of_Z (Z.of_nat (length l))).

Definition production_scores (k : CampaignRecipe) (rows : list judged) (metrics : list string) : list (string * float) :=
  foldl (fun out m => match production_values k rows m with [] => out | l => dict_set m (f_mean l) out end) [] metrics.

Definition offset_of (redline : tree) : float :=
  match dict_get "value" redline with
  | Some d => if doc_truthy d then default f_zero (py_float d) else f_zero
  | None => f_zero
  end.

Definition basis_text (base offset : float) : string :=
  "production " +:+ format_g 3 base +:+ " " +:+ (if f_ltb offset f_zero then "-" else "+") +:+ " "
  +:+ format_g 6 (f_abs offset).

(** One redline made absolute, where production has a score on its metric. *)
Definition resolve_redline (scores : list (string * float)) (redline : tree) : tree :=
  match (if is_relative redline then metric_of redline ≫= fun m => dict_get m scores else None) with
  | Some base =>
      let offset := offset_of redline in
      dict_set "basis" (Sc (VStr (basis_text base offset)))
        (dict_set "value" (Sc (VFloat (f_round (f_add base offset) 6))) (dict_pop "relative_to" redline))
  | None => redline
  end.

Definition resolve_objective (objective : tree) (scores : list (string * float)) : tree :=
  match relative_redlines objective with
  | [] => objective
  | _ =>
      let key := if dict_has "redlines" objective then "redlines" else "constraints" in
      dict_set key (Ls (map (fun d => Mp (resolve_redline scores (sub_tree (Some d)))) (sub_list (dict_get key objective))))
        objective
  end.

(** The metrics production has to be measured on. *)
Definition needed (objective : tree) : list string :=
  where_ (fun m => negb (String.eqb m "")) (omap metric_of (relative_redlines objective)).

Definition judge_result (k : CampaignRecipe) (rows : list judged) (objective : tree) (get : string -> option doc) : ResultSummary :=
  summarize get (resolve_objective objective (production_scores k rows (needed objective))).

(** What a policy's own trial of a run reports of it, under its key. *)
Abbreviation trials := (gmap string (option float * bool)).
Definition platform_key (run : Z) : string := "platform-run-" +:+ pretty run.

Section rescoring.
Context (k : CampaignRecipe) (objective_of : Z -> tree).

Definition rescore_row (rows : list judged) (row : judged) : judged * bool :=
  let objective := objective_of (jd_run row) in
  match relative_redlines objective with
  | [] => (row, false)
  | _ =>
      let s := judge_result k rows objective (jd_get row) in
      if Bool.eqb (su_feasible s) (jd_feasible row) && bool_decide (su_breaches s = jd_breaches row) then (row, false)
      else (row <| jd_objective_value := su_objective_value s |> <| jd_feasible := su_feasible s |>
                <| jd_constraints := dict_get "constraints" (as_dict s) |> <| jd_breaches := su_breaches s |>, true)
  end.

Definition rescored_trial (ts : trials) (r : judged * bool) : trials :=
  let '(row, changed) := r in
  if changed
  then match ts !! platform_key (jd_run row) with
       | Some _ => <[ platform_key (jd_run row) := (jd_objective_value row, jd_feasible row) ]> ts
       | None => ts
       end
  else ts.

(** The results, the trials and how many results changed. *)
Definition rescore (rows : list judged) (ts : trials) : list judged * trials * Z :=
  let judged_rows := map (rescore_row rows) rows in
  (judged_rows.*1, foldl rescored_trial ts judged_rows, Z.of_nat (length (where_ (fun r => r.2) judged_rows))).
End rescoring.

(** ** The gate is the tightest of its redlines *)
Definition positive (x : float) : Prop := f_ltb f_zero x = true.

(** A metric that ends with a key of the benchmark: bare, or under a module. *)
Definition ends_with_key (metric leaf : string) : Prop :=
  metric = leaf \/ exists module, metric = module +:+ "." +:+ leaf.

(** A measure reference to one statistic of a whole scenario. *)
Definition refers_to (metric measure stat : string) : Prop :=
  is_measure_ref metric = true /\
  exists r, parse_ref metric = inr r /\ mr_measure r = measure /\ mr_stat r = Some stat /\
    given (mr_point r) = None /\ given (mr_qualifier r) = None.

(** The metrics a service level is about: a percentile of the time to the
    first token, and the mean rate of one request. *)
Definition latency_metric (metric percentile : string) : Prop :=
  percentile ∈ ["p50"; "p90"; "p99"] /\
  (refers_to metric "ttft_ms" percentile \/ ends_with_key metric ("ttft_" +:+ percentile +:+ "_ms")).
Definition rate_metric (metric : string) : Prop :=
  refers_to metric "request_output_tps" "mean" \/ ends_with_key metric "request_output_tps".

(** A redline that spells everything out, with an absolute limit. *)
Record absolute_redline (rule : tree) (metric op : string) (limit : float) : Prop := {
  rl_metric : dict_get "metric" rule = Some (Sc (VStr metric));
  rl_op : dict_get "op" rule = Some (Sc (VStr op));
  rl_value : exists v, dict_get "value" rule = Some (Sc v) /\
    match v with
    | VInt z => limit = f_of_Z z
    | VFloat x => limit = x
    | VStr t => parse_float t = Some limit
    | _ => False
    end;
  rl_absolute : dict_get "relative_to" rule = None;
  rl_positive : positive limit }.

Definition bounds_latency (rule : tree) (limit : float) (percentile : string) : Prop :=
  exists metric op, absolute_redline rule metric op limit /\ latency_metric metric percentile /\ op ∈ ["<="; "<"].
Definition bounds_rate (rule : tree) (limit : float) : Prop :=
  exists metric op, absolute_redline rule metric op limit /\ rate_metric metric /\ op ∈ [">="; ">"].

(** No latency limit is lower than the gate's, which is the limit of the
    first redline that is so low, at its percentile; no rate is higher than
    the gate's, which is the rate of a redline.  Zero, where nothing bounds. *)
Definition tightest (rules : list tree) (g : Gate) : Prop :=
  (forall rule x p, rule ∈ rules -> bounds_latency rule x p -> f_ltb x (gt_ttft_ms g) = false) /\
  ((exists before rule after, rules = before ++ rule :: after /\
      bounds_latency rule (gt_ttft_ms g) (gt_ttft_percentile g) /\
      forall other x p, other ∈ before -> bounds_latency other x p -> f_ltb (gt_ttft_ms g) x = true) \/
   ((forall rule x p, rule ∈ rules -> ~ bounds_latency rule x p) /\
    gt_ttft_ms g = f_zero /\ gt_ttft_percentile g = "p50")) /\
  (forall rule x, rule ∈ rules -> bounds_rate rule x -> f_ltb (gt_min_request_output_tps g) x = false) /\
  ((exists rule, rule ∈ rules /\ bounds_rate rule (gt_min_request_output_tps g)) \/
   ((forall rule x, rule ∈ rules -> ~ bounds_rate rule x) /\ gt_min_request_output_tps g = f_zero)).

(** *** The fold over the rules *)
Lemma positive_not_zero x : positive x -> f_eqb x f_zero = false.
Proof. unfold positive, f_ltb, f_eqb, SFltb, SFeqb. by destruct x as [[]|[]| |[] m e]. Qed.

Lemma positive_number x : positive x -> is_number x = true.
Proof. by destruct x as [[]|[]| |[] m e]. Qed.

Lemma f_ltb_asym x y : positive x -> positive y -> f_ltb x y = true -> f_ltb y x = false.
Proof.
  intros Hx%positive_number Hy%positive_number. rewrite !f_ltb_key by done.
  apply (before_asym (before := key_before f_key)).
Qed.

Lemma f_ltb_negtrans x y z : positive x -> positive y -> positive z ->
  f_ltb x y = false -> f_ltb y z = false -> f_ltb x z = false.
Proof.
  intros Hx%positive_number Hy%positive_number Hz%positive_number. rewrite !f_ltb_key by done.
  intros H1 H2. exact (before_negtrans (before := key_before f_key) x y z H1 H2).
Qed.

Lemma f_ltb_trans_ge x y z : positive x -> positive y -> positive z ->
  f_ltb x y = true -> f_ltb z y = false -> f_ltb x z = true.
Proof.
  intros Hx Hy Hz Hxy Hzy. destruct (f_ltb x z) eqn:E; [done|].
  by rewrite (f_ltb_negtrans x z y) in Hxy.
Qed.

Lemma f_ltb_irrefl x : f_ltb x x = false.
Proof.
  unfold f_ltb, SFltb. destruct x as [|[]| |[] m e]; [done..| |]; simpl;
    rewrite Z.compare_refl; change (PosDef.Pos.compare_cont Eq m m) with (m ?= m)%positive;
    by rewrite Pos.compare_refl.
Qed.

Definition rule_limit (r : gate_rule) : float := match r with TtftRule n _ => n | TpsRule n => n end.

Lemma latency_fold rules :
  Forall (fun r => positive (rule_limit r)) rules ->
  let g := foldl gate_step no_gate rules in
  (forall x p, TtftRule x p ∈ rules -> f_ltb x (gt_ttft_ms g) = false) /\
  ((exists before after, rules = before ++ TtftRule (gt_ttft_ms g) (gt_ttft_percentile g) :: after /\
      forall x p, TtftRule x p ∈ before -> f_ltb (gt_ttft_ms g) x = true) \/
   ((forall x p, TtftRule x p ∉ rules) /\ gt_ttft_ms g = f_zero /\ gt_ttft_percentile g = "p50")).
Proof.
  induction rules as [|r rules IH] using rev_ind; cbv zeta.
  { intros _. split; [by intros ? ? ?%not_elem_of_nil|right]. split; [by intros ? ? ?%not_elem_of_nil|done]. }
  intros [Hp Hr]%Forall_app. apply (proj1 (Forall_singleton _ _)) in Hr. rewrite Forall_forall in Hp.
  rewrite foldl_app. cbn [foldl]. specialize (IH (proj2 (Forall_forall _ _) Hp)). cbv zeta in IH.
  destruct (foldl gate_step no_gate rules) as [t q f]. cbn [gt_ttft_ms gt_ttft_percentile] in IH.
  destruct IH as [Hle Hcase]. destruct r as [n p|n]; cbn [rule_limit] in Hr; cbn [gate_step gt_ttft_ms gt_ttft_percentile].
  - destruct Hcase as [(before & after & -> & Hb)|(Hno & -> & ->)].
    + assert (Ht : positive t) by (apply (Hp (TtftRule t q)), elem_of_app; right; left).
      rewrite (positive_not_zero _ Ht). cbn [orb]. destruct (f_ltb n t) eqn:Hn; cbn [gt_ttft_ms gt_ttft_percentile].
      * split.
        -- intros x p' [Hin|[= -> ->]%list_elem_of_singleton]%elem_of_app; [|apply f_ltb_irrefl].
           pose proof (Hp _ Hin) as Hx. cbn in Hx.
           change (f_ltb x n = false). apply f_ltb_asym; [done|done|]. by apply (f_ltb_trans_ge n t x); [..|apply (Hle x p')].
        -- left. exists (before ++ TtftRule t q :: after), []. split; [done|]. change (forall x p', TtftRule x p' ∈ before ++ TtftRule t q :: after -> f_ltb n x = true). intros x p' Hin.
           pose proof (Hp _ Hin) as Hx. cbn in Hx. by apply (f_ltb_trans_ge n t x); [..|apply (Hle x p')].
      * split.
        -- intros x p' [Hin|[= -> ->]%list_elem_of_singleton]%elem_of_app; [by apply (Hle x p')|done].
        -- left. exists before, (after ++ [TtftRule n p]). split; [by rewrite <- app_assoc|done].
    + cbn. split.
      * intros x p' [Hin|[= -> ->]%list_elem_of_singleton]%elem_of_app; [by destruct (Hno x p')|apply f_ltb_irrefl].
      * left. exists rules, []. split; [done|]. intros x p' Hin. by destruct (Hno x p').
  - split.
    + intros x p [Hin|?%list_elem_of_singleton]%elem_of_app; [by apply (Hle x p)|done].
    + destruct Hcase as [(before & after & -> & Hb)|(Hno & Ht & Hq)].
      * left. exists before, (after ++ [TpsRule n]). split; [by rewrite <- app_assoc|done].
      * right. split; [|done]. intros x p [Hin|?%list_elem_of_singleton]%elem_of_app; [by destruct (Hno x p)|done].
Qed.

Lemma rate_fold rules :
  Forall (fun r => positive (rule_limit r)) rules ->
  let g := foldl gate_step no_gate rules in
  (forall x, TpsRule x ∈ rules -> f_ltb (gt_min_request_output_tps g) x = false) /\
  (TpsRule (gt_min_request_output_tps g) ∈ rules \/
   ((forall x, TpsRule x ∉ rules) /\ gt_min_request_output_tps g = f_zero)).
Proof.
  induction rules as [|r rules IH] using rev_ind; cbv zeta.
  { intros _. split; [by intros ? ?%not_elem_of_nil|right]. split; [by intros ? ?%not_elem_of_nil|done]. }
  intros [Hp Hr]%Forall_app. apply (proj1 (Forall_singleton _ _)) in Hr. rewrite Forall_forall in Hp.
  rewrite foldl_app. cbn [foldl]. specialize (IH (proj2 (Forall_forall _ _) Hp)). cbv zeta in IH.
  set (g := foldl gate_step no_gate rules) in *. destruct IH as [Hle Hcase]. destruct r as [n p|n]; cbn [rule_limit] in Hr.
  - assert (gt_min_request_output_tps (gate_step g (TtftRule n p)) = gt_min_request_output_tps g) as ->
      by (cbn [gate_step]; by destruct (_ || _)).
    split; [intros x [Hin|?%list_elem_of_singleton]%elem_of_app; [by apply Hle|done]|].
    destruct Hcase as [Hin|[Hno ?]]; [left; apply elem_of_app; by left|right].
    split; [|done]. intros x [Hin|?%list_elem_of_singleton]%elem_of_app; [by destruct (Hno x)|done].
  - change (gt_min_request_output_tps (gate_step g (TpsRule n))) with (f_max (gt_min_request_output_tps g) n).
    unfold f_max. destruct (f_ltb (gt_min_request_output_tps g) n) eqn:Hn.
    + split; [|left; apply elem_of_app; right; by apply list_elem_of_singleton].
      intros x [Hin|[= ->]%list_elem_of_singleton]%elem_of_app; [|apply f_ltb_irrefl].
      destruct Hcase as [Hg|[Hno _]]; [|by destruct (Hno x)].
      pose proof (Hp _ Hin) as Hx. pose proof (Hp _ Hg) as Hg'. cbn in Hx, Hg', Hr.
      apply (f_ltb_negtrans n (gt_min_request_output_tps g) x); [done..| |by apply Hle]. by apply f_ltb_asym.
    + split.
      * intros x [Hin|[= ->]%list_elem_of_singleton]%elem_of_app; [by apply Hle|done].
      * destruct Hcase as [Hg|[Hno Hz]]; [left; apply elem_of_app; by left|].
        rewrite Hz in Hn. unfold positive in Hr. cbn in Hr. congruence.
Qed.

(** *** Reading one redline *)
Definition leaf_of (metric : string) : string := default (last_part "." metric) (_measure_leaf metric).

Lemma after_last_eq l acc leaf : forallb (fun c => negb (Ascii.eqb c ".")) leaf = true ->
  forallb (fun c => negb (Ascii.eqb c ".")) acc = true ->
  after_last "." l acc = leaf <-> reverse acc ++ l = leaf \/ exists a, l = a ++ "."%char :: leaf.
Proof.
  intros Hleaf. revert acc. induction l as [|c l IH]; intros acc Hacc; cbn [after_last].
  - rewrite app_nil_r. split; [by left|]. intros [?|([|] & ?)]; done.
  - destruct (Ascii.eqb_spec c ".") as [->|Hc].
    + rewrite IH by done. change (reverse [] ++ l) with l. split.
      * intros [->|(a & ->)]; right; [by exists []|by exists ("."%char :: a)].
      * intros [E|(a & E)].
        -- exfalso. rewrite <- E, forallb_app in Hleaf. cbn in Hleaf. by rewrite andb_false_r in Hleaf.
        -- destruct a as [|d a]; injection E as E; [by left|]. right. exists a. by subst.
    + rewrite IH by (cbn; rewrite Hacc; by destruct (Ascii.eqb_spec c ".")). rewrite reverse_cons, <- app_assoc. cbn [app]. split.
      * intros [?|(a & ->)]; [by left|right; by exists (c :: a)].
      * intros [?|(a & E)]; [by left|]. destruct a as [|d a]; injection E as E1 E2; [by subst|right; by exists a].
Qed.

Lemma ends_with_key_iff metric leaf : has_dot leaf = false -> last_part "." metric = leaf <-> ends_with_key metric leaf.
Proof.
  intros Hleaf. unfold last_part, ends_with_key.
  assert (forallb (fun c => negb (Ascii.eqb c ".")) (chars leaf) = true) as Hd.
  { unfold has_dot in Hleaf. apply forallb_forall. intros c Hc. destruct (Ascii.eqb_spec c ".") as [->|]; [|done].
    exfalso. rewrite <- not_true_iff_false in Hleaf. apply Hleaf. apply existsb_exists. by exists "."%char. }
  transitivity (after_last "." (chars metric) [] = chars leaf).
  { split; [intros <-; by rewrite chars_of_chars|intros ->; by rewrite of_chars_chars]. }
  rewrite after_last_eq by done. change (reverse [] ++ chars metric) with (chars metric). split.
  - intros [E|(a & E)]; [left; by apply chars_inj|right]. exists (of_chars a). apply chars_inj.
    by rewrite E, !chars_app, chars_of_chars.
  - intros [->|(a & ->)]; [by left|right]. exists (chars a). by rewrite !chars_app.
Qed.

Lemma has_dot_joined a b : has_dot (a +:+ "." +:+ b) = true.
Proof. unfold has_dot. rewrite !chars_app, !existsb_app. cbn. by rewrite orb_true_r. Qed.

Lemma dotted_no_measure metric leaf : ends_with_key metric leaf -> is_measure_ref leaf = false -> _measure_leaf metric = None.
Proof.
  unfold _measure_leaf. intros [->|(m & ->)] Hl; [by rewrite Hl|].
  assert (is_measure_ref (m +:+ "." +:+ leaf) = false) as ->; [|done]. unfold is_measure_ref.
  by rewrite has_dot_joined, orb_true_r.
Qed.

Lemma measure_leaf_Some metric leaf : _measure_leaf metric = Some leaf <->
  (exists p, p ∈ ["p50"; "p90"; "p99"] /\ refers_to metric "ttft_ms" p /\ leaf = "ttft_" +:+ p +:+ "_ms") \/
  (refers_to metric "request_output_tps" "mean" /\ leaf = "request_output_tps").
Proof.
  unfold _measure_leaf, refers_to. destruct (is_measure_ref metric); cbn [negb].
  2: { split; [done|]. by intros [(? & _ & [? _] & _)|[[? _] _]]. }
  destruct (parse_ref metric) as [e|r].
  { split; [done|]. by intros [(? & _ & [_ (? & ? & _)] & _)|[[_ (? & ? & _)] _]]. }
  assert (forall (P : MeasureRef -> Prop), (exists r', inr (A := RefError) r = inr r' /\ P r') <-> P r) as Hex.
  { intros P. split; [by intros (r' & [= <-] & ?)|intros ?; by exists r]. }
  destruct (given (mr_point r)) as [pt|] eqn:Ept.
  { split; [done|]. intros [(? & _ & [_ (? & [= <-] & ? & ? & ? & _)] & _)|[[_ (? & [= <-] & ? & ? & ? & _)] _]]; congruence. }
  destruct (given (mr_qualifier r)) as [q|] eqn:Eq.
  { split; [done|]. intros [(? & _ & [_ (? & [= <-] & ? & ? & ? & ?)] & _)|[[_ (? & [= <-] & ? & ? & ? & ?)] _]]; congruence. }
  destruct (mr_stat r) as [stat|] eqn:Es.
  2: { split; [done|]. intros [(? & _ & [_ (? & [= <-] & ? & ? & _)] & _)|[[_ (? & [= <-] & ? & ? & _)] _]]; congruence. }
  destruct (String.eqb_spec (mr_measure r) "ttft_ms") as [Em|Em]; cbn [andb].
  - destruct (bool_decide_reflect (stat ∈ ["p50"; "p90"; "p99"])) as [Hin|Hin].
    + split; [intros [= <-]; left; exists stat; split_and!; [done|done| |done]; exists r; by split_and!|].
      intros [(p & _ & [_ (? & [= <-] & _ & Hp & _)] & ->)|[[_ (? & [= <-] & Hm & _)] _]]; [|by rewrite Em in Hm].
      rewrite Es in Hp. by injection Hp as ->.
    + rewrite Em. cbn [String.eqb]. change (String.eqb "ttft_ms" "request_output_tps") with false. cbn [andb]. split; [done|].
      intros [(p & Hp & [_ (? & [= <-] & _ & Hs & _)] & _)|[[_ (? & [= <-] & Hm & _)] _]]; [|by rewrite Em in Hm].
      rewrite Es in Hs. by injection Hs as ->.
  - destruct (String.eqb_spec (mr_measure r) "request_output_tps") as [Em'|Em'], (String.eqb_spec stat "mean") as [Est|Est]; cbn [andb].
    1: split; [intros [= <-]; right; split; [split; [done|]; exists r; subst stat; by split_and!|done]|].
    1: by intros [(p & _ & [_ (? & [= <-] & ? & _)] & _)|[_ ->]].
    all: split; [done|]; intros [(p & _ & [_ (? & [= <-] & ? & _)] & _)|[[_ (? & [= <-] & ? & Hs & _)] _]]; congruence.
Qed.

Lemma latency_iff metric p :
  latency_metric metric p <-> p ∈ ["p50"; "p90"; "p99"] /\ leaf_of metric = "ttft_" +:+ p +:+ "_ms".
Proof.
  unfold latency_metric, leaf_of. split.
  - intros [Hp [Hr|Hk]]; (split; [done|]).
    + by rewrite (proj2 (measure_leaf_Some metric ("ttft_" +:+ p +:+ "_ms"))) by (left; by exists p).
    + assert (is_measure_ref ("ttft_" +:+ p +:+ "_ms") = false /\ has_dot ("ttft_" +:+ p +:+ "_ms") = false) as [Hm Hd]
        by (clear Hk; repeat (apply elem_of_cons in Hp as [->|Hp]; [by vm_compute|]); by apply not_elem_of_nil in Hp).
      rewrite (dotted_no_measure _ _ Hk Hm). by apply ends_with_key_iff.
  - intros [Hp Hleaf]. split; [done|].
    assert (has_dot ("ttft_" +:+ p +:+ "_ms") = false) as Hd
      by (clear Hleaf; repeat (apply elem_of_cons in Hp as [->|Hp]; [by vm_compute|]); by apply not_elem_of_nil in Hp).
    destruct (_measure_leaf metric) as [leaf|] eqn:E; cbn [default from_option id] in Hleaf.
    + subst leaf. left. apply measure_leaf_Some in E as [(p' & Hp' & Hr & Heq)|[_ Heq]].
      * assert (p = p') as ->; [|done]. clear Hr Hd.
        repeat (apply elem_of_cons in Hp as [->|Hp]); [..|by apply not_elem_of_nil in Hp];
          (repeat (apply elem_of_cons in Hp' as [->|Hp']); [..|by apply not_elem_of_nil in Hp']); done.
      * exfalso. clear Hd. repeat (apply elem_of_cons in Hp as [->|Hp]; [done|]). by apply not_elem_of_nil in Hp.
    + right. by apply ends_with_key_iff.
Qed.

Lemma rate_iff metric : rate_metric metric <-> leaf_of metric = "request_output_tps".
Proof.
  unfold rate_metric, leaf_of. split.
  - intros [Hr|Hk]; [by rewrite (proj2 (measure_leaf_Some metric "request_output_tps")) by (by right)|].
    destruct Hk as [->|(m & ->)]; [by vm_compute|].
    assert (_measure_leaf (m +:+ "." +:+ "request_output_tps") = None) as ->.
    { unfold _measure_leaf, is_measure_ref. rewrite has_dot_joined. by rewrite orb_true_r. }
    apply ends_with_key_iff; [done|]. right. by exists m.
  - destruct (_measure_leaf metric) as [leaf|] eqn:E; cbn [default from_option id]; [|intros ?; right; by apply ends_with_key_iff].
    intros ->. apply measure_leaf_Some in E as [(p & Hp & _ & Heq)|[? _]]; [|by left].
    exfalso. repeat (apply elem_of_cons in Hp as [->|Hp]; [done|]). by apply not_elem_of_nil in Hp.
Qed.

Lemma absolute_inj rule metric op limit metric' op' limit' :
  absolute_redline rule metric op limit -> absolute_redline rule metric' op' limit' ->
  metric = metric' /\ op = op' /\ limit = limit'.
Proof.
  intros [Hm Ho (v & Hv & Hl) _ _] [Hm' Ho' (v' & Hv' & Hl') _ _]. split_and!; [congruence|congruence|].
  assert (v = v') as <- by congruence. destruct v; try done; [by rewrite Hl, Hl'..|congruence].
Qed.

Lemma rule_of_absolute rule metric op limit : absolute_redline rule metric op limit ->
  rule_of (Mp rule) =
  if bool_decide (leaf_of metric ∈ TTFT_SUFFIXES) && bool_decide (op ∈ ["<="; "<"])
  then Some (TtftRule limit (percentile_of (leaf_of metric)))
  else if String.eqb (leaf_of metric) REQUEST_TPS_SUFFIX && bool_decide (op ∈ [">="; ">"])
  then Some (TpsRule limit) else None.
Proof.
  intros [Hm Ho (v & Hv & Hl) _ _]. unfold rule_of, text_at. rewrite Hm, Ho, Hv. cbv zeta.
  assert ((if doc_truthy (Sc (VStr metric)) then doc_str (Sc (VStr metric)) else "") = metric) as ->
    by (unfold doc_truthy, truthy; cbn [doc_str]; by destruct (String.eqb_spec metric "") as [->|]).
  assert (py_float (Sc v) = Some limit) as E by (destruct v; try done; unfold py_float, as_float; by rewrite Hl).
  cbn [mbind option_bind]. by rewrite E.
Qed.

Lemma rule_bounds rule metric op limit : absolute_redline rule metric op limit ->
  (forall x p, rule_of (Mp rule) = Some (TtftRule x p) <-> bounds_latency rule x p) /\
  (forall x, rule_of (Mp rule) = Some (TpsRule x) <-> bounds_rate rule x).
Proof.
  intros Ha. rewrite (rule_of_absolute _ _ _ _ Ha).
  assert (Hsuffix : forall p, p ∈ ["p50"; "p90"; "p99"] -> "ttft_" +:+ p +:+ "_ms" ∈ TTFT_SUFFIXES /\
            percentile_of ("ttft_" +:+ p +:+ "_ms") = p).
  { intros p Hp. repeat (apply elem_of_cons in Hp as [->|Hp]; [split; [apply (bool_decide_unpack _); by vm_compute|by vm_compute]|]).
    by apply not_elem_of_nil in Hp. }
  assert (Hlat : forall p, latency_metric metric p <-> leaf_of metric ∈ TTFT_SUFFIXES /\ p = percentile_of (leaf_of metric)).
  { intros p. rewrite latency_iff. split.
    - intros [Hp ->]. by destruct (Hsuffix p Hp) as [? ->].
    - intros [Hin ->]. unfold TTFT_SUFFIXES in Hin.
      repeat (apply elem_of_cons in Hin as [->|Hin]; [split; [apply (bool_decide_unpack _); by vm_compute|by vm_compute]|]).
      by apply not_elem_of_nil in Hin. }
  split; intros x; [intros p|].
  - split.
    + destruct (bool_decide_reflect (leaf_of metric ∈ TTFT_SUFFIXES)), (bool_decide_reflect (op ∈ ["<="; "<"])); cbn [andb].
      1: intros [= <- <-]; exists metric, op; split_and!; [done|by apply Hlat|done].
      all: by destruct (String.eqb _ _), (bool_decide (op ∈ [">="; ">"])).
    + intros (metric' & op' & Ha' & Hm & Ho). destruct (absolute_inj _ _ _ _ _ _ _ Ha Ha') as (<- & <- & <-).
      apply Hlat in Hm as [Hin ->].
      by rewrite (bool_decide_true (leaf_of metric ∈ TTFT_SUFFIXES)), (bool_decide_true (op ∈ ["<="; "<"])).
  - split.
    + destruct (bool_decide (leaf_of metric ∈ TTFT_SUFFIXES) && bool_decide (op ∈ ["<="; "<"])); [done|].
      destruct (String.eqb_spec (leaf_of metric) REQUEST_TPS_SUFFIX) as [E|], (bool_decide_reflect (op ∈ [">="; ">"])); cbn [andb]; try done.
      intros [= <-]. exists metric, op. split_and!; [done|by apply rate_iff|done].
    + intros (metric' & op' & Ha' & Hm%rate_iff & Ho). destruct (absolute_inj _ _ _ _ _ _ _ Ha Ha') as (<- & <- & <-).
      rewrite Hm. rewrite bool_decide_false by (apply (bool_decide_unpack _); by vm_compute). cbn [andb].
      change (String.eqb "request_output_tps" REQUEST_TPS_SUFFIX) with true. cbn [andb]. by rewrite bool_decide_true.
Qed.

Lemma omap_split {A B} (f : A -> option B) l before y after : omap f l = before ++ y :: after ->
  exists l1 x l2, l = l1 ++ x :: l2 /\ omap f l1 = before /\ f x = Some y.
Proof.
  revert before. induction l as [|x l IH]; intros before; cbn [omap list_omap]; [by destruct before|].
  destruct (f x) as [z|] eqn:E.
  - destruct before as [|b before]; intros [= -> H].
    + by exists [], x, l.
    + destruct (IH _ H) as (l1 & x' & l2 & -> & <- & ?). exists (x :: l1), x', l2. split_and!; try done. cbn. by rewrite E.
  - intros H. destruct (IH _ H) as (l1 & x' & l2 & -> & <- & ?). exists (x :: l1), x', l2. split_and!; try done. cbn. by rewrite E.
Qed.

(** What each rule of the gate was read off. *)
Lemma rules_read rules :
  Forall (fun rule => exists metric op limit, absolute_redline rule metric op limit) rules ->
  let read := omap rule_of (map Mp rules) in
  (forall x p, TtftRule x p ∈ read <-> exists rule, rule ∈ rules /\ bounds_latency rule x p) /\
  (forall x, TpsRule x ∈ read <-> exists rule, rule ∈ rules /\ bounds_rate rule x) /\
  Forall (fun r => positive (rule_limit r)) read.
Proof.
  intros Hall read. rewrite Forall_forall in Hall.
  assert (Hin : forall r, r ∈ read <-> exists rule, rule ∈ rules /\ rule_of (Mp rule) = Some r).
  { intros r. unfold read. rewrite list_elem_of_omap. split.
    - intros (d & (rule & -> & Hr)%list_elem_of_fmap & E). by exists rule.
    - intros (rule & Hr & E). exists (Mp rule). split; [|done]. apply list_elem_of_fmap. by exists rule. }
  split_and!.
  - intros x p. rewrite Hin. split; intros (rule & Hr & E); exists rule; (split; [done|]);
      destruct (Hall rule Hr) as (metric & op & limit & Ha); by apply (proj1 (rule_bounds _ _ _ _ Ha)).
  - intros x. rewrite Hin. split; intros (rule & Hr & E); exists rule; (split; [done|]);
      destruct (Hall rule Hr) as (metric & op & limit & Ha); by apply (proj2 (rule_bounds _ _ _ _ Ha)).
  - apply Forall_forall. intros r (rule & Hr & E)%Hin. destruct (Hall rule Hr) as (metric & op & limit & Ha).
    rewrite (rule_of_absolute _ _ _ _ Ha) in E. pose proof (rl_positive _ _ _ _ Ha).
    destruct (bool_decide _ && bool_decide _); [by injection E as <-|].
    destruct (String.eqb _ _ && bool_decide _); [by injection E as <-|done].
Qed.

Lemma tightest_fold rules :
  Forall (fun rule => exists metric op limit, absolute_redline rule metric op limit) rules ->
  tightest rules (foldl gate_step no_gate (omap rule_of (map Mp rules))).
Proof.
  intros Hall. destruct (rules_read rules Hall) as (Hl & Hr & Hpos).
  destruct (latency_fold _ Hpos) as [L1 L2]. destruct (rate_fold _ Hpos) as [R1 R2]. cbv zeta in *.
  set (read := omap rule_of (map Mp rules)) in *. set (g := foldl gate_step no_gate read) in *. split_and!.
  - intros rule x p Hin Hb. apply (L1 x p), Hl. by exists rule.
  - destruct L2 as [(before & after & E & Hb)|(Hno & Hz & Hp)].
    + left. unfold read in E. rewrite <- (app_nil_r (map Mp rules)) in E.
      apply omap_split in E as (l1 & d & l2 & E & Hbefore & Hd). rewrite app_nil_r in E.
      apply map_eq_app in E as (r1 & r2' & -> & <- & E2). apply map_eq_cons in E2 as (rule & r2 & -> & <- & <-).
      exists r1, rule, r2. split; [done|].
      assert (rule ∈ r1 ++ rule :: r2) as Hin by (apply elem_of_app; right; left).
      destruct (proj1 (Forall_forall _ _) Hall rule Hin) as (metric & op & limit & Ha).
      split; [by apply (proj1 (rule_bounds _ _ _ _ Ha))|].
      intros other x p Ho Hbo. apply (Hb x p). rewrite <- Hbefore. apply list_elem_of_omap. exists (Mp other).
      split; [apply list_elem_of_fmap; by exists other|].
      destruct (proj1 (Forall_forall _ _) Hall other) as (metric' & op' & limit' & Ha'); [apply elem_of_app; by left|].
      by apply (proj1 (rule_bounds _ _ _ _ Ha')).
    + right. split_and!; [|done|done]. intros rule x p Hin Hb. apply (Hno x p), Hl. by exists rule.
  - intros rule x Hin Hb. apply R1, Hr. by exists rule.
  - destruct R2 as [Hin|[Hno Hz]]; [left; by apply Hr|right]. split; [|done].
    intros rule x Hin Hb. apply (Hno x), Hr. by exists rule.
Qed.

(** C23: An objective whose redlines, listed under [redlines], each spell out
    their metric, their operator and an absolute limit that is a number above
    zero, makes a gate that is the tightest of them.  The latency limit is the
    lowest of the upper limits on a percentile (50, 90 or 99) of the time to
    the first token, named as a measure or by the benchmark's own key, at the
    percentile of the first redline that is so low; the rate is the highest of
    the lower limits on a request's mean rate; either is zero where no redline
    bounds it, and there is no gate exactly where none bounds either.  These
    are the redlines the objective ranks by.  Not covered: a redline under the
    older key, one that leaves its operator out, and one relative to
    production, which the gate and the ranking read differently
    ([gate_and_redlines_disagree]). *)
Theorem gate_is_the_tightest objective rules :
  dict_get "redlines" objective = Some (Ls (map Mp rules)) -> rules <> [] ->
  Forall (fun rule => exists metric op limit, absolute_redline rule metric op limit) rules ->
  redlines objective = rules /\
  match gate_from_objective objective with
  | Some g => tightest rules g /\
      exists rule, rule ∈ rules /\ ((exists x p, bounds_latency rule x p) \/ exists x, bounds_rate rule x)
  | None => forall rule, rule ∈ rules -> (forall x p, ~ bounds_latency rule x p) /\ forall x, ~ bounds_rate rule x
  end.
Proof.
  intros Hred Hne Hall. split.
  - unfold redlines, listed_under. rewrite Hred. destruct rules as [|r rules]; [done|].
    transitivity (map (fun d => sub_tree (Some d)) (map Mp (r :: rules))); [done|]. rewrite map_map. apply map_id.
  - unfold gate_from_objective. rewrite Hred. cbv zeta. pose proof (tightest_fold rules Hall) as Ht.
    set (g := foldl gate_step no_gate (omap rule_of (map Mp rules))) in *.
    assert (Hz : forall rule, rule ∈ rules -> (forall x p, bounds_latency rule x p -> f_eqb (gt_ttft_ms g) f_zero = false) /\
              (forall x, bounds_rate rule x -> f_eqb (gt_min_request_output_tps g) f_zero = false)).
    { destruct Ht as (_ & HL & _ & HR). intros rule Hin. split.
      - intros x p Hb. destruct HL as [(b & r & a & -> & (m & o & Ha & _) & _)|(Hno & _)]; [|by destruct (Hno rule x p)].
        apply positive_not_zero, (rl_positive _ _ _ _ Ha).
      - intros x Hb. destruct HR as [(r & _ & m & o & Ha & _)|(Hno & _)]; [|by destruct (Hno rule x)].
        apply positive_not_zero, (rl_positive _ _ _ _ Ha). }
    destruct (f_eqb (gt_ttft_ms g) f_zero) eqn:E1, (f_eqb (gt_min_request_output_tps g) f_zero) eqn:E2; cbn [andb].
    { intros rule Hin. destruct (Hz rule Hin) as [H1 H2]. split; [intros x p Hb; by specialize (H1 x p Hb)|intros x Hb; by specialize (H2 x Hb)]. }
    all: split; [done|]; destruct Ht as (_ & HL & _ & HR).
    + destruct HR as [(r & Hr & Hb)|(_ & Hzero)]; [exists r; split; [done|right; by eexists]|]. rewrite Hzero in E2. done.
    + destruct HL as [(b & r & a & -> & Hb & _)|(_ & Hzero & _)]; [|by rewrite Hzero in E1].
      exists r. split; [apply elem_of_app; right; left|left; by eexists _, _].
    + destruct HL as [(b & r & a & -> & Hb & _)|(_ & Hzero & _)]; [|by rewrite Hzero in E1].
      exists r. split; [apply elem_of_app; right; left|left; by eexists _, _].
Qed.

(** ** Objectives the gate and the verdict read differently *)
Definition ttft_redline (extra : tree) : doc :=
  Mp ([("metric", Sc (VStr "ttft_ms@p99")); ("value", Sc (VInt 200))] ++ extra).

(** The old key, an operator left to its default, and a limit relative to
    production: held by the verdict, and no gate or another one. *)
Example gate_and_redlines_disagree :
  gate_from_objective [("constraints", Ls [ttft_redline [("op", Sc (VStr "<="))]])] = None /\
  length (redlines [("constraints", Ls [ttft_redline [("op", Sc (VStr "<="))]])]) = 1%nat /\
  gate_from_objective [("redlines", Ls [ttft_redline []])] = None /\
  op_of (sub_tree (Some (ttft_redline []))) = "<=" /\
  gt_ttft_ms <$> gate_from_objective [("redlines", Ls [ttft_redline [("op", Sc (VStr "<=")); ("relative_to", Sc (VStr "production"))]])]
    = Some (f_of_Z 200).
Proof. vm_compute. done. Qed.

(** ** Resolving *)
Definition one_key (objective : tree) : Prop :=
  dict_has "redlines" objective = true -> is_Some (listed_under "redlines" objective).

Lemma redlines_key objective : one_key objective -> redlines objective <> [] ->
  let key := if dict_has "redlines" objective then "redlines" else "constraints" in
  exists l, l <> [] /\ dict_get key objective = Some (Ls l) /\ redlines objective = map (fun d => sub_tree (Some d)) l /\
    forall l', l' <> [] ->
      redlines (dict_set key (Ls l') objective) = map (fun d => sub_tree (Some d)) l'.
Proof.
  intros Hkey Hne. unfold redlines, one_key in *. rewrite !dict_has_get in *. cbv zeta.
  unfold listed_under in *. destruct (bool_decide_reflect (is_Some (dict_get "redlines" objective))) as [Hr|Hr].
  - destruct Hkey as [l0 Hl0]; [done|].
    destruct (dict_get "redlines" objective) as [[|[|d l]|]|]; try done.
    exists (d :: l). split; [done|]. split; [done|]. split; [done|].
    intros l' Hl'. rewrite dict_get_set, String.eqb_refl. by destruct l'.
  - assert (dict_get "redlines" objective = None) as E by (by destruct (dict_get "redlines" objective); [destruct Hr; eexists|]).
    rewrite E in *. destruct (dict_get "constraints" objective) as [[|[|d l]|]|] eqn:Ec; try done.
    exists (d :: l). split; [done|]. split; [done|]. split; [done|].
    intros l' Hl'. rewrite !dict_get_set. change (String.eqb "redlines" "constraints") with false. cbv iota.
    rewrite E, String.eqb_refl. by destruct l'.
Qed.

Lemma resolved_redlines objective scores : one_key objective ->
  redlines (resolve_objective objective scores) = map (resolve_redline scores) (redlines objective).
Proof.
  intros Hkey. unfold resolve_objective. destruct (relative_redlines objective) as [|r0 rs] eqn:Erel.
  - unfold relative_redlines in Erel. rewrite where_nil in Erel.
    rewrite <- (map_id (redlines objective)) at 1. apply map_ext_in. intros r Hr%list_elem_of_In.
    unfold resolve_redline. by rewrite (Erel r Hr).
  - assert (redlines objective <> []) as Hne by (intros E; unfold relative_redlines in Erel; by rewrite E in Erel).
    destruct (redlines_key objective Hkey Hne) as (l & Hl & Hget & Hred & Hset). rewrite Hget. cbn [sub_list].
    rewrite Hset by (by destruct l). rewrite Hred, !map_map. apply map_ext. by intros d.
Qed.

Lemma relative_is_truthy r : is_relative r = true -> is_Some (relative_to r).
Proof. unfold is_relative, relative_to. intros ->%bool_decide_eq_true. by eexists. Qed.

Lemma resolved_redline scores r m base : is_relative r = true -> metric_of r = Some m -> dict_get m scores = Some base ->
  let r' := resolve_redline scores r in
  relative_to r' = None /\ metric_of r' = Some m /\ op_of r' = op_of r /\
  dict_get "value" r' = Some (Sc (VFloat (f_round (f_add base (offset_of r)) 6))).
Proof.
  intros Hrel Hm Hs r'. subst r'. unfold resolve_redline. rewrite Hrel, Hm. cbn [mbind option_bind]. rewrite Hs.
  unfold relative_to, metric_of, op_of in *. cbv zeta. rewrite !dict_get_set, !dict_get_pop.
  change (String.eqb "relative_to" "basis") with false. change (String.eqb "relative_to" "value") with false.
  change (String.eqb "metric" "basis") with false. change (String.eqb "metric" "value") with false.
  change (String.eqb "op" "basis") with false. change (String.eqb "op" "value") with false.
  change (String.eqb "value" "basis") with false. rewrite !String.eqb_refl.
  change (String.eqb "metric" "relative_to") with false. change (String.eqb "op" "relative_to") with false.
  cbv iota. split; [done|]. split; [exact Hm|]. done.
Qed.

(** Judged once production has been measured, a configuration is held to production's own score: each
    redline relative to it is crossed or not by the run's measurement against that score plus the
    redline's offset, and one on a metric production has no score on is crossed; absolute redlines are
    judged as they stand. *)
Theorem judged_against_production k rows objective get : one_key objective ->
  let scores := production_scores k rows (needed objective) in
  holds_redlines get (resolve_objective objective scores) = true <->
  forall r, r ∈ redlines objective ->
    if is_relative r then
      exists m base compare actual,
        metric_of r = Some m /\ m <> "" /\ dict_get m scores = Some base /\ OPERATORS (op_of r) = Some compare /\
        present (get m) = Some actual /\
        compare actual (Sc (VFloat (f_round (f_add base (offset_of r)) 6))) = Some true
    else redline_holds get r.
Proof.
  intros Hkey scores. unfold holds_redlines, evaluate_redlines. rewrite resolved_redlines by done.
  rewrite map_map, forallb_forall. split.
  - intros H r Hr. specialize (H (evaluate_redline get (resolve_redline scores r))).
    assert (rl_ok (evaluate_redline get (resolve_redline scores r)) = true) as Hok
      by (apply H, list_elem_of_In; by apply (list_elem_of_fmap_2 (fun r => evaluate_redline get (resolve_redline scores r)))).
    apply ok_holds in Hok. destruct (is_relative r) eqn:Hrel.
    + destruct (metric_of r) as [m|] eqn:Hm; [destruct (dict_get m scores) as [base|] eqn:Hs|].
      * destruct (resolved_redline scores r m base Hrel Hm Hs) as (_ & Hm' & Hop & Hv).
        destruct Hok as (_ & compare & m' & limit & actual & Hc & E & Hne & Hl & Ha & Ht).
        rewrite Hm' in E. injection E as <-. rewrite Hop in Hc. rewrite Hv in Hl. injection Hl as <-.
        by exists m, base, compare, actual.
      * unfold resolve_redline in Hok. rewrite Hrel, Hm in Hok. cbn [mbind option_bind] in Hok. rewrite Hs in Hok.
        destruct Hok as [Hok _]. apply relative_is_truthy in Hrel as [d Hd]. by rewrite Hok in Hd.
      * unfold resolve_redline in Hok. rewrite Hrel, Hm in Hok. cbn [mbind option_bind] in Hok.
        destruct Hok as [Hok _]. apply relative_is_truthy in Hrel as [d Hd]. by rewrite Hok in Hd.
    + unfold resolve_redline in Hok. by rewrite Hrel in Hok.
  - intros H x Hx. apply list_elem_of_In, list_elem_of_fmap in Hx as (r & -> & Hr). apply ok_holds.
    specialize (H r Hr). destruct (is_relative r) eqn:Hrel.
    + destruct H as (m & base & compare & actual & Hm & Hne & Hs & Hc & Ha & Ht).
      destruct (resolved_redline scores r m base Hrel Hm Hs) as (Hrt & Hm' & Hop & Hv).
      split; [done|]. exists compare, m, (Sc (VFloat (f_round (f_add base (offset_of r)) 6))), actual.
      rewrite Hop, Hm', Hv. done.
    + unfold resolve_redline. by rewrite Hrel.
Qed.

(** ** Judging again *)
Lemma production_values_ext k rows rows' metric :
  map (fun r => (jd_candidate r, jd_get r)) rows = map (fun r => (jd_candidate r, jd_get r)) rows' ->
  production_values k rows metric = production_values k rows' metric.
Proof.
  revert rows'. induction rows as [|r rows IH]; intros [|r' rows'] H; try done. injection H as Hc Hg Hrest.
  specialize (IH rows' Hrest). unfold production_values in *. cbn [omap list_omap]. rewrite Hc, Hg.
  cbn [omap] in IH. by rewrite IH.
Qed.

Lemma judge_ext k rows rows' objective get :
  map (fun r => (jd_candidate r, jd_get r)) rows = map (fun r => (jd_candidate r, jd_get r)) rows' ->
  judge_result k rows objective get = judge_result k rows' objective get.
Proof.
  intros H. unfold judge_result. f_equal. f_equal. unfold production_scores.
  generalize (@nil (string * float)) as out. induction (needed objective) as [|m ms IH]; intros out; cbn; [done|].
  rewrite (production_values_ext k rows rows' m H). apply IH.
Qed.

Lemma rescored_keeps k obj rows row :
  jd_run (rescore_row k obj rows row).1 = jd_run row /\
  jd_candidate (rescore_row k obj rows row).1 = jd_candidate row /\
  jd_get (rescore_row k obj rows row).1 = jd_get row.
Proof. unfold rescore_row. destruct (relative_redlines _); [done|]. by destruct (_ && _). Qed.

Lemma rescored_rows_same k obj rows :
  map (fun r => (jd_candidate r, jd_get r)) (map (rescore_row k obj rows) rows).*1
  = map (fun r => (jd_candidate r, jd_get r)) rows.
Proof.
  change ((map (rescore_row k obj rows) rows).*1) with (map fst (map (rescore_row k obj rows) rows)).
  rewrite !map_map. apply map_ext. intros r. destruct (rescored_keeps k obj rows r) as (_ & -> & ->). done.
Qed.

Lemma rescore_row_again k obj rows rows' row :
  map (fun r => (jd_candidate r, jd_get r)) rows' = map (fun r => (jd_candidate r, jd_get r)) rows ->
  rescore_row k obj rows' (rescore_row k obj rows row).1 = ((rescore_row k obj rows row).1, false).
Proof.
  intros Hsame. destruct (rescored_keeps k obj rows row) as (Hrun & Hcd & Hget).
  unfold rescore_row at 1. rewrite Hrun, Hget, (judge_ext k rows' rows) by done.
  unfold rescore_row. destruct (relative_redlines (obj (jd_run row))) as [|r0 rs]; [done|].
  set (s := judge_result k rows (obj (jd_run row)) (jd_get row)).
  destruct (Bool.eqb (su_feasible s) (jd_feasible row) && bool_decide (su_breaches s = jd_breaches row)) eqn:E; cbn [fst].
  - by rewrite E.
  - match goal with |- context [jd_feasible ?x] =>
      change (jd_feasible x) with (su_feasible s); change (jd_breaches x) with (su_breaches s) end.
    by rewrite Bool.eqb_reflx, bool_decide_eq_true_2.
Qed.

(** Judging a campaign's results again settles in one pass: a second pass changes no result and no
    trial.  The first one touches only what a run was found to be (value, feasibility, slacks and
    breaches), only on results that a redline relative to production holds, and leaves them as judging
    them afresh would. *)
Theorem rescore_settles k obj rows ts :
  let '(rows', ts', _) := rescore k obj rows ts in
  rescore k obj rows' ts' = (rows', ts', 0) /\
  Forall2 (fun row row' =>
    jd_run row' = jd_run row /\ jd_candidate row' = jd_candidate row /\ jd_get row' = jd_get row /\
    (relative_redlines (obj (jd_run row)) = [] -> row' = row) /\
    (relative_redlines (obj (jd_run row)) <> [] ->
     jd_feasible row' = su_feasible (judge_result k rows (obj (jd_run row)) (jd_get row)) /\
     jd_breaches row' = su_breaches (judge_result k rows (obj (jd_run row)) (jd_get row)))) rows rows'.
Proof.
  unfold rescore at 1. cbv zeta. set (rows' := (map (rescore_row k obj rows) rows).*1). set (ts' := foldl _ _ _). split.
  - assert (map (rescore_row k obj rows') rows' = map (fun r => (r, false)) rows') as Hrows.
    { subst rows'. change ((map (rescore_row k obj rows) rows).*1) with (map fst (map (rescore_row k obj rows) rows)).
      rewrite !map_map. apply map_ext. intros r. apply rescore_row_again.
      rewrite <- (map_map (rescore_row k obj rows) fst). apply rescored_rows_same. }
    unfold rescore. rewrite Hrows. cbv zeta.
    assert (forall l : list judged, foldl rescored_trial ts' (map (fun r => (r, false)) l) = ts') as Hts
      by (induction l; [done|]; cbn; done).
    assert (forall l : list judged, where_ (fun r : judged * bool => r.2) (map (fun r => (r, false)) l) = []) as Hw
      by (intros l; apply where_nil; intros x (r & -> & _)%list_elem_of_fmap; done).
    assert (forall l : list judged, (map (fun r => (r, false)) l).*1 = l) as Hf
      by (intros l; induction l as [|r l IH]; [done|]; cbn; by f_equal).
    by rewrite Hts, Hw, Hf.
  - subst rows'. clear ts'. apply Forall2_fmap_r, Forall2_fmap_r, Forall_Forall2_diag, Forall_forall. intros row _.
    destruct (rescored_keeps k obj rows row) as (H1 & H2 & H3). split; [done|]. split; [done|]. split; [done|].
    unfold rescore_row. destruct (relative_redlines (obj (jd_run row))) as [|r0 rs]; [split; done|].
    split; [done|]. intros _. cbv zeta.
    destruct (Bool.eqb _ _ && _) eqn:E; [|done]. cbn [fst].
    apply andb_true_iff in E as [E1%eqb_prop E2%bool_decide_eq_true]. done.
Qed.

(** ** An objective with limits of its own and a floor at production's score *)
Definition sample_floor : tree := default [] (head (quality_floor ["mmlu"] (f_of_ratio 1 100))).
Definition sample_floored : tree :=
  [("target_metric", Sc (VStr "perf_guidellm/output_tpm"));
   ("redlines", Ls [ttft_redline [("op", Sc (VStr "<="))];
                    Mp [("metric", Sc (VStr "ttft_ms@p90")); ("op", Sc (VStr "<")); ("value", Sc (VInt 120))];
                    Mp sample_floor])].

(** Two limits on the latency and one on the rate, the last by the key of a
    benchmark. *)
Definition sample_rules : list tree :=
  [[("metric", Sc (VStr "ttft_ms@p99")); ("op", Sc (VStr "<=")); ("value", Sc (VInt 200))];
   [("metric", Sc (VStr "perf_sweep.ttft_p90_ms")); ("op", Sc (VStr "<")); ("value", Sc (VInt 120))];
   [("metric", Sc (VStr "perf_sweep.request_output_tps")); ("op", Sc (VStr ">=")); ("value", Sc (VFloat (f_of_Z 30)))]].
Definition sample_gated : tree := [("redlines", Ls (map Mp sample_rules))].

Lemma gate_is_the_tightest_witness :
  gate_from_objective sample_gated = Some (mkGate (f_of_Z 120) "p90" (f_of_Z 30)) /\
  tightest sample_rules (mkGate (f_of_Z 120) "p90" (f_of_Z 30)).
Proof.
  assert (gate_from_objective sample_gated = Some (mkGate (f_of_Z 120) "p90" (f_of_Z 30))) as E by (by vm_compute).
  split; [exact E|].
  pose proof (gate_is_the_tightest sample_gated sample_rules eq_refl ltac:(done)) as Ht. rewrite E in Ht. apply Ht.
  repeat constructor.
  - exists "ttft_ms@p99", "<=", (f_of_Z 200). split; [reflexivity|reflexivity|by exists (VInt 200)|reflexivity|vm_compute; reflexivity].
  - exists "perf_sweep.ttft_p90_ms", "<", (f_of_Z 120). split; [reflexivity|reflexivity|by exists (VInt 120)|reflexivity|vm_compute; reflexivity].
  - exists "perf_sweep.request_output_tps", ">=", (f_of_Z 30). split; [reflexivity|reflexivity|by exists (VFloat (f_of_Z 30))|reflexivity|vm_compute; reflexivity].
Defined.

(** Production scored 0.8, and the run 0.795: within the drop that is allowed. *)
Lemma judged_against_production_witness :
  let k := mkCampaignRecipe None sample_fields in
  let production := mkJudged 1 ((sample_candidate 1 4 Exhausted) <| cd_is_baseline := true |>)
    (fun _ => Some (Sc (VFloat (f_of_ratio 8 10)))) None true None [] in
  let get := fun m => if String.eqb m (floor_metric "mmlu") then Some (Sc (VFloat (f_of_ratio 795 1000))) else Some (Sc (VInt 100)) in
  let scores := production_scores k [production] (needed sample_floored) in
  one_key sample_floored /\
  holds_redlines get (resolve_objective sample_floored scores) = true /\
  exists m base compare actual,
    metric_of sample_floor = Some m /\ m <> "" /\ dict_get m scores = Some base /\
    OPERATORS (op_of sample_floor) = Some compare /\ present (get m) = Some actual /\
    compare actual (Sc (VFloat (f_round (f_add base (offset_of sample_floor)) 6))) = Some true.
Proof.
  intros k production get scores. assert (one_key sample_floored) as H1 by (intros _; by eexists).
  assert (holds_redlines get (resolve_objective sample_floored scores) = true) as Hh by by vm_compute.
  split; [done|]. split; [done|].
  pose proof (proj1 (judged_against_production k [production] sample_floored get H1) Hh sample_floor) as H.
  change (is_relative sample_floor) with true in H. apply H.
  apply list_elem_of_lookup_2 with 2%nat. by vm_compute.
Defined.
