(* ===== verification/Hardware.v ===== *)
(** Card types ([hardware.py]): one vocabulary, and the function that puts what
    a cluster or a person calls a card into it.  Texts are ASCII. *)
From Stdlib Require Import Ascii.
From S2P Require Import Prelude Float Values Texts Documents Measures.
#[local] Open Scope string_scope.
#[local] Open Scope list_scope.
#[local] Open Scope Z_scope.

Definition GPU_TYPES : list string :=
  ["A100"; "A800"; "H100"; "H800"; "H200"; "H20"; "B200"; "B300"; "ASCEND-910B4-1"].

Definition has_prefix (w l : list ascii) : bool := bool_decide (take (length w) l = w).

(** [s.replace(needle, by)], of a needle that is not empty; [skip]: how many
    characters of an occurrence are left. *)
Fixpoint replace_from (needle by_ : list ascii) (skip : nat) (l : list ascii) : list ascii :=
  match l with
  | [] => []
  | c :: l' =>
      match skip with
      | S k => replace_from needle by_ k l'
      | O =>
          if has_prefix needle l then by_ ++ replace_from needle by_ (length needle - 1) l'
          else c :: replace_from needle by_ 0 l'
      end
  end.
Definition replace_text (needle by_ s : string) : string :=
  of_chars (replace_from (chars needle) (chars by_) 0 (chars s)).

Definition upper (s : string) : string := of_chars (map to_upper (chars s)).

(** [[A-Z0-9]]. *)
Definition model_char (c : ascii) : bool := is_upper c || is_digit c.

(** [(?<![A-Z0-9])word(?![A-Z0-9])]; [inside]: the character before is one of
    the class. *)
Fixpoint stands_in (word : list ascii) (inside : bool) (l : list ascii) : bool :=
  (negb inside && has_prefix word l
   && match drop (length word) l with c :: _ => negb (model_char c) | [] => true end)
  || match l with [] => false | c :: l' => stands_in word (model_char c) l' end.

Definition ASCEND_NAMES : list string :=
  ["910B4-1"; "ASCEND910B4-1"; "ASCEND 910B4-1"; "HUAWEI-ASCEND910B4-1"].

Definition normalize_gpu_type (raw : string) : string :=
  if String.eqb raw "" then ""
  else
    let s := replace_text "_" "-" (replace_text "NVIDIA " "" (replace_text "NVIDIA-" "" (upper raw))) in
    if bool_decide (s ∈ ASCEND_NAMES) then "ASCEND-910B4-1"
    else default "" (List.find (fun gpu => stands_in (chars gpu) false (chars s)) GPU_TYPES).

Definition _HARDWARE_TAGS : list (string * list string) :=
  [("A100", ["nvidia"; "ampere"]); ("A800", ["nvidia"; "ampere"]); ("H100", ["nvidia"; "hopper"]);
   ("H800", ["nvidia"; "hopper"]); ("H200", ["nvidia"; "hopper"]); ("H20", ["nvidia"; "hopper"]);
   ("B200", ["nvidia"; "blackwell"]); ("B300", ["nvidia"; "blackwell"]); ("ASCEND-910B4-1", ["npu"; "ascend"])].
Definition hardware_tags (gpu_type : string) : list string :=
  default [] (dict_get (normalize_gpu_type gpu_type) _HARDWARE_TAGS).

Definition is_known_gpu_type (value : string) : bool := bool_decide (value ∈ GPU_TYPES).

(** [inl]: the value the request is refused for. *)
Definition coerce_gpu_type (raw : string) : string + string :=
  if String.eqb (strip raw) "" then inr ""
  else
    let canonical := normalize_gpu_type raw in
    if String.eqb canonical ""
    then inl ("unknown GPU type " +:+ str_repr raw +:+ "; expected one of " +:+ comma_join GPU_TYPES
              +:+ " (or empty for any card)")
    else inr canonical.

(** ** What a card is called *)
Lemma normalize_in raw : normalize_gpu_type raw = "" \/ normalize_gpu_type raw ∈ GPU_TYPES.
Proof.
  unfold normalize_gpu_type. destruct (String.eqb raw ""); [by left|]. cbv zeta. case_bool_decide.
  - right. apply list_elem_of_In. vm_compute. tauto.
  - destruct (List.find _ GPU_TYPES) as [g|] eqn:E; [|by left]. right. apply find_some in E as [E _].
    by apply list_elem_of_In.
Qed.

(** A card type that was put into the vocabulary is one of its names, or empty where nothing fits;
    putting it in again changes nothing, and the names themselves stay what they are.  A known card has
    a vendor and an architecture. *)
Theorem card_types_are_settled raw :
  (normalize_gpu_type raw = "" \/ is_known_gpu_type (normalize_gpu_type raw) = true) /\
  normalize_gpu_type (normalize_gpu_type raw) = normalize_gpu_type raw /\
  (forall g, g ∈ GPU_TYPES -> normalize_gpu_type g = g /\ length (hardware_tags g) = 2%nat) /\
  (forall g, coerce_gpu_type raw = inr g -> g = "" \/ is_known_gpu_type g = true).
Proof.
  assert (forall g, g ∈ GPU_TYPES -> normalize_gpu_type g = g /\ length (hardware_tags g) = 2%nat) as Hall.
  { intros g Hg%list_elem_of_In. repeat (destruct Hg as [<-|Hg]; [by vm_compute|]). destruct Hg. }
  split; [|split; [|split; [done|]]].
  - destruct (normalize_in raw); [by left|right]. by apply bool_decide_eq_true.
  - destruct (normalize_in raw) as [->|H]; [done|]. by apply Hall.
  - intros g. unfold coerce_gpu_type. destruct (String.eqb (strip raw) ""); [intros [= <-]; by left|]. cbv zeta.
    destruct (String.eqb_spec (normalize_gpu_type raw) "") as [|Hne]; [done|]. intros [= <-]. right.
    apply bool_decide_eq_true. by destruct (normalize_in raw).
Qed.

Example cluster_labels :
  map normalize_gpu_type ["NVIDIA-H100-80GB-HBM3"; "A100-SXM4-80GB"; "a1000"; "H200"; "nvidia_h20"; "Huawei_Ascend910B4-1"; "RTX"]
  = ["H100"; "A100"; ""; "H200"; "H20"; "ASCEND-910B4-1"; ""].
Proof. vm_compute. reflexivity. Qed.
