(* ===== verification/Leaderboard.v ===== *)
(** Who is winning ([evaluation/ranking.py], [staging.py:objective]): the
    entries of a campaign's leaderboard, the order they are ranked in, and the
    winner an operator and the promotion both take.

    A row is a succeeded run with its candidate and its LLMBench result.  The
    two objectives of a campaign, which [Model.campaign] leaves out, come with
    it; scores are no NaN. *)
From Stdlib Require Import Ascii SpecFloat.
From S2P Require Import Failures Logs Model States Packing Timing World Samples Occupancy Fleet Exclusive Finish Placement Nights.
From S2P Require Import Reserve Queue Pass Runs.
From S2P Require Import Prelude Float Values Texts Documents Space Validation.
From S2P Require Import Measures Adapters Harvest Readings Objectives Judgement Hardware.
#[local] Open Scope string_scope.
#[local] Open Scope list_scope.
#[local] Open Scope Z_scope.

Record objectives := mkObjectives { ob_objective : tree; ob_verify_objective : tree }.

Definition stage_objective (REPLAY : string) (c : campaign) (o : objectives) (stage : Stage) : tree :=
  if (stage == VERIFY) && negb (String.eqb (c_verify_benchmark_slug c) "")
  then dict_update [("target_metric", Sc (VStr (DEFAULT_VERIFY_TARGET_METRIC REPLAY)))] (ob_verify_objective o)
  else ob_objective o.

Record board_row := mkRow {
  br_run : Z;
  br_snapshot : tree;
  br_candidate : candidate;
  br_metrics : gmap string scalar;
  br_get : string -> option doc;
  br_stored : stored_summary;
  br_score : option doc }.

Definition score_of (row : board_row) (s : ResultSummary) : option float :=
  match su_objective_value s with
  | Some x => Some x
  | None =>
      match br_score row with
      | Some (Sc v) => num_float <$> num_of v
      | _ => None
      end
  end.

Definition card_type_of (row : board_row) : string :=
  normalize_gpu_type
    (match truthy_text (dict_get "card_type" (br_snapshot row)) with
     | Some s => s
     | None => default "" (truthy_text (dict_get "machine_gpu_type" (br_snapshot row)))
     end).

Record LeaderboardEntry := mkEntry {
  le_run_id : Z;
  le_config : config;
  le_score : option float;
  le_holds_redlines : bool;
  le_breaches : list string;
  le_stage : Stage;
  le_target_metric : string;
  le_comparable : bool;
  le_dataset_build_id : string;
  le_vs_baseline : option float;
  le_is_baseline : bool;
  le_card_type : string }.

(** [a == b] on dicts. *)
Definition config_eq (a b : config) : bool :=
  bool_decide (dom a = dom b)
  && forallb (fun kv => match b !! kv.1 with Some w => py_eq kv.2 w | None => false end) (map_to_list a).

Section board.
Context (REPLAY : string) (c : campaign) (o : objectives).

Definition summary_at (row : board_row) : ResultSummary :=
  summary_of (Some (br_stored row, br_get row)) (stage_objective REPLAY c o (stage_of (br_candidate row))).
Definition row_score (row : board_row) : option float := score_of row (summary_at row).

Definition _production_configs (rows : list board_row) : list config :=
  let configs :=
    omap (fun row =>
      let cd := br_candidate row in
      if is_baseline_candidate cd && (negb (bool_decide (cd_config cd = ∅)) || c_has_recipe c)
         && negb (is_baseline_config (cd_config cd))
      then Some (cd_config cd) else None) rows in
  match configs with
  | [] =>
      if bool_decide (is_Some (c_policy_id c)) then
        if negb (bool_decide (s_base (c_search_space c) = ∅)) || c_has_recipe c
        then [prune_inactive (s_base (c_search_space c)) (c_search_space c)] else []
      else []
  | _ => configs
  end.

Definition is_reference (production : list config) (cd : candidate) : bool :=
  is_baseline_candidate cd || (negb (stage_of cd == VERIFY) && existsb (config_eq (cd_config cd)) production).

(** The references of a stage: what each scored, and on which card. *)
Definition measured_at (rows : list board_row) (stage : Stage) : list (float * string) :=
  let production := _production_configs rows in
  omap (fun row =>
    if is_reference production (br_candidate row) && (stage_of (br_candidate row) == stage)
    then match num_or (row_score row) None with Some x => Some (x, card_type_of row) | None => None end
    else None) rows.

Definition count_of (card : string) (cards : list string) : nat := length (where_ (String.eqb card) cards).
(** [max(dict.fromkeys(cards), key=cards.count)]. *)
Definition commonest (cards : list string) : option string :=
  min_by (fun a b => (count_of b cards <? count_of a cards)%nat) (reverse (remove_dups (reverse cards))).

(** The reference of a stage: the mean of the measurements on the card most of
    them used, and that card. *)
Definition baseline_at (rows : list board_row) (stage : Stage) : option (float * string) :=
  let values := measured_at rows stage in
  match commonest values.*2 with
  | Some card => Some (f_mean (map fst (where_ (fun v => String.eqb v.2 card) values)), card)
  | None => None
  end.
Definition reference_card (rows : list board_row) (stage : Stage) : string :=
  match baseline_at rows stage with Some (_, card) => card | None => "" end.

Definition on_another_card (rows : list board_row) (stage : Stage) (card : string) : bool :=
  let ref := reference_card rows stage in
  negb (String.eqb card "") && negb (String.eqb ref "") && negb (String.eqb card ref).

Definition entry_of (rows : list board_row) (row : board_row) : LeaderboardEntry :=
  let cd := br_candidate row in
  let stage := stage_of cd in
  let s := summary_at row in
  let score := row_score row in
  let card := card_type_of row in
  let reference := if on_another_card rows stage card then None else fst <$> baseline_at rows stage in
  mkEntry (br_run row) (cd_config cd) score (bool_decide (su_breaches s = [])) (su_breaches s) stage
    (target_metric (stage_objective REPLAY c o stage))
    (bool_decide (mismatch c (br_metrics row) = None))
    (match dataset_of (br_metrics row) with Some (build, _) => build | None => "" end)
    (match num_or reference None, score with Some r, Some x => Some (f_div x r) | _, _ => None end)
    (is_reference (_production_configs rows) cd) card.

Definition _rank_value (e : LeaderboardEntry) : option float :=
  match le_vs_baseline e with Some x => Some x | None => le_score e end.

Definition rank_key (rows : list board_row) (e : LeaderboardEntry) : list Z * float :=
  let '(missing, value) := sort_key REPLAY (_rank_value e) (stage_objective REPLAY c o (le_stage e)) in
  (map bool_int [negb (le_stage e == VERIFY); negb (le_comparable e); on_another_card rows (le_stage e) (le_card_type e);
                 negb (le_holds_redlines e); missing], value).

(** Tuples compare left to right. *)
Definition ranked_before (rows : list board_row) (a b : LeaderboardEntry) : bool :=
  let ka := rank_key rows a in
  let kb := rank_key rows b in
  tuple_lt ka.1 kb.1 || (bool_decide (ka.1 = kb.1) && f_ltb ka.2 kb.2).

Definition leaderboard_entries (rows : list board_row) : list LeaderboardEntry :=
  sort_by (ranked_before rows) (map (entry_of rows) rows).
End board.

Definition winner (entries : list LeaderboardEntry) : option LeaderboardEntry :=
  List.find (fun e => negb (le_is_baseline e)) entries.

(** ** The order *)
Lemma tuple_lt_app a b k l : length a = length b ->
  tuple_lt (a ++ k) (b ++ l) = tuple_lt a b || (bool_decide (a = b) && tuple_lt k l).
Proof.
  revert b. induction a as [|x a IH]; intros [|y b]; cbn [app length tuple_lt]; try done; intros Hl.
  rewrite IH by lia. destruct (Z.eqb_spec x y) as [->|Hxy]; cbn.
  - rewrite Z.ltb_irrefl. cbn. f_equal. f_equal. apply bool_decide_ext. naive_solver.
  - rewrite (bool_decide_eq_false_2 (x :: a = y :: b)) by naive_solver. by rewrite !orb_false_r.
Qed.

Lemma f_ltb_opp x y : f_ltb (f_opp x) (f_opp y) = f_ltb y x.
Proof.
  unfold f_ltb, SFltb, f_opp, SFopp.
  destruct x as [s|[]| |[] m e], y as [s'|[]| |[] m' e']; simpl; try done; try (by destruct s'); try (by destruct s).
  all: change (PosDef.Pos.compare_cont Eq m m') with (m ?= m')%positive.
  all: change (PosDef.Pos.compare m m') with (m ?= m')%positive.
  all: change (PosDef.Pos.compare_cont Eq m' m) with (m' ?= m)%positive.
  all: change (PosDef.Pos.compare m' m) with (m' ?= m)%positive.
  all: rewrite (Z.compare_antisym e e'), (Pos.compare_antisym m m').
  all: by destruct (e ?= e'), (m ?= m')%positive.
Qed.

Lemma number_opp x : is_number (f_opp x) = is_number x.
Proof. by destruct x. Qed.

Section order.
Context (REPLAY : string) (c : campaign) (o : objectives) (rows : list board_row).

Definition numeric (e : LeaderboardEntry) : Prop := forall x, _rank_value e = Some x -> is_number x = true.

Definition entry_key (e : LeaderboardEntry) : list Z :=
  (rank_key REPLAY c o rows e).1 ++ f_key (rank_key REPLAY c o rows e).2.

Lemma rank_key_length e : length (rank_key REPLAY c o rows e).1 = 5%nat.
Proof. unfold rank_key. by destruct (sort_key _ _ _). Qed.

Lemma rank_key_number e : numeric e -> is_number (rank_key REPLAY c o rows e).2 = true.
Proof.
  unfold numeric, rank_key, sort_key. intros He. destruct (_rank_value e) as [x|]; [|done]. cbn.
  destruct (minimizing _ _); rewrite ?number_opp; by apply He.
Qed.

Lemma ranked_by_key a b : numeric a -> numeric b ->
  ranked_before REPLAY c o rows a b = tuple_lt (entry_key a) (entry_key b).
Proof.
  intros Ha Hb. unfold ranked_before, entry_key. rewrite tuple_lt_app by by rewrite !rank_key_length.
  cbv zeta. by rewrite f_ltb_key by by apply rank_key_number.
Qed.

(** The board lists every row, in an order nothing contradicts. *)
Lemma board_sorted : Forall numeric (map (entry_of REPLAY c o rows) rows) ->
  let board := leaderboard_entries REPLAY c o rows in
  board ≡ₚ map (entry_of REPLAY c o rows) rows /\
  StronglySorted (fun a b => ranked_before REPLAY c o rows b a = false) board.
Proof.
  intros Hn board. unfold board, leaderboard_entries.
  rewrite (sort_by_ext _ (key_before entry_key)).
  2: { intros x y Hx Hy. rewrite Forall_forall in Hn. apply ranked_by_key; by apply Hn. }
  split; [apply sort_by_perm|].
  assert (StronglySorted (fun a b => key_before entry_key b a = false)
            (sort_by (key_before entry_key) (map (entry_of REPLAY c o rows) rows))) as Hs
    by (apply sort_by_sorted; apply _).
  assert (Forall numeric (sort_by (key_before entry_key) (map (entry_of REPLAY c o rows) rows))) as Hn'
    by by rewrite sort_by_perm.
  induction Hs as [|x l Hs IH Hx]; [constructor|]. apply Forall_cons in Hn' as [Hnx Hnl]. constructor; [by apply IH|].
  rewrite Forall_forall in Hx, Hnl |- *. intros y Hy. rewrite ranked_by_key; [by apply Hx|by apply Hnl|done].
Qed.

(** The comparison of the ranking's tuples, of two entries of one stage. *)
Lemma lexicographic_reading (v cw ce ow oe hw he mini : bool) (rw re : option float) :
  (let key c o h r :=
     (map bool_int [negb v; negb c; o; negb h; match r with None => true | _ => false end],
      match r with None => f_zero | Some x => if mini then x else f_opp x end) in
   tuple_lt (key ce oe he re).1 (key cw ow hw rw).1
   || (bool_decide ((key ce oe he re).1 = (key cw ow hw rw).1) && f_ltb (key ce oe he re).2 (key cw ow hw rw).2)) = false ->
  (cw = false -> ce = false) /\
  (cw = ce ->
   (ow = true -> oe = true) /\
   (ow = oe ->
    (hw = false -> he = false) /\
    (hw = he ->
     match rw, re with
     | _, None => True
     | None, Some _ => False
     | Some x, Some y => if mini then f_ltb y x = false else f_ltb x y = false
     end))).
Proof.
  destruct rw as [x|], re as [y|], v, cw, ce, ow, oe, hw, he; cbn -[f_ltb f_opp]; intros H;
    repeat split; intros; try done; destruct mini; rewrite ?f_ltb_opp in H; done.
Qed.

(** [e] does not beat [w]: read off the documented order, outermost first. *)
Definition not_beaten_on_value (w e : LeaderboardEntry) : Prop :=
  match _rank_value w, _rank_value e with
  | _, None => True
  | None, Some _ => False
  | Some x, Some y =>
      if minimizing REPLAY (stage_objective REPLAY c o (le_stage w)) then f_ltb y x = false else f_ltb x y = false
  end.
Definition off (e : LeaderboardEntry) : bool := on_another_card REPLAY c o rows (le_stage e) (le_card_type e).

Definition not_beaten (w e : LeaderboardEntry) : Prop :=
  (le_stage w <> VERIFY -> le_stage e <> VERIFY) /\
  (le_stage w = le_stage e ->
   (le_comparable w = false -> le_comparable e = false) /\
   (le_comparable w = le_comparable e ->
    (off w = true -> off e = true) /\
    (off w = off e ->
     (le_holds_redlines w = false -> le_holds_redlines e = false) /\
     (le_holds_redlines w = le_holds_redlines e -> not_beaten_on_value w e)))).

Lemma not_before_not_beaten w e : ranked_before REPLAY c o rows e w = false -> not_beaten w e.
Proof.
  unfold ranked_before, rank_key, not_beaten. intros H. split.
  { intros Hw He. rewrite He in H. unfold sort_key in H. destruct (le_stage w); [|done].
    destruct (_rank_value e), (_rank_value w); done. }
  intros Hst. unfold off, not_beaten_on_value. rewrite <- Hst in *.
  apply (lexicographic_reading (le_stage w == VERIFY)). unfold sort_key in H.
  by destruct (_rank_value e), (_rank_value w).
Qed.
End order.

Lemma winner_first entries w : winner entries = Some w ->
  exists before after, entries = before ++ w :: after /\ le_is_baseline w = false /\
    Forall (fun e => le_is_baseline e = true) before.
Proof.
  unfold winner. induction entries as [|e l IH]; cbn; [done|]. destruct (le_is_baseline e) eqn:E; cbn.
  - intros (before & after & -> & Hw & Hb)%IH. exists (e :: before), after. split; [done|]. split; [done|]. by constructor.
  - intros [= <-]. by exists [], l.
Qed.

(** C24: The winner of a campaign is one of its candidates and not a measurement of production, and no
    other candidate beats it: none that was verified where the winner was only screened; in the same
    stage none measured on the pinned dataset where the winner was not, then none on the reference's
    card where the winner was on another, then none inside the redlines where the winner crossed one,
    and then none that scores better in the objective's direction.  There is a winner as soon as one
    row is no measurement of production. *)
Theorem winner_is_unbeaten REPLAY c o rows :
  let entries := map (entry_of REPLAY c o rows) rows in
  Forall numeric entries ->
  match winner (leaderboard_entries REPLAY c o rows) with
  | Some w =>
      w ∈ entries /\ le_is_baseline w = false /\
      forall e, e ∈ entries -> le_is_baseline e = false -> not_beaten REPLAY c o rows w e
  | None => forall e, e ∈ entries -> le_is_baseline e = true
  end.
Proof.
  intros entries Hn. destruct (board_sorted REPLAY c o rows Hn) as [Hperm Hsorted]. fold entries in Hperm.
  destruct (winner (leaderboard_entries REPLAY c o rows)) as [w|] eqn:E.
  - apply winner_first in E as (before & after & Hb & Hw & Hbase). rewrite Hb in Hperm, Hsorted.
    split; [rewrite <- Hperm; apply elem_of_app; right; left|]. split; [done|].
    intros e He Hne. apply not_before_not_beaten. rewrite <- Hperm in He.
    apply elem_of_app in He as [He|He].
    { rewrite Forall_forall in Hbase. by rewrite (Hbase e He) in Hne. }
    apply StronglySorted_app in Hsorted as (_ & _ & Hs). apply StronglySorted_inv in Hs as [_ Hs].
    apply elem_of_cons in He as [->|He]; [|rewrite Forall_forall in Hs; by apply Hs].
    assert (w ∈ entries) as Hin by (rewrite <- Hperm; apply elem_of_app; right; left).
    rewrite Forall_forall in Hn. rewrite ranked_by_key by by apply Hn. apply tuple_lt_irrefl.
  - intros e He. rewrite <- Hperm in He. apply list_elem_of_In in He.
    pose proof (find_none _ _ E _ He) as H. by apply negb_false_iff in H.
Qed.

(** ** The reference *)

(** A ratio to production compares like with like: an entry has one only where production was
    measured in its stage, by dividing its score by the mean of those measurements that were taken on
    the reference's card; and never where the entry's own card is known to be another. *)
Theorem ratios_compare_like_with_like REPLAY c o rows row x :
  le_vs_baseline (entry_of REPLAY c o rows row) = Some x ->
  exists score mean ref,
    row_score REPLAY c o row = Some score /\ x = f_div score mean /\ f_truthy mean = true /\
    baseline_at REPLAY c o rows (stage_of (br_candidate row)) = Some (mean, ref) /\
    (card_type_of row = "" \/ ref = "" \/ card_type_of row = ref) /\
    mean = f_mean (map fst (where_ (fun v => String.eqb v.2 ref)
                             (measured_at REPLAY c o rows (stage_of (br_candidate row))))) /\
    exists y, (y, ref) ∈ measured_at REPLAY c o rows (stage_of (br_candidate row)).
Proof.
  unfold entry_of. cbv zeta. cbn [le_vs_baseline]. unfold on_another_card, reference_card.
  destruct (baseline_at REPLAY c o rows (stage_of (br_candidate row))) as [[mean ref]|] eqn:Eb.
  2: { by destruct (_ && _). }
  destruct (negb (String.eqb (card_type_of row) "") && negb (String.eqb ref "") && negb (String.eqb (card_type_of row) ref)) eqn:Eoff; [done|].
  cbn [fmap option_fmap option_map fst num_or]. destruct (f_truthy mean) eqn:Et; [|done].
  destruct (row_score REPLAY c o row) as [score|]; [|done]. intros [= <-].
  exists score, mean, ref. split; [done|]. split; [done|]. split; [done|]. split; [done|]. split.
  - destruct (String.eqb_spec (card_type_of row) ""); [by left|]. destruct (String.eqb_spec ref ""); [by right; left|].
    destruct (String.eqb_spec (card_type_of row) ref); [by right; right|done].
  - unfold baseline_at in Eb. destruct (commonest _) as [card|] eqn:Ec; [|done]. injection Eb as Em ->. split; [done|].
    unfold commonest in Ec. apply min_by_in in Ec. rewrite elem_of_reverse, elem_of_remove_dups, elem_of_reverse in Ec.
    apply list_elem_of_fmap in Ec as ([y card'] & -> & Hin). by exists y.
Qed.

(** ** A board of three: production, a candidate, and a faster one that crossed
    a redline *)
Definition board_objective : tree :=
  [("target_metric", Sc (VStr "perf_guidellm/output_tpm"));
   ("redlines", Ls [Mp [("metric", Sc (VStr "ttft_ms@p99")); ("op", Sc (VStr "<=")); ("value", Sc (VInt 200))]])].
Definition sample_row (id throughput ttft : Z) (baseline : bool) : board_row :=
  mkRow id [("card_type", Sc (VStr "H100"))]
    ((sample_candidate id id Exhausted) <| cd_is_baseline := baseline |>) ∅
    (fun m => if String.eqb m "ttft_ms@p99" then Some (Sc (VInt ttft)) else Some (Sc (VInt throughput)))
    (mkStored None None None []) None.
Definition sample_board : list board_row := [sample_row 1 100 90 true; sample_row 2 150 90 false; sample_row 3 180 350 false].
Definition board_objectives : objectives := mkObjectives board_objective board_objective.

Lemma winner_is_unbeaten_witness :
  exists w, winner (leaderboard_entries "replay" sample_campaign board_objectives sample_board) = Some w /\
    le_run_id w = 2 /\
    not_beaten "replay" sample_campaign board_objectives sample_board w
      (entry_of "replay" sample_campaign board_objectives sample_board (sample_row 3 180 350 false)).
Proof.
  destruct (winner (leaderboard_entries "replay" sample_campaign board_objectives sample_board)) as [w|] eqn:E;
    [|by vm_compute in E].
  exists w. split; [done|]. split; [by vm_compute in E; injection E as <-|].
  pose proof (winner_is_unbeaten "replay" sample_campaign board_objectives sample_board) as H.
  cbv zeta in H. rewrite E in H. apply H.
  - repeat (apply Forall_cons; split; [intros x Hx; vm_compute in Hx; by injection Hx as <-|]). by apply Forall_nil.
  - apply list_elem_of_fmap. exists (sample_row 3 180 350 false). split; [done|].
    apply list_elem_of_lookup_2 with 2%nat. done.
  - by vm_compute.
Defined.

Lemma ratios_compare_like_with_like_witness :
  le_vs_baseline (entry_of "replay" sample_campaign board_objectives sample_board (sample_row 2 150 90 false))
    = Some (f_of_ratio 3 2) /\
  exists score mean ref,
    row_score "replay" sample_campaign board_objectives (sample_row 2 150 90 false) = Some score /\
    f_of_ratio 3 2 = f_div score mean /\ f_truthy mean = true /\
    exists y, (y, ref) ∈ measured_at "replay" sample_campaign board_objectives sample_board SCREEN.
Proof.
  split; [by vm_compute|].
  destruct (ratios_compare_like_with_like "replay" sample_campaign board_objectives sample_board
              (sample_row 2 150 90 false) (f_of_ratio 3 2)) as (score & mean & ref & ? & ? & ? & _ & _ & _ & ?);
    [by vm_compute|]. by exists score, mean, ref.
Defined.
