(* ===== verification/SearchCoverage.v ===== *)
(** What part of a declared search space a session has searched
    ([control/search/coverage.py]): the platform's own expansion of the space
    against its own ledger of trials.

    [hash_of] is [CandidateConfig.hash] (a digest of the canonical JSON), and
    [validate] pydantic's reading of the coverage a policy declares. *)
From Stdlib Require Import Ascii.
From S2P Require Import Prelude Float Values Documents Space.
#[local] Open Scope string_scope.
#[local] Open Scope list_scope.
#[local] Open Scope Z_scope.

Definition MAX_REMAINING : nat := 200.

(** [if v not in out[key]: out[key].append(v)]. *)
Definition add_value (vs : list scalar) (v : scalar) : list scalar :=
  if existsb (fun w => py_eq w v) vs then vs else vs ++ [v].
Definition declare (out : list (string * list scalar)) (kv : string * list scalar) : list (string * list scalar) :=
  dict_set kv.1 (foldl add_value (default [] (dict_get kv.1 out)) kv.2) out.

(** Every value each swept parameter is declared to take. *)
Definition _declared_values (sp : space) : list (string * list scalar) :=
  let out := foldl declare [] (sorted_items (_grid sp)) in
  let out := foldl (fun out group => foldl declare out (sorted_items group)) out (tied_groups sp) in
  foldl declare out (map (fun r => (r_name r, range_values r)) (range_specs sp)).

Definition _project (cfg : config) (keys : list string) : list (string * scalar) :=
  omap (fun k => (fun v => (k, v)) <$> cfg !! k) keys.

Record AxisValueCoverage := mkValueCoverage { vc_value : scalar; vc_covered : bool; vc_trials : nat }.
Record AxisCoverage := mkAxisCoverage {
  ac_param : string;
  ac_values : list AxisValueCoverage;
  ac_covered : nat;
  ac_total : nat }.

Record SpaceCoverage (P : Type) := mkSpaceCoverage {
  sv_enumerable : bool;
  sv_cells_total : option nat;
  sv_cells_covered : nat;
  sv_off_space : nat;
  sv_remaining : list (list (string * scalar));
  sv_axes : list AxisCoverage;
  sv_policy_declared : option P }.
Arguments mkSpaceCoverage {P}.
Arguments sv_enumerable {P}.
Arguments sv_cells_total {P}.
Arguments sv_cells_covered {P}.
Arguments sv_off_space {P}.
Arguments sv_remaining {P}.
Arguments sv_axes {P}.
Arguments sv_policy_declared {P}.

(** How many trials reached a value of a parameter. *)
Definition hits (trials : list (string * config)) (param : string) (v : scalar) : nat :=
  length (where_ (fun t : string * config => match t.2 !! param with Some w => same_value w v | None => false end) trials).

Definition value_coverage (trials : list (string * config)) (param : string) (v : scalar) : AxisValueCoverage :=
  let n := hits trials param v in mkValueCoverage v (negb (n =? 0)%nat) n.

Definition axis_coverage (declared : list (string * list scalar)) (trials : list (string * config)) (param : string)
    : AxisCoverage :=
  let values := map (value_coverage trials param) (default [] (dict_get param declared)) in
  mkAxisCoverage param values (length (where_ vc_covered values)) (length values).

Section coverage.
Context {P : Type} (hash_of : config -> string) (validate : tree -> option P).

Definition expected_cells (sp : space) : list (string * config) :=
  foldl (fun out cfg => dict_set (hash_of cfg) cfg out) [] (expand sp).

Definition hashes (trials : list (string * config)) : gset string := list_to_set trials.*1.

Definition untried (sp : space) (trials : list (string * config)) : list (string * config) :=
  where_ (fun cell : string * config => negb (bool_decide (cell.1 ∈ hashes trials))) (expected_cells sp).

Definition space_coverage (sp : space) (trials : list (string * config)) (policy_declared : tree) : SpaceCoverage P :=
  let swept := swept_keys sp in
  let enumerable := negb (too_large sp) in
  let cells := expected_cells sp in
  let expected : gset string := list_to_set cells.*1 in
  let declared := _declared_values sp in
  mkSpaceCoverage enumerable
    (if enumerable then Some (length cells) else None)
    (if enumerable then size (expected ∩ hashes trials) else 0%nat)
    (if enumerable then size (hashes trials ∖ expected) else 0%nat)
    (if enumerable then map (fun cell => _project cell.2 swept) (take MAX_REMAINING (untried sp trials)) else [])
    (map (axis_coverage declared trials) swept)
    (match policy_declared with [] => None | _ => validate policy_declared end).

(** ** The accounting *)
Lemma foldl_set_NoDup (f : config -> string) l (out : list (string * config)) :
  NoDup out.*1 -> NoDup (foldl (fun out cfg => dict_set (f cfg) cfg out) out l).*1.
Proof. revert out. induction l as [|x l IH]; intros out H; cbn; [done|]. by apply IH, dict_set_NoDup. Qed.

Lemma expected_NoDup sp : NoDup (expected_cells sp).*1.
Proof. apply foldl_set_NoDup. constructor. Qed.

Lemma foldl_set_keys (f : config -> string) l (out : list (string * config)) h :
  h ∈ (foldl (fun out cfg => dict_set (f cfg) cfg out) out l).*1 <-> h ∈ out.*1 \/ exists cfg, cfg ∈ l /\ f cfg = h.
Proof.
  revert out. induction l as [|x l IH]; intros out; cbn.
  - split; [by left|]. intros [?|(? & ?%not_elem_of_nil & _)]; done.
  - rewrite IH, dict_set_keys. split.
    + intros [H|(cfg & H & E)]; [|right; exists cfg; by split; [right|]].
      case_bool_decide; [by left|]. apply elem_of_app in H as [H|H]; [by left|].
      apply list_elem_of_singleton in H as ->. right. exists x. by split; [left|].
    + intros [H|(cfg & [->|H]%elem_of_cons & E)].
      * left. case_bool_decide; [done|]. apply elem_of_app. by left.
      * left. subst h. case_bool_decide; [done|]. apply elem_of_app. right. by apply list_elem_of_singleton.
      * right. by exists cfg.
Qed.

Lemma where_complement {A} (p : A -> bool) l :
  (length (where_ p l) + length (where_ (fun x => negb (p x)) l) = length l)%nat.
Proof.
  induction l as [|x l IH]; [done|]. rewrite !where_cons. destruct (p x); cbn [negb length]; lia.
Qed.

Lemma covered_cells sp trials :
  size ((list_to_set (expected_cells sp).*1 : gset string) ∩ hashes trials)
  = length (where_ (fun cell : string * config => bool_decide (cell.1 ∈ hashes trials)) (expected_cells sp)).
Proof.
  pose proof (expected_NoDup sp) as Hnd. induction (expected_cells sp) as [|[h cfg] l IH].
  - cbn. by rewrite intersection_empty_l_L, size_empty.
  - rewrite where_cons. cbn [fmap list_fmap fst] in *. apply NoDup_cons in Hnd as [Hh Hnd]. cbn [list_to_set foldr].
    destruct (decide (h ∈ hashes trials)) as [Hin|Hin].
    + rewrite bool_decide_true by done. cbn. rewrite <- IH by done.
      assert (({[h]} ∪ list_to_set l.*1) ∩ hashes trials = {[h]} ∪ (list_to_set l.*1 ∩ hashes trials)) as -> by set_solver.
      rewrite size_union, size_singleton; [done|]. set_solver.
    + rewrite bool_decide_false by done. rewrite <- IH by done. f_equal. set_solver.
Qed.

(** The coverage of an enumerable space adds up, whatever the trials: the cells are the distinct
    points of the platform's expansion; each is either covered (a trial has its hash) or left to try,
    and the list of those left is exact up to the cap; and the distinct points the session tried are
    the covered cells and those off the space. *)
Theorem coverage_adds_up sp trials declared :
  too_large sp = false ->
  let cov := space_coverage sp trials declared in
  let left := where_ (fun cell : string * config => negb (bool_decide (cell.1 ∈ hashes trials))) (expected_cells sp) in
  sv_cells_total cov = Some (sv_cells_covered cov + length left)%nat /\
  sv_remaining cov = map (fun cell => _project cell.2 (swept_keys sp)) (take MAX_REMAINING left) /\
  size (hashes trials) = (sv_cells_covered cov + sv_off_space cov)%nat /\
  (forall h, h ∈ (expected_cells sp).*1 <-> exists cfg, cfg ∈ expand sp /\ hash_of cfg = h) /\
  NoDup (expected_cells sp).*1 /\
  (forall h cfg, (h, cfg) ∈ left -> h ∉ trials.*1).
Proof.
  intros Hs cov left. subst cov. unfold space_coverage. cbv zeta. rewrite Hs. cbn [negb sv_cells_total sv_cells_covered sv_remaining sv_off_space].
  split; [|split; [done|split; [|split; [|split; [apply expected_NoDup|]]]]].
  - rewrite covered_cells. f_equal. symmetry. apply where_complement.
  - rewrite (intersection_comm_L (list_to_set _)). set (E := list_to_set _ : gset string).
    rewrite <- size_union by set_solver. f_equal.
    apply set_eq. intros h. rewrite elem_of_union, elem_of_intersection, elem_of_difference.
    destruct (decide (h ∈ E)); tauto.
  - intros h. unfold expected_cells. rewrite foldl_set_keys. split; [|by right]. intros [H|H]; [by apply not_elem_of_nil in H|done].
  - intros h cfg Hin. subst left. apply elem_of_where in Hin as [_ Hin]. cbn in Hin.
    apply negb_true_iff, bool_decide_eq_false in Hin. unfold hashes in Hin. by rewrite elem_of_list_to_set in Hin.
Qed.
End coverage.

(** Two axes of two values: one point tried, and one that is off the space. *)
Lemma coverage_adds_up_witness :
  let sp := Space true ∅ {[ "tp" := [VInt 2; VInt 4]; "ep" := [VInt 1; VInt 2] ]} [] ∅ [] in
  let hash_of := fun cfg : config => pretty (length (map_to_list cfg)) +:+
    match cfg !! "tp", cfg !! "ep" with Some (VInt a), Some (VInt b) => pretty a +:+ "/" +:+ pretty b | _, _ => "" end in
  let trials := [("22/1", ∅ : config); ("other", ∅)] in
  let cov := space_coverage (P := unit) hash_of (fun _ => None) sp trials [] in
  sv_cells_total cov = Some 4%nat /\ sv_cells_covered cov = 1%nat /\ sv_off_space cov = 1%nat /\
  size (hashes trials) = (sv_cells_covered cov + sv_off_space cov)%nat.
Proof.
  intros sp hash_of trials cov.
  split; [by vm_compute|]. split; [by vm_compute|]. split; [by vm_compute|].
  apply (coverage_adds_up hash_of (fun _ => None) sp trials []). by vm_compute.
Defined.
