(* ===== verification/Rules.v ===== *)
(** What a campaign must satisfy to be saved, whoever creates it
    ([app/campaign_rules.py], [schemas/core.py:CampaignCreate]).

    The search space is the one its dict amounts to ([Space.space]), and the
    settings of a policy are of the types [PolicySettings] declares.  Messages
    are kinds of problem with what they are about. *)
From Stdlib Require Import Ascii.
From S2P Require Import Failures Logs Model States Packing Timing World Samples Occupancy Fleet Exclusive Finish Placement Nights Clock.
From S2P Require Import Prelude Float Values Texts Documents Space Validation Flags Commands ExtraArgs Addresses Recipes.
From S2P Require Import Composition Conversion Scripts.
#[local] Open Scope string_scope.
#[local] Open Scope list_scope.
#[local] Open Scope Z_scope.

Definition ALLOWED_ENGINES : list string := ["sglang"; "vllm"].
(** [pinning.POLICIES]. *)
Definition POLICIES : list string := ["rebuild_at_start"; "use_current"].

(** ** A campaign as it is posted *)
Record CampaignCreate := mkCreate {
  cc_name : string;
  cc_engine : string;
  cc_image : string;
  cc_model_path : string;
  cc_served_model_name : string;
  cc_search_space : space;
  cc_recipe : tree;
  cc_recipe_text : option string;
  cc_chart_version : string;
  cc_recipe_source : string;
  cc_objective : tree;
  cc_benchmark_slug : string;
  cc_benchmark_spec : option tree;
  cc_verify_benchmark_spec : option tree;
  cc_service_port : Z;
  cc_extra_env : list (string * string);
  cc_extra_volumes : list (string * string);
  cc_run_baseline_canary : bool;
  cc_share_machine : bool;
  cc_machine_names : list string;
  cc_node_group : string;
  cc_node_names : list string;
  cc_window_start : option Z;
  cc_window_end : option Z;
  cc_daily_start : string;
  cc_daily_end : string;
  cc_schedule_timezone : string;
  cc_schedule_until : option Z;
  cc_max_run_minutes : Z;
  cc_ready_timeout_minutes : Z;
  cc_policy_id : option Z;
  cc_policy_settings : policy_settings;
  cc_confirm_top_k : Z;
  cc_confirm_repeats : Z;
  cc_verify_benchmark_slug : string;
  cc_verify_top_k : Z;
  cc_verify_objective : tree;
  cc_verify_max_run_minutes : Z;
  cc_dataset_profile : string;
  cc_dataset_frozen : string;
  cc_dataset_policy : string;
  cc_extensions : list (string * tree) }.
#[export] Instance eta_create : Eta CampaignCreate := fun r =>
  mkCreate (cc_name r) (cc_engine r) (cc_image r) (cc_model_path r) (cc_served_model_name r) (cc_search_space r)
    (cc_recipe r) (cc_recipe_text r) (cc_chart_version r) (cc_recipe_source r) (cc_objective r)
    (cc_benchmark_slug r) (cc_benchmark_spec r) (cc_verify_benchmark_spec r) (cc_service_port r) (cc_extra_env r)
    (cc_extra_volumes r) (cc_run_baseline_canary r) (cc_share_machine r) (cc_machine_names r) (cc_node_group r)
    (cc_node_names r) (cc_window_start r) (cc_window_end r) (cc_daily_start r) (cc_daily_end r)
    (cc_schedule_timezone r) (cc_schedule_until r) (cc_max_run_minutes r) (cc_ready_timeout_minutes r)
    (cc_policy_id r) (cc_policy_settings r) (cc_confirm_top_k r) (cc_confirm_repeats r)
    (cc_verify_benchmark_slug r) (cc_verify_top_k r) (cc_verify_objective r) (cc_verify_max_run_minutes r)
    (cc_dataset_profile r) (cc_dataset_frozen r) (cc_dataset_policy r) (cc_extensions r).

Definition served_name_for (model_path : string) : string :=
  let last := last_part "/" (rstrip "/" model_path) in
  if String.eqb last "" then "model" else last.

(** What the schema makes of the fields it is given. *)
Definition derive_served_name (body : CampaignCreate) : CampaignCreate :=
  if String.eqb (strip (cc_served_model_name body)) ""
  then body <| cc_served_model_name := served_name_for (cc_model_path body) |> else body.

(** ** The static rules *)
Inductive rule_error :=
  | BadEngine
  | NoSuchPolicy (pid : Z)
  | BadPolicySettings
  | BadConfirmation
  | NegativeVerifyTopK
  | VerifyTopKNeedsBenchmark
  | VerifyBenchmarkNeedsTopK
  | BadVerifyMinutes
  | BadDatasetPolicy
  | GroupNeedsSglang (engine : string)
  | NoSuchGroup (name : string)
  | GroupNotOverSsh (name : string) (drivers : list string)
  | SpaceErrors (errors : list space_error)
  | BadSpaceKey (why : recipe_problem)
  | ScheduleErrors (errors : list schedule_error).

Definition blank (s : string) : bool := String.eqb (strip s) "".
Definition error_if {A} (b : bool) (e : A) : list A := if b then [e] else [].

Definition staging_errors (body : CampaignCreate) : list rule_error :=
  error_if (cc_verify_top_k body <? 0) NegativeVerifyTopK
  ++ error_if ((0 <? cc_verify_top_k body) && blank (cc_verify_benchmark_slug body)) VerifyTopKNeedsBenchmark
  ++ error_if (negb (blank (cc_verify_benchmark_slug body)) && (cc_verify_top_k body <=? 0)) VerifyBenchmarkNeedsTopK
  ++ error_if ((0 <? cc_verify_top_k body) && (cc_verify_max_run_minutes body <? 1)) BadVerifyMinutes
  ++ error_if (negb (String.eqb (cc_dataset_policy body) "") && negb (bool_decide (cc_dataset_policy body ∈ POLICIES)))
       BadDatasetPolicy.

Definition group_named (db : database) (name : string) : option machine_group :=
  head (where_ (fun g => String.eqb (g_name g) name) (rows_z (d_groups db))).
Definition driver_of (m : machine) : string := if String.eqb (m_driver m) "" then "ssh_docker" else m_driver m.

Definition node_group_errors (db : database) (body : CampaignCreate) : list rule_error :=
  let name := strip (cc_node_group body) in
  if String.eqb name "" then []
  else if negb (String.eqb (cc_engine body) "sglang") then [GroupNeedsSglang (cc_engine body)]
  else match group_named db name with
       | None => [NoSuchGroup name]
       | Some group =>
           let drivers := map (fun m => driver_of m.2) (members_by_rank db group) in
           match sort_by (key_before key_of_string) (remove_dups (where_ (fun d => negb (String.eqb d "ssh_docker")) drivers)) with
           | [] => []
           | non_ssh => [GroupNotOverSsh name non_ssh]
           end
       end.

(** The keys of a space: its base, its axes, its conditions and its groups. *)
Definition space_keys (sp : space) : list string :=
  remove_dups
    ((map_to_list (s_base sp)).*1 ++ (map_to_list (s_grid sp)).*1 ++ (map_to_list (s_range sp)).*1
     ++ (s_conditions sp).*1 ++ concat (map (fun g => (map_to_list g).*1) (s_tied sp))).
Definition recipe_space_errors (sp : space) : list rule_error := map BadSpaceKey (config_problems (space_keys sp)).

Section rules.
Context `{Env}.

Definition policy_errors (db : database) (body : CampaignCreate) : list rule_error :=
  match cc_policy_id body with
  | None => []
  | Some pid =>
      match d_policies db !! pid with
      | None => [NoSuchPolicy pid]
      | Some _ => error_if (negb (settings_valid (cc_policy_settings body))) BadPolicySettings
      end
  end.

Definition campaign_errors (db : database) (body : CampaignCreate) : list rule_error :=
  if negb (bool_decide (cc_engine body ∈ ALLOWED_ENGINES)) then [BadEngine]
  else
    policy_errors db body
    ++ error_if ((cc_confirm_top_k body <? 0) || (cc_confirm_repeats body <? 1)) BadConfirmation
    ++ staging_errors body ++ node_group_errors db body
    ++ (match space_errors (cc_search_space body) with [] => [] | l => [SpaceErrors l] end)
    ++ (match cc_recipe body with [] => [] | _ => recipe_space_errors (cc_search_space body) end)
    ++ (match errors (cc_daily_start body) (cc_daily_end body) (cc_schedule_timezone body) with
        | [] => [] | l => [ScheduleErrors l] end).
End rules.

(** ** Reading a recipe *)

(** [is_exact_version]: [^v?\d+\.\d+\.\d+(-[0-9A-Za-z.-]+)?(\+[0-9A-Za-z.-]+)?$]. *)
Definition alnum (c : ascii) : bool := is_digit c || is_lower c || ((65 <=? code c) && (code c <=? 90)).
Definition tag_char (c : ascii) : bool := alnum c || Ascii.eqb c "." || Ascii.eqb c "-".
Fixpoint run_while (p : ascii -> bool) (l : list ascii) : list ascii * list ascii :=
  match l with
  | c :: l' => if p c then let '(a, b) := run_while p l' in (c :: a, b) else ([], l)
  | [] => ([], [])
  end.
(** One of [p]'s characters at least, and the rest. *)
Definition some_of (p : ascii -> bool) (l : list ascii) : option (list ascii) :=
  match run_while p l with ([], _) => None | (_, rest) => Some rest end.
Definition this_char (c : ascii) (l : list ascii) : option (list ascii) :=
  match l with d :: rest => if Ascii.eqb c d then Some rest else None | [] => None end.
Definition opt_tag (mark : ascii) (l : list ascii) : list ascii :=
  match this_char mark l ≫= some_of tag_char with Some rest => rest | None => l end.
Definition version_core (l : list ascii) : option (list ascii) :=
  l ← some_of is_digit l;
  l ← this_char "." l;
  l ← some_of is_digit l;
  l ← this_char "." l;
  some_of is_digit l.
Definition is_exact_version (version : string) : bool :=
  let l := chars (strip version) in
  let l := default l (this_char "v" l) in
  match version_core l with
  | Some rest => match opt_tag "+" (opt_tag "-" rest) with [] => true | _ => false end
  | None => false
  end.

(** [recipe.model_dump()]. *)
Definition recipe_doc (r : Recipe) : tree :=
  [("engine", Sc (VStr (rc_engine r)));
   ("chart", Mp [("name", Sc (VStr (rc_chart_name r))); ("version", Sc (VStr (rc_chart_version r)))]);
   ("values", Mp (rc_values r)); ("image_digest", Sc (VStr (rc_image_digest r)))].

(** [values.setdefault("model", {})["name"] = name], which raises where
    [model] is no dict. *)
Definition with_served_name (name : string) (r : Recipe) : option Recipe :=
  match dict_get "model" (rc_values r) with
  | None => Some (r <| rc_values := dict_set "model" (Mp [("name", Sc (VStr name))]) (rc_values r) |>)
  | Some (Mp m) => Some (r <| rc_values := dict_set "model" (Mp (dict_set "name" (Sc (VStr name)) m)) (rc_values r) |>)
  | Some _ => None
  end.

(** The version asked for, or the recipe's own when that is one exactly. *)
Definition chart_version (asked : string) (r : Recipe) : string :=
  let version := strip asked in
  if String.eqb version "" && is_exact_version (rc_chart_version r) then rc_chart_version r else version.

Inductive recipe_refusal :=
  | ImageRequired
  | NoRecipe (why : NotARecipe)
  | EnvIsTheRecipes
  | ModelIsNoDict
  | RecipeProblem (why : recipe_problem).

Section reading.
Context (json_list : string -> option (list doc)) (yaml_load : string -> option doc).

Definition recipe_given (body : CampaignCreate) : option source :=
  match cc_recipe_text body with
  | Some t => if blank t then match cc_recipe body with [] => None | d => Some (SourceDoc d) end else Some (SourceText t)
  | None => match cc_recipe body with [] => None | d => Some (SourceDoc d) end
  end.

(** The body with its recipe read in, or why it is refused. *)
Definition read_recipe (body : CampaignCreate) : recipe_refusal + CampaignCreate :=
  match recipe_given body with
  | None => if blank (cc_image body) then inl ImageRequired else inr body
  | Some src =>
      match parse json_list yaml_load src with
      | inl why => inl (NoRecipe why)
      | inr imported =>
          let recipe := im_recipe imported in
          match cc_extra_env body, cc_extra_volumes body with
          | [], [] =>
              match (if String.eqb (served_name recipe) "" then with_served_name (cc_served_model_name body) recipe
                     else Some recipe) with
              | None => inl ModelIsNoDict
              | Some recipe =>
                  match recipe_problems recipe with
                  | why :: _ => inl (RecipeProblem why)
                  | [] =>
                      inr (body <| cc_chart_version := chart_version (cc_chart_version body) recipe |> <| cc_recipe := recipe_doc recipe |>
                                <| cc_recipe_text := None |> <| cc_engine := rc_engine recipe |>
                                <| cc_image := image recipe |> <| cc_served_model_name := served_name recipe |>)
                  end
              end
          | _, _ => inl EnvIsTheRecipes
          end
      end
  end.
End reading.

(** ** Reading twice *)
Lemma drop_while_twice {A} (p : A -> bool) l : drop_while p (drop_while p l) = drop_while p l.
Proof. induction l as [|x l IH]; [done|]. cbn. destruct (p x) eqn:E; [done|]. cbn. by rewrite E. Qed.

Lemma strip_twice s : strip (strip s) = strip s.
Proof.
  unfold strip. rewrite chars_of_chars. f_equal. unfold strip_chars at 2 3.
  set (m := drop_while is_space (chars s)). unfold strip_chars.
  assert (drop_while is_space (reverse (drop_while is_space (reverse m))) = reverse (drop_while is_space (reverse m))) as ->.
  { destruct (drop_while_suffix is_space (reverse m)) as [k Hk]. apply (f_equal reverse) in Hk.
    rewrite reverse_involutive, reverse_app in Hk.
    destruct (reverse (drop_while is_space (reverse m))) as [|c l]; [done|]. cbn in Hk |- *.
    assert (drop_while is_space m = m) as Hm by (subst m; apply drop_while_twice).
    rewrite Hk in Hm. cbn in Hm. destruct (is_space c); [|done].
    apply (f_equal length) in Hm. destruct (drop_while_suffix is_space (l ++ reverse k)) as [k' Hk'].
    apply (f_equal length) in Hk'. rewrite !length_app in Hk'. cbn in Hm. rewrite length_app in Hm. lia. }
  by rewrite reverse_involutive, drop_while_twice.
Qed.

Lemma dict_set_same {A} k (v : A) d : dict_get k d = Some v -> dict_set k v d = d.
Proof.
  induction d as [|[k' v'] d IH]; [done|]. rewrite dict_get_cons. cbn.
  destruct (String.eqb_spec k k') as [->|Hk]; [by intros [= ->]|]. intros H. by rewrite IH.
Qed.

Section twice.
Context (json_list : string -> option (list doc)) (yaml_load : string -> option doc).

(** A recipe written out is read as itself. *)
Lemma parse_recipe_doc r : parse json_list yaml_load (SourceDoc (recipe_doc r)) = inr (mkImported r FromRecipe []).
Proof. by destruct r. Qed.

Lemma text_at_set name m : text_at "name" (dict_set "name" (Sc (VStr name)) m) = name.
Proof.
  unfold text_at. rewrite dict_get_set. cbn. destruct (String.eqb_spec name "") as [->|Hn]; [done|].
  by destruct name.
Qed.

Lemma served_name_set name r r' : with_served_name name r = Some r' ->
  served_name r' = name /\ with_served_name name r' = Some r'.
Proof.
  unfold with_served_name, served_name, section. destruct r as [e n v vs d]. cbn [rc_values].
  destruct (dict_get "model" vs) as [[x|l|m]|] eqn:E; [done|done| |]; intros [= <-]; cbn -[dict_set dict_get text_at].
  all: rewrite dict_get_set; cbn -[dict_set dict_get text_at].
  - split; [apply text_at_set|]. rewrite (dict_set_same "name") by by rewrite dict_get_set.
    by rewrite dict_set_same by by rewrite dict_get_set.
  - split; [apply (text_at_set name [])|]. by rewrite dict_set_same by by rewrite dict_get_set.
Qed.

Lemma exact_not_blank v : is_exact_version v = true -> strip v <> "".
Proof. intros H E. unfold is_exact_version in H. by rewrite E in H. Qed.

Lemma chart_version_twice asked r : chart_version (chart_version asked r) r = strip (chart_version asked r).
Proof.
  unfold chart_version. destruct (String.eqb_spec (strip asked) "") as [Hv|Hv]; cbn [andb].
  - destruct (is_exact_version (rc_chart_version r)) eqn:Ex.
    + pose proof (exact_not_blank _ Ex). by destruct (String.eqb_spec (strip (rc_chart_version r)) "").
    + rewrite strip_twice, Hv. done.
  - rewrite !strip_twice. by destruct (String.eqb_spec (strip asked) "").
Qed.

(** What a campaign's recipe is read into stands: the saved campaign holds the recipe whole, its
    engine, image and served name are the recipe's, the recipe has no problem, and reading the saved
    campaign again (a clone, an import of its export) gives it back as it was, but for the blanks
    around a chart version that came from the recipe.  Without a recipe nothing is changed. *)
Theorem saved_recipe_reads_back body body' :
  read_recipe json_list yaml_load body = inr body' ->
  match recipe_given body with
  | None => body' = body /\ blank (cc_image body) = false
  | Some _ =>
      (exists r, cc_recipe body' = recipe_doc r /\ cc_recipe_text body' = None /\ recipe_problems r = [] /\
         cc_engine body' = rc_engine r /\ cc_image body' = image r /\ cc_served_model_name body' = served_name r) /\
      read_recipe json_list yaml_load body' = inr (body' <| cc_chart_version ::= strip |>)
  end.
Proof.
  unfold read_recipe at 1. destruct (recipe_given body) as [src|].
  2: { destruct (blank (cc_image body)) eqn:E; [done|]. intros [= <-]. done. }
  destruct (parse json_list yaml_load src) as [why|[recipe0 ? ?]]; [done|]. cbn [im_recipe].
  destruct (cc_extra_env body) eqn:Eenv; [|done]. destruct (cc_extra_volumes body) eqn:Evol; [|done].
  destruct (if String.eqb (served_name recipe0) "" then _ else _) as [r|] eqn:Er; [|done].
  destruct (recipe_problems r) eqn:Ep; [|done]. intros [= <-].
  split; [by exists r|]. unfold read_recipe.
  replace (recipe_given _) with (Some (SourceDoc (recipe_doc r))) by by destruct r.
  rewrite parse_recipe_doc. cbn -[chart_version recipe_doc served_name with_served_name recipe_problems image].
  rewrite Eenv, Evol.
  assert ((if String.eqb (served_name r) "" then with_served_name (served_name r) r else Some r) = Some r) as ->.
  { destruct (String.eqb_spec (served_name r) "") as [Hr|Hr]; [|done].
    destruct (String.eqb_spec (served_name recipe0) "") as [H0|H0]; [|by injection Er as ->].
    apply served_name_set in Er as [Hn Hs]. rewrite Hr in Hn. by rewrite Hr, Hn. }
  rewrite Ep. f_equal. destruct body. cbn -[chart_version recipe_doc served_name image strip].
  by rewrite chart_version_twice.
Qed.
End twice.

(** ** A recipe that names its chart's version exactly, with a blank around it *)
Definition sample_body : CampaignCreate :=
  mkCreate "night" "" "" "/weights/qwen" "qwen" sample_space
    (recipe_doc (mkRecipe "sglang" "sglang" " 0.9.26" sample_values "")) None "" "" [] "bench" None None 28200 [] []
    true true [] "" [] None None "" "" "" None 720 120 None sample_settings 0 3 "" 0 [] 180 "" "" "rebuild_at_start" [].

Lemma saved_recipe_reads_back_witness :
  exists body', read_recipe (fun _ => None) (fun _ => None) sample_body = inr body' /\
    cc_engine body' = "sglang" /\ cc_chart_version body' = " 0.9.26" /\
    read_recipe (fun _ => None) (fun _ => None) body' = inr (body' <| cc_chart_version := "0.9.26" |>).
Proof.
  destruct (read_recipe (fun _ => None) (fun _ => None) sample_body) as [why|body'] eqn:E; [vm_compute in E; discriminate E|].
  exists body'. split; [done|].
  pose proof (saved_recipe_reads_back (fun _ => None) (fun _ => None) sample_body body' E) as [_ H].
  rewrite H. vm_compute in E. injection E as <-. split_and!; vm_compute; reflexivity.
Defined.
