(* ===== verification/Managed.v ===== *)
(** Managed campaigns: how a plugin runs its work on the platform
    ([control/managed.py]).

    The state is the database with the owners of its campaigns, what plugins
    keep about them and the events these services write, whole.  A moment in an
    event's payload, which JSON keeps as ISO text and [fromisoformat] reads
    back, is the moment itself.  The hook of a plugin that takes its part of a
    new campaign keeps that part or refuses it. *)
From Stdlib Require Import Ascii.
From S2P Require Import Failures Logs Model States Packing Timing World Samples Occupancy Fleet Exclusive Finish Placement Nights Clock Datasets.
From S2P Require Import Prelude Float Values Texts Documents Space Validation Flags Commands ExtraArgs Addresses Recipes.
From S2P Require Import Composition Conversion Scripts Rules.
#[local] Open Scope string_scope.
#[local] Open Scope list_scope.
#[local] Open Scope Z_scope.

Record Owner := mkOwner { ow_plugin : string; ow_label : string; ow_link : string }.

(** What an event's payload holds. *)
Inductive payload_value := PText (s : string) | PMoment (t : Z) | PNumber (n : Z) | PTexts (l : list string).
#[export] Instance payload_eq_dec : EqDecision payload_value. Proof. solve_decision. Defined.

Record managed_event := mkManagedEvent {
  me_actor : string;
  me_kind : string;
  me_campaign : option Z;
  me_run : option Z;
  me_payload : list (string * payload_value) }.

Record managed := mkManaged {
  mg_db : database;
  mg_owners : gmap Z Owner;
  mg_events : list managed_event;
  mg_extensions : list (string * (Z * tree)) }.
#[export] Instance eta_managed : Eta managed := fun r =>
  mkManaged (mg_db r) (mg_owners r) (mg_events r) (mg_extensions r).

Inductive managed_refusal :=
  | NamesBenchmarksBySlug (fields : list string)
  | RefusedRecipe (why : recipe_refusal)
  | RefusedRules (errors : list rule_error)
  | ExtensionRefused (names : list string)
  | NotRunByPlugin (cid : Z) (plugin : string)
  | AlreadyStarted (cid : Z) (status : CampaignStatus).

Definition plugin_actor (plugin : string) : string := "plugin:" +:+ plugin.

(** [record_event]: the event's actor is the plugin, unless a person asked. *)
Definition record_event (kind plugin : string) (cid rid : option Z) (payload : list (string * payload_value))
    (actor : string) (s : managed) : managed :=
  s <| mg_events ::= fun l =>
         l ++ [mkManagedEvent (if String.eqb actor "" then plugin_actor plugin else actor) kind cid rid payload] |>.

(** ** Creating *)

(** The row [Campaign] makes of the body, with its defaults. *)
Definition campaign_row (cid owner_id : Z) (body : CampaignCreate) : campaign :=
  Campaign cid (cc_name body) (cc_engine body) (cc_served_model_name body) (cc_search_space body)
    (match cc_recipe body with [] => false | _ => true end) (cc_chart_version body) Draft
    (cc_benchmark_slug body) (cc_service_port body) (cc_run_baseline_canary body) (cc_share_machine body)
    (cc_machine_names body) (cc_node_group body) (cc_window_start body) (cc_window_end body)
    (cc_daily_start body) (cc_daily_end body) (cc_schedule_timezone body) (cc_schedule_until body) None
    (cc_max_run_minutes body) (cc_ready_timeout_minutes body) (cc_policy_id body) (cc_policy_settings body)
    owner_id (cc_image body) (cc_model_path body) (cc_extra_volumes body) (RunTiming [] [] [] None None)
    (cc_confirm_top_k body) (cc_confirm_repeats body) (cc_verify_benchmark_slug body) (cc_verify_top_k body)
    (cc_verify_max_run_minutes body) (cc_dataset_profile body)
    (if String.eqb (cc_dataset_policy body) "use_current" then UseCurrent else RebuildAtStart)
    "" "" None None 0.

Definition open_window (moment length_ : Z) (c : campaign) : campaign :=
  c <| c_status := Active |> <| c_window_start := Some moment |> <| c_window_end := Some (moment + length_) |>
    <| c_override_until := Some (moment + length_) |>.

Definition put_campaign_row (cid : Z) (c : campaign) (s : managed) : managed :=
  s <| mg_db ::= fun db => db <| d_campaigns ::= <[ cid := c ]> |> |>.

Section create.
Context `{Env} (json_list : string -> option (list doc)) (yaml_load : string -> option doc).
(** The enabled plugins that take a part of a new campaign: does the plugin
    keep what it is handed? *)
Context (takers : string -> option (Z -> tree -> bool)).

Fixpoint hand_extensions (cid : Z) (extensions : list (string * tree)) (s : managed) : option managed_refusal * managed :=
  match extensions with
  | [] => (None, s)
  | (name, data) :: rest =>
      match takers name with
      | Some keeps =>
          if keeps cid data then hand_extensions cid rest (s <| mg_extensions ::= fun l => l ++ [(name, (cid, data))] |>)
          else (Some (ExtensionRefused [name]), s)
      | None => (Some (ExtensionRefused [name]), s)
      end
  end.

Definition create_campaign_extensions (cid : Z) (extensions : list (string * tree)) (s : managed)
    : option managed_refusal * managed :=
  match where_ (fun name => negb (bool_decide (is_Some (takers name)))) (remove_dups extensions.*1) with
  | [] => hand_extensions cid extensions s
  | missing => (Some (ExtensionRefused (sort_by (key_before key_of_string) missing)), s)
  end.

(** The workloads a managed campaign may not describe. *)
Definition not_for_managed (body : CampaignCreate) : list string :=
  error_if (bool_decide (is_Some (cc_benchmark_spec body))) "benchmark_spec"
  ++ error_if (bool_decide (is_Some (cc_verify_benchmark_spec body))) "verify_benchmark_spec".

Definition create_managed_campaign (owner : Owner) (owner_id : Z) (spec : CampaignCreate) (start_for : option Z)
    (moment : Z) (s : managed) : (managed_refusal + Z) * managed :=
  match not_for_managed spec with
  | _ :: _ as fields => (inl (NamesBenchmarksBySlug fields), s)
  | [] =>
      match read_recipe json_list yaml_load spec with
      | inl why => (inl (RefusedRecipe why), s)
      | inr body =>
          match campaign_errors (mg_db s) body with
          | _ :: _ as errors => (inl (RefusedRules errors), s)
          | [] =>
              let cid := next_key (d_campaigns (mg_db s)) in
              let c := campaign_row cid owner_id body in
              let c := match start_for with
                       | Some length_ => open_window moment length_ c
                       | None => if bool_decide (is_Some (from_campaign c)) then c <| c_status := Scheduled |> else c
                       end in
              let s := put_campaign_row cid c s in
              let '(refused, s) := create_campaign_extensions cid (cc_extensions body) s in
              match refused with
              | Some why => (inl why, s)
              | None =>
                  let s := s <| mg_owners ::= <[ cid := mkOwner (ow_plugin owner) (clip 200 (ow_label owner))
                                                          (clip 300 (ow_link owner)) ]> |> in
                  (inr cid, record_event "campaign_created" (ow_plugin owner) (Some cid) None
                     [("name", PText (c_name c)); ("owner", PText (ow_plugin owner)); ("label", PText (ow_label owner))] "" s)
              end
          end
      end
  end.
End create.

(** ** The services *)
Section services.
Context (plugin : string).

Definition owned (s : managed) (cid : Z) : bool :=
  match mg_owners s !! cid with Some o => String.eqb (ow_plugin o) plugin | None => false end.

(** A service on a campaign the plugin owns. *)
Definition _check_owner {A} (cid : Z) (service : campaign -> managed -> (managed_refusal + A) * managed) (s : managed)
    : (managed_refusal + A) * managed :=
  match d_campaigns (mg_db s) !! cid with
  | Some c => if owned s cid then service c s else (inl (NotRunByPlugin cid plugin), s)
  | None => (inl (NotRunByPlugin cid plugin), s)
  end.

Definition start_managed_campaign (cid start_for moment : Z) (machine_names : option (list string))
    : managed -> (managed_refusal + unit) * managed :=
  _check_owner cid (fun c s =>
    if negb (bool_decide (c_status c ∈ [Draft; Scheduled])) then (inl (AlreadyStarted cid (c_status c)), s)
    else
      let c := match machine_names with Some names => c <| c_machine_names := names |> | None => c end in
      let c := open_window moment start_for c in
      (inr tt, record_event "campaign_started" plugin (Some cid) None
         [("machines", PTexts (c_machine_names c)); ("window_end", PMoment (moment + start_for))] ""
         (put_campaign_row cid c s))).

Definition extend_managed_campaign (cid until : Z) : managed -> (managed_refusal + unit) * managed :=
  _check_owner cid (fun c s =>
    if negb (c_status c == Active) then (inr tt, s)
    else (inr tt, put_campaign_row cid (c <| c_window_end := Some until |> <| c_override_until := Some until |>) s)).

(** [applied] is "" or one of [APPLIED_*]. *)
Definition pin_managed_dataset (cid : Z) (build : option DatasetBuild) (applied : option DatasetApplied) (moment : Z)
    : managed -> (managed_refusal + unit) * managed :=
  _check_owner cid (fun c s =>
    let '(build_id, sha) := match build with Some b => (db_build_id b, db_sha256 b) | None => ("", "") end in
    if String.eqb (c_dataset_build_id c) build_id && String.eqb (c_dataset_sha256 c) sha
       && (c_dataset_policy_applied c == applied)
    then (inr tt, s)
    else
      let pinned_at := match build, applied with None, None => None | _, _ => Some moment end in
      (inr tt, put_campaign_row cid
         (c <| c_dataset_build_id := build_id |> <| c_dataset_sha256 := sha |> <| c_dataset_pinned_at := pinned_at |>
            <| c_dataset_policy_applied := applied |> <| c_dataset_build_row := 0 |>) s)).

(** ** Stopping *)
Definition CAMPAIGN_STOPPED : string := "campaign_stopped".
Definition or_stopped (reason : string) : string := if String.eqb reason "" then "stopped" else reason.

Definition live_session_of (cid : Z) (ps : policy_session) : bool :=
  (ps_campaign_id ps =? cid) && negb (terminal_session (ps_status ps)).
Definition live_run_of (cid : Z) (r : run) : bool := (r_campaign_id r =? cid) && negb (terminal_run (r_status r)).

Definition abort_session (cid moment : Z) (reason : string) (s : managed) (ps : policy_session) : managed :=
  match ps_abort_requested_at ps with
  | Some _ => s
  | None =>
      record_event "policy_session_abort_requested" plugin (Some cid) None
        [("session_id", PNumber (ps_id ps)); ("reason", PText (or_stopped reason))] ""
        (s <| mg_db ::= fun db => db <| d_sessions ::= <[ ps_id ps := ps <| ps_abort_requested_at := Some moment |> ]> |> |>)
  end.

(** The window is shut, unless it has ended already. *)
Definition shut_window (cid moment : Z) (reason : string) (c : campaign) (s : managed) : campaign * managed :=
  let c := c <| c_override_until := None |> in
  if match c_window_end c with None => true | Some end_ => moment <? end_ end
  then (c <| c_window_end := Some moment |>,
        record_event CAMPAIGN_STOPPED plugin (Some cid) None
          [("reason", PText (or_stopped reason)); ("window_end", PMoment moment)] "" s)
  else (c, s).

Definition stop_managed_campaign (cid : Z) (reason : string) (moment : Z) : managed -> (managed_refusal + bool) * managed :=
  _check_owner cid (fun c s =>
    if c_status c == Done then (inr true, s)
    else
      let '(c, s) := shut_window cid moment reason c s in
      let s := put_campaign_row cid c s in
      let sessions := where_ (live_session_of cid) (rows_z (d_sessions (mg_db s))) in
      let s := foldl (abort_session cid moment reason) s sessions in
      let live := where_ (live_run_of cid) (rows_z (d_runs (mg_db s))) in
      match live, sessions with
      | [], [] =>
          (inr true, record_event "campaign_done" plugin (Some cid) None
             (if String.eqb reason "" then [] else [("reason", PText reason)]) ""
             (put_campaign_row cid (c <| c_status := Done |>) s))
      | _, _ => (inr false, s)
      end).
End services.

(** [s.removeprefix(prefix)]. *)
Definition removeprefix (prefix s : string) : string :=
  if String.prefix prefix s then String.substring (String.length prefix) (String.length s - String.length prefix) s else s.

Definition payload_get (key : string) (e : managed_event) : option payload_value := dict_get key (me_payload e).

(** Why the campaign's window ended, if it was shut here and not moved since. *)
Definition stop_reason (s : managed) (c : campaign) : option string :=
  match c_window_end c with
  | None => None
  | Some end_ =>
      match last (where_ (fun e => bool_decide (me_campaign e = Some (c_id c)) && String.eqb (me_kind e) CAMPAIGN_STOPPED)
                    (mg_events s)) with
      | None => None
      | Some e =>
          match payload_get "window_end" e with
          | Some (PMoment shut) =>
              if 1000000 <? Z.abs (shut - end_) then None
              else
                let reason := match payload_get "reason" e with Some (PText r) => or_stopped r | _ => "stopped" end in
                Some ("stopped (" +:+ reason +:+ ") by " +:+ removeprefix "plugin:" (me_actor e))
          | _ => None
          end
      end
  end.

Definition owners_of (s : managed) (campaign_ids : list Z) : gmap Z Owner :=
  filter (fun kv => kv.1 ∈ campaign_ids) (mg_owners s).

(** ** A space that means what it looks like *)

(** The columns of a tied group that hold values. *)
Definition columns (g : gmap string (list scalar)) : list (string * list scalar) :=
  where_ (fun kv => nonempty kv.2) (sorted_items g).

(** Every parameter the space varies, once for each place that varies it. *)
Definition varied (sp : space) : list string :=
  (map_to_list (_grid sp)).*1 ++ concat (map (fun g => (columns g).*1) (tied_groups sp))
  ++ (sorted_items (s_range sp)).*1.

Definition known_to (sp : space) (k : string) : Prop := k ∈ varied sp \/ is_Some (s_base sp !! k).

Record sound_space (sp : space) : Prop := {
  sp_once : NoDup (varied sp);
  sp_tied g : g ∈ tied_groups sp ->
    (2 <= length (columns g))%nat /\
    forall k vs k' vs', (k, vs) ∈ columns g -> (k', vs') ∈ columns g -> length vs = length vs';
  sp_ranges name d : (name, d) ∈ sorted_items (s_range sp) ->
    exists r, range_spec_of name d = Some r /\ f_leb (r_step r) f_zero = false /\
      f_ltb (r_maximum r) (r_minimum r) = false /\ Z.of_nat (length (range_values r)) <= MAX_RANGE_VALUES;
  sp_conditions name c : (name, c) ∈ conditions sp ->
    known_to sp name /\
    forall key values, (key, values) ∈ c -> key <> name /\ known_to sp key /\ values <> [];
  sp_size : Z.of_nat (length (expand sp)) <= MAX_SPACE_CANDIDATES }.

Definition seen_by (sp_seen : seen_map) (keys : list string) : Prop := forall k, is_Some (sp_seen !! k) <-> k ∈ keys.

Lemma foldl_grows {A} (f : list space_error * seen_map -> A -> list space_error * seen_map) l st :
  (forall st x, exists extra, (f st x).1 = st.1 ++ extra) -> exists extra, (foldl f st l).1 = st.1 ++ extra.
Proof.
  intros Hf. revert st. induction l as [|x l IH]; intros st; cbn [foldl]; [exists []; by rewrite app_nil_r|].
  destruct (IH (f st x)) as [e2 ->], (Hf st x) as [e1 ->]. exists (e1 ++ e2). by rewrite app_assoc.
Qed.

Lemma foldl_clean {A} (f : list space_error * seen_map -> A -> list space_error * seen_map) l st :
  (forall st x, exists extra, (f st x).1 = st.1 ++ extra) -> (foldl f st l).1 = [] -> st.1 = [].
Proof. intros Hf. destruct (foldl_grows f l st Hf) as [extra ->]. by intros [? _]%app_nil. Qed.

Lemma tied_group_grows i g st : exists extra, (tied_group_errors i g st).1 = st.1 ++ extra.
Proof.
  destruct st as [errors seen]. unfold tied_group_errors. cbv zeta.
  destruct (foldl_grows (fun st key => see key (InTied i) st)
    (map (fun '(k, v) => (k, length v)) (where_ (fun kv => nonempty kv.2) (sorted_items g))).*1
    (errors ++ (if (length (map (fun '(k, v) => (k, length v)) (where_ (fun kv => nonempty kv.2) (sorted_items g))) <? 2)%nat
                then [TiesFewerThanTwo i] else [])
      ++ (if (1 <? length (remove_dups (map (fun '(k, v) => (k, length v)) (where_ (fun kv => nonempty kv.2) (sorted_items g))).*2))%nat
          then [TiedLengthsDiffer i] else []), seen)) as [extra ->]; [intros; apply see_errors|].
  cbn [fst]. eexists. by rewrite <- app_assoc.
Qed.

Lemma see_clean key w errors seen keys st :
  see key w (errors, seen) = st -> st.1 = [] -> seen_by seen keys -> NoDup keys ->
  errors = [] /\ NoDup (keys ++ [key]) /\ seen_by st.2 (keys ++ [key]).
Proof.
  unfold see. intros <- He Hs Hnd. destruct (seen !! key) eqn:E; cbn [fst snd] in *; [by apply app_nil in He as [_ ?]|].
  split; [done|]. split.
  - apply NoDup_app. split; [done|]. split; [|apply NoDup_singleton]. intros k Hk ->%list_elem_of_singleton.
    apply Hs in Hk as [? ?]. congruence.
  - intros k. rewrite lookup_insert_is_Some, elem_of_app, list_elem_of_singleton, (Hs k). destruct (decide (key = k)); naive_solver.
Qed.

Lemma see_all_clean keys w errors seen before st :
  foldl (fun st key => see key w st) (errors, seen) keys = st -> st.1 = [] -> seen_by seen before -> NoDup before ->
  errors = [] /\ NoDup (before ++ keys) /\ seen_by st.2 (before ++ keys).
Proof.
  revert errors seen before. induction keys as [|k keys IH]; intros errors seen before; cbn [foldl].
  { intros <- He Hs Hnd. by rewrite app_nil_r. }
  intros Hst He Hs Hnd. destruct (see k w (errors, seen)) as [e1 s1] eqn:E.
  assert (e1 = []) as ->.
  { apply (foldl_clean (fun st key => see key w st) keys (e1, s1)); [intros; apply see_errors|by rewrite Hst]. }
  destruct (see_clean k w errors seen before _ E eq_refl Hs Hnd) as (-> & Hnd' & Hs').
  destruct (IH [] s1 (before ++ [k]) Hst He Hs' Hnd') as (_ & H1 & H2). by rewrite <- app_assoc in H1, H2.
Qed.

Lemma tied_clean i g errors seen before st :
  tied_group_errors i g (errors, seen) = st -> st.1 = [] -> seen_by seen before -> NoDup before ->
  errors = [] /\ NoDup (before ++ (columns g).*1) /\ seen_by st.2 (before ++ (columns g).*1) /\
  (2 <= length (columns g))%nat /\
  (forall k vs k' vs', (k, vs) ∈ columns g -> (k', vs') ∈ columns g -> length vs = length vs').
Proof.
  unfold tied_group_errors. fold (columns g).
  set (lengths := map (fun '(k, v) => (k, length v)) (columns g)).
  assert (Hk : lengths.*1 = (columns g).*1).
  { subst lengths. induction (columns g) as [|[k v] l IH]; cbn; [done|by f_equal]. }
  assert (Hl : length lengths = length (columns g)) by apply length_map.
  assert (Hin : forall k vs, (k, vs) ∈ columns g -> length vs ∈ lengths.*2).
  { intros k vs Hin. apply list_elem_of_fmap. exists (k, length vs). split; [done|].
    apply list_elem_of_fmap. by exists (k, vs). }
  intros Hst He Hs Hnd. rewrite Hk in Hst.
  destruct (see_all_clean _ _ _ _ before _ Hst He Hs Hnd) as (Hall & H1 & H2).
  apply app_nil in Hall as [-> [Hfew Hrag]%app_nil].
  destruct (Nat.ltb_spec (length lengths) 2) as [|Hge] in Hfew; [done|].
  destruct (Nat.ltb_spec 1 (length (remove_dups lengths.*2))) as [|Hle] in Hrag; [done|].
  split_and!; [done|done|done|lia|]. intros k vs k' vs' Ha%Hin Hb%Hin.
  rewrite <- elem_of_remove_dups in Ha, Hb. destruct (remove_dups lengths.*2) as [|x [|y l]]; [by apply not_elem_of_nil in Ha| |cbn in Hle; lia].
  apply list_elem_of_singleton in Ha, Hb. congruence.
Qed.

Lemma tied_all_clean gs i errors seen before st :
  foldl (fun st '(i, g) => tied_group_errors (S i) g st) (errors, seen) (imap (fun j g => ((i + j)%nat, g)) gs) = st ->
  st.1 = [] -> seen_by seen before -> NoDup before ->
  errors = [] /\ NoDup (before ++ concat (map (fun g => (columns g).*1) gs)) /\
  seen_by st.2 (before ++ concat (map (fun g => (columns g).*1) gs)) /\
  forall g, g ∈ gs -> (2 <= length (columns g))%nat /\
    forall k vs k' vs', (k, vs) ∈ columns g -> (k', vs') ∈ columns g -> length vs = length vs'.
Proof.
  revert i errors seen before. induction gs as [|g gs IH]; intros i errors seen before; cbn [imap foldl map concat].
  { intros <- He Hs Hnd. rewrite app_nil_r. split_and!; try done. by intros ? ?%not_elem_of_nil. }
  intros Hst He Hs Hnd. destruct (tied_group_errors (S (i + 0)) g (errors, seen)) as [e1 s1] eqn:E.
  assert (Himap : imap ((fun j g0 => ((i + j)%nat, g0)) ∘ S) gs = imap (fun j g0 => ((S i + j)%nat, g0)) gs).
  { apply imap_ext. intros j x _. cbn. f_equal. lia. }
  rewrite Himap in Hst.
  assert (e1 = []) as ->.
  { apply (foldl_clean (fun st '(i, g) => tied_group_errors (S i) g st) (imap (fun j g => ((S i + j)%nat, g)) gs) (e1, s1));
      [intros st' [? ?]; apply tied_group_grows|by rewrite Hst]. }
  destruct (tied_clean _ _ _ _ before _ E eq_refl Hs Hnd) as (-> & H1 & H2 & H3 & H4).
  destruct (IH (S i) [] s1 _ Hst He H2 H1) as (_ & H5 & H6 & H7). rewrite <- !app_assoc in H5, H6.
  split_and!; [done|done|done|]. intros g' [->|Hg]%elem_of_cons; [done|by apply H7].
Qed.

Lemma range_clean entry errors seen before st :
  range_error_step (errors, seen) entry = st -> st.1 = [] -> seen_by seen before -> NoDup before ->
  errors = [] /\ NoDup (before ++ [entry.1]) /\ seen_by st.2 (before ++ [entry.1]) /\
  exists r, range_spec_of entry.1 entry.2 = Some r /\ f_leb (r_step r) f_zero = false /\
    f_ltb (r_maximum r) (r_minimum r) = false /\ Z.of_nat (length (range_values r)) <= MAX_RANGE_VALUES.
Proof.
  destruct entry as [name d]. unfold range_error_step, range_spec_of. cbn [fst snd].
  intros Hst He Hs Hnd.
  assert (Hfail : forall e, (errors ++ [e], seen) = st -> False) by (intros e <-; by apply app_nil in He as [_ ?]).
  destruct d as [mn mx stp|]; [|by destruct (Hfail _ Hst)].
  destruct (as_float mn) as [low|]; [|by destruct (Hfail _ Hst)].
  destruct (as_float mx) as [high|]; [|by destruct (as_float stp); destruct (Hfail _ Hst)].
  destruct (as_float stp) as [step|]; [|by destruct (Hfail _ Hst)].
  destruct (f_leb step f_zero) eqn:E1; [by destruct (Hfail _ Hst)|].
  destruct (f_ltb high low) eqn:E2; [by destruct (Hfail _ Hst)|]. cbv zeta in Hst. cbn [orb].
  destruct (see_clean name _ _ seen before _ Hst He Hs Hnd) as ([-> Hfew]%app_nil & H1 & H2).
  split_and!; [done|done|done|]. eexists. split_and!; [done|done|done|].
  destruct (Z.ltb_spec MAX_RANGE_VALUES (Z.of_nat (length (range_values (mkRangeSpec name low high step))))); [done|lia].
Qed.

Lemma ranges_clean l errors seen before st :
  foldl range_error_step (errors, seen) l = st -> st.1 = [] -> seen_by seen before -> NoDup before ->
  errors = [] /\ NoDup (before ++ l.*1) /\ seen_by st.2 (before ++ l.*1) /\
  forall name d, (name, d) ∈ l -> exists r, range_spec_of name d = Some r /\ f_leb (r_step r) f_zero = false /\
    f_ltb (r_maximum r) (r_minimum r) = false /\ Z.of_nat (length (range_values r)) <= MAX_RANGE_VALUES.
Proof.
  revert errors seen before. induction l as [|x l IH]; intros errors seen before; cbn [foldl].
  { intros <- He Hs Hnd. rewrite app_nil_r. split_and!; try done. by intros ? ? ?%not_elem_of_nil. }
  intros Hst He Hs Hnd. destruct (range_error_step (errors, seen) x) as [e1 s1] eqn:E.
  assert (e1 = []) as ->.
  { apply (foldl_clean range_error_step l (e1, s1)); [|by rewrite Hst].
    intros st' y. destruct (range_error_step_errors st' y) as (extra & -> & _). by exists extra. }
  destruct (range_clean x errors seen before _ E eq_refl Hs Hnd) as (-> & H1 & H2 & H3).
  destruct (IH [] s1 _ Hst He H2 H1) as (_ & H4 & H5 & H6). cbn [fmap list_fmap]. rewrite <- app_assoc in H4, H5.
  split_and!; [done|done|done|]. intros name d [<-|Hin]%elem_of_cons; [exact H3|by apply H6].
Qed.

Lemma bind_nil {A B} (f : A -> list B) l x : l ≫= f = [] -> x ∈ l -> f x = [].
Proof.
  induction l as [|y l IH]; cbn; [by intros _ ?%not_elem_of_nil|].
  intros [Hy Hl]%app_nil [->|Hin]%elem_of_cons; auto.
Qed.

Lemma accepted_size sp : space_errors sp = [] -> Z.of_nat (length (expand sp)) <= MAX_SPACE_CANDIDATES.
Proof.
  intros [Hl _]%space_errors_nil. unfold too_large in Hl. apply Z.ltb_ge in Hl. etransitivity; [|exact Hl].
  unfold axis_product. rewrite <- length_product. apply Nat2Z.inj_le. destruct (conditions sp) as [|c l] eqn:E.
  - by rewrite expand_no_conditions, length_map.
  - erewrite expand_conditions by done. etransitivity; [apply length_dedupe|]. by rewrite length_map.
Qed.

Lemma space_errors_sound sp : space_errors sp = [] -> sound_space sp.
Proof.
  intros Hok. pose proof (accepted_size sp Hok) as Hsize. unfold space_errors, _range_errors in Hok.
  set (seen0 := (fun _ => InGrid) <$> _grid sp) in Hok.
  assert (Hs0 : seen_by seen0 (map_to_list (_grid sp)).*1).
  { intros k. subst seen0. rewrite lookup_fmap, fmap_is_Some. split.
    - intros [v Hv]. apply list_elem_of_fmap. exists (k, v). split; [done|]. by apply elem_of_map_to_list.
    - intros ([k' v] & -> & Hv)%list_elem_of_fmap. exists v. by apply elem_of_map_to_list in Hv. }
  pose proof (NoDup_fst_map_to_list (_grid sp)) as Hnd0.
  destruct (foldl (fun st '(i, g) => tied_group_errors (S i) g st) ([], seen0) (imap pair (tied_groups sp))) as [e1 s1] eqn:E1.
  destruct (foldl range_error_step (e1, s1) (sorted_items (s_range sp))) as [e2 s2] eqn:E2.
  apply app_nil in Hok as [-> [Hcond _]%app_nil].
  assert (e1 = []) as ->.
  { apply (foldl_clean range_error_step (sorted_items (s_range sp)) (e1, s1)); [|by rewrite E2].
    intros st' y. destruct (range_error_step_errors st' y) as (extra & -> & _). by exists extra. }
  destruct (tied_all_clean (tied_groups sp) 0 [] seen0 _ _ E1 eq_refl Hs0 Hnd0) as (_ & Hnd1 & Hs1 & Htied).
  destruct (ranges_clean _ _ _ _ _ E2 eq_refl Hs1 Hnd1) as (_ & Hnd2 & Hs2 & Hrange).
  rewrite <- !app_assoc in Hnd2, Hs2. fold (varied sp) in Hnd2. fold (varied sp) in Hs2.
  assert (Hknown : forall k, bool_decide (is_Some (s2 !! k)) || bool_decide (is_Some (s_base sp !! k)) = true <-> known_to sp k).
  { intros k. rewrite orb_true_iff, !bool_decide_eq_true, (Hs2 k). done. }
  split; [done|exact Htied|exact Hrange| |exact Hsize].
  intros name c Hc. unfold _condition_errors in Hcond.
  apply (bind_nil _ _ (name, c)) in Hcond; [|by rewrite elem_of_sort_by]. cbv beta iota in Hcond.
  apply app_nil in Hcond as [Hn Hcl]. split.
  - apply Hknown. by destruct (_ || _).
  - intros key values Hkv. apply (bind_nil _ _ (key, values)) in Hcl; [|by rewrite elem_of_sort_by]. cbv beta iota in Hcl.
    apply app_nil in Hcl as [Hk Hv]. destruct (String.eqb_spec key name) as [|Hne]; [done|]. split_and!; [done| |by intros ->].
    apply Hknown.  revert Hk. by destruct (bool_decide (is_Some (s2 !! key))), (bool_decide (is_Some (s_base sp !! key))).
Qed.

(** ** A campaign that satisfies the rules *)
Definition over_ssh (db : database) (g : machine_group) : Prop :=
  forall rank m, (rank, m) ∈ members_by_rank db g -> driver_of m = "ssh_docker".

(** What every saved campaign is, in terms of the functions that run it. *)
Record sound `{Env} (db : database) (c : campaign) : Prop := {
  so_engine : c_engine c ∈ ALLOWED_ENGINES;
  so_policy : forall pid, c_policy_id c = Some pid -> is_Some (d_policies db !! pid) /\ settings_of c = c_policy_settings c;
  so_confirm : 0 <= c_confirm_top_k c /\ 1 <= c_confirm_repeats c;
  so_staged : 0 <= c_verify_top_k c /\ (0 < c_verify_top_k c <-> blank (c_verify_benchmark_slug c) = false);
  so_verify_minutes : 0 < c_verify_top_k c -> 1 <= c_verify_max_run_minutes c;
  so_space : sound_space (c_search_space c);
  so_schedule : (c_daily_start c = "" /\ c_daily_end c = "") \/
                exists s, from_campaign c = Some s /\ (c_schedule_timezone c <> "" -> zone s = c_schedule_timezone c);
  so_group : blank (c_node_group c) = false ->
             c_engine c = "sglang" /\
             (strip (c_node_group c) = c_node_group c ->
              exists g, resolve_group db (c_node_group c) = Some g /\ g_name g = c_node_group c /\ over_ssh db g) }.

Lemma error_if_nil {A} b (e : A) : error_if b e = [] -> b = false.
Proof. by destruct b. Qed.

Section sound.
Context `{Env}.

Lemma staging_sound body : staging_errors body = [] ->
  0 <= cc_verify_top_k body /\
  (0 < cc_verify_top_k body <-> blank (cc_verify_benchmark_slug body) = false) /\
  (0 < cc_verify_top_k body -> 1 <= cc_verify_max_run_minutes body).
Proof.
  unfold staging_errors. intros [H1%error_if_nil [H2%error_if_nil [H3%error_if_nil [H4%error_if_nil _]%app_nil]%app_nil]%app_nil]%app_nil.
  destruct (blank (cc_verify_benchmark_slug body)); cbn [negb andb] in H3; rewrite ?andb_true_r, ?andb_false_r in H2;
    repeat split; try done; lia.
Qed.

Lemma group_sound db body : node_group_errors db body = [] -> blank (cc_node_group body) = false ->
  cc_engine body = "sglang" /\ exists g, group_named db (strip (cc_node_group body)) = Some g /\ over_ssh db g.
Proof.
  unfold node_group_errors, blank. intros Hg Hb. rewrite Hb in Hg.
  destruct (String.eqb_spec (cc_engine body) "sglang") as [He|]; [|done]. cbn [negb] in Hg. split; [done|].
  destruct (group_named db (strip (cc_node_group body))) as [g|]; [|done]. exists g. split; [done|].
  destruct (sort_by _ _) eqn:Es in Hg; [|done]. pose proof (Permutation_nil (eq_ind _ (fun l => l ≡ₚ _) (sort_by_perm _ _) _ Es)) as Hnil.
  clear Hg Es. intros rank m Hm.
  destruct (String.eqb_spec (driver_of m) "ssh_docker") as [|Hd]; [done|]. exfalso.
  assert (driver_of m ∈ @nil string) as Hin; [|by apply not_elem_of_nil in Hin].
  rewrite <- Hnil. apply elem_of_remove_dups, elem_of_where. split.
  - apply list_elem_of_fmap. by exists (rank, m).
  - apply negb_true_iff. by apply String.eqb_neq.
Qed.

Lemma schedule_sound c : errors (c_daily_start c) (c_daily_end c) (c_schedule_timezone c) = [] ->
  (c_daily_start c = "" /\ c_daily_end c = "") \/ exists s, from_campaign c = Some s /\ (c_schedule_timezone c <> "" -> zone s = c_schedule_timezone c).
Proof.
  intros Hok. destruct (proj2 (accepted_schedule_is_kept c Hok)) as [(? & ? & _)|(s & ? & _ & _ & _ & _ & ?)]; [by left|].
  right. by exists s.
Qed.

Lemma named_resolves db name g : blank name = false -> group_named db name = Some g -> resolve_group db name = Some g.
Proof.
  intros Hb Hg. unfold resolve_group. destruct (String.eqb_spec name "") as [->|]; [by vm_compute in Hb|exact Hg].
Qed.

Lemma rules_sound db body cid owner_id : campaign_errors db body = [] -> sound db (campaign_row cid owner_id body).
Proof.
  unfold campaign_errors. destruct (bool_decide (cc_engine body ∈ ALLOWED_ENGINES)) eqn:He; [|done]. cbn [negb].
  intros [Hp [Hc%error_if_nil [Hst [Hg [Hsp [_ Hsc]%app_nil]%app_nil]%app_nil]%app_nil]%app_nil]%app_nil.
  destruct (staging_sound body Hst) as (H1 & H2 & H3). split; cbn [campaign_row c_engine c_policy_id c_policy_settings c_confirm_top_k
    c_confirm_repeats c_verify_top_k c_verify_benchmark_slug c_verify_max_run_minutes c_search_space c_node_group].
  - by apply bool_decide_eq_true in He.
  - intros pid Hpid. unfold policy_errors in Hp. rewrite Hpid in Hp. destruct (d_policies db !! pid); [|done].
    split; [done|]. apply error_if_nil, negb_false_iff in Hp. unfold settings_of. cbn. by rewrite Hp.
  - split; lia.
  - by split.
  - done.
  - apply space_errors_sound. by destruct (space_errors _).
  - apply schedule_sound. change (errors (cc_daily_start body) (cc_daily_end body) (cc_schedule_timezone body) = []).
    by destruct (errors _ _ _).
  - intros Hb. destruct (group_sound db body Hg Hb) as (He' & g & Hfound & Hssh). split; [done|]. intros Hs.
    rewrite Hs in Hfound. exists g. split; [by apply named_resolves|]. split; [|done].
    unfold group_named in Hfound. apply head_Some_elem_of, elem_of_where in Hfound as [_ Hn]. by apply String.eqb_eq in Hn.
Qed.

(** The fields that a window changes are not those the rules are about. *)
Lemma sound_window db c c' : sound db c ->
  c' = c <| c_status := c_status c' |> <| c_window_start := c_window_start c' |> <| c_window_end := c_window_end c' |>
         <| c_override_until := c_override_until c' |> -> sound db c'.
Proof. intros [? ? ? ? ? ? ? ?] ->. by split. Qed.
End sound.

Lemma hand_extensions_keeps takers cid ext s :
  let s' := (hand_extensions takers cid ext s).2 in
  mg_db s' = mg_db s /\ mg_owners s' = mg_owners s /\ mg_events s' = mg_events s.
Proof.
  revert s. induction ext as [|[name data] ext IH]; intros s; [done|]. cbn.
  destruct (takers name) as [keeps|]; [|done]. destruct (keeps cid data); [|done].
  destruct (IH (s <| mg_extensions ::= fun l => l ++ [(name, (cid, data))] |>)) as (-> & -> & ->). done.
Qed.

Lemma create_extensions_keeps takers cid ext s :
  let s' := (create_campaign_extensions takers cid ext s).2 in
  mg_db s' = mg_db s /\ mg_owners s' = mg_owners s /\ mg_events s' = mg_events s.
Proof. unfold create_campaign_extensions. case_match; [apply hand_extensions_keeps|done]. Qed.

Lemma extensions_refusal takers cid ext s why :
  (create_campaign_extensions takers cid ext s).1 = Some why -> exists names, why = ExtensionRefused names.
Proof.
  unfold create_campaign_extensions. case_match eqn:E; [clear E|intros [= <-]; by eexists].
  revert s. induction ext as [|[name data] ext IH]; intros s; [done|]. cbn.
  destruct (takers name) as [keeps|]; [|intros [= <-]; by eexists]. destruct (keeps cid data); [|intros [= <-]; by eexists].
  apply IH.
Qed.

(** C26: A campaign a plugin creates satisfies the rules every campaign does, in
    terms of what runs it.  Its engine is one the platform launches; its policy
    exists and its settings are read as they stand; its second stage has both
    halves or neither; its space varies no parameter twice, its tied groups
    have at least two columns of one length, its ranges are numbers with a
    positive step and few enough values, its conditions are on parameters it
    knows, and it expands to no more configurations than are allowed; a
    schedule it names is one the clock follows, in its own time zone; and its
    node group, if it names one, is for sglang, and, where the name has no
    blanks around it, is the group its runs will be placed on, every member
    reached over ssh.  It is the owner's, asleep unless it is started, and no
    other campaign changed.  A refused specification creates nothing, except
    that a plugin that refuses its part leaves a campaign nobody owns, for the
    caller to roll back. *)
Theorem managed_campaign_is_sound `{Env} json_list yaml_load takers owner owner_id spec start_for moment s answer s' :
  create_managed_campaign json_list yaml_load takers owner owner_id spec start_for moment s = (answer, s') ->
  match answer with
  | inr cid =>
      d_campaigns (mg_db s) !! cid = None /\ exists c, d_campaigns (mg_db s') = <[ cid := c ]> (d_campaigns (mg_db s)) /\
      sound (mg_db s) c /\ ow_plugin <$> mg_owners s' !! cid = Some (ow_plugin owner) /\ c_id c = cid /\
      match start_for with
      | Some length_ => c_status c = Active /\ c_window_start c = Some moment /\ c_window_end c = Some (moment + length_)
      | None => c_status c = if bool_decide (is_Some (from_campaign c)) then Scheduled else Draft
      end
  | inl (ExtensionRefused _) => mg_owners s' = mg_owners s /\ mg_events s' = mg_events s
  | inl _ => s' = s
  end.
Proof.
  unfold create_managed_campaign. destruct (not_for_managed spec); [|by intros [= <- <-]].
  destruct (read_recipe json_list yaml_load spec) as [why|body]; [by intros [= <- <-]|].
  destruct (campaign_errors (mg_db s) body) eqn:Hr; [|by intros [= <- <-]].
  set (cid := next_key (d_campaigns (mg_db s))). set (c := match start_for with Some _ => _ | None => _ end).
  assert (sound (mg_db s) c) as Hc.
  { apply (sound_window _ (campaign_row cid owner_id body)); [by apply rules_sound|].
    subst c. destruct start_for; [done|]. by destruct (bool_decide _). }
  pose proof (create_extensions_keeps takers cid (cc_extensions body) (put_campaign_row cid c s)) as (Hdb & Hown & Hev).
  destruct (create_campaign_extensions takers cid (cc_extensions body) (put_campaign_row cid c s)) as [refused s1] eqn:Ex.
  cbn [snd] in *. destruct refused as [why|].
  - destruct (extensions_refusal takers cid (cc_extensions body) (put_campaign_row cid c s) why) as [names ->];
      [by rewrite Ex|]. intros [= <- <-]. by rewrite Hown, Hev.
  - intros [= <- <-]. split; [apply next_key_fresh|]. exists c. cbn. rewrite Hdb, Hown. cbn. split; [done|]. split; [done|].
    rewrite lookup_insert_eq. split; [done|]. split; [subst c; destruct start_for; [done|]; by destruct (bool_decide _)|].
    subst c. destruct start_for; [done|].
    destruct (bool_decide (is_Some (from_campaign (campaign_row cid owner_id body)))) eqn:Ef;
      (replace (from_campaign _) with (from_campaign (campaign_row cid owner_id body)) by done); rewrite Ef; done.
Qed.

(** ** Stopping *)
Definition sessions_keyed (db : database) : Prop := forall sid ps, d_sessions db !! sid = Some ps -> ps_id ps = sid.

(** A session told to abort, unless it has been told already. *)
Definition aborted (moment : Z) (ps : policy_session) : policy_session :=
  match ps_abort_requested_at ps with Some _ => ps | None => ps <| ps_abort_requested_at := Some moment |> end.

Definition only_sessions (s s' : managed) : Prop :=
  mg_db s' = (mg_db s) <| d_sessions := d_sessions (mg_db s') |> /\ mg_owners s' = mg_owners s /\
  exists evs, mg_events s' = mg_events s ++ evs /\ Forall (fun e => me_kind e = "policy_session_abort_requested") evs.

Lemma only_sessions_trans s1 s2 s3 : only_sessions s1 s2 -> only_sessions s2 s3 -> only_sessions s1 s3.
Proof.
  intros (E1 & O1 & ev1 & V1 & F1) (E2 & O2 & ev2 & V2 & F2). split; [|split].
  - rewrite E2 at 1. rewrite E1. by destruct (mg_db s1).
  - by rewrite O2.
  - exists (ev1 ++ ev2). rewrite V2, V1, app_assoc. split; [done|]. by apply Forall_app.
Qed.

Section stopping.
Context (plugin : string) (cid moment : Z) (reason : string).

Lemma abort_one s ps : d_sessions (mg_db s) !! ps_id ps = Some ps ->
  only_sessions s (abort_session plugin cid moment reason s ps) /\
  d_sessions (mg_db (abort_session plugin cid moment reason s ps)) = <[ ps_id ps := aborted moment ps ]> (d_sessions (mg_db s)).
Proof.
  intros Hps. unfold abort_session, aborted. destruct (ps_abort_requested_at ps).
  - rewrite insert_id by done. split; [|done]. split; [by destruct (mg_db s)|]. split; [done|]. exists []. by rewrite app_nil_r.
  - split; [|done]. split; [by destruct s as [[] ? ? ?]|]. split; [done|]. eexists [_]. split; [done|]. by apply Forall_singleton.
Qed.

Lemma abort_all l s :
  Forall (fun ps => d_sessions (mg_db s) !! ps_id ps = Some ps) l -> NoDup (map ps_id l) ->
  let s' := foldl (abort_session plugin cid moment reason) s l in
  only_sessions s s' /\
  forall sid ps, d_sessions (mg_db s) !! sid = Some ps ->
    d_sessions (mg_db s') !! sid = Some (if bool_decide (sid ∈ map ps_id l) then aborted moment ps else ps).
Proof.
  revert s. induction l as [|p l IH]; intros s Hl Hnd; cbn.
  { split; [|done]. split; [by destruct (mg_db s)|]. split; [done|]. exists []. by rewrite app_nil_r. }
  apply Forall_cons in Hl as [Hp Hl]. apply NoDup_cons in Hnd as [Hfresh Hnd].
  destruct (abort_one s p Hp) as [Honly Hset].
  destruct (IH (abort_session plugin cid moment reason s p)) as [Honly' Hall]; [|done|].
  { rewrite Forall_forall in Hl |- *. intros q Hq. rewrite Hset, lookup_insert_ne; [by apply Hl|].
    intros E. apply Hfresh. rewrite E. by apply list_elem_of_fmap_2. }
  split; [by eapply only_sessions_trans|]. intros sid ps Hps.
  destruct (decide (sid = ps_id p)) as [->|Hne].
  - rewrite Hp in Hps. injection Hps as <-. rewrite (Hall _ (aborted moment p)) by (rewrite Hset; apply lookup_insert_eq).
    rewrite bool_decide_false by done. rewrite bool_decide_true by left. done.
  - rewrite (Hall sid ps) by (rewrite Hset; by rewrite lookup_insert_ne).
    f_equal. erewrite (bool_decide_ext (sid ∈ map ps_id l)); [done|]. rewrite elem_of_cons. naive_solver.
Qed.
End stopping.

Lemma live_ids db cid : sessions_keyed db ->
  let l := where_ (live_session_of cid) (rows_z (d_sessions db)) in
  Forall (fun ps => d_sessions db !! ps_id ps = Some ps) l /\ NoDup (map ps_id l) /\
  forall sid ps, d_sessions db !! sid = Some ps -> (sid ∈ map ps_id l <-> live_session_of cid ps = true).
Proof.
  intros Hk l. assert (forall ps, ps ∈ l <-> d_sessions db !! ps_id ps = Some ps /\ live_session_of cid ps = true) as Hl.
  { intros ps. subst l. rewrite elem_of_where, elem_of_rows_z. split.
    - intros [[k Hps] Hlive]. by rewrite (Hk k ps Hps).
    - intros [Hps Hlive]. eauto. }
  split; [|split].
  - apply Forall_forall. intros ps Hps. by apply Hl.
  - apply NoDup_map_where, rows_ids. apply Hk.
  - intros sid ps Hps. rewrite list_elem_of_fmap. split.
    + intros (q & -> & Hq). apply Hl in Hq as [Hq Hlive]. rewrite Hq in Hps. by injection Hps as <-.
    + intros Hlive. exists ps. rewrite Hl, (Hk sid ps Hps). done.
Qed.

Lemma where_live_nil {A} (p : A -> bool) (t : gmap Z A) :
  where_ p (rows_z t) = [] <-> forall k x, t !! k = Some x -> p x = false.
Proof.
  rewrite where_nil. split; intros Hn.
  - intros k x Hx. apply Hn, elem_of_rows_z. eauto.
  - intros x [k Hx]%elem_of_rows_z. eauto.
Qed.

Lemma shut_window_is_shut plugin cid moment reason c s c' s' : shut_window plugin cid moment reason c s = (c', s') ->
  mg_db s' = mg_db s /\ mg_owners s' = mg_owners s /\ c_status c' = c_status c /\ c_id c' = c_id c /\
  c_override_until c' = None /\ exists e, c_window_end c' = Some e /\ e <= moment.
Proof.
  unfold shut_window. cbn.
  destruct (c_window_end c) as [e|] eqn:Ee; [destruct (Z.ltb_spec moment e)|]; intros [= <- <-]; cbn; split_and!; try done.
  - exists moment. split; [done|lia].
  - exists e. split; [done|lia].
  - exists moment. split; [done|lia].
Qed.

(** No run fits a window that has ended. *)
Lemma ended_window_takes_no_run c e moment minutes : c_window_end c = Some e -> e <= moment -> 0 < minutes ->
  window_allows_run_of moment c minutes = false.
Proof.
  intros He Hm Hmin. unfold window_allows_run_of. rewrite He. unfold minute.
  destruct (match c_window_start c with Some _ => _ | None => _ end); [done|]. apply Z.leb_gt. lia.
Qed.

(** What a stop does to a campaign that is not done, before it looks at what is
    left: the campaign's row [c1] and the state [s3]. *)
Definition told_to_end (cid moment : Z) (s s3 : managed) (c c1 : campaign) : Prop :=
  d_campaigns (mg_db s3) = <[ cid := c1 ]> (d_campaigns (mg_db s)) /\ d_runs (mg_db s3) = d_runs (mg_db s) /\
  mg_owners s3 = mg_owners s /\ c_status c1 = c_status c /\ c_override_until c1 = None /\
  (exists e, c_window_end c1 = Some e /\ e <= moment) /\
  forall sid ps, d_sessions (mg_db s) !! sid = Some ps ->
    d_sessions (mg_db s3) !! sid = Some (if live_session_of cid ps then aborted moment ps else ps).

Lemma stop_tells_to_end plugin cid reason moment s c c1 s1 :
  sessions_keyed (mg_db s) -> shut_window plugin cid moment reason c s = (c1, s1) ->
  let s2 := put_campaign_row cid c1 s1 in
  let sessions := where_ (live_session_of cid) (rows_z (d_sessions (mg_db s2))) in
  told_to_end cid moment s (foldl (abort_session plugin cid moment reason) s2 sessions) c c1 /\
  (sessions = [] <-> forall k ps, d_sessions (mg_db s) !! k = Some ps -> live_session_of cid ps = false).
Proof.
  intros Hk Ew. destruct (shut_window_is_shut _ _ _ _ _ _ _ _ Ew) as (Hdb & Hown & Hst & Hid & Hov & Hend).
  set (s2 := put_campaign_row cid c1 s1). cbn zeta.
  assert (d_sessions (mg_db s2) = d_sessions (mg_db s)) as Hs2 by (subst s2; cbn; by rewrite Hdb).
  destruct (live_ids (mg_db s2) cid) as (Hl & Hnd & Hlive); [unfold sessions_keyed; rewrite Hs2; apply Hk|].
  destruct (abort_all plugin cid moment reason _ s2 Hl Hnd) as [(Hdb' & Hown' & _) Hall].
  split; [|rewrite Hs2; apply where_live_nil].
  unfold told_to_end. rewrite Hown'. split; [rewrite Hdb'; subst s2; cbn; by rewrite Hdb|].
  split; [rewrite Hdb'; subst s2; cbn; by rewrite Hdb|]. split; [subst s2; cbn; by rewrite Hown|].
  split_and!; [done|done|done|]. intros sid ps Hps. rewrite <- Hs2 in Hps. rewrite (Hall sid ps Hps).
  rewrite (bool_decide_ext _ _ (Hlive sid ps Hps)). by destruct (live_session_of cid ps).
Qed.

(** Stopping a campaign, by the plugin that owns it: from that moment its window takes no new run, each
    of its live policy sessions has been told to abort, and no run, no other session and no other campaign
    is touched.  The answer is yes exactly when nothing of it is live any more, and only then is the
    campaign done, so that asking on until the answer is yes ends once the platform has ended what was
    running.  Stopping what is done changes nothing. *)
Theorem stop_ends_a_campaign plugin cid reason moment s c :
  d_campaigns (mg_db s) !! cid = Some c -> owned plugin s cid = true -> sessions_keyed (mg_db s) ->
  exists answer s' c', stop_managed_campaign plugin cid reason moment s = (inr answer, s') /\
    d_campaigns (mg_db s') = <[ cid := c' ]> (d_campaigns (mg_db s)) /\
    d_runs (mg_db s') = d_runs (mg_db s) /\ mg_owners s' = mg_owners s /\ (answer = true <-> c_status c' = Done) /\
    if c_status c == Done then s' = s
    else
      (forall later minutes, moment <= later -> 0 < minutes -> window_allows_run_of later c' minutes = false) /\
      c_override_until c' = None /\
      (forall sid ps, d_sessions (mg_db s) !! sid = Some ps ->
         d_sessions (mg_db s') !! sid = Some (if live_session_of cid ps then aborted moment ps else ps)) /\
      (answer = true <-> (forall k r, d_runs (mg_db s) !! k = Some r -> live_run_of cid r = false) /\
                         (forall k ps, d_sessions (mg_db s) !! k = Some ps -> live_session_of cid ps = false)).
Proof.
  intros Hc Ho Hk. unfold stop_managed_campaign, _check_owner. rewrite Hc, Ho.
  destruct (c_status c == Done) eqn:Ed.
  { apply bool_decide_eq_true in Ed. exists true, s, c. rewrite insert_id by done. done. }
  apply bool_decide_eq_false in Ed.
  destruct (shut_window plugin cid moment reason c s) as [c1 s1] eqn:Ew.
  destruct (stop_tells_to_end plugin cid reason moment s c c1 s1 Hk Ew) as [Hend Hnone].
  set (s2 := put_campaign_row cid c1 s1) in *. set (sessions := where_ (live_session_of cid) _) in *.
  set (s3 := foldl _ s2 sessions) in *. clearbody s3. destruct Hend as (Hc3 & Hr3 & Ho3 & Hst & Hov & (e & He & Hle) & Hsess).
  pose proof (where_live_nil (live_run_of cid) (d_runs (mg_db s))) as Hruns. rewrite <- Hr3 in Hruns at 1.
  assert (forall c', c_window_end c' = c_window_end c1 -> forall later minutes, moment <= later -> 0 < minutes ->
            window_allows_run_of later c' minutes = false) as Hshut.
  { intros c' Hw later minutes Hl Hm. apply (ended_window_takes_no_run c' e); [by rewrite Hw|lia|done]. }
  destruct (where_ (live_run_of cid) _) as [|r0 rest] eqn:Eruns; [destruct sessions as [|p0 ps] eqn:Es|].
  - eexists true, _, (c1 <| c_status := Done |>). split; [done|]. cbn. rewrite Hc3. rewrite insert_insert_eq.
    split_and!; try done. { apply Hshut. done. } { split; [|done]. intros _. split; [by apply Hruns|by apply Hnone]. }
  - exists false, s3, c1. split_and!; try done; [by split; [|rewrite Hst]|by apply Hshut|].
    split; [done|]. intros [_ Hn]. apply Hnone in Hn. done.
  - exists false, s3, c1. split_and!; try done; [by split; [|rewrite Hst]|by apply Hshut|].
    split; [done|]. intros [Hn _]. apply Hruns in Hn. done.
Qed.

(** ** Why a window ended *)
Lemma substring_whole s : String.substring 0 (String.length s) s = s.
Proof. induction s as [|a s IH]; [done|]. cbn. by rewrite IH. Qed.

Lemma removeprefix_actor plugin : removeprefix "plugin:" (plugin_actor plugin) = plugin.
Proof.
  unfold removeprefix, plugin_actor. change (String.prefix "plugin:" ("plugin:" +:+ plugin)) with (String.prefix "" plugin).
  change (String.length ("plugin:" +:+ plugin)) with (7 + String.length plugin)%nat.
  replace (7 + String.length plugin - String.length "plugin:")%nat with (String.length plugin) by (cbn; lia).
  change (String.substring (String.length "plugin:") (String.length plugin) ("plugin:" +:+ plugin))
    with (String.substring 0 (String.length plugin) plugin).
  rewrite substring_whole. by destruct plugin.
Qed.

(** The last event that shut the campaign's window. *)
Definition stops (cid : Z) (e : managed_event) : bool :=
  bool_decide (me_campaign e = Some cid) && String.eqb (me_kind e) CAMPAIGN_STOPPED.

Lemma last_stop cid l e after : stops cid e = true -> Forall (fun e => stops cid e = false) after ->
  last (where_ (stops cid) (l ++ e :: after)) = Some e.
Proof.
  intros He Ha. rewrite where_app. change (e :: after) with ([e] ++ after). rewrite where_app.
  assert (where_ (stops cid) after = []) as ->; [by apply where_nil; rewrite Forall_forall in Ha|].
  rewrite app_nil_r. unfold where_ at 2. rewrite filter_cons_True by done. apply last_snoc.
Qed.

Definition stop_event (plugin : string) (cid : Z) (reason : string) (moment : Z) : managed_event :=
  mkManagedEvent (plugin_actor plugin) CAMPAIGN_STOPPED (Some cid) None
    [("reason", PText (or_stopped reason)); ("window_end", PMoment moment)].

Lemma stops_stop_event plugin cid reason moment : stops cid (stop_event plugin cid reason moment) = true.
Proof. unfold stops. cbn. by rewrite bool_decide_true. Qed.

Lemma stop_tells_events plugin cid reason moment s c c1 s1 :
  sessions_keyed (mg_db s) -> shut_window plugin cid moment reason c s = (c1, s1) ->
  let s2 := put_campaign_row cid c1 s1 in
  let sessions := where_ (live_session_of cid) (rows_z (d_sessions (mg_db s2))) in
  exists after, mg_events (foldl (abort_session plugin cid moment reason) s2 sessions) = mg_events s1 ++ after /\
    Forall (fun e => stops cid e = false) after.
Proof.
  intros Hk Ew s2. destruct (shut_window_is_shut _ _ _ _ _ _ _ _ Ew) as (Hdb & _).
  assert (d_sessions (mg_db s2) = d_sessions (mg_db s)) as Hs2 by (subst s2; cbn; by rewrite Hdb).
  destruct (live_ids (mg_db s2) cid) as (Hl & Hnd & _); [unfold sessions_keyed; rewrite Hs2; apply Hk|].
  destruct (abort_all plugin cid moment reason _ s2 Hl Hnd) as [(_ & _ & after & Hev & Hk') _].
  exists after. split; [done|]. eapply Forall_impl; [exact Hk'|]. intros e He. cbn in He. unfold stops. rewrite He.
  apply andb_false_r.
Qed.

Lemma or_stopped_twice reason : or_stopped (or_stopped reason) = or_stopped reason.
Proof. unfold or_stopped. destruct (String.eqb_spec reason "") as [|Hr]; [done|]. apply String.eqb_neq in Hr. by rewrite Hr. Qed.

Lemma stop_reason_after plugin cid reason moment s' c' end_ before after :
  c_id c' = cid -> c_window_end c' = Some end_ ->
  mg_events s' = before ++ stop_event plugin cid reason moment :: after -> Forall (fun e => stops cid e = false) after ->
  stop_reason s' c' = if 1000000 <? Z.abs (moment - end_) then None
                      else Some ("stopped (" +:+ or_stopped reason +:+ ") by " +:+ plugin).
Proof.
  intros Hid He Hev Ha. unfold stop_reason. rewrite He, Hid, Hev.
  change (where_ _ _) with (where_ (stops cid) (before ++ stop_event plugin cid reason moment :: after)).
  rewrite last_stop by (done || apply stops_stop_event).
  change (payload_get "window_end" _) with (Some (PMoment moment)). cbn iota.
  change (payload_get "reason" _) with (Some (PText (or_stopped reason))). cbn iota zeta.
  change (me_actor _) with (plugin_actor plugin). by rewrite removeprefix_actor, or_stopped_twice.
Qed.

(** What a campaign's runs were ended by is told as it was given: a window that a plugin shut while it
    was open is said to have been stopped, for the plugin's reason and by the plugin, for as long as the
    window stays where it was shut; once it is moved by more than a second, nothing is said. *)
Theorem stop_reason_is_the_one_given plugin cid reason moment s c :
  d_campaigns (mg_db s) !! cid = Some c -> c_id c = cid -> owned plugin s cid = true -> sessions_keyed (mg_db s) ->
  c_status c <> Done -> (forall e, c_window_end c = Some e -> moment < e) ->
  let s' := (stop_managed_campaign plugin cid reason moment s).2 in
  exists c', d_campaigns (mg_db s') !! cid = Some c' /\ c_window_end c' = Some moment /\
    stop_reason s' c' = Some ("stopped (" +:+ or_stopped reason +:+ ") by " +:+ plugin) /\
    forall moved, 1000000 < Z.abs (moment - moved) -> stop_reason s' (c' <| c_window_end := Some moved |>) = None.
Proof.
  intros Hc Hid Ho Hk Hd Hopen. unfold stop_managed_campaign, _check_owner. rewrite Hc, Ho.
  rewrite bool_decide_false by done.
  destruct (shut_window plugin cid moment reason c s) as [c1 s1] eqn:Ew.
  assert (c1 = c <| c_override_until := None |> <| c_window_end := Some moment |> /\
          mg_events s1 = mg_events s ++ [stop_event plugin cid reason moment]) as [Hc1 Hev1].
  { unfold shut_window in Ew. cbn in Ew. destruct (c_window_end c) as [e|] eqn:Ee; [|by injection Ew as <- <-].
    pose proof (Hopen e eq_refl). destruct (Z.ltb_spec moment e); [by injection Ew as <- <-|lia]. }
  destruct (stop_tells_to_end plugin cid reason moment s c c1 s1 Hk Ew) as [Hend _].
  destruct (stop_tells_events plugin cid reason moment s c c1 s1 Hk Ew) as (after & Hev & Hafter).
  set (sessions := where_ (live_session_of cid) _) in *. set (s3 := foldl _ _ sessions) in *. clearbody s3.
  destruct Hend as (Hc3 & _). rewrite Hev1, <- app_assoc in Hev. cbn [app] in Hev.
  pose proof (stop_reason_after plugin cid reason moment) as Hsay.
  set (s' := (match where_ (live_run_of cid) _ with [] => _ | _ => _ end).2).
  assert (exists c' after', d_campaigns (mg_db s') !! cid = Some c' /\ c_id c' = cid /\ c_window_end c' = Some moment /\
            mg_events s' = mg_events s ++ stop_event plugin cid reason moment :: after' /\
            Forall (fun e => stops cid e = false) after') as (c' & after' & Hc' & Hid' & Hw' & Hev' & Ha').
  { subst s'. destruct (where_ (live_run_of cid) _); [destruct sessions|]; cbn.
    - eexists _, _. split; [apply lookup_insert_eq|]. subst c1. split; [done|]. split; [done|].
      rewrite Hev, <- app_assoc. split; [done|]. apply Forall_app. split; [done|]. apply Forall_singleton.
      unfold stops. cbn. apply andb_false_r.
    - exists c1, after. rewrite Hc3. split; [apply lookup_insert_eq|]. by subst c1.
    - exists c1, after. rewrite Hc3. split; [apply lookup_insert_eq|]. by subst c1. }
  exists c'. split; [done|]. split; [done|]. split.
  - rewrite (Hsay s' c' moment _ _ Hid' Hw' Hev' Ha'). by rewrite Z.sub_diag.
  - intros moved Hu. rewrite (Hsay s' (c' <| c_window_end := Some moved |>) moved (mg_events s) after'); [|done|done|done|done].
    by rewrite (proj2 (Z.ltb_lt _ _) Hu).
Qed.

(** A plugin changes only campaigns of its own: each of the services that change one refuses any other
    plugin's, or a person's, and leaves everything as it was. *)
Theorem only_the_owner_changes_a_campaign plugin cid s : owned plugin s cid = false ->
  (forall start_for moment names,
     start_managed_campaign plugin cid start_for moment names s = (inl (NotRunByPlugin cid plugin), s)) /\
  (forall moved, extend_managed_campaign plugin cid moved s = (inl (NotRunByPlugin cid plugin), s)) /\
  (forall build applied moment, pin_managed_dataset plugin cid build applied moment s = (inl (NotRunByPlugin cid plugin), s)) /\
  (forall reason moment, stop_managed_campaign plugin cid reason moment s = (inl (NotRunByPlugin cid plugin), s)).
Proof.
  intros Ho. split_and!; intros; unfold start_managed_campaign, extend_managed_campaign, pin_managed_dataset,
    stop_managed_campaign, _check_owner; rewrite Ho; by destruct (d_campaigns (mg_db s) !! cid).
Qed.

(** ** A campaign that is stopped with a run of it still going *)
Definition managed_db : database :=
  sample_db <| d_campaigns := {[ 1 := sample_campaign <| c_window_end := Some 9000000 |> ]} |>.
Definition sample_managed : managed := mkManaged managed_db {[ 1 := mkOwner "submissions" "Submission #42" "/submissions/42" ]} [] [].

Lemma managed_sessions_keyed : sessions_keyed (mg_db sample_managed).
Proof. intros sid ps Hps. vm_compute in Hps. destruct sid; done. Qed.

Lemma stop_ends_a_campaign_witness :
  exists s' c', stop_managed_campaign "submissions" 1 "withdrawn" 5000000 sample_managed = (inr false, s') /\
    d_campaigns (mg_db s') = <[ 1 := c' ]> (d_campaigns managed_db) /\
    window_allows_run_of 6000000 c' 10 = false /\ c_status c' <> Done.
Proof.
  destruct (stop_ends_a_campaign "submissions" 1 "withdrawn" 5000000 sample_managed
              (sample_campaign <| c_window_end := Some 9000000 |>))
    as (answer & s' & c' & E & Hc & _ & _ & Hans & Hrest); [by vm_compute|by vm_compute|apply managed_sessions_keyed|].
  assert (answer = false) as -> by (apply (f_equal (fun r => match r.1 with inr b => b | inl _ => true end)) in E; cbn [fst] in E; rewrite <- E; by vm_compute).
  exists s', c'. split; [done|]. split; [done|]. cbn [bool_decide] in Hrest. rewrite bool_decide_false in Hrest by done.
  destruct Hrest as (Hw & _). split; [apply Hw; lia|]. intros Hd. by apply Hans in Hd.
Defined.

Lemma stop_reason_is_the_one_given_witness :
  exists c', d_campaigns (mg_db (stop_managed_campaign "submissions" 1 "withdrawn" 5000000 sample_managed).2) !! 1 = Some c' /\
    stop_reason (stop_managed_campaign "submissions" 1 "withdrawn" 5000000 sample_managed).2 c'
    = Some "stopped (withdrawn) by submissions".
Proof.
  destruct (stop_reason_is_the_one_given "submissions" 1 "withdrawn" 5000000 sample_managed
              (sample_campaign <| c_window_end := Some 9000000 |>)) as (c' & Hc' & _ & Hr & _);
    [by vm_compute|done|by vm_compute|apply managed_sessions_keyed|done|by intros e [= <-]|].
  by exists c'.
Defined.

Lemma only_the_owner_changes_a_campaign_witness :
  owned "other" sample_managed 1 = false /\
  stop_managed_campaign "other" 1 "" 5000000 sample_managed = (inl (NotRunByPlugin 1 "other"), sample_managed).
Proof. split; [by vm_compute|]. apply (only_the_owner_changes_a_campaign "other" 1 sample_managed). by vm_compute. Defined.

(** ** A node group written with a blank around its name

    The rules look up the stripped name; the row keeps the blank, and no group
    is found when its runs are placed: each run takes one machine. *)
Definition grouped_db : database :=
  empty_database <| d_groups := {[ 1 := MachineGroup 1 "rack1" ]} |>.
Example padded_group_is_accepted_and_lost (body : CampaignCreate) :
  cc_node_group body = " rack1" -> cc_engine body = "sglang" ->
  node_group_errors grouped_db body = [] /\ resolve_group grouped_db (cc_node_group body) = None.
Proof. intros Hg He. unfold node_group_errors. rewrite Hg, He. by vm_compute. Qed.

(** A campaign on a group of two machines, at night, over four configurations. *)
Definition night_body : CampaignCreate :=
  mkCreate "glm nights" "sglang" "lmsysorg/sglang:v0.5" "/models/glm" "glm" sample_space [] None "" "" [] "throughput"
    None None 8000 [] [] false false [] "rack1" [] None None "22:00" "06:00" "" None 60 30 None sample_settings
    3 2 "" 0 [] 60 "" "" "use_current" [].
Definition quiet_managed : managed := mkManaged (sample_db <| d_groups := {[ 1 := MachineGroup 1 "rack1" ]} |>
  <| d_members := {[ (1, 0) := 1; (1, 1) := 2 ]} |>) ∅ [] [].
Definition night_created :=
  create_managed_campaign (fun _ => None) (fun _ => None) (fun _ => None) (mkOwner "submissions" "Submission #7" "") 1
    night_body None 5000000 quiet_managed.

Lemma managed_campaign_is_sound_witness :
  night_created.1 = inr 2 /\
  exists c, d_campaigns (mg_db night_created.2) !! 2 = Some c /\ sound (mg_db quiet_managed) c /\ c_status c = Scheduled /\
    exists g, resolve_group (mg_db quiet_managed) "rack1" = Some g /\ over_ssh (mg_db quiet_managed) g.
Proof.
  assert (night_created.1 = inr 2) as Hcid by (vm_compute; reflexivity).
  pose proof (managed_campaign_is_sound (fun _ => None) (fun _ => None) (fun _ => None) (mkOwner "submissions" "Submission #7" "") 1
    night_body None 5000000 quiet_managed (inr 2) night_created.2) as Ht.
  assert (night_created = (inr 2, night_created.2)) as E by (rewrite <- Hcid; apply surjective_pairing).
  specialize (Ht E). cbv beta iota in Ht. destruct Ht as (_ & c & Hc & Hs & _ & _ & Hst).
  assert (d_campaigns (mg_db night_created.2) !! 2 = Some c) as Hrow by (rewrite Hc; apply lookup_insert_eq).
  assert ((fun c => (c_status c, c_node_group c)) <$> d_campaigns (mg_db night_created.2) !! 2 = Some (Scheduled, "rack1")) as Hf
    by (vm_compute; reflexivity).
  rewrite Hrow in Hf. injection Hf as Hstatus Hgroup.
  split; [exact Hcid|]. exists c. split; [done|]. split; [done|]. split; [done|].
  destruct (so_group _ _ Hs) as (_ & Hg); [by rewrite Hgroup|]. rewrite Hgroup in Hg.
  destruct Hg as (g & Hg & _ & Hssh); [by vm_compute|]. by exists g.
Defined.
