(* ===== verification/Drafts.v ===== *)
(** A campaign as a specification, and drafting one from what the platform
    already knows ([app/campaign_spec.py], [control/baseline.py:resolve_baseline]),
    with what it is drafted from: the known parameters of each engine, and what a
    value typed for one is stored as ([app/catalog.py]); the one shape every
    engine configuration converts through ([control/launch_config.py]).

    Rows are read in the order of their keys, where the code gives none.  The
    base of a drafted space holds scalars. *)
From Stdlib Require Import Ascii.
From S2P Require Import Failures Logs Model States Packing Timing World Samples Occupancy Fleet Exclusive Finish Placement Nights Clock.
From S2P Require Import Prelude Float Values Texts Documents Space Validation Flags Commands ExtraArgs Addresses Recipes.
From S2P Require Import Composition Conversion Scripts Rules Objectives.
#[local] Open Scope string_scope.
#[local] Open Scope list_scope.
#[local] Open Scope Z_scope.

(** * The known parameters of each engine ([app/catalog.py]) *)

Inductive ParamType := PInt | PFloat | PBool | PStr | PEnum.
#[export] Instance ParamType_eq : EqDecision ParamType. Proof. solve_decision. Defined.

Record param := mkParam {
  pr_name : string;
  pr_type : ParamType;
  pr_help : string;
  pr_tunable : bool;
  pr_choices : option (list scalar);
  pr_min : option float;
  pr_max : option float;
  pr_example : option (list scalar) }.
Definition _p (name : string) (type_ : ParamType) (help_ : string) (tunable : bool) (choices : option (list scalar))
    (minimum maximum : option float) (example : option (list scalar)) : param :=
  mkParam name type_ help_ tunable choices minimum maximum example.

Definition SGLANG_PARAMS : list param := [
  _p "nccl_port" PInt
    "Port for NCCL bootstrap. Set it when two multi-GPU runs share a host and collide during distributed init."
    false (None) (None) (None) (None);
  _p "dist_init_addr" PStr
    "host:port for distributed init. Same reason as nccl_port — only needed for co-tenant multi-GPU runs."
    false (None) (None) (None) (None);
  _p "tp" PInt
    "Tensor parallel size — GPUs one replica spans."
    true (None) (Some (f_of_Z 1)) (Some (f_of_Z 16)) (Some [VInt 2; VInt 4]);
  _p "dp" PInt
    "Data parallel size — independent replicas."
    true (None) (Some (f_of_Z 1)) (Some (f_of_Z 16)) (None);
  _p "pp" PInt
    "Pipeline parallel size (multi-node)."
    false (None) (Some (f_of_Z 1)) (Some (f_of_Z 8)) (None);
  _p "ep" PInt
    "Expert parallel size (MoE models only)."
    true (None) (Some (f_of_Z 1)) (Some (f_of_Z 16)) (None);
  _p "enable_dp_attention" PBool
    "Data-parallel attention; helps some MoE models."
    true (None) (None) (None) (None);
  _p "mem_fraction_static" PFloat
    "Fraction of VRAM for weights + KV cache. Higher = more cache, less headroom."
    true (None) (Some (f_of_ratio 1 10)) (Some (f_of_ratio 99 100)) (Some [VFloat (f_of_ratio 85 100); VFloat (f_of_ratio 9 10)]);
  _p "context_length" PInt
    "Max context window served."
    false (None) (None) (None) (None);
  _p "page_size" PInt
    "KV cache page size (tokens)."
    true (Some [VInt 1; VInt 16; VInt 32; VInt 64; VInt 128]) (None) (None) (None);
  _p "enable_hierarchical_cache" PBool
    "Tiered KV cache using host DRAM as L2."
    true (None) (None) (None) (None);
  _p "hicache_size" PInt
    "Host DRAM for L2 cache, GB PER RANK (not per machine)."
    true (None) (None) (None) (None);
  _p "radix_eviction_policy" PEnum
    "Radix cache eviction policy."
    true (Some [VStr "lru"; VStr "lfu"]) (None) (None) (None);
  _p "disable_radix_cache" PBool
    "Turn prefix caching off (usually a regression)."
    false (None) (None) (None) (None);
  _p "kv_cache_dtype" PEnum
    "KV cache precision; fp8 roughly doubles cache capacity."
    true (Some [VStr "auto"; VStr "fp8_e5m2"; VStr "fp8_e4m3"]) (None) (None) (None);
  _p "chunked_prefill_size" PInt
    "Tokens per prefill chunk. Trades TTFT against decode interference."
    true (None) (None) (None) (Some [VInt 8192; VInt 16384; VInt 32768]);
  _p "max_running_requests" PInt
    "Cap on concurrent running requests."
    true (None) (None) (None) (None);
  _p "max_prefill_tokens" PInt
    "Token budget for a prefill batch."
    true (None) (None) (None) (None);
  _p "schedule_policy" PEnum
    "Request scheduling policy."
    true (Some [VStr "fcfs"; VStr "lpm"; VStr "dfs-weight"; VStr "random"]) (None) (None) (None);
  _p "schedule_conservativeness" PFloat
    "Lower admits more aggressively; higher is safer under memory pressure."
    true (None) (Some (f_of_ratio 1 10)) (Some (f_of_Z 2)) (None);
  _p "mamba_scheduler_strategy" PStr
    "Scheduler strategy for Mamba/hybrid models."
    false (None) (None) (None) (None);
  _p "attention_backend" PEnum
    "Attention kernel implementation."
    true (Some [VStr "flashinfer"; VStr "triton"; VStr "torch_native"; VStr "fa3"]) (None) (None) (None);
  _p "cuda_graph_max_bs" PInt
    "Largest batch size captured in a CUDA graph."
    true (None) (None) (None) (None);
  _p "disable_cuda_graph" PBool
    "Disable CUDA graphs (slower; use to isolate issues)."
    false (None) (None) (None) (None);
  _p "enable_torch_compile" PBool
    "torch.compile the model; long startup cost."
    true (None) (None) (None) (None);
  _p "torch_compile_max_bs" PInt
    "Max batch size for torch.compile."
    false (None) (None) (None) (None);
  _p "disable_custom_all_reduce" PBool
    "Fall back to NCCL all-reduce."
    false (None) (None) (None) (None);
  _p "quantization" PEnum
    "Weight quantization."
    true (Some [VStr "fp8"; VStr "awq"; VStr "gptq"; VStr "w8a8_int8"; VStr "modelopt_fp4"]) (None) (None) (None);
  _p "speculative_algorithm" PEnum
    "Speculative decoding algorithm."
    true (Some [VStr "EAGLE"; VStr "EAGLE3"; VStr "NEXTN"; VStr "STANDALONE"]) (None) (None) (None);
  _p "speculative_num_steps" PInt
    "Draft steps per verification."
    true (None) (None) (None) (Some [VInt 3; VInt 5]);
  _p "speculative_eagle_topk" PInt
    "Draft top-k per step."
    true (None) (None) (None) (None);
  _p "speculative_num_draft_tokens" PInt
    "Draft tokens verified per step."
    true (None) (None) (None) (None);
  _p "trust_remote_code" PBool
    "Allow custom modelling code from the checkpoint."
    false (None) (None) (None) (None);
  _p "reasoning_parser" PStr
    "Parser for reasoning-model output."
    false (None) (None) (None) (None);
  _p "tool_call_parser" PStr
    "Parser for tool-call output."
    false (None) (None) (None) (None);
  _p "enable_metrics" PBool
    "Expose Prometheus metrics."
    false (None) (None) (None) (None);
  _p "enable_cache_report" PBool
    "Report cache hit rates in responses."
    false (None) (None) (None) (None);
  _p "stream_response_default_include_usage" PBool
    "Include usage in streamed chunks."
    false (None) (None) (None) (None);
  _p "tokenizer_worker_num" PInt
    "Tokenizer worker processes."
    false (None) (None) (None) (None)].

Definition VLLM_PARAMS : list param := [
  _p "tensor_parallel_size" PInt
    "Tensor parallel size."
    true (None) (Some (f_of_Z 1)) (Some (f_of_Z 16)) (Some [VInt 2; VInt 4]);
  _p "pipeline_parallel_size" PInt
    "Pipeline parallel size."
    false (None) (Some (f_of_Z 1)) (Some (f_of_Z 8)) (None);
  _p "data_parallel_size" PInt
    "Data parallel size."
    true (None) (Some (f_of_Z 1)) (None) (None);
  _p "gpu_memory_utilization" PFloat
    "Fraction of VRAM to use."
    true (None) (Some (f_of_ratio 1 10)) (Some (f_of_ratio 99 100)) (Some [VFloat (f_of_ratio 85 100); VFloat (f_of_ratio 9 10)]);
  _p "max_model_len" PInt
    "Max context window served."
    false (None) (None) (None) (None);
  _p "max_num_seqs" PInt
    "Max concurrent sequences."
    true (None) (None) (None) (None);
  _p "max_num_batched_tokens" PInt
    "Token budget per batch."
    true (None) (None) (None) (Some [VInt 8192; VInt 16384]);
  _p "enable_chunked_prefill" PBool
    "Chunk prefills to protect decode latency."
    true (None) (None) (None) (None);
  _p "enable_prefix_caching" PBool
    "Reuse KV for shared prefixes."
    true (None) (None) (None) (None);
  _p "block_size" PInt
    "KV cache block size."
    true (Some [VInt 8; VInt 16; VInt 32]) (None) (None) (None);
  _p "kv_cache_dtype" PEnum
    "KV cache precision."
    true (Some [VStr "auto"; VStr "fp8"; VStr "fp8_e5m2"; VStr "fp8_e4m3"]) (None) (None) (None);
  _p "quantization" PEnum
    "Weight quantization."
    true (Some [VStr "fp8"; VStr "awq"; VStr "gptq"; VStr "compressed-tensors"]) (None) (None) (None);
  _p "scheduling_policy" PEnum
    "Scheduling policy."
    true (Some [VStr "fcfs"; VStr "priority"]) (None) (None) (None);
  _p "enforce_eager" PBool
    "Disable CUDA graphs."
    false (None) (None) (None) (None);
  _p "swap_space" PInt
    "CPU swap space per GPU, GiB."
    false (None) (None) (None) (None);
  _p "trust_remote_code" PBool
    "Allow custom modelling code."
    false (None) (None) (None) (None)].

Definition CATALOG : list (string * list param) := [("sglang", SGLANG_PARAMS); ("vllm", VLLM_PARAMS)].
Definition params_for (engine : string) : list param := default [] (dict_get engine CATALOG).
Definition lookup_param (engine name : string) : option param :=
  List.find (fun p => String.eqb (pr_name p) name) (params_for engine).

(** The value of what was typed: as it is where it does not read. *)
Definition coerce_value (engine name : string) (raw : doc) : doc :=
  match lookup_param engine name, raw with
  | None, _ | _, Sc VNone | _, Sc (VBool _) => raw
  | Some spec, _ =>
      let text := strip (doc_str raw) in
      match pr_type spec with
      | PInt => match parse_int text with Some z => Sc (VInt z) | None => raw end
      | PFloat => match parse_float text with Some x => Sc (VFloat x) | None => raw end
      | PBool => Sc (VBool (bool_decide (lower text ∈ ["1"; "true"; "yes"; "on"])))
      | PStr | PEnum => raw
      end
  end.

(** * The one shape every engine configuration converts through
    ([control/launch_config.py]): a recipe, a campaign's columns with a
    candidate's knobs, a production baseline, a pasted command *)

Definition SUBSTRATE_FIELDS : list string := ["service_port"; "served_model_name"].
Definition IDENTITY_FIELDS : list string := ["image"; "model_path"; "extra_env"; "extra_volumes"].

Record LaunchConfig := mkLaunchConfig {
  lc_engine : string;
  lc_image : string;
  lc_model_path : string;
  lc_served_model_name : string;
  lc_service_port : Z;
  lc_engine_args : tree;
  lc_extra_env : list (string * string);
  lc_extra_volumes : list (string * string);
  lc_gpu_type : string }.
#[export] Instance eta_launch_config : Eta LaunchConfig := fun r =>
  mkLaunchConfig (lc_engine r) (lc_image r) (lc_model_path r) (lc_served_model_name r) (lc_service_port r)
    (lc_engine_args r) (lc_extra_env r) (lc_extra_volumes r) (lc_gpu_type r).

Definition cards (l : LaunchConfig) : Z := cards_used (flat (lc_engine_args l)).
(** In the canonical vocabulary. *)
Definition normalized (l : LaunchConfig) : LaunchConfig :=
  l <| lc_engine_args := (normalize_args (lc_engine l) (lc_engine_args l)).1 |>.

Definition or_text (s other : string) : string := if String.eqb s "" then other else s.

(** ** Conversions *)
Definition from_recipe (r : Recipe) (model_path served_model_name : string) (service_port : Z) (gpu_type : string)
    : LaunchConfig :=
  normalized (mkLaunchConfig (rc_engine r) (image r) model_path (or_text served_model_name (served_name r)) service_port
                (engine_flags r) (recipe_env r) [] gpu_type).

(** What a launch reads of a campaign's row: its columns (with its recipe), the
    base of its search space, where its weights are and which port it asks for. *)
Record campaign_columns := mkColumns {
  cm_launch : CampaignRecipe;
  cm_base : tree;
  cm_model_path : string;
  cm_service_port : Z }.

(** [{**a, **b}] on texts is [dict_update]. *)
Definition from_campaign (c : campaign_columns) (engine_args : option tree) (gpu_type : string)
    : apply_error + LaunchConfig :=
  let args := default (cm_base c) engine_args in
  let f := cr_fields (cm_launch c) in
  match cr_recipe (cm_launch c) with
  | Some _ =>
      match recipe_for (cm_launch c) args with
      | inl why => inl why
      | inr r => inr (from_recipe r (cm_model_path c) (lf_served_model_name f) (cm_service_port c) gpu_type)
      end
  | None =>
      let '(args, config_env) := split_env_items args in
      inr (normalized (mkLaunchConfig (lf_engine f) (lf_image f) (cm_model_path c) (lf_served_model_name f)
                         (cm_service_port c) args (dict_update (lf_extra_env f) config_env) (lf_extra_volumes f) gpu_type))
  end.

(** A production reference ([db/models.py:Baseline]). *)
Record baseline_row := mkBaseline {
  bl_id : Z;
  bl_served_model_name : string;
  bl_engine : string;
  bl_card_type : string;
  bl_engine_args : tree;
  bl_source : string;
  bl_notes : string;
  bl_image : string;
  bl_model_path : string;
  bl_service_port : Z;
  bl_extra_env : list (string * string);
  bl_extra_volumes : list (string * string) }.
#[export] Instance eta_baseline_row : Eta baseline_row := fun r =>
  mkBaseline (bl_id r) (bl_served_model_name r) (bl_engine r) (bl_card_type r) (bl_engine_args r) (bl_source r)
    (bl_notes r) (bl_image r) (bl_model_path r) (bl_service_port r) (bl_extra_env r) (bl_extra_volumes r).

Definition from_baseline (b : baseline_row) : LaunchConfig :=
  normalized (mkLaunchConfig (or_text (bl_engine b) "sglang") (bl_image b) (bl_model_path b) (bl_served_model_name b)
                (bl_service_port b) (bl_engine_args b) (bl_extra_env b) (bl_extra_volumes b) (bl_card_type b)).

(** From a pasted launch command; the parser names no card type. *)
Definition from_parsed (p : pasted) (engine : string) : LaunchConfig :=
  normalized (mkLaunchConfig (or_text (pa_engine p) engine) (pa_image p) (pa_model_path p) (pa_served_model_name p)
                (pa_service_port p) (pa_engine_args p) (pa_extra_env p) (pa_extra_volumes p) "").

(** The config written onto a baseline: what it serves and on which cards stay. *)
Definition apply_to_baseline (l : LaunchConfig) (b : baseline_row) : baseline_row :=
  b <| bl_engine := lc_engine l |> <| bl_image := lc_image l |> <| bl_model_path := lc_model_path l |>
    <| bl_service_port := lc_service_port l |> <| bl_engine_args := lc_engine_args l |>
    <| bl_extra_env := lc_extra_env l |> <| bl_extra_volumes := lc_extra_volumes l |>.

(** The columns a new campaign's form is filled with. *)
Definition as_campaign_fields (l : LaunchConfig) : campaign_columns :=
  mkColumns (mkCampaignRecipe None
               (mkLaunchFields (lc_engine l) (lc_image l) (lc_served_model_name l) [] (lc_extra_env l) (lc_extra_volumes l) 1 ""))
    (lc_engine_args l) (lc_model_path l) (if lc_service_port l =? 0 then 28200 else lc_service_port l).

(** ** What the conversions keep *)
Lemma normalized_twice l : lc_engine l ∈ engines -> normalized (normalized l) = normalized l.
Proof. intros He. destruct l. unfold normalized. cbn -[normalize_args]. by rewrite normalize_args_idempotent. Qed.

Lemma or_text_set s other : s <> "" -> or_text s other = s.
Proof. intros Hs. unfold or_text. by apply String.eqb_neq in Hs as ->. Qed.

Lemma split_plain args : Forall (fun kv => is_env_key kv.1 = false) args -> split_env_items args = (args, []).
Proof.
  intros Ha. unfold split_env_items. f_equal.
  - induction Ha as [|[k v] args Hk Ha IH]; [done|]. rewrite filter_cons_True by done. by rewrite IH.
  - induction Ha as [|[k v] args Hk Ha IH]; [done|]. cbn -[is_env_key] in *. by rewrite Hk.
Qed.

(** A configuration survives the rows it travels through.  Captured onto a production baseline it reads
    back as itself, under the name and the cards the baseline is keyed by; a baseline written with its own
    configuration is read the same; and a campaign filled in from a baseline launches, with no knob
    changed, exactly what the baseline runs, but for a port nobody named. *)
Theorem configuration_travels l b : lc_engine l ∈ engines ->
  from_baseline (apply_to_baseline (normalized l) b)
    = (normalized l) <| lc_served_model_name := bl_served_model_name b |> <| lc_gpu_type := bl_card_type b |> /\
  (or_text (bl_engine b) "sglang" ∈ engines ->
   from_baseline (apply_to_baseline (from_baseline b) b) = from_baseline b /\
   (Forall (fun kv => is_env_key kv.1 = false) (lc_engine_args (from_baseline b)) ->
    from_campaign (as_campaign_fields (from_baseline b)) None (bl_card_type b)
    = inr ((from_baseline b) <| lc_service_port := (if bl_service_port b =? 0 then 28200 else bl_service_port b) |>))).
Proof.
  assert (forall e, e ∈ engines -> e <> "") as Hne.
  { intros e He ->. revert He. by apply (bool_decide_unpack ("" ∉ engines)). }
  intros He. split.
  - unfold from_baseline, apply_to_baseline. destruct l. cbn -[normalize_args engines] in *.
    rewrite or_text_set by by apply Hne. unfold normalized. cbn -[normalize_args]. by rewrite normalize_args_idempotent.
  - intros Hb. split.
    + unfold from_baseline, apply_to_baseline. destruct b. cbn -[normalize_args engines or_text] in *.
      rewrite or_text_set by by apply Hne. unfold normalized. cbn -[normalize_args]. by rewrite normalize_args_idempotent.
    + intros Hplain. unfold from_campaign, as_campaign_fields. cbn -[normalize_args engines split_env_items from_baseline dict_update].
      rewrite split_plain by done. cbn -[normalize_args engines from_baseline].
      unfold from_baseline in *. destruct b. unfold normalized. cbn -[normalize_args engines or_text] in *.
      by rewrite normalize_args_idempotent.
Qed.

(** ** Production of a model *)
Definition sample_production (engine : string) : baseline_row :=
  mkBaseline 7 "qwen" engine "H100" [("tensor_parallel_size", Sc (VInt 4)); ("page_size", Sc (VInt 64))] "hand-over" ""
    "registry/engine:1" "/weights/qwen" 0 [] [].

Lemma configuration_travels_witness :
  lc_engine (from_baseline (sample_production "sglang")) ∈ engines /\
  lc_engine_args (from_baseline (sample_production "sglang")) = [("tp", Sc (VInt 4)); ("page_size", Sc (VInt 64))] /\
  from_campaign (as_campaign_fields (from_baseline (sample_production "sglang"))) None "H100"
  = inr ((from_baseline (sample_production "sglang")) <| lc_service_port := 28200 |>).
Proof.
  assert (lc_engine (from_baseline (sample_production "sglang")) ∈ engines) as He by by left.
  split; [done|]. split; [by vm_compute|].
  destruct (configuration_travels (from_baseline (sample_production "sglang")) (sample_production "sglang") He) as [_ H].
  destruct H as [_ H]; [done|]. apply H. by vm_compute; repeat constructor.
Defined.

Definition MAX_DRAFT_CANDIDATES : Z := 24.

(** The campaign as the body that would create it again: what was asked once,
    and what belongs to one run of it, is left out. *)
Definition spec_of (row : CampaignCreate) (extensions : list (string * tree)) : CampaignCreate :=
  row <| cc_extensions := extensions |> <| cc_window_start := None |> <| cc_window_end := None |>
      <| cc_benchmark_spec := None |> <| cc_verify_benchmark_spec := None |> <| cc_recipe_text := None |>.

(** ** What a draft is asked for and made of *)
Record DraftRequest := mkDraftRequest {
  dq_baseline_id : option Z;
  dq_served_model_name : string;
  dq_engine : string;
  dq_machine_names : list string;
  dq_node_group : string;
  dq_benchmark_slug : string;
  dq_verify_benchmark_slug : string;
  dq_policy_id : option Z;
  dq_daily_start : string;
  dq_daily_end : string;
  dq_schedule_timezone : string;
  dq_name : string }.

(** The settings a draft falls back on. *)
Record draft_settings := mkDraftSettings {
  ds_benchmark_slug : string;
  ds_daily_start : string;
  ds_daily_end : string;
  ds_schedule_timezone : string }.

Record DraftOut := mkDraft {
  dr_campaign : CampaignCreate;
  dr_provenance : list (string * string);
  dr_warnings : list string }.

Inductive draft_error := LookupFailed (what : string) | ValueFailed (what : string).

Definition _tp_param (engine : string) : string :=
  match lookup_param engine "tp" with Some _ => "tp" | None => "tensor_parallel_size" end.

Definition group_machines (db : database) (name : string) : list machine :=
  if String.eqb name "" then []
  else match group_named db name with
       | Some g => map snd (members_by_rank db g)
       | None => []
       end.

Definition _fleet (db : database) (req : DraftRequest) : list machine * string :=
  match group_machines db (dq_node_group req) with
  | (_ :: _) as machines => (machines, "node group " +:+ dq_node_group req)
  | [] =>
      match dq_machine_names req with
      | (_ :: _) as names =>
          (where_ (fun m => bool_decide (m_name m ∈ names)) (rows_z (d_machines db)), "the machines you named")
      | [] => (where_ (fun m => m_lease_state m == LeaseActive) (rows_z (d_machines db)), "every machine currently leased")
      end
  end.

Definition _card_facts (machines : list machine) : Z * string :=
  let counts := where_ (fun n => negb (n =? 0)) (map m_gpu_count machines) in
  let types := remove_dups (where_ (fun t => negb (String.eqb t "")) (map m_gpu_type machines)) in
  (match counts with n :: rest => foldl Z.min n rest | [] => 0 end, match types with [t] => t | _ => "" end).

Definition TP_WIDTHS : list Z := [1; 2; 4; 8; 16].
Fixpoint index_of (x : Z) (l : list Z) : option nat :=
  match l with [] => None | y :: l => if x =? y then Some 0%nat else S <$> index_of x l end.

(** Production's width and its neighbours, where it is one of the widths. *)
Definition around (production_tp : option Z) (widths : list Z) : list Z :=
  match production_tp with
  | Some tp =>
      match (if tp =? 0 then None else index_of tp widths) with
      | Some i => take (i + 2 - (i - 1)) (drop (i - 1) widths)
      | None => widths
      end
  | None => widths
  end.
Definition _tp_grid (cards : Z) (production_tp : option Z) : list Z :=
  match around production_tp (where_ (fun w => (cards =? 0) || (w <=? cards)) TP_WIDTHS) with
  | [] => [1]
  | widths => widths
  end.

(** A space that only has a grid. *)
Definition grid_space (base : config) (grid : list (string * list scalar)) : space :=
  Space true base (list_to_map grid) [] ∅ [].

Definition starter_step (tp_name : string) (grid : list (string * list scalar)) (p : param) : list (string * list scalar) :=
  match pr_example p with
  | Some ((_ :: _) as example) =>
      if negb (pr_tunable p) || String.eqb (pr_name p) tp_name then grid
      else
        let trial := dict_set (pr_name p) example grid in
        if MAX_DRAFT_CANDIDATES <? candidate_count (grid_space ∅ trial) then grid else trial
  | _ => grid
  end.
Definition _starter_grid (engine tp_name : string) (tp_values : list Z) : list (string * list scalar) :=
  foldl (starter_step tp_name) [(tp_name, map VInt tp_values)] (params_for engine).

(** [resolve_baseline]: the row for the exact cards, or the one for any. *)
Definition baseline_for (baselines : list baseline_row) (served engine card_type : string) : option baseline_row :=
  let matching card := List.find (fun b => String.eqb (bl_served_model_name b) served && String.eqb (bl_engine b) engine
                                           && String.eqb (bl_card_type b) card) baselines in
  match matching card_type with Some exact => Some exact | None => matching "" end.

(** The defaults of a body ([CampaignCreate]). *)
Definition blank_body : CampaignCreate :=
  mkCreate "" "" "" "" "" (grid_space ∅ []) [] None "" "" [] "" None None 28200 [] [] true true [] "" [] None None
    "" "" "" None 720 120 None default_settings 0 3 "" 0 [] 180 "" "" "rebuild_at_start" [].

(** [len] of a text, in code points. *)
Definition name_length (s : string) : Z := Z.of_nat (length (where_ (fun c => negb (code c / 64 =? 2)) (chars s))).

Definition goal_of (metric : string) : tree :=
  [("target_metric", Sc (VStr metric)); ("direction", Sc (VStr "maximize")); ("redlines", Ls [])].

Section draft.
(** [DEFAULT_VERIFY_TARGET_METRIC] depends on the name of the replay module;
    [today] is the date, written out. *)
Context (settings : draft_settings) (REPLAY today : string).

Definition or_default (asked other : string) : string := if String.eqb asked "" then other else asked.

(** What to serve: the baseline, when there is one. *)
Definition drafted_baseline (baselines : list baseline_row) (req : DraftRequest) (engine card_type : string)
    : draft_error + option baseline_row :=
  match dq_baseline_id req with
  | Some bid =>
      match List.find (fun b => bl_id b =? bid) baselines with
      | Some b => inr (Some b)
      | None => inl (LookupFailed ("no baseline with id " +:+ pretty bid))
      end
  | None =>
      if String.eqb (dq_served_model_name req) ""
      then inl (ValueFailed "name a baseline, or a served_model_name to find one by")
      else inr (baseline_for baselines (dq_served_model_name req) engine card_type)
  end.

Definition fields_of (req : DraftRequest) (engine : string) (b : option baseline_row) : campaign_columns :=
  match b with
  | Some b => as_campaign_fields (from_baseline b)
  | None => mkColumns (mkCampaignRecipe None (mkLaunchFields engine "" (dq_served_model_name req) [] [] [] 1 "")) [] "" 28200
  end.

Definition source_of (b : baseline_row) : string :=
  "baseline #" +:+ pretty (bl_id b) +:+ " (" +:+ or_default (bl_source b) "entered by hand" +:+ ")".

(** What to try: the base without the tensor-parallel width, and the grid. *)
Definition production_width (d : option doc) : option Z :=
  match d with Some (Sc (VBool b)) => Some (bool_int b) | Some (Sc v) => int_or_none v | _ => None end.
Definition drafted_grid (engine tp_name : string) (b : option baseline_row) (tp_values : list Z) : list (string * list scalar) :=
  match b with Some _ => [(tp_name, map VInt tp_values)] | None => _starter_grid engine tp_name tp_values end.

Definition grid_provenance (engine tp_name : string) (b : option baseline_row) (production_tp : option Z) (cards : Z) : string :=
  match b, production_tp with
  | Some _, Some tp =>
      if tp =? 0 then tp_name +:+ " widths that fit " +:+ pretty cards +:+ " cards"
      else tp_name +:+ " around production's " +:+ pretty tp +:+ ", within " +:+ pretty cards +:+ " cards"
  | Some _, None => tp_name +:+ " widths that fit " +:+ pretty cards +:+ " cards"
  | None, _ => "catalog starter sweep for " +:+ engine +:+ ", within " +:+ pretty cards +:+ " cards"
  end.

Definition all_from (source : string) : list (string * string) :=
  map (fun key => (key, source))
    ["engine"; "image"; "model_path"; "served_model_name"; "service_port"; "extra_env"; "extra_volumes"]
  ++ [("search_space.base", "production engine arguments from " +:+ source)].

(** The second stage, when one was asked for, with its provenance and warning. *)
Definition with_verification (req : DraftRequest) (dataset_wiring : option (list (string * string))) (body : CampaignCreate)
    : CampaignCreate * list (string * string) * list string :=
  let slug := dq_verify_benchmark_slug req in
  if String.eqb slug "" then (body, [], [])
  else
    let body := body <| cc_verify_benchmark_slug := slug |> <| cc_verify_top_k := 3 |>
                     <| cc_verify_objective := goal_of (DEFAULT_VERIFY_TARGET_METRIC REPLAY) |> in
    let prov := [("verify_top_k", "the three best screened configurations are replayed")] in
    let profile := default "" (dict_get slug (default [] dataset_wiring)) in
    if negb (String.eqb profile "")
    then (body <| cc_dataset_profile := profile |>,
          prov ++ [("dataset_profile", "what " +:+ slug +:+ " replays on LLMBench")], [])
    else (body, prov, match dataset_wiring with
                      | None => ["LLMBench could not be asked which dataset the verify benchmark replays; set dataset_profile yourself if it uses a rolling one"]
                      | Some _ => []
                      end).

Definition with_schedule (req : DraftRequest) (body : CampaignCreate) : CampaignCreate * list (string * string) :=
  let start := or_default (dq_daily_start req) (ds_daily_start settings) in
  let end_ := or_default (dq_daily_end req) (ds_daily_end settings) in
  if String.eqb start "" || String.eqb end_ "" then (body, [])
  else (body <| cc_daily_start := start |> <| cc_daily_end := end_ |>
             <| cc_schedule_timezone := or_default (dq_schedule_timezone req) (ds_schedule_timezone settings) |>,
        [("daily_start", if String.eqb (dq_daily_start req) "" then "the platform's default window" else "you chose it")]).

Definition drafted_body (db : database) (req : DraftRequest) (machines : list machine) (card_type : string)
    (fields : campaign_columns) (sp : space) : CampaignCreate :=
  let f := cr_fields (cm_launch fields) in
  blank_body
    <| cc_engine := lf_engine f |> <| cc_image := lf_image f |> <| cc_model_path := cm_model_path fields |>
    <| cc_served_model_name := lf_served_model_name f |> <| cc_service_port := cm_service_port fields |>
    <| cc_extra_env := lf_extra_env f |> <| cc_extra_volumes := lf_extra_volumes f |> <| cc_search_space := sp |>
    <| cc_name := or_default (dq_name req)
                    (lf_served_model_name f +:+ " · " +:+ or_default card_type "fleet" +:+ " · " +:+ today) |>
    <| cc_machine_names := (if String.eqb (dq_node_group req) "" then map m_name machines else []) |>
    <| cc_node_group := dq_node_group req |>
    <| cc_benchmark_slug := or_default (dq_benchmark_slug req) (ds_benchmark_slug settings) |>
    <| cc_objective := goal_of DEFAULT_TARGET_METRIC |>
    <| cc_policy_id := dq_policy_id req |>.

Definition draft_campaign (db : database) (baselines : list baseline_row) (req : DraftRequest)
    (dataset_wiring : option (list (string * string))) : draft_error + DraftOut :=
  let engine := or_default (dq_engine req) "sglang" in
  let '(machines, fleet_source) := _fleet db req in
  let '(cards, card_type) := _card_facts machines in
  let '(cards, prov, warnings) :=
    match machines with
    | [] => (8, [], ["no leased machine to size the search for — the tp grid assumes 8 cards"])
    | _ => (cards, [("machine_names", fleet_source)], [])
    end in
  match drafted_baseline baselines req engine card_type with
  | inl why => inl why
  | inr b =>
      let '(engine, prov, warnings) :=
        match b with
        | Some b => (or_default (bl_engine b) engine, prov ++ all_from (source_of b), warnings)
        | None =>
            (engine, prov,
             warnings ++ ["no baseline for " +:+ str_repr (dq_served_model_name req) +:+ " on "
                          +:+ or_default card_type "this fleet"
                          +:+ ": image and model_path are empty — fill them in, or capture a baseline first"])
        end in
      let fields := fields_of req engine b in
      let tp_name := _tp_param engine in
      let production_tp := production_width (dict_get tp_name (cm_base fields)) in
      let tp_values := _tp_grid cards production_tp in
      let sp := grid_space (flat (dict_pop tp_name (cm_base fields))) (drafted_grid engine tp_name b tp_values) in
      let prov := prov ++ [("search_space.grid", grid_provenance engine tp_name b production_tp cards);
                           ("benchmark_slug", if String.eqb (dq_benchmark_slug req) "" then "the platform default" else "you chose it");
                           ("objective", "platform default: maximize " +:+ DEFAULT_TARGET_METRIC)] in
      let '(body, more, warned) := with_verification req dataset_wiring (drafted_body db req machines card_type fields sp) in
      let prov := prov ++ more ++ [match dq_policy_id req with
                                   | Some _ => ("policy_settings", "the policy's defaults")
                                   | None => ("search", "every configuration in the space, in order")
                                   end] in
      let '(body, scheduled) := with_schedule req body in
      let n := candidate_count sp in
      if 128 <? name_length (cc_name body) then inl (ValueFailed "the name is too long") else
      inr (mkDraft body (prov ++ scheduled)
             (warnings ++ warned ++ error_if (MAX_DRAFT_CANDIDATES <? n)
                                       (pretty n +:+ " configurations is more than one night usually covers")))
  end.
End draft.

(** ** The widths and the grid *)
Lemma index_of_in x l i : index_of x l = Some i -> l !! i = Some x.
Proof.
  revert i. induction l as [|y l IH]; intros i; [done|]. cbn. destruct (Z.eqb_spec x y) as [->|]; [by intros [= <-]|].
  destruct (index_of x l) as [j|]; [|done]. intros [= <-]. by apply IH.
Qed.
Lemma index_of_some x l : x ∈ l -> is_Some (index_of x l).
Proof.
  induction l as [|y l IH]; [by intros ?%not_elem_of_nil|]. cbn. destruct (Z.eqb_spec x y); [by eexists|].
  intros [->|H]%elem_of_cons; [done|]. destruct (IH H) as [i ->]. by eexists.
Qed.

(** The widths that fit are the first few. *)
Lemma widths_prefix cards : exists k, where_ (fun w => (cards =? 0) || (w <=? cards)) TP_WIDTHS = take k TP_WIDTHS.
Proof.
  unfold where_, TP_WIDTHS. repeat rewrite filter_cons. rewrite filter_nil.
  destruct (Z.eqb_spec cards 0) as [->|H0]; cbn [orb]; [by exists 5%nat|].
  destruct (Z.leb_spec 1 cards); [|rewrite !(proj2 (Z.leb_gt _ _)) by lia; by exists 0%nat].
  destruct (Z.leb_spec 2 cards); [|rewrite !(proj2 (Z.leb_gt _ _)) by lia; by exists 1%nat].
  destruct (Z.leb_spec 4 cards); [|rewrite !(proj2 (Z.leb_gt _ _)) by lia; by exists 2%nat].
  destruct (Z.leb_spec 8 cards); [|rewrite !(proj2 (Z.leb_gt _ _)) by lia; by exists 3%nat].
  destruct (Z.leb_spec 16 cards); [by exists 5%nat|by exists 4%nat].
Qed.

Definition neighbour (a b : Z) : bool := (a <=? 2 * b) && (b <=? 2 * a).

(** Checked for every prefix of the widths and every place in it. *)
Lemma around_index k i tp : (k <= 5)%nat -> take k TP_WIDTHS !! i = Some tp ->
  let l := take (i + 2 - (i - 1)) (drop (i - 1) (take k TP_WIDTHS)) in
  tp ∈ l /\ Forall (fun w => w ∈ take k TP_WIDTHS /\ neighbour w tp = true) l.
Proof.
  intros Hk Hi. cbv zeta. assert (i < 5)%nat as Hlt.
  { apply lookup_lt_Some in Hi. rewrite length_take in Hi. cbn in Hi. lia. }
  do 6 (destruct k as [|k]; [do 5 (destruct i as [|i]; [vm_compute in Hi; try done; injection Hi as <-;
    apply (bool_decide_unpack _); vm_compute; exact I|]); lia|]). lia.
Qed.

(** The tensor-parallel widths a draft tries are powers of two that fit the cards of its smallest
    machine; there is always one; and when production runs at one of them, it is among them, and nothing
    further from it than its half and its double is. *)
Theorem drafted_widths_fit cards production : 0 <= cards ->
  _tp_grid cards production <> [] /\
  Forall (fun w => w ∈ TP_WIDTHS /\ (cards = 0 \/ w <= cards)) (_tp_grid cards production) /\
  forall tp, production = Some tp -> tp ∈ TP_WIDTHS -> (cards = 0 \/ tp <= cards) ->
    tp ∈ _tp_grid cards production /\ Forall (fun w => neighbour w tp = true) (_tp_grid cards production).
Proof.
  intros Hc. unfold _tp_grid. set (fits := where_ _ TP_WIDTHS).
  assert (forall w, w ∈ fits <-> w ∈ TP_WIDTHS /\ (cards = 0 \/ w <= cards)) as Hfits.
  { intros w. subst fits. rewrite elem_of_where, orb_true_iff, Z.eqb_eq, Z.leb_le. done. }
  destruct (widths_prefix cards) as [k Hk]. fold fits in Hk.
  assert (1 ∈ fits) as Hone by (apply Hfits; split; [left|lia]).
  assert (exists k, (k <= 5)%nat /\ fits = take k TP_WIDTHS) as (k' & Hk' & Hpre).
  { exists (k `min` 5)%nat. split; [lia|]. rewrite Hk. destruct (decide (k <= 5)%nat) as [Hle|Hgt].
    - by rewrite Nat.min_l.
    - rewrite Nat.min_r by lia. by rewrite !take_ge by (cbn; lia). }
  assert (forall tp, production = Some tp -> tp ∈ fits ->
            tp ∈ around production fits /\ Forall (fun w => w ∈ fits /\ neighbour w tp = true) (around production fits)) as Hin.
  { intros tp -> Htp. unfold around. destruct (index_of_some _ _ Htp) as [i Hi]. rewrite Hi.
    apply index_of_in in Hi. rewrite Hpre in *.
    destruct (Z.eqb_spec tp 0) as [->|]; [|by apply around_index].
    apply list_elem_of_lookup_2 in Hi. exfalso. apply Hfits in Hi as [Hi _]. revert Hi. by apply (bool_decide_unpack (0 ∉ TP_WIDTHS)). }
  assert (around production fits = fits \/ exists tp, production = Some tp /\ tp ∈ fits) as Hcase.
  { destruct production as [tp|]; [|by left]. destruct (decide (tp ∈ fits)) as [H|H]; [by right; exists tp|].
    left. unfold around. destruct (tp =? 0); [done|]. destruct (index_of tp fits) eqn:E; [|done].
    apply index_of_in, list_elem_of_lookup_2 in E. done. }
  assert (around production fits <> [] /\ Forall (fun w => w ∈ fits) (around production fits)) as [Hne Hall].
  { destruct Hcase as [->|(tp & Htp & Hf)].
    - split; [intros E; rewrite E in Hone; by apply not_elem_of_nil in Hone|]. by apply Forall_forall.
    - destruct (Hin tp Htp Hf) as [H1 H2]. split; [intros E; rewrite E in H1; by apply not_elem_of_nil in H1|].
      eapply Forall_impl; [exact H2|]. by intros w [? _]. }
  assert (match around production fits with [] => [1] | widths => widths end = around production fits) as ->
    by by destruct (around production fits).
  split; [done|]. split; [eapply Forall_impl; [exact Hall|]; intros w Hw; by apply Hfits|].
  intros tp Htp Hw Hfit. destruct (Hin tp Htp) as [H1 H2]; [by apply Hfits|]. split; [done|].
  eapply Forall_impl; [exact H2|]. by intros w [_ ?].
Qed.

(** ** One night's work *)
Lemma count_grid base g : candidate_count (grid_space base g) = axis_product (grid_space ∅ g).
Proof. reflexivity. Qed.

Lemma grid_space_errors base g : axis_product (grid_space ∅ g) <= MAX_SPACE_CANDIDATES -> space_errors (grid_space base g) = [].
Proof.
  intros Hp. unfold space_errors. cbn [grid_space tied_groups s_tied where_ imap foldl].
  assert (too_large (grid_space base g) = false) as Hl by (unfold too_large; apply Z.ltb_ge, Hp).
  rewrite Hl. reflexivity.
Qed.

Lemma one_axis_count base k vs : vs <> [] -> candidate_count (grid_space base [(k, vs)]) = Z.of_nat (length vs).
Proof.
  intros Hne. rewrite count_grid. unfold axis_product, axes.
  assert (sorted_items (_grid (grid_space ∅ [(k, vs)])) = [(k, vs)]) as ->.
  { unfold sorted_items, _grid. cbn [grid_space s_grid list_to_map foldr uncurry].
    rewrite map_filter_insert_True by by destruct vs. rewrite map_filter_empty, insert_empty, map_to_list_singleton. done. }
  change (map tied_axis _ ++ map _ (range_specs _)) with (@nil (list config)). cbn [map app].
  unfold where_. rewrite filter_cons_True; [rewrite filter_nil; cbn; rewrite length_map; lia|]. by destruct vs.
Qed.

Lemma starter_step_fits tp_name p grid :
  candidate_count (grid_space ∅ grid) <= MAX_DRAFT_CANDIDATES ->
  candidate_count (grid_space ∅ (starter_step tp_name grid p)) <= MAX_DRAFT_CANDIDATES.
Proof.
  intros Hg. unfold starter_step. destruct (pr_example p) as [[|v l]|]; [done| |done].
  destruct (negb (pr_tunable p) || _); [done|]. by destruct (Z.ltb_spec MAX_DRAFT_CANDIDATES (candidate_count (grid_space ∅ (dict_set (pr_name p) (v :: l) grid)))).
Qed.

Lemma starter_grid_fits engine tp_name tp_values :
  candidate_count (grid_space ∅ [(tp_name, map VInt tp_values)]) <= MAX_DRAFT_CANDIDATES ->
  candidate_count (grid_space ∅ (_starter_grid engine tp_name tp_values)) <= MAX_DRAFT_CANDIDATES.
Proof.
  unfold _starter_grid. generalize [(tp_name, map VInt tp_values)]. induction (params_for engine) as [|p l IH]; intros g Hg; [done|].
  cbn [foldl]. by apply IH, starter_step_fits.
Qed.

Lemma tp_grid_length cards production : (0 < length (_tp_grid cards production) <= 5)%nat.
Proof.
  unfold _tp_grid. destruct (widths_prefix cards) as [k ->].
  assert (length (around production (take k TP_WIDTHS)) <= 5)%nat as Hl.
  { assert (length (take k TP_WIDTHS) <= 5)%nat as Hk by (rewrite length_take; cbn; lia).
    unfold around. destruct production as [tp|]; [|done]. destruct (if tp =? 0 then None else _); [|done].
    rewrite length_take, length_drop. lia. }
  destruct (around production (take k TP_WIDTHS)); cbn [length] in *; lia.
Qed.

Lemma drafted_grid_fits engine tp_name b cards production base :
  candidate_count (grid_space base (drafted_grid engine tp_name b (_tp_grid cards production))) <= MAX_DRAFT_CANDIDATES.
Proof.
  pose proof (tp_grid_length cards production) as Hl.
  assert (candidate_count (grid_space ∅ [(tp_name, map VInt (_tp_grid cards production))]) <= MAX_DRAFT_CANDIDATES) as H1.
  { rewrite one_axis_count, length_map; [unfold MAX_DRAFT_CANDIDATES; lia|].
    destruct (_tp_grid cards production); cbn in *; [lia|done]. }
  rewrite count_grid, <- (count_grid ∅). destruct b; [done|]. by apply starter_grid_fits.
Qed.

(** What the steps after the space leave of it. *)
Lemma later_steps_keep settings REPLAY req wiring body :
  let v := (with_verification REPLAY req wiring body).1.1 in
  let b := (with_schedule settings req v).1 in
  cc_search_space b = cc_search_space body /\ cc_engine b = cc_engine body /\ cc_policy_id b = cc_policy_id body /\
  cc_policy_settings b = cc_policy_settings body /\ cc_confirm_top_k b = cc_confirm_top_k body /\
  cc_confirm_repeats b = cc_confirm_repeats body /\ cc_dataset_policy b = cc_dataset_policy body /\ cc_recipe b = cc_recipe body /\
  cc_verify_benchmark_slug b = cc_verify_benchmark_slug v /\ cc_verify_top_k b = cc_verify_top_k v /\
  cc_verify_max_run_minutes b = cc_verify_max_run_minutes body.
Proof.
  unfold with_schedule, with_verification. destruct (String.eqb (dq_verify_benchmark_slug req) ""); cbn -[goal_of DEFAULT_VERIFY_TARGET_METRIC];
    [|destruct (negb _)]; destruct (_ || _); repeat split.
Qed.

(** The second stage of a draft has both halves. *)
Lemma verification_staged REPLAY req wiring body :
  cc_verify_benchmark_slug body = "" -> cc_verify_top_k body = 0 -> 1 <= cc_verify_max_run_minutes body ->
  cc_dataset_policy body = "rebuild_at_start" ->
  (dq_verify_benchmark_slug req <> "" -> blank (dq_verify_benchmark_slug req) = false) ->
  forall b, cc_verify_benchmark_slug b = cc_verify_benchmark_slug (with_verification REPLAY req wiring body).1.1 ->
  cc_verify_top_k b = cc_verify_top_k (with_verification REPLAY req wiring body).1.1 ->
  cc_verify_max_run_minutes b = cc_verify_max_run_minutes body -> cc_dataset_policy b = cc_dataset_policy body ->
  staging_errors b = [].
Proof.
  intros Hs Hk Hm Hd Hreq b. unfold staging_errors. intros -> -> -> ->. rewrite Hd. unfold with_verification.
  destruct (String.eqb_spec (dq_verify_benchmark_slug req) "") as [E|E].
  - cbn [fst]. rewrite Hs, Hk. reflexivity.
  - apply Hreq in E. assert ((cc_verify_max_run_minutes body <? 1) = false) as Hm' by lia.
    destruct (negb _); cbn -[blank Z.ltb]; rewrite E; cbn -[Z.ltb]; by rewrite Hm'.
Qed.

(** A draft can be posted as it is, as far as the draft decides it: its space has no mistakes and no more
    candidates than one night covers (so the warning about more is never given), its stages have both
    halves, its policy's settings are in bounds; what is left to be refused is what was asked for (an
    engine nobody launches, a policy or a group that is not there, a clock that does not parse). *)
Theorem draft_can_be_posted `{Env} settings REPLAY today db baselines req wiring d :
  draft_campaign settings REPLAY today db baselines req wiring = inr d ->
  let body := dr_campaign d in
  candidate_count (cc_search_space body) <= MAX_DRAFT_CANDIDATES /\
  (cc_engine body ∈ ALLOWED_ENGINES -> (forall pid, dq_policy_id req = Some pid -> is_Some (d_policies db !! pid)) ->
   (dq_verify_benchmark_slug req <> "" -> blank (dq_verify_benchmark_slug req) = false) ->
   errors (cc_daily_start body) (cc_daily_end body) (cc_schedule_timezone body) = [] ->
   node_group_errors db body = [] -> campaign_errors db body = []).
Proof.
  unfold draft_campaign. destruct (_fleet db req) as [machines fleet_source]. destruct (_card_facts machines) as [cards card_type].
  destruct (match machines with [] => _ | _ => _ end) as [[cards' prov] warnings].
  destruct (drafted_baseline baselines req _ card_type) as [why|b]; [done|].
  destruct (match b with Some _ => _ | None => _ end) as [[engine prov'] warnings'].
  set (fields := fields_of req engine b). set (tp_name := _tp_param engine).
  set (tp_values := _tp_grid cards' _). set (sp := grid_space _ (drafted_grid engine tp_name b tp_values)).
  set (body0 := drafted_body settings today db req machines card_type fields sp).
  pose proof (later_steps_keep settings REPLAY req wiring body0) as (Hsp & He & Hp & Hps & Hck & Hcr & Hd & Hrec & Hvs & Hvk & Hvm).
  pose proof (verification_staged REPLAY req wiring body0 eq_refl eq_refl ltac:(done) eq_refl) as Hstaged.
  destruct (with_verification REPLAY req wiring body0) as [[v more] warned].
  cbn [fst] in *. destruct (with_schedule settings req v) as [body scheduled]. cbn [fst] in *.
  destruct (128 <? name_length (cc_name body)); [done|]. intros [= <-]. cbn [dr_campaign].
  assert (candidate_count (cc_search_space body) <= MAX_DRAFT_CANDIDATES) as Hcount.
  { rewrite Hsp. subst body0 sp tp_values. cbn [drafted_body cc_search_space]. apply drafted_grid_fits. }
  split; [done|]. intros Heng Hpol Hver Hsched Hgroup. unfold campaign_errors.
  rewrite bool_decide_true by done. cbn [negb].
  assert (policy_errors db body = []) as ->.
  { unfold policy_errors. rewrite Hp, Hps. change (cc_policy_id body0) with (dq_policy_id req).
    change (cc_policy_settings body0) with default_settings. destruct (dq_policy_id req) as [pid|]; [|done].
    destruct (Hpol pid eq_refl) as [p Hpid]. by rewrite Hpid. }
  rewrite Hck, Hcr. rewrite (Hstaged Hver body Hvs Hvk Hvm Hd), Hgroup, Hsched.
  rewrite Hsp, Hrec. change (cc_search_space body0) with sp. change (cc_recipe body0) with (@nil (string * doc)).
  assert (space_errors sp = []) as ->; [|done].
  subst sp. apply grid_space_errors. rewrite <- (count_grid ∅).
  etrans; [apply (drafted_grid_fits engine tp_name b cards' _ ∅)|]. unfold MAX_DRAFT_CANDIDATES, MAX_SPACE_CANDIDATES. lia.
Qed.

(** ** Drafts from production *)
Definition sample_request : DraftRequest := mkDraftRequest (Some 7) "" "" [] "" "" "replay-v1" None "" "" "" "".
Definition sample_defaults : draft_settings := mkDraftSettings "screen-v1" "23:00" "08:00" "UTC".

Lemma drafted_widths_fit_witness :
  _tp_grid 8 (Some 4) = [2; 4; 8] /\ 4 ∈ _tp_grid 8 (Some 4) /\ Forall (fun w => neighbour w 4 = true) (_tp_grid 8 (Some 4)).
Proof.
  split; [by vm_compute|]. apply (drafted_widths_fit 8 (Some 4)); [lia|done| |right; lia].
  apply elem_of_cons; right; apply elem_of_cons; right; apply elem_of_cons; by left.
Defined.

Lemma draft_can_be_posted_witness :
  exists d, draft_campaign sample_defaults "replay" "2026-10-08" sample_db [sample_production "sglang"] sample_request None = inr d /\
    cc_verify_top_k (dr_campaign d) = 3 /\ campaign_errors sample_db (dr_campaign d) = [].
Proof.
  destruct (draft_campaign sample_defaults "replay" "2026-10-08" sample_db [sample_production "sglang"] sample_request None)
    as [why|d] eqn:E; [by vm_compute in E|]. exists d. split; [done|].
  pose proof (draft_can_be_posted _ _ _ _ _ _ _ _ E) as [_ H].
  vm_compute in E. injection E as <-. split; [done|]. apply H; [|done|done|by vm_compute|by vm_compute].
  by left.
Defined.

(** The width of a vLLM baseline is read in the shared vocabulary ([tp]) and
    looked for under vLLM's own name: the draft keeps production's width in
    the base and varies the other spelling of the same knob beside it. *)
Example vllm_draft_sets_the_width_twice :
  match draft_campaign sample_defaults "replay" "2026-10-08" sample_db [sample_production "vllm"] sample_request None with
  | inr d => let sp := cc_search_space (dr_campaign d) in
             s_base sp !! "tp" = Some (VInt 4) /\ s_grid sp !! "tensor_parallel_size" = Some (map VInt [1; 2; 4; 8]) /\
             canonical_key "vllm" "tensor_parallel_size" = "tp"
  | inl _ => False
  end.
Proof. vm_compute. done. Qed.
