(* ===== verification/Requests.v ===== *)
(** A request to the API: who is asking ([core/auth.py]) and what its handler
    does with the rows.

    A handler works on the rows and on what its part of the API keeps besides,
    the columns the worker never reads.  Each handler commits once, after its
    last write; one that raises leaves the rows as they were.  Event payloads
    are left out, as in [Model].  The specifications of handlers are [leads],
    what a granted request leaves, and [grants], when it is granted. *)
From Stdlib Require Import Ascii.
From S2P Require Import Failures Logs Model States Packing Timing World Samples Occupancy Fleet Exclusive Finish Placement Nights.
From S2P Require Import Reserve Queue Pass Runs Advance Leases Clock Datasets Sessions Ending Tenancy.
From S2P Require Import Prelude Float Values Texts Documents Space Validation Flags Commands ExtraArgs Addresses Recipes.
From S2P Require Import Composition Conversion Scripts Checks Contract.
#[local] Open Scope string_scope.
#[local] Open Scope list_scope.
#[local] Open Scope Z_scope.

(** ** The state of a handler

    The worker's state, what this part of the API keeps ([L]), and when each
    service key was last presented. *)
Record office (L : Type) := Office { o_world : world; o_ledger : L; o_used : gmap Z Z }.
Arguments Office {L} _ _ _.
Arguments o_world {L} _.
Arguments o_ledger {L} _.
Arguments o_used {L} _.
#[export] Instance eta_office L : Eta (office L) := fun r => Office (o_world r) (o_ledger r) (o_used r).

Definition rows_of {L} (s : office L) : database := w_db (o_world s).

Definition Req (L A : Type) := M (office L) A.

Section handlers.
Context {L : Type}.

Definition on_rows {A} (m : W A) : Req L A := fun s =>
  let '(r, w) := m (o_world s) in (r, s <| o_world := w |>).
Definition deny {A} (code : Z) (detail : string) : Req L A := raise (HTTPException code detail).
Definition put_ledger (f : L -> L) : Req L unit := modify (fun s => s <| o_ledger ::= f |>).
Definition ledger_ : Req L L := gets o_ledger.

(** What a handler that raises has written is rolled back. *)
Definition answered {A} (h : Req L A) (s : office L) : (exn + A) * office L :=
  match h s with
  | (inr a, s') => (inr a, s')
  | (inl e, s') => (inl e, s <| o_world := (o_world s') <| w_db := rows_of s |> |>)
  end.

Definition discard {A} (h : Req L A) : Req L unit := _ <- h ;; ret tt.
End handlers.

(** A body the schema refuses is answered 422. *)
Definition unprocessable {A} (detail : string) : exn + A := inl (HTTPException 422 detail).
Definition in_bounds (lo hi : Z) (o : option Z) : bool :=
  match o with Some n => (lo <=? n) && (n <=? hi) | None => true end.

(** ** The caller *)
Record User := mkUser { u_id : Z; u_username : string; u_admin : bool }.
Record Principal := mkPrincipal { pp_user : User; pp_actor : string; pp_via_key : bool }.

(** What the caller presents: a JWT, a service key. *)
Record credentials := mkCredentials { cr_token : option string; cr_key : option string }.

(** A person or a service; a person; an administrator. *)
Inductive access := AnyPrincipal | AnyUser | AdminUser.

Section callers.
Context `{Env} {L : Type}.
(** SHA-256 in hexadecimal; whether a key has been revoked; the user a JWT was
    issued to, when it is valid; the users. *)
Context (digest : string -> string) (active : api_key -> bool) (jwt_subject : string -> option Z) (users : gmap Z User).

Definition get_current_user (token : option string) : exn + User :=
  match token with
  | None => inl (HTTPException 401 "Not authenticated")
  | Some t =>
      match jwt_subject t with
      | None => inl (HTTPException 401 "Invalid token")
      | Some uid => match users !! uid with
                    | None => inl (HTTPException 401 "Unknown user")
                    | Some u => inr u
                    end
      end
  end.

Definition require_admin (token : option string) : exn + User :=
  match get_current_user token with
  | inl e => inl e
  | inr u => if u_admin u then inr u else inl (HTTPException 403 "Admin only")
  end.

Definition _principal_from_key (presented : string) : Req L (option Principal) :=
  db <- on_rows db_ ;;
  match prefix ← split_key presented;
        List.find (fun k => String.eqb (ak_prefix k) prefix) (rows_z (d_api_keys db)) with
  | None => ret None
  | Some key =>
      if negb (active key) || negb (String.eqb (digest presented) (ak_key_hash key)) then ret None
      else match ak_policy_session_id key with
           | Some _ => ret None
           | None =>
               moment <- on_rows now ;;
               if _expired (ak_expires_at key) moment then ret None
               else match users !! ak_owner_id key with
                    | None => ret None
                    | Some owner =>
                        moment <- on_rows now ;;
                        modify (fun s => s <| o_used ::= <[ ak_id key := moment ]> |>) ;;;
                        ret (Some (mkPrincipal owner ("key:" +:+ ak_name key) true))
                    end
           end
  end.

Definition get_principal (token api_key : option string) : Req L Principal :=
  match api_key with
  | Some presented =>
      if String.eqb presented "" then
        u <- lift (get_current_user token) ;; ret (mkPrincipal u (u_username u) false)
      else
        p <- _principal_from_key presented ;;
        match p with Some p => ret p | None => deny 401 "Invalid or revoked API key" end
  | None => u <- lift (get_current_user token) ;; ret (mkPrincipal u (u_username u) false)
  end.

Definition caller (a : access) (c : credentials) : Req L Principal :=
  match a with
  | AnyPrincipal => get_principal (cr_token c) (cr_key c)
  | AnyUser => u <- lift (get_current_user (cr_token c)) ;; ret (mkPrincipal u (u_username u) false)
  | AdminUser => u <- lift (require_admin (cr_token c)) ;; ret (mkPrincipal u (u_username u) false)
  end.

(** A request: the caller is known, which is committed, before the handler
    runs. *)
Definition serve_request (a : access) (c : credentials) (h : Principal -> Req L unit) (s : office L) : (exn + unit) * office L :=
  match answered (caller a c) s with
  | (inl e, s') => (inl e, s')
  | (inr p, s') => answered (h p) s'
  end.
End callers.

(** ** What a handler leads to

    The rows and the ledger a handler has in hand; what a refused one leaves
    does not matter, since it is rolled back. *)
Record holdings (L : Type) := Holdings { hd_db : database; hd_ledger : L }.
Arguments Holdings {L} _ _.
Arguments hd_db {L} _.
Arguments hd_ledger {L} _.
#[export] Instance eta_holdings L : Eta (holdings L) := fun r => Holdings (hd_db r) (hd_ledger r).

Section specs.
Context {L : Type}.

Definition at_ (x : holdings L) (s : office L) : Prop := rows_of s = hd_db x /\ o_ledger s = hd_ledger x.
Definition holdings_of (s : office L) : holdings L := Holdings (rows_of s) (o_ledger s).

(** The same, with other events. *)
Definition with_events (x : holdings L) (l : list event) : holdings L := x <| hd_db ::= fun db => db <| d_events := l |> |>.

(** From [x], a handler that answers [a] leaves what [post a] allows. *)
Definition leads {A} (x : holdings L) (h : Req L A) (post : A -> holdings L -> Prop) : Prop :=
  triple (at_ x) h (fun a s => exists x', at_ x' s /\ post a x') (fun _ _ => True).

(** From [x], a handler answers, and [post] holds of its answer. *)
Definition grants {A} (x : holdings L) (h : Req L A) (post : A -> Prop) : Prop :=
  forall s, at_ x s -> exists a s', h s = (inr a, s') /\ post a.
End specs.

Section rules.
Context {L A B : Type}.
Implicit Types (x : holdings L) (post : A -> holdings L -> Prop).

Lemma leads_ret x (a : A) post : post a x -> leads x (ret a) post.
Proof. intros Hp s Hs. by exists x. Qed.
Lemma leads_raise x e post : leads x (raise (A:=A) e) post.
Proof. by intros s Hs. Qed.
Lemma leads_bind x (m : Req L B) (f : B -> Req L A) mid post :
  leads x m mid -> (forall b x', mid b x' -> leads x' (f b) post) -> leads x (bind m f) post.
Proof.
  intros Hm Hf. eapply triple_bind; [exact Hm|]. intros b s (x' & Hs & Hmid). exact (Hf b x' Hmid s Hs).
Qed.
Lemma leads_weaken x (m : Req L A) post post' :
  leads x m post -> (forall a x', post a x' -> post' a x') -> leads x m post'.
Proof.
  intros Hm Hp. eapply triple_weaken; [exact Hm|done|intros a s (x' & Hs & Ha); exists x'; eauto|done].
Qed.
(** A step that writes nothing. *)
Lemma leads_quiet x (m : Req L B) (f : B -> Req L A) post :
  (forall s, at_ x s -> at_ x (m s).2) -> (forall b, leads x (f b) post) -> leads x (bind m f) post.
Proof.
  intros Hm Hf. eapply (leads_bind _ _ _ (fun _ x' => x' = x)).
  - intros s Hs. specialize (Hm s Hs). destruct (m s) as [[e|b] s']; [done|]. by exists x.
  - intros b x' ->. apply Hf.
Qed.
End rules.

Section writes.
Context {L A : Type}.
Implicit Types (x : holdings L) (post : A -> holdings L -> Prop).

Lemma leads_now `{Env} x (f : Z -> Req L A) post : (forall t, leads x (f t) post) -> leads x (bind (on_rows now) f) post.
Proof. intros Hf. apply leads_quiet; [|exact Hf]. intros s Hs. exact Hs. Qed.
Lemma leads_lift {B} x (r : exn + B) (f : B -> Req L A) post :
  (forall b, r = inr b -> leads x (f b) post) -> leads x (bind (lift r) f) post.
Proof. intros Hf. destruct r as [e|b]; [by intros s Hs|]. exact (Hf b eq_refl). Qed.
Lemma leads_db x (f : database -> Req L A) post : leads x (f (hd_db x)) post -> leads x (bind (on_rows db_) f) post.
Proof.
  intros Hf s Hs. destruct (Hs) as (E & _). unfold rows_of in E.
  unfold bind, on_rows, db_, gets. rewrite E. by apply Hf; destruct s.
Qed.
Lemma leads_ledger x (f : L -> Req L A) post : leads x (f (hd_ledger x)) post -> leads x (bind ledger_ f) post.
Proof. intros Hf s Hs. destruct (Hs) as (_ & E). unfold bind, ledger_, gets. rewrite E. by apply Hf; destruct s. Qed.
(** A write. *)
Lemma leads_write x (g : office L -> office L) (f : unit -> Req L A) post x' :
  (forall s, at_ x s -> at_ x' (g s)) -> leads x' (f tt) post -> leads x (bind (modify g) f) post.
Proof. intros Hg Hf s Hs. apply Hf. by apply Hg. Qed.
Lemma leads_put_ledger x (g : L -> L) (f : unit -> Req L A) post :
  leads (x <| hd_ledger ::= g |>) (f tt) post -> leads x (bind (put_ledger g) f) post.
Proof. apply leads_write. intros s (E & El). split; [done|]. cbn. by rewrite El. Qed.
Lemma leads_modify_db x (g : database -> database) (f : unit -> Req L A) post :
  leads (x <| hd_db ::= g |>) (f tt) post -> leads x (bind (on_rows (modify_db g)) f) post.
Proof.
  intros Hf s (E & El). apply Hf. unfold at_, rows_of in *. cbn. by rewrite E.
Qed.
Lemma leads_event `{Env} x kind cid rid (f : unit -> Req L A) post :
  (forall l, leads (with_events x l) (f tt) post) -> leads x (bind (on_rows (event_ kind cid rid)) f) post.
Proof.
  intros Hf s (E & El). unfold event_, add_event, bind, on_rows, now, call, modify_db, modify. cbn.
  eapply Hf. unfold at_, rows_of in *. cbn. rewrite E. done.
Qed.
End writes.

Lemma bind_ret {S A} (m : M S A) s : bind m ret s = m s.
Proof. unfold bind. by destruct (m s) as [[e|a] s']. Qed.
Lemma leads_last {L A} (x : holdings L) (m : Req L A) post : leads x (bind m ret) post -> leads x m post.
Proof. intros Hm s Hs. specialize (Hm s Hs). by rewrite bind_ret in Hm. Qed.

Section grants.
Context {L A : Type}.
Implicit Types (x : holdings L) (post : A -> Prop).

Lemma grants_ret x (a : A) post : post a -> grants x (ret a) post.
Proof. intros Hp s _. by exists a, s. Qed.
(** A step that succeeds and leaves [x']. *)
Lemma grants_step {B} x x' (m : Req L B) (f : B -> Req L A) (Q : B -> Prop) post :
  (forall s, at_ x s -> exists b s', m s = (inr b, s') /\ at_ x' s' /\ Q b) ->
  (forall b, Q b -> grants x' (f b) post) -> grants x (bind m f) post.
Proof.
  intros Hm Hf s Hs. destruct (Hm s Hs) as (b & s' & E & Hs' & Hq). unfold bind. rewrite E. by apply (Hf b Hq s').
Qed.
Lemma grants_ret_bind {B} x (b : B) (f : B -> Req L A) post : grants x (f b) post -> grants x (bind (ret b) f) post.
Proof. done. Qed.
Lemma grants_db x (f : database -> Req L A) post : grants x (f (hd_db x)) post -> grants x (bind (on_rows db_) f) post.
Proof.
  intros Hf. apply (grants_step x x _ _ (fun db => db = hd_db x)); [|by intros db ->].
  intros s Hs. destruct (Hs) as (E & _). unfold rows_of in E. eexists _, _. split; [reflexivity|].
  unfold on_rows, db_, gets. by destruct s.
Qed.
Lemma grants_now `{Env} x (f : Z -> Req L A) post : (forall t, grants x (f t) post) -> grants x (bind (on_rows now) f) post.
Proof.
  intros Hf. apply (grants_step x x _ _ (fun _ => True)); [|by intros t _]. intros s Hs. by eexists _, _.
Qed.
Lemma grants_event `{Env} x kind cid rid (f : unit -> Req L A) post :
  (forall l, grants (with_events x l) (f tt) post) -> grants x (bind (on_rows (event_ kind cid rid)) f) post.
Proof.
  intros Hf s (E & El). unfold event_, add_event, bind, on_rows, now, call, modify_db, modify. cbn.
  eapply Hf. unfold at_, rows_of in *. cbn. rewrite E. done.
Qed.
Lemma grants_ledger x (f : L -> Req L A) post : grants x (f (hd_ledger x)) post -> grants x (bind ledger_ f) post.
Proof. intros Hf s Hs. destruct (Hs) as (_ & E). unfold bind, ledger_, gets. rewrite E. by apply Hf; destruct s. Qed.
Lemma grants_modify_db x (g : database -> database) (f : unit -> Req L A) post :
  grants (x <| hd_db ::= g |>) (f tt) post -> grants x (bind (on_rows (modify_db g)) f) post.
Proof. intros Hf s (E & El). apply Hf. unfold at_, rows_of in *. cbn. by rewrite E. Qed.
Lemma grants_put_ledger x (g : L -> L) (f : unit -> Req L A) post :
  grants (x <| hd_ledger ::= g |>) (f tt) post -> grants x (bind (put_ledger g) f) post.
Proof. intros Hf s (E & El). apply Hf. split; [done|]. cbn. by rewrite El. Qed.
End grants.

Lemma at_holdings {L} (x : holdings L) s : at_ x s -> holdings_of s = x.
Proof. intros (E1 & E2). unfold holdings_of. rewrite E1, E2. by destruct x. Qed.
Lemma at_here {L} (s : office L) : at_ (holdings_of s) s.
Proof. done. Qed.

(** A request leaves the rows as they were, or as its handler says. *)
Lemma answered_leads {L A} (h : Req L A) post s :
  leads (holdings_of s) h post ->
  match answered h s with
  | (inr a, s') => post a (holdings_of s')
  | (inl e, s') => holdings_of s' = holdings_of s
  end.
Proof.
  intros Hh. specialize (Hh s (at_here s)). unfold answered. destruct (h s) as [[e|a] s'].
  - reflexivity.
  - destruct Hh as (x' & Hx & Hp). by rewrite (at_holdings _ _ Hx).
Qed.

Lemma grants_answered {L A} (post : A -> Prop) (h : Req L A) s :
  grants (holdings_of s) h post -> exists a s', answered h s = (inr a, s') /\ post a.
Proof. intros Hh. destruct (Hh s (at_here s)) as (a & s' & E & Hp). exists a, s'. unfold answered. by rewrite E. Qed.

Section calling.
Context `{Env} {L : Type}.
Context (digest : string -> string) (active : api_key -> bool) (jwt_subject : string -> option Z) (users : gmap Z User).

Lemma leads_principal (x : holdings L) token key :
  leads x (get_principal digest active jwt_subject users token key) (fun _ x' => x' = x).
Proof.
  assert (forall A (r : exn + A) (f : A -> Principal), leads x (bind (lift r) (fun a => ret (f a))) (fun _ x' => x' = x)) as Hl.
  { intros A r f. apply leads_lift. intros a _. by apply leads_ret. }
  unfold get_principal. destruct key as [presented|]; [|apply Hl]. destruct (String.eqb presented ""); [apply Hl|].
  eapply (leads_bind _ _ _ (fun _ x' => x' = x)); [|intros [p|] x' ->; [by apply leads_ret|apply leads_raise]].
  unfold _principal_from_key. apply leads_db. destruct (_ ≫= _) as [k|]; [|by apply leads_ret].
  destruct (_ || _); [by apply leads_ret|]. destruct (ak_policy_session_id k); [by apply leads_ret|].
  apply leads_now. intros t. destruct (_expired _ _); [by apply leads_ret|]. destruct (users !! _); [|by apply leads_ret].
  apply leads_now. intros t'. eapply (leads_write _ _ _ _ x); [|by apply leads_ret]. by intros s.
Qed.
Lemma leads_caller (x : holdings L) a c : leads x (caller digest active jwt_subject users a c) (fun _ x' => x' = x).
Proof.
  destruct a; [apply leads_principal| |]; apply leads_lift; intros u _; by apply leads_ret.
Qed.

(** A request leaves the rows as they were, or as its handler says. *)
Lemma served (a : access) c (h : Principal -> Req L unit) (post : holdings L -> Prop) s :
  (forall p, leads (holdings_of s) (h p) (fun _ => post)) ->
  let '(r, s') := serve_request digest active jwt_subject users a c h s in
  match r with inr _ => post (holdings_of s') | inl _ => holdings_of s' = holdings_of s end.
Proof.
  intros Hh. unfold serve_request. pose proof (answered_leads _ _ s (leads_caller (holdings_of s) a c)) as Hc.
  destruct (answered (caller _ _ _ _ _ _) s) as [[e|p] s1]; [done|].
  pose proof (answered_leads (h p) (fun _ => post) s1) as Hs. rewrite Hc in Hs. specialize (Hs (Hh p)).
  destruct (answered (h p) s1) as [[e|[]] s2]; [by rewrite Hs|done].
Qed.
End calling.

Section keys.
Context `{Env} {L : Type}.
Context (digest : string -> string) (active : api_key -> bool) (jwt_subject : string -> option Z) (users : gmap Z User).
Implicit Types s : office L.

(** ** Who is asking *)

(** The key a text presents, when it is one a service may use. *)
Definition service_key (db : database) (moment : Z) (presented : string) (k : api_key) (owner : User) : Prop :=
  exists prefix, split_key presented = Some prefix /\
    List.find (fun k => String.eqb (ak_prefix k) prefix) (rows_z (d_api_keys db)) = Some k /\
    active k = true /\ digest presented = ak_key_hash k /\ ak_policy_session_id k = None /\
    _expired (ak_expires_at k) moment = false /\ users !! ak_owner_id k = Some owner.

(** A service key is checked, and a policy's token is not one.  A request that presents a key is let through
    exactly when the key is on file under its prefix, has not been revoked and not expired, its digest matches,
    its owner exists, and it is not the token of a policy session; it then acts for the owner under the key's
    name, the key is marked as used at the moment, and no row changes.  Otherwise it is refused, whatever else
    it carries, and nothing is marked. *)
Theorem service_key_is_checked token presented s :
  presented <> "" ->
  let '(r, s') := answered (get_principal digest active jwt_subject users token (Some presented)) s in
  let moment := clock (w_calls (o_world s)) in
  holdings_of s' = holdings_of s /\
  (forall p, r = inr p <-> exists k owner, service_key (rows_of s) moment presented k owner /\
                          p = mkPrincipal owner ("key:" +:+ ak_name k) true) /\
  match r with
  | inr p => exists k owner t, service_key (rows_of s) moment presented k owner /\ o_used s' = <[ ak_id k := t ]> (o_used s)
  | inl e => e = HTTPException 401 "Invalid or revoked API key" /\ o_used s' = o_used s
  end.
Proof.
  intros Hne. apply String.eqb_neq in Hne.
  assert (forall k owner k' owner', service_key (rows_of s) (clock (w_calls (o_world s))) presented k owner ->
            service_key (rows_of s) (clock (w_calls (o_world s))) presented k' owner' -> k' = k /\ owner' = owner) as Huniq.
  { intros k owner k' owner' (p & Hp & Hk & _ & _ & _ & _ & Ho) (p' & Hp' & Hk' & _ & _ & _ & _ & Ho'). assert (p' = p) as -> by congruence.
    assert (k' = k) as -> by congruence. split; [done|congruence]. }
  unfold answered, get_principal. rewrite Hne. unfold _principal_from_key, bind, on_rows, db_, gets.
  change (w_db (o_world s)) with (rows_of s).
  destruct (split_key presented) as [prefix|] eqn:Ep; cbn [mbind option_bind].
  2: { split_and!; try done. intros p. split; [done|]. intros (k & o & (pr & E & _) & _). congruence. }
  destruct (List.find _ _) as [k|] eqn:Ek.
  2: { split_and!; try done. intros p. split; [done|]. intros (k & o & (pr & Epr & E & _) & _). assert (pr = prefix) as -> by congruence. congruence. }
  destruct (negb (active k) || negb (String.eqb (digest presented) (ak_key_hash k))) eqn:Ea.
  { split_and!; try done. intros p. split; [done|]. intros (k' & o & (pr & Epr & E & Ha & Hd & _) & _).
    assert (pr = prefix) as -> by congruence. assert (k' = k) as -> by congruence. by rewrite Ha, Hd, String.eqb_refl in Ea. }
  apply orb_false_iff in Ea as [Ea Ed]. apply negb_false_iff in Ea, Ed. apply String.eqb_eq in Ed.
  destruct (ak_policy_session_id k) eqn:Es.
  { split_and!; try done. intros p. split; [done|]. intros (k' & o & (pr & Epr & E & _ & _ & Hs & _) & _). assert (pr = prefix) as -> by congruence. congruence. }
  unfold now, call. cbn.
  destruct (_expired (ak_expires_at k) (clock (w_calls (o_world s)))) eqn:Ex.
  { split_and!; try done. intros p. split; [done|]. intros (k' & o & (pr & Epr & E & _ & _ & _ & Hx & _) & _). assert (pr = prefix) as -> by congruence. congruence. }
  destruct (users !! ak_owner_id k) as [owner|] eqn:Eo.
  2: { split_and!; try done. intros p. split; [done|]. intros (k' & o & (pr & Epr & E & _ & _ & _ & _ & Ho) & _). assert (pr = prefix) as -> by congruence. congruence. }
  assert (service_key (rows_of s) (clock (w_calls (o_world s))) presented k owner) as Hkey by (exists prefix; by split_and!).
  split_and!; try done.
  - intros p. split; [intros [= <-]; exists k, owner; split; [exact Hkey|done]|]. intros (k' & o & Hk' & ->).
    by destruct (Huniq _ _ _ _ Hkey Hk') as [-> ->].
  - exists k, owner, (clock (S (w_calls (o_world s)))). split; [exact Hkey|done].
Qed.
End keys.
