(* ===== verification/Grounds.v ===== *)
(** The fleet API: what people and services that lend machines may ask
    ([api/leases.py], [api/machines.py], [api/machine_groups.py], [stop_run] of
    [api/runs.py]).  What this part of the API keeps besides the rows are the
    columns of machines and groups that the worker never reads. *)
From Stdlib Require Import Ascii.
From S2P Require Import Failures Logs Model States Packing Timing World Samples Occupancy Fleet Exclusive Finish Placement Nights.
From S2P Require Import Reserve Queue Pass Runs Advance Leases Clock Datasets Sessions Ending Tenancy.
From S2P Require Import Prelude Float Values Texts Documents Space Validation Flags Commands ExtraArgs Addresses Recipes.
From S2P Require Import Composition Conversion Scripts Checks Contract Measures Hardware Requests.
#[local] Open Scope string_scope.
#[local] Open Scope list_scope.
#[local] Open Scope Z_scope.

(** ** The rows only this API uses *)

(** The columns of a machine the worker never reads. *)
Record machine_notes := MachineNotes {
  mn_ssh_user : string;
  mn_ssh_port : Z;
  mn_notes : string;
  mn_data_host : string;
  mn_nccl_ifname : string;
  mn_lease_holder : string;
  mn_lease_note : string;
  mn_leased_at : option Z;
}.
#[export] Instance eta_machine_notes : Eta machine_notes := fun r =>
  MachineNotes (mn_ssh_user r) (mn_ssh_port r) (mn_notes r) (mn_data_host r) (mn_nccl_ifname r)
    (mn_lease_holder r) (mn_lease_note r) (mn_leased_at r).

(** The columns of a group the worker reads only for the launch itself. *)
Record group_notes := GroupNotes {
  gn_driver : string;
  gn_cluster_id : option Z;
  gn_nccl_env : dict;
  gn_dist_port : Z;
  gn_extra_env : dict;
  gn_extra_volumes : dict;
  gn_notes : string;
}.
#[export] Instance eta_group_notes : Eta group_notes := fun r =>
  GroupNotes (gn_driver r) (gn_cluster_id r) (gn_nccl_env r) (gn_dist_port r) (gn_extra_env r)
    (gn_extra_volumes r) (gn_notes r).

Record fleet_ledger := FleetLedger {
  gl_machines : gmap Z machine_notes;
  gl_groups : gmap Z group_notes;
}.
#[export] Instance eta_fleet_ledger : Eta fleet_ledger := fun r => FleetLedger (gl_machines r) (gl_groups r).

Definition grounds := office fleet_ledger.
Definition gr_machines (s : grounds) : gmap Z machine_notes := gl_machines (o_ledger s).
Definition gr_groups (s : grounds) : gmap Z group_notes := gl_groups (o_ledger s).
Definition G := Req fleet_ledger.
Definition put_machine_notes (mid : Z) (f : machine_notes -> machine_notes) : G unit :=
  put_ledger (fun l => l <| gl_machines ::= alter f mid |>).
Definition put_group_notes (f : gmap Z group_notes -> gmap Z group_notes) : G unit :=
  put_ledger (fun l => l <| gl_groups ::= f |>).

(** ** Requests *)
(** [schemas/core.py:MachineCreate], as it is sent. *)
Record MachineCreate := mkMachineCreate {
  mc_name : string;
  mc_host : string;
  mc_ssh_user : string;
  mc_ssh_port : Z;
  mc_gpu_count : option Z;
  mc_gpu_type : string;
  mc_notes : string;
  mc_driver : string;
  mc_cluster_id : option Z;
  mc_node_selector : string;
  mc_data_host : string;
  mc_nccl_ifname : string;
}.
Record LeaseRequest := mkLeaseRequest {
  lq_name : string;
  lq_host : option string;
  lq_ssh_user : option string;
  lq_ssh_port : option Z;
  lq_gpu_count : option Z;
  lq_gpu_type : option string;
  lq_notes : option string;
  lq_due_at : option Z;
  lq_lease_note : string;
}.
Record LeaseEndRequest := mkLeaseEndRequest { lx_mode : string; lx_deadline_seconds : option Z }.
Record MachineGroupCreate := mkGroupCreate {
  gc_name : string;
  gc_members : list string;
  gc_driver : string;
  gc_nccl_env : dict;
  gc_dist_port : Z;
  gc_extra_env : dict;
  gc_extra_volumes : dict;
  gc_notes : string;
}.
(** A field left out or null is [None]; the driver's tells the two apart: left
    out is [None], null is [Some None]. *)
Record MachineGroupUpdate := mkGroupUpdate {
  gu_members : option (list string);
  gu_driver : option (option string);
  gu_nccl_env : option dict;
  gu_dist_port : option Z;
  gu_extra_env : option dict;
  gu_extra_volumes : option dict;
  gu_notes : option string;
}.

Definition parse_machine (b : MachineCreate) : exn + MachineCreate :=
  match coerce_gpu_type (mc_gpu_type b) with
  | inl why => unprocessable why
  | inr card =>
      let b := mkMachineCreate (strip (mc_name b)) (strip (mc_host b)) (mc_ssh_user b) (mc_ssh_port b)
                 (mc_gpu_count b) card (mc_notes b) (mc_driver b) (mc_cluster_id b)
                 (strip (mc_node_selector b)) (strip (mc_data_host b)) (strip (mc_nccl_ifname b)) in
      if negb (in_bounds 1 64 (mc_gpu_count b)) then unprocessable "gpu_count"
      else if String.eqb (mc_name b) "" then unprocessable "give the machine a name"
      else if negb (String.eqb (mc_driver b) "k8s") && String.eqb (mc_host b) ""
        then unprocessable "an ssh machine needs the host to reach it at"
      else inr b
  end.

Definition parse_lease (q : LeaseRequest) : exn + LeaseRequest :=
  if negb (in_bounds 1 65535 (lq_ssh_port q)) then unprocessable "ssh_port"
  else if negb (in_bounds 0 64 (lq_gpu_count q)) then unprocessable "gpu_count"
  else
    match lq_gpu_type q with
    | None => inr q
    | Some raw =>
        match coerce_gpu_type raw with
        | inl why => unprocessable why
        | inr card => inr (mkLeaseRequest (lq_name q) (lq_host q) (lq_ssh_user q) (lq_ssh_port q)
                             (lq_gpu_count q) (Some card) (lq_notes q) (lq_due_at q) (lq_lease_note q))
        end
    end.

Section grounds.
Context `{Env}.
(** Whether [get_driver] has a driver for the machine's substrate and cluster,
    and the card types of the nodes a capacity probe matched, which come with
    its answer. *)
Context (driver_found : machine -> bool) (node_types : nat -> machine -> list string).

(** ** Capacity *)

(** A probe's answer, with the card types it saw. *)
Definition ask_capacity (m : machine) : W (probe * list string) :=
  if negb (driver_found m) then raise (OtherError "unknown driver")
  else call [] (fun n => match drv_probe_capacity n m with
                         | inl e => inl e
                         | inr p => inr (p, node_types n m)
                         end).
Definition no_answer : probe := Probe false false None "" 0 0 None.

(** [machines.py:_probe_capacity]: a driver that cannot be built is an error, a
    probe that fails is not. *)
Definition _probe_capacity (m : machine) : W probe :=
  if negb (driver_found m) then raise (OtherError "unknown driver")
  else a <- logged (ask_capacity m) (no_answer, []) ;; ret a.1.

Definition _apply_probe (moment : Z) (p : probe) (m : machine) : exn + machine :=
  let m := record_capacity moment p m in
  if m_gpu_count m =? 0 then
    if String.eqb (m_driver m) "k8s" && String.eqb (m_node_selector m) ""
    then unprocessable "names no nodes and its namespace has no GPU quota to go by"
    else unprocessable "could not read the machine's GPUs"
  else inr m.

(** ** Machines *)
Definition machine_named (db : database) (name : string) : option machine :=
  List.find (fun m => String.eqb (m_name m) name) (rows_z (d_machines db)).
Definition group_named (db : database) (name : string) : option machine_group :=
  List.find (fun g => String.eqb (g_name g) name) (rows_z (d_groups db)).

Definition _get_machine (mid : Z) : G machine :=
  db <- on_rows db_ ;;
  match d_machines db !! mid with Some m => ret m | None => deny 404 "no such machine" end.
Definition _by_name (name : string) : G machine :=
  db <- on_rows db_ ;;
  match machine_named db name with Some m => ret m | None => deny 404 "no machine of that name" end.

Definition add_machine (m : machine) (notes : machine_notes) : G Z :=
  db <- on_rows db_ ;;
  let mid := next_key (d_machines db) in
  on_rows (modify_db (fun db => db <| d_machines ::= <[ mid := m <| m_id := mid |> ]> |>)) ;;;
  put_ledger (fun l => l <| gl_machines ::= <[ mid := notes ]> |>) ;;;
  ret mid.

(** The row and the notes a registration makes, with the columns' defaults. *)
Definition new_machine (b : MachineCreate) : machine :=
  Machine 0 (mc_name b) (mc_host b) (mc_driver b) (mc_cluster_id b) (mc_node_selector b)
    (default 0 (mc_gpu_count b)) (mc_gpu_type b) Away false "" None LeaseNone None None None None 0 0 None None.
Definition new_notes (b : MachineCreate) : machine_notes :=
  MachineNotes (mc_ssh_user b) (mc_ssh_port b) (mc_notes b) (mc_data_host b) (mc_nccl_ifname b) "" "" None.

Definition create_machine (body : MachineCreate) : G Z :=
  b <- lift (parse_machine body) ;;
  db <- on_rows db_ ;;
  match machine_named db (mc_name b) with
  | Some _ => deny 409 "machine name taken"
  | None =>
      p <- on_rows (_probe_capacity (new_machine b)) ;;
      moment <- on_rows now ;;
      m <- lift (_apply_probe moment p (new_machine b)) ;;
      mid <- add_machine m (new_notes b) ;;
      on_rows (event_ "machine_added" None None) ;;;
      ret mid
  end.

Definition probe_capacity (mid : Z) : G unit :=
  m <- _get_machine mid ;;
  p <- on_rows (_probe_capacity m) ;;
  if negb (pr_supported p) then deny 409 "could not read the machine's cards"
  else
    moment <- on_rows now ;;
    m' <- lift (_apply_probe moment p m) ;;
    on_rows (put_machine mid (fun _ => m')) ;;;
    on_rows (event_ "machine_capacity_probed" None None).

(** Campaigns that are not over and name the machine. *)
Definition _blocking_campaigns (db : database) (m : machine) : list string :=
  map c_name (where_ (fun c => negb (c_status c == Done) && bool_decide (m_name m ∈ c_machine_names c))
                (rows_z (d_campaigns db))).

Definition _guard_in_use (m : machine) (blocking : list string) : G unit :=
  match blocking with
  | _ :: _ => deny 409 "campaigns are pinned to it"
  | [] => if m_state m == Reserved then deny 409 "a live run holds it; stop the run first" else ret tt
  end.

(** The fields of the body on the row; a count that is not given stays. *)
Definition edited (b : MachineCreate) (m : machine) : machine :=
  m <| m_name := mc_name b |> <| m_host := mc_host b |> <| m_driver := mc_driver b |>
    <| m_cluster_id := mc_cluster_id b |> <| m_node_selector := mc_node_selector b |>
    <| m_gpu_count := default (m_gpu_count m) (mc_gpu_count b) |> <| m_gpu_type := mc_gpu_type b |>.
Definition edited_notes (b : MachineCreate) (n : machine_notes) : machine_notes :=
  n <| mn_ssh_user := mc_ssh_user b |> <| mn_ssh_port := mc_ssh_port b |> <| mn_notes := mc_notes b |>
    <| mn_data_host := mc_data_host b |> <| mn_nccl_ifname := mc_nccl_ifname b |>.

Definition update_machine (mid : Z) (body : MachineCreate) : G unit :=
  b <- lift (parse_machine body) ;;
  m <- _get_machine mid ;;
  db <- on_rows db_ ;;
  _guard_in_use m (_blocking_campaigns db m) ;;;
  if negb (String.eqb (mc_name b) (m_name m)) && bool_decide (is_Some (machine_named db (mc_name b)))
  then deny 409 "machine name taken"
  else
    on_rows (put_machine mid (edited b)) ;;;
    put_machine_notes mid (edited_notes b) ;;;
    p <- on_rows (_probe_capacity (edited b m)) ;;
    moment <- on_rows now ;;
    m' <- lift (_apply_probe moment p (edited b m)) ;;
    on_rows (put_machine mid (fun _ => m')) ;;;
    on_rows (event_ "machine_updated" None None).

Definition member_of (mid : Z) (kv : Z * Z * Z) : bool := kv.2 =? mid.

(** The rows keep what they measured; only their machine is forgotten. *)
Definition detach (mid : Z) (db : database) : database :=
  db <| d_runs ::= fmap (fun r => if r_machine_id r == Some mid then r <| r_machine_id := None |> else r) |>
     <| d_nodes ::= fmap (fun n => if on_machine mid n then n <| n_machine_id := None |> else n) |>
     <| d_sessions ::= fmap (fun s => if ps_machine_id s == Some mid then s <| ps_machine_id := None |> else s) |>.

Definition delete_machine (mid : Z) : G string :=
  m <- _get_machine mid ;;
  db <- on_rows db_ ;;
  _guard_in_use m (_blocking_campaigns db m) ;;;
  if existsb (member_of mid) (map_to_list (d_members db)) then deny 409 "it is in a node group"
  else
    on_rows (modify_db (detach mid)) ;;;
    on_rows (modify_db (fun db => db <| d_machines ::= delete mid |>)) ;;;
    put_ledger (fun l => l <| gl_machines ::= delete mid |>) ;;;
    on_rows (event_ "machine_removed" None None) ;;;
    ret (m_name m).

Definition machine_state_of (s : string) : option MachineState :=
  if String.eqb s "away" then Some Away
  else if String.eqb s "available" then Some Available else None.

Definition set_machine_state (mid : Z) (state : string) : G unit :=
  match machine_state_of state with
  | None => deny 422 "state must be away|available"
  | Some st =>
      m <- _get_machine mid ;;
      if m_state m == Reserved then deny 409 "machine is reserved by a live run"
      else
        on_rows (put_machine mid (fun m => m <| m_state := st |>)) ;;;
        on_rows (event_ "machine_state_changed" None None)
  end.

(** ** Leases ([api/leases.py]) *)
Definition registered (name : string) : machine :=
  Machine 0 name "" "" None "" 8 "" Away false "" None LeaseNone None None None None 0 0 None None.
Definition registered_notes : machine_notes := MachineNotes "root" 22 "" "" "" "" "" None.

(** What the body gives replaces what the row has. *)
Definition described (q : LeaseRequest) (m : machine) : machine :=
  m <| m_host := match lq_host q with Some h => or_string (strip h) (m_host m) | None => m_host m end |>
    <| m_gpu_count := default (m_gpu_count m) (lq_gpu_count q) |>
    <| m_gpu_type := default (m_gpu_type m) (lq_gpu_type q) |>.
Definition described_notes (q : LeaseRequest) (n : machine_notes) : machine_notes :=
  n <| mn_ssh_user := default (mn_ssh_user n) (lq_ssh_user q) |>
    <| mn_ssh_port := default (mn_ssh_port n) (lq_ssh_port q) |>
    <| mn_notes := default (mn_notes n) (lq_notes q) |>.

(** A machine of a cluster states its own capacity; a probe never blocks a
    lease, but one that finds a pool of several card types does. *)
Definition read_capacity (mid : Z) : G unit :=
  m <- on_rows (get_machine mid) ;;
  if negb (String.eqb (m_driver m) "k8s") then ret tt
  else
    a <- on_rows (logged (ask_capacity m) (no_answer, [])) ;;
    moment <- on_rows now ;;
    on_rows (put_machine mid (record_capacity moment a.1)) ;;;
    if is_node_pool (record_capacity moment a.1 m) && (1 <? Z.of_nat (length a.2))
    then deny 409 "it matches nodes with different GPU types" else ret tt.

Definition leased (due : option Z) (m : machine) : machine :=
  m <| m_state := Available |> <| m_lease_state := LeaseActive |> <| m_lease_due_at := due |>
    <| m_lease_end_mode := None |> <| m_lease_deadline_at := None |> <| m_lease_released_at := None |>.

Definition lease_machine (p : Principal) (body : LeaseRequest) : G Z :=
  q <- lift (parse_lease body) ;;
  let name := strip (lq_name q) in
  if String.eqb name "" then deny 422 "name is required"
  else
    db <- on_rows db_ ;;
    mid <- match machine_named db name with
           | None =>
               if negb (u_admin (pp_user p)) then deny 403 "only an admin can register a machine"
               else if String.eqb (strip (default "" (lq_host q))) "" then deny 422 "host is required"
               else add_machine (registered name) registered_notes
           | Some m =>
               if m_lease_state m == LeaseDraining then deny 409 "it is being handed back" else ret (m_id m)
           end ;;
    on_rows (put_machine mid (described q)) ;;;
    put_machine_notes mid (described_notes q) ;;;
    read_capacity mid ;;;
    moment <- on_rows now ;;
    on_rows (put_machine mid (leased (lq_due_at q))) ;;;
    put_machine_notes mid (fun n => n <| mn_lease_holder := pp_actor p |> <| mn_lease_note := lq_lease_note q |>
                                      <| mn_leased_at := Some moment |>) ;;;
    on_rows (event_ "lease_started" None None) ;;;
    ret mid.

Definition end_mode_of (s : string) : option LeaseEndMode :=
  if String.eqb s "polite" then Some Polite else if String.eqb s "eager" then Some Eager else None.

Definition second : Z := 1000000.

Definition end_lease (name : string) (body : LeaseEndRequest) : G Z :=
  if negb (match lx_deadline_seconds body with Some n => 0 <=? n | None => true end)
  then lift (unprocessable "deadline_seconds")
  else
    match end_mode_of (lx_mode body) with
    | None => deny 422 "mode must be polite|eager"
    | Some mode =>
        m <- _by_name name ;;
        if negb ((m_lease_state m == LeaseActive) || (m_lease_state m == LeaseDraining))
        then deny 409 "it has no active lease"
        else
          on_rows (put_machine (m_id m) (fun m => (m <| m_lease_state := LeaseDraining |>) <| m_lease_end_mode := Some mode |>)) ;;;
          match lx_deadline_seconds body with
          | Some n => moment <- on_rows now ;;
                      on_rows (put_machine (m_id m) (fun m => m <| m_lease_deadline_at := Some (moment + n * second) |>))
          | None => ret tt
          end ;;;
          on_rows (event_ "lease_end_requested" None None) ;;;
          ret (m_id m)
    end.

(** ** Node groups ([api/machine_groups.py]) *)
Definition _DEFAULT_DRIVER : string := "ssh_docker".
Definition _effective_driver (m : machine) : string := or_string (m_driver m) _DEFAULT_DRIVER.

Definition _get_group (gid : Z) : G machine_group :=
  db <- on_rows db_ ;;
  match d_groups db !! gid with Some g => ret g | None => deny 404 "no such node group" end.

(** One value, whichever machine is asked. *)
Definition alike {B} `{EqDecision B} (f : machine -> B) (l : list machine) : bool :=
  match l with [] => true | m :: rest => forallb (fun m' => f m' == f m) rest end.

Definition cleaned_names (names : list string) : list string :=
  where_ (fun s => negb (String.eqb s "")) (map strip names).

(** The group another machine's row is claimed by: any but [exclude]. *)
Definition taken_by (exclude : option Z) (ids : list Z) (kv : Z * Z * Z) : bool :=
  bool_decide (kv.2 ∈ ids) && negb (kv.1.1 =? or_z (default 0 exclude) (-1)).

Definition _load_members (db : database) (names : list string) (exclude : option Z) : exn + list machine :=
  let cleaned := cleaned_names names in
  match cleaned with
  | [] => unprocessable "a group needs members"
  | _ =>
      if negb (bool_decide (NoDup cleaned)) then unprocessable "duplicate member(s)"
      else
        match mapM (machine_named db) cleaned with
        | None => unprocessable "not registered on the Resources page"
        | Some ordered =>
            if negb (alike _effective_driver ordered) then unprocessable "a node group must be one substrate"
            else if negb (alike m_cluster_id ordered) then unprocessable "a node group must be in one cluster"
            else if negb (alike m_gpu_type ordered) then unprocessable "a node group must be one GPU type"
            else if negb (alike m_gpu_count ordered)
              then unprocessable "a node group must have the same card count on every member"
            else if existsb (taken_by exclude (map m_id ordered)) (map_to_list (d_members db))
              then inl (HTTPException 409 "a machine can belong to only one node group")
            else inr ordered
        end
  end.

Definition _assert_driver_matches (machines : list machine) (driver : string) : exn + unit :=
  if String.eqb driver "" then inr tt
  else if forallb (fun m => String.eqb (_effective_driver m) driver) machines then inr tt
  else unprocessable "driver does not match".

(** The first cluster a member names. *)
Definition group_cluster (machines : list machine) : option Z :=
  head (omap (fun m => cid ← m_cluster_id m; if cid =? 0 then None else Some cid) machines).

Fixpoint seat (gid rank : Z) (ids : list Z) (t : gmap (Z * Z) Z) : gmap (Z * Z) Z :=
  match ids with [] => t | mid :: rest => seat gid (rank + 1) rest (<[ (gid, rank) := mid ]> t) end.
Definition unseat (gid : Z) (t : gmap (Z * Z) Z) : gmap (Z * Z) Z := filter (fun kv => kv.1.1 <> gid) t.

Definition put_members (gid : Z) (machines : list machine) : G unit :=
  on_rows (modify_db (fun db => db <| d_members ::= fun t => seat gid 0 (map m_id machines) (unseat gid t) |>)).

Definition create_group (body : MachineGroupCreate) : G Z :=
  if negb (in_bounds 0 65535 (Some (gc_dist_port body))) then lift (unprocessable "dist_port")
  else if match gc_members body with [] => true | _ => false end then lift (unprocessable "members")
  else
    let name := strip (gc_name body) in
    if String.eqb name "" then deny 422 "a group needs a name"
    else
      db <- on_rows db_ ;;
      match group_named db name with
      | Some _ => deny 409 "node group name taken"
      | None =>
          machines <- lift (_load_members db (gc_members body) None) ;;
          lift (_assert_driver_matches machines (gc_driver body)) ;;;
          let gid := next_key (d_groups db) in
          on_rows (modify_db (fun db => db <| d_groups ::= <[ gid := MachineGroup gid name ]> |>)) ;;;
          put_group_notes (<[ gid := GroupNotes (gc_driver body) (group_cluster machines) (gc_nccl_env body)
                                                    (gc_dist_port body) (gc_extra_env body) (gc_extra_volumes body) (gc_notes body) ]>) ;;;
          put_members gid machines ;;;
          on_rows (event_ "machine_group_created" None None) ;;;
          ret gid
      end.

Definition group_machines (db : database) (gid : Z) : list machine :=
  omap (fun '((g, _), mid) => if g =? gid then d_machines db !! mid else None)
    (sort_by (key_before (fun km => [km.1.1; km.1.2])) (map_to_list (d_members db))).

(** The fields that were given. *)
Definition edited_group (b : MachineGroupUpdate) (n : group_notes) : group_notes :=
  n <| gn_driver := default (gn_driver n) (mjoin (gu_driver b)) |>
    <| gn_nccl_env := default (gn_nccl_env n) (gu_nccl_env b) |>
    <| gn_dist_port := default (gn_dist_port n) (gu_dist_port b) |>
    <| gn_extra_env := default (gn_extra_env n) (gu_extra_env b) |>
    <| gn_extra_volumes := default (gn_extra_volumes n) (gu_extra_volumes b) |>
    <| gn_notes := default (gn_notes n) (gu_notes b) |>.

Definition update_group (gid : Z) (body : MachineGroupUpdate) : G unit :=
  if negb (in_bounds 0 65535 (gu_dist_port body)) then lift (unprocessable "dist_port")
  else
    _get_group gid ;;;
    db <- on_rows db_ ;;
    l <- ledger_ ;;
    match gu_members body with
    | Some names =>
        machines <- lift (_load_members db names (Some gid)) ;;
        lift (_assert_driver_matches machines
                (default "" (default (gn_driver <$> gl_groups l !! gid) (gu_driver body)))) ;;;
        put_members gid machines ;;;
        put_group_notes (alter (fun n => n <| gn_cluster_id := group_cluster machines |>) gid)
    | None => lift (_assert_driver_matches (group_machines db gid) (default "" (mjoin (gu_driver body))))
    end ;;;
    put_group_notes (alter (edited_group body) gid) ;;;
    on_rows (event_ "machine_group_updated" None None).

Definition delete_group (gid : Z) : G string :=
  g <- _get_group gid ;;
  db <- on_rows db_ ;;
  if existsb (fun c => String.eqb (c_node_group c) (g_name g) && negb (c_status c == Done)) (rows_z (d_campaigns db))
  then deny 409 "campaigns deploy across it"
  else if existsb (fun r => String.eqb (r_node_group r) (g_name g) && live_run r) (rows_z (d_runs db))
  then deny 409 "a multi-node run is live on it"
  else
    on_rows (modify_db (fun db => (db <| d_members ::= unseat gid |>) <| d_groups ::= delete gid |>)) ;;;
    put_group_notes (delete gid) ;;;
    on_rows (event_ "machine_group_removed" None None) ;;;
    ret (g_name g).

(** ** Runs ([api/runs.py]) *)
Definition stop_run (rid : Z) : G unit :=
  db <- on_rows db_ ;;
  match d_runs db !! rid with
  | None => deny 404 "no such run"
  | Some r =>
      if terminal_run (r_status r) then deny 409 "run already over"
      else on_rows (event_ "stop_requested" (Some (r_campaign_id r)) (Some rid))
  end.

(** ** One request after the other *)
Inductive fleet_request :=
| LeaseMachine (body : LeaseRequest)
| EndLease (name : string) (body : LeaseEndRequest)
| CreateMachine (body : MachineCreate)
| ProbeCapacity (mid : Z)
| UpdateMachine (mid : Z) (body : MachineCreate)
| DeleteMachine (mid : Z)
| SetMachineState (mid : Z) (state : string)
| CreateGroup (body : MachineGroupCreate)
| UpdateGroup (gid : Z) (body : MachineGroupUpdate)
| DeleteGroup (gid : Z)
| StopRun (rid : Z).

(** Leases take a person or a service; the rest take people, and most of it
    administrators. *)
Definition access_of (q : fleet_request) : access :=
  match q with
  | LeaseMachine _ | EndLease _ _ => AnyPrincipal
  | ProbeCapacity _ | StopRun _ => AnyUser
  | _ => AdminUser
  end.

Definition handle_fleet (p : Principal) (q : fleet_request) : G unit :=
  match q with
  | LeaseMachine body => discard (lease_machine p body)
  | EndLease name body => discard (end_lease name body)
  | CreateMachine body => discard (create_machine body)
  | ProbeCapacity mid => probe_capacity mid
  | UpdateMachine mid body => update_machine mid body
  | DeleteMachine mid => discard (delete_machine mid)
  | SetMachineState mid state => set_machine_state mid state
  | CreateGroup body => discard (create_group body)
  | UpdateGroup gid body => update_group gid body
  | DeleteGroup gid => discard (delete_group gid)
  | StopRun rid => stop_run rid
  end.
End grounds.
