(* ===== verification/Estate.v ===== *)
(** What the fleet API keeps true of machines, leases and node groups. *)
From Stdlib Require Import Ascii.
From S2P Require Import Failures Logs Model States Packing Timing World Samples Occupancy Fleet Exclusive Finish Placement Nights.
From S2P Require Import Reserve Queue Pass Runs Advance Leases Clock Datasets Sessions Ending Tenancy.
From S2P Require Import Prelude Float Values Texts Documents Space Validation Flags Commands ExtraArgs Addresses Recipes.
From S2P Require Import Composition Conversion Scripts Checks Contract Measures Hardware Requests Grounds.
#[local] Open Scope string_scope.
#[local] Open Scope list_scope.
#[local] Open Scope Z_scope.

#[local] Abbreviation holdings := (Requests.holdings fleet_ledger).
Definition hd_machines (x : holdings) : gmap Z machine_notes := gl_machines (hd_ledger x).
Definition hd_groups (x : holdings) : gmap Z group_notes := gl_groups (hd_ledger x).
Definition on_machines (f : gmap Z machine_notes -> gmap Z machine_notes) (x : holdings) : holdings :=
  x <| hd_ledger ::= fun l => l <| gl_machines ::= f |> |>.
Definition on_groups (f : gmap Z group_notes -> gmap Z group_notes) (x : holdings) : holdings :=
  x <| hd_ledger ::= fun l => l <| gl_groups ::= f |> |>.

(** ** What each handler does *)
Section specs.
Context `{Env}.
Context (digest : string -> string) (active : api_key -> bool) (jwt_subject : string -> option Z) (users : gmap Z User).
Context (driver_found : machine -> bool) (node_types : nat -> machine -> list string).

Lemma quiet_ask (x : holdings) m s :
  at_ x s -> at_ x (on_rows (logged (ask_capacity driver_found node_types m) (no_answer, [])) s).2.
Proof.
  intros Hs. unfold logged, try_, ask_capacity, on_rows. destruct (negb (driver_found m)); [exact Hs|].
  unfold call. by destruct (drv_probe_capacity _ m).
Qed.
Lemma quiet_probe (x : holdings) m s : at_ x s -> at_ x (on_rows (_probe_capacity driver_found node_types m) s).2.
Proof.
  intros Hs. unfold _probe_capacity. destruct (negb (driver_found m)) eqn:E; [exact Hs|].
  unfold bind, logged, try_, ask_capacity, on_rows. rewrite E. unfold call. by destruct (drv_probe_capacity _ m).
Qed.

(** Rows of machines, and what only this API keeps of them. *)
Definition put_row (mid : Z) (m : machine) (x : holdings) : holdings :=
  x <| hd_db ::= fun db => db <| d_machines ::= <[ mid := m ]> |> |>.
Definition change_row (mid : Z) (f : machine -> machine) (x : holdings) : holdings :=
  x <| hd_db ::= fun db => db <| d_machines ::= alter f mid |> |>.
Definition change_notes (mid : Z) (f : machine_notes -> machine_notes) (x : holdings) : holdings :=
  on_machines (alter f mid) x.

Lemma leads_put_machine {A} x mid f (k : unit -> G A) post :
  leads (change_row mid f x) (k tt) post -> leads x (bind (on_rows (put_machine mid f)) k) post.
Proof. apply leads_modify_db. Qed.
Lemma leads_put_notes {A} x mid f (k : unit -> G A) post :
  leads (change_notes mid f x) (k tt) post -> leads x (bind (put_machine_notes mid f) k) post.
Proof. apply leads_put_ledger. Qed.
Lemma leads_get_machine {A} x mid (k : machine -> G A) post :
  (forall m, d_machines (hd_db x) !! mid = Some m -> leads x (k m) post) ->
  leads x (bind (_get_machine mid) k) post.
Proof.
  intros Hk. eapply (leads_bind _ _ _ (fun m x' => x' = x /\ d_machines (hd_db x) !! mid = Some m)).
  - unfold _get_machine. apply leads_db. destruct (d_machines (hd_db x) !! mid) eqn:E; [by apply leads_ret|apply leads_raise].
  - intros m x' [-> E]. by apply Hk.
Qed.
Lemma leads_add_machine {A} x m notes (k : Z -> G A) post :
  (let mid := next_key (d_machines (hd_db x)) in
   leads (put_row mid (m <| m_id := mid |>) (on_machines <[ mid := notes ]> x)) (k mid) post) ->
  leads x (bind (add_machine m notes) k) post.
Proof.
  cbv zeta. intros Hk.
  eapply (leads_bind _ _ _ (fun mid x' => mid = next_key (d_machines (hd_db x)) /\
            x' = (put_row mid (m <| m_id := mid |>) (on_machines <[ mid := notes ]> x)))).
  - unfold add_machine. apply leads_db. cbv zeta. apply leads_modify_db.
    by apply leads_put_ledger, leads_ret.
  - intros b x' [-> ->]. exact Hk.
Qed.

(** The registration of a machine. *)
Lemma create_machine_leads x body :
  leads x (create_machine driver_found node_types body) (fun mid x' => exists b p t m l,
    parse_machine body = inr b /\ machine_named (hd_db x) (mc_name b) = None /\
    mid = next_key (d_machines (hd_db x)) /\ _apply_probe t p (new_machine b) = inr m /\
    x' = with_events (put_row mid (m <| m_id := mid |>) (on_machines <[ mid := new_notes b ]> x)) l).
Proof.
  unfold create_machine. apply leads_lift. intros b Hb. apply leads_db.
  destruct (machine_named (hd_db x) (mc_name b)) eqn:En; [apply leads_raise|].
  apply leads_quiet; [intros s; apply quiet_probe|intros p]. apply leads_now. intros t. apply leads_lift. intros m Hm.
  apply leads_add_machine. apply leads_event. intros l. apply leads_ret. by exists b, p, t, m, l.
Qed.

(** A capacity read again. *)
Lemma probe_capacity_leads x mid :
  leads x (probe_capacity driver_found node_types mid) (fun _ x' => exists m p t m' l,
    d_machines (hd_db x) !! mid = Some m /\ _apply_probe t p m = inr m' /\
    x' = with_events (change_row mid (fun _ => m') x) l).
Proof.
  unfold probe_capacity. apply leads_get_machine. intros m Hm.
  apply leads_quiet; [intros s; apply quiet_probe|intros p]. destruct (negb _); [apply leads_raise|].
  apply leads_now. intros t. apply leads_lift. intros m' Hm'. apply leads_put_machine. apply leads_last.
  apply leads_event. intros l. apply leads_ret. by exists m, p, t, m', l.
Qed.

Lemma guard_leads {A} x m blocking (k : unit -> G A) post :
  (blocking = [] -> m_state m <> Reserved -> leads x (k tt) post) ->
  leads x (bind (_guard_in_use m blocking) k) post.
Proof.
  intros Hk. unfold _guard_in_use. destruct blocking; [|apply (leads_bind _ _ _ (fun _ _ => False)); [apply leads_raise|done]].
  destruct (m_state m == Reserved) eqn:E; [apply (leads_bind _ _ _ (fun _ _ => False)); [apply leads_raise|done]|].
  apply bool_decide_eq_false in E. apply leads_quiet; [done|]. intros []. by apply Hk.
Qed.

(** An edit: the machine is spoken for by nobody. *)
Lemma update_machine_leads x mid body :
  leads x (update_machine driver_found node_types mid body) (fun _ x' => exists b m p t m' l,
    parse_machine body = inr b /\ d_machines (hd_db x) !! mid = Some m /\
    _blocking_campaigns (hd_db x) m = [] /\ m_state m <> Reserved /\
    (mc_name b = m_name m \/ machine_named (hd_db x) (mc_name b) = None) /\
    _apply_probe t p (edited b m) = inr m' /\
    x' = with_events (change_notes mid (edited_notes b) (change_row mid (fun _ => m') x)) l).
Proof.
  unfold update_machine. apply leads_lift. intros b Hb. apply leads_get_machine. intros m Hm. apply leads_db.
  apply guard_leads. intros Hbl Hst. destruct (negb _ && _) eqn:En; [apply leads_raise|].
  apply leads_put_machine, leads_put_notes. apply leads_quiet; [intros s; apply quiet_probe|intros p].
  apply leads_now. intros t. apply leads_lift. intros m' Hm'. apply leads_put_machine. apply leads_last, leads_event. intros l.
  apply leads_ret. exists b, m, p, t, m', l. split_and!; try done.
  - apply andb_false_iff in En as [En|En].
    + left. apply negb_false_iff in En. by apply String.eqb_eq in En.
    + right. apply bool_decide_eq_false in En. by apply eq_None_not_Some.
  - unfold with_events. f_equal. destruct x as [db l0]. unfold change_notes, change_row, update_field. cbn. f_equal.
    unfold update_field, eta_database. cbn. f_equal. by rewrite alter_alter_eq.
Qed.

Lemma delete_machine_leads x mid :
  leads x (delete_machine mid) (fun name x' => exists m l,
    d_machines (hd_db x) !! mid = Some m /\ name = m_name m /\
    _blocking_campaigns (hd_db x) m = [] /\ m_state m <> Reserved /\
    (forall k, d_members (hd_db x) !! k <> Some mid) /\
    x' = with_events (on_machines (delete mid) (x <| hd_db ::= fun db => (detach mid db) <| d_machines ::= delete mid |> |>)) l).
Proof.
  unfold delete_machine. apply leads_get_machine. intros m Hm. apply leads_db. apply guard_leads. intros Hbl Hst.
  destruct (existsb _ _) eqn:Eg; [apply leads_raise|]. apply leads_modify_db, leads_modify_db.
  apply leads_put_ledger, leads_event. intros l. apply leads_ret. exists m, l. split_and!; try done.
  intros k Hk. apply elem_of_map_to_list in Hk. apply not_true_iff_false in Eg. apply Eg.
  apply existsb_exists. exists (k, mid). split; [by apply list_elem_of_In|]. apply Z.eqb_refl.
Qed.

Lemma set_machine_state_leads x mid state :
  leads x (set_machine_state mid state) (fun _ x' => exists m st l,
    d_machines (hd_db x) !! mid = Some m /\ machine_state_of state = Some st /\ m_state m <> Reserved /\
    x' = with_events (change_row mid (fun m => m <| m_state := st |>) x) l).
Proof.
  unfold set_machine_state. destruct (machine_state_of state) as [st|] eqn:Est; [|apply leads_raise].
  apply leads_get_machine. intros m Hm. destruct (m_state m == Reserved) eqn:E; [apply leads_raise|].
  apply bool_decide_eq_false in E. apply leads_put_machine, leads_last, leads_event. intros l. apply leads_ret. by exists m, st, l.
Qed.

(** The row a lease finds, or the one it registers. *)
Inductive lease_row (p : Principal) (q : LeaseRequest) (x : holdings) : Z -> holdings -> Prop :=
| row_known m :
    machine_named (hd_db x) (strip (lq_name q)) = Some m -> m_lease_state m <> LeaseDraining ->
    lease_row p q x (m_id m) x
| row_registered :
    machine_named (hd_db x) (strip (lq_name q)) = None -> u_admin (pp_user p) = true ->
    strip (default "" (lq_host q)) <> "" ->
    lease_row p q x (next_key (d_machines (hd_db x)))
      (put_row (next_key (d_machines (hd_db x)))
         ((registered (strip (lq_name q))) <| m_id := next_key (d_machines (hd_db x)) |>)
         (on_machines <[ next_key (d_machines (hd_db x)) := registered_notes ]> x)).

(** What the capacity of a cluster's machine adds. *)
Inductive capacity_read (mid : Z) (x : holdings) : holdings -> Prop :=
| capacity_own m : d_machines (hd_db x) !! mid = Some m -> m_driver m <> "k8s" -> capacity_read mid x x
| capacity_probed m t p : d_machines (hd_db x) !! mid = Some m -> m_driver m = "k8s" ->
    capacity_read mid x (change_row mid (record_capacity t p) x).

Lemma read_capacity_leads {A} x mid (k : unit -> G A) post :
  (forall x', capacity_read mid x x' -> leads x' (k tt) post) ->
  leads x (bind (read_capacity driver_found node_types mid) k) post.
Proof.
  intros Hk. eapply (leads_bind _ _ _ (fun _ => capacity_read mid x)); [|intros []; apply Hk].
  unfold read_capacity.
  eapply (leads_bind _ _ _ (fun m x' => x' = x /\ d_machines (hd_db x) !! mid = Some m)).
  { intros s Hs. destruct (Hs) as (E1 & E2). unfold rows_of in E1.
    unfold on_rows, get_machine, bind, db_, gets, expect. rewrite E1. destruct (d_machines (hd_db x) !! mid) eqn:E; [|done].
    cbn. exists x. done. }
  intros m x' [-> Hm]. destruct (String.eqb_spec (m_driver m) "k8s") as [Ek|Ek].
  - apply leads_quiet; [intros s; apply quiet_ask|intros [p cards]]. apply leads_now. intros t. apply leads_put_machine.
    case_match; [apply leads_raise|]. apply leads_ret. by eapply capacity_probed.
  - apply leads_ret. by eapply capacity_own.
Qed.

Definition leased_notes (actor note : string) (t : Z) (n : machine_notes) : machine_notes :=
  n <| mn_lease_holder := actor |> <| mn_lease_note := note |> <| mn_leased_at := Some t |>.

Lemma lease_machine_leads x p body :
  leads x (lease_machine driver_found node_types p body) (fun mid x' => exists q x1 x2 t l,
    parse_lease body = inr q /\ strip (lq_name q) <> "" /\ lease_row p q x mid x1 /\
    capacity_read mid (change_notes mid (described_notes q) (change_row mid (described q) x1)) x2 /\
    x' = with_events (change_notes mid (leased_notes (pp_actor p) (lq_lease_note q) t)
                        (change_row mid (leased (lq_due_at q)) x2)) l).
Proof.
  unfold lease_machine. apply leads_lift. intros q Hq. destruct (String.eqb_spec (strip (lq_name q)) "") as [|Hne]; [apply leads_raise|].
  apply leads_db. eapply (leads_bind _ _ _ (lease_row p q x)).
  - destruct (machine_named (hd_db x) (strip (lq_name q))) as [m|] eqn:En.
    + destruct (m_lease_state m == LeaseDraining) eqn:E; [apply leads_raise|]. apply leads_ret.
      apply bool_decide_eq_false in E. by apply row_known.
    + destruct (u_admin (pp_user p)) eqn:Ea; [|apply leads_raise].
      destruct (String.eqb_spec (strip (default "" (lq_host q))) "") as [|Hh]; [apply leads_raise|].
      apply leads_last, leads_add_machine. apply leads_ret. by apply row_registered.
  - intros mid x1 Hrow. apply leads_put_machine, leads_put_notes. apply read_capacity_leads. intros x2 Hx2.
    apply leads_now. intros t. apply leads_put_machine, leads_put_notes, leads_event. intros l. apply leads_ret.
    by exists q, x1, x2, t, l.
Qed.

Definition ended_lease (mode : LeaseEndMode) (deadline : option Z) (m : machine) : machine :=
  let m := (m <| m_lease_state := LeaseDraining |>) <| m_lease_end_mode := Some mode |> in
  match deadline with Some t => m <| m_lease_deadline_at := Some t |> | None => m end.

Lemma end_lease_leads x name body :
  leads x (end_lease name body) (fun mid x' => exists m mode t l,
    machine_named (hd_db x) name = Some m /\ mid = m_id m /\ end_mode_of (lx_mode body) = Some mode /\
    (m_lease_state m = LeaseActive \/ m_lease_state m = LeaseDraining) /\
    x' = with_events (change_row mid (ended_lease mode ((fun n => t + n * second) <$> lx_deadline_seconds body)) x) l).
Proof.
  unfold end_lease. destruct (negb _); [apply leads_raise|].
  destruct (end_mode_of (lx_mode body)) as [mode|] eqn:Emode; [|apply leads_raise].
  eapply (leads_bind _ _ _ (fun m x' => x' = x /\ machine_named (hd_db x) name = Some m)).
  { unfold _by_name. apply leads_db. destruct (machine_named (hd_db x) name) eqn:E; [by apply leads_ret|apply leads_raise]. }
  intros m x' [-> Hm]. destruct (negb _) eqn:Es; [apply leads_raise|].
  apply negb_false_iff, orb_true_iff in Es.
  assert (m_lease_state m = LeaseActive \/ m_lease_state m = LeaseDraining) as Hs.
  { destruct Es as [Es|Es]; apply bool_decide_eq_true in Es; [by left|by right]. }
  apply leads_put_machine.
  destruct (lx_deadline_seconds body) as [n|].
  - eapply (leads_bind _ _ _ (fun _ x' => exists t, x' = change_row (m_id m) (ended_lease mode (Some (t + n * second))) x)).
    + apply leads_now. intros t. apply leads_last, leads_put_machine, leads_ret. exists t.
      destruct x as [db l0]. unfold change_row, update_field. cbn. f_equal. unfold update_field, eta_database. cbn. f_equal.
      by rewrite alter_alter_eq.
    + intros _ x' [t ->]. apply leads_event. intros l. apply leads_ret. by exists m, mode, t, l.
  - apply leads_quiet; [done|]. intros _. apply leads_event. intros l. apply leads_ret. by exists m, mode, 0, l.
Qed.

Definition with_groups (f : database -> database) (g : gmap Z group_notes -> gmap Z group_notes) (x : holdings) : holdings :=
  on_groups g (x <| hd_db ::= f |>).
Definition seated (gid : Z) (machines : list machine) (db : database) : database :=
  db <| d_members ::= fun t => seat gid 0 (map m_id machines) (unseat gid t) |>.

Lemma leads_group_notes {A} x f (k : unit -> G A) post :
  leads (on_groups f x) (k tt) post -> leads x (bind (put_group_notes f) k) post.
Proof. apply leads_put_ledger. Qed.

Lemma create_group_leads x body :
  leads x (create_group body) (fun gid x' => exists machines l,
    gid = next_key (d_groups (hd_db x)) /\ strip (gc_name body) <> "" /\
    group_named (hd_db x) (strip (gc_name body)) = None /\
    _load_members (hd_db x) (gc_members body) None = inr machines /\
    _assert_driver_matches machines (gc_driver body) = inr tt /\
    x' = with_events (with_groups
           (fun db => seated gid machines (db <| d_groups ::= <[ gid := MachineGroup gid (strip (gc_name body)) ]> |>))
           <[ gid := GroupNotes (gc_driver body) (group_cluster machines) (gc_nccl_env body) (gc_dist_port body)
                       (gc_extra_env body) (gc_extra_volumes body) (gc_notes body) ]> x) l).
Proof.
  unfold create_group. destruct (negb _); [apply leads_raise|]. destruct (gc_members body) as [|n0 ns] eqn:Emem; [apply leads_raise|].
  destruct (String.eqb_spec (strip (gc_name body)) "") as [|Hne]; [apply leads_raise|]. apply leads_db.
  destruct (group_named _ _) eqn:En; [apply leads_raise|]. apply leads_lift. intros machines Hm.
  apply leads_lift. intros [] Hd. apply leads_modify_db, leads_group_notes. unfold put_members. apply leads_modify_db, leads_event.
  intros l. apply leads_ret. by exists machines, l.
Qed.

(** What an edit makes of the members: seated anew, or left. *)
Inductive regrouped (gid : Z) (body : MachineGroupUpdate) (x : holdings) : holdings -> Prop :=
| regroup_members names machines :
    gu_members body = Some names -> _load_members (hd_db x) names (Some gid) = inr machines ->
    _assert_driver_matches machines (default "" (default (gn_driver <$> hd_groups x !! gid) (gu_driver body))) = inr tt ->
    regrouped gid body x
      (with_groups (seated gid machines) (alter (fun n => n <| gn_cluster_id := group_cluster machines |>) gid) x)
| regroup_left :
    gu_members body = None ->
    _assert_driver_matches (group_machines (hd_db x) gid) (default "" (mjoin (gu_driver body))) = inr tt ->
    regrouped gid body x x.

Lemma leads_get_group {A} x gid (k : machine_group -> G A) post :
  (forall g, d_groups (hd_db x) !! gid = Some g -> leads x (k g) post) -> leads x (bind (_get_group gid) k) post.
Proof.
  intros Hk. eapply (leads_bind _ _ _ (fun g x' => x' = x /\ d_groups (hd_db x) !! gid = Some g)).
  - unfold _get_group. apply leads_db. destruct (d_groups (hd_db x) !! gid) eqn:E; [by apply leads_ret|apply leads_raise].
  - intros g x' [-> E]. by apply Hk.
Qed.

Lemma update_group_leads x gid body :
  leads x (update_group gid body) (fun _ x' => exists g x1 l,
    d_groups (hd_db x) !! gid = Some g /\ regrouped gid body x x1 /\
    x' = with_events (with_groups (fun db => db) (alter (edited_group body) gid) x1) l).
Proof.
  unfold update_group. destruct (negb _); [apply leads_raise|]. apply leads_get_group. intros g Hg. apply leads_db.
  apply leads_ledger. eapply (leads_bind _ _ _ (fun _ => regrouped gid body x)).
  - destruct (gu_members body) as [names|] eqn:Emem.
    + apply leads_lift. intros machines Hm. apply leads_lift. intros [] Hd. unfold put_members. apply leads_modify_db, leads_last, leads_group_notes, leads_ret.
      by eapply regroup_members.
    + intros s Hs. unfold lift. destruct (_assert_driver_matches _ _) as [e|[]] eqn:Ed; [done|]. exists x. split; [done|].
      by eapply regroup_left.
  - intros _ x1 Hx1. apply leads_group_notes, leads_last, leads_event. intros l. apply leads_ret. by exists g, x1, l.
Qed.

Lemma delete_group_leads x gid :
  leads x (delete_group gid) (fun name x' => exists g l,
    d_groups (hd_db x) !! gid = Some g /\ name = g_name g /\
    (forall k c, d_campaigns (hd_db x) !! k = Some c -> c_node_group c = g_name g -> c_status c = Done) /\
    (forall k r, d_runs (hd_db x) !! k = Some r -> r_node_group r = g_name g -> live_run r = false) /\
    x' = with_events (with_groups (fun db => (db <| d_members ::= unseat gid |>) <| d_groups ::= delete gid |>) (delete gid) x) l).
Proof.
  unfold delete_group. apply leads_get_group. intros g Hg. apply leads_db.
  destruct (existsb _ _) eqn:Ec; [apply leads_raise|]. destruct (existsb _ (rows_z (d_runs _))) eqn:Er; [apply leads_raise|].
  apply leads_modify_db, leads_group_notes, leads_event. intros l. apply leads_ret. exists g, l. split_and!; try done.
  - intros k c Hc Hn. apply not_true_iff_false in Ec. destruct (decide (c_status c = Done)) as [|Hne]; [done|]. destruct Ec.
    apply existsb_exists. exists c. split; [apply list_elem_of_In, elem_of_rows_z; eauto|].
    rewrite Hn, String.eqb_refl. apply negb_true_iff. by apply bool_decide_eq_false.
  - intros k r Hr Hn. apply not_true_iff_false in Er. destruct (live_run r) eqn:El; [|done]. destruct Er.
    apply existsb_exists. exists r. split; [apply list_elem_of_In, elem_of_rows_z; eauto|]. by rewrite Hn, String.eqb_refl.
Qed.

Lemma stop_run_leads x rid :
  leads x (stop_run rid) (fun _ x' => exists l, x' = with_events x l).
Proof.
  unfold stop_run. apply leads_db. destruct (d_runs _ !! rid); [|apply leads_raise]. destruct (terminal_run _); [apply leads_raise|].
  apply leads_last, leads_event. intros l. apply leads_ret. by exists l.
Qed.
End specs.

(** ** Lists of machines *)
Lemma find_row_name db name m : machine_named db name = Some m -> m_name m = name /\ exists k, d_machines db !! k = Some m.
Proof.
  unfold machine_named. intros Hf. apply find_some in Hf as [Hin Hn]. apply String.eqb_eq in Hn.
  split; [done|]. apply elem_of_rows_z. by apply list_elem_of_In.
Qed.
Lemma no_row_name db name k m : machine_named db name = None -> d_machines db !! k = Some m -> m_name m <> name.
Proof.
  unfold machine_named. intros Hf Hk. apply String.eqb_neq, (find_none _ _ Hf).
  apply list_elem_of_In, elem_of_rows_z. eauto.
Qed.
Lemma no_group_name db name k g : group_named db name = None -> d_groups db !! k = Some g -> g_name g <> name.
Proof.
  unfold group_named. intros Hf Hk. apply String.eqb_neq, (find_none _ _ Hf).
  apply list_elem_of_In, elem_of_rows_z. eauto.
Qed.

Lemma alike_spec {B} `{EqDecision B} (f : machine -> B) l :
  alike f l = true <-> forall m m', m ∈ l -> m' ∈ l -> f m = f m'.
Proof.
  unfold alike. destruct l as [|m0 l]; [split; [by intros _ ? ? ?%not_elem_of_nil|done]|]. rewrite forallb_forall. split.
  - intros Hall.
    assert (forall m, m ∈ m0 :: l -> f m = f m0) as Hf.
    { intros m [->|Hm%list_elem_of_In]%elem_of_cons; [done|].
      specialize (Hall m Hm). by apply bool_decide_eq_true in Hall. }
    intros m m' Hm Hm'. by rewrite (Hf m), (Hf m').
  - intros Hall m Hm%list_elem_of_In. apply bool_decide_eq_true, Hall; [by right|left].
Qed.

(** What [_load_members] lets through. *)
Lemma load_members_spec db names exclude machines :
  _load_members db names exclude = inr machines ->
  machines <> [] /\ map m_name machines = cleaned_names names /\ NoDup (map m_name machines) /\
  (forall m, m ∈ machines -> exists k, d_machines db !! k = Some m) /\
  (alike _effective_driver machines && alike m_cluster_id machines && alike m_gpu_type machines && alike m_gpu_count machines = true) /\
  (forall k mid, d_members db !! k = Some mid -> mid ∈ map m_id machines -> k.1 = or_z (default 0 exclude) (-1)).
Proof.
  unfold _load_members. destruct (cleaned_names names) as [|n0 ns] eqn:Ec; [done|]. rewrite <-Ec.
  destruct (bool_decide (NoDup (cleaned_names names))) eqn:End; [|done]. apply bool_decide_eq_true in End. cbn [negb].
  destruct (mapM _ _) as [ordered|] eqn:Em; [|done]. apply mapM_Some_1 in Em.
  destruct (alike _effective_driver ordered) eqn:E1; [|done]. destruct (alike m_cluster_id ordered) eqn:E2; [|done].
  destruct (alike m_gpu_type ordered) eqn:E3; [|done]. destruct (alike m_gpu_count ordered) eqn:E4; [|done]. cbn [negb].
  destruct (existsb _ _) eqn:Et; [done|]. intros [= <-].
  assert (map m_name ordered = cleaned_names names) as Hn.
  { clear -Em. induction Em as [|n m ns ms Hn _ IH]; [done|]. cbn. rewrite IH. by apply find_row_name in Hn as [-> _]. }
  split_and!; [|done|by rewrite Hn| |by rewrite E1, E2, E3, E4|].
  - intros ->. by rewrite Ec in Hn.
  - intros m Hm. apply list_elem_of_lookup_1 in Hm as [i Hi]. destruct (Forall2_lookup_r _ _ _ _ _ Em Hi) as (n & _ & Hn').
    by apply find_row_name in Hn' as [_ ?].
  - intros k mid Hk Hin. apply not_true_iff_false in Et. destruct (decide (k.1 = or_z (default 0 exclude) (-1))) as [|Hne]; [done|].
    destruct Et. apply existsb_exists. exists (k, mid). split; [by apply list_elem_of_In, elem_of_map_to_list|].
    unfold taken_by. cbn. rewrite bool_decide_true by done. apply negb_true_iff. by apply Z.eqb_neq.
Qed.

(** ** The invariant

    No card is held twice; machines and groups have one name each; a machine is
    in one group at most, at one rank; a group has a master and no empty rank;
    what points at a machine or a group points at one that is there.  A group
    that is being formed has no master yet. *)
Record estate_open (forming : option Z) (x : holdings) : Prop := {
  eo_fleet : fleet_ok (hd_db x);
  eo_names k1 k2 m1 m2 : d_machines (hd_db x) !! k1 = Some m1 -> d_machines (hd_db x) !! k2 = Some m2 ->
    m_name m1 = m_name m2 -> k1 = k2;
  eo_groups gid g : d_groups (hd_db x) !! gid = Some g -> g_id g = gid /\ 0 < gid;
  eo_group_names k1 k2 g1 g2 : d_groups (hd_db x) !! k1 = Some g1 -> d_groups (hd_db x) !! k2 = Some g2 ->
    g_name g1 = g_name g2 -> k1 = k2;
  eo_seats gid k mid : d_members (hd_db x) !! (gid, k) = Some mid ->
    is_Some (d_groups (hd_db x) !! gid) /\ is_Some (d_machines (hd_db x) !! mid) /\ 0 <= k;
  eo_ranks gid k j : is_Some (d_members (hd_db x) !! (gid, k)) -> 0 <= j <= k -> is_Some (d_members (hd_db x) !! (gid, j));
  eo_master gid : Some gid <> forming -> is_Some (d_groups (hd_db x) !! gid) -> is_Some (d_members (hd_db x) !! (gid, 0));
  eo_runs rid r mid : d_runs (hd_db x) !! rid = Some r -> r_machine_id r = Some mid -> is_Some (d_machines (hd_db x) !! mid);
  eo_nodes k n mid : d_nodes (hd_db x) !! k = Some n -> n_machine_id n = Some mid -> is_Some (d_machines (hd_db x) !! mid);
  eo_sessions sid s mid : d_sessions (hd_db x) !! sid = Some s -> ps_machine_id s = Some mid -> is_Some (d_machines (hd_db x) !! mid);
  eo_machine_notes mid : is_Some (hd_machines x !! mid) <-> is_Some (d_machines (hd_db x) !! mid);
  eo_group_notes gid : is_Some (hd_groups x !! gid) <-> is_Some (d_groups (hd_db x) !! gid);
}.
Definition estate_ok : holdings -> Prop := estate_open None.

Lemma fleet_ok_rows db db' :
  fleet_ok db -> d_runs db' = d_runs db -> d_nodes db' = d_nodes db ->
  (forall mid m, d_machines db' !! mid = Some m -> m_id m = mid) ->
  (forall k1 k2 mid, d_members db' !! k1 = Some mid -> d_members db' !! k2 = Some mid -> k1 = k2) ->
  fleet_ok db'.
Proof.
  intros [H1 H2 H3 H4 H5 H6 H7] Er En Hm Hs. unfold holding, of_session, node_run in *.
  split; unfold holding, of_session, node_run; rewrite ?Er, ?En; assumption.
Qed.

Lemma estate_events x l : estate_ok x -> estate_ok (with_events x l).
Proof.
  intros [H1 H2 H3 H4 H5 H6 H7 H8 H9 H10 H11 H12]. split; try assumption.
  eapply fleet_ok_rows; [exact H1|done|done|apply H1|apply H1].
Qed.

Lemma alter_is_Some {A} (f : A -> A) k (t : gmap Z A) j : is_Some (alter f k t !! j) <-> is_Some (t !! j).
Proof. apply lookup_alter_is_Some. Qed.

Lemma estate_change_row mid f x :
  estate_ok x ->
  (forall m, d_machines (hd_db x) !! mid = Some m -> m_id (f m) = mid /\
     (m_name (f m) = m_name m \/ machine_named (hd_db x) (m_name (f m)) = None)) ->
  estate_ok (change_row mid f x).
Proof.
  intros [H1 H2 H3 H4 H5 H6 H7 H8 H9 H10 H11 H12] Hf.
  assert (forall k m', alter f mid (d_machines (hd_db x)) !! k = Some m' ->
            k = mid /\ (exists m, d_machines (hd_db x) !! mid = Some m /\ m' = f m) \/
            k <> mid /\ d_machines (hd_db x) !! k = Some m') as Hrow.
  { intros k m'. rewrite lookup_alter_Some. naive_solver. }
  split; cbn; try assumption.
  - eapply fleet_ok_rows; [exact H1|done|done| |apply H1].
    intros k m' [[-> (m & Hm & ->)]|[_ Hk]]%Hrow; [by apply Hf|by eapply ok_machines].
  - intros k1 k2 m1 m2 [[-> (m & Hm & ->)]|[Hk1 Hr1]]%Hrow [[-> (m' & Hm' & ->)]|[Hk2 Hr2]]%Hrow E; [done| | |by eapply H2].
    + destruct (Hf m Hm) as [_ [En|Hnone]]; [symmetry; eapply H2; [done..|congruence]|].
      destruct (no_row_name _ _ _ _ Hnone Hr2). done.
    + destruct (Hf m' Hm') as [_ [En|Hnone]]; [eapply H2; [done..|congruence]|].
      destruct (no_row_name _ _ _ _ Hnone Hr1). done.
  - intros gid k m' Hk. rewrite alter_is_Some. by apply H5 in Hk.
  - intros rid r m' Hr Hm. rewrite alter_is_Some. by eapply H8.
  - intros k n m' Hr Hm. rewrite alter_is_Some. by eapply H9.
  - intros k n m' Hr Hm. rewrite alter_is_Some. by eapply H10.
  - intros k. rewrite alter_is_Some. apply H11.
Qed.

Lemma estate_change_notes mid f x : estate_ok x -> estate_ok (change_notes mid f x).
Proof.
  intros [H1 H2 H3 H4 H5 H6 H7 H8 H9 H10 H11 H12]. split; try assumption.
  intros k. cbn. rewrite alter_is_Some. apply H11.
Qed.
Lemma estate_group_notes gid f x : estate_ok x -> estate_ok (on_groups (alter f gid) x).
Proof.
  intros [H1 H2 H3 H4 H5 H6 H7 H8 H9 H10 H11 H12]. split; try assumption.
  intros k. cbn. rewrite alter_is_Some. apply H12.
Qed.

Lemma estate_put_row m notes x :
  estate_ok x -> machine_named (hd_db x) (m_name m) = None ->
  let mid := next_key (d_machines (hd_db x)) in
  estate_ok (put_row mid (m <| m_id := mid |>) (on_machines <[ mid := notes ]> x)).
Proof.
  intros [H1 H2 H3 H4 H5 H6 H7 H8 H9 H10 H11 H12] Hnone. cbv zeta. set (mid := next_key (d_machines (hd_db x))).
  assert (forall k, is_Some (d_machines (hd_db x) !! k) -> is_Some (<[mid := m <| m_id := mid |>]> (d_machines (hd_db x)) !! k)) as Hin.
  { intros k Hk. rewrite lookup_insert_is_Some'. by right. }
  split; cbn; try assumption.
  - eapply fleet_ok_rows; [exact H1|done|done| |apply H1].
    intros k m'. cbn. rewrite lookup_insert_Some. intros [[<- <-]|[_ Hk]]; [done|by eapply ok_machines].
  - intros k1 k2 m1 m2. rewrite !lookup_insert_Some. intros [[<- <-]|[Hk1 Hr1]] [[<- <-]|[Hk2 Hr2]] E; [done| | |by eapply H2].
    + by destruct (no_row_name _ _ _ _ Hnone Hr2).
    + by destruct (no_row_name _ _ _ _ Hnone Hr1).
  - intros gid k m' Hk. apply H5 in Hk as (Hg & Hm & Hk). eauto.
  - intros rid r m' Hr Hm. apply Hin. by eapply H8.
  - intros k n m' Hr Hm. apply Hin. by eapply H9.
  - intros k n m' Hr Hm. apply Hin. by eapply H10.
  - intros k. rewrite !lookup_insert_is_Some'. by rewrite H11.
Qed.

(** Seats are taken in rank order, and only in their own group. *)
Lemma seat_lookup gid ids r t g k :
  seat gid r ids t !! (g, k)
  = if decide (g = gid /\ r <= k < r + Z.of_nat (length ids)) then ids !! Z.to_nat (k - r) else t !! (g, k).
Proof.
  revert r t. induction ids as [|mid ids IH]; intros r t; cbn [seat length].
  - rewrite decide_False by lia. done.
  - rewrite IH. destruct (decide (g = gid /\ r + 1 <= k < r + 1 + Z.of_nat (length ids))) as [[-> Hk]|Hk].
    + rewrite decide_True by lia. replace (Z.to_nat (k - r)) with (S (Z.to_nat (k - (r + 1)))) by lia. done.
    + destruct (decide ((g, k) = (gid, r))) as [[= -> ->]|Hne].
      * rewrite lookup_insert_eq, decide_True by lia. by rewrite Z.sub_diag.
      * rewrite lookup_insert_ne by done. rewrite decide_False; [done|]. intros [-> Hr]. apply Hk. split; [done|].
        assert (k <> r) by congruence. lia.
Qed.

Lemma unseat_lookup gid t g k : unseat gid t !! (g, k) = if decide (g = gid) then None else t !! (g, k).
Proof.
  unfold unseat. case_decide as Hg.
  - apply map_lookup_filter_None. right. intros mid _ Hne. by apply Hne.
  - destruct (t !! (g, k)) as [mid|] eqn:E.
    + by apply map_lookup_filter_Some.
    + apply map_lookup_filter_None. by left.
Qed.

Lemma seated_lookup gid machines db g k :
  d_members (seated gid machines db) !! (g, k)
  = if decide (g = gid) then (if decide (0 <= k) then m_id <$> machines !! Z.to_nat k else None)
    else d_members db !! (g, k).
Proof.
  change (d_members (seated gid machines db)) with (seat gid 0 (map m_id machines) (unseat gid (d_members db))).
  rewrite seat_lookup, unseat_lookup, length_map.
  destruct (decide (g = gid)) as [->|Hg]; [|by rewrite decide_False by tauto].
  destruct (decide (0 <= k)) as [Hk|Hk]; [|by rewrite decide_False by lia].
  change (map m_id machines) with (m_id <$> machines). rewrite list_lookup_fmap.
  destruct (decide (k < Z.of_nat (length machines))) as [Hl|Hl].
  - rewrite decide_True by lia. by rewrite Z.sub_0_r.
  - rewrite decide_False by lia. by rewrite lookup_ge_None_2 by lia.
Qed.

(** Machines a group may be seated with. *)
Definition seatable (gid : Z) (machines : list machine) (db : database) : Prop :=
  machines <> [] /\ NoDup (map m_id machines) /\
  (forall m, m ∈ machines -> d_machines db !! m_id m = Some m) /\
  (forall k mid, d_members db !! k = Some mid -> mid ∈ map m_id machines -> k.1 = gid).

Lemma loaded_seatable x names exclude machines gid :
  estate_ok x -> _load_members (hd_db x) names exclude = inr machines ->
  (exclude = Some gid /\ 0 < gid \/ exclude = None) -> seatable gid machines (hd_db x).
Proof.
  intros Hok (Hne & _ & Hnd & Hrows & _ & Hfree)%load_members_spec Hex.
  assert (forall m, m ∈ machines -> d_machines (hd_db x) !! m_id m = Some m) as Hkey.
  { intros m Hm. destruct (Hrows m Hm) as [k Hk]. by rewrite (ok_machines _ (eo_fleet _ _ Hok) _ _ Hk). }
  split_and!; [done| |done|].
  - clear -Hnd Hkey Hok. induction machines as [|m ms IH]; [constructor|]. cbn in Hnd. apply NoDup_cons in Hnd as [Hm Hnd].
    cbn. constructor; [|apply IH; [done|intros m' Hm'; apply Hkey; by right]].
    intros (m' & E & Hm')%list_elem_of_fmap. apply Hm. apply list_elem_of_fmap. exists m'. split; [|done].
    assert (d_machines (hd_db x) !! m_id m = Some m') as E' by (rewrite E; apply Hkey; by right).
    rewrite Hkey in E' by left. by injection E' as ->.
  - intros [g k] mid Hk Hin. cbn. pose proof (Hfree _ _ Hk Hin) as Hg. cbn in Hg.
    destruct (eo_seats _ _ Hok _ _ _ Hk) as ((gr & Hgr) & _). apply (eo_groups _ _ Hok) in Hgr as [_ Hpos].
    destruct Hex as [[-> Hp]| ->]; unfold or_z in Hg; cbn in Hg; [|lia].
    by destruct (Z.eqb_spec gid 0); [lia|].
Qed.

Lemma estate_seated gid machines x forming :
  estate_open forming x -> forming = None \/ forming = Some gid -> is_Some (d_groups (hd_db x) !! gid) -> seatable gid machines (hd_db x) ->
  estate_ok (x <| hd_db ::= seated gid machines |>).
Proof.
  intros [H1 H2 H3 H4 H5 H6 H7 H8 H9 H10 H11 H12] Hform Hgid (Hne & Hnd & Hkey & Hfree).
  assert (forall g k mid, d_members (seated gid machines (hd_db x)) !! (g, k) = Some mid ->
    (g = gid /\ 0 <= k /\ exists m, machines !! Z.to_nat k = Some m /\ m_id m = mid) \/
    (g <> gid /\ d_members (hd_db x) !! (g, k) = Some mid)) as Hs.
  { intros g k mid. rewrite seated_lookup. destruct (decide (g = gid)) as [->|]; [|by right].
    destruct (decide (0 <= k)); [|done]. intros (m & E & Hm)%fmap_Some. left. split_and!; [done..|by exists m]. }
  split; try assumption; cbn [hd_db update_field eta_holdings].
  - eapply fleet_ok_rows; [exact H1|done|done|apply H1|].
    assert (forall k i mid m, d_members (hd_db x) !! k = Some mid -> machines !! i = Some m -> m_id m = mid -> k.1 = gid) as Hf.
    { intros k i mid m Hk Hi <-. eapply Hfree; [done|]. apply list_elem_of_fmap. exists m. split; [done|]. by eapply list_elem_of_lookup_2. }
    intros [g1 k1] [g2 k2] mid [(-> & Hk1 & m1 & E1 & I1)|[Hg1 E1]]%Hs [(-> & Hk2 & m2 & E2 & I2)|[Hg2 E2]]%Hs.
    + f_equal. apply Z2Nat.inj; [done..|]. eapply (NoDup_lookup (map m_id machines)); [done| |].
      * change (map m_id machines) with (m_id <$> machines). rewrite list_lookup_fmap, E1. by rewrite <-I1.
      * change (map m_id machines) with (m_id <$> machines). rewrite list_lookup_fmap, E2. cbn. by rewrite I1, I2.
    + by destruct Hg2; eapply (Hf (g2, k2)).
    + by destruct Hg1; eapply (Hf (g1, k1)).
    + by eapply (ok_members _ H1).
  - intros g k mid [(-> & Hk & m & E & <-)|[Hg E]]%Hs; [|by apply H5 in E].
    split_and!; [done| |done]. cbn. rewrite Hkey by by eapply list_elem_of_lookup_2. done.
  - intros g k j. rewrite !seated_lookup. destruct (decide (g = gid)); [|by apply H6].
    destruct (decide (0 <= k)); [|by intros []]. intros Hk Hj. rewrite decide_True by lia.
    rewrite fmap_is_Some in Hk |- *. apply lookup_lt_is_Some in Hk. apply lookup_lt_is_Some. lia.
  - intros g _ Hg. rewrite seated_lookup. destruct (decide (g = gid)) as [->|Hgg].
    2: { apply H7; [|done]. destruct Hform as [->| ->]; [done|congruence]. } rewrite decide_True by done.
    rewrite fmap_is_Some. apply lookup_lt_is_Some. destruct machines; [done|]. cbn. lia.
Qed.

(** A group is entered, its members still to be seated. *)
Lemma estate_new_group name notes x :
  estate_ok x -> group_named (hd_db x) name = None ->
  let gid := next_key (d_groups (hd_db x)) in
  estate_open (Some gid)
    (with_groups (fun db => db <| d_groups ::= <[ gid := MachineGroup gid name ]> |>) <[ gid := notes ]> x).
Proof.
  intros [H1 H2 H3 H4 H5 H6 H7 H8 H9 H10 H11 H12] Hnone. cbv zeta. set (gid := next_key (d_groups (hd_db x))).
  assert (0 < gid) as Hpos.
  { unfold gid, next_key. assert (forall l, 0 <= foldr Z.max 0 l) as Hl by (induction l; cbn; lia). specialize (Hl (map_to_list (d_groups (hd_db x))).*1). lia. }
  split; cbn; try assumption.
  - eapply fleet_ok_rows; [exact H1|done|done|apply H1|apply H1].
  - intros k g. rewrite lookup_insert_Some. intros [[<- <-]|[_ Hk]]; [done|by apply H3].
  - intros k1 k2 m1 m2. rewrite !lookup_insert_Some. intros [[<- <-]|[Hk1 Hr1]] [[<- <-]|[Hk2 Hr2]] E; [done| | |by eapply H4].
    + by destruct (no_group_name _ _ _ _ Hnone Hr2).
    + by destruct (no_group_name _ _ _ _ Hnone Hr1).
  - intros g k mid Hk. apply H5 in Hk as (Hg & Hm & Hk). split_and!; [|done|done]. rewrite lookup_insert_is_Some'. by right.
  - intros g Hne. rewrite lookup_insert_is_Some'. intros [->|Hg]; [done|by apply H7].
  - intros k. rewrite !lookup_insert_is_Some'. by rewrite H12.
Qed.

Lemma estate_delete_group gid x :
  estate_ok x ->
  estate_ok (with_groups (fun db => (db <| d_members ::= unseat gid |>) <| d_groups ::= delete gid |>) (delete gid) x).
Proof.
  intros [H1 H2 H3 H4 H5 H6 H7 H8 H9 H10 H11 H12]. split; cbn; try assumption.
  - eapply fleet_ok_rows; [exact H1|done|done|apply H1|]. intros [g1 k1] [g2 k2] mid. cbn. rewrite !unseat_lookup.
    destruct (decide (g1 = gid)); [done|]. destruct (decide (g2 = gid)); [done|]. apply (ok_members _ H1).
  - intros k g. rewrite lookup_delete_Some. intros [_ Hk]. by apply H3.
  - intros k1 k2 g1 g2. rewrite !lookup_delete_Some. intros [_ Hk1] [_ Hk2]. by apply H4.
  - intros g k mid. rewrite unseat_lookup. destruct (decide (g = gid)); [done|]. intros (Hg & Hm & Hk)%H5.
    split_and!; [|done..]. rewrite lookup_delete_is_Some. by split.
  - intros g k j. rewrite !unseat_lookup. destruct (decide (g = gid)); [done|]. apply H6.
  - intros g Hn. rewrite lookup_delete_is_Some, unseat_lookup. intros [Hne Hg]. rewrite decide_False by done. by apply H7.
  - intros k. rewrite !lookup_delete_is_Some. by rewrite H12.
Qed.

(** A machine nothing is seated on goes, and nothing points at it any more. *)
Lemma detach_fleet mid db : fleet_ok db -> fleet_ok (detach mid db).
Proof.
  intros [H1 H2 H3 H4 H5 H6 H7].
  assert (forall n, node_run (detach mid db) holds_cards n = node_run db holds_cards n /\
                    node_run (detach mid db) for_session n = node_run db for_session n) as Hrun.
  { intros n. unfold node_run, detach. cbn. rewrite lookup_fmap. destruct (d_runs db !! n_run_id n); [|done]. cbn. by case_match. }
  assert (forall k n', d_nodes (detach mid db) !! k = Some n' -> exists n, d_nodes db !! k = Some n /\
            n_run_id n' = n_run_id n /\ n_rank n' = n_rank n /\ n_gpu_indices n' = n_gpu_indices n /\
            (forall i, n_machine_id n' = Some i -> n_machine_id n = Some i)) as Hnode.
  { intros k n'. unfold detach. cbn. rewrite lookup_fmap. intros (n & Hn & ->)%fmap_Some. exists n. split; [done|]. case_match; split_and!; done. }
  split; try assumption.
  - intros rid r. unfold detach. cbn. rewrite lookup_fmap. intros (r0 & Hr & ->)%fmap_Some. case_match; by apply H1 in Hr.
  - intros k n (n0 & Hn & Er & Ek & _)%Hnode. apply H4 in Hn as [-> Hs]. rewrite Er, Ek. split; [done|].
    unfold detach. cbn. by rewrite lookup_fmap, fmap_is_Some.
  - intros rid r. unfold detach. cbn. rewrite !lookup_fmap. intros (r0 & Hr & ->)%fmap_Some.
    destruct (H5 _ _ Hr) as (n & Hn & M1 & M2 & M3 & M4). eexists. rewrite Hn. split; [done|]. unfold on_machine, mirrors. rewrite M1.
    case_match; by split_and!.
  - intros k n r (n0 & Hn & Er & Ek & Eg & _)%Hnode. rewrite Er, Eg. unfold detach. cbn. rewrite lookup_fmap.
    intros (r0 & Hr & ->)%fmap_Some. rewrite (H6 _ _ _ Hn Hr). by case_match.
  - intros k1 k2 n1 n2 i Hk1 Hk2 Hne Hh1 Hh2 Hm1 Hm2. unfold holding, of_session in *.
    rewrite (proj1 (Hrun n1)) in Hh1. rewrite (proj1 (Hrun n2)) in Hh2.
    rewrite (proj2 (Hrun n1)), (proj2 (Hrun n2)).
    destruct (Hnode _ _ Hk1) as (m1 & E1 & R1 & _ & G1 & M1). destruct (Hnode _ _ Hk2) as (m2 & E2 & R2 & _ & G2 & M2).
    assert (forall P, node_run db P n1 = node_run db P m1 /\ node_run db P n2 = node_run db P m2) as Hp.
    { intros P. unfold node_run. by rewrite R1, R2. }
    rewrite G1, G2. rewrite !(proj1 (Hp _)), !(proj2 (Hp _)). apply (H7 k1 k2 m1 m2 i); try done; auto.
    + unfold holding. by rewrite <-(proj1 (Hp _)).
    + unfold holding. by rewrite <-(proj2 (Hp _)).
Qed.

Lemma estate_delete_machine mid x :
  estate_ok x -> (forall k, d_members (hd_db x) !! k <> Some mid) ->
  estate_ok (on_machines (delete mid) (x <| hd_db ::= fun db => (detach mid db) <| d_machines ::= delete mid |> |>)).
Proof.
  intros [H1 H2 H3 H4 H5 H6 H7 H8 H9 H10 H11 H12] Hfree. split; cbn; try assumption.
  - eapply fleet_ok_rows; [by apply (detach_fleet mid), H1|done|done| |apply H1].
    intros k m. cbn. rewrite lookup_delete_Some. intros [_ Hk]. by apply H1 in Hk.
  - intros k1 k2 g1 g2. rewrite !lookup_delete_Some. intros [_ Hk1] [_ Hk2]. by apply H2.
  - intros g k m Hk. destruct (H5 _ _ _ Hk) as (Hg & Hm & H0). split_and!; [done| |done].
    rewrite lookup_delete_is_Some. split; [|done]. intros <-. by apply (Hfree (g, k)).
  - intros rid r m. rewrite lookup_fmap. intros (r0 & Hr & ->)%fmap_Some. rewrite lookup_delete_is_Some.
    destruct (r_machine_id r0 == Some mid) eqn:E; [done|]. apply bool_decide_eq_false in E. intros Hm. split; [congruence|by eapply H8].
  - intros k n m. rewrite lookup_fmap. intros (n0 & Hr & ->)%fmap_Some. rewrite lookup_delete_is_Some. unfold on_machine.
    destruct (n_machine_id n0 == Some mid) eqn:E; [done|]. apply bool_decide_eq_false in E. intros Hm. split; [congruence|by eapply H9].
  - intros k n m. rewrite lookup_fmap. intros (n0 & Hr & ->)%fmap_Some. rewrite lookup_delete_is_Some.
    destruct (ps_machine_id n0 == Some mid) eqn:E; [done|]. apply bool_decide_eq_false in E. intros Hm. split; [congruence|by eapply H10].
  - intros k. rewrite !lookup_delete_is_Some. by rewrite H11.
Qed.

(** ** Requests *)
Section requests.
Context `{Env}.
Context (digest : string -> string) (active : api_key -> bool) (jwt_subject : string -> option Z) (users : gmap Z User).
Context (driver_found : machine -> bool) (node_types : nat -> machine -> list string).

Lemma applied_row t p m m' : _apply_probe t p m = inr m' -> m_id m' = m_id m /\ m_name m' = m_name m.
Proof. unfold _apply_probe, record_capacity. cbv zeta. intros Hm. repeat case_match; try done; by injection Hm as <-. Qed.
Lemma recorded_row t p m : m_id (record_capacity t p m) = m_id m /\ m_name (record_capacity t p m) = m_name m.
Proof. unfold record_capacity. by case_match. Qed.

Lemma estate_row mid f x :
  estate_ok x -> (forall m, m_id (f m) = m_id m /\ m_name (f m) = m_name m) -> estate_ok (change_row mid f x).
Proof.
  intros Hok Hf. apply estate_change_row; [done|]. intros m Hm. destruct (Hf m) as [-> ->]. split; [|by left].
  by apply (ok_machines _ (eo_fleet _ _ Hok)).
Qed.

Lemma estate_lease p q x mid x1 : estate_ok x -> lease_row p q x mid x1 -> estate_ok x1.
Proof. intros Hok [m Hm _|Hnone _ _]; [done|]. by apply estate_put_row. Qed.
Lemma estate_capacity mid x x' : estate_ok x -> capacity_read mid x x' -> estate_ok x'.
Proof. intros Hok [m _ _|m t p _ _]; [done|]. apply estate_row; [done|apply recorded_row]. Qed.

Lemma estate_formed name notes names machines x :
  estate_ok x -> group_named (hd_db x) name = None -> _load_members (hd_db x) names None = inr machines ->
  let gid := next_key (d_groups (hd_db x)) in
  estate_ok (with_groups (fun db => seated gid machines (db <| d_groups ::= <[ gid := MachineGroup gid name ]> |>))
               <[ gid := notes ]> x).
Proof.
  intros Hok Hn Hm. cbv zeta. pose proof (estate_new_group name notes x Hok Hn) as Hnew. cbv zeta in Hnew.
  apply (estate_seated _ machines _ _ Hnew); [by right| |].
  - cbn. rewrite lookup_insert_eq. eauto.
  - apply (loaded_seatable x names None machines); eauto.
Qed.

Lemma handler_keeps_estate p q x :
  estate_ok x -> leads x (handle_fleet driver_found node_types p q) (fun _ x' => estate_ok x').
Proof.
  intros Hok.
  assert (forall A (h : G A), leads x h (fun _ x' => estate_ok x') -> leads x (discard h) (fun _ x' => estate_ok x')) as Hd.
  { intros A h Hh. eapply leads_bind; [exact Hh|]. intros a x' Hx. by apply leads_ret. }
  destruct q; cbn [handle_fleet]; try apply Hd.
  - eapply leads_weaken; [apply lease_machine_leads|]. intros mid x' (q & x1 & x2 & t & l & _ & _ & Hrow & Hcap & ->).
    apply estate_events, estate_change_notes, estate_row; [|done]. eapply estate_capacity; [|done].
    apply estate_change_notes, estate_row; [|done]. by eapply estate_lease.
  - eapply leads_weaken; [apply end_lease_leads|]. intros mid x' (m & mode & t & l & _ & _ & _ & _ & ->).
    apply estate_events, estate_row; [done|]. intros m'. unfold ended_lease. by case_match.
  - eapply leads_weaken; [apply create_machine_leads|]. intros mid x' (b & pr & t & m & l & _ & Hn & -> & Hm%applied_row & ->).
    apply estate_events, estate_put_row; [done|]. by destruct Hm as [_ ->].
  - eapply leads_weaken; [apply probe_capacity_leads|]. intros _ x' (m & pr & t & m' & l & Hm & [Hi Hn]%applied_row & ->).
    apply estate_events, estate_change_row; [done|]. intros m0 Hm0. assert (m0 = m) as -> by congruence.
    split; [|by left]. rewrite Hi. by apply (ok_machines _ (eo_fleet _ _ Hok)).
  - eapply leads_weaken; [apply update_machine_leads|].
    intros _ x' (b & m & pr & t & m' & l & _ & Hm & _ & _ & Hname & [Hi Hn]%applied_row & ->).
    apply estate_events, estate_change_notes, estate_change_row; [done|]. intros m0 Hm0. assert (m0 = m) as -> by congruence.
    rewrite Hn. cbn in Hi |- *. split; [|exact Hname]. rewrite Hi. by apply (ok_machines _ (eo_fleet _ _ Hok)).
  - eapply leads_weaken; [apply delete_machine_leads|]. intros name x' (m & l & _ & _ & _ & _ & Hfree & ->).
    by apply estate_events, estate_delete_machine.
  - eapply leads_weaken; [apply set_machine_state_leads|]. intros _ x' (m & st & l & _ & _ & _ & ->).
    by apply estate_events, estate_row.
  - eapply leads_weaken; [apply create_group_leads|]. intros gid x' (ms & l & -> & _ & Hn & Hm & _ & ->).
    apply estate_events, (estate_formed _ _ _ _ _ Hok Hn Hm).
  - eapply leads_weaken; [apply update_group_leads|]. intros _ x' (g & x1 & l & Hg & Hre & ->).
    apply estate_events, (estate_group_notes gid _ x1). destruct Hre as [names ms _ Hm _|_ _]; [|done].
    apply (estate_group_notes gid _ (x <| hd_db ::= seated gid ms |>)), (estate_seated gid ms x None); [done|by left|by eauto|].
    eapply loaded_seatable; [done..|]. left. split; [done|]. by apply (eo_groups _ _ Hok) in Hg as [_ ?].
  - eapply leads_weaken; [apply delete_group_leads|]. intros name x' (g & l & _ & _ & _ & _ & ->).
    by apply estate_events, estate_delete_group.
  - eapply leads_weaken; [apply stop_run_leads|]. intros _ x' (l & ->). by apply estate_events.
Qed.

(** C27: The fleet stays in order.  Whatever is asked of the fleet API, by whomever, and whatever the drivers
    and probes answer: a request that is refused changes no row, and one that is granted leaves no card held
    twice, no two machines and no two groups of one name, every machine in one group at most and at one
    rank of it, every group with a master and no gap in its ranks, and no run, node, session, member or note
    pointing at a machine or a group that is not there. *)
Theorem fleet_stays_in_order c q s :
  estate_ok (holdings_of s) ->
  let '(r, s') := serve_request digest active jwt_subject users (access_of q) c
                    (fun p => handle_fleet driver_found node_types p q) s in
  estate_ok (holdings_of s') /\ (forall e, r = inl e -> holdings_of s' = holdings_of s).
Proof.
  intros Hok.
  pose proof (served digest active jwt_subject users (access_of q) c (fun p => handle_fleet driver_found node_types p q)
                estate_ok s (fun p => handler_keeps_estate p q _ Hok)) as Hs.
  destruct (serve_request _ _ _ _ _ _ _ s) as [[e|[]] s']; [by rewrite Hs|done].
Qed.
End requests.
