(* ===== verification/Tenures.v ===== *)
(** Leases, removals and node groups: what a granted request of the fleet API
    ([Grounds]) does, on the specifications of [Estate], and where it goes
    further than its own description. *)
From Stdlib Require Import Ascii.
From S2P Require Import Failures Logs Model States Packing Timing World Samples Occupancy Fleet Exclusive Finish Placement Nights.
From S2P Require Import Reserve Queue Pass Runs Advance Leases Clock Datasets Sessions Ending Tenancy Tick.
From S2P Require Import Prelude Float Values Texts Documents Space Validation Flags Commands ExtraArgs Addresses Recipes.
From S2P Require Import Composition Conversion Scripts Checks Contract Measures Hardware Requests Grounds Estate.
#[local] Open Scope string_scope.
#[local] Open Scope list_scope.
#[local] Open Scope Z_scope.

#[local] Abbreviation holdings := (Requests.holdings fleet_ledger).

Section grants.
Context {A : Type}.
Implicit Types (x : holdings) (post : A -> Prop).
Lemma grants_put_machine x mid f (k : unit -> G A) post :
  grants (change_row mid f x) (k tt) post -> grants x (bind (on_rows (put_machine mid f)) k) post.
Proof. apply grants_modify_db. Qed.
Lemma grants_put_notes x mid f (k : unit -> G A) post :
  grants (change_notes mid f x) (k tt) post -> grants x (bind (put_machine_notes mid f) k) post.
Proof. apply grants_put_ledger. Qed.
End grants.

Section tenures.
Context `{Env}.
Context (digest : string -> string) (active : api_key -> bool) (jwt_subject : string -> option Z) (users : gmap Z User).
Context (driver_found : machine -> bool) (node_types : nat -> machine -> list string).

(** ** Leasing *)

(** What a lease may not move: the machine's identity, its placement and its
    record of trouble, and every other row. *)
Definition only_machine_moved (mid : Z) (x x' : holdings) : Prop :=
  (forall k, k <> mid -> d_machines (hd_db x') !! k = d_machines (hd_db x) !! k /\ hd_machines x' !! k = hd_machines x !! k) /\
  hd_groups x' = hd_groups x /\
  exists ms l, hd_db x' = (hd_db x) <| d_machines := ms |> <| d_events := l |>.

Lemma lease_grants p q body m s :
  parse_lease body = inr q -> strip (lq_name q) <> "" ->
  machine_named (rows_of s) (strip (lq_name q)) = Some m -> m_lease_state m <> LeaseDraining ->
  d_machines (rows_of s) !! m_id m = Some m -> m_driver m <> "k8s" ->
  exists s', answered (lease_machine driver_found node_types p body) s = (inr (m_id m), s').
Proof.
  intros Hq Hne Hm Hd Hrow Hk.
  destruct (grants_answered (fun mid => mid = m_id m) (lease_machine driver_found node_types p body) s) as (mid & s' & E & ->);
    [|by exists s'].
  unfold lease_machine. rewrite Hq. unfold lift. apply (grants_ret_bind _ q). apply String.eqb_neq in Hne. rewrite Hne. apply grants_db.
  change (hd_db (holdings_of s)) with (rows_of s). rewrite Hm, bool_decide_false by done. apply grants_ret_bind.
  apply grants_put_machine, grants_put_notes.
  lazymatch goal with |- grants ?x _ _ => apply (grants_step x x _ _ (fun _ => True)) end.
  - intros s' Hs'. exists tt, s'. split; [|done]. destruct (Hs') as (E & _). unfold rows_of in E.
    unfold read_capacity, bind, on_rows, get_machine, bind, db_, gets. rewrite E. cbn. rewrite lookup_alter_eq.
    change (hd_db (holdings_of s)) with (rows_of s). rewrite Hrow. cbn. apply String.eqb_neq in Hk. rewrite Hk. by destruct s'.
  - intros _ _. apply grants_now. intros t. apply grants_put_machine, grants_put_notes, grants_event. intros l. by apply grants_ret.
Qed.

Lemma known_row p q x mid x1 m : lease_row p q x mid x1 -> machine_named (hd_db x) (strip (lq_name q)) = Some m -> x1 = x.
Proof. intros [m' _ _|Hnone _ _] Hm; [done|congruence]. Qed.
Lemma own_capacity mid x x' m : capacity_read mid x x' -> d_machines (hd_db x) !! mid = Some m -> m_driver m <> "k8s" -> x' = x.
Proof. intros [m' _ _|m' t p Hm' Hk'] Hm Hk; [done|]. congruence. Qed.

(** Leasing again is safe to repeat.  A machine that is registered, not being handed back and not a slice of a
    cluster is leased again whoever asks, and the request changes nothing but what it says: the row is the row
    it was with the fields the body gives and a fresh lease, due when the body says and with no end in it, the
    holder, the note and the moment are written, and no other machine, group, run, session or campaign is
    touched.  A body that gives only the name changes only the lease. *)
Theorem leasing_again_changes_only_the_lease p q body m s :
  estate_ok (holdings_of s) -> parse_lease body = inr q -> strip (lq_name q) <> "" ->
  machine_named (rows_of s) (strip (lq_name q)) = Some m -> m_lease_state m <> LeaseDraining -> m_driver m <> "k8s" ->
  exists s' t n, answered (lease_machine driver_found node_types p body) s = (inr (m_id m), s') /\
    gr_machines s !! m_id m = Some n /\
    d_machines (rows_of s') !! m_id m = Some (leased (lq_due_at q) (described q m)) /\
    gr_machines s' !! m_id m = Some (leased_notes (pp_actor p) (lq_lease_note q) t (described_notes q n)) /\
    only_machine_moved (m_id m) (holdings_of s) (holdings_of s') /\
    (q = mkLeaseRequest (lq_name q) None None None None None None (lq_due_at q) (lq_lease_note q) ->
     described q m = m /\ described_notes q n = n).
Proof.
  intros Hok Hq Hne Hm Hd Hk. destruct (find_row_name _ _ _ Hm) as [Hname [k Hrow]].
  pose proof (ok_machines _ (eo_fleet _ _ Hok) _ _ Hrow) as <-.
  destruct (proj2 (eo_machine_notes _ _ Hok (m_id m)) (mk_is_Some _ _ Hrow)) as [n Hn].
  destruct (lease_grants p q body m s) as [s' Hs']; try done.
  pose proof (answered_leads _ _ s (lease_machine_leads driver_found node_types (holdings_of s) p body)) as Hl. rewrite Hs' in Hl.
  destruct Hl as (q' & x1 & x2 & t & l & Hq' & _ & Hx1 & Hcap & Hx'). assert (q' = q) as -> by congruence.
  assert (x1 = holdings_of s) as ->.
  { by eapply known_row. }
  change (hd_db (holdings_of s)) with (rows_of s) in *. change (hd_machines (holdings_of s)) with (gr_machines s) in *.
  apply (own_capacity _ _ _ (described q m)) in Hcap as ->; [|cbn; by rewrite lookup_alter_eq, Hrow|done]. exists s', t, n. split; [done|]. split; [done|].
  assert (d_machines (rows_of s') = alter (leased (lq_due_at q)) (m_id m) (alter (described q) (m_id m) (d_machines (rows_of s)))) as Em.
  { change (rows_of s') with (hd_db (holdings_of s')). by rewrite Hx'. }
  assert (gr_machines s' = alter (leased_notes (pp_actor p) (lq_lease_note q) t) (m_id m) (alter (described_notes q) (m_id m) (gr_machines s))) as En.
  { change (gr_machines s') with (hd_machines (holdings_of s')). by rewrite Hx'. }
  split; [by rewrite Em, !lookup_alter_eq, Hrow|]. split; [by rewrite En, !lookup_alter_eq, Hn|]. split.
  - split; [|split].
    + intros j Hj. change (hd_db (holdings_of s')) with (rows_of s'). change (hd_machines (holdings_of s')) with (gr_machines s').
      rewrite Em, En. by rewrite !lookup_alter_ne by done.
    + by rewrite Hx'.
    + exists (d_machines (rows_of s')), l. rewrite Em. by rewrite Hx'.
  - intros ->. unfold described, described_notes. cbn. by destruct m, n.
Qed.

Lemma deadline_asked name body s mid s' n m :
  answered (end_lease name body) s = (inr mid, s') -> lx_deadline_seconds body = Some n ->
  d_machines (rows_of s') !! mid = Some m -> m_lease_deadline_at m = Some (clock (w_calls (o_world s)) + n * second).
Proof.
  intros Hs' Hn Hm. revert Hs'. unfold answered, end_lease, bind, _by_name, on_rows, bind, db_, gets. rewrite Hn.
  destruct (negb (0 <=? n)); [done|]. destruct (end_mode_of _); [|done]. destruct (machine_named _ _) as [m0|]; [|done].
  cbn [ret]. unfold ret at 1. destruct (negb _); [done|]. cbn. intros [= <- <-]. cbn in Hm.
  rewrite lookup_alter_eq in Hm. apply fmap_Some in Hm as (m1 & _ & ->). done.
Qed.

(** Ending a lease takes effect at once.  It is granted exactly for a machine whose lease is running or already
    ending, in one of the two ways there are and with no deadline in the past; from then on no new run is let
    onto the machine; ended eagerly its live runs are killed, whenever that is looked at; with a deadline they
    are killed from that moment on, however it is ended; and asked for politely without one, a deadline it had
    still stands. *)
Theorem ending_a_lease_takes_effect name body s :
  estate_ok (holdings_of s) ->
  (forall mid s', answered (end_lease name body) s = (inr mid, s') ->
     exists m m' mode, machine_named (rows_of s) name = Some m /\ mid = m_id m /\
       d_machines (rows_of s') !! mid = Some m' /\ end_mode_of (lx_mode body) = Some mode /\
       accepts_new_work m' = false /\ only_machine_moved mid (holdings_of s) (holdings_of s') /\
       (forall moment, drain_kills_running moment m' = true <->
          mode = Eager \/ match lx_deadline_seconds body with
                          | Some n => clock (w_calls (o_world s)) + n * second <= moment
                          | None => lease_deadline_passed moment m = true
                          end)) /\
  ((exists mid s', answered (end_lease name body) s = (inr mid, s')) <->
   is_Some (end_mode_of (lx_mode body)) /\ match lx_deadline_seconds body with Some n => 0 <= n | None => True end /\
   exists m, machine_named (rows_of s) name = Some m /\ (m_lease_state m = LeaseActive \/ m_lease_state m = LeaseDraining)).
Proof.
  intros Hok. split.
  - intros mid s' Hs'. pose proof (answered_leads _ _ s (end_lease_leads (holdings_of s) name body)) as Hl. rewrite Hs' in Hl.
    destruct Hl as (m & mode & t & l & Hm & -> & Hmode & _ & Hx').
    destruct (find_row_name _ _ _ Hm) as [_ [k Hrow]]. pose proof (ok_machines _ (eo_fleet _ _ Hok) _ _ Hrow) as <-.
    set (f := ended_lease mode ((fun n => t + n * second) <$> lx_deadline_seconds body)) in *.
    assert (d_machines (rows_of s') = alter f (m_id m) (d_machines (rows_of s))) as Em.
    { change (rows_of s') with (hd_db (holdings_of s')). by rewrite Hx'. }
    change (hd_db (holdings_of s)) with (rows_of s) in *.
    exists m, (f m), mode. split_and!; try done.
    + by rewrite Em, lookup_alter_eq, Hrow.
    + unfold accepts_new_work, f, ended_lease. repeat case_match; done.
    + split; [|split].
      * intros j Hj. change (hd_db (holdings_of s')) with (rows_of s').
        rewrite Em, lookup_alter_ne by done. split; [done|]. by rewrite Hx'.
      * by rewrite Hx'.
      * exists (d_machines (rows_of s')), l. rewrite Em. by rewrite Hx'.
    + assert (d_machines (rows_of s') !! m_id m = Some (f m)) as Hrow' by (by rewrite Em, lookup_alter_eq, Hrow).
      assert (forall n, lx_deadline_seconds body = Some n -> t + n * second = clock (w_calls (o_world s)) + n * second) as Ht.
      { intros n Hn. pose proof (deadline_asked _ _ _ _ _ n _ Hs' Hn Hrow') as E. unfold f, ended_lease in E. rewrite Hn in E.
        cbn in E. by injection E as ->. }
      intros moment. unfold drain_kills_running, lease_deadline_passed, f, ended_lease.
      destruct (lx_deadline_seconds body) as [n|]; cbn [fmap option_fmap option_map]; rewrite <-?(Ht _ eq_refl); destruct mode; cbn;
        rewrite (bool_decide_true (LeaseDraining = LeaseDraining)) by done;
        first [rewrite bool_decide_true by done|rewrite bool_decide_false by done]; cbn [negb];
        rewrite ?Z.leb_le; (split; [intros Hr; solve [by left|by right]|intros [Hr|Hr]; done]).
  - assert (forall (b : bool), b = true -> negb b = false) as Hb by by intros [].
    split.
    + intros (mid & s' & Hs'). pose proof (answered_leads _ _ s (end_lease_leads (holdings_of s) name body)) as Hl. rewrite Hs' in Hl.
      destruct Hl as (m & mode & t & l & Hm & _ & Hmode & Hst & _). split; [by eexists|]. split; [|by exists m].
      revert Hs'. unfold answered, end_lease. destruct (lx_deadline_seconds body) as [n|]; [|done].
      destruct (0 <=? n) eqn:E; [by apply Z.leb_le in E|done].
    + intros ([mode Hmode] & Hdl & m & Hm & Hst).
      assert (match lx_deadline_seconds body with Some n => 0 <=? n | None => true end = true) as Hd.
      { destruct (lx_deadline_seconds body); [by apply Z.leb_le|done]. }
      destruct (grants_answered (fun _ => True) (end_lease name body) s) as (mid & s' & E & _); [|by exists mid, s'].
      unfold end_lease. rewrite Hd. cbn [negb]. rewrite Hmode.
      lazymatch goal with |- grants ?x _ _ => apply (grants_step x x _ _ (fun b => b = m)) end.
      { intros s' Hs'. exists m, s'. split; [|done]. destruct (Hs') as (E & _). unfold rows_of in E.
        unfold _by_name, bind, on_rows, db_, gets. rewrite E. change (hd_db (holdings_of s)) with (rows_of s). rewrite Hm. by destruct s'. }
      intros b ->.
      assert ((m_lease_state m == LeaseActive) || (m_lease_state m == LeaseDraining) = true) as Hb2.
      { destruct Hst as [->| ->]; reflexivity. }
      rewrite Hb2. cbn [negb]. apply grants_put_machine.
      destruct (lx_deadline_seconds body) as [n|]; [|apply grants_ret_bind, grants_event; intros l; by apply grants_ret].
      intros s' Hs'. by eexists _, _.
Qed.

(** ** Removing *)

(** A machine is removed only when nobody relies on it, and what it measured stays.  If removing it is granted, no
    campaign that is not over names it, it is not reserved by a run, and it was in no group; afterwards it is
    gone, and no run, node or session is on it, but all of them are still there with everything else they had;
    other machines, groups, campaigns, candidates and results are untouched.  If it is refused, nothing is
    touched. *)
Theorem removal_leaves_what_was_measured mid s :
  let '(r, s') := answered (delete_machine mid) s in
  let db := rows_of s in let db' := rows_of s' in
  match r with
  | inl _ => holdings_of s' = holdings_of s
  | inr name =>
      (exists m, d_machines db !! mid = Some m /\ m_name m = name /\ m_state m <> Reserved /\
         forall k c, d_campaigns db !! k = Some c -> name ∈ c_machine_names c -> c_status c = Done) /\
      (forall k, d_members db !! k <> Some mid) /\ d_members db' = d_members db /\
      (forall k, d_machines db' !! k = if decide (k = mid) then None else d_machines db !! k) /\
      (forall rid, option_map (fun r => r <| r_machine_id := None |>) (d_runs db' !! rid)
                   = option_map (fun r => r <| r_machine_id := None |>) (d_runs db !! rid) /\
         forall r, d_runs db' !! rid = Some r -> r_machine_id r <> Some mid) /\
      (forall k n, d_nodes db' !! k = Some n -> n_machine_id n <> Some mid /\
         exists n0, d_nodes db !! k = Some n0 /\ n_gpu_indices n = n_gpu_indices n0 /\ n_launch_command n = n_launch_command n0) /\
      (forall k p, d_sessions db' !! k = Some p -> ps_machine_id p <> Some mid) /\
      d_campaigns db' = d_campaigns db /\ d_candidates db' = d_candidates db /\ d_results db' = d_results db /\
      d_groups db' = d_groups db /\ gr_groups s' = gr_groups s
  end.
Proof.
  pose proof (answered_leads _ _ s (delete_machine_leads (holdings_of s) mid)) as Hl.
  destruct (answered (delete_machine mid) s) as [[e|name] s']; [done|].
  destruct Hl as (m & l & Hm & -> & Hbl & Hst & Hfree & Hx').
  change (hd_db (holdings_of s)) with (rows_of s) in *. cbv zeta.
  assert (rows_of s' = ((detach mid (rows_of s)) <| d_machines ::= delete mid |>) <| d_events := l |>) as ->.
  { change (rows_of s') with (hd_db (holdings_of s')). by rewrite Hx'. }
  assert (gr_groups s' = gr_groups s) as -> by (change (gr_groups s') with (hd_groups (holdings_of s')); by rewrite Hx').
  split_and!; try done.
  - exists m. split_and!; try done. intros k c Hc Hin. destruct (decide (c_status c = Done)) as [|Hne]; [done|].
    assert (c_name c ∈ _blocking_campaigns (rows_of s) m) as Hb; [|rewrite Hbl in Hb; by apply not_elem_of_nil in Hb].
    unfold _blocking_campaigns. apply list_elem_of_fmap. exists c. split; [done|]. apply elem_of_where. split; [apply elem_of_rows_z; eauto|].
    rewrite bool_decide_false, bool_decide_true by done. done.
  - intros k. cbn. destruct (decide (k = mid)) as [->|Hk]; [by rewrite lookup_delete_eq|by rewrite lookup_delete_ne].
  - intros rid. cbn. rewrite lookup_fmap. split.
    + destruct (d_runs (rows_of s) !! rid); [|done]. cbn. by case_match.
    + intros r (r0 & _ & ->)%fmap_Some. destruct (r_machine_id r0 == Some mid) eqn:E; [done|]. by apply bool_decide_eq_false in E.
  - intros k n. cbn. rewrite lookup_fmap. intros (n0 & Hn & ->)%fmap_Some. unfold on_machine.
    destruct (n_machine_id n0 == Some mid) eqn:E; (split; [|by exists n0]); [done|]. by apply bool_decide_eq_false in E.
  - intros k p. cbn. rewrite lookup_fmap. intros (p0 & _ & ->)%fmap_Some.
    destruct (ps_machine_id p0 == Some mid) eqn:E; [done|]. by apply bool_decide_eq_false in E.
Qed.

(** ** Forming a group *)
Lemma driver_matches machines driver :
  _assert_driver_matches machines driver = inr tt -> driver = "" \/ forall m, m ∈ machines -> _effective_driver m = driver.
Proof.
  unfold _assert_driver_matches. destruct (String.eqb_spec driver ""); [by left|]. destruct (forallb _ machines) eqn:E; [|done].
  intros _. right. intros m Hm%list_elem_of_In. rewrite forallb_forall in E. by apply String.eqb_eq, E.
Qed.

(** C28: A group that is formed can be deployed as one.  If forming one is granted, its members are the machines that
    were named, in the order they were named, the first of them the master; all of them are on one substrate (the
    group's own, where it names one), in one cluster, of one card type and with one number of cards, and none of
    them was in another group.  Nothing is reserved: no machine, run, session or campaign changes, and the other
    groups keep their members. *)
Theorem formed_group_deploys_as_one body s gid s' :
  estate_ok (holdings_of s) -> answered (create_group body) s = (inr gid, s') ->
  exists machines, machines <> [] /\ map m_name machines = cleaned_names (gc_members body) /\ NoDup (map m_id machines) /\
    (forall g k, d_members (rows_of s') !! (g, k)
       = if decide (g = gid) then (if decide (0 <= k) then m_id <$> machines !! Z.to_nat k else None)
         else d_members (rows_of s) !! (g, k)) /\
    (forall m, m ∈ machines -> d_machines (rows_of s') !! m_id m = Some m /\ forall k, d_members (rows_of s) !! k <> Some (m_id m)) /\
    (forall m m', m ∈ machines -> m' ∈ machines -> _effective_driver m = _effective_driver m' /\
       m_cluster_id m = m_cluster_id m' /\ m_gpu_type m = m_gpu_type m' /\ m_gpu_count m = m_gpu_count m') /\
    (gc_driver body <> "" -> forall m, m ∈ machines -> _effective_driver m = gc_driver body) /\
    d_groups (rows_of s') !! gid = Some (MachineGroup gid (strip (gc_name body))) /\ d_groups (rows_of s) !! gid = None /\
    d_machines (rows_of s') = d_machines (rows_of s) /\ d_runs (rows_of s') = d_runs (rows_of s) /\
    d_sessions (rows_of s') = d_sessions (rows_of s) /\ d_campaigns (rows_of s') = d_campaigns (rows_of s).
Proof.
  intros Hok Hs'. pose proof (answered_leads _ _ s (create_group_leads (holdings_of s) body)) as Hl. rewrite Hs' in Hl.
  destruct Hl as (machines & l & -> & Hne & Hnone & Hload & Hdrv & Hx'). exists machines.
  pose proof (loaded_seatable _ _ _ _ (next_key (d_groups (rows_of s))) Hok Hload (or_intror eq_refl)) as (Hn0 & Hnd & Hkey & Hfree).
  apply load_members_spec in Hload as (_ & Hnames & _ & _ & Halike & Htaken).
  change (hd_db (holdings_of s)) with (rows_of s) in *. set (gid := next_key (d_groups (rows_of s))) in *.
  set (db1 := (rows_of s) <| d_groups ::= <[ gid := MachineGroup gid (strip (gc_name body)) ]> |>) in *.
  assert (rows_of s' = (seated gid machines db1) <| d_events := l |>) as ->.
  { change (rows_of s') with (hd_db (holdings_of s')). by rewrite Hx'. }
  split_and!; try done.
  - intros g k. apply (seated_lookup gid machines db1).
  - intros m Hm. split; [by apply Hkey|]. intros [g k] Hk.
    pose proof (Htaken (g, k) (m_id m) Hk) as Hg. destruct (eo_seats _ _ Hok _ _ _ Hk) as ([gr Hgr] & _).
    apply (eo_groups _ _ Hok) in Hgr as [_ Hpos]. cbn in Hg. assert (g = -1); [|lia]. apply Hg.
    change (m_id m ∈ m_id <$> machines). by apply list_elem_of_fmap_2.
  - intros m m' Hm Hm'. rewrite !andb_true_iff in Halike. destruct Halike as [[[A1 A2] A3] A4].
    apply alike_spec with (m := m) (m' := m') in A1, A2, A3, A4; done.
  - intros Hd m Hm. destruct (driver_matches _ _ Hdrv) as [|Hall]; [done|]. by apply Hall.
  - cbn. by rewrite lookup_insert_eq.
  - apply next_key_fresh.
Qed.

End tenures.

(** ** A small fleet *)
Definition sample_notes : machine_notes := MachineNotes "root" 22 "" "" "" "ui:alice" "" (Some 0).
Definition sample_grounds : grounds :=
  Office (sample_world sample_db) (FleetLedger {[ 1 := sample_notes; 2 := sample_notes ]} ∅) ∅.

(** Alice, an administrator, asks; every driver is there. *)
Definition ask_as_alice (q : fleet_request) (s : grounds) : (exn + unit) * grounds :=
  serve_request (fun key => key) (fun _ => true) (fun t => if String.eqb t "alice" then Some 1 else None)
    {[ 1 := mkUser 1 "alice" true ]} (access_of q) (mkCredentials (Some "alice") None)
    (fun p => handle_fleet (fun _ => true) (fun _ _ => ["H100"]) p q) s.
Definition only_name (name : string) : LeaseRequest := mkLeaseRequest name None None None None None None None "".
Definition group_of (members : list string) : MachineGroupCreate := mkGroupCreate "pair" members "ssh_docker" [] 0 [] [] "".

Lemma sample_rows k m : d_machines sample_db !! k = Some m -> k = 1 /\ m = sample_machine 1 \/ k = 2 /\ m = sample_machine 2.
Proof.
  change (d_machines sample_db) with ({[ 1 := sample_machine 1; 2 := sample_machine 2 ]} : gmap Z machine).
  intros [[<- <-]|[_ [<- <-]%lookup_singleton_Some]]%lookup_insert_Some; [by left|by right].
Qed.

Lemma sample_estate : estate_ok (holdings_of sample_grounds).
Proof.
  assert (forall k, k = 1 \/ k = 2 -> is_Some (d_machines sample_db !! k)) as Hm by (intros k [->| ->]; vm_compute; eauto).
  assert (d_groups sample_db = ∅ /\ d_members sample_db = ∅ /\ d_sessions sample_db = ∅) as (Eg & Em & Es) by done.
  split; unfold holdings_of; unfold hd_machines, hd_groups; cbn [hd_db hd_ledger]; change (rows_of sample_grounds) with sample_db;
    rewrite ?Eg, ?Em, ?Es; try (intros *; rewrite ?lookup_empty; done).
  - exact Tick.sample_fleet_ok.
  - intros k1 k2 m1 m2 [[-> ->]|[-> ->]]%sample_rows [[-> ->]|[-> ->]]%sample_rows; done.
  - intros rid r mid. change (d_runs sample_db) with ({[ 1 := Samples.sample_run 1 1 1 [0; 1; 2; 3] Benching ]} : gmap Z run).
    intros [<- <-]%lookup_singleton_Some [= <-]. apply Hm. by left.
  - intros k n mid. change (d_nodes sample_db) with ({[ (1, 0) := master_node (Samples.sample_run 1 1 1 [0; 1; 2; 3] Benching) ]} : gmap (Z * Z) run_node).
    intros [<- <-]%lookup_singleton_Some [= <-]. apply Hm. by left.
  - intros mid. change (gl_machines (o_ledger sample_grounds)) with ({[ 1 := sample_notes; 2 := sample_notes ]} : gmap Z machine_notes).
    change (d_machines sample_db) with ({[ 1 := sample_machine 1; 2 := sample_machine 2 ]} : gmap Z machine).
    by rewrite !lookup_insert_is_Some', <-!elem_of_dom, !dom_singleton.
  - intros gid. change (gl_groups (o_ledger sample_grounds)) with (∅ : gmap Z group_notes). rewrite !lookup_empty. split; by intros [].
Qed.

(** A group of the two machines is formed; the second machine cannot then be
    removed, nor a second group take it; without the group it can be. *)
Lemma fleet_stays_in_order_witness :
  let s1 := (ask_as_alice (CreateGroup (group_of ["node-2"; " node-1 "])) sample_grounds).2 in
  map_to_list (d_members (rows_of s1)) = [((1, 0), 2); ((1, 1), 1)] /\
  (ask_as_alice (DeleteMachine 2) s1).1 = inl (HTTPException 409 "it is in a node group") /\
  (ask_as_alice (CreateGroup (group_of ["node-2"])) s1).1 = inl (HTTPException 409 "node group name taken") /\
  (ask_as_alice (DeleteMachine 2) (ask_as_alice (DeleteGroup 1) s1).2).1 = inr tt /\
  estate_ok (holdings_of s1).
Proof.
  split; [vm_compute; reflexivity|]. split; [vm_compute; reflexivity|]. split; [vm_compute; reflexivity|]. split; [vm_compute; reflexivity|].
  pose proof (fleet_stays_in_order (fun key => key) (fun _ => true) (fun t => if String.eqb t "alice" then Some 1 else None)
    {[ 1 := mkUser 1 "alice" true ]} (fun _ => true) (fun _ _ => ["H100"]) (mkCredentials (Some "alice") None)
    (CreateGroup (group_of ["node-2"; " node-1 "])) sample_grounds sample_estate) as Hok.
  unfold ask_as_alice. destruct (serve_request _ _ _ _ _ _ _ _) as [r s1]. exact (proj1 Hok).
Defined.

Lemma leasing_again_changes_only_the_lease_witness :
  exists s', answered (lease_machine (fun _ => true) (fun _ _ => []) (mkPrincipal (mkUser 2 "bob" false) "key:fleet" true) (only_name "node-1")) sample_grounds
    = (inr 1, s') /\ d_machines (rows_of s') !! 1 = Some (leased None (sample_machine 1)).
Proof.
  destruct (leasing_again_changes_only_the_lease (fun _ => true) (fun _ _ => []) (mkPrincipal (mkUser 2 "bob" false) "key:fleet" true)
    (only_name "node-1") (only_name "node-1") (sample_machine 1) sample_grounds) as (s' & t & n & E & _ & Hrow & _);
    [exact sample_estate|done..|]. exists s'. split; [exact E|exact Hrow].
Defined.

Lemma ending_a_lease_takes_effect_witness :
  exists s' m', answered (end_lease "node-2" (mkLeaseEndRequest "eager" None)) sample_grounds = (inr 2, s') /\
    d_machines (rows_of s') !! 2 = Some m' /\ accepts_new_work m' = false /\ drain_kills_running 0 m' = true.
Proof.
  destruct (ending_a_lease_takes_effect "node-2" (mkLeaseEndRequest "eager" None) sample_grounds sample_estate) as [Hend Hiff].
  destruct (proj2 Hiff) as (mid & s' & E).
  { split; [by exists Eager|]. split; [done|]. exists (sample_machine 2). split; [by vm_compute|by left]. }
  destruct (Hend _ _ E) as (m & m' & mode & Hm & -> & Hrow & Hmode & Hnew & _ & Hkill). exists s', m'.
  assert (m = sample_machine 2) as -> by (vm_compute in Hm; by injection Hm as <-). injection Hmode as <-.
  split; [exact E|]. split; [exact Hrow|]. split; [exact Hnew|]. apply Hkill. by left.
Defined.

Lemma formed_group_deploys_as_one_witness :
  exists machines, map m_name machines = ["node-2"; "node-1"] /\
    d_members (rows_of (answered (create_group (group_of ["node-2"; " node-1 "])) sample_grounds).2) !! (1, 0) = m_id <$> machines !! 0%nat.
Proof.
  destruct (formed_group_deploys_as_one (group_of ["node-2"; " node-1 "]) sample_grounds 1
    (answered (create_group (group_of ["node-2"; " node-1 "])) sample_grounds).2 sample_estate)
    as (machines & _ & Hn & _ & Hseats & _); [vm_compute; reflexivity|].
  exists machines. split; [exact Hn|]. by rewrite Hseats.
Defined.

(** A key of the fleet manager, and the token of policy session 3. *)
Definition keyed_grounds : grounds :=
  Office (sample_world (sample_db <| d_api_keys := {[ 1 := ApiKey 1 "fleet" "p1" "atk_p1_x" 1 None None;
                                                     2 := ApiKey 2 "session" "p2" "atk_p2_y" 1 (Some 3) None ]} |>)) (FleetLedger ∅ ∅) ∅.
Definition present (key : string) : (exn + Principal) * grounds :=
  answered (get_principal (fun k => k) (fun _ => true) (fun _ => None) {[ 1 := mkUser 1 "alice" true ]} None (Some key)) keyed_grounds.
Lemma service_key_is_checked_witness :
  (present "atk_p1_x").1 = inr (mkPrincipal (mkUser 1 "alice" true) "key:fleet" true) /\
  (present "atk_p1_z").1 = inl (HTTPException 401 "Invalid or revoked API key") /\
  (present "atk_p2_y").1 = inl (HTTPException 401 "Invalid or revoked API key") /\
  holdings_of (present "atk_p1_x").2 = holdings_of keyed_grounds.
Proof.
  split; [vm_compute; reflexivity|]. split; [vm_compute; reflexivity|]. split; [vm_compute; reflexivity|].
  pose proof (service_key_is_checked (fun k => k) (fun _ => true) (fun _ => None) {[ 1 := mkUser 1 "alice" true ]} None "atk_p1_x" keyed_grounds) as Hk.
  unfold present. destruct (answered _ keyed_grounds) as [r s']. by apply Hk.
Defined.

(** ** Where the code goes further than what it says *)

(** [lease_machine] is documented to refuse while "a run still holds" the machine, but leasing never looks: it makes
    a reserved machine available again, and what only looks for [Reserved] — here, removing the machine — no longer
    sees the run, which stays live with its cards on no machine. *)
Definition reserved_grounds : grounds :=
  sample_grounds <| o_world ::= fun w => w <| w_db ::= fun db => db <| d_machines ::= alter (fun m => m <| m_state := Reserved |>) 1 |> |> |>.
Theorem leasing_forgets_the_run :
  (ask_as_alice (DeleteMachine 1) reserved_grounds).1 = inl (HTTPException 409 "a live run holds it; stop the run first") /\
  let '(r, s1) := ask_as_alice (LeaseMachine (only_name "node-1")) reserved_grounds in
  r = inr tt /\
  let '(r, s2) := ask_as_alice (DeleteMachine 1) s1 in
  r = inr tt /\ d_machines (rows_of s2) !! 1 = None /\
  option_map (fun r => (live_run r, r_machine_id r, r_gpu_indices r)) (d_runs (rows_of s2) !! 1) = Some (true, None, [0; 1; 2; 3]).
Proof. vm_compute. repeat split. Qed.

(** A group names its driver so that every member is on it.  Members given with a null driver are not checked
    against the one the group keeps; left out, it is. *)
Definition mixed_grounds : grounds :=
  (ask_as_alice (CreateGroup (group_of ["node-1"]))
    (sample_grounds <| o_world ::= fun w => w <| w_db ::= fun db => db <| d_machines ::= alter (fun m => m <| m_driver := "k8s" |>) 2 |> |> |>)).2.
Definition regroup (driver : option (option string)) : fleet_request :=
  UpdateGroup 1 (mkGroupUpdate (Some ["node-2"]) driver None None None None None).
Theorem null_driver_is_not_checked :
  (ask_as_alice (regroup None) mixed_grounds).1 = inl (HTTPException 422 "driver does not match") /\
  let '(r, s) := ask_as_alice (regroup (Some None)) mixed_grounds in
  r = inr tt /\ gn_driver <$> gr_groups s !! 1 = Some "ssh_docker" /\
  map _effective_driver (group_machines (rows_of s) 1) = ["k8s"].
Proof. vm_compute. repeat split. Qed.

(** A group is checked when it is formed; editing a member's row does not look at its groups, so the members can
    stop being alike. *)
Definition node_card (card : string) : MachineCreate :=
  mkMachineCreate "node-2" "10.0.0.2" "root" 22 (Some 8) card "" "k8s" None "" "" "".
Theorem member_edited_apart :
  let s1 := (ask_as_alice (CreateGroup (group_of ["node-1"; "node-2"])) sample_grounds).2 in
  let '(r, s2) := ask_as_alice (UpdateMachine 2 (node_card "A100")) s1 in
  r = inr tt /\ alike _effective_driver (group_machines (rows_of s1) 1) = true /\
  alike _effective_driver (group_machines (rows_of s2) 1) = false.
Proof. vm_compute. repeat split. Qed.
