(* ===== verification/Stages.v ===== *)
(** What the fleet API answers: where a machine is in its lease and what moves
    it next ([orchestrator/lifecycle.py:describe], [machine_warnings]), the
    status of a lease ([api/leases.py:_snapshot]), the list of machines
    ([api/machines.py:list_machines]) and the groups
    ([api/machine_groups.py:_serialize]).

    A sentence written for people is the constructor of what it says, with the
    facts it names. *)
From Stdlib Require Import Ascii.
From S2P Require Import Failures Logs Model States Packing Timing World Samples Occupancy Fleet Exclusive Finish Placement Nights.
From S2P Require Import Reserve Queue Pass Runs Advance Leases Clock Datasets Sessions Ending Tenancy.
From S2P Require Import Prelude Float Values Texts Documents Space Validation Flags Commands ExtraArgs Addresses Recipes.
From S2P Require Import Composition Conversion Scripts Checks Contract Measures Hardware Requests Grounds Estate Tenures.
#[local] Open Scope string_scope.
#[local] Open Scope list_scope.
#[local] Open Scope Z_scope.

(** ** Where a machine is *)
Inductive stage_state := StageWaiting | StageWorking | StageBlocked | StageDone.
#[export] Instance stage_state_eq_dec : EqDecision stage_state. Proof. solve_decision. Defined.

Inductive headline :=
| HandedBack
| HeadlineNotLeased
| StoppingRuns (live : Z)
| FinishingUp (live : Z) (free_by : option Z)
| HandingBack
| RunsInFlight (live cards of_cards : Z)
| ReadyToRun
| NothingToRun.
#[export] Instance headline_eq_dec : EqDecision headline. Proof. solve_decision. Defined.

(** What ending the lease does: how many runs it stops. *)
Definition hand_back (db : database) (m : machine) : Z := Z.of_nat (length (live_runs_on db (m_id m))).

Record MachineLifecycle := mkLifecycle {
  lc_machine_id : Z;
  lc_step : Z;
  lc_state : stage_state;
  lc_headline : headline;
  lc_campaigns : list (Z * string);
  lc_readiness : readiness;
  lc_returnable_at : option Z;
  lc_hand_back : Z;
}.

Definition cards_of (live : list run) : Z := foldr Z.add 0 (map (fun r => Z.of_nat (length (r_gpu_indices r))) live).

Definition describe (db : database) (moment : Z) (m : machine) (default_ : Z) : MachineLifecycle :=
  let waiting := campaigns_waiting_on db moment m default_ in
  let live := live_runs_on db (m_id m) in
  let count := Z.of_nat (length live) in
  let out step state head :=
    mkLifecycle (m_id m) step state head (map (fun c => (c_id c, c_name c)) waiting) (readiness_of db m)
      (returnable_at db moment m) (hand_back db m) in
  if m_state m == Away then
    if m_lease_state m == LeaseReleased then out 2 StageDone HandedBack else out 0 StageWaiting HeadlineNotLeased
  else if m_lease_state m == LeaseDraining then
    match live with
    | _ :: _ =>
        if (m_lease_end_mode m == Some Eager) || lease_deadline_passed moment m
        then out 2 StageWorking (StoppingRuns count)
        else out 2 StageWorking (FinishingUp count (returnable_at db moment m))
    | [] => out 2 StageWorking HandingBack
    end
  else
    match live with
    | _ :: _ => out 1 StageWorking (RunsInFlight count (cards_of live) (m_gpu_count m))
    | [] => match waiting with
            | _ :: _ => out 1 StageWorking ReadyToRun
            | [] => out 1 StageWaiting NothingToRun
            end
    end.
Definition describe_all (db : database) (moment default_ : Z) : list MachineLifecycle :=
  map (fun m => describe db moment m default_) (rows_z (d_machines db)).

(** ** What is wrong with the machines of a run *)
Inductive warning :=
| NothingLeased
| NotRegistered
| UnleasedMachine (state : MachineState)
| PastDue
| EndsBefore (due finish_by : Z).
Inductive warning_status := WarnUnavailable | WarnExpiring | WarnExpired.
Record MachineWarning := mkWarning { mw_machine : string; mw_status : warning_status; mw_detail : warning }.

Definition leased_target_count (machines : list machine) (names : list string) : Z :=
  let active := where_ (fun m => m_lease_state m == LeaseActive) machines in
  match where_ (fun n => negb (String.eqb n "")) names with
  | [] => Z.of_nat (length active)
  | wanted => Z.of_nat (length (where_ (fun m => bool_decide (m_name m ∈ wanted)) active))
  end.

(** The machine of a name; of several, the last. *)
Definition last_named (machines : list machine) (name : string) : option machine :=
  List.find (fun m => String.eqb (m_name m) name) (reverse machines).

Definition warning_of (moment : Z) (finish_by : option Z) (machines : list machine) (name : string) : option MachineWarning :=
  match last_named machines name with
  | None => Some (mkWarning name WarnUnavailable NotRegistered)
  | Some m =>
      if negb (m_lease_state m == LeaseActive) then Some (mkWarning name WarnUnavailable (UnleasedMachine (m_state m)))
      else
        match m_lease_due_at m with
        | None => None
        | Some due =>
            if due <=? moment then Some (mkWarning name WarnExpired PastDue)
            else match finish_by with
                 | Some finish => if due <? finish then Some (mkWarning name WarnExpiring (EndsBefore due finish)) else None
                 | None => None
                 end
        end
  end.

Definition machine_warnings (moment : Z) (machines : list machine) (names : list string) (finish_by : option Z) : list MachineWarning :=
  match where_ (fun n => negb (String.eqb n "")) names with
  | [] => if existsb (fun m => m_lease_state m == LeaseActive) machines then []
          else [mkWarning "" WarnUnavailable NothingLeased]
  | wanted => omap (warning_of moment finish_by machines) wanted
  end.

(** ** The status of a lease *)
Record LiveRun := mkLiveRun {
  lr_run_id : Z;
  lr_campaign_id : Z;
  lr_status : RunStatus;
  lr_gpus : list Z;
  lr_started_at : option Z;
}.
(** The cards a run has on the machine, from its node there; a run with no node there tells its own. *)
Definition cards_here (db : database) (mid : Z) (r : run) : list Z :=
  match List.find (fun n => n_run_id n =? r_id r) (reverse (where_ (on_machine mid) (node_rows db))) with
  | Some n => n_gpu_indices n
  | None => r_gpu_indices r
  end.

Record LeaseStatus := mkLeaseStatus {
  ls_machine : string;
  ls_host : string;
  ls_gpu_count : Z;
  ls_gpus_in_use : Z;
  ls_state : MachineState;
  ls_lease_state : LeaseState;
  ls_lease_holder : string;
  ls_leased_at : option Z;
  ls_lease_due_at : option Z;
  ls_lease_end_mode : option LeaseEndMode;
  ls_lease_deadline_at : option Z;
  ls_lease_released_at : option Z;
  ls_readiness : readiness;
  ls_returnable_at : option Z;
  ls_live_runs : list LiveRun;
  ls_stage : MachineLifecycle;
}.

Definition sum_of {A} (f : A -> Z) (l : list A) : Z := foldr (fun x n => f x + n) 0 l.

Definition _snapshot (s : grounds) (moment default_ mid : Z) : option LeaseStatus :=
  let db := rows_of s in
  m ← d_machines db !! mid;
  let live := live_runs_on db mid in
  let n := default registered_notes (gr_machines s !! mid) in
  Some (mkLeaseStatus (m_name m) (m_host m) (m_gpu_count m)
    (sum_of (fun r => Z.of_nat (length (cards_here db mid r))) live)
    (m_state m) (m_lease_state m) (mn_lease_holder n) (mn_leased_at n) (m_lease_due_at m) (m_lease_end_mode m)
    (m_lease_deadline_at m) (m_lease_released_at m) (readiness_of db m) (returnable_at db moment m)
    (map (fun r => mkLiveRun (r_id r) (r_campaign_id r) (r_status r) (cards_here db mid r) (r_started_at r)) live)
    (describe db moment m default_)).

(** ** The list of machines *)
Definition live_node (db : database) (n : run_node) : bool := node_run db live_run n.
Definition busy_on (db : database) (mid : Z) : Z :=
  sum_of (fun n => Z.of_nat (length (n_gpu_indices n))) (where_ (fun n => live_node db n && on_machine mid n) (node_rows db)).

(** The group a machine is in, and at which rank. *)
Definition _group_fields (db : database) (mid : Z) : option (string * Z) :=
  kv ← List.find (member_of mid) (map_to_list (d_members db));
  g ← d_groups db !! kv.1.1;
  Some (g_name g, kv.1.2).

Section lists.
Context `{Env}.

(** How runs on the machine are launched: its cluster's kind of workload. *)
Definition launch_kind (db : database) (m : machine) : string :=
  if String.eqb (m_driver m) "k8s" then
    or_string (match (if default 0 (m_cluster_id m) =? 0 then None else d_clusters db !! default 0 (m_cluster_id m)) with
               | Some k => k_workload_kind k | None => "" end) (k_workload_kind default_cluster)
  else "ssh_docker".

Record MachineOut := mkMachineOut {
  mo_machine : machine;
  mo_gpus_busy : Z;
  mo_group : string;
  mo_group_rank : option Z;
  mo_launch_kind : string;
  mo_pool : bool;
}.
Definition _machine_out (db : database) (m : machine) (busy : Z) : MachineOut :=
  mkMachineOut m busy (default "" (fst <$> _group_fields db (m_id m))) (snd <$> _group_fields db (m_id m))
    (launch_kind db m) (is_node_pool m).
Definition list_machines (db : database) : list MachineOut :=
  map (fun m => _machine_out db m (busy_on db (m_id m))) (rows_z (d_machines db)).
End lists.

(** ** The groups *)
Record MachineGroupMemberOut := mkMemberOut {
  gm_name : string;
  gm_rank : Z;
  gm_is_master : bool;
  gm_host : string;
  gm_data_host : string;
  gm_gpu_count : Z;
  gm_gpu_type : string;
  gm_driver : string;
  gm_leased : bool;
  gm_state : MachineState;
  gm_needs_attention : bool;
  gm_gpus_busy : Z;
  gm_lease_due_at : option Z;
}.
Definition _member_out (m : machine) (notes : machine_notes) (rank busy : Z) : MachineGroupMemberOut :=
  mkMemberOut (m_name m) rank (rank =? 0) (m_host m) (or_string (mn_data_host notes) (m_host m)) (m_gpu_count m) (m_gpu_type m)
    (_effective_driver m) (m_lease_state m == LeaseActive) (m_state m) (m_needs_attention m) busy (m_lease_due_at m).

Record MachineGroupOut := mkGroupOut {
  go_id : Z;
  go_name : string;
  go_notes : group_notes;
  go_members : list MachineGroupMemberOut;
  go_node_count : Z;
  go_deployable : bool;
  go_blockers : list blocker;
  go_warnings : list (string * Z);
}.
Definition _serialize (s : grounds) (moment : Z) (g : machine_group) : MachineGroupOut :=
  let db := rows_of s in
  let ranked := members_by_rank db g in
  let busy := busy_cards db (map (fun rm => m_id rm.2) ranked) in
  let members := map (fun rm => _member_out rm.2 (default registered_notes (gr_machines s !! m_id rm.2)) rm.1
                                  (default 0 (busy !! m_id rm.2))) ranked in
  let blockers := group_blockers db g in
  mkGroupOut (g_id g) (g_name g)
    (default (GroupNotes "" None [] 0 [] [] "") (gr_groups s !! g_id g)) members (Z.of_nat (length members))
    (match blockers with [] => true | _ => false end) blockers (group_lease_warnings db moment g).

(** ** Lemmas *)
Lemma live_runs_spec db mid r :
  fleet_ok db -> r ∈ live_runs_on db mid <->
  d_runs db !! r_id r = Some r /\ live_run r = true /\
  exists k n, d_nodes db !! k = Some n /\ n_run_id n = r_id r /\ n_machine_id n = Some mid.
Proof.
  intros Hok. unfold live_runs_on, occupies. rewrite elem_of_where, elem_of_rows_z, andb_true_iff, bool_decide_eq_true.
  assert (r_id r ∈ run_ids_on_machine db mid <-> exists k n, d_nodes db !! k = Some n /\ n_run_id n = r_id r /\ n_machine_id n = Some mid) as ->.
  { unfold run_ids_on_machine, node_rows. change (map n_run_id ?l) with (n_run_id <$> l). rewrite list_elem_of_fmap.
    split.
    - intros (n & E & [[k Hk]%elem_of_rows Hon]%elem_of_where). exists k, n. split_and!; [done..|]. by apply bool_decide_eq_true in Hon.
    - intros (k & n & Hk & E & Hm). exists n. split; [done|]. apply elem_of_where. split; [apply elem_of_rows; eauto|]. by apply bool_decide_eq_true. }
  split.
  - intros ([k Hk] & Hn & Hl). pose proof (ok_runs _ Hok _ _ Hk) as <-. by split_and!.
  - intros (Hr & Hl & Hn). split; [by exists (r_id r)|by split].
Qed.

Lemma cards_here_own db mid r : fleet_ok db -> r ∈ live_runs_on db mid -> cards_here db mid r = r_gpu_indices r.
Proof.
  intros Hok (Hr & _ & _)%live_runs_spec; [|done]. unfold cards_here. destruct (List.find _ _) as [n|] eqn:E; [|done].
  apply find_some in E as [Hin%list_elem_of_In Eid%Z.eqb_eq]. rewrite elem_of_reverse, elem_of_where in Hin.
  destruct Hin as [[k Hk]%elem_of_rows _]. apply (ok_uniform _ Hok k); [done|]. by rewrite Eid.
Qed.

(** Two live runs on one machine share no card. *)
Lemma live_runs_apart db mid r1 r2 i :
  fleet_ok db -> r1 ∈ live_runs_on db mid -> r2 ∈ live_runs_on db mid -> r_id r1 <> r_id r2 ->
  i ∈ r_gpu_indices r1 -> i ∉ r_gpu_indices r2.
Proof.
  intros Hok (H1 & L1 & k1 & n1 & K1 & E1 & M1)%live_runs_spec (H2 & L2 & k2 & n2 & K2 & E2 & M2)%live_runs_spec Hne; [|done..].
  rewrite <-E1 in H1. rewrite <-E2 in H2.
  rewrite <-(ok_uniform _ Hok _ _ _ K1 H1), <-(ok_uniform _ Hok _ _ _ K2 H2).
  eapply (ok_exclusive _ Hok k1 k2 n1 n2 mid); try done.
  - intros ->. congruence.
  - unfold holding, node_run. rewrite H1. unfold holds_cards. by rewrite L1.
  - unfold holding, node_run. rewrite H2. unfold holds_cards. by rewrite L2.
Qed.

Lemma NoDup_flat {A B} (f : A -> list B) (key : A -> Z) l :
  NoDup (map key l) -> (forall x, x ∈ l -> NoDup (f x)) ->
  (forall x y i, x ∈ l -> y ∈ l -> key x <> key y -> i ∈ f x -> i ∉ f y) ->
  NoDup (concat (map f l)).
Proof.
  induction l as [|x l IH]; cbn; intros Hk Hnd Hd; [constructor|]. apply NoDup_cons in Hk as [Hx Hk]. apply NoDup_app. split_and!.
  - apply Hnd. by left.
  - intros i Hi Hin%list_elem_of_In. apply in_concat in Hin as (c & Hc%list_elem_of_In & Hic%list_elem_of_In).
    apply list_elem_of_fmap in Hc as (y & -> & Hy). apply (Hd x y i); [by left|by right| |done..].
    intros E. apply Hx. rewrite E. by apply list_elem_of_fmap_2.
  - apply IH; [done|intros y Hy; apply Hnd; by right|]. intros y z i Hy Hz. apply Hd; by right.
Qed.

Lemma sum_of_concat {A B} (f : A -> list B) l : sum_of (fun x => Z.of_nat (length (f x))) l = Z.of_nat (length (concat (map f l))).
Proof. induction l as [|x l IH]; cbn; [done|]. rewrite length_app. unfold sum_of in IH. lia. Qed.

Lemma NoDup_within (l : list Z) n : NoDup l -> (forall i, i ∈ l -> 0 <= i < n) -> 0 <= n -> Z.of_nat (length l) <= n.
Proof.
  intros Hnd Hin Hn. assert (l ⊆+ seqZ 0 n) as Hs%submseteq_length.
  { apply NoDup_submseteq; [done|]. intros i Hi. apply elem_of_seqZ. specialize (Hin i Hi). lia. }
  rewrite length_seqZ in Hs. lia.
Qed.

(** The cards in use on a machine are counted right.  Where no card is held twice, and each live run's cards are
    distinct cards of the machine, the status of its lease counts every card in use once: the cards its live runs
    tell are all different, the count is theirs, and it never exceeds what the machine has. *)
Theorem cards_in_use_are_counted_once s moment default_ mid st :
  fleet_ok (rows_of s) ->
  (forall r, r ∈ live_runs_on (rows_of s) mid -> NoDup (r_gpu_indices r)) ->
  _snapshot s moment default_ mid = Some st ->
  let cards := concat (map lr_gpus (ls_live_runs st)) in
  NoDup cards /\ ls_gpus_in_use st = Z.of_nat (length cards) /\
  ((forall i, i ∈ cards -> 0 <= i < ls_gpu_count st) -> 0 <= ls_gpu_count st -> ls_gpus_in_use st <= ls_gpu_count st).
Proof.
  intros Hok Hnd Hst. unfold _snapshot in Hst. destruct (d_machines (rows_of s) !! mid) as [m|] eqn:Em; [|done].
  cbn in Hst. injection Hst as <-. cbn [ls_live_runs ls_gpus_in_use ls_gpu_count]. cbv zeta. rewrite map_map. cbn [lr_gpus].
  assert (NoDup (concat (map (cards_here (rows_of s) mid) (live_runs_on (rows_of s) mid)))) as Hcards.
  { apply (NoDup_flat _ r_id).
    - apply NoDup_map_where. apply rows_ids. apply Hok.
    - intros r Hr. rewrite cards_here_own by done. by apply Hnd.
    - intros r1 r2 i H1 H2. rewrite !cards_here_own by done. by eapply live_runs_apart. }
  rewrite sum_of_concat. split_and!; [exact Hcards|done|]. intros Hin Hn. by apply NoDup_within.
Qed.

(** ** The page and the worker *)

Lemma returnable_at_none db moment m : returnable_at db moment m = None <-> live_runs_on db (m_id m) = [].
Proof. unfold returnable_at. by destruct (live_runs_on db (m_id m)). Qed.
Lemma returnable_at_bounds db moment m t r :
  returnable_at db moment m = Some t -> r ∈ live_runs_on db (m_id m) -> finish_bound db moment r <= t.
Proof.
  unfold returnable_at. intros Ht Hr. apply (list_elem_of_fmap_2 (finish_bound db moment)) in Hr. revert Ht Hr.
  change (finish_bound db moment <$> ?l) with (map (finish_bound db moment) l).
  destruct (map _ _) as [|t0 rest]; [done|]. intros [= <-]. destruct (foldl_max_spec rest t0) as (_ & H0 & Hall).
  intros [->|Hin]%elem_of_cons; [done|]. by apply Hall.
Qed.
Lemma readiness_returnable db m :
  readiness_of db m = Returnable <-> live_runs_on db (m_id m) = [] /\ (m_lease_state m = LeaseNone \/ m_lease_state m = LeaseReleased).
Proof.
  unfold readiness_of. destruct (live_runs_on db (m_id m)); [|by split; [|intros [? _]]].
  destruct (m_lease_state m); vm_compute; naive_solver.
Qed.

(** What is shown of a machine is what the worker acts on.  The step shown is the middle one exactly while new runs
    may start on the machine; "stopping runs" is said exactly when the worker kills what still runs there; "ready"
    exactly when runs may start, none is on it and a campaign would start one now; "handed back" exactly when it is
    away and its lease was ended; nothing is ever shown as blocked.  A time for getting it back is given exactly while
    runs are on it, and none of them may outlast it; the machine is called returnable exactly when none of our runs is
    on it and its lease never began or was ended. *)
Theorem shown_stage_is_the_workers db moment m default_ :
  let l := describe db moment m default_ in
  let live := live_runs_on db (m_id m) in
  (lc_step l = 1 <-> accepts_new_work m = true) /\
  ((exists n, lc_headline l = StoppingRuns n) <-> m_state m <> Away /\ drain_kills_running moment m = true /\ live <> []) /\
  (lc_headline l = ReadyToRun <-> accepts_new_work m = true /\ live = [] /\ campaigns_waiting_on db moment m default_ <> []) /\
  (lc_headline l = HandedBack <-> m_state m = Away /\ m_lease_state m = LeaseReleased) /\
  (lc_state l = StageDone <-> lc_headline l = HandedBack) /\ lc_state l <> StageBlocked /\
  (lc_returnable_at l = None <-> live = []) /\
  (forall t r, lc_returnable_at l = Some t -> r ∈ live -> finish_bound db moment r <= t) /\
  (lc_readiness l = Returnable <-> live = [] /\ (m_lease_state m = LeaseNone \/ m_lease_state m = LeaseReleased)).
Proof.
  cbv zeta.
  assert (lc_returnable_at (describe db moment m default_) = returnable_at db moment m /\
          lc_readiness (describe db moment m default_) = readiness_of db m) as [-> ->].
  { unfold describe. cbv zeta. repeat case_match; done. }
  split_and!; [| | | | | |apply returnable_at_none|apply returnable_at_bounds|apply readiness_returnable].
  all: unfold describe, accepts_new_work, drain_kills_running; cbv zeta.
  all: destruct (decide (m_state m = Away)) as [E1|E1];
    [rewrite !(bool_decide_true (m_state m = Away)) by done|rewrite !(bool_decide_false (m_state m = Away)) by done].
  all: destruct (decide (m_lease_state m = LeaseDraining)) as [E2|E2];
    [rewrite ?(bool_decide_true (m_lease_state m = LeaseDraining)) by done|rewrite ?(bool_decide_false (m_lease_state m = LeaseDraining)) by done].
  all: destruct (decide (m_lease_state m = LeaseReleased)) as [E3|E3];
    [rewrite ?(bool_decide_true (m_lease_state m = LeaseReleased)) by done|rewrite ?(bool_decide_false (m_lease_state m = LeaseReleased)) by done].
  all: destruct (live_runs_on db (m_id m)) as [|r0 rs], (campaigns_waiting_on db moment m default_) as [|c0 cs],
    (m_lease_end_mode m == Some Eager), (lease_deadline_passed moment m); cbn; try naive_solver.
Qed.


(** ** Warnings *)
Lemma where_named_nil names : where_ (fun n => negb (String.eqb n "")) names = [] <-> forall n, n ∈ names -> n = "".
Proof.
  rewrite where_nil. split; intros Hn n Hin; specialize (Hn n Hin).
  - apply negb_false_iff in Hn. by apply String.eqb_eq.
  - by rewrite Hn.
Qed.

(** A machine a run can count on until [finish_by]. *)
Definition counted_on (moment : Z) (finish_by : option Z) (m : machine) : Prop :=
  m_lease_state m = LeaseActive /\
  forall due, m_lease_due_at m = Some due -> moment < due /\ forall finish, finish_by = Some finish -> finish <= due.

Lemma warning_of_none moment finish_by machines name :
  warning_of moment finish_by machines name = None <->
  exists m, last_named machines name = Some m /\ counted_on moment finish_by m.
Proof.
  unfold warning_of, counted_on. destruct (last_named machines name) as [m|]; [|by split; [|intros (? & ? & _)]].
  destruct (decide (m_lease_state m = LeaseActive)) as [Ea|Ea].
  2: { rewrite bool_decide_false by done. split; [done|]. by intros (? & [= <-] & ? & _). }
  rewrite bool_decide_true by done. cbn [negb]. destruct (m_lease_due_at m) as [due|] eqn:Ed.
  2: { split; [intros _; exists m; split_and!; [done..|by intros ? ?; congruence]|done]. }
  destruct (Z.leb_spec due moment) as [Hl|Hl].
  { split; [done|]. intros (? & [= <-] & _ & Hall). destruct (Hall _ Ed). lia. }
  destruct finish_by as [finish|].
  - destruct (Z.ltb_spec due finish) as [Hf|Hf].
    + split; [done|]. intros (? & [= <-] & _ & Hall). destruct (Hall _ Ed) as [_ Hfin]. specialize (Hfin _ eq_refl). lia.
    + split; [|done]. intros _. exists m. split_and!; [done..|]. intros d Hd. assert (d = due) as -> by congruence.
      split; [done|]. by intros f [= <-].
  - split; [|done]. intros _. exists m. split_and!; [done..|]. intros d Hd. assert (d = due) as -> by congruence. by split.
Qed.

(** No warning means the machines can be counted on.  Where a run names machines, there is no warning exactly when
    each of them is registered, is leased to the platform now, is not past its due time, and stays leased until the
    run is expected to be over; each warning is about one of the machines named.  Where it names none, there is no
    warning exactly when some machine is leased. *)
Theorem no_warning_means_counted_on moment machines names finish_by :
  let wanted := where_ (fun n => negb (String.eqb n "")) names in
  let warnings := machine_warnings moment machines names finish_by in
  (wanted <> [] ->
     (warnings = [] <-> forall n, n ∈ wanted -> exists m, last_named machines n = Some m /\ counted_on moment finish_by m) /\
     forall w, w ∈ warnings -> mw_machine w ∈ wanted) /\
  (wanted = [] -> (warnings = [] <-> exists m, m ∈ machines /\ m_lease_state m = LeaseActive)).
Proof.
  cbv zeta. unfold machine_warnings. set (wanted := where_ (fun n => negb (String.eqb n "")) names). clearbody wanted. split.
  - intros Hne. destruct wanted as [|n0 ns] eqn:Ew; [done|]. rewrite <-Ew. clear n0 ns Ew Hne. split.
    + split.
      * intros Hnil n Hn. apply warning_of_none. destruct (warning_of moment finish_by machines n) as [w|] eqn:E; [|done].
        assert (w ∈ omap (warning_of moment finish_by machines) wanted) as Hin by (apply list_elem_of_omap; eauto).
        rewrite Hnil in Hin. by apply not_elem_of_nil in Hin.
      * intros Hall. destruct (omap _ wanted) as [|w ws] eqn:E; [done|].
        assert (w ∈ omap (warning_of moment finish_by machines) wanted) as (n & Hn & Hw)%list_elem_of_omap by (rewrite E; left).
        by rewrite (proj2 (warning_of_none _ _ _ _) (Hall n Hn)) in Hw.
    + intros w (n & Hn & Hw)%list_elem_of_omap. revert Hw. unfold warning_of. repeat case_match; try done; by intros [= <-].
  - intros ->. destruct (existsb _ machines) eqn:E.
    + split; [|done]. intros _. apply existsb_exists in E as (m & Hm & Hs). exists m. split; [by apply list_elem_of_In|].
      by apply bool_decide_eq_true in Hs.
    + split; [done|]. intros (m & Hm & Hs). apply not_true_iff_false in E. destruct E. apply existsb_exists. exists m.
      split; [by apply list_elem_of_In|by apply bool_decide_eq_true].
Qed.

(** ** Groups that could deploy *)
Lemma gang_is_live db mid : fleet_ok db -> live_runs_on db mid = [] -> machine_hosts_live_gang db mid = false.
Proof.
  intros Hok Hnil. unfold machine_hosts_live_gang. apply not_true_iff_false. intros (n & Hn & Hp)%existsb_exists.
  apply andb_true_iff in Hp as [Hp _]. apply andb_true_iff in Hp as [Hon Hrun]. apply node_run_some in Hrun as (r & Hr & Hl).
  apply bool_decide_eq_true in Hon. apply list_elem_of_In, elem_of_rows in Hn as [k Hk].
  assert (r ∈ live_runs_on db mid) as Hin; [|rewrite Hnil in Hin; by apply not_elem_of_nil in Hin].
  apply live_runs_spec; [done|]. pose proof (ok_runs _ Hok _ _ Hr) as Eid. rewrite Eid. split_and!; [done..|]. by exists k, n.
Qed.

(** What the page does not look at: the cards a member has, and its containers that are not confirmed gone. *)
Definition settled (db : database) (m : machine) : bool :=
  (0 <? m_gpu_count m) && match teardown_pending_on db (m_id m) with [] => true | _ => false end.

(** A member that nothing occupies: it is here and not being handed back, no
    failure has quarantined it, no session is under way on it, and no run that
    is under way has a node on it. *)
Record free_for_work (db : database) (m : machine) : Prop := {
  fw_here : m_state m <> Away;
  fw_kept : m_lease_state m <> LeaseDraining;
  fw_healthy : m_needs_attention m = false;
  fw_sessions sid ps : d_sessions db !! sid = Some ps -> ps_machine_id ps = Some (m_id m) ->
    terminal_session (ps_status ps) = true;
  fw_runs rid r k n : d_runs db !! rid = Some r -> d_nodes db !! k = Some n -> n_run_id n = rid ->
    n_machine_id n = Some (m_id m) -> terminal_run (r_status r) = true }.

Lemma no_live_session db mid : machine_has_live_session db mid = false <->
  forall sid ps, d_sessions db !! sid = Some ps -> ps_machine_id ps = Some mid -> terminal_session (ps_status ps) = true.
Proof.
  unfold machine_has_live_session. split.
  - intros H sid ps Hps Hm. assert (ps ∈ rows_z (d_sessions db)) as Hin by (apply elem_of_rows_z; by exists sid).
    pose proof (existsb_false _ _ _ H Hin) as Hx. unfold live_session_on in Hx. rewrite Hm, bool_decide_true in Hx by done.
    by apply negb_false_iff in Hx.
  - intros H. apply not_true_iff_false. intros (ps & [sid Hps]%list_elem_of_In%elem_of_rows_z & Hx)%existsb_exists.
    apply andb_true_iff in Hx as [Hm%bool_decide_eq_true Ht]. by rewrite (H sid ps Hps Hm) in Ht.
Qed.

Lemma no_live_run db mid : fleet_ok db -> live_runs_on db mid = [] <->
  forall rid r k n, d_runs db !! rid = Some r -> d_nodes db !! k = Some n -> n_run_id n = rid ->
    n_machine_id n = Some mid -> terminal_run (r_status r) = true.
Proof.
  intros Hok. split.
  - intros Hnil rid r k n Hr Hn Hid Hm. destruct (terminal_run (r_status r)) eqn:Ht; [done|].
    pose proof (ok_runs _ Hok _ _ Hr) as Er.
    assert (r ∈ live_runs_on db mid) as Hin; [|rewrite Hnil in Hin; by apply not_elem_of_nil in Hin].
    apply live_runs_spec; [done|]. rewrite Er. split_and!; [done|by unfold live_run; rewrite Ht|]. exists k, n. by subst rid.
  - intros H. destruct (live_runs_on db mid) as [|r l] eqn:E; [done|].
    assert (r ∈ live_runs_on db mid) as (Hr & Hl & k & n & Hn & Hid & Hm)%live_runs_spec; [rewrite E; left| |done].
    unfold live_run in Hl. by rewrite (H _ r k n Hr Hn Hid Hm) in Hl.
Qed.

Lemma unblocked_member db m : fleet_ok db -> member_blockers db m = [] <-> free_for_work db m.
Proof.
  intros Hok. unfold member_blockers, accepts_new_work. split.
  - intros [Ha [Hs [Hl [_ Hr]%app_nil]%app_nil]%app_nil]%app_nil. split.
    + intros He. by rewrite bool_decide_true in Hs.
    + intros He. rewrite (bool_decide_true (m_lease_state m = LeaseDraining)) in Hs by done. by destruct (m_state m == Away).
    + by destruct (m_needs_attention m).
    + apply no_live_session. by destruct (machine_has_live_session db (m_id m)).
    + apply no_live_run; [done|]. by destruct (live_runs_on db (m_id m)).
  - intros [H1 H2 H3 H4 H5]. rewrite H3, !bool_decide_false by done. cbn [negb].
    rewrite (proj2 (no_live_session db (m_id m))) by done.
    pose proof (proj2 (no_live_run db (m_id m) Hok) H5) as Hr. by rewrite gang_is_live, Hr.
Qed.

Lemma shown_deployable s moment g :
  fleet_ok (rows_of s) ->
  go_deployable (_serialize s moment g) = true <->
  forall rank m, (rank, m) ∈ members_by_rank (rows_of s) g -> free_for_work (rows_of s) m.
Proof.
  intros Hok. change (go_deployable _) with (match group_blockers (rows_of s) g with [] => true | _ => false end).
  transitivity (group_blockers (rows_of s) g = []); [by destruct (group_blockers _ _)|].
  unfold group_blockers. induction (members_by_rank (rows_of s) g) as [|[rank m] ms IH]; cbn [mbind list_bind].
  - split; [by intros _ ? ? ?%not_elem_of_nil|done].
  - rewrite app_nil, IH, unblocked_member by done. split.
    + intros [Hm Hms] r' m' [[= -> ->]|Hin]%elem_of_cons; [done|by apply (Hms r' m')].
    + intros H. split; [apply (H rank m); left|]. intros r' m' Hin. apply (H r' m'). by right.
Qed.

Lemma gang_starts_on_idle `{Env} c pending blocked busy w busy' w' g :
  _group_for_campaign (w_db w) c = Some g ->
  _start_gang c pending blocked busy w = (inr (true, busy'), w') ->
  _group_is_idle (w_db w) g = true /\ (2 <= length (members_by_rank (w_db w) g))%nat.
Proof.
  intros Hg. unfold _start_gang, bind at 1, db_, gets. rewrite Hg. cbv zeta.
  rewrite <- (length_map snd (members_by_rank (w_db w) g)).
  destruct (map snd (members_by_rank (w_db w) g)) as [|master rest] eqn:Hms; [done|].
  destruct (Z.ltb_spec (Z.of_nat (length (master :: rest))) 2) as [|Hlen]; [done|].
  destruct (_group_is_idle (w_db w) g); [|done]. intros _. split; [done|lia].
Qed.


(** ** On a small fleet *)
Lemma cards_in_use_are_counted_once_witness :
  ls_gpus_in_use <$> _snapshot sample_grounds 0 150 1 = Some 4 /\
  forall st, _snapshot sample_grounds 0 150 1 = Some st -> NoDup (concat (map lr_gpus (ls_live_runs st))).
Proof.
  split; [vm_compute; reflexivity|]. intros st Hst.
  apply (cards_in_use_are_counted_once sample_grounds 0 150 1 st); [exact (eo_fleet _ _ sample_estate)| |exact Hst].
  intros r Hr. assert (live_runs_on (rows_of sample_grounds) 1 = [Samples.sample_run 1 1 1 [0; 1; 2; 3] Benching]) as E by (vm_compute; reflexivity).
  rewrite E in Hr. apply list_elem_of_singleton in Hr as ->. by apply (bool_decide_unpack (NoDup [0; 1; 2; 3])); vm_compute.
Defined.

(** The two machines as a group, whose rows are [db]. *)
Definition paired (db : database) : database :=
  (db <| d_groups := {[ 1 := MachineGroup 1 "pair" ]} |>) <| d_members := {[ (1, 0) := 2; (1, 1) := 1 ]} |>.
Definition pair_group : machine_group := MachineGroup 1 "pair".

Lemma paired_fleet db : fleet_ok db -> fleet_ok (paired db).
Proof.
  intros Hok. eapply fleet_ok_rows; [exact Hok|done|done|apply Hok|]. intros k1 k2 mid. unfold paired. cbn.
  intros [[<- <-]|[_ [<- <-]%lookup_singleton_Some]]%lookup_insert_Some [[<- E]|[_ [<- E]%lookup_singleton_Some]]%lookup_insert_Some; done.
Qed.

Definition idle_db : database := empty_database <| d_machines := {[ 1 := sample_machine 1; 2 := sample_machine 2 ]} |>.
Lemma idle_fleet : fleet_ok idle_db.
Proof.
  split; try (intros *; unfold idle_db; cbn; rewrite ?lookup_empty; done).
  intros mid m. unfold idle_db. cbn. by intros [[<- <-]|[_ [<- <-]%lookup_singleton_Some]]%lookup_insert_Some.
Qed.

(** The pair with nothing on it, and a campaign that asks for it. *)
Definition idle_pair : grounds :=
  sample_grounds <| o_world ::= fun w => w <| w_db := paired idle_db |> |>.
Definition pair_campaign : campaign := sample_campaign <| c_node_group := "pair" |>.
Definition pair_start := _start_gang pair_campaign [sample_candidate 9 8 Valid] ∅ ∅ (o_world idle_pair).


(** The page says a group is deployable "from the same predicates the supervisor acts on"; with a container of an
    ended run not confirmed gone, it says so while the scheduler waits. *)
Definition dying_db : database := paired (update_run 1 (fun r => (r <| r_status := Succeeded |>) <| r_teardown_pending := true |>) sample_db).
Theorem deployable_but_not_started :
  go_deployable (_serialize (sample_grounds <| o_world ::= fun w => w <| w_db := dying_db |> |>) 0 pair_group) = true /\
  _group_is_idle dying_db pair_group = false.
Proof. vm_compute. by split. Qed.
