(* ===== verification/Steering.v ===== *)
(** Steering a campaign: what people may ask of one that is there
    ([api/campaigns.py]) — its status, its clock, running it now, validating
    chosen configurations, stopping it, queueing its failures again, deleting
    it.  What this part of the API keeps besides the rows are the columns of a
    campaign that the worker never reads, the plugins' claims on campaigns and
    what policies keep between nights.  Foreign keys hold, as in Postgres.  Any
    logged-in person may ask, except where an owner or an administrator must. *)
From Stdlib Require Import Ascii.
From S2P Require Import Failures Logs Model States Packing Timing World Samples Occupancy Fleet Exclusive Finish Placement Nights.
From S2P Require Import Reserve Queue Pass Runs Advance Leases Clock Datasets Sessions Ending Tenancy.
From S2P Require Import Prelude Float Values Texts Documents Space Validation Flags Commands ExtraArgs Addresses Recipes.
From S2P Require Import Composition Conversion Scripts Checks Contract Measures Hardware Objectives Judgement Rules Managed Requests Grounds.
#[local] Open Scope string_scope.
#[local] Open Scope list_scope.
#[local] Open Scope Z_scope.

(** ** The rows only this API uses *)

(** The columns of a campaign the worker's model leaves out; an empty objective
    is the platform's own. *)
Record campaign_notes := CampaignNotes {
  kn_node_names : list string;
  kn_objective : tree;
  kn_verify_objective : tree;
}.
#[export] Instance eta_campaign_notes : Eta campaign_notes := fun r =>
  CampaignNotes (kn_node_names r) (kn_objective r) (kn_verify_objective r).

(** [CampaignOwner] and [PolicyState], by campaign. *)
Record campaign_ledger := CampaignLedger {
  cl_notes : gmap Z campaign_notes;
  cl_owners : gmap Z Owner;
  cl_states : gmap Z string;
}.
#[export] Instance eta_campaign_ledger : Eta campaign_ledger := fun r =>
  CampaignLedger (cl_notes r) (cl_owners r) (cl_states r).

Definition K := Req campaign_ledger.

(** ** Requests *)
Record CampaignScheduleUpdate := mkScheduleUpdate {
  su_daily_start : string;
  su_daily_end : string;
  su_schedule_timezone : string;
  su_schedule_until : option Z;
  su_window_start : option Z;
  su_window_end : option Z;
}.
Record ValidateRequest := mkValidateRequest {
  vq_configs : list config;
  vq_machine : string;
  vq_hours : Z;
  vq_benchmark_slug : string;
  vq_quality_tasks : list string;
  vq_quality_max_drop : option float;
}.

Definition _FORCE_START_MAX_HOURS : Z := 720.

(** [if campaign.policy_id]. *)
Definition has_policy (c : campaign) : bool :=
  match c_policy_id c with Some pid => negb (pid =? 0) | None => false end.

Definition settable (status : string) : option CampaignStatus :=
  if String.eqb status "active" then Some Active
  else if String.eqb status "paused" then Some Paused
  else if String.eqb status "scheduled" then Some Scheduled
  else if String.eqb status "done" then Some Done else None.

(** The live runs and sessions of a campaign. *)
Definition live_runs_of (db : database) (cid : Z) : list run := where_ (live_run_of cid) (rows_z (d_runs db)).
Definition live_sessions_of (db : database) (cid : Z) : list policy_session :=
  where_ (live_session_of cid) (rows_z (d_sessions db)).

Section steering.
Context `{Env}.
(** Whether a row this model leaves out, a plugin's say, refers to the
    campaign. *)
Context (referred_elsewhere : Z -> bool).

Definition find_campaign (cid : Z) : K campaign :=
  db <- on_rows db_ ;;
  match d_campaigns db !! cid with Some c => ret c | None => deny 404 "no such campaign" end.

(** ** The status *)
Definition set_campaign_status (cid : Z) (status : string) : K unit :=
  match settable status with
  | None => deny 422 "status must be one of active, paused, scheduled, done"
  | Some st =>
      c <- find_campaign cid ;;
      db <- on_rows db_ ;;
      if (st == Done) && ((c_status c == Active)
            || negb (bool_decide (live_runs_of db cid = [])) || negb (bool_decide (live_sessions_of db cid = [])))
      then deny 409 "it is still running: pause or stop it first, then mark it done"
      else if (st == Scheduled) && negb (bool_decide (is_Some (from_campaign c)))
      then deny 409 "this campaign has no nightly schedule to hand control back to"
      else if (st == Active) && has_policy c && negb (bool_decide (is_Some (c_window_end c)))
              && negb (bool_decide (is_Some (from_campaign c)))
      then deny 409 "a policy campaign needs a window"
      else
        on_rows (put_campaign cid (fun c => c <| c_status := st |>)) ;;;
        on_rows (event_ "campaign_status_changed" (Some cid) None)
  end.

(** ** The clock *)
Definition rescheduled (b : CampaignScheduleUpdate) (c : campaign) : campaign :=
  let c := c <| c_daily_start := su_daily_start b |> <| c_daily_end := su_daily_end b |>
             <| c_schedule_timezone := su_schedule_timezone b |> <| c_schedule_until := su_schedule_until b |> in
  let c := if bool_decide (is_Some (su_window_start b)) || bool_decide (is_Some (su_window_end b))
           then c <| c_window_start := su_window_start b |> <| c_window_end := su_window_end b |> else c in
  if bool_decide (is_Some (from_campaign c)) && (c_status c == Draft) then c <| c_status := Scheduled |>
  else if negb (bool_decide (is_Some (from_campaign c))) && (c_status c == Scheduled) then c <| c_status := Paused |>
  else c.

Definition set_schedule (cid : Z) (body : CampaignScheduleUpdate) : K unit :=
  find_campaign cid ;;;
  match errors (su_daily_start body) (su_daily_end body) (su_schedule_timezone body) with
  | _ :: _ => deny 422 "the schedule has mistakes"
  | [] =>
      on_rows (put_campaign cid (rescheduled body)) ;;;
      on_rows (event_ "campaign_schedule_changed" (Some cid) None)
  end.

(** What a reader is told of the clock; the summary is left out. *)
Record ScheduleOut := mkScheduleOut {
  so_daily_start : string;
  so_daily_end : string;
  so_timezone : string;
  so_schedule_until : option Z;
  so_overnight : bool;
  so_window_start : option Z;
  so_window_end : option Z;
  so_current_window : option (Z * Z);
  so_next_window : option (Z * Z);
  so_finished : bool;
}.

Definition get_schedule (cid : Z) : K ScheduleOut :=
  c <- find_campaign cid ;;
  let schedule := from_campaign c in
  moment <- on_rows now ;;
  ret (mkScheduleOut (c_daily_start c) (c_daily_end c) (or_string (c_schedule_timezone c) DEFAULT_TIMEZONE)
         (c_schedule_until c) (match schedule with Some s => crosses_midnight s | None => false end)
         (c_window_start c) (c_window_end c) (current_window moment schedule) (next_window moment schedule)
         (is_finished moment schedule)).

(** ** Running now *)
Definition _require_search_time (c : campaign) (hours : Z) : K unit :=
  let reserve := reserve_minutes c None in
  let per_launch := contender_minutes c in
  if reserve + per_launch <=? hours * 60 then ret tt
  else deny 409 "the window leaves no time to search".

Definition force_start (cid : Z) (hours : option Z) : K unit :=
  if negb (in_bounds 1 _FORCE_START_MAX_HOURS hours) then lift (unprocessable "hours")
  else
    c <- find_campaign cid ;;
    moment <- on_rows now ;;
    let length_ := or_z (default 0 hours) _FORCE_START_MAX_HOURS in
    (if has_policy c then _require_search_time c length_ else ret tt) ;;;
    on_rows (put_campaign cid (open_window moment (length_ * hour))) ;;;
    on_rows (event_ "campaign_force_started" (Some cid) None).

(** ** Validating chosen configurations *)

(** The limits that hold to a number of their own; one that is no mapping has
    no [get]. *)
Definition own_limits (base : tree) : exn + list doc :=
  (fix go (l : list doc) : exn + list doc :=
     match l with
     | [] => inr []
     | Mp r :: rest =>
         match go rest with
         | inl e => inl e
         | inr kept => inr (if match dict_get "relative_to" r with Some d => doc_truthy d | None => false end
                            then kept else Mp r :: kept)
         end
     | _ :: _ => inl (OtherError "no attribute 'get'")
     end) (default [] (listed_under "redlines" base)).

Definition or_tree (a b : tree) : tree := match a with [] => b | _ => a end.

Definition floored (body : ValidateRequest) (n : campaign_notes) : exn + campaign_notes :=
  match vq_quality_max_drop body with
  | None => inr n
  | Some drop =>
      let base := or_tree (kn_verify_objective n) (kn_objective n) in
      match own_limits base with
      | inl e => inl e
      | inr kept =>
          inr (n <| kn_verify_objective :=
                 dict_set "redlines" (Ls (kept ++ map Mp (quality_floor (vq_quality_tasks body) (f_div drop (f_of_Z 100))))) base |>)
      end
  end.

(** The campaign validates with the benchmark that is named, its window open. *)
Definition validating (body : ValidateRequest) (moment : Z) (c : campaign) : campaign :=
  let slug := strip (vq_benchmark_slug body) in
  let c := if String.eqb slug "" then c
           else c <| c_verify_benchmark_slug := slug |>
                  <| c_verify_top_k := Z.max (c_verify_top_k c) (Z.of_nat (length (vq_configs body))) |> in
  open_window moment (vq_hours body * hour) c.

Definition validation_session (sid cid pid moment : Z) (m : machine) : policy_session :=
  (new_session sid cid pid moment) <| ps_machine_id := Some (m_id m) |> <| ps_status := Validating |>
    <| ps_gpu_indices := seqZ 0 (m_gpu_count m) |> <| ps_started_at := Some moment |>.

Definition chosen_contender (sid rank : Z) (cfg : config) : contender :=
  PolicyContender 0 sid rank cfg "" (config_hash cfg) Registered None None None "".

Fixpoint add_chosen (sid rank : Z) (configs : list config) (db : database) : database :=
  match configs with
  | [] => db
  | cfg :: rest =>
      let id := next_key (d_contenders db) in
      add_chosen sid (rank + 1) rest
        (db <| d_contenders ::= <[ id := (chosen_contender sid rank cfg) <| pc_id := id |> ]> |>)
  end.

Definition parse_validate (b : ValidateRequest) : exn + ValidateRequest :=
  if negb ((1 <=? length (vq_configs b)) && (length (vq_configs b) <=? 10))%nat then unprocessable "configs"
  else if negb (in_bounds 1 _FORCE_START_MAX_HOURS (Some (vq_hours b))) then unprocessable "hours"
  else if negb (match vq_quality_max_drop b with Some x => f_leb f_zero x && f_leb x (f_of_Z 100) | None => true end)
  then unprocessable "quality_max_drop"
  else inr b.

Definition owner_or_admin (p : Principal) (c : campaign) : bool :=
  (c_owner_id c =? u_id (pp_user p)) || u_admin (pp_user p).

Definition validate_configs (p : Principal) (cid : Z) (body : ValidateRequest) : K unit :=
  body <- lift (parse_validate body) ;;
  c <- find_campaign cid ;;
  db <- on_rows db_ ;;
  l <- ledger_ ;;
  if negb (owner_or_admin p c) then deny 403 "not your campaign"
  else
    match (if has_policy c then c_policy_id c else None) with
    | None => deny 409 "validation runs in a policy session; this campaign has no policy"
    | Some pid =>
        match live_sessions_of db cid with
        | _ :: _ => deny 409 "a policy session is still live; stop it first"
        | [] =>
            match machine_named db (vq_machine body) with
            | None => deny 404 "no machine of that name"
            | Some m =>
                if negb (m_lease_state m == LeaseActive) then deny 409 "it is not leased"
                else
                  notes <- lift (floored body (default (CampaignNotes [] [] []) (cl_notes l !! cid))) ;;
                  put_ledger (fun l => l <| cl_notes ::= <[ cid := notes <| kn_node_names := [] |> ]> |>) ;;;
                  moment <- on_rows now ;;
                  on_rows (put_campaign cid (validating body moment)) ;;;
                  let sid := next_key (d_sessions db) in
                  on_rows (modify_db (fun db => db <| d_sessions ::= <[ sid := validation_session sid cid pid moment m ]> |>)) ;;;
                  on_rows (modify_db (add_chosen sid 1 (vq_configs body))) ;;;
                  on_rows (event_ "campaign_validation_started" (Some cid) None)
            end
        end
    end.

(** ** Stopping *)

(** A policy that is exploring, and was not asked to finish yet. *)
Definition searching (s : policy_session) : bool :=
  bool_decide (is_Some (ps_first_heartbeat_at s))
  && ((ps_status s == Searching) && negb (bool_decide (is_Some (ps_finalize_requested_at s)))).

(** What becomes of the campaign: over stays over, a night that was not to
    come back is over, the rest is paused. *)
Definition stopped_status (c : campaign) : CampaignStatus :=
  if c_status c == Done then Done
  else if has_policy c && negb (bool_decide (is_Some (from_campaign c))) then Done
  else Paused.

Definition request_stops (cid : Z) (runs : list run) : W unit :=
  for_each runs (fun r => add_event "stop_requested" (Some cid) (Some (r_id r)) None "force stop").

Definition pause_campaign (cid : Z) (c : campaign) : K unit :=
  (if negb (c_status c == Done) && (stopped_status c == Done)
   then on_rows (event_ "campaign_done" (Some cid) None) else ret tt) ;;;
  on_rows (put_campaign cid (fun c => c <| c_status := stopped_status c |> <| c_override_until := None |>)) ;;;
  db <- on_rows db_ ;;
  on_rows (request_stops cid (live_runs_of db cid)) ;;;
  on_rows (event_ "campaign_force_stopped" (Some cid) None).

Definition force_stop (cid : Z) : K unit :=
  c <- find_campaign cid ;;
  db <- on_rows db_ ;;
  match (if has_policy c then head (live_sessions_of db cid) else None) with
  | Some live =>
      if searching live then
        moment <- on_rows now ;;
        on_rows (put_session (ps_id live) (fun s => s <| ps_finalize_requested_at := Some moment |>)) ;;;
        on_rows (event_ "policy_session_finalize_requested" (Some cid) None)
      else
        (if bool_decide (is_Some (ps_abort_requested_at live)) then ret tt
         else
           moment <- on_rows now ;;
           on_rows (put_session (ps_id live) (fun s => s <| ps_abort_requested_at := Some moment |>)) ;;;
           on_rows (event_ "policy_session_abort_requested" (Some cid) None)) ;;;
        pause_campaign cid c
  | None => pause_campaign cid c
  end.

(** ** Queueing failures again *)
Definition runs_of_candidate (db : database) (cid : Z) (cd : candidate) : list run :=
  where_ (fun r => (r_campaign_id r =? cid) && (r_candidate_id r =? cd_id cd)) (rows_z (d_runs db)).

Definition retried (db : database) (cid : Z) (cd : candidate) : bool :=
  if negb (cd_status cd == Exhausted) then false
  else if is_baseline_candidate cd then false
  else if existsb (fun r => r_status r == Succeeded) (runs_of_candidate db cid cd) then false
  else if existsb (fun r => negb (bool_decide (r_status r ∈ [Succeeded; Failed; Killed]))) (runs_of_candidate db cid cd)
  then false
  else true.

Definition requeue (ids : gset Z) (db : database) : database :=
  db <| d_candidates ::= map_imap (fun k cd => Some (if decide (k ∈ ids) then cd <| cd_status := Valid |> else cd)) |>.

Definition retry_failed (cid : Z) : K Z :=
  c <- find_campaign cid ;;
  db <- on_rows db_ ;;
  let again := where_ (retried db cid) (campaign_candidates db cid) in
  on_rows (modify_db (requeue (list_to_set (map cd_id again)))) ;;;
  (if (0 <? Z.of_nat (length again)) && (c_status c == Done)
   then on_rows (put_campaign cid (fun c => c <| c_status := Active |>)) else ret tt) ;;;
  on_rows (event_ "candidates_retried" (Some cid) None) ;;;
  ret (Z.of_nat (length again)).

(** ** Deleting *)

(** The campaign's candidates, its ticket and its place in the queue go, and
    the events of it stay without it. *)
Definition forget_campaign (cid : Z) (db : database) : database :=
  db <| d_candidates ::= filter (fun kv => cd_campaign_id kv.2 <> cid) |>
     <| d_events ::= map (fun e => if e_campaign_id e == Some cid then e <| e_campaign_id := None |> else e) |>
     <| d_tickets ::= filter (fun kv => t_campaign_id kv.2 <> Some cid) |>
     <| d_campaigns ::= delete cid |>.

Definition delete_campaign (p : Principal) (cid : Z) : K unit :=
  c <- find_campaign cid ;;
  db <- on_rows db_ ;;
  if negb (owner_or_admin p c) then deny 403 "only its owner or an admin can delete it"
  else if existsb (fun r => r_campaign_id r =? cid) (rows_z (d_runs db))
          || existsb (fun s => ps_campaign_id s =? cid) (rows_z (d_sessions db))
  then deny 409 "it has run; a campaign with results is kept"
  else
    on_rows (modify_db (forget_campaign cid)) ;;;
    put_ledger (fun l => l <| cl_states ::= delete cid |> <| cl_owners ::= delete cid |> <| cl_notes ::= delete cid |>) ;;;
    on_rows (event_ "campaign_deleted" None None) ;;;
    if referred_elsewhere cid then deny 409 "it is still referred to elsewhere" else ret tt.

(** ** Reading *)
Record QueueOut := mkQueueOut {
  qo_position : Z;
  qo_waiting_for : option WaitingFor;
  qo_reason : string;
  qo_since : Z;
}.
(** [queue_tickets.FRESH]. *)
Definition FRESH : Z := 2 * minute.

(** The first of the lowest positions. *)
Definition foremost (l : list queue_ticket) : option queue_ticket :=
  foldl (fun best t => match best with
                       | Some b => if t_position t <? t_position b then Some t else best
                       | None => Some t
                       end) None l.

Definition _queue_of (cid : Z) : K (option QueueOut) :=
  moment <- on_rows now ;;
  db <- on_rows db_ ;;
  let fresh := where_ (fun t => (t_campaign_id t == Some cid)
                        && ((0 <? t_position t) && (moment - FRESH <=? t_seen_at t))) (rows_z (d_tickets db)) in
  ret ((fun t => mkQueueOut (t_position t) (t_waiting_for t) (t_reason t) (t_issued_at t)) <$> foremost fresh).

Record CandidateOut := mkCandidateOut { co_candidate : candidate; co_cards : Z; co_is_baseline : bool }.

Definition list_candidates (cid : Z) : K (list CandidateOut) :=
  db <- on_rows db_ ;;
  ret (map (fun cd => mkCandidateOut cd
         (if is_in_place_baseline cd then 0
          else match d_campaigns db !! cid with
               | Some c => Placement.config_cards c (cd_config cd)
               | None => cards_used (cd_config cd)
               end) (is_baseline_candidate cd))
       (campaign_candidates db cid)).

(** ** One request after the other *)
Inductive campaign_request :=
| SetCampaignStatus (cid : Z) (status : string)
| SetSchedule (cid : Z) (body : CampaignScheduleUpdate)
| ForceStart (cid : Z) (hours : option Z)
| ValidateConfigs (cid : Z) (body : ValidateRequest)
| ForceStop (cid : Z)
| RetryFailed (cid : Z)
| DeleteCampaign (cid : Z).

Definition about (q : campaign_request) : Z :=
  match q with
  | SetCampaignStatus cid _ | SetSchedule cid _ | ForceStart cid _ | ValidateConfigs cid _
  | ForceStop cid | RetryFailed cid | DeleteCampaign cid => cid
  end.

Definition handle_campaign (p : Principal) (q : campaign_request) : K unit :=
  match q with
  | SetCampaignStatus cid status => set_campaign_status cid status
  | SetSchedule cid body => set_schedule cid body
  | ForceStart cid hours => force_start cid hours
  | ValidateConfigs cid body => validate_configs p cid body
  | ForceStop cid => force_stop cid
  | RetryFailed cid => discard (retry_failed cid)
  | DeleteCampaign cid => delete_campaign p cid
  end.
End steering.
