(* ===== verification/Helm.v ===== *)
(** What steering a campaign does: each request of [Steering], what it leaves
    alone, and what the worker makes of it afterwards. *)
From Stdlib Require Import Ascii.
From S2P Require Import Failures Logs Model States Packing Timing World Samples Occupancy Fleet Exclusive Finish Placement Nights.
From S2P Require Import Reserve Queue Pass Runs Advance Leases Clock Datasets Sessions Ending Tenancy Custody.
From S2P Require Import Prelude Float Values Texts Documents Space Validation Flags Commands ExtraArgs Addresses Recipes.
From S2P Require Import Composition Conversion Scripts Checks Contract Measures Hardware Objectives Judgement Rules Managed Requests Grounds Steering.
#[local] Open Scope string_scope.
#[local] Open Scope list_scope.
#[local] Open Scope Z_scope.

#[local] Abbreviation holdings := (Requests.holdings campaign_ledger).

(** The row of a campaign, changed; the rows of its candidates, its sessions. *)
Definition change_campaign (cid : Z) (f : campaign -> campaign) (x : holdings) : holdings :=
  x <| hd_db ::= fun db => db <| d_campaigns ::= alter f cid |> |>.
Definition change_session (sid : Z) (f : policy_session -> policy_session) (x : holdings) : holdings :=
  x <| hd_db ::= fun db => db <| d_sessions ::= alter f sid |> |>.

Section specs.
Context `{Env}.

Lemma leads_campaign {A} x cid (k : campaign -> K A) post :
  (forall c, d_campaigns (hd_db x) !! cid = Some c -> leads x (k c) post) -> leads x (bind (find_campaign cid) k) post.
Proof.
  intros Hk. eapply (leads_bind _ _ _ (fun c x' => x' = x /\ d_campaigns (hd_db x) !! cid = Some c)).
  - unfold find_campaign. apply leads_db. destruct (d_campaigns (hd_db x) !! cid) eqn:E; [by apply leads_ret|apply leads_raise].
  - intros c x' [-> E]. by apply Hk.
Qed.
Lemma leads_put_campaign {A} x cid f (k : unit -> K A) post :
  leads (change_campaign cid f x) (k tt) post -> leads x (bind (on_rows (put_campaign cid f)) k) post.
Proof. apply leads_modify_db. Qed.
Lemma leads_put_session {A} x sid f (k : unit -> K A) post :
  leads (change_session sid f x) (k tt) post -> leads x (bind (on_rows (put_session sid f)) k) post.
Proof. apply leads_modify_db. Qed.

(** What keeps a status from being set. *)
Definition may_set (db : database) (cid : Z) (c : campaign) (st : CampaignStatus) : Prop :=
  (st = Done -> c_status c <> Active /\ live_runs_of db cid = [] /\ live_sessions_of db cid = []) /\
  (st = Scheduled -> is_Some (from_campaign c)) /\
  (st = Active -> has_policy c = true -> is_Some (c_window_end c) \/ is_Some (from_campaign c)).

Lemma set_campaign_status_leads x cid status :
  leads x (set_campaign_status cid status) (fun _ x' => exists c st l,
    d_campaigns (hd_db x) !! cid = Some c /\ settable status = Some st /\ may_set (hd_db x) cid c st /\
    x' = with_events (change_campaign cid (fun c => c <| c_status := st |>) x) l).
Proof.
  unfold set_campaign_status. destruct (settable status) as [st|] eqn:Est; [|apply leads_raise].
  apply leads_campaign. intros c Hc. apply leads_db.
  destruct (_ && (_ || _)) eqn:E1; [apply leads_raise|]. destruct (_ && negb _) eqn:E2; [apply leads_raise|].
  destruct (_ && _ && _ && _) eqn:E3; [apply leads_raise|].
  apply leads_put_campaign, leads_last, leads_event. intros l. apply leads_ret. exists c, st, l. split_and!; try done.
  split_and!; intros ->.
  - rewrite bool_decide_true in E1 by done. cbn [andb] in E1. rewrite !orb_false_iff, !negb_false_iff, !bool_decide_eq_true, bool_decide_eq_false in E1.
    tauto.
  - rewrite bool_decide_true in E2 by done. cbn [andb] in E2. by apply negb_false_iff, bool_decide_eq_true in E2.
  - intros Hp. rewrite Hp, bool_decide_true in E3 by done. cbn [andb] in E3.
    apply andb_false_iff in E3 as [E3|E3]; apply negb_false_iff, bool_decide_eq_true in E3; eauto.
Qed.

Lemma set_schedule_leads x cid body :
  leads x (set_schedule cid body) (fun _ x' => exists c l,
    d_campaigns (hd_db x) !! cid = Some c /\
    errors (su_daily_start body) (su_daily_end body) (su_schedule_timezone body) = [] /\
    x' = with_events (change_campaign cid (rescheduled body) x) l).
Proof.
  unfold set_schedule. apply leads_campaign. intros c Hc. destruct (errors _ _ _) eqn:E; [|apply leads_raise].
  apply leads_put_campaign, leads_last, leads_event. intros l. apply leads_ret. by exists c, l.
Qed.

Definition enough_time (c : campaign) (hours : Z) : Prop := reserve_minutes c None + contender_minutes c <= hours * 60.

Lemma force_start_leads x cid hours :
  leads x (force_start cid hours) (fun _ x' => exists c t l,
    let n := or_z (default 0 hours) _FORCE_START_MAX_HOURS in
    d_campaigns (hd_db x) !! cid = Some c /\ in_bounds 1 _FORCE_START_MAX_HOURS hours = true /\
    (has_policy c = true -> enough_time c n) /\
    x' = with_events (change_campaign cid (open_window t (n * hour)) x) l).
Proof.
  unfold force_start. destruct (negb _) eqn:Eb; [apply leads_raise|]. apply negb_false_iff in Eb.
  apply leads_campaign. intros c Hc. apply leads_now. intros t. cbv zeta.
  eapply (leads_bind _ _ _ (fun _ x' => x' = x /\ (has_policy c = true -> enough_time c (or_z (default 0 hours) _FORCE_START_MAX_HOURS)))).
  - destruct (has_policy c); [|by apply leads_ret]. unfold _require_search_time.
    destruct (_ <=? _) eqn:E; [|apply leads_raise]. apply Z.leb_le in E. by apply leads_ret.
  - intros [] x' [-> Hp]. apply leads_put_campaign, leads_last, leads_event. intros l. apply leads_ret. by exists c, t, l.
Qed.

Lemma validate_configs_leads x p cid body :
  leads x (validate_configs p cid body) (fun _ x' => exists c pid m notes t l,
    let sid := next_key (d_sessions (hd_db x)) in
    parse_validate body = inr body /\ d_campaigns (hd_db x) !! cid = Some c /\ owner_or_admin p c = true /\
    c_policy_id c = Some pid /\ has_policy c = true /\ live_sessions_of (hd_db x) cid = [] /\
    machine_named (hd_db x) (vq_machine body) = Some m /\ m_lease_state m = LeaseActive /\
    floored body (default (CampaignNotes [] [] []) (cl_notes (hd_ledger x) !! cid)) = inr notes /\
    x' = with_events ((change_campaign cid (validating body t) x)
           <| hd_db ::= fun db => add_chosen sid 1 (vq_configs body) (db <| d_sessions ::= <[ sid := validation_session sid cid pid t m ]> |>) |>
           <| hd_ledger ::= fun l => l <| cl_notes ::= <[ cid := notes <| kn_node_names := [] |> ]> |> |>) l).
Proof.
  unfold validate_configs. apply leads_lift. intros b Hb.
  assert (b = body) as ->. { revert Hb. unfold parse_validate, unprocessable. repeat case_match; congruence. }
  apply leads_campaign. intros c Hc. apply leads_db, leads_ledger.
  destruct (owner_or_admin p c) eqn:Eo; cbn [negb]; [|apply leads_raise].
  destruct (has_policy c) eqn:Ep; [|apply leads_raise]. destruct (c_policy_id c) as [pid|] eqn:Epid; [|apply leads_raise].
  destruct (live_sessions_of _ cid) eqn:El; [|apply leads_raise]. destruct (machine_named _ _) as [m|] eqn:Em; [|apply leads_raise].
  destruct (m_lease_state m == LeaseActive) eqn:Es; cbn [negb]; [|apply leads_raise]. apply bool_decide_eq_true in Es.
  apply leads_lift. intros notes Hn. apply leads_put_ledger, leads_now. intros t. apply leads_put_campaign. cbv zeta.
  apply leads_modify_db, leads_modify_db, leads_last, leads_event. intros l. apply leads_ret.
  exists c, pid, m, notes, t, l. by split_and!.
Qed.

(** ** Stopping *)

(** Exactly these runs were asked to stop. *)
Definition asked (cid : Z) (runs : list run) (l : list event) : Prop :=
  map (fun e => (e_kind e, e_campaign_id e, e_run_id e, e_reason e)) l
  = map (fun r => ("stop_requested", Some cid, Some (r_id r), "force stop")) runs.

Lemma leads_add_event {A} x kind cid rid to reason (k : unit -> K A) post :
  (forall ts, leads (with_events x (d_events (hd_db x) ++ [Event kind ts cid rid to reason])) (k tt) post) ->
  leads x (bind (on_rows (add_event kind cid rid to reason)) k) post.
Proof.
  intros Hk s (E & El). unfold add_event, bind, on_rows, now, call, modify_db, modify. cbn.
  eapply Hk. unfold at_, rows_of in *. cbn. rewrite E. done.
Qed.

Lemma leads_request_stops {A} cid runs (k : unit -> K A) post : forall x,
  (forall l, asked cid runs l -> leads (with_events x (d_events (hd_db x) ++ l)) (k tt) post) ->
  leads x (bind (on_rows (request_stops cid runs)) k) post.
Proof.
  unfold request_stops. induction runs as [|r runs IH]; intros x Hk; cbn [for_each].
  - specialize (Hk [] eq_refl). rewrite app_nil_r in Hk.
    assert (with_events x (d_events (hd_db x)) = x) as E by (unfold with_events; by destruct x as [[] ?]). rewrite E in Hk.
    intros [] Hs. exact (Hk _ Hs).
  - intros s Hs.
    pose proof (leads_add_event x "stop_requested" (Some cid) (Some (r_id r)) None "force stop"
      (fun _ => bind (on_rows (for_each runs (fun r => add_event "stop_requested" (Some cid) (Some (r_id r)) None "force stop"))) k) post) as Hl.
    assert (forall ts, leads (with_events x (d_events (hd_db x) ++ [Event "stop_requested" ts (Some cid) (Some (r_id r)) None "force stop"]))
      (bind (on_rows (for_each runs (fun r => add_event "stop_requested" (Some cid) (Some (r_id r)) None "force stop"))) k) post) as Hr.
    { intros ts. apply IH. intros l Hl'. cbn. rewrite <-app_assoc. apply (Hk (_ :: l)). unfold asked. cbn. f_equal. exact Hl'. }
    specialize (Hl Hr s Hs). unfold on_rows, bind in *. cbn in *. exact Hl.
Qed.

(** Events that ask nothing of a run. *)
Definition no_run (l : list event) : Prop := Forall (fun e => e_run_id e = None) l.

(** The session is told to end; the row, put aside. *)
Definition aborting (x : holdings) (live : policy_session) (x1 : holdings) : Prop :=
  match ps_abort_requested_at live with
  | Some _ => x1 = x
  | None => exists t l, no_run l /\ x1 = with_events (change_session (ps_id live) (fun s => s <| ps_abort_requested_at := Some t |>) x) (d_events (hd_db x) ++ l)
  end.
Definition put_aside (c : campaign) : campaign := c <| c_status := stopped_status c |> <| c_override_until := None |>.

Lemma pause_campaign_leads x cid c :
  leads x (pause_campaign cid c) (fun _ x' => exists pre asks post,
    asked cid (live_runs_of (hd_db x) cid) asks /\ no_run pre /\ no_run post /\
    x' = with_events (change_campaign cid put_aside x) (d_events (hd_db x) ++ pre ++ asks ++ post)).
Proof.
  unfold pause_campaign.
  eapply (leads_bind _ _ _ (fun _ x1 => exists pre, no_run pre /\ x1 = with_events x (d_events (hd_db x) ++ pre))).
  - destruct (_ && _); [|apply leads_ret; exists []; split; [constructor|rewrite app_nil_r; unfold with_events; by destruct x as [[] ?]]].
    unfold event_. apply leads_last, leads_add_event. intros ts. apply leads_ret. eexists. split; [|done]. by repeat constructor.
  - intros [] x1 (pre & Hpre & ->). apply leads_put_campaign, leads_db, leads_request_stops. intros asks Ha.
    unfold event_. apply leads_last, leads_add_event. intros ts. apply leads_ret. exists pre, asks. eexists. split; [exact Ha|]. split; [exact Hpre|].
    split; [|cbn; by rewrite <-!app_assoc]. by repeat constructor.
Qed.

Inductive stop_outcome (cid : Z) (c : campaign) (x : holdings) : holdings -> Prop :=
| stop_told live t l :
    has_policy c = true -> head (live_sessions_of (hd_db x) cid) = Some live -> searching live = true ->
    stop_outcome cid c x (with_events (change_session (ps_id live) (fun s => s <| ps_finalize_requested_at := Some t |>) x) l)
| stop_aborted live x1 pre asks post :
    has_policy c = true -> head (live_sessions_of (hd_db x) cid) = Some live -> searching live = false -> aborting x live x1 ->
    asked cid (live_runs_of (hd_db x) cid) asks -> no_run pre -> no_run post ->
    stop_outcome cid c x (with_events (change_campaign cid put_aside x1) (d_events (hd_db x1) ++ pre ++ asks ++ post))
| stop_paused pre asks post :
    (has_policy c = true -> live_sessions_of (hd_db x) cid = []) -> asked cid (live_runs_of (hd_db x) cid) asks -> no_run pre -> no_run post ->
    stop_outcome cid c x (with_events (change_campaign cid put_aside x) (d_events (hd_db x) ++ pre ++ asks ++ post)).

Lemma force_stop_leads x cid :
  leads x (force_stop cid) (fun _ x' => exists c, d_campaigns (hd_db x) !! cid = Some c /\ stop_outcome cid c x x').
Proof.
  unfold force_stop. apply leads_campaign. intros c Hc. apply leads_db.
  destruct (has_policy c) eqn:Ep; [destruct (live_sessions_of (hd_db x) cid) as [|live rest] eqn:El; cbn [head]|].
  1, 3: eapply leads_weaken; [apply pause_campaign_leads|]; intros _ x' (pre & asks & post & Ha & Hpre & Hpost & ->);
    exists c; split; [done|]; apply stop_paused; congruence || done.
  destruct (searching live) eqn:Es.
  - apply leads_now. intros t. apply leads_put_session, leads_last, leads_event. intros l. apply leads_ret.
    exists c. split; [done|]. apply stop_told; [done|by rewrite El|done].
  - eapply (leads_bind _ _ _ (fun _ x1 => aborting x live x1)).
    + unfold aborting. destruct (ps_abort_requested_at live) as [t0|]; [by apply leads_ret|].
      apply leads_now. intros t. unfold event_. apply leads_put_session, leads_last, leads_add_event. intros ts. apply leads_ret.
      eexists t, _. split; [|done]. by repeat constructor.
    + intros [] x1 Hx1. eapply leads_weaken; [apply pause_campaign_leads|]. intros _ x' (pre & asks & post & Ha & Hpre & Hpost & ->).
      exists c. split; [done|]. eapply stop_aborted; [done|by rewrite El|done|exact Hx1| |done|done].
      replace (live_runs_of (hd_db x) cid) with (live_runs_of (hd_db x1) cid); [done|].
      unfold live_runs_of. f_equal. f_equal. revert Hx1. unfold aborting. destruct (ps_abort_requested_at live); [by intros ->|].
      by intros (t & l & _ & ->).
Qed.

(** ** Queueing again, deleting *)
Lemma retry_failed_leads x cid :
  leads x (retry_failed cid) (fun n x' => exists c l,
    let again := where_ (retried (hd_db x) cid) (campaign_candidates (hd_db x) cid) in
    d_campaigns (hd_db x) !! cid = Some c /\ n = Z.of_nat (length again) /\
    x' = with_events (change_campaign cid (fun c => if (0 <? n) && (c_status c == Done) then c <| c_status := Active |> else c)
           (x <| hd_db ::= requeue (list_to_set (map cd_id again)) |>)) l).
Proof.
  unfold retry_failed. apply leads_campaign. intros c Hc. apply leads_db. cbv zeta.
  set (again := where_ _ _). apply leads_modify_db.
  eapply (leads_bind _ _ _ (fun _ x1 => x1 = change_campaign cid
     (fun c => if (0 <? Z.of_nat (length again)) && (c_status c == Done) then c <| c_status := Active |> else c)
     (x <| hd_db ::= requeue (list_to_set (map cd_id again)) |>))).
  - assert (forall f, f c = (if (0 <? Z.of_nat (length again)) && (c_status c == Done) then c <| c_status := Active |> else c) ->
      change_campaign cid f (x <| hd_db ::= requeue (list_to_set (map cd_id again)) |>)
      = change_campaign cid (fun c => if (0 <? Z.of_nat (length again)) && (c_status c == Done) then c <| c_status := Active |> else c)
          (x <| hd_db ::= requeue (list_to_set (map cd_id again)) |>)) as Hf.
    { intros f Ef. unfold change_campaign. destruct x as [db l0]. unfold update_field. cbn. f_equal. unfold update_field, eta_database. cbn. f_equal.
      apply map_eq. intros k. destruct (decide (cid = k)) as [<-|]; [|by rewrite !lookup_alter_ne].
      rewrite !lookup_alter_eq. cbn in Hc. rewrite Hc. cbn. by rewrite Ef. }
    destruct (_ && _) eqn:E.
    + apply leads_last, leads_put_campaign, leads_ret. apply Hf. done.
    + apply leads_ret. rewrite <-(Hf id) by done. unfold change_campaign. destruct x as [db l0]. unfold update_field. cbn. f_equal.
      unfold update_field, eta_database, requeue. destruct db. cbn. f_equal. by rewrite alter_id.
  - intros [] x1 ->. apply leads_event. intros l. apply leads_ret. by exists c, l.
Qed.

Lemma delete_campaign_leads (referred_elsewhere : Z -> bool) x p cid :
  leads x (delete_campaign referred_elsewhere p cid) (fun _ x' => exists c l,
    d_campaigns (hd_db x) !! cid = Some c /\ owner_or_admin p c = true /\ referred_elsewhere cid = false /\
    (forall k r, d_runs (hd_db x) !! k = Some r -> r_campaign_id r <> cid) /\
    (forall k s, d_sessions (hd_db x) !! k = Some s -> ps_campaign_id s <> cid) /\
    x' = (x <| hd_db ::= fun db => (forget_campaign cid db) <| d_events := l |> |>)
           <| hd_ledger ::= fun l => l <| cl_states ::= delete cid |> <| cl_owners ::= delete cid |> <| cl_notes ::= delete cid |> |> /\
    exists t, l = d_events (forget_campaign cid (hd_db x)) ++ [Event "campaign_deleted" t None None None ""]).
Proof.
  unfold delete_campaign. apply leads_campaign. intros c Hc. apply leads_db.
  destruct (owner_or_admin p c) eqn:Eo; cbn [negb]; [|apply leads_raise].
  destruct (_ || _) eqn:E; [apply leads_raise|]. apply orb_false_iff in E as [Er Es].
  apply leads_modify_db, leads_put_ledger. unfold event_. apply leads_add_event. intros t.
  destruct (referred_elsewhere cid) eqn:Ee; [apply leads_raise|]. apply leads_ret.
  eexists c, _. split_and!; try done; [| |by eexists].
  - intros k r Hr Hcid. apply not_true_iff_false in Er. apply Er, existsb_exists. exists r.
    split; [apply list_elem_of_In, elem_of_rows_z; eauto|by apply Z.eqb_eq].
  - intros k s Hr Hcid. apply not_true_iff_false in Es. apply Es, existsb_exists. exists s.
    split; [apply list_elem_of_In, elem_of_rows_z; eauto|by apply Z.eqb_eq].
Qed.
End specs.

(** ** Running now *)
Section now_running.
Context `{Env}.

(** The cards of a campaign's recipe do not depend on its clock. *)
Definition recipe_ignores_clock : Prop := forall t l c,
  recipe_gpus (open_window t l c) = recipe_gpus c /\
  forall cfg, recipe_total_gpus (open_window t l c) cfg = recipe_total_gpus c cfg.

Lemma config_cards_of_window t l c cfg : recipe_ignores_clock -> Placement.config_cards (open_window t l c) cfg = Placement.config_cards c cfg.
Proof. intros Hr. unfold Placement.config_cards. by rewrite (proj2 (Hr t l c)). Qed.
Lemma reserve_of_window t l c : recipe_ignores_clock -> reserve_minutes (open_window t l c) None = reserve_minutes c None.
Proof.
  intros Hr. unfold reserve_minutes, validation_rounds, side_by_side, gpu_budget, per_launch, campaign_widest_cards.
  rewrite config_cards_of_window by done. rewrite (proj1 (Hr t l c)).
  rewrite (map_ext (Placement.config_cards (open_window t l c)) (Placement.config_cards c)); [done|].
  intros cfg. by apply config_cards_of_window.
Qed.
Lemma hours_given hours : in_bounds 1 _FORCE_START_MAX_HOURS hours = true ->
  or_z (default 0 hours) _FORCE_START_MAX_HOURS = default 720 hours /\ 1 <= default 720 hours <= 720.
Proof.
  unfold in_bounds, _FORCE_START_MAX_HOURS, or_z. destruct hours as [n|]; cbn; [|done].
  intros [H1%Z.leb_le H2%Z.leb_le]%andb_true_iff. destruct (Z.eqb_spec n 0); lia.
Qed.

Lemma row_changed {A} (t : gmap Z A) k f a : t !! k = Some a -> alter f k t !! k = Some (f a).
Proof. intros Hk. by rewrite lookup_alter_eq, Hk. Qed.

(** C33: A campaign that is started by hand outside its nights runs, and a policy has time to search.  Starting one that
    is there is refused only for a number of hours out of bounds, or for a policy whose night would leave no time to
    search before its validations, and then nothing changes.  Otherwise it is active from now until the hours are
    over; until then the worker's clock leaves its row alone, whatever its schedule says; and the search of a policy
    campaign does not end before one launch could be measured.  Merely set active outside its nights, it would be put
    back to sleep at once. *)
Theorem force_start_runs_now cid hours s c :
  recipe_ignores_clock -> d_campaigns (rows_of s) !! cid = Some c ->
  let n := default 720 hours in
  let t := clock (w_calls (o_world s)) in
  let '(r, s') := answered (force_start cid hours) s in
  (r = inr tt <-> 1 <= n <= 720 /\ (has_policy c = true -> enough_time c n)) /\
  (r <> inr tt -> holdings_of s' = holdings_of s) /\
  (r = inr tt -> exists c', d_campaigns (rows_of s') !! cid = Some c' /\ c_status c' = Active /\
     c_window_start c' = Some t /\ c_window_end c' = Some (t + n * hour) /\ from_campaign c' = from_campaign c /\
     (forall moment, moment < t + n * hour -> woken moment c' = c') /\
     (has_policy c = true -> exists stop, search_deadline c' None = Some stop /\ t + contender_minutes c * minute <= stop)) /\
  (forall moment, from_campaign c <> None -> current_window moment (from_campaign c) = None ->
     c_status (woken moment (c <| c_status := Active |> <| c_override_until := None |>)) <> Active).
Proof.
  intros Hrc Hc. cbv zeta. set (n := default 720 hours). set (t := clock _).
  destruct (answered (force_start cid hours) s) as [r s'] eqn:Ha. revert Ha.
  unfold answered, force_start, find_campaign, bind, on_rows, db_, gets.
  assert (forall moment, from_campaign c <> None -> current_window moment (from_campaign c) = None ->
     c_status (woken moment (c <| c_status := Active |> <| c_override_until := None |>)) <> Active) as Hasleep.
  { intros moment Hs Hw. change (woken moment _) with (clocked moment (c <| c_status := Active |> <| c_override_until := None |>)).
    unfold clocked. change (from_campaign (c <| c_status := Active |> <| c_override_until := None |>)) with (from_campaign c).
    destruct (from_campaign c) as [sc|]; [|done]. rewrite Hw. rewrite bool_decide_true by done. by destruct (is_finished moment (Some sc)). }
  destruct (in_bounds 1 _FORCE_START_MAX_HOURS hours) eqn:Eb; cbn [negb].
  2: { intros [= <- <-]. split_and!; try done. split; [done|]. intros [Hn _]. exfalso. revert Eb. subst n.
       unfold in_bounds, _FORCE_START_MAX_HOURS. destruct hours as [k|]; [|done]. cbn in Hn. intros [E|E]%andb_false_iff; apply Z.leb_gt in E; lia. }
  destruct (hours_given hours Eb) as [-> Hn]. fold n in Hn |- *. cbv beta iota zeta. change (w_db (o_world s)) with (rows_of s). rewrite Hc. unfold ret at 1, now, call. cbv beta iota.
  unfold _require_search_time. destruct (has_policy c) eqn:Ep.
  - destruct (reserve_minutes c None + contender_minutes c <=? n * 60) eqn:Et.
    2: { cbn. intros [= <- <-]. split_and!; try done. split; [done|]. intros [_ He]. apply Z.leb_gt in Et. specialize (He eq_refl). unfold enough_time in He. lia. }
    apply Z.leb_le in Et. cbn. intros [= <- <-]. split; [by split|]. split; [done|]. split; [|done]. intros _.
    exists (open_window t (n * hour) c). split; [apply (row_changed _ _ _ _ Hc)|].
    split_and!; try done.
    + intros moment Hm. unfold woken. cbn. by rewrite (proj2 (Z.ltb_lt _ _)).
    + intros _. exists (t + n * hour - reserve_minutes (open_window t (n * hour) c) None * minute). split; [done|].
      rewrite reserve_of_window by done. unfold hour, minute in *. lia.
  - cbn. intros [= <- <-]. split; [by split|]. split; [done|]. split; [|done]. intros _.
    exists (open_window t (n * hour) c). split; [apply (row_changed _ _ _ _ Hc)|].
    split_and!; try done. intros moment Hm. unfold woken. cbn. by rewrite (proj2 (Z.ltb_lt _ _)).
Qed.
End now_running.

(** ** What is left alone *)

(** Nothing of the fleet, of what was measured or of another campaign; the
    campaign's own sessions are not replaced, its contenders stay as declared. *)
Record untouched (cid : Z) (x x' : holdings) : Prop := {
  un_machines : d_machines (hd_db x') = d_machines (hd_db x);
  un_members : d_groups (hd_db x') = d_groups (hd_db x) /\ d_members (hd_db x') = d_members (hd_db x) /\
               d_clusters (hd_db x') = d_clusters (hd_db x);
  un_runs : d_runs (hd_db x') = d_runs (hd_db x) /\ d_nodes (hd_db x') = d_nodes (hd_db x) /\ d_results (hd_db x') = d_results (hd_db x);
  un_keys : d_api_keys (hd_db x') = d_api_keys (hd_db x) /\ d_policies (hd_db x') = d_policies (hd_db x) /\
            d_baselines (hd_db x') = d_baselines (hd_db x) /\ d_datasets (hd_db x') = d_datasets (hd_db x);
  un_campaigns k : k <> cid -> d_campaigns (hd_db x') !! k = d_campaigns (hd_db x) !! k;
  un_candidates k cd : cd_campaign_id cd <> cid -> d_candidates (hd_db x) !! k = Some cd -> d_candidates (hd_db x') !! k = Some cd;
  un_no_candidate k : d_candidates (hd_db x) !! k = None -> d_candidates (hd_db x') !! k = None;
  un_sessions k s : d_sessions (hd_db x) !! k = Some s -> exists s', d_sessions (hd_db x') !! k = Some s' /\
     ps_campaign_id s' = ps_campaign_id s /\ ps_status s' = ps_status s /\ (ps_campaign_id s <> cid -> s' = s);
  un_new_session k s' : d_sessions (hd_db x') !! k = Some s' -> d_sessions (hd_db x) !! k = None ->
     ps_campaign_id s' = cid /\ live_sessions_of (hd_db x) cid = [];
  un_one_session k1 k2 : d_sessions (hd_db x) !! k1 = None -> d_sessions (hd_db x) !! k2 = None ->
     is_Some (d_sessions (hd_db x') !! k1) -> is_Some (d_sessions (hd_db x') !! k2) -> k1 = k2;
  un_contenders k pc : d_contenders (hd_db x) !! k = Some pc -> d_contenders (hd_db x') !! k = Some pc;
  un_ledger k : k <> cid -> cl_notes (hd_ledger x') !! k = cl_notes (hd_ledger x) !! k /\
     cl_owners (hd_ledger x') !! k = cl_owners (hd_ledger x) !! k /\ cl_states (hd_ledger x') !! k = cl_states (hd_ledger x) !! k;
}.

Lemma untouched_refl cid x : untouched cid x x.
Proof.
  split; try done; try (by intros; congruence).
  - intros k s Hs. by exists s.
  - intros k1 k2 H1 _ [s Hs]. congruence.
Qed.
(** The campaign's row is changed last. *)
Lemma untouched_then_campaign cid f l x x1 : untouched cid x x1 -> untouched cid x (with_events (change_campaign cid f x1) l).
Proof.
  intros [H1 H2 H3 H4 H5 H6 H7 H8 H9 H10 H11 H12]. split; try assumption.
  intros k Hk. cbn. rewrite lookup_alter_ne by done. by apply H5.
Qed.
Lemma untouched_by_campaign cid f l x : untouched cid x (with_events (change_campaign cid f x) l).
Proof. apply untouched_then_campaign, untouched_refl. Qed.
Lemma untouched_by_session cid live f l x :
  sessions_keyed (hd_db x) -> live ∈ live_sessions_of (hd_db x) cid ->
  (forall s, ps_campaign_id (f s) = ps_campaign_id s /\ ps_status (f s) = ps_status s) ->
  untouched cid x (with_events (change_session (ps_id live) f x) l).
Proof.
  intros Hk Hl Hf. apply elem_of_where in Hl as [Hl Hrow]. apply elem_of_rows_z in Hl as [k0 Hk0].
  pose proof (Hk _ _ Hk0) as E0. subst k0. unfold live_session_of in Hrow. apply andb_true_iff in Hrow as [Hc%Z.eqb_eq _].
  split; cbn; try done.
  - intros k s Hs. destruct (decide (k = ps_id live)) as [->|Hne].
    + exists (f s). rewrite (row_changed _ _ _ _ Hs). destruct (Hf s) as [E1 E2]. split_and!; try done.
      intros Hn. assert (s = live) by congruence. congruence.
    + exists s. by rewrite lookup_alter_ne.
  - intros k s' Hs' Hn.
    assert (alter f (ps_id live) (d_sessions (hd_db x)) !! k = None) as Hn' by (by apply lookup_alter_None). congruence.
  - intros k1 k2 H1 _ [s Hs]. assert (alter f (ps_id live) (d_sessions (hd_db x)) !! k1 = None) as Hn' by (by apply lookup_alter_None). congruence.
Qed.

Lemma add_chosen_rows `{Env} sid configs : forall rank db,
  d_sessions (add_chosen sid rank configs db) = d_sessions db /\
  add_chosen sid rank configs db = db <| d_contenders := d_contenders (add_chosen sid rank configs db) |> /\
  forall k pc, d_contenders db !! k = Some pc -> d_contenders (add_chosen sid rank configs db) !! k = Some pc.
Proof.
  induction configs as [|cfg configs IH]; intros rank db; cbn [add_chosen]; [split_and!; [done|by destruct db|done]|].
  destruct (IH (rank + 1) (db <| d_contenders ::= <[ next_key (d_contenders db) :=
    (chosen_contender sid rank cfg) <| pc_id := next_key (d_contenders db) |> ]> |>)) as (E1 & E2 & E3).
  split_and!; [exact E1|rewrite E2; by destruct db|]. intros k pc Hk. apply E3. cbn. rewrite lookup_insert_ne; [done|].
  intros <-. by rewrite next_key_fresh in Hk.
Qed.

Section frame.
Context `{Env} (referred_elsewhere : Z -> bool).

Lemma validation_untouched x cid body t m pid notes l :
  live_sessions_of (hd_db x) cid = [] ->
  untouched cid x (with_events ((change_campaign cid (validating body t) x)
    <| hd_db ::= fun db => add_chosen (next_key (d_sessions (hd_db x))) 1 (vq_configs body)
         (db <| d_sessions ::= <[ next_key (d_sessions (hd_db x)) := validation_session (next_key (d_sessions (hd_db x))) cid pid t m ]> |>) |>
    <| hd_ledger ::= fun l => l <| cl_notes ::= <[ cid := notes ]> |> |>) l).
Proof.
  intros Hlive. set (sid := next_key (d_sessions (hd_db x))).
  set (db1 := (hd_db (change_campaign cid (validating body t) x)) <| d_sessions ::= <[ sid := validation_session sid cid pid t m ]> |>).
  destruct (add_chosen_rows sid (vq_configs body) 1 db1) as (_ & E & Hc).
  match goal with |- untouched _ _ ?y => set (x' := y) end.
  assert (hd_db x' = (add_chosen sid 1 (vq_configs body) db1) <| d_events := l |>) as Ex by done.
  rewrite E in Ex. split; rewrite ?Ex; cbn; try done.
  - intros k Hk. by rewrite lookup_alter_ne.
  - intros k s Hs. exists s. rewrite lookup_insert_ne; [done|]. intros <-. unfold sid in Hs. by rewrite next_key_fresh in Hs.
  - intros k s'. rewrite lookup_insert_Some. intros [[<- <-]|[_ Hk]] Hn; [done|congruence].
  - intros k1 k2 H1 H2. rewrite !lookup_insert_is_Some'. intros [<-|[s1 E1]] [<-|[s2 E2]]; congruence.
  - intros k Hk. by rewrite lookup_insert_ne.
Qed.

Lemma handler_untouched p q x :
  sessions_keyed (hd_db x) -> keyed (hd_db x) -> leads x (handle_campaign referred_elsewhere p q) (fun _ x' => untouched (about q) x x').
Proof.
  intros Hkeyed [_ Hcands]. destruct q as [cid status|cid body|cid hours|cid body|cid|cid|cid]; cbn [handle_campaign about].
  - eapply leads_weaken; [apply set_campaign_status_leads|]. intros _ x' (c & st & l & _ & _ & _ & ->). apply untouched_by_campaign.
  - eapply leads_weaken; [apply set_schedule_leads|]. intros _ x' (c & l & _ & _ & ->). apply untouched_by_campaign.
  - eapply leads_weaken; [apply force_start_leads|]. intros _ x' (c & t & l & _ & _ & _ & ->). apply untouched_by_campaign.
  - eapply leads_weaken; [apply validate_configs_leads|].
    intros _ x' (c & pid & m & notes & t & l & _ & _ & _ & _ & _ & Hlive & _ & _ & _ & ->). by apply validation_untouched.
  - eapply leads_weaken; [apply force_stop_leads|]. intros _ x' (c & _ & Hout).
    destruct Hout as [live t l _ Hl _|live x1 pre asks post _ Hl _ Hx1 _ _ _|pre asks post _ _ _ _]; [| |apply untouched_by_campaign].
    + apply untouched_by_session; [done|by apply head_Some_elem_of|done].
    + apply untouched_then_campaign. revert Hx1. unfold aborting.
      destruct (ps_abort_requested_at live); [intros ->; apply untouched_refl|intros (t & l & _ & ->)].
      apply untouched_by_session; [done|by apply head_Some_elem_of|done].
  - eapply leads_bind; [apply retry_failed_leads|]. intros n x' (c & l & _ & _ & ->). apply leads_ret.
    apply untouched_then_campaign. pose proof (untouched_refl cid x) as [H1 H2 H3 H4 H5 H6 H7 H8 H9 H10 H11 H12].
    split; try assumption; cbn.
    + intros k cd Hne Hk. rewrite map_lookup_imap, Hk. cbn. case_decide as Hin; [|done]. exfalso.
      apply elem_of_list_to_set, list_elem_of_fmap in Hin as (cd' & -> & [Hin _]%elem_of_where).
      apply elem_of_where in Hin as [[k' Hk']%elem_of_rows_z Hcid%Z.eqb_eq]. pose proof (Hcands _ _ Hk') as <-. congruence.
    + intros k Hk. by rewrite map_lookup_imap, Hk.
  - eapply leads_weaken; [apply delete_campaign_leads|]. intros _ x' (c & l & _ & _ & _ & _ & _ & -> & _).
    pose proof (untouched_refl cid x) as [H1 H2 H3 H4 H5 H6 H7 H8 H9 H10 H11 H12]. split; try assumption; cbn.
    + intros k Hk. by rewrite lookup_delete_ne.
    + intros k cd Hne Hk. by apply map_lookup_filter_Some.
    + intros k Hk. apply map_lookup_filter_None. by left.
    + intros k Hk. by rewrite !lookup_delete_ne.
Qed.
End frame.

Section safety.
Context `{Env} (referred_elsewhere : Z -> bool).
Context (digest : string -> string) (active : api_key -> bool) (jwt_subject : string -> option Z) (users : gmap Z User).

(** At most one night of a campaign is under way. *)
Definition one_night (db : database) : Prop :=
  forall k1 k2 s1 s2, d_sessions db !! k1 = Some s1 -> d_sessions db !! k2 = Some s2 ->
    terminal_session (ps_status s1) = false -> terminal_session (ps_status s2) = false ->
    ps_campaign_id s1 = ps_campaign_id s2 -> k1 = k2.

Lemma untouched_one_night cid x x' : untouched cid x x' -> one_night (hd_db x) -> one_night (hd_db x').
Proof.
  intros Hu H1 k1 k2 s1 s2 E1 E2 L1 L2 Ec.
  assert (forall k s', d_sessions (hd_db x') !! k = Some s' -> terminal_session (ps_status s') = false ->
    (exists s, d_sessions (hd_db x) !! k = Some s /\ terminal_session (ps_status s) = false /\ ps_campaign_id s = ps_campaign_id s') \/
    (d_sessions (hd_db x) !! k = None /\ ps_campaign_id s' = cid /\ live_sessions_of (hd_db x) cid = [])) as Hcase.
  { intros k s' Hs' Hl. destruct (d_sessions (hd_db x) !! k) as [s|] eqn:Hs.
    - left. destruct (un_sessions _ _ _ Hu _ _ Hs) as (s2' & Hs2 & C & S & _). exists s. assert (s2' = s') as -> by congruence. split_and!; congruence.
    - right. split; [done|]. by apply (un_new_session _ _ _ Hu k). }
  assert (forall k s, d_sessions (hd_db x) !! k = Some s -> terminal_session (ps_status s) = false -> ps_campaign_id s = cid ->
    live_sessions_of (hd_db x) cid <> []) as Hlive.
  { intros k s Hs Hl Hc Hnil. assert (s ∈ live_sessions_of (hd_db x) cid) as Hin; [|rewrite Hnil in Hin; by apply not_elem_of_nil in Hin].
    apply elem_of_where. split; [apply elem_of_rows_z; eauto|]. unfold live_session_of. by rewrite Hl, (proj2 (Z.eqb_eq _ _) Hc). }
  destruct (Hcase _ _ E1 L1) as [(r1 & R1 & T1 & C1)|(N1 & C1 & Z1)], (Hcase _ _ E2 L2) as [(r2 & R2 & T2 & C2)|(N2 & C2 & Z2)].
  - eapply H1; [exact R1|exact R2|done|done|congruence].
  - destruct (Hlive _ _ R1 T1); [congruence|done].
  - destruct (Hlive _ _ R2 T2); [congruence|done].
  - by eapply (un_one_session _ _ _ Hu); [done|done|exists s1|exists s2].
Qed.

(** C30: Steering a campaign touches only that campaign.  Whatever is asked of it, by whomever: a request that is refused
    changes nothing, and one that is granted changes no machine, group, run, node, result or key, no other campaign,
    no candidate, session or contender of another campaign and none of the plugins' claims on others; it replaces no
    session and no contender, makes no candidate, and starts a session only where none of the campaign's is live, so
    that at most one night of a campaign is under way if that was so before. *)
Theorem steering_stays_in_its_campaign c q s :
  sessions_keyed (rows_of s) -> keyed (rows_of s) ->
  let '(r, s') := serve_request digest active jwt_subject users AnyUser c
                    (fun p => handle_campaign referred_elsewhere p q) s in
  untouched (about q) (holdings_of s) (holdings_of s') /\ (forall e, r = inl e -> holdings_of s' = holdings_of s) /\
  (one_night (rows_of s) -> one_night (rows_of s')).
Proof.
  intros Hk1 Hk2.
  pose proof (served digest active jwt_subject users AnyUser c (fun p => handle_campaign referred_elsewhere p q)
    (untouched (about q) (holdings_of s)) s (fun p => handler_untouched referred_elsewhere p q (holdings_of s) Hk1 Hk2)) as Hs.
  destruct (serve_request _ _ _ _ _ _ _ s) as [[e|[]] s'].
  - rewrite Hs. split; [apply untouched_refl|]. split; [done|]. intros Hn. change (one_night (hd_db (holdings_of s'))). by rewrite Hs.
  - split; [exact Hs|]. split; [done|]. exact (untouched_one_night _ _ _ Hs).
Qed.
End safety.
