(* ===== verification/Courses.v ===== *)
(** Where a steered campaign goes: the configurations that are validated, the
    runs that are stopped, the candidates that wait again and the campaign that
    is deleted, on the specifications of [Helm]; with what the worker does next. *)
From Stdlib Require Import Ascii.
From S2P Require Import Failures Logs Model States Packing Timing World Samples Occupancy Fleet Exclusive Finish Placement Nights.
From S2P Require Import Reserve Queue Pass Runs Advance Leases Clock Datasets Sessions Ending Tenancy Custody Tick.
From S2P Require Import Prelude Float Values Texts Documents Space Validation Flags Commands ExtraArgs Addresses Recipes.
From S2P Require Import Composition Conversion Scripts Checks Contract Measures Hardware Objectives Judgement Rules Managed Requests Grounds Steering Helm.
#[local] Open Scope string_scope.
#[local] Open Scope list_scope.
#[local] Open Scope Z_scope.

(** ** Deleting *)
Section deleting.
Context (referred_elsewhere : Z -> bool).

(** A campaign is deleted only before it ran, by its owner or an administrator, and without a trace.  If deleting is
    granted, the campaign has no run and no session and nothing else refers to it; afterwards its candidates, its
    place in the queue, what plugins and policies kept of it are gone with it, no event names it any more though
    every event is still there, and every other campaign, candidate and row is as it was.  If it is refused, nothing
    changes. *)
Theorem deletion_leaves_no_trace `{Env} p cid s :
  let '(r, s') := answered (delete_campaign referred_elsewhere p cid) s in
  let db := rows_of s in let db' := rows_of s' in
  match r with
  | inl _ => holdings_of s' = holdings_of s
  | inr _ =>
      (exists c, d_campaigns db !! cid = Some c /\ (c_owner_id c = u_id (pp_user p) \/ u_admin (pp_user p) = true)) /\
      referred_elsewhere cid = false /\
      (forall k r, d_runs db !! k = Some r -> r_campaign_id r <> cid) /\
      (forall k s, d_sessions db !! k = Some s -> ps_campaign_id s <> cid) /\
      d_campaigns db' = delete cid (d_campaigns db) /\
      (forall k cd, d_candidates db' !! k = Some cd <-> d_candidates db !! k = Some cd /\ cd_campaign_id cd <> cid) /\
      (forall k t, d_tickets db' !! k = Some t <-> d_tickets db !! k = Some t /\ t_campaign_id t <> Some cid) /\
      (forall e, e ∈ d_events db' -> e_campaign_id e <> Some cid) /\
      (forall e, e ∈ d_events db -> exists e', e' ∈ d_events db' /\ e_kind e' = e_kind e /\ e_run_id e' = e_run_id e /\
         (e_campaign_id e <> Some cid -> e' = e)) /\
      (forall k, let l := o_ledger s in let l' := o_ledger s' in
         if decide (k = cid) then cl_notes l' !! k = None /\ cl_owners l' !! k = None /\ cl_states l' !! k = None
         else cl_notes l' !! k = cl_notes l !! k /\ cl_owners l' !! k = cl_owners l !! k /\ cl_states l' !! k = cl_states l !! k) /\
      db' = db <| d_campaigns := d_campaigns db' |> <| d_candidates := d_candidates db' |>
               <| d_tickets := d_tickets db' |> <| d_events := d_events db' |>
  end.
Proof.
  pose proof (answered_leads _ _ s (delete_campaign_leads referred_elsewhere (holdings_of s) p cid)) as Hl.
  destruct (answered _ s) as [[e|[]] s']; [done|].
  destruct Hl as (c & l & Hc & Ho & He & Hr & Hs & Hx & t & Hl). cbv zeta.
  assert (rows_of s' = (forget_campaign cid (rows_of s)) <| d_events := l |>) as Edb.
  { change (rows_of s') with (hd_db (holdings_of s')). by rewrite Hx. }
  assert (o_ledger s' = (o_ledger s) <| cl_states ::= delete cid |> <| cl_owners ::= delete cid |> <| cl_notes ::= delete cid |>) as El.
  { change (o_ledger s') with (hd_ledger (holdings_of s')). by rewrite Hx. }
  rewrite Edb, El, Hl. clear Hx Edb El Hl. split_and!; try done.
  - exists c. split; [done|]. unfold owner_or_admin in Ho. apply orb_true_iff in Ho as [Ho%Z.eqb_eq|Ho]; eauto.
  - intros k cd. apply map_lookup_filter_Some.
  - intros k tk. apply map_lookup_filter_Some.
  - intros e [He'|He']%elem_of_app; cbn in He'.
    + apply list_elem_of_fmap in He' as (e0 & -> & _). destruct (e_campaign_id e0 == Some cid) eqn:E; [done|]. by apply bool_decide_eq_false in E.
    + by apply list_elem_of_singleton in He' as ->.
  - intros e Hin. exists (if e_campaign_id e == Some cid then e <| e_campaign_id := None |> else e).
    split; [apply elem_of_app; left; apply list_elem_of_fmap; by exists e|].
    destruct (e_campaign_id e == Some cid) eqn:E; [apply bool_decide_eq_true in E|]; done.
  - intros k. cbn. case_decide as Hk; [subst k; by rewrite !lookup_delete_eq|by rewrite !lookup_delete_ne].
Qed.
End deleting.

(** ** Queueing failures again *)
Lemma retried_spec db cid cd :
  retried db cid cd = true <->
  cd_status cd = Exhausted /\ is_baseline_candidate cd = false /\
  forall k r, d_runs db !! k = Some r -> r_campaign_id r = cid -> r_candidate_id r = cd_id cd -> r_status r = Failed \/ r_status r = Killed.
Proof.
  unfold retried.
  assert (forall P, existsb P (runs_of_candidate db cid cd) = true <->
    exists k r, d_runs db !! k = Some r /\ r_campaign_id r = cid /\ r_candidate_id r = cd_id cd /\ P r = true) as Hex.
  { intros P. rewrite existsb_exists. split.
    - intros (r & Hin%list_elem_of_In & Hp). apply elem_of_where in Hin as [[k Hk]%elem_of_rows_z Hc]. apply andb_true_iff in Hc as [C1%Z.eqb_eq C2%Z.eqb_eq]. by exists k, r.
    - intros (k & r & Hk & C1 & C2 & Hp). exists r. split; [|done]. apply list_elem_of_In, elem_of_where. split; [apply elem_of_rows_z; eauto|].
      by rewrite C1, C2, !Z.eqb_refl. }
  destruct (cd_status cd == Exhausted) eqn:Es; cbn [negb]; [apply bool_decide_eq_true in Es|apply bool_decide_eq_false in Es; split; [done|tauto]].
  destruct (is_baseline_candidate cd) eqn:Eb; [split; [done|intros (_ & ? & _); done]|].
  destruct (existsb _ _) eqn:E1.
  { apply Hex in E1 as (k & r & Hk & C1 & C2 & Hp%bool_decide_eq_true). split; [done|]. intros (_ & _ & Hall).
    destruct (Hall _ _ Hk C1 C2); congruence. }
  destruct (existsb (fun r => negb _) _) eqn:E2.
  { apply Hex in E2 as (k & r & Hk & C1 & C2 & Hp%negb_true_iff%bool_decide_eq_false). split; [done|]. intros (_ & _ & Hall).
    destruct Hp. destruct (Hall _ _ Hk C1 C2) as [->| ->]; set_solver. }
  split; [intros _|done]. split_and!; try done. intros k r Hk C1 C2.
  apply not_true_iff_false in E1, E2. rewrite Hex in E1, E2.
  destruct (decide (r_status r ∈ [Succeeded; Failed; Killed])) as [Hin|Hnin].
  - apply elem_of_cons in Hin as [Hin|Hin]; [|set_solver]. destruct E1. exists k, r. split_and!; try done. by apply bool_decide_eq_true.
  - destruct E2. exists k, r. split_and!; try done. by apply negb_true_iff, bool_decide_eq_false.
Qed.

(** Retrying queues exactly the failures.  A candidate of the campaign waits again exactly when it is spent, is not a
    measurement of production and has no run that is live or succeeded; the number that is answered is how many do; a
    campaign that was over is reopened when there is one, and no run, result or session is touched. *)
Theorem retry_queues_the_failures `{Env} cid s :
  keyed (rows_of s) ->
  let '(r, s') := answered (retry_failed cid) s in
  let db := rows_of s in let db' := rows_of s' in
  match r with
  | inl _ => holdings_of s' = holdings_of s
  | inr n =>
      exists c c' (again : list candidate), d_campaigns db !! cid = Some c /\ d_campaigns db' !! cid = Some c' /\
        n = Z.of_nat (length again) /\ NoDup again /\
        (forall cd, cd ∈ again <-> (exists k, d_candidates db !! k = Some cd) /\ cd_campaign_id cd = cid /\
           cd_status cd = Exhausted /\ is_baseline_candidate cd = false /\
           forall k r, d_runs db !! k = Some r -> r_campaign_id r = cid -> r_candidate_id r = cd_id cd ->
             r_status r = Failed \/ r_status r = Killed) /\
        (forall k cd, d_candidates db !! k = Some cd ->
           exists cd', d_candidates db' !! k = Some cd' /\
             (cd ∈ again -> cd' = cd <| cd_status := Valid |>) /\ (cd ∉ again -> cd' = cd)) /\
        c' = (if decide (0 < n /\ c_status c = Done) then c <| c_status := Active |> else c) /\
        d_runs db' = d_runs db /\ d_results db' = d_results db /\ d_sessions db' = d_sessions db
  end.
Proof.
  intros [_ Hkeys]. pose proof (answered_leads _ _ s (retry_failed_leads (holdings_of s) cid)) as Hl.
  destruct (answered _ s) as [[e|n] s']; [done|]. destruct Hl as (c & l & Hc & Hn & Hx).
  change (hd_db (holdings_of s)) with (rows_of s) in *. set (again := where_ _ _) in *.
  assert (forall cd, cd ∈ again <-> (exists k, d_candidates (rows_of s) !! k = Some cd) /\ cd_campaign_id cd = cid /\ retried (rows_of s) cid cd = true) as Hin.
  { intros cd. unfold again. rewrite elem_of_where. unfold campaign_candidates. rewrite elem_of_where, elem_of_rows_z, Z.eqb_eq. tauto. }
  set (f := fun c => if (0 <? n) && (c_status c == Done) then c <| c_status := Active |> else c) in *.
  exists c, (f c), again.
  assert (d_campaigns (rows_of s') = alter f cid (d_campaigns (rows_of s))) as Ecs.
  { change (rows_of s') with (hd_db (holdings_of s')). by rewrite Hx. }
  assert (d_candidates (rows_of s') = d_candidates (requeue (list_to_set (map cd_id again)) (rows_of s))) as Ecd.
  { change (rows_of s') with (hd_db (holdings_of s')). by rewrite Hx. }
  assert (d_runs (rows_of s') = d_runs (rows_of s) /\ d_results (rows_of s') = d_results (rows_of s) /\ d_sessions (rows_of s') = d_sessions (rows_of s)) as (Er & Ers & Ess).
  { change (rows_of s') with (hd_db (holdings_of s')). by rewrite Hx. }
  rewrite Ecs, Ecd. split_and!; try done.
  - by apply row_changed.
  - unfold again, campaign_candidates. unfold where_. do 2 apply NoDup_filter. eapply (NoDup_fmap_1 cd_id), rows_ids. exact Hkeys.
  - intros cd. rewrite Hin, retried_spec. tauto.
  - intros k cd Hk. unfold requeue. cbn. rewrite map_lookup_imap, Hk. cbn. eexists. split; [done|].
    assert (k ∈ (list_to_set (map cd_id again) : gset Z) <-> cd ∈ again) as Hiff.
    { rewrite elem_of_list_to_set. split.
      - intros (cd' & -> & Hin')%list_elem_of_fmap. assert (cd' = cd) as ->; [|done].
        apply Hin in Hin' as ([k' Hk'] & _). pose proof (Hkeys _ _ Hk') as <-. congruence.
      - intros Hcd. pose proof (Hkeys _ _ Hk) as <-. apply list_elem_of_fmap. by exists cd. }
    destruct (decide (k ∈ _)) as [D|D]; split; try done; tauto.
  - unfold f. destruct (Z.ltb_spec 0 n) as [Hp|Hp]; cbn [andb]; [|by rewrite decide_False by lia].
    destruct (c_status c == Done) eqn:E; [apply bool_decide_eq_true in E; by rewrite decide_True|apply bool_decide_eq_false in E; by rewrite decide_False by tauto].
Qed.

(** ** Stopping *)
Section stopping.
Context `{Env}.

(** Run [rid] is there, and over. *)
Definition ended (rid : Z) (w : world) : Prop := exists r, d_runs (w_db w) !! rid = Some r /\ terminal_run (r_status r) = true.

Lemma custody_ended {A} rid (m : W A) : respects custody m -> keeps (ended rid) m.
Proof.
  intros Hm w (r & Hr & Ht). specialize (Hm w) as [[Hold _] _].
  destruct (Hold _ _ Hr) as (r' & Hr' & [Hs _ _ _]). assert (ended rid (m w).2) as He.
  { exists r'. split; [done|]. by rewrite (leads_terminal _ _ Hs Ht). }
  by destruct (m w) as [[e|a] w'].
Qed.

Definition anyhow {S} : exn -> S -> Prop := fun _ _ => True.
Lemma triple_skip {A B} (m : W A) (f : A -> W B) Q :
  (forall a, triple (fun _ => True) (f a) Q anyhow) -> triple (fun _ => True) (bind m f) Q anyhow.
Proof. intros Hf w _. unfold bind. destruct (m w) as [[e|a] w']; [done|]. by apply Hf. Qed.
Lemma ended_then {A B} rid (m : W A) (f : A -> W B) :
  triple (fun _ => True) m (fun _ => ended rid) anyhow -> (forall a, respects custody (f a)) ->
  triple (fun _ => True) (bind m f) (fun _ => ended rid) anyhow.
Proof.
  intros Hm Hf w _. unfold bind. specialize (Hm w I). destruct (m w) as [[e|a] w']; [done|].
  pose proof (custody_ended rid (f a) (Hf a) w' Hm) as Hk. by destruct (f a w') as [[e|b] w2].
Qed.

Lemma transition_ends rid target :
  terminal_run target = true -> triple (fun _ => True) (_transition rid target) (fun _ => ended rid) anyhow.
Proof.
  intros Ht w _. unfold _transition. rewrite get_run_bind. destruct (d_runs (w_db w) !! rid) as [r|] eqn:Hr; [|done].
  destruct (negb _); [done|]. unfold add_event, bind, now, call, modify_db, modify. cbn.
  unfold put_run, modify_db, modify. cbn.
  match goal with |- match ?m ?w2 with _ => _ end =>
    assert (keeps (ended rid) m) as Hk; [apply custody_ended; destruct target; apply record_sample_custody || (apply respects_ret; typeclasses eauto)|
    assert (ended rid w2) as He] end.
  { cbn. unfold ended, update_run. cbn. rewrite Hr. cbn. rewrite lookup_insert_eq. by eexists. }
  specialize (Hk _ He). clear He.
  match type of Hk with (let (_, _) := ?e in _) => by destruct e as [[x|a] w'] end.
Qed.

Lemma finish_ends depth rid status error :
  terminal_run status = true -> triple (fun _ => True) (_finish depth rid status error) (fun _ => ended rid) anyhow.
Proof.
  intros Ht. destruct depth as [|depth]; cbn [_finish]; [by intros w _|].
  do 8 (apply triple_skip; intros ?). apply ended_then; [by apply transition_ends|].
  intros _. pose proof (finish_custody depth). unfold stop_benchmark, get_run, logged. respects_walk.
Qed.

(** What the pass over the stop requests has dealt with. *)
Definition dealt (live left : gset Z) (w : world) : Prop := forall rid, rid ∈ live -> rid ∉ left -> ended rid w.

Lemma stop_one_ends live e left_ :
  left_ ⊆ live ->
  triple (dealt live left_) (_stop_one e left_)
    (fun left' w => dealt live left' w /\ left' ⊆ left_ /\ forall rid, e_run_id e = Some rid -> rid ∉ left') anyhow.
Proof.
  intros Hsub. unfold _stop_one. destruct (e_run_id e) as [rid|]; [|intros w Hw; cbn; by split_and!].
  destruct (bool_decide (rid ∈ left_)) eqn:Ein; cbn [negb].
  2: { apply bool_decide_eq_false in Ein. intros w Hw. cbn. split_and!; try done. by intros ? [= <-]. }
  assert (forall w, dealt live left_ w -> ended rid w -> dealt live (left_ ∖ {[ rid ]}) w /\ left_ ∖ {[ rid ]} ⊆ left_ /\
    forall rid0, Some rid = Some rid0 -> rid0 ∉ left_ ∖ {[ rid ]}) as Hnext.
  { intros w Hw He. split_and!; [|set_solver|intros ? [= <-]; set_solver]. intros rid' Hl Hn.
    destruct (decide (rid' = rid)) as [->|]; [done|]. apply Hw; set_solver. }
  intros w Hw. rewrite get_run_bind. destruct (d_runs (w_db w) !! rid) as [r|] eqn:Hr; [|done].
  destruct (live_run r) eqn:El; cbn [negb].
  2: { cbn. apply Hnext; [done|]. exists r. split; [done|]. unfold live_run in El. by apply negb_false_iff in El. }
  match goal with |- match ?m w with _ => _ end => set (body := m) end.
  assert (triple (fun _ => True) body (fun left' w => left' = left_ ∖ {[ rid ]} /\ ended rid w) anyhow) as Hb.
  { unfold body. apply triple_skip. intros _.
    intros w1 _. unfold bind at 1. pose proof (finish_ends DEPTH rid Killed USER_STOP_ERROR eq_refl w1 I) as Hf. unfold finish.
    destruct (_finish _ _ _ _ w1) as [[x|a] w2]; [done|].
    match goal with |- match ?m w2 with _ => _ end => assert (keeps (ended rid) m) as Hk by (apply custody_ended; respects_walk);
      specialize (Hk w2 Hf); destruct (m w2) as [[x|b] w3] eqn:E3; [done|]; split; [|exact Hk]; clear Hk; revert E3 end.
    unfold bind, db_, gets, ret. repeat case_match; congruence. }
  assert (respects custody body) as Hc by (unfold body; respects_walk).
  specialize (Hb w I). specialize (Hc w).
  assert (forall rid', ended rid' w -> ended rid' (body w).2) as Hkeep.
  { intros rid' He. pose proof (custody_ended rid' body) as Hk. assert (respects custody body) as Hc' by (unfold body; respects_walk).
    specialize (Hk Hc' w He). by destruct (body w) as [[x|b] w3]. }
  destruct (body w) as [[x|b] w3]; [done|]. destruct Hb as [-> He]. apply Hnext; [|done].
  intros rid' Hl Hn. apply Hkeep. by apply Hw.
Qed.

Lemma stop_pass_ends live l : forall left_, left_ ⊆ live ->
  triple (dealt live left_) (for_acc l left_ _stop_one)
    (fun left' w => dealt live left' w /\ left' ⊆ left_ /\ forall e rid, e ∈ l -> e_run_id e = Some rid -> rid ∉ left') anyhow.
Proof.
  induction l as [|e l IH]; intros left_ Hsub; cbn [for_acc].
  - intros w Hw. cbn. split_and!; [done..|]. intros e rid He. by apply not_elem_of_nil in He.
  - eapply triple_bind; [by apply (stop_one_ends live)|]. intros left1 w (Hw & Hs1 & He1).
    pose proof (IH left1 ltac:(by etransitivity) w Hw) as Hr. destruct (for_acc l left1 _stop_one w) as [[x|left2] w2]; [done|].
    destruct Hr as (Hw2 & Hs2 & He2). split_and!; [done|by etransitivity|].
    intros e' rid [->|Hin]%elem_of_cons Hrid; [|by eapply He2]. intros Hn. by apply (He1 rid Hrid), Hs2.
Qed.

(** The worker's pass over the requests leaves every run that was asked to
    stop over. *)
Lemma stop_requests_end w rid r e :
  fleet_ok (w_db w) -> d_runs (w_db w) !! rid = Some r ->
  e ∈ d_events (w_db w) -> e_kind e = "stop_requested" -> e_run_id e = Some rid ->
  let '(res, w') := _process_stop_requests w in res = inr tt -> ended rid w'.
Proof.
  intros Hok Hr Hin Hkind Hrid. destruct (_process_stop_requests w) as [res w'] eqn:E. intros ->.
  destruct (live_run r) eqn:El.
  2: { assert (ended rid w) as He by (exists r; split; [done|]; unfold live_run in El; by apply negb_false_iff in El).
       pose proof (custody_ended rid _ stop_requests_custody w He) as Hk. by rewrite E in Hk. }
  revert E. unfold _process_stop_requests, bind at 1, db_, gets. set (live := list_to_set _ : gset Z).
  pose proof (stop_pass_ends live (where_ (fun e => String.eqb (e_kind e) "stop_requested") (d_events (w_db w))) live (reflexivity live) w) as Hp.
  assert (dealt live live w) as Hd by (intros k H1 H2; done). specialize (Hp Hd). unfold bind.
  destruct (for_acc _ live _stop_one w) as [[x|left'] w2]; [done|]. intros [= <-]. destruct Hp as (Hw2 & _ & He).
  apply Hw2; [|eapply He; [|exact Hrid]; apply elem_of_where; split; [done|by apply String.eqb_eq]].
  unfold live. apply elem_of_list_to_set, list_elem_of_fmap. exists r. split.
  - symmetry. apply (ok_runs _ Hok _ _ Hr).
  - unfold live_runs. apply elem_of_where. split; [apply elem_of_rows_z; eauto|done].
Qed.
End stopping.

Section stop_requested.
Context `{Env}.

#[local] Abbreviation holdings := (Requests.holdings campaign_ledger).

Lemma grants_add_event {A} (x : holdings) kind cid rid to reason (k : unit -> K A) post :
  (forall l, grants (with_events x l) (k tt) post) -> grants x (bind (on_rows (add_event kind cid rid to reason)) k) post.
Proof.
  intros Hk s (E & El). unfold add_event, bind, on_rows, now, call, modify_db, modify. cbn.
  eapply Hk. unfold at_, rows_of in *. cbn. rewrite E. done.
Qed.
Lemma grants_request_stops {A} cid runs (k : unit -> K A) post : forall x : holdings,
  (forall l, grants (with_events x l) (k tt) post) -> grants x (bind (on_rows (request_stops cid runs)) k) post.
Proof.
  unfold request_stops. induction runs as [|r runs IH]; intros x Hk; cbn [for_each].
  - specialize (Hk (d_events (hd_db x))).
    assert (with_events x (d_events (hd_db x)) = x) as E by (unfold with_events; by destruct x as [[] ?]). rewrite E in Hk.
    intros [] Hs. exact (Hk _ Hs).
  - intros s Hs.
    pose proof (grants_add_event x "stop_requested" (Some cid) (Some (r_id r)) None "force stop"
      (fun _ => bind (on_rows (for_each runs (fun r => add_event "stop_requested" (Some cid) (Some (r_id r)) None "force stop"))) k) post) as Hl.
    specialize (Hl ltac:(intros l; apply IH; intros l'; exact (Hk l')) s Hs). unfold on_rows, bind in *. cbn in *. exact Hl.
Qed.
Lemma grants_last {A} (x : holdings) (m : K A) post : grants x (bind m ret) post -> grants x m post.
Proof. intros Hm s Hs. destruct (Hm s Hs) as (a & s' & E & Hp). rewrite bind_ret in E. by exists a, s'. Qed.

Lemma grants_assoc {A B D} (x : holdings) (m : K B) (f : B -> K D) (g : D -> K A) post :
  grants x (bind m (fun b => bind (f b) g)) post -> grants x (bind (bind m f) g) post.
Proof.
  intros Hm s Hs. destruct (Hm s Hs) as (a & s' & E & Hp). exists a, s'. split; [|done]. rewrite <-E.
  unfold bind. by destruct (m s) as [[e|b] s1].
Qed.

Lemma pause_grants (x : holdings) cid c : grants x (pause_campaign cid c) (fun _ => True).
Proof.
  assert (forall x : holdings, grants x (on_rows (put_campaign cid put_aside) ;;; db <- on_rows db_ ;; on_rows (request_stops cid (live_runs_of db cid)) ;;;
    on_rows (event_ "campaign_force_stopped" (Some cid) None)) (fun _ => True)) as Hrest.
  { intros y. apply grants_modify_db, grants_db, grants_request_stops. intros l. apply grants_last, grants_event. intros l'. by apply grants_ret. }
  unfold pause_campaign. destruct (_ && _); [apply grants_event; intros l; apply Hrest|apply grants_ret_bind, Hrest].
Qed.
Lemma force_stop_grants (x : holdings) cid c : d_campaigns (hd_db x) !! cid = Some c -> grants x (force_stop cid) (fun _ => True).
Proof.
  intros Hc. unfold force_stop. eapply (grants_step x x _ _ (fun c' => c' = c)).
  { intros s Hs. exists c, s. split; [|done]. destruct Hs as (E & _). unfold rows_of in E.
    unfold find_campaign, bind, on_rows, db_, gets. rewrite E, Hc. by destruct s. }
  intros ? ->. apply grants_db.
  destruct (if has_policy c then head (live_sessions_of (hd_db x) cid) else None) as [live|]; [|apply pause_grants].
  destruct (searching live); [apply grants_now; intros t; apply grants_modify_db, grants_last, grants_event; intros l; by apply grants_ret|].
  destruct (bool_decide _); [apply grants_ret_bind, pause_grants|].
  apply grants_assoc, grants_now. intros t. apply grants_assoc, grants_modify_db, grants_event. intros l. apply pause_grants.
Qed.

Lemma stopped_over c : c_status (put_aside c) = Done \/ c_status (put_aside c) = Paused.
Proof. unfold put_aside, stopped_status. cbn. repeat case_match; auto. Qed.
Lemma stopped_done c : c_status (put_aside c) = Done <-> c_status c = Done \/ has_policy c = true /\ from_campaign c = None.
Proof.
  change (c_status (put_aside c)) with (stopped_status c). unfold stopped_status.
  destruct (c_status c == Done) eqn:E; [apply bool_decide_eq_true in E; tauto|apply bool_decide_eq_false in E].
  destruct (has_policy c); cbn [andb]; [|split; [done|by intros [|[]]]].
  destruct (from_campaign c) as [sc|]; cbn; [split; [done|by intros [|[_ ?]]]|tauto].
Qed.

(** What was written for the runs, and what the worker makes of it. *)
Lemma stopped_aftermath cid db db' l pre asks post :
  fleet_ok db -> d_runs db' = d_runs db /\ d_nodes db' = d_nodes db /\ d_members db' = d_members db /\ d_machines db' = d_machines db ->
  d_events db' = d_events db ++ l ++ pre ++ asks ++ post ->
  no_run l -> asked cid (live_runs_of db cid) asks -> no_run pre -> no_run post ->
  (exists new, d_events db' = d_events db ++ new /\
     forall rid, (exists e, e ∈ new /\ e_run_id e = Some rid) <-> exists r, d_runs db !! rid = Some r /\ live_run_of cid r = true) /\
  (forall w w', w_db w = db' -> _process_stop_requests w = (inr tt, w') ->
     forall rid r, d_runs db !! rid = Some r -> r_campaign_id r = cid -> ended rid w').
Proof.
  intros Hok (Er & En & Em & Ec) Ev Hl Ha Hpre Hpost.
  assert (forall rid, (exists e, e ∈ asks /\ e_kind e = "stop_requested" /\ e_run_id e = Some rid) <->
     exists r, d_runs db !! rid = Some r /\ live_run_of cid r = true) as Hask.
  { intros rid. split.
    - intros (e & He & _ & Hrid). apply (list_elem_of_fmap_2 (fun e => (e_kind e, e_campaign_id e, e_run_id e, e_reason e))) in He.
      change (fmap ?f asks) with (map f asks) in He. rewrite Ha in He. apply list_elem_of_fmap in He as (r & [= _ _ Hr _] & Hin).
      apply elem_of_where in Hin as [[k Hk]%elem_of_rows_z Hlv]. exists r. split; [|done].
      pose proof (ok_runs _ Hok _ _ Hk). congruence.
    - intros (r & Hr & Hlv). assert (r ∈ live_runs_of db cid) as Hin by (apply elem_of_where; split; [apply elem_of_rows_z; eauto|done]).
      assert (("stop_requested", Some cid, Some (r_id r), "force stop") ∈ map (fun e => (e_kind e, e_campaign_id e, e_run_id e, e_reason e)) asks) as He.
      { rewrite Ha. apply list_elem_of_fmap. by exists r. }
      apply list_elem_of_fmap in He as (e & [= E1 _ E3 _] & He). exists e. rewrite <-E1, <-E3, (ok_runs _ Hok _ _ Hr). by split_and!. }
  split.
  - exists (l ++ pre ++ asks ++ post). split; [done|]. intros rid. rewrite <-Hask. split.
    + intros (e & He & Hrid). assert (forall l, no_run l -> e ∉ l) as Hno.
      { intros l' Hl' Hin. unfold no_run in Hl'. rewrite Forall_forall in Hl'. specialize (Hl' e Hin). congruence. }
      apply elem_of_app in He as [He|He]; [by destruct (Hno l)|]. apply elem_of_app in He as [He|He]; [by destruct (Hno pre)|].
      apply elem_of_app in He as [He|He]; [|by destruct (Hno post)]. exists e. split_and!; [done| |done].
      apply (list_elem_of_fmap_2 (fun e => (e_kind e, e_campaign_id e, e_run_id e, e_reason e))) in He.
      change (fmap ?f asks) with (map f asks) in He. rewrite Ha in He. by apply list_elem_of_fmap in He as (r & [= -> _ _ _] & _).
    + intros (e & He & _ & Hrid). exists e. split; [|done]. apply elem_of_app. right. apply elem_of_app. right. apply elem_of_app. by left.
  - intros w w' Ew Hpass rid r Hr Hcid. subst db'. destruct (terminal_run (r_status r)) eqn:Et.
    + pose proof (custody_ended rid _ stop_requests_custody w) as Hk. specialize (Hk ltac:(exists r; by rewrite Er)). by rewrite Hpass in Hk.
    + destruct (proj2 (Hask rid)) as (e & He & Hkind & Hrid).
      { exists r. split; [done|]. unfold live_run_of. by rewrite Et, (proj2 (Z.eqb_eq _ _) Hcid). }
      pose proof (stop_requests_end w rid r e) as Hend. rewrite Hpass in Hend. apply Hend; try done.
      * apply (same_fleet_ok db); [|done]. unfold same_fleet. rewrite Ec. split_and!; try done. eauto.
      * by rewrite Er.
      * rewrite Ev. apply elem_of_app. right. apply elem_of_app. right. apply elem_of_app. right. apply elem_of_app. by left.
Qed.

(** Besides the campaign's own row, at most one session changed, and events
    were added. *)
Definition only_the_campaign (cid : Z) (db db' : database) : Prop :=
  (forall k, k <> cid -> d_campaigns db' !! k = d_campaigns db !! k) /\
  (exists new, d_events db' = d_events db ++ new) /\
  db' = db <| d_campaigns := d_campaigns db' |> <| d_sessions := d_sessions db' |> <| d_events := d_events db' |>.

(** C31: Stopping a campaign ends what is live of it.  Take a campaign that is
    not over, and whose policy, if it has one, comes back at night and is not
    exploring (one that is exploring is asked to finish instead, and a night
    that is not to come back is over).  The request is granted and the campaign
    is paused, with no time left of having been started by hand; the session of
    its policy that is live, if there is one, is told to end, and every other
    session is as it was; exactly the campaign's live runs are asked to stop,
    and once the worker has been through the requests they are all over.
    Nothing else changed: no other campaign, no run, node, machine or any other
    row. *)
Theorem force_stop_ends_what_is_live cid s c :
  fleet_ok (rows_of s) -> sessions_keyed (rows_of s) -> d_campaigns (rows_of s) !! cid = Some c ->
  c_status c <> Done ->
  (has_policy c = true -> is_Some (from_campaign c) /\
     forall live, live ∈ live_sessions_of (rows_of s) cid -> searching live = false) ->
  let '(r, s') := answered (force_stop cid) s in
  let db := rows_of s in let db' := rows_of s' in
  r = inr tt /\ d_campaigns db' !! cid = Some (c <| c_status := Paused |> <| c_override_until := None |>) /\
  only_the_campaign cid db db' /\
  (match (if has_policy c then head (live_sessions_of db cid) else None) with
   | Some live => exists live', d_sessions db' !! ps_id live = Some live' /\ is_Some (ps_abort_requested_at live') /\
                    forall k, k <> ps_id live -> d_sessions db' !! k = d_sessions db !! k
   | None => d_sessions db' = d_sessions db
   end) /\
  (exists new, d_events db' = d_events db ++ new /\
     forall rid, (exists e, e ∈ new /\ e_run_id e = Some rid) <-> exists r, d_runs db !! rid = Some r /\ live_run_of cid r = true) /\
  (forall w w', w_db w = db' -> _process_stop_requests w = (inr tt, w') ->
     forall rid r, d_runs db !! rid = Some r -> r_campaign_id r = cid -> ended rid w').
Proof.
  intros Hok Hkeys Hc Hnot Hpol.
  assert (put_aside c = c <| c_status := Paused |> <| c_override_until := None |>) as Haside.
  { unfold put_aside, stopped_status. rewrite bool_decide_false by done. destruct (has_policy c); [|done].
    destruct (Hpol eq_refl) as [[sc ->] _]. done. }
  pose proof (answered_leads _ _ s (force_stop_leads (holdings_of s) cid)) as Hl.
  destruct (grants_answered (fun _ => True) (force_stop cid) s (force_stop_grants (holdings_of s) _ _ Hc)) as ([] & s' & E & _). rewrite E in Hl |- *.
  destruct Hl as (c0 & Hc0 & Hout). change (hd_db (holdings_of s)) with (rows_of s) in *. assert (c0 = c) as -> by congruence. clear Hc0 E. cbv zeta.
  assert (forall live, head (live_sessions_of (rows_of s) cid) = Some live ->
    live ∈ live_sessions_of (rows_of s) cid /\ d_sessions (rows_of s) !! ps_id live = Some live) as Hlive.
  { intros live Hl. apply head_Some_elem_of in Hl as Hin. split; [done|]. apply elem_of_where in Hin as [[k Hk]%elem_of_rows_z _].
    by rewrite (Hkeys _ _ Hk). }
  change (rows_of s') with (hd_db (holdings_of s')). rewrite <- Haside.
  destruct Hout as [live t l Hp Hl Hsearch|live x1 pre asks post Hp Hl Hsearch Hx1 Ha Hpre Hpost|pre asks post Hnone Ha Hpre Hpost].
  - destruct (Hlive _ Hl) as [Hin _]. by rewrite (proj2 (Hpol Hp) live Hin) in Hsearch.
  - destruct (Hlive _ Hl) as [Hin Hrow].
    assert (exists l f, no_run l /\ hd_db x1 = (rows_of s) <| d_sessions ::= alter f (ps_id live) |> <| d_events := d_events (rows_of s) ++ l |> /\
      is_Some (ps_abort_requested_at (f live))) as (l & f & Hno & Ex & Hab).
    { revert Hx1. unfold aborting. destruct (ps_abort_requested_at live) as [t0|] eqn:Et.
      - intros ->. exists [], id. split; [constructor|]. split; [|exists t0; exact Et]. cbn. rewrite app_nil_r.
        change (rows_of s = (rows_of s) <| d_sessions ::= alter id (ps_id live) |> <| d_events := d_events (rows_of s) |>).
        destruct (rows_of s). unfold update_field, eta_database. cbn. by rewrite alter_id.
      - intros (t & l & Hno & ->). exists l, (fun p => p <| ps_abort_requested_at := Some t |>). by split_and!. }
    destruct (stopped_aftermath cid (rows_of s) (hd_db (with_events (change_campaign cid put_aside x1) (d_events (hd_db x1) ++ pre ++ asks ++ post))) l pre asks post)
      as [Hev Hworker]; [done|cbn; rewrite Ex; by split_and!|cbn; rewrite Ex; cbn; by rewrite <-!app_assoc|done..|].
    split; [done|]. split; [cbn; rewrite Ex; cbn; by apply row_changed|]. split.
    { split_and!.
      - intros k Hk. cbn. rewrite Ex. cbn. by apply lookup_alter_ne.
      - destruct Hev as (new & Hnew & _). by exists new.
      - cbn. by rewrite Ex. }
    change (hd_db (holdings_of s)) with (rows_of s) in Hl.
    rewrite Hp, Hl. split; [|done]. exists (f live). split; [cbn; rewrite Ex; cbn; by apply row_changed|]. split; [done|].
    intros k Hk. cbn. rewrite Ex. cbn. by apply lookup_alter_ne.
  - destruct (stopped_aftermath cid (rows_of s) (hd_db (with_events (change_campaign cid put_aside (holdings_of s)) (d_events (rows_of s) ++ pre ++ asks ++ post))) [] pre asks post)
      as [Hev Hworker]; [done|by split_and!|done|constructor|done..|]. split; [done|]. split; [cbn; by apply row_changed|]. split.
    { split_and!; [|destruct Hev as (new & Hnew & _); by exists new|done]. intros k Hk. cbn. by apply lookup_alter_ne. }
    split; [|done].
    assert ((if has_policy c then head (live_sessions_of (rows_of s) cid) else None) = None) as ->; [|done].
    destruct (has_policy c); [|done]. specialize (Hnone eq_refl). change (hd_db (holdings_of s)) with (rows_of s) in Hnone. by rewrite Hnone.
Qed.
End stop_requested.

(** ** Validating chosen configurations *)
Section validation.
Context `{Env}.

(** The contenders of a validation: one per configuration, in their order. *)
Definition listed (sid rank : Z) (configs : list config) (t t' : gmap Z contender) : Prop :=
  exists ids, NoDup ids /\ length ids = length configs /\
    (forall i id cfg, ids !! i = Some id -> configs !! i = Some cfg ->
       t !! id = None /\ t' !! id = Some ((chosen_contender sid (rank + Z.of_nat i) cfg) <| pc_id := id |>)) /\
    (forall k, k ∉ ids -> t' !! k = t !! k).

Lemma add_chosen_listed sid configs : forall rank db,
  listed sid rank configs (d_contenders db) (d_contenders (add_chosen sid rank configs db)).
Proof.
  induction configs as [|cfg configs IH]; intros rank db; cbn [add_chosen].
  - exists []. split_and!; [constructor|done|by intros []|done].
  - set (id := next_key (d_contenders db)). set (row := (chosen_contender sid rank cfg) <| pc_id := id |>).
    set (db1 := db <| d_contenders ::= <[ id := row ]> |>).
    destruct (IH (rank + 1) db1) as (ids & Hnd & Hlen & Hin & Hout).
    assert (d_contenders db1 = <[ id := row ]> (d_contenders db)) as E1 by done.
    assert (id ∉ ids) as Hid.
    { intros (i & Hi)%list_elem_of_lookup. destruct (lookup_lt_is_Some_2 configs i) as [cfg' Hcfg].
      { rewrite <-Hlen. by eapply lookup_lt_Some. }
      destruct (Hin i id cfg' Hi Hcfg) as [Hn _]. by rewrite E1, lookup_insert_eq in Hn. }
    exists (id :: ids). split_and!.
    + by constructor.
    + cbn. by rewrite Hlen.
    + intros [|i] id' cfg'; cbn [lookup list_lookup].
      * intros [= <-] [= <-]. split; [apply next_key_fresh|]. rewrite Hout, E1, lookup_insert_eq by done. unfold row.
        by rewrite Z.add_0_r.
      * intros Hi Hcfg. destruct (Hin i id' cfg' Hi Hcfg) as [Hn Hr]. rewrite E1 in Hn. apply lookup_insert_None in Hn as [Hn _].
        split; [done|]. rewrite Hr. by replace (rank + 1 + Z.of_nat i) with (rank + Z.of_nat (S i)) by lia.
    + intros k Hk. apply not_elem_of_cons in Hk as [Hk1 Hk2]. rewrite Hout by done. by rewrite E1, lookup_insert_ne.
Qed.

(** A campaign whose session of this window is there gets no other. *)
Lemma ensure_sessions_leaves cid c w w' r sid ps t :
  (forall k c, d_campaigns (w_db w) !! k = Some c -> c_id c = k) -> d_campaigns (w_db w) !! cid = Some c ->
  c_window_start c = Some t -> d_sessions (w_db w) !! sid = Some ps -> ps_campaign_id ps = cid -> ps_window_start ps = Some t ->
  _ensure_sessions w = (r, w') ->
  forall k x, ps_campaign_id x = cid -> d_sessions (w_db w') !! k = Some x <-> d_sessions (w_db w) !! k = Some x.
Proof.
  intros Hkeyed Hc Hw Hs Hpc Hpw.
  set (I := fun v => forall k x, ps_campaign_id x = cid -> d_sessions (w_db v) !! k = Some x <-> d_sessions (w_db w) !! k = Some x).
  unfold _ensure_sessions, bind at 1, db_, gets. match goal with |- ?m w = _ -> _ => assert (keeps I m) as Hk end.
  2: { intros E. specialize (Hk w). rewrite E in Hk. assert (I w) as Hi by (intros k x _; done). specialize (Hk Hi). by destruct r. }
  apply keeps_for_each. intros c0 [[[k0 Hk0]%elem_of_rows_z _]%elem_of_where _]%elem_of_where.
  destruct (c_window_start c0) as [window|] eqn:Ew0; [|apply keeps_ret]. destruct (c_policy_id c0) as [pid|]; [|apply keeps_ret].
  intros v Hv. unfold bind at 1, db_, gets. destruct (existsb _ _) eqn:Ex; [exact Hv|].
  assert (c_id c0 <> cid) as Hne.
  { intros E. pose proof (Hkeyed _ _ Hk0) as E0. assert (c0 = c) as -> by congruence. apply not_true_iff_false in Ex. apply Ex, existsb_exists.
    exists ps. split; [apply list_elem_of_In, elem_of_rows_z; exists sid; by apply Hv|]. rewrite Hpc, E, Z.eqb_refl.
    apply bool_decide_eq_true. congruence. }
  unfold event_, add_event, now, call, bind, modify_db, modify. cbn. intros k x Hx. cbn.
  destruct (decide (k = next_key (d_sessions (w_db v)))) as [->|Hk].
  - rewrite lookup_insert_eq. split; [intros [= <-]; done|]. intros E. apply Hv in E; [|done]. by rewrite next_key_fresh in E.
  - rewrite lookup_insert_ne by done. by apply Hv.
Qed.

(** C32: Validating chosen configurations measures them and searches nothing.  If it is granted, by the campaign's owner
    or an administrator, for a campaign with a policy, no session of which is live, on a machine that is leased: the
    campaign runs from now until the hours are over, wherever it was pinned before, with exactly one session more,
    which validates, in this window, on that machine with all of its cards; the session's contenders are the given
    configurations, in their order, and every other contender is as it was.  For this window the worker opens no
    session beside it, so no search starts. *)
Theorem chosen_configs_are_validated p cid body s s' :
  keyed (rows_of s) -> answered (validate_configs p cid body) s = (inr tt, s') ->
  exists c c' m t ps, let sid := next_key (d_sessions (rows_of s)) in
    d_campaigns (rows_of s) !! cid = Some c /\ (c_owner_id c = u_id (pp_user p) \/ u_admin (pp_user p) = true) /\
    has_policy c = true /\ live_sessions_of (rows_of s) cid = [] /\
    machine_named (rows_of s) (vq_machine body) = Some m /\ m_lease_state m = LeaseActive /\
    d_campaigns (rows_of s') !! cid = Some c' /\ c_status c' = Active /\ c_window_start c' = Some t /\
    c_window_end c' = Some (t + vq_hours body * hour) /\ c_override_until c' = c_window_end c' /\
    (kn_node_names <$> cl_notes (o_ledger s') !! cid) = Some [] /\
    d_sessions (rows_of s) !! sid = None /\ d_sessions (rows_of s') = <[ sid := ps ]> (d_sessions (rows_of s)) /\
    ps_campaign_id ps = cid /\ ps_status ps = Validating /\ ps_window_start ps = Some t /\
    ps_machine_id ps = Some (m_id m) /\ ps_gpu_indices ps = seqZ 0 (m_gpu_count m) /\
    listed sid 1 (vq_configs body) (d_contenders (rows_of s)) (d_contenders (rows_of s')) /\
    (forall w w' r, w_db w = rows_of s' -> _ensure_sessions w = (r, w') -> forall k x, ps_campaign_id x = cid ->
       d_sessions (w_db w') !! k = Some x <-> d_sessions (rows_of s') !! k = Some x).
Proof.
  intros [Hkeyed _] Hs'. pose proof (answered_leads _ _ s (validate_configs_leads (holdings_of s) p cid body)) as Hl. rewrite Hs' in Hl.
  destruct Hl as (c & pid & m & notes & t & l & _ & Hc & Ho & _ & Hp & Hlive & Hm & Hlease & _ & Hx).
  change (hd_db (holdings_of s)) with (rows_of s) in *. set (sid := next_key (d_sessions (rows_of s))) in *.
  set (db1 := (rows_of s) <| d_campaigns ::= alter (validating body t) cid |>
                          <| d_sessions ::= <[ sid := validation_session sid cid pid t m ]> |>).
  destruct (add_chosen_rows sid (vq_configs body) 1 db1) as (_ & E & _).
  assert (rows_of s' = (add_chosen sid 1 (vq_configs body) db1) <| d_events := l |>) as Edb.
  { change (rows_of s') with (hd_db (holdings_of s')). by rewrite Hx. }
  assert (d_campaigns (rows_of s') = alter (validating body t) cid (d_campaigns (rows_of s)) /\
          d_sessions (rows_of s') = <[ sid := validation_session sid cid pid t m ]> (d_sessions (rows_of s))) as [Ec Es].
  { rewrite Edb, E. done. }
  assert (c_id (validating body t c) = c_id c /\ c_status (validating body t c) = Active /\ c_window_start (validating body t c) = Some t /\
    c_window_end (validating body t c) = Some (t + vq_hours body * hour) /\
    c_override_until (validating body t c) = c_window_end (validating body t c)) as (V0 & V1 & V2 & V3 & V4).
  { unfold validating. by destruct (String.eqb _ _). }
  assert (d_campaigns (rows_of s') !! cid = Some (validating body t c)) as Hc' by (rewrite Ec; by apply row_changed).
  exists c, (validating body t c), m, t, (validation_session sid cid pid t m). cbv zeta. split_and!; try done.
  - unfold owner_or_admin in Ho. apply orb_true_iff in Ho as [Ho%Z.eqb_eq|Ho]; eauto.
  - change (o_ledger s') with (hd_ledger (holdings_of s')). rewrite Hx. cbn. by rewrite lookup_insert_eq.
  - apply next_key_fresh.
  - rewrite Edb. apply (add_chosen_listed sid (vq_configs body) 1 db1).
  - intros w w' r Ew Hens k x Hxk. rewrite <-Ew. eapply (ensure_sessions_leaves cid (validating body t c) w w' r sid (validation_session sid cid pid t m) t);
      rewrite ?Ew; try done.
    + intros k0 c0. rewrite Ec. intros [(-> & c1 & Hk & ->)|[_ Hk]]%lookup_alter_Some; [|by apply Hkeyed].
      assert (c1 = c) as -> by congruence. rewrite V0. by apply Hkeyed.
    + rewrite Es. by apply lookup_insert_eq.
Qed.
End validation.

(** ** A campaign, steered *)
Definition plain_notes : campaign_notes := CampaignNotes ["node-1"] [] [].
Definition helm_of (db : database) : office campaign_ledger :=
  Office (sample_world db) (CampaignLedger {[ 1 := plain_notes ]} ∅ ∅) ∅.
(** Its owner asks, or a colleague. *)
Definition owner : Principal := mkPrincipal (mkUser 1 "alice" false) "alice" false.
Definition colleague : Principal := mkPrincipal (mkUser 2 "bob" false) "bob" false.

(** At two in the afternoon, outside its nights. *)
Definition afternoon : Z := 10 * sample_day + 50400000000.
Lemma force_start_runs_now_witness :
  current_window afternoon (from_campaign nightly) = None /\
  exists s' c', answered (force_start (H0 := env_at (fun _ => afternoon)) 1 (Some 3)) (helm_of night_db) = (inr tt, s') /\
    d_campaigns (rows_of s') !! 1 = Some c' /\ c_status c' = Active /\
    woken (H := env_at (fun _ => afternoon)) (afternoon + 2 * hour) c' = c'.
Proof.
  split; [vm_compute; reflexivity|].
  pose proof (force_start_runs_now (H0 := env_at (fun _ => afternoon)) 1 (Some 3) (helm_of night_db) nightly) as Ht.
  specialize (Ht ltac:(done) eq_refl). cbv zeta in Ht. destruct (answered _ _) as [r s'] eqn:E.
  destruct Ht as (Hiff & _ & Hrun & _).
  assert (r = inr tt) as -> by (apply Hiff; split; [cbn; lia|done]).
  destruct (Hrun eq_refl) as (c' & Hc' & Ha & _ & _ & _ & Hw & _). exists s', c'. split_and!; try done.
  apply Hw. vm_compute. reflexivity.
Defined.

Lemma sample_keyed : keyed sample_db /\ sessions_keyed sample_db.
Proof.
  split; [split|by intros sid ps].
  - intros k c. change (d_campaigns sample_db) with ({[ 1 := sample_campaign ]} : gmap Z campaign). by intros [<- <-]%lookup_singleton_Some.
  - intros k cd. change (d_candidates sample_db) with ({[ 1 := sample_candidate 1 4 Exhausted; 2 := sample_candidate 2 2 Valid ]} : gmap Z candidate).
    by intros [[<- <-]|[_ [<- <-]%lookup_singleton_Some]]%lookup_insert_Some.
Qed.

(** The campaign's run 1 is stopped with it, and over when the worker has
    looked. *)
Lemma force_stop_ends_what_is_live_witness :
  exists s' r w', answered (force_stop 1) (helm_of sample_db) = (inr tt, s') /\
    c_status <$> d_campaigns (rows_of s') !! 1 = Some Paused /\
    d_runs (rows_of s') !! 1 = Some r /\ live_run r = true /\
    _process_stop_requests (o_world s') = (inr tt, w') /\ ended 1 w'.
Proof.
  pose proof (force_stop_ends_what_is_live 1 (helm_of sample_db) sample_campaign Tick.sample_fleet_ok (proj2 sample_keyed) eq_refl
    ltac:(done) ltac:(done)) as Ht.
  destruct (answered _ _) as [r s'] eqn:E. destruct Ht as (-> & Hc & (_ & _ & Hdb) & _ & _ & Hw).
  assert (d_runs (rows_of s') !! 1 = Some (Samples.sample_run 1 1 1 [0; 1; 2; 3] Benching)) as Hr by (rewrite Hdb; reflexivity).
  assert ((_process_stop_requests (o_world s')).1 = inr tt) as Hpass.
  { assert (s' = (answered (force_stop 1) (helm_of sample_db)).2) as -> by (by rewrite E). vm_compute. reflexivity. }
  destruct (_process_stop_requests (o_world s')) as [res w'] eqn:Ew. cbn in Hpass. subst res.
  exists s', (Samples.sample_run 1 1 1 [0; 1; 2; 3] Benching), w'. split_and!; [done|by rewrite Hc|exact Hr|done|done|].
  by eapply (Hw (o_world s') w').
Defined.

Lemma steering_stays_in_its_campaign_witness :
  let '(r, s') := serve_request (fun key => key) (fun _ => true) (fun t => if String.eqb t "alice" then Some 1 else None)
    {[ 1 := mkUser 1 "alice" true ]} AnyUser (mkCredentials (Some "alice") None)
    (fun p => handle_campaign (fun _ => false) p (RetryFailed 1)) (helm_of sample_db) in
  r = inr tt /\ d_runs (rows_of s') = d_runs sample_db.
Proof.
  pose proof (steering_stays_in_its_campaign (fun _ => false) (fun key => key) (fun _ => true)
    (fun t => if String.eqb t "alice" then Some 1 else None) {[ 1 := mkUser 1 "alice" true ]} (mkCredentials (Some "alice") None)
    (RetryFailed 1) (helm_of sample_db) (proj2 sample_keyed) (proj1 sample_keyed)) as Ht.
  assert ((serve_request (fun key => key) (fun _ => true) (fun t => if String.eqb t "alice" then Some 1 else None)
    {[ 1 := mkUser 1 "alice" true ]} AnyUser (mkCredentials (Some "alice") None)
    (fun p => handle_campaign (fun _ => false) p (RetryFailed 1)) (helm_of sample_db)).1 = inr tt) as Hr by (vm_compute; reflexivity).
  destruct (serve_request _ _ _ _ _ _ _ _) as [r s']. split; [exact Hr|]. apply (un_runs _ _ _ (proj1 Ht)).
Defined.

(** Two configurations of a campaign with a policy, on the second machine. *)
Definition policy_db : database :=
  sample_done_db <| d_campaigns := {[ 1 := sample_campaign <| c_policy_id := Some 1 |> ]} |>.
Definition two_configs : ValidateRequest := mkValidateRequest [sample_config 4; sample_config 2] "node-2" 8 "" ["gpqa_diamond"] None.
Lemma chosen_configs_are_validated_witness :
  (answered (validate_configs colleague 1 two_configs) (helm_of policy_db)).1 = inl (HTTPException 403 "not your campaign") /\
  exists s' ps, answered (validate_configs owner 1 two_configs) (helm_of policy_db) = (inr tt, s') /\
    d_sessions (rows_of s') = {[ 1 := ps ]} /\ ps_status ps = Validating /\ ps_machine_id ps = Some 2 /\
    map pc_config_hash (contenders_of (rows_of s') 1) = map config_hash [sample_config 4; sample_config 2].
Proof.
  split; [vm_compute; reflexivity|].
  destruct (answered (validate_configs owner 1 two_configs) (helm_of policy_db)) as [r s'] eqn:E.
  assert (r = inr tt) as -> by (change r with (r, s').1; rewrite <-E; vm_compute; reflexivity).
  destruct (chosen_configs_are_validated owner 1 two_configs (helm_of policy_db) s') as (c & c' & m & t & ps & Ht); [|exact E|].
  - split.
    + intros k c. change (d_campaigns (rows_of (helm_of policy_db))) with ({[ 1 := sample_campaign <| c_policy_id := Some 1 |> ]} : gmap Z campaign). by intros [<- <-]%lookup_singleton_Some.
    + intros k cd. change (d_candidates (rows_of (helm_of policy_db))) with ({[ 1 := sample_candidate 1 4 Exhausted ]} : gmap Z candidate). by intros [<- <-]%lookup_singleton_Some.
  - destruct Ht as (_ & _ & _ & _ & Hm & _ & _ & _ & _ & _ & _ & _ & _ & Hs & _ & Hst & _ & Hmid & _). exists s', ps.
    split; [done|]. split; [exact Hs|]. split; [exact Hst|]. split.
    + rewrite Hmid. vm_compute in Hm. by injection Hm as <-.
    + change s' with ((inr tt : exn + unit), s').2. rewrite <-E. vm_compute. reflexivity.
Defined.

(** A spent candidate whose one run failed. *)
Lemma retry_queues_the_failures_witness :
  let db := sample_db <| d_runs := {[ 1 := Samples.sample_run 1 1 1 [0; 1; 2; 3] Failed ]} |> in
  exists s' cd', answered (retry_failed 1) (helm_of db) = (inr 1, s') /\
    d_candidates (rows_of s') !! 1 = Some cd' /\ d_runs (rows_of s') = d_runs db.
Proof.
  cbv zeta. set (db := sample_db <| d_runs := _ |>).
  destruct (answered (retry_failed 1) (helm_of db)) as [r s'] eqn:E.
  assert (r = inr 1) as -> by (change r with (r, s').1; rewrite <-E; vm_compute; reflexivity).
  pose proof (retry_queues_the_failures 1 (helm_of db) (proj1 sample_keyed)) as Ht. rewrite E in Ht.
  destruct Ht as (c & c' & again & _ & _ & _ & _ & _ & Hcd & _ & Hruns & _).
  destruct (Hcd 1 (sample_candidate 1 4 Exhausted) eq_refl) as (cd' & Hcd' & _). by exists s', cd'.
Defined.

(** ** Where the code goes further than what it says *)

(** A campaign that ran before limits were called redlines keeps them under
    their old name, which everything that reads an objective still honours.
    Given a quality floor, validation writes the floor under the new name, and
    the campaign's own limits no longer hold. *)
Definition old_limit : tree := [("metric", Sc (VStr "ttft_ms@p90")); ("op", Sc (VStr "<=")); ("value", Sc (VInt 500))].
Definition old_notes (key : string) : campaign_notes := CampaignNotes [] [(key, Ls [Mp old_limit])] [].
Definition with_floor : ValidateRequest := 
  mkValidateRequest [sample_config 4; sample_config 2] "node-2" 8 "" ["gpqa_diamond"] (Some (f_of_Z 10)).
Theorem floor_drops_old_limits :
  redlines (kn_objective (old_notes "constraints")) = [old_limit] /\
  (forall key, key = "redlines" \/ key = "constraints" ->
    match floored with_floor (old_notes key) with
    | inr n => length (redlines (kn_verify_objective n)) = (if String.eqb key "redlines" then 2 else 1)%nat /\
               (existsb (fun r => negb (is_relative r)) (redlines (kn_verify_objective n)) = String.eqb key "redlines")
    | inl _ => False
    end).
Proof. split; [vm_compute; reflexivity|]. intros key [->| ->]; vm_compute; split; reflexivity. Qed.
