(* ===== verification/Substrate.v ===== *)
(** What a deployment is to any substrate ([control/launch/base.py]): the
    machine, the launch and the workload as data, the mounts of a container,
    the plan of a gang and how its nodes are started, and the interface of a
    driver. *)
From Stdlib Require Import Ascii.
From S2P Require Import Prelude Float Values Texts Documents Space Validation Flags.
#[local] Open Scope string_scope.
#[local] Open Scope list_scope.
#[local] Open Scope Z_scope.

(** ** Descriptions *)
Record MachineInfo := mkMachineInfo {
  mi_name : string;
  mi_host : string;
  mi_ssh_user : string;
  mi_ssh_port : Z;
  mi_gpu_count : Z;
  mi_data_host : string;
  mi_nccl_ifname : string;
  mi_driver : string;
  mi_cluster_id : option Z;
  mi_node_selector : string;
}.
#[export] Instance MachineInfo_eta : Eta _ := fun m =>
  mkMachineInfo (mi_name m) (mi_host m) (mi_ssh_user m) (mi_ssh_port m) (mi_gpu_count m) (mi_data_host m)
    (mi_nccl_ifname m) (mi_driver m) (mi_cluster_id m) (mi_node_selector m).

(** [a or b], of texts. *)
Definition text_or_else (a b : string) : string := if String.eqb a "" then b else a.

Definition interior_host (m : MachineInfo) : string := text_or_else (mi_data_host m) (mi_host m).

Record NodeAssignment := mkNodeAssignment {
  na_machine : MachineInfo;
  na_gpu_indices : list Z;
  na_rank : Z;
  na_container_name : string;
  na_data_host : string;
}.

(** The recipe and the pinned chart of a launch are read by the chart's own
    driver only, and left out. *)
Record LaunchSpec := mkLaunchSpec {
  ls_run_id : Z;
  ls_machine : MachineInfo;
  ls_engine : string;
  ls_image : string;
  ls_model_path : string;
  ls_served_model_name : string;
  ls_engine_args : tree;
  ls_gpu_indices : list Z;
  ls_port : Z;
  ls_env : list (string * string);
  ls_volumes : list (string * string);
  ls_nodes : list NodeAssignment;
  ls_allowed_nodes : list string;
  ls_rank : Z;
  ls_nnodes : Z;
  ls_dist_init_addr : string;
  ls_dist_port : Z;
  ls_node_container : string;
}.
#[export] Instance LaunchSpec_eta : Eta _ := fun s =>
  mkLaunchSpec (ls_run_id s) (ls_machine s) (ls_engine s) (ls_image s) (ls_model_path s) (ls_served_model_name s)
    (ls_engine_args s) (ls_gpu_indices s) (ls_port s) (ls_env s) (ls_volumes s) (ls_nodes s) (ls_allowed_nodes s)
    (ls_rank s) (ls_nnodes s) (ls_dist_init_addr s) (ls_dist_port s) (ls_node_container s).

Definition run_container (run_id : Z) : string := "autotune-run-" +:+ pretty run_id.
Definition container_name (spec : LaunchSpec) : string :=
  text_or_else (ls_node_container spec) (run_container (ls_run_id spec)).
Definition endpoint_url (spec : LaunchSpec) : string :=
  "http://" +:+ mi_host (ls_machine spec) +:+ ":" +:+ pretty (ls_port spec).
Definition multi_node (spec : LaunchSpec) : bool := 1 <? ls_nnodes spec.

(** [spec.for_node(node)]: one node's part of a plan, which has no plan. *)
Definition for_node (spec : LaunchSpec) (node : NodeAssignment) : LaunchSpec :=
  spec <| ls_machine := na_machine node |> <| ls_gpu_indices := na_gpu_indices node |>
       <| ls_rank := na_rank node |> <| ls_nodes := [] |>
       <| ls_node_container :=
            text_or_else (na_container_name node)
              (run_container (ls_run_id spec) +:+
               if na_rank node =? 0 then "" else "-r" +:+ pretty (na_rank node)) |>.

Record WorkloadSpec := mkWorkloadSpec {
  ws_name : string;
  ws_machine : MachineInfo;
  ws_image : string;
  ws_command : list string;
  ws_env : list (string * string);
  ws_volumes : list (string * string);
  ws_gpu_indices : option (list Z);
  ws_ports : list Z;
}.

Inductive WorkloadState := WRunning | WExited | WGone.
Inductive DeploymentState := Starting | Ready | Crashed | Gone.
#[export] Instance WorkloadState_eq_dec : EqDecision WorkloadState.
Proof. solve_decision. Defined.
#[export] Instance DeploymentState_eq_dec : EqDecision DeploymentState.
Proof. solve_decision. Defined.

Inductive DeploymentHandle := mkHandle {
  h_driver : string;
  h_container_name : string;
  h_machine : MachineInfo;
  h_endpoint_url : string;
  h_workload : bool;
  h_node_handles : list DeploymentHandle;
  h_rank : Z;
}.
#[export] Instance DeploymentHandle_eta : Eta _ := fun h =>
  mkHandle (h_driver h) (h_container_name h) (h_machine h) (h_endpoint_url h) (h_workload h) (h_node_handles h) (h_rank h).

Definition all_handles (h : DeploymentHandle) : list DeploymentHandle := h :: h_node_handles h.

(** ** The command an engine is started with *)
Definition serving (spec : LaunchSpec) : serve_spec :=
  ServeSpec (ls_served_model_name spec) (ls_port spec) (ls_engine_args spec) (ls_nnodes spec) (ls_rank spec)
    (ls_dist_init_addr spec).

(** [get_adapter(engine).build_command(spec)]. *)
Definition build_command (spec : LaunchSpec) : exn + list string :=
  if String.eqb (ls_engine spec) "sglang" then inr (sglang_command (serving spec))
  else if String.eqb (ls_engine spec) "vllm" then inr (vllm_command (serving spec))
  else inl (OtherError ("unknown engine '" +:+ ls_engine spec +:+ "' (available: ['sglang', 'vllm'])")).

(** ** Mounts *)

(** Where a declared mount goes: its container path without options and
    without a closing slash. *)
Definition mount_target (path : string) : string :=
  let head := match partition ":" path with Some (head, _) => head | None => path end in
  text_or_else (rstrip "/" head) "/".

Definition merge_volumes (defaults declared : list (string * string)) : list (string * string) :=
  dict_update (where_ (fun ht => negb (bool_decide (mount_target ht.2 ∈ map (fun d => mount_target d.2) declared))) defaults)
    declared.

(** ** Drivers *)
Class Driver (S : Type) := {
  drv_launch : LaunchSpec -> M S (DeploymentHandle * string);
  drv_teardown : DeploymentHandle -> M S unit;
  drv_state : DeploymentHandle -> M S DeploymentState;
  drv_wait_rendezvous : LaunchSpec -> M S unit;
}.

Section driver.
Context {S : Type} `{!Driver S}.

(** What a driver does unless it says otherwise. *)
Definition request_stop (h : DeploymentHandle) : M S unit := drv_teardown h.
Definition is_gone (h : DeploymentHandle) : M S bool :=
  state <- drv_state h ;; ret (bool_decide (state = Gone)).
Definition unfinished (h : DeploymentHandle) : M S (list DeploymentHandle) :=
  for_acc (all_handles h) [] (fun node out => gone <- is_gone node ;; ret (if gone then out else out ++ [node])).

Definition _single_node (spec : LaunchSpec) : NodeAssignment :=
  mkNodeAssignment (ls_machine spec) (ls_gpu_indices spec) 0 (container_name spec) (interior_host (ls_machine spec)).

Definition plan_of (spec : LaunchSpec) : list NodeAssignment :=
  sort_by (key_before (fun node => [na_rank node]))
    (match ls_nodes spec with [] => [_single_node spec] | plan => plan end).

(** Cleaning up after a failure never hides it. *)
Definition take_down (handles : list DeploymentHandle) : M S unit :=
  for_each (reverse handles) (fun h => try_ (drv_teardown h) (fun _ => ret tt)).

Definition or_take_down {A} (handles : list DeploymentHandle) (m : M S A) : M S A :=
  try_ m (fun e => take_down handles ;;; raise e).

(** The nodes one after another; [handles] and [commands] are of those started. *)
Fixpoint start_nodes (spec : LaunchSpec) (gang : bool) (plan : list NodeAssignment)
    (handles : list DeploymentHandle) (commands : list string) : M S (list DeploymentHandle * list string) :=
  match plan with
  | [] => ret (handles, commands)
  | node :: plan' =>
      let node_spec := for_node spec node in
      ' (h, command) <- or_take_down handles (drv_launch node_spec) ;;
      let handles' := handles ++ [h <| h_rank := na_rank node |>] in
      or_take_down handles' (when ((na_rank node =? 0) && gang) do_ drv_wait_rendezvous node_spec) ;;;
      start_nodes spec gang plan' handles' (commands ++ [command])
  end.

Definition launch_nodes (spec : LaunchSpec) : M S (DeploymentHandle * list string) :=
  let plan := plan_of spec in
  ' (handles, commands) <- start_nodes spec (1 <? length plan)%nat plan [] [] ;;
  match handles with
  | master :: workers => ret (master <| h_node_handles := workers |>, commands)
  | [] => raise (OtherError "IndexError")
  end.
End driver.

(** ** Smoke tests *)
Inductive smoke_status := SmokePass | SmokeWarn | SmokeFail | SmokeSkip.
#[export] Instance smoke_status_eq_dec : EqDecision smoke_status.
Proof. solve_decision. Defined.
(** A step's answer, without its sentence. *)
Record smoke_check := SmokeCheck { sc_name : string; sc_status : smoke_status }.
Record smoke_result := SmokeResult { sr_ok : bool; sr_checks : list smoke_check }.

Definition smoke_result_of (checks : list smoke_check) : smoke_result :=
  SmokeResult (negb (existsb (fun check => bool_decide (sc_status check = SmokeFail)) checks)) checks.

(** The steps in their order, and the answers so far. *)
Record SmokeSteps := mkSmokeSteps { ss_order : list string; ss_done : list (string * smoke_check) }.

Definition add_check (check : smoke_check) (steps : SmokeSteps) : SmokeSteps :=
  let name := sc_name check in
  mkSmokeSteps (if bool_decide (name ∈ ss_order steps) then ss_order steps else ss_order steps ++ [name])
    (dict_set name check (ss_done steps)).
Definition any_failed (steps : SmokeSteps) : bool :=
  existsb (fun nc => bool_decide (sc_status nc.2 = SmokeFail)) (ss_done steps).
Definition skip_unreached (name : string) (steps : SmokeSteps) : SmokeSteps :=
  if dict_has name (ss_done steps) then steps else add_check (SmokeCheck name SmokeSkip) steps.
Definition steps_result (steps : SmokeSteps) : smoke_result :=
  let steps' := foldl (fun s name => skip_unreached name s) steps (ss_order steps) in
  smoke_result_of (omap (fun name => dict_get name (ss_done steps')) (ss_order steps')).

(** ** Lemmas *)
Section dict_update.
Context {A : Type}.
Implicit Types a b : list (string * A).

Lemma elem_of_dict_update k v a b : NoDup a.*1 -> NoDup b.*1 ->
  (k, v) ∈ dict_update a b <-> (k, v) ∈ b \/ (k, v) ∈ a /\ k ∉ b.*1.
Proof.
  intros Ha Hb. pose proof (dict_update_NoDup a b Ha) as Hnd.
  assert (forall d, NoDup d.*1 -> (k, v) ∈ d <-> dict_get k d = Some v) as Hget.
  { intros d Hd. split; [by apply dict_get_in|by apply dict_get_Some_in]. }
  rewrite !Hget by done. rewrite dict_get_update by done.
  destruct (dict_get k b) as [w|] eqn:E.
  - assert (k ∈ b.*1) by (apply dict_get_Some_in in E; apply list_elem_of_fmap; by exists (k, w)).
    naive_solver.
  - apply dict_get_None in E. naive_solver.
Qed.
End dict_update.

Lemma where_NoDup_keys (P : string * string -> bool) l : NoDup l.*1 -> NoDup (where_ P l).*1.
Proof. apply (NoDup_map_where fst). Qed.

Definition target_of (ht : string * string) : string := mount_target ht.2.

Lemma merge_volumes_spec defaults declared host path : NoDup defaults.*1 -> NoDup declared.*1 ->
  (host, path) ∈ merge_volumes defaults declared <->
  (host, path) ∈ declared
  \/ (host, path) ∈ defaults /\ mount_target path ∉ map target_of declared /\ host ∉ declared.*1.
Proof.
  intros Ha Hb. unfold merge_volumes. rewrite elem_of_dict_update; [|by apply where_NoDup_keys|done].
  rewrite elem_of_where, negb_true_iff, bool_decide_eq_false. tauto.
Qed.

Lemma NoDup_map_inj {A B} (f : A -> B) (l : list A) x y : NoDup (map f l) -> x ∈ l -> y ∈ l -> f x = f y -> x = y.
Proof.
  induction l as [|z l IH]; [by intros _ ?%elem_of_nil|]. cbn. intros [Hz Hnd]%NoDup_cons Hx Hy E.
  apply elem_of_cons in Hx as [->|Hx], Hy as [->|Hy]; [done| | |by apply IH].
  - destruct Hz. rewrite E. by apply list_elem_of_fmap_2.
  - destruct Hz. rewrite <- E. by apply list_elem_of_fmap_2.
Qed.

(** What a container mounts: at most one volume per path, every declared
    volume, and every default one unless a declared volume takes its path or
    its directory is declared for another path. *)
Theorem one_mount_per_path (defaults declared : list (string * string)) :
  NoDup defaults.*1 -> NoDup declared.*1 ->
  NoDup (map target_of defaults) -> NoDup (map target_of declared) ->
  NoDup (map target_of (merge_volumes defaults declared))
  /\ (forall ht, ht ∈ declared -> ht ∈ merge_volumes defaults declared)
  /\ (forall ht, ht ∈ defaults -> ht ∉ declared ->
        ht ∈ merge_volumes defaults declared <->
        ~ ((exists d, d ∈ declared /\ target_of d = target_of ht)
           \/ (exists path, (ht.1, path) ∈ declared /\ path <> ht.2))).
Proof.
  intros Hk Hk' Ht Ht'. pose proof (merge_volumes_spec defaults declared) as Hspec.
  assert (NoDup (merge_volumes defaults declared)) as Hnd.
  { apply (NoDup_fmap_1 fst). unfold merge_volumes. by apply dict_update_NoDup, where_NoDup_keys. }
  split_and!.
  - apply NoDup_fmap_2_strong; [|done]. intros [h p] [h' p'] Hin Hin' E.
    apply Hspec in Hin as [Hin|(Hin & Hp & Hh)], Hin' as [Hin'|(Hin' & Hp' & Hh')]; try done.
    + by apply (NoDup_map_inj target_of declared).
    + destruct Hp'. change (target_of (h', p') ∈ map target_of declared). rewrite <- E. by apply list_elem_of_fmap_2.
    + destruct Hp. change (target_of (h, p) ∈ map target_of declared). rewrite E. by apply list_elem_of_fmap_2.
    + by apply (NoDup_map_inj target_of defaults).
  - intros [h p] Hin. apply Hspec; [done..|]. by left.
  - intros [h p] Hin Hd0. cbn [fst snd]. rewrite Hspec by done. split.
    + intros [Hd|(_ & Hp & Hh)]; [done|].
      intros [(d & Hd & E)|(path & Hd & _)]; [destruct Hp; change (target_of (h, p) ∈ map target_of declared); rewrite <- E; by apply list_elem_of_fmap_2|].
      destruct Hh. apply list_elem_of_fmap. by exists (h, path).
    + intros Hn. right. split_and!; [done| |].
      * intros (d & E & Hd)%list_elem_of_fmap. apply Hn. left. by exists d.
      * intros ([h' path] & -> & Hd)%list_elem_of_fmap. cbn in *. apply Hn. right. exists path. split; [done|].
        by intros ->.
Qed.

Lemma one_mount_per_path_witness :
  merge_volumes [("/data/m", "/model"); ("/srv/c", "/root/.cache")] [("/nvme/c", "/root/.cache/:rw")]
  = [("/data/m", "/model"); ("/nvme/c", "/root/.cache/:rw")]
  /\ NoDup (map target_of (merge_volumes [("/data/m", "/model"); ("/srv/c", "/root/.cache")] [("/nvme/c", "/root/.cache/:rw")])).
Proof.
  split; [by vm_compute|].
  apply (one_mount_per_path [("/data/m", "/model"); ("/srv/c", "/root/.cache")] [("/nvme/c", "/root/.cache/:rw")]);
    apply (bool_decide_unpack _); by vm_compute.
Defined.

(** The mounts are merged by their directories: a directory that is declared
    for another path as well is no longer mounted where the engine looks. *)
Lemma redeclared_directory_is_not_the_model :
  merge_volumes [("/data/m", MODEL_MOUNT)] [("/data/m", "/weights")] = [("/data/m", "/weights")].
Proof. by vm_compute. Qed.

(** ** A gang starts whole, or leaves nothing

    What a driver promises of its containers: a launch under a free name makes
    its own and no other, and a teardown removes no other. *)
Definition single (h : DeploymentHandle) : Prop := h_workload h = false /\ h_node_handles h = [].
Class DriverLaws (S : Type) `{!Driver S} := {
  live : S -> gset string;
  launch_live spec s : container_name spec ∉ live s -> match drv_launch spec s with
    | (inr (h, _), s') =>
        h_container_name h = container_name spec /\ single h /\ live s' = {[ container_name spec ]} ∪ live s
    | (inl _, s') => live s ⊆ live s' ⊆ {[ container_name spec ]} ∪ live s
    end;
  teardown_live h s : single h -> live s ∖ {[ h_container_name h ]} ⊆ live (drv_teardown h s).2 ⊆ live s;
  wait_live spec s : live (drv_wait_rendezvous spec s).2 = live s;
}.

Section gangs.
Context {S : Type} `{!Driver S, !DriverLaws S}.
Implicit Types (spec : LaunchSpec) (s : S) (plan : list NodeAssignment).

Definition node_name spec (node : NodeAssignment) : string := container_name (for_node spec node).
Definition names_of (handles : list DeploymentHandle) : gset string := list_to_set (map h_container_name handles).

(** The substrate can take a container down whatever it is in the middle of. *)
Definition teardown_succeeds : Prop := forall h s, single h ->
  exists s', drv_teardown h s = (inr tt, s') /\ h_container_name h ∉ live s'.

Definition engines (handles : list DeploymentHandle) : Prop := Forall single handles.

Lemma for_each_live (l : list DeploymentHandle) s : teardown_succeeds -> engines l ->
  exists s', for_each l (fun h => try_ (drv_teardown h) (fun _ => ret tt)) s = (inr tt, s')
             /\ live s' = live s ∖ names_of l.
Proof.
  intros Hok Hl. revert s. induction Hl as [|h l Hh _ IH]; intros s.
  - exists s. split; [done|]. unfold names_of. cbn. set_solver.
  - cbn [for_each]. unfold bind at 1, try_ at 1. destruct (Hok h s Hh) as (s1 & E1 & Hgone). rewrite E1.
    pose proof (teardown_live h s Hh) as H1. rewrite E1 in H1. cbn [snd] in H1.
    destruct (IH s1) as (s2 & -> & E2). exists s2. split; [done|]. rewrite E2. unfold names_of. cbn. set_solver.
Qed.

Lemma take_down_live handles s : teardown_succeeds -> engines handles ->
  exists s', take_down handles s = (inr tt, s') /\ live s' = live s ∖ names_of handles.
Proof.
  intros Hok Hh. destruct (for_each_live (reverse handles) s Hok) as (s' & E & Hl).
  { by apply Forall_reverse. }
  exists s'. split; [done|].
  rewrite Hl. f_equal. unfold names_of. apply set_eq. intros x. rewrite !elem_of_list_to_set, !list_elem_of_fmap.
  by setoid_rewrite elem_of_reverse.
Qed.

Lemma names_of_snoc handles h : names_of (handles ++ [h]) = {[ h_container_name h ]} ∪ names_of handles.
Proof. unfold names_of. rewrite map_app, list_to_set_app_L. cbn. set_solver. Qed.

(** What is started so far, beside what was there. *)
Definition started (before : gset string) (handles : list DeploymentHandle) s : Prop :=
  live s = names_of handles ∪ before.

(** What a start of the nodes of [plan] comes to, after [handles]. *)
Definition whole_or_nothing spec (before : gset string) plan handles (commands : list string)
    (r : (exn + list DeploymentHandle * list string) * S) : Prop :=
  match r with
  | (inr (handles', commands'), s') =>
      map h_container_name handles' = map h_container_name handles ++ map (node_name spec) plan
      /\ map h_rank handles' = map h_rank handles ++ map na_rank plan
      /\ length commands' = (length commands + length plan)%nat
      /\ started before handles' s'
  | (inl _, s') =>
      before ⊆ live s' /\ exists node, node ∈ plan /\ live s' ⊆ {[ node_name spec node ]} ∪ before
  end.

(** A failure takes down what was started, and only the failing node may have
    left something. *)
Lemma or_take_down_fails {A} (handles : list DeploymentHandle) (m : M S A) (before left : gset string) s e s1 :
  teardown_succeeds -> engines handles -> names_of handles ## before -> m s = (inl e, s1) ->
  before ⊆ live s1 -> live s1 ⊆ left ∪ (names_of handles ∪ before) ->
  exists s2, or_take_down handles m s = (inl e, s2) /\ before ⊆ live s2 ⊆ left ∪ before.
Proof.
  intros Hok Hh Hdis Em H1 H2. unfold or_take_down, try_. rewrite Em.
  destruct (take_down_live handles s1 Hok Hh) as (s2 & E & Hl). exists s2. unfold bind. rewrite E.
  split; [done|]. rewrite Hl. set_solver.
Qed.

Lemma gate_live (b : bool) spec s : live ((when b do_ drv_wait_rendezvous spec) s).2 = live s.
Proof. destruct b; [apply wait_live|done]. Qed.

Lemma start_nodes_live spec gang (before : gset string) plan handles commands s :
  teardown_succeeds -> engines handles -> names_of handles ## before ->
  (forall node, node ∈ plan -> node_name spec node ∉ names_of handles ∪ before) ->
  NoDup (map (node_name spec) plan) -> started before handles s ->
  whole_or_nothing spec before plan handles commands (start_nodes spec gang plan handles commands s).
Proof.
  intros Hok. revert handles commands s.
  induction plan as [|node plan IH]; intros handles commands s Hh Hdis Hnew Hnd Hs.
  { unfold whole_or_nothing. cbn. rewrite !app_nil_r. split_and!; [done|done|lia|done]. }
  cbn [start_nodes]. unfold bind at 1. unfold started in Hs.
  assert (node_name spec node ∉ names_of handles ∪ before) as Hfresh by (apply Hnew; by left).
  pose proof (launch_live (for_node spec node) s) as Hl. rewrite Hs in Hl at 1. specialize (Hl Hfresh).
  destruct (drv_launch (for_node spec node) s) as [[e|[h command]] s1] eqn:El.
  { destruct (or_take_down_fails handles (drv_launch (for_node spec node)) before {[ node_name spec node ]} s e s1)
      as (s2 & -> & H1 & H2); [done..|rewrite Hs in Hl; clear -Hl; set_solver|rewrite Hs in Hl; unfold node_name; clear -Hl; set_solver|].
    split; [done|]. exists node. split; [by left|done]. }
  unfold or_take_down at 1, try_ at 1. rewrite El. destruct Hl as (Hname & Hw0 & Hl).
  set (handles' := handles ++ [h <| h_rank := na_rank node |>]).
  assert (names_of handles' = {[ node_name spec node ]} ∪ names_of handles) as Hn.
  { unfold handles'. rewrite names_of_snoc. change (h_container_name (h <| h_rank := na_rank node |>)) with (h_container_name h).
    by rewrite Hname. }
  apply NoDup_cons in Hnd as [Hnot Hnd].
  pose proof (gate_live ((na_rank node =? 0) && gang) (for_node spec node) s1) as Hw.
  rewrite Hl, Hs in Hw. fold (node_name spec node) in Hw. rewrite (assoc_L (∪)), <- Hn in Hw.
  assert (names_of handles' ## before) as Hdis' by (rewrite Hn; clear -Hfresh Hdis; set_solver).
  assert (engines handles') as Hh' by (apply Forall_app; split; [done|by constructor]).
  unfold bind at 1. destruct ((when ((na_rank node =? 0) && gang) do_ drv_wait_rendezvous (for_node spec node)) s1)
    as [[e|[]] s2] eqn:Ew; cbn [snd] in Hw.
  { destruct (or_take_down_fails handles' (when ((na_rank node =? 0) && gang) do_ drv_wait_rendezvous (for_node spec node))
                before ∅ s1 e s2) as (s3 & -> & H1 & H2); [done..|rewrite Hw; apply union_subseteq_r|rewrite Hw; apply union_subseteq_r|].
    split; [done|]. exists node. split; [by left|]. rewrite union_empty_l_L in H2. etrans; [exact H2|apply union_subseteq_r]. }
  unfold or_take_down at 1, try_ at 1. rewrite Ew.
  assert (whole_or_nothing spec before plan handles' (commands ++ [command])
            (start_nodes spec gang plan handles' (commands ++ [command]) s2)) as Hrest.
  { apply IH; [done|done| |done|done].
    intros node' Hin. rewrite Hn. intros [[Hx%elem_of_singleton|Hx]%elem_of_union|Hx]%elem_of_union.
    - apply Hnot. rewrite <- Hx. by apply list_elem_of_fmap_2.
    - apply (Hnew node'); [by right|]. by apply elem_of_union_l.
    - apply (Hnew node'); [by right|]. by apply elem_of_union_r. }
  destruct (start_nodes spec gang plan handles' (commands ++ [command]) s2) as [[e|[hs cs]] s3].
  - destruct Hrest as (H1 & node' & Hin & H2). split; [done|]. exists node'. split; [by right|done].
  - destruct Hrest as (H1 & H2 & H3 & H4). unfold whole_or_nothing. rewrite H1, H2, H3. unfold handles'. rewrite !map_app, length_app. cbn [map length].
    rewrite <- !app_assoc. cbn [app]. change (h_container_name (h <| h_rank := na_rank node |>)) with (h_container_name h).
    rewrite Hname. split_and!; [done|done|lia|done].
Qed.

Lemma plan_in_rank_order spec : StronglySorted Z.le (map na_rank (plan_of spec)).
Proof.
  unfold plan_of. set (l := match ls_nodes spec with [] => _ | _ => _ end).
  pose proof (sort_by_sorted (key_before (fun node => [na_rank node])) l) as Hs.
  induction Hs as [|x k _ IH Hx]; cbn; constructor; [done|].
  apply Forall_map. eapply Forall_impl; [exact Hx|]. intros y E. unfold key_before in E. cbn in E. cbn. lia.
Qed.

(** C39: a gang is started in the order of its ranks and comes up whole, every
    node under its own name; a node that cannot be started takes the others
    down, only it may have left something, and what was running before is
    untouched.  Assumed: the nodes of the plan have different names, none of
    them in use, and a take-down succeeds. *)
Theorem gang_starts_whole_or_not_at_all spec s :
  teardown_succeeds -> NoDup (map (node_name spec) (plan_of spec)) ->
  (forall node, node ∈ plan_of spec -> node_name spec node ∉ live s) ->
  match launch_nodes spec s with
  | (inr (h, commands), s') =>
      map h_container_name (all_handles h) = map (node_name spec) (plan_of spec)
      /\ map h_rank (all_handles h) = map na_rank (plan_of spec)
      /\ StronglySorted Z.le (map h_rank (all_handles h))
      /\ length commands = length (plan_of spec)
      /\ live s' = list_to_set (map (node_name spec) (plan_of spec)) ∪ live s
  | (inl _, s') =>
      live s ⊆ live s' /\ exists node, node ∈ plan_of spec /\ live s' ⊆ {[ node_name spec node ]} ∪ live s
  end.
Proof.
  intros Hok Hnd Hnew. unfold launch_nodes. set (gang := (1 <? length (plan_of spec))%nat). unfold bind.
  pose proof (start_nodes_live spec gang (live s) (plan_of spec) [] [] s Hok) as Hr.
  destruct (start_nodes spec gang (plan_of spec) [] [] s) as [[e|[handles commands]] s1].
  - apply Hr; [constructor|set_solver| |done|unfold started, names_of; set_solver].
    intros node Hin. unfold names_of. cbn. rewrite union_empty_l_L. by apply Hnew.
  - destruct Hr as (H1 & H2 & H3 & H4); [constructor|set_solver| |done|unfold started, names_of; set_solver|].
    { intros node Hin. unfold names_of. cbn. rewrite union_empty_l_L. by apply Hnew. }
    destruct handles as [|master workers].
    + symmetry in H1. apply map_eq_nil in H1. exfalso. unfold plan_of in H1.
      apply (f_equal length) in H1. rewrite length_sort_by in H1. by destruct (ls_nodes spec).
    + split_and!; [done|done| |done|].
      * change (StronglySorted Z.le (map h_rank (master :: workers))). rewrite H2. apply plan_in_rank_order.
      * unfold started, names_of in H4. by rewrite H1 in H4.
Qed.

End gangs.
