(* ===== verification/Clusters.v ===== *)
(** The settings of one cluster ([control/launch/clusters.py]): the install's
    own, a row of the clusters table over them, and the value a machine's
    cluster resolves to, which is kept for a while. *)
From Stdlib Require Import Ascii.
From S2P Require Import Prelude Float Values.
#[local] Open Scope string_scope.
#[local] Open Scope list_scope.
#[local] Open Scope Z_scope.

(** The kubeconfig is the decrypted one; the revision that renews a transport is
    left out. *)
Record K8sClusterSettings := mkCluster {
  cluster_id : option Z;
  cluster_name : string;
  kubeconfig_content : string;
  k8s_api_mode : string;
  k8s_kubectl_bin : string;
  k8s_namespace : string;
  k8s_context : string;
  k8s_kubeconfig : string;
  k8s_in_cluster : bool;
  k8s_workload_kind : string;
  k8s_chart_repo : string;
  k8s_chart_credentials_secret : string;
  k8s_endpoint : string;
  k8s_image_mirror : string;
  k8s_site_values : string;
  k8s_cr_group : string;
  k8s_cr_version : string;
  k8s_cr_kind : string;
  k8s_cr_plural : string;
  k8s_cr_pod_label : string;
  k8s_run_ttl_seconds : Z;
  k8s_node_host : string;
  k8s_service_nodeport : Z;
  k8s_gpu_resource : string;
  k8s_gpu_product_label : string;
  k8s_runtime_class : string;
  k8s_engine_cpu_request : string;
  k8s_engine_memory_request : string;
  k8s_engine_cpu_limit : string;
  k8s_engine_memory_limit : string;
  k8s_node_selector : string;
  k8s_tolerate_gpu_taint : bool;
  k8s_tolerations : string;
  k8s_image_pull_secrets : string;
  k8s_model_pvc : string;
  k8s_model_pvc_root : string;
  k8s_shm_size_mb : Z;
  k8s_call_timeout : Z;
  k8s_policy_cpu_request : string;
  k8s_policy_memory_request : string;
  k8s_policy_ttl_after_finished : Z;
  k8s_policy_deadline_seconds : Z;
  k8s_policy_priority_class : string;
  k8s_policy_node_selector : string;
}.
#[export] Instance K8sClusterSettings_eta : Eta _ := fun c =>
  mkCluster (cluster_id c) (cluster_name c) (kubeconfig_content c) (k8s_api_mode c) (k8s_kubectl_bin c)
    (k8s_namespace c) (k8s_context c) (k8s_kubeconfig c) (k8s_in_cluster c) (k8s_workload_kind c) (k8s_chart_repo c)
    (k8s_chart_credentials_secret c) (k8s_endpoint c) (k8s_image_mirror c) (k8s_site_values c) (k8s_cr_group c)
    (k8s_cr_version c) (k8s_cr_kind c) (k8s_cr_plural c) (k8s_cr_pod_label c) (k8s_run_ttl_seconds c) (k8s_node_host
    c) (k8s_service_nodeport c) (k8s_gpu_resource c) (k8s_gpu_product_label c) (k8s_runtime_class c)
    (k8s_engine_cpu_request c) (k8s_engine_memory_request c) (k8s_engine_cpu_limit c) (k8s_engine_memory_limit c)
    (k8s_node_selector c) (k8s_tolerate_gpu_taint c) (k8s_tolerations c) (k8s_image_pull_secrets c) (k8s_model_pvc
    c) (k8s_model_pvc_root c) (k8s_shm_size_mb c) (k8s_call_timeout c) (k8s_policy_cpu_request c)
    (k8s_policy_memory_request c) (k8s_policy_ttl_after_finished c) (k8s_policy_deadline_seconds c)
    (k8s_policy_priority_class c) (k8s_policy_node_selector c).

(** What a field is unless it is given. *)
Definition default_cluster : K8sClusterSettings :=
  mkCluster None "default" "" "unavailable" "kubectl" "llm-autotune" "" "" false "llmservice"
    "https://modelsphere.github.io/helm-charts" "" "dns" "" "" "tuning.modelsphere.dev" "v1alpha1" "TuningRun"
    "tuningruns" "tuning.modelsphere.dev/run" 0 "" 0 "nvidia.com/gpu" "nvidia.com/gpu.product" "nvidia" "" "" "" ""
    "" true "" "" "" "" 2048 60 "100m" "256Mi" 86400 0 "" "".

(** A row of the clusters table. *)
Record cluster_row := mkClusterRow {
  cl_id : Z;
  cl_name : string;
  cl_kubeconfig_enc : string;
  cl_chart_repo : string;
  cl_policy_node_selector : string;
  cl_api_mode : string;
  cl_context : string;
  cl_namespace : string;
  cl_workload_kind : string;
  cl_chart_credentials_secret : string;
  cl_endpoint : string;
  cl_image_mirror : string;
  cl_site_values : string;
  cl_node_host : string;
  cl_gpu_resource : string;
  cl_gpu_product_label : string;
  cl_runtime_class : string;
  cl_tolerate_gpu_taint : bool;
  cl_tolerations : string;
  cl_image_pull_secrets : string;
  cl_model_pvc : string;
  cl_model_pvc_root : string;
  cl_shm_size_mb : Z;
  cl_node_selector : string;
  cl_service_nodeport : Z;
  cl_run_ttl_seconds : Z;
  cl_in_cluster : bool;
  cl_cr_group : string;
  cl_cr_version : string;
  cl_cr_kind : string;
  cl_cr_plural : string;
  cl_cr_pod_label : string;
  cl_engine_cpu_request : string;
  cl_engine_memory_request : string;
  cl_engine_cpu_limit : string;
  cl_engine_memory_limit : string;
}.
#[export] Instance cluster_row_eta : Eta _ := fun r =>
  mkClusterRow (cl_id r) (cl_name r) (cl_kubeconfig_enc r) (cl_chart_repo r) (cl_policy_node_selector r)
    (cl_api_mode r) (cl_context r) (cl_namespace r) (cl_workload_kind r) (cl_chart_credentials_secret r)
    (cl_endpoint r) (cl_image_mirror r) (cl_site_values r) (cl_node_host r) (cl_gpu_resource r)
    (cl_gpu_product_label r) (cl_runtime_class r) (cl_tolerate_gpu_taint r) (cl_tolerations r)
    (cl_image_pull_secrets r) (cl_model_pvc r) (cl_model_pvc_root r) (cl_shm_size_mb r) (cl_node_selector r)
    (cl_service_nodeport r) (cl_run_ttl_seconds r) (cl_in_cluster r) (cl_cr_group r) (cl_cr_version r) (cl_cr_kind
    r) (cl_cr_plural r) (cl_cr_pod_label r) (cl_engine_cpu_request r) (cl_engine_memory_request r)
    (cl_engine_cpu_limit r) (cl_engine_memory_limit r).

(** A column that is not set is one of these. *)
Definition blank_row (id : Z) (name : string) : cluster_row :=
  mkClusterRow id name "" "" "" "client" "" "autotune" "llmservice" "" "dns" "" "" "" "nvidia.com/gpu"
    "nvidia.com/gpu.product" "nvidia" true "" "" "" "" 2048 "" 0 0 false "tuning.modelsphere.dev" "v1alpha1"
    "TuningRun" "tuningruns" "tuning.modelsphere.dev/run" "" "" "" "".

(** [_copyable(settings)] with the identity of the default cluster. *)
Definition from_settings (settings : K8sClusterSettings) : K8sClusterSettings :=
  settings <| cluster_id := None |> <| cluster_name := "default" |> <| kubeconfig_content := "" |>.

(** Every mapped column is the row's; the chart repository and the policies'
    selector only where the row has one. *)
Definition columns_of (row : cluster_row) (settings : K8sClusterSettings) : K8sClusterSettings :=
  settings
    <| k8s_api_mode := cl_api_mode row |>
    <| k8s_context := cl_context row |>
    <| k8s_namespace := cl_namespace row |>
    <| k8s_workload_kind := cl_workload_kind row |>
    <| k8s_chart_credentials_secret := cl_chart_credentials_secret row |>
    <| k8s_endpoint := cl_endpoint row |>
    <| k8s_image_mirror := cl_image_mirror row |>
    <| k8s_site_values := cl_site_values row |>
    <| k8s_node_host := cl_node_host row |>
    <| k8s_gpu_resource := cl_gpu_resource row |>
    <| k8s_gpu_product_label := cl_gpu_product_label row |>
    <| k8s_runtime_class := cl_runtime_class row |>
    <| k8s_tolerate_gpu_taint := cl_tolerate_gpu_taint row |>
    <| k8s_tolerations := cl_tolerations row |>
    <| k8s_image_pull_secrets := cl_image_pull_secrets row |>
    <| k8s_model_pvc := cl_model_pvc row |>
    <| k8s_model_pvc_root := cl_model_pvc_root row |>
    <| k8s_shm_size_mb := cl_shm_size_mb row |>
    <| k8s_node_selector := cl_node_selector row |>
    <| k8s_service_nodeport := cl_service_nodeport row |>
    <| k8s_run_ttl_seconds := cl_run_ttl_seconds row |>
    <| k8s_in_cluster := cl_in_cluster row |>
    <| k8s_cr_group := cl_cr_group row |>
    <| k8s_cr_version := cl_cr_version row |>
    <| k8s_cr_kind := cl_cr_kind row |>
    <| k8s_cr_plural := cl_cr_plural row |>
    <| k8s_cr_pod_label := cl_cr_pod_label row |>
    <| k8s_engine_cpu_request := cl_engine_cpu_request row |>
    <| k8s_engine_memory_request := cl_engine_memory_request row |>
    <| k8s_engine_cpu_limit := cl_engine_cpu_limit row |>
    <| k8s_engine_memory_limit := cl_engine_memory_limit row |>.

Definition from_row (decrypt_secret : string -> string) (row : cluster_row) (settings : K8sClusterSettings) : K8sClusterSettings :=
  let values := columns_of row settings in
  let repo := strip (cl_chart_repo row) in
  let policy := strip (cl_policy_node_selector row) in
  let values := if String.eqb repo "" then values else (values) <| k8s_chart_repo := repo |> in
  let values := if String.eqb policy "" then values else (values) <| k8s_policy_node_selector := policy |> in
  (values) <| k8s_api_mode := if String.eqb (cl_api_mode row) "" then "unavailable" else cl_api_mode row |>
           <| cluster_id := Some (cl_id row) |> <| cluster_name := cl_name row |>
           <| kubeconfig_content := decrypt_secret (cl_kubeconfig_enc row) |>.

(** ** Resolution

    The cache maps a cluster to when it was read and what it was; instants are
    microseconds of a clock that only moves forward. *)
Definition _TTL_SECONDS : Z := 15000000.
Abbreviation cluster_cache := (gmap Z (Z * K8sClusterSettings)).

Definition resolve_cluster (decrypt_secret : string -> string) (settings : K8sClusterSettings) (rows : gmap Z cluster_row)
    (now : Z) (id : option Z) (cache : cluster_cache) : K8sClusterSettings * cluster_cache :=
  match id with
  | None | Some 0 => (from_settings settings, cache)
  | Some id =>
      let reload :=
        match rows !! id with
        | None => (from_settings settings, cache)
        | Some row =>
            let resolved := from_row decrypt_secret row settings in
            (resolved, <[ id := (now, resolved) ]> cache)
        end in
      match cache !! id with
      | Some (at_, hit) => if now - at_ <? _TTL_SECONDS then (hit, cache) else reload
      | None => reload
      end
  end.

Definition invalidate_cluster (id : option Z) (cache : cluster_cache) : cluster_cache :=
  match id with None => ∅ | Some id => delete id cache end.

(** ** Lemmas *)
Section resolution.
Context (decrypt_secret : string -> string) (settings : K8sClusterSettings).

(** What a cluster is by its row. *)
Definition settled (rows : gmap Z cluster_row) (id : Z) : K8sClusterSettings :=
  match rows !! id with Some row => from_row decrypt_secret row settings | None => from_settings settings end.

(** Everything in the cache was read from a row, and not in the future. *)
Definition cache_ok (table : Z -> gmap Z cluster_row) (now : Z) (cache : cluster_cache) : Prop :=
  forall id at_ hit, cache !! id = Some (at_, hit) -> at_ <= now /\ hit = settled (table at_) id.

(** The settings a machine's cluster resolves to are those its row had within
    the last fifteen seconds; a machine that names none has the install's. *)
Theorem resolved_cluster_is_recent (table : Z -> gmap Z cluster_row) (earlier now : Z) id cache :
  earlier <= now -> cache_ok table earlier cache ->
  let '(resolved, cache') := resolve_cluster decrypt_secret settings (table now) now id cache in
  cache_ok table now cache'
  /\ match id with
     | None | Some 0 => resolved = from_settings settings
     | Some id => exists at_, now - _TTL_SECONDS < at_ <= now /\ resolved = settled (table at_) id
     end.
Proof.
  intros Hle Hok. assert (cache_ok table now cache) as Hnow.
  { intros k at_ hit Hk. destruct (Hok k at_ hit Hk). split; [lia|done]. }
  assert (forall k, let r := match table now !! k with
                         | None => (from_settings settings, cache)
                         | Some row => (from_row decrypt_secret row settings, <[ k := (now, from_row decrypt_secret row settings) ]> cache)
                         end in
                    cache_ok table now r.2 /\ r.1 = settled (table now) k) as Hreload.
  { intros k. unfold settled. destruct (table now !! k) as [row|] eqn:E; [|done]. cbn. split; [|done].
    intros k' at_ hit [[<- [= <- <-]]|[_ Hk]]%lookup_insert_Some; [|by apply Hnow].
    split; [lia|]. unfold settled. by rewrite E. }
  assert (now - _TTL_SECONDS < now <= now) as Hnow' by (unfold _TTL_SECONDS; lia).
  destruct id as [id|]; [|done]. unfold resolve_cluster.
  assert (forall k, (let '(resolved, cache') :=
      match cache !! k with
      | Some (at_, hit) => if now - at_ <? _TTL_SECONDS then (hit, cache) else
           match table now !! k with
           | None => (from_settings settings, cache)
           | Some row => (from_row decrypt_secret row settings, <[ k := (now, from_row decrypt_secret row settings) ]> cache)
           end
      | None => match table now !! k with
           | None => (from_settings settings, cache)
           | Some row => (from_row decrypt_secret row settings, <[ k := (now, from_row decrypt_secret row settings) ]> cache)
           end
      end in cache_ok table now cache'
        /\ exists at_, now - _TTL_SECONDS < at_ <= now /\ resolved = settled (table at_) k)) as Hk.
  { intros k. specialize (Hreload k). cbn zeta in Hreload.
    destruct (cache !! k) as [[at_ hit]|] eqn:E.
    - destruct (Z.ltb_spec (now - at_) _TTL_SECONDS).
      + destruct (Hok k at_ hit E) as [? ->]. split; [done|]. exists at_. split; [lia|done].
      + destruct (match table now !! k with Some _ => _ | None => _ end) as [r c]. destruct Hreload. split; [done|]. by exists now.
    - destruct (match table now !! k with Some _ => _ | None => _ end) as [r c]. destruct Hreload. split; [done|]. by exists now. }
  destruct id as [|id|id]; [done|apply Hk|apply Hk].
Qed.
End resolution.

Definition sample_row : cluster_row := (blank_row 3 "gpu-west") <| cl_namespace := "tuning" |>.

Lemma resolved_cluster_is_recent_witness :
  let table now := if now <? 20000000 then {[ 3 := sample_row ]} else {[ 3 := sample_row <| cl_namespace := "moved" |> ]} : gmap Z cluster_row in
  let first := resolve_cluster id default_cluster (table 10000000) 10000000 (Some 3) ∅ in
  k8s_namespace (resolve_cluster id default_cluster (table 21000000) 21000000 (Some 3) first.2).1 = "tuning"
  /\ k8s_namespace (resolve_cluster id default_cluster (table 26000000) 26000000 (Some 3) first.2).1 = "moved"
  /\ exists at_, 21000000 - _TTL_SECONDS < at_ <= 21000000
     /\ (resolve_cluster id default_cluster (table 21000000) 21000000 (Some 3) first.2).1 = settled id default_cluster (table at_) 3.
Proof.
  intros table first. split; [by vm_compute|]. split; [by vm_compute|].
  pose proof (resolved_cluster_is_recent id default_cluster table 10000000 10000000 (Some 3) ∅) as H1.
  pose proof (resolved_cluster_is_recent id default_cluster table 10000000 21000000 (Some 3) first.2) as H2.
  unfold first in *. destruct (resolve_cluster id default_cluster (table 10000000) 10000000 (Some 3) ∅) as [r c].
  destruct H1 as [Hc _]; [lia|by intros ? ? ? ?|]. cbn [snd] in *.
  destruct (resolve_cluster id default_cluster (table 21000000) 21000000 (Some 3) c) as [r' c'].
  apply H2; [lia|done].
Defined.

(** A column left as it was created is the row's, not the install's. *)
Lemma column_left_alone_hides_the_install :
  k8s_gpu_resource (from_row id (blank_row 1 "a") (default_cluster <| k8s_gpu_resource := "amd.com/gpu" |>)) = "nvidia.com/gpu".
Proof. by vm_compute. Qed.
