(* ===== verification/Manifests.v ===== *)
(** What is applied to a cluster ([control/launch/k8s.py]): a launch as a
    Deployment with its Service or as a TuningRun, a policy's container as a
    Job, with their node constraints, tolerations and mounts.

    A manifest is the document of its keys in the order they are set. *)
From Stdlib Require Import Ascii.
From S2P Require Import Failures.
From S2P Require Import Prelude Float Values Texts Documents Space Validation Flags Commands ExtraArgs Addresses Recipes.
From S2P Require Import Composition Conversion Scripts Substrate Clusters.
#[local] Open Scope string_scope.
#[local] Open Scope list_scope.
#[local] Open Scope Z_scope.

Definition num (n : Z) : doc := Sc (VInt n).

Definition DEFAULT_ENV : list (string * string) :=
  [("NVIDIA_DISABLE_REQUIRE", "1"); ("PYTORCH_ALLOC_CONF", "expandable_segments:True")].

Definition RUN_LABEL : string := "autotune.modelsphere.dev/run".
Definition MANAGED_LABEL : string := "autotune.modelsphere.dev/managed".
Definition HOSTNAME_LABEL : string := "kubernetes.io/hostname".
Definition POLICY_LABEL : string := "autotune.modelsphere.dev/policy".

(** [s.split(",")]. *)
Definition split_commas (s : string) : list string := map of_chars (split_on 44 [] (chars s)).

(** [s.partition(sep)]: before the separator, whether it is there, and after it. *)
Definition parted (sep : ascii) (s : string) : string * bool * string :=
  match partition sep s with Some (a, b) => (a, true, b) | None => (s, false, "") end.

Definition _cr_resource (settings : K8sClusterSettings) : string :=
  k8s_cr_plural settings +:+ "." +:+ k8s_cr_group settings.

(** ** Where a pod may go *)

Definition _gpu_count (spec : LaunchSpec) : Z :=
  match ls_gpu_indices spec with
  | [] => mi_gpu_count (ls_machine spec)
  | indices => Z.of_nat (length indices)
  end.

Definition selector_pair (out : list (string * string)) (pair : string) : list (string * string) :=
  match partition "=" (strip pair) with
  | None => out
  | Some (key, value) => if String.eqb (strip key) "" then out else dict_set (strip key) (strip value) out
  end.

Definition _node_selector_pairs (raw : string) (settings : K8sClusterSettings) : list (string * string) :=
  foldl selector_pair [] (split_commas (text_or_else raw (k8s_node_selector settings))).

Definition _node_selector (spec : LaunchSpec) (settings : K8sClusterSettings) : list (string * string) :=
  let selector := _node_selector_pairs (mi_node_selector (ls_machine spec)) settings in
  match ls_allowed_nodes spec with
  | [node] => dict_set HOSTNAME_LABEL node selector
  | _ => selector
  end.

Definition _node_affinity (spec : LaunchSpec) : tree :=
  match ls_allowed_nodes spec with
  | [] | [_] => []
  | nodes =>
      [("nodeAffinity", Mp [("requiredDuringSchedulingIgnoredDuringExecution", Mp [
         ("nodeSelectorTerms", Ls [Mp [("matchExpressions", Ls [Mp [
            ("key", text HOSTNAME_LABEL); ("operator", text "In"); ("values", Ls (map text nodes))]])]])])])]
  end.

Definition _labels (spec : LaunchSpec) : tree :=
  texts [(MANAGED_LABEL, "true"); (RUN_LABEL, pretty (ls_run_id spec))].

(** One of [k8s_tolerations]: [key[=value][:effect]]. *)
Definition toleration_of (raw : string) : option tree :=
  let raw := strip raw in
  if String.eqb raw "" then None
  else
    let '(key, _, effect) := parted ":" raw in
    let '(key, sep, value) := parted "=" key in
    let entry := [("key", text (strip key))] in
    let entry := if sep : bool then dict_set "value" (text (strip value)) (dict_set "operator" (text "Equal") entry)
                 else dict_set "operator" (text "Exists") entry in
    Some (if String.eqb (strip effect) "" then entry else dict_set "effect" (text (strip effect)) entry).

Definition _tolerations (gpus : Z) (settings : K8sClusterSettings) : list doc :=
  (if (0 <? gpus) && k8s_tolerate_gpu_taint settings
   then [Mp [("key", text (k8s_gpu_resource settings)); ("operator", text "Exists"); ("effect", text "NoSchedule")]]
   else [])
  ++ map Mp (omap toleration_of (split_commas (k8s_tolerations settings))).

Definition _image_pull_secrets (settings : K8sClusterSettings) : list string :=
  where_ (fun name => negb (String.eqb name "")) (map strip (split_commas (k8s_image_pull_secrets settings))).
Definition pull_secrets (settings : K8sClusterSettings) : list doc :=
  map (fun name => Mp [("name", text name)]) (_image_pull_secrets settings).

(** [d[key] = value], where there is a value to set. *)
Definition set_if (b : bool) (key : string) (value : doc) (d : tree) : tree := if b then dict_set key value d else d.
Definition some_of {A} (l : list A) : bool := match l with [] => false | _ => true end.

(** ** The engine's container *)
Definition quote_mark : string := String double_quote "".

Definition _guarded_command (command : list string) : list string :=
  let engine := space_join (map shell_quote command) in
  let mount := shell_quote MODEL_MOUNT in
  ["/bin/sh"; "-c";
   "if [ -z " +:+ quote_mark +:+ "$(ls -A " +:+ mount +:+ " 2>/dev/null)" +:+ quote_mark +:+ " ]; then "
   +:+ "echo " +:+ quote_mark +:+ "FATAL: no model weights at " +:+ MODEL_MOUNT +:+ " — this node is missing the "
   +:+ "model hostPath; failing fast instead of starting the engine" +:+ quote_mark +:+ " >&2; exit 66; fi; "
   +:+ "exec " +:+ engine].

(** [path.strip("/")]. *)
Definition strip_slashes (s : string) : string := rstrip "/" (of_chars (drop_while (Ascii.eqb "/"%char) (chars s))).

Definition _model_subpath (host_path : string) (settings : K8sClusterSettings) : string :=
  let root := rstrip "/" (k8s_model_pvc_root settings) in
  strip_slashes
    (if negb (String.eqb root "") && (String.eqb host_path root || starts_with (root +:+ "/") host_path)
     then from (String.length root) host_path else host_path).

Definition _vol_name (i : nat) : string := "vol-" +:+ pretty (Z.of_nat i).

(** [sorted(d.items())]. *)
Definition by_key {A} (d : list (string * A)) : list (string * A) := sort_by (key_before (fun kv => key_of_string kv.1)) d.

(** A volume of the pod and where the container sees it, under one name. *)
Definition engine_volume (spec : LaunchSpec) (settings : K8sClusterSettings) (i : nat) (pair : string * string) : tree * tree :=
  let '(host_path, container_path) := pair in
  let pvc := strip (k8s_model_pvc settings) in
  let mount := [("name", text (_vol_name i)); ("mountPath", text container_path)] in
  if negb (String.eqb pvc "") && String.eqb container_path MODEL_MOUNT then
    let sub := _model_subpath host_path settings in
    ([("name", text (_vol_name i)); ("persistentVolumeClaim", Mp [("claimName", text pvc)])],
     set_if (negb (String.eqb sub "")) "subPath" (text sub) mount)
  else ([("name", text (_vol_name i)); ("hostPath", Mp [("path", text host_path)])], mount).

Definition engine_pairs (spec : LaunchSpec) : list (string * string) :=
  by_key (merge_volumes [(ls_model_path spec, MODEL_MOUNT)] (ls_volumes spec)).
Definition _engine_volumes (spec : LaunchSpec) (settings : K8sClusterSettings) : list (tree * tree) :=
  imap (engine_volume spec settings) (engine_pairs spec).

Definition engine_env (spec : LaunchSpec) (settings : K8sClusterSettings) : list (string * string) :=
  by_key (dict_update (if starts_with "nvidia.com/" (k8s_gpu_resource settings) then DEFAULT_ENV else []) (ls_env spec)).

Definition env_list (env : list (string * string)) : list doc :=
  map (fun '(k, v) => Mp [("name", text k); ("value", text v)]) env.

(** The limits and the requests of a container with cards. *)
Definition resources (gpus : Z) (settings : K8sClusterSettings) : tree :=
  let cards := [(k8s_gpu_resource settings, num gpus)] in
  let set key value d := set_if (negb (String.eqb value "")) key (text value) d in
  let limits := set "memory" (k8s_engine_memory_limit settings) (set "cpu" (k8s_engine_cpu_limit settings) cards) in
  let requests := set "memory" (k8s_engine_memory_request settings) (set "cpu" (k8s_engine_cpu_request settings) cards) in
  ("limits", Mp limits) :: if (1 <? length requests)%nat then [("requests", Mp requests)] else [].

Definition wants_shm (gpus : Z) (settings : K8sClusterSettings) : bool := (0 <? gpus) && (0 <? k8s_shm_size_mb settings).

(** The serving container; [command] is the engine's own, guarded. *)
Definition engine_of (spec : LaunchSpec) (settings : K8sClusterSettings) (command : list string) : tree :=
  let gpus := _gpu_count spec in
  let mounts := map (fun vm => Mp vm.2) (_engine_volumes spec settings)
    ++ (if wants_shm gpus settings then [Mp [("name", text "dshm"); ("mountPath", text "/dev/shm")]] else []) in
  set_if (0 <? gpus) "resources" (Mp (resources gpus settings))
    [("name", text "engine"); ("image", text (ls_image spec)); ("imagePullPolicy", text "IfNotPresent");
     ("command", Ls (map text (take 1 command))); ("args", Ls (map text (drop 1 command)));
     ("ports", Ls [Mp [("containerPort", num (ls_port spec))]]);
     ("env", Ls (env_list (engine_env spec settings)));
     ("readinessProbe", Mp [("httpGet", Mp [("path", text "/v1/models"); ("port", num (ls_port spec))]);
                            ("initialDelaySeconds", num 10); ("periodSeconds", num 10); ("failureThreshold", num 120)]);
     ("volumeMounts", Ls mounts)].

Definition _engine_container (spec : LaunchSpec) (settings : K8sClusterSettings) (command : list string) : tree :=
  let gpus := _gpu_count spec in
  let volumes := map (fun vm => Mp vm.1) (_engine_volumes spec settings)
    ++ (if wants_shm gpus settings
        then [Mp [("name", text "dshm");
                  ("emptyDir", Mp [("medium", text "Memory"); ("sizeLimit", text (pretty (k8s_shm_size_mb settings) +:+ "Mi"))])]]
        else []) in
  let pod := [("containers", Ls [Mp (engine_of spec settings command)]); ("volumes", Ls volumes)] in
  let pod := set_if (some_of (pull_secrets settings)) "imagePullSecrets" (Ls (pull_secrets settings)) pod in
  let pod := set_if ((0 <? gpus) && negb (String.eqb (k8s_runtime_class settings) ""))
               "runtimeClassName" (text (k8s_runtime_class settings)) pod in
  let pod := set_if (some_of (_node_selector spec settings)) "nodeSelector" (Mp (texts (_node_selector spec settings))) pod in
  let pod := set_if (some_of (_node_affinity spec)) "affinity" (Mp (_node_affinity spec)) pod in
  set_if (some_of (_tolerations gpus settings)) "tolerations" (Ls (_tolerations gpus settings)) pod.

(** ** Objects *)
Definition run_selector (spec : LaunchSpec) : tree := texts [(RUN_LABEL, pretty (ls_run_id spec))].

Definition metadata_of (spec : LaunchSpec) (settings : K8sClusterSettings) : doc :=
  Mp [("name", text (container_name spec)); ("namespace", text (k8s_namespace settings)); ("labels", Mp (_labels spec))].

Definition _render_deployment (spec : LaunchSpec) (settings : K8sClusterSettings) (command : list string) : tree :=
  [("apiVersion", text "apps/v1"); ("kind", text "Deployment"); ("metadata", metadata_of spec settings);
   ("spec", Mp [("replicas", num 1); ("selector", Mp [("matchLabels", Mp (run_selector spec))]);
                ("template", Mp [("metadata", Mp [("labels", Mp (_labels spec))]);
                                 ("spec", Mp (_engine_container spec settings command))])])].

Definition _render_service (spec : LaunchSpec) (settings : K8sClusterSettings) : tree :=
  let port := set_if (negb (k8s_service_nodeport settings =? 0)) "nodePort" (num (k8s_service_nodeport settings))
                [("name", text "http"); ("port", num (ls_port spec)); ("targetPort", num (ls_port spec))] in
  [("apiVersion", text "v1"); ("kind", text "Service"); ("metadata", metadata_of spec settings);
   ("spec", Mp [("type", text "NodePort"); ("selector", Mp (run_selector spec)); ("ports", Ls [Mp port])])].

Definition _render_cr (spec : LaunchSpec) (settings : K8sClusterSettings) (command : list string) : tree :=
  let gpus := _gpu_count spec in
  let pvc := strip (k8s_model_pvc settings) in
  let sub := _model_subpath (ls_model_path spec) settings in
  let cr := [("image", text (ls_image spec)); ("command", Ls (map text (take 1 command))); ("args", Ls (map text (drop 1 command)));
             ("port", num (ls_port spec)); ("gpuCount", num gpus); ("gpuResourceName", text (k8s_gpu_resource settings));
             ("runtimeClassName", text (if 0 <? gpus then k8s_runtime_class settings else ""));
             ("modelMountPath", text MODEL_MOUNT); ("serviceType", text "NodePort");
             ("env", Mp (texts (engine_env spec settings)))] in
  let cr := if String.eqb pvc "" then dict_set "modelHostPath" (text (ls_model_path spec)) cr
            else set_if (negb (String.eqb sub "")) "modelSubPath" (text sub) (dict_set "modelPVC" (text pvc) cr) in
  let cr := set_if (some_of (_tolerations gpus settings)) "tolerations" (Ls (_tolerations gpus settings)) cr in
  let cr := set_if (some_of (_image_pull_secrets settings)) "imagePullSecrets" (Ls (map text (_image_pull_secrets settings))) cr in
  let cr := set_if (wants_shm gpus settings) "sharedMemoryMB" (num (k8s_shm_size_mb settings)) cr in
  let cr := set_if (negb (k8s_run_ttl_seconds settings =? 0)) "ttlSeconds" (num (k8s_run_ttl_seconds settings)) cr in
  let cr := set_if (some_of (_node_selector spec settings)) "nodeSelector" (Mp (texts (_node_selector spec settings))) cr in
  [("apiVersion", text (k8s_cr_group settings +:+ "/" +:+ k8s_cr_version settings)); ("kind", text (k8s_cr_kind settings));
   ("metadata", metadata_of spec settings); ("spec", Mp cr)].

Definition deployment_mode (settings : K8sClusterSettings) : bool := String.eqb (k8s_workload_kind settings) "deployment".

Definition render_workload (spec : LaunchSpec) (settings : K8sClusterSettings) : exn + list tree :=
  match build_command spec with
  | inl e => inl e
  | inr command =>
      let command := _guarded_command command in
      inr (if deployment_mode settings
           then [_render_deployment spec settings command; _render_service spec settings]
           else [_render_cr spec settings command])
  end.

(** ** A policy's container *)
Definition workload_volume (i : nat) (pair : string * string) : tree * tree :=
  let '(mount_path, _, suffix) := parted ":" pair.2 in
  ([("name", text (_vol_name i)); ("hostPath", Mp [("path", text pair.1)])],
   [("name", text (_vol_name i)); ("mountPath", text mount_path);
    ("readOnly", Sc (VBool (String.eqb (strip suffix) "ro")))]).
Definition _workload_volumes (spec : WorkloadSpec) : list (tree * tree) := imap workload_volume (by_key (ws_volumes spec)).

Definition policy_cards (spec : WorkloadSpec) : Z := Z.of_nat (length (default [] (ws_gpu_indices spec))).
Definition wants_hardware (spec : WorkloadSpec) : bool := bool_decide (is_Some (ws_gpu_indices spec)).

Definition policy_container (spec : WorkloadSpec) (settings : K8sClusterSettings) : tree :=
  let gpus := policy_cards spec in
  let requests := ("requests", Mp [("cpu", text (k8s_policy_cpu_request settings)); ("memory", text (k8s_policy_memory_request settings))]) in
  let container :=
    [("name", text "policy"); ("image", text (ws_image spec)); ("env", Ls (env_list (by_key (ws_env spec))));
     ("resources", Mp (requests :: if 0 <? gpus then [("limits", Mp [(k8s_gpu_resource settings, num gpus)])] else []))] in
  let container := set_if (some_of (ws_command spec)) "command" (Ls (map text (ws_command spec))) container in
  set_if (some_of (_workload_volumes spec)) "volumeMounts" (Ls (map (fun vm => Mp vm.2) (_workload_volumes spec))) container.

Definition policy_selector (spec : WorkloadSpec) (settings : K8sClusterSettings) : list (string * string) :=
  if wants_hardware spec then _node_selector_pairs (mi_node_selector (ws_machine spec)) settings
  else if String.eqb (strip (k8s_policy_node_selector settings)) "" then []
  else _node_selector_pairs (k8s_policy_node_selector settings) settings.

Definition policy_pod (spec : WorkloadSpec) (settings : K8sClusterSettings) : tree :=
  let gpus := policy_cards spec in
  let pod := [("restartPolicy", text "Never"); ("automountServiceAccountToken", Sc (VBool false));
              ("containers", Ls [Mp (policy_container spec settings)])] in
  let pod := set_if (some_of (pull_secrets settings)) "imagePullSecrets" (Ls (pull_secrets settings)) pod in
  let pod := set_if (some_of (_workload_volumes spec)) "volumes" (Ls (map (fun vm => Mp vm.1) (_workload_volumes spec))) pod in
  let pod := set_if (some_of (policy_selector spec settings)) "nodeSelector" (Mp (texts (policy_selector spec settings))) pod in
  let pod := set_if (wants_hardware spec && (0 <? gpus) && negb (String.eqb (k8s_runtime_class settings) ""))
               "runtimeClassName" (text (k8s_runtime_class settings)) pod in
  let pod := set_if (some_of (_tolerations gpus settings)) "tolerations" (Ls (_tolerations gpus settings)) pod in
  set_if (negb (String.eqb (k8s_policy_priority_class settings) ""))
    "priorityClassName" (text (k8s_policy_priority_class settings)) pod.

Definition policy_labels (name : string) : doc := Mp (texts [(MANAGED_LABEL, "true"); (POLICY_LABEL, name)]).

Definition render_policy_job (spec : WorkloadSpec) (settings : K8sClusterSettings) : tree :=
  let name := ws_name spec in
  let job := [("backoffLimit", num 0); ("ttlSecondsAfterFinished", num (k8s_policy_ttl_after_finished settings));
              ("template", Mp [("metadata", Mp [("labels", policy_labels name)]); ("spec", Mp (policy_pod spec settings))])] in
  let job := set_if (negb (k8s_policy_deadline_seconds settings =? 0))
               "activeDeadlineSeconds" (num (k8s_policy_deadline_seconds settings)) job in
  [("apiVersion", text "batch/v1"); ("kind", text "Job");
   ("metadata", Mp [("name", text name); ("labels", policy_labels name)]); ("spec", Mp job)].
