(* ===== verification/Pods.v ===== *)
(** What a cluster says of a run ([control/launch/k8s.py]): pods, nodes, events
    and custom objects read as the state of a deployment, why it is wedged,
    where it stands in its start and which engine process it is.

    Objects have the types of the Kubernetes API's own schema; a field that is
    missing or null reads as empty, as in the code. *)
From Stdlib Require Import Ascii.
From S2P Require Import Failures.
From S2P Require Import Prelude Float Values Texts Documents Space Validation Flags Commands ExtraArgs Addresses Recipes.
From S2P Require Import Composition Conversion Scripts Measures Hardware Substrate Clusters Manifests.
#[local] Open Scope string_scope.
#[local] Open Scope list_scope.
#[local] Open Scope Z_scope.

(** ** Reading an object *)

(** [d.get(key) == value], of a text. *)
Definition is_at (key value : string) (d : tree) : bool := bool_decide (dict_get key d = Some (text value)).
(** [int(d.get(key) or 0)] and [d.get(key)], of an integer. *)
Definition int_at (key : string) (d : tree) : option Z :=
  match dict_get key d with Some (Sc (VInt n)) => Some n | _ => None end.
Definition count_at (key : string) (d : tree) : Z := default 0 (int_at key d).
(** The objects of a list. *)
Definition objects (key : string) (d : tree) : list tree := map (fun x => sub_tree (Some x)) (listing key d).

Definition status_of (o : tree) : tree := section "status" o.
Definition spec_of (o : tree) : tree := section "spec" o.
Definition metadata (o : tree) : tree := section "metadata" o.
Definition conditions (o : tree) : list tree := objects "conditions" (status_of o).
Definition container_statuses (pod : tree) : list tree := objects "containerStatuses" (status_of pod).
Definition state_of (container : tree) : tree := section "state" container.
Definition waiting_of (container : tree) : tree := section "waiting" (state_of container).
Definition terminated_of (container : tree) : tree := section "terminated" (state_of container).

Definition _FAILED_PHASES : list string :=
  ["failed"; "expired"; "error"; "crashloopbackoff"; "unschedulable"; "imagepullbackoff"; "errimagepull"; "evicted"].
Definition _POD_FAILED_REASONS : list string :=
  ["CrashLoopBackOff"; "ImagePullBackOff"; "ErrImagePull"; "InvalidImageName";
   "CreateContainerError"; "CreateContainerConfigError"; "RunContainerError"].
Definition _POD_FAILED_EVENT_REASONS : list string := ["FailedMount"; "FailedAttachVolume"; "FailedCreatePodSandBox"].

Definition ready_condition (c : tree) : bool := is_at "type" "Ready" c && is_at "status" "True" c.
Definition _pod_ready (pod : tree) : bool := existsb ready_condition (conditions pod).

Definition _restarted_before_ready (container : tree) : bool :=
  (0 <? count_at "restartCount" container) && says "terminated" (section "lastState" container).

Definition failure_classes : list (string * string) :=
  [("ImagePullBackOff", "image_pull"); ("ErrImagePull", "image_pull"); ("InvalidImageName", "image_pull");
   ("CreateContainerConfigError", "config_error"); ("CreateContainerError", "config_error");
   ("RunContainerError", "config_error"); ("CrashLoopBackOff", "crash_loop"); ("FailedMount", "mount_failed");
   ("FailedAttachVolume", "mount_failed"); ("FailedCreatePodSandBox", "sandbox_failed")].
Definition _failure_class_for (reason : string) : string := default (Values.lower reason) (dict_get reason failure_classes).

(** ** Custom objects *)
Definition phase_text (status : tree) (key : string) : option string :=
  match dict_get key status with
  | Some (Sc (VStr s)) => if String.eqb s "" then None else Some (Values.lower s)
  | _ => None
  end.

Definition _phase (cr : tree) : string :=
  let status := status_of cr in
  match phase_text status "phase" with
  | Some phase => phase
  | None =>
      match phase_text status "state" with
      | Some phase => phase
      | None => match last (listing "conditions" status) with
                | Some (Mp c) => Values.lower (match dict_get "type" c with Some d => doc_str d | None => "" end)
                | _ => ""
                end
      end
  end.

Definition _endpoint_from_cr (cr : option tree) (spec : LaunchSpec) : string :=
  let status := status_of (default [] cr) in
  match (if says "url" status then dict_get "url" status else dict_get "endpoint" status) with
  | Some (Sc (VStr url)) => text_or_else url (endpoint_url spec)
  | _ => endpoint_url spec
  end.

(** ** Nodes *)
Definition CORDON_TAINT : string := "node.kubernetes.io/unschedulable".

Definition _tolerates_cordon (settings : K8sClusterSettings) : bool :=
  existsb (fun raw => String.eqb (strip (parted "=" (parted ":" (strip raw)).1.1).1.1) CORDON_TAINT)
    (split_commas (k8s_tolerations settings)).

Definition _node_name (node : tree) : string := text_at "name" (metadata node).
Definition _node_addresses (node : tree) : list string :=
  map (text_at "address") (where_ (is_at "type" "InternalIP") (objects "addresses" (status_of node))).

(** [int(d.get(key, 0) or 0)], or what is used when that raises. *)
Definition cards_at (key : string) (d : tree) : Z :=
  match dict_get key d with
  | Some v => if doc_truthy v then default 0 (to_int v) else 0
  | None => 0
  end.
Definition _node_gpu_count (node : tree) (resource : string) : Z := cards_at resource (section "allocatable" (status_of node)).

Definition cordoned (node : tree) : bool := says "unschedulable" (spec_of node).
Definition _node_takes_pods (node : tree) (settings : K8sClusterSettings) : bool :=
  if cordoned node && negb (_tolerates_cordon settings) then false else existsb ready_condition (conditions node).

Definition _node_gpu_type (node : tree) (product_label : string) : string :=
  normalize_gpu_type (text_at product_label (section "labels" (metadata node))).

(** ** A pod's own request *)
Definition containers_of (pod : tree) : list tree := objects "containers" (spec_of pod).
Definition _pod_gpu_request (pod : tree) (resource : string) : Z :=
  foldl (fun total container => total + cards_at resource (section "limits" (section "resources" container))) 0 (containers_of pod).

(** The names an expression on the hostname allows. *)
Definition hostnames_in (expr : tree) : list string :=
  if is_at "key" HOSTNAME_LABEL expr && is_at "operator" "In" expr then map doc_str (listing "values" expr) else [].
Definition affinity_terms (pod : tree) : list tree :=
  objects "nodeSelectorTerms"
    (section "requiredDuringSchedulingIgnoredDuringExecution" (section "nodeAffinity" (section "affinity" (spec_of pod)))).
Definition _pod_allowed_nodes (pod : tree) : gset string :=
  let pinned := text_at HOSTNAME_LABEL (section "nodeSelector" (spec_of pod)) in
  if negb (String.eqb pinned "") then {[ pinned ]}
  else list_to_set (concat (map (fun term => concat (map hostnames_in (objects "matchExpressions" term))) (affinity_terms pod))).

(** ** The state of a deployment's pods *)

(** A container that will not come up by itself. *)
Definition stuck (container : tree) : bool :=
  existsb (fun reason => is_at "reason" reason (waiting_of container)) _POD_FAILED_REASONS.
Definition exited_badly (container : tree) : bool :=
  match int_at "exitCode" (terminated_of container) with Some code => negb (code =? 0) | None => false end.
Definition container_crashed (container : tree) : bool :=
  stuck container || exited_badly container || _restarted_before_ready container.

(** [None]: the pods could not be listed. *)
Fixpoint pods_state (pods : list tree) (any_crashed : bool) : DeploymentState :=
  match pods with
  | [] => if any_crashed then Crashed else Starting
  | pod :: pods' =>
      if _pod_ready pod then Ready
      else pods_state pods' (any_crashed || existsb container_crashed (container_statuses pod))
  end.
Definition _pod_state (pods : option (list tree)) : DeploymentState :=
  match pods with None => Starting | Some pods => pods_state pods false end.

(** ** Why a pod is wedged *)

(** A class of failure with its message. *)
Abbreviation verdict := (string * string)%type.

Definition container_failure (pod container : tree) : option verdict :=
  let waiting := waiting_of container in
  match List.find (fun reason => is_at "reason" reason waiting) _POD_FAILED_REASONS with
  | Some reason => Some (_failure_class_for reason, text_or_else (text_at "message" waiting) reason)
  | None =>
      if negb (_pod_ready pod) && _restarted_before_ready container then
        let lst := section "terminated" (section "lastState" container) in
        Some ("crash_loop",
              "the engine exited before it was ready (exit code "
              +:+ match dict_get "exitCode" lst with Some d => doc_str d | None => "None" end
              +:+ (if says "reason" lst then ", " +:+ text_at "reason" lst else "")
              +:+ ") and the cluster restarted it " +:+ pretty (count_at "restartCount" container) +:+ " time(s)")
      else
        let term := terminated_of container in
        if exited_badly container then
          if is_at "reason" "OOMKilled" term then Some ("oom", "engine container was OOMKilled")
          else Some ("engine_exited",
                     "container exited with code "
                     +:+ match dict_get "exitCode" term with Some d => doc_str d | None => "None" end
                     +:+ " (" +:+ text_or_else (text_at "reason" term) "Error" +:+ ")")
        else None
  end.

Definition unschedulable (cond : tree) : bool :=
  is_at "type" "PodScheduled" cond && is_at "status" "False" cond && is_at "reason" "Unschedulable" cond.

(** The largest of the numbers, 0 when there is none. *)
Definition biggest_of (l : list Z) : Z := match l with [] => 0 | x :: l' => foldl Z.max x l' end.

(** [nodes]: those the selector matches, [None] when they cannot be listed. *)
Definition placement_selector (settings : K8sClusterSettings) (machine : MachineInfo) : string :=
  strip (text_or_else (mi_node_selector machine) (k8s_node_selector settings)).

Definition allowed_among (pod : tree) (nodes : list tree) : list tree :=
  if bool_decide (_pod_allowed_nodes pod = ∅) then nodes
  else where_ (fun node => bool_decide (_node_name node ∈ _pod_allowed_nodes pod)) nodes.

Definition names_sorted (s : gset string) : list string :=
  sort_by (key_before key_of_string) (elements s).

Definition _placement_verdict (settings : K8sClusterSettings) (machine : MachineInfo) (nodes : option (list tree))
    (pod : tree) (message : string) : verdict :=
  let selector := placement_selector settings machine in
  let resource := k8s_gpu_resource settings in
  match nodes with
  | None => ("unschedulable", message)
  | Some nodes =>
      if negb (String.eqb selector "") && bool_decide (nodes = []) then
        ("unplaceable", "no cluster node matches this machine's node selector (" +:+ selector +:+
          "); the pod can never be scheduled — fix the selector on the Resources page")
      else
        let allowed := _pod_allowed_nodes pod in
        let nodes := allowed_among pod nodes in
        if negb (bool_decide (allowed = ∅)) && bool_decide (nodes = []) then
          ("unplaceable", "none of the nodes this run may use (" +:+ comma_join (names_sorted allowed) +:+
            ") is a node of this machine (" +:+ text_or_else selector "any node" +:+ "); the pod can never be scheduled")
        else
          let want := _pod_gpu_request pod resource in
          let biggest := biggest_of (map (fun node => _node_gpu_count node resource) nodes) in
          if (0 <? want) && some_of nodes && (biggest <? want) then
            ("unplaceable", "pod asks for " +:+ pretty want +:+ " x " +:+ resource +:+ " but the largest node matching "
              +:+ text_or_else selector "this cluster" +:+ " has " +:+ pretty biggest
              +:+ " allocatable; no amount of waiting fits it")
          else ("unschedulable", message)
  end.

(** The newest of the events that wedge a pod; times are compared as texts. *)
Definition event_time (event : tree) : string :=
  text_or_else (text_at "lastTimestamp" event) (text_at "eventTime" event).
Definition wedges (name : string) (event : tree) : option (string * string * string) :=
  let involved := section "involvedObject" event in
  if is_at "type" "Warning" event && is_at "kind" "Pod" involved && is_at "name" name involved then
    match List.find (fun reason => is_at "reason" reason event) _POD_FAILED_EVENT_REASONS with
    | Some reason => Some (event_time event, reason, text_at "message" event)
    | None => None
    end
  else None.

Definition text_lt (a b : string) : bool := tuple_lt (key_of_string a) (key_of_string b).
Definition newer (best : option (string * string * string)) (found : string * string * string) : option (string * string * string) :=
  match best with
  | Some b => if text_lt found.1.1 b.1.1 then best else Some found
  | None => Some found
  end.

(** [events]: [None] when they cannot be listed. *)
Definition _event_failure (events : option (list tree)) (pod : tree) : option verdict :=
  let name := text_at "name" (metadata pod) in
  if String.eqb name "" then None
  else
    match events with
    | None => None
    | Some events =>
        match foldl newer None (omap (wedges name) events) with
        | Some (_, reason, message) => Some (_failure_class_for reason, text_or_else message reason)
        | None => None
        end
    end.

(** What the cluster answers when it is asked why a run does not come up. *)
Record answers := mkAnswers {
  an_pods : option (list tree);
  an_nodes : option (list tree);
  an_events : option (list tree);
}.

Definition pod_failure (settings : K8sClusterSettings) (machine : MachineInfo) (nodes events : option (list tree))
    (pod : tree) : option verdict :=
  match head (omap (container_failure pod) (container_statuses pod)) with
  | Some v => Some v
  | None =>
      match List.find unschedulable (conditions pod) with
      | Some cond =>
          Some (_placement_verdict settings machine nodes pod (text_or_else (text_at "message" cond) "no node fits the pod"))
      | None => _event_failure events pod
      end
  end.

Definition failure_reason (settings : K8sClusterSettings) (machine : MachineInfo) (a : answers) : option verdict :=
  match an_pods a with
  | None => None
  | Some pods => head (omap (pod_failure settings machine (an_nodes a) (an_events a)) pods)
  end.

(** [K8sDriver.state], of the run's own object. *)
Definition state (settings : K8sClusterSettings) (machine : MachineInfo) (primary : option tree) (a : answers) : DeploymentState :=
  match primary with
  | None => Gone
  | Some primary =>
      if deployment_mode settings then _pod_state (an_pods a)
      else
        let phase := _phase primary in
        if bool_decide (phase ∈ _FAILED_PHASES) then Crashed
        else if String.eqb phase "ready" then Ready
        else match failure_reason settings machine a with
             | Some (class, _) => if is_transient_placement class then Starting else Crashed
             | None => Starting
             end
  end.

(** ** Where a run stands *)
Inductive startup_phase := Pulling | Running | Unknown.
#[export] Instance startup_phase_eq_dec : EqDecision startup_phase.
Proof. solve_decision. Defined.

Definition started_at (container : tree) : option string :=
  let at_ := text_at "startedAt" (section "running" (state_of container)) in
  if String.eqb at_ "" then None else Some at_.
Definition starts_of (pods : list tree) : list string := omap started_at (concat (map container_statuses pods)).

(** RFC 3339 instants in UTC, compared as texts. *)
Definition startup_status (pods : option (list tree)) : startup_phase * option string :=
  match pods with
  | None => (Unknown, None)
  | Some pods =>
      match min_by text_lt (starts_of pods) with
      | Some since => (Running, Some since)
      | None => (Pulling, None)
      end
  end.

Inductive placed := Placed | Queued | UnknownPlace.
#[export] Instance placed_eq_dec : EqDecision placed.
Proof. solve_decision. Defined.

Definition bound (pod : tree) : bool := negb (String.eqb (strip (text_at "nodeName" (spec_of pod))) "").
Definition placement (pods : option (list tree)) : placed :=
  match pods with
  | None => UnknownPlace
  | Some pods => if existsb bound pods then Placed else Queued
  end.

(** [",".join(l)]. *)
Fixpoint commas (l : list string) : string :=
  match l with [] => "" | [s] => s | s :: l' => s +:+ "," +:+ commas l' end.

Definition restarts_of (pod : tree) : Z :=
  foldl (fun n container => n + count_at "restartCount" container) 0 (container_statuses pod).
Definition pod_part (pod : tree) : option string :=
  let uid := text_at "uid" (metadata pod) in
  if String.eqb uid "" then None else Some (uid +:+ ":" +:+ pretty (restarts_of pod)).
Definition incarnation (pods : option (list tree)) : option string :=
  match pods with
  | None => None
  | Some pods =>
      match sort_by text_lt (omap pod_part pods) with
      | [] => None
      | parts => Some (commas parts)
      end
  end.

(** The first exit found, in the current states of all containers and then in
    their last ones. *)
Definition exit_in (key : string) (container : tree) : option (option Z * bool) :=
  if says "terminated" (section key container) then
    let term := section "terminated" (section key container) in
    Some (int_at "exitCode" term, is_at "reason" "OOMKilled" term)
  else None.
Definition exit_info (pods : option (list tree)) : option Z * bool :=
  match pods with
  | None => (None, false)
  | Some pods =>
      let all := concat (map container_statuses pods) in
      match head (omap (exit_in "state") all ++ omap (exit_in "lastState") all) with
      | Some exit => exit
      | None => (None, false)
      end
  end.

Definition workload_state (job : option tree) : WorkloadState :=
  match job with
  | None => WGone
  | Some job =>
      let status := status_of job in
      if 0 <? count_at "active" status then WRunning
      else if negb (count_at "succeeded" status =? 0) || negb (count_at "failed" status =? 0) then WExited
      else WRunning
  end.
