(* ===== verification/Capacity.v ===== *)
(** How many cards a machine of a cluster is ([control/launch/k8s.py],
    [probe_capacity]): the nodes its selector matches, what other pods hold on
    them, and the quota of the namespace. *)
From Stdlib Require Import Ascii.
From S2P Require Import Failures.
From S2P Require Import Prelude Float Values Texts Documents Space Validation Flags Commands ExtraArgs Addresses Recipes.
From S2P Require Import Composition Conversion Scripts Measures Hardware Substrate Clusters Manifests Pods.
#[local] Open Scope string_scope.
#[local] Open Scope list_scope.
#[local] Open Scope Z_scope.

(** ** The quota *)

(** [int(float(str(value).strip()))], or 0; no quantity is infinite. *)
Definition _quantity_int (value : doc) : Z :=
  match parse_float (strip (doc_str value)) with
  | Some x => default 0 (int_or_none (VFloat x))
  | None => 0
  end.

Definition quota_keys (settings : K8sClusterSettings) : list string :=
  ["requests." +:+ k8s_gpu_resource settings; k8s_gpu_resource settings].

(** The cards one quota allows, and those it has spent. *)
Definition quota_cards (settings : K8sClusterSettings) (quota : tree) : option (Z * Z) :=
  let status := status_of quota in
  let limits := match section "hard" status with [] => section "hard" (spec_of quota) | limits => limits end in
  let spent := section "used" status in
  match List.find (fun key => dict_has key limits) (quota_keys settings) with
  | Some key => Some (_quantity_int (default (Sc VNone) (dict_get key limits)), _quantity_int (default (num 0) (dict_get key spent)))
  | None => None
  end.

Definition tighter (found : option (Z * Z)) (limit : Z * Z) : option (Z * Z) :=
  match found with
  | Some best => if limit.1 <? best.1 then Some limit else found
  | None => Some limit
  end.

(** [quotas]: [None] when they cannot be listed. *)
Definition _quota_limit (settings : K8sClusterSettings) (quotas : option (list tree)) : option (Z * Z) :=
  match quotas with
  | Some quotas => foldl tighter None (omap (quota_cards settings) quotas)
  | None => None
  end.

(** ** The answer *)
Inductive capacity_warning :=
| NoNodeSelector
| NodesUnreadable
| QuotaOnly (hard : Z)
| NoQuota
| PodsUnreadable
| NodeCordoned (node : string) (cards : Z)
| UnknownProduct (node raw : string)
| NoProductLabel (node : string)
| NothingMatched
| NothingTakesPods
| CappedAtQuota (hard total : Z)
| SeveralCardTypes (types : list string).

Record NodeDetail := mkNodeDetail {
  nd_node : string;
  nd_gpu_count : Z;
  nd_gpu_type : string;
  nd_schedulable : bool;
  nd_gpu_used : option Z;
  nd_gpu_free : option Z;
}.

Record Capacity := mkCapacity {
  ca_gpu_count : Z;
  ca_gpu_type : string;
  ca_gpu_types : list string;
  ca_node_count : nat;
  ca_node_gpu_max : Z;
  ca_gpu_free : option Z;
  ca_quota : bool;
  ca_nodes : list NodeDetail;
  ca_warnings : list capacity_warning;
}.

Definition empty_capacity (warnings : list capacity_warning) : Capacity := mkCapacity 0 "" [] 0 0 None false [] warnings.

Definition _quota_capacity (settings : K8sClusterSettings) (quotas : option (list tree)) (why : capacity_warning) : Capacity :=
  match _quota_limit settings quotas with
  | None => empty_capacity [why; NoQuota]
  | Some (hard, used) => mkCapacity hard "" [] 0 0 (Some (Z.max (hard - used) 0)) true [] [why; QuotaOnly hard]
  end.

(** The pods of every namespace: listed, not something the transport can do, or
    refused. *)
Inductive pods_read := PodsListed (pods : list tree) | PodsUnsupported | PodsRefused.

(** The cards held on a node. *)
Definition hold (resource : string) (held : gmap string Z) (pod : tree) : gmap string Z :=
  let node := text_at "nodeName" (spec_of pod) in
  if String.eqb node "" then held
  else <[ node := default 0 (held !! node) + _pod_gpu_request pod resource ]> held.
Definition held_cards (settings : K8sClusterSettings) (pods : pods_read) : option (gmap string Z) :=
  match pods with PodsListed pods => Some (foldl (hold (k8s_gpu_resource settings)) ∅ pods) | _ => None end.

Definition node_detail (settings : K8sClusterSettings) (held : option (gmap string Z)) (node : tree) : NodeDetail :=
  let count := _node_gpu_count node (k8s_gpu_resource settings) in
  let schedulable := _node_takes_pods node settings in
  let used := match held with Some held => Some (default 0 (held !! _node_name node)) | None => None end in
  mkNodeDetail (_node_name node) count (_node_gpu_type node (k8s_gpu_product_label settings)) schedulable used
    (match used with Some used => Some (if schedulable then Z.max (count - used) 0 else 0) | None => None end).

Definition node_warnings (settings : K8sClusterSettings) (node : tree) : list capacity_warning :=
  let name := _node_name node in
  let raw := text_at (k8s_gpu_product_label settings) (section "labels" (metadata node)) in
  (if cordoned node && negb (_tolerates_cordon settings)
   then [NodeCordoned name (_node_gpu_count node (k8s_gpu_resource settings))] else [])
  ++ (if String.eqb (_node_gpu_type node (k8s_gpu_product_label settings)) ""
      then [if String.eqb raw "" then NoProductLabel name else UnknownProduct name raw] else []).

Definition sum_of (l : list Z) : Z := foldr Z.add 0 l.
Definition takers (details : list NodeDetail) : list NodeDetail := where_ nd_schedulable details.

Definition probe_capacity (settings : K8sClusterSettings) (machine : MachineInfo)
    (nodes : option (list tree)) (cluster_pods : pods_read) (quotas : option (list tree)) : Capacity :=
  let selector := text_or_else (mi_node_selector machine) (k8s_node_selector settings) in
  if String.eqb (strip selector) "" then
    match _quota_limit settings quotas with
    | Some _ => _quota_capacity settings quotas NoNodeSelector
    | None => empty_capacity [NoNodeSelector]
    end
  else
    match nodes with
    | None => _quota_capacity settings quotas NodesUnreadable
    | Some nodes =>
        let held := if some_of nodes then held_cards settings cluster_pods else None in
        let refused := match cluster_pods with PodsRefused => some_of nodes | _ => false end in
        let details := map (node_detail settings held) nodes in
        let total := sum_of (map nd_gpu_count (takers details)) in
        let largest := foldl Z.max 0 (map nd_gpu_count (takers details)) in
        let free_total := sum_of (map (fun d => default 0 (nd_gpu_free d)) (takers details)) in
        let types := names_sorted (list_to_set (where_ (fun t => negb (String.eqb t "")) (map nd_gpu_type details))) in
        let gpu_free := match held with Some _ => Some free_total | None => None end in
        let warnings :=
          (if refused then [PodsUnreadable] else []) ++ concat (map (node_warnings settings) nodes)
          ++ (if negb (some_of nodes) then [NothingMatched] else if total =? 0 then [NothingTakesPods] else []) in
        let limit := if total =? 0 then None else _quota_limit settings quotas in
        let '(gpu_count, gpu_free, warnings) :=
          match limit with
          | Some (hard, used) =>
              if hard <? total then
                let spare := Z.max (hard - used) 0 in
                (hard, Some (match gpu_free with Some free => Z.min free spare | None => spare end),
                 warnings ++ [CappedAtQuota hard total])
              else (total, gpu_free, warnings)
          | None => (total, gpu_free, warnings)
          end in
        let warnings := warnings ++ (if (1 <? length types)%nat then [SeveralCardTypes types] else []) in
        mkCapacity gpu_count (match types with [type] => type | _ => "" end) types (length nodes) largest gpu_free false
          details warnings
    end.

(** ** Lemmas *)
Lemma sum_of_le {A} (f g : A -> Z) l : (forall x, x ∈ l -> 0 <= f x <= g x) -> 0 <= sum_of (map f l) <= sum_of (map g l).
Proof.
  induction l as [|x l IH]; intros H; [done|]. cbn. pose proof (H x ltac:(by left)).
  assert (0 <= sum_of (map f l) <= sum_of (map g l)) by (apply IH; intros y Hy; apply H; by right). unfold sum_of in *. lia.
Qed.

Lemma tightest_in l best limit : foldl tighter best l = Some limit -> best = Some limit \/ limit ∈ l.
Proof.
  revert best. induction l as [|x l IH]; intros best; cbn; [by left|]. intros [E|Hin]%IH; [|right; by right].
  unfold tighter in E. destruct best as [b|]; [destruct (_ <? _)|]; [injection E as <-; right; by left|by left|injection E as <-; right; by left].
Qed.

Section bounds.
Context (settings : K8sClusterSettings).
#[local] Abbreviation resource := (k8s_gpu_resource settings).

(** Nothing is counted below zero. *)
Definition counts_ok (nodes quotas : option (list tree)) (pods : pods_read) : Prop :=
  Forall (fun node => 0 <= _node_gpu_count node resource) (default [] nodes)
  /\ Forall (fun pod => 0 <= _pod_gpu_request pod resource) (match pods with PodsListed pods => pods | _ => [] end)
  /\ Forall (fun limit : Z * Z => 0 <= limit.1 /\ 0 <= limit.2) (omap (quota_cards settings) (default [] quotas)).

Lemma held_nonneg pods held : held_cards settings pods = Some held ->
  Forall (fun pod => 0 <= _pod_gpu_request pod resource) (match pods with PodsListed pods => pods | _ => [] end) ->
  forall node, 0 <= default 0 (held !! node).
Proof.
  destruct pods as [pods| |]; [|done|done]. cbn [held_cards]. intros [= <-] HF node.
  assert (forall (h : gmap string Z), (forall n, 0 <= default 0 (h !! n)) -> 0 <= default 0 (foldl (hold resource) h pods !! node)) as H.
  { induction HF as [|pod pods Hp _ IH]; intros h Hh; cbn; [apply Hh|]. apply IH. intros n. unfold hold.
    destruct (String.eqb _ ""); [apply Hh|]. destruct (decide (text_at "nodeName" (spec_of pod) = n)) as [->|].
    - rewrite lookup_insert_eq. cbn. specialize (Hh n). lia.
    - rewrite lookup_insert_ne by done. apply Hh. }
  apply H. intros n. by rewrite lookup_empty.
Qed.

Lemma quota_nonneg quotas limit : _quota_limit settings quotas = Some limit ->
  Forall (fun limit : Z * Z => 0 <= limit.1 /\ 0 <= limit.2) (omap (quota_cards settings) (default [] quotas)) ->
  0 <= limit.1 /\ 0 <= limit.2.
Proof.
  destruct quotas as [quotas|]; [|done]. cbn. intros [|Hin]%tightest_in HF; [done|]. exact (proj1 (Forall_forall _ _) HF _ Hin).
Qed.

Lemma detail_free held node : 0 <= _node_gpu_count node resource -> (forall h, held = Some h -> forall n, 0 <= default 0 (h !! n)) ->
  0 <= default 0 (nd_gpu_free (node_detail settings held node)) <= nd_gpu_count (node_detail settings held node).
Proof.
  intros Hc Hh. unfold node_detail. cbn [nd_gpu_free nd_gpu_count]. destruct held as [h|]; [|cbn; lia].
  specialize (Hh h eq_refl (_node_name node)). set (used := default 0 _) in *. clearbody used.
  destruct (_node_takes_pods node settings); cbn; lia.
Qed.

Lemma takers_in (details : list NodeDetail) d : d ∈ takers details -> d ∈ details /\ nd_schedulable d = true.
Proof. unfold takers. by rewrite elem_of_where. Qed.

Lemma capacity_bounds machine nodes pods quotas :
  counts_ok nodes quotas pods ->
  let c := probe_capacity settings machine nodes pods quotas in
  0 <= ca_gpu_count c
  /\ (forall free, ca_gpu_free c = Some free -> 0 <= free <= ca_gpu_count c)
  /\ (forall hard used, _quota_limit settings quotas = Some (hard, used) -> ca_gpu_count c <= hard)
  /\ (ca_quota c = false -> ca_gpu_count c <= sum_of (map nd_gpu_count (takers (ca_nodes c))))
  /\ (forall d, d ∈ ca_nodes c -> nd_schedulable d = false -> default 0 (nd_gpu_free d) = 0).
Proof.
  intros (Hn & Hp & Hq). unfold probe_capacity.
  assert (forall why, let c := _quota_capacity settings quotas why in
    0 <= ca_gpu_count c /\ (forall free, ca_gpu_free c = Some free -> 0 <= free <= ca_gpu_count c)
    /\ (forall hard used, _quota_limit settings quotas = Some (hard, used) -> ca_gpu_count c <= hard)
    /\ (ca_quota c = false -> ca_gpu_count c <= sum_of (map nd_gpu_count (takers (ca_nodes c))))
    /\ (forall d, d ∈ ca_nodes c -> nd_schedulable d = false -> default 0 (nd_gpu_free d) = 0)) as Hquota.
  { intros why. unfold _quota_capacity. destruct (_quota_limit settings quotas) as [[hard used]|] eqn:E; cbn.
    - pose proof (quota_nonneg _ _ E Hq) as [? ?]. cbn in *. split_and!; [done| | |done|by intros ? ?%elem_of_nil].
      + intros ? [= <-]. lia.
      + intros ? ? [= <- <-]. lia.
    - split_and!; [done..|by intros ? ?%elem_of_nil]. }
  destruct (String.eqb (strip _) "").
  { specialize (Hquota NoNodeSelector). destruct (_quota_limit settings quotas) eqn:E; [exact Hquota|].
    cbn. split_and!; [done..|by intros ? ?%elem_of_nil]. }
  destruct nodes as [nodes|]; [|apply Hquota]. cbn [default] in Hn.
  set (held := if some_of nodes then held_cards settings pods else None).
  assert (forall h, held = Some h -> forall n, 0 <= default 0 (h !! n)) as Hheld.
  { unfold held. destruct (some_of nodes); [|done]. intros h Eh. by eapply held_nonneg. }
  set (details := map (node_detail settings held) nodes).
  assert (forall d, d ∈ details -> 0 <= default 0 (nd_gpu_free d) <= nd_gpu_count d) as Hd.
  { intros d (node & -> & Hin)%list_elem_of_fmap. apply detail_free; [exact (proj1 (Forall_forall _ _) Hn _ Hin)|exact Hheld]. }
  assert (forall d, d ∈ details -> nd_schedulable d = false -> default 0 (nd_gpu_free d) = 0) as Hunsch.
  { intros d (node & -> & Hin)%list_elem_of_fmap. unfold node_detail. cbn. intros ->. by destruct held. }
  pose proof (sum_of_le (fun d => default 0 (nd_gpu_free d)) nd_gpu_count (takers details)
                ltac:(intros d [Hin _]%takers_in; by apply Hd)) as Hsum.
  set (total := sum_of (map nd_gpu_count (takers details))) in *.
  set (free_total := sum_of (map (fun d => default 0 (nd_gpu_free d)) (takers details))) in *.
  destruct (Z.eqb_spec total 0) as [E0|E0].
  { cbn. split_and!; [lia| | |done|exact Hunsch].
    - intros free. destruct held; [intros [= <-]; lia|done].
    - intros hard used E. destruct (quota_nonneg _ _ E Hq). cbn in *. lia. }
  destruct (_quota_limit settings quotas) as [[hard used]|] eqn:E.
  - destruct (quota_nonneg _ _ E Hq) as [Hh Hu]. cbn in Hh, Hu. destruct (Z.ltb_spec hard total); cbn.
    + split_and!; [lia| |by intros ? ? [= <- <-]|intros _; change (hard <= total); lia|exact Hunsch].
      intros free [= <-]. destruct held; lia.
    + split_and!; [lia| |intros ? ? [= <- <-]; lia|done|exact Hunsch].
      intros free. destruct held; [intros [= <-]; lia|done].
  - cbn. split_and!; [lia| |done|done|exact Hunsch].
    intros free. destruct held; [intros [= <-]; lia|done].
Qed.

(** *** What the answer is made of, node by node and pod by pod *)
Definition cards_of (node : tree) : Z := _node_gpu_count node resource.
Definition open_nodes (nodes : list tree) : list tree := where_ (fun node => _node_takes_pods node settings) nodes.
Definition sits_on (name : string) (pod : tree) : bool :=
  negb (String.eqb name "") && String.eqb (text_at "nodeName" (spec_of pod)) name.
Definition held_by (pods : list tree) (name : string) : Z :=
  sum_of (map (fun pod => _pod_gpu_request pod resource) (where_ (sits_on name) pods)).
Definition spare_on (pods : list tree) (node : tree) : Z := Z.max 0 (cards_of node - held_by pods (_node_name node)).

(** The smallest of the quotas, the first of several. *)
Definition smallest_quota (limits : list (Z * Z)) (hard used : Z) : Prop :=
  exists before after, limits = before ++ (hard, used) :: after /\
    (forall l, l ∈ before -> hard < l.1) /\ (forall l, l ∈ after -> hard <= l.1).

Lemma held_sum pods name (h : gmap string Z) : name <> "" ->
  default 0 (foldl (hold resource) h pods !! name) = default 0 (h !! name) + held_by pods name.
Proof.
  intros Hname. revert h. induction pods as [|pod pods IH]; intros h; cbn [foldl]; [unfold held_by; cbn; lia|].
  rewrite IH. unfold held_by. rewrite where_cons. unfold sits_on at 2, hold. rewrite (proj2 (String.eqb_neq name "") Hname). cbn [negb andb].
  destruct (String.eqb_spec (text_at "nodeName" (spec_of pod)) name) as [->|Hne].
  - rewrite (proj2 (String.eqb_neq name "") Hname), lookup_insert_eq. cbn. unfold sum_of. cbn. lia.
  - destruct (String.eqb _ ""); [done|]. by rewrite lookup_insert_ne.
Qed.

Lemma held_anywhere pods name : default 0 (foldl (hold resource) ∅ pods !! name) = held_by pods name.
Proof.
  destruct (decide (name = "")) as [->|Hname]; [|by rewrite held_sum, lookup_empty].
  assert (held_by pods "" = 0) as ->.
  { unfold held_by. assert (where_ (sits_on "") pods = []) as ->; [|done]. by apply where_nil. }
  assert (forall h : gmap string Z, h !! "" = None -> foldl (hold resource) h pods !! "" = None) as H; [|by rewrite H].
  induction pods as [|pod pods IH]; intros h Hh; cbn [foldl]; [done|]. apply IH. unfold hold.
  destruct (String.eqb_spec (text_at "nodeName" (spec_of pod)) "") as [|Hne]; [done|]. by rewrite lookup_insert_ne.
Qed.

Lemma tightest_smallest before hard used after best :
  (forall l, l ∈ before -> hard < l.1) -> (forall l, l ∈ after -> hard <= l.1) ->
  (forall b, best = Some b -> hard < b.1) ->
  foldl tighter best (before ++ (hard, used) :: after) = Some (hard, used).
Proof.
  revert best. induction before as [|x before IH]; intros best Hb Ha Hbest; cbn [app foldl].
  - assert (tighter best (hard, used) = Some (hard, used)) as ->.
    { unfold tighter. destruct best as [b|]; [|done]. cbn. specialize (Hbest b eq_refl).
      by rewrite (proj2 (Z.ltb_lt _ _) Hbest). }
    clear Hb Hbest. induction after as [|y after IH]; cbn [foldl]; [done|]. cbn [tighter fst].
    assert ((y.1 <? hard) = false) as -> by (pose proof (Ha y ltac:(left)); lia). apply IH. intros l Hl. apply Ha. by right.
  - apply IH; [intros l Hl; apply Hb; by right|done|]. intros b. unfold tighter.
    pose proof (Hb x ltac:(left)). destruct best as [b'|]; [destruct (_ <? _)|]; intros [= <-]; auto.
Qed.

Lemma tightest_least l best limit : foldl tighter best l = Some limit ->
  (forall b, best = Some b -> limit.1 <= b.1) /\ forall x, x ∈ l -> limit.1 <= x.1.
Proof.
  revert best. induction l as [|y l IH]; intros best; cbn [foldl].
  { intros ->. split; [by intros b [= <-]|by intros ? ?%elem_of_nil]. }
  intros [Hbest Hl]%IH. unfold tighter in Hbest. destruct best as [b|].
  - destruct (Z.ltb_spec y.1 b.1) as [Hlt|Hge]; pose proof (Hbest _ eq_refl) as Hx;
      (split; [intros b' [= <-]; lia|intros x [->|Hin]%elem_of_cons; [lia|by apply Hl]]).
  - pose proof (Hbest _ eq_refl) as Hx. split; [done|]. intros x [->|Hin]%elem_of_cons; [done|by apply Hl].
Qed.

Lemma open_takers held nodes :
  takers (map (node_detail settings held) nodes) = map (node_detail settings held) (open_nodes nodes).
Proof.
  unfold takers, open_nodes. induction nodes as [|node nodes IH]; [done|]. cbn [map]. rewrite !where_cons, IH.
  change (nd_schedulable (node_detail settings held node)) with (_node_takes_pods node settings).
  by destruct (_node_takes_pods node settings).
Qed.

Lemma open_free pods nodes :
  map (fun d => default 0 (nd_gpu_free d)) (map (node_detail settings (Some (foldl (hold resource) ∅ pods))) (open_nodes nodes))
  = map (spare_on pods) (open_nodes nodes).
Proof.
  rewrite map_map. apply map_ext_in. intros node Hin%list_elem_of_In. apply elem_of_where in Hin as [_ Htakes].
  unfold node_detail. cbn [nd_gpu_free]. rewrite Htakes, held_anywhere. cbn. unfold spare_on, cards_of. lia.
Qed.

(** C36: what a machine of a cluster offers, where no count that the cluster
    answers is below zero (or infinite).  With a selector that matches nodes and every
    namespace's pods to be seen, it is the cards of the nodes that take pods,
    and as many are free as no pod sits on, node by node; if the smallest GPU
    quota of the namespace is less than that, the machine is the quota, and no
    more is free than the quota has left.  Each node is listed with its cards
    and those nobody holds, none where it takes no pods.  And whatever could be
    read: nothing is below zero, no more is free than there is, and the machine
    is at most the smallest quota and, unless the quota alone was read, at most
    the cards of the nodes that take pods. *)
Theorem capacity_is_bounded machine nodes pods quotas :
  counts_ok nodes quotas pods ->
  let c := probe_capacity settings machine nodes pods quotas in
  let limits := omap (quota_cards settings) (default [] quotas) in
  (forall listed seen, nodes = Some listed -> listed <> [] -> pods = PodsListed seen ->
     strip (text_or_else (mi_node_selector machine) (k8s_node_selector settings)) <> "" ->
     let total := sum_of (map cards_of (open_nodes listed)) in
     let free := sum_of (map (spare_on seen) (open_nodes listed)) in
     ((forall l, l ∈ limits -> total <= l.1) -> ca_gpu_count c = total /\ ca_gpu_free c = Some free) /\
     (forall hard used, smallest_quota limits hard used -> hard < total ->
        ca_gpu_count c = hard /\ ca_gpu_free c = Some (Z.min free (Z.max 0 (hard - used)))) /\
     Forall2 (fun node d => nd_node d = _node_name node /\ nd_gpu_count d = cards_of node /\
                nd_schedulable d = _node_takes_pods node settings /\
                nd_gpu_free d = Some (if _node_takes_pods node settings then spare_on seen node else 0))
       listed (ca_nodes c)) /\
  0 <= ca_gpu_count c /\
  (forall free, ca_gpu_free c = Some free -> 0 <= free <= ca_gpu_count c) /\
  (forall l, l ∈ limits -> ca_gpu_count c <= l.1) /\
  (ca_quota c = false -> ca_gpu_count c <= sum_of (map nd_gpu_count (takers (ca_nodes c)))).
Proof.
  intros Hok. destruct (capacity_bounds machine nodes pods quotas Hok) as (B1 & B2 & B3 & B4 & _).
  cbv zeta in *. split; [|split_and!; [done|done| |done]].
  2: { intros l Hl. destruct (_quota_limit settings quotas) as [[hard used]|] eqn:E.
       - specialize (B3 _ _ eq_refl). destruct quotas as [quotas|]; [|by apply elem_of_nil in Hl]. cbn in E.
         apply tightest_least in E as [_ Hleast]. specialize (Hleast l Hl). cbn in Hleast. lia.
       - destruct quotas as [quotas|]; [|by apply elem_of_nil in Hl]. cbn in E, Hl.
         destruct (omap (quota_cards settings) quotas) as [|x xs] eqn:Eo; [by apply elem_of_nil in Hl|]. cbn in E.
         clear -E. exfalso. revert E. generalize x. induction xs as [|y xs IH]; intros z; cbn; [done|]. destruct (_ <? _); apply IH. }
  intros listed seen -> Hne -> Hsel. destruct Hok as (Hn & Hp & Hq). change (default [] (Some listed)) with listed in Hn.
  unfold probe_capacity. rewrite (proj2 (String.eqb_neq _ _) Hsel).
  assert (some_of listed = true) as -> by (by destruct listed). cbn [held_cards negb].
  rewrite open_takers, open_free, map_map. set (held := foldl (hold resource) ∅ seen).
  change (map (fun x => nd_gpu_count (node_detail settings (Some held) x)) (open_nodes listed)) with (map cards_of (open_nodes listed)).
  set (total := sum_of (map cards_of (open_nodes listed))). set (free := sum_of (map (spare_on seen) (open_nodes listed))).
  assert (Hrows : Forall2 (fun node d => nd_node d = _node_name node /\ nd_gpu_count d = cards_of node /\
                nd_schedulable d = _node_takes_pods node settings /\
                nd_gpu_free d = Some (if _node_takes_pods node settings then spare_on seen node else 0))
       listed (map (node_detail settings (Some held)) listed)).
  { apply Forall2_fmap_r, Forall_Forall2_diag, Forall_forall. intros node _. unfold node_detail. cbn. split_and!; try done.
    destruct (_node_takes_pods node settings); [|done]. unfold held. rewrite held_anywhere. f_equal. unfold spare_on, cards_of. lia. }
  assert (Htotal : 0 <= total).
  { unfold total, open_nodes. clear -Hn. induction Hn as [|node l Hc _ IH]; [change (0 <= 0); lia|]. rewrite where_cons.
    destruct (_node_takes_pods node settings); [|exact IH]. cbn [map]. unfold cards_of at 1.
    change (sum_of (?x :: ?l)) with (x + sum_of l). lia. }
  assert (Hlimit : forall l, _quota_limit settings quotas = Some l -> l ∈ omap (quota_cards settings) (default [] quotas)).
  { intros l. destruct quotas as [quotas|]; [|done]. cbn. intros E. by apply tightest_in in E as [|]. }
  split; [|split; [|]].
  - intros Hall. destruct (Z.eqb_spec total 0) as [E0|E0]; [by split|].
    destruct (_quota_limit settings quotas) as [[hard used]|] eqn:E; [|by split].
    specialize (Hall _ (Hlimit _ eq_refl)). cbn in Hall. destruct (Z.ltb_spec hard total); [lia|by split].
  - intros hard used (before & after & E & Hb & Ha) Hlt.
    assert (_quota_limit settings quotas = Some (hard, used)) as El.
    { destruct quotas as [quotas|]; [|by destruct before]. cbn in E |- *. rewrite E. by apply tightest_smallest. }
    destruct (Z.eqb_spec total 0) as [E0|E0].
    { exfalso. pose proof (Hlimit _ El) as Hin. pose proof (proj1 (Forall_forall _ _) Hq _ Hin). cbn in *. lia. }
    rewrite El, (proj2 (Z.ltb_lt _ _) Hlt). cbn. split; [done|]. by rewrite (Z.max_comm (hard - used)).
  - destruct (total =? 0); [exact Hrows|]. destruct (_quota_limit settings quotas) as [[hard used]|]; [|exact Hrows].
    by destruct (hard <? total).
Qed.
End bounds.

Module Pool.
Definition settings : K8sClusterSettings := default_cluster <| k8s_workload_kind := "deployment" |>.
Definition machine : MachineInfo := mkMachineInfo "pool" "10.0.0.1" "root" 22 8 "" "" "k8s" None "pool=gpu".
Definition node (name : string) (cards : Z) (away : bool) : tree :=
  [("metadata", Mp [("name", text name); ("labels", Mp [("nvidia.com/gpu.product", text "NVIDIA-H100-80GB-HBM3")])]);
   ("spec", Mp [("unschedulable", Sc (VBool away))]);
   ("status", Mp [("allocatable", Mp [("nvidia.com/gpu", text (pretty cards))]);
                  ("conditions", Ls [Mp [("type", text "Ready"); ("status", text "True")]])])].
Definition pod (name : string) (cards : Z) : tree :=
  [("spec", Mp [("nodeName", text name);
                ("containers", Ls [Mp [("resources", Mp [("limits", Mp [("nvidia.com/gpu", num cards)])])]])])].
Definition quota (hard used : Z) : tree :=
  [("status", Mp [("hard", Mp [("requests.nvidia.com/gpu", text (pretty hard))]);
                  ("used", Mp [("requests.nvidia.com/gpu", text (pretty used))])])].
Definition nodes : list tree := [node "a" 8 false; node "b" 8 true].
Definition seen (hard used : Z) : Capacity :=
  probe_capacity settings machine (Some nodes) (PodsListed [pod "a" 3; pod "b" 1]) (Some [quota hard used]).
End Pool.

Lemma capacity_is_bounded_witness :
  ca_gpu_count (Pool.seen 6 2) = 6 /\ ca_gpu_free (Pool.seen 6 2) = Some 4 /\ ca_gpu_type (Pool.seen 6 2) = "H100"
  /\ ca_warnings (Pool.seen 6 2) = [NodeCordoned "b" 8; CappedAtQuota 6 8]
  /\ (forall free, ca_gpu_free (Pool.seen 6 2) = Some free -> 0 <= free <= ca_gpu_count (Pool.seen 6 2)).
Proof.
  split; [by vm_compute|]. split; [by vm_compute|]. split; [by vm_compute|]. split; [by vm_compute|].
  apply (capacity_is_bounded Pool.settings Pool.machine (Some Pool.nodes) (PodsListed [Pool.pod "a" 3; Pool.pod "b" 1]) (Some [Pool.quota 6 2])).
  split_and!; apply (bool_decide_unpack _); by vm_compute.
Defined.

(** A quota of as many cards as there are, all of them spent, is not looked at:
    the cards read as free although no pod may ask for one. *)
Lemma spent_quota_shows_free_cards : ca_gpu_count (Pool.seen 8 8) = 8 /\ ca_gpu_free (Pool.seen 8 8) = Some 5.
Proof. by vm_compute. Qed.
