(* ===== verification/Kube.v ===== *)
(** The Kubernetes driver ([control/launch/k8s.py:K8sDriver]): what it applies
    to a cluster, deletes from it and makes of its answers.

    The cluster is behind the interface [K8sApi], whose calls may answer
    anything, raise and change the cluster's state between one another.  What
    the driver changes is kept beside that state, in order: [lk_sent].  Reads
    that only inform are in [Pods], over what a cluster answers. *)
From Stdlib Require Import Ascii.
From S2P Require Import Failures.
From S2P Require Import Prelude Float Values Texts Documents Space Validation Flags Commands ExtraArgs Addresses Recipes.
From S2P Require Import Composition Conversion Scripts Measures Hardware Substrate Clusters Manifests Pods.
#[local] Open Scope string_scope.
#[local] Open Scope list_scope.
#[local] Open Scope Z_scope.

(** ** The cluster *)

(** [control/launch/k8s_api.py:K8sApi].  A cluster's refusal is a [K8sError],
    here any [RuntimeError]. *)
Class K8sApi (S : Type) := {
  api_apply : list tree -> M S unit;
  api_get : string -> string -> M S (option tree);
  api_delete : string -> string -> M S unit;
  api_list : string -> string -> M S (list tree);
}.

Definition port_taken (error : exn) : bool :=
  match error with RuntimeError msg => Texts.contains "provided port is already allocated" msg | _ => false end.

Inductive call := Apply (manifests : list tree) | Delete (resource name : string).
Record link (S : Type) := mkLink { lk_cluster : S; lk_sent : list call }.
Arguments mkLink {S} _ _.
Arguments lk_cluster {S} _.
Arguments lk_sent {S} _.

Section link.
Context {S : Type} `{!K8sApi S}.

Definition ask {A} (m : M S A) : M (link S) A := fun l =>
  let '(r, s') := m (lk_cluster l) in (r, mkLink s' (lk_sent l)).
Definition send {A} (c : call) (m : M S A) : M (link S) A := fun l =>
  let '(r, s') := m (lk_cluster l) in (r, mkLink s' (lk_sent l ++ [c])).

Definition get (resource name : string) : M (link S) (option tree) := ask (api_get resource name).
Definition list_ (resource selector : string) : M (link S) (list tree) := ask (api_list resource selector).
Definition apply_ (manifests : list tree) : M (link S) unit := send (Apply manifests) (api_apply manifests).
Definition delete_ (resource name : string) : M (link S) unit := send (Delete resource name) (api_delete resource name).
(** A list that cannot be read. *)
Definition list_or_none (resource selector : string) : M (link S) (option (list tree)) :=
  try_ (l <- list_ resource selector ;; ret (Some l)) (fun _ => ret None).
End link.

Section driver.
Context {S : Type} `{!K8sApi S} (settings : K8sClusterSettings) (yaml_ish : list tree -> string).

Definition _resource : string := if deployment_mode settings then "deployment" else _cr_resource settings.

(** [name.rsplit("-", 1)[-1] if name else ""], of a handle; a launch has its run
    and its name. *)
Definition selector_of (workload : bool) (name : string) (run_id : option Z) : string :=
  if workload then POLICY_LABEL +:+ "=" +:+ name
  else if deployment_mode settings then
    RUN_LABEL +:+ "=" +:+ match run_id with Some run => pretty run | None => last_part "-" name end
  else k8s_cr_pod_label settings +:+ "=" +:+ name.
Definition _run_selector (h : DeploymentHandle) : string := selector_of (h_workload h) (h_container_name h) None.

Definition handle_of (spec : LaunchSpec) (url : string) : DeploymentHandle :=
  mkHandle "k8s" (container_name spec) (ls_machine spec) url false [] 0.

(** ** Endpoints *)
Definition _first_node_ip : M (link S) string :=
  nodes <- list_or_none "nodes" "" ;;
  ret (default "" (head (concat (map _node_addresses (default [] nodes))))).

Definition _deployment_endpoint (spec : LaunchSpec) : M (link S) string :=
  svc <- get "service" (container_name spec) ;;
  let allocated := match objects "ports" (spec_of (default [] svc)) with port :: _ => count_at "nodePort" port | [] => 0 end in
  let port := if allocated =? 0 then k8s_service_nodeport settings else allocated in
  host <- (if String.eqb (k8s_node_host settings) "" then _first_node_ip else ret (k8s_node_host settings)) ;;
  ret (if negb (String.eqb host "") && negb (port =? 0) then "http://" +:+ host +:+ ":" +:+ pretty port else endpoint_url spec).

Definition _resolve_endpoint (spec : LaunchSpec) : M (link S) string :=
  if deployment_mode settings then _deployment_endpoint spec
  else cr <- get _resource (container_name spec) ;; ret (_endpoint_from_cr cr spec).

(** ** Taking a deployment down *)
Definition teardown (h : DeploymentHandle) : M (link S) unit :=
  if h_workload h then delete_ "job" (h_container_name h)
  else
    delete_ _resource (h_container_name h) ;;;
    when (deployment_mode settings) do_ delete_ "service" (h_container_name h).

(** ** The cluster's fixed port *)
Definition holds_port (node_port : Z) (svc : tree) : bool :=
  existsb (fun p => bool_decide (int_at "nodePort" p = Some node_port)) (objects "ports" (spec_of svc)).

Definition _port_holder : M (link S) (option tree) :=
  services <- list_or_none "service" "" ;;
  ret (match services with Some services => List.find (holds_port (k8s_service_nodeport settings)) services | None => None end).

Definition node_port_taken (holder : string) : string :=
  "node port " +:+ pretty (k8s_service_nodeport settings) +:+ " on cluster " +:+ cluster_name settings +:+ " is held by "
  +:+ (if String.eqb holder "" then "a Service outside AutoTune's runs"
       else "Service " +:+ k8s_namespace settings +:+ "/" +:+ holder)
  +:+ "; the run launches once it is free".

Definition labels_of (o : tree) : tree := section "labels" (metadata o).

(** The run a Service was made for, when it carries one's labels. *)
Definition run_of (svc : tree) : option Z :=
  if is_at MANAGED_LABEL "true" (labels_of svc) then
    let run := text_at RUN_LABEL (labels_of svc) in
    if Failures.isdigit (chars run) then Some (Failures.digits_value (chars run)) else None
  else None.

Definition _port_refused : M (link S) exn :=
  holder <- _port_holder ;;
  let svc := default [] holder in
  let name := text_at "name" (metadata svc) in
  ret (LaunchDeferred (node_port_taken name) 1 (run_of svc) name).

Definition ours (svc : tree) (run_id : Z) : bool :=
  is_at MANAGED_LABEL "true" (labels_of svc) && is_at RUN_LABEL (pretty run_id) (labels_of svc).

Definition release_orphan_port (service : string) (run_id : Z) : M (link S) bool :=
  svc <- get "service" service ;;
  match svc with
  | None => ret true
  | Some svc =>
      if negb (ours svc run_id) then ret false
      else
        delete_ "service" service ;;;
        left <- get "service" service ;;
        ret (bool_decide (left = None))
  end.

Definition fixed_port : bool := deployment_mode settings && negb (k8s_service_nodeport settings =? 0).

Definition release_leftovers (spec : LaunchSpec) : M (link S) bool :=
  if negb fixed_port then ret true
  else
    delete_ "service" (container_name spec) ;;;
    left <- get "service" (container_name spec) ;;
    ret (bool_decide (left = None)).

(** ** Launching *)

(** A Service on the fixed port goes first. *)
Definition service_first (manifests : list tree) : list tree :=
  sort_by (key_before (fun m => [if is_at "kind" "Service" m then 0 else 1])) manifests.

Definition launch (spec : LaunchSpec) : M (link S) (DeploymentHandle * string) :=
  manifests <- lift (render_workload spec settings) ;;
  let ordered := if fixed_port then service_first manifests else manifests in
  try_ (apply_ ordered) (fun e =>
    if fixed_port && port_taken e then
      teardown (handle_of spec "") ;;;
      deferral <- _port_refused ;;
      raise deferral
    else raise e) ;;;
  url <- _resolve_endpoint spec ;;
  ret (handle_of spec url, "kubectl apply -f - <<'EOF'" +:+ String newline (yaml_ish manifests) +:+ String newline "EOF").

Definition attach (spec : LaunchSpec) : M (link S) (option DeploymentHandle) :=
  primary <- get _resource (container_name spec) ;;
  match primary with
  | None => ret None
  | Some _ => url <- _resolve_endpoint spec ;; ret (Some (handle_of spec url))
  end.

Definition launch_workload (spec : WorkloadSpec) : M (link S) (DeploymentHandle * string) :=
  let job := render_policy_job spec settings in
  apply_ [job] ;;;
  ret (mkHandle "k8s" (ws_name spec) (ws_machine spec) "" true [] 0, yaml_ish [job]).

Definition read_workload (h : DeploymentHandle) : M (link S) WorkloadState :=
  job <- get "job" (h_container_name h) ;; ret (workload_state job).

(** ** States, from what the cluster answers *)

(** Everything the state of a run may need; nodes and events are asked for when
    the pods do not say. *)
Definition read_answers (h : DeploymentHandle) : M (link S) answers :=
  pods <- list_or_none "pods" (_run_selector h) ;;
  nodes <- list_or_none "nodes" (placement_selector settings (h_machine h)) ;;
  events <- list_or_none "events" "" ;;
  ret (mkAnswers pods nodes events).

Definition read_state (h : DeploymentHandle) : M (link S) DeploymentState :=
  primary <- get _resource (h_container_name h) ;;
  match primary with
  | None => ret Gone
  | Some _ => a <- read_answers h ;; ret (state settings (h_machine h) primary a)
  end.

Definition kube_driver : Driver (link S) := {|
  drv_launch := launch;
  drv_teardown := teardown;
  drv_state := read_state;
  drv_wait_rendezvous _ := ret tt;
|}.
End driver.
