(* ===== verification/PodFacts.v ===== *)
(** What a cluster's answers are good for: a pod says what was asked of the
    scheduler, a pod is given up only when no node could take it, a crash has
    its reason, and a restart is told from a replacement. *)
From Stdlib Require Import Ascii.
From S2P Require Import Failures.
From S2P Require Import Prelude Float Values Texts Documents Space Validation Flags Commands ExtraArgs Addresses Recipes.
From S2P Require Import Composition Conversion Scripts Measures Hardware Substrate Clusters Manifests Pods Kube.
#[local] Open Scope string_scope.
#[local] Open Scope list_scope.
#[local] Open Scope Z_scope.

(** * Restarts: what [incarnation] writes is what [Failures.restart_kind] reads *)

(** ** Texts taken apart *)
Definition without (sep : Z) (l : list ascii) : bool := forallb (fun c => negb (code c =? sep)) l.

Lemma split_on_none sep part l : without sep l = true -> split_on sep part l = [reverse part ++ l].
Proof.
  revert part. induction l as [|c l IH]; intros part; cbn [without forallb split_on]; [by rewrite app_nil_r|].
  intros [Hc%negb_true_iff Hl]%andb_prop. rewrite Hc, IH by done. by rewrite reverse_cons, <- app_assoc.
Qed.

Lemma split_on_app sep part a c b : without sep a = true -> code c = sep ->
  split_on sep part (a ++ c :: b) = (reverse part ++ a) :: split_on sep [] b.
Proof.
  intros Ha Hc. revert part. induction a as [|d a IH]; intros part; cbn [app split_on].
  - by rewrite Hc, Z.eqb_refl, app_nil_r.
  - cbn [without forallb] in Ha. apply andb_prop in Ha as [Hd%negb_true_iff Ha]. rewrite Hd, IH by done.
    by rewrite reverse_cons, <- app_assoc.
Qed.

Lemma split_commas_of parts : parts <> [] -> Forall (fun p => without 44 (chars p) = true) parts ->
  split_on 44 [] (chars (commas parts)) = map chars parts.
Proof.
  intros Hne HF. induction HF as [|p parts Hp HF IH]; [done|]. destruct parts as [|q parts].
  - cbn [commas map]. by rewrite split_on_none.
  - change (commas (p :: q :: parts)) with (p +:+ "," +:+ commas (q :: parts)). rewrite !chars_app.
    change (chars ",") with [","%char]. cbn [app]. rewrite (split_on_app 44 [] (chars p) ","%char (chars (commas (q :: parts))) Hp eq_refl). by rewrite IH.
Qed.

Lemma take_while_app {A} (p : A -> bool) a x b : forallb p a = true -> p x = false -> take_while p (a ++ x :: b) = a.
Proof.
  intros Ha Hx. induction a as [|y a IH]; cbn; [by rewrite Hx|]. cbn in Ha. apply andb_prop in Ha as [-> Ha]. by rewrite IH.
Qed.
Lemma drop_while_app {A} (p : A -> bool) a x b : forallb p a = true -> p x = false -> drop_while p (a ++ x :: b) = x :: b.
Proof.
  intros Ha Hx. induction a as [|y a IH]; cbn; [by rewrite Hx|]. cbn in Ha. apply andb_prop in Ha as [-> Ha]. by rewrite IH.
Qed.

Lemma rpartition_colon_app a b : without 58 b = true -> rpartition_colon (a ++ ":"%char :: b) = (a, b).
Proof.
  intros Hb. unfold rpartition_colon. rewrite reverse_app, reverse_cons, <- app_assoc. cbn [app].
  assert (forallb (fun c => negb (code c =? 58)) (reverse b) = true) as Hr.
  { apply forallb_forall. intros c Hc%list_elem_of_In. rewrite elem_of_reverse in Hc. exact (forallb_elem _ _ c Hb Hc). }
  rewrite take_while_app, drop_while_app by done. by rewrite !reverse_involutive.
Qed.

(** ** Engines *)

(** A pod's uid with the restarts of its containers. *)
Definition engine (pod : tree) : option (string * Z) :=
  let uid := text_at "uid" (metadata pod) in
  if String.eqb uid "" then None else Some (uid, restarts_of pod).
Definition engines (pods : list tree) : list (string * Z) := omap engine pods.

(** A cluster's uids differ and have no comma in them, and nothing restarts a
    negative number of times. *)
Definition engines_ok (pods : list tree) : Prop :=
  NoDup (engines pods).*1
  /\ Forall (fun e : string * Z => without 44 (chars e.1) = true /\ 0 <= e.2) (engines pods).

(** What is stored of a run's pods. *)
Definition stored (pods : list tree) : string := default "" (incarnation (Some pods)).

Definition part_of (e : string * Z) : string := e.1 +:+ ":" +:+ pretty e.2.
Lemma parts_of pods : omap pod_part pods = map part_of (engines pods).
Proof.
  unfold engines. induction pods as [|pod pods IH]; [done|]. cbn [omap list_omap].
  assert (pod_part pod = part_of <$> engine pod) as -> by (unfold pod_part, engine; by destruct (String.eqb _ "")).
  destruct (engine pod); [|exact IH]. cbn [fmap option_fmap option_map map]. by rewrite IH.
Qed.

Lemma digits_without sep l : (sep < 48 \/ 57 < sep) -> forallb is_digit l = true -> without sep l = true.
Proof.
  intros Hs. apply forallb_weaken. intros c Hc. unfold is_digit in Hc. apply negb_true_iff, Z.eqb_neq.
  apply andb_prop in Hc as [H1%Z.leb_le H2%Z.leb_le]. lia.
Qed.

Definition read_part (out : gmap string Z) (part : list ascii) : gmap string Z :=
  let '(uid, count) := rpartition_colon part in
  <[ of_chars uid := if isdigit count then Failures.digits_value count else 0 ]> out.

Lemma read_part_of out e : 0 <= e.2 -> read_part out (chars (part_of e)) = <[ e.1 := e.2 ]> out.
Proof.
  intros He. destruct (pretty_nonneg e.2 He) as (Hd & Hv & Hl). unfold read_part, part_of. rewrite !chars_app.
  change (chars ":") with [":"%char]. cbn [app]. rewrite rpartition_colon_app by (apply digits_without; [lia|done]).
  rewrite of_chars_chars. f_equal. unfold isdigit. destruct (chars (pretty e.2)) eqn:E; [cbn in Hl; lia|]. rewrite Hd.
  exact Hv.
Qed.

Lemma part_without e : without 44 (chars e.1) = true -> 0 <= e.2 -> without 44 (chars (part_of e)) = true.
Proof.
  intros Hc He. unfold part_of, without. rewrite !chars_app, !forallb_app. apply andb_true_intro. split; [exact Hc|].
  apply andb_true_intro. split; [done|]. apply digits_without; [lia|]. by apply pretty_nonneg.
Qed.

Lemma read_parts es out k v : NoDup es.*1 -> Forall (fun e : string * Z => 0 <= e.2) es ->
  foldl read_part out (map (fun e => chars (part_of e)) es) !! k = Some v
  <-> (k, v) ∈ es \/ (k ∉ es.*1 /\ out !! k = Some v).
Proof.
  revert out. induction es as [|[k' v'] es IH]; intros out Hnd HF.
  { cbn. split; [intros H; right; split; [apply not_elem_of_nil|done]|]. by intros [?%elem_of_nil|[_ H]]. }
  cbn [map foldl]. inversion HF as [|? ? Hv HF']; subst. rewrite read_part_of by done.
  cbn in Hnd. apply NoDup_cons in Hnd as [Hk Hnd]. rewrite IH by done. cbn [fst snd].
  change (((k', v') :: es).*1) with (k' :: es.*1). rewrite !elem_of_cons.
  destruct (decide (k = k')) as [->|Hkk].
  - rewrite lookup_insert_eq. split.
    + intros [Hin|[_ [= ->]]]; [by left; right|by left; left].
    + intros [[[= ->]|Hin]|[Hx _]]; [by right|by left|]. destruct Hx. by left.
  - rewrite lookup_insert_ne by done. naive_solver.
Qed.

Lemma parse_stored pods : engines_ok pods -> forall uid n,
  parse_incarnation (stored pods) !! uid = Some n <-> (uid, n) ∈ engines pods.
Proof.
  intros [Hnd HF] uid n. unfold stored, incarnation. rewrite parts_of.
  destruct (Permutation_map_inv part_of (engines pods) (sort_by_perm text_lt (map part_of (engines pods)))) as (es & E & Hp).
  rewrite E. clear E. rewrite Hp in Hnd, HF |- *.
  assert (parse_incarnation (default "" (match map part_of es with [] => None | parts => Some (commas parts) end))
          = foldl read_part ∅ (map (fun e => chars (part_of e)) es)) as ->.
  { destruct es as [|e es]; [done|]. set (l := e :: es) in *.
    change (default "" _) with (commas (map part_of l)). unfold parse_incarnation.
    rewrite split_commas_of; [|done|].
    - rewrite where_all; [by rewrite map_map|]. rewrite map_map. apply Forall_map, Forall_true. intros x.
      unfold part_of. rewrite !chars_app. by destruct (chars x.1).
    - apply Forall_map. eapply Forall_impl; [exact HF|]. intros x [??]. by apply part_without. }
  rewrite read_parts; [|done|]. 2: { eapply Forall_impl; [exact HF|]. by intros e [_ ?]. }
  split; [by intros [?|[_ [=]]]|by left].
Qed.

(** C37: an engine is said to have crashed exactly when a pod that is still there
    restarted a container since; a run whose pods are other ones was replaced. *)
Theorem restart_is_told_from_replacement (before now : list tree) : engines_ok before -> engines_ok now ->
  restart_kind (stored before) (stored now) = Failures.Crashed
  <-> exists uid was is_, (uid, was) ∈ engines before /\ (uid, is_) ∈ engines now /\ was < is_.
Proof.
  intros Hb Hn. rewrite restart_kind_crashed. setoid_rewrite (parse_stored before Hb). setoid_rewrite (parse_stored now Hn). done.
Qed.

Definition sample_pod (uid : string) (restarts : Z) : tree :=
  [("metadata", Mp [("uid", text uid)]);
   ("status", Mp [("containerStatuses", Ls [Mp [("restartCount", num restarts)]])])].

Lemma restart_is_told_from_replacement_witness :
  stored [sample_pod "f3-9a" 0] = "f3-9a:0"
  /\ restart_kind (stored [sample_pod "f3-9a" 0]) (stored [sample_pod "b0-11" 0; sample_pod "f3-9a" 1]) = Failures.Crashed
  /\ restart_kind (stored [sample_pod "f3-9a" 2]) (stored [sample_pod "b0-11" 3]) = Failures.Replaced.
Proof.
  split; [by vm_compute|]. split; [|by vm_compute]. apply restart_is_told_from_replacement.
  - split; apply (bool_decide_unpack _); by vm_compute.
  - split; apply (bool_decide_unpack _); by vm_compute.
  - exists "f3-9a", 0, 1. split_and!; [| |done]; apply (bool_decide_unpack _); by vm_compute.
Defined.

(** ** Reading manifests *)
Lemma dict_get_set_if k b key value d :
  dict_get k (set_if b key value d) = if b && String.eqb k key then Some value else dict_get k d.
Proof. destruct b; cbn; [apply dict_get_set|done]. Qed.

Lemma set_if_some b key value d : some_of d = true -> some_of (set_if b key value d) = true.
Proof. destruct b; [|done]. destruct d as [|[k v] d]; [done|]. cbn. by destruct (String.eqb key k). Qed.

Lemma some_of_false {A} (l : list A) : some_of l = false -> l = [].
Proof. by destruct l. Qed.

Lemma dict_get_texts k l : dict_get k (texts l) = text <$> dict_get k l.
Proof.
  induction l as [|[k' v] l IH]; [done|]. change (texts ((k', v) :: l)) with ((k', text v) :: texts l).
  rewrite !dict_get_cons. by destruct (String.eqb k k').
Qed.

(** Looks a literal key up in a manifest. *)
Ltac read_manifest :=
  repeat first [rewrite dict_get_set_if | rewrite dict_get_cons];
  cbn [String.eqb Ascii.eqb Bool.eqb andb]; rewrite ?andb_false_r.

Section engine_pod.
Context (spec : LaunchSpec) (settings : K8sClusterSettings) (command : list string).

Lemma pod_container : dict_get "containers" (_engine_container spec settings command) = Some (Ls [Mp (engine_of spec settings command)]).
Proof. unfold _engine_container. by read_manifest. Qed.

Lemma pod_node_selector :
  section "nodeSelector" (_engine_container spec settings command) = texts (_node_selector spec settings).
Proof.
  unfold section, _engine_container. read_manifest. rewrite andb_true_r.
  destruct (some_of (_node_selector spec settings)) eqn:E; [done|]. by apply some_of_false in E as ->.
Qed.

Lemma pod_affinity : section "affinity" (_engine_container spec settings command) = _node_affinity spec.
Proof.
  unfold section, _engine_container. read_manifest. rewrite andb_true_r.
  destruct (some_of (_node_affinity spec)) eqn:E; [done|]. by apply some_of_false in E as ->.
Qed.

Lemma engine_limits : 0 < _gpu_count spec ->
  section "limits" (section "resources" (engine_of spec settings command))
  = set_if (negb (String.eqb (k8s_engine_memory_limit settings) "")) "memory" (text (k8s_engine_memory_limit settings))
      (set_if (negb (String.eqb (k8s_engine_cpu_limit settings) "")) "cpu" (text (k8s_engine_cpu_limit settings))
        [(k8s_gpu_resource settings, num (_gpu_count spec))]).
Proof.
  intros Hg. unfold engine_of, section at 2. read_manifest. rewrite (proj2 (Z.ltb_lt _ _) Hg). done.
Qed.

Lemma no_limits : _gpu_count spec <= 0 -> section "resources" (engine_of spec settings command) = [].
Proof. intros Hg. unfold engine_of, section. read_manifest. by rewrite (proj2 (Z.ltb_ge _ _) Hg). Qed.

Lemma limit_on_cards : ~ k8s_gpu_resource settings ∈ ["cpu"; "memory"] ->
  cards_at (k8s_gpu_resource settings) (section "limits" (section "resources" (engine_of spec settings command)))
  = Z.max 0 (_gpu_count spec).
Proof.
  intros Hr. destruct (Z.lt_ge_cases 0 (_gpu_count spec)) as [Hg|Hg].
  - rewrite engine_limits by done. unfold cards_at. rewrite !dict_get_set_if.
    assert (String.eqb (k8s_gpu_resource settings) "cpu" = false) as -> by (apply String.eqb_neq; intros E; apply Hr; rewrite E; set_solver).
    assert (String.eqb (k8s_gpu_resource settings) "memory" = false) as -> by (apply String.eqb_neq; intros E; apply Hr; rewrite E; set_solver).
    rewrite !andb_false_r, dict_get_cons, String.eqb_refl. unfold num, doc_truthy, truthy, to_int, int_or_none.
    destruct (Z.eqb_spec (_gpu_count spec) 0); cbn [negb default]; [lia|]. cbn. lia.
  - rewrite no_limits by done. change (cards_at _ _) with 0. lia.
Qed.
End engine_pod.

Section own_request.
Context (spec : LaunchSpec) (settings : K8sClusterSettings) (command : list string) (pod : tree).
Hypothesis Hpod : spec_of pod = _engine_container spec settings command.

Lemma request_of_pod : ~ k8s_gpu_resource settings ∈ ["cpu"; "memory"] ->
  _pod_gpu_request pod (k8s_gpu_resource settings) = Z.max 0 (_gpu_count spec).
Proof.
  intros Hr. unfold _pod_gpu_request, containers_of, objects, listing. rewrite Hpod, pod_container. cbn [sub_list map foldl sub_tree].
  rewrite limit_on_cards by done. lia.
Qed.

Lemma affinity_hostnames :
  concat (map (fun term => concat (map hostnames_in (objects "matchExpressions" term))) (affinity_terms pod))
  = match ls_allowed_nodes spec with [] | [_] => [] | nodes => nodes end.
Proof.
  unfold affinity_terms. rewrite Hpod, pod_affinity. unfold _node_affinity.
  destruct (ls_allowed_nodes spec) as [|a [|b l]]; [done|done|].
  change (concat [concat [map doc_str (map text (a :: b :: l))]] = a :: b :: l). cbn [concat]. rewrite !app_nil_r, map_map.
  apply map_id.
Qed.

Lemma allowed_of_pod : Forall (fun node => node <> "") (ls_allowed_nodes spec) ->
  (length (ls_allowed_nodes spec) <> 1%nat -> HOSTNAME_LABEL ∉ (_node_selector_pairs (mi_node_selector (ls_machine spec)) settings).*1) ->
  _pod_allowed_nodes pod = list_to_set (ls_allowed_nodes spec).
Proof.
  intros Hne Hfree. unfold _pod_allowed_nodes. rewrite affinity_hostnames, Hpod, pod_node_selector.
  unfold text_at. rewrite dict_get_texts. unfold _node_selector.
  destruct (ls_allowed_nodes spec) as [|a [|b l]] eqn:E; cbn [length] in *.
  - rewrite dict_get_notin by (apply Hfree; lia). done.
  - rewrite dict_get_set, String.eqb_refl. cbn. inversion Hne as [|? ? Ha _]; subst.
    rewrite (proj2 (String.eqb_neq _ _) Ha). cbn. rewrite (proj2 (String.eqb_neq _ _) Ha). cbn. by rewrite union_empty_r_L.
  - rewrite dict_get_notin by (apply Hfree; lia). done.
Qed.
End own_request.

(** The pod a Deployment's controller makes: its template's. *)
Definition template_of (manifest : tree) : tree := section "template" (spec_of manifest).
Definition made_from (manifest pod : tree) : Prop :=
  spec_of pod = spec_of (template_of manifest) /\ labels_of pod = labels_of (template_of manifest).

(** C38: for a run that is launched as a Deployment (not as the operator's own
    kind of object), on a machine whose selector does not pin a hostname:
    what the scheduler is asked for is what a pod of the run is later judged
    by.  The cards a pod made from the manifest wants are the run's, and the
    nodes it may use are the ones the campaign allows (any, if it names none).
    The card resource is not [cpu] or [memory], and no allowed node has an
    empty name. *)
Theorem pod_says_what_was_asked spec settings manifest rest pod :
  render_workload spec settings = inr (manifest :: rest) -> deployment_mode settings = true ->
  made_from manifest pod ->
  ~ k8s_gpu_resource settings ∈ ["cpu"; "memory"] ->
  Forall (fun node => node <> "") (ls_allowed_nodes spec) ->
  HOSTNAME_LABEL ∉ (_node_selector_pairs (mi_node_selector (ls_machine spec)) settings).*1 ->
  _pod_gpu_request pod (k8s_gpu_resource settings) = Z.max 0 (_gpu_count spec)
  /\ _pod_allowed_nodes pod = list_to_set (ls_allowed_nodes spec).
Proof.
  unfold render_workload. destruct (build_command spec) as [|command]; [done|]. intros E Hd [Hspec _] Hr Hne Hfree.
  rewrite Hd in E. injection E as <- _.
  change (spec_of (template_of _)) with (_engine_container spec settings (_guarded_command command)) in Hspec.
  split; [by eapply request_of_pod|by eapply allowed_of_pod].
Qed.

(** ** Selectors *)
Lemma split_at_none sep l : forallb (fun c => negb (Ascii.eqb c sep)) l = true -> after_last sep l [] = l.
Proof. intros Hl. by rewrite after_last_none. Qed.

Lemma after_last_app sep a b acc : forallb (fun c => negb (Ascii.eqb c sep)) b = true ->
  after_last sep (a ++ sep :: b) acc = b.
Proof.
  intros Hb. revert acc. induction a as [|c a IH]; intros acc; cbn [app after_last].
  - rewrite Ascii.eqb_refl. by apply split_at_none.
  - by destruct (Ascii.eqb c sep).
Qed.

Lemma digits_no_dash l : forallb is_digit l = true -> forallb (fun c => negb (Ascii.eqb c "-"%char)) l = true.
Proof. apply forallb_weaken. intros c Hc. by destruct (Ascii.eqb_spec c "-"%char) as [->|]. Qed.

Lemma run_of_name (r : Z) : 0 <= r -> last_part "-" (run_container r) = pretty r.
Proof.
  intros Hr. unfold last_part, run_container. rewrite chars_app. change (chars "autotune-run-") with (chars "autotune-run" ++ ["-"%char]).
  rewrite <- app_assoc. cbn [app]. rewrite after_last_app; [by rewrite of_chars_chars|].
  apply digits_no_dash. by apply pretty_nonneg.
Qed.

(** [matchLabels]: every label is the one asked for. *)
Definition selects (selector labels : tree) : bool :=
  forallb (fun kv => bool_decide (dict_get kv.1 labels = Some kv.2)) selector.

(** A run's Deployment and Service select its own pods and no others', the
    pods of policies among them; and the question asked by name about a
    deployment is the one its labels answer. *)
Theorem selectors_find_their_own (settings : K8sClusterSettings) (spec spec' : LaunchSpec) (policy : string) :
  (selects (run_selector spec) (_labels spec') = true <-> ls_run_id spec = ls_run_id spec')
  /\ selects (run_selector spec) (sub_tree (Some (policy_labels policy))) = false
  /\ (0 <= ls_run_id spec -> ls_node_container spec = "" -> deployment_mode settings = true ->
      _run_selector settings (handle_of spec "") = selector_of settings false (container_name spec) (Some (ls_run_id spec))).
Proof.
  split_and!.
  - unfold selects, run_selector, _labels. cbn [texts map forallb fst snd]. rewrite andb_true_r, bool_decide_eq_true.
    change (dict_get RUN_LABEL _) with (Some (text (pretty (ls_run_id spec')))). split.
    + intros [= E]. by apply (inj pretty) in E.
    + by intros ->.
  - done.
  - intros Hr Hn Hd. unfold _run_selector, selector_of. cbn [h_workload h_container_name handle_of]. rewrite Hd.
    unfold container_name. rewrite Hn. cbn [text_or_else String.eqb]. by rewrite run_of_name.
Qed.

(** ** Waiting, or impossible *)
Section verdict.
Context (settings : K8sClusterSettings) (machine : MachineInfo) (pod : tree).

(** A node this pod may use, with the cards it asks for. *)
Definition could_host (node : tree) : bool :=
  (bool_decide (_pod_allowed_nodes pod = ∅) || bool_decide (_node_name node ∈ _pod_allowed_nodes pod))
  && ((_pod_gpu_request pod (k8s_gpu_resource settings) <=? 0)
      || (_pod_gpu_request pod (k8s_gpu_resource settings) <=? _node_gpu_count node (k8s_gpu_resource settings))).

Lemma biggest_below l w : l <> [] -> biggest_of l < w <-> (forall x, x ∈ l -> x < w).
Proof.
  destruct l as [|x l]; [done|]. intros _. cbn [biggest_of]. revert x. induction l as [|y l IH]; intros x; cbn [foldl].
  - split; [by intros ? ? ->%list_elem_of_singleton|intros Hx; apply Hx; by left].
  - rewrite IH. split.
    + intros Hx z [->|[->|Hz]%elem_of_cons]%elem_of_cons.
      * specialize (Hx (Z.max x y) ltac:(by left)). lia.
      * specialize (Hx (Z.max x y) ltac:(by left)). lia.
      * apply Hx. by right.
    + intros Hx z [->|Hz]%elem_of_cons.
      * pose proof (Hx x ltac:(by left)). pose proof (Hx y ltac:(right; by left)). lia.
      * apply Hx. right. by right.
Qed.

Lemma elem_of_allowed node nodes : node ∈ allowed_among pod nodes <->
  node ∈ nodes /\ (_pod_allowed_nodes pod = ∅ \/ _node_name node ∈ _pod_allowed_nodes pod).
Proof.
  unfold allowed_among. case_bool_decide; [tauto|]. rewrite elem_of_where, bool_decide_eq_true. tauto.
Qed.

Lemma could_host_spec node : could_host node = true <->
  (_pod_allowed_nodes pod = ∅ \/ _node_name node ∈ _pod_allowed_nodes pod)
  /\ (_pod_gpu_request pod (k8s_gpu_resource settings) <= 0
      \/ _pod_gpu_request pod (k8s_gpu_resource settings) <= _node_gpu_count node (k8s_gpu_resource settings)).
Proof. unfold could_host. by rewrite andb_true_iff, !orb_true_iff, !bool_decide_eq_true, !Z.leb_le. Qed.

Definition hosts_cards (node : tree) : Prop :=
  _pod_gpu_request pod (k8s_gpu_resource settings) <= 0
  \/ _pod_gpu_request pod (k8s_gpu_resource settings) <= _node_gpu_count node (k8s_gpu_resource settings).
#[local] Instance hosts_cards_dec node : Decision (hosts_cards node).
Proof. unfold hosts_cards. apply _. Defined.

Lemma too_wide l : l <> [] ->
  (0 <? _pod_gpu_request pod (k8s_gpu_resource settings)) && some_of l
  && (biggest_of (map (fun node => _node_gpu_count node (k8s_gpu_resource settings)) l)
      <? _pod_gpu_request pod (k8s_gpu_resource settings)) = true
  <-> ~ exists node, node ∈ l /\ hosts_cards node.
Proof.
  intros Hl. rewrite !andb_true_iff, !Z.ltb_lt, biggest_below by (by destruct l).
  assert (some_of l = true) as Hs by (by destruct l). unfold hosts_cards. split.
  - intros [[Hw _] Hb] (node & Hin & [?|Hc]); [lia|].
    specialize (Hb _ (list_elem_of_fmap_2 (fun node => _node_gpu_count node (k8s_gpu_resource settings)) _ _ Hin)). cbn in Hb. lia.
  - intros Hn. split_and!; [|done|].
    + destruct l as [|node l]; [done|]. apply Z.nle_gt. intros Hw. apply Hn. exists node. split; [by left|by left].
    + intros x (node & -> & Hin)%list_elem_of_fmap. apply Z.nle_gt. intros Hw. apply Hn. exists node. split; [done|by right].
Qed.

Lemma verdict_class nodes message :
  (nodes = [] -> placement_selector settings machine <> "") ->
  ((_placement_verdict settings machine (Some nodes) pod message).1 = "unplaceable"
   /\ ~ exists node, node ∈ nodes /\ could_host node = true)
  \/ (_placement_verdict settings machine (Some nodes) pod message = ("unschedulable", message)
      /\ exists node, node ∈ nodes /\ could_host node = true).
Proof.
  intros Hsel. unfold _placement_verdict. setoid_rewrite could_host_spec. fold hosts_cards.
  assert ((exists node, node ∈ nodes /\ (_pod_allowed_nodes pod = ∅ \/ _node_name node ∈ _pod_allowed_nodes pod) /\ hosts_cards node)
          <-> exists node, node ∈ allowed_among pod nodes /\ hosts_cards node) as Hex
    by (setoid_rewrite elem_of_allowed; naive_solver).
  unfold hosts_cards at 1 in Hex. rewrite Hex.
  case_bool_decide as Hn.
  { subst nodes. rewrite (proj2 (String.eqb_neq _ _)) by auto. left. split; [done|].
    by intros (? & [?%elem_of_nil _]%elem_of_allowed & _). }
  rewrite andb_false_r. destruct (decide (allowed_among pod nodes = [])) as [E|E].
  - rewrite (bool_decide_true (allowed_among pod nodes = [])) by done. rewrite bool_decide_false.
    + left. split; [done|]. rewrite E. by intros (? & ?%elem_of_nil & _).
    + intros Ha. unfold allowed_among in E. by rewrite bool_decide_true in E.
  - rewrite (bool_decide_false (allowed_among pod nodes = [])) by done. rewrite andb_false_r. cbn [andb].
    pose proof (too_wide (allowed_among pod nodes) E) as Hw.
    destruct ((0 <? _) && _ && _).
    + left. split; [done|]. by apply Hw.
    + right. split; [done|]. rewrite <- Exists_exists in Hw |- *. apply dec_stable. intros Hx. by apply Hw in Hx.
Qed.
End verdict.

(** C35: a pod the scheduler cannot place is given up exactly when the nodes of its
    machine are known and none of them, of those it may use, has the cards it
    asks for; otherwise the run waits.  (A cluster that lists no node at all is
    covered where the machine has a selector.) *)
Theorem given_up_only_when_nothing_fits settings machine nodes pod message :
  (nodes = Some [] -> placement_selector settings machine <> "") ->
  is_transient_placement (_placement_verdict settings machine nodes pod message).1 = false
  <-> exists known, nodes = Some known /\ ~ exists node, node ∈ known /\ could_host settings pod node = true.
Proof.
  intros Hsel. destruct nodes as [known|].
  - destruct (verdict_class settings machine pod known message) as [[E Hno]|[E Hyes]]; [naive_solver| |].
    + rewrite E. split; [|done]. intros _. by exists known.
    + rewrite E. split; [done|]. by intros (k & [= <-] & Hno).
  - split; [done|]. by intros (? & [=] & _).
Qed.

(** ** Crashes and their reasons *)
Lemma exists_find {A} (p : A -> bool) l : existsb p l = bool_decide (is_Some (List.find p l)).
Proof.
  induction l as [|x l IH]; [done|]. cbn. destruct (p x); [done|exact IH].
Qed.

Lemma failed_reasons_last reason : reason ∈ _POD_FAILED_REASONS -> is_transient_placement (_failure_class_for reason) = false.
Proof.
  assert (Forall (fun r => is_transient_placement (_failure_class_for r) = false) _POD_FAILED_REASONS) as HF
    by (apply (bool_decide_unpack _); by vm_compute).
  intros Hin. exact (proj1 (Forall_forall _ _) HF _ Hin).
Qed.
Lemma event_reasons_last reason : reason ∈ _POD_FAILED_EVENT_REASONS -> is_transient_placement (_failure_class_for reason) = false.
Proof.
  assert (Forall (fun r => is_transient_placement (_failure_class_for r) = false) _POD_FAILED_EVENT_REASONS) as HF
    by (apply (bool_decide_unpack _); by vm_compute).
  intros Hin. exact (proj1 (Forall_forall _ _) HF _ Hin).
Qed.

Lemma crashed_container_has_a_reason pod container : _pod_ready pod = false ->
  container_crashed container = bool_decide (is_Some (container_failure pod container)).
Proof.
  intros Hr. unfold container_crashed, stuck, container_failure. rewrite exists_find, Hr. cbn [negb andb].
  destruct (List.find _ _); [done|]. cbn [orb]. destruct (_restarted_before_ready container); [by rewrite orb_true_r|].
  rewrite orb_false_r. destruct (exited_badly container); [|done]. by destruct (is_at "reason" "OOMKilled" _).
Qed.

Lemma container_reason_lasts pod container class message :
  container_failure pod container = Some (class, message) -> is_transient_placement class = false.
Proof.
  unfold container_failure. destruct (List.find _ _) as [reason|] eqn:E.
  - intros [= <- _]. apply failed_reasons_last. by apply find_elem in E as [? _].
  - destruct (negb (_pod_ready pod) && _); [by intros [= <- _]|]. destruct (exited_badly container); [|done].
    destruct (is_at _ _ _); by intros [= <- _].
Qed.

Lemma newer_reason events best : (forall b, best = Some b -> b.1.2 ∈ _POD_FAILED_EVENT_REASONS) ->
  Forall (fun e : string * string * string => e.1.2 ∈ _POD_FAILED_EVENT_REASONS) events ->
  forall b, foldl newer best events = Some b -> b.1.2 ∈ _POD_FAILED_EVENT_REASONS.
Proof.
  intros Hb HF. revert best Hb. induction HF as [|e events He _ IH]; intros best Hb b; [apply Hb|].
  cbn. apply IH. intros c. unfold newer. destruct best as [b0|]; [|by intros [= <-]].
  destruct (text_lt _ _); [by apply Hb|by intros [= <-]].
Qed.

Lemma event_reason_lasts events pod class message :
  _event_failure events pod = Some (class, message) -> is_transient_placement class = false.
Proof.
  unfold _event_failure. destruct (String.eqb _ ""); [done|]. destruct events as [events|]; [|done].
  destruct (foldl newer None _) as [[[at_ reason] msg]|] eqn:E; [|done]. intros [= <- _]. apply event_reasons_last.
  apply (newer_reason _ None) in E; [done|done|]. apply Forall_forall. intros [[t r] m] (event & Hin & Hw)%list_elem_of_omap.
  unfold wedges in Hw. destruct (_ && _); [|done]. destruct (List.find _ _) eqn:Ef; [|done]. injection Hw as <- <- <-.
  by apply find_elem in Ef as [? _].
Qed.

Lemma pods_state_crashed pods any : pods_state pods any = Crashed <->
  (forall pod, pod ∈ pods -> _pod_ready pod = false)
  /\ (any = true \/ exists pod container, pod ∈ pods /\ container ∈ container_statuses pod /\ container_crashed container = true).
Proof.
  revert any. induction pods as [|pod pods IH]; intros any; cbn [pods_state].
  - destruct any; split; try done.
    + intros _. split; [by intros ? ?%elem_of_nil|by left].
    + by intros [_ [?|(? & ? & ?%elem_of_nil & _)]].
  - destruct (_pod_ready pod) eqn:Hr.
    { split; [done|]. intros [Hx _]. specialize (Hx pod ltac:(by left)). congruence. }
    rewrite IH, orb_true_iff, existsb_exists. setoid_rewrite elem_of_cons. setoid_rewrite list_elem_of_In.
    split.
    + intros [Hx Hc]. split; [naive_solver|]. destruct Hc as [[?|(c & ? & ?)]|(p & c & ? & ? & ?)]; [by left| |]; right; eauto 10.
    + intros [Hx Hc]. split; [naive_solver|].
      destruct Hc as [?|(p & c & [->|?] & ? & ?)]; [by left; left|left; right; eauto|right; eauto 10].
Qed.

Lemma head_omap_Some {A B} (f : A -> option B) l x y : x ∈ l -> f x = Some y ->
  exists x' y', x' ∈ l /\ f x' = Some y' /\ head (omap f l) = Some y'.
Proof.
  intros Hin Hx. destruct (head (omap f l)) as [y'|] eqn:E.
  - apply head_Some_elem_of in E as (x' & ? & ?)%list_elem_of_omap. by exists x', y'.
  - rewrite head_omap_None in E. specialize (E x Hin). congruence.
Qed.

Section crash.
Context (settings : K8sClusterSettings) (machine : MachineInfo) (nodes events : option (list tree)).

Lemma pod_reason_lasts pod v : List.find unschedulable (conditions pod) = None ->
  pod_failure settings machine nodes events pod = Some v -> is_transient_placement v.1 = false.
Proof.
  intros Hu. unfold pod_failure. rewrite Hu. destruct (head _) as [w|] eqn:E.
  - intros [= <-]. apply head_Some_elem_of in E as (c & _ & Hc)%list_elem_of_omap. destruct w. by eapply container_reason_lasts.
  - intros Hv. destruct v. by eapply event_reason_lasts.
Qed.

Lemma crashed_reason pods : pods_state pods false = Crashed ->
  (forall pod, pod ∈ pods -> List.find unschedulable (conditions pod) = None) ->
  exists v, failure_reason settings machine (mkAnswers (Some pods) nodes events) = Some v /\ is_transient_placement v.1 = false.
Proof.
  intros [Hr [|(pod & c & Hp & Hc & Hcr)]]%pods_state_crashed Hu; [done|].
  rewrite (crashed_container_has_a_reason pod) in Hcr by auto. apply bool_decide_eq_true in Hcr as [w Hw].
  destruct (head_omap_Some (container_failure pod) _ _ _ Hc Hw) as (_ & w' & _ & _ & Hh).
  assert (pod_failure settings machine nodes events pod = Some w') as Hpf by (unfold pod_failure; by rewrite Hh).
  destruct (head_omap_Some (pod_failure settings machine nodes events) _ _ _ Hp Hpf) as (pod' & v & Hin & Hv & Hhead).
  exists v. split; [exact Hhead|]. eapply pod_reason_lasts; eauto.
Qed.
End crash.

(** The two kinds of workload agree on a crash: what the pods of a Deployment
    show as crashed has a reason that waiting does not change, and is crashed as
    a custom object too, unless the operator calls it ready. *)
Theorem crash_has_its_reason settings custom machine primary object pods nodes events :
  deployment_mode settings = true -> deployment_mode custom = false ->
  (forall pod, pod ∈ pods -> List.find unschedulable (conditions pod) = None) ->
  state settings machine (Some primary) (mkAnswers (Some pods) nodes events) = Crashed ->
  (exists class message, failure_reason settings machine (mkAnswers (Some pods) nodes events) = Some (class, message)
                         /\ is_transient_placement class = false)
  /\ (_phase object <> "ready" -> state custom machine (Some object) (mkAnswers (Some pods) nodes events) = Crashed).
Proof.
  intros Hd Hc Hu Hs. unfold state in Hs. rewrite Hd in Hs. cbn in Hs. split.
  - destruct (crashed_reason settings machine nodes events pods Hs Hu) as ([class message] & E & Ht). by exists class, message.
  - intros Hphase. unfold state. rewrite Hc. case_bool_decide; [done|]. rewrite (proj2 (String.eqb_neq _ _) Hphase).
    destruct (crashed_reason custom machine nodes events pods Hs Hu) as ([class message] & -> & Ht). cbn in Ht. by rewrite Ht.
Qed.

(** ** Witnesses *)
Module Sample.
Definition machine : MachineInfo := mkMachineInfo "pool" "10.0.0.1" "root" 22 8 "" "" "k8s" None "nvidia.com/gpu.product=H100".
Definition settings : K8sClusterSettings :=
  default_cluster <| k8s_workload_kind := "deployment" |> <| k8s_service_nodeport := 30080 |>.
Definition custom : K8sClusterSettings := default_cluster <| k8s_workload_kind := "custom" |>.
Definition launch_spec (nodes : list string) : LaunchSpec :=
  mkLaunchSpec 12 machine "vllm" "repo/vllm:1" "/data/m" "m" [("tp", num 4)] [0; 1; 2; 3] 28200 [] [] [] nodes 0 1 "" 0 "".
Definition rendered (nodes : list string) : list tree :=
  match render_workload (launch_spec nodes) settings with inr l => l | inl _ => [] end.
Definition deployment (nodes : list string) : tree := default [] (head (rendered nodes)).
Definition service (nodes : list string) : tree := default [] (last (rendered nodes)).
Definition pod_of (nodes : list string) (status : tree) : tree :=
  [("metadata", Mp [("name", text "p"); ("uid", text "u"); ("labels", Mp (labels_of (template_of (deployment nodes))))]);
   ("spec", Mp (spec_of (template_of (deployment nodes)))); ("status", Mp status)].
Definition node (name : string) (cards : Z) : tree :=
  [("metadata", Mp [("name", text name)]);
   ("status", Mp [("allocatable", Mp [("nvidia.com/gpu", num cards)])])].
Definition waiting : tree :=
  [("conditions", Ls [Mp [("type", text "PodScheduled"); ("status", text "False"); ("reason", text "Unschedulable")]])].
Definition crashed : tree :=
  [("containerStatuses", Ls [Mp [("restartCount", num 2); ("state", Mp [("running", Mp [])]);
                                 ("lastState", Mp [("terminated", Mp [("exitCode", num 1)])])]])].
Definition mount_event : tree :=
  [("type", text "Warning"); ("reason", text "FailedMount"); ("lastTimestamp", text "2026-01-01T00:00:00Z");
   ("involvedObject", Mp [("kind", text "Pod"); ("name", text "p")])].
End Sample.

Lemma pod_says_what_was_asked_witness :
  _pod_gpu_request (Sample.pod_of ["a"; "b"] []) "nvidia.com/gpu" = 4
  /\ _pod_allowed_nodes (Sample.pod_of ["a"; "b"] []) = {[ "a"; "b" ]}
  /\ _pod_allowed_nodes (Sample.pod_of ["a"; "b"] []) = list_to_set ["a"; "b"].
Proof.
  split; [by vm_compute|]. split; [apply (bool_decide_unpack _); by vm_compute|].
  apply (pod_says_what_was_asked (Sample.launch_spec ["a"; "b"]) Sample.settings (Sample.deployment ["a"; "b"]) [Sample.service ["a"; "b"]]);
    [by vm_compute|done|by split|set_solver|by repeat constructor|].
  apply (bool_decide_unpack _). by vm_compute.
Defined.

Lemma selectors_find_their_own_witness :
  _run_selector Sample.settings (handle_of (Sample.launch_spec []) "") = "autotune.modelsphere.dev/run=12"
  /\ _run_selector Sample.settings (handle_of (Sample.launch_spec []) "") = selector_of Sample.settings false "autotune-run-12" (Some 12).
Proof.
  split; [by vm_compute|].
  destruct (selectors_find_their_own Sample.settings (Sample.launch_spec []) (Sample.launch_spec []) "autotune-policy-12") as (_ & _ & H).
  by apply H.
Defined.

Lemma given_up_only_when_nothing_fits_witness :
  (_placement_verdict Sample.settings Sample.machine (Some [Sample.node "a" 2]) (Sample.pod_of [] []) "full").1 = "unplaceable"
  /\ _placement_verdict Sample.settings Sample.machine (Some [Sample.node "a" 2; Sample.node "b" 8]) (Sample.pod_of [] []) "full"
     = ("unschedulable", "full")
  /\ (_placement_verdict Sample.settings Sample.machine (Some [Sample.node "a" 2; Sample.node "b" 8]) (Sample.pod_of ["a"] []) "full").1
     = "unplaceable"
  /\ is_transient_placement (_placement_verdict Sample.settings Sample.machine (Some [Sample.node "a" 2]) (Sample.pod_of [] []) "full").1 = false.
Proof.
  split; [by vm_compute|]. split; [by vm_compute|]. split; [by vm_compute|].
  apply given_up_only_when_nothing_fits; [done|]. exists [Sample.node "a" 2]. split; [done|].
  intros (n & ->%list_elem_of_singleton & H). by vm_compute in H.
Defined.

Lemma crash_has_its_reason_witness :
  let a := mkAnswers (Some [Sample.pod_of [] Sample.crashed]) None None in
  state Sample.settings Sample.machine (Some []) a = Crashed
  /\ state Sample.custom Sample.machine (Some []) a = Crashed
  /\ exists class message, failure_reason Sample.settings Sample.machine a = Some (class, message) /\ is_transient_placement class = false.
Proof.
  intros a. split; [by vm_compute|].
  destruct (crash_has_its_reason Sample.settings Sample.custom Sample.machine [] [] [Sample.pod_of [] Sample.crashed] None None)
    as (H1 & H2); [done|done|by intros pod ->%list_elem_of_singleton|by vm_compute|].
  split; [|exact H1]. apply H2. by vm_compute.
Defined.

(** With an older pod that waits for a node, a crashed run is said to wait. *)
Lemma waiting_pod_hides_the_crash :
  let a := mkAnswers (Some [Sample.pod_of [] Sample.waiting; Sample.pod_of [] Sample.crashed]) (Some [Sample.node "b" 8]) None in
  state Sample.settings Sample.machine (Some []) a = Crashed
  /\ fst <$> failure_reason Sample.settings Sample.machine a = Some "unschedulable".
Proof. by vm_compute. Qed.

(** A mount that can never succeed ends a custom run at once, and leaves a
    Deployment starting. *)
Lemma failed_mount_is_not_seen_in_a_deployment :
  let a := mkAnswers (Some [Sample.pod_of [] []]) None (Some [Sample.mount_event]) in
  fst <$> failure_reason Sample.settings Sample.machine a = Some "mount_failed"
  /\ state Sample.custom Sample.machine (Some []) a = Crashed
  /\ state Sample.settings Sample.machine (Some []) a = Starting.
Proof. by vm_compute. Qed.

(** One allowed node replaces the one the machine is. *)
Lemma single_node_overrides_the_machine :
  let pinned := (Sample.launch_spec ["b"]) <| ls_machine ::= fun m => m <| mi_node_selector := "kubernetes.io/hostname=a" |> |> in
  _node_selector pinned Sample.settings = [("kubernetes.io/hostname", "b")].
Proof. by vm_compute. Qed.

(** What docker reads as a read-only mount is no path to a kubelet, and not the
    model's mount either. *)
Lemma engine_mounts_keep_their_options :
  map (fun vm => dict_get "mountPath" vm.2)
    (_engine_volumes ((Sample.launch_spec []) <| ls_volumes := [("/data/m", "/model:ro")] |>) (Sample.settings <| k8s_model_pvc := "weights" |>))
  = [Some (text "/model:ro")]
  /\ map (fun vm => dict_has "persistentVolumeClaim" vm.1)
    (_engine_volumes ((Sample.launch_spec []) <| ls_volumes := [("/data/m", "/model:ro")] |>) (Sample.settings <| k8s_model_pvc := "weights" |>))
  = [false].
Proof. by vm_compute. Qed.
