(* ===== verification/KubeFacts.v ===== *)
(** What the Kubernetes driver may do to a cluster, whatever the cluster answers:
    it changes its own run's objects only, a launch that is refused the fixed
    port leaves nothing, and it keeps the promises of a driver ([DriverLaws]). *)
From Stdlib Require Import Ascii.
From S2P Require Import Failures.
From S2P Require Import Prelude Float Values Texts Documents Space Validation Flags Commands ExtraArgs Addresses Recipes.
From S2P Require Import Composition Conversion Scripts Measures Hardware Substrate Clusters Manifests Pods Kube PodFacts.
#[local] Open Scope string_scope.
#[local] Open Scope list_scope.
#[local] Open Scope Z_scope.

(** ** Calls, in order *)
Section calls.
Context {S : Type} `{!K8sApi S}.

(** The calls a program adds, all of them allowed. *)
Definition only_calls (P : call -> Prop) (l l' : link S) : Prop :=
  exists calls, lk_sent l' = lk_sent l ++ calls /\ Forall P calls.

#[local] Instance only_calls_pre P : PreOrder (only_calls P).
Proof.
  split.
  - intros l. exists []. by rewrite app_nil_r.
  - intros l1 l2 l3 (a & E1 & H1) (b & E2 & H2). exists (a ++ b). rewrite E2, E1, app_assoc. split; [done|by apply Forall_app].
Qed.

Lemma ask_calls P {A} (m : M S A) : respects (only_calls P) (ask m).
Proof. intros l. unfold ask. destruct (m (lk_cluster l)) as [r s]. exists []. by rewrite app_nil_r. Qed.
Lemma send_calls (P : call -> Prop) {A} c (m : M S A) : P c -> respects (only_calls P) (send c m).
Proof. intros Hc l. unfold send. destruct (m (lk_cluster l)) as [r s]. exists [c]. by repeat constructor. Qed.
End calls.
#[local] Hint Resolve ask_calls : effects.
#[local] Hint Extern 1 (PreOrder (only_calls _)) => apply only_calls_pre : typeclass_instances.

Section own.
Context {S : Type} `{!K8sApi S} (settings : K8sClusterSettings) (yaml_ish : list tree -> string).

(** A change to the objects of one name. *)
Definition own (name : string) (c : call) : Prop :=
  match c with
  | Apply manifests => Forall (fun m => text_at "name" (metadata m) = name) manifests
  | Delete resource name' => name' = name /\ resource ∈ [_resource settings; "service"]
  end.

Lemma list_or_none_calls P resource selector : respects (only_calls P) (list_or_none (S:=S) resource selector).
Proof. unfold list_or_none, list_. respects_walk. Qed.
Lemma get_calls P resource name : respects (only_calls P) (get (S:=S) resource name).
Proof. unfold get. respects_walk. Qed.
#[local] Hint Resolve list_or_none_calls get_calls : effects.

Lemma delete_calls (P : call -> Prop) resource name : P (Delete resource name) -> respects (only_calls P) (delete_ (S:=S) resource name).
Proof. intros HP. by apply send_calls. Qed.

Lemma resolve_calls P spec : respects (only_calls P) (_resolve_endpoint (S:=S) settings spec).
Proof. unfold _resolve_endpoint, _deployment_endpoint, _first_node_ip. respects_walk. Qed.
Lemma refused_calls P : respects (only_calls P) (_port_refused (S:=S) settings).
Proof. unfold _port_refused, _port_holder. respects_walk. Qed.
Lemma answers_calls P h : respects (only_calls P) (read_answers (S:=S) settings h).
Proof. unfold read_answers. respects_walk. Qed.
#[local] Hint Resolve resolve_calls refused_calls answers_calls : effects.

Lemma teardown_calls h : h_workload h = false -> respects (only_calls (own (h_container_name h))) (teardown (S:=S) settings h).
Proof.
  intros Hh. unfold teardown. rewrite Hh. respects_walk; apply delete_calls; (split; [done|set_solver]).
Qed.

Lemma rendered_names spec manifests : render_workload spec settings = inr manifests -> container_name spec <> "" ->
  Forall (fun m => text_at "name" (metadata m) = container_name spec) manifests.
Proof.
  unfold render_workload. destruct (build_command spec) as [|command]; [done|]. intros [= <-] Hn.
  assert (forall m, dict_get "metadata" m = Some (metadata_of spec settings) -> text_at "name" (metadata m) = container_name spec) as Hm.
  { intros m E. unfold metadata, section. rewrite E. apply text_of_text, eq_refl. }
  destruct (deployment_mode settings); repeat constructor; by apply Hm.
Qed.

Lemma container_name_nonempty spec : container_name spec <> "".
Proof.
  unfold container_name, text_or_else. destruct (String.eqb_spec (ls_node_container spec) ""); [|done]. by unfold run_container.
Qed.

(** A launch after its manifests are rendered. *)
Definition launch_rendered spec (manifests : list tree) : M (link S) (DeploymentHandle * string) :=
  try_ (apply_ (if fixed_port settings then service_first manifests else manifests)) (fun e =>
    if fixed_port settings && port_taken e
    then teardown settings (handle_of spec "") ;;; deferral <- _port_refused settings ;; raise deferral else raise e) ;;;
  url <- _resolve_endpoint settings spec ;;
  ret (handle_of spec url, "kubectl apply -f - <<'EOF'" +:+ String newline (yaml_ish manifests) +:+ String newline "EOF").
Lemma launch_eq spec l : launch settings yaml_ish spec l
  = match render_workload spec settings with inl e => (inl e, l) | inr manifests => launch_rendered spec manifests l end.
Proof. unfold launch. by destruct (render_workload spec settings). Qed.

Lemma launch_calls spec : respects (only_calls (own (container_name spec))) (launch (S:=S) settings yaml_ish spec).
Proof.
  intros l. rewrite launch_eq. destruct (render_workload spec settings) as [e|manifests] eqn:E; [reflexivity|]. revert l.
  assert (own (container_name spec) (Apply (if fixed_port settings then service_first manifests else manifests))) as Hown.
  { pose proof (rendered_names _ _ E (container_name_nonempty spec)) as HF. cbn. destruct (fixed_port settings); [|done].
    unfold service_first. by rewrite sort_by_perm. }
  change (respects (only_calls (own (container_name spec))) (launch_rendered spec manifests)). unfold launch_rendered.
  respects_walk.
  - by apply send_calls.
  - by apply (teardown_calls (handle_of spec "")).
Qed.

Lemma no_calls {A} (m : M (link S) A) l : respects (only_calls (fun _ => False)) m -> lk_sent (m l).2 = lk_sent l.
Proof.
  intros Hm. destruct (Hm l) as ([|c calls] & E & HF); [by rewrite app_nil_r in E|]. by inversion HF.
Qed.

Lemma attach_calls P spec : respects (only_calls P) (attach (S:=S) settings spec).
Proof. unfold attach. respects_walk. Qed.
Lemma read_state_calls P h : respects (only_calls P) (read_state (S:=S) settings h).
Proof. unfold read_state. respects_walk. Qed.
Lemma leftovers_calls spec : respects (only_calls (own (container_name spec))) (release_leftovers (S:=S) settings spec).
Proof. unfold release_leftovers. respects_walk. apply delete_calls. split; [done|set_solver]. Qed.

(** C34: whatever the cluster answers, the driver changes nothing but the objects
    of the run it is asked about: its workload and its Service; reading a state
    changes nothing, and the Service of a run that is over is deleted only while
    it carries that run's labels. *)
Theorem driver_changes_only_its_own (spec : LaunchSpec) (h : DeploymentHandle) (service : string) (run_id : Z) (l : link S) :
  only_calls (own (container_name spec)) l (launch settings yaml_ish spec l).2
  /\ (h_workload h = false -> only_calls (own (h_container_name h)) l (teardown settings h l).2)
  /\ only_calls (own (container_name spec)) l (release_leftovers settings spec l).2
  /\ lk_sent (attach settings spec l).2 = lk_sent l
  /\ lk_sent (read_state settings h l).2 = lk_sent l
  /\ (lk_sent (release_orphan_port service run_id l).2 = lk_sent l
      \/ lk_sent (release_orphan_port service run_id l).2 = lk_sent l ++ [Delete "service" service]
         /\ exists svc s, api_get "service" service (lk_cluster l) = (inr (Some svc), s) /\ ours svc run_id = true).
Proof.
  split_and!; [apply launch_calls|intros Hh; by apply teardown_calls|apply leftovers_calls|apply no_calls, attach_calls|apply no_calls, read_state_calls|].
  unfold release_orphan_port, bind, get, delete_, ask, send, ret.
  destruct (api_get "service" service (lk_cluster l)) as [[e|[svc|]] s] eqn:E; [by left| |by left].
  destruct (ours svc run_id) eqn:Eo; cbn [negb]; [right|by left]. split; [|by exists svc, s]. cbn [lk_cluster lk_sent].
  destruct (api_delete "service" service s) as [[e|[]] s']; [done|]. cbn [lk_cluster lk_sent].
  by destruct (api_get "service" service s') as [[e|o] s2].
Qed.

(** ** The fixed port *)
Lemma service_goes_first spec manifests : render_workload spec settings = inr manifests -> fixed_port settings = true ->
  exists deployment service, service_first manifests = [service; deployment]
    /\ is_at "kind" "Service" service = true /\ is_at "kind" "Deployment" deployment = true.
Proof.
  unfold render_workload. destruct (build_command spec) as [|command]; [done|]. intros [= <-] [Hd _]%andb_prop. rewrite Hd.
  exists (_render_deployment spec settings (_guarded_command command)), (_render_service spec settings). by split.
Qed.

(** Who is said to hold the port, from what the cluster answers about its
    Services: the first of them on the port, by its name and the run its labels
    name; nobody known, when none is on it or they cannot be listed. *)
Definition told_holder (answer : exn + list tree) (run : option Z) (name : string) : Prop :=
  match answer with
  | inl _ => run = None /\ name = ""
  | inr services =>
      (exists before svc after, services = before ++ svc :: after /\
         (forall other, other ∈ before -> holds_port (k8s_service_nodeport settings) other = false) /\
         holds_port (k8s_service_nodeport settings) svc = true /\
         run = run_of svc /\ name = text_at "name" (metadata svc)) \/
      ((forall other, other ∈ services -> holds_port (k8s_service_nodeport settings) other = false) /\
       run = None /\ name = "")
  end.

Lemma find_first {A} (f : A -> bool) l : match List.find f l with
  | Some x => exists before after, l = before ++ x :: after /\ (forall y, y ∈ before -> f y = false) /\ f x = true
  | None => forall y, y ∈ l -> f y = false
  end.
Proof.
  induction l as [|x l IH]; cbn; [by intros y ?%elem_of_nil|]. destruct (f x) eqn:E.
  - exists [], l. split_and!; [done|by intros y ?%elem_of_nil|done].
  - destruct (List.find f l) as [y|].
    + destruct IH as (before & after & -> & Hb & Hy). exists (x :: before), after. split_and!; [done| |done].
      intros z [->|Hz]%elem_of_cons; auto.
    + intros y [->|Hy]%elem_of_cons; auto.
Qed.

Lemma port_refused_spec (l : link S) answer s : api_list "service" "" (lk_cluster l) = (answer, s) ->
  exists run name l', _port_refused settings l = (inr (LaunchDeferred (node_port_taken settings name) 1 run name), l')
    /\ lk_sent l' = lk_sent l /\ told_holder answer run name.
Proof.
  intros E. unfold _port_refused, _port_holder, bind, list_or_none, try_, list_, ask, bind, ret. rewrite E.
  destruct answer as [e|services]; cbn [default].
  - eexists _, _, _. split; [done|]. split; [done|]. by split.
  - eexists _, _, _. split; [done|]. split; [done|]. cbn [told_holder].
    pose proof (find_first (holds_port (k8s_service_nodeport settings)) services) as Hf.
    destruct (List.find _ services) as [svc|]; [|right; by split_and!].
    destruct Hf as (before & after & -> & Hb & Hp). left. exists before, svc, after. by split_and!.
Qed.

(** C40: a launch whose Service is refused the cluster's fixed port asks for the
    Service before the Deployment, takes both away again and waits for the
    port, telling who holds it: the first Service on the port among those the
    cluster then lists, and the run that Service's labels name; or nobody, when
    none is on it or they cannot be listed.  Any other refusal is the launch's
    own error, and nothing is taken away.  Assumed, for the refused port: the
    cluster carries out the two deletes. *)
Theorem refused_port_leaves_nothing (spec : LaunchSpec) (manifests : list tree) (l : link S) e s1 s2 s3 s4 answer :
  render_workload spec settings = inr manifests -> fixed_port settings = true ->
  api_apply (service_first manifests) (lk_cluster l) = (inl e, s1) ->
  api_delete "deployment" (container_name spec) s1 = (inr tt, s2) ->
  api_delete "service" (container_name spec) s2 = (inr tt, s3) ->
  api_list "service" "" s3 = (answer, s4) ->
  exists service deployment,
    service_first manifests = [service; deployment] /\ is_at "kind" "Service" service = true /\
    is_at "kind" "Deployment" deployment = true
    /\ if port_taken e then
         exists run name l', launch settings yaml_ish spec l = (inl (LaunchDeferred (node_port_taken settings name) 1 run name), l')
           /\ lk_sent l' = lk_sent l ++ [Apply [service; deployment]; Delete "deployment" (container_name spec);
                                         Delete "service" (container_name spec)]
           /\ told_holder answer run name
       else exists l', launch settings yaml_ish spec l = (inl e, l') /\ lk_sent l' = lk_sent l ++ [Apply [service; deployment]].
Proof.
  intros Hr Hf Happ E2 E3 E4. destruct (service_goes_first _ _ Hr Hf) as (deployment & service & E & Hs & Hk).
  exists service, deployment. split; [done|]. split; [done|]. split; [done|].
  rewrite launch_eq, Hr. unfold launch_rendered. rewrite Hf. rewrite E in *.
  assert (apply_ [service; deployment] l = (inl e, mkLink s1 (lk_sent l ++ [Apply [service; deployment]]))) as Ha
    by (unfold apply_, send; by rewrite Happ).
  destruct (port_taken e) eqn:Ep0; unfold bind at 1, try_; rewrite Ha; cbn [andb]; rewrite Ep0; [|by eexists].
  assert (deployment_mode settings = true) as Hd by (unfold fixed_port in Hf; by apply andb_prop in Hf as [? _]).
  set (l3 := mkLink s3 (((lk_sent l ++ [Apply [service; deployment]]) ++ [Delete "deployment" (container_name spec)])
                        ++ [Delete "service" (container_name spec)])).
  assert (teardown settings (handle_of spec "") (mkLink s1 (lk_sent l ++ [Apply [service; deployment]])) = (inr tt, l3)) as Ht.
  { unfold teardown, _resource. cbn [h_workload handle_of h_container_name]. rewrite Hd. unfold bind, delete_, send.
    cbn [lk_cluster lk_sent]. rewrite E2. cbn [lk_cluster lk_sent]. by rewrite E3. }
  unfold bind at 1. rewrite Ht.
  destruct (port_refused_spec l3 answer s4 E4) as (run & name & l4 & Ep & Hsent & Hrun).
  unfold bind at 1. rewrite Ep. exists run, name, l4. split; [done|]. split; [|done].
  rewrite Hsent. cbn [lk_sent l3]. by rewrite <- !app_assoc.
Qed.
End own.

(** ** The driver's contract

    What Kubernetes promises of its objects: an applied set is there, a deleted
    object is not, and reading changes nothing.  A call that fails may have been
    carried out in part. *)
Definition resource_of (settings : K8sClusterSettings) (manifest : tree) : string :=
  if is_at "kind" "Deployment" manifest then "deployment"
  else if is_at "kind" "Service" manifest then "service"
  else if is_at "kind" "Job" manifest then "job"
  else _cr_resource settings.
Definition refs (settings : K8sClusterSettings) (manifests : list tree) : gset (string * string) :=
  list_to_set (map (fun m => (resource_of settings m, text_at "name" (metadata m))) manifests).

Class ApiLaws (S : Type) `{!K8sApi S} (settings : K8sClusterSettings) := {
  objects_in : S -> gset (string * string);
  apply_objects manifests s : match api_apply manifests s with
    | (inr _, s') => objects_in s' = refs settings manifests ∪ objects_in s
    | (inl _, s') => objects_in s ⊆ objects_in s' ⊆ refs settings manifests ∪ objects_in s
    end;
  delete_objects resource name s : match api_delete resource name s with
    | (inr _, s') => objects_in s' = objects_in s ∖ {[ (resource, name) ]}
    | (inl _, s') => objects_in s ∖ {[ (resource, name) ]} ⊆ objects_in s' ⊆ objects_in s
    end;
  get_objects resource name s : objects_in (api_get resource name s).2 = objects_in s;
  list_objects resource selector s : objects_in (api_list resource selector s).2 = objects_in s;
}.

Section contract.
Context {S : Type} `{!K8sApi S} (settings : K8sClusterSettings) (yaml_ish : list tree -> string) `{!ApiLaws S settings}.
Hypothesis Hkinds : _resource settings <> "service" /\ _resource settings <> "job" /\ k8s_cr_kind settings ∉ ["Deployment"; "Service"; "Job"].

(** The names whose workload is there. *)
Definition workloads (l : link S) : gset string :=
  set_map snd (filter (fun o : string * string => o.1 = _resource settings) (objects_in (lk_cluster l))).

Lemma elem_of_workloads n l : n ∈ workloads l <-> (_resource settings, n) ∈ objects_in (lk_cluster l).
Proof.
  unfold workloads. rewrite elem_of_map. split.
  - intros ([r m] & -> & [E Hin]%elem_of_filter). cbn in E. by rewrite <- E.
  - intros Hin. exists (_resource settings, n). split; [done|]. by apply elem_of_filter.
Qed.

Definition same_objects (l l' : link S) : Prop := objects_in (lk_cluster l') = objects_in (lk_cluster l).
#[local] Instance same_objects_pre : PreOrder same_objects.
Proof. split; unfold same_objects; [by intros ?|intros ? ? ? H1 H2; congruence]. Qed.

Lemma list_or_none_same resource selector : respects same_objects (list_or_none resource selector).
Proof.
  intros l. unfold same_objects, list_or_none, try_, list_, ask, bind, ret. pose proof (list_objects resource selector (lk_cluster l)) as H.
  by destruct (api_list resource selector (lk_cluster l)) as [[e|x] s].
Qed.
Lemma get_same resource name : respects same_objects (get resource name).
Proof.
  intros l. unfold same_objects, get, ask. pose proof (get_objects resource name (lk_cluster l)) as H.
  by destruct (api_get resource name (lk_cluster l)) as [r s].
Qed.
#[local] Hint Resolve list_or_none_same get_same : effects.
Lemma resolve_same spec : respects same_objects (_resolve_endpoint settings spec).
Proof. unfold _resolve_endpoint, _deployment_endpoint, _first_node_ip. respects_walk. Qed.
Lemma refused_same : respects same_objects (_port_refused settings).
Proof. unfold _port_refused, _port_holder. respects_walk. Qed.

Lemma same_workloads l l' : same_objects l l' -> workloads l' = workloads l.
Proof. unfold same_objects, workloads. by intros ->. Qed.

Lemma rendered_refs spec manifests : render_workload spec settings = inr manifests ->
  forall n, (_resource settings, n) ∈ refs settings (if fixed_port settings then service_first manifests else manifests)
            <-> n = container_name spec.
Proof.
  intros E n.
  assert (refs settings (if fixed_port settings then service_first manifests else manifests) = refs settings manifests) as ->.
  { unfold refs. destruct (fixed_port settings); [|done]. apply set_eq. intros x. rewrite !elem_of_list_to_set.
    unfold service_first. by rewrite sort_by_perm. }
  unfold refs. rewrite elem_of_list_to_set. unfold render_workload in E.
  destruct (build_command spec) as [|command]; [done|]. injection E as <-.
  assert (forall m, dict_get "metadata" m = Some (metadata_of spec settings) -> text_at "name" (metadata m) = container_name spec) as Hm.
  { intros m Em. unfold metadata, section. rewrite Em. apply text_of_text, eq_refl. }
  unfold _resource in *. destruct (deployment_mode settings) eqn:Hd; cbn [map].
  - rewrite (Hm (_render_deployment spec settings (_guarded_command command)) eq_refl), (Hm (_render_service spec settings) eq_refl).
    change (resource_of settings (_render_deployment _ _ _)) with "deployment".
    change (resource_of settings (_render_service _ _)) with "service". set_solver.
  - rewrite (Hm (_render_cr spec settings (_guarded_command command)) eq_refl). destruct Hkinds as (_ & _ & Hk).
    assert (resource_of settings (_render_cr spec settings (_guarded_command command)) = _cr_resource settings) as ->; [|set_solver].
    unfold resource_of, is_at.
    change (dict_get "kind" (_render_cr spec settings (_guarded_command command))) with (Some (text (k8s_cr_kind settings))).
    rewrite !bool_decide_false; [done|..]; intros [= Ek]; set_solver.
Qed.

Lemma apply_workloads spec manifests l : render_workload spec settings = inr manifests ->
  match apply_ (if fixed_port settings then service_first manifests else manifests) l with
  | (inr _, l') => workloads l' = {[ container_name spec ]} ∪ workloads l
  | (inl _, l') => workloads l ⊆ workloads l' ⊆ {[ container_name spec ]} ∪ workloads l
  end.
Proof.
  intros E. pose proof (rendered_refs _ _ E) as Hrefs. set (ms := if fixed_port settings then _ else _) in *.
  unfold apply_, send. pose proof (apply_objects ms (lk_cluster l)) as Ha.
  destruct (api_apply ms (lk_cluster l)) as [[e|[]] s'].
  - destruct Ha as [H1 H2]. split.
    + intros n. rewrite !elem_of_workloads. cbn [lk_cluster]. apply H1.
    + intros n. rewrite elem_of_union, elem_of_singleton, !elem_of_workloads. cbn [lk_cluster].
      intros [Hin|Hin]%H2%elem_of_union; [left; by apply Hrefs|by right].
  - apply set_eq. intros n. rewrite elem_of_union, elem_of_singleton, !elem_of_workloads. cbn [lk_cluster].
    rewrite Ha, elem_of_union. by rewrite Hrefs.
Qed.

Lemma delete_workloads resource name l :
  match delete_ resource name l with
  | (inr _, l') => workloads l' = if bool_decide (resource = _resource settings) then workloads l ∖ {[ name ]} else workloads l
  | (inl _, l') => workloads l ∖ {[ name ]} ⊆ workloads l' ⊆ workloads l
  end.
Proof.
  unfold delete_, send. pose proof (delete_objects resource name (lk_cluster l)) as Hd.
  destruct (api_delete resource name (lk_cluster l)) as [[e|[]] s'].
  - destruct Hd as [H1 H2]. split; intros n; rewrite ?elem_of_difference, ?elem_of_singleton, !elem_of_workloads; cbn [lk_cluster].
    + intros [Hin Hne]. apply H1. apply elem_of_difference. split; [done|]. intros [= _ ->]%elem_of_singleton. done.
    + apply H2.
  - apply set_eq. intros n. case_bool_decide as Hr; rewrite ?elem_of_difference, ?elem_of_singleton, !elem_of_workloads; cbn [lk_cluster];
      rewrite Hd, elem_of_difference, elem_of_singleton.
    + subst resource. naive_solver.
    + split; [by intros [? _]|]. intros ?. split; [done|]. intros [= E _]. by apply Hr.
Qed.

Lemma teardown_workloads h l : h_workload h = false ->
  match teardown settings h l with
  | (inr _, l') => workloads l' = workloads l ∖ {[ h_container_name h ]}
  | (inl _, l') => workloads l ∖ {[ h_container_name h ]} ⊆ workloads l' ⊆ workloads l
  end.
Proof.
  intros Hh. unfold teardown. rewrite Hh. unfold bind.
  pose proof (delete_workloads (_resource settings) (h_container_name h) l) as H1.
  destruct (delete_ (_resource settings) (h_container_name h) l) as [[e|[]] l1]; [exact H1|]. rewrite (bool_decide_true (_resource settings = _resource settings) eq_refl) in H1.
  destruct (deployment_mode settings); [|done].
  pose proof (delete_workloads "service" (h_container_name h) l1) as H2.
  destruct (delete_ "service" (h_container_name h) l1) as [[e|[]] l2].
  - rewrite H1 in H2. set_solver.
  - destruct Hkinds as (Hs & _). by rewrite bool_decide_false in H2 by done; rewrite H2.
Qed.

Lemma launch_workloads spec l : container_name spec ∉ workloads l ->
  match launch settings yaml_ish spec l with
  | (inr (h, _), l') => h_container_name h = container_name spec /\ single h
                        /\ workloads l' = {[ container_name spec ]} ∪ workloads l
  | (inl _, l') => workloads l ⊆ workloads l' ⊆ {[ container_name spec ]} ∪ workloads l
  end.
Proof.
  intros Hfree. rewrite launch_eq. destruct (render_workload spec settings) as [e|manifests] eqn:E; [set_solver|].
  unfold launch_rendered. pose proof (apply_workloads _ _ l E) as Ha. set (ms := if fixed_port settings then _ else _) in *.
  unfold bind at 1, try_ at 1. destruct (apply_ ms l) as [[e|[]] l1] eqn:Eap.
  - destruct (fixed_port settings && port_taken e); [|by cbn].
    unfold bind at 1. pose proof (teardown_workloads (handle_of spec "") l1 eq_refl) as Ht. cbn [h_container_name handle_of] in Ht.
    assert (forall l2, workloads l1 ∖ {[ container_name spec ]} ⊆ workloads l2 ⊆ workloads l1 ->
                       workloads l ⊆ workloads l2 ⊆ {[ container_name spec ]} ∪ workloads l) as Hback
      by (intros l2 [H1 H2]; set_solver).
    destruct (teardown settings (handle_of spec "") l1) as [[e'|[]] l2]; [by apply Hback|].
    unfold bind at 1. pose proof (same_workloads _ _ (refused_same l2)) as Hs.
    destruct (_port_refused settings l2) as [[e'|d] l3]; cbn [snd] in Hs; apply Hback; rewrite Hs, Ht; set_solver.
  - unfold bind at 1. pose proof (same_workloads _ _ (resolve_same spec l1)) as Hs.
    destruct (_resolve_endpoint settings spec l1) as [[e'|url] l2]; cbn [snd] in Hs.
    + rewrite Hs, Ha. set_solver.
    + split_and!; [done|done|by rewrite Hs, Ha].
Qed.

(** The driver keeps the contract every substrate is used by. *)
Definition kube_laws : @DriverLaws (link S) (kube_driver settings yaml_ish).
Proof.
  refine (@Build_DriverLaws (link S) (kube_driver settings yaml_ish) workloads _ _ _).
  - intros spec l Hfree. exact (launch_workloads spec l Hfree).
  - intros h l [Hh _]. pose proof (teardown_workloads h l Hh) as Ht. cbn. destruct (teardown settings h l) as [[e|[]] l']; [exact Ht|].
    cbn. rewrite Ht. split; [done|set_solver].
  - done.
Defined.
End contract.

(** ** A cluster to run it on

    The objects by resource and name; a node port has one holder. *)
Module Store.
Definition key (m : tree) : string * string := (resource_of Sample.settings m, text_at "name" (metadata m)).
Definition wants_port (m : tree) (held : (string * string) * tree) : bool :=
  negb (bool_decide (held.1 = key m))
  && existsb (fun p => match int_at "nodePort" p with Some port => holds_port port held.2 | None => false end)
       (objects "ports" (spec_of m)).
Fixpoint apply_all (manifests : list tree) : M (gmap (string * string) tree) unit := fun s =>
  match manifests with
  | [] => (inr tt, s)
  | m :: manifests' =>
      if existsb (wants_port m) (map_to_list s) then (inl (RuntimeError "422: provided port is already allocated"), s)
      else apply_all manifests' (<[ key m := m ]> s)
  end.
#[global] Instance api : K8sApi (gmap (string * string) tree) := {
  api_apply := apply_all;
  api_get resource name := fun s => (inr (s !! (resource, name)), s);
  api_delete resource name := fun s => (inr tt, delete (resource, name) s);
  api_list resource _ := fun s => (inr (map snd (where_ (fun kv => String.eqb kv.1.1 resource) (map_to_list s))), s);
}.

Lemma apply_all_dom manifests s :
  match apply_all manifests s with
  | (inr _, s') => dom s' = refs Sample.settings manifests ∪ dom s
  | (inl _, s') => dom s ⊆ dom s' ⊆ refs Sample.settings manifests ∪ dom s
  end.
Proof.
  revert s. induction manifests as [|m manifests IH]; intros s; cbn [apply_all]; [unfold refs; cbn; set_solver|].
  assert (refs Sample.settings (m :: manifests) = {[ key m ]} ∪ refs Sample.settings manifests) as -> by done.
  destruct (existsb _ _); [set_solver|]. specialize (IH (<[ key m := m ]> s)). rewrite dom_insert_L in IH.
  destruct (apply_all manifests _) as [[e|[]] s']; set_solver.
Qed.

#[global] Instance laws : ApiLaws (gmap (string * string) tree) Sample.settings.
Proof.
  refine {| objects_in := fun s => dom s |}.
  - apply apply_all_dom.
  - intros resource name s. cbn. by rewrite dom_delete_L.
  - done.
  - done.
Defined.

Definition yaml (manifests : list tree) : string := "...".
#[global] Instance driver : Driver (link (gmap (string * string) tree)) := kube_driver Sample.settings yaml.
Lemma kinds : _resource Sample.settings <> "service" /\ _resource Sample.settings <> "job"
  /\ k8s_cr_kind Sample.settings ∉ ["Deployment"; "Service"; "Job"].
Proof. split_and!; [done|done|apply (bool_decide_unpack _); by vm_compute]. Qed.
#[global] Instance driver_laws : DriverLaws (link (gmap (string * string) tree)) := kube_laws Sample.settings yaml kinds.

Definition node (name : string) (rank : Z) : NodeAssignment := mkNodeAssignment Sample.machine [0; 1] rank "" name.
Definition gang (nodes : list NodeAssignment) : LaunchSpec := (Sample.launch_spec []) <| ls_nodes := nodes |>.
Definition empty : link (gmap (string * string) tree) := mkLink ∅ [].
Definition held_by (run : Z) : link (gmap (string * string) tree) :=
  mkLink {[ ("service", run_container run) := _render_service ((Sample.launch_spec []) <| ls_run_id := run |>) Sample.settings ]} [].
End Store.

(** A gang of two on a cluster with one fixed port: the second node's Service is
    refused, and the first node goes as well. *)
Lemma gang_starts_whole_or_not_at_all_witness :
  let '(r, l) := launch_nodes (Store.gang [Store.node "b" 1; Store.node "a" 0]) Store.empty in
  (match r with inl (LaunchDeferred _ 1 (Some 12) _) => True | _ => False end)
  /\ lk_cluster l = ∅
  /\ length (lk_sent l) = 6%nat
  /\ exists node, node ∈ plan_of (Store.gang [Store.node "b" 1; Store.node "a" 0])
       /\ live l ⊆ {[ node_name (Store.gang [Store.node "b" 1; Store.node "a" 0]) node ]} ∪ live Store.empty.
Proof.
  pose proof (gang_starts_whole_or_not_at_all (Store.gang [Store.node "b" 1; Store.node "a" 0]) Store.empty) as H.
  destruct (launch_nodes (Store.gang [Store.node "b" 1; Store.node "a" 0]) Store.empty) as [r l] eqn:E.
  assert (l = (launch_nodes (Store.gang [Store.node "b" 1; Store.node "a" 0]) Store.empty).2) as El by (by rewrite E).
  assert (r = (launch_nodes (Store.gang [Store.node "b" 1; Store.node "a" 0]) Store.empty).1) as Er by (by rewrite E).
  split; [rewrite Er; by vm_compute|]. split; [rewrite El; by vm_compute|]. split; [rewrite El; by vm_compute|].
  destruct r as [e|[h c]]; [|exfalso; by vm_compute in Er].
  apply H.
  - intros h s [Hh _]. pose proof (teardown_workloads Sample.settings Store.kinds h s Hh) as Ht.
    change (exists s', teardown Sample.settings h s = (inr tt, s') /\ h_container_name h ∉ workloads Sample.settings s').
    destruct (teardown Sample.settings h s) as [r s'] eqn:Et.
    assert (r = inr tt) as -> by (change r with ((r, s').1); rewrite <- Et; unfold teardown; rewrite Hh; reflexivity).
    exists s'. split; [done|]. rewrite Ht. apply not_elem_of_difference. right. by apply elem_of_singleton.
  - apply (bool_decide_unpack _). by vm_compute.
  - intros n _ Hn. by apply elem_of_workloads in Hn.
Defined.

Lemma driver_changes_only_its_own_witness :
  let h := handle_of (Sample.launch_spec []) "" in
  lk_sent (teardown Sample.settings h Store.empty).2 = [Delete "deployment" "autotune-run-12"; Delete "service" "autotune-run-12"]
  /\ only_calls (own Sample.settings "autotune-run-12") Store.empty (teardown Sample.settings h Store.empty).2.
Proof.
  split; [by vm_compute|].
  destruct (driver_changes_only_its_own Sample.settings Store.yaml (Sample.launch_spec []) (handle_of (Sample.launch_spec []) "") "s" 1 Store.empty)
    as (_ & H & _). by apply H.
Defined.

(** The port is run 9's: run 12 waits for it. *)
Lemma refused_port_leaves_nothing_witness :
  (exists msg, (launch Sample.settings Store.yaml (Sample.launch_spec []) (Store.held_by 9)).1
               = inl (LaunchDeferred msg 1 (Some 9) "autotune-run-9"))
  /\ exists run name l', launch Sample.settings Store.yaml (Sample.launch_spec []) (Store.held_by 9)
                         = (inl (LaunchDeferred (node_port_taken Sample.settings name) 1 run name), l').
Proof.
  split; [by eexists; vm_compute|].
  destruct (api_apply (service_first (Sample.rendered [])) (lk_cluster (Store.held_by 9))) as [r s1] eqn:Ea.
  assert (r = inl (RuntimeError "422: provided port is already allocated")) as ->.
  { change r with ((r, s1).1). rewrite <- Ea. by vm_compute. }
  destruct (api_delete "deployment" (container_name (Sample.launch_spec [])) s1) as [r2 s2] eqn:E2.
  destruct (api_delete "service" (container_name (Sample.launch_spec [])) s2) as [r3 s3] eqn:E3.
  destruct (api_list "service" "" s3) as [answer s4] eqn:E4.
  assert (r2 = inr tt) as -> by (change r2 with ((r2, s2).1); by rewrite <- E2).
  assert (r3 = inr tt) as -> by (change r3 with ((r3, s3).1); by rewrite <- E3).
  destruct (refused_port_leaves_nothing Sample.settings Store.yaml (Sample.launch_spec []) (Sample.rendered []) (Store.held_by 9)
              (RuntimeError "422: provided port is already allocated") s1 s2 s3 s4 answer)
    as (service & deployment & _ & _ & _ & H); [by vm_compute|by vm_compute|exact Ea|exact E2|exact E3|exact E4|].
  change (port_taken (RuntimeError "422: provided port is already allocated")) with true in H. cbn iota in H.
  destruct H as (run & name & l' & H & _). by exists run, name, l'.
Defined.
