(* ===== verification/Docker.v ===== *)
(** The ssh and docker driver ([control/launch/ssh_docker.py]): the command a
    container is started with, and what a machine is asked and told to launch,
    watch, stop and remove one.

    The machines are behind the interface [Hosts]: one runs a script and may
    answer anything, or nothing in time, which raises.  A script is what it asks
    or does, without its shell text; what was sent is kept beside the machines
    with its answer, in order: [w_log]. *)
From Stdlib Require Import Ascii SpecFloat.
From S2P Require Import Failures.
From S2P Require Import Prelude Float Values Texts Documents Space Validation Flags Commands ExtraArgs Addresses Recipes.
From S2P Require Import Composition Conversion Scripts Measures Hardware Substrate Clusters Manifests Pods.
#[local] Open Scope string_scope.
#[local] Open Scope list_scope.
#[local] Open Scope Z_scope.

Definition REMOTE_BASE : string := "/root/deploy/autotune".
Definition GPU_BUSY_MB : Z := 1024.
Definition RENDEZVOUS_TIMEOUT_SECONDS : Z := 180.
Definition RENDEZVOUS_POLL_SECONDS : Z := 2.

(** ** The command of a container *)

(** [gpu_mode]: the setting [docker_gpu_mode]; no indices at all is no card, an
    empty list is all of them. *)
Definition gpu_option (indices : list Z) : string :=
  match indices with
  | [] => "all"
  | _ => quote_mark +:+ "device=" +:+ commas (map pretty indices) +:+ quote_mark
  end.

Definition _docker_base (gpu_mode name : string) (machine : MachineInfo) (gpu_indices : option (list Z))
    (env volumes : list (string * string)) : list string :=
  ["docker"; "run"; "-d"; "--name"; name; "--network"; "host"]
  ++ match gpu_indices with
     | Some indices =>
         if negb (String.eqb gpu_mode "none") && (0 <? mi_gpu_count machine)
         then ["--gpus"; gpu_option indices; "--runtime=nvidia"] else []
     | None => []
     end
  ++ ["--ipc=host"; "--cap-add=SYS_PTRACE"; "--cap-add=SYS_NICE"; "--ulimit"; "memlock=-1"; "--ulimit"; "stack=67108864";
      "--security-opt"; "label=disable"; "--restart"; "no"]
  ++ concat (map (fun '(key, value) => ["-e"; key +:+ "=" +:+ value]) (by_key (dict_update Manifests.DEFAULT_ENV env)))
  ++ concat (map (fun '(host_path, container_path) => ["-v"; host_path +:+ ":" +:+ container_path]) (by_key volumes)).

Definition cache_dir (spec : LaunchSpec) : string := REMOTE_BASE +:+ "/run-" +:+ pretty (ls_run_id spec) +:+ "/cache".

Definition container_volumes (spec : LaunchSpec) : list (string * string) :=
  merge_volumes (dict_update [(ls_model_path spec, MODEL_MOUNT)] [(cache_dir spec, "/root/.cache")]) (ls_volumes spec).

Definition render_docker_command (gpu_mode : string) (spec : LaunchSpec) : exn + list string :=
  match build_command spec with
  | inl e => inl e
  | inr engine_cmd =>
      inr (_docker_base gpu_mode (container_name spec) (ls_machine spec) (Some (ls_gpu_indices spec)) (ls_env spec) (container_volumes spec)
           ++ ("--entrypoint" :: take 1 engine_cmd) ++ [ls_image spec] ++ drop 1 engine_cmd)
  end.

Definition render_workload_command (gpu_mode : string) (spec : WorkloadSpec) : list string :=
  _docker_base gpu_mode (ws_name spec) (ws_machine spec) (ws_gpu_indices spec) (ws_env spec) (ws_volumes spec)
  ++ match ws_command spec with
     | entry :: args => ["--entrypoint"; entry; ws_image spec] ++ args
     | [] => [ws_image spec]
     end.

(** The digest of the repository a tag names, or the first. *)
Definition repository_of (tag : string) : string :=
  let repo := match split_at "@" (reverse (chars tag)) with Some (_, before) => of_chars (reverse before) | None => tag end in
  let lst := last_part "/" repo in
  match partition ":" lst with
  | Some (name, _) => of_chars (take (String.length repo - String.length lst) (chars repo)) +:+ name
  | None => repo
  end.
Definition pick_digest (digests : list string) (tag : string) : string :=
  match List.find (fun d => String.eqb (match partition "@" d with Some (r, _) => r | None => d end) (repository_of tag)) digests with
  | Some d => d
  | None => default "" (head digests)
  end.

(** ** The machines *)
Record CompletedProcess := mkProcess { returncode : Z; stdout : string; stderr : string }.

(** What is sent over ssh. *)
Inductive script :=
| PortListener (port : Z)
| KubeProxy
| PortOpen (port : Z)
| InspectStatus (name : string)
| InspectExit (name : string)
| LogsTail (tail : Z) (name : string)
| CardMemory
| PathExists (path : string)
| DumpLogs (name : string)
| RemoveStale (name : string)
| Remove (name : string)
| Terminate (name : string)
| EnsureImage (image : string)
| AbandonPull (image : string)
| RunContainer (directory : option string) (command : list string).

(** [run_ssh] is no process when there was no answer within the seconds given;
    [get_models]: whether [GET /v1/models] is answered with 200; [monotonic] is
    in microseconds. *)
Class Hosts (S : Type) := {
  run_ssh : MachineInfo -> script -> Z -> S -> option CompletedProcess * S;
  get_models : string -> S -> bool * S;
  monotonic : S -> Z;
  sleep : Z -> S -> S;
}.

Record entry := Entry { en_machine : MachineInfo; en_script : script; en_answer : option CompletedProcess }.
Record wire (S : Type) := mkWire { w_hosts : S; w_log : list entry }.
Arguments mkWire {S} _ _.
Arguments w_hosts {S} _.
Arguments w_log {S} _.

(** [int(float(s))], of what is no number, nothing, and of an infinity, an
    error that is not a [ValueError]. *)
Definition truncated (x : float) : exn + option Z :=
  match x with
  | S754_zero _ => inr (Some 0)
  | S754_infinity _ => inl (OtherError "OverflowError")
  | S754_nan => inr None
  | S754_finite neg m e =>
      let n := if 0 <=? e then Zpos m * 2 ^ e else Zpos m / 2 ^ (- e) in
      inr (Some (if neg then - n else n))
  end.

(** A line of nvidia-smi: a card and the megabytes in use on it. *)
Definition card_of_line (line : string) : exn + option (Z * Z) :=
  match map (fun part => strip (of_chars part)) (split_on 44 [] (chars line)) with
  | [card; used] =>
      match parse_int card, parse_float used with
      | Some idx, Some mb => match truncated mb with
                             | inl e => inl e
                             | inr (Some used_mb) => inr (Some (idx, used_mb))
                             | inr None => inr None
                             end
      | _, _ => inr None
      end
  | _ => inr None
  end.

Definition holds_memory (want : list Z) (card : Z * Z) : bool :=
  bool_decide (card.1 ∈ want) && (GPU_BUSY_MB <=? card.2).

Fixpoint busy_cards (want : list Z) (lines : list string) : exn + list Z :=
  match lines with
  | [] => inr []
  | line :: lines' =>
      match card_of_line line with
      | inl e => inl e
      | inr card =>
          match busy_cards want lines' with
          | inl e => inl e
          | inr busy => inr (match card with Some c => if holds_memory want c then c.1 :: busy else busy | None => busy end)
          end
      end
  end.

(** [s[-n:]]. *)
Definition last_chars (n : nat) (s : string) : string := from (String.length s - n) s.
(** [s.split()]. *)
Fixpoint words_of (word l : list ascii) : list (list ascii) :=
  match l with
  | [] => match word with [] => [] | _ => [reverse word] end
  | c :: l' =>
      if is_space c then match word with [] => words_of [] l' | _ => reverse word :: words_of [] l' end
      else words_of (c :: word) l'
  end.
Definition words (s : string) : list string := map of_chars (words_of [] (chars s)).
Definition lines_of (s : string) : list string := map of_chars (split_lines [] (chars s)).
Definition _q (parts : list string) : string := String.concat " " (map shell_quote parts).

Definition is_timeout_expired (e : exn) : bool :=
  match e with OtherError name => String.eqb name "TimeoutExpired" | _ => false end.
Definition text_of_state (s : DeploymentState) : string :=
  match s with Starting => "starting" | Ready => "ready" | Substrate.Crashed => "crashed" | Gone => "gone" end.
Definition role_of (h : DeploymentHandle) : string :=
  if h_rank h =? 0 then "master" else "worker rank " +:+ pretty (h_rank h).
Definition dead (s : DeploymentState) : bool := bool_decide (s = Substrate.Crashed) || bool_decide (s = Gone).

Section docker.
Context {S : Type} `{!Hosts S} (docker_gpu_mode : string) (image_pull_timeout_minutes : Z).

Definition _ssh (machine : MachineInfo) (remote_cmd : script) (timeout : Z) : M (wire S) CompletedProcess := fun w =>
  let '(answer, s) := run_ssh machine remote_cmd timeout (w_hosts w) in
  let w' := mkWire s (w_log w ++ [Entry machine remote_cmd answer]) in
  match answer with
  | Some process => (inr process, w')
  | None => (inl (RuntimeError ("ssh to " +:+ mi_host machine +:+ " timed out after " +:+ pretty timeout +:+ "s")), w')
  end.

Definition _endpoint_ready (url : string) : M (wire S) bool := fun w =>
  let '(answer, s) := get_models url (w_hosts w) in (inr answer, mkWire s (w_log w)).

(** ** Before a container is started *)
Definition _check_port_free (machine : MachineInfo) (port : Z) : M (wire S) unit :=
  result <- _ssh machine (PortListener port) 60 ;;
  let listener := strip (stdout result) in
  if negb (String.eqb listener "") then
    raise (RuntimeError ("port " +:+ pretty port +:+ " already in use on " +:+ mi_host machine +:+ ": "
                         +:+ of_chars (take 300 (chars listener))))
  else if (30000 <=? port) && (port <=? 32767) then
    probe <- _ssh machine KubeProxy 60 ;;
    if Texts.contains "k8s" (stdout probe) then
      raise (RuntimeError ("port " +:+ pretty port +:+ " is inside the k8s NodePort range (30000-32767) and "
                           +:+ mi_host machine +:+ " runs kube-proxy, which hijacks that range on the "
                           +:+ "node IP — choose a port outside it (e.g. 28200)"))
    else ret tt
  else ret tt.

(** The exception it catches is one that [_ssh] has turned into another. *)
Definition _dump_remote_logs (machine : MachineInfo) (name : string) : M (wire S) unit :=
  try_ (_ssh machine (DumpLogs name) 120 ;;; ret tt)
    (fun e => if is_timeout_expired e then ret tt else raise e).

Definition still_pulling (msg : string) : exn := LaunchDeferred msg 2 None "".

Definition ensure_image (machine : MachineInfo) (image : string) : M (wire S) unit :=
  if String.eqb image "" then ret tt
  else
    result <- _ssh machine (EnsureImage image) 60 ;;
    let out := strip (stdout result) in
    let '(state, rest) := default (out, "") (partition newline out) in
    let '(word, seconds) := default (state, "") (partition " " state) in
    if String.eqb word "started" then
      raise (still_pulling ("pulling " +:+ image +:+ " onto " +:+ mi_host machine))
    else if String.eqb word "pulling" then
      let limit := image_pull_timeout_minutes * 60 in
      let waited := if Failures.isdigit (chars seconds) then Failures.digits_value (chars seconds) else 0 in
      if limit <? waited then
        _ssh machine (AbandonPull image) 60 ;;;
        raise (RuntimeError ("image_pull: " +:+ image +:+ " did not finish pulling onto " +:+ mi_host machine +:+ " in "
                             +:+ pretty (limit / 60) +:+ " min"))
      else raise (still_pulling ("pulling " +:+ image +:+ " onto " +:+ mi_host machine +:+ " (" +:+ pretty (waited / 60) +:+ " min so far)"))
    else if String.eqb word "failed" then
      raise (RuntimeError ("image_pull: pulling " +:+ image +:+ " onto " +:+ mi_host machine +:+ " failed: "
                           +:+ last_chars 1500 (strip rest)))
    else ret tt.

Definition gpus_in_use (machine : MachineInfo) (indices : list Z) : M (wire S) (list Z) :=
  match indices with
  | [] => ret []
  | _ =>
      result <- _ssh machine CardMemory 30 ;;
      if negb (returncode result =? 0) then ret []
      else busy <- lift (busy_cards indices (lines_of (stdout result))) ;; ret (sort_by Z.ltb busy)
  end.

(** ** States *)
Definition _container_state (h : DeploymentHandle) : M (wire S) DeploymentState :=
  result <- _ssh (h_machine h) (InspectStatus (h_container_name h)) 60 ;;
  ret (if negb (returncode result =? 0) then Gone
       else if String.eqb (strip (stdout result)) "running" then Starting else Substrate.Crashed).

Definition _node_state (h : DeploymentHandle) : M (wire S) DeploymentState :=
  state <- _container_state h ;;
  if negb (bool_decide (state = Starting)) then ret state
  else if h_rank h =? 0 then
    ready <- _endpoint_ready (h_endpoint_url h) ;; ret (if ready then Ready else Starting)
  else ret Starting.

Definition state (h : DeploymentHandle) : M (wire S) DeploymentState :=
  match h_node_handles h with
  | [] => _node_state h
  | workers =>
      states <- for_acc workers [] (fun node out => s <- _node_state node ;; ret (out ++ [s])) ;;
      if existsb dead states then ret Substrate.Crashed else _node_state h
  end.

(** [all(... for node in all_handles)]: up to the first that is not. *)
Definition is_gone (h : DeploymentHandle) : M (wire S) bool :=
  left <- for_first (all_handles h) (fun node =>
    s <- _node_state node ;; ret (if bool_decide (s = Gone) then None else Some tt)) ;;
  ret (bool_decide (left = None)).

Definition node_handle (spec : LaunchSpec) (node : NodeAssignment) : DeploymentHandle :=
  mkHandle "ssh_docker" (container_name (for_node spec node)) (na_machine node) (endpoint_url (for_node spec node)) false []
    (na_rank node).
Definition handle_of (spec : LaunchSpec) : DeploymentHandle :=
  mkHandle "ssh_docker" (container_name spec) (ls_machine spec) (endpoint_url spec) false [] 0.

Definition attach (spec : LaunchSpec) : M (wire S) (option DeploymentHandle) :=
  match (if (1 <? length (ls_nodes spec))%nat
         then map (node_handle spec) (sort_by (key_before (fun node => [na_rank node])) (ls_nodes spec)) else []) with
  | master :: workers =>
      s <- _node_state master ;;
      ret (if bool_decide (s = Gone) then None else Some (master <| h_node_handles := workers |>))
  | [] =>
      s <- state (handle_of spec) ;;
      ret (if bool_decide (s = Gone) then None else Some (handle_of spec))
  end.

Definition failure_reason (h : DeploymentHandle) : M (wire S) (option (string * string)) :=
  match h_node_handles h with
  | [] => ret None
  | _ =>
      for_first (all_handles h) (fun node =>
        s <- _container_state node ;;
        ret (if dead s
             then Some ("node_failed",
                        role_of node +:+ " (" +:+ h_container_name node +:+ ") on " +:+ mi_name (h_machine node) +:+ " is "
                        +:+ text_of_state s +:+ "; the deployment cannot rendezvous")
             else None))
  end.

Definition _exit_info_one (h : DeploymentHandle) : M (wire S) (option Z * bool) :=
  result <- _ssh (h_machine h) (InspectExit (h_container_name h)) 30 ;;
  ret (if negb (returncode result =? 0) then (None, false)
       else match words (stdout result) with
            | [exit_code; oom] =>
                match parse_int exit_code with
                | Some exit_code => (Some exit_code, String.eqb (Values.lower oom) "true")
                | None => (None, false)
                end
            | _ => (None, false)
            end).

Definition exit_info (h : DeploymentHandle) : M (wire S) (option Z * bool) :=
  found <- for_first (all_handles h) (fun node =>
    ' (exit_code, oom) <- _exit_info_one node ;;
    ret (match exit_code with Some _ => Some (exit_code, oom) | None => None end)) ;;
  ret (default (None, false) found).

Definition _logs_one (h : DeploymentHandle) (tail : Z) : M (wire S) string :=
  result <- _ssh (h_machine h) (LogsTail tail (h_container_name h)) 60 ;;
  ret (strip (stdout result +:+ String newline (stderr result))).

Definition logs (h : DeploymentHandle) (tail : Z) : M (wire S) string :=
  match h_node_handles h with
  | [] => _logs_one h tail
  | _ =>
      parts <- for_acc (all_handles h) [] (fun node out =>
        one <- _logs_one node tail ;;
        ret (out ++ ["===== " +:+ role_of node +:+ " · " +:+ mi_name (h_machine node) +:+ " (" +:+ h_container_name node +:+ ") =====";
                     one])) ;;
      ret (strip (String.concat (String newline "") parts))
  end.

(** The weights on the node, when it could be told. *)
Definition model_presence (machine : MachineInfo) (model_path : string) : M (wire S) (string * option bool) :=
  if String.eqb model_path "" then ret (mi_name machine, None)
  else
    try_ (result <- _ssh machine (PathExists model_path) 30 ;;
          let answer := strip (stdout result) in
          ret (mi_name machine,
               if negb (returncode result =? 0) then None
               else if String.eqb answer "present" then Some true
               else if String.eqb answer "missing" then Some false else None))
      (fun e => match e with RuntimeError _ => ret (mi_name machine, None) | _ => raise e end).

(** ** Launching *)
Definition launch (spec : LaunchSpec) : M (wire S) (DeploymentHandle * string) :=
  let machine := ls_machine spec in
  let name := container_name spec in
  _check_port_free machine (ls_port spec) ;;;
  there <- attach spec ;;
  when (bool_decide (there = None)) do_
    (busy <- gpus_in_use machine (ls_gpu_indices spec) ;;
     when (negb (bool_decide (busy = []))) do_
       raise (RuntimeError ("gpu busy on " +:+ mi_host machine +:+ ": cards [" +:+ comma_join (map pretty busy)
                            +:+ "] still hold memory (a previous container has not finished releasing them)"))) ;;;
  _dump_remote_logs machine name ;;;
  _ssh machine (RemoveStale name) 60 ;;;
  ensure_image machine (ls_image spec) ;;;
  docker_cmd <- lift (render_docker_command docker_gpu_mode spec) ;;
  result <- _ssh machine (RunContainer (Some (cache_dir spec)) docker_cmd) 180 ;;
  if negb (returncode result =? 0) then
    raise (RuntimeError ("docker run failed on " +:+ mi_host machine +:+ ": " +:+ of_chars (take 2000 (chars (strip (stderr result))))))
  else ret (handle_of spec, _q docker_cmd).

Definition launch_workload (spec : WorkloadSpec) : M (wire S) (DeploymentHandle * string) :=
  let machine := ws_machine spec in
  for_each (ws_ports spec) (_check_port_free machine) ;;;
  _dump_remote_logs machine (ws_name spec) ;;;
  _ssh machine (RemoveStale (ws_name spec)) 60 ;;;
  ensure_image machine (ws_image spec) ;;;
  let docker_cmd := render_workload_command docker_gpu_mode spec in
  result <- _ssh machine (RunContainer None docker_cmd) 180 ;;
  if negb (returncode result =? 0) then
    raise (RuntimeError ("docker run failed on " +:+ mi_host machine +:+ ": " +:+ of_chars (take 2000 (chars (strip (stderr result))))))
  else ret (mkHandle "ssh_docker" (ws_name spec) machine "" false [] 0, _q docker_cmd).

Definition workload_state (h : DeploymentHandle) : M (wire S) WorkloadState :=
  result <- _ssh (h_machine h) (InspectStatus (h_container_name h)) 60 ;;
  ret (if negb (returncode result =? 0) then WGone
       else if String.eqb (strip (stdout result)) "running" then WRunning else WExited).

(** *** The master's rendezvous *)
Definition _port_listening (machine : MachineInfo) (port : Z) : M (wire S) bool :=
  result <- _ssh machine (PortOpen port) 30 ;; ret (returncode result =? 0).

Definition SECOND : Z := 1000000.
Definition now : M (wire S) Z := gets (fun w => monotonic (w_hosts w)).
Definition pause (seconds : Z) : M (wire S) unit := modify (fun w => mkWire (sleep (seconds * SECOND) (w_hosts w)) (w_log w)).

Definition dist_init_timeout (spec : LaunchSpec) : string :=
  "dist_init_timeout: master " +:+ mi_host (ls_machine spec) +:+ " never opened its rendezvous port "
  +:+ pretty (ls_dist_port spec) +:+ " within " +:+ pretty RENDEZVOUS_TIMEOUT_SECONDS +:+ "s (" +:+ container_name spec +:+ ")".

Fixpoint poll (fuel : nat) (spec : LaunchSpec) (deadline : Z) : M (wire S) unit :=
  match fuel with
  | O => raise (OtherError "out of fuel")
  | Datatypes.S fuel' =>
      moment <- now ;;
      if moment <? deadline then
        listening <- _port_listening (ls_machine spec) (ls_dist_port spec) ;;
        if (listening : bool) then ret tt
        else pause RENDEZVOUS_POLL_SECONDS ;;; poll fuel' spec deadline
      else raise (RuntimeError (dist_init_timeout spec))
  end.

(** One poll in two seconds, and the one that finds the time is up. *)
Definition POLLS : nat := Z.to_nat (RENDEZVOUS_TIMEOUT_SECONDS / RENDEZVOUS_POLL_SECONDS + 1).

Definition wait_rendezvous (spec : LaunchSpec) : M (wire S) unit :=
  if negb (ls_rank spec =? 0) || negb (multi_node spec) || (ls_dist_port spec =? 0) then ret tt
  else moment <- now ;; poll POLLS spec (moment + RENDEZVOUS_TIMEOUT_SECONDS * SECOND).

(** ** Stopping and taking down: workers first *)
Definition request_stop (h : DeploymentHandle) : M (wire S) unit :=
  for_each (reverse (all_handles h)) (fun node => _ssh (h_machine node) (Terminate (h_container_name node)) 30 ;;; ret tt).

(** What a removal that failed says is logged. *)
Definition _teardown_one (h : DeploymentHandle) : M (wire S) unit :=
  _dump_remote_logs (h_machine h) (h_container_name h) ;;;
  _ssh (h_machine h) (Remove (h_container_name h)) 120 ;;;
  ret tt.
Definition teardown (h : DeploymentHandle) : M (wire S) unit := for_each (reverse (all_handles h)) _teardown_one.

(** [spec]'s rank and its plan are what the plan says of a node. *)
Definition docker_driver : Driver (wire S) := {|
  drv_launch := launch;
  drv_teardown := teardown;
  drv_state := state;
  drv_wait_rendezvous := wait_rendezvous;
|}.
End docker.

(** ** What is sent, and in what order *)
Lemma bind_inr {S A B} (m : M S A) (f : A -> M S B) s b s' : bind m f s = (inr b, s') ->
  exists a s1, m s = (inr a, s1) /\ f a s1 = (inr b, s').
Proof. unfold bind. destruct (m s) as [[e|a] s1]; [done|]. intros E. by exists a, s1. Qed.

Lemma bind_said {S A B} (m : M S A) (f : A -> M S B) s a s' : m s = (inr a, s') -> bind m f s = f a s'.
Proof. unfold bind. by intros ->. Qed.

(** What only asks; the others change the machine. *)
Definition asks (c : script) : bool :=
  match c with
  | DumpLogs _ | RemoveStale _ | Remove _ | Terminate _ | EnsureImage _ | AbandonPull _ | RunContainer _ _ => false
  | _ => true
  end.
Definition starts (c : script) : bool := match c with RunContainer _ _ => true | _ => false end.

(** The name a command gives its container. *)
Definition named (command : list string) : string :=
  match command with _ :: _ :: _ :: "--name" :: name :: _ => name | _ => "" end.

(** A change to the container [name] of a machine, or to its images. *)
Definition own (machine : MachineInfo) (name : string) (e : entry) : Prop :=
  asks (en_script e) = true
  \/ en_machine e = machine /\
     match en_script e with
     | DumpLogs n | RemoveStale n | Remove n | Terminate n => n = name
     | RunContainer _ command => named command = name
     | _ => True
     end.

Section log.
Context {S : Type} `{!Hosts S} (docker_gpu_mode : string) (minutes : Z).
Implicit Types (w : wire S) (h : DeploymentHandle).

Definition added (P : entry -> Prop) w w' : Prop := exists es, w_log w' = w_log w ++ es /\ Forall P es.
#[local] Instance added_pre P : PreOrder (added P).
Proof.
  split.
  - intros w. exists []. by rewrite app_nil_r.
  - intros w1 w2 w3 (a & E1 & H1) (b & E2 & H2). exists (a ++ b). rewrite E2, E1, app_assoc. split; [done|by apply Forall_app].
Qed.

Lemma ssh_added (P : entry -> Prop) machine c timeout : (forall answer, P (Entry machine c answer)) ->
  respects (added P) (_ssh (S:=S) machine c timeout).
Proof.
  intros HP w. unfold _ssh. destruct (run_ssh machine c timeout (w_hosts w)) as [[p|] s]; eexists; (split; [reflexivity|by repeat constructor]).
Qed.
Lemma endpoint_added P url : respects (added P) (_endpoint_ready (S:=S) url).
Proof. intros w. unfold _endpoint_ready. destruct (get_models url (w_hosts w)). exists []. by rewrite app_nil_r. Qed.
Lemma pause_added P n : respects (added P) (pause (S:=S) n).
Proof. intros w. exists []. by rewrite app_nil_r. Qed.
#[local] Hint Resolve endpoint_added pause_added : effects.
#[local] Hint Extern 1 (PreOrder (added _)) => apply added_pre : typeclass_instances.

Definition asking (e : entry) : Prop := asks (en_script e) = true.
Lemma asked_added (P : entry -> Prop) machine c timeout : asks c = true -> (forall e, asking e -> P e) ->
  respects (added P) (_ssh (S:=S) machine c timeout).
Proof. intros Hc HP. apply ssh_added. intros answer. by apply HP. Qed.

Ltac asking_walk := respects_walk; try (apply asked_added; [done|by eauto]).

Section asks.
Context (P : entry -> Prop) (HP : forall e, asking e -> P e).

Lemma port_check_added machine port : respects (added P) (_check_port_free (S:=S) machine port).
Proof. unfold _check_port_free. asking_walk. Qed.
Lemma container_state_added h : respects (added P) (_container_state (S:=S) h).
Proof. unfold _container_state. asking_walk. Qed.
#[local] Hint Resolve container_state_added : effects.
Lemma node_state_added h : respects (added P) (_node_state (S:=S) h).
Proof. unfold _node_state. asking_walk. Qed.
#[local] Hint Resolve node_state_added : effects.
Lemma state_added h : respects (added P) (state (S:=S) h).
Proof. unfold state. asking_walk. Qed.
#[local] Hint Resolve state_added : effects.
Lemma attach_added (spec : LaunchSpec) : respects (added P) (attach (S:=S) spec).
Proof. unfold attach. asking_walk. Qed.
Lemma gpus_added machine indices : respects (added P) (gpus_in_use (S:=S) machine indices).
Proof. unfold gpus_in_use. asking_walk. Qed.
Lemma poll_added fuel spec deadline : respects (added P) (poll (S:=S) fuel spec deadline).
Proof. induction fuel as [|fuel IH]; cbn [poll]; unfold now, _port_listening; asking_walk. Qed.
End asks.

Lemma dump_added (P : entry -> Prop) machine name : (forall answer, P (Entry machine (DumpLogs name) answer)) ->
  respects (added P) (_dump_remote_logs (S:=S) machine name).
Proof. intros HP. unfold _dump_remote_logs. respects_walk. by apply ssh_added. Qed.

Lemma image_added (P : entry -> Prop) machine image :
  (forall answer, P (Entry machine (EnsureImage image) answer)) -> (forall answer, P (Entry machine (AbandonPull image) answer)) ->
  respects (added P) (ensure_image (S:=S) minutes machine image).
Proof. intros H1 H2. unfold ensure_image. respects_walk; by apply ssh_added. Qed.

Lemma named_docker mode name machine gpus env volumes l : named (_docker_base mode name machine gpus env volumes ++ l) = name.
Proof. done. Qed.
Lemma named_launch (spec : LaunchSpec) command : render_docker_command docker_gpu_mode spec = inr command -> named command = container_name spec.
Proof. unfold render_docker_command. destruct (build_command spec) as [|engine_cmd]; [done|]. intros [= <-]. done. Qed.

Lemma teardown_one_added (P : entry -> Prop) h :
  (forall answer, P (Entry (h_machine h) (DumpLogs (h_container_name h)) answer)) ->
  (forall answer, P (Entry (h_machine h) (Remove (h_container_name h)) answer)) ->
  respects (added P) (_teardown_one (S:=S) h).
Proof. intros H1 H2. unfold _teardown_one. respects_walk; [by apply dump_added|by apply ssh_added]. Qed.

Lemma respects_answer {A B} (R : wire S -> wire S -> Prop) `{!PreOrder R} (r : exn + A) (f : A -> M (wire S) B) :
  (forall a, r = inr a -> respects R (f a)) -> respects R (bind (lift r) f).
Proof. intros Hf w. unfold bind, lift. destruct r as [e|a]; [reflexivity|by apply Hf]. Qed.

Ltac launch_walk :=
  repeat first
    [ lazymatch goal with |- respects _ (bind (lift _) _) => apply respects_answer; [typeclasses eauto|intros ? ?] end
    | respects_step ].

Lemma launch_added spec : respects (added (own (ls_machine spec) (container_name spec))) (launch (S:=S) docker_gpu_mode minutes spec).
Proof.
  assert (forall e, asking e -> own (ls_machine spec) (container_name spec) e) as Hask by (intros e He; by left).
  unfold launch. launch_walk; try by first [apply port_check_added|apply attach_added|apply gpus_added].
  - apply dump_added. intros answer. right. by split.
  - apply ssh_added. intros answer. right. by split.
  - apply image_added; intros answer; right; by split.
  - apply ssh_added. intros answer. right. split; [done|]. by apply named_launch.
Qed.

Lemma workload_added (spec : WorkloadSpec) : respects (added (own (ws_machine spec) (ws_name spec))) (launch_workload (S:=S) docker_gpu_mode minutes spec).
Proof.
  assert (forall e, asking e -> own (ws_machine spec) (ws_name spec) e) as Hask by (intros e He; by left).
  unfold launch_workload. launch_walk; try by apply port_check_added.
  - apply dump_added. intros answer. right. by split.
  - apply ssh_added. intros answer. right. by split.
  - apply image_added; intros answer; right; by split.
  - apply ssh_added. intros answer. right. split; [done|]. unfold render_workload_command. by destruct (ws_command spec).
Qed.

Lemma for_first_added {A B} (P : entry -> Prop) (l : list A) (f : A -> M (wire S) (option B)) :
  (forall x, respects (added P) (f x)) -> respects (added P) (for_first l f).
Proof.
  intros Hf. induction l as [|x l IH]; cbn [for_first]; [apply respects_ret; typeclasses eauto|]. respects_step; [done|].
  destruct a as [b|]; [apply respects_ret; typeclasses eauto|done].
Qed.

Lemma nothing_added {A} (m : M (wire S) A) w : respects (added asking) m -> exists es, w_log (m w).2 = w_log w ++ es /\ Forall asking es.
Proof. intros Hm. apply Hm. Qed.

(** Whatever the machines answer, the driver changes nothing but the
    container it is asked about, on that container's machine: launching a run
    or a workload its own, stopping and taking down those of the deployment.
    Reading a state, finding a run again, telling that it is gone and waiting
    for a rendezvous change nothing. *)
Theorem docker_touches_only_its_own (spec : LaunchSpec) (workload : WorkloadSpec) h (fuel : nat) (deadline : Z) w :
  added (own (ls_machine spec) (container_name spec)) w (launch docker_gpu_mode minutes spec w).2
  /\ added (own (ws_machine workload) (ws_name workload)) w (launch_workload docker_gpu_mode minutes workload w).2
  /\ added (fun e => exists node, node ∈ all_handles h /\ own (h_machine node) (h_container_name node) e) w (teardown h w).2
  /\ added (fun e => exists node, node ∈ all_handles h /\ own (h_machine node) (h_container_name node) e) w (request_stop h w).2
  /\ added asking w (state h w).2 /\ added asking w (attach spec w).2
  /\ added asking w (is_gone h w).2 /\ added asking w (exit_info h w).2 /\ added asking w (failure_reason h w).2
  /\ added asking w (poll fuel spec deadline w).2.
Proof.
  split_and!.
  - apply launch_added.
  - apply workload_added.
  - revert w. apply respects_for_each; [typeclasses eauto|]. intros node Hnode. rewrite elem_of_reverse in Hnode.
    apply teardown_one_added; intros answer; exists node; split; [done|right; by split|done|right; by split].
  - revert w. apply respects_for_each; [typeclasses eauto|]. intros node Hnode. rewrite elem_of_reverse in Hnode.
    respects_walk. apply ssh_added. intros answer. exists node. split; [done|]. right. by split.
  - by apply state_added.
  - by apply attach_added.
  - revert w. change (respects (added asking) (is_gone (S:=S) h)). unfold is_gone. respects_step; [|apply respects_ret; typeclasses eauto].
    apply for_first_added. intros node. respects_step; [by apply node_state_added|apply respects_ret; typeclasses eauto].
  - revert w. change (respects (added asking) (exit_info (S:=S) h)). unfold exit_info. respects_step; [|apply respects_ret; typeclasses eauto].
    apply for_first_added. intros node. unfold _exit_info_one. respects_walk. by apply asked_added.
  - revert w. change (respects (added asking) (failure_reason (S:=S) h)). unfold failure_reason.
    destruct (h_node_handles h); [apply respects_ret; typeclasses eauto|]. apply for_first_added. intros node.
    respects_step; [by apply container_state_added|apply respects_ret; typeclasses eauto].
  - by apply poll_added.
Qed.

(** ** A launch

    What is sent of a step that answers. *)
Lemma ssh_inr machine c timeout w p w' : _ssh machine c timeout w = (inr p, w') ->
  w_log w' = w_log w ++ [Entry machine c (Some p)].
Proof. unfold _ssh. destruct (run_ssh machine c timeout (w_hosts w)) as [[q|] s]; [|done]. by intros [= -> <-]. Qed.

Lemma added_inr {A} (P : entry -> Prop) (m : M (wire S) A) w a w' : respects (added P) m -> m w = (inr a, w') ->
  exists es, w_log w' = w_log w ++ es /\ Forall P es.
Proof. intros Hm E. specialize (Hm w). by rewrite E in Hm. Qed.

Lemma port_free_inr machine port w w' : _check_port_free machine port w = (inr tt, w') ->
  exists p es, w_log w' = w_log w ++ Entry machine (PortListener port) (Some p) :: es /\ Forall asking es
               /\ strip (stdout p) = "".
Proof.
  intros (p & w1 & E1 & E)%bind_inr. apply ssh_inr in E1.
  cbv zeta in E. destruct (String.eqb_spec (strip (stdout p)) "") as [Hp|]; cbn [negb] in E; [|discriminate E].
  assert (respects (added asking) (if (30000 <=? port) && (port <=? 32767) then
            probe <- _ssh machine KubeProxy 60 ;;
            if Texts.contains "k8s" (stdout probe) then
              raise (RuntimeError ("port " +:+ pretty port +:+ " is inside the k8s NodePort range (30000-32767) and "
                           +:+ mi_host machine +:+ " runs kube-proxy, which hijacks that range on the "
                           +:+ "node IP — choose a port outside it (e.g. 28200)"))
            else ret tt else ret (S:=wire S) tt)) as Hr by (respects_walk; by apply asked_added).
  destruct (added_inr _ _ _ _ _ Hr E) as (es & E2 & Hes). exists p, es. by rewrite E2, E1, <- app_assoc.
Qed.

Lemma dump_inr machine name w w' : _dump_remote_logs machine name w = (inr tt, w') ->
  exists p, w_log w' = w_log w ++ [Entry machine (DumpLogs name) (Some p)].
Proof.
  unfold _dump_remote_logs, try_, bind, ret. destruct (_ssh machine (DumpLogs name) 120 w) as [[e|p] w1] eqn:E.
  - unfold _ssh in E. destruct (run_ssh _ _ _ _) as [[p|] s]; [done|]. by injection E as <- <-.
  - intros [= <-]. exists p. by eapply ssh_inr.
Qed.

(** An image that is not waited for was there when it was asked about. *)
Lemma image_inr machine image w w' : ensure_image minutes machine image w = (inr tt, w') ->
  (image = "" /\ w' = w) \/ exists p, w_log w' = w_log w ++ [Entry machine (EnsureImage image) (Some p)].
Proof.
  unfold ensure_image. destruct (String.eqb_spec image "") as [->|]; [intros [= <-]; by left|].
  intros (p & w1 & E1 & E)%bind_inr. apply ssh_inr in E1. right. exists p. rewrite <- E1. f_equal.
  destruct (default (strip (stdout p), "") (partition newline (strip (stdout p)))) as [state rest].
  destruct (default (state, "") (partition " " state)) as [word seconds].
  destruct (String.eqb word "started"); [done|]. destruct (String.eqb word "pulling").
  - destruct (_ <? _); [|done]. apply bind_inr in E as (q & w2 & _ & E). done.
  - destruct (String.eqb word "failed"); [done|]. by injection E as <-.
Qed.

Lemma busy_cards_spec want lines busy : busy_cards want lines = inr busy ->
  forall i, i ∈ busy <-> exists line card, line ∈ lines /\ card_of_line line = inr (Some card)
                                          /\ holds_memory want card = true /\ card.1 = i.
Proof.
  revert busy. induction lines as [|line lines IH]; intros busy; cbn [busy_cards].
  { intros [= <-] i. split; [by intros ?%elem_of_nil|]. by intros (line & card & ?%elem_of_nil & _). }
  destruct (card_of_line line) as [e|card] eqn:El; [done|]. destruct (busy_cards want lines) as [e|rest] eqn:Er; [done|].
  intros [= <-] i. specialize (IH rest eq_refl i). split.
  - assert (i ∈ rest -> exists line' c, line' ∈ line :: lines /\ card_of_line line' = inr (Some c) /\ holds_memory want c = true /\ c.1 = i) as Hr.
    { intros (line' & c & Hin & Hc)%IH. exists line', c. split; [by right|done]. }
    destruct card as [c|]; [|done]. destruct (holds_memory want c) eqn:Eh; [|done].
    intros [->|Hi]%elem_of_cons; [|by apply Hr]. exists line, c. by split; [left|].
  - intros (line' & c & [->|Hin]%elem_of_cons & Hc & Hh & Hi).
    + rewrite El in Hc. injection Hc as ->. rewrite Hh, Hi. by left.
    + assert (i ∈ rest) as Hr by (apply IH; by exists line', c).
      destruct card as [c'|]; [|done]. destruct (holds_memory want c'); [by right|done].
Qed.

(** The cards of a machine that are asked for hold no memory, as far as it says. *)
Definition cards_free (want : list Z) (p : CompletedProcess) : Prop :=
  returncode p <> 0 \/ forall line card, line ∈ lines_of (stdout p) -> card_of_line line = inr (Some card) ->
                                         holds_memory want card = false.

Lemma gpus_inr machine indices w w' : gpus_in_use machine indices w = (inr [], w') ->
  (indices = [] /\ w' = w) \/ exists p, w_log w' = w_log w ++ [Entry machine CardMemory (Some p)] /\ cards_free indices p.
Proof.
  unfold gpus_in_use. destruct indices as [|i indices]; [intros [= <-]; by left|].
  set (want := i :: indices) in *. intros (p & w1 & E1 & E)%bind_inr. right. exists p. apply ssh_inr in E1.
  destruct (Z.eqb_spec (returncode p) 0) as [H0|H0]; cbn [negb] in E; [|injection E as <-; split; [done|by left]].
  apply bind_inr in E as (busy & w2 & Eb & E). unfold lift in Eb. injection Eb as Eb <-. injection E as E <-.
  split; [done|]. right. intros line card Hin Hc. destruct (holds_memory want card) eqn:Eh; [|done].
  assert (card.1 ∈ busy) as Hb by (apply (busy_cards_spec _ _ _ Eb); by exists line, card).
  apply (elem_of_sort_by Z.ltb) in Hb. rewrite E in Hb. by apply elem_of_nil in Hb.
Qed.

Lemma attach_inr (spec : LaunchSpec) w o w' : (length (ls_nodes spec) <= 1)%nat -> attach spec w = (inr o, w') ->
  exists p, w_log w' = w_log w ++ [Entry (ls_machine spec) (InspectStatus (container_name spec)) (Some p)]
            /\ (o = None <-> returncode p <> 0).
Proof.
  intros Hn. unfold attach. rewrite (proj2 (Nat.ltb_ge 1 (length (ls_nodes spec)))) by done.
  intros (s & w1 & Es & E)%bind_inr. cbn [state handle_of h_node_handles] in Es.
  apply bind_inr in Es as (s0 & w2 & Ec & Es). apply bind_inr in Ec as (p & w3 & E1 & Ec). apply ssh_inr in E1.
  exists p. injection Ec as <- <-. injection E as <- <-.
  destruct (Z.eqb_spec (returncode p) 0) as [H0|H0]; cbn [negb] in Es.
  - destruct (String.eqb (strip (stdout p)) "running"); cbn in Es.
    + apply bind_inr in Es as (ready & w4 & Ee & Es). unfold _endpoint_ready in Ee.
      destruct (get_models _ _) as [answer s4]. injection Ee as <- <-. injection Es as <- <-.
      rewrite E1. by destruct answer.
    + injection Es as <- <-. by rewrite E1.
  - cbn in Es. injection Es as <- <-. by rewrite E1.
Qed.

(** What a launch knew before it started its container: nothing listened on its
    port, and its cards held no memory, unless they are held by a container of
    the run itself. *)
Definition grounds (spec : LaunchSpec) (before : list entry) : Prop :=
  (exists p, Entry (ls_machine spec) (PortListener (ls_port spec)) (Some p) ∈ before /\ strip (stdout p) = "")
  /\ (ls_gpu_indices spec = []
      \/ (exists p, Entry (ls_machine spec) (InspectStatus (container_name spec)) (Some p) ∈ before /\ returncode p = 0)
      \/ exists p, Entry (ls_machine spec) CardMemory (Some p) ∈ before /\ cards_free (ls_gpu_indices spec) p).

(** A launch that answers has started exactly one container, as its very
    last step, with the command that was rendered for it: it asked first, and
    only then removed what was left of the run on the machine, its log dumped
    before.  A launch of one node; its port was free and its cards held no
    memory. *)
Theorem launch_starts_once_after_asking (spec : LaunchSpec) h command w w' :
  (length (ls_nodes spec) <= 1)%nat -> launch docker_gpu_mode minutes spec w = (inr (h, command), w') ->
  h = handle_of spec /\
  exists docker_cmd asked d r image p,
    render_docker_command docker_gpu_mode spec = inr docker_cmd /\ command = _q docker_cmd
    /\ w_log w' = w_log w ++ asked ++ [Entry (ls_machine spec) (DumpLogs (container_name spec)) (Some d);
                                       Entry (ls_machine spec) (RemoveStale (container_name spec)) (Some r)]
                         ++ image ++ [Entry (ls_machine spec) (RunContainer (Some (cache_dir spec)) docker_cmd) (Some p)]
    /\ returncode p = 0 /\ Forall asking asked /\ grounds spec asked
    /\ Forall (fun e => en_script e = EnsureImage (ls_image spec)) image.
Proof.
  intros Hn E. unfold launch in E.
  apply bind_inr in E as ([] & w1 & Eport & E). apply port_free_inr in Eport as (pp & es1 & L1 & A1 & Hpp).
  apply bind_inr in E as (there & w2 & Eat & E). apply attach_inr in Eat as (pa & L2 & Hpa); [|done].
  apply bind_inr in E as ([] & w3 & Egpu & E).
  assert (exists es3, w_log w3 = w_log w2 ++ es3 /\ Forall asking es3
            /\ (ls_gpu_indices spec = [] \/ returncode pa = 0
                \/ exists p, Entry (ls_machine spec) CardMemory (Some p) ∈ es3 /\ cards_free (ls_gpu_indices spec) p)) as (es3 & L3 & A3 & G3).
  { destruct there as [there|]; cbn in Egpu.
    - injection Egpu as <-. exists []. rewrite app_nil_r. split_and!; [done..|]. right. left.
      destruct (Z.eq_dec (returncode pa) 0) as [|Hne]; [done|]. by apply Hpa in Hne.
    - apply bind_inr in Egpu as (busy & w4 & Eb & Egpu). destruct busy as [|b busy]; [|done]. injection Egpu as <-.
      apply gpus_inr in Eb as [[? ->]|(p & L & Hp)].
      + exists []. rewrite app_nil_r. split_and!; [done..|]. by left.
      + exists [Entry (ls_machine spec) CardMemory (Some p)]. split_and!; [done|by repeat constructor|]. right. right. exists p.
        split; [by left|done]. }
  apply bind_inr in E as ([] & w4 & Ed & E). apply dump_inr in Ed as (d & L4).
  apply bind_inr in E as (r & w5 & Er & E). apply ssh_inr in Er.
  apply bind_inr in E as ([] & w6 & Ei & E).
  assert (exists image, w_log w6 = w_log w5 ++ image /\ Forall (fun e => en_script e = EnsureImage (ls_image spec)) image) as (image & L6 & A6).
  { apply image_inr in Ei as [[_ ->]|(p & L)]; [exists []; by rewrite app_nil_r|]. exists [Entry (ls_machine spec) (EnsureImage (ls_image spec)) (Some p)].
    split; [done|by repeat constructor]. }
  apply bind_inr in E as (docker_cmd & w7 & Ec & E). unfold lift in Ec. injection Ec as Ec <-.
  apply bind_inr in E as (p & w8 & Ep & E). apply ssh_inr in Ep.
  destruct (Z.eqb_spec (returncode p) 0) as [H0|]; cbn [negb] in E; [|discriminate E]. injection E as <- <- <-. split; [done|].
  exists docker_cmd, (Entry (ls_machine spec) (PortListener (ls_port spec)) (Some pp) :: es1
                     ++ [Entry (ls_machine spec) (InspectStatus (container_name spec)) (Some pa)] ++ es3), d, r, image, p.
  split_and!; [done|done| |done| | |done].
  - rewrite Ep, L6, Er, L4, L3, L2, L1. by rewrite <- !app_assoc; cbn [app]; rewrite <- !app_assoc; cbn [app].
  - constructor; [done|]. apply Forall_app. split; [done|]. by constructor.
  - split; [exists pp; split; [by left|done]|]. destruct G3 as [?|[?|(q & Hq & ?)]]; [by left|right; left|right; right].
    + exists pa. split; [set_solver|done].
    + exists q. split; [set_solver|done].
Qed.

(** ** Taking down *)
Definition removal (h : DeploymentHandle) : list (MachineInfo * script) :=
  [(h_machine h, DumpLogs (h_container_name h)); (h_machine h, Remove (h_container_name h))].
Definition sent (e : entry) : MachineInfo * script := (en_machine e, en_script e).

Lemma ssh_sent machine c timeout w : exists answer,
  w_log (_ssh machine c timeout w).2 = w_log w ++ [Entry machine c answer]
  /\ match answer with Some p => (_ssh machine c timeout w).1 = inr p | None => exists msg, (_ssh machine c timeout w).1 = inl (RuntimeError msg) end.
Proof.
  unfold _ssh. destruct (run_ssh machine c timeout (w_hosts w)) as [answer s]. exists answer.
  destruct answer; (split; [done|]); [done|by eexists].
Qed.

Lemma teardown_one_sent h w : exists es, w_log (_teardown_one h w).2 = w_log w ++ es
  /\ match (_teardown_one h w).1 with
     | inr _ => map sent es = removal h
     | inl _ => exists k, (k <= 2)%nat /\ map sent es = take k (removal h) /\ exists e, last es = Some e /\ en_answer e = None
     end.
Proof.
  unfold _teardown_one, _dump_remote_logs, ret, bind, try_. cbv beta.
  destruct (ssh_sent (h_machine h) (DumpLogs (h_container_name h)) 120 w) as (a1 & L1 & R1).
  destruct (_ssh (h_machine h) (DumpLogs (h_container_name h)) 120 w) as [r1 w1]; cbn [fst snd] in L1, R1.
  destruct a1 as [p1|]; [|destruct R1 as [msg R1]]; subst r1; cbn [is_timeout_expired ret raise].
  - destruct (ssh_sent (h_machine h) (Remove (h_container_name h)) 120 w1) as (a2 & L2 & R2).
    destruct (_ssh (h_machine h) (Remove (h_container_name h)) 120 w1) as [r2 w2]; cbn [fst snd] in L2, R2.
    rewrite L1, <- app_assoc in L2.
    destruct a2 as [p2|]; [|destruct R2 as [msg R2]]; subst r2; cbn [fst snd]; eexists; (split; [exact L2|]); cbv beta iota; [reflexivity|].
    exists 2%nat. split_and!; [lia|reflexivity|]. by eexists.
  - cbn [fst snd]. eexists. split; [exact L1|]. exists 1%nat. split_and!; [lia|reflexivity|]. by eexists.
Qed.

(** Taking a deployment down goes through its nodes from the last worker to
    the master, and of each dumps the log before it removes the container.  It
    sends all of that, or it was not answered in time and raises: what is sent
    is then the first part of it. *)
Theorem teardown_keeps_the_logs_first h w : exists es,
  w_log (teardown h w).2 = w_log w ++ es
  /\ match (teardown h w).1 with
     | inr _ => map sent es = concat (map removal (reverse (all_handles h)))
     | inl _ => map sent es `prefix_of` concat (map removal (reverse (all_handles h)))
                /\ exists e, last es = Some e /\ en_answer e = None
     end.
Proof.
  unfold teardown. generalize (reverse (all_handles h)). intros l. revert w. induction l as [|node l IH]; intros w.
  { exists []. cbn. by rewrite app_nil_r. }
  cbn [for_each map concat]. unfold bind. destruct (teardown_one_sent node w) as (es1 & L1 & R1).
  destruct (_teardown_one node w) as [[e|[]] w1]; cbn [fst snd] in *.
  - exists es1. split; [done|]. destruct R1 as (k & Hk & E & Hlast). split; [|done]. rewrite E.
    exists (drop k (removal node) ++ concat (map removal l)). by rewrite app_assoc, take_drop.
  - destruct (IH w1) as (es2 & L2 & R2). exists (es1 ++ es2). rewrite L2, L1, <- app_assoc. split; [done|].
    rewrite map_app, R1. destruct (for_each l _teardown_one w1) as [[e|[]] w2]; cbn [fst] in *.
    + destruct R2 as ((rest & E) & e2 & Hl & Hn). split.
      * exists rest. by rewrite <- app_assoc, <- E.
      * exists e2. split; [|done]. by rewrite last_app, Hl.
    + by rewrite R2.
Qed.
End log.

(** ** What a machine promises

    Asking changes no container; one that is removed may be left, one that is
    started is there if the command says so, whatever else went wrong.  Its
    clock never goes back, and a pause takes at least its time. *)
Class HostLaws (S : Type) `{!Hosts S} := {
  containers : S -> gset string;
  ssh_containers machine c timeout s : let '(answer, s') := run_ssh machine c timeout s in
    match c with
    | RemoveStale n | Remove n => containers s ∖ {[ n ]} ⊆ containers s' ⊆ containers s
    | RunContainer _ command =>
        containers s ⊆ containers s' ⊆ {[ named command ]} ∪ containers s
        /\ forall p, answer = Some p -> returncode p = 0 -> named command ∈ containers s'
    | _ => containers s' = containers s
    end;
  models_containers url s : containers (get_models url s).2 = containers s;
  sleep_containers n s : containers (sleep n s) = containers s;
  ssh_clock machine c timeout s : monotonic s <= monotonic (run_ssh machine c timeout s).2;
  sleep_clock n s : 0 <= n -> monotonic s + n <= monotonic (sleep n s);
}.

Section promises.
Context {S : Type} `{!Hosts S, !HostLaws S} (docker_gpu_mode : string) (minutes : Z).
Implicit Types (w : wire S) (h : DeploymentHandle) (spec : LaunchSpec).

(** *** The rendezvous is waited for, and not for ever *)
Definition clock w : Z := monotonic (w_hosts w).
Definition unanswered (es : list entry) : Prop := exists e, last es = Some e /\ en_answer e = None.
Definition asked_port spec (answer : option CompletedProcess) : entry :=
  Entry (ls_machine spec) (PortOpen (ls_dist_port spec)) answer.

Lemma poll_step fuel spec deadline w : poll (Datatypes.S fuel) spec deadline w =
  if clock w <? deadline then
    (listening <- _port_listening (ls_machine spec) (ls_dist_port spec) ;;
     if (listening : bool) then ret tt else pause RENDEZVOUS_POLL_SECONDS ;;; poll fuel spec deadline) w
  else (inl (RuntimeError (dist_init_timeout spec)), w).
Proof. cbn [poll]. unfold now, gets, bind at 1. fold (clock w). by destruct (clock w <? deadline). Qed.

Lemma poll_ends fuel spec deadline w :
  deadline <= clock w + Z.of_nat fuel * (RENDEZVOUS_POLL_SECONDS * SECOND) ->
  exists es, w_log (poll (Datatypes.S fuel) spec deadline w).2 = w_log w ++ es /\ (length es <= fuel)%nat
    /\ Forall (fun e => exists answer, e = asked_port spec answer) es
    /\ match (poll (Datatypes.S fuel) spec deadline w).1 with
       | inr _ => exists p, last es = Some (asked_port spec (Some p)) /\ returncode p = 0
       | inl e => (exists msg, e = RuntimeError msg)
                  /\ (deadline <= clock (poll (Datatypes.S fuel) spec deadline w).2 \/ unanswered es)
       end.
Proof.
  revert w. induction fuel as [|fuel IH]; intros w Hd; rewrite poll_step.
  - rewrite (proj2 (Z.ltb_ge _ _)) by lia. cbn [fst snd].
    exists []. rewrite app_nil_r. split_and!; [done|done|by apply Forall_nil|by eexists|by left; lia].
  - destruct (Z.ltb_spec (clock w) deadline) as [Hlt|Hge].
    2: { exists []. rewrite app_nil_r. cbn [fst snd]. split_and!; [done|cbn; lia|by apply Forall_nil|by eexists|by left]. }
    unfold _port_listening, bind, ret, pause, modify. cbv beta.
    destruct (ssh_sent (ls_machine spec) (PortOpen (ls_dist_port spec)) 30 w) as (answer & L & R).
    pose proof (ssh_clock (ls_machine spec) (PortOpen (ls_dist_port spec)) 30 (w_hosts w)) as Hc.
    destruct (_ssh (ls_machine spec) (PortOpen (ls_dist_port spec)) 30 w) as [r w1] eqn:Es; cbn [fst snd] in L, R.
    assert (clock w <= clock w1) as Hc1.
    { unfold _ssh in Es. unfold clock. destruct (run_ssh _ _ _ (w_hosts w)) as [a s]. by destruct a; injection Es as <- <-. }
    destruct answer as [p|]; [|destruct R as [msg R]]; subst r; cbv beta iota.
    + destruct (Z.eqb_spec (returncode p) 0) as [H0|H0]; cbn [fst snd].
      * exists [asked_port spec (Some p)]. split_and!; [done|cbn; lia|by constructor; [eexists|constructor]|by exists p].
      * set (w2 := mkWire (sleep (RENDEZVOUS_POLL_SECONDS * SECOND) (w_hosts w1)) (w_log w1)).
        assert (clock w1 + RENDEZVOUS_POLL_SECONDS * SECOND <= clock w2) as Hs by (apply sleep_clock; done).
        destruct (IH w2) as (es & L2 & Hlen & HF & Hr); [lia|].
        exists (asked_port spec (Some p) :: es). rewrite L2. cbn [w_log w2]. rewrite L, <- app_assoc. split_and!; [done|cbn; lia| |].
        -- by constructor; [eexists|].
        -- destruct (poll (Datatypes.S fuel) spec deadline w2) as [[e|[]] w3]; cbn [fst snd] in *.
           ++ destruct Hr as [He [Ht|(e' & El & Hn)]]; (split; [done|]); [by left|right]. exists e'. split; [|done].
              by destruct es.
           ++ destruct Hr as (q & El & Hq). exists q. split; [|done]. by destruct es.
    + cbn [fst snd]. exists [asked_port spec None]. split_and!; [done|cbn; lia|by constructor; [eexists|constructor]|by eexists|].
      right. by eexists.
Qed.

(** A master's rendezvous is waited for by asking at most once in two
    seconds whether its port is open, ninety times at most, and always comes to
    an end: the port was open when last asked, or the three minutes have passed,
    or the machine did not answer. *)
Theorem rendezvous_wait_ends spec w : exists es,
  w_log (wait_rendezvous spec w).2 = w_log w ++ es /\ (length es <= 90)%nat
  /\ Forall (fun e => exists answer, e = asked_port spec answer) es
  /\ match (wait_rendezvous spec w).1 with
     | inr _ => (ls_rank spec <> 0 \/ multi_node spec = false \/ ls_dist_port spec = 0) /\ es = []
                \/ exists p, last es = Some (asked_port spec (Some p)) /\ returncode p = 0
     | inl e => (exists msg, e = RuntimeError msg)
                /\ (clock w + RENDEZVOUS_TIMEOUT_SECONDS * SECOND <= clock (wait_rendezvous spec w).2 \/ unanswered es)
     end.
Proof.
  unfold wait_rendezvous. destruct (negb (ls_rank spec =? 0) || negb (multi_node spec) || (ls_dist_port spec =? 0)) eqn:Ew.
  - exists []. cbn. rewrite app_nil_r. split_and!; [done|lia|by apply Forall_nil|]. left. split; [|done].
    destruct (Z.eqb_spec (ls_rank spec) 0), (multi_node spec), (Z.eqb_spec (ls_dist_port spec) 0); cbn in Ew; auto; discriminate Ew.
  - destruct (poll_ends 90 spec (clock w + RENDEZVOUS_TIMEOUT_SECONDS * SECOND) w) as (es & L & Hlen & HF & Hr).
    { unfold RENDEZVOUS_TIMEOUT_SECONDS, RENDEZVOUS_POLL_SECONDS, SECOND. lia. }
    exists es. split_and!; [exact L|done|done|].
    change ((moment <- now ;; poll POLLS spec (moment + RENDEZVOUS_TIMEOUT_SECONDS * SECOND)) w)
      with (poll 91 spec (clock w + RENDEZVOUS_TIMEOUT_SECONDS * SECOND) w).
    destruct (poll 91 spec (clock w + RENDEZVOUS_TIMEOUT_SECONDS * SECOND) w) as [[e|[]] w']; cbn [fst snd] in *; [done|by right].
Qed.

(** *** The contract of a driver *)
Definition there w : gset string := containers (w_hosts w).

(** What leaves the containers of a machine as they are. *)
Definition leaves (c : script) : bool := match c with RemoveStale _ | Remove _ | RunContainer _ _ => false | _ => true end.

Lemma ssh_there machine c timeout w : leaves c = true -> there (_ssh machine c timeout w).2 = there w.
Proof.
  intros Hc. unfold _ssh, there. pose proof (ssh_containers machine c timeout (w_hosts w)) as H.
  destruct (run_ssh machine c timeout (w_hosts w)) as [[p|] s]; by destruct c.
Qed.
Lemma ssh_removes machine c n timeout w : c = RemoveStale n \/ c = Remove n ->
  there w ∖ {[ n ]} ⊆ there (_ssh machine c timeout w).2 ⊆ there w.
Proof.
  intros Hc. unfold _ssh, there. pose proof (ssh_containers machine c timeout (w_hosts w)) as H.
  destruct (run_ssh machine c timeout (w_hosts w)) as [[p|] s]; by destruct Hc; subst c.
Qed.

Section same.
Context (X : gset string).
Definition still w : Prop := there w = X.
Lemma ssh_still machine c timeout : leaves c = true -> keeps still (_ssh machine c timeout).
Proof.
  intros Hc w Hw. pose proof (ssh_there machine c timeout w Hc) as H. unfold still in *.
  destruct (_ssh machine c timeout w) as [[e|p] w']; cbn in H; congruence.
Qed.
Lemma endpoint_still url : keeps still (_endpoint_ready url).
Proof.
  intros w Hw. unfold _endpoint_ready, still, there in *. pose proof (models_containers url (w_hosts w)) as H.
  destruct (get_models url (w_hosts w)) as [b s]. cbn in *. congruence.
Qed.
Lemma pause_still n : keeps still (pause n).
Proof. intros w Hw. unfold still, there in *. cbn. by rewrite sleep_containers. Qed.
#[local] Hint Extern 2 (keeps still (_ssh _ _ _)) => apply ssh_still; reflexivity : effects.
#[local] Hint Resolve endpoint_still pause_still : effects.

Lemma port_check_still machine port : keeps still (_check_port_free machine port).
Proof. unfold _check_port_free. keeps_walk. Qed.
Lemma node_state_still h : keeps still (_node_state h).
Proof. unfold _node_state, _container_state. keeps_walk. Qed.
#[local] Hint Resolve port_check_still node_state_still : effects.
Lemma state_still h : keeps still (state h).
Proof. unfold state. keeps_walk. Qed.
#[local] Hint Resolve state_still : effects.
Lemma attach_still spec : keeps still (attach spec).
Proof. unfold attach. keeps_walk. Qed.
Lemma gpus_still machine indices : keeps still (gpus_in_use machine indices).
Proof. unfold gpus_in_use. keeps_walk. Qed.
Lemma dump_still machine name : keeps still (_dump_remote_logs machine name).
Proof. unfold _dump_remote_logs. keeps_walk. Qed.
Lemma image_still machine image : keeps still (ensure_image minutes machine image).
Proof. unfold ensure_image. keeps_walk. Qed.
Lemma wait_still spec : keeps still (wait_rendezvous spec).
Proof.
  unfold wait_rendezvous, now. keeps_walk. generalize POLLS. intros fuel.
  induction fuel as [|fuel IH]; cbn [poll]; unfold now, _port_listening; keeps_walk.
Qed.
Lemma stale_still machine name : name ∉ X -> keeps still (_ssh machine (RemoveStale name) 60).
Proof.
  intros HX w Hw. pose proof (ssh_removes machine (RemoveStale name) name 60 w (or_introl eq_refl)) as H. unfold still in *.
  destruct (_ssh machine (RemoveStale name) 60 w) as [[e|p] w']; cbn in H; set_solver.
Qed.
End same.
#[local] Hint Resolve port_check_still attach_still gpus_still dump_still image_still : effects.

Lemma run_there machine directory command n timeout w : named command = n ->
  match _ssh machine (RunContainer directory command) timeout w with
  | (inr p, w') => there w ⊆ there w' ⊆ {[ n ]} ∪ there w /\ (returncode p = 0 -> n ∈ there w')
  | (inl _, w') => there w ⊆ there w' ⊆ {[ n ]} ∪ there w
  end.
Proof.
  intros <-. unfold _ssh, there. pose proof (ssh_containers machine (RunContainer directory command) timeout (w_hosts w)) as H.
  destruct (run_ssh machine (RunContainer directory command) timeout (w_hosts w)) as [[p|] s]; cbn [w_hosts]; destruct H as [H1 H2]; [|done].
  split; [done|]. by apply H2.
Qed.

(** What is done before the container is started leaves the others be. *)
Definition clearing spec : M (wire S) unit :=
  let machine := ls_machine spec in
  _check_port_free machine (ls_port spec) ;;;
  found <- attach spec ;;
  when (bool_decide (found = None)) do_
    (busy <- gpus_in_use machine (ls_gpu_indices spec) ;;
     when (negb (bool_decide (busy = []))) do_
       raise (RuntimeError ("gpu busy on " +:+ mi_host machine +:+ ": cards [" +:+ comma_join (map pretty busy)
                            +:+ "] still hold memory (a previous container has not finished releasing them)"))) ;;;
  _dump_remote_logs machine (container_name spec) ;;;
  _ssh machine (RemoveStale (container_name spec)) 60 ;;;
  ensure_image minutes machine (ls_image spec).
Definition starting spec : M (wire S) (DeploymentHandle * string) :=
  docker_cmd <- lift (render_docker_command docker_gpu_mode spec) ;;
  result <- _ssh (ls_machine spec) (RunContainer (Some (cache_dir spec)) docker_cmd) 180 ;;
  if negb (returncode result =? 0) then
    raise (RuntimeError ("docker run failed on " +:+ mi_host (ls_machine spec) +:+ ": " +:+ of_chars (take 2000 (chars (strip (stderr result))))))
  else ret (handle_of spec, _q docker_cmd).

Lemma bind_bind {A B C} (m : M (wire S) A) (f : A -> M (wire S) B) (g : B -> M (wire S) C) w :
  bind (bind m f) g w = bind m (fun a => bind (f a) g) w.
Proof. unfold bind. by destruct (m w) as [[e|a] w1]. Qed.
Lemma bind_ext {A B} (m : M (wire S) A) (f g : A -> M (wire S) B) w : (forall a w', f a w' = g a w') -> bind m f w = bind m g w.
Proof. intros Hfg. unfold bind. by destruct (m w) as [[e|a] w1]. Qed.

Lemma launch_parts spec w : launch docker_gpu_mode minutes spec w = (clearing spec ;;; starting spec) w.
Proof.
  symmetry. unfold clearing, launch. repeat (rewrite bind_bind; apply bind_ext; intros ? ?). done.
Qed.

Lemma clearing_still spec X : container_name spec ∉ X -> keeps (still X) (clearing spec).
Proof. intros HX. unfold clearing. keeps_walk. by apply stale_still. Qed.

Lemma launch_there spec w : container_name spec ∉ there w ->
  match launch docker_gpu_mode minutes spec w with
  | (inr (h, _), w') => h = handle_of spec /\ there w' = {[ container_name spec ]} ∪ there w
  | (inl _, w') => there w ⊆ there w' ⊆ {[ container_name spec ]} ∪ there w
  end.
Proof.
  intros Hfree. rewrite launch_parts. unfold bind. cbv beta. pose proof (clearing_still spec (there w) Hfree w eq_refl) as Hc.
  destruct (clearing spec w) as [[e|[]] w1]; unfold still in Hc; [rewrite Hc; set_solver|]. rewrite <- Hc.
  unfold starting, bind, lift. cbv beta. destruct (render_docker_command docker_gpu_mode spec) as [e|cmd] eqn:Er; [set_solver|].
  pose proof (run_there (ls_machine spec) (Some (cache_dir spec)) cmd _ 180 w1 (named_launch docker_gpu_mode spec cmd Er)) as Hr.
  destruct (_ssh (ls_machine spec) (RunContainer (Some (cache_dir spec)) cmd) 180 w1) as [[e|p] w2]; [done|].
  destruct Hr as [Hr Hin]. destruct (Z.eqb_spec (returncode p) 0) as [H0|]; [|done]. split; [done|].
  specialize (Hin H0). set_solver.
Qed.

Lemma teardown_one_there h w : there w ∖ {[ h_container_name h ]} ⊆ there (_teardown_one h w).2 ⊆ there w.
Proof.
  unfold _teardown_one, bind, ret. cbv beta. pose proof (dump_still (there w) (h_machine h) (h_container_name h) w eq_refl) as Hd.
  destruct (_dump_remote_logs (h_machine h) (h_container_name h) w) as [[e|[]] w1]; unfold still in Hd; cbn [snd]; [rewrite Hd; split; [by apply subseteq_difference_l|done]|].
  pose proof (ssh_removes (h_machine h) (Remove (h_container_name h)) (h_container_name h) 120 w1 (or_intror eq_refl)) as Hr.
  rewrite Hd in Hr. by destruct (_ssh (h_machine h) (Remove (h_container_name h)) 120 w1) as [[e|p] w2].
Qed.
Lemma teardown_single h w : single h -> (teardown h w).2 = (_teardown_one h w).2.
Proof.
  intros [_ Hn]. unfold teardown, all_handles. rewrite Hn. cbn. unfold bind. by destruct (_teardown_one h w) as [[e|[]] w1].
Qed.

(** The driver keeps the contract every substrate is used by: what
    [Substrate.gang_starts_whole_or_not_at_all] says holds of it. *)
Definition docker_laws : @DriverLaws (wire S) (docker_driver docker_gpu_mode minutes).
Proof.
  refine (@Build_DriverLaws (wire S) (docker_driver docker_gpu_mode minutes) there _ _ _).
  - intros spec w Hfree. pose proof (launch_there spec w Hfree) as Hl. cbn.
    destruct (launch docker_gpu_mode minutes spec w) as [[e|[h command]] w']; [done|]. by destruct Hl as [-> Hl].
  - intros h w Hh. change (there w ∖ {[ h_container_name h ]} ⊆ there (teardown h w).2 ⊆ there w).
    rewrite teardown_single by done. apply teardown_one_there.
  - intros spec w. change (there (wait_rendezvous spec w).2 = there w). pose proof (wait_still (there w) spec w eq_refl) as Hk.
    by destruct (wait_rendezvous spec w) as [[e|[]] w'].
Defined.
End promises.

(** ** What is made of the answers

    While the machines answer the same, whoever asks when: [status] of a
    container, [up] of an endpoint. *)
Section answers.
Context {S : Type} `{!Hosts S} (status : MachineInfo -> string -> CompletedProcess) (up : string -> bool).
Hypothesis Hstatus : forall machine name timeout s, (run_ssh machine (InspectStatus name) timeout s).1 = Some (status machine name).
Hypothesis Hup : forall url s, (get_models url s).1 = up url.
Implicit Types (w : wire S) (h : DeploymentHandle).

(** Docker's word on a node: it is not there, it is running, or neither. *)
Definition absent h : bool := negb (returncode (status (h_machine h) (h_container_name h)) =? 0).
Definition running h : bool :=
  negb (absent h) && String.eqb (strip (stdout (status (h_machine h) (h_container_name h)))) "running".
Definition node_view h : DeploymentState :=
  if absent h then Gone else if negb (running h) then Substrate.Crashed
  else if (h_rank h =? 0) && up (h_endpoint_url h) then Ready else Starting.

Lemma ssh_status h w : exists w', _ssh (h_machine h) (InspectStatus (h_container_name h)) 60 w
                                  = (inr (status (h_machine h) (h_container_name h)), w').
Proof.
  unfold _ssh. pose proof (Hstatus (h_machine h) (h_container_name h) 60 (w_hosts w)) as H.
  destruct (run_ssh _ _ _ (w_hosts w)) as [a s]. cbn in H. subst a. by eexists.
Qed.
Lemma container_view h w : exists w', _container_state h w
  = (inr (if absent h then Gone else if running h then Starting else Substrate.Crashed), w').
Proof.
  destruct (ssh_status h w) as [w' E]. exists w'. unfold _container_state, bind. rewrite E. unfold ret, running, absent.
  by destruct (_ =? 0).
Qed.
Lemma node_state_view h w : exists w', _node_state h w = (inr (node_view h), w').
Proof.
  destruct (container_view h w) as [w1 E]. unfold _node_state, bind. rewrite E. unfold node_view.
  destruct (absent h) eqn:Ea; [by eexists|]. destruct (running h); cbn [negb]; [|by eexists]. rewrite bool_decide_true by done. cbn [negb].
  destruct (h_rank h =? 0); [|by eexists]. unfold _endpoint_ready, bind. cbv beta. pose proof (Hup (h_endpoint_url h) (w_hosts w1)) as H.
  destruct (get_models _ _) as [a s]. cbn in H. subst a. cbn. by destruct (up _); eexists.
Qed.
Lemma node_views l out w : exists w', for_acc l out (fun node out => s <- _node_state node ;; ret (out ++ [s])) w
                                      = (inr (out ++ map node_view l), w').
Proof.
  revert out w. induction l as [|node l IH]; intros out w; cbn [for_acc map]; [exists w; by rewrite app_nil_r|].
  rewrite bind_bind. destruct (node_state_view node w) as [w1 E1]. rewrite (bind_said _ _ _ _ _ E1).
  destruct (IH (out ++ [node_view node]) w1) as [w2 E]. exists w2.
  rewrite (bind_said (ret (out ++ [node_view node])) _ w1 _ w1 eq_refl). by rewrite E, <- app_assoc.
Qed.

(** A deployment is crashed as soon as one of its workers is not running,
    and otherwise is what its master is: ready when it is running and answers.
    It is gone for good only when docker knows none of its containers. *)
Theorem gang_state_is_its_nodes h w :
  (exists w', state h w = (inr (if existsb (fun node => negb (running node)) (h_node_handles h) then Substrate.Crashed else node_view h), w'))
  /\ (exists w', is_gone h w = (inr (forallb absent (all_handles h)), w')).
Proof.
  assert (forall node, dead (node_view node) = negb (running node)) as Hdead.
  { intros node. unfold node_view, running. destruct (absent node); [done|]. cbn [negb andb].
    destruct (String.eqb _ _); [|done]. cbn. by destruct (_ && _). }
  split.
  - unfold state. destruct (h_node_handles h) as [|node nodes] eqn:En; [cbn; apply node_state_view|].
    rewrite <- En. destruct (node_views (h_node_handles h) [] w) as [w1 E1]. rewrite (bind_said _ _ _ _ _ E1). cbn [app].
    assert (existsb dead (map node_view (h_node_handles h)) = existsb (fun n => negb (running n)) (h_node_handles h)) as ->.
    { generalize (h_node_handles h). intros l. induction l as [|x l IH]; [done|]. cbn [map existsb]. by rewrite Hdead, IH. }
    destruct (existsb _ _); [by eexists|apply node_state_view].
  - unfold is_gone.
    assert (forall l w, exists w', for_first l (fun node => s <- _node_state node ;;
              ret (if bool_decide (s = Gone) then None else Some tt)) w = (inr (if forallb absent l then None else Some tt), w')) as Hl.
    { clear w. intros l. induction l as [|node l IH]; intros w; cbn [for_first forallb]; [by exists w|].
      rewrite bind_bind. destruct (node_state_view node w) as [w1 E1]. rewrite (bind_said _ _ _ _ _ E1).
      assert (bool_decide (node_view node = Gone) = absent node) as ->.
      { unfold node_view. destruct (absent node); [done|]. destruct (running node); [|done]. cbn [negb]. by destruct (_ && _). }
      rewrite (bind_said (ret _) _ w1 _ w1 eq_refl). destruct (absent node); cbn [andb]; [apply IH|by eexists]. }
    destruct (Hl (all_handles h) w) as [w1 E1]. rewrite (bind_said _ _ _ _ _ E1). exists w1. unfold ret. by destruct (forallb _ _).
Qed.
End answers.

(** ** A machine to run it on

    Its containers by name, with what [docker inspect] says of each: the status,
    and the exit code with whether it was killed for memory.  Docker says 0 of
    one that is running.  [rk_down]: ssh cannot reach it, and exits with 255. *)
Record rack := mkRack {
  rk_clock : Z;
  rk_boxes : gmap string (string * string);
  rk_cards : string;
  rk_opens : Z;
  rk_down : bool;
  rk_slow : bool;
}.
#[export] Instance rack_eta : Eta _ := fun r =>
  mkRack (rk_clock r) (rk_boxes r) (rk_cards r) (rk_opens r) (rk_down r) (rk_slow r).

Definition said (out : string) : option CompletedProcess := Some (mkProcess 0 out "").
Definition failed (code : Z) : option CompletedProcess := Some (mkProcess code "" "").
Definition inspected (field : string * string -> string) (name : string) (r : rack) : option CompletedProcess :=
  match rk_boxes r !! name with Some box => said (field box) | None => failed 1 end.

Definition rack_ssh (machine : MachineInfo) (c : script) (timeout : Z) (r : rack) : option CompletedProcess * rack :=
  if rk_down r then (failed 255, r)
  else match c with
  | PortListener _ => (said "", r)
  | KubeProxy => (failed 1, r)
  | PortOpen _ => (failed (if rk_clock r <? rk_opens r then 1 else 0), r)
  | InspectStatus name => (inspected fst name r, r)
  | InspectExit name => (inspected snd name r, r)
  | LogsTail _ _ => (said "", r)
  | CardMemory => (said (rk_cards r), r)
  | PathExists _ => (said "present", r)
  | DumpLogs _ => (if rk_slow r then None else said "", r)
  | RemoveStale name | Remove name => (said "", (r <| rk_boxes ::= delete name |>))
  | Terminate name => (said "", (r <| rk_boxes ::= alter (fun _ => ("exited", "143 false")) name |>))
  | EnsureImage _ => (said "present", r)
  | AbandonPull _ => (said "", r)
  | RunContainer _ command => (said "id", (r <| rk_boxes ::= <[ named command := ("running", "0 false") ]> |>))
  end.
#[export] Instance rack_hosts : Hosts rack := {|
  run_ssh := rack_ssh;
  get_models url r := (false, r);
  monotonic := rk_clock;
  sleep n r := r <| rk_clock ::= Z.add (Z.max n 0) |>;
|}.
#[export] Instance rack_laws : HostLaws rack.
Proof.
  refine {| containers r := dom (rk_boxes r) |}.
  - intros machine c timeout r. unfold run_ssh, rack_hosts, rack_ssh. destruct (rk_down r).
    + destruct c; cbn; try done; try (split; [by apply subseteq_difference_l|done]). split; [set_solver|].
      by intros p [= <-].
    + destruct c; cbn; try done.
      * rewrite dom_delete_L. split; [done|by apply subseteq_difference_l].
      * rewrite dom_delete_L. split; [done|by apply subseteq_difference_l].
      * apply dom_alter_L.
      * rewrite dom_insert_L. split; [set_solver|]. intros _ _ _. set_solver.
  - done.
  - done.
  - intros machine c timeout r. unfold run_ssh, rack_hosts, rack_ssh. destruct (rk_down r); [done|]. by destruct c.
  - intros n r Hn. cbn. lia.
Defined.

Module Rack.
Definition machine : MachineInfo := mkMachineInfo "node-1" "10.0.0.1" "root" 22 8 "" "" "ssh_docker" None "".
Definition other : MachineInfo := machine <| mi_name := "node-2" |> <| mi_host := "10.0.0.2" |>.
Definition quiet : rack := mkRack 0 ∅ ("0, 3" +:+ String newline "1, 1023" +:+ String newline "2, 81000") 0 false false.
Definition at_rest (r : rack) : wire rack := mkWire r [].
Definition spec (engine : string) (cards : list Z) : LaunchSpec :=
  mkLaunchSpec 12 machine engine "repo/engine:1" "/data/m" "m" [("context_length", Sc (VInt 4096))] cards 28200
    [("A", "1")] [("/nvme", "/scratch")] [] [] 0 1 "" 0 "".
Definition gang : LaunchSpec :=
  (spec "sglang" [0; 1]) <| ls_nodes := [mkNodeAssignment other [0; 1] 1 "" ""; mkNodeAssignment machine [0; 1] 0 "" ""] |>
     <| ls_nnodes := 2 |> <| ls_dist_init_addr := "10.0.0.1:20000" |> <| ls_dist_port := 20000 |>.
Definition master : DeploymentHandle :=
  (handle_of gang) <| h_node_handles := [node_handle gang (mkNodeAssignment other [0; 1] 1 "" "")] |>.
(** Both nodes of a gang, as docker says they are. *)
Definition holding (master worker : string * string) : rack :=
  quiet <| rk_boxes := {[ "autotune-run-12" := master; "autotune-run-12-r1" := worker ]} |>.
Definition up : string * string := ("running", "0 false").
Definition killed : string * string := ("exited", "137 true").
#[global] Instance driver : Driver (wire rack) := docker_driver "all" 30.
#[global] Instance driver_laws : DriverLaws (wire rack) := docker_laws "all" 30.
End Rack.

Example a_gang_is_launched_and_taken_down :
  let '(r, w) := launch_nodes Rack.gang (Rack.at_rest (Rack.quiet <| rk_opens := 5000000 |>)) in
  (match r with inr (h, commands) => map h_container_name (all_handles h) = ["autotune-run-12"; "autotune-run-12-r1"] /\ length commands = 2%nat
              | inl _ => False end)
  /\ dom (rk_boxes (w_hosts w)) = {[ "autotune-run-12"; "autotune-run-12-r1" ]}
  /\ rk_clock (w_hosts w) = 6000000
  /\ rk_boxes (w_hosts (teardown Rack.master w).2) = ∅.
Proof. vm_compute. by split_and!. Qed.

Lemma launch_starts_once_after_asking_witness :
  let w := Rack.at_rest Rack.quiet in
  let r := launch "all" 30 (Rack.spec "sglang" [0; 1]) w in
  (match r.1 with inr _ => True | inl _ => False end)
  /\ (launch "all" 30 (Rack.spec "sglang" [0; 2]) w).1
     = inl (RuntimeError "gpu busy on 10.0.0.1: cards [2] still hold memory (a previous container has not finished releasing them)")
  /\ exists docker_cmd asked, render_docker_command "all" (Rack.spec "sglang" [0; 1]) = inr docker_cmd
       /\ Forall asking asked /\ grounds (Rack.spec "sglang" [0; 1]) asked.
Proof.
  cbv zeta. split; [by vm_compute|]. split; [by vm_compute|].
  destruct (launch "all" 30 (Rack.spec "sglang" [0; 1]) (Rack.at_rest Rack.quiet)) as [[e|[h command]] w'] eqn:E; [by vm_compute in E|].
  destruct (launch_starts_once_after_asking "all" 30 (Rack.spec "sglang" [0; 1]) h command (Rack.at_rest Rack.quiet) w')
    as (_ & docker_cmd & asked & d & r & image & p & H1 & _ & _ & _ & H2 & H3 & _); [by vm_compute; lia|exact E|].
  by exists docker_cmd, asked.
Defined.

(** A gang that is not answering, and one whose worker died. *)
Definition answer_of (boxes : gmap string string) (machine : MachineInfo) (name : string) : CompletedProcess :=
  match boxes !! name with Some st => mkProcess 0 st "" | None => mkProcess 1 "" "" end.
Record still_life := mkStill { sl_boxes : gmap string string; sl_up : list string }.
#[local] Instance still_hosts (boxes : gmap string string) (up : list string) : Hosts unit := {|
  run_ssh machine c timeout s :=
    (match c with InspectStatus name => Some (answer_of boxes machine name) | _ => None end, s);
  get_models url s := (bool_decide (url ∈ up), s);
  monotonic s := 0;
  sleep n s := s;
|}.
Lemma gang_state_is_its_nodes_witness :
  let boxes := {[ "autotune-run-12" := "running"; "autotune-run-12-r1" := "exited" ]} in
  let H := still_hosts boxes ["http://10.0.0.1:28200"] in
  (state Rack.master (mkWire tt [])).1 = inr Substrate.Crashed
  /\ (state (handle_of (Rack.spec "sglang" [])) (mkWire tt [])).1 = inr Ready
  /\ (exists w', is_gone Rack.master (mkWire tt [])
        = (inr (forallb (absent (answer_of boxes)) (all_handles Rack.master)), w')).
Proof.
  intros boxes H. split; [by vm_compute|]. split; [by vm_compute|].
  apply (gang_state_is_its_nodes (answer_of boxes) (fun url => bool_decide (url ∈ ["http://10.0.0.1:28200"])));
    [by intros machine name timeout []|by intros url []].
Defined.

(** ** Where the code goes further than what it says *)

(** A machine that ssh cannot reach has no container as far as the driver can
    tell: the run is not found again and is gone, while its container goes on
    holding its cards. *)
Lemma unreachable_machine_is_gone :
  let w := Rack.at_rest ((Rack.holding Rack.up Rack.up) <| rk_down := true |>) in
  (attach Rack.gang w).1 = inr None /\ (is_gone Rack.master w).1 = inr true
  /\ (teardown Rack.master w).1 = inr tt
  /\ rk_boxes (w_hosts (teardown Rack.master w).2) = rk_boxes (w_hosts w).
Proof. vm_compute. by split_and!. Qed.

(** A log that takes too long to dump keeps its container: the timeout is caught
    as an exception that [_ssh] never lets through, and nothing is removed. *)
Lemma slow_log_keeps_the_container :
  let w := Rack.at_rest ((Rack.holding Rack.up Rack.up) <| rk_slow := true |>) in
  (teardown Rack.master w).1 = inl (RuntimeError "ssh to 10.0.0.2 timed out after 120s")
  /\ rk_boxes (w_hosts (teardown Rack.master w).2) = rk_boxes (w_hosts w).
Proof. vm_compute. by split_and!. Qed.

(** The exit code of a running container is 0: a gang whose worker was killed for
    its memory is said to have ended well, while its master waits. *)
Lemma running_master_hides_the_exit :
  let w := Rack.at_rest (Rack.holding Rack.up Rack.killed) in
  (exit_info Rack.master w).1 = inr (Some 0, false)
  /\ (state Rack.master w).1 = inr Substrate.Crashed
  /\ (exit_info (Rack.master <| h_container_name := "autotune-run-12-r1" |>) w).1 = inr (Some 137, true).
Proof. vm_compute. by split_and!. Qed.

(** A run that is given every card is started whatever the cards hold. *)
Lemma all_cards_are_not_looked_at :
  (match (launch "all" 30 (Rack.spec "sglang" []) (Rack.at_rest Rack.quiet)).1 with inr _ => true | inl _ => false end) = true
  /\ busy_cards [0; 1; 2; 3; 4; 5; 6; 7] (lines_of (rk_cards Rack.quiet)) = inr [2].
Proof. by vm_compute. Qed.

(** What the driver prints is what a pasted command is read from: of sglang the
    model comes back; vllm's is its positional argument, and is lost, since the
    entry point stands before the image. *)
Definition pasted_back (engine : string) : option pasted :=
  match render_docker_command "all" (Rack.spec engine [0; 1]) with
  | inr command => Some (parse_launch engine command)
  | inl _ => None
  end.
Lemma printed_command_is_read_back :
  (pa_model_path <$> pasted_back "sglang") = Some "/data/m"
  /\ (pa_image <$> pasted_back "sglang") = Some "repo/engine:1"
  /\ (pa_engine_args <$> pasted_back "sglang") = Some [("context_length", Sc (VStr "4096"))]
  /\ (pa_model_path <$> pasted_back "vllm") = Some "".
Proof. by vm_compute. Qed.
